(* ===== verification/_CoqProject ===== *)
-Q . S2P
Prelude.v
CNum.v
LittleEndian.v
TsvFile.v
CFloat.v
KeyIndex.v
Pack.v
TmPack.v
Policy.v
ContextTypes.v
KvPlan.v
Planner.v
PlanGguf.v
PlannerProps.v
PlanGgufProps.v
SourceFormats.v
Shape.v
Context.v
ContextProps.v
GpuArena.v
GpuArenaProps.v
LayerState.v
LayerStateProps.v
ServerJson.v
ServerJsonProps.v
ServerStream.v
ServerStreamProps.v
ServerMsgs.v
Dsml.v
DsmlProps.v
DsmlRoundtrip.v
DsmlTrack.v
DsmlTrackProps.v
ToolMemory.v
ToolMemoryProps.v
Sha1.v
Sha1Props.v
KvFile.v
KvFileProps.v
KvToolMap.v
KvPolicy.v
KvPolicyProps.v
KvToolMapProps.v
Chat.v
ChatProps.v
OpenaiStream.v
OpenaiStreamProps.v
OpenaiClient.v
OpenaiMessage.v
StrTable.v
Tokenizer.v
TokenizerProps.v
Gguf.v
GgufProps.v
GgufWrite.v
ModelVocab.v
ModelVocabProps.v
GgufAgree.v
Weights.v
WeightsLayout.v
WeightsProps.v
MtpWeights.v
ModelConfig.v
ModelConfigProps.v
EngineLoad.v
EngineLoadProps.v
EngineFile.v
EngineExample.v
MtpSidecar.v
MtpSidecarProps.v
MtpViews.v
MtpOpen.v
Io.v
Session.v
SessionPayload.v
SessionPayloadProps.v
SessionRoundTrip.v
SessionGraph.v
Sampler.v
SamplerProps.v
