(* ===== verification/Prelude.v ===== *)
(** * DS4 on V100: verification of the host code

    DS4 runs DeepSeek V4 Flash on eight V100 GPUs.  Offline tools plan the
    placement of a GGUF model and write it as per-GPU shards described by a
    pack index; at start the runtime opens the index, plans KV caches, binds
    every tensor to a GPU and a layer and hands the layer states to the CUDA
    engine; an HTTP server parses requests, drives decoding and streams text.
    This library models the host-side C code that decides all of this.  The
    functions are executable and follow the C code statement by statement, in
    the order of its checks, with its error messages.

    ** Files and the code they model

    - Prelude.v: byte strings, record update, the error monads and generic
      lemmas on lists, 64-bit bounds and decisions; CNum.v: strtoull, strtoll,
      the decimal printing of printf and the field parsers of ds4_pack.c;
      CFloat.v: doubles as the Standard Library's binary64 numbers, strtod and
      the %f of printf; TsvFile.v: reading and splitting an index file.
    - KeyIndex.v: the class of tables searched by tensor id, and its laws; the
      pack index, the sidecar index and the context's binding tables are its
      instances.
    - Pack.v (ds4_pack.c): ds4_pack_open, the queries, ds4_pack_reconcile and
      ds4_pack_validate_shards.  TmPack.v (ds4_turbomind_pack.c): the same for
      the repacked experts, in Module TM.
    - Policy.v, ContextTypes.v, KvPlan.v, Shape.v, Context.v
      (engine/context.c and context.h): kernel policies of dtypes, the structs
      of the context, the KV arenas and the stage map, tensor shapes and
      sizes, and ds4_context_open with its lookups, budget and reports.
    - LayerState.v (engine/layer_state.c): ds4_layer_state_init and the matrix,
      view and arena-span functions over an opened context.
    - SourceFormats.v (ds4_source_formats.c): the scalar and block formats of
      the source tensors.
    - Planner.v and PlanGguf.v (tools/plan.c): the memory planner with its
      reports and options, the GGUF header reader and the inventory.
    - ServerJson.v, ServerStream.v (ds4_server.c): the JSON reader and writer,
      stop sequences and the streaming of text.
    - ServerMsgs.v, ToolMemory.v (ds4_server.c): tool calls, messages, the live
      tool states, and the memory of tool-call texts over an explicit heap,
      with the allocator as the class Malloc.
    - Sha1.v, KvFile.v, KvToolMap.v, KvPolicy.v (ds4_server.c): the hash, the
      files of the KV disk cache, the tool-id map they carry, and the cache's
      eviction, search and checkpoint schedule.
    - Dsml.v, DsmlProps.v, DsmlRoundtrip.v (ds4_server.c): the DSML text of tool
      calls, its renderer and parser, and that they are inverse.
    - Chat.v, ChatProps.v (ds4_server.c, ds4.c): requests, prompts, the live
      continuation of tool calls, and what finished turns are remembered by.
    - DsmlTrack.v, DsmlTrackProps.v (ds4_server.c): the tracker that says
      whether the next token is protocol or payload, and the safe lengths of a
      streamed value.
    - OpenaiStream.v, OpenaiStreamProps.v, OpenaiClient.v, OpenaiMessage.v
      (ds4_server.c): the live OpenAI chat stream as events, and what a client
      assembles from them.
    - StrTable.v, Tokenizer.v, TokenizerProps.v (ds4.c): the hash tables of the
      vocabulary, the pre-tokenizer, byte-pair encoding, special tokens and
      the text of tokens.
    - LittleEndian.v, Gguf.v, GgufProps.v, GgufWrite.v (ds4.c): the cursor over
      a mapped model file, its metadata and tensor directory, and files as
      they are written.
    - ModelVocab.v, ModelVocabProps.v (ds4.c): the vocabulary of a model file.
    - GgufAgree.v (ds4.c, tools/plan.c): the planner's reader and the library's
      on the same file.
    - Weights.v, WeightsLayout.v, WeightsProps.v, MtpWeights.v (ds4.c): the
      binding of the tensors of a model, or of a sidecar, to the fields of its
      weights and the layout checks.
    - ModelConfig.v, ModelConfigProps.v (ds4.c): the metadata checks.
    - EngineLoad.v, EngineLoadProps.v, EngineFile.v, EngineExample.v (ds4.c):
      loading a model file as the engine does, for any file and for complete
      ones.
    - GpuArena.v, GpuArenaProps.v (ds4_gpu_arena_stub.c): the arena of builds
      without a GPU and its row decoders, behind a class of operations.
    - MtpSidecar.v, MtpSidecarProps.v, MtpViews.v, MtpOpen.v (ds4.c,
      engine/mtp_sidecar.c): inspecting, loading and viewing an MTP sidecar.
    - Io.v (ds4.c): a monad for code that changes a state and may fail, rules
      for it, and the byte streams of payloads.
    - Session.v, SessionPayload.v (ds4.c): the state of a session that is
      saved, its sizes, saving, loading and snapshots, with device tensors as
      the class TensorOps and its laws.
    - SessionPayloadProps.v, SessionRoundTrip.v, SessionGraph.v: what is
      written, what is restored, and what a failed restore leaves.
    - Sampler.v, SamplerProps.v (ds4.c): the choice of the next token and the
      scores that are reported; expf, exp, log and qsort are parameters.

    The theorems about a component stand in its own file or in <File>Props.v.
    A struct is a Record with the fields of the declaration, an operation a
    Definition or Fixpoint named as in C; the loops of a function are
    definitions of their own.

    ** Conventions

    - Integers are Z within the range of their C type; wrap-around is written
      out (u64, u32) where the code can wrap, and saturation where it
      saturates.  A C string is the list of its bytes before the terminator,
      a null pointer an option; buffers read from files may hold NUL.
    - A function that reports through an error buffer returns [result], with
      the format and arguments of the message.  A tool that ends the process
      returns [Exit code message]; behaviour that C leaves undefined is a
      value of its own (a conversion out of range, an index behind an array,
      a division by zero), and the theorems show where it cannot occur.
    - The file system is the environment: a record says what the stdio calls
      on a path return.  Allocation may fail where the code checks for it: the
      allocator is a class argument.  Where the server's allocation helpers
      end the process, running out of memory is not modelled.
    - CUDA calls of the context (device count, properties, peer access) are
      arguments of the model.

    ** Fuel

    Loops over arrays are structural.  The loops of parsers take fuel, and the
    fuel that the top-level functions pass is derived from the input: a JSON
    reader needs at most three calls between two bytes of its text, the GGUF
    reader one turn per byte of the file, a stop list one turn per byte.
    Loops over linked entries take one turn per entry, the eviction loop too;
    the padding of SHA-1 ends within 65.
    json_skip_value_forward and parse_gguf_terminates show that this fuel
    never runs out, on any input.

    ** What the theorems show

    - Index files: an index that opens is well formed and is the one that its
      text renders; lookups find the first entry of a key; reconciliation and
      shard validation accept exactly what they should; arena sizes bound
      every shard.
    - Placement: the stage map partitions the layers, KV views are disjoint
      and tile the arenas, bound tensors lie inside their shard, lookups agree
      with the index, the memory budget holds, expected sizes are exact.
    - Layers: every field of a layer state is bound to the tensor it names,
      with expert matrices untruncated and arena spans inside the arena.
    - Formats: decoding equals the mathematical value of each format.
    - Planning: the plan of a GPU is the exact sum of its parts and agrees
      with the budget of the runtime, admission finds the largest slot count
      that fits, the reports never hit undefined behaviour; reading a GGUF
      file ends on every input, keeps tensors inside the file, and reads back
      what was written.
    - Server: JSON readers end on every text, escaped strings are read back,
      skipping accepts exactly 256 levels of nesting; streamed chunks are the
      text cut at the first stop and end between UTF-8 characters.
    - Tool memory: the linked heap implements a most-recent-first list within
      its budget, no session corrupts or leaks it, replay is exact.
    - KV disk cache: the hash is SHA-1, files are read back as written,
      eviction ends within the budget and spares what was just stored, the
      search is optimal, continued checkpoints follow the absolute frontiers.
    - DSML: calls written as text are parsed back and written again as the
      same bytes, under the conditions of [call_ok]; examples show what the
      escapes miss without them.
    - Prompts: remembered texts and live tails agree with what the next full
      prompt replays, the thinking detector with a search of the text.
    - Decoding tracker: its state does not depend on how the text is cut into
      updates, and agrees with the slow recognizer of the tests.
    - OpenAI stream: an update sends a prefix of the text but searches all of
      it; however the text arrives the client gets the same reasoning, content
      and calls, and they are what the parser of whole messages returns.
    - Tokenizer: the hash table implements a finite map, merging ends in a
      normal form, and the tokens of a text give the text back.
    - Model files: opening ends on every file and checks every value that is
      read later; a written file is read back, its tokenizer spells every
      text, and where the planner reads it (tensors of at most four
      dimensions) its inventory is the library's.
    - Weights: exactly the models that fill the layout table are bound, each
      field to the tensor of its name, of exact size and inside the file.
    - Loading: a file of any content ends the process with status 1 or gives a
      usable model; a complete file is loaded.
    - MTP sidecar: an opened sidecar is wholly resident with the bytes of its
      file, and its views are exactly the resident tensors.
    - Sessions: what is saved has the announced size and is restored whole,
      also into a larger ring; a failed restore leaves no checkpoint that
      claims to be valid over replaced caches.
    - Sampler: the token is a finite logit among the likeliest, its candidates
      and the reported scores are the first of one order, in which the lower
      index breaks ties, and the generator never gets stuck.

    ** Not modelled

    - GPU code (ds4_cuda.cu, ds4_metal.m, engine/*.cu, kernels/, appliance/):
      its correctness is floating-point accuracy and device concurrency.
    - Vendored code: rax.c (the trees of the tool memory are maps from byte
      strings to pointers), linenoise.c, kernels/turbomind.
    - Inference in ds4.c (the kernels of the CPU and of Metal, prefill and
      decoding, and [ds4_session_sync] and speculative decoding over them):
      floating-point work on tensors, which only the back ends define.
    - The rest of ds4_server.c (parsing of requests, HTTP): sockets, threads and JSON request
      readers of the same shape as the ones modelled.
    - ds4_cli.c, ds4_bench.c, ds4_eval.c, gguf-tools, tools/replay.c,
      tools/plan-tp.c, tools/pack.c and the tp-ep tools: command-line glue,
      offline conversion and estimates.
    - Timing, logging to stderr and the release of memory, unless a later
      operation can observe them. *)
From Stdlib Require Export ZArith Lia.
From Stdlib Require Export Strings.Byte Strings.String.
From Stdlib Require Floats.SpecFloat.
From stdpp Require Export base tactics list strings option numbers sets.
From stdpp Require countable.
Open Scope Z_scope.

(** ** Record update *)

(** A record type declares its constructor in point-free form
    ([rd_pure Build <*> f1 <*> ... <*> fn]); [r <| f := v |>] is then C's
    [r.f = v] on a copy of [r]. *)
Definition rd_pure {R A : Type} (a : A) : R -> A := fun _ => a.
Definition rd_ap {R A B : Type} (f : R -> A -> B) (x : R -> A) : R -> B :=
  fun r => f r (x r).

Class Fields (R : Type) := rec_fields : R -> R.
Class FieldSetter {R A : Type} (p : R -> A) := set_field : (A -> A) -> R -> R.
Arguments set_field {R A} p {_} _ _.

Declare Scope ds4_scope.
Delimit Scope ds4_scope with ds4.
Notation "f <*> x" := (rd_ap f x) (at level 61, left associativity) : ds4_scope.
Notation "r <| p ::= f |>" := (set_field p f r)
  (at level 1, p at next level, left associativity) : ds4_scope.
Notation "r <| p := v |>" := (set_field p (fun _ => v) r)
  (at level 1, p at next level, left associativity) : ds4_scope.
Open Scope ds4_scope.

Ltac solve_setter :=
  match goal with
  | |- @FieldSetter ?R ?A ?p =>
      let f := fresh "f" in
      refine (fun f : A -> A => _);
      let i := constr:(_ : Fields R) in
      let e := eval red in i in
      lazymatch e with
      | context c [p] =>
          let e' := context c [fun r : R => f (p r)] in
          let e'' := eval cbv [rd_ap rd_pure] in e' in
          exact e''
      end
  end.
#[export] Hint Extern 1 (FieldSetter _) => solve_setter : typeclass_instances.

(** ** Bytes and C strings *)

(** A C string value is the list of its bytes before the terminator; a buffer
    read from a file is a list of bytes that may hold NUL. *)
Abbreviation bytes := (list byte).

Definition bz (b : byte) : Z := Z.of_N (Byte.to_N b).

Definition zb (z : Z) : byte :=
  match Byte.of_N (Z.to_N (z mod 256)) with Some b => b | None => x00 end.

(** String literals. *)
Definition B (s : string) : bytes := list_byte_of_string s.

Definition LF : byte := x0a.
Definition CR : byte := x0d.
Definition TAB : byte := x09.
Definition NUL : byte := x00.

#[export] Instance byte_eq_decision : EqDecision byte := Byte.byte_eq_dec.
#[export] Instance byte_countable : countable.Countable byte := countable.inj_countable Byte.to_N Byte.of_N Byte.of_to_N.

(** [strcmp(a, b) == 0]. *)
Fixpoint str_eqb (a b : bytes) : bool :=
  match a, b with
  | [], [] => true
  | x :: a', y :: b' => Byte.eqb x y && str_eqb a' b'
  | _, _ => false
  end.

(** [strncmp(s, p, strlen(p)) == 0]. *)
Fixpoint str_prefixb (p s : bytes) : bool :=
  match p, s with
  | [], _ => true
  | x :: p', y :: s' => Byte.eqb x y && str_prefixb p' s'
  | _, [] => false
  end.

(** [strstr(s, needle) != NULL]. *)
Fixpoint str_strstr (s needle : bytes) : bool :=
  str_prefixb needle s ||
  match s with [] => false | _ :: s' => str_strstr s' needle end.

(** [strchr(s, c) != NULL] for a nonzero [c]; also [memchr] over a buffer. *)
Fixpoint str_hasc (s : bytes) (c : byte) : bool :=
  match s with [] => false | x :: s' => Byte.eqb x c || str_hasc s' c end.

(** The C string that starts at the head of a buffer. *)
Fixpoint c_str (buf : bytes) : bytes :=
  match buf with
  | [] => []
  | b :: buf' => if Byte.eqb b NUL then [] else b :: c_str buf'
  end.

(** The pieces of a buffer between the occurrences of [c]; never empty. *)
Fixpoint split_on (c : byte) (buf : bytes) : list bytes :=
  match buf with
  | [] => [[]]
  | b :: buf' =>
      if Byte.eqb b c then [] :: split_on c buf'
      else match split_on c buf' with
           | [] => [[b]]
           | p :: ps => (b :: p) :: ps
           end
  end.

Fixpoint join_with (sep : byte) (l : list bytes) : bytes :=
  match l with
  | [] => []
  | [x] => x
  | x :: l' => x ++ sep :: join_with sep l'
  end.

(** [ctype.h] in the C locale. *)
Definition byte_isdigit (b : byte) : bool := (48 <=? bz b) && (bz b <=? 57).
Definition byte_isspace (b : byte) : bool :=
  (bz b =? 32) || ((9 <=? bz b) && (bz b <=? 13)).
Definition byte_tolower (b : byte) : byte :=
  if (65 <=? bz b) && (bz b <=? 90) then zb (bz b + 32) else b.

(** ** Machine integers (LP64) *)

Definition UINT64_MAX : Z := 2 ^ 64 - 1.
Definition INT64_MAX : Z := 2 ^ 63 - 1.
Definition INT64_MIN : Z := - 2 ^ 63.
Definition UINT32_MAX : Z := 2 ^ 32 - 1.
Definition INT_MAX : Z := 2 ^ 31 - 1.
Definition INT_MIN : Z := - 2 ^ 31.
Definition SIZE_MAX : Z := UINT64_MAX.

(** Conversion to an unsigned type: the wrap-around of C. *)
Definition u64 (z : Z) : Z := z mod 2 ^ 64.
Definition u32 (z : Z) : Z := z mod 2 ^ 32.

(** Conversion to [int], which wraps. *)
Definition to_int (z : Z) : Z := (z + 2 ^ 31) mod 2 ^ 32 - 2 ^ 31.

Definition is_u64 (z : Z) : Prop := 0 <= z <= UINT64_MAX.
Definition is_u32 (z : Z) : Prop := 0 <= z <= UINT32_MAX.
Definition is_int (z : Z) : Prop := INT_MIN <= z <= INT_MAX.
Definition is_i64 (z : Z) : Prop := INT64_MIN <= z <= INT64_MAX.

(** ** Errors *)

(** An argument of a diagnostic's format, and the diagnostic itself: the
    format string of the failing call and its arguments, before
    [vsnprintf] renders them into the caller's buffer. *)
Inductive farg := AZ (z : Z) | AS (s : bytes) | AF (d : SpecFloat.spec_float).
Record diag := Diag { d_fmt : string; d_args : list farg }.

Abbreviation fail fmt args := (Error (Diag fmt args)) (only parsing).
Abbreviation res A := (result A diag).

Notation "x <- e ;; k" :=
  (match e with Ok x => k | Error d => Error d end)
  (at level 100, e at next level, right associativity) : ds4_scope.
Notation "'let*' p := e 'in' k" :=
  (match e with Ok p => k | Error d => Error d end)
  (at level 100, p strict pattern, e at level 200, k at level 200, right associativity) : ds4_scope.
Notation "e ;; k" :=
  (match e with Ok _ => k | Error d => Error d end)
  (at level 100, k at level 200, right associativity) : ds4_scope.

Definition is_ok {A E} (r : result A E) : bool :=
  match r with Ok _ => true | Error _ => false end.

(** How a program may end without returning: [exit] after a message, or an
    operation whose behaviour C leaves undefined.  [OutOfFuel] belongs to the
    model alone: a bounded loop that was given too few turns. *)
Inductive stop := Exit (code : Z) (msg : diag) | Undefined (what : string) | OutOfFuel.

(** The outcome of code that may end the process. *)
Abbreviation pres A := (result A stop).

(** The allocator of the C library: whether a request of that many bytes is
    granted. *)
Class Allocator := malloc_ok : Z -> bool.

(** An allocator that never refuses, for concrete runs. *)
Definition unlimited : Allocator := fun _ => true.

(** Whether [calloc(n, size)] succeeds. *)
Definition calloc_ok `{Allocator} (n size : Z) : bool := (n * size <=? SIZE_MAX) && malloc_ok (n * size).

(** Left fold that stops at the first error: a [for] loop whose body may
    return from the function. *)
Fixpoint rfold {A S E : Type} (f : S -> A -> result S E) (s : S) (l : list A) : result S E :=
  match l with
  | [] => Ok s
  | a :: l' => match f s a with Ok s' => rfold f s' l' | Error e => Error e end
  end.

(** The results of a function on a list, or the first error. *)
Fixpoint mapM_res {A C E} (f : A -> result C E) (l : list A) : result (list C) E :=
  match l with
  | [] => Ok []
  | a :: l' => c <- f a ;; cs <- mapM_res f l' ;; Ok (c :: cs)
  end.

(** The first element that satisfies a test, with its index from [i]. *)
Fixpoint find_index {A : Type} (p : A -> bool) (l : list A) (i : Z) : option (Z * A) :=
  match l with
  | [] => None
  | a :: l' => if p a then Some (i, a) else find_index p l' (i + 1)
  end.

Definition sumZ {A : Type} (f : A -> Z) (l : list A) : Z :=
  foldr (fun a s => f a + s) 0 l.

(** ** Tactics *)

(** Turn the boolean tests of the code's conditions into propositions. *)
Ltac bool_hyps :=
  repeat match goal with
  | H : _ || _ = false |- _ => apply orb_false_iff in H as [? ?]
  | H : _ && _ = true |- _ => apply andb_true_iff in H as [? ?]
  | H : negb _ = true |- _ => apply negb_true_iff in H
  | H : negb _ = false |- _ => apply negb_false_iff in H
  | H : (_ <? _) = true |- _ => apply Z.ltb_lt in H
  | H : (_ <? _) = false |- _ => apply Z.ltb_ge in H
  | H : (_ <=? _) = true |- _ => apply Z.leb_le in H
  | H : (_ <=? _) = false |- _ => apply Z.leb_gt in H
  | H : (_ =? _) = true |- _ => apply Z.eqb_eq in H
  | H : (_ =? _) = false |- _ => apply Z.eqb_neq in H
  end.

(** Walk through the guards of a call that succeeded: every [if] and [match]
    on the way to [Ok] is decided, the branches that fail are closed. *)
Ltac ok_step H :=
  match type of H with
  | context [match ?x with _ => _ end] =>
      lazymatch x with
      | context [match _ with _ => _ end] => fail 1
      | _ => let E := fresh "E" in destruct x eqn:E; try discriminate H
      end
  end.
Ltac inv_ok H := repeat ok_step H; simplify_eq.

Ltac unfold_ranges :=
  unfold is_u64, is_u32, is_int, is_i64, UINT64_MAX, UINT32_MAX, INT64_MAX,
    INT64_MIN, INT_MAX, INT_MIN, SIZE_MAX in *.
Ltac zlia := unfold_ranges; lia.

(** ** Bytes *)

Lemma bz_range (b : byte) : 0 <= bz b < 256.
Proof.
  unfold bz. pose proof (Byte.to_N_bounded b). lia.
Qed.

Lemma zb_bz (b : byte) : zb (bz b) = b.
Proof. destruct b; reflexivity. Qed.

Lemma bz_inj (a b : byte) : bz a = bz b -> a = b.
Proof. intros H. rewrite <- (zb_bz a), <- (zb_bz b). by rewrite H. Qed.

Lemma bz_zb (z : Z) : 0 <= z < 256 -> bz (zb z) = z.
Proof.
  intros Hz. unfold zb. rewrite Z.mod_small by done.
  destruct (Byte.of_N (Z.to_N z)) as [b|] eqn:E.
  - apply Byte.to_of_N in E. unfold bz. rewrite E. lia.
  - apply Byte.of_N_None_iff in E. lia.
Qed.

Lemma beqb_eq (a b : byte) : Byte.eqb a b = true <-> a = b.
Proof. split; [apply Byte.byte_dec_bl | apply Byte.byte_dec_lb]. Qed.

Lemma beqb_refl (a : byte) : Byte.eqb a a = true.
Proof. by apply beqb_eq. Qed.

Lemma beqb_neq (a b : byte) : Byte.eqb a b = false <-> a <> b.
Proof. rewrite <- not_true_iff_false, beqb_eq. done. Qed.

Lemma beqb_spec (a b : byte) : Bool.reflect (a = b) (Byte.eqb a b).
Proof. apply Bool.iff_reflect. by rewrite beqb_eq. Qed.

Lemma str_eqb_eq (a b : bytes) : str_eqb a b = true <-> a = b.
Proof.
  revert b. induction a as [|x a IH]; intros [|y b]; simpl; try done.
  rewrite andb_true_iff, beqb_eq, IH. naive_solver.
Qed.

Lemma str_eqb_refl (a : bytes) : str_eqb a a = true.
Proof. by apply str_eqb_eq. Qed.

Lemma str_eqb_neq (a b : bytes) : str_eqb a b = false <-> a <> b.
Proof. rewrite <- not_true_iff_false, str_eqb_eq. done. Qed.

Lemma str_prefixb_spec (p s : bytes) :
  str_prefixb p s = true <-> exists t, s = p ++ t.
Proof.
  revert s. induction p as [|x p IH]; intros s; simpl.
  - split; eauto.
  - destruct s as [|y s]; [split; [done|intros [t ?]; done]|].
    rewrite andb_true_iff, beqb_eq, IH. split.
    + intros [-> [t ->]]. eauto.
    + intros [t [= -> ->]]. eauto.
Qed.

(** [strstr] decides the substring relation. *)
Lemma str_strstr_spec (s needle : bytes) :
  str_strstr s needle = true <-> exists a b, s = a ++ needle ++ b.
Proof.
  induction s as [|x s IH]; simpl; rewrite orb_true_iff, str_prefixb_spec.
  - split.
    + intros [[t Ht]|]; [|done]. exists [], t. done.
    + intros (a & b & H). left. destruct a; [eauto|done].
  - rewrite IH. split.
    + intros [[t ->]|(a & b & ->)]; [by exists [], t|by exists (x :: a), b].
    + intros ([|y a] & b & H); [left; eauto|right]. injection H as -> ->. eauto.
Qed.

Lemma str_hasc_spec (s : bytes) (c : byte) : str_hasc s c = true <-> c ∈ s.
Proof.
  induction s as [|x s IH]; simpl; [set_solver|].
  rewrite orb_true_iff, beqb_eq, IH, elem_of_cons. naive_solver.
Qed.

Lemma str_hasc_false (s : bytes) (c : byte) : str_hasc s c = false <-> c ∉ s.
Proof. rewrite <- not_true_iff_false, str_hasc_spec. done. Qed.

Lemma c_str_no_nul (buf : bytes) : NUL ∉ c_str buf.
Proof.
  induction buf as [|b buf IH]; simpl; [set_solver|].
  destruct (beqb_spec b NUL); [set_solver|]. set_solver.
Qed.

Lemma c_str_id (s : bytes) : NUL ∉ s -> c_str s = s.
Proof.
  induction s as [|b s IH]; simpl; [done|]. intros H.
  destruct (beqb_spec b NUL); [set_solver|]. rewrite IH; set_solver.
Qed.

Lemma c_str_incl (s : bytes) (c : byte) : c ∈ c_str s -> c ∈ s.
Proof.
  induction s as [|b s IH]; simpl; [done|].
  destruct (Byte.eqb b NUL); set_solver.
Qed.

(** ** Splitting and joining *)

Lemma split_on_nonempty (c : byte) (s : bytes) : split_on c s <> [].
Proof. destruct s; simpl; [done|]. by repeat case_match. Qed.

Lemma split_on_absent (c : byte) (s : bytes) : c ∉ s -> split_on c s = [s].
Proof.
  induction s as [|b s IH]; simpl; [done|]. intros H.
  destruct (beqb_spec b c); [set_solver|]. rewrite IH; set_solver.
Qed.

Lemma split_on_app (c : byte) (s t : bytes) :
  c ∉ s -> split_on c (s ++ c :: t) = s :: split_on c t.
Proof.
  induction s as [|b s IH]; simpl; intros H.
  - by rewrite beqb_refl.
  - destruct (beqb_spec b c); [set_solver|]. rewrite IH by set_solver. done.
Qed.

(** Joining pieces that do not hold the separator and splitting again gives
    the pieces back. *)
Lemma split_join (c : byte) (l : list bytes) :
  l <> [] -> Forall (fun s => c ∉ s) l -> split_on c (join_with c l) = l.
Proof.
  induction l as [|x [|y l] IH]; intros Hne Hall; [done| |].
  - apply Forall_cons in Hall as [Hx _]. by apply split_on_absent.
  - apply Forall_cons in Hall as [Hx Hall].
    change (split_on c (x ++ c :: join_with c (y :: l)) = x :: y :: l).
    rewrite split_on_app by done. by rewrite IH.
Qed.

Lemma split_on_pieces (c : byte) (s : bytes) : Forall (fun p => c ∉ p) (split_on c s).
Proof.
  induction s as [|b s IH]; simpl; [repeat constructor; set_solver|].
  destruct (beqb_spec b c).
  - constructor; [set_solver|done].
  - destruct (split_on c s) as [|p ps]; inversion IH; subst;
      repeat constructor; set_solver.
Qed.

Lemma split_on_incl (c : byte) (s p : bytes) (b : byte) :
  p ∈ split_on c s -> b ∈ p -> b ∈ s.
Proof.
  revert p. induction s as [|x s IH]; simpl; intros p Hp Hb.
  - apply list_elem_of_singleton in Hp as ->. done.
  - apply elem_of_cons. destruct (Byte.eqb x c).
    + apply elem_of_cons in Hp as [-> | Hp]; [by apply elem_of_nil in Hb|eauto].
    + destruct (split_on c s) as [|q qs].
      * apply list_elem_of_singleton in Hp as ->. left. by apply list_elem_of_singleton.
      * apply elem_of_cons in Hp as [-> | Hp]; [|right; eapply IH; [by right|done]].
        apply elem_of_cons in Hb as [-> | Hb]; [by left|right; eapply IH; [by left|done]].
Qed.

(** ** Machine integers *)

Lemma u64_range (z : Z) : is_u64 (u64 z).
Proof. unfold u64. pose proof (Z.mod_pos_bound z (2 ^ 64)). zlia. Qed.

Lemma u64_small (z : Z) : is_u64 z -> u64 z = z.
Proof. intros H. apply Z.mod_small. zlia. Qed.

Lemma u32_range (z : Z) : is_u32 (u32 z).
Proof. unfold u32. pose proof (Z.mod_pos_bound z (2 ^ 32)). zlia. Qed.

Lemma u32_small (z : Z) : is_u32 z -> u32 z = z.
Proof. intros H. apply Z.mod_small. zlia. Qed.

(** Disjoint bit fields add up. *)
Lemma lor_fields (a k x : Z) : 0 <= k -> 0 <= x < 2 ^ k -> Z.lor (a * 2 ^ k) x = a * 2 ^ k + x.
Proof.
  intros Hk Hx. pose proof (Z.add_lor_land (a * 2 ^ k) x) as H.
  cut (Z.land (a * 2 ^ k) x = 0); [intros E; rewrite E in H; lia|].
  apply Z.bits_inj'. intros n Hn. rewrite Z.land_spec, Z.bits_0, <- Z.shiftl_mul_pow2 by lia.
  rewrite Z.shiftl_spec by lia. destruct (Z.ltb_spec n k).
  - by rewrite (Z.testbit_neg_r _ (n - k)) by lia.
  - destruct (Z.eq_dec x 0) as [-> |]; [by rewrite Z.bits_0, andb_false_r|].
    rewrite (Z.bits_above_log2 x n); [by rewrite andb_false_r|lia|]. apply Z.log2_lt_pow2; [lia|].
    apply (Z.lt_le_trans _ (2 ^ k)); [lia|]. apply Z.pow_le_mono_r; lia.
Qed.

(** ** Folds *)

Lemma mapM_res_inv {A C E} (f : A -> result C E) (l : list A) (cs : list C) :
  mapM_res f l = Ok cs -> Forall2 (fun a c => f a = Ok c) l cs.
Proof.
  revert cs. induction l as [|a l IH]; intros cs; cbn [mapM_res]; [intros [= <-]; constructor|].
  destruct (f a) as [c|] eqn:Ea; [|done]. destruct (mapM_res f l) as [cs'|]; [|done].
  intros [= <-]. constructor; auto.
Qed.

Lemma mapM_res_ok {A C E} (f : A -> result C E) (g : A -> C) (l : list A) :
  (forall a, a ∈ l -> f a = Ok (g a)) -> mapM_res f l = Ok (map g l).
Proof.
  induction l as [|a l IH]; intros H; simpl; [done|].
  rewrite (H a) by (by left). by rewrite IH by (intros; apply H; by right).
Qed.

Lemma rfold_app {A S E} (f : S -> A -> result S E) (s : S) (l1 l2 : list A) :
  rfold f s (l1 ++ l2) =
    match rfold f s l1 with Ok s' => rfold f s' l2 | Error e => Error e end.
Proof.
  revert s. induction l1 as [|a l1 IH]; intros s; simpl; [done|].
  by case_match.
Qed.

(** Loop invariant rule for a loop that may return early. *)
Lemma rfold_inv {A S E} (f : S -> A -> result S E) (P : list A -> S -> Prop) (l : list A) :
  forall s0 s,
  (forall done a s s', a ∈ l -> P done s -> f s a = Ok s' -> P (done ++ [a]) s') ->
  forall pre, P pre s0 -> rfold f s0 l = Ok s -> P (pre ++ l) s.
Proof.
  induction l as [|a l IH]; intros s0 s Hstep pre H0 Hr; simpl in Hr.
  - simplify_eq. by rewrite app_nil_r.
  - destruct (f s0 a) as [s1|] eqn:Hfa; [|done].
    replace (pre ++ a :: l) with ((pre ++ [a]) ++ l) by (by rewrite <- app_assoc).
    apply (IH s1); [|by eapply Hstep; eauto; left|done].
    intros. eapply Hstep; eauto. by right.
Qed.

Lemma rfold_each {A S E} (f : S -> A -> result S E) (l : list A) : forall s s',
  rfold f s l = Ok s' -> forall a, a ∈ l -> exists s1 s2, f s1 a = Ok s2.
Proof.
  induction l as [|b l IH]; intros s s' Hr a Ha; [by apply elem_of_nil in Ha|]. simpl in Hr.
  destruct (f s b) as [s1|] eqn:Eb; [|done].
  apply elem_of_cons in Ha as [-> |Ha]; eauto.
Qed.

Lemma find_index_spec {A} (p : A -> bool) (l : list A) (i : Z) :
  match find_index p l i with
  | Some (j, a) =>
      i <= j /\ l !! Z.to_nat (j - i) = Some a /\ p a = true /\
      (forall k b, (k < Z.to_nat (j - i))%nat -> l !! k = Some b -> p b = false)
  | None => Forall (fun b => p b = false) l
  end.
Proof.
  revert i. induction l as [|a l IH]; intros i; simpl; [done|].
  destruct (p a) eqn:E.
  - rewrite Z.sub_diag. repeat split; [lia|done|]. intros k b Hk. simpl in Hk. lia.
  - specialize (IH (i + 1)). destruct (find_index p l (i + 1)) as [[j b]|].
    + destruct IH as (Hle & Hb & Hp & Hmin).
      assert (Z.to_nat (j - i) = S (Z.to_nat (j - (i + 1)))) as -> by lia.
      repeat split; [lia|done|done|].
      intros [|k] c Hk; simpl; [by intros [= <-]|]. apply Hmin. lia.
    + by constructor.
Qed.

Lemma find_index_none {A} (p : A -> bool) (l : list A) (i : Z) :
  find_index p l i = None <-> Forall (fun b => p b = false) l.
Proof.
  split; intros H.
  - pose proof (find_index_spec p l i) as Hs. by rewrite H in Hs.
  - pose proof (find_index_spec p l i) as Hs.
    destruct (find_index p l i) as [[j a]|]; [|done].
    destruct Hs as (_ & Hl & Hp & _). apply list_elem_of_lookup_2 in Hl.
    rewrite Forall_forall in H. specialize (H a Hl). congruence.
Qed.

Lemma find_index_some {A} (p : A -> bool) (l : list A) (i j : Z) (a : A) :
  find_index p l i = Some (j, a) -> a ∈ l /\ p a = true /\ i <= j /\ l !! Z.to_nat (j - i) = Some a.
Proof.
  intros H. pose proof (find_index_spec p l i) as Hs. rewrite H in Hs.
  destruct Hs as (? & Hl & Hp & _). repeat split; try done.
  by eapply list_elem_of_lookup_2.
Qed.

Lemma sumZ_app {A} (f : A -> Z) (l1 l2 : list A) : sumZ f (l1 ++ l2) = sumZ f l1 + sumZ f l2.
Proof. induction l1; simpl; lia. Qed.

Lemma sumZ_nonneg {A} (f : A -> Z) (l : list A) :
  Forall (fun a => 0 <= f a) l -> 0 <= sumZ f l.
Proof. induction 1; simpl; lia. Qed.

(** Counting with 0/1 summands. *)
Definition countZ {A : Type} (p : A -> bool) (l : list A) : Z :=
  sumZ (fun a => if p a then 1 else 0) l.

Lemma countZ_range {A} (p : A -> bool) (l : list A) : 0 <= countZ p l <= Z.of_nat (length l).
Proof. unfold countZ. induction l as [|a l IH]; simpl; [done|]. destruct (p a); lia. Qed.

Lemma countZ_negb {A} (p : A -> bool) (l : list A) :
  countZ (fun a => negb (p a)) l = Z.of_nat (length l) - countZ p l.
Proof. unfold countZ. induction l as [|a l IH]; simpl; [done|]. destruct (p a); simpl; lia. Qed.

Lemma countZ_zero {A} (p : A -> bool) (l : list A) :
  countZ p l = 0 <-> forall a, a ∈ l -> p a = false.
Proof.
  unfold countZ. induction l as [|a l IH]; simpl.
  - split; [by intros _ ? ?%elem_of_nil|done].
  - pose proof (countZ_range p l) as Hr. unfold countZ in Hr. split.
    + intros Hs. destruct (p a) eqn:Ha; [lia|]. intros b [-> | Hb]%elem_of_cons; [done|].
      apply IH; [lia|done].
    + intros Hall. rewrite (Hall a) by (by left). rewrite (proj2 IH); [done|].
      intros b Hb. apply Hall. by right.
Qed.

(** A loop that keeps the largest [f a] among the elements that satisfy [p]. *)
Lemma foldl_max_spec {A} (p : A -> bool) (f : A -> Z) (l : list A) (m0 : Z) :
  let m := foldl (fun m a => if p a && (m <? f a) then f a else m) m0 l in
  m0 <= m /\ (forall a, a ∈ l -> p a = true -> f a <= m) /\
  (m = m0 \/ exists a, a ∈ l /\ p a = true /\ m = f a).
Proof.
  revert m0. induction l as [|a l IH]; intros m0; simpl.
  - split; [lia|]. split; [|by left]. by intros ? ?%elem_of_nil.
  - set (m1 := if p a && (m0 <? f a) then f a else m0). destruct (IH m1) as (H1 & H2 & H3).
    assert (m0 <= m1 /\ (p a = true -> f a <= m1) /\
            (m1 = m0 \/ (p a = true /\ m1 = f a))) as (Hm & Hp & Hm1).
    { subst m1. destruct (p a); simpl; [|naive_solver lia].
      destruct (Z.ltb_spec m0 (f a)); naive_solver lia. }
    split; [lia|]. split.
    + intros b [-> | Hb]%elem_of_cons Hpb; [specialize (Hp Hpb); lia|auto].
    + destruct H3 as [-> | (b & Hb & ?)]; [|right; exists b; split; [by right|done]].
      destruct Hm1 as [?|[? ?]]; [by left|right; exists a; split; [by left|done]].
Qed.

Create HintDb ds4.
Create Rewrite HintDb ds4.
#[export] Hint Resolve u64_range u32_range c_str_no_nul str_eqb_refl bz_range : ds4.
#[export] Hint Rewrite beqb_refl str_eqb_refl @sumZ_app : ds4.
