(* ===== verification/CNum.v ===== *)
(** * Numbers as text

    The decimal conversions of the C library the loaders call ([strtoull],
    [strtoll], [%d]/[%llu] of [snprintf]) in the C locale, and the field
    parsers [parse_u64_field], [parse_i64_field], [parse_i32_field] of
    ds4_pack.c (the same text stands in ds4_turbomind_pack.c, which adds
    [parse_u32_field]). *)
From S2P Require Import Prelude.

(** ** The C library *)

Definition digit_val (b : byte) : Z := bz b - 48.

(** The value of the longest digit prefix, accumulated on [acc], and the rest. *)
Fixpoint scan_digits (s : bytes) (acc : Z) : Z * bytes :=
  match s with
  | b :: s' => if byte_isdigit b then scan_digits s' (acc * 10 + digit_val b) else (acc, s)
  | [] => (acc, [])
  end.

Fixpoint skip_space (s : bytes) : bytes :=
  match s with
  | b :: s' => if byte_isspace b then skip_space s' else s
  | [] => []
  end.

(** Optional sign: negative?, rest. *)
Definition scan_sign (s : bytes) : bool * bytes :=
  match s with
  | b :: s' => if Byte.eqb b x2d then (true, s') else if Byte.eqb b x2b then (false, s') else (false, s)
  | [] => (false, [])
  end.

(** Sign and magnitude of the subject sequence of [strto*] in base 10:
    [Some (negative, magnitude, end)], or [None] when no conversion can be
    performed (then the end pointer is the start of the string). *)
Definition strto_subject (s : bytes) : option (bool * Z * bytes) :=
  let '(neg, s1) := scan_sign (skip_space s) in
  match s1 with
  | b :: _ =>
      if byte_isdigit b then
        let '(v, rest) := scan_digits s1 0 in Some (neg, v, rest)
      else None
  | [] => None
  end.

(** [strtoull(s, &end, 10)]: the value, [*end] onwards, and [errno != 0].  A
    minus sign negates modulo 2^64. *)
Definition strtoull (s : bytes) : Z * bytes * bool :=
  match strto_subject s with
  | None => (0, s, false)
  | Some (neg, v, rest) =>
      if UINT64_MAX <? v then (UINT64_MAX, rest, true)
      else (if neg then u64 (- v) else v, rest, false)
  end.

(** [strtoll(s, &end, 10)]. *)
Definition strtoll (s : bytes) : Z * bytes * bool :=
  match strto_subject s with
  | None => (0, s, false)
  | Some (neg, v, rest) =>
      let w := if neg then - v else v in
      if w <? INT64_MIN then (INT64_MIN, rest, true)
      else if INT64_MAX <? w then (INT64_MAX, rest, true)
      else (w, rest, false)
  end.

(** ** The field parsers *)

(** [None] is the return value 1. *)
Definition parse_u64_field (s : bytes) : option Z :=
  match s with
  | [] => None
  | c :: _ =>
      if Byte.eqb c x2d then None
      else
        let '(v, rest, err) := strtoull s in
        if err || negb (str_eqb rest []) then None else Some v
  end.

Definition parse_i64_field (s : bytes) : option Z :=
  match s with
  | [] => None
  | _ =>
      let '(v, rest, err) := strtoll s in
      if err || negb (str_eqb rest []) then None else Some v
  end.

Definition parse_i32_field (s : bytes) : option Z :=
  match parse_i64_field s with
  | None => None
  | Some v => if (v <? INT_MIN) || (INT_MAX <? v) then None else Some v
  end.

Definition parse_u32_field (s : bytes) : option Z :=
  match parse_u64_field s with
  | None => None
  | Some v => if UINT32_MAX <? v then None else Some v
  end.

(** ** Decimal output *)

Definition digit_byte (d : Z) : byte := zb (48 + d).

(** Digits of a non-negative number in front of [acc]; [fuel] bounds their
    number. *)
Fixpoint dec_digits (fuel : nat) (n : Z) (acc : bytes) : bytes :=
  match fuel with
  | O => acc
  | S fuel' =>
      if n <? 10 then digit_byte n :: acc
      else dec_digits fuel' (n / 10) (digit_byte (n mod 10) :: acc)
  end.

(** [%llu] (and [%u]); 20 digits hold every 64-bit value. *)
Definition print_u64 (n : Z) : bytes := dec_digits 20 n [].

(** [%d] and [%lld]. *)
Definition print_i64 (z : Z) : bytes :=
  if z <? 0 then x2d :: print_u64 (- z) else print_u64 z.

(** [snprintf(buf, size, ...)] keeps [size - 1] bytes. *)
Definition snprintf_trunc (size : nat) (s : bytes) : bytes := take (size - 1) s.

(** ** Lemmas *)

Lemma digit_byte_isdigit (d : Z) : 0 <= d < 10 -> byte_isdigit (digit_byte d) = true.
Proof.
  intros Hd. unfold byte_isdigit, digit_byte. rewrite bz_zb by lia.
  apply andb_true_iff. split; apply Z.leb_le; lia.
Qed.

Lemma digit_val_byte (d : Z) : 0 <= d < 10 -> digit_val (digit_byte d) = d.
Proof. intros Hd. unfold digit_val, digit_byte. rewrite bz_zb; lia. Qed.

Lemma digit_val_range (b : byte) : byte_isdigit b = true -> 0 <= digit_val b < 10.
Proof. unfold byte_isdigit, digit_val. intros H. bool_hyps. lia. Qed.

(** Bytes that print decimal numbers are not whitespace, signs, separators. *)
Lemma digit_plain (b : byte) :
  byte_isdigit b = true ->
  byte_isspace b = false /\ b <> x2d /\ b <> x2b /\ b <> TAB /\ b <> LF /\ b <> CR /\ b <> NUL.
Proof. destruct b; done. Qed.

(** Generalised over the digits already emitted. *)
Lemma dec_digits_acc (fuel : nat) (n : Z) (acc : bytes) :
  dec_digits fuel n acc = dec_digits fuel n [] ++ acc.
Proof.
  revert n acc. induction fuel as [|fuel IH]; intros n acc; simpl; [done|].
  case_match; [done|]. rewrite IH, (IH _ [_]), <- app_assoc. done.
Qed.

Lemma dec_digits_digits (fuel : nat) (n : Z) :
  0 <= n -> Forall (fun b => byte_isdigit b = true) (dec_digits fuel n []).
Proof.
  revert n. induction fuel as [|fuel IH]; intros n Hn; simpl; [constructor|].
  destruct (Z.ltb_spec n 10).
  - repeat constructor. apply digit_byte_isdigit. lia.
  - rewrite dec_digits_acc. apply Forall_app. split.
    + apply IH. apply Z.div_pos; lia.
    + repeat constructor. apply digit_byte_isdigit. apply Z.mod_pos_bound. lia.
Qed.

Lemma dec_digits_nonempty (fuel : nat) (n : Z) : dec_digits (S fuel) n [] <> [].
Proof.
  simpl. case_match; [done|]. rewrite dec_digits_acc.
  by intros [_ ?]%app_nil.
Qed.

Lemma dec_digits_length (fuel : nat) (n : Z) : (length (dec_digits fuel n []) <= fuel)%nat.
Proof.
  revert n. induction fuel as [|fuel IH]; intros n; simpl; [done|].
  case_match; simpl; [lia|]. rewrite dec_digits_acc, length_app. simpl.
  specialize (IH (n / 10)). lia.
Qed.

Lemma scan_digits_app (s t : bytes) (acc : Z) :
  Forall (fun b => byte_isdigit b = true) s ->
  scan_digits (s ++ t) acc = scan_digits t (fst (scan_digits s acc)).
Proof.
  revert acc. induction s as [|b s IH]; intros acc Hs; simpl; [done|].
  apply Forall_cons in Hs as [Hb Hs]. rewrite Hb. by apply IH.
Qed.

(** Reading back what [dec_digits] wrote, when the fuel covers the number. *)
Lemma scan_dec_digits (fuel : nat) (n : Z) :
  0 <= n < 10 ^ Z.of_nat fuel -> scan_digits (dec_digits fuel n []) 0 = (n, []).
Proof.
  revert n. induction fuel as [|fuel IH]; intros n Hn; simpl.
  - simpl in Hn. f_equal. lia.
  - destruct (Z.ltb_spec n 10) as [Hlt|Hge].
    + simpl. rewrite digit_byte_isdigit, digit_val_byte by lia. done.
    + rewrite dec_digits_acc, scan_digits_app.
      * rewrite IH.
        -- simpl. rewrite digit_byte_isdigit, digit_val_byte by (apply Z.mod_pos_bound; lia).
           f_equal. pose proof (Z.div_mod n 10). lia.
        -- rewrite Nat2Z.inj_succ, Z.pow_succ_r in Hn by lia. split.
           ++ apply Z.div_pos; lia.
           ++ apply Z.div_lt_upper_bound; lia.
      * apply dec_digits_digits. apply Z.div_pos; lia.
Qed.

Lemma print_u64_digits (n : Z) :
  0 <= n -> Forall (fun b => byte_isdigit b = true) (print_u64 n).
Proof. apply dec_digits_digits. Qed.

Lemma print_u64_cons (n : Z) :
  0 <= n -> exists b s, print_u64 n = b :: s /\ byte_isdigit b = true.
Proof.
  intros Hn. pose proof (print_u64_digits n Hn) as H.
  destruct (print_u64 n) as [|b s] eqn:E; [by apply dec_digits_nonempty in E|].
  apply Forall_cons in H as [Hb _]. eauto.
Qed.

Lemma strto_subject_print (n : Z) :
  is_u64 n -> strto_subject (print_u64 n) = Some (false, n, []).
Proof.
  intros Hn. destruct (print_u64_cons n) as (b & s & E & Hb); [zlia|].
  unfold strto_subject. rewrite E. simpl.
  destruct (digit_plain b Hb) as (-> & Hm & Hp & _). simpl.
  apply beqb_neq in Hm as ->. apply beqb_neq in Hp as ->. rewrite Hb, <- E.
  unfold print_u64. rewrite scan_dec_digits; [done|zlia].
Qed.

Lemma parse_print_u64 (n : Z) : is_u64 n -> parse_u64_field (print_u64 n) = Some n.
Proof.
  intros Hn. unfold parse_u64_field, strtoull. rewrite strto_subject_print by done.
  destruct (print_u64_cons n) as (b & s & -> & Hb); [zlia|].
  destruct (digit_plain b Hb) as (_ & Hm & _). apply beqb_neq in Hm as ->.
  destruct (Z.ltb_spec UINT64_MAX n); [zlia|done].
Qed.

Lemma strto_subject_print_i (z : Z) :
  - UINT64_MAX <= z <= UINT64_MAX ->
  strto_subject (print_i64 z) = Some (bool_decide (z < 0), Z.abs z, []).
Proof.
  intros Hz. unfold print_i64. destruct (Z.ltb_spec z 0) as [Hn|Hn].
  - rewrite bool_decide_true by done.
    destruct (print_u64_cons (- z)) as (b & s & E & Hb); [lia|].
    unfold strto_subject. simpl. rewrite E, Hb, <- E.
    unfold print_u64. rewrite scan_dec_digits by zlia. do 3 f_equal. lia.
  - rewrite bool_decide_false, strto_subject_print, Z.abs_eq by zlia. done.
Qed.

Lemma parse_print_i64 (z : Z) : is_i64 z -> parse_i64_field (print_i64 z) = Some z.
Proof.
  intros Hz. unfold parse_i64_field, strtoll.
  rewrite strto_subject_print_i by zlia.
  assert ((if bool_decide (z < 0) then - Z.abs z else Z.abs z) = z) as ->
    by (case_bool_decide; lia).
  destruct (print_i64 z) eqn:E.
  - unfold print_i64 in E. case_match; [done|]. by apply dec_digits_nonempty in E.
  - destruct (Z.ltb_spec z INT64_MIN); [zlia|].
    destruct (Z.ltb_spec INT64_MAX z); [zlia|done].
Qed.

Lemma parse_print_i32 (z : Z) : is_int z -> parse_i32_field (print_i64 z) = Some z.
Proof.
  intros Hz. unfold parse_i32_field. rewrite parse_print_i64 by zlia.
  destruct (Z.ltb_spec z INT_MIN); [zlia|]. destruct (Z.ltb_spec INT_MAX z); [zlia|done].
Qed.

Lemma scan_digits_nonneg (s : bytes) (acc : Z) : 0 <= acc -> 0 <= fst (scan_digits s acc).
Proof.
  revert acc. induction s as [|b s IH]; intros acc Ha; simpl; [done|].
  destruct (byte_isdigit b) eqn:E; [|done].
  apply IH. apply digit_val_range in E. lia.
Qed.

Lemma strto_subject_nonneg (s rest : bytes) (neg : bool) (v : Z) :
  strto_subject s = Some (neg, v, rest) -> 0 <= v.
Proof.
  unfold strto_subject. destruct (scan_sign _) as [n s1].
  destruct s1 as [|b s1]; [done|]. case_match; [|done].
  pose proof (scan_digits_nonneg (b :: s1) 0 ltac:(lia)) as Hn.
  destruct (scan_digits _ _) as [w r]. intros [= -> -> ->]. done.
Qed.

(** The parsers only return values of their type. *)
Lemma parse_u64_field_range (s : bytes) (v : Z) : parse_u64_field s = Some v -> is_u64 v.
Proof.
  unfold parse_u64_field, strtoull. intros H.
  destruct s as [|c s]; [done|]. case_match; [done|].
  destruct (strto_subject (c :: s)) as [[[neg w] rest]|] eqn:E; simpl in H.
  - apply strto_subject_nonneg in E. destruct (Z.ltb_spec UINT64_MAX w); [done|].
    simpl in H. case_match; [done|]. injection H as <-.
    destruct neg; [apply u64_range|zlia].
  - done.
Qed.

Lemma parse_i64_field_range (s : bytes) (v : Z) : parse_i64_field s = Some v -> is_i64 v.
Proof.
  unfold parse_i64_field, strtoll. intros H. destruct s as [|c s]; [done|].
  destruct (strto_subject (c :: s)) as [[[neg w] rest]|] eqn:E; [|done].
  repeat (case_match; simpl in *; simplify_eq; try done); bool_hyps; zlia.
Qed.

Lemma parse_i32_field_range (s : bytes) (v : Z) : parse_i32_field s = Some v -> is_int v.
Proof.
  unfold parse_i32_field. intros H. destruct (parse_i64_field s); [|done].
  case_match; [done|]. simplify_eq. bool_hyps. zlia.
Qed.

Lemma parse_u32_field_range (s : bytes) (v : Z) : parse_u32_field s = Some v -> is_u32 v.
Proof.
  unfold parse_u32_field. intros H.
  destruct (parse_u64_field s) as [w|] eqn:E; [|done].
  apply parse_u64_field_range in E. case_match; [done|]. simplify_eq. bool_hyps. zlia.
Qed.

(** Numbers print without separators, so they survive in a TSV field. *)
Definition plain (s : bytes) : Prop := (TAB ∉ s) /\ (LF ∉ s) /\ (CR ∉ s) /\ (NUL ∉ s).

Lemma plain_app (s t : bytes) : plain s -> plain t -> plain (s ++ t).
Proof. unfold plain. set_solver. Qed.

Lemma digits_plain (s : bytes) : Forall (fun b => byte_isdigit b = true) s -> plain s.
Proof.
  rewrite Forall_forall. intros H. unfold plain.
  repeat split; intros Hin; discriminate (H _ Hin).
Qed.

Lemma print_u64_plain (n : Z) : 0 <= n -> plain (print_u64 n).
Proof. intros. by apply digits_plain, print_u64_digits. Qed.

Lemma plain_nil : plain [].
Proof. unfold plain. set_solver. Qed.

Lemma plain_cons (b : byte) (s : bytes) :
  b <> TAB -> b <> LF -> b <> CR -> b <> NUL -> plain s -> plain (b :: s).
Proof. unfold plain. rewrite !not_elem_of_cons. naive_solver. Qed.

Definition plain_check (s : bytes) : bool :=
  negb (str_hasc s TAB || str_hasc s LF || str_hasc s CR || str_hasc s NUL).

Lemma plain_check_ok (s : bytes) : plain_check s = true -> plain s.
Proof.
  unfold plain_check. intros H. bool_hyps. repeat split; by apply str_hasc_false.
Qed.

Lemma print_i64_plain (z : Z) : plain (print_i64 z).
Proof.
  unfold print_i64. destruct (Z.ltb_spec z 0).
  - apply plain_cons; [done..|]. apply print_u64_plain. lia.
  - by apply print_u64_plain.
Qed.

Lemma print_u64_inj (a b : Z) : is_u64 a -> is_u64 b -> print_u64 a = print_u64 b -> a = b.
Proof.
  intros Ha Hb E. apply parse_print_u64 in Ha, Hb. congruence.
Qed.

Lemma print_i64_inj (a b : Z) : is_i64 a -> is_i64 b -> print_i64 a = print_i64 b -> a = b.
Proof.
  intros Ha Hb E. apply parse_print_i64 in Ha, Hb. congruence.
Qed.

(** Every field of a row about to be written is free of separators. *)
Ltac plain_fields :=
  repeat (apply Forall_cons; split); try apply Forall_nil;
  first [ exact I | assumption | apply print_i64_plain | apply print_u64_plain; zlia
        | by apply plain_check_ok ].

#[export] Hint Resolve print_u64_plain print_i64_plain plain_app : ds4.
#[export] Hint Resolve parse_u64_field_range parse_i64_field_range
  parse_i32_field_range parse_u32_field_range : ds4.
