(* ===== verification/LittleEndian.v ===== *)
(** * Little-endian integers in files *)
From S2P Require Import Prelude.

(** Little-endian value of a byte string. *)
Fixpoint le_value (b : bytes) : Z :=
  match b with [] => 0 | x :: b' => Z.lor (bz x) (Z.shiftl (le_value b') 8) end.

Lemma le_value_cons (x : byte) (b : bytes) : le_value (x :: b) = bz x + 256 * le_value b.
Proof.
  cbn [le_value]. pose proof (bz_range x) as Hx.
  rewrite Z.shiftl_mul_pow2, Z.lor_comm, lor_fields by lia. lia.
Qed.

Lemma le_value_range (b : bytes) : 0 <= le_value b < 2 ^ (8 * Z.of_nat (length b)).
Proof.
  induction b as [|x b IH]; [simpl; lia|]. rewrite le_value_cons. pose proof (bz_range x).
  cbn [length]. replace (8 * Z.of_nat (S (length b))) with (8 + 8 * Z.of_nat (length b)) by lia.
  rewrite Z.pow_add_r by lia. change (2 ^ 8) with 256. nia.
Qed.

(** The [n] bytes of an integer. *)
Fixpoint le_bytes (n : nat) (z : Z) : bytes :=
  match n with O => [] | S n' => zb z :: le_bytes n' (z / 256) end.

Lemma le_bytes_length (n : nat) (z : Z) : length (le_bytes n z) = n.
Proof. revert z. induction n; intros z; simpl; auto. Qed.


Lemma le_value_bytes (n : nat) (z : Z) : 0 <= z < 2 ^ (8 * Z.of_nat n) -> le_value (le_bytes n z) = z.
Proof.
  revert z. induction n as [|n IH]; intros z Hz; [simpl in *; lia|].
  cbn [le_bytes]. rewrite le_value_cons.
  replace (8 * Z.of_nat (S n)) with (8 + 8 * Z.of_nat n) in Hz by lia.
  rewrite Z.pow_add_r in Hz by lia. change (2 ^ 8) with 256 in Hz.
  rewrite IH by (split; [apply Z.div_pos; lia|apply Z.div_lt_upper_bound; lia]).
  pose proof (Z.div_mod z 256 ltac:(lia)).
  replace (bz (zb z)) with (z mod 256); [lia|].
  pose proof (Z.mod_pos_bound z 256 ltac:(lia)). rewrite <- (bz_zb (z mod 256)) by lia.
  unfold zb. by rewrite Z.mod_mod.
Qed.
