(* ===== verification/TsvFile.v ===== *)
(** * Tab-separated index files

    What ds4_pack.c and ds4_turbomind_pack.c share, line for line: reading a
    small file ([read_small_file]), cutting a line into fields ([split_tabs])
    and the line loop of the two [*_open] functions.  The file system is the
    environment: a [file_env] holds what the stdio calls on one path return. *)
From S2P Require Import Prelude.
From S2P Require Import CNum.

(** ** Reading *)

(** The outcomes of fopen, fseek(SEEK_END), ftell, fseek(SEEK_SET) and the
    bytes fread can deliver; [f_errno] is strerror(errno) of a failure. *)
Record file_env := FileEnv {
  f_open : bool;
  f_seek_end : bool;
  f_tell : Z;
  f_seek_set : bool;
  f_data : bytes;
  f_errno : bytes
}.

(** A regular file with the given contents. *)
Definition regular_file (content : bytes) : file_env :=
  {| f_open := true; f_seek_end := true; f_tell := Z.of_nat (length content);
     f_seek_set := true; f_data := content; f_errno := [] |}.

Definition SMALL_FILE_MAX : Z := 64 * 1024 * 1024.

Section Files.
Context `{Allocator}.

(** [read_small_file]; [too_large] is the message for an oversized file, the
    only text in which the two copies of the function differ. *)
Definition read_small_file (too_large : string) (path : bytes) (f : file_env) : res bytes :=
  if negb (f_open f) then fail "cannot open %s: %s" [AS path; AS (f_errno f)]
  else if negb (f_seek_end f) then fail "cannot seek %s: %s" [AS path; AS (f_errno f)]
  else
    let n := f_tell f in
    if n <? 0 then fail "cannot tell %s: %s" [AS path; AS (f_errno f)]
    else if SMALL_FILE_MAX <? n then fail too_large [AS path]
    else if negb (f_seek_set f) then fail "cannot rewind %s: %s" [AS path; AS (f_errno f)]
    else if negb (malloc_ok (n + 1)) then fail "out of memory reading %s" [AS path]
    else
      let buf := take (Z.to_nat n) (f_data f) in
      if negb (Z.of_nat (length buf) =? n) then fail "short read from %s" [AS path]
      else Ok buf.

(** [strdup]-like copies of several strings, all or nothing. *)
Definition strdups_ok (l : list bytes) : bool :=
  forallb (fun s => malloc_ok (Z.of_nat (length s) + 1)) l.
End Files.

(** [split_tabs(line, fields, n_fields)]: the fields, or [None] for -1 when
    there are more than [n_fields]. *)
Definition split_tabs (line : bytes) (n_fields : nat) : option (list bytes) :=
  let fields := split_on TAB line in
  if (n_fields <? length fields)%nat then None else Some fields.

Definition has_utf8_bom (buf : bytes) : bool := str_prefixb [xef; xbb; xbf] buf.

(** One turn of the line loop: [st] is the index so far and the number of the
    last line.  A piece between newlines is a C string, so it ends at its
    first NUL; empty lines are skipped; line 1 must be the header. *)
Definition index_line {P : Type} (header : bytes) (bad_header : string)
    (parse_row : P -> bytes -> Z -> res P) (st : P * Z) (raw : bytes) : res (P * Z) :=
  let '(pack, n) := st in
  let line := c_str raw in
  let line_no := u64 (n + 1) in
  match line with
  | [] => Ok (pack, line_no)
  | _ =>
      if line_no =? 1 then
        if negb (str_eqb line header) then fail bad_header [] else Ok (pack, line_no)
      else
        pack' <- parse_row pack line line_no ;; Ok (pack', line_no)
  end.

(** The whole loop over a buffer: its pieces are the runs between newlines. *)
Definition index_lines {P : Type} (header : bytes) (bad_header : string)
    (parse_row : P -> bytes -> Z -> res P) (empty : P) (buf : bytes) : res P :=
  st <- rfold (index_line header bad_header parse_row) (empty, 0) (split_on LF buf) ;;
  Ok (fst st).

(** A line of a report. *)
Definition tsv_line (fields : list bytes) : bytes := join_with TAB fields ++ [LF].

(** ** Lemmas *)

Section Lemmas.
Context `{Allocator}.

Lemma read_small_file_ok (msg : string) (path : bytes) (f : file_env) (buf : bytes) :
  read_small_file msg path f = Ok buf ->
  Z.of_nat (length buf) = f_tell f /\ Z.of_nat (length buf) <= SMALL_FILE_MAX /\
  exists rest, f_data f = buf ++ rest.
Proof.
  unfold read_small_file. intros Hr. inv_ok Hr. bool_hyps.
  split; [done|]. split; [lia|].
  eexists. symmetry. apply take_drop.
Qed.

Lemma read_small_file_regular (msg : string) (path content : bytes) :
  (forall n, malloc_ok n = true) ->
  Z.of_nat (length content) <= SMALL_FILE_MAX ->
  read_small_file msg path (regular_file content) = Ok content.
Proof.
  intros Hm Hl. unfold read_small_file, regular_file. simpl.
  destruct (Z.ltb_spec (Z.of_nat (length content)) 0); [lia|].
  destruct (Z.ltb_spec SMALL_FILE_MAX (Z.of_nat (length content))); [lia|].
  rewrite Hm. simpl. rewrite firstn_all2 by lia. by rewrite Z.eqb_refl.
Qed.

Lemma strdups_ok_unlimited (l : list bytes) :
  (forall n, malloc_ok n = true) -> strdups_ok l = true.
Proof. intros Hm. apply forallb_forall. auto. Qed.
End Lemmas.

Lemma split_tabs_join (fields : list bytes) (n : nat) :
  fields <> [] -> (length fields <= n)%nat -> Forall (fun s => TAB ∉ s) fields ->
  split_tabs (join_with TAB fields) n = Some fields.
Proof.
  intros Hne Hlen Hall. unfold split_tabs. rewrite split_join by done.
  destruct (Nat.ltb_spec n (length fields)); [lia|done].
Qed.

(** Loop invariant rule for the line loop. *)
Lemma index_lines_inv {P : Type} (header : bytes) (msg : string)
    (parse_row : P -> bytes -> Z -> res P) (I : P -> Prop) (empty : P) (buf : bytes) (p : P) :
  I empty ->
  (forall p line n p', NUL ∉ line -> I p -> parse_row p line n = Ok p' -> I p') ->
  index_lines header msg parse_row empty buf = Ok p -> I p.
Proof.
  intros H0 Hstep Hr. unfold index_lines in Hr.
  destruct (rfold _ _ _) as [[q k]|] eqn:E; [|done]. injection Hr as <-.
  apply (rfold_inv _ (fun _ st => I (fst st)) _ _ _) with (pre := []) in E; [done| |done].
  intros _ raw [q1 k1] [q2 k2] _ Hq Hl. unfold index_line in Hl. simpl in *.
  destruct (c_str raw) as [|b l] eqn:Ec; [naive_solver|].
  destruct (u64 (k1 + 1) =? 1).
  - case_match; naive_solver.
  - destruct (parse_row _ _ _) as [q3|] eqn:Ep; [|done]. injection Hl as <- _.
    eapply Hstep; [|done|exact Ep]. rewrite <- Ec. apply c_str_no_nul.
Qed.

(** The text of a file written line by line with [fprintf("%s\n")]. *)
Definition text_of_lines (lines : list bytes) : bytes := concat (map (fun l => l ++ [LF]) lines).

Lemma split_text_of_lines (lines : list bytes) :
  Forall (fun l => LF ∉ l) lines -> split_on LF (text_of_lines lines) = lines ++ [[]].
Proof.
  unfold text_of_lines. induction 1 as [|l lines Hl _ IH]; simpl; [done|].
  rewrite <- app_assoc. simpl. rewrite split_on_app by done. by rewrite IH.
Qed.

(** Rows that follow the header are parsed in order, numbered from 2. *)
Lemma index_lines_rows {P : Type} (header : bytes) (msg : string)
    (parse_row : P -> bytes -> Z -> res P) (empty : P) (lines : list bytes) :
  header <> [] -> NUL ∉ header -> LF ∉ header ->
  Forall (fun l => l <> [] /\ (NUL ∉ l) /\ (LF ∉ l)) lines ->
  Z.of_nat (length lines) < 2 ^ 32 ->
  index_lines header msg parse_row empty (text_of_lines (header :: lines)) =
    (st <- rfold (fun '(p, n) l => p' <- parse_row p l (n + 1) ;; Ok (p', n + 1)) (empty, 1) lines ;;
     Ok (fst st)).
Proof.
  intros Hne Hnul Hlf Hall Hlen. unfold index_lines.
  rewrite split_text_of_lines; [|constructor; [done|]].
  2: { eapply Forall_impl; [exact Hall|]. naive_solver. }
  simpl rfold. rewrite c_str_id by done.
  destruct header as [|h hs]; [done|]. simpl (u64 _ =? 1).
  rewrite str_eqb_refl. simpl.
  assert (forall k st, Z.of_nat (length lines) + k < 2 ^ 33 -> 1 <= k -> snd st = k ->
    rfold (index_line (h :: hs) msg parse_row) st lines =
    rfold (fun '(p, n) l => p' <- parse_row p l (n + 1) ;; Ok (p', n + 1)) st lines) as Hind.
  { clear Hlen. induction lines as [|l lines IH]; intros k [p n] Hk Hk1 Hs; [done|].
    simpl in Hs. subst n. apply Forall_cons in Hall as [(Hl & Hl1 & Hl2) Hall]. simpl.
    rewrite c_str_id by done. destruct l as [|b l]; [done|].
    rewrite u64_small by (simpl in Hk; zlia).
    destruct (Z.eqb_spec (k + 1) 1); [lia|].
    destruct (parse_row p (b :: l) (k + 1)) as [p'|]; [|done].
    apply (IH Hall (k + 1)); simpl in *; lia. }
  rewrite rfold_app, (Hind 1) by (done || lia).
  destruct (rfold _ _ lines) as [[p n]|]; done.
Qed.

Lemma text_of_lines_length (lines : list bytes) :
  (length lines <= length (text_of_lines lines))%nat.
Proof.
  unfold text_of_lines. induction lines as [|l lines IH]; simpl; [lia|].
  rewrite !length_app. simpl. lia.
Qed.

Lemma text_of_lines_elem (lines : list bytes) (b : byte) :
  b ∈ text_of_lines lines -> b = LF \/ exists l, l ∈ lines /\ b ∈ l.
Proof.
  unfold text_of_lines. rewrite list_elem_of_In, in_concat.
  intros (x & (l & <- & Hl)%in_map_iff & Hb). apply list_elem_of_In in Hl, Hb.
  apply elem_of_app in Hb as [Hb|Hb]; [eauto|]. apply list_elem_of_singleton in Hb. auto.
Qed.

#[export] Hint Resolve strdups_ok_unlimited : ds4.
