(* ===== verification/CFloat.v ===== *)
(** * C doubles

    The binary64 values the sources compute with ([double] of tools/plan.c and
    ds4_server.c): the conversions to and from [uint64_t], [printf]'s [%.Nf]
    and [strtod] in the C locale.  Arithmetic is the Standard Library's
    executable binary64 model, rounding to nearest even. *)
From S2P Require Import Prelude.
From S2P Require Import CNum.
From Stdlib Require Export SpecFloat.

Abbreviation double := spec_float.

Definition prec64 : Z := 53.
Definition emax64 : Z := 1024.

Definition d_mul : double -> double -> double := SFmul prec64 emax64.
Definition d_div : double -> double -> double := SFdiv prec64 emax64.

(** [(double)n]. *)
Definition d_of_Z (n : Z) : double := binary_normalize prec64 emax64 n 0 false.

(** The integer part of a finite value, towards zero. *)
Definition d_trunc (d : double) : option Z :=
  match d with
  | S754_zero _ => Some 0
  | S754_finite s m e =>
      let a := if 0 <=? e then Z.pos m * 2 ^ e else Z.pos m / 2 ^ (- e) in
      Some (if s then - a else a)
  | _ => None
  end.

(** [(uint64_t)d]; [None] where C leaves the conversion undefined. *)
Definition d_to_u64 (d : double) : option Z :=
  match d_trunc d with
  | Some z => if (0 <=? z) && (z <=? UINT64_MAX) then Some z else None
  | None => None
  end.

(** [(int)d] with the same convention. *)
Definition d_to_int (d : double) : option Z :=
  match d_trunc d with
  | Some z => if (INT_MIN <=? z) && (z <=? INT_MAX) then Some z else None
  | None => None
  end.

(** ** [%.Nf] *)

(** [num / den] rounded to an integer, ties to even. *)
Definition round_half_even (num den : Z) : Z :=
  let q := num / den in
  let r := num mod den in
  if 2 * r <? den then q
  else if den <? 2 * r then q + 1
  else if Z.even q then q else q + 1.

Fixpoint pad_digits (n : nat) (z : Z) (acc : bytes) : bytes :=
  match n with
  | O => acc
  | S n' => pad_digits n' (z / 10) (digit_byte (z mod 10) :: acc)
  end.

(** Enough fuel for the decimal digits of any finite double. *)
Definition print_nat_big (z : Z) : bytes := dec_digits 310 z [].

Definition fmt_fixed (n : nat) (d : double) : bytes :=
  let sign (s : bool) (b : bytes) := if s then x2d :: b else b in
  match d with
  | S754_nan => B "nan"
  | S754_infinity s => sign s (B "inf")
  | S754_zero s => sign s (B "0" ++ (if (n =? 0)%nat then [] else x2e :: pad_digits n 0 []))
  | S754_finite s m e =>
      let scale := 10 ^ Z.of_nat n in
      let v := if 0 <=? e then Z.pos m * 2 ^ e * scale
               else round_half_even (Z.pos m * scale) (2 ^ (- e)) in
      sign s (print_nat_big (v / scale) ++
              (if (n =? 0)%nat then [] else x2e :: pad_digits n (v mod scale) []))
  end.

(** ** [strtod] *)

(** The double nearest to [num * base ^ k], [num > 0], and whether the range
    was left ([errno = ERANGE]: overflow, or a subnormal result that is not
    exact). *)
Definition scaled (num base k : Z) : double :=
  if 0 <=? k then d_of_Z (num * base ^ k)
  else
    let '(m, e, l) := SFdiv_core_binary prec64 emax64 num 0 (base ^ (- k)) 0 in
    binary_round_aux prec64 emax64 false m e l.

Definition d_exact (d : double) (num base k : Z) : bool :=
  match d with
  | S754_finite _ m e =>
      Z.pos m * 2 ^ Z.max 0 e * base ^ Z.max 0 (- k) =?
      num * base ^ Z.max 0 k * 2 ^ Z.max 0 (- e)
  | _ => false
  end.

Definition d_min_normal : double := S754_finite false (2 ^ 52) (-1074).

Definition nearest (num base k : Z) : double * bool :=
  if num =? 0 then (S754_zero false, false)
  else
    let size := Z.log2 num + k * Z.log2 base in
    if (0 <=? k) && (1100 <? size) then (S754_infinity false, true)
    else if (k <? 0) && (size + 1 <? -1200) then (S754_zero false, true)
    else
      let d := scaled num base k in
      match d with
      | S754_infinity _ => (d, true)
      | _ => (d, SFltb d d_min_normal && negb (d_exact d num base k))
      end.

Definition hex_val (b : byte) : option Z :=
  let c := bz b in
  if (48 <=? c) && (c <=? 57) then Some (c - 48)
  else if (97 <=? c) && (c <=? 102) then Some (c - 97 + 10)
  else if (65 <=? c) && (c <=? 70) then Some (c - 65 + 10)
  else None.

Fixpoint scan_hex (s : bytes) (acc : Z) : Z * bytes :=
  match s with
  | b :: s' => match hex_val b with Some d => scan_hex s' (acc * 16 + d) | None => (acc, s) end
  | [] => (acc, [])
  end.

Definition dist (a b : bytes) : Z := Z.of_nat (length a) - Z.of_nat (length b).

(** An exponent part introduced by [c] (or its upper case): sign and digits;
    nothing is consumed when no digit follows. *)
Definition scan_exponent (c : byte) (s : bytes) : Z * bytes :=
  match s with
  | b :: s' =>
      if Byte.eqb (byte_tolower b) c then
        let '(neg, s1) := scan_sign s' in
        match s1 with
        | d :: _ =>
            if byte_isdigit d then
              let '(v, rest) := scan_digits s1 0 in (if neg then - v else v, rest)
            else (0, s)
        | [] => (0, s)
        end
      else (0, s)
  | [] => (0, s)
  end.

(** Digits with an optional point, by the digit scanner of the base: the
    digits as an integer, how many stand behind the point, how many there are,
    and the rest. *)
Definition scan_point (scan : bytes -> Z -> Z * bytes) (s : bytes) : Z * Z * Z * bytes :=
  let '(v, s1) := scan s 0 in
  match s1 with
  | b :: s2 =>
      if Byte.eqb b x2e then
        let '(w, s3) := scan s2 v in
        let nf := dist s2 s3 in
        if dist s s1 + nf =? 0 then (0, 0, 0, s) else (w, nf, dist s s1 + nf, s3)
      else (v, 0, dist s s1, s1)
  | [] => (v, 0, dist s s1, s1)
  end.

Fixpoint prefix_ci (p s : bytes) : option bytes :=
  match p, s with
  | [], _ => Some s
  | x :: p', y :: s' => if Byte.eqb x (byte_tolower y) then prefix_ci p' s' else None
  | _, [] => None
  end.

Definition is_nan_char (b : byte) : bool :=
  byte_isdigit b || ((97 <=? bz (byte_tolower b)) && (bz (byte_tolower b) <=? 122)) || Byte.eqb b x5f.

(** The optional [(n-char-sequence)] behind [nan]. *)
Fixpoint nan_seq (s : bytes) : option bytes :=
  match s with
  | b :: s' => if Byte.eqb b x29 then Some s' else if is_nan_char b then nan_seq s' else None
  | [] => None
  end.

(** The magnitude: value, rest, range error; [None] without a subject. *)
Definition strtod_abs (s : bytes) : option (double * bytes * bool) :=
  match prefix_ci (B "infinity") s, prefix_ci (B "inf") s, prefix_ci (B "nan") s with
  | Some r, _, _ | None, Some r, _ => Some (S754_infinity false, r, false)
  | None, None, Some r =>
      match r with
      | b :: r' =>
          if Byte.eqb b x28 then
            Some (S754_nan, default r (nan_seq r'), false)
          else Some (S754_nan, r, false)
      | [] => Some (S754_nan, r, false)
      end
  | None, None, None =>
      let hex :=
        match prefix_ci (B "0x") s with
        | Some r => let '(v, nf, n, rest) := scan_point scan_hex r in
                    if n =? 0 then None else Some (v, nf, rest)
        | None => None
        end in
      match hex with
      | Some (v, nf, rest) =>
          let '(e, rest') := scan_exponent x70 rest in
          let '(d, r) := nearest v 2 (e - 4 * nf) in Some (d, rest', r)
      | None =>
          let '(v, nf, n, rest) := scan_point scan_digits s in
          if n =? 0 then None
          else
            let '(e, rest') := scan_exponent x65 rest in
            let '(d, r) := nearest v 10 (e - nf) in Some (d, rest', r)
      end
  end.

(** [strtod(s, &end)]: the value, [*end] onwards, [errno = ERANGE]. *)
Definition strtod (s : bytes) : double * bytes * bool :=
  let '(neg, s1) := scan_sign (skip_space s) in
  match strtod_abs s1 with
  | None => (S754_zero false, s, false)
  | Some (d, rest, r) => (if neg then SFopp d else d, rest, r)
  end.

(** ** Facts *)

Lemma d_to_u64_range (d : double) (z : Z) : d_to_u64 d = Some z -> is_u64 z.
Proof.
  unfold d_to_u64. destruct (d_trunc d) as [w|]; [|done]. intros H.
  destruct ((0 <=? w) && (w <=? UINT64_MAX)) eqn:E; [|done]. simplify_eq. bool_hyps. zlia.
Qed.

Lemma d_to_int_range (d : double) (z : Z) : d_to_int d = Some z -> is_int z.
Proof.
  unfold d_to_int. destruct (d_trunc d) as [w|]; [|done]. intros H.
  destruct ((INT_MIN <=? w) && (w <=? INT_MAX)) eqn:E; [|done]. simplify_eq. bool_hyps. zlia.
Qed.

Example ex_strtod_gib :
  let '(d, rest, err) := strtod (B " 3.6e0 GiB") in
  (d, rest, err, d_to_u64 (d_mul d (d_of_Z (2 ^ 30))), fmt_fixed 2 d, fmt_fixed 3 (d_div d (d_of_Z 7)))
  = (S754_finite false 8106479329266893 (-51), B " GiB", false, Some 3865470566, B "3.60", B "0.514").
Proof. reflexivity. Qed.

Example ex_strtod_edges :
  strtod (B "0x1.8p1") = (S754_finite false 6755399441055744 (-51), [], false) /\
  strtod (B "-.5x") = (S754_finite true 4503599627370496 (-53), B "x", false) /\
  strtod (B "1e400") = (S754_infinity false, [], true) /\
  strtod (B "1e") = (S754_finite false 4503599627370496 (-52), B "e", false) /\
  strtod (B "e1") = (S754_zero false, B "e1", false) /\
  strtod (B "4.9e-324") = (S754_finite false 1 (-1074), [], true).
Proof. repeat split; reflexivity. Qed.
