(* ===== verification/KeyIndex.v ===== *)
(** * Tables indexed by tensor id

    The pack index, the sidecar index and the binding tables of the context
    are arrays that are searched front to back with [strcmp] on a key.  The
    class [KeyIndex] is what such a table promises its clients; its instances
    are in Pack.v, TmPack.v and Context.v, and the laws below hold for all of
    them. *)
From S2P Require Import Prelude.

(** ** Linear search by key *)

(** [for (i = 0; i < n; i++) if (!strcmp(a[i].key, k)) return i;] *)
Definition find_key {A : Type} (key : A -> bytes) (l : list A) (k : bytes) : option (Z * A) :=
  find_index (fun a => str_eqb (key a) k) l 0.

Lemma find_none_not_in {A : Type} (key : A -> bytes) (l : list A) (k : bytes) :
  find_key key l k = None -> k ∉ key <$> l.
Proof.
  intros Hf Hin. apply list_elem_of_fmap in Hin as (a & -> & Ha).
  apply find_index_none in Hf. rewrite Forall_forall in Hf.
  specialize (Hf a Ha). by rewrite str_eqb_refl in Hf.
Qed.

Lemma not_in_find_none {A : Type} (key : A -> bytes) (l : list A) (k : bytes) :
  k ∉ key <$> l -> find_key key l k = None.
Proof.
  intros Hin. apply find_index_none, Forall_forall. intros a Ha.
  apply str_eqb_neq. intros <-. apply Hin. by apply list_elem_of_fmap_2.
Qed.

Lemma find_key_some {A : Type} (key : A -> bytes) (l : list A) (k : bytes) (j : Z) (a : A) :
  find_key key l k = Some (j, a) -> a ∈ l /\ key a = k /\ 0 <= j /\ l !! Z.to_nat j = Some a.
Proof.
  intros (Hin & Heq & Hj & Hl)%find_index_some. rewrite Z.sub_0_r in Hl.
  by apply str_eqb_eq in Heq.
Qed.

Lemma find_key_unique {A : Type} (key : A -> bytes) (l : list A) (i : nat) (a : A) :
  NoDup (key <$> l) -> l !! i = Some a -> find_key key l (key a) = Some (Z.of_nat i, a).
Proof.
  intros Hnd Hl. destruct (find_key key l (key a)) as [[j b]|] eqn:Hf.
  - apply find_key_some in Hf as (_ & Heq & Hj & Hb).
    assert (Z.to_nat j = i) as <-.
    { eapply NoDup_lookup; [exact Hnd| |].
      - rewrite list_lookup_fmap, Hb. simpl. by rewrite Heq.
      - by rewrite list_lookup_fmap, Hl. }
    rewrite Hl in Hb. injection Hb as <-. rewrite Z2Nat.id by lia. done.
  - apply find_none_not_in in Hf. exfalso. apply Hf.
    apply list_elem_of_fmap_2. by eapply list_elem_of_lookup_2.
Qed.

(** Appending an entry whose key is new keeps the keys unique. *)
Lemma NoDup_key_snoc {A : Type} (key : A -> bytes) (l : list A) (a : A) :
  NoDup (key <$> l) -> find_key key l (key a) = None -> NoDup (key <$> l ++ [a]).
Proof.
  intros Hnd Hf%find_none_not_in. rewrite fmap_app. apply NoDup_app.
  split; [done|]. split; [|apply NoDup_singleton].
  intros x Hx ->%list_elem_of_singleton. done.
Qed.

(** ** The interface *)

Class KeyIndex (T E : Type) := {
  ki_entries : T -> list E;
  ki_id : E -> bytes;
  ki_lookup : T -> bytes -> option E;
  ki_lookup_first : forall t id, ki_lookup t id = snd <$> find_key ki_id (ki_entries t) id
}.

Section Laws.
Context {T E : Type} `{KeyIndex T E}.

Definition ki_unique (t : T) : Prop := NoDup (ki_id <$> ki_entries t).

Lemma ki_lookup_spec (t : T) (id : bytes) (e : E) :
  ki_unique t -> ki_lookup t id = Some e <-> e ∈ ki_entries t /\ ki_id e = id.
Proof.
  intros Hnd. rewrite ki_lookup_first. split.
  - intros ([j b] & Hf & ->)%fmap_Some. apply find_key_some in Hf as (Hin & Heq & _). done.
  - intros [Hin <-]. apply list_elem_of_lookup in Hin as [i Hi].
    by rewrite (find_key_unique ki_id _ i e).
Qed.

Lemma ki_lookup_sound (t : T) (id : bytes) (e : E) :
  ki_lookup t id = Some e -> e ∈ ki_entries t /\ ki_id e = id.
Proof.
  rewrite ki_lookup_first. intros ([j b] & Hf & ->)%fmap_Some.
  by apply find_key_some in Hf as (? & ? & _).
Qed.

Lemma ki_lookup_none (t : T) (id : bytes) :
  ki_lookup t id = None <-> forall e, e ∈ ki_entries t -> ki_id e <> id.
Proof.
  rewrite ki_lookup_first, fmap_None. split.
  - intros Hf%find_none_not_in e He <-. apply Hf. by apply list_elem_of_fmap_2.
  - intros Hall. apply not_in_find_none. intros (e & -> & He)%list_elem_of_fmap.
    by eapply Hall.
Qed.
End Laws.
