(* ===== verification/Pack.v ===== *)
(** * The pack index (ds4_pack.c, ds4_pack.h)

    A pack index is a TSV file with one row per source tensor: which GPU shard
    holds its bytes, where, and how they were laid out.  This file models the
    whole component: parsing and validation of the index ([ds4_pack_open]),
    the queries, and the two checks against the outside world
    ([ds4_pack_reconcile], [ds4_pack_validate_shards]). *)
From S2P Require Import Prelude.
From S2P Require Import CNum.
From S2P Require Import TsvFile.
From S2P Require Import KeyIndex.

(** ** Data *)

Record ds4_pack_entry := PackEntry {
  semantic_tensor_id : bytes;
  source_name : bytes;
  source_dtype : bytes;
  source_shape : bytes;
  runtime_layout : bytes;
  kernel_family : bytes;
  shard_file : bytes;
  owning_gpu : Z;          (* int *)
  layer_id : Z;            (* int *)
  scale_offset : Z;        (* int64_t *)
  source_offset : Z;       (* uint64_t *)
  byte_length : Z;         (* uint64_t *)
  shard_offset : Z         (* uint64_t *)
}.

(** The tensor directory entry of the model file a row is checked against;
    [st_name] stands for the pair (name, name_len). *)
Record ds4_pack_source_tensor := SourceTensor {
  st_name : bytes;
  st_dtype : bytes;
  st_shape : bytes;
  st_offset : Z;
  st_length : Z
}.

Record ds4_pack_reconcile_summary := Summary {
  source_tensors : Z;
  pack_rows : Z;
  ok_rows : Z;
  failed_rows : Z;
  extra_pack_rows : Z
}.

(** [n_entries] is the length of [entries]. *)
Record ds4_pack := Pack {
  entries : list ds4_pack_entry;
  cap_entries : Z;
  pack_path : bytes
}.

Definition n_entries (p : ds4_pack) : Z := Z.of_nat (length (entries p)).

Definition DS4_PACK_COLS : nat := 14.

Definition ds4_pack_header : bytes := join_with TAB (map B
  ["semantic_tensor_id"; "source_name"; "source_dtype"; "source_shape";
   "runtime_layout"; "owning_gpu"; "layer_id"; "kernel_family"; "source_offset";
   "byte_length"; "shard_file"; "shard_offset"; "scale_offset"; "checksum"]%string).

(** ** Parsing *)

Definition pack_read_small_file `{Allocator} : bytes -> file_env -> res bytes :=
  read_small_file "pack index is unexpectedly large: %s".

(** snprintf(expect, 32, "gpu%d.weights", gpu) *)
Definition shard_name (gpu : Z) : bytes :=
  snprintf_trunc 32 (B "gpu" ++ print_i64 gpu ++ B ".weights").

Definition valid_shard_name (name : bytes) (gpu : Z) : bool :=
  match name with
  | [] => false
  | _ => if str_hasc name x2f || str_hasc name x5c then false
         else str_eqb name (shard_name gpu)
  end.

(** sizeof(ds4_pack_entry): seven pointers, two ints, four 64-bit fields. *)
Definition sizeof_pack_entry : Z := 96.

Definition pack_append `{Allocator} (pack : ds4_pack) (e : ds4_pack_entry) : res ds4_pack :=
  if n_entries pack =? cap_entries pack then
    let next := if cap_entries pack =? 0 then 256 else u64 (cap_entries pack * 2) in
    if (next <? cap_entries pack) || (SIZE_MAX / sizeof_pack_entry <? next) then
      fail "pack index has too many rows" []
    else if negb (malloc_ok (next * sizeof_pack_entry)) then
      fail "out of memory growing pack index" []
    else Ok {| entries := entries pack ++ [e]; cap_entries := next; pack_path := pack_path pack |}
  else Ok {| entries := entries pack ++ [e]; cap_entries := cap_entries pack; pack_path := pack_path pack |}.

(** Index and entry of the first match; [None] is -1.  The [int] the code
    returns holds every index: a file under 64 MiB has fewer rows. *)
Definition pack_find_semantic (pack : ds4_pack) (id : bytes) : option (Z * ds4_pack_entry) :=
  find_key semantic_tensor_id (entries pack) id.

Definition pack_find_source_name (pack : ds4_pack) (name : bytes) : option (Z * ds4_pack_entry) :=
  find_key source_name (entries pack) name.

Definition parse_pack_row `{Allocator} (pack : ds4_pack) (line : bytes) (line_no : Z) : res ds4_pack :=
  match split_tabs line DS4_PACK_COLS with
  | None => fail "pack index line %lu has %d columns, expected %d" [AZ line_no; AZ 15; AZ 14]
  | Some fields =>
  if negb (length fields =? DS4_PACK_COLS)%nat then
    fail "pack index line %lu has %d columns, expected %d"
         [AZ line_no; AZ (Z.of_nat (length fields)); AZ 14]
  else
  let field i : bytes := fields !!! (i : nat) in
  if negb (strdups_ok (map field [0; 1; 2; 3; 4; 7; 10]%nat)) then
    fail "out of memory parsing line %lu" [AZ line_no]
  else
  match parse_i32_field (field 5%nat) with
  | None => fail "bad owning_gpu on line %lu" [AZ line_no]
  | Some gpu =>
  if gpu <? 0 then fail "bad owning_gpu on line %lu" [AZ line_no] else
  match parse_i32_field (field 6%nat) with
  | None => fail "bad layer_id on line %lu" [AZ line_no]
  | Some layer =>
  match parse_u64_field (field 8%nat), parse_u64_field (field 9%nat),
        parse_u64_field (field 11%nat), parse_i64_field (field 12%nat) with
  | Some src_off, Some len, Some shard_off, Some scale_off =>
      let e := {| semantic_tensor_id := field 0%nat; source_name := field 1%nat;
                  source_dtype := field 2%nat; source_shape := field 3%nat;
                  runtime_layout := field 4%nat; kernel_family := field 7%nat;
                  shard_file := field 10%nat; owning_gpu := gpu; layer_id := layer;
                  scale_offset := scale_off; source_offset := src_off;
                  byte_length := len; shard_offset := shard_off |} in
      if len =? 0 then fail "zero byte_length on line %lu" [AZ line_no]
      else if (UINT64_MAX - len <? src_off) || (UINT64_MAX - len <? shard_off) then
        fail "offset overflow on line %lu" [AZ line_no]
      else if bool_decide (is_Some (pack_find_semantic pack (semantic_tensor_id e))) then
        fail "duplicate semantic_tensor_id on line %lu" [AZ line_no]
      else if bool_decide (is_Some (pack_find_source_name pack (source_name e))) then
        fail "duplicate source_name on line %lu" [AZ line_no]
      else if negb (str_eqb (shard_file e) []) && negb (valid_shard_name (shard_file e) gpu) then
        fail "unexpected shard_file '%s' on line %lu" [AS (field 10%nat); AZ line_no]
      else pack_append pack e
  | _, _, _, _ => fail "bad numeric field on line %lu" [AZ line_no]
  end end end end.

(** sizeof(struct ds4_pack) *)
Definition sizeof_pack : Z := 32.

(** [path] is [None] for a null pointer; the caller's [out] is the result. *)
Definition ds4_pack_open `{Allocator} (path : option bytes) (f : file_env) : res ds4_pack :=
  match path with
  | None | Some [] => fail "missing pack index path" []
  | Some path =>
      buf <- pack_read_small_file path f ;;
      if has_utf8_bom buf then fail "pack index has a UTF-8 BOM" []
      else if str_hasc buf CR then fail "pack index must use LF line endings" []
      else if negb (malloc_ok sizeof_pack) then fail "out of memory allocating pack index" []
      else if negb (strdups_ok [path]) then fail "out of memory storing pack path" []
      else
        pack <- index_lines ds4_pack_header "pack index header does not match expected schema"
                  parse_pack_row {| entries := []; cap_entries := 0; pack_path := path |} buf ;;
        if n_entries pack =? 0 then fail "pack index has no tensor rows" []
        else Ok pack
  end.

(** ** Queries *)

Definition ds4_pack_count (p : option ds4_pack) : Z :=
  match p with Some pack => n_entries pack | None => 0 end.

Definition ds4_pack_max_gpu (p : option ds4_pack) : Z :=
  match p with
  | None => -1
  | Some pack => foldl (fun m e => if m <? owning_gpu e then owning_gpu e else m) (-1) (entries pack)
  end.

Definition ds4_pack_payload_bytes (p : option ds4_pack) (gpu : Z) : Z :=
  match p with
  | None => 0
  | Some pack =>
      if gpu <? 0 then 0
      else foldl (fun total e => if owning_gpu e =? gpu then u64 (total + byte_length e) else total)
                 0 (entries pack)
  end.

Definition ds4_pack_arena_bytes (p : option ds4_pack) (gpu : Z) : Z :=
  match p with
  | None => 0
  | Some pack =>
      if gpu <? 0 then 0
      else foldl (fun fin e =>
                    if (owning_gpu e =? gpu) && (fin <? u64 (shard_offset e + byte_length e))
                    then u64 (shard_offset e + byte_length e) else fin)
                 0 (entries pack)
  end.

Definition ds4_pack_tensor_count (p : option ds4_pack) (gpu : Z) : Z :=
  match p with
  | None => 0
  | Some pack =>
      if gpu <? 0 then 0
      else foldl (fun total e => if owning_gpu e =? gpu then u64 (total + 1) else total)
                 0 (entries pack)
  end.

(** [None] is the return value 1. *)
Definition ds4_pack_lookup (p : option ds4_pack) (id : option bytes) : option ds4_pack_entry :=
  match p, id with
  | Some pack, Some id => snd <$> pack_find_semantic pack id
  | _, _ => None
  end.

(** The callback threads the caller's state [ud]; an error stops the loop. *)
Definition ds4_pack_for_each {U E : Type} (pack : ds4_pack)
    (cb : U -> ds4_pack_entry -> result U E) (ud : U) : result U E :=
  rfold cb ud (entries pack).

(** ** Reconciliation with the model file *)

Definition row_status (e : option ds4_pack_entry) (s : ds4_pack_source_tensor)
    (source_file_size n_gpus : Z) : string :=
  match e with
  | None => "MISSING_PACK_ROW"%string
  | Some e =>
      if (0 <? n_gpus) && ((owning_gpu e <? 0) || (n_gpus <=? owning_gpu e)) then "BAD_OWNING_GPU"%string
      else if (source_file_size <? source_offset e) ||
              (source_file_size - source_offset e <? byte_length e) then "OFFSET_OUT_OF_RANGE"%string
      else if negb (str_eqb (source_dtype e) (st_dtype s)) then "DTYPE_MISMATCH"%string
      else if negb (str_eqb (source_shape e) (st_shape s)) then "SHAPE_MISMATCH"%string
      else if negb (source_offset e =? st_offset s) then "OFFSET_MISMATCH"%string
      else if negb (byte_length e =? st_length s) then "BYTE_LENGTH_MISMATCH"%string
      else "OK"%string
  end.

Definition entry_report_line (e : ds4_pack_entry) (status : string) : bytes :=
  tsv_line [semantic_tensor_id e; source_name e; source_dtype e; source_shape e;
            print_i64 (owning_gpu e); print_i64 (layer_id e); print_u64 (byte_length e); B status].

Definition missing_report_line (s : ds4_pack_source_tensor) (status : string) : bytes :=
  tsv_line [B "-"; st_name s; st_dtype s; st_shape s; B "-"; B "-"; print_u64 (st_length s); B status].

(** The first loop's state: counters, the [matched] flags and the report. *)
Record reconcile_state := ReconcileState {
  rs_ok : Z;
  rs_failed : Z;
  rs_extra : Z;
  rs_matched : list bool;
  rs_report : bytes
}.

Definition reconcile_source (pack : ds4_pack) (size n_gpus : Z)
    (st : reconcile_state) (s : ds4_pack_source_tensor) : reconcile_state :=
  let found := pack_find_source_name pack (st_name s) in
  let matched := match found with
                 | Some (idx, _) => <[Z.to_nat idx := true]> (rs_matched st)
                 | None => rs_matched st
                 end in
  let status := row_status (snd <$> found) s size n_gpus in
  let good := String.eqb status "OK" in
  {| rs_ok := if good then u64 (rs_ok st + 1) else rs_ok st;
     rs_failed := if good then rs_failed st else u64 (rs_failed st + 1);
     rs_extra := rs_extra st;
     rs_matched := matched;
     rs_report := rs_report st ++
       match found with
       | Some (_, e) => entry_report_line e status
       | None => missing_report_line s status
       end |}.

Definition reconcile_entry (st : reconcile_state) (me : bool * ds4_pack_entry) : reconcile_state :=
  let '(matched, e) := me in
  if matched then st
  else {| rs_ok := rs_ok st; rs_failed := u64 (rs_failed st + 1);
          rs_extra := u64 (rs_extra st + 1); rs_matched := rs_matched st;
          rs_report := rs_report st ++ entry_report_line e "EXTRA_PACK_ROW" |}.

Definition reconcile_header : bytes :=
  tsv_line (map B ["semantic_tensor_id"; "source_name"; "source_dtype"; "source_shape";
                   "owning_gpu"; "layer_id"; "byte_length"; "status"]%string).

(** What [ds4_pack_reconcile] leaves in [report] and [*summary], with its
    return value. *)
Record reconcile_out := ReconcileOut {
  ro_report : bytes;
  ro_summary : ds4_pack_reconcile_summary;
  ro_result : res unit
}.

Definition empty_summary : ds4_pack_reconcile_summary := Summary 0 0 0 0 0.

Definition ds4_pack_reconcile `{Allocator} (p : option ds4_pack)
    (source : option (list ds4_pack_source_tensor)) (source_file_size n_gpus : Z) : reconcile_out :=
  match p, source with
  | Some pack, Some source =>
      if negb (malloc_ok (n_entries pack)) then
        ReconcileOut [] empty_summary (fail "out of memory reconciling pack" [])
      else
      let st0 := ReconcileState 0 0 0 (replicate (length (entries pack)) false) reconcile_header in
      let st1 := foldl (reconcile_source pack source_file_size n_gpus) st0 source in
      let st2 := foldl reconcile_entry st1 (zip (rs_matched st1) (entries pack)) in
      let local := {| source_tensors := Z.of_nat (length source); pack_rows := n_entries pack;
                      ok_rows := rs_ok st2; failed_rows := rs_failed st2;
                      extra_pack_rows := rs_extra st2 |} in
      ReconcileOut (rs_report st2) local
        (if negb (failed_rows local =? 0) || negb (extra_pack_rows local =? 0) ||
            negb (ok_rows local =? pack_rows local)
         then fail "pack reconcile failed: ok=%lu failed=%lu extra=%lu"
                   [AZ (ok_rows local); AZ (failed_rows local); AZ (extra_pack_rows local)]
         else Ok tt)
  | _, _ => ReconcileOut [] empty_summary (fail "missing reconcile input" [])
  end.

(** ** Shard files *)

Fixpoint strip_trailing (c : byte) (rev_dir : bytes) : bytes :=
  match rev_dir with
  | b :: r => if Byte.eqb b c then strip_trailing c r else rev_dir
  | [] => []
  end.

(** [None] when the joined path does not fit. *)
Definition join_path (outlen : Z) (dir name : bytes) : option bytes :=
  let out := rev (strip_trailing x2f (rev dir)) ++ x2f :: name in
  if outlen <=? Z.of_nat (length out) then None else Some out.

(** [stat(path)]: [st_size], or [strerror(errno)] when the call fails. *)
Definition file_size (stat : bytes -> result Z bytes) (path : bytes) : res Z :=
  match stat path with
  | Error err => fail "cannot stat %s: %s" [AS path; AS err]
  | Ok n => if n <? 0 then fail "negative size for %s" [AS path] else Ok n
  end.

Definition shard_header : bytes :=
  tsv_line (map B ["shard_file"; "owning_gpu"; "required_bytes"; "file_bytes"; "status"]%string).

(** One turn of the loop over the GPUs; the report is kept on failure too. *)
Definition validate_shard (stat : bytes -> result Z bytes) (pack : ds4_pack) (dir : bytes)
    (report : bytes) (gpu : Z) : result bytes (bytes * diag) :=
  let required := ds4_pack_arena_bytes (Some pack) gpu in
  if required =? 0 then Ok report
  else
    let name := shard_name gpu in
    match join_path 4096 dir name with
    | None => Error (report, Diag "shard path is too long for %s" [AS name])
    | Some path =>
        match file_size stat path with
        | Error e => Error (report, e)
        | Ok size =>
            let status := if required <=? size then "OK"%string else "SHORT_SHARD"%string in
            let report' := report ++ tsv_line [name; print_i64 gpu; print_u64 required;
                                               print_u64 size; B status] in
            if size <? required then
              Error (report', Diag "shard %s is short: have %lu, need %lu"
                                   [AS path; AZ size; AZ required])
            else Ok report'
        end
    end.

Definition ds4_pack_validate_shards (stat : bytes -> result Z bytes) (p : option ds4_pack)
    (dir : option bytes) : result bytes (bytes * diag) :=
  match p, dir with
  | Some pack, Some ((_ :: _) as dir) =>
      match rfold (validate_shard stat pack dir) shard_header
                  (map Z.of_nat (seq 0 (Z.to_nat (ds4_pack_max_gpu (Some pack) + 1)))) with
      | Error e => Error e
      | Ok report =>
          rfold (fun report e =>
                   if negb (valid_shard_name (shard_file e) (owning_gpu e)) then
                     Error (report, Diag "bad shard file for %s" [AS (semantic_tensor_id e)])
                   else Ok report) report (entries pack)
      end
  | _, _ => Error ([], Diag "missing shard validation input" [])
  end.

(** ** Well-formed indexes *)

Definition entry_wf (e : ds4_pack_entry) : Prop :=
  0 <= owning_gpu e <= INT_MAX /\ is_int (layer_id e) /\ is_i64 (scale_offset e) /\
  is_u64 (source_offset e) /\ is_u64 (shard_offset e) /\ 0 < byte_length e /\
  source_offset e + byte_length e <= UINT64_MAX /\
  shard_offset e + byte_length e <= UINT64_MAX /\
  (shard_file e = [] \/ valid_shard_name (shard_file e) (owning_gpu e) = true).

Record pack_wf (p : ds4_pack) : Prop := {
  wf_entries : Forall entry_wf (entries p);
  wf_ids : NoDup (semantic_tensor_id <$> entries p);
  wf_names : NoDup (source_name <$> entries p)
}.

#[export] Instance pack_index : KeyIndex ds4_pack ds4_pack_entry := {
  ki_entries := entries;
  ki_id := semantic_tensor_id;
  ki_lookup p id := ds4_pack_lookup (Some p) (Some id);
  ki_lookup_first _ _ := eq_refl
}.

Lemma pack_append_entries `{Allocator} (p p' : ds4_pack) (e : ds4_pack_entry) :
  pack_append p e = Ok p' -> entries p' = entries p ++ [e].
Proof. unfold pack_append. intros Ha. repeat case_match; simplify_eq; done. Qed.

Lemma pack_wf_snoc (p p' : ds4_pack) (e : ds4_pack_entry) :
  pack_wf p -> entry_wf e -> entries p' = entries p ++ [e] ->
  pack_find_semantic p (semantic_tensor_id e) = None ->
  pack_find_source_name p (source_name e) = None -> pack_wf p'.
Proof.
  intros [H1 H2 H3] He Hent Hid Hname.
  split; rewrite Hent; [apply Forall_app; auto|by apply NoDup_key_snoc..].
Qed.

(** What a parsed row contributes: one entry, valid and new. *)
Lemma parse_pack_row_ok `{Allocator} (p p' : ds4_pack) (line : bytes) (n : Z) :
  parse_pack_row p line n = Ok p' ->
  exists e, entries p' = entries p ++ [e] /\ entry_wf e /\
    pack_find_semantic p (semantic_tensor_id e) = None /\
    pack_find_source_name p (source_name e) = None.
Proof.
  unfold parse_pack_row. intros Hr.
  destruct (split_tabs _ _) as [fields|]; [|done].
  destruct (negb _) eqn:E0 in Hr; [done|].
  destruct (negb _) eqn:E1 in Hr; [done|].
  destruct (parse_i32_field _) as [gpu|] eqn:Hgpu in Hr; [|done].
  destruct (gpu <? 0) eqn:E2; [done|].
  destruct (parse_i32_field _) as [layer|] eqn:Hlayer in Hr; [|done].
  destruct (parse_u64_field _) as [src|] eqn:Hsrc in Hr; [|done].
  destruct (parse_u64_field _) as [len|] eqn:Hlen in Hr; [|done].
  destruct (parse_u64_field _) as [shard|] eqn:Hshard in Hr; [|done].
  destruct (parse_i64_field _) as [scale|] eqn:Hscale in Hr; [|done].
  destruct (len =? 0) eqn:E3; [done|].
  destruct (_ || _) eqn:E4 in Hr; [done|].
  case_bool_decide as E5; [done|]. case_bool_decide as E6; [done|].
  destruct (_ && _) eqn:E7 in Hr; [done|].
  apply pack_append_entries in Hr. eexists. split; [exact Hr|].
  apply parse_i32_field_range in Hgpu, Hlayer. apply parse_i64_field_range in Hscale.
  apply parse_u64_field_range in Hsrc, Hlen, Hshard. bool_hyps.
  split; [|split; by apply eq_None_not_Some].
  unfold entry_wf. simpl in *. repeat split; try zlia.
  apply andb_false_iff in E7 as [E7|E7]; apply negb_false_iff in E7;
    [left; by apply str_eqb_eq|by right].
Qed.

Lemma ds4_pack_open_inv `{Allocator} (path : option bytes) (f : file_env) (p : ds4_pack) :
  ds4_pack_open path f = Ok p ->
  exists buf path0, index_lines ds4_pack_header "pack index header does not match expected schema"
                parse_pack_row {| entries := []; cap_entries := 0; pack_path := path0 |} buf = Ok p /\
    n_entries p <> 0.
Proof.
  unfold ds4_pack_open. destruct path as [[|c path]|]; [done| |done].
  destruct (pack_read_small_file _ _) as [buf|]; [|done].
  destruct (has_utf8_bom buf); [done|]. destruct (str_hasc buf CR); [done|].
  destruct (negb _); [done|]. destruct (negb _); [done|].
  destruct (index_lines _ _ _ _ _) as [q|] eqn:E; [|done].
  destruct (Z.eqb_spec (n_entries q) 0); [done|]. intros [= <-]. eauto.
Qed.

(** ** The shard name *)

Lemma shard_name_full (gpu : Z) :
  is_int gpu -> shard_name gpu = B "gpu" ++ print_i64 gpu ++ B ".weights".
Proof.
  intros Hg. unfold shard_name, snprintf_trunc. apply firstn_all2.
  rewrite !length_app. unfold print_i64.
  assert (forall n, 0 <= n -> n < 10 ^ 10 -> (length (print_u64 n) <= 10)%nat) as Hd.
  { intros n Hn0 Hn. unfold print_u64.
    enough (forall (k : nat) (m : Z) (m' : nat) acc, 0 <= m < 10 ^ Z.of_nat k -> (1 <= k)%nat ->
              (length (dec_digits (k + m') m acc) <= k + length acc)%nat) as Hk.
    { apply (Hk 10%nat n 10%nat []); simpl; lia. }
    clear. intros k. induction k as [|k IH]; intros m m' acc Hm H1; [lia|]. simpl.
    destruct (Z.ltb_spec m 10); [simpl; lia|].
    destruct k as [|k]; [simpl in Hm; lia|].
    etrans; [apply IH; [|lia]|simpl; lia].
    rewrite (Nat2Z.inj_succ (S k)), Z.pow_succ_r in Hm by lia.
    split; [apply Z.div_pos; lia|]. apply Z.div_lt_upper_bound; lia. }
  destruct (Z.ltb_spec gpu 0); simpl length.
  - specialize (Hd (- gpu) ltac:(zlia) ltac:(zlia)). lia.
  - specialize (Hd gpu ltac:(zlia) ltac:(zlia)). lia.
Qed.

Lemma valid_shard_name_eq (name : bytes) (gpu : Z) :
  valid_shard_name name gpu = true -> name = shard_name gpu.
Proof.
  unfold valid_shard_name. destruct name; [done|]. case_match; [done|]. apply str_eqb_eq.
Qed.

(** ** Round trip *)

(** The index text an offline packer writes for a list of entries. *)
Definition render_row (e : ds4_pack_entry) : bytes :=
  join_with TAB
    [semantic_tensor_id e; source_name e; source_dtype e; source_shape e; runtime_layout e;
     print_i64 (owning_gpu e); print_i64 (layer_id e); kernel_family e;
     print_u64 (source_offset e); print_u64 (byte_length e); shard_file e;
     print_u64 (shard_offset e); print_i64 (scale_offset e); B "pending"].

Definition render_index (es : list ds4_pack_entry) : bytes :=
  text_of_lines (ds4_pack_header :: map render_row es).

Definition entry_plain (e : ds4_pack_entry) : Prop :=
  Forall plain [semantic_tensor_id e; source_name e; source_dtype e; source_shape e;
                runtime_layout e; kernel_family e; shard_file e].

Section RoundTrip.
Context `{Allocator} (Hmalloc : forall n, malloc_ok n = true).

Lemma parse_render_row (p : ds4_pack) (e : ds4_pack_entry) (n : Z) :
  entry_wf e -> entry_plain e ->
  pack_find_semantic p (semantic_tensor_id e) = None ->
  pack_find_source_name p (source_name e) = None ->
  parse_pack_row p (render_row e) n = pack_append p e.
Proof.
  intros (Hg & Hl & Hs & Hsrc & Hsh & Hlen & Ho1 & Ho2 & Hf) Hpl Hid Hname.
  unfold parse_pack_row, render_row.
  rewrite split_tabs_join; [|done|done|].
  2: { unfold entry_plain in Hpl. rewrite !Forall_cons in Hpl.
       destruct Hpl as (?&?&?&?&?&?&?&_).
       eapply Forall_impl with (P := plain); [plain_fields|unfold plain; tauto]. }
  unfold DS4_PACK_COLS. cbn [length Nat.eqb negb]. rewrite strdups_ok_unlimited by done.
  cbn [negb]. cbn -[parse_i32_field parse_u64_field parse_i64_field pack_append
    pack_find_semantic pack_find_source_name print_u64 print_i64 UINT64_MAX Z.ltb Z.eqb Z.sub].
  rewrite !parse_print_i32 by zlia. rewrite !parse_print_u64 by zlia.
  rewrite parse_print_i64 by done.
  destruct (Z.ltb_spec (owning_gpu e) 0); [zlia|].
  destruct (Z.eqb_spec (byte_length e) 0); [zlia|].
  destruct (Z.ltb_spec (UINT64_MAX - byte_length e) (source_offset e)); [zlia|].
  destruct (Z.ltb_spec (UINT64_MAX - byte_length e) (shard_offset e)); [zlia|].
  cbn [orb]. rewrite Hid, Hname.
  rewrite bool_decide_false by (intros []; done).
  destruct Hf as [Hf|Hf]; rewrite Hf.
  - rewrite str_eqb_refl. destruct e; simpl in *; by subst.
  - rewrite andb_false_r. by destruct e.
Qed.

Lemma pack_append_room (p : ds4_pack) (e : ds4_pack_entry) :
  0 <= cap_entries p <= 512 + 2 * n_entries p -> n_entries p < 2 ^ 40 ->
  exists p', pack_append p e = Ok p' /\ entries p' = entries p ++ [e] /\
    0 <= cap_entries p' <= 512 + 2 * n_entries p'.
Proof.
  intros Hcap Hn. unfold pack_append, sizeof_pack_entry.
  assert (forall q, entries q = entries p ++ [e] -> n_entries q = n_entries p + 1) as Hq.
  { intros q Hq. unfold n_entries. rewrite Hq, length_app. simpl. lia. }
  pose proof (Nat2Z.is_nonneg (length (entries p))) as Hn0. fold (n_entries p) in Hn0.
  destruct (Z.eqb_spec (n_entries p) (cap_entries p)) as [Heq|].
  - set (next := if cap_entries p =? 0 then 256 else u64 (cap_entries p * 2)).
    assert (cap_entries p <= next <= 512 + 2 * n_entries p) as Hnext.
    { subst next. destruct (Z.eqb_spec (cap_entries p) 0); [lia|].
      rewrite u64_small by zlia. lia. }
    destruct (Z.ltb_spec next (cap_entries p)); [lia|].
    destruct (Z.ltb_spec (SIZE_MAX / 96) next) as [Hx|].
    { exfalso. assert (2 ^ 42 <= SIZE_MAX / 96) by (vm_compute; done). lia. }
    rewrite Hmalloc. simpl. eexists. split; [done|]. split; [done|].
    rewrite Hq by done. simpl. lia.
  - eexists. split; [done|]. split; [done|]. rewrite Hq by done. simpl. lia.
Qed.

Lemma rows_render (es : list ds4_pack_entry) : forall (p : ds4_pack) (n : Z),
  Forall entry_wf es -> Forall entry_plain es ->
  NoDup (semantic_tensor_id <$> entries p ++ es) -> NoDup (source_name <$> entries p ++ es) ->
  0 <= cap_entries p <= 512 + 2 * n_entries p ->
  Z.of_nat (length (entries p ++ es)) < 2 ^ 40 ->
  exists p' n',
    rfold (fun '(p, n) l => q <- parse_pack_row p l (n + 1) ;; Ok (q, n + 1)) (p, n)
          (map render_row es) = Ok (p', n') /\ entries p' = entries p ++ es.
Proof.
  induction es as [|e es IH]; intros p n Hwf Hpl Hid Hname Hcap Hlen.
  { eexists p, n. by rewrite app_nil_r. }
  apply Forall_cons in Hwf as [He Hwf]. apply Forall_cons in Hpl as [Hpe Hpl].
  rewrite length_app in Hlen. simpl in Hlen.
  destruct (pack_append_room p e) as (p1 & Ha & Hent & Hc1); [done|unfold n_entries; lia|].
  simpl. rewrite parse_render_row; [|done..| |].
  - rewrite Ha. destruct (IH p1 (n + 1)) as (p' & n' & Hr & Hp'); try done.
    + by rewrite Hent, <- app_assoc.
    + by rewrite Hent, <- app_assoc.
    + rewrite Hent, !length_app. simpl. lia.
    + exists p', n'. rewrite Hr, Hp', Hent, <- app_assoc. done.
  - apply not_in_find_none. rewrite fmap_app in Hid. apply NoDup_app in Hid as (_ & Hd & _).
    intros Hin. apply (Hd _ Hin). by left.
  - apply not_in_find_none. rewrite fmap_app in Hname. apply NoDup_app in Hname as (_ & Hd & _).
    intros Hin. apply (Hd _ Hin). by left.
Qed.
End RoundTrip.

Lemma render_row_line (e : ds4_pack_entry) :
  entry_wf e -> entry_plain e ->
  render_row e <> [] /\ (NUL ∉ render_row e) /\ (LF ∉ render_row e) /\ (CR ∉ render_row e).
Proof.
  intros (Hg & Hl & Hs & Hsrc & Hsh & Hlen & _) Hpl.
  assert (forall l, Forall plain l ->
    (NUL ∉ join_with TAB l) /\ (LF ∉ join_with TAB l) /\ (CR ∉ join_with TAB l)) as Hj.
  { intros l Hall. induction l as [|x [|y l] IH]; [simpl; set_solver| |].
    - apply Forall_cons in Hall as [Hx _]. unfold plain in Hx. simpl. tauto.
    - apply Forall_cons in Hall as [Hx Hall]. specialize (IH Hall). unfold plain in Hx.
      change (join_with TAB (x :: y :: l)) with (x ++ TAB :: join_with TAB (y :: l)).
      rewrite !not_elem_of_app, !not_elem_of_cons.
      assert (NUL <> TAB /\ LF <> TAB /\ CR <> TAB) by (repeat split; discriminate). tauto. }
  split.
  - unfold render_row. simpl. by destruct (semantic_tensor_id e).
  - apply Hj. unfold entry_plain in Hpl. rewrite !Forall_cons in Hpl.
    destruct Hpl as (?&?&?&?&?&?&?&_). plain_fields.
Qed.

(** ** Reconciliation *)

Section Reconcile.
Context (pack : ds4_pack) (size n_gpus : Z).

Definition source_good (s : ds4_pack_source_tensor) : bool :=
  String.eqb (row_status (snd <$> pack_find_source_name pack (st_name s)) s size n_gpus) "OK".

Lemma reconcile_sources (src : list ds4_pack_source_tensor) : forall st,
  0 <= rs_ok st -> 0 <= rs_failed st ->
  rs_ok st + rs_failed st + Z.of_nat (length src) <= UINT64_MAX ->
  let st' := foldl (reconcile_source pack size n_gpus) st src in
  rs_ok st' = rs_ok st + countZ source_good src /\
  rs_failed st' = rs_failed st + (Z.of_nat (length src) - countZ source_good src) /\
  rs_extra st' = rs_extra st /\
  length (rs_matched st') = length (rs_matched st) /\
  (forall i, (i < length (rs_matched st))%nat ->
     rs_matched st' !! i = Some true <->
     rs_matched st !! i = Some true \/
     exists s j e, s ∈ src /\ pack_find_source_name pack (st_name s) = Some (j, e) /\ Z.to_nat j = i).
Proof.
  induction src as [|s src IH]; intros st H1 H2 Hm; simpl.
  { unfold countZ. simpl. repeat split; try lia; try done; [by left|].
    intros [?|(? & ? & ? & []%elem_of_nil & _)]; done. }
  specialize (IH (reconcile_source pack size n_gpus st s)).
  unfold countZ in *. simpl. fold (source_good s).
  change (String.eqb _ "OK") with (source_good s) in *.
  simpl length in Hm. destruct IH as (I1 & I2 & I3 & I4 & I5).
  1,2: simpl; destruct (_ =? _)%string; try done; rewrite u64_small; zlia.
  1: simpl; destruct (_ =? _)%string; rewrite u64_small; zlia.
  rewrite I1, I2, I3. simpl. fold (source_good s).
  assert (length (rs_matched (reconcile_source pack size n_gpus st s)) = length (rs_matched st)) as Hl.
  { simpl. destruct (pack_find_source_name _ _) as [[j e]|]; [apply length_insert|done]. }
  split; [destruct (source_good s); [rewrite u64_small by zlia|]; lia|].
  split; [destruct (source_good s); [|rewrite u64_small by zlia]; lia|].
  split; [done|]. split; [by rewrite I4|].
  intros i Hi. rewrite I5 by (by rewrite Hl). simpl.
  destruct (pack_find_source_name pack (st_name s)) as [[j e]|] eqn:Ef.
  - destruct (decide (Z.to_nat j = i)) as [<-|Hne].
    + rewrite list_lookup_insert_eq by done. split; [|by left].
      intros _. right. exists s, j, e. split; [by left|done].
    + rewrite list_lookup_insert_ne by done.
      split; (intros [?|(s' & j' & e' & Hin & Hf & Hj)]; [by left|right]).
      * exists s', j', e'. split; [by right|done].
      * exists s', j', e'. split; [|done].
        apply elem_of_cons in Hin as [-> |?]; [|done]. congruence.
  - split; (intros [?|(s' & j' & e' & Hin & Hf & Hj)]; [by left|right]).
    + exists s', j', e'. split; [by right|done].
    + exists s', j', e'. split; [|done].
      apply elem_of_cons in Hin as [-> |?]; [|done]. congruence.
Qed.

Lemma reconcile_entries (l : list (bool * ds4_pack_entry)) : forall st,
  0 <= rs_failed st -> 0 <= rs_extra st ->
  rs_failed st + Z.of_nat (length l) <= UINT64_MAX ->
  rs_extra st + Z.of_nat (length l) <= UINT64_MAX ->
  let st' := foldl reconcile_entry st l in
  rs_ok st' = rs_ok st /\
  rs_failed st' = rs_failed st + countZ (fun me => negb (fst me)) l /\
  rs_extra st' = rs_extra st + countZ (fun me => negb (fst me)) l.
Proof.
  unfold countZ. induction l as [|[m e] l IH]; intros st H1 H2 H3 H4; simpl in *; [lia|].
  destruct m; simpl.
  - destruct (IH st) as (? & ? & ?); lia.
  - destruct (IH (reconcile_entry st (false, e))) as (I1 & I2 & I3); simpl;
      rewrite ?u64_small by zlia; try lia.
    simpl in I1, I2, I3. rewrite ?u64_small in * by zlia. lia.
Qed.
End Reconcile.

Lemma pack_arena_max (p : ds4_pack) (gpu : Z) :
  pack_wf p -> 0 <= gpu ->
  ds4_pack_arena_bytes (Some p) gpu =
    foldl (fun m e => if (owning_gpu e =? gpu) && (m <? shard_offset e + byte_length e)
                      then shard_offset e + byte_length e else m) 0 (entries p).
Proof.
  intros [Hwf _ _] Hg. unfold ds4_pack_arena_bytes.
  destruct (Z.ltb_spec gpu 0); [lia|]. clear -Hwf. generalize 0 as m.
  induction Hwf as [|e l He _ IH]; intros m; simpl; [done|].
  destruct He as (_ & _ & _ & _ & ? & ? & _ & ? & _).
  rewrite u64_small by zlia. apply IH.
Qed.

Lemma pack_max_gpu_bound (p : ds4_pack) (e : ds4_pack_entry) :
  e ∈ entries p -> owning_gpu e <= ds4_pack_max_gpu (Some p).
Proof.
  intros He. unfold ds4_pack_max_gpu.
  pose proof (foldl_max_spec (fun _ => true) owning_gpu (entries p) (-1)) as (_ & H & _).
  cbv beta in H. simpl in H. by apply H.
Qed.

(** The sizes the shard loop has checked. *)
Lemma validate_shard_inv (stat : bytes -> result Z bytes) (p : ds4_pack) (dir report report' : bytes) (gpu : Z) :
  validate_shard stat p dir report gpu = Ok report' ->
  ds4_pack_arena_bytes (Some p) gpu = 0 \/
  exists path size, join_path 4096 dir (shard_name gpu) = Some path /\
    stat path = Ok size /\ ds4_pack_arena_bytes (Some p) gpu <= size.
Proof.
  unfold validate_shard. destruct (Z.eqb_spec (ds4_pack_arena_bytes (Some p) gpu) 0); [by left|].
  destruct (join_path _ _ _) as [path|]; [|done].
  unfold file_size. destruct (stat path) as [size|err] eqn:Es; [|done].
  destruct (size <? 0); [done|].
  destruct (Z.ltb_spec size (ds4_pack_arena_bytes (Some p) gpu)); [done|].
  intros _. right. exists path, size. done.
Qed.

Lemma ds4_pack_arena_upper (p : ds4_pack) (gpu : Z) (e : ds4_pack_entry) :
  pack_wf p -> 0 <= gpu -> e ∈ entries p -> owning_gpu e = gpu ->
  shard_offset e + byte_length e <= ds4_pack_arena_bytes (Some p) gpu.
Proof.
  intros Hwf Hg He Heg. rewrite pack_arena_max by done.
  pose proof (foldl_max_spec (fun e => owning_gpu e =? gpu)
                (fun e => shard_offset e + byte_length e) (entries p) 0) as (_ & H & _).
  apply H; [done|]. by apply Z.eqb_eq.
Qed.

(** What the two counters say, once [matched] holds the rows found. *)
Lemma reconcile_meaning (p : ds4_pack) (src : list ds4_pack_source_tensor) (size n_gpus : Z)
    (matched : list bool) :
  NoDup (source_name <$> entries p) -> length matched = length (entries p) ->
  (forall i, (i < length (entries p))%nat ->
     matched !! i = Some true <->
     exists s j e, s ∈ src /\ pack_find_source_name p (st_name s) = Some (j, e) /\ Z.to_nat j = i) ->
  ((forall s, s ∈ src -> negb (source_good p size n_gpus s) = false) /\
   (forall me : bool * ds4_pack_entry, me ∈ zip matched (entries p) -> negb me.1 = false) /\
   length src = length (entries p)) <->
  ((forall s, s ∈ src -> exists e, e ∈ entries p /\ source_name e = st_name s /\
     row_status (Some e) s size n_gpus = "OK"%string) /\
   (forall e, e ∈ entries p -> exists s, s ∈ src /\ st_name s = source_name e) /\
   length src = length (entries p)).
Proof.
  intros Hnd Hlen Hmat.
  assert (forall s, s ∈ src -> negb (source_good p size n_gpus s) = false <->
    exists e, e ∈ entries p /\ source_name e = st_name s /\
      row_status (Some e) s size n_gpus = "OK"%string) as Hgood.
  { intros s _. rewrite negb_false_iff. unfold source_good, pack_find_source_name.
    rewrite String.eqb_eq. split.
    - intros Hs. destruct (find_key _ _ _) as [[j e]|] eqn:Hf; [|done].
      apply find_key_some in Hf as (Hin & Heq & _). by exists e.
    - intros (e & Hin & Hn & Hs). apply list_elem_of_lookup in Hin as [i Hi].
      rewrite <- Hn. by rewrite (find_key_unique source_name _ i e). }
  assert (forall i e, entries p !! i = Some e ->
    matched !! i = Some true <-> exists s, s ∈ src /\ st_name s = source_name e) as Hm.
  { intros i e Hi. rewrite Hmat by (by eapply lookup_lt_Some). split.
    - intros (s & j & e' & Hs & Hf & Hj). exists s. split; [done|].
      apply find_key_some in Hf as (_ & Heq & Hj0 & Hl). congruence.
    - intros (s & Hs & Hn). exists s, (Z.of_nat i), e. split; [done|]. split; [|lia].
      rewrite Hn. by apply (find_key_unique source_name). }
  split; intros (H1 & H2 & H3); (split; [|split; [|done]]).
  - intros s Hs. by apply Hgood, H1.
  - intros e He. apply list_elem_of_lookup in He as [i Hi]. apply (Hm i e Hi).
    destruct (matched !! i) as [b|] eqn:Hb.
    + specialize (H2 (b, e)). destruct b; [done|]. discriminate H2.
      eapply list_elem_of_lookup_2. rewrite lookup_zip_with, Hb. simpl. by rewrite Hi.
    + apply lookup_ge_None in Hb. apply lookup_lt_Some in Hi. lia.
  - intros s Hs. by apply Hgood, H1.
  - intros [b e] Hin. apply list_elem_of_lookup in Hin as [i Hi].
    apply lookup_zip_with_Some in Hi as (b' & e' & [= <- <-] & Hb & He).
    destruct (H2 e) as (s & Hs & Hn); [by eapply list_elem_of_lookup_2|].
    assert (matched !! i = Some true) as Ht by (apply (Hm i e He); eauto).
    rewrite Ht in Hb. by injection Hb as <-.
Qed.

Lemma pack_open_wf `{Allocator} (path : option bytes) (f : file_env) (p : ds4_pack) :
  ds4_pack_open path f = Ok p -> pack_wf p /\ entries p <> [].
Proof.
  intros Hopen. apply ds4_pack_open_inv in Hopen as (buf & path0 & Hl & Hn). split.
  - eapply (index_lines_inv _ _ _ pack_wf); [| |exact Hl].
    + split; simpl; constructor.
    + intros q line n q' _ Hq Hr.
      apply parse_pack_row_ok in Hr as (e & He & Hwf & Hid & Hname). by eapply pack_wf_snoc.
  - intros He. apply Hn. unfold n_entries. by rewrite He.
Qed.

(** ** Properties *)

(** C1. Whatever the file holds, an index that [ds4_pack_open] accepts is
    well formed: every entry owns a non-negative GPU, a non-empty byte range
    that does not overflow in the source file or in its shard and a shard file
    of the canonical name; tensor ids and source names are unique; and the
    index is not empty. *)
Theorem ds4_pack_open_wf `{Allocator} (path : option bytes) (f : file_env) (p : ds4_pack) :
  ds4_pack_open path f = Ok p -> pack_wf p /\ entries p <> [].
Proof. exact (pack_open_wf path f p). Qed.

(** C2. Round trip: the text a packer writes for a list of well-formed entries
    with unique ids and names is accepted by [ds4_pack_open], and the index
    holds exactly those entries in that order. *)
Theorem ds4_pack_open_render `{Allocator} (path : bytes) (es : list ds4_pack_entry) :
  (forall n, malloc_ok n = true) -> path <> [] -> es <> [] ->
  Forall entry_wf es -> Forall entry_plain es ->
  NoDup (semantic_tensor_id <$> es) -> NoDup (source_name <$> es) ->
  Z.of_nat (length (render_index es)) <= SMALL_FILE_MAX ->
  exists p, ds4_pack_open (Some path) (regular_file (render_index es)) = Ok p /\ entries p = es.
Proof.
  intros Hm Hpath Hes Hwf Hpl Hid Hname Hlen.
  assert (Forall (fun e => render_row e <> [] /\ (NUL ∉ render_row e) /\ (LF ∉ render_row e) /\
                           (CR ∉ render_row e)) es) as Hrows.
  { rewrite Forall_forall in *. intros e He. apply render_row_line; auto. }
  assert (Z.of_nat (length es) < 2 ^ 32) as Hcount.
  { pose proof (text_of_lines_length (ds4_pack_header :: map render_row es)) as Hc.
    change (text_of_lines _) with (render_index es) in Hc.
    rewrite length_cons, length_map in Hc.
    unfold SMALL_FILE_MAX in Hlen. lia. }
  unfold ds4_pack_open. destruct path as [|c path]; [done|].
  unfold pack_read_small_file. rewrite read_small_file_regular by done.
  assert (has_utf8_bom (render_index es) = false) as -> by reflexivity.
  assert (str_hasc (render_index es) CR = false) as ->.
  { apply str_hasc_false. intros Hin. apply text_of_lines_elem in Hin as [?|(l & Hl & Hin)]; [done|].
    apply elem_of_cons in Hl as [-> |Hl].
    - revert Hin. apply str_hasc_false. by vm_compute.
    - apply list_elem_of_In, in_map_iff in Hl as (e & <- & He). rewrite Forall_forall in Hrows.
      apply list_elem_of_In in He. by apply Hrows in Hin. }
  rewrite Hm, strdups_ok_unlimited by done. cbn [negb].
  unfold render_index. rewrite index_lines_rows.
  - destruct (rows_render Hm es {| entries := []; cap_entries := 0; pack_path := c :: path |} 1) as (p' & n' & Hr & Hp');
      try done; [simpl; lia|].
    rewrite Hr. cbn [fst]. exists p'. split; [|done].
    unfold n_entries. rewrite Hp'. by destruct es.
  - done.
  - apply str_hasc_false. by vm_compute.
  - apply str_hasc_false. by vm_compute.
  - apply Forall_forall. intros l Hl. apply list_elem_of_In, in_map_iff in Hl as (e & <- & He).
    apply list_elem_of_In in He. rewrite Forall_forall in Hrows. naive_solver.
  - by rewrite length_map.
Qed.

(** In a well-formed index, [ds4_pack_lookup] is the finite map from
    tensor ids to entries: it returns an entry exactly when the index holds it
    under that id. *)
Theorem ds4_pack_lookup_spec (p : ds4_pack) (id : bytes) (e : ds4_pack_entry) :
  pack_wf p ->
  ds4_pack_lookup (Some p) (Some id) = Some e <-> e ∈ entries p /\ semantic_tensor_id e = id.
Proof.
  intros [_ Hid _]. exact (ki_lookup_spec p id e Hid).
Qed.

(** The arena of a GPU is the least size that covers every entry the GPU
    owns: each span [shard_offset, shard_offset + byte_length) ends inside it,
    the bound is attained unless the GPU owns nothing, and the 64-bit sum in
    the code never wraps. *)
Theorem ds4_pack_arena_bytes_spec (p : ds4_pack) (gpu : Z) :
  pack_wf p -> 0 <= gpu ->
  let n := ds4_pack_arena_bytes (Some p) gpu in
  is_u64 n /\
  (forall e, e ∈ entries p -> owning_gpu e = gpu -> shard_offset e + byte_length e <= n) /\
  (n = 0 /\ ds4_pack_tensor_count (Some p) gpu = 0 \/
   exists e, e ∈ entries p /\ owning_gpu e = gpu /\ n = shard_offset e + byte_length e).
Proof.
  intros Hwf Hg n. subst n. rewrite pack_arena_max by done.
  pose proof (foldl_max_spec (fun e => owning_gpu e =? gpu)
                (fun e => shard_offset e + byte_length e) (entries p) 0) as (H1 & H2 & H3).
  cbv beta zeta in H1, H2, H3. set (m := foldl _ _ _) in *.
  assert (forall e, e ∈ entries p -> owning_gpu e = gpu -> shard_offset e + byte_length e <= m) as Hub.
  { intros e He Heg. apply H2; [done|]. by apply Z.eqb_eq. }
  destruct Hwf as [Hwf _ _]. rewrite Forall_forall in Hwf.
  split; [|split; [done|]].
  - destruct H3 as [-> | (e & He & _ & ->)]; [zlia|].
    destruct (Hwf e He) as (_ & _ & _ & _ & ? & ? & _ & ? & _). zlia.
  - destruct H3 as [Hm | (e & He & Heq & Hm)]; [left|right; exists e; bool_hyps; done].
    split; [done|]. unfold ds4_pack_tensor_count. destruct (Z.ltb_spec gpu 0); [lia|].
    clear H1 H2. clearbody m. subst m. revert Hub Hwf. generalize (entries p) as l.
    induction l as [|e l IH]; intros Hub Hwf; simpl; [done|].
    destruct (Z.eqb_spec (owning_gpu e) gpu) as [Heg|_].
    + specialize (Hub e ltac:(by left) Heg).
      destruct (Hwf e ltac:(by left)) as (_ & _ & _ & _ & ? & ? & _). zlia.
    + apply IH; intros; [apply Hub|apply Hwf]; try done; by right.
Qed.

(** Success of [ds4_pack_reconcile] by the statuses of the rows. *)
Lemma reconcile_statuses `{Allocator} (p : ds4_pack) (src : list ds4_pack_source_tensor)
    (size n_gpus : Z) :
  pack_wf p -> malloc_ok (n_entries p) = true ->
  Z.of_nat (length src) + n_entries p <= UINT64_MAX ->
  ro_result (ds4_pack_reconcile (Some p) (Some src) size n_gpus) = Ok tt <->
  (forall s, s ∈ src -> exists e, e ∈ entries p /\ source_name e = st_name s /\
     row_status (Some e) s size n_gpus = "OK"%string) /\
  (forall e, e ∈ entries p -> exists s, s ∈ src /\ st_name s = source_name e) /\
  length src = length (entries p).
Proof.
  intros [Hwf _ Hname] Hm Hlen. unfold ds4_pack_reconcile. rewrite Hm. cbn [negb ro_result].
  set (st0 := ReconcileState _ _ _ _ _).
  pose proof (reconcile_sources p size n_gpus src st0) as Hs.
  destruct Hs as (S1 & S2 & S3 & S4 & S5); [done..|simpl; unfold n_entries in Hlen; lia|].
  set (st1 := foldl (reconcile_source p size n_gpus) st0 src) in *.
  simpl in S1, S2, S3, S4. rewrite length_replicate in S4.
  pose proof (countZ_range (source_good p size n_gpus) src) as Hc1.
  pose proof (reconcile_entries (zip (rs_matched st1) (entries p)) st1) as He.
  assert (length (zip (rs_matched st1) (entries p)) = length (entries p)) as Hz.
  { rewrite length_zip_with, S4. lia. }
  rewrite Hz in He. unfold n_entries in Hlen.
  destruct He as (E1 & E2 & E3); [lia..|].
  set (st2 := foldl reconcile_entry st1 _) in *.
  cbn [failed_rows extra_pack_rows ok_rows pack_rows].
  pose proof (countZ_range (fun me : bool * ds4_pack_entry => negb (fst me))
                (zip (rs_matched st1) (entries p))) as Hc2.
  set (extra := countZ _ (zip _ _)) in *. set (good := countZ _ src) in *.
  transitivity (good = Z.of_nat (length src) /\ extra = 0 /\ length src = length (entries p)).
  { unfold n_entries. destruct (_ || _) eqn:E; split; try done.
    - intros (? & ? & ?). exfalso. apply orb_true_iff in E as [E|E]; [apply orb_true_iff in E as [E|E]|];
        apply negb_true_iff in E; bool_hyps; lia.
    - intros _. bool_hyps. repeat split; lia. }
  assert (good = Z.of_nat (length src) <-> countZ (fun s => negb (source_good p size n_gpus s)) src = 0)
    as -> by (rewrite countZ_negb; subst good; lia).
  rewrite countZ_zero. subst extra. rewrite countZ_zero.
  apply reconcile_meaning; [done|done|]. intros i Hi.
  rewrite S5 by (subst st0; simpl; by rewrite length_replicate).
  split; [|naive_solver]. intros [Hr|?]; [|done]. by apply lookup_replicate in Hr as [? _].
Qed.

(** A status of OK, spelled out. *)
Lemma row_status_ok (e : ds4_pack_entry) (s : ds4_pack_source_tensor) (size n_gpus : Z) :
  0 <= owning_gpu e -> 0 <= byte_length e ->
  row_status (Some e) s size n_gpus = "OK"%string <->
  source_dtype e = st_dtype s /\ source_shape e = st_shape s /\ source_offset e = st_offset s /\ byte_length e = st_length s /\
  source_offset e + byte_length e <= size /\ (0 < n_gpus -> owning_gpu e < n_gpus).
Proof.
  intros Hg Hb. unfold row_status. rewrite (proj2 (Z.ltb_ge (owning_gpu e) 0)) by done. cbn [orb].
  destruct (Z.ltb_spec 0 n_gpus), (Z.leb_spec n_gpus (owning_gpu e)); cbn [andb]; try (split; [discriminate|lia]).
  all: destruct (Z.ltb_spec size (source_offset e)), (Z.ltb_spec (size - source_offset e) (byte_length e)); cbn [orb]; try (split; [discriminate|lia]).
  all: destruct (str_eqb (source_dtype e) (st_dtype s)) eqn:E1; cbn [negb]; [apply str_eqb_eq in E1|split; [discriminate|intros (E & _); rewrite E, str_eqb_refl in E1; discriminate]].
  all: destruct (str_eqb (source_shape e) (st_shape s)) eqn:E2; cbn [negb]; [apply str_eqb_eq in E2|split; [discriminate|intros (_ & E & _); rewrite E, str_eqb_refl in E2; discriminate]].
  all: destruct (Z.eqb_spec (source_offset e) (st_offset s)); cbn [negb]; [|split; [discriminate|lia]].
  all: destruct (Z.eqb_spec (byte_length e) (st_length s)); cbn [negb]; [|split; [discriminate|lia]].
  all: split; [intros _; split_and!; (done || lia)|done].
Qed.

(** C3. [ds4_pack_reconcile] succeeds exactly when the index and the model
    file agree: every source tensor has a pack row of its name with the same
    dtype, shape, offset and length, which ends inside the file and, when the
    number of GPUs is given, is owned by one of them; every pack row is the row
    of some source tensor; and there are as many tensors as rows. *)
Theorem ds4_pack_reconcile_spec `{Allocator} (p : ds4_pack) (src : list ds4_pack_source_tensor)
    (size n_gpus : Z) :
  pack_wf p -> malloc_ok (n_entries p) = true ->
  Z.of_nat (length src) + n_entries p <= UINT64_MAX ->
  ro_result (ds4_pack_reconcile (Some p) (Some src) size n_gpus) = Ok tt <->
  (forall s, s ∈ src -> exists e, e ∈ entries p /\ source_name e = st_name s /\
     source_dtype e = st_dtype s /\ source_shape e = st_shape s /\
     source_offset e = st_offset s /\ byte_length e = st_length s /\
     source_offset e + byte_length e <= size /\ (0 < n_gpus -> owning_gpu e < n_gpus)) /\
  (forall e, e ∈ entries p -> exists s, s ∈ src /\ st_name s = source_name e) /\
  length src = length (entries p).
Proof.
  intros Hw Hm Hlen. rewrite (reconcile_statuses p src size n_gpus Hw Hm Hlen). destruct Hw as [Hwf _ _]. rewrite Forall_forall in Hwf.
  assert (Hok : forall s e, e ∈ entries p -> row_status (Some e) s size n_gpus = "OK"%string <->
    source_dtype e = st_dtype s /\ source_shape e = st_shape s /\ source_offset e = st_offset s /\ byte_length e = st_length s /\
    source_offset e + byte_length e <= size /\ (0 < n_gpus -> owning_gpu e < n_gpus)).
  { intros s e He. specialize (Hwf e He). unfold entry_wf in Hwf. apply row_status_ok; lia. }
  split; intros (H1 & H2); (split; [|exact H2]); intros s Hs; destruct (H1 s Hs) as (e & He & Hn & Hst); exists e; (split; [done|split; [done|]]); by apply Hok.
Qed.

(** . When [ds4_pack_validate_shards] succeeds on a well-formed index, every
    entry's span lies inside an existing shard file: the path that
    [ds4_pack_validate_shards] builds for the entry's GPU has the size the
    operating system reports, and that size covers the span. *)
Theorem ds4_pack_validate_shards_covers (stat : bytes -> result Z bytes) (p : ds4_pack)
    (dir report : bytes) (e : ds4_pack_entry) :
  pack_wf p -> ds4_pack_validate_shards stat (Some p) (Some dir) = Ok report -> e ∈ entries p ->
  shard_file e = shard_name (owning_gpu e) /\
  exists path size, join_path 4096 dir (shard_file e) = Some path /\
    stat path = Ok size /\ shard_offset e + byte_length e <= size.
Proof.
  intros Hwf Hv He. unfold ds4_pack_validate_shards in Hv. destruct dir as [|c dir]; [done|].
  destruct (rfold (validate_shard _ _ _) _ _) as [rep|] eqn:E1; [|done].
  assert (shard_file e = shard_name (owning_gpu e)) as Hname.
  { destruct (rfold_each _ _ _ _ Hv e He) as (s1 & s2 & Hs). apply valid_shard_name_eq.
    by destruct (valid_shard_name _ _). }
  split; [done|]. rewrite Hname.
  assert (entry_wf e) as Hwe by (destruct Hwf as [Hall _ _]; by rewrite Forall_forall in Hall; auto).
  assert (0 <= owning_gpu e) as Hg by (unfold entry_wf in Hwe; lia).
  destruct (rfold_each _ _ _ _ E1 (owning_gpu e)) as (s1 & s2 & Hs).
  { apply list_elem_of_In, in_map_iff. exists (Z.to_nat (owning_gpu e)). split; [lia|].
    apply in_seq. pose proof (pack_max_gpu_bound p e He). lia. }
  pose proof (ds4_pack_arena_upper p (owning_gpu e) e Hwf Hg He eq_refl) as Hub.
  apply validate_shard_inv in Hs as [Hs|(pa & size & ? & ? & ?)].
  - unfold entry_wf in Hwe. zlia.
  - exists pa, size. repeat split; [done..|lia].
Qed.

(** ** Concrete runs *)

Definition ex_entry (id name : string) (gpu off len : Z) : ds4_pack_entry :=
  {| semantic_tensor_id := B id; source_name := B name; source_dtype := B "f16";
     source_shape := B "[4x8]"; runtime_layout := B "source_row_major";
     kernel_family := B "dense"; shard_file := shard_name gpu; owning_gpu := gpu;
     layer_id := gpu; scale_offset := -1; source_offset := off; byte_length := len;
     shard_offset := off |}.

Definition ex_entries : list ds4_pack_entry :=
  [ex_entry "t.a" "a" 0 0 64; ex_entry "t.b" "b" 1 256 64; ex_entry "t.c" "c" 1 512 128].

Definition ex_pack : ds4_pack := {| entries := ex_entries; cap_entries := 256; pack_path := B "pack.tsv" |}.

Lemma ex_pack_wf : pack_wf ex_pack.
Proof.
  split.
  - repeat (apply Forall_cons; split); try apply Forall_nil; try exact I;
      unfold entry_wf; vm_compute; intuition discriminate.
  - by vm_compute; apply (bool_decide_eq_true_1 _); vm_compute.
  - by vm_compute; apply (bool_decide_eq_true_1 _); vm_compute.
Qed.

Lemma ex_entries_plain : Forall entry_plain ex_entries.
Proof.
  repeat (apply Forall_cons; split); try apply Forall_nil; try exact I;
    unfold entry_plain; simpl; plain_fields.
Qed.

Definition ex_open : res ds4_pack :=
  @ds4_pack_open unlimited (Some (B "pack.tsv")) (regular_file (render_index ex_entries)).

Lemma ex_open_ok : ex_open = Ok ex_pack.
Proof. by vm_compute. Qed.

Lemma ds4_pack_open_wf_witness :
  ex_open = Ok ex_pack /\ pack_wf ex_pack /\ entries ex_pack <> [].
Proof.
  split; [exact ex_open_ok|]. 
  apply (@ds4_pack_open_wf unlimited (Some (B "pack.tsv")) (regular_file (render_index ex_entries))).
  exact ex_open_ok.
Defined.

Lemma ds4_pack_open_render_witness :
  exists p, @ds4_pack_open unlimited (Some (B "pack.tsv")) (regular_file (render_index ex_entries)) = Ok p
    /\ entries p = ex_entries.
Proof.
  apply (@ds4_pack_open_render unlimited).
  - reflexivity.
  - discriminate.
  - discriminate.
  - exact (wf_entries _ ex_pack_wf).
  - exact ex_entries_plain.
  - exact (wf_ids _ ex_pack_wf).
  - exact (wf_names _ ex_pack_wf).
  - by vm_compute.
Defined.

Lemma ds4_pack_lookup_spec_witness :
  ds4_pack_lookup (Some ex_pack) (Some (B "t.b")) = Some (ex_entry "t.b" "b" 1 256 64).
Proof.
  apply (ds4_pack_lookup_spec ex_pack (B "t.b")); [exact ex_pack_wf|].
  split; [|reflexivity]. right. left.
Defined.

Lemma ds4_pack_arena_bytes_spec_witness :
  ds4_pack_arena_bytes (Some ex_pack) 1 = 640 /\ is_u64 (ds4_pack_arena_bytes (Some ex_pack) 1).
Proof.
  split; [reflexivity|].
  apply (ds4_pack_arena_bytes_spec ex_pack 1); [exact ex_pack_wf|lia].
Defined.

Definition ex_sources : list ds4_pack_source_tensor :=
  map (fun e => SourceTensor (source_name e) (source_dtype e) (source_shape e)
                  (source_offset e) (byte_length e)) ex_entries.

Lemma ds4_pack_reconcile_spec_witness :
  ro_result (@ds4_pack_reconcile unlimited (Some ex_pack) (Some ex_sources) 4096 8) = Ok tt /\
  (forall e, e ∈ entries ex_pack -> exists s, s ∈ ex_sources /\ st_name s = source_name e).
Proof.
  split; [by vm_compute|].
  apply (@ds4_pack_reconcile_spec unlimited ex_pack ex_sources 4096 8).
  - exact ex_pack_wf.
  - reflexivity.
  - by vm_compute.
  - by vm_compute.
Defined.

Definition ex_stat (path : bytes) : result Z bytes :=
  if str_eqb path (B "shards/gpu0.weights") then Ok 64
  else if str_eqb path (B "shards/gpu1.weights") then Ok 1000 else Error (B "No such file").

Lemma ds4_pack_validate_shards_covers_witness :
  exists path size, join_path 4096 (B "shards/") (shard_name 1) = Some path /\
    ex_stat path = Ok size /\ 512 + 128 <= size.
Proof.
  destruct (ds4_pack_validate_shards ex_stat (Some ex_pack) (Some (B "shards/"))) as [r|] eqn:E;
    [|by vm_compute in E].
  apply (ds4_pack_validate_shards_covers ex_stat ex_pack (B "shards/") r
           (ex_entry "t.c" "c" 1 512 128) ex_pack_wf E).
  right. right. left.
Defined.

(** Two inputs the code accepts although its guards mean to refuse them: a
    negative number after a space, and a file whose first line is empty (its
    second line is then read as a row and the header is never compared). *)
Example parse_u64_field_space_minus : parse_u64_field (B " -1") = Some UINT64_MAX.
Proof. by vm_compute. Qed.

Example ds4_pack_open_without_header :
  @ds4_pack_open unlimited (Some (B "pack.tsv"))
     (regular_file (LF :: text_of_lines (map render_row ex_entries))) = Ok ex_pack.
Proof. by vm_compute. Qed.
