(* ===== verification/TmPack.v ===== *)
(** * The TurboMind sidecar index (ds4_turbomind_pack.c, ds4_turbomind_pack.h)

    The same kind of TSV index as Pack.v for the expert weights repacked for
    the TurboMind kernels: per row the matrix sizes, the bytes of one expert's
    weights and scales, and where the two runs of experts start in a sidecar
    file.  Everything is in [Module TM], because the fields carry the same
    names as those of the pack index. *)
From S2P Require Import Prelude.
From S2P Require Import CNum.
From S2P Require Import TsvFile.
From S2P Require Import KeyIndex.

Module TM.

(** ** Data *)

Record ds4_tm_pack_entry := TmEntry {
  semantic_tensor_id : bytes;
  source_name : bytes;
  source_dtype : bytes;
  source_shape : bytes;
  runtime_layout : bytes;
  kernel_family : bytes;
  sidecar_file : bytes;
  source_shard_file : bytes;
  source_checksum : bytes;
  owning_gpu : Z;                  (* int *)
  layer_id : Z;                    (* int *)
  n : Z;                           (* uint32_t *)
  k : Z;                           (* uint32_t *)
  experts_packed : Z;              (* uint32_t *)
  experts_total : Z;               (* uint32_t *)
  weight_bytes_per_expert : Z;     (* uint64_t *)
  scale_bytes_per_expert : Z;      (* uint64_t *)
  k_pack : Z;                      (* int *)
  weight_stride : Z;               (* int *)
  scale_stride : Z;                (* int *)
  weight_offset : Z;               (* uint64_t *)
  scale_offset : Z;                (* uint64_t *)
  source_shard_offset : Z;         (* uint64_t *)
  source_byte_length : Z;          (* uint64_t *)
  tm_abi_version : Z               (* int *)
}.

(** [n_entries] is the length of [entries]. *)
Record ds4_tm_pack := TmPack {
  entries : list ds4_tm_pack_entry;
  cap_entries : Z;
  pack_path : bytes
}.

Definition n_entries (p : ds4_tm_pack) : Z := Z.of_nat (length (entries p)).

Definition DS4_TM_PACK_COLS : nat := 25.

Definition ds4_tm_pack_header : bytes := join_with TAB (map B
  ["semantic_tensor_id"; "source_name"; "source_dtype"; "source_shape";
   "runtime_layout"; "owning_gpu"; "layer_id"; "kernel_family";
   "n"; "k"; "experts_packed"; "experts_total"; "weight_bytes_per_expert";
   "scale_bytes_per_expert"; "k_pack"; "weight_stride"; "scale_stride";
   "sidecar_file"; "weight_offset"; "scale_offset"; "source_shard_file";
   "source_shard_offset"; "source_byte_length"; "source_checksum";
   "tm_abi_version"]%string).

(** ** Parsing *)

Definition tm_read_small_file `{Allocator} : bytes -> file_env -> res bytes :=
  read_small_file "TurboMind pack index is unexpectedly large: %s".

Definition valid_sidecar_name (name : bytes) (gpu : Z) : bool :=
  match name with
  | [] => false
  | _ =>
      if str_hasc name x2f || str_hasc name x5c then false
      else
        let expect_tm := snprintf_trunc 32 (B "gpu" ++ print_i64 gpu ++ B ".turbomind") in
        let expect_weights := snprintf_trunc 32 (B "gpu" ++ print_i64 gpu ++ B ".weights") in
        str_eqb name expect_tm || str_eqb name expect_weights
  end.

(** sizeof(ds4_tm_pack_entry): nine pointers, then the numeric fields with
    their padding. *)
Definition sizeof_tm_entry : Z := 168.

Definition tm_append `{Allocator} (pack : ds4_tm_pack) (e : ds4_tm_pack_entry) : res ds4_tm_pack :=
  if n_entries pack =? cap_entries pack then
    let next := if cap_entries pack =? 0 then 256 else u64 (cap_entries pack * 2) in
    if (next <? cap_entries pack) || (SIZE_MAX / sizeof_tm_entry <? next) then
      fail "TurboMind pack index has too many rows" []
    else if negb (malloc_ok (next * sizeof_tm_entry)) then
      fail "out of memory growing TurboMind pack index" []
    else Ok {| entries := entries pack ++ [e]; cap_entries := next; pack_path := pack_path pack |}
  else Ok {| entries := entries pack ++ [e]; cap_entries := cap_entries pack;
             pack_path := pack_path pack |}.

Definition tm_find_semantic (pack : ds4_tm_pack) (id : bytes) : option (Z * ds4_tm_pack_entry) :=
  find_key semantic_tensor_id (entries pack) id.

(** The numeric fields of a row; [None] when one of them does not parse. *)
Definition tm_entry_of_fields (field : nat -> bytes) : option ds4_tm_pack_entry :=
  gpu ← parse_i32_field (field 5%nat);
  if gpu <? 0 then None else
  layer ← parse_i32_field (field 6%nat);
  n ← parse_u32_field (field 8%nat);
  k ← parse_u32_field (field 9%nat);
  packed ← parse_u32_field (field 10%nat);
  total ← parse_u32_field (field 11%nat);
  wbytes ← parse_u64_field (field 12%nat);
  sbytes ← parse_u64_field (field 13%nat);
  kp ← parse_i32_field (field 14%nat);
  wstride ← parse_i32_field (field 15%nat);
  sstride ← parse_i32_field (field 16%nat);
  woff ← parse_u64_field (field 18%nat);
  soff ← parse_u64_field (field 19%nat);
  shard_off ← parse_u64_field (field 21%nat);
  src_len ← parse_u64_field (field 22%nat);
  abi ← parse_i32_field (field 24%nat);
  Some {| semantic_tensor_id := field 0%nat; source_name := field 1%nat;
          source_dtype := field 2%nat; source_shape := field 3%nat;
          runtime_layout := field 4%nat; kernel_family := field 7%nat;
          sidecar_file := field 17%nat; source_shard_file := field 20%nat;
          source_checksum := field 23%nat; owning_gpu := gpu; layer_id := layer;
          n := n; k := k; experts_packed := packed; experts_total := total;
          weight_bytes_per_expert := wbytes; scale_bytes_per_expert := sbytes;
          k_pack := kp; weight_stride := wstride; scale_stride := sstride;
          weight_offset := woff; scale_offset := soff; source_shard_offset := shard_off;
          source_byte_length := src_len; tm_abi_version := abi |}.

(** (uint64_t)experts_packed * bytes_per_expert, as the 64-bit product. *)
Definition weight_run (e : ds4_tm_pack_entry) : Z :=
  u64 (experts_packed e * weight_bytes_per_expert e).
Definition scale_run (e : ds4_tm_pack_entry) : Z :=
  u64 (experts_packed e * scale_bytes_per_expert e).

Definition parse_tm_row `{Allocator} (pack : ds4_tm_pack) (line : bytes) (line_no : Z) : res ds4_tm_pack :=
  match split_tabs line DS4_TM_PACK_COLS with
  | None => fail "TurboMind pack index line %lu has %d columns, expected %d"
                 [AZ line_no; AZ 26; AZ 25]
  | Some fields =>
  if negb (length fields =? DS4_TM_PACK_COLS)%nat then
    fail "TurboMind pack index line %lu has %d columns, expected %d"
         [AZ line_no; AZ (Z.of_nat (length fields)); AZ 25]
  else
  let field i : bytes := fields !!! (i : nat) in
  if negb (strdups_ok (map field [0; 1; 2; 3; 4; 7; 17; 20; 23]%nat)) then
    fail "out of memory parsing line %lu" [AZ line_no]
  else
  match tm_entry_of_fields field with
  | None => fail "bad numeric field on line %lu" [AZ line_no]
  | Some e =>
      if (n e =? 0) || (k e =? 0) || (experts_packed e =? 0) || (experts_total e =? 0) ||
         (weight_bytes_per_expert e =? 0) || (scale_bytes_per_expert e =? 0) then
        fail "zero size field on line %lu" [AZ line_no]
      else if experts_total e <? experts_packed e then
        fail "experts_packed exceeds experts_total on line %lu" [AZ line_no]
      else if (UINT64_MAX - weight_run e <? weight_offset e) ||
              (UINT64_MAX - scale_run e <? scale_offset e) then
        fail "sidecar offset overflow on line %lu" [AZ line_no]
      else if bool_decide (is_Some (tm_find_semantic pack (semantic_tensor_id e))) then
        fail "duplicate semantic_tensor_id on line %lu" [AZ line_no]
      else if negb (valid_sidecar_name (sidecar_file e) (owning_gpu e)) then
        fail "unexpected sidecar_file '%s' on line %lu" [AS (field 17%nat); AZ line_no]
      else tm_append pack e
  end end.

Definition sizeof_tm_pack : Z := 32.

Definition ds4_tm_pack_open `{Allocator} (path : option bytes) (f : file_env) : res ds4_tm_pack :=
  match path with
  | None | Some [] => fail "missing TurboMind pack index path" []
  | Some path =>
      buf <- tm_read_small_file path f ;;
      if has_utf8_bom buf then fail "TurboMind pack index has a UTF-8 BOM" []
      else if str_hasc buf CR then fail "TurboMind pack index must use LF line endings" []
      else if negb (malloc_ok sizeof_tm_pack) then
        fail "out of memory allocating TurboMind pack index" []
      else if negb (strdups_ok [path]) then fail "out of memory storing TurboMind pack path" []
      else
        pack <- index_lines ds4_tm_pack_header
                  "TurboMind pack index header does not match expected schema"
                  parse_tm_row {| entries := []; cap_entries := 0; pack_path := path |} buf ;;
        if n_entries pack =? 0 then fail "TurboMind pack index has no tensor rows" []
        else Ok pack
  end.

(** ** Queries *)

Definition ds4_tm_pack_count (p : option ds4_tm_pack) : Z :=
  match p with Some pack => n_entries pack | None => 0 end.

Definition ds4_tm_pack_max_gpu (p : option ds4_tm_pack) : Z :=
  match p with
  | None => -1
  | Some pack => foldl (fun m e => if m <? owning_gpu e then owning_gpu e else m) (-1) (entries pack)
  end.

Definition ds4_tm_pack_lookup (p : option ds4_tm_pack) (id : option bytes) : option ds4_tm_pack_entry :=
  match p, id with
  | Some pack, Some id => snd <$> tm_find_semantic pack id
  | _, _ => None
  end.

Definition ds4_tm_pack_for_each {U E : Type} (pack : ds4_tm_pack)
    (cb : U -> ds4_tm_pack_entry -> result U E) (ud : U) : result U E :=
  rfold cb ud (entries pack).

(** One turn of the loop of [ds4_tm_pack_sidecar_bytes]: [end] and [found]. *)
Definition sidecar_step (file : bytes) (st : Z * bool) (e : ds4_tm_pack_entry) : Z * bool :=
  if negb (str_eqb (sidecar_file e) file) then st
  else
    let weight_end := u64 (weight_offset e + weight_run e) in
    let scale_end := u64 (scale_offset e + scale_run e) in
    let end1 := if fst st <? weight_end then weight_end else fst st in
    (if end1 <? scale_end then scale_end else end1, true).

(** [None] is the return value 1. *)
Definition ds4_tm_pack_sidecar_bytes (p : option ds4_tm_pack) (file : option bytes) : option Z :=
  match p, file with
  | Some pack, Some file =>
      let '(fin, found) := foldl (sidecar_step file) (0, false) (entries pack) in
      if negb found then None else Some fin
  | _, _ => None
  end.

#[export] Instance tm_pack_index : KeyIndex ds4_tm_pack ds4_tm_pack_entry := {
  ki_entries := entries;
  ki_id := semantic_tensor_id;
  ki_lookup p id := ds4_tm_pack_lookup (Some p) (Some id);
  ki_lookup_first _ _ := eq_refl
}.

(** ** Well-formed indexes *)

Definition entry_wf (e : ds4_tm_pack_entry) : Prop :=
  0 <= owning_gpu e <= INT_MAX /\ is_int (layer_id e) /\
  0 < n e <= UINT32_MAX /\ 0 < k e <= UINT32_MAX /\
  0 < experts_packed e <= experts_total e /\ experts_total e <= UINT32_MAX /\
  0 < weight_bytes_per_expert e <= UINT64_MAX /\ 0 < scale_bytes_per_expert e <= UINT64_MAX /\
  is_int (k_pack e) /\ is_int (weight_stride e) /\ is_int (scale_stride e) /\
  is_u64 (weight_offset e) /\ is_u64 (scale_offset e) /\
  is_u64 (source_shard_offset e) /\ is_u64 (source_byte_length e) /\ is_int (tm_abi_version e) /\
  weight_offset e + weight_run e <= UINT64_MAX /\ scale_offset e + scale_run e <= UINT64_MAX /\
  valid_sidecar_name (sidecar_file e) (owning_gpu e) = true.

Record tm_pack_wf (p : ds4_tm_pack) : Prop := {
  wf_entries : Forall entry_wf (entries p);
  wf_ids : NoDup (semantic_tensor_id <$> entries p)
}.

Lemma tm_append_entries `{Allocator} (p p' : ds4_tm_pack) (e : ds4_tm_pack_entry) :
  tm_append p e = Ok p' -> entries p' = entries p ++ [e].
Proof. unfold tm_append. intros Ha. repeat case_match; simplify_eq; done. Qed.

(** The ranges of the numeric fields. *)
Definition fields_ranges (e : ds4_tm_pack_entry) : Prop :=
  0 <= owning_gpu e <= INT_MAX /\ is_int (layer_id e) /\
  is_u32 (n e) /\ is_u32 (k e) /\ is_u32 (experts_packed e) /\ is_u32 (experts_total e) /\
  is_u64 (weight_bytes_per_expert e) /\ is_u64 (scale_bytes_per_expert e) /\
  is_int (k_pack e) /\ is_int (weight_stride e) /\ is_int (scale_stride e) /\
  is_u64 (weight_offset e) /\ is_u64 (scale_offset e) /\
  is_u64 (source_shard_offset e) /\ is_u64 (source_byte_length e) /\ is_int (tm_abi_version e).

Lemma tm_entry_of_fields_ranges (field : nat -> bytes) (e : ds4_tm_pack_entry) :
  tm_entry_of_fields field = Some e -> fields_ranges e.
Proof.
  unfold tm_entry_of_fields. intros Hr.
  repeat (apply bind_Some in Hr as (? & ? & Hr); try (case_match; [done|])).
  injection Hr as <-. unfold fields_ranges. simpl.
  repeat match goal with
  | H : parse_i32_field _ = Some _ |- _ => apply parse_i32_field_range in H
  | H : parse_u32_field _ = Some _ |- _ => apply parse_u32_field_range in H
  | H : parse_u64_field _ = Some _ |- _ => apply parse_u64_field_range in H
  end.
  bool_hyps. repeat split; zlia.
Qed.

Lemma parse_tm_row_ok `{Allocator} (p p' : ds4_tm_pack) (line : bytes) (m : Z) :
  parse_tm_row p line m = Ok p' ->
  exists e, entries p' = entries p ++ [e] /\ entry_wf e /\
    tm_find_semantic p (semantic_tensor_id e) = None.
Proof.
  unfold parse_tm_row. intros Hr.
  destruct (split_tabs _ _) as [fields|]; [|done].
  destruct (negb _) eqn:E0 in Hr; [done|]. destruct (negb _) eqn:E1 in Hr; [done|].
  destruct (tm_entry_of_fields _) as [e|] eqn:He; [|done].
  apply tm_entry_of_fields_ranges in He.
  destruct (_ || _) eqn:E2 in Hr; [done|]. destruct (_ <? _) eqn:E3 in Hr; [done|].
  destruct (_ || _) eqn:E4 in Hr; [done|]. case_bool_decide as E5; [done|].
  destruct (negb _) eqn:E6 in Hr; [done|].
  apply tm_append_entries in Hr. exists e. split; [done|].
  split; [|by apply eq_None_not_Some]. bool_hyps.
  unfold fields_ranges in He. unfold entry_wf.
  repeat match goal with |- _ /\ _ => split end; try assumption; try zlia.
Qed.

(** ** Sidecar sizes *)

Lemma sidecar_fold (file : bytes) (l : list ds4_tm_pack_entry) : forall st,
  Forall entry_wf l ->
  let st' := foldl (sidecar_step file) st l in
  fst st <= fst st' /\
  (snd st' = true <-> snd st = true \/ exists e, e ∈ l /\ sidecar_file e = file) /\
  (forall e, e ∈ l -> sidecar_file e = file ->
     weight_offset e + weight_run e <= fst st' /\ scale_offset e + scale_run e <= fst st') /\
  (fst st' = fst st \/
   exists e, e ∈ l /\ sidecar_file e = file /\
     (fst st' = weight_offset e + weight_run e \/ fst st' = scale_offset e + scale_run e)).
Proof.
  induction l as [|a l IH]; intros st Hwf; simpl.
  { split; [lia|]. split; [split; [by left|intros [?|(? & ?%elem_of_nil & _)]; done]|].
    split; [by intros ? ?%elem_of_nil|by left]. }
  apply Forall_cons in Hwf as [Ha Hwf].
  destruct (IH (sidecar_step file st a) Hwf) as (I1 & I2 & I3 & I4).
  set (st' := foldl _ _ l) in *. unfold sidecar_step in I1, I2, I4 at 1.
  destruct (str_eqb (sidecar_file a) file) eqn:Ef; cbn [negb] in *.
  - apply str_eqb_eq in Ef. unfold entry_wf in Ha.
    assert (0 <= weight_run a <= UINT64_MAX /\ 0 <= scale_run a <= UINT64_MAX) as [? ?]
      by (split; apply u64_range).
    rewrite !u64_small in I1 by zlia. cbn [fst snd] in *.
    set (e1 := if fst st <? weight_offset a + weight_run a then _ else _) in I1.
    assert (fst st <= e1 /\ weight_offset a + weight_run a <= e1 /\
            (e1 = fst st \/ e1 = weight_offset a + weight_run a)) as (Hb1 & Hb2 & Hb3)
      by (subst e1; destruct (Z.ltb_spec (fst st) (weight_offset a + weight_run a)); lia).
    assert (e1 <= fst st' /\ scale_offset a + scale_run a <= fst st') as [Hc1 Hc2]
      by (destruct (Z.ltb_spec e1 (scale_offset a + scale_run a)); lia).
    split; [lia|]. split.
    { rewrite I2. split; intros _; [right; exists a; split; [by left|done]|by left]. }
    split; [intros e [-> |He]%elem_of_cons Hf; [lia|by apply I3]|].
    destruct I4 as [I4|(e & He & ?)]; [|right; exists e; split; [by right|done]].
    rewrite I4. rewrite !u64_small by zlia. fold e1.
    destruct (Z.ltb_spec e1 (scale_offset a + scale_run a)).
    + right. exists a. split; [by left|]. auto.
    + destruct Hb3 as [-> | ->]; [by left|right; exists a; split; [by left|auto]].
  - apply str_eqb_neq in Ef. split; [done|]. split.
    { rewrite I2. split; (intros [?|(e & He & ?)]; [by left|right]).
      - exists e. split; [by right|done].
      - exists e. split; [|done]. by apply elem_of_cons in He as [-> |?]. }
    split; [intros e [-> |He]%elem_of_cons Hf; [done|by apply I3]|].
    destruct I4 as [I4|(e & He & ?)]; [|right; exists e; split; [by right|done]].
    by left.
Qed.
Lemma tm_open_wf `{Allocator} (path : option bytes) (f : file_env) (p : ds4_tm_pack) :
  ds4_tm_pack_open path f = Ok p -> tm_pack_wf p /\ entries p <> [].
Proof.
  unfold ds4_tm_pack_open. intros Hr. destruct path as [[|c path]|]; [done| |done].
  destruct (tm_read_small_file _ _) as [buf|]; [|done].
  destruct (has_utf8_bom buf); [done|]. destruct (str_hasc buf CR); [done|].
  destruct (negb _); [done|]. destruct (negb _); [done|].
  destruct (index_lines _ _ _ _ _) as [q|] eqn:E; [|done].
  destruct (Z.eqb_spec (n_entries q) 0) as [|Hn]; [done|]. injection Hr as <-. split.
  - eapply (index_lines_inv _ _ _ tm_pack_wf); [| |exact E]; [split; simpl; constructor|].
    intros q1 line m q2 _ [H1 H2] Hrow.
    apply parse_tm_row_ok in Hrow as (e & He & Hwf & Hid).
    split; rewrite He; [apply Forall_app; auto|by apply NoDup_key_snoc].
  - intros He. apply Hn. unfold n_entries. by rewrite He.
Qed.

(** ** Properties *)

(** Whatever the file holds, an index that [ds4_tm_pack_open] accepts is
    well formed: sizes and expert counts are positive, no more experts are
    packed than exist, both runs of experts end below 2^64 (with the product
    the code computes), the sidecar file has one of the two canonical names of
    its GPU, and tensor ids are unique. *)
Theorem ds4_tm_pack_open_wf `{Allocator} (path : option bytes) (f : file_env) (p : ds4_tm_pack) :
  ds4_tm_pack_open path f = Ok p -> tm_pack_wf p /\ entries p <> [].
Proof. exact (tm_open_wf path f p). Qed.

(** [ds4_tm_pack_sidecar_bytes] answers exactly for the files some entry
    names, and the size it reports is the least that covers the weight run and
    the scale run of every such entry; where an entry's product of experts and
    bytes fits in 64 bits, that run is the true extent of its data. *)
Theorem ds4_tm_pack_sidecar_bytes_spec (p : ds4_tm_pack) (file : bytes) :
  tm_pack_wf p ->
  match ds4_tm_pack_sidecar_bytes (Some p) (Some file) with
  | None => forall e, e ∈ entries p -> sidecar_file e <> file
  | Some size =>
      (forall e, e ∈ entries p -> sidecar_file e = file ->
         weight_offset e + weight_run e <= size /\ scale_offset e + scale_run e <= size /\
         (experts_packed e * weight_bytes_per_expert e <= UINT64_MAX ->
          weight_offset e + experts_packed e * weight_bytes_per_expert e <= size) /\
         (experts_packed e * scale_bytes_per_expert e <= UINT64_MAX ->
          scale_offset e + experts_packed e * scale_bytes_per_expert e <= size)) /\
      exists e, e ∈ entries p /\ sidecar_file e = file /\
        (size = weight_offset e + weight_run e \/ size = scale_offset e + scale_run e)
  end.
Proof.
  intros [Hwf _]. unfold ds4_tm_pack_sidecar_bytes.
  destruct (sidecar_fold file (entries p) (0, false) Hwf) as (H0 & H1 & H2 & H3).
  destruct (foldl _ _ _) as [fin found]. cbn [fst snd] in *.
  rewrite Forall_forall in Hwf. destruct found; cbn [negb].
  - split.
    + intros e He Hf. destruct (H2 e He Hf) as [Hw Hs]. specialize (Hwf e He).
      unfold entry_wf in Hwf. unfold weight_run, scale_run in *.
      repeat split; [done|done|intros Hfit; rewrite u64_small in Hw; [done|zlia]
                    |intros Hfit; rewrite u64_small in Hs; [done|zlia]].
    + destruct H3 as [-> |?]; [|done].
      destruct (proj1 H1 eq_refl) as [?|(e & He & Hf)]; [done|]. exists e.
      destruct (H2 e He Hf) as [Hw Hs]. specialize (Hwf e He). unfold entry_wf in Hwf.
      pose proof (u64_range (experts_packed e * weight_bytes_per_expert e)) as Hr.
      fold (weight_run e) in Hr. split; [done|]. split; [done|]. left. zlia.
  - intros e He Hf. destruct H1 as [_ H1]. discriminate H1. right. by exists e.
Qed.

(** ** Concrete runs *)

Definition render_tm_row (e : ds4_tm_pack_entry) : bytes :=
  join_with TAB
    [semantic_tensor_id e; source_name e; source_dtype e; source_shape e; runtime_layout e;
     print_i64 (owning_gpu e); print_i64 (layer_id e); kernel_family e;
     print_u64 (n e); print_u64 (k e); print_u64 (experts_packed e); print_u64 (experts_total e);
     print_u64 (weight_bytes_per_expert e); print_u64 (scale_bytes_per_expert e);
     print_i64 (k_pack e); print_i64 (weight_stride e); print_i64 (scale_stride e);
     sidecar_file e; print_u64 (weight_offset e); print_u64 (scale_offset e);
     source_shard_file e; print_u64 (source_shard_offset e); print_u64 (source_byte_length e);
     source_checksum e; print_i64 (tm_abi_version e)].

Definition render_tm_index (es : list ds4_tm_pack_entry) : bytes :=
  text_of_lines (ds4_tm_pack_header :: map render_tm_row es).

Definition ex_entry (id : string) (gpu experts wbytes woff soff : Z) : ds4_tm_pack_entry :=
  {| semantic_tensor_id := B id; source_name := B id; source_dtype := B "mxfp4";
     source_shape := B "[4x8x2]"; runtime_layout := B "turbomind_mxfp4_grouped";
     kernel_family := B "tm_mxfp4"; sidecar_file := B "gpu" ++ print_i64 gpu ++ B ".turbomind";
     source_shard_file := B "gpu0.weights"; source_checksum := B "-";
     owning_gpu := gpu; layer_id := 0; n := 8; k := 4; experts_packed := experts;
     experts_total := 256; weight_bytes_per_expert := wbytes; scale_bytes_per_expert := 16;
     k_pack := 1; weight_stride := 4; scale_stride := 1; weight_offset := woff;
     scale_offset := soff; source_shard_offset := 0; source_byte_length := 64;
     tm_abi_version := 1 |}.

Definition ex_entries : list ds4_tm_pack_entry :=
  [ex_entry "a" 0 2 256 0 512; ex_entry "b" 0 4 256 544 1568; ex_entry "c" 1 2 256 0 512].

Definition ex_pack : ds4_tm_pack :=
  {| entries := ex_entries; cap_entries := 256; pack_path := B "tm.tsv" |}.

Definition ex_open (es : list ds4_tm_pack_entry) : res ds4_tm_pack :=
  @ds4_tm_pack_open unlimited (Some (B "tm.tsv")) (regular_file (render_tm_index es)).

Lemma ex_tm_open_ok : ex_open ex_entries = Ok ex_pack.
Proof. by vm_compute. Qed.

Lemma ex_tm_pack_wf : tm_pack_wf ex_pack.
Proof.
  split.
  - repeat (apply Forall_cons; split); try apply Forall_nil; try exact I;
      unfold entry_wf; vm_compute; intuition discriminate.
  - by vm_compute; apply (bool_decide_eq_true_1 _); vm_compute.
Qed.

Lemma ds4_tm_pack_open_wf_witness :
  ex_open ex_entries = Ok ex_pack /\ tm_pack_wf ex_pack /\ entries ex_pack <> [].
Proof.
  split; [exact ex_tm_open_ok|].
  apply (@ds4_tm_pack_open_wf unlimited (Some (B "tm.tsv")) (regular_file (render_tm_index ex_entries))).
  exact ex_tm_open_ok.
Defined.

Lemma ds4_tm_pack_sidecar_bytes_spec_witness :
  ds4_tm_pack_sidecar_bytes (Some ex_pack) (Some (B "gpu0.turbomind")) = Some 1632 /\
  forall e, e ∈ entries ex_pack -> sidecar_file e = B "gpu0.turbomind" ->
    weight_offset e + weight_run e <= 1632.
Proof.
  split; [by vm_compute|]. intros e He Hf.
  pose proof (ds4_tm_pack_sidecar_bytes_spec ex_pack (B "gpu0.turbomind") ex_tm_pack_wf) as Hs.
  replace (ds4_tm_pack_sidecar_bytes _ _) with (Some 1632) in Hs by (by vm_compute).
  by apply Hs.
Defined.

(** The product of experts and bytes is taken modulo 2^64 before the overflow
    check: a row whose weights would end past 2^64 is accepted, and the file
    size computed from it does not cover them. *)
Definition ex_wrapping : list ds4_tm_pack_entry := [ex_entry "w" 0 256 (2 ^ 56) 0 512].

Example tm_run_wraps :
  is_ok (ex_open ex_wrapping) = true /\
  map (fun e => (weight_run e, experts_packed e * weight_bytes_per_expert e)) ex_wrapping =
    [(0, 2 ^ 64)] /\
  ds4_tm_pack_sidecar_bytes (Some {| entries := ex_wrapping; cap_entries := 256; pack_path := [] |})
    (Some (B "gpu0.turbomind")) = Some 4608.
Proof. by vm_compute. Qed.
End TM.
