(* ===== verification/Policy.v ===== *)
(** * Tensor policies (engine/context.c, engine/context.h)

    How a tensor's dtype, layout and kernel family decide the way it may be
    executed on the target GPUs ([ds4_classify_or_die] and the functions it
    calls), the class of each model layer and the GPU stage that owns it.
    Strings that may be null pointers are options. *)
From S2P Require Import Prelude.

(** ** Constants of engine/context.h *)

Definition DS4_V100_EXPECTED_GPUS : Z := 8.
Definition DS4_V100_N_LAYERS : Z := 43.
Definition DS4_V100_HC_ROWS : Z := 4.
Definition DS4_V100_HC_COLS : Z := 4096.
Definition DS4_V100_RELAY_BUFFERS : Z := 2.
Definition DS4_V100_SWA_ROWS : Z := 128.
Definition DS4_V100_HEAD_DIM : Z := 512.
Definition DS4_V100_INDEXER_HEAD_DIM : Z := 128.
Definition DS4_V100_MIN_VRAM_BYTES : Z := 31 * 1024 * 1024 * 1024.
Definition DS4_V100_DEFAULT_RESERVE_BYTES : Z := 2 * 1024 * 1024 * 1024.
Definition DS4_V100_MAX_SHAPE_DIMS : nat := 4.

Inductive ds4_source_dtype :=
  | DS4_V100_SOURCE_UNKNOWN | DS4_V100_SOURCE_BF16 | DS4_V100_SOURCE_F32 | DS4_V100_SOURCE_I32
  | DS4_V100_SOURCE_F8_E4M3_B128 | DS4_V100_SOURCE_MXFP4 | DS4_V100_SOURCE_FP4.

Inductive ds4_tensor_family :=
  | DS4_V100_FAMILY_UNKNOWN | DS4_V100_FAMILY_BF16_GLOBAL | DS4_V100_FAMILY_F32_CONTROL
  | DS4_V100_FAMILY_FP8_DENSE | DS4_V100_FAMILY_MXFP4_EXPERT | DS4_V100_FAMILY_HC_CONTROL
  | DS4_V100_FAMILY_KV_CACHE.

Inductive ds4_exec_kind :=
  | DS4_V100_EXEC_F32_CONTROL | DS4_V100_EXEC_F16_HMMA | DS4_V100_EXEC_LOWBIT_KERNEL
  | DS4_V100_EXEC_DIAGNOSTIC_ONLY | DS4_V100_EXEC_UNSUPPORTED.

(** The value [DS4_V100_EXEC_COUNT] only bounds arrays and loops. *)
Definition DS4_V100_EXEC_COUNT : nat := 5.
Definition exec_kinds : list ds4_exec_kind :=
  [DS4_V100_EXEC_F32_CONTROL; DS4_V100_EXEC_F16_HMMA; DS4_V100_EXEC_LOWBIT_KERNEL;
   DS4_V100_EXEC_DIAGNOSTIC_ONLY; DS4_V100_EXEC_UNSUPPORTED].
Definition exec_index (k : ds4_exec_kind) : nat :=
  match k with
  | DS4_V100_EXEC_F32_CONTROL => 0 | DS4_V100_EXEC_F16_HMMA => 1
  | DS4_V100_EXEC_LOWBIT_KERNEL => 2 | DS4_V100_EXEC_DIAGNOSTIC_ONLY => 3
  | DS4_V100_EXEC_UNSUPPORTED => 4
  end.

Inductive ds4_layer_class :=
  | DS4_V100_LAYER_SWA_ONLY | DS4_V100_LAYER_RATIO_4 | DS4_V100_LAYER_RATIO_128.

#[export] Instance source_dtype_eq_dec : EqDecision ds4_source_dtype.
Proof. solve_decision. Defined.
#[export] Instance tensor_family_eq_dec : EqDecision ds4_tensor_family.
Proof. solve_decision. Defined.
#[export] Instance exec_kind_eq_dec : EqDecision ds4_exec_kind.
Proof. solve_decision. Defined.
#[export] Instance layer_class_eq_dec : EqDecision ds4_layer_class.
Proof. solve_decision. Defined.

Record ds4_policy := Policy {
  source_dtype : ds4_source_dtype;
  family : ds4_tensor_family;
  exec_kind : ds4_exec_kind;
  conversion_stub : option string;
  forbidden_claim : option string
}.
#[export] Instance policy_fields : Fields ds4_policy :=
  rd_pure Policy <*> source_dtype <*> family <*> exec_kind <*> conversion_stub <*> forbidden_claim.

(** ** Case-insensitive comparison *)

Definition ci_eqb (a b : byte) : bool := Byte.eqb (byte_tolower a) (byte_tolower b).

Fixpoint str_eq_ci_loop (a b : bytes) : bool :=
  match a, b with
  | x :: a', y :: b' => if negb (ci_eqb x y) then false else str_eq_ci_loop a' b'
  | [], [] => true
  | _, _ => false
  end.

Definition str_eq_ci (a b : option bytes) : bool :=
  match a, b with Some a, Some b => str_eq_ci_loop a b | _, _ => false end.

(** Whether [needle] stands at the head of [p], up to case. *)
Fixpoint match_ci (p needle : bytes) : bool :=
  match needle with
  | [] => true
  | y :: needle' =>
      match p with
      | x :: p' => if ci_eqb x y then match_ci p' needle' else false
      | [] => false
      end
  end.

Fixpoint contains_ci_loop (p needle : bytes) : bool :=
  match p with
  | [] => false
  | _ :: p' => if match_ci p needle then true else contains_ci_loop p' needle
  end.

Definition contains_ci (s : option bytes) (needle : bytes) : bool :=
  match s, needle with
  | Some s, _ :: _ => contains_ci_loop s needle
  | _, _ => false
  end.

(** ** Names *)

Definition ds4_source_dtype_parse (s : option bytes) : ds4_source_dtype :=
  if str_eq_ci s (Some (B "bf16")) then DS4_V100_SOURCE_BF16
  else if str_eq_ci s (Some (B "f32")) then DS4_V100_SOURCE_F32
  else if str_eq_ci s (Some (B "i32")) then DS4_V100_SOURCE_I32
  else if str_eq_ci s (Some (B "f8_e4m3_b128")) then DS4_V100_SOURCE_F8_E4M3_B128
  else if str_eq_ci s (Some (B "mxfp4")) then DS4_V100_SOURCE_MXFP4
  else if str_eq_ci s (Some (B "fp4")) then DS4_V100_SOURCE_FP4
  else DS4_V100_SOURCE_UNKNOWN.

Definition ds4_source_dtype_name (d : ds4_source_dtype) : string :=
  match d with
  | DS4_V100_SOURCE_BF16 => "bf16"
  | DS4_V100_SOURCE_F32 => "f32"
  | DS4_V100_SOURCE_I32 => "i32"
  | DS4_V100_SOURCE_F8_E4M3_B128 => "f8_e4m3_b128"
  | DS4_V100_SOURCE_MXFP4 => "mxfp4"
  | DS4_V100_SOURCE_FP4 => "fp4"
  | DS4_V100_SOURCE_UNKNOWN => "unknown"
  end.

Definition ds4_tensor_family_infer (dtype_s layout kernel : option bytes) : ds4_tensor_family :=
  let dtype := ds4_source_dtype_parse dtype_s in
  if contains_ci kernel (B "hc_control") then DS4_V100_FAMILY_HC_CONTROL
  else if contains_ci kernel (B "kv") then DS4_V100_FAMILY_KV_CACHE
  else if bool_decide (dtype = DS4_V100_SOURCE_F8_E4M3_B128) ||
          contains_ci kernel (B "fp8") || contains_ci layout (B "f8_e4m3_b128") then
    DS4_V100_FAMILY_FP8_DENSE
  else if bool_decide (dtype = DS4_V100_SOURCE_MXFP4) || bool_decide (dtype = DS4_V100_SOURCE_FP4) ||
          contains_ci kernel (B "mxfp4") || contains_ci layout (B "mxfp4") then
    DS4_V100_FAMILY_MXFP4_EXPERT
  else if bool_decide (dtype = DS4_V100_SOURCE_BF16) then DS4_V100_FAMILY_BF16_GLOBAL
  else if bool_decide (dtype = DS4_V100_SOURCE_F32) || bool_decide (dtype = DS4_V100_SOURCE_I32) then
    DS4_V100_FAMILY_F32_CONTROL
  else DS4_V100_FAMILY_UNKNOWN.

Definition ds4_tensor_family_name (f : ds4_tensor_family) : string :=
  match f with
  | DS4_V100_FAMILY_BF16_GLOBAL => "bf16_global"
  | DS4_V100_FAMILY_F32_CONTROL => "f32_control"
  | DS4_V100_FAMILY_FP8_DENSE => "fp8_dense"
  | DS4_V100_FAMILY_MXFP4_EXPERT => "mxfp4_expert"
  | DS4_V100_FAMILY_HC_CONTROL => "hc_control"
  | DS4_V100_FAMILY_KV_CACHE => "kv_cache"
  | DS4_V100_FAMILY_UNKNOWN => "unknown"
  end.

Definition ds4_exec_kind_name (k : ds4_exec_kind) : string :=
  match k with
  | DS4_V100_EXEC_F32_CONTROL => "f32_control"
  | DS4_V100_EXEC_F16_HMMA => "f16_hmma_after_convert"
  | DS4_V100_EXEC_LOWBIT_KERNEL => "lowbit_kernel"
  | DS4_V100_EXEC_DIAGNOSTIC_ONLY => "diagnostic_only"
  | DS4_V100_EXEC_UNSUPPORTED => "unsupported"
  end.

(** ** Layers *)

(** [layer_id % 2] is C's remainder, on a positive number here. *)
Definition ds4_layer_class_for_layer (layer_id : Z) : ds4_layer_class :=
  if (layer_id <? 0) || (DS4_V100_N_LAYERS <=? layer_id) then DS4_V100_LAYER_SWA_ONLY
  else if layer_id <=? 1 then DS4_V100_LAYER_SWA_ONLY
  else if Z.rem layer_id 2 =? 0 then DS4_V100_LAYER_RATIO_4 else DS4_V100_LAYER_RATIO_128.

Definition ds4_layer_class_name (c : ds4_layer_class) : string :=
  match c with
  | DS4_V100_LAYER_SWA_ONLY => "swa_only"
  | DS4_V100_LAYER_RATIO_4 => "ratio_4"
  | DS4_V100_LAYER_RATIO_128 => "ratio_128"
  end.

Definition ds4_stage_for_layer (layer_id : Z) : Z :=
  if (layer_id <? 0) || (DS4_V100_N_LAYERS <=? layer_id) then -1
  else if layer_id <=? 5 then 0
  else if layer_id <=? 11 then 1
  else if layer_id <=? 17 then 2
  else if layer_id <=? 23 then 3
  else if layer_id <=? 29 then 4
  else if layer_id <=? 34 then 5
  else if layer_id <=? 39 then 6
  else 7.

(** ** Classification *)

(** Control tensors whose kernel or layout names a matrix product. *)
Definition names_matmul (layout kernel : option bytes) : bool :=
  contains_ci kernel (B "gemm") || contains_ci kernel (B "matmul") ||
  contains_ci layout (B "gemm") || contains_ci layout (B "matmul").

Definition null_str (s : option bytes) : bytes := default (B "(null)") s.

Definition ds4_classify_or_die (dtype_s layout kernel : option bytes) : res ds4_policy :=
  let dtype := ds4_source_dtype_parse dtype_s in
  let fam := ds4_tensor_family_infer dtype_s layout kernel in
  let p0 := {| source_dtype := dtype; family := fam; exec_kind := DS4_V100_EXEC_UNSUPPORTED;
               conversion_stub := None; forbidden_claim := None |} in
  let p :=
    match fam with
    | DS4_V100_FAMILY_BF16_GLOBAL =>
        if negb (bool_decide (dtype = DS4_V100_SOURCE_BF16)) then p0
        else p0 <| exec_kind := DS4_V100_EXEC_DIAGNOSTIC_ONLY |>
                <| conversion_stub := Some "bf16_source_to_fp16_or_f32_boundary"%string |>
                <| forbidden_claim := Some "native_bf16_tensor_core_execution"%string |>
    | DS4_V100_FAMILY_HC_CONTROL | DS4_V100_FAMILY_F32_CONTROL =>
        if negb (bool_decide (dtype = DS4_V100_SOURCE_F32)) &&
           negb (bool_decide (dtype = DS4_V100_SOURCE_I32)) then p0
        else if names_matmul layout kernel then p0
        else p0 <| exec_kind := DS4_V100_EXEC_F32_CONTROL |>
                <| forbidden_claim := Some "decode_completion"%string |>
    | DS4_V100_FAMILY_FP8_DENSE =>
        if negb (bool_decide (dtype = DS4_V100_SOURCE_F8_E4M3_B128)) then p0
        else p0 <| exec_kind := DS4_V100_EXEC_F16_HMMA |>
                <| conversion_stub := Some "fp8_e4m3_b128_unpack_to_fp16_hmma_pending"%string |>
                <| forbidden_claim := Some "native_fp8_tensor_core_execution"%string |>
    | DS4_V100_FAMILY_MXFP4_EXPERT =>
        if negb (bool_decide (dtype = DS4_V100_SOURCE_MXFP4)) &&
           negb (bool_decide (dtype = DS4_V100_SOURCE_FP4)) then p0
        else p0 <| exec_kind := DS4_V100_EXEC_LOWBIT_KERNEL |>
                <| conversion_stub := Some "mxfp4_or_fp4_lowbit_kernel_pending"%string |>
                <| forbidden_claim := Some "native_fp4_tensor_core_execution"%string |>
    | DS4_V100_FAMILY_KV_CACHE =>
        p0 <| exec_kind := DS4_V100_EXEC_UNSUPPORTED |>
           <| forbidden_claim := Some "kv_population_in_sprint_006"%string |>
    | DS4_V100_FAMILY_UNKNOWN => p0
    end in
  if bool_decide (exec_kind p = DS4_V100_EXEC_UNSUPPORTED) then
    fail "unsupported V100 execution policy: dtype=%s layout=%s kernel=%s"
         [AS (null_str dtype_s); AS (null_str layout); AS (null_str kernel)]
  else Ok p.

(** ** Lemmas *)

Definition lower (s : bytes) : bytes := map byte_tolower s.

Lemma str_eq_ci_lower (a b : bytes) : str_eq_ci_loop a b = true <-> lower a = lower b.
Proof.
  revert b. induction a as [|x a IH]; intros [|y b]; simpl; [done..|].
  unfold ci_eqb. destruct (beqb_spec (byte_tolower x) (byte_tolower y)) as [E|E]; simpl.
  - rewrite IH, E. split; [by intros ->|congruence].
  - split; [done|congruence].
Qed.

Lemma match_ci_lower (p needle : bytes) : match_ci p needle = str_prefixb (lower needle) (lower p).
Proof.
  revert p. induction needle as [|y needle IH]; intros [|x p]; simpl; [done..|].
  unfold ci_eqb. rewrite IH.
  destruct (beqb_spec (byte_tolower x) (byte_tolower y)) as [->|E]; [by rewrite beqb_refl|].
  destruct (beqb_spec (byte_tolower y) (byte_tolower x)); [congruence|done].
Qed.

(** [contains_ci] is [strstr] on the lower-case strings. *)
Lemma contains_ci_lower (s needle : bytes) :
  needle <> [] -> contains_ci (Some s) needle = str_strstr (lower s) (lower needle).
Proof.
  intros Hne. destruct needle as [|n0 needle]; [done|]. cbn [contains_ci].
  induction s as [|x s IH]; [done|]. simpl contains_ci_loop. rewrite IH. simpl str_strstr.
  unfold ci_eqb. rewrite match_ci_lower. simpl.
  destruct (beqb_spec (byte_tolower x) (byte_tolower n0)) as [->|E].
  - rewrite beqb_refl. simpl. by destruct (str_prefixb _ _).
  - destruct (beqb_spec (byte_tolower n0) (byte_tolower x)); [congruence|done].
Qed.

Lemma stage_for_layer_range (layer : Z) :
  0 <= layer < DS4_V100_N_LAYERS -> 0 <= ds4_stage_for_layer layer < DS4_V100_EXPECTED_GPUS.
Proof.
  unfold ds4_stage_for_layer, DS4_V100_N_LAYERS, DS4_V100_EXPECTED_GPUS. intros Hl.
  destruct (Z.ltb_spec layer 0); [lia|]. destruct (Z.leb_spec 43 layer); [lia|]. cbn [orb].
  repeat case_match; lia.
Qed.

Lemma stage_for_layer_mono (a b : Z) :
  0 <= a <= b -> b < DS4_V100_N_LAYERS -> ds4_stage_for_layer a <= ds4_stage_for_layer b.
Proof.
  unfold ds4_stage_for_layer, DS4_V100_N_LAYERS. intros Ha Hb.
  repeat match goal with |- context [if ?c then _ else _] => destruct c eqn:? end;
    bool_hyps; try lia; rewrite ?orb_true_iff in *; bool_hyps; try lia;
    repeat match goal with H : _ \/ _ |- _ => destruct H end; bool_hyps; lia.
Qed.

(** What [ds4_classify_or_die] means to accept, family by family. *)
Definition policy_allowed (dtype : ds4_source_dtype) (fam : ds4_tensor_family) (matmul : bool) : option ds4_exec_kind :=
  match fam, dtype with
  | DS4_V100_FAMILY_BF16_GLOBAL, DS4_V100_SOURCE_BF16 => Some DS4_V100_EXEC_DIAGNOSTIC_ONLY
  | (DS4_V100_FAMILY_F32_CONTROL | DS4_V100_FAMILY_HC_CONTROL),
    (DS4_V100_SOURCE_F32 | DS4_V100_SOURCE_I32) => if matmul then None else Some DS4_V100_EXEC_F32_CONTROL
  | DS4_V100_FAMILY_FP8_DENSE, DS4_V100_SOURCE_F8_E4M3_B128 => Some DS4_V100_EXEC_F16_HMMA
  | DS4_V100_FAMILY_MXFP4_EXPERT, (DS4_V100_SOURCE_MXFP4 | DS4_V100_SOURCE_FP4) =>
      Some DS4_V100_EXEC_LOWBIT_KERNEL
  | _, _ => None
  end.

(** ** Properties *)

(** . [ds4_classify_or_die] accepts exactly the combinations of dtype and
    family of the policy table: low-bit formats get their kernel, FP8 goes
    through FP16 HMMA, BF16 is diagnostic only, control tensors are F32/I32 and
    never a matrix product, KV cache and unknown tensors are refused; the
    policy records the parsed dtype and family, and every accepted policy
    names the claim it must not make. *)
Theorem ds4_classify_or_die_spec (dtype_s layout kernel : option bytes) :
  let dtype := ds4_source_dtype_parse dtype_s in
  let fam := ds4_tensor_family_infer dtype_s layout kernel in
  match policy_allowed dtype fam (names_matmul layout kernel) with
  | Some kind =>
      exists p, ds4_classify_or_die dtype_s layout kernel = Ok p /\ source_dtype p = dtype /\
        family p = fam /\ exec_kind p = kind /\ kind <> DS4_V100_EXEC_UNSUPPORTED /\
        is_Some (forbidden_claim p)
  | None => is_ok (ds4_classify_or_die dtype_s layout kernel) = false
  end.
Proof.
  intros dtype fam. unfold ds4_classify_or_die.
  change (ds4_source_dtype_parse dtype_s) with dtype.
  change (ds4_tensor_family_infer dtype_s layout kernel) with fam.
  destruct (names_matmul layout kernel), fam, dtype; simpl;
    first [reflexivity|eexists; repeat split; try done; by eexists].
Qed.

(** Parsing a dtype name inverts naming it, up to case: a string denotes
    the known dtype [d] exactly when it is [d]'s name in any mix of cases. *)
Theorem ds4_source_dtype_parse_spec (s : bytes) (d : ds4_source_dtype) :
  d <> DS4_V100_SOURCE_UNKNOWN ->
  ds4_source_dtype_parse (Some s) = d <-> lower s = B (ds4_source_dtype_name d).
Proof.
  intros Hd. unfold ds4_source_dtype_parse, str_eq_ci.
  repeat match goal with
  | |- context [str_eq_ci_loop s ?n] =>
      let E := fresh "E" in
      destruct (str_eq_ci_loop s n) eqn:E;
      [apply str_eq_ci_lower in E|apply not_true_iff_false in E; rewrite str_eq_ci_lower in E]
  end.
  all: destruct d; try done; split; intros H; try done; try (rewrite E in * ); try congruence.
  all: try (rewrite E0 in H); try (rewrite E1 in H); try (rewrite E2 in H);
    try (rewrite E3 in H); try (rewrite E4 in H); vm_compute in H; try congruence.
  all: vm_compute; congruence.
Qed.

Lemma ds4_source_dtype_parse_spec_witness :
  ds4_source_dtype_parse (Some (B "MxFp4")) = DS4_V100_SOURCE_MXFP4.
Proof. apply (ds4_source_dtype_parse_spec (B "MxFp4")); [discriminate|reflexivity]. Defined.
