(* ===== verification/ContextTypes.v ===== *)
(** * Data of the runtime context (engine/context.h, engine/context.c)

    The structs of the context: options, device facts, per-GPU stages,
    per-layer facts with their KV-cache budget and views, the descriptor
    tables, and [ds4_context] itself. *)
From S2P Require Import Prelude.
From S2P Require Import Pack.
From S2P Require Import TmPack.
From S2P Require Import Policy.

(** ** KV cache *)

Record ds4_kv_budget := KvBudget {
  raw_swa_bytes : Z;
  compressed_attn_bytes : Z;
  indexer_kv_bytes : Z;
  compression_state_bytes : Z;
  total_bytes : Z
}.
#[export] Instance kv_budget_fields : Fields ds4_kv_budget :=
  rd_pure KvBudget <*> raw_swa_bytes <*> compressed_attn_bytes <*> indexer_kv_bytes
    <*> compression_state_bytes <*> total_bytes.
Definition kv_budget_zero : ds4_kv_budget := KvBudget 0 0 0 0 0.

Record ds4_kv_arena_plan := KvArena {
  ka_raw_swa_offset : Z;
  ka_raw_swa_bytes : Z;
  ka_compressed_attn_offset : Z;
  ka_compressed_attn_bytes : Z;
  ka_indexer_kv_offset : Z;
  ka_indexer_kv_bytes : Z;
  ka_compression_state_offset : Z;
  ka_compression_state_bytes : Z;
  ka_total_bytes : Z
}.
Definition kv_arena_zero : ds4_kv_arena_plan := KvArena 0 0 0 0 0 0 0 0 0.

Record ds4_layer_kv_view := KvView {
  kw_raw_swa_offset : Z;
  kw_raw_swa_bytes : Z;
  kw_compressed_attn_offset : Z;
  kw_compressed_attn_bytes : Z;
  kw_indexer_kv_offset : Z;
  kw_indexer_kv_bytes : Z;
  kw_attn_state_kv_offset : Z;
  kw_attn_state_kv_bytes : Z;
  kw_attn_state_score_offset : Z;
  kw_attn_state_score_bytes : Z;
  kw_indexer_state_kv_offset : Z;
  kw_indexer_state_kv_bytes : Z;
  kw_indexer_state_score_offset : Z;
  kw_indexer_state_score_bytes : Z;
  kw_total_bytes : Z
}.
Definition kv_view_zero : ds4_layer_kv_view := KvView 0 0 0 0 0 0 0 0 0 0 0 0 0 0 0.

(** ** Devices, stages, layers *)

Record ds4_device_fact := DeviceFact {
  visible_id : Z;
  cc_major : Z;
  cc_minor : Z;
  total_global_mem : Z;
  pci_bus_id : bytes;
  uuid : bytes;
  peer_access : list bool      (* bool[8] *)
}.

Record ds4_stage_info := StageInfo {
  sg_stage_id : Z;
  sg_gpu : Z;
  layer_begin : Z;
  layer_end : Z;
  owns_token_embedding : bool;
  owns_output_head : bool;
  sg_tensor_count : Z;
  arena_bytes : Z;
  scratch_bytes : Z;
  relay_f16_bytes : Z;
  relay_f32_debug_bytes : Z;
  planned_kv_bytes : Z;
  kv_arena : ds4_kv_arena_plan;
  kv_raw_swa_bytes : Z;
  kv_compressed_attn_bytes : Z;
  kv_indexer_bytes : Z;
  kv_compression_state_bytes : Z;
  sg_output_head_reserve_bytes : Z;
  sg_mtp_reserve_bytes : Z;
  reserve_bytes : Z;
  device_total_bytes : Z
}.
#[export] Instance stage_info_fields : Fields ds4_stage_info :=
  rd_pure StageInfo <*> sg_stage_id <*> sg_gpu <*> layer_begin <*> layer_end
    <*> owns_token_embedding <*> owns_output_head <*> sg_tensor_count <*> arena_bytes
    <*> scratch_bytes <*> relay_f16_bytes <*> relay_f32_debug_bytes <*> planned_kv_bytes
    <*> kv_arena <*> kv_raw_swa_bytes <*> kv_compressed_attn_bytes <*> kv_indexer_bytes
    <*> kv_compression_state_bytes <*> sg_output_head_reserve_bytes <*> sg_mtp_reserve_bytes
    <*> reserve_bytes <*> device_total_bytes.
Definition stage_zero : ds4_stage_info :=
  StageInfo 0 0 0 0 false false 0 0 0 0 0 0 kv_arena_zero 0 0 0 0 0 0 0 0.

Record ds4_layer_info := LayerInfo {
  li_layer_id : Z;
  li_stage_id : Z;
  layer_class : ds4_layer_class;
  kv_budget : ds4_kv_budget;
  kv_view : ds4_layer_kv_view;
  li_tensor_count : Z;
  has_f32_control : bool;
  has_fp8_dense : bool;
  has_mxfp4_expert : bool;
  has_hc_control : bool
}.
#[export] Instance layer_info_fields : Fields ds4_layer_info :=
  rd_pure LayerInfo <*> li_layer_id <*> li_stage_id <*> layer_class <*> kv_budget <*> kv_view
    <*> li_tensor_count <*> has_f32_control <*> has_fp8_dense <*> has_mxfp4_expert
    <*> has_hc_control.
Definition layer_zero : ds4_layer_info :=
  LayerInfo 0 0 DS4_V100_LAYER_SWA_ONLY kv_budget_zero kv_view_zero 0 false false false false.

(** ** Options and the context *)

Inductive ds4_init_mode :=
  | DS4_V100_INIT_PROBE_ONLY | DS4_V100_INIT_USE_EXISTING_ARENAS | DS4_V100_INIT_FULL_RESIDENT.

(** [device_facts] stands for the pointer and [n_device_facts]. *)
Record ds4_context_options := Options {
  pack_index_path : option bytes;
  turbomind_pack_index_path : option bytes;
  expected_gpus : Z;
  mode : ds4_init_mode;
  require_production_topology : bool;
  enable_f32_debug_relay : bool;
  scratch_bytes_per_gpu : Z;
  relay_max_active_slots : Z;
  reserve_bytes_per_gpu : Z;
  planned_kv_bytes_per_gpu : Z;
  kv_ctx_tokens : Z;
  kv_active_slots : Z;
  output_head_reserve_bytes : Z;
  mtp_reserve_bytes : Z;
  device_facts : option (list ds4_device_fact)
}.
#[export] Instance options_fields : Fields ds4_context_options :=
  rd_pure Options <*> pack_index_path <*> turbomind_pack_index_path <*> expected_gpus <*> mode
    <*> require_production_topology <*> enable_f32_debug_relay <*> scratch_bytes_per_gpu
    <*> relay_max_active_slots <*> reserve_bytes_per_gpu <*> planned_kv_bytes_per_gpu
    <*> kv_ctx_tokens <*> kv_active_slots <*> output_head_reserve_bytes <*> mtp_reserve_bytes
    <*> device_facts.

(** The descriptors point into the entries of the two packs, which do not
    change once opened; [entry] is the entry pointed to. *)
Record ds4_tensor_desc := TensorDesc { td_entry : ds4_pack_entry; td_policy : ds4_policy }.
Record ds4_tm_tensor_desc := TmTensorDesc { tmd_entry : TM.ds4_tm_pack_entry; tmd_policy : ds4_policy }.

(** [n_descs] and [n_tm_descs] are the lengths of the two tables. *)
Record ds4_context := Context {
  opts : ds4_context_options;
  pack : option ds4_pack;
  tm_pack : option TM.ds4_tm_pack;
  stages : list ds4_stage_info;        (* ds4_stage_info[8] *)
  descs : list ds4_tensor_desc;
  tm_descs : list ds4_tm_tensor_desc;
  cap_descs : Z;
  cap_tm_descs : Z;
  exec_counts : list Z;                (* uint64_t[DS4_V100_EXEC_COUNT] *)
  has_token_embedding : bool;
  layers : list ds4_layer_info         (* ds4_layer_info[43] *)
}.
#[export] Instance context_fields : Fields ds4_context :=
  rd_pure Context <*> opts <*> pack <*> tm_pack <*> stages <*> descs <*> tm_descs <*> cap_descs
    <*> cap_tm_descs <*> exec_counts <*> has_token_embedding <*> layers.

Definition n_descs (ctx : ds4_context) : Z := Z.of_nat (length (descs ctx)).
Definition n_tm_descs (ctx : ds4_context) : Z := Z.of_nat (length (tm_descs ctx)).

(** [calloc] of a context, then [ctx->opts = local]. *)
Definition context_calloc (o : ds4_context_options) : ds4_context :=
  Context o None None (replicate (Z.to_nat DS4_V100_EXPECTED_GPUS) stage_zero) [] [] 0 0
    (replicate DS4_V100_EXEC_COUNT 0) false (replicate (Z.to_nat DS4_V100_N_LAYERS) layer_zero).

(** The loops [for (int i = 0; i < 8; i++)] and [for (int layer = 0; layer < 43; layer++)]. *)
Definition stage_ids : list Z := map Z.of_nat (seq 0 (Z.to_nat DS4_V100_EXPECTED_GPUS)).
Definition layer_ids : list Z := map Z.of_nat (seq 0 (Z.to_nat DS4_V100_N_LAYERS)).

(** [ctx->stages[i]] and [ctx->layers[i]] updated in place; every use in the
    code has the index in range. *)
Definition upd_stage (i : Z) (f : ds4_stage_info -> ds4_stage_info) (ctx : ds4_context) : ds4_context :=
  ctx <| stages ::= alter f (Z.to_nat i) |>.
Definition upd_layer (i : Z) (f : ds4_layer_info -> ds4_layer_info) (ctx : ds4_context) : ds4_context :=
  ctx <| layers ::= alter f (Z.to_nat i) |>.
Definition get_stage (ctx : ds4_context) (i : Z) : ds4_stage_info :=
  default stage_zero (stages ctx !! Z.to_nat i).
Definition get_layer (ctx : ds4_context) (i : Z) : ds4_layer_info :=
  default layer_zero (layers ctx !! Z.to_nat i).

(** ** Lemmas on the two arrays *)

(** A context whose two arrays have the sizes of the C arrays. *)
Definition ctx_arrays (ctx : ds4_context) : Prop :=
  length (stages ctx) = 8%nat /\ length (layers ctx) = 43%nat.

Lemma ctx_arrays_upd_stage (i : Z) f (ctx : ds4_context) :
  ctx_arrays ctx -> ctx_arrays (upd_stage i f ctx).
Proof. unfold ctx_arrays. simpl. by rewrite length_alter. Qed.

Lemma ctx_arrays_upd_layer (i : Z) f (ctx : ds4_context) :
  ctx_arrays ctx -> ctx_arrays (upd_layer i f ctx).
Proof. unfold ctx_arrays. simpl. by rewrite length_alter. Qed.

Lemma get_upd_stage (i j : Z) f (ctx : ds4_context) :
  ctx_arrays ctx -> 0 <= i < 8 -> 0 <= j ->
  get_stage (upd_stage j f ctx) i = if i =? j then f (get_stage ctx i) else get_stage ctx i.
Proof.
  intros [Hs _] Hi Hj. unfold get_stage. simpl. destruct (Z.eqb_spec i j) as [<-|Hne].
  - rewrite list_lookup_alter_eq.
    destruct (lookup_lt_is_Some_2 (stages ctx) (Z.to_nat i)) as [s Hls]; [lia|]. by rewrite Hls.
  - rewrite list_lookup_alter_ne; [done|lia].
Qed.

Lemma get_upd_layer (i j : Z) f (ctx : ds4_context) :
  ctx_arrays ctx -> 0 <= i < 43 -> 0 <= j ->
  get_layer (upd_layer j f ctx) i = if i =? j then f (get_layer ctx i) else get_layer ctx i.
Proof.
  intros [_ Hs] Hi Hj. unfold get_layer. simpl. destruct (Z.eqb_spec i j) as [<-|Hne].
  - rewrite list_lookup_alter_eq.
    destruct (lookup_lt_is_Some_2 (layers ctx) (Z.to_nat i)) as [s Hls]; [lia|]. by rewrite Hls.
  - rewrite list_lookup_alter_ne; [done|lia].
Qed.

Lemma get_stage_upd_layer (i j : Z) f (ctx : ds4_context) :
  get_stage (upd_layer j f ctx) i = get_stage ctx i.
Proof. done. Qed.

Lemma get_layer_upd_stage (i j : Z) f (ctx : ds4_context) :
  get_layer (upd_stage j f ctx) i = get_layer ctx i.
Proof. done. Qed.

Lemma stage_ids_elem (i : Z) : i ∈ stage_ids <-> 0 <= i < 8.
Proof.
  unfold stage_ids. rewrite list_elem_of_In, in_map_iff. setoid_rewrite in_seq.
  change (Z.to_nat DS4_V100_EXPECTED_GPUS) with 8%nat. split; [intros (? & <- & ?); lia|].
  intros. exists (Z.to_nat i). lia.
Qed.

Lemma layer_ids_elem (i : Z) : i ∈ layer_ids <-> 0 <= i < 43.
Proof.
  unfold layer_ids. rewrite list_elem_of_In, in_map_iff. setoid_rewrite in_seq.
  change (Z.to_nat DS4_V100_N_LAYERS) with 43%nat. split; [intros (? & <- & ?); lia|].
  intros. exists (Z.to_nat i). lia.
Qed.

Lemma stage_ids_NoDup : NoDup stage_ids.
Proof. apply (bool_decide_eq_true_1 _). by vm_compute. Qed.
Lemma layer_ids_NoDup : NoDup layer_ids.
Proof. apply (bool_decide_eq_true_1 _). by vm_compute. Qed.
