(* ===== verification/KvPlan.v ===== *)
(** * KV-cache planning (engine/context.c)

    Saturating 64-bit arithmetic, the KV budget of a layer, the map of layers
    to GPU stages and the plan that lays every layer's KV views out in its
    stage's arena ([init_stage_map], [apply_derived_kv_plan]). *)
From S2P Require Import Prelude.
From S2P Require Import Policy.
From S2P Require Import ContextTypes.

(** ** Saturating arithmetic *)

Definition sat_mul_u64 (a b : Z) : Z :=
  if negb (a =? 0) && (UINT64_MAX / a <? b) then UINT64_MAX else u64 (a * b).

Definition sat_add_u64 (a b : Z) : Z :=
  if UINT64_MAX - a <? b then UINT64_MAX else u64 (a + b).

Definition align_up_u64 (v align : Z) : Z :=
  if align =? 0 then v
  else
    let mask := align - 1 in
    if negb (Z.land align mask =? 0) then v
    else if UINT64_MAX - mask <? v then UINT64_MAX
    else Z.land (u64 (v + mask)) (u64 (Z.lnot mask)).

(** ** The budget of a layer *)

Definition elem_bytes : Z := 2.
Definition sizeof_float : Z := 4.

Definition ds4_kv_budget_for_layer (layer_id ctx_tokens active_slots : Z) : ds4_kv_budget :=
  if (layer_id <? 0) || (DS4_V100_N_LAYERS <=? layer_id) || (ctx_tokens =? 0) || (active_slots =? 0)
  then kv_budget_zero
  else
    let raw_per_slot := DS4_V100_SWA_ROWS * DS4_V100_HEAD_DIM * elem_bytes in
    let b := kv_budget_zero <| raw_swa_bytes := sat_mul_u64 raw_per_slot active_slots |> in
    let b :=
      match ds4_layer_class_for_layer layer_id with
      | DS4_V100_LAYER_RATIO_4 =>
          let comp_slots := ctx_tokens / 4 in
          let comp_per_slot := sat_mul_u64 comp_slots (DS4_V100_HEAD_DIM * elem_bytes) in
          let index_per_slot := sat_mul_u64 comp_slots (DS4_V100_INDEXER_HEAD_DIM * elem_bytes) in
          let state := 2 * (2 * DS4_V100_HEAD_DIM) * (2 * 4) * sizeof_float in
          b <| compressed_attn_bytes := sat_mul_u64 comp_per_slot active_slots |>
            <| indexer_kv_bytes := sat_mul_u64 index_per_slot active_slots |>
            <| compression_state_bytes :=
                 sat_add_u64 state (2 * (2 * DS4_V100_INDEXER_HEAD_DIM) * (2 * 4) * sizeof_float) |>
      | DS4_V100_LAYER_RATIO_128 =>
          let comp_slots := ctx_tokens / 128 in
          let comp_per_slot := sat_mul_u64 comp_slots (DS4_V100_HEAD_DIM * elem_bytes) in
          b <| compressed_attn_bytes := sat_mul_u64 comp_per_slot active_slots |>
            <| compression_state_bytes := 2 * DS4_V100_HEAD_DIM * 128 * sizeof_float |>
      | DS4_V100_LAYER_SWA_ONLY => b
      end in
    let t := sat_add_u64 (raw_swa_bytes b) (compressed_attn_bytes b) in
    let t := sat_add_u64 t (indexer_kv_bytes b) in
    let t := sat_add_u64 t (compression_state_bytes b) in
    b <| total_bytes := t |>.

(** [attn_kv], [attn_score], [indexer_kv], [indexer_score]. *)
Definition kv_state_split_for_layer (layer_id : Z) : Z * Z * Z * Z :=
  match ds4_layer_class_for_layer layer_id with
  | DS4_V100_LAYER_RATIO_4 =>
      let attn := (2 * DS4_V100_HEAD_DIM) * (2 * 4) * sizeof_float in
      let idx := (2 * DS4_V100_INDEXER_HEAD_DIM) * (2 * 4) * sizeof_float in
      (attn, attn, idx, idx)
  | DS4_V100_LAYER_RATIO_128 =>
      let attn := DS4_V100_HEAD_DIM * 128 * sizeof_float in (attn, attn, 0, 0)
  | DS4_V100_LAYER_SWA_ONLY => (0, 0, 0, 0)
  end.

(** ** The stage map *)

Definition stage_begins : list Z := [0; 6; 12; 18; 24; 30; 35; 40].
Definition stage_ends : list Z := [5; 11; 17; 23; 29; 34; 39; 42].

Definition init_stage (o : ds4_context_options) (i : Z) (s : ds4_stage_info) : ds4_stage_info :=
  let s :=
    s <| sg_stage_id := i |> <| sg_gpu := i |>
      <| layer_begin := stage_begins !!! Z.to_nat i |> <| layer_end := stage_ends !!! Z.to_nat i |>
      <| owns_token_embedding := i =? 0 |> <| owns_output_head := i =? 7 |>
      <| scratch_bytes := scratch_bytes_per_gpu o |>
      <| planned_kv_bytes := planned_kv_bytes_per_gpu o |>
      <| reserve_bytes := reserve_bytes_per_gpu o |>
      <| relay_f16_bytes :=
           u64 (DS4_V100_RELAY_BUFFERS * relay_max_active_slots o *
                DS4_V100_HC_ROWS * DS4_V100_HC_COLS * 2) |>
      <| relay_f32_debug_bytes :=
           if enable_f32_debug_relay o
           then u64 (DS4_V100_RELAY_BUFFERS * relay_max_active_slots o *
                     DS4_V100_HC_ROWS * DS4_V100_HC_COLS * 4)
           else 0 |> in
  if i =? 7 then
    s <| sg_output_head_reserve_bytes := output_head_reserve_bytes o |>
      <| sg_mtp_reserve_bytes := mtp_reserve_bytes o |>
  else s.

Definition init_layer (layer : Z) (li : ds4_layer_info) : ds4_layer_info :=
  li <| li_layer_id := layer |> <| li_stage_id := ds4_stage_for_layer layer |>
     <| layer_class := ds4_layer_class_for_layer layer |>.

Definition init_stage_map (ctx : ds4_context) : ds4_context :=
  let ctx := foldl (fun c i => upd_stage i (init_stage (opts c) i) c) ctx stage_ids in
  foldl (fun c layer => upd_layer layer (init_layer layer) c) ctx layer_ids.

(** ** The derived KV plan *)

(** First loop: the KV fields of a stage are cleared. *)
Definition clear_stage_kv (s : ds4_stage_info) : ds4_stage_info :=
  s <| planned_kv_bytes := 0 |> <| kv_arena := kv_arena_zero |> <| kv_raw_swa_bytes := 0 |>
    <| kv_compressed_attn_bytes := 0 |> <| kv_indexer_bytes := 0 |>
    <| kv_compression_state_bytes := 0 |>.

(** Second loop: a layer's budget is added to its stage. *)
Definition add_budget (b : ds4_kv_budget) (s : ds4_stage_info) : ds4_stage_info :=
  s <| kv_raw_swa_bytes := sat_add_u64 (kv_raw_swa_bytes s) (raw_swa_bytes b) |>
    <| kv_compressed_attn_bytes := sat_add_u64 (kv_compressed_attn_bytes s) (compressed_attn_bytes b) |>
    <| kv_indexer_bytes := sat_add_u64 (kv_indexer_bytes s) (indexer_kv_bytes b) |>
    <| kv_compression_state_bytes :=
         sat_add_u64 (kv_compression_state_bytes s) (compression_state_bytes b) |>
    <| planned_kv_bytes := sat_add_u64 (planned_kv_bytes s) (total_bytes b) |>.

Definition account_layer (ctx : ds4_context) (layer : Z) : ds4_context :=
  let b := ds4_kv_budget_for_layer layer (kv_ctx_tokens (opts ctx)) (kv_active_slots (opts ctx)) in
  let ctx := upd_layer layer (fun li => li <| kv_budget := b |>) ctx in
  upd_stage (li_stage_id (get_layer ctx layer)) (add_budget b) ctx.

(** Third loop: the four regions of a stage's arena. *)
Definition plan_arena (s : ds4_stage_info) : ds4_kv_arena_plan :=
  let off0 := 0 in
  let off1 := align_up_u64 (sat_add_u64 off0 (kv_raw_swa_bytes s)) 256 in
  let off2 := align_up_u64 (sat_add_u64 off1 (kv_compressed_attn_bytes s)) 256 in
  let off3 := align_up_u64 (sat_add_u64 off2 (kv_indexer_bytes s)) 256 in
  let off4 := align_up_u64 (sat_add_u64 off3 (kv_compression_state_bytes s)) 256 in
  {| ka_raw_swa_offset := off0; ka_raw_swa_bytes := kv_raw_swa_bytes s;
     ka_compressed_attn_offset := off1; ka_compressed_attn_bytes := kv_compressed_attn_bytes s;
     ka_indexer_kv_offset := off2; ka_indexer_kv_bytes := kv_indexer_bytes s;
     ka_compression_state_offset := off3;
     ka_compression_state_bytes := kv_compression_state_bytes s; ka_total_bytes := off4 |}.

Definition plan_stage (s : ds4_stage_info) : ds4_stage_info :=
  let a := plan_arena s in s <| kv_arena := a |> <| planned_kv_bytes := ka_total_bytes a |>.

(** Fourth loop: the cursors of the four regions, one cell per stage. *)
Record kv_cursors := Cursors {
  raw_cursor : list Z;
  comp_cursor : list Z;
  index_cursor : list Z;
  state_cursor : list Z
}.
#[export] Instance kv_cursors_fields : Fields kv_cursors :=
  rd_pure Cursors <*> raw_cursor <*> comp_cursor <*> index_cursor <*> state_cursor.

Definition cursors_zero : kv_cursors :=
  let z := replicate (Z.to_nat DS4_V100_EXPECTED_GPUS) 0 in Cursors z z z z.

Definition cursor (c : list Z) (i : Z) : Z := default 0 (c !! Z.to_nat i).
Definition bump (i n : Z) (c : list Z) : list Z := alter (fun v => sat_add_u64 v n) (Z.to_nat i) c.

(** The view of a layer, and the cursors behind it. *)
Definition layer_view (a : ds4_kv_arena_plan) (b : ds4_kv_budget) (layer i : Z) (c : kv_cursors)
  : ds4_layer_kv_view * kv_cursors :=
  let '(attn_kv, attn_score, idx_kv, idx_score) := kv_state_split_for_layer layer in
  let state_base := ka_compression_state_offset a in
  let s0 := state_cursor c in
  let s1 := bump i attn_kv s0 in
  let s2 := bump i attn_score s1 in
  let s3 := bump i idx_kv s2 in
  let s4 := bump i idx_score s3 in
  ({| kw_raw_swa_offset := sat_add_u64 (ka_raw_swa_offset a) (cursor (raw_cursor c) i);
      kw_raw_swa_bytes := raw_swa_bytes b;
      kw_compressed_attn_offset :=
        sat_add_u64 (ka_compressed_attn_offset a) (cursor (comp_cursor c) i);
      kw_compressed_attn_bytes := compressed_attn_bytes b;
      kw_indexer_kv_offset := sat_add_u64 (ka_indexer_kv_offset a) (cursor (index_cursor c) i);
      kw_indexer_kv_bytes := indexer_kv_bytes b;
      kw_attn_state_kv_offset := sat_add_u64 state_base (cursor s0 i);
      kw_attn_state_kv_bytes := attn_kv;
      kw_attn_state_score_offset := sat_add_u64 state_base (cursor s1 i);
      kw_attn_state_score_bytes := attn_score;
      kw_indexer_state_kv_offset := sat_add_u64 state_base (cursor s2 i);
      kw_indexer_state_kv_bytes := idx_kv;
      kw_indexer_state_score_offset := sat_add_u64 state_base (cursor s3 i);
      kw_indexer_state_score_bytes := idx_score;
      kw_total_bytes := total_bytes b |},
   {| raw_cursor := bump i (raw_swa_bytes b) (raw_cursor c);
      comp_cursor := bump i (compressed_attn_bytes b) (comp_cursor c);
      index_cursor := bump i (indexer_kv_bytes b) (index_cursor c);
      state_cursor := s4 |}).

Definition place_layer (st : ds4_context * kv_cursors) (layer : Z) : ds4_context * kv_cursors :=
  let '(ctx, c) := st in
  let li := get_layer ctx layer in
  let '(view, c') :=
    layer_view (kv_arena (get_stage ctx (li_stage_id li))) (kv_budget li) layer (li_stage_id li) c in
  (upd_layer layer (fun li => li <| kv_view := view |>) ctx, c').

Definition apply_derived_kv_plan (ctx : ds4_context) : ds4_context :=
  if kv_ctx_tokens (opts ctx) =? 0 then ctx
  else
    let ctx := foldl (fun c i => upd_stage i clear_stage_kv c) ctx stage_ids in
    let ctx := foldl account_layer ctx layer_ids in
    let ctx := foldl (fun c i => upd_stage i plan_stage c) ctx stage_ids in
    fst (foldl place_layer (ctx, cursors_zero) layer_ids).

(** The context of a fresh [calloc] with its stage map and KV plan, as
    [ds4_context_open] sets it up. *)
Definition planned (o : ds4_context_options) : ds4_context :=
  apply_derived_kv_plan (init_stage_map (context_calloc o)).

(** ** Saturating arithmetic: lemmas *)

Lemma sat_add_min (a b : Z) : is_u64 a -> is_u64 b -> sat_add_u64 a b = Z.min UINT64_MAX (a + b).
Proof.
  intros Ha Hb. unfold sat_add_u64. destruct (Z.ltb_spec (UINT64_MAX - a) b); [zlia|].
  rewrite u64_small by zlia. zlia.
Qed.

Lemma sat_mul_min (a b : Z) : is_u64 a -> is_u64 b -> sat_mul_u64 a b = Z.min UINT64_MAX (a * b).
Proof.
  intros Ha Hb. unfold sat_mul_u64. destruct (Z.eqb_spec a 0) as [->|Hne]; cbn [negb andb]; [by rewrite Z.mul_0_l|].
  pose proof (Z.div_mod UINT64_MAX a Hne). pose proof (Z.mod_pos_bound UINT64_MAX a ltac:(zlia)).
  destruct (Z.ltb_spec (UINT64_MAX / a) b).
  - rewrite Z.min_l; [done|].
    pose proof (Z.mul_le_mono_nonneg_l (UINT64_MAX / a + 1) b a ltac:(zlia) ltac:(lia)). lia.
  - pose proof (Z.mul_le_mono_nonneg_l b (UINT64_MAX / a) a ltac:(zlia) ltac:(lia)).
    pose proof (Z.mul_nonneg_nonneg a b ltac:(zlia) ltac:(zlia)).
    rewrite u64_small by zlia. lia.
Qed.

Lemma sat_add_range (a b : Z) : is_u64 a -> is_u64 b -> is_u64 (sat_add_u64 a b).
Proof. intros. rewrite sat_add_min by done. zlia. Qed.

Lemma sat_mul_range (a b : Z) : is_u64 a -> is_u64 b -> is_u64 (sat_mul_u64 a b).
Proof.
  intros. rewrite sat_mul_min by done.
  pose proof (Z.mul_nonneg_nonneg a b ltac:(zlia) ltac:(zlia)). zlia.
Qed.

(** Clearing the low [n] bits. *)
Lemma land_clear (x n : Z) :
  is_u64 x -> 0 <= n -> Z.land x (u64 (Z.lnot (2 ^ n - 1))) = 2 ^ n * (x / 2 ^ n).
Proof.
  intros Hx Hn. unfold u64. rewrite <- (Z.land_ones _ 64) by lia.
  rewrite (Z.land_comm (Z.lnot _)), Z.land_assoc, Z.land_ones, Z.mod_small by zlia.
  replace (2 ^ n - 1) with (Z.ones n) by (rewrite Z.ones_equiv; lia).
  rewrite <- Z.ldiff_land, Z.ldiff_ones_r, Z.shiftl_mul_pow2, Z.shiftr_div_pow2 by lia. lia.
Qed.

Lemma align_up_pow2 (v n : Z) :
  is_u64 v -> 0 <= n < 64 ->
  align_up_u64 v (2 ^ n) =
    if UINT64_MAX - (2 ^ n - 1) <? v then UINT64_MAX else 2 ^ n * ((v + 2 ^ n - 1) / 2 ^ n).
Proof.
  intros Hv Hn. unfold align_up_u64. pose proof (Z.pow_pos_nonneg 2 n ltac:(lia) ltac:(lia)) as Hp.
  destruct (Z.eqb_spec (2 ^ n) 0); [lia|].
  replace (Z.land (2 ^ n) (2 ^ n - 1)) with 0.
  2: { replace (2 ^ n - 1) with (Z.ones n) by (rewrite Z.ones_equiv; lia).
       rewrite Z.land_ones, Z.mod_same by lia. done. }
  cbn [negb Z.eqb]. destruct (Z.ltb_spec (UINT64_MAX - (2 ^ n - 1)) v); [done|].
  rewrite land_clear by (done || lia || apply u64_range).
  rewrite u64_small by zlia. by replace (v + 2 ^ n - 1) with (v + (2 ^ n - 1)) by lia.
Qed.

Lemma align_up_256 (v : Z) :
  is_u64 v ->
  align_up_u64 v 256 = UINT64_MAX \/
  v <= align_up_u64 v 256 < v + 256 /\ align_up_u64 v 256 mod 256 = 0.
Proof.
  intros Hv. change 256 with (2 ^ 8) at 1 2 3 5. rewrite align_up_pow2 by (done || lia).
  change (2 ^ 8) with 256. destruct (Z.ltb_spec (UINT64_MAX - (256 - 1)) v); [by left|right].
  pose proof (Z.div_mod (v + 256 - 1) 256 ltac:(lia)).
  pose proof (Z.mod_pos_bound (v + 256 - 1) 256 ltac:(lia)).
  split; [lia|]. rewrite Z.mul_comm. apply Z.mod_mul. lia.
Qed.

Lemma align_up_range (v : Z) : is_u64 v -> is_u64 (align_up_u64 v 256).
Proof.
  intros Hv. change 256 with (2 ^ 8). rewrite align_up_pow2 by (done || lia).
  destruct (Z.ltb_spec (UINT64_MAX - (2 ^ 8 - 1)) v); [zlia|].
  pose proof (Z.div_mod (v + 2 ^ 8 - 1) (2 ^ 8) ltac:(lia)).
  pose proof (Z.mod_pos_bound (v + 2 ^ 8 - 1) (2 ^ 8) ltac:(lia)).
  zlia.
Qed.

#[export] Hint Resolve sat_add_range sat_mul_range align_up_range : ds4.

(** ** Budgets: lemmas *)

Definition budget_u64 (b : ds4_kv_budget) : Prop :=
  is_u64 (raw_swa_bytes b) /\ is_u64 (compressed_attn_bytes b) /\ is_u64 (indexer_kv_bytes b) /\
  is_u64 (compression_state_bytes b).

Lemma kv_budget_u64 (layer tokens slots : Z) :
  is_u64 tokens -> is_u64 slots -> budget_u64 (ds4_kv_budget_for_layer layer tokens slots).
Proof.
  intros Ht Hs. unfold ds4_kv_budget_for_layer, budget_u64.
  assert (is_u64 (tokens / 4)) by (unfold_ranges; pose proof (Z.div_le_upper_bound tokens 4 tokens);
    pose proof (Z.div_pos tokens 4); lia).
  assert (is_u64 (tokens / 128)) by (unfold_ranges; pose proof (Z.div_le_upper_bound tokens 128 tokens);
    pose proof (Z.div_pos tokens 128); lia).
  assert (forall n, 0 <= n <= 2 ^ 20 -> is_u64 n) as Hc by (intros; zlia).
  destruct (_ || _); [by repeat split|].
  destruct (ds4_layer_class_for_layer layer);
    cbn [raw_swa_bytes compressed_attn_bytes indexer_kv_bytes compression_state_bytes set_field kv_budget_zero];
    repeat split; unfold DS4_V100_SWA_ROWS, DS4_V100_HEAD_DIM, DS4_V100_INDEXER_HEAD_DIM, elem_bytes,
      sizeof_float; simpl;
    repeat first [apply sat_mul_range | apply sat_add_range]; try done; zlia.
Qed.

Definition state_split_list (layer : Z) : list Z :=
  let '(a, s, i, j) := kv_state_split_for_layer layer in [a; s; i; j].

(** The four state tensors of a layer fill its state budget. *)
Lemma kv_state_split_total (layer tokens slots : Z) :
  0 <= layer < DS4_V100_N_LAYERS -> tokens <> 0 -> slots <> 0 ->
  sumZ id (state_split_list layer) =
    compression_state_bytes (ds4_kv_budget_for_layer layer tokens slots).
Proof.
  intros Hl Ht Hs. unfold state_split_list, ds4_kv_budget_for_layer, kv_state_split_for_layer.
  destruct (Z.ltb_spec layer 0); [lia|]. destruct (Z.leb_spec DS4_V100_N_LAYERS layer); [lia|].
  destruct (Z.eqb_spec tokens 0); [lia|]. destruct (Z.eqb_spec slots 0); [lia|]. cbn [orb].
  destruct (ds4_layer_class_for_layer layer); reflexivity.
Qed.

Lemma state_split_nonneg (layer : Z) : Forall (fun n => 0 <= n <= 2 ^ 20) (state_split_list layer).
Proof.
  unfold state_split_list, kv_state_split_for_layer.
  destruct (ds4_layer_class_for_layer layer); repeat constructor; vm_compute; done.
Qed.

(** ** The loops over the layers *)

Section Plan.
Context (o : ds4_context_options).
Context (Htok : is_u64 (kv_ctx_tokens o)) (Hslots : is_u64 (kv_active_slots o)).

Definition bud (l : Z) : ds4_kv_budget :=
  ds4_kv_budget_for_layer l (kv_ctx_tokens o) (kv_active_slots o).

Definition ids (n : nat) : list Z := map Z.of_nat (seq 0 n).

Lemma stage_ids_eq : stage_ids = ids 8.
Proof. reflexivity. Qed.
Lemma layer_ids_eq : layer_ids = ids 43.
Proof. reflexivity. Qed.

(** What the layers of stage [s] below [n] take of [f]. *)
Definition before (f : Z -> Z) (s : Z) (n : nat) : Z :=
  sumZ (fun l => if ds4_stage_for_layer l =? s then f l else 0) (ids n).

Lemma ids_S (n : nat) : ids (S n) = ids n ++ [Z.of_nat n].
Proof. unfold ids. by rewrite seq_S, map_app. Qed.

Lemma before_S (f : Z -> Z) (s : Z) (n : nat) :
  before f s (S n) =
    before f s n + (if ds4_stage_for_layer (Z.of_nat n) =? s then f (Z.of_nat n) else 0).
Proof. unfold before. rewrite ids_S, sumZ_app. simpl. lia. Qed.

Lemma before_nonneg (f : Z -> Z) (s : Z) (n : nat) : (forall l, 0 <= f l) -> 0 <= before f s n.
Proof.
  intros Hf. apply sumZ_nonneg, Forall_forall. intros l _.
  destruct (_ =? _); [apply Hf|done].
Qed.

(** A layer's share ends before the share of every later layer of its stage. *)
Lemma before_step (f : Z -> Z) (a n : nat) :
  (forall l, 0 <= f l) -> (a < n)%nat ->
  before f (ds4_stage_for_layer (Z.of_nat a)) a + f (Z.of_nat a) <=
    before f (ds4_stage_for_layer (Z.of_nat a)) n.
Proof.
  intros Hf Hn. induction n as [|n IH]; [lia|]. rewrite before_S.
  destruct (decide (a = n)) as [<-|Hne].
  - rewrite Z.eqb_refl. lia.
  - specialize (IH ltac:(lia)). destruct (_ =? _); [|lia]. specialize (Hf (Z.of_nat n)). lia.
Qed.

Lemma foldl_prefix {S : Type} (f : S -> Z -> S) (P : nat -> S -> Prop) (s0 : S) (m : nat) :
  P O s0 -> (forall n s, (n < m)%nat -> P n s -> P (Datatypes.S n) (f s (Z.of_nat n))) ->
  P m (foldl f s0 (ids m)).
Proof.
  intros H0 Hstep. assert (forall n, (n <= m)%nat -> P n (foldl f s0 (ids n))) as H; [|by apply H].
  induction n as [|n IH]; intros Hn; [done|]. rewrite ids_S, foldl_app. simpl.
  apply Hstep; [lia|]. apply IH. lia.
Qed.

(** A loop that visits every stage once applies its body to each of them. *)
Lemma foldl_stages (f : Z -> ds4_stage_info -> ds4_stage_info) (ctx : ds4_context) :
  ctx_arrays ctx ->
  let ctx' := foldl (fun c i => upd_stage i (f i) c) ctx stage_ids in
  ctx_arrays ctx' /\ layers ctx' = layers ctx /\ opts ctx' = opts ctx /\
  (forall i, 0 <= i < 8 -> get_stage ctx' i = f i (get_stage ctx i)).
Proof.
  intros Ha. rewrite stage_ids_eq.
  pose proof (foldl_prefix (fun c i => upd_stage i (f i) c)
    (fun n c => ctx_arrays c /\ layers c = layers ctx /\ opts c = opts ctx /\
       forall i, 0 <= i < 8 -> get_stage c i =
         if i <? Z.of_nat n then f i (get_stage ctx i) else get_stage ctx i) ctx 8) as H.
  destruct H as (H1 & H2 & H3 & H4).
  - do 3 (split; [done|]). intros i Hi. destruct (Z.ltb_spec i (Z.of_nat 0)); [lia|done].
  - intros n c Hn (I1 & I2 & I3 & I4). split; [by apply ctx_arrays_upd_stage|].
    split; [done|]. split; [done|]. intros i Hi. rewrite get_upd_stage by (done || lia).
    rewrite I4 by done. destruct (Z.eqb_spec i (Z.of_nat n)) as [->|].
    + destruct (Z.ltb_spec (Z.of_nat n) (Z.of_nat n)); [lia|].
      destruct (Z.ltb_spec (Z.of_nat n) (Z.of_nat (S n))); [done|lia].
    + destruct (Z.ltb_spec i (Z.of_nat n)), (Z.ltb_spec i (Z.of_nat (S n))); done || lia.
  - do 3 (split; [done|]). intros i Hi. rewrite H4 by done.
    destruct (Z.ltb_spec i (Z.of_nat 8)); [done|lia].
Qed.

Definition stage_layers (ctx : ds4_context) : Prop :=
  forall i, 0 <= i < 43 -> li_stage_id (get_layer ctx i) = ds4_stage_for_layer i.

(** The stage sums after the accounting loop. *)
Definition stage_sums (n : nat) (s : ds4_stage_info) (i : Z) : Prop :=
  kv_raw_swa_bytes s = Z.min UINT64_MAX (before (fun l => raw_swa_bytes (bud l)) i n) /\
  kv_compressed_attn_bytes s = Z.min UINT64_MAX (before (fun l => compressed_attn_bytes (bud l)) i n) /\
  kv_indexer_bytes s = Z.min UINT64_MAX (before (fun l => indexer_kv_bytes (bud l)) i n) /\
  kv_compression_state_bytes s =
    Z.min UINT64_MAX (before (fun l => compression_state_bytes (bud l)) i n).

Lemma sat_add_acc (m x : Z) : 0 <= m -> is_u64 x ->
  sat_add_u64 (Z.min UINT64_MAX m) x = Z.min UINT64_MAX (m + x).
Proof. intros Hm Hx. rewrite sat_add_min by zlia. zlia. Qed.

Lemma bud_u64 (l : Z) : budget_u64 (bud l).
Proof. by apply kv_budget_u64. Qed.

Lemma stage_sums_add (n : nat) (s : ds4_stage_info) :
  let l := Z.of_nat n in let i := ds4_stage_for_layer l in
  stage_sums n s i -> stage_sums (S n) (add_budget (bud l) s) i.
Proof.
  intros l i (H1 & H2 & H3 & H4). destruct (bud_u64 l) as (B1 & B2 & B3 & B4).
  unfold stage_sums. rewrite !before_S, !Z.eqb_refl. fold l.
  unfold add_budget. cbn -[sat_add_u64 before Z.min UINT64_MAX bud].
  rewrite H1, H2, H3, H4. rewrite !sat_add_acc; try done.
  all: apply before_nonneg; intros k; destruct (bud_u64 k) as (? & ? & ? & ?); zlia.
Qed.

Lemma account_layers (ctx : ds4_context) :
  ctx_arrays ctx -> opts ctx = o -> stage_layers ctx ->
  (forall i, 0 <= i < 8 -> stage_sums 0 (get_stage ctx i) i) ->
  let ctx' := foldl account_layer ctx layer_ids in
  ctx_arrays ctx' /\ opts ctx' = o /\ stage_layers ctx' /\
  (forall i, 0 <= i < 43 -> kv_budget (get_layer ctx' i) = bud i) /\
  (forall i, 0 <= i < 8 -> stage_sums 43 (get_stage ctx' i) i).
Proof.
  intros Ha Ho Hl H0. rewrite layer_ids_eq.
  pose proof (foldl_prefix account_layer
    (fun n c => ctx_arrays c /\ opts c = o /\ stage_layers c /\
       (forall i, 0 <= i < Z.of_nat n -> kv_budget (get_layer c i) = bud i) /\
       (forall i, 0 <= i < 8 -> stage_sums n (get_stage c i) i)) ctx 43) as H.
  apply H; clear H.
  - do 3 (split; [done|]). split; [intros i Hi; simpl in Hi; lia|done].
  - intros n c Hn (I1 & I2 & I3 & I4 & I5). unfold account_layer. rewrite I2. fold (bud (Z.of_nat n)).
    set (c1 := upd_layer _ _ c).
    assert (ctx_arrays c1) as A1 by (by apply ctx_arrays_upd_layer).
    assert (stage_layers c1) as L1.
    { intros i Hi. unfold c1. rewrite get_upd_layer by (done || lia).
      destruct (_ =? _); [exact (I3 i Hi)|exact (I3 i Hi)]. }
    split; [by apply ctx_arrays_upd_stage|]. split; [done|]. split; [exact L1|]. split.
    + intros i Hi. rewrite get_layer_upd_stage. unfold c1. rewrite get_upd_layer by (done || lia).
      destruct (Z.eqb_spec i (Z.of_nat n)) as [->|]; [done|]. apply I4. lia.
    + intros i Hi. pose proof (stage_for_layer_range (Z.of_nat n) ltac:(unfold DS4_V100_N_LAYERS; lia)) as Hs.
      unfold DS4_V100_EXPECTED_GPUS in Hs.
      rewrite get_upd_stage; [|done|done|rewrite L1; lia]. rewrite L1 by lia.
      unfold c1. rewrite get_stage_upd_layer.
      destruct (Z.eqb_spec i (ds4_stage_for_layer (Z.of_nat n))) as [->|Hne].
      * apply stage_sums_add. by apply I5.
      * specialize (I5 i Hi). unfold stage_sums in *. rewrite !before_S.
        destruct (Z.eqb_spec (ds4_stage_for_layer (Z.of_nat n)) i); [lia|]. by rewrite !Z.add_0_r.
Qed.

(** ** The placement loop *)

(** The regions of a view, as (offset, bytes), in the order of its fields. *)
Definition view_regions (v : ds4_layer_kv_view) : list (Z * Z) :=
  [(kw_raw_swa_offset v, kw_raw_swa_bytes v);
   (kw_compressed_attn_offset v, kw_compressed_attn_bytes v);
   (kw_indexer_kv_offset v, kw_indexer_kv_bytes v);
   (kw_attn_state_kv_offset v, kw_attn_state_kv_bytes v);
   (kw_attn_state_score_offset v, kw_attn_state_score_bytes v);
   (kw_indexer_state_kv_offset v, kw_indexer_state_kv_bytes v);
   (kw_indexer_state_score_offset v, kw_indexer_state_score_bytes v)].

(** Bytes a layer takes of each of the four regions of its stage's arena. *)
Definition class_bytes (c : nat) (l : Z) : Z :=
  match c with
  | 0 => raw_swa_bytes (bud l)
  | 1 => compressed_attn_bytes (bud l)
  | 2 => indexer_kv_bytes (bud l)
  | _ => sumZ id (state_split_list l)
  end%nat.

Definition class_offset (c : nat) (a : ds4_kv_arena_plan) : Z :=
  match c with
  | 0 => ka_raw_swa_offset a
  | 1 => ka_compressed_attn_offset a
  | 2 => ka_indexer_kv_offset a
  | _ => ka_compression_state_offset a
  end%nat.

(** The regions of a layer: class, offset within the layer's share, bytes. *)
Definition layer_slots (l : Z) : list (nat * Z * Z) :=
  let '(a, s, i, j) := kv_state_split_for_layer l in
  [(0%nat, 0, raw_swa_bytes (bud l)); (1%nat, 0, compressed_attn_bytes (bud l));
   (2%nat, 0, indexer_kv_bytes (bud l)); (3%nat, 0, a); (3%nat, a, s); (3%nat, a + s, i);
   (3%nat, a + s + i, j)].

Definition place_slot (a : ds4_kv_arena_plan) (n : nat) (t : nat * Z * Z) : Z * Z :=
  let '(c, d, z) := t in
  (sat_add_u64 (class_offset c a)
     (Z.min UINT64_MAX (before (class_bytes c) (ds4_stage_for_layer (Z.of_nat n)) n + d)), z).

Lemma class_bytes_nonneg (c : nat) (l : Z) : 0 <= class_bytes c l.
Proof.
  destruct (bud_u64 l) as (? & ? & ? & ?). pose proof (state_split_nonneg l) as Hs.
  destruct c as [|[|[|c]]]; simpl; try zlia.
  apply sumZ_nonneg. eapply Forall_impl; [exact Hs|]. intros x. unfold id. lia.
Qed.

(** The cursors after [n] layers. *)
Definition cursors_at (n : nat) (k : kv_cursors) : Prop :=
  forall s, 0 <= s < 8 ->
    cursor (raw_cursor k) s = Z.min UINT64_MAX (before (class_bytes 0) s n) /\
    cursor (comp_cursor k) s = Z.min UINT64_MAX (before (class_bytes 1) s n) /\
    cursor (index_cursor k) s = Z.min UINT64_MAX (before (class_bytes 2) s n) /\
    cursor (state_cursor k) s = Z.min UINT64_MAX (before (class_bytes 3) s n).

Definition cursors_len (k : kv_cursors) : Prop :=
  length (raw_cursor k) = 8%nat /\ length (comp_cursor k) = 8%nat /\
  length (index_cursor k) = 8%nat /\ length (state_cursor k) = 8%nat.

Lemma cursor_bump (c : list Z) (i j n : Z) :
  length c = 8%nat -> 0 <= i < 8 -> 0 <= j < 8 ->
  cursor (bump i n c) j = if j =? i then sat_add_u64 (cursor c j) n else cursor c j.
Proof.
  intros Hc Hi Hj. unfold cursor, bump. destruct (Z.eqb_spec j i) as [->|Hne].
  - rewrite list_lookup_alter_eq.
    destruct (lookup_lt_is_Some_2 c (Z.to_nat i)) as [v Hv]; [lia|]. by rewrite Hv.
  - rewrite list_lookup_alter_ne; [done|lia].
Qed.

Lemma bump_length (i n : Z) (c : list Z) : length (bump i n c) = length c.
Proof. apply length_alter. Qed.

Lemma layer_view_at (n : nat) (a : ds4_kv_arena_plan) (k : kv_cursors) :
  (n < 43)%nat -> cursors_len k -> cursors_at n k ->
  let l := Z.of_nat n in
  let '(v, k') := layer_view a (bud l) l (ds4_stage_for_layer l) k in
  view_regions v = map (place_slot a n) (layer_slots l) /\ cursors_len k' /\ cursors_at (S n) k'.
Proof.
  intros Hn (L1 & L2 & L3 & L4) Hk l. unfold layer_view, layer_slots.
  destruct (kv_state_split_for_layer l) as [[[s1 s2] s3] s4] eqn:Es.
  pose proof (stage_for_layer_range l ltac:(unfold l, DS4_V100_N_LAYERS; lia)) as Hs.
  unfold DS4_V100_EXPECTED_GPUS in Hs.
  pose proof (state_split_nonneg l) as Hsp. unfold state_split_list in Hsp. rewrite Es in Hsp.
  rewrite !Forall_cons in Hsp. destruct Hsp as (P1 & P2 & P3 & P4 & _).
  assert (class_bytes 3 l = s1 + s2 + s3 + s4) as Hc3.
  { simpl. unfold state_split_list. rewrite Es. simpl. unfold id. lia. }
  destruct (bud_u64 l) as (B1 & B2 & B3 & _).
  pose proof (before_nonneg (class_bytes 3) (ds4_stage_for_layer l) n (class_bytes_nonneg 3)) as Hb3.
  assert (forall i, 0 <= i < 8 -> cursor (state_cursor k) i = Z.min UINT64_MAX (before (class_bytes 3) i n))
    as Hk3 by (intros i Hi; by destruct (Hk i Hi) as (_ & _ & _ & ?)).
  destruct (Hk _ Hs) as (K1 & K2 & K3 & K4).
  split; [|split].
  - unfold view_regions. cbn -[sat_add_u64 cursor bump class_bytes before Z.min UINT64_MAX bud].
    fold l. rewrite !cursor_bump by (rewrite ?bump_length; done || lia).
    rewrite Z.eqb_refl, K1, K2, K3, K4, !Z.add_0_r.
    rewrite !sat_add_acc by zlia. by rewrite <- ?Z.add_assoc.
  - unfold cursors_len. cbn [raw_cursor comp_cursor index_cursor state_cursor].
    rewrite !bump_length. done.
  - intros i Hi. cbn [raw_cursor comp_cursor index_cursor state_cursor].
    rewrite !cursor_bump by (rewrite ?bump_length; done || lia).
    rewrite !before_S. fold l. rewrite (Z.eqb_sym (ds4_stage_for_layer l) i).
    destruct (Hk i Hi) as (J1 & J2 & J3 & J4).
    destruct (Z.eqb_spec i (ds4_stage_for_layer l)) as [->|Hne].
    + rewrite K1, K2, K3, K4, Hc3. rewrite !sat_add_acc; try done; try zlia;
        try (apply before_nonneg, class_bytes_nonneg).
      repeat split; f_equal; lia.
    + rewrite !Z.add_0_r. done.
Qed.

Lemma place_layers (ctx : ds4_context) :
  ctx_arrays ctx -> stage_layers ctx ->
  (forall i, 0 <= i < 43 -> kv_budget (get_layer ctx i) = bud i) ->
  let ctx' := fst (foldl place_layer (ctx, cursors_zero) layer_ids) in
  ctx_arrays ctx' /\ stages ctx' = stages ctx /\ opts ctx' = opts ctx /\
  (forall n, (n < 43)%nat ->
     li_stage_id (get_layer ctx' (Z.of_nat n)) = ds4_stage_for_layer (Z.of_nat n) /\
     kv_budget (get_layer ctx' (Z.of_nat n)) = bud (Z.of_nat n) /\
     view_regions (kv_view (get_layer ctx' (Z.of_nat n))) =
       map (place_slot (kv_arena (get_stage ctx (ds4_stage_for_layer (Z.of_nat n)))) n)
           (layer_slots (Z.of_nat n))).
Proof.
  intros Ha Hl Hb. rewrite layer_ids_eq.
  pose proof (foldl_prefix place_layer
    (fun n '(c, k) => ctx_arrays c /\ stages c = stages ctx /\ opts c = opts ctx /\ stage_layers c /\
       (forall i, 0 <= i < 43 -> kv_budget (get_layer c i) = bud i) /\
       cursors_len k /\ cursors_at n k /\
       (forall m, (m < n)%nat -> view_regions (kv_view (get_layer c (Z.of_nat m))) =
          map (place_slot (kv_arena (get_stage ctx (ds4_stage_for_layer (Z.of_nat m)))) m)
              (layer_slots (Z.of_nat m)))) (ctx, cursors_zero) 43) as H.
  cbv beta iota zeta in H. destruct (foldl place_layer _ _) as [c k]. cbn [fst].
  destruct H as (H1 & H2 & H3 & H4 & H5 & _ & _ & H8).
  - do 5 (split; [done|]). split; [done|]. split; [|intros m Hm; lia].
    intros s Hs. unfold cursors_zero. cbn [raw_cursor comp_cursor index_cursor state_cursor].
    assert (cursor (replicate (Z.to_nat DS4_V100_EXPECTED_GPUS) 0) s = 0) as ->; [|done].
    unfold cursor. by rewrite lookup_replicate_2 by (unfold DS4_V100_EXPECTED_GPUS; lia).
  - intros n [c1 k1] Hn (I1 & I2 & I3 & I4 & I5 & I6 & I7 & I8). unfold place_layer.
    rewrite (I4 (Z.of_nat n)), (I5 (Z.of_nat n)) by lia.
    assert (get_stage c1 = get_stage ctx) as Hst by (unfold get_stage; by rewrite I2). rewrite Hst.
    pose proof (layer_view_at n (kv_arena (get_stage ctx (ds4_stage_for_layer (Z.of_nat n)))) k1
                  Hn I6 I7) as Hv. cbv zeta in Hv.
    destruct (layer_view _ _ _ _ _) as [v k2]. destruct Hv as (V1 & V2 & V3).
    split; [by apply ctx_arrays_upd_layer|]. split; [done|]. split; [done|].
    split; [|split; [|split; [done|split; [done|]]]].
    + intros i Hi. rewrite get_upd_layer by (done || lia). destruct (_ =? _); exact (I4 i Hi).
    + intros i Hi. rewrite get_upd_layer by (done || lia). destruct (_ =? _); exact (I5 i Hi).
    + intros m Hm. rewrite get_upd_layer by (done || lia).
      destruct (Z.eqb_spec (Z.of_nat m) (Z.of_nat n)) as [Heq|Hne].
      * assert (m = n) as -> by lia. exact V1.
      * apply I8. lia.
  - do 3 (split; [done|]). intros n Hn. split; [apply H4; lia|]. split; [apply H5; lia|by apply H8].
Qed.
End Plan.

(** ** The stage map *)

Lemma init_stage_map_inv (ctx : ds4_context) :
  ctx_arrays ctx ->
  let ctx' := init_stage_map ctx in
  ctx_arrays ctx' /\ opts ctx' = opts ctx /\ stage_layers ctx' /\
  (forall i, 0 <= i < 43 -> get_layer ctx' i = init_layer i (get_layer ctx i)) /\
  (forall i, 0 <= i < 8 -> get_stage ctx' i = init_stage (opts ctx) i (get_stage ctx i)).
Proof.
  intros Ha. unfold init_stage_map. cbv zeta.
  assert (foldl (fun c i => upd_stage i (init_stage (opts c) i) c) ctx stage_ids =
          foldl (fun c i => upd_stage i (init_stage (opts ctx) i) c) ctx stage_ids) as ->.
  { generalize stage_ids as l. intros l. remember (opts ctx) as oo eqn:Ho.
    revert ctx Ha Ho. induction l as [|i l IH]; intros ctx Ha Ho; simpl; [done|].
    rewrite <- Ho. apply IH; [by apply ctx_arrays_upd_stage|done]. }
  pose proof (foldl_stages (init_stage (opts ctx)) ctx Ha) as (A1 & A2 & A3 & A4).
  set (c1 := foldl _ ctx stage_ids) in *. clearbody c1. rewrite layer_ids_eq.
  pose proof (foldl_prefix (fun c layer => upd_layer layer (init_layer layer) c)
    (fun n c => ctx_arrays c /\ stages c = stages c1 /\ opts c = opts c1 /\
       forall i, 0 <= i < 43 -> get_layer c i =
         if i <? Z.of_nat n then init_layer i (get_layer c1 i) else get_layer c1 i) c1 43) as H.
  destruct H as (H1 & H2 & H3 & H4).
  - do 3 (split; [done|]). intros i Hi. destruct (Z.ltb_spec i (Z.of_nat 0)); [lia|done].
  - intros n c Hn (I1 & I2 & I3 & I4). split; [by apply ctx_arrays_upd_layer|].
    do 2 (split; [done|]). intros i Hi. rewrite get_upd_layer by (done || lia). rewrite I4 by done.
    destruct (Z.eqb_spec i (Z.of_nat n)) as [->|].
    + destruct (Z.ltb_spec (Z.of_nat n) (Z.of_nat n)); [lia|].
      destruct (Z.ltb_spec (Z.of_nat n) (Z.of_nat (S n))); [done|lia].
    + destruct (Z.ltb_spec i (Z.of_nat n)), (Z.ltb_spec i (Z.of_nat (S n))); done || lia.
  - set (c2 := foldl _ c1 _) in *. clearbody c2.
    assert (forall i, 0 <= i < 43 -> get_layer c2 i = init_layer i (get_layer ctx i)) as Hl.
    { intros i Hi. rewrite H4 by done. destruct (Z.ltb_spec i (Z.of_nat 43)); [|lia].
      unfold get_layer. by rewrite A2. }
    split; [done|]. split; [congruence|]. split; [intros i Hi; by rewrite Hl|].
    split; [done|]. intros i Hi. rewrite <- A4 by done. unfold get_stage. by rewrite H2.
Qed.

Lemma context_calloc_arrays (o : ds4_context_options) : ctx_arrays (context_calloc o).
Proof. done. Qed.

(** ** The whole plan *)

(** Everything the four loops establish. *)
Definition plan_facts (o : ds4_context_options) (ctx : ds4_context) (st : Z -> ds4_stage_info) : Prop :=
  ctx_arrays ctx /\ opts ctx = o /\
  (forall i, 0 <= i < 8 -> stage_sums o 43 (st i) i /\ get_stage ctx i = plan_stage (st i)) /\
  (forall n, (n < 43)%nat ->
     let li := get_layer ctx (Z.of_nat n) in
     li_stage_id li = ds4_stage_for_layer (Z.of_nat n) /\ kv_budget li = bud o (Z.of_nat n) /\
     view_regions (kv_view li) =
       map (place_slot o (plan_arena (st (ds4_stage_for_layer (Z.of_nat n)))) n)
           (layer_slots o (Z.of_nat n))).

Lemma apply_plan_inv (o : ds4_context_options) (c0 : ds4_context) :
  is_u64 (kv_ctx_tokens o) -> is_u64 (kv_active_slots o) -> kv_ctx_tokens o <> 0 ->
  ctx_arrays c0 -> opts c0 = o -> stage_layers c0 ->
  exists st, plan_facts o (apply_derived_kv_plan c0) st.
Proof.
  intros Ht Hs Hne A1 A2 A3. unfold apply_derived_kv_plan. cbv zeta. rewrite A2.
  destruct (Z.eqb_spec (kv_ctx_tokens o) 0) as [|Hne0]; [done|].
  pose proof (foldl_stages (fun _ => clear_stage_kv) c0 A1) as HB. cbv beta zeta in HB.
  revert HB. generalize (foldl (fun c i => upd_stage i clear_stage_kv c) c0 stage_ids).
  intros c1 (B1 & B2 & B3 & B4).
  assert (stage_layers c1) as L1 by (intros i Hi; unfold get_layer; rewrite B2; by apply A3).
  pose proof (account_layers o Ht Hs c1 B1 ltac:(by rewrite B3, A2) L1
                ltac:(intros i Hi; rewrite B4 by done; by repeat split)) as HC.
  revert HC. cbv zeta. generalize (foldl account_layer c1 layer_ids).
  intros c2 (C1 & C2 & C3 & C4 & C5).
  pose proof (foldl_stages (fun _ => plan_stage) c2 C1) as HD. cbv beta zeta in HD.
  revert HD. generalize (foldl (fun c i => upd_stage i plan_stage c) c2 stage_ids).
  intros c3 (D1 & D2 & D3 & D4).
  assert (stage_layers c3) as L3 by (intros i Hi; unfold get_layer; rewrite D2; by apply C3).
  assert (forall i, 0 <= i < 43 -> kv_budget (get_layer c3 i) = bud o i) as K3
    by (intros i Hi; unfold get_layer; rewrite D2; by apply C4).
  pose proof (place_layers o Ht Hs c3 D1 L3 K3) as HE.
  revert HE. cbv zeta. generalize (fst (foldl place_layer (c3, cursors_zero) layer_ids)).
  intros c4 (E1 & E2 & E3 & E4).
  exists (get_stage c2). split; [done|]. split; [by rewrite E3, D3|]. split.
  - intros i Hi. split; [by apply C5|]. rewrite <- D4 by done. unfold get_stage. by rewrite E2.
  - intros n Hn. destruct (E4 n Hn) as (F1 & F2 & F3). split; [done|]. split; [done|].
    rewrite F3. rewrite D4; [done|].
    apply stage_for_layer_range. unfold DS4_V100_N_LAYERS. lia.
Qed.

Lemma planned_inv (o : ds4_context_options) :
  is_u64 (kv_ctx_tokens o) -> is_u64 (kv_active_slots o) -> kv_ctx_tokens o <> 0 ->
  exists st, plan_facts o (planned o) st.
Proof.
  intros Ht Hs Hne. pose proof (init_stage_map_inv (context_calloc o) (context_calloc_arrays o)) as Hi.
  unfold planned. revert Hi. generalize (init_stage_map (context_calloc o)) as c0.
  intros c0 (A1 & A2 & A3 & _). by apply apply_plan_inv.
Qed.

(** ** Exactness: a plan whose size did not saturate is a plan of exact sums *)

Definition stage_total (o : ds4_context_options) (c : nat) (i : Z) : Z := before (class_bytes o c) i 43.

Lemma before_ext (f g : Z -> Z) (i : Z) (n : nat) :
  (n <= 43)%nat -> (forall l, 0 <= l < 43 -> f l = g l) -> before f i n = before g i n.
Proof.
  intros Hn Hfg. induction n as [|n IH]; [done|]. rewrite !before_S, IH by lia.
  destruct (_ =? _); [|done]. rewrite Hfg by lia. done.
Qed.

Lemma stage_sums_class (o : ds4_context_options) (s : ds4_stage_info) (i : Z) :
  kv_ctx_tokens o <> 0 -> kv_active_slots o <> 0 -> stage_sums o 43 s i ->
  kv_raw_swa_bytes s = Z.min UINT64_MAX (stage_total o 0 i) /\
  kv_compressed_attn_bytes s = Z.min UINT64_MAX (stage_total o 1 i) /\
  kv_indexer_bytes s = Z.min UINT64_MAX (stage_total o 2 i) /\
  kv_compression_state_bytes s = Z.min UINT64_MAX (stage_total o 3 i).
Proof.
  intros Ht Hs (H1 & H2 & H3 & H4). do 3 (split; [done|]). rewrite H4. f_equal.
  apply before_ext; [lia|]. intros l Hl. simpl.
  symmetry. by apply kv_state_split_total.
Qed.

(** One region of the arena: it starts where the previous one, rounded up to
    256 bytes, ends. *)
Lemma region_exact (off m : Z) :
  is_u64 off -> 0 <= m -> align_up_u64 (sat_add_u64 off (Z.min UINT64_MAX m)) 256 <> UINT64_MAX ->
  off + m <= align_up_u64 (sat_add_u64 off (Z.min UINT64_MAX m)) 256 < UINT64_MAX /\
  align_up_u64 (sat_add_u64 off (Z.min UINT64_MAX m)) 256 mod 256 = 0.
Proof.
  intros Ho Hm Hne. assert (is_u64 (Z.min UINT64_MAX m)) as Hmin by zlia.
  pose proof (sat_add_range _ _ Ho Hmin) as Hr.
  destruct (align_up_256 _ Hr) as [?|[[H1 H2] H3]]; [done|]. split; [|done].
  pose proof (align_up_range _ Hr) as Hr2. rewrite (sat_add_min off) in * by done. zlia.
Qed.

Lemma region_range (off m : Z) :
  is_u64 off -> 0 <= m -> is_u64 (align_up_u64 (sat_add_u64 off (Z.min UINT64_MAX m)) 256).
Proof. intros. apply align_up_range, sat_add_range; zlia. Qed.

(** Saturation is sticky: it shows in the total. *)
Lemma region_sticky (off m : Z) :
  off = UINT64_MAX -> 0 <= m -> align_up_u64 (sat_add_u64 off (Z.min UINT64_MAX m)) 256 = UINT64_MAX.
Proof.
  intros -> Hm. rewrite sat_add_min by zlia.
  replace (Z.min UINT64_MAX (UINT64_MAX + Z.min UINT64_MAX m)) with UINT64_MAX by zlia. by vm_compute.
Qed.

Record arena_exact (a : ds4_kv_arena_plan) (t : nat -> Z) : Prop := {
  ax_raw : ka_raw_swa_offset a = 0;
  ax_comp : t 0%nat <= ka_compressed_attn_offset a;
  ax_index : ka_compressed_attn_offset a + t 1%nat <= ka_indexer_kv_offset a;
  ax_state : ka_indexer_kv_offset a + t 2%nat <= ka_compression_state_offset a;
  ax_total : ka_compression_state_offset a + t 3%nat <= ka_total_bytes a;
  ax_bound : ka_total_bytes a < UINT64_MAX;
  ax_align : ka_compressed_attn_offset a mod 256 = 0 /\ ka_indexer_kv_offset a mod 256 = 0 /\
             ka_compression_state_offset a mod 256 = 0 /\ ka_total_bytes a mod 256 = 0
}.

Lemma plan_arena_exact (s : ds4_stage_info) (t : nat -> Z) :
  (forall c, 0 <= t c) ->
  kv_raw_swa_bytes s = Z.min UINT64_MAX (t 0%nat) /\
  kv_compressed_attn_bytes s = Z.min UINT64_MAX (t 1%nat) /\
  kv_indexer_bytes s = Z.min UINT64_MAX (t 2%nat) /\
  kv_compression_state_bytes s = Z.min UINT64_MAX (t 3%nat) ->
  ka_total_bytes (plan_arena s) <> UINT64_MAX -> arena_exact (plan_arena s) t.
Proof.
  intros Ht (H1 & H2 & H3 & H4) Hne. unfold plan_arena in *.
  cbn -[align_up_u64 sat_add_u64] in Hne. rewrite H1, H2, H3, H4 in *.
  set (o1 := align_up_u64 (sat_add_u64 0 _) 256) in *.
  set (o2 := align_up_u64 (sat_add_u64 o1 _) 256) in *.
  set (o3 := align_up_u64 (sat_add_u64 o2 _) 256) in *.
  set (o4 := align_up_u64 (sat_add_u64 o3 _) 256) in *.
  assert (is_u64 o1) as R1 by (apply region_range; [zlia|done]).
  assert (is_u64 o2) as R2 by (apply region_range; done).
  assert (is_u64 o3) as R3 by (apply region_range; done).
  assert (o3 <> UINT64_MAX) as N3 by (intros E; apply Hne; by apply region_sticky).
  assert (o2 <> UINT64_MAX) as N2 by (intros E; apply N3; by apply region_sticky).
  assert (o1 <> UINT64_MAX) as N1 by (intros E; apply N2; by apply region_sticky).
  pose proof (region_exact 0 _ ltac:(zlia) (Ht 0%nat) N1) as P1. fold o1 in P1.
  pose proof (region_exact o1 _ R1 (Ht 1%nat) N2) as P2. fold o2 in P2.
  pose proof (region_exact o2 _ R2 (Ht 2%nat) N3) as P3. fold o3 in P3.
  pose proof (region_exact o3 _ R3 (Ht 3%nat) Hne) as P4. fold o4 in P4.
  clearbody o1 o2 o3 o4. split; cbn -[align_up_u64 sat_add_u64]; lia || tauto.
Qed.

(** Where a region of a layer lies when nothing saturates. *)
Definition exact_offset (o : ds4_context_options) (a : ds4_kv_arena_plan) (n : nat) (t : nat * Z * Z) : Z :=
  let '(c, d, _) := t in
  class_offset c a + before (class_bytes o c) (ds4_stage_for_layer (Z.of_nat n)) n + d.

Lemma layer_slots_bounds (o : ds4_context_options) (l : Z) :
  is_u64 (kv_ctx_tokens o) -> is_u64 (kv_active_slots o) ->
  Forall (fun '(c, d, z) => (c <= 3)%nat /\ 0 <= d /\ 0 <= z /\ d + z <= class_bytes o c l)
    (layer_slots o l).
Proof.
  intros Ht Hs. unfold layer_slots. pose proof (state_split_nonneg l) as Hsp.
  assert (class_bytes o 3 l = sumZ id (state_split_list l)) as H3 by done.
  unfold state_split_list in H3, Hsp.
  destruct (kv_state_split_for_layer l) as [[[s1 s2] s3] s4]. rewrite !Forall_cons in Hsp.
  destruct Hsp as (? & ? & ? & ? & _). cbn [sumZ foldr id] in H3.
  destruct (bud_u64 o Ht Hs l) as (? & ? & ? & _).
  assert (class_bytes o 0 l = raw_swa_bytes (bud o l)) by done.
  assert (class_bytes o 1 l = compressed_attn_bytes (bud o l)) by done.
  assert (class_bytes o 2 l = indexer_kv_bytes (bud o l)) by done.
  repeat (apply Forall_cons; split); try apply Forall_nil; try done;
    (split; [lia|]); zlia.
Qed.

(** The regions of one layer, in order, do not overlap within a class. *)
Lemma layer_slots_ordered (o : ds4_context_options) (l : Z) (i j : nat) c1 d1 z1 c2 d2 z2 :
  (i < j)%nat -> layer_slots o l !! i = Some (c1, d1, z1) -> layer_slots o l !! j = Some (c2, d2, z2) ->
  (c1 < c2)%nat \/ (c1 = c2 /\ d1 + z1 <= d2).
Proof.
  intros Hij. unfold layer_slots. pose proof (state_split_nonneg l) as Hsp. unfold state_split_list in *.
  destruct (kv_state_split_for_layer l) as [[[s1 s2] s3] s4]. rewrite !Forall_cons in Hsp.
  destruct Hsp as (? & ? & ? & ? & _).
  do 7 (destruct j as [|j]; [do 7 (destruct i as [|i]; [try lia; cbn; intros; simplify_eq; lia|]); lia|]).
  done.
Qed.

(** Two stretches of the arena that do not overlap. *)
Definition disjoint_regions (r1 r2 : Z * Z) : Prop :=
  fst r1 + snd r1 <= fst r2 \/ fst r2 + snd r2 <= fst r1.

Section Exact.
Context (o : ds4_context_options) (s : Z) (a : ds4_kv_arena_plan).
Context (Htok : is_u64 (kv_ctx_tokens o)) (Hslots : is_u64 (kv_active_slots o)).
Context (Ha : arena_exact a (fun c => stage_total o c s)).

Lemma class_end_le (c1 c2 : nat) :
  (c1 < c2 <= 3)%nat -> class_offset c1 a + stage_total o c1 s <= class_offset c2 a.
Proof.
  intros Hc. destruct Ha as [A1 A2 A3 A4 A5 _ _].
  assert (forall c, 0 <= stage_total o c s) as Ht
    by (intros c; apply before_nonneg; intros; by apply class_bytes_nonneg).
  pose proof (Ht 0%nat). pose proof (Ht 1%nat). pose proof (Ht 2%nat).
  destruct c1 as [|[|[|c1]]], c2 as [|[|[|[|c2]]]]; try lia; simpl class_offset; lia.
Qed.

Lemma slot_exact (n : nat) (t : nat * Z * Z) :
  (n < 43)%nat -> ds4_stage_for_layer (Z.of_nat n) = s -> t ∈ layer_slots o (Z.of_nat n) ->
  place_slot o a n t = (exact_offset o a n t, snd t) /\
  0 <= exact_offset o a n t /\ exact_offset o a n t + snd t <= ka_total_bytes a.
Proof.
  intros Hn Hst Ht. destruct t as [[c d] z].
  pose proof (layer_slots_bounds o (Z.of_nat n) Htok Hslots) as Hb. rewrite Forall_forall in Hb.
  specialize (Hb _ Ht). simpl in Hb. destruct Hb as (Hc & Hd & Hz & Hdz).
  assert (forall c, 0 <= before (class_bytes o c) s n) as Hpre
    by (intros; apply before_nonneg; intros; by apply class_bytes_nonneg).
  pose proof (before_step (class_bytes o c) n 43 (class_bytes_nonneg o Htok Hslots c) Hn) as Hstep.
  rewrite Hst in Hstep. fold (stage_total o c s) in Hstep.
  assert (class_offset c a + stage_total o c s <= ka_total_bytes a /\ 0 <= class_offset c a) as [He Ho].
  { pose proof (ax_total _ _ Ha) as H3. simpl in H3.
    assert (forall c, 0 <= stage_total o c s) as Hn0
      by (intros; apply before_nonneg; intros; by apply class_bytes_nonneg).
    assert (0 <= class_offset c a).
    { destruct c as [|c]; [simpl; rewrite (ax_raw _ _ Ha); lia|].
      pose proof (class_end_le 0 (S c) ltac:(lia)). pose proof (Hn0 0%nat).
      pose proof (ax_raw _ _ Ha) as Hraw. simpl class_offset in *. lia. }
    split; [|done]. destruct (decide (c = 3%nat)) as [-> |]; [simpl; lia|].
    pose proof (class_end_le c 3 ltac:(lia)) as H4. pose proof (Hn0 3%nat). simpl class_offset in *. lia. }
  pose proof (ax_bound _ _ Ha). specialize (Hpre c).
  unfold place_slot, exact_offset. rewrite Hst. cbn [snd].
  rewrite Z.min_r by lia. rewrite sat_add_min by zlia. rewrite Z.min_r by lia.
  split; [f_equal; lia|]. lia.
Qed.

Lemma slots_disjoint (n m i j : nat) t1 t2 :
  (n < 43)%nat -> (m < 43)%nat ->
  ds4_stage_for_layer (Z.of_nat n) = s -> ds4_stage_for_layer (Z.of_nat m) = s ->
  layer_slots o (Z.of_nat n) !! i = Some t1 -> layer_slots o (Z.of_nat m) !! j = Some t2 ->
  (n, i) <> (m, j) ->
  disjoint_regions (exact_offset o a n t1, snd t1) (exact_offset o a m t2, snd t2).
Proof.
  intros Hn Hm Hsn Hsm H1 H2 Hne. destruct t1 as [[c1 d1] z1], t2 as [[c2 d2] z2].
  pose proof (layer_slots_bounds o (Z.of_nat n) Htok Hslots) as B1. rewrite Forall_forall in B1.
  specialize (B1 _ (list_elem_of_lookup_2 _ _ _ H1)). simpl in B1. destruct B1 as (C1 & D1 & Z1 & E1).
  pose proof (layer_slots_bounds o (Z.of_nat m) Htok Hslots) as B2. rewrite Forall_forall in B2.
  specialize (B2 _ (list_elem_of_lookup_2 _ _ _ H2)). simpl in B2. destruct B2 as (C2 & D2 & Z2 & E2).
  pose proof (before_step (class_bytes o c1) n 43 (class_bytes_nonneg o Htok Hslots c1) Hn) as S1.
  pose proof (before_step (class_bytes o c2) m 43 (class_bytes_nonneg o Htok Hslots c2) Hm) as S2.
  rewrite Hsn in S1. rewrite Hsm in S2. fold (stage_total o c1 s) in S1. fold (stage_total o c2 s) in S2.
  pose proof (before_nonneg (class_bytes o c1) s n (class_bytes_nonneg o Htok Hslots c1)).
  pose proof (before_nonneg (class_bytes o c2) s m (class_bytes_nonneg o Htok Hslots c2)).
  unfold disjoint_regions, exact_offset. cbn [fst snd]. rewrite Hsn, Hsm.
  destruct (Nat.lt_trichotomy c1 c2) as [Hlt|[<- |Hlt]].
  - left. pose proof (class_end_le c1 c2 ltac:(lia)). lia.
  - destruct (Nat.lt_trichotomy n m) as [Hlt|[<- |Hlt]].
    + left. pose proof (before_step (class_bytes o c1) n m (class_bytes_nonneg o Htok Hslots c1) Hlt) as S3.
      rewrite Hsn in S3. lia.
    + destruct (Nat.lt_trichotomy i j) as [Hij|[<- |Hij]]; [left|done|right].
      * destruct (layer_slots_ordered _ _ _ _ _ _ _ _ _ _ Hij H1 H2) as [?|[_ ?]]; lia.
      * destruct (layer_slots_ordered _ _ _ _ _ _ _ _ _ _ Hij H2 H1) as [?|[_ ?]]; lia.
    + right. pose proof (before_step (class_bytes o c1) m n (class_bytes_nonneg o Htok Hslots c1) Hlt) as S3.
      rewrite Hsm in S3. lia.
  - right. pose proof (class_end_le c2 c1 ltac:(lia)). lia.
Qed.
End Exact.

(** ** What the plan leaves alone *)

Definition core_layer (li : ds4_layer_info) : ds4_layer_info :=
  li <| kv_budget := kv_budget_zero |> <| kv_view := kv_view_zero |>.
Definition core_stage (s : ds4_stage_info) : ds4_stage_info := clear_stage_kv s.

Record kv_frame (ctx ctx' : ds4_context) : Prop := {
  kf_layers : core_layer <$> layers ctx' = core_layer <$> layers ctx;
  kf_stages : core_stage <$> stages ctx' = core_stage <$> stages ctx;
  kf_rest : ctx' = ctx <| stages := stages ctx' |> <| layers := layers ctx' |>
}.

Lemma kv_frame_refl (ctx : ds4_context) : kv_frame ctx ctx.
Proof. split; [done|done|by destruct ctx]. Qed.

Lemma kv_frame_trans (c1 c2 c3 : ds4_context) : kv_frame c1 c2 -> kv_frame c2 c3 -> kv_frame c1 c3.
Proof.
  intros [L1 S1 R1] [L2 S2 R2]. split; [congruence|congruence|].
  rewrite R2, R1. by destruct c1.
Qed.

Lemma alter_core {A} (core f : A -> A) (i : nat) (l : list A) :
  (forall x, core (f x) = core x) -> core <$> alter f i l = core <$> l.
Proof.
  intros Hf. revert i. induction l as [|x l IH]; intros i; [done|].
  destruct i as [|i]; simpl; [by rewrite Hf|]. f_equal. apply IH.
Qed.

Lemma kv_frame_stage (i : Z) f (ctx : ds4_context) :
  (forall s, core_stage (f s) = core_stage s) -> kv_frame ctx (upd_stage i f ctx).
Proof. intros Hf. split; [done|by apply alter_core|by destruct ctx]. Qed.

Lemma kv_frame_layer (i : Z) f (ctx : ds4_context) :
  (forall li, core_layer (f li) = core_layer li) -> kv_frame ctx (upd_layer i f ctx).
Proof. intros Hf. split; [by apply alter_core|done|by destruct ctx]. Qed.

Lemma kv_frame_foldl {A} (step : ds4_context -> A -> ds4_context) (l : list A) (c0 ctx : ds4_context) :
  (forall c a, kv_frame c (step c a)) -> kv_frame c0 ctx -> kv_frame c0 (foldl step ctx l).
Proof.
  intros Hs. revert ctx. induction l as [|a l IH]; intros ctx H0; [done|]. simpl.
  apply IH. by eapply kv_frame_trans; [|apply Hs].
Qed.

Lemma kv_frame_place (l : list Z) (c0 ctx : ds4_context) (k : kv_cursors) :
  kv_frame c0 ctx -> kv_frame c0 (fst (foldl place_layer (ctx, k) l)).
Proof.
  revert ctx k. induction l as [|a l IH]; intros ctx k H0; [done|].
  cbn [foldl]. unfold place_layer at 2. destruct (layer_view _ _ _ _ _) as [v k'].
  apply IH. eapply kv_frame_trans; [exact H0|]. by apply kv_frame_layer.
Qed.

Lemma core_stage_clear (s : ds4_stage_info) : core_stage (clear_stage_kv s) = core_stage s.
Proof. destruct s. by vm_compute. Qed.

Lemma apply_plan_frame (ctx : ds4_context) : kv_frame ctx (apply_derived_kv_plan ctx).
Proof.
  unfold apply_derived_kv_plan. destruct (_ =? _); [apply kv_frame_refl|]. cbv zeta.
  apply kv_frame_place.
  apply (kv_frame_foldl (fun c i => upd_stage i plan_stage c)); [intros; by apply kv_frame_stage|].
  apply (kv_frame_foldl account_layer).
  { intros c a. unfold account_layer.
    eapply kv_frame_trans; [|by apply kv_frame_stage]. by apply kv_frame_layer. }
  apply (kv_frame_foldl (fun c i => upd_stage i clear_stage_kv c)); [|apply kv_frame_refl].
  intros. apply kv_frame_stage, core_stage_clear.
Qed.

Lemma kv_frame_get_layer (ctx ctx' : ds4_context) (i : Z) :
  kv_frame ctx ctx' -> core_layer (get_layer ctx' i) = core_layer (get_layer ctx i).
Proof.
  intros [Hl _ _]. unfold get_layer.
  assert ((core_layer <$> layers ctx') !! Z.to_nat i = (core_layer <$> layers ctx) !! Z.to_nat i) as H
    by by rewrite Hl.
  rewrite !list_lookup_fmap in H.
  destruct (layers ctx' !! Z.to_nat i), (layers ctx !! Z.to_nat i); simpl in *; congruence.
Qed.

Lemma kv_frame_get_stage (ctx ctx' : ds4_context) (i : Z) :
  kv_frame ctx ctx' -> core_stage (get_stage ctx' i) = core_stage (get_stage ctx i).
Proof.
  intros [_ Hl _]. unfold get_stage.
  assert ((core_stage <$> stages ctx') !! Z.to_nat i = (core_stage <$> stages ctx) !! Z.to_nat i) as H
    by by rewrite Hl.
  rewrite !list_lookup_fmap in H.
  destruct (stages ctx' !! Z.to_nat i), (stages ctx !! Z.to_nat i); simpl in *; congruence.
Qed.

Lemma kv_frame_arrays (ctx ctx' : ds4_context) : kv_frame ctx ctx' -> ctx_arrays ctx -> ctx_arrays ctx'.
Proof.
  intros [Hl Hs _] [H1 H2]. apply (f_equal length) in Hl. apply (f_equal length) in Hs.
  rewrite !length_fmap in Hl. rewrite !length_fmap in Hs. split; congruence.
Qed.

(** ** Properties *)

Definition region_in (size : Z) (r : Z * Z) : Prop :=
  0 <= fst r /\ 0 <= snd r /\ fst r + snd r <= size.

(** C4. The derived KV plan is a layout: for every GPU stage whose planned
    size did not saturate at UINT64_MAX, each region of each of its layers'
    views lies inside the stage's arena, and no two regions - of one layer or
    of two layers of the stage - overlap. *)
Theorem kv_plan_disjoint (o : ds4_context_options) (s : Z) :
  is_u64 (kv_ctx_tokens o) -> is_u64 (kv_active_slots o) ->
  kv_ctx_tokens o <> 0 -> kv_active_slots o <> 0 -> 0 <= s < 8 ->
  planned_kv_bytes (get_stage (planned o) s) <> UINT64_MAX ->
  forall a b i j ra rb, 0 <= a < 43 -> 0 <= b < 43 ->
  ds4_stage_for_layer a = s -> ds4_stage_for_layer b = s ->
  view_regions (kv_view (get_layer (planned o) a)) !! i = Some ra ->
  view_regions (kv_view (get_layer (planned o) b)) !! j = Some rb ->
  region_in (planned_kv_bytes (get_stage (planned o) s)) ra /\
  ((a, i) <> (b, j) -> disjoint_regions ra rb).
Proof.
  intros Ht Hs Hne1 Hne2 Hst. destruct (planned_inv o Ht Hs Hne1) as (st & _ & _ & Hstage & Hlayer).
  destruct (Hstage s Hst) as (Hsums & ->). cbn -[plan_arena]. intros Hsat.
  pose proof (plan_arena_exact (st s) (fun c => stage_total o c s)
    ltac:(intros; apply before_nonneg; intros; by apply class_bytes_nonneg)
    (stage_sums_class o _ _ Hne1 Hne2 Hsums) Hsat) as Ha.
  intros a b i j ra rb Hra Hrb Sa Sb La Lb.
  rewrite <- (Z2Nat.id a), <- (Z2Nat.id b) in * by lia.
  destruct (Hlayer (Z.to_nat a) ltac:(lia)) as (_ & _ & Va).
  destruct (Hlayer (Z.to_nat b) ltac:(lia)) as (_ & _ & Vb).
  rewrite Va, Sa, list_lookup_fmap in La. rewrite Vb, Sb, list_lookup_fmap in Lb.
  apply fmap_Some in La as (t1 & T1 & ->). apply fmap_Some in Lb as (t2 & T2 & ->).
  destruct (slot_exact o s _ Ht Hs Ha (Z.to_nat a) t1) as (-> & P1 & P2);
    [lia|done|by eapply list_elem_of_lookup_2|].
  destruct (slot_exact o s _ Ht Hs Ha (Z.to_nat b) t2) as (-> & _ & _);
    [lia|done|by eapply list_elem_of_lookup_2|].
  split.
  - split; [done|]. split; [|done]. cbn [snd].
    pose proof (layer_slots_bounds o (Z.of_nat (Z.to_nat a)) Ht Hs) as Hb. rewrite Forall_forall in Hb.
    specialize (Hb _ (list_elem_of_lookup_2 _ _ _ T1)). destruct t1 as [[c d] z]. simpl in *. lia.
  - intros Hne. eapply slots_disjoint; try done; try lia. intros E. apply Hne.
    injection E as E1 E2. f_equal; lia.
Qed.

(** . The arena of a stage is laid out as four regions in order, each
    starting on a 256-byte boundary and large enough for the exact sum of what
    the stage's layers need, with the total as the stage's planned KV bytes -
    unless the size saturated, which the total then shows as UINT64_MAX. *)
Theorem kv_arena_layout (o : ds4_context_options) (s : Z) :
  is_u64 (kv_ctx_tokens o) -> is_u64 (kv_active_slots o) ->
  kv_ctx_tokens o <> 0 -> kv_active_slots o <> 0 -> 0 <= s < 8 ->
  let st := get_stage (planned o) s in
  let a := kv_arena st in
  let need (f : ds4_kv_budget -> Z) :=
    sumZ (fun l => if ds4_stage_for_layer l =? s
                   then f (ds4_kv_budget_for_layer l (kv_ctx_tokens o) (kv_active_slots o)) else 0)
         layer_ids in
  planned_kv_bytes st = ka_total_bytes a /\
  (ka_total_bytes a = UINT64_MAX \/
   ka_raw_swa_offset a = 0 /\ need raw_swa_bytes <= ka_compressed_attn_offset a /\
   ka_compressed_attn_offset a + need compressed_attn_bytes <= ka_indexer_kv_offset a /\
   ka_indexer_kv_offset a + need indexer_kv_bytes <= ka_compression_state_offset a /\
   ka_compression_state_offset a + need compression_state_bytes <= ka_total_bytes a /\
   ka_compressed_attn_offset a mod 256 = 0 /\ ka_indexer_kv_offset a mod 256 = 0 /\
   ka_compression_state_offset a mod 256 = 0 /\ ka_total_bytes a mod 256 = 0).
Proof.
  intros Ht Hs Hne1 Hne2 Hst st a need.
  destruct (planned_inv o Ht Hs Hne1) as (st0 & _ & _ & Hstage & _).
  destruct (Hstage s Hst) as (Hsums & Hst0). subst a st. rewrite Hst0. split; [done|].
  cbn -[plan_arena]. destruct (decide (ka_total_bytes (plan_arena (st0 s)) = UINT64_MAX)) as [|Hsat];
    [by left|right].
  pose proof (plan_arena_exact (st0 s) (fun c => stage_total o c s)
    ltac:(intros; apply before_nonneg; intros; by apply class_bytes_nonneg)
    (stage_sums_class o _ _ Hne1 Hne2 Hsums) Hsat) as [A1 A2 A3 A4 A5 _ A6].
  assert (need compression_state_bytes = stage_total o 3 s) as ->.
  { change (before (fun l => compression_state_bytes (bud o l)) s 43 = stage_total o 3 s).
    apply before_ext; [lia|]. intros l Hl. symmetry. by apply kv_state_split_total. }
  repeat split; try done; apply A6.
Qed.

(** . Every layer is owned by the GPU stage whose [layer_begin, layer_end]
    interval of the stage map holds it, and by no other: the eight intervals
    partition the 43 layers, in order. *)
Theorem stage_map_partition (o : ds4_context_options) (layer s : Z) :
  0 <= layer < DS4_V100_N_LAYERS -> 0 <= s < DS4_V100_EXPECTED_GPUS ->
  let ctx := init_stage_map (context_calloc o) in
  li_stage_id (get_layer ctx layer) = s <->
  layer_begin (get_stage ctx s) <= layer <= layer_end (get_stage ctx s).
Proof.
  intros Hl Hs ctx. unfold DS4_V100_N_LAYERS in Hl. unfold DS4_V100_EXPECTED_GPUS in Hs.
  destruct (init_stage_map_inv (context_calloc o) (context_calloc_arrays o)) as (_ & _ & A3 & _ & A5).
  unfold ctx. rewrite A3, A5 by done. clear A3 A5 ctx.
  assert (layer_begin (init_stage o s stage_zero) = stage_begins !!! Z.to_nat s /\
          layer_end (init_stage o s stage_zero) = stage_ends !!! Z.to_nat s) as [E1 E2]
    by (unfold init_stage; destruct (s =? 7); done).
  assert (get_stage (context_calloc o) s = stage_zero) as ->.
  { unfold get_stage, context_calloc, DS4_V100_EXPECTED_GPUS. cbn [stages].
    by rewrite lookup_replicate_2 by lia. }
  cbn [opts context_calloc]. rewrite E1, E2. unfold ds4_stage_for_layer, DS4_V100_N_LAYERS.
  destruct (Z.ltb_spec layer 0); [lia|]. destruct (Z.leb_spec 43 layer); [lia|]. cbn [orb].
  assert (s = 0 \/ s = 1 \/ s = 2 \/ s = 3 \/ s = 4 \/ s = 5 \/ s = 6 \/ s = 7) as Hcase by lia.
  repeat case_match; bool_hyps; destruct Hcase as [-> |[-> |[-> |[-> |[-> |[-> |[-> | ->]]]]]]];
    cbv [stage_begins stage_ends lookup_total list_lookup_total Z.to_nat Pos.to_nat Pos.iter_op Nat.add];
    lia.
Qed.

(** [align_up_u64] rounds up to a multiple of a power of two: the result
    is the least multiple that is not below the value, or UINT64_MAX when the
    rounding would not fit in 64 bits. *)
Theorem align_up_u64_spec (v n : Z) :
  is_u64 v -> 0 <= n < 64 ->
  let r := align_up_u64 v (2 ^ n) in
  (v + (2 ^ n - 1) <= UINT64_MAX /\ v <= r < v + 2 ^ n /\ r mod 2 ^ n = 0 /\
   forall m, v <= m -> m mod 2 ^ n = 0 -> r <= m) \/
  (UINT64_MAX < v + (2 ^ n - 1) /\ r = UINT64_MAX).
Proof.
  intros Hv Hn r. unfold r. rewrite align_up_pow2 by done.
  destruct (Z.ltb_spec (UINT64_MAX - (2 ^ n - 1)) v); [right; split; [lia|done]|left].
  pose proof (Z.pow_pos_nonneg 2 n ltac:(lia) ltac:(lia)) as Hp.
  pose proof (Z.div_mod (v + 2 ^ n - 1) (2 ^ n) ltac:(lia)).
  pose proof (Z.mod_pos_bound (v + 2 ^ n - 1) (2 ^ n) ltac:(lia)).
  split; [lia|]. split; [lia|]. split; [rewrite Z.mul_comm; apply Z.mod_mul; lia|].
  intros m Hm Hmod. pose proof (Z.div_mod m (2 ^ n) ltac:(lia)) as Hmm. rewrite Hmod, Z.add_0_r in Hmm.
  rewrite Hmm. apply Z.mul_le_mono_nonneg_l; [lia|].
  apply Z.lt_succ_r, Z.div_lt_upper_bound; lia.
Qed.

(** ** Concrete runs *)

Definition ex_options : ds4_context_options :=
  Options None None 8 DS4_V100_INIT_PROBE_ONLY false false (2 ^ 30) 1 (2 ^ 31) 0 100000 4 0 0 None.

Lemma kv_plan_disjoint_witness :
  exists ra rb,
    view_regions (kv_view (get_layer (planned ex_options) 2)) !! 1%nat = Some ra /\
    view_regions (kv_view (get_layer (planned ex_options) 4)) !! 1%nat = Some rb /\
    0 < snd ra /\ 0 < snd rb /\ disjoint_regions ra rb.
Proof.
  do 2 eexists. split; [vm_compute; reflexivity|]. split; [vm_compute; reflexivity|].
  split; [done|]. split; [done|].
  apply (kv_plan_disjoint ex_options 0) with (a := 2) (b := 4) (i := 1%nat) (j := 1%nat);
    first [by vm_compute | lia | (split; by vm_compute)].
Defined.

Lemma kv_arena_layout_witness :
  planned_kv_bytes (get_stage (planned ex_options) 7) =
    ka_total_bytes (kv_arena (get_stage (planned ex_options) 7)) /\
  ka_total_bytes (kv_arena (get_stage (planned ex_options) 7)) = 261459968.
Proof.
  split; [|by vm_compute].
  apply (kv_arena_layout ex_options 7); first [by vm_compute | lia | (split; by vm_compute)].
Defined.

Lemma stage_map_partition_witness :
  li_stage_id (get_layer (init_stage_map (context_calloc ex_options)) 34) = 5.
Proof.
  apply (stage_map_partition ex_options 34 5); first [by vm_compute | (split; by vm_compute)].
Defined.

Lemma align_up_u64_spec_witness : align_up_u64 1000 (2 ^ 8) = 1024.
Proof.
  destruct (align_up_u64_spec 1000 8) as [(_ & _ & _ & _)|[H _]]; [zlia|lia|by vm_compute|zlia].
Defined.
