(* ===== verification/Planner.v ===== *)
(** * Memory planner (tools/plan.c)

    The planner's contract for an appliance: which layers and how many bytes
    each GPU holds, how many slots are admitted per context size, and the JSON
    and text reports.  [die] ends the program ([Exit 1]); the reports are the
    bytes written to stdout. *)
From S2P Require Import Prelude.
From S2P Require Import CNum.
From S2P Require Import CFloat.
From S2P Require Import Policy.
From S2P Require Import ContextTypes.
From S2P Require Import KvPlan.

(** ** Constants *)

Definition KiB : Z := 1024.
Definition MiB : Z := 1024 * KiB.
Definition GiB : Z := 1024 * MiB.
Definition DS4_N_LAYER : Z := 43.
Definition DS4_N_EMBD : Z := 4096.
Definition DS4_N_VOCAB : Z := 129280.
Definition DS4_N_HEAD : Z := 64.
Definition DS4_N_HEAD_DIM : Z := 512.
Definition DS4_N_OUT_GROUP : Z := 8.
Definition DS4_N_LORA_Q : Z := 1024.
Definition DS4_N_LORA_O : Z := 1024.
Definition DS4_N_EXPERT : Z := 256.
Definition DS4_N_EXPERT_USED : Z := 6.
Definition DS4_N_FF_EXP : Z := 2048.
Definition DS4_N_HASH_LAYER : Z := 3.
Definition DS4_N_SWA : Z := 128.
Definition DS4_N_INDEXER_HEAD : Z := 64.
Definition DS4_N_INDEXER_HEAD_DIM : Z := 128.
Definition DS4_N_HC : Z := 4.
Definition DS4_PLAN_MAX_SLOTS : Z := 256.

Record gpu_plan := GpuPlan {
  weights : Z; kv : Z; comp_state : Z; scratch : Z;
  relay : Z; globals : Z; mtp : Z; reserve : Z
}.

Record options := Options {
  o_ctx : Z;
  o_slots : Z;
  o_gpus : Z;
  o_mtp : bool;
  o_json : bool;
  device_total_bytes : Z;
  reserve_gib : double;
  scratch_gib : double;
  inventory_path : option bytes;
  inventory_tsv : option bytes;
  manifest_path : option bytes
}.

#[export] Instance options_fields : Fields options :=
  rd_pure Options <*> o_ctx <*> o_slots <*> o_gpus <*> o_mtp <*> o_json <*> device_total_bytes
    <*> reserve_gib <*> scratch_gib <*> inventory_path <*> inventory_tsv <*> manifest_path.


(** [die(msg)]. *)
Definition die {A} (msg : bytes) : pres A := Error (Exit 1 (Diag "ds4-v100-plan: %s\n" [AS msg])).

(** ** Checked arithmetic *)

Definition checked_mul (a b : Z) : pres Z :=
  if negb (a =? 0) && (UINT64_MAX / a <? b) then die (B "integer overflow in byte planner")
  else Ok (u64 (a * b)).

Definition align_up (value alignment : Z) : pres Z :=
  if alignment =? 0 then Ok value
  else
    let rem := value mod alignment in
    if rem =? 0 then Ok value
    else
      let delta := alignment - rem in
      if UINT64_MAX - delta <? value then die (B "integer overflow while aligning GGUF tensor data")
      else Ok (u64 (value + delta)).

Definition elems2 (a b : Z) : pres Z := checked_mul a b.
Definition elems3 (a b c : Z) : pres Z := e <- checked_mul a b ;; checked_mul e c.

Definition bytes_blocks (elems block_elems block_bytes : Z) : pres Z :=
  let blocks := u64 (u64 (elems + block_elems) - 1) / block_elems in
  checked_mul blocks block_bytes.

Definition bytes_f16 (elems : Z) : pres Z := checked_mul elems 2.
Definition bytes_f32 (elems : Z) : pres Z := checked_mul elems 4.
Definition bytes_i32 (elems : Z) : pres Z := checked_mul elems 4.
Definition bytes_i8 (elems : Z) : pres Z := Ok elems.
Definition bytes_mxfp4 (elems : Z) : pres Z := bytes_blocks elems 32 17.
Definition bytes_f8_e4m3_b128 (elems : Z) : pres Z := bytes_blocks elems 128 129.

(** [bytes_*(elems*(..))]. *)
Definition of_elems (f : Z -> pres Z) (e : pres Z) : pres Z := n <- e ;; f n.

(** [b += t] for the terms in turn. *)
Definition add_terms (terms : list (pres Z)) (b : Z) : pres Z :=
  rfold (fun b t => v <- t ;; Ok (u64 (b + v))) b terms.

Definition as_gib (n : Z) : double := d_div (d_of_Z n) (d_of_Z GiB).

(** ** Layers *)

Definition layer_ratio (il : Z) : Z :=
  if il <? 2 then 0 else if il mod 2 =? 0 then 4 else 128.

Definition layer_starts : list Z := [0; 6; 12; 18; 24; 30; 35; 40].
Definition layer_ends : list Z := [6; 12; 18; 24; 30; 35; 40; 43].

Definition layer_device (il gpus : Z) : pres Z :=
  if gpus =? 8 then
    match find_index (fun se => (fst se <=? il) && (il <? snd se)) (combine layer_starts layer_ends) 0 with
    | Some (g, _) => Ok g
    | None => Ok 7
    end
  else if gpus =? 0 then Error (Undefined "division by zero")
  else
    let per := u32 (u32 (DS4_N_LAYER + gpus) - 1) / gpus in
    if per =? 0 then Error (Undefined "division by zero")
    else
      let g := il / per in
      Ok (if gpus <=? g then gpus - 1 else g).

Definition layer_weight_bytes (il : Z) (int8_experts : bool) : pres Z :=
  let hc_dim := DS4_N_EMBD * DS4_N_HC in
  let hc_mix_dim := 2 * DS4_N_HC + DS4_N_HC * DS4_N_HC in
  let q_dim := DS4_N_HEAD * DS4_N_HEAD_DIM in
  let out_low_dim := DS4_N_OUT_GROUP * DS4_N_LORA_O in
  let ratio := layer_ratio il in
  let f32 := of_elems bytes_f32 in
  let f16 := of_elems bytes_f16 in
  let f8 := of_elems bytes_f8_e4m3_b128 in
  let hc := [f32 (elems2 hc_dim hc_mix_dim); bytes_f32 3; bytes_f32 hc_mix_dim] in
  b <- add_terms
    (hc ++
     [bytes_f32 DS4_N_EMBD;
      f8 (elems2 DS4_N_EMBD DS4_N_LORA_Q);
      bytes_f32 DS4_N_LORA_Q;
      f8 (elems2 DS4_N_LORA_Q q_dim);
      f8 (elems2 DS4_N_EMBD DS4_N_HEAD_DIM);
      bytes_f32 DS4_N_HEAD_DIM;
      bytes_f32 DS4_N_HEAD;
      f8 (elems2 (DS4_N_HEAD_DIM * (DS4_N_HEAD / DS4_N_OUT_GROUP)) out_low_dim);
      f8 (elems2 out_low_dim DS4_N_EMBD)]) 0 ;;
  b <- (if negb (ratio =? 0) then
          let coff := if ratio =? 4 then 2 else 1 in
          let comp_width := coff * DS4_N_HEAD_DIM in
          add_terms
            [f32 (elems2 comp_width ratio);
             f16 (elems2 DS4_N_EMBD comp_width);
             f16 (elems2 DS4_N_EMBD comp_width);
             bytes_f32 DS4_N_HEAD_DIM] b
        else Ok b) ;;
  b <- (if ratio =? 4 then
          let index_q_dim := DS4_N_INDEXER_HEAD * DS4_N_INDEXER_HEAD_DIM in
          let index_width := 2 * DS4_N_INDEXER_HEAD_DIM in
          add_terms
            [f8 (elems2 DS4_N_LORA_Q index_q_dim);
             f16 (elems2 DS4_N_EMBD DS4_N_INDEXER_HEAD);
             f32 (elems2 index_width ratio);
             f16 (elems2 DS4_N_EMBD index_width);
             f16 (elems2 DS4_N_EMBD index_width);
             bytes_f32 DS4_N_INDEXER_HEAD_DIM] b
        else Ok b) ;;
  b <- add_terms
    (hc ++ [bytes_f32 DS4_N_EMBD; f32 (elems2 DS4_N_EMBD DS4_N_EXPERT); bytes_f32 DS4_N_EXPERT]) b ;;
  gate_or_up <- elems3 DS4_N_EMBD DS4_N_FF_EXP DS4_N_EXPERT ;;
  down <- elems3 DS4_N_FF_EXP DS4_N_EMBD DS4_N_EXPERT ;;
  let expert := if int8_experts then bytes_i8 else bytes_mxfp4 in
  b <- add_terms [expert gate_or_up; expert gate_or_up; expert down] b ;;
  b <- add_terms
    [f8 (elems2 DS4_N_EMBD DS4_N_FF_EXP);
     f8 (elems2 DS4_N_EMBD DS4_N_FF_EXP);
     f8 (elems2 DS4_N_FF_EXP DS4_N_EMBD)] b ;;
  (if il <? DS4_N_HASH_LAYER then
     add_terms [of_elems bytes_i32 (elems2 DS4_N_EXPERT_USED DS4_N_VOCAB)] b
   else Ok b).

Definition global_bytes_for_gpu (gpu gpus : Z) : pres Z :=
  let vocab := of_elems bytes_f16 (elems2 DS4_N_EMBD DS4_N_VOCAB) in
  b <- (if gpu =? 0 then add_terms [vocab] 0 else Ok 0) ;;
  (if u32 (gpu + 1) =? gpus then
     let hc_dim := DS4_N_EMBD * DS4_N_HC in
     add_terms
       [of_elems bytes_f32 (elems2 hc_dim DS4_N_HC); bytes_f32 DS4_N_HC; bytes_f32 1;
        bytes_f32 DS4_N_EMBD; vocab] b
   else Ok b).

Definition layer_kv_bytes (il ctx elem_bytes : Z) : pres Z :=
  let ratio := layer_ratio il in
  let rows := u64 (DS4_N_SWA + (if negb (ratio =? 0) then ctx / ratio else 0)) in
  b <- of_elems (fun e => checked_mul e elem_bytes) (checked_mul rows DS4_N_HEAD_DIM) ;;
  (if ratio =? 4 then
     let index_rows := ctx / 4 in
     add_terms [of_elems (fun e => checked_mul e elem_bytes)
                  (checked_mul index_rows DS4_N_INDEXER_HEAD_DIM)] b
   else Ok b).

Definition layer_comp_state_bytes (il : Z) : Z :=
  let ratio := layer_ratio il in
  if ratio =? 4 then
    2 * (2 * DS4_N_HEAD_DIM) * (2 * 4) * 4 + 2 * (2 * DS4_N_INDEXER_HEAD_DIM) * (2 * 4) * 4
  else if ratio =? 128 then 2 * DS4_N_HEAD_DIM * 128 * 4
  else 0.

(** The loop [for (il = 0; il < DS4_N_LAYER; il++)]. *)
Definition layer_list : list Z := map Z.of_nat (seq 0 43).

(** [for (il ...) if (layer_device(il, gpus) == gpu) b += f(il)]. *)
Definition sum_on_gpu (gpu gpus : Z) (f : Z -> pres Z) : pres Z :=
  rfold (fun b il =>
    d <- layer_device il gpus ;;
    if d =? gpu then (v <- f il ;; Ok (u64 (b + v))) else Ok b) 0 layer_list.

Definition comp_state_bytes_for_gpu (gpu gpus : Z) : pres Z :=
  sum_on_gpu gpu gpus (fun il => Ok (layer_comp_state_bytes il)).

Definition relay_bytes (slots : Z) (debug_f32 : bool) : pres Z :=
  let elem := if debug_f32 then 4 else 2 in
  a <- checked_mul 2 slots ;;
  b <- checked_mul a (DS4_N_HC * DS4_N_EMBD) ;;
  checked_mul b elem.

(** [(uint64_t)(gib * (double)GiB)]. *)
Definition gib_bytes (gib : double) : pres Z :=
  match d_to_u64 (d_mul gib (d_of_Z GiB)) with
  | Some n => Ok n
  | None => Error (Undefined "double out of the range of uint64_t")
  end.

(** The literal [3.6]. *)
Definition d_3_6 : double := S754_finite false 8106479329266893 (-51).

(** ** The plan of a GPU *)

Definition plan_layers (opt : options) (gpu ctx slots : Z) : pres (Z * Z) :=
  rfold (fun '(w, k) il =>
    d <- layer_device il (o_gpus opt) ;;
    if negb (d =? gpu) then Ok (w, k)
    else
      lw <- layer_weight_bytes il false ;;
      lk <- layer_kv_bytes il ctx 2 ;;
      lks <- checked_mul lk slots ;;
      Ok (u64 (w + lw), u64 (k + lks))) (0, 0) layer_list.

(** The fields summed by [plan_gpu]'s return expression, in its order. *)
Definition plan_parts (p : gpu_plan) : list Z :=
  [weights p; kv p; comp_state p; scratch p; relay p; globals p; mtp p].

Definition plan_gpu (gpu : Z) (opt : options) (ctx slots : Z) : pres (gpu_plan * Z) :=
  let* (w, k) := plan_layers opt gpu ctx slots in
  cs <- comp_state_bytes_for_gpu gpu (o_gpus opt) ;;
  sc <- gib_bytes (scratch_gib opt) ;;
  rl <- relay_bytes slots false ;;
  gl <- global_bytes_for_gpu gpu (o_gpus opt) ;;
  rs <- gib_bytes (reserve_gib opt) ;;
  mt <- (if o_mtp opt && (u32 (gpu + 1) =? o_gpus opt) then gib_bytes d_3_6 else Ok 0) ;;
  let p := GpuPlan w k cs sc rl gl mt rs in
  Ok (p, foldl (fun s v => u64 (s + v)) 0 (plan_parts p ++ [reserve p])).

Definition plan_total_no_reserve (p : gpu_plan) : Z :=
  foldl (fun s v => u64 (s + v)) 0 (plan_parts p).

Definition gpu_list (gpus : Z) : list Z := map Z.of_nat (seq 0 (Z.to_nat gpus)).

(** One pass over the GPUs: the largest total, the first GPU that reaches it
    (0 when every total is 0), and whether every total fits. *)
Definition compute_plan_worst (opt : options) (ctx slots : Z) : pres (Z * Z * bool) :=
  rfold (fun '(worst, gpu_at_worst, ok) gpu =>
    let* (_, total) := plan_gpu gpu opt ctx slots in
    let ok := ok && negb (device_total_bytes opt <? total) in
    Ok (if worst <? total then (total, gpu, ok) else (worst, gpu_at_worst, ok)))
    (0, 0, true) (gpu_list (o_gpus opt)).

(** The inner loop of [admitted_slots_for_ctx]. *)
Definition worst_for_slots (opt : options) (ctx slots : Z) : pres (Z * bool) :=
  rfold (fun '(worst, ok) gpu =>
    let* (_, total) := plan_gpu gpu opt ctx slots in
    Ok (if worst <? total then total else worst,
        ok && negb (device_total_bytes opt <? total)))
    (0, true) (gpu_list (o_gpus opt)).

(** [for (slots = 1; slots <= DS4_PLAN_MAX_SLOTS; slots++)], with the [n]
    values from [slots] on still to try. *)
Fixpoint admit_loop (opt : options) (ctx : Z) (n : nat) (slots admitted last_worst : Z) : pres (Z * Z) :=
  match n with
  | O => Ok (admitted, last_worst)
  | S n' =>
      let* (worst, ok) := worst_for_slots opt ctx slots in
      if negb ok then Ok (admitted, last_worst)
      else admit_loop opt ctx n' (slots + 1) slots worst
  end.

(** The admitted slots and [*worst_total_out]. *)
Definition admitted_slots_for_ctx (opt : options) (ctx : Z) : pres (Z * Z) :=
  admit_loop opt ctx (Z.to_nat DS4_PLAN_MAX_SLOTS) 1 0 0.

Definition planned_headroom_after_reserve (device no_reserve reserve : Z) : Z :=
  if (device <? no_reserve) || (device - no_reserve <? reserve) then 0
  else device - no_reserve - reserve.

(** ** The JSON report *)

Definition tiers : list Z := [16384; 32768; 65536; 131072; 262144; 524288; 1048576].
Definition target_slots : list Z := [1; 2; 4; 8; 16; 32; 64; 128; 256].

Record matrix_cell := MatrixCell {
  mc_ctx : Z; mc_slots : Z; mc_fits : bool; mc_admitted : bool; mc_gpu : Z; mc_worst : Z
}.

(** The cells of ["target_matrix"] of one tier. *)
Definition matrix_row (opt : options) (tier : Z) : pres (list matrix_cell) :=
  let* (admitted, _) := admitted_slots_for_ctx opt tier in
  mapM_res (fun slots =>
    let* (worst, gpu, fits) := compute_plan_worst opt tier slots in
    Ok (MatrixCell tier slots fits (slots <=? admitted) gpu worst)) target_slots.

Definition target_matrix (opt : options) : pres (list matrix_cell) :=
  rows <- mapM_res (matrix_row opt) tiers ;; Ok (concat rows).

Definition cat (l : list bytes) : bytes := concat l.

Definition bool_text (b : bool) : bytes := if b then B "true" else B "false".

(** The items of an array, with the commas between them. *)
Definition comma_join (items : list bytes) : bytes := join_with x2c items.

(** A string literal of the source with ['] for the double quote. *)
Definition Q (s : string) : bytes := map (fun b => if Byte.eqb b x27 then x22 else b) (B s).

Definition json_gpu (opt : options) (gpu : Z) : pres bytes :=
  let* (p, total) := plan_gpu gpu opt (o_ctx opt) (o_slots opt) in
  let headroom := planned_headroom_after_reserve (device_total_bytes opt) (plan_total_no_reserve p) (reserve p) in
  Ok (cat [Q "{'gpu':"; print_u64 gpu; Q ",'weights_bytes':"; print_u64 (weights p);
           Q ",'kv_bytes':"; print_u64 (kv p); Q ",'comp_state_bytes':"; print_u64 (comp_state p);
           Q ",'scratch_bytes':"; print_u64 (scratch p); Q ",'relay_bytes':"; print_u64 (relay p);
           Q ",'globals_bytes':"; print_u64 (globals p); Q ",'mtp_bytes':"; print_u64 (mtp p);
           Q ",'reserve_bytes':"; print_u64 (reserve p);
           Q ",'planned_total_bytes':"; print_u64 total;
           Q ",'headroom_after_reserve_bytes':"; print_u64 headroom;
           Q ",'fits':"; bool_text (total <=? device_total_bytes opt); Q "}"]).

Definition json_tier (opt : options) (tier : Z) : pres bytes :=
  let* (admitted, worst) := admitted_slots_for_ctx opt tier in
  Ok (cat [Q "{'ctx_tokens':"; print_u64 tier; Q ",'max_admitted_slots':"; print_u64 admitted;
           Q ",'worst_total_bytes_at_max':"; print_u64 worst; Q "}"]).

Definition json_cell (c : matrix_cell) : bytes :=
  cat [Q "{'ctx_tokens':"; print_u64 (mc_ctx c); Q ",'slots':"; print_u64 (mc_slots c);
       Q ",'fits':"; bool_text (mc_fits c); Q ",'admitted_by_tier':"; bool_text (mc_admitted c);
       Q ",'worst_gpu':"; print_u64 (mc_gpu c); Q ",'worst_total_bytes':"; print_u64 (mc_worst c); Q "}"].

Definition print_planner_json (opt : options) : pres bytes :=
  let* (worst, worst_gpu, fits) := compute_plan_worst opt (o_ctx opt) (o_slots opt) in
  gpus <- mapM_res (json_gpu opt) (gpu_list (o_gpus opt)) ;;
  rows <- mapM_res (json_tier opt) tiers ;;
  cells <- target_matrix opt ;;
  Ok (cat
    [Q "{'schema':'ds4_planner_envelope.v1',";
     Q "'architecture':'docs/architecture/DS4-V100-LAYOUT.md',";
     Q "'source_stance':'dense_fp8_routed_mxfp4_bf16_embedding_output_f16_kv_first',";
     Q "'vram_bytes_per_gpu':"; print_u64 (device_total_bytes opt);
     Q ",'configured':{'ctx_tokens':"; print_u64 (o_ctx opt); Q ",'slots':"; print_u64 (o_slots opt);
     Q ",'gpus':"; print_u64 (o_gpus opt); Q ",'mtp':"; bool_text (o_mtp opt);
     Q ",'reserve_gib':"; fmt_fixed 3 (reserve_gib opt);
     Q ",'scratch_gib':"; fmt_fixed 3 (scratch_gib opt);
     Q ",'fits':"; bool_text fits; Q ",'worst_gpu':"; print_u64 worst_gpu;
     Q ",'worst_total_bytes':"; print_u64 worst; Q "},";
     Q "'configured_gpus':["; comma_join gpus; Q "],";
     Q "'admission_tiers':["; comma_join rows; Q "],";
     Q "'target_matrix':["; comma_join (map json_cell cells); Q "]}"; [LF]]).

(** ** The text report *)

(** [%.2f] of [as_gib(n)]. *)
Definition gib2 (n : Z) : bytes := fmt_fixed 2 (as_gib n).

(** One row of [print_layer_map]: first and last layer (-1 for none), the
    counts of SWA, ratio-4 and ratio-128 layers, the weights. *)
Definition layer_map_gpu (opt : options) (gpu : Z) : pres (Z * Z * (Z * Z * Z) * Z) :=
  rfold (fun '(first, last, (swa, r4, r128), w) il =>
    d <- layer_device il (o_gpus opt) ;;
    if negb (d =? gpu) then Ok (first, last, (swa, r4, r128), w)
    else
      let first := if first <? 0 then il else first in
      let ratio := layer_ratio il in
      let mix :=
        if ratio =? 0 then (swa + 1, r4, r128)
        else if ratio =? 4 then (swa, r4 + 1, r128)
        else (swa, r4, r128 + 1) in
      lw <- layer_weight_bytes il false ;;
      Ok (first, il, mix, u64 (w + lw))) (-1, -1, (0, 0, 0), 0) layer_list.

Definition layer_map_row (opt : options) (gpu : Z) : pres bytes :=
  let* (first, last, (swa, r4, r128), w) := layer_map_gpu opt gpu in
  Ok (cat [B "| gpu"; print_u64 gpu; B " | ";
           (if first <? 0 then B "- | "
            else cat [print_i64 first; B "-"; print_i64 last; B " | "]);
           print_u64 swa; B " SWA, "; print_u64 r4; B " ratio-4, "; print_u64 r128;
           B " ratio-128 | "; gib2 w; B " GiB |"; [LF]]).

Definition print_layer_map (opt : options) : pres bytes :=
  rows <- mapM_res (layer_map_row opt) (gpu_list (o_gpus opt)) ;;
  Ok (cat [[LF]; B "Layer map"; [LF]; B "| GPU | Layers | Layer mix | Est. weights |"; [LF];
           B "|---:|---|---|---:|"; [LF]; concat rows]).

Definition lines (l : list string) : bytes := concat (map (fun s => B s ++ [LF]) l).

Definition print_kernel_policy : bytes :=
  lines
    [""; "Tensor-family source/runtime/kernel policy";
     "| Tensor family | Source dtype assumption | Runtime layout | First kernel family | INT8 stance |";
     "|---|---|---|---|---|";
     "| dense attention Q/KV/output | F8_E4M3_B128 | source FP8 blocked pack | FP8 dequant + FP16 HMMA dense | candidate only after scale/quality gate |";
     "| routed experts | MXFP4 / FP4 | source MXFP4 grouped pack | TurboMind sm70 grouped MXFP4 or owned grouped low-bit | candidate but may exceed VRAM |";
     "| shared expert | F8_E4M3_B128 | source FP8 dense pack | safe dense/shared-expert kernel | candidate only, unsafe single dense stays off |";
     "| router/norms/HC/control | F32/BF16/I32 | source-faithful small tensors | DS4 control kernels | only if exact enough and useful |";
     "| output head | BF16 | BF16 source-faithful on final GPU | BF16/F16 output projection first, vocab TP later | INT8/FP8 candidate only after quality gate |";
     "| KV cache | cache state | F16 first | DS4 compressed KV/attention kernels | F8 later, not INT8 default |"]%string.

Definition print_manifest_schema : bytes :=
  lines
    [""; "Pack manifest fields for next sprint";
     "semantic_tensor_id, source_name, source_dtype, source_shape, runtime_layout,";
     "owning_gpu, layer_id, kernel_family, byte_offset, byte_length, scale_offset, checksum"]%string.

(** One row of the configured memory plan, with the totals it reads. *)
Definition plan_row (opt : options) (gpu : Z) : pres (bytes * Z) :=
  let* (p, total) := plan_gpu gpu opt (o_ctx opt) (o_slots opt) in
  let headroom := planned_headroom_after_reserve (device_total_bytes opt) (plan_total_no_reserve p) (reserve p) in
  let last :=
    if total <=? device_total_bytes opt then as_gib headroom
    else SFopp (as_gib (total - device_total_bytes opt)) in
  Ok (cat [B "| gpu"; print_u64 gpu; B " | ";
           gib2 (weights p); B " | "; gib2 (kv p); B " | "; gib2 (comp_state p); B " | ";
           gib2 (scratch p); B " | "; fmt_fixed 3 (as_gib (relay p)); B " | ";
           gib2 (globals p); B " | "; gib2 (mtp p); B " | "; gib2 (reserve p); B " | ";
           gib2 total; B " | "; fmt_fixed 2 last; B " |"; [LF]], total).

(** The INT8 expansion of a GPU: its total with the routed experts at one
    byte per element. *)
Definition int8_expanded (opt : options) (gpu : Z) : pres Z :=
  w8 <- sum_on_gpu gpu (o_gpus opt) (fun il => layer_weight_bytes il true) ;;
  let* (p, total) := plan_gpu gpu opt (o_ctx opt) (o_slots opt) in
  Ok (u64 (u64 (total - weights p) + w8)).

Definition worst_of (opt : options) (totals : list Z) : Z * bool :=
  foldl (fun '(worst, fits) t =>
    (if worst <? t then t else worst, fits && negb (device_total_bytes opt <? t))) (0, true) totals.

(** A line of the admission table. *)
Definition tier_row (opt : options) (tier : Z) : pres bytes :=
  let* (slots, tier_worst) := admitted_slots_for_ctx opt tier in
  Ok (cat [B "| "; print_u64 tier; B " | "; print_u64 slots; B " | "; gib2 tier_worst; B " GiB |"; [LF]]).

Definition run_planner (opt : options) : pres bytes :=
  layer_map <- print_layer_map opt ;;
  rows <- mapM_res (plan_row opt) (gpu_list (o_gpus opt)) ;;
  let '(worst, fits) := worst_of opt (map snd rows) in
  tier_rows <- mapM_res (tier_row opt) tiers ;;
  expanded <- mapM_res (int8_expanded opt) (gpu_list (o_gpus opt)) ;;
  let '(int8_worst, int8_fits) := worst_of opt expanded in
  Ok (cat
    [lines ["DS4 V100 planner"; "architecture: docs/architecture/DS4-V100-LAYOUT.md"]%string;
     B "configured: ctx="; print_u64 (o_ctx opt); B " slots="; print_u64 (o_slots opt);
     B " gpus="; print_u64 (o_gpus opt); B " mtp="; (if o_mtp opt then B "on" else B "off");
     B " device="; gib2 (device_total_bytes opt); B " GiB reserve="; fmt_fixed 2 (reserve_gib opt);
     B " GiB scratch="; fmt_fixed 2 (scratch_gib opt); B " GiB/GPU"; [LF];
     lines ["source stance: dense FP8, routed MXFP4, BF16 embedding/output, F16 KV first"]%string;
     layer_map;
     lines [""; "Configured memory plan";
            "| GPU | Weights | KV | Comp state | Scratch | Relay | Globals | MTP | Reserve | Planned total | Headroom after reserve |";
            "|---:|---:|---:|---:|---:|---:|---:|---:|---:|---:|---:|"]%string;
     concat (map fst rows);
     lines [""; "Admission by context tier, F16 KV";
            "| Context | Max admitted slots | Worst-GPU planned total at max |"; "|---:|---:|---:|"]%string;
     concat tier_rows;
     [LF]; B "INT8-expanded routed-expert warning: worst configured GPU would be "; gib2 int8_worst;
     B " GiB; ";
     (if int8_fits then B "fits this configured plan, but still requires quality gates"
      else B "does not fit with current reserve and should not be a default");
     B "."; [LF];
     print_kernel_policy; print_manifest_schema;
     [LF]; B "Verdict: ";
     (if fits then B "SHIP-ready planner baseline" else B "STOP for configured overfill"); [LF];
     B "Worst configured GPU total including reserve: "; gib2 worst; B " GiB / ";
     gib2 (device_total_bytes opt); B " GiB"; [LF]]).

(** ** Options *)

Definition parse_u64_arg (s : bytes) (name : string) : pres Z :=
  let '(v, rest, err) := strtoull s in
  if err || negb (str_eqb rest []) then Error (Exit 2 (Diag "invalid %s: %s\n" [AS (B name); AS s]))
  else Ok v.

Definition parse_double_arg (s : bytes) (name : string) : pres double :=
  let '(v, rest, err) := strtod s in
  if err || negb (str_eqb rest []) then Error (Exit 2 (Diag "invalid %s: %s\n" [AS (B name); AS s]))
  else Ok v.

Definition default_options : options :=
  {| o_ctx := 262144; o_slots := 4; o_gpus := 8; o_mtp := false; o_json := false;
     device_total_bytes := 32 * GiB; reserve_gib := d_of_Z 4; scratch_gib := d_of_Z 1;
     inventory_path := None; inventory_tsv := None; manifest_path := None |}.

(** The argument loop of [main]: [None] when [--help] is met. *)
Fixpoint parse_args (args : list bytes) (opt : options) : pres (option options) :=
  match args with
  | [] => Ok (Some opt)
  | arg :: more =>
      let arg_is s := str_eqb arg (B s) in
      let usage : pres (option options) := Error (Exit 2 (Diag "usage" [])) in
      if arg_is "-h" || arg_is "--help" then Ok None
      else if arg_is "--json" then parse_args more (opt <| o_json := true |>)
      else
        match more with
        | [] => usage
        | v :: rest =>
            if arg_is "--ctx" then n <- parse_u64_arg v "--ctx" ;; parse_args rest (opt <| o_ctx := n |>)
            else if arg_is "--slots" then n <- parse_u64_arg v "--slots" ;; parse_args rest (opt <| o_slots := u32 n |>)
            else if arg_is "--gpus" then n <- parse_u64_arg v "--gpus" ;; parse_args rest (opt <| o_gpus := u32 n |>)
            else if arg_is "--mtp" then
              if str_eqb v (B "on") then parse_args rest (opt <| o_mtp := true |>)
              else if str_eqb v (B "off") then parse_args rest (opt <| o_mtp := false |>)
              else die (B "--mtp must be on or off")
            else if arg_is "--device-total-bytes" then
              n <- parse_u64_arg v "--device-total-bytes" ;; parse_args rest (opt <| device_total_bytes := n |>)
            else if arg_is "--reserve-gib" then
              d <- parse_double_arg v "--reserve-gib" ;; parse_args rest (opt <| reserve_gib := d |>)
            else if arg_is "--scratch-gib" then
              d <- parse_double_arg v "--scratch-gib" ;; parse_args rest (opt <| scratch_gib := d |>)
            else if arg_is "--inventory" then parse_args rest (opt <| inventory_path := Some v |>)
            else if arg_is "--inventory-tsv" then parse_args rest (opt <| inventory_tsv := Some v |>)
            else if arg_is "--manifest" then parse_args rest (opt <| manifest_path := Some v |>)
            else usage
        end
  end.

Definition is_Some_b {A} (o : option A) : bool := match o with Some _ => true | None => false end.

(** The checks of [main] behind the loop. *)
Definition check_options (opt : options) : pres options :=
  let zero := S754_zero false in
  if (o_gpus opt =? 0) || (8 <? o_gpus opt) then die (B "--gpus must be in 1..8")
  else if o_slots opt =? 0 then die (B "--slots must be positive")
  else if device_total_bytes opt =? 0 then die (B "--device-total-bytes must be positive")
  else if SFltb (reserve_gib opt) zero || SFltb (scratch_gib opt) zero
  then die (B "reserve/scratch must be non-negative")
  else if (is_Some_b (inventory_tsv opt) || is_Some_b (manifest_path opt)) && negb (is_Some_b (inventory_path opt))
  then die (B "--inventory-tsv and --manifest require --inventory")
  else if o_json opt && is_Some_b (inventory_path opt)
  then die (B "--json cannot be combined with --inventory")
  else Ok opt.
