(* ===== verification/PlanGguf.v ===== *)
(** * GGUF inventory (tools/plan.c)

    The reader of a GGUF file's header and tensor table ([parse_gguf]), the
    classification of tensors by name and the inventory reports.  The file is
    the bytes fread can deliver; seeking behind its end succeeds, as on a
    regular file, and the next read is short. *)
From S2P Require Import Prelude.
From S2P Require Import CNum.
From S2P Require Import LittleEndian.
From S2P Require Import CFloat.
From S2P Require Import TsvFile.
From S2P Require Import Planner.

(** ** Tensor types *)

Definition DS4_GGUF_MAGIC : Z := 0x46554747.
Definition DS4_MAX_DIMS : Z := 4.

Record ggml_type_info := GgmlType { gt_name : string; block_elems : Z; block_bytes : Z }.

Definition gt (n : string) (e b : Z) : option ggml_type_info := Some (GgmlType n e b).

Definition ggml_types : list (option ggml_type_info) :=
  [gt "f32" 1 4; gt "f16" 1 2; gt "q4_0" 32 18; gt "q4_1" 32 20; None; None;
   gt "q5_0" 32 22; gt "q5_1" 32 24; gt "q8_0" 32 34; gt "q8_1" 32 40;
   gt "q2_k" 256 84; gt "q3_k" 256 110; gt "q4_k" 256 144; gt "q5_k" 256 176;
   gt "q6_k" 256 210; gt "q8_k" 256 292; gt "iq2_xxs" 256 66; gt "iq2_xs" 256 74;
   gt "iq3_xxs" 256 98; gt "iq1_s" 256 110; gt "iq4_nl" 256 50; gt "iq3_s" 256 110;
   gt "iq2_s" 256 82; gt "iq4_xs" 256 136; gt "i8" 1 1; gt "i16" 1 2; gt "i32" 1 4;
   gt "i64" 1 8; gt "f64" 1 8; gt "iq1_m" 256 56; gt "bf16" 1 2;
   None; None; None; None; None; None; None; None; gt "mxfp4" 32 17;
   None; None; gt "f8_e4m3_b128" 128 129].

(** The entry of a type id, if the table names it. *)
Definition type_info (type : Z) : option ggml_type_info :=
  if 43 <=? type then None else mjoin (ggml_types !! Z.to_nat type).

Definition type_name (type : Z) : bytes :=
  match type_info type with Some i => B (gt_name i) | None => B "unknown" end.

(** [None] is the return value false. *)
Definition type_nbytes (type elements : Z) : option Z :=
  match type_info type with
  | None => None
  | Some info =>
      let blocks := u64 (u64 (elements + block_elems info) - 1) / block_elems info in
      if UINT64_MAX / block_bytes info <? blocks then None
      else Some (u64 (blocks * block_bytes info))
  end.

(** Metadata value types. *)
Definition GGUF_VALUE_UINT32 : Z := 4.
Definition GGUF_VALUE_STRING : Z := 8.
Definition GGUF_VALUE_ARRAY : Z := 9.

Definition scalar_value_size (type : Z) : Z :=
  if (type =? 0) || (type =? 1) || (type =? 7) then 1
  else if (type =? 2) || (type =? 3) then 2
  else if (type =? 4) || (type =? 5) || (type =? 6) then 4
  else if (type =? 10) || (type =? 11) || (type =? 12) then 8
  else 0.

(** ** The reader *)

(** What the operating system says about the path: [stat]'s size, whether
    [fopen] succeeds, the contents, and the largest offset [fseeko] accepts. *)
Record gguf_file := GgufFile {
  gf_stat : option Z;
  gf_open : bool;
  gf_data : bytes;
  gf_seek_max : Z;
  gf_errno : bytes
}.

(** The unread bytes and [r.pos]. *)
Record reader := Reader { r_rest : bytes; r_pos : Z }.

Definition die_errno {A} (prefix : string) (path errno : bytes) : pres A :=
  Error (Exit 1 (Diag "ds4-v100-plan: %s: %s: %s\n" [AS (B prefix); AS path; AS errno])).

(** [fread] of [n] bytes, all or nothing; every caller dies with [r->error]
    when it fails. *)
Definition read_exact (r : reader) (n : Z) : pres (bytes * reader) :=
  if Z.of_nat (length (r_rest r)) <? n then die (B "short read at byte " ++ print_u64 (r_pos r))
  else Ok (take (Z.to_nat n) (r_rest r), Reader (drop (Z.to_nat n) (r_rest r)) (u64 (r_pos r + n))).

Definition read_u32 (r : reader) : pres (Z * reader) :=
  let* (b, r) := read_exact r 4 in Ok (le_value b, r).
Definition read_u64 (r : reader) : pres (Z * reader) :=
  let* (b, r) := read_exact r 8 in Ok (le_value b, r).

Section Parse.
Context `{Allocator}.
Context (seek_max : Z).

(** Seeking moves behind the end of the file without an error. *)
Definition skip_bytes (r : reader) (n : Z) : pres reader :=
  if INT64_MAX <? n then die (B "skip too large")
  else if seek_max <? r_pos r + n then die (B "seek failed at byte " ++ print_u64 (r_pos r))
  else
    let rest := if Z.of_nat (length (r_rest r)) <=? n then [] else drop (Z.to_nat n) (r_rest r) in
    Ok (Reader rest (u64 (r_pos r + n))).

(** The bytes read; as a C string the result ends at its first NUL. *)
Definition read_string (r : reader) : pres (bytes * reader) :=
  let* (len, r) := read_u64 r in
  if SIZE_MAX - 1 <? len then die (B "string too large")
  else if negb (malloc_ok (len + 1)) then die (B "out of memory")
  else read_exact r len.

(** [for (i = 0; i < len; i++) if (!step()) return false;] *)
Fixpoint repeat_skip (fuel : nat) (step : reader -> pres reader) (len : Z) (r : reader) : pres reader :=
  if len <=? 0 then Ok r
  else
    match fuel with
    | O => Error OutOfFuel
    | S fuel' => r <- step r ;; repeat_skip fuel' step (len - 1) r
    end.

(** [skip_value(r, type, depth)] with [levels = 9 - depth]: the code refuses
    [depth > 8].  Every turn of the item loop reads at least the eight bytes
    of a length, so one turn per unread byte is enough. *)
Fixpoint skip_value (levels : nat) (r : reader) (type : Z) : pres reader :=
  match levels with
  | O => die (B "metadata array nesting too deep")
  | S levels' =>
      let scalar := scalar_value_size type in
      if negb (scalar =? 0) then skip_bytes r scalar
      else if type =? GGUF_VALUE_STRING then let* (_, r) := read_string r in Ok r
      else if type =? GGUF_VALUE_ARRAY then
        let* (item_type, r) := read_u32 r in
        let* (len, r) := read_u64 r in
        let item_size := scalar_value_size item_type in
        if negb (item_size =? 0) then
          if UINT64_MAX / item_size <? len then die (B "metadata array too large")
          else skip_bytes r (u64 (len * item_size))
        else
          repeat_skip (S (length (r_rest r))) (fun r => skip_value levels' r item_type) len r
      else die (B "unknown GGUF metadata type " ++ print_u64 type)
  end.

(** ** The header and the tensor table *)

Record tensor_desc := TensorDesc {
  t_name : bytes;
  t_dim : list Z;
  t_type : Z;
  rel_offset : Z;
  abs_offset : Z;
  elements : Z;
  t_bytes : Z
}.

Record gguf_inventory := Inventory {
  version : Z;
  n_kv : Z;
  n_tensors : Z;
  file_size : Z;
  alignment : Z;
  tensor_data_pos : Z;
  tensors : list tensor_desc
}.

(** One metadata entry: the alignment after it. *)
Definition read_kv (align : Z) (r : reader) : pres (Z * reader) :=
  let* (key, r) := read_string r in
  let* (type, r) := read_u32 r in
  if str_eqb (c_str key) (B "general.alignment") && (type =? GGUF_VALUE_UINT32) then
    let* (a, r) := read_u32 r in Ok (if negb (a =? 0) then a else align, r)
  else
    r <- skip_value 9 r type ;; Ok (align, r).

Fixpoint read_kvs (fuel : nat) (n align : Z) (r : reader) : pres (Z * reader) :=
  if n <=? 0 then Ok (align, r)
  else
    match fuel with
    | O => Error OutOfFuel
    | S fuel' => let* (align, r) := read_kv align r in read_kvs fuel' (n - 1) align r
    end.

(** [for (d = 0; d < ndim; d++)]: the dimensions and their product. *)
Fixpoint read_dims (ndim : nat) (elems : Z) (r : reader) : pres (list Z * Z * reader) :=
  match ndim with
  | O => Ok ([], elems, r)
  | S n =>
      let* (d, r) := read_u64 r in
      e <- checked_mul elems d ;;
      let* (ds, e, r) := read_dims n e r in Ok (d :: ds, e, r)
  end.

(** One entry of the tensor table; its [abs_offset] is filled in later. *)
Definition read_tensor (r : reader) : pres (tensor_desc * reader) :=
  let* (name, r) := read_string r in
  let* (ndim, r) := read_u32 r in
  if (ndim =? 0) || (DS4_MAX_DIMS <? ndim) then die (B "unsupported tensor rank in inventory")
  else
    let* (dims, elems, r) := read_dims (Z.to_nat ndim) 1 r in
    let* (type, r) := read_u32 r in
    let* (rel, r) := read_u64 r in
    Ok (TensorDesc (c_str name) dims type rel 0 elems (default 0 (type_nbytes type elems)), r).

Fixpoint read_tensors (fuel : nat) (n : Z) (r : reader) : pres (list tensor_desc * reader) :=
  if n <=? 0 then Ok ([], r)
  else
    match fuel with
    | O => Error OutOfFuel
    | S fuel' =>
        let* (t, r) := read_tensor r in
        let* (ts, r) := read_tensors fuel' (n - 1) r in Ok (t :: ts, r)
    end.

(** The last loop of [parse_gguf]. *)
Definition place_tensor (fsize data_pos : Z) (t : tensor_desc) : pres tensor_desc :=
  if UINT64_MAX - data_pos <? rel_offset t then die (B "GGUF tensor offset overflow")
  else
    let abs := u64 (data_pos + rel_offset t) in
    if negb (t_bytes t =? 0) && ((fsize <? abs) || (fsize - abs <? t_bytes t))
    then die (B "GGUF tensor points outside file")
    else Ok (TensorDesc (t_name t) (t_dim t) (t_type t) (rel_offset t) abs (elements t) (t_bytes t)).

(** [sizeof(tensor_desc)]. *)
Definition sizeof_tensor_desc : Z := 88.

(** [parse_gguf] on an open file of [fsize] bytes by [stat]. *)
Definition parse_gguf_data (fsize : Z) (data : bytes) : pres gguf_inventory :=
  let r := Reader data 0 in
  let* (magic, r) := read_u32 r in
  if negb (magic =? DS4_GGUF_MAGIC) then die (B "inventory model is not a GGUF file")
  else
    let* (ver, r) := read_u32 r in
    let* (nt, r) := read_u64 r in
    let* (nkv, r) := read_u64 r in
    if negb (ver =? 3) then die (B "only GGUF v3 inventory is supported")
    else
      let* (align, r) := read_kvs (S (length (r_rest r))) nkv 32 r in
      if negb (calloc_ok nt sizeof_tensor_desc) then die (B "out of memory allocating inventory tensor table")
      else
        let* (ts, r) := read_tensors (S (length (r_rest r))) nt r in
        pos <- align_up (r_pos r) align ;;
        placed <- mapM_res (place_tensor fsize pos) ts ;;
        Ok (Inventory ver nkv nt fsize align pos placed).
End Parse.

Definition parse_gguf `{Allocator} (path : bytes) (f : gguf_file) : pres gguf_inventory :=
  match gf_stat f with
  | None => die_errno "cannot stat inventory model" path (gf_errno f)
  | Some size =>
      if negb (gf_open f) then die_errno "cannot open inventory model" path (gf_errno f)
      else parse_gguf_data (gf_seek_max f) (u64 size) (gf_data f)
  end.

(** ** Classification by name *)

Inductive tensor_family :=
  FAMILY_GLOBAL | FAMILY_CONTROL | FAMILY_HC | FAMILY_ATTENTION | FAMILY_COMPRESSOR
| FAMILY_INDEXER | FAMILY_ROUTER | FAMILY_ROUTED_EXPERT | FAMILY_SHARED_EXPERT
| FAMILY_OUTPUT_HEAD | FAMILY_MTP | FAMILY_UNKNOWN.

#[export] Instance tensor_family_eq : EqDecision tensor_family.
Proof. solve_decision. Defined.

Definition families : list tensor_family :=
  [FAMILY_GLOBAL; FAMILY_CONTROL; FAMILY_HC; FAMILY_ATTENTION; FAMILY_COMPRESSOR; FAMILY_INDEXER;
   FAMILY_ROUTER; FAMILY_ROUTED_EXPERT; FAMILY_SHARED_EXPERT; FAMILY_OUTPUT_HEAD; FAMILY_MTP;
   FAMILY_UNKNOWN].

Definition family_name (f : tensor_family) : bytes :=
  B match f with
    | FAMILY_GLOBAL => "global"
    | FAMILY_CONTROL => "control"
    | FAMILY_HC => "hc"
    | FAMILY_ATTENTION => "attention"
    | FAMILY_COMPRESSOR => "compressor"
    | FAMILY_INDEXER => "indexer"
    | FAMILY_ROUTER => "router"
    | FAMILY_ROUTED_EXPERT => "routed_expert"
    | FAMILY_SHARED_EXPERT => "shared_expert"
    | FAMILY_OUTPUT_HEAD => "output_head"
    | FAMILY_MTP => "mtp"
    | FAMILY_UNKNOWN => "unknown"
    end.

Definition classify_tensor (name : bytes) : tensor_family :=
  let has s := str_strstr name (B s) in
  let eq s := str_eqb name (B s) in
  if has "mtp" || has "draft" then FAMILY_MTP
  else if eq "output.weight" then FAMILY_OUTPUT_HEAD
  else if str_prefixb (B "output_") name || eq "token_embd.weight" || eq "output_norm.weight" then FAMILY_GLOBAL
  else if has "hc_attn" || has "hc_ffn" || has "hc_" then FAMILY_HC
  else if has "attn_compress" then FAMILY_COMPRESSOR
  else if has "ffn_gate_exps" || has "ffn_up_exps" || has "ffn_down_exps" then FAMILY_ROUTED_EXPERT
  else if has "ffn_gate_shexp" || has "ffn_up_shexp" || has "ffn_down_shexp" then FAMILY_SHARED_EXPERT
  else if has "ffn_norm" then FAMILY_CONTROL
  else if has "ffn_gate_inp" || has "exp_probs" || has "tid2eid" then FAMILY_ROUTER
  else if has "indexer" then FAMILY_INDEXER
  else if has "compressor" then FAMILY_COMPRESSOR
  else if has "attn_" then FAMILY_ATTENTION
  else FAMILY_UNKNOWN.

(** [sscanf(name, "blk.%d.", &layer) == 1 ? layer : -1].  The directive reads
    a [long], as [strtol] does, and stores it in an [int]; the point behind it
    is not required for the count 1. *)
Definition tensor_layer (name : bytes) : Z :=
  if str_prefixb (B "blk.") name then
    match strto_subject (drop 4 name) with
    | Some (neg, v, _) =>
        let w := if neg then - v else v in
        to_int (Z.max INT64_MIN (Z.min INT64_MAX w))
    | None => -1
    end
  else -1.

(** [dims_string] into a buffer of [len] bytes. *)
Definition dims_string (t : tensor_desc) (len : nat) : bytes :=
  snprintf_trunc len (B "[" ++ join_with x78 (map print_u64 (t_dim t)) ++ B "]").

Definition owning_gpu_for_tensor (name : bytes) (gpus : Z) : pres Z :=
  let layer := tensor_layer name in
  let eq s := str_eqb name (B s) in
  if 0 <=? layer then layer_device layer gpus
  else if eq "token_embd.weight" then Ok 0
  else if eq "output.weight" || eq "output_norm.weight" || eq "hc_head_base" || eq "hc_head_fn" || eq "hc_head_scale"
  then Ok (gpus - 1)
  else Ok (-1).

Definition runtime_layout_for_tensor (t : tensor_desc) : bytes :=
  let is_type n := t_type t =? n in
  B match classify_tensor (t_name t) with
    | FAMILY_ROUTED_EXPERT =>
        if is_type 39 then "source_mxfp4_grouped" else "unsupported_routed_source"
    | FAMILY_ATTENTION | FAMILY_SHARED_EXPERT =>
        if is_type 42 then "source_f8_e4m3_b128_blocked" else "source_f32_control"
    | FAMILY_COMPRESSOR | FAMILY_INDEXER =>
        if is_type 42 then "source_f8_e4m3_b128_blocked"
        else if is_type 30 then "source_bf16"
        else if is_type 0 then "source_f32"
        else "source_mixed_unknown"
    | FAMILY_OUTPUT_HEAD => if is_type 30 then "source_bf16" else "source_output_unknown"
    | FAMILY_HC | FAMILY_CONTROL | FAMILY_ROUTER | FAMILY_GLOBAL =>
        if is_type 30 then "source_bf16"
        else if is_type 26 then "source_i32"
        else if is_type 0 then "source_f32"
        else "source_control_unknown"
    | FAMILY_MTP => "mtp_deferred"
    | FAMILY_UNKNOWN => "unknown"
    end.

Definition kernel_family_for_tensor (t : tensor_desc) : bytes :=
  B match classify_tensor (t_name t) with
    | FAMILY_ROUTED_EXPERT => "v100_grouped_mxfp4_pending"
    | FAMILY_ATTENTION =>
        if t_type t =? 42 then "v100_fp8_dequant_f16_hmma_pending" else "ds4_attention_control"
    | FAMILY_COMPRESSOR => "ds4_compressor_bf16_f32_pending"
    | FAMILY_INDEXER => "ds4_indexer_mixed_pending"
    | FAMILY_SHARED_EXPERT => "v100_shared_fp8_dense_pending"
    | FAMILY_OUTPUT_HEAD => "v100_bf16_output_pending"
    | FAMILY_HC => "ds4_hc_control_f32"
    | FAMILY_ROUTER => "ds4_router_f32_i32"
    | FAMILY_CONTROL => "ds4_control_f32"
    | FAMILY_GLOBAL =>
        if str_eqb (t_name t) (B "token_embd.weight") then "ds4_embedding_bf16" else "ds4_global_control"
    | FAMILY_MTP => "mtp_deferred"
    | FAMILY_UNKNOWN => "unknown"
    end.

(** ** Reports *)

(** Whether the output path opens and closes without an error. *)
Record out_file := OutFile { of_open : bool; of_close : bool; of_errno : bytes }.

(** The text written between fopen and fclose. *)
Definition write_file (what_open what_close : string) (path : bytes) (o : out_file) (text : pres bytes)
    : pres bytes :=
  if negb (of_open o) then die_errno what_open path (of_errno o)
  else t <- text ;; if negb (of_close o) then die_errno what_close path (of_errno o) else Ok t.

Definition inventory_row (gpus : Z) (t : tensor_desc) : pres bytes :=
  let layer := tensor_layer (t_name t) in
  gpu <- (if 0 <=? layer then layer_device layer gpus else Ok (-1)) ;;
  Ok (tsv_line
    [t_name t; print_i64 layer; print_i64 gpu; family_name (classify_tensor (t_name t));
     dims_string t 128; print_u64 (elements t); print_u64 (t_type t); type_name (t_type t);
     print_u64 (t_bytes t)]).

Definition inventory_header : list bytes :=
  map B ["name"; "layer"; "gpu"; "family"; "dims"; "elements"; "ggml_type_id"; "ggml_type"; "bytes"]%string.

Definition write_inventory_tsv (inv : gguf_inventory) (path : bytes) (o : out_file) (gpus : Z) : pres bytes :=
  write_file "cannot write inventory TSV" "cannot close inventory TSV" path o
    (rows <- mapM_res (inventory_row gpus) (tensors inv) ;;
     Ok (tsv_line inventory_header ++ concat rows)).

Definition manifest_row (gpus : Z) (t : tensor_desc) : pres bytes :=
  let layer := tensor_layer (t_name t) in
  gpu <- owning_gpu_for_tensor (t_name t) gpus ;;
  Ok (tsv_line
    [t_name t; t_name t; type_name (t_type t); dims_string t 128; runtime_layout_for_tensor t;
     print_i64 gpu; print_i64 layer; kernel_family_for_tensor t; print_u64 (abs_offset t);
     print_u64 (t_bytes t); B "-1"; B "pending"; B "absolute_gguf_file"]).

Definition manifest_header : list bytes :=
  map B ["semantic_tensor_id"; "source_name"; "source_dtype"; "source_shape"; "runtime_layout";
         "owning_gpu"; "layer_id"; "kernel_family"; "byte_offset"; "byte_length"; "scale_offset";
         "checksum"; "byte_offset_basis"]%string.

Definition write_manifest_tsv (inv : gguf_inventory) (path : bytes) (o : out_file) (gpus : Z) : pres bytes :=
  write_file "cannot write manifest" "cannot close manifest" path o
    (rows <- mapM_res (manifest_row gpus) (tensors inv) ;;
     Ok (tsv_line manifest_header ++ concat rows)).

Record bucket := Bucket { b_count : Z; b_bytes : Z; b_elements : Z }.

Definition bucket_zero : bucket := Bucket 0 0 0.

Definition bucket_add (t : tensor_desc) (b : bucket) : bucket :=
  Bucket (u64 (b_count b + 1)) (u64 (b_bytes b + t_bytes t)) (u64 (b_elements b + elements t)).

Definition family_index (f : tensor_family) : nat :=
  match f with
  | FAMILY_GLOBAL => 0 | FAMILY_CONTROL => 1 | FAMILY_HC => 2 | FAMILY_ATTENTION => 3
  | FAMILY_COMPRESSOR => 4 | FAMILY_INDEXER => 5 | FAMILY_ROUTER => 6 | FAMILY_ROUTED_EXPERT => 7
  | FAMILY_SHARED_EXPERT => 8 | FAMILY_OUTPUT_HEAD => 9 | FAMILY_MTP => 10 | FAMILY_UNKNOWN => 11
  end.

(** [type_buckets], [family_buckets], [described], [unknown_type_count]. *)
Record summary := Summary {
  type_buckets : list bucket;
  family_buckets : list bucket;
  described : Z;
  unknown_type_count : Z
}.

Definition summary_zero : summary :=
  Summary (replicate 43 bucket_zero) (replicate 12 bucket_zero) 0 0.

Definition count_tensor (s : summary) (t : tensor_desc) : summary :=
  let f := family_index (classify_tensor (t_name t)) in
  let known := match type_info (t_type t) with Some _ => true | None => false end in
  Summary
    (if known then alter (bucket_add t) (Z.to_nat (t_type t)) (type_buckets s) else type_buckets s)
    (alter (bucket_add t) f (family_buckets s))
    (u64 (described s + t_bytes t))
    (if known then unknown_type_count s else u64 (unknown_type_count s + 1)).

Definition summarize (ts : list tensor_desc) : summary := foldl count_tensor summary_zero ts.

Definition bucket_row (first : bytes) (b : bucket) : bytes :=
  if b_count b =? 0 then []
  else cat [B "| "; first; B " | "; print_u64 (b_count b); B " | "; gib2 (b_bytes b); B " GiB |"; [LF]].

(** stdout up to the optional files. *)
Definition inventory_text (path : bytes) (inv : gguf_inventory) : bytes :=
  let s := summarize (tensors inv) in
  let tb i := default bucket_zero (type_buckets s !! i) in
  let fb f := default bucket_zero (family_buckets s !! family_index f) in
  cat
    [[LF]; lines ["GGUF inventory"]%string; B "path: "; path; [LF];
     B "file size: "; gib2 (file_size inv); B " GiB ("; print_u64 (file_size inv); B " bytes)"; [LF];
     B "gguf: v"; print_u64 (version inv); B ", "; print_u64 (n_kv inv); B " metadata keys, ";
     print_u64 (n_tensors inv); B " tensors"; [LF];
     B "tensor bytes described: "; gib2 (described s); B " GiB"; [LF];
     (if unknown_type_count s =? 0 then []
      else cat [B "unknown tensor types: "; print_u64 (unknown_type_count s); [LF]]);
     lines [""; "Tensor types"; "| Type id | Type | Count | Bytes |"; "|---:|---|---:|---:|"]%string;
     concat (map (fun i => bucket_row (print_u64 (Z.of_nat i) ++ B " | " ++ type_name (Z.of_nat i)) (tb i))
               (seq 0 43));
     lines [""; "Tensor families"; "| Family | Count | Bytes |"; "|---|---:|---:|"]%string;
     concat (map (fun f => bucket_row (family_name f) (fb f)) families);
     lines [""; "Architecture reconciliation hints"]%string;
     B "- Type 39 mxfp4 count: "; print_u64 (b_count (tb 39%nat)); [LF];
     B "- Type 42 f8_e4m3_b128 count: "; print_u64 (b_count (tb 42%nat)); [LF];
     B "- Routed expert family bytes: "; gib2 (b_bytes (fb FAMILY_ROUTED_EXPERT)); B " GiB"; [LF];
     B "- Dense attention family bytes: "; gib2 (b_bytes (fb FAMILY_ATTENTION)); B " GiB"; [LF];
     B "- Unknown family count: "; print_u64 (b_count (fb FAMILY_UNKNOWN)); [LF]].

(** stdout, and the texts of the two files when they are asked for. *)
Definition run_inventory `{Allocator} (path : bytes) (f : gguf_file)
    (tsv_path manifest : option (bytes * out_file)) (gpus : Z) : pres (bytes * option bytes * option bytes) :=
  inv <- parse_gguf path f ;;
  tsv <- match tsv_path with
         | None => Ok None
         | Some (p, o) => t <- write_inventory_tsv inv p o gpus ;; Ok (Some t)
         end ;;
  man <- match manifest with
         | None => Ok None
         | Some (p, o) => t <- write_manifest_tsv inv p o gpus ;; Ok (Some t)
         end ;;
  let wrote (s : string) (q : option (bytes * out_file)) :=
    match q with None => [] | Some (p, _) => cat [B s; p; [LF]] end in
  Ok (inventory_text path inv
        ++ match tsv_path with None => [] | Some _ => [LF] end
        ++ wrote "Wrote tensor TSV: " tsv_path
        ++ wrote "Wrote pack manifest TSV: " manifest, tsv, man).

(** ** The program *)

Definition usage_text : bytes :=
  lines
    ["Usage: ds4-v100-plan [options]"; "";
     "Planner options:";
     "  --ctx N                 Context tokens for configured plan. Default: 262144";
     "  --slots N               Configured slots for plan. Default: 4";
     "  --gpus N                Visible GPUs. Default: 8";
     "  --mtp on|off            Include rough MTP bytes on final GPU. Default: off";
     "  --device-total-bytes N   Per-GPU memory capacity. Default: 32 GiB";
     "  --reserve-gib F         Reserve per GPU after planned allocations. Default: 4.0";
     "  --scratch-gib F         Scratch per GPU. Default: 1.0";
     "  --json                  Emit machine-readable slot/context envelope JSON"; "";
     "Inventory options:";
     "  --inventory FILE        Parse GGUF tensor directory and print dtype/family summary";
     "  --inventory-tsv FILE    Write full tensor inventory TSV";
     "  --manifest FILE         Write first-pass pack manifest TSV"; "";
     "Examples:";
     "  ds4-v100-plan --ctx 262144 --slots 4 --gpus 8 --mtp off";
     "  ds4-v100-plan --inventory /models/DSv4-Flash-256e-fixed.gguf --manifest /tmp/ds4-manifest.tsv"]%string.

(** [main] on its arguments and the file system: stdout and the two files. *)
Definition plan_main `{Allocator} (args : list bytes) (fs : bytes -> gguf_file) (out : bytes -> out_file)
    : pres (bytes * option bytes * option bytes) :=
  o <- parse_args args default_options ;;
  match o with
  | None => Ok (usage_text, None, None)
  | Some opt =>
      opt <- check_options opt ;;
      report <- (if o_json opt then print_planner_json opt else run_planner opt) ;;
      match inventory_path opt with
      | None => Ok (report, None, None)
      | Some path =>
          let file (p : option bytes) := match p with Some p => Some (p, out p) | None => None end in
          let* (text, tsv, man) :=
            run_inventory path (fs path) (file (inventory_tsv opt)) (file (manifest_path opt)) (o_gpus opt) in
          Ok (report ++ text, tsv, man)
      end
  end.
