(* ===== verification/PlannerProps.v ===== *)
(** * Properties of the memory planner

    The plan of a GPU is the exact sum of its parts, agrees with the KV budget
    of the runtime, grows with the slots, and admission finds the largest slot
    count that fits every GPU. *)
From S2P Require Import Prelude.
From S2P Require Import CNum.
From S2P Require Import CFloat.
From S2P Require Import Policy.
From S2P Require Import ContextTypes.
From S2P Require Import KvPlan.
From S2P Require Import Planner.

(** ** Reference values *)

(** Whether layer [il] is on the GPU. *)
Definition on_gpu (gpus gpu il : Z) : bool :=
  match layer_device il gpus with Ok d => d =? gpu | Error _ => false end.

(** The source weights of a layer: dense matrices in F8_E4M3_B128 (129 bytes
    per 128 elements), routed experts in MXFP4 (17 bytes per 32 elements), the
    compressor and indexer projections in BF16, controls in F32, the hash
    layers' token table in I32. *)
Definition layer_weight (il : Z) : Z :=
  let f8 n := n / 128 * 129 in
  let mxfp4 n := n / 32 * 17 in
  let ratio := layer_ratio il in
  let width := (if ratio =? 4 then 2 else 1) * 512 in
  2 * (4 * (16384 * 24 + 3 + 24)) + 2 * (4 * 4096)
  + f8 (4096 * 1024) + 4 * 1024 + f8 (1024 * 32768) + f8 (4096 * 512) + 4 * 512 + 4 * 64
  + f8 (4096 * 8192) + f8 (8192 * 4096)
  + (if ratio =? 0 then 0 else 4 * (width * ratio) + 2 * (2 * (4096 * width)) + 4 * 512)
  + (if ratio =? 4 then
       f8 (1024 * 8192) + 2 * (4096 * 64) + 4 * (256 * 4) + 2 * (2 * (4096 * 256)) + 4 * 128
     else 0)
  + 4 * (4096 * 256) + 4 * 256 + 3 * mxfp4 (4096 * 2048 * 256) + 3 * f8 (4096 * 2048)
  + (if il <? 3 then 4 * (6 * 129280) else 0).

(** The F16 KV bytes of a layer for one slot. *)
Definition layer_kv (il ctx : Z) : Z :=
  let ratio := layer_ratio il in
  (128 + (if ratio =? 0 then 0 else ctx / ratio)) * 512 * 2
  + (if ratio =? 4 then ctx / 4 * 128 * 2 else 0).

Definition sum_on (gpus gpu : Z) (f : Z -> Z) : Z :=
  sumZ (fun il => if on_gpu gpus gpu il then f il else 0) layer_list.

(** The embedding on the first GPU; head hyper-connection, final norm and
    output projection on the last. *)
Definition globals_on (gpus gpu : Z) : Z :=
  (if gpu =? 0 then 2 * (4096 * 129280) else 0)
  + (if gpu + 1 =? gpus then 4 * (16384 * 4) + 4 * 4 + 4 + 4 * 4096 + 2 * (4096 * 129280) else 0).

Definition mtp_on (opt : options) (gpu : Z) : Z :=
  if o_mtp opt && (gpu + 1 =? o_gpus opt) then 3865470566 else 0.

(** The plan [plan_gpu] is to compute, with the converted scratch and
    reserve. *)
Definition ref_plan (opt : options) (gpu ctx slots sc rs : Z) : gpu_plan :=
  {| weights := sum_on (o_gpus opt) gpu layer_weight;
     kv := slots * sum_on (o_gpus opt) gpu (fun il => layer_kv il ctx);
     comp_state := sum_on (o_gpus opt) gpu layer_comp_state_bytes;
     scratch := sc;
     relay := 65536 * slots;
     globals := globals_on (o_gpus opt) gpu;
     mtp := mtp_on opt gpu;
     reserve := rs |}.

Definition ref_total (p : gpu_plan) : Z := sumZ id (plan_parts p) + reserve p.

(** ** Layers and devices *)

Definition gpu_counts : list Z := [1; 2; 3; 4; 5; 6; 7; 8].

Lemma gpu_counts_elem (g : Z) : 1 <= g <= 8 -> g ∈ gpu_counts.
Proof. intros H. unfold gpu_counts. rewrite !elem_of_cons. lia. Qed.

Lemma layer_list_elem (il : Z) : il ∈ layer_list <-> 0 <= il < 43.
Proof.
  unfold layer_list. rewrite list_elem_of_fmap. split.
  - intros (n & -> & Hn%elem_of_seq). lia.
  - intros H. exists (Z.to_nat il). split; [lia|]. apply elem_of_seq. lia.
Qed.

Lemma gpu_list_elem (gpus gpu : Z) : gpu ∈ gpu_list gpus <-> 0 <= gpu < gpus.
Proof.
  unfold gpu_list. rewrite list_elem_of_fmap. split.
  - intros (n & -> & Hn%elem_of_seq). lia.
  - intros H. exists (Z.to_nat gpu). split; [lia|]. apply elem_of_seq. lia.
Qed.

(** A boolean fact checked on every layer. *)
Lemma layers_forall (p : Z -> bool) :
  forallb p layer_list = true -> forall il, 0 <= il < 43 -> p il = true.
Proof.
  intros H il Hil%layer_list_elem. rewrite forallb_forall in H. apply H.
  by apply list_elem_of_In.
Qed.

Lemma devices_forall (p : Z -> Z -> bool) :
  forallb (fun g => forallb (p g) layer_list) gpu_counts = true ->
  forall g il, 1 <= g <= 8 -> 0 <= il < 43 -> p g il = true.
Proof.
  intros H g il Hg%gpu_counts_elem Hil. rewrite forallb_forall in H.
  apply layers_forall; [|done]. apply H. by apply list_elem_of_In.
Qed.

Lemma layer_device_ok (gpus il : Z) : 1 <= gpus <= 8 -> 0 <= il < 43 ->
  exists d, layer_device il gpus = Ok d /\ 0 <= d < gpus.
Proof.
  intros Hg Hil.
  pose proof (devices_forall
    (fun g il => match layer_device il g with Ok d => (0 <=? d) && (d <? g) | _ => false end)
    ltac:(vm_compute; reflexivity) gpus il Hg Hil) as H. cbv beta in H.
  destruct (layer_device il gpus) as [d|]; cbv beta iota in H; [|done].
  exists d. apply andb_true_iff in H as [H1%Z.leb_le H2%Z.ltb_lt]. auto.
Qed.

Lemma layer_weight_ok (il : Z) : 0 <= il < 43 ->
  layer_weight_bytes il false = Ok (layer_weight il) /\ 0 <= layer_weight il <= 2 ^ 33.
Proof.
  intros Hil.
  pose proof (layers_forall
    (fun il => match layer_weight_bytes il false with
               | Ok w => (w =? layer_weight il) && (0 <=? w) && (w <=? 2 ^ 33) | _ => false end)
    ltac:(vm_compute; reflexivity) il Hil) as H. cbv beta in H.
  destruct (layer_weight_bytes il false) as [w|]; cbv beta iota in H; [|done].
  apply andb_true_iff in H as [[H0%Z.eqb_eq H1%Z.leb_le]%andb_true_iff H2%Z.leb_le]. by subst w.
Qed.

Lemma layer_ratio_cases (il : Z) :
  layer_ratio il = 0 \/ layer_ratio il = 4 \/ layer_ratio il = 128.
Proof. unfold layer_ratio. destruct (il <? 2); [auto|]. destruct (il mod 2 =? 0); auto. Qed.

Lemma layer_comp_state_range (il : Z) : 0 <= layer_comp_state_bytes il <= 2 ^ 20.
Proof.
  unfold layer_comp_state_bytes.
  destruct (layer_ratio_cases il) as [-> |[-> | ->]]; vm_compute; split; discriminate.
Qed.

(** ** Arithmetic *)

Lemma checked_mul_ok (a b : Z) : 0 <= a -> 0 <= b -> a * b <= UINT64_MAX -> checked_mul a b = Ok (a * b).
Proof.
  intros Ha Hb Hab. unfold checked_mul.
  destruct (a =? 0) eqn:E; cbn [negb andb].
  - rewrite u64_small; [done|]. split; [lia|done].
  - apply Z.eqb_neq in E.
    destruct (Z.ltb_spec (UINT64_MAX / a) b) as [H|H].
    + exfalso. assert (b <= UINT64_MAX / a); [|lia]. apply Z.div_le_lower_bound; lia.
    + rewrite u64_small; [done|]. split; [lia|done].
Qed.

Lemma u64_sum (s v : Z) : 0 <= s -> 0 <= v -> s + v <= UINT64_MAX -> u64 (s + v) = s + v.
Proof. intros. apply u64_small. split; lia. Qed.

Lemma foldl_u64 (l : list Z) (s : Z) : 0 <= s -> Forall (fun v => 0 <= v) l ->
  s + sumZ id l <= UINT64_MAX -> foldl (fun s v => u64 (s + v)) s l = s + sumZ id l.
Proof.
  intros Hs Hl. revert s Hs. induction Hl as [|v l Hv Hl IH]; intros s Hs Hsum; simpl in *; [lia|].
  pose proof (sumZ_nonneg id l Hl). change (id v) with v in *.
  rewrite u64_sum by lia. rewrite IH; lia.
Qed.

Lemma sum_on_nonneg (gpus gpu : Z) (f : Z -> Z) :
  (forall il, 0 <= il < 43 -> 0 <= f il) -> 0 <= sum_on gpus gpu f.
Proof.
  intros Hf. apply sumZ_nonneg, Forall_forall. intros il Hil%layer_list_elem.
  destruct (on_gpu gpus gpu il); [auto|lia].
Qed.

Lemma sumZ_cons {A} (f : A -> Z) (a : A) (l : list A) : sumZ f (a :: l) = f a + sumZ f l.
Proof. done. Qed.

Lemma sumZ_le_mul {A} (f : A -> Z) (l : list A) (b : Z) :
  (forall a, a ∈ l -> f a <= b) -> sumZ f l <= Z.of_nat (length l) * b.
Proof.
  induction l as [|a l IH]; intros H; simpl; [lia|].
  assert (f a <= b) by (apply H; by left).
  assert (sumZ f l <= Z.of_nat (length l) * b) by (apply IH; intros; apply H; by right). lia.
Qed.

Lemma sum_on_le (gpus gpu : Z) (f : Z -> Z) (b : Z) : 0 <= b ->
  (forall il, 0 <= il < 43 -> f il <= b) -> sum_on gpus gpu f <= 43 * b.
Proof.
  intros Hb Hf. apply (sumZ_le_mul _ layer_list). intros il Hil%layer_list_elem.
  destruct (on_gpu gpus gpu il); [auto|lia].
Qed.

Section OnGpu.
Context (gpus gpu : Z) (Hgpus : 1 <= gpus <= 8).

(** One turn of a loop over the layers: only the layers of the GPU count. *)
Lemma on_gpu_step {A} (il : Z) (k : A) (body : pres A) : 0 <= il < 43 ->
  (d <- layer_device il gpus ;; if d =? gpu then body else Ok k) =
  if on_gpu gpus gpu il then body else Ok k.
Proof.
  intros Hil. unfold on_gpu. by destruct (layer_device_ok gpus il Hgpus Hil) as (d & -> & _).
Qed.

Lemma sum_on_gpu_ok (f : Z -> pres Z) (v : Z -> Z) :
  (forall il, 0 <= il < 43 -> f il = Ok (v il) /\ 0 <= v il) ->
  sum_on gpus gpu v <= UINT64_MAX -> sum_on_gpu gpu gpus f = Ok (sum_on gpus gpu v).
Proof.
  intros Hf Hsum. unfold sum_on_gpu, sum_on in *.
  assert (forall l b, (forall il, il ∈ l -> 0 <= il < 43) -> 0 <= b ->
    b + sumZ (fun il => if on_gpu gpus gpu il then v il else 0) l <= UINT64_MAX ->
    rfold (fun b il => d <- layer_device il gpus ;;
      if d =? gpu then (v <- f il ;; Ok (u64 (b + v))) else Ok b) b l =
    Ok (b + sumZ (fun il => if on_gpu gpus gpu il then v il else 0) l)) as Hgo.
  { induction l as [|il l IH]; intros b Hl Hb Hs; simpl in *; [f_equal; lia|].
    assert (0 <= il < 43) as Hil by (apply Hl; by left).
    assert (0 <= sumZ (fun il => if on_gpu gpus gpu il then v il else 0) l) as Hn.
    { apply sumZ_nonneg, Forall_forall. intros x Hx. destruct (on_gpu gpus gpu x); [|lia].
      apply Hf, Hl. by right. }
    destruct (Hf il Hil) as [Hfi Hvi]. rewrite on_gpu_step, Hfi by done.
    destruct (on_gpu gpus gpu il).
    - rewrite u64_sum by lia. rewrite IH; [f_equal; lia|intros; apply Hl; by right|lia|lia].
    - rewrite IH; [done|intros; apply Hl; by right|lia|lia]. }
  rewrite Hgo; [done|intros; by apply layer_list_elem|lia|lia].
Qed.
End OnGpu.

(** ** The parts of a plan *)

Definition CTX_MAX : Z := 2 ^ 32.
Definition SLOTS_MAX : Z := 2 ^ 16.

Lemma div_range (a b : Z) : 0 <= a -> 0 < b -> 0 <= a / b /\ b * (a / b) <= a.
Proof. intros Ha Hb. split; [by apply Z.div_pos|by apply Z.mul_div_le]. Qed.

Lemma layer_kv_range (il ctx : Z) : 0 <= ctx <= CTX_MAX -> 0 <= layer_kv il ctx <= 2 ^ 41.
Proof.
  unfold CTX_MAX. intros Hc. unfold layer_kv.
  pose proof (div_range ctx 4 ltac:(lia) ltac:(lia)).
  destruct (layer_ratio_cases il) as [-> |[-> | ->]]; cbn -[Z.div Z.mul Z.add Z.pow]; [lia|lia|].
  pose proof (div_range ctx 128 ltac:(lia) ltac:(lia)). lia.
Qed.

Lemma layer_kv_ok (il ctx : Z) : 0 <= ctx <= CTX_MAX -> layer_kv_bytes il ctx 2 = Ok (layer_kv il ctx).
Proof.
  unfold CTX_MAX. intros Hc. unfold layer_kv_bytes, layer_kv, add_terms, of_elems.
  change DS4_N_SWA with 128. change DS4_N_HEAD_DIM with 512. change DS4_N_INDEXER_HEAD_DIM with 128.
  pose proof (div_range ctx 4 ltac:(lia) ltac:(lia)) as H4.
  pose proof (div_range ctx 128 ltac:(lia) ltac:(lia)) as H128.
  destruct (layer_ratio_cases il) as [-> |[-> | ->]]; cbn -[Z.div Z.mul Z.add Z.pow u64 checked_mul].
  - rewrite u64_sum by zlia. rewrite checked_mul_ok by zlia. rewrite checked_mul_ok by zlia. f_equal; lia.
  - rewrite u64_sum by zlia. rewrite checked_mul_ok by zlia. rewrite checked_mul_ok by zlia.
    rewrite checked_mul_ok by zlia. rewrite checked_mul_ok by zlia. rewrite u64_sum by zlia. done.
  - rewrite u64_sum by zlia. rewrite checked_mul_ok by zlia. rewrite checked_mul_ok by zlia. f_equal; lia.
Qed.

Lemma relay_ok (slots : Z) : 0 <= slots <= SLOTS_MAX -> relay_bytes slots false = Ok (65536 * slots).
Proof.
  unfold SLOTS_MAX. intros Hs. unfold relay_bytes. change (DS4_N_HC * DS4_N_EMBD) with 16384.
  do 3 (rewrite checked_mul_ok by zlia). f_equal; lia.
Qed.

Lemma globals_ok (gpus gpu : Z) : 1 <= gpus <= 8 -> 0 <= gpu < gpus ->
  global_bytes_for_gpu gpu gpus = Ok (globals_on gpus gpu) /\ 0 <= globals_on gpus gpu <= 2 ^ 33.
Proof.
  intros Hg Hu. unfold globals_on, global_bytes_for_gpu. rewrite u32_small by zlia.
  destruct (gpu =? 0), (gpu + 1 =? gpus); vm_compute; repeat split; discriminate.
Qed.

Lemma mtp_ok (opt : options) (gpu : Z) : 1 <= o_gpus opt <= 8 -> 0 <= gpu < o_gpus opt ->
  (if o_mtp opt && (u32 (gpu + 1) =? o_gpus opt) then gib_bytes d_3_6 else Ok 0) = Ok (mtp_on opt gpu).
Proof.
  intros Hg Hu. unfold mtp_on. rewrite u32_small by zlia.
  destruct (o_mtp opt && (gpu + 1 =? o_gpus opt)); [|done]. vm_compute. reflexivity.
Qed.

Lemma plan_layers_ok (opt : options) (gpu ctx slots : Z) :
  1 <= o_gpus opt <= 8 -> 0 <= ctx <= CTX_MAX -> 0 <= slots <= SLOTS_MAX ->
  plan_layers opt gpu ctx slots =
    Ok (sum_on (o_gpus opt) gpu layer_weight, slots * sum_on (o_gpus opt) gpu (fun il => layer_kv il ctx)).
Proof.
  intros Hg Hc Hs. unfold plan_layers, sum_on. set (on := on_gpu (o_gpus opt) gpu).
  assert (forall l w k, (forall il, il ∈ l -> 0 <= il < 43) ->
    0 <= w -> w + Z.of_nat (length l) * 2 ^ 33 <= UINT64_MAX ->
    0 <= k -> k + Z.of_nat (length l) * 2 ^ 57 <= UINT64_MAX -> (length l <= 43)%nat ->
    rfold (fun '(w, k) il =>
      d <- layer_device il (o_gpus opt) ;;
      if negb (d =? gpu) then Ok (w, k)
      else
        lw <- layer_weight_bytes il false ;;
        lk <- layer_kv_bytes il ctx 2 ;;
        lks <- checked_mul lk slots ;;
        Ok (u64 (w + lw), u64 (k + lks))) (w, k) l =
    Ok (w + sumZ (fun il => if on il then layer_weight il else 0) l,
        k + slots * sumZ (fun il => if on il then layer_kv il ctx else 0) l)) as Hgo.
  { induction l as [|il l IH]; intros w k Hl Hw Hw' Hk Hk' Hlen; cbn [rfold length] in *;
      rewrite ?sumZ_cons.
    { cbn [sumZ foldr]. f_equal. f_equal; lia. }
    assert (0 <= il < 43) as Hil by (apply Hl; by left).
    assert (forall x, x ∈ l -> 0 <= x < 43) as Hl' by (intros; apply Hl; by right).
    destruct (layer_device_ok (o_gpus opt) il Hg Hil) as (d & Ed & _).
    assert (on il = (d =? gpu)) as -> by (unfold on, on_gpu; by rewrite Ed).
    rewrite Ed. destruct (d =? gpu); cbn [negb].
    - destruct (layer_weight_ok il Hil) as [-> Hlw]. rewrite layer_kv_ok by done.
      pose proof (layer_kv_range il ctx Hc) as Hkv. unfold SLOTS_MAX in Hs.
      assert (0 <= layer_kv il ctx * slots <= 2 ^ 57) as Hm.
      { split; [nia|]. change (2 ^ 57) with (2 ^ 41 * 2 ^ 16). apply Z.mul_le_mono_nonneg; lia. }
      rewrite checked_mul_ok by zlia. rewrite !u64_sum by lia. rewrite IH by (done || lia).
      do 2 f_equal; lia.
    - rewrite IH by (done || lia). do 2 (f_equal; try lia). }
  rewrite Hgo; [done|intros; by apply layer_list_elem|..]; done || (vm_compute; lia).
Qed.

(** ** Plans *)

Section Plan.
Context (opt : options) (ctx sc rs : Z).
Context (Hgpus : 1 <= o_gpus opt <= 8) (Hctx : 0 <= ctx <= CTX_MAX).
Context (Hsc : gib_bytes (scratch_gib opt) = Ok sc) (Hrs : gib_bytes (reserve_gib opt) = Ok rs).
Context (Hfit : sc + rs <= 2 ^ 62).

Lemma gib_bytes_range (d : double) (n : Z) : gib_bytes d = Ok n -> is_u64 n.
Proof.
  unfold gib_bytes. destruct (d_to_u64 _) as [m|] eqn:E; [|done]. intros [= ->].
  by eapply d_to_u64_range.
Qed.

Lemma mtp_range (gpu : Z) : 0 <= mtp_on opt gpu <= 2 ^ 32.
Proof. unfold mtp_on. case_match; lia. Qed.

Lemma ref_plan_range (gpu slots : Z) : 0 <= gpu < o_gpus opt -> 0 <= slots <= SLOTS_MAX ->
  Forall (fun v => 0 <= v) (plan_parts (ref_plan opt gpu ctx slots sc rs) ++ [rs]) /\
  ref_total (ref_plan opt gpu ctx slots sc rs) <= UINT64_MAX.
Proof.
  intros Hg Hs. unfold ref_total, ref_plan, plan_parts.
  cbn [weights kv comp_state scratch relay globals mtp reserve app sumZ foldr].
  pose proof (sum_on_nonneg (o_gpus opt) gpu layer_weight (fun il H => proj1 (proj2 (layer_weight_ok il H)))).
  pose proof (sum_on_le (o_gpus opt) gpu layer_weight (2 ^ 33) ltac:(lia)
    (fun il H => proj2 (proj2 (layer_weight_ok il H)))).
  pose proof (sum_on_nonneg (o_gpus opt) gpu (fun il => layer_kv il ctx)
    (fun il _ => proj1 (layer_kv_range il ctx Hctx))) as Hk0.
  pose proof (sum_on_le (o_gpus opt) gpu (fun il => layer_kv il ctx) (2 ^ 41) ltac:(lia)
    (fun il _ => proj2 (layer_kv_range il ctx Hctx))) as Hk1.
  pose proof (sum_on_nonneg (o_gpus opt) gpu layer_comp_state_bytes
    (fun il _ => proj1 (layer_comp_state_range il))).
  pose proof (sum_on_le (o_gpus opt) gpu layer_comp_state_bytes (2 ^ 20) ltac:(lia)
    (fun il _ => proj2 (layer_comp_state_range il))).
  destruct (globals_ok (o_gpus opt) gpu Hgpus Hg) as [_ ?].
  pose proof (mtp_range gpu). pose proof (gib_bytes_range _ _ Hsc). pose proof (gib_bytes_range _ _ Hrs).
  unfold SLOTS_MAX in Hs.
  assert (0 <= slots * sum_on (o_gpus opt) gpu (fun il => layer_kv il ctx) <= 2 ^ 16 * (43 * 2 ^ 41)).
  { split; [nia|]. apply Z.mul_le_mono_nonneg; lia. }
  unfold id. split; [|zlia].
  repeat (apply Forall_cons; split; [zlia|]). apply Forall_nil. done.
Qed.

Lemma plan_gpu_ok (gpu slots : Z) : 0 <= gpu < o_gpus opt -> 0 <= slots <= SLOTS_MAX ->
  let p := ref_plan opt gpu ctx slots sc rs in
  plan_gpu gpu opt ctx slots = Ok (p, ref_total p) /\
  plan_total_no_reserve p = sumZ id (plan_parts p).
Proof.
  intros Hg Hs p. destruct (ref_plan_range gpu slots Hg Hs) as [Hpos Hmax].
  unfold plan_gpu. rewrite plan_layers_ok by done.
  unfold comp_state_bytes_for_gpu. rewrite (sum_on_gpu_ok (o_gpus opt) gpu Hgpus _ layer_comp_state_bytes).
  2: { intros il _. split; [done|]. apply layer_comp_state_range. }
  2: { pose proof (sum_on_le (o_gpus opt) gpu layer_comp_state_bytes (2 ^ 20) ltac:(lia)
         (fun il _ => proj2 (layer_comp_state_range il))). zlia. }
  rewrite Hsc, relay_ok by done. rewrite (proj1 (globals_ok _ _ Hgpus Hg)), Hrs, mtp_ok by done.
  assert (reserve p = rs) as Hr by done.
  assert (0 + sumZ id (plan_parts p ++ [rs]) = ref_total p) as Hsum.
  { rewrite sumZ_app. unfold ref_total. rewrite Hr. change (sumZ id [rs]) with (rs + 0). lia. }
  assert (ref_total p = sumZ id (plan_parts p) + rs) as Ht by done.
  fold p in Hmax, Hpos. pose proof (gib_bytes_range _ _ Hrs) as Hr0.
  split.
  - change (GpuPlan _ _ _ _ _ _ _ _) with p. rewrite Hr.
    rewrite foldl_u64 by (done || lia). by rewrite Hsum.
  - unfold plan_total_no_reserve. apply Forall_app in Hpos as [Hpos _].
    rewrite foldl_u64; [lia|lia|done|zlia].
Qed.

(** ** Passes over the GPUs *)

Definition total_at (slots gpu : Z) : Z := ref_total (ref_plan opt gpu ctx slots sc rs).

Lemma total_at_mono (s1 s2 gpu : Z) : 0 <= s1 <= s2 -> total_at s1 gpu <= total_at s2 gpu.
Proof.
  intros Hs. unfold total_at, ref_total, ref_plan, plan_parts.
  cbn [weights kv comp_state scratch relay globals mtp reserve sumZ foldr]. unfold id.
  pose proof (sum_on_nonneg (o_gpus opt) gpu (fun il => layer_kv il ctx)
    (fun il _ => proj1 (layer_kv_range il ctx Hctx))). nia.
Qed.

Lemma total_at_nonneg (slots gpu : Z) : 0 <= gpu < o_gpus opt -> 0 <= slots <= SLOTS_MAX -> 0 <= total_at slots gpu.
Proof.
  intros Hg Hs. destruct (ref_plan_range gpu slots Hg Hs) as [Hp _].
  apply Forall_app in Hp as [Hp Hr]. inversion_clear Hr. unfold total_at, ref_total.
  change (reserve (ref_plan opt gpu ctx slots sc rs)) with rs.
  pose proof (sumZ_nonneg id _ Hp). lia.
Qed.

Definition fits_at (slots : Z) : bool :=
  forallb (fun gpu => total_at slots gpu <=? device_total_bytes opt) (gpu_list (o_gpus opt)).

(** Largest total and first GPU that reaches it. *)
Definition worst_step (slots : Z) (wg : Z * Z) (gpu : Z) : Z * Z :=
  if fst wg <? total_at slots gpu then (total_at slots gpu, gpu) else wg.
Definition worst_at (slots : Z) : Z * Z := foldl (worst_step slots) (0, 0) (gpu_list (o_gpus opt)).

Lemma negb_ltb (a b : Z) : negb (a <? b) = (b <=? a).
Proof. destruct (Z.ltb_spec a b), (Z.leb_spec b a); simpl; lia. Qed.

Lemma compute_plan_worst_ok (slots : Z) : 0 <= slots <= SLOTS_MAX ->
  compute_plan_worst opt ctx slots = Ok (worst_at slots, fits_at slots).
Proof.
  intros Hs. unfold compute_plan_worst, worst_at, fits_at.
  assert (forall l w g ok, (forall x, x ∈ l -> 0 <= x < o_gpus opt) ->
    rfold (fun '(worst, gpu_at_worst, ok) gpu =>
      let* (_, total) := plan_gpu gpu opt ctx slots in
      let ok := ok && negb (device_total_bytes opt <? total) in
      Ok (if worst <? total then (total, gpu, ok) else (worst, gpu_at_worst, ok))) (w, g, ok) l =
    Ok (foldl (worst_step slots) (w, g) l,
        ok && forallb (fun gpu => total_at slots gpu <=? device_total_bytes opt) l)) as Hgo.
  { induction l as [|x l IH]; intros w g ok Hl; simpl; [by rewrite andb_true_r|].
    rewrite (proj1 (plan_gpu_ok x slots ltac:(apply Hl; by left) Hs)).
    change (ref_total _) with (total_at slots x). rewrite negb_ltb.
    assert (forall y, y ∈ l -> 0 <= y < o_gpus opt) as Hl' by (intros; apply Hl; by right).
    unfold worst_step at 2. cbn [fst]. rewrite andb_assoc.
    destruct (w <? total_at slots x); by rewrite IH. }
  rewrite Hgo by (intros x; by apply gpu_list_elem). done.
Qed.

Lemma worst_for_slots_ok (slots : Z) : 0 <= slots <= SLOTS_MAX ->
  worst_for_slots opt ctx slots = Ok (fst (worst_at slots), fits_at slots).
Proof.
  intros Hs. unfold worst_for_slots, worst_at, fits_at.
  assert (forall l w g ok, (forall x, x ∈ l -> 0 <= x < o_gpus opt) ->
    rfold (fun '(worst, ok) gpu =>
      let* (_, total) := plan_gpu gpu opt ctx slots in
      Ok (if worst <? total then total else worst, ok && negb (device_total_bytes opt <? total))) (w, ok) l =
    Ok (fst (foldl (worst_step slots) (w, g) l),
        ok && forallb (fun gpu => total_at slots gpu <=? device_total_bytes opt) l)) as Hgo.
  { induction l as [|x l IH]; intros w g ok Hl; simpl; [by rewrite andb_true_r|].
    rewrite (proj1 (plan_gpu_ok x slots ltac:(apply Hl; by left) Hs)).
    change (ref_total _) with (total_at slots x). rewrite negb_ltb.
    assert (forall y, y ∈ l -> 0 <= y < o_gpus opt) as Hl' by (intros; apply Hl; by right).
    unfold worst_step at 2. cbn [fst]. rewrite andb_assoc.
    destruct (w <? total_at slots x); by apply IH. }
  rewrite (Hgo _ _ 0) by (intros x; by apply gpu_list_elem). done.
Qed.

Lemma fits_at_true (slots : Z) :
  fits_at slots = true <-> forall gpu, 0 <= gpu < o_gpus opt -> total_at slots gpu <= device_total_bytes opt.
Proof.
  unfold fits_at. rewrite forallb_forall. split; intros H gpu Hg.
  - apply Z.leb_le, H, list_elem_of_In. by apply gpu_list_elem.
  - apply Z.leb_le, H. apply gpu_list_elem. by apply list_elem_of_In.
Qed.

Lemma fits_at_mono (s1 s2 : Z) : 0 <= s1 <= s2 -> fits_at s2 = true -> fits_at s1 = true.
Proof.
  intros Hs. rewrite !fits_at_true. intros H gpu Hg. specialize (H gpu Hg).
  pose proof (total_at_mono s1 s2 gpu Hs). lia.
Qed.

(** ** Admission *)

Lemma admit_loop_ok (n : nat) (slots worst : Z) :
  1 <= slots -> slots - 1 + Z.of_nat n <= SLOTS_MAX ->
  (forall s, 1 <= s < slots -> fits_at s = true) ->
  worst = (if slots =? 1 then 0 else fst (worst_at (slots - 1))) ->
  exists a, admit_loop opt ctx n slots (slots - 1) worst =
      Ok (a, if a =? 0 then 0 else fst (worst_at a)) /\
    slots - 1 <= a <= slots - 1 + Z.of_nat n /\
    forall s, 1 <= s <= slots - 1 + Z.of_nat n -> fits_at s = (s <=? a).
Proof.
  revert slots worst. induction n as [|n IH]; intros slots worst Hs Hmax Hbelow Hw; cbn [admit_loop].
  - exists (slots - 1). split; [|split; [lia|]].
    + rewrite Hw. do 2 f_equal. destruct (Z.eqb_spec slots 1), (Z.eqb_spec (slots - 1) 0); try done; lia.
    + intros s Hr. rewrite Hbelow by lia. symmetry. apply Z.leb_le. lia.
  - rewrite worst_for_slots_ok by lia. destruct (fits_at slots) eqn:E; cbn [negb].
    + destruct (IH (slots + 1) (fst (worst_at slots))) as (a & Ha & Hra & Hfit'); [lia|lia|..].
      * intros s Hr. destruct (Z.eq_dec s slots) as [-> |]; [done|]. apply Hbelow. lia.
      * destruct (Z.eqb_spec (slots + 1) 1); [lia|]. by replace (slots + 1 - 1) with slots by lia.
      * replace (slots + 1 - 1) with slots in Ha by lia. exists a.
        split; [done|]. split; [lia|]. intros s Hr. apply Hfit'. lia.
    + exists (slots - 1). split; [|split; [lia|]].
      * rewrite Hw. do 2 f_equal. destruct (Z.eqb_spec slots 1), (Z.eqb_spec (slots - 1) 0); try done; lia.
      * intros s Hr. destruct (Z.leb_spec s (slots - 1)).
        -- apply Hbelow. lia.
        -- apply not_true_iff_false. intros Hf. pose proof (fits_at_mono slots s ltac:(lia) Hf). congruence.
Qed.

Lemma admitted_ok : exists a,
  admitted_slots_for_ctx opt ctx = Ok (a, if a =? 0 then 0 else fst (worst_at a)) /\
  0 <= a <= 256 /\ forall s, 1 <= s <= 256 -> fits_at s = (s <=? a).
Proof.
  destruct (admit_loop_ok 256 1 0) as (a & Ha & Hr & Hf); [lia|done|intros; lia|done|].
  exists a. split; [exact Ha|]. split; [lia|]. intros s Hs. apply Hf. lia.
Qed.
End Plan.

Lemma sumZ_ext {A} (f g : A -> Z) (l : list A) :
  (forall a, a ∈ l -> f a = g a) -> sumZ f l = sumZ g l.
Proof.
  induction l as [|a l IH]; intros H; [done|]. rewrite !sumZ_cons, (H a) by (by left).
  f_equal. apply IH. intros; apply H; by right.
Qed.

Lemma sumZ_plus {A} (f g : A -> Z) (l : list A) : sumZ (fun a => f a + g a) l = sumZ f l + sumZ g l.
Proof. induction l as [|a l IH]; [done|]. rewrite !sumZ_cons. lia. Qed.

Lemma sumZ_scale {A} (k : Z) (f : A -> Z) (l : list A) : sumZ (fun a => k * f a) l = k * sumZ f l.
Proof. induction l as [|a l IH]; [cbn; lia|]. rewrite !sumZ_cons. lia. Qed.

Lemma ok_is_ok {A E} (r : result A E) (a : A) : r = Ok a -> is_ok r = true.
Proof. by intros ->. Qed.

Lemma mapM_res_total {A C E} (f : A -> result C E) (l : list A) :
  (forall a, a ∈ l -> exists c, f a = Ok c) -> exists cs, mapM_res f l = Ok cs.
Proof.
  induction l as [|a l IH]; intros H; simpl; [eauto|].
  destruct (H a) as [c ->]; [by left|]. destruct IH as [cs ->]; [intros; apply H; by right|]. eauto.
Qed.

(** The planner's class of a layer is the runtime's. *)
Lemma layer_ratio_class (il : Z) : 0 <= il < 43 ->
  layer_ratio il = match ds4_layer_class_for_layer il with
                   | DS4_V100_LAYER_SWA_ONLY => 0
                   | DS4_V100_LAYER_RATIO_4 => 4
                   | DS4_V100_LAYER_RATIO_128 => 128
                   end.
Proof.
  intros Hil. apply Z.eqb_eq, (layers_forall (fun il => layer_ratio il =?
    match ds4_layer_class_for_layer il with
    | DS4_V100_LAYER_SWA_ONLY => 0 | DS4_V100_LAYER_RATIO_4 => 4 | DS4_V100_LAYER_RATIO_128 => 128 end));
    [reflexivity|done].
Qed.

Lemma on_gpu_stage (gpu il : Z) : 0 <= il < 43 -> on_gpu 8 gpu il = (ds4_stage_for_layer il =? gpu).
Proof.
  intros Hil. unfold on_gpu.
  pose proof (layers_forall (fun il =>
    match layer_device il 8 with Ok d => d =? ds4_stage_for_layer il | _ => false end) eq_refl il Hil) as H.
  cbv beta in H. destruct (layer_device il 8); [|done]. apply Z.eqb_eq in H. by subst.
Qed.

Lemma sat_mul_exact (a b : Z) : 0 <= a -> 0 <= b -> a * b <= UINT64_MAX -> a <= UINT64_MAX -> b <= UINT64_MAX ->
  sat_mul_u64 a b = a * b.
Proof. intros. rewrite sat_mul_min by (split; lia). lia. Qed.

Lemma sat_add_exact (a b : Z) : 0 <= a -> 0 <= b -> a + b <= UINT64_MAX -> sat_add_u64 a b = a + b.
Proof. intros. rewrite sat_add_min by (split; lia). lia. Qed.

(** Replace the saturating operations, innermost first, by the exact ones. *)
Ltac unsaturate :=
  repeat match goal with
  | |- context [sat_mul_u64 ?a ?b] =>
      lazymatch a with
      | context [sat_mul_u64 _ _] => fail
      | _ => rewrite (sat_mul_exact a b) by zlia
      end
  | |- context [sat_add_u64 ?a ?b] =>
      lazymatch constr:((a, b)) with
      | context [sat_add_u64 _ _] => fail
      | context [sat_mul_u64 _ _] => fail
      | _ => rewrite (sat_add_exact a b) by zlia
      end
  end.

(** The runtime's budget of a layer, without saturation. *)
Lemma kv_budget_exact (il ctx slots : Z) :
  0 <= il < 43 -> 1 <= ctx <= CTX_MAX -> 1 <= slots <= SLOTS_MAX ->
  total_bytes (ds4_kv_budget_for_layer il ctx slots) = slots * layer_kv il ctx + layer_comp_state_bytes il.
Proof.
  unfold CTX_MAX, SLOTS_MAX. intros Hil Hc Hs. unfold ds4_kv_budget_for_layer.
  change DS4_V100_N_LAYERS with 43.
  rewrite (proj2 (Z.ltb_ge il 0)), (proj2 (Z.leb_gt 43 il)) by lia.
  rewrite (proj2 (Z.eqb_neq ctx 0)), (proj2 (Z.eqb_neq slots 0)) by lia. cbn [orb].
  unfold layer_kv, layer_comp_state_bytes. rewrite layer_ratio_class by done.
  pose proof (div_range ctx 4 ltac:(lia) ltac:(lia)) as [H4 H4'].
  pose proof (div_range ctx 128 ltac:(lia) ltac:(lia)) as [H128 H128'].
  change DS4_V100_SWA_ROWS with 128. change DS4_V100_HEAD_DIM with 512. change DS4_V100_INDEXER_HEAD_DIM with 128.
  change elem_bytes with 2. change sizeof_float with 4.
  assert (0 <= ctx / 4 * slots <= 2 ^ 30 * 2 ^ 16) by (split; [nia|apply Z.mul_le_mono_nonneg; lia]).
  assert (0 <= ctx / 128 * slots <= 2 ^ 30 * 2 ^ 16) by (split; [nia|apply Z.mul_le_mono_nonneg; lia]).
  destruct (ds4_layer_class_for_layer il);
    cbn -[Z.div Z.mul Z.add Z.pow sat_mul_u64 sat_add_u64 DS4_N_HEAD_DIM DS4_N_INDEXER_HEAD_DIM];
    unsaturate; change DS4_N_HEAD_DIM with 512; change DS4_N_INDEXER_HEAD_DIM with 128; lia.
Qed.

(** The options under which the planner's 64-bit sums are exact. *)
Record plannable (opt : options) (sc rs : Z) : Prop := {
  pl_gpus : 1 <= o_gpus opt <= 8;
  pl_scratch : gib_bytes (scratch_gib opt) = Ok sc;
  pl_reserve : gib_bytes (reserve_gib opt) = Ok rs;
  pl_sum : sc + rs <= 2 ^ 62
}.

Lemma tiers_range (t : Z) : t ∈ tiers -> 0 <= t <= CTX_MAX.
Proof.
  unfold tiers, CTX_MAX. rewrite !elem_of_cons, elem_of_nil. lia.
Qed.

Lemma target_slots_range (s : Z) : s ∈ target_slots -> 1 <= s <= 256.
Proof. unfold target_slots. rewrite !elem_of_cons, elem_of_nil. lia. Qed.

(** ** Theorems *)

(** C9 Whenever scratch and reserve convert to byte counts of at most 2^62
    together, the context is at most 2^32 tokens and the slots at most 2^16,
    [plan_gpu] neither dies nor wraps: every part of the plan is the exact sum
    over the layers [layer_device] puts on the GPU (KV once per slot, weights
    and compression state once), and the total it returns is the sum of the
    parts without and with the reserve. *)
Theorem plan_gpu_exact (opt : options) (gpu ctx slots sc rs : Z) :
  plannable opt sc rs -> 0 <= ctx <= CTX_MAX -> 0 <= slots <= SLOTS_MAX -> 0 <= gpu < o_gpus opt ->
  exists p total,
    plan_gpu gpu opt ctx slots = Ok (p, total) /\
    weights p = sum_on (o_gpus opt) gpu layer_weight /\
    kv p = slots * sum_on (o_gpus opt) gpu (fun il => layer_kv il ctx) /\
    comp_state p = sum_on (o_gpus opt) gpu layer_comp_state_bytes /\
    scratch p = sc /\ relay p = 2 * slots * (4 * 4096) * 2 /\ reserve p = rs /\
    globals p = globals_on (o_gpus opt) gpu /\ mtp p = mtp_on opt gpu /\
    plan_total_no_reserve p =
      weights p + kv p + comp_state p + scratch p + relay p + globals p + mtp p /\
    total = plan_total_no_reserve p + reserve p /\ is_u64 total.
Proof.
  intros [Hg Hsc Hrs Hsum] Hc Hs Hgpu.
  destruct (plan_gpu_ok opt ctx sc rs Hg Hc Hsc Hrs Hsum gpu slots Hgpu Hs) as [Hp Hn].
  destruct (ref_plan_range opt ctx sc rs Hg Hc Hsc Hrs Hsum gpu slots Hgpu Hs) as [_ Hmax].
  pose proof (total_at_nonneg opt ctx sc rs Hg Hc Hsc Hrs Hsum slots gpu Hgpu Hs) as Hpos.
  eexists _, _. split; [exact Hp|]. do 3 (split; [done|]). split; [done|].
  split; [cbn [relay ref_plan]; lia|]. do 3 (split; [done|]). rewrite Hn. unfold total_at in Hpos.
  unfold is_u64. rewrite <- (Z.add_0_r (mtp _)). split; [|split; [done|split; done]].
  unfold plan_parts, id. cbn [sumZ foldr]. lia.
Qed.

(** [admitted_slots_for_ctx] returns the largest slot count up to 256 whose
    plan fits the device on every GPU: a slot count between 1 and 256 is
    within the answer exactly when [compute_plan_worst] says it fits, and the
    reported worst total is the one of the admitted count (0 when none is). *)
Theorem admitted_slots_for_ctx_spec (opt : options) (ctx sc rs : Z) :
  plannable opt sc rs -> 0 <= ctx <= CTX_MAX ->
  exists a worst,
    admitted_slots_for_ctx opt ctx = Ok (a, worst) /\ 0 <= a <= DS4_PLAN_MAX_SLOTS /\
    (a = 0 -> worst = 0) /\
    (0 < a -> exists g, compute_plan_worst opt ctx a = Ok (worst, g, true)) /\
    forall s, 1 <= s <= DS4_PLAN_MAX_SLOTS ->
      exists w g, compute_plan_worst opt ctx s = Ok (w, g, s <=? a) /\
        (s <= a <-> forall gpu, 0 <= gpu < o_gpus opt ->
           exists p total, plan_gpu gpu opt ctx s = Ok (p, total) /\ total <= device_total_bytes opt).
Proof.
  intros [Hg Hsc Hrs Hsum] Hc. unfold DS4_PLAN_MAX_SLOTS.
  destruct (admitted_ok opt ctx sc rs Hg Hc Hsc Hrs Hsum) as (a & Ha & Hr & Hf).
  assert (forall s, 1 <= s <= 256 -> compute_plan_worst opt ctx s = Ok (worst_at opt ctx sc rs s, s <=? a)) as Hw.
  { intros s Hs. rewrite (compute_plan_worst_ok opt ctx sc rs) by (done || (unfold SLOTS_MAX; lia)).
    by rewrite Hf. }
  eexists a, _. split; [exact Ha|]. split; [done|]. split; [by intros ->|]. split.
  - intros Hpos. rewrite Hw by lia. destruct (Z.eqb_spec a 0); [lia|].
    destruct (worst_at opt ctx sc rs a) as [w g]. exists g. by rewrite Z.leb_refl.
  - intros s Hs. rewrite Hw by done. destruct (worst_at opt ctx sc rs s) as [w g]. exists w, g.
    split; [done|]. rewrite <- Z.leb_le, <- Hf, fits_at_true by done.
    assert (0 <= s <= SLOTS_MAX) as Hs' by (unfold SLOTS_MAX; lia).
    split; intros H gpu Hgpu; specialize (H gpu Hgpu);
      destruct (plan_gpu_ok opt ctx sc rs Hg Hc Hsc Hrs Hsum gpu s Hgpu Hs') as [Hp _].
    + eexists _, _. split; [exact Hp|done].
    + destruct H as (p & total & Hp' & Ht). rewrite Hp in Hp'. by simplify_eq.
Qed.

(** C In the JSON report's target matrix the two verdicts on a cell never
    disagree: "admitted_by_tier", derived from the admission loop of the tier,
    equals "fits", derived from a plan of that very slot count; and every cell
    shows the result of [compute_plan_worst] at its context and slots. *)
Theorem target_matrix_consistent (opt : options) (sc rs : Z) :
  plannable opt sc rs ->
  exists cells, target_matrix opt = Ok cells /\
    map (fun c => (mc_ctx c, mc_slots c)) cells =
      concat (map (fun t => map (fun s => (t, s)) target_slots) tiers) /\
    forall c, c ∈ cells -> mc_admitted c = mc_fits c /\
      compute_plan_worst opt (mc_ctx c) (mc_slots c) = Ok (mc_worst c, mc_gpu c, mc_fits c).
Proof.
  intros [Hg Hsc Hrs Hsum].
  set (cell := fun t s =>
    MatrixCell t s (fits_at opt t sc rs s) (fits_at opt t sc rs s)
      (snd (worst_at opt t sc rs s)) (fst (worst_at opt t sc rs s))).
  assert (forall t s, t ∈ tiers -> s ∈ target_slots ->
    compute_plan_worst opt t s = Ok (worst_at opt t sc rs s, fits_at opt t sc rs s)) as Hw.
  { intros t s Ht%tiers_range Hs%target_slots_range.
    apply compute_plan_worst_ok; try done. unfold SLOTS_MAX. lia. }
  assert (forall t, t ∈ tiers -> matrix_row opt t = Ok (map (cell t) target_slots)) as Hrow.
  { intros t Ht. unfold matrix_row. pose proof (tiers_range t Ht) as Hc.
    destruct (admitted_ok opt t sc rs Hg Hc Hsc Hrs Hsum) as (a & -> & _ & Hf).
    apply mapM_res_ok. intros s Hs. rewrite Hw by done.
    pose proof (target_slots_range s Hs). rewrite <- Hf by lia.
    unfold cell. by destruct (worst_at opt t sc rs s). }
  unfold target_matrix. rewrite (mapM_res_ok _ _ _ Hrow). eexists. split; [done|]. split.
  - reflexivity.
  - intros c Hc. apply list_elem_of_In, in_concat in Hc as (row & Hrow' & Hc).
    apply in_map_iff in Hrow' as (t & <- & Ht%list_elem_of_In).
    apply in_map_iff in Hc as (s & <- & Hs%list_elem_of_In). cbn [cell mc_admitted mc_fits mc_ctx mc_slots mc_worst mc_gpu].
    split; [done|]. rewrite Hw by done. by destruct (worst_at opt t sc rs s).
Qed.

(** C10 Planner and runtime agree on the KV cache: with eight GPUs the KV and
    compression-state bytes planned for a GPU are the sum of the budgets
    [ds4_kv_budget_for_layer] gives the layers of that stage, and the planned
    relay is the stage's F16 relay. *)
Theorem planner_matches_runtime_kv (opt : options) (gpu ctx slots sc rs : Z) :
  plannable opt sc rs -> o_gpus opt = DS4_V100_EXPECTED_GPUS ->
  1 <= ctx <= CTX_MAX -> 1 <= slots <= SLOTS_MAX -> 0 <= gpu < o_gpus opt ->
  exists p total, plan_gpu gpu opt ctx slots = Ok (p, total) /\
    kv p + comp_state p =
      sumZ (fun il => if ds4_stage_for_layer il =? gpu
                      then total_bytes (ds4_kv_budget_for_layer il ctx slots) else 0) layer_ids /\
    relay p = DS4_V100_RELAY_BUFFERS * slots * DS4_V100_HC_ROWS * DS4_V100_HC_COLS * 2.
Proof.
  intros [Hg Hsc Hrs Hsum] H8 Hc Hs Hgpu.
  assert (0 <= ctx <= CTX_MAX) as Hc' by (unfold CTX_MAX in *; lia).
  assert (0 <= slots <= SLOTS_MAX) as Hs' by (unfold SLOTS_MAX in *; lia).
  destruct (plan_gpu_ok opt ctx sc rs Hg Hc' Hsc Hrs Hsum gpu slots Hgpu Hs') as [Hp _].
  eexists _, _. split; [exact Hp|]. cbn [kv comp_state relay ref_plan].
  split; [|unfold DS4_V100_RELAY_BUFFERS, DS4_V100_HC_ROWS, DS4_V100_HC_COLS; lia].
  change layer_ids with layer_list. unfold sum_on. rewrite <- sumZ_scale, <- sumZ_plus.
  apply sumZ_ext. intros il Hil%layer_list_elem. rewrite H8.
  change DS4_V100_EXPECTED_GPUS with 8. rewrite on_gpu_stage by done.
  destruct (ds4_stage_for_layer il =? gpu); [by rewrite kv_budget_exact|lia].
Qed.

(** ** The reports *)

Lemma int8_weight_ok (il : Z) : 0 <= il < 43 ->
  exists w, layer_weight_bytes il true = Ok w /\ 0 <= w <= 2 ^ 34.
Proof.
  intros Hil.
  pose proof (layers_forall
    (fun il => match layer_weight_bytes il true with Ok w => (0 <=? w) && (w <=? 2 ^ 34) | _ => false end)
    ltac:(vm_compute; reflexivity) il Hil) as H. cbv beta in H.
  destruct (layer_weight_bytes il true) as [w|]; cbv beta iota in H; [|done].
  apply andb_true_iff in H as [H1%Z.leb_le H2%Z.leb_le]. eauto.
Qed.

Definition int8_weight (il : Z) : Z :=
  match layer_weight_bytes il true with Ok w => w | Error _ => 0 end.

Lemma layer_map_gpu_total (opt : options) (gpu : Z) : 1 <= o_gpus opt <= 8 ->
  exists r, layer_map_gpu opt gpu = Ok r.
Proof.
  intros Hg. unfold layer_map_gpu.
  assert (forall l st, (forall x, x ∈ l -> 0 <= x < 43) ->
    exists r, rfold (fun '(first, last, (swa, r4, r128), w) il =>
      d <- layer_device il (o_gpus opt) ;;
      if negb (d =? gpu) then Ok (first, last, (swa, r4, r128), w)
      else
        let first := if first <? 0 then il else first in
        let ratio := layer_ratio il in
        let mix := if ratio =? 0 then (swa + 1, r4, r128)
                   else if ratio =? 4 then (swa, r4 + 1, r128) else (swa, r4, r128 + 1) in
        lw <- layer_weight_bytes il false ;;
        Ok (first, il, mix, u64 (w + lw))) st l = Ok r) as Hgo.
  { induction l as [|il l IH]; intros st Hl; cbn [rfold]; [eauto|].
    destruct st as [[[first last] [[swa r4] r128]] w].
    assert (0 <= il < 43) as Hil by (apply Hl; by left).
    destruct (layer_device_ok (o_gpus opt) il Hg Hil) as (d & -> & _).
    rewrite (proj1 (layer_weight_ok il Hil)).
    destruct (negb (d =? gpu)); apply IH; intros; apply Hl; by right. }
  apply Hgo. intros x. by apply layer_list_elem.
Qed.

Section Reports.
Context (opt : options) (sc rs : Z) (Hpl : plannable opt sc rs).
Context (Hctx : 0 <= o_ctx opt <= CTX_MAX) (Hslots : 0 <= o_slots opt <= SLOTS_MAX).

Lemma plan_gpu_total (gpu ctx slots : Z) : gpu ∈ gpu_list (o_gpus opt) ->
  0 <= ctx <= CTX_MAX -> 0 <= slots <= SLOTS_MAX ->
  exists p total, plan_gpu gpu opt ctx slots = Ok (p, total).
Proof.
  destruct Hpl as [Hg Hsc Hrs Hsum]. intros Hgpu%gpu_list_elem Hc Hs.
  destruct (plan_gpu_ok opt ctx sc rs Hg Hc Hsc Hrs Hsum gpu slots Hgpu Hs) as [-> _]. eauto.
Qed.

Lemma admitted_total (t : Z) : t ∈ tiers -> exists a w, admitted_slots_for_ctx opt t = Ok (a, w).
Proof.
  destruct Hpl as [Hg Hsc Hrs Hsum]. intros Ht%tiers_range.
  destruct (admitted_ok opt t sc rs Hg Ht Hsc Hrs Hsum) as (a & -> & _). eauto.
Qed.

Lemma worst_total (t s : Z) : 0 <= t <= CTX_MAX -> 0 <= s <= SLOTS_MAX ->
  exists w, compute_plan_worst opt t s = Ok w.
Proof.
  destruct Hpl as [Hg Hsc Hrs Hsum]. intros Ht Hs.
  rewrite (compute_plan_worst_ok opt t sc rs) by done. eauto.
Qed.

Lemma matrix_total : exists cells, target_matrix opt = Ok cells.
Proof.
  unfold target_matrix. destruct (mapM_res_total (matrix_row opt) tiers) as [rows ->]; [|eauto].
  intros t Ht. unfold matrix_row. destruct (admitted_total t Ht) as (a & w & ->).
  apply mapM_res_total. intros s Hs%target_slots_range.
  destruct (worst_total t s) as [[[w' g] f] ->]; [by apply tiers_range|unfold SLOTS_MAX; lia|eauto].
Qed.

Lemma json_total : exists text, print_planner_json opt = Ok text.
Proof.
  unfold print_planner_json.
  destruct (worst_total (o_ctx opt) (o_slots opt) Hctx Hslots) as [[[w g] f] ->].
  destruct (mapM_res_total (json_gpu opt) (gpu_list (o_gpus opt))) as [gpus ->].
  { intros gpu Hgpu. unfold json_gpu.
    destruct (plan_gpu_total gpu _ _ Hgpu Hctx Hslots) as (p & total & ->). eauto. }
  destruct (mapM_res_total (json_tier opt) tiers) as [rows ->].
  { intros t Ht. unfold json_tier. destruct (admitted_total t Ht) as (a & w' & ->). eauto. }
  destruct matrix_total as [cells ->]. eauto.
Qed.

Lemma int8_total (gpu : Z) : gpu ∈ gpu_list (o_gpus opt) -> exists e, int8_expanded opt gpu = Ok e.
Proof.
  intros Hgpu. unfold int8_expanded.
  rewrite (sum_on_gpu_ok (o_gpus opt) gpu (pl_gpus _ _ _ Hpl) _ int8_weight).
  - destruct (plan_gpu_total gpu _ _ Hgpu Hctx Hslots) as (p & total & ->). eauto.
  - intros il Hil. unfold int8_weight. destruct (int8_weight_ok il Hil) as (w & -> & ?). split; [done|lia].
  - pose proof (sum_on_le (o_gpus opt) gpu int8_weight (2 ^ 34) ltac:(lia)) as H.
    enough (sum_on (o_gpus opt) gpu int8_weight <= 43 * 2 ^ 34) by zlia. apply H.
    intros il Hil. unfold int8_weight. destruct (int8_weight_ok il Hil) as (w & -> & ?). lia.
Qed.

Lemma layer_map_total : exists text, print_layer_map opt = Ok text.
Proof.
  unfold print_layer_map.
  destruct (mapM_res_total (layer_map_row opt) (gpu_list (o_gpus opt))) as [mrows ->]; [|eauto].
  intros gpu _. unfold layer_map_row.
  destruct (layer_map_gpu_total opt gpu (pl_gpus _ _ _ Hpl)) as [[[[a b] [[c d] e]] w] ->]. eauto.
Qed.

Lemma plan_rows_total : exists rows, mapM_res (plan_row opt) (gpu_list (o_gpus opt)) = Ok rows.
Proof.
  apply mapM_res_total. intros gpu Hgpu. unfold plan_row.
  destruct (plan_gpu_total gpu _ _ Hgpu Hctx Hslots) as (p & total & ->). eauto.
Qed.

Lemma tier_rows_total : exists rows, mapM_res (tier_row opt) tiers = Ok rows.
Proof.
  apply mapM_res_total. intros t Ht. unfold tier_row.
  destruct (admitted_total t Ht) as (a & w' & ->). eauto.
Qed.

Lemma text_total : exists text, run_planner opt = Ok text.
Proof.
  destruct layer_map_total as [lm Hlm]. destruct plan_rows_total as [rows Hrows].
  destruct tier_rows_total as [trows Htr].
  destruct (mapM_res_total (int8_expanded opt) (gpu_list (o_gpus opt)) int8_total) as [ex Hex].
  unfold run_planner. rewrite Hlm, Hrows. destruct (worst_of opt (map snd rows)) as [w f].
  rewrite Htr, Hex. destruct (worst_of opt ex) as [w' f']. eexists. reflexivity.
Qed.
End Reports.

(** C11 For options that pass [main]'s checks with a context of at most 2^32
    tokens, at most 2^16 slots and scratch and reserve that convert to at most
    2^62 bytes together, both reports are produced: no byte count of the
    planner overflows, no layer's device divides by zero, and no report dies
    half written. *)
Theorem planner_reports_total (opt opt' : options) (sc rs : Z) :
  check_options opt = Ok opt' -> is_u32 (o_gpus opt) ->
  0 <= o_ctx opt <= CTX_MAX -> 0 <= o_slots opt <= SLOTS_MAX ->
  gib_bytes (scratch_gib opt) = Ok sc -> gib_bytes (reserve_gib opt) = Ok rs -> sc + rs <= 2 ^ 62 ->
  opt' = opt /\ (exists text, print_planner_json opt = Ok text) /\ (exists text, run_planner opt = Ok text).
Proof.
  intros Hck Hu Hc Hs Hsc Hrs Hsum. unfold check_options, die in Hck. inv_ok Hck. bool_hyps.
  assert (plannable opt' sc rs) as Hpl by (split; try done; zlia).
  split; [done|]. split; [by eapply json_total|by eapply text_total].
Qed.

(** ** Witnesses *)

Lemma default_plannable : plannable default_options (1 * GiB) (4 * GiB).
Proof. split; vm_compute; first [reflexivity | discriminate | split; discriminate]. Qed.

Lemma plan_gpu_exact_witness : exists p total,
  plan_gpu 7 default_options 262144 4 = Ok (p, total) /\
  kv p = 4 * sum_on 8 7 (fun il => layer_kv il 262144) /\ is_u64 total.
Proof.
  destruct (plan_gpu_exact default_options 7 262144 4 _ _ default_plannable) as
    (p & total & Hp & _ & Hk & _ & _ & _ & _ & _ & _ & _ & _ & Hu);
    [vm_compute; first [reflexivity | split; first [discriminate | reflexivity]]..|].
  exists p, total. split; [exact Hp|]. split; [exact Hk|exact Hu].
Defined.

Lemma admitted_slots_for_ctx_spec_witness : exists a worst,
  admitted_slots_for_ctx default_options 1048576 = Ok (a, worst) /\ 0 <= a <= 256.
Proof.
  destruct (admitted_slots_for_ctx_spec default_options 1048576 _ _ default_plannable) as
    (a & w & Ha & Hr & _); [vm_compute; split; discriminate|].
  exists a, w. split; [exact Ha|exact Hr].
Defined.

Lemma target_matrix_consistent_witness : exists cells,
  target_matrix default_options = Ok cells /\ forall c, c ∈ cells -> mc_admitted c = mc_fits c.
Proof.
  destruct (target_matrix_consistent default_options _ _ default_plannable) as (cells & Hc & _ & H).
  exists cells. split; [exact Hc|]. intros c Hin. exact (proj1 (H c Hin)).
Defined.

Lemma planner_matches_runtime_kv_witness : exists p total,
  plan_gpu 3 default_options 262144 4 = Ok (p, total) /\
  relay p = DS4_V100_RELAY_BUFFERS * 4 * DS4_V100_HC_ROWS * DS4_V100_HC_COLS * 2.
Proof.
  destruct (planner_matches_runtime_kv default_options 3 262144 4 _ _ default_plannable eq_refl) as
    (p & total & Hp & _ & Hr); [vm_compute; first [reflexivity | split; first [discriminate | reflexivity]]..|].
  exists p, total. split; [exact Hp|exact Hr].
Defined.

Lemma planner_reports_total_witness :
  (exists text, print_planner_json default_options = Ok text) /\
  (exists text, run_planner default_options = Ok text).
Proof.
  refine (proj2 (planner_reports_total default_options default_options (1 * GiB) (4 * GiB)
    _ _ _ _ _ _ _)); vm_compute; first [reflexivity | discriminate | split; discriminate].
Defined.

(** ** What the checks of [main] let through *)

(** [--gpus] is cut to 32 bits before it is checked. *)
Example gpus_truncated :
  match parse_args [B "--gpus"; B "4294967297"] default_options with
  | Ok (Some o) => check_options o = Ok o /\ o_gpus o = 1
  | _ => False
  end.
Proof. vm_compute. split; reflexivity. Qed.

(** A reserve of NaN passes the sign check and reaches the conversion to
    [uint64_t], which C leaves undefined. *)
Example reserve_nan :
  match parse_args [B "--reserve-gib"; B "nan"] default_options with
  | Ok (Some o) => check_options o = Ok o /\
      gib_bytes (reserve_gib o) = Error (Undefined "double out of the range of uint64_t")
  | _ => False
  end.
Proof. vm_compute. split; reflexivity. Qed.
