(* ===== verification/PlanGgufProps.v ===== *)
(** * Properties of the GGUF inventory

    Reading terminates on every file, an accepted inventory describes tensors
    inside the file, and a header written in the format is read back. *)
From S2P Require Import Prelude.
From S2P Require Import CNum.
From S2P Require Import LittleEndian.
From S2P Require Import CFloat.
From S2P Require Import TsvFile.
From S2P Require Import Planner.
From S2P Require Import PlanGguf.
From S2P Require Import PlannerProps.

(** ** Outcomes *)

(** A result, or the exit with status 1 that [die] and [die_errno] perform. *)
Definition clean {A} (x : pres A) : Prop :=
  match x with Ok _ => True | Error (Exit c _) => c = 1 | Error _ => False end.

Lemma clean_bind {A C} (x : pres A) (k : A -> pres C) :
  clean x -> (forall a, x = Ok a -> clean (k a)) -> clean (a <- x ;; k a).
Proof. destruct x as [a|e]; simpl; auto. Qed.

Lemma clean_die {A} (msg : bytes) : clean (die (A := A) msg).
Proof. reflexivity. Qed.
#[export] Hint Resolve clean_die : ds4.

Definition unread (r : reader) : nat := length (r_rest r).

(** ** The reader *)

Lemma read_exact_spec (r : reader) (n : Z) : 0 <= n ->
  match read_exact r n with
  | Ok (b, r') => Z.of_nat (length b) = n /\ r_rest r = b ++ r_rest r' /\ r_pos r' = u64 (r_pos r + n)
  | Error _ => clean (read_exact r n)
  end.
Proof.
  intros Hn. unfold read_exact. destruct (Z.ltb_spec (Z.of_nat (length (r_rest r))) n); [done|].
  cbn [r_rest r_pos]. rewrite take_drop, length_take. split; [lia|done].
Qed.

Lemma read_exact_ok (r : reader) (n : Z) (b : bytes) (r' : reader) : 0 <= n ->
  read_exact r n = Ok (b, r') -> (Z.of_nat (unread r') + n = Z.of_nat (unread r)) /\ Z.of_nat (length b) = n.
Proof.
  intros Hn E. pose proof (read_exact_spec r n Hn) as H. rewrite E in H. destruct H as (Hl & Hr & _).
  unfold unread. rewrite Hr, length_app. lia.
Qed.

Lemma read_exact_clean (r : reader) (n : Z) : clean (read_exact r n).
Proof. unfold read_exact. by case_match. Qed.
#[export] Hint Resolve read_exact_clean : ds4.

Lemma read_u32_ok (r : reader) (v : Z) (r' : reader) :
  read_u32 r = Ok (v, r') -> Z.of_nat (unread r') + 4 = Z.of_nat (unread r) /\ is_u32 v.
Proof.
  unfold read_u32. destruct (read_exact r 4) as [[b r1]|] eqn:E; [|done]. intros [= <- <-].
  apply read_exact_ok in E as [H1 H2]; [|done]. split; [done|].
  pose proof (le_value_range b). rewrite H2 in *. zlia.
Qed.

Lemma read_u64_ok (r : reader) (v : Z) (r' : reader) :
  read_u64 r = Ok (v, r') -> Z.of_nat (unread r') + 8 = Z.of_nat (unread r) /\ is_u64 v.
Proof.
  unfold read_u64. destruct (read_exact r 8) as [[b r1]|] eqn:E; [|done]. intros [= <- <-].
  apply read_exact_ok in E as [H1 H2]; [|done]. split; [done|].
  pose proof (le_value_range b). rewrite H2 in *. zlia.
Qed.

Lemma read_u32_clean (r : reader) : clean (read_u32 r).
Proof. unfold read_u32. pose proof (read_exact_clean r 4). by destruct (read_exact r 4) as [[]|]. Qed.

Lemma read_u64_clean (r : reader) : clean (read_u64 r).
Proof. unfold read_u64. pose proof (read_exact_clean r 8). by destruct (read_exact r 8) as [[]|]. Qed.
#[export] Hint Resolve read_u32_clean read_u64_clean : ds4.

Lemma checked_mul_clean (a b : Z) : clean (checked_mul a b).
Proof. unfold checked_mul. by case_match. Qed.
#[export] Hint Resolve checked_mul_clean : ds4.

(** Walk down a chain of calls, each clean by a hint, remembering results. *)
Ltac clean_step :=
  match goal with
  | |- clean (match ?x with Ok _ => _ | Error _ => _ end) =>
      let E := fresh "E" in
      assert (clean x) by eauto with ds4;
      destruct x as [?|?] eqn:E; [|assumption]
  | |- clean (let '(_, _) := ?p in _) => destruct p
  | |- clean (if ?b then _ else _) => destruct b eqn:?
  | |- clean (die _) => apply clean_die
  | |- clean (Ok _) => exact I
  end.
Ltac clean_chain := repeat clean_step; eauto with ds4.

Section Reading.
Context `{Allocator} (seek_max : Z).

Lemma read_string_clean (r : reader) : clean (read_string r).
Proof. unfold read_string. clean_chain. Qed.

Lemma read_string_ok (r : reader) (s : bytes) (r' : reader) :
  read_string r = Ok (s, r') -> (unread r' + 8 <= unread r)%nat.
Proof.
  unfold read_string. destruct (read_u64 r) as [[len r1]|] eqn:E; [|done].
  apply read_u64_ok in E as [E Hlen]. intros H'. repeat case_match; try done.
  apply read_exact_ok in H' as [? _]; destruct Hlen; lia.
Qed.

Lemma skip_bytes_clean (r : reader) (n : Z) : clean (skip_bytes seek_max r n).
Proof. unfold skip_bytes. clean_chain. Qed.

Lemma skip_bytes_ok (r : reader) (n : Z) (r' : reader) :
  skip_bytes seek_max r n = Ok r' -> (unread r' <= unread r)%nat.
Proof.
  unfold skip_bytes, unread. intros H'. repeat (case_match; [done|]). simplify_eq.
  cbn [r_rest]. case_match; [simpl; lia|rewrite length_drop; lia].
Qed.

(** A loop whose turns consume input ends within its fuel. *)
Lemma repeat_skip_spec (step : reader -> pres reader) :
  (forall r, clean (step r)) ->
  (forall r r', step r = Ok r' -> (unread r' < unread r)%nat) ->
  forall fuel len r, (unread r < fuel)%nat ->
  clean (repeat_skip fuel step len r) /\
  forall r', repeat_skip fuel step len r = Ok r' -> (unread r' <= unread r)%nat.
Proof.
  intros Hc Hdec. induction fuel as [|fuel IH]; intros len r Hf; [lia|]. cbn [repeat_skip].
  destruct (len <=? 0); [split; [exact I|intros ? [= ->]; lia]|].
  pose proof (Hc r) as Hr. destruct (step r) as [r1|] eqn:E; [|done].
  apply Hdec in E. destruct (IH (len - 1) r1) as [H1 H2]; [lia|]. split; [done|].
  intros r' Hr'. apply H2 in Hr'. lia.
Qed.

Lemma skip_value_spec (levels : nat) : forall r type,
  clean (skip_value seek_max levels r type) /\
  forall r', skip_value seek_max levels r type = Ok r' ->
    (unread r' <= unread r)%nat /\ (scalar_value_size type = 0 -> (unread r' < unread r)%nat).
Proof.
  induction levels as [|levels IH]; intros r type; cbn [skip_value]; [by split; [apply clean_die|]|].
  destruct (scalar_value_size type =? 0) eqn:Es; cbn [negb].
  2: { split; [apply skip_bytes_clean|]. intros r' Hr. apply skip_bytes_ok in Hr.
       split; [done|]. apply Z.eqb_neq in Es. lia. }
  destruct (type =? GGUF_VALUE_STRING).
  { pose proof (read_string_clean r). destruct (read_string r) as [[s r1]|] eqn:E; [|done].
    apply read_string_ok in E. split; [exact I|]. intros r' [= <-]. lia. }
  destruct (type =? GGUF_VALUE_ARRAY); [|by split; [apply clean_die|]].
  pose proof (read_u32_clean r). destruct (read_u32 r) as [[item r1]|] eqn:E1; [|done].
  apply read_u32_ok in E1 as [E1 _].
  pose proof (read_u64_clean r1). destruct (read_u64 r1) as [[len r2]|] eqn:E2; [|done].
  apply read_u64_ok in E2 as [E2 _].
  destruct (scalar_value_size item =? 0) eqn:Ei; cbn [negb].
  - destruct (repeat_skip_spec (fun r => skip_value seek_max levels r item)
      (fun r => proj1 (IH r item)) (fun r r' Hr => proj2 (proj2 (IH r item) r' Hr) (proj1 (Z.eqb_eq _ _) Ei))
      (S (length (r_rest r2))) len r2) as [Hc Hd]; [unfold unread; lia|].
    split; [done|]. intros r' Hr. apply Hd in Hr. lia.
  - destruct (UINT64_MAX / scalar_value_size item <? len); [by split; [apply clean_die|]|].
    split; [apply skip_bytes_clean|]. intros r' Hr. apply skip_bytes_ok in Hr. lia.
Qed.

Lemma skip_value_clean (levels : nat) (r : reader) (type : Z) : clean (skip_value seek_max levels r type).
Proof. apply skip_value_spec. Qed.
End Reading.
#[export] Hint Resolve read_string_clean skip_bytes_clean skip_value_clean : ds4.

Section Tables.
Context `{Allocator} (seek_max : Z).

Lemma read_kv_clean (align : Z) (r : reader) : clean (read_kv seek_max align r).
Proof. unfold read_kv. clean_chain. Qed.

Lemma read_kv_ok (align a : Z) (r r' : reader) : 0 < align <= UINT32_MAX ->
  read_kv seek_max align r = Ok (a, r') -> (unread r' < unread r)%nat /\ 0 < a <= UINT32_MAX.
Proof.
  intros Ha. unfold read_kv. destruct (read_string r) as [[key r1]|] eqn:E1; [|done].
  apply read_string_ok in E1. destruct (read_u32 r1) as [[type r2]|] eqn:E2; [|done].
  apply read_u32_ok in E2 as [E2 _]. destruct (str_eqb _ _ && _).
  - destruct (read_u32 r2) as [[v r3]|] eqn:E3; [|done]. apply read_u32_ok in E3 as [E3 Hv].
    intros [= <- <-]. split; [lia|]. destruct (Z.eqb_spec v 0); simpl; [done|]. zlia.
  - destruct (skip_value seek_max 9 r2 type) as [r3|] eqn:E3; [|done].
    apply skip_value_spec in E3 as [E3 _]. intros [= <- <-]. split; [lia|done].
Qed.

Lemma read_kvs_spec (fuel : nat) : forall n align r, (unread r < fuel)%nat -> 0 < align <= UINT32_MAX ->
  clean (read_kvs seek_max fuel n align r) /\
  forall a r', read_kvs seek_max fuel n align r = Ok (a, r') ->
    (unread r' <= unread r)%nat /\ 0 < a <= UINT32_MAX.
Proof.
  induction fuel as [|fuel IH]; intros n align r Hf Ha; [lia|]. cbn [read_kvs].
  destruct (n <=? 0); [split; [exact I|intros a r' [= <- <-]; split; [lia|done]]|].
  pose proof (read_kv_clean align r). destruct (read_kv seek_max align r) as [[a1 r1]|] eqn:E; [|done].
  apply read_kv_ok in E as [E Ha1]; [|done].
  destruct (IH (n - 1) a1 r1) as [Hc1 Hk1]; [lia|done|]. split; [done|].
  intros a r' Hr. apply Hk1 in Hr as [? ?]. split; [lia|done].
Qed.

(** The facts an entry of the table satisfies when it is read. *)
Definition tensor_read (t : tensor_desc) : Prop :=
  (1 <= length (t_dim t) <= 4)%nat /\ Forall is_u64 (t_dim t) /\
  elements t = foldr Z.mul 1 (t_dim t) /\ is_u64 (elements t) /\
  is_u32 (t_type t) /\ is_u64 (rel_offset t) /\
  t_bytes t = default 0 (type_nbytes (t_type t) (elements t)).

Lemma checked_mul_inv (a b c : Z) : 0 <= a -> 0 <= b -> checked_mul a b = Ok c -> c = a * b /\ a * b <= UINT64_MAX.
Proof.
  intros Ha Hb. unfold checked_mul. destruct (a =? 0) eqn:E; cbn [negb andb].
  - apply Z.eqb_eq in E as ->. intros [= <-]. vm_compute. split; [done|discriminate].
  - apply Z.eqb_neq in E. destruct (Z.ltb_spec (UINT64_MAX / a) b) as [H'|H']; [done|].
    assert (a * b <= UINT64_MAX). { pose proof (Z.mul_div_le UINT64_MAX a). nia. }
    intros [= <-]. rewrite u64_small; [done|]. split; [nia|done].
Qed.

Lemma read_dims_spec (ndim : nat) : forall e r, is_u64 e ->
  clean (read_dims ndim e r) /\
  forall ds e' r', read_dims ndim e r = Ok (ds, e', r') ->
    length ds = ndim /\ Forall is_u64 ds /\ is_u64 e' /\ e' = e * foldr Z.mul 1 ds /\
    (unread r' <= unread r)%nat.
Proof.
  induction ndim as [|n IH]; intros e r He; cbn [read_dims].
  - split; [exact I|]. intros ds e' r' [= <- <- <-]. simpl. repeat split; try done; zlia.
  - pose proof (read_u64_clean r). destruct (read_u64 r) as [[d r1]|] eqn:E; [|done].
    apply read_u64_ok in E as [E Hd].
    pose proof (checked_mul_clean e d). destruct (checked_mul e d) as [e1|] eqn:Em; [|done].
    apply checked_mul_inv in Em as [-> Hm]; [|apply He|apply Hd].
    assert (is_u64 (e * d)) as He1 by (split; [destruct He, Hd; nia|done]).
    destruct (IH (e * d) r1 He1) as [Hc1 Hk1].
    destruct (read_dims n (e * d) r1) as [[[ds e'] r']|] eqn:Ed; [|done].
    split; [exact I|]. intros ds0 e0 r0 [= <- <- <-].
    destruct (Hk1 _ _ _ eq_refl) as (L & F & Hu & -> & Hr).
    split; [simpl; lia|]. split; [by constructor|]. split; [done|]. split; [|lia].
    cbn [foldr]. lia.
Qed.

Lemma read_dims_clean (ndim : nat) (r : reader) : clean (read_dims ndim 1 r).
Proof. apply read_dims_spec. done. Qed.

Lemma read_tensor_clean (r : reader) : clean (read_tensor r).
Proof.
  unfold read_tensor. pose proof (fun n r => read_dims_clean n r) as Hd. clean_chain.
Qed.

Lemma read_tensor_ok (r r' : reader) (t : tensor_desc) :
  read_tensor r = Ok (t, r') -> (unread r' < unread r)%nat /\ tensor_read t.
Proof.
  unfold read_tensor. destruct (read_string r) as [[name r1]|] eqn:E1; [|done].
  apply read_string_ok in E1. destruct (read_u32 r1) as [[ndim r2]|] eqn:E2; [|done].
  apply read_u32_ok in E2 as [E2 Hn].
  destruct ((ndim =? 0) || (DS4_MAX_DIMS <? ndim)) eqn:En; [done|]. bool_hyps. unfold DS4_MAX_DIMS in *.
  destruct (read_dims (Z.to_nat ndim) 1 r2) as [[[ds e] r3]|] eqn:E3; [|done].
  apply read_dims_spec in E3 as (L & F & Hu & He & E3); [|done].
  destruct (read_u32 r3) as [[type r4]|] eqn:E4; [|done]. apply read_u32_ok in E4 as [E4 Ht].
  destruct (read_u64 r4) as [[rel r5]|] eqn:E5; [|done]. apply read_u64_ok in E5 as [E5 Hrel].
  intros [= <- <-]. split; [lia|]. unfold tensor_read. cbn.
  split; [rewrite L; zlia|]. split; [done|]. split; [lia|]. done.
Qed.

Lemma read_tensors_spec (fuel : nat) : forall n r, (unread r < fuel)%nat ->
  clean (read_tensors fuel n r) /\
  forall ts r', read_tensors fuel n r = Ok (ts, r') ->
    (unread r' <= unread r)%nat /\ Forall tensor_read ts /\ Z.of_nat (length ts) = Z.max 0 n.
Proof.
  induction fuel as [|fuel IH]; intros n r Hf; [lia|]. cbn [read_tensors].
  destruct (Z.leb_spec n 0).
  { split; [exact I|]. intros ts r' [= <- <-]. split; [lia|]. split; [done|]. simpl. lia. }
  pose proof (read_tensor_clean r). destruct (read_tensor r) as [[t r1]|] eqn:E; [|done].
  apply read_tensor_ok in E as [E Ht]. destruct (IH (n - 1) r1) as [Hc1 Hk1]; [lia|].
  destruct (read_tensors fuel (n - 1) r1) as [[ts r2]|] eqn:Es; [|done]. split; [exact I|].
  intros ts' r' [= <- <-]. destruct (Hk1 _ _ eq_refl) as (Hr & Hts & Hl).
  split; [lia|]. split; [by constructor|]. simpl. lia.
Qed.
End Tables.

Lemma align_up_clean (v a : Z) : clean (align_up v a).
Proof. unfold align_up. repeat case_match; done. Qed.

Lemma place_tensor_clean (fsize pos : Z) (t : tensor_desc) : clean (place_tensor fsize pos t).
Proof. unfold place_tensor. repeat case_match; done. Qed.
#[export] Hint Resolve align_up_clean place_tensor_clean read_tensor_clean : ds4.

Lemma mapM_res_clean {A C} (f : A -> pres C) (l : list A) :
  (forall a, clean (f a)) -> clean (mapM_res f l).
Proof.
  intros Hf. induction l as [|a l IH]; cbn [mapM_res]; [exact I|].
  apply clean_bind; [done|]. intros c _. apply clean_bind; [done|]. intros cs _. exact I.
Qed.

Lemma read_kvs_clean `{Allocator} (seek_max n : Z) (r : reader) :
  clean (read_kvs seek_max (S (length (r_rest r))) n 32 r).
Proof. apply read_kvs_spec; [unfold unread; lia|zlia]. Qed.

Lemma read_tensors_clean `{Allocator} (n : Z) (r : reader) :
  clean (read_tensors (S (length (r_rest r))) n r).
Proof. apply read_tensors_spec. unfold unread. lia. Qed.

Lemma mapM_place_clean (fsize pos : Z) (ts : list tensor_desc) : clean (mapM_res (place_tensor fsize pos) ts).
Proof. apply mapM_res_clean. intros. apply place_tensor_clean. Qed.
#[export] Hint Resolve read_kvs_clean read_tensors_clean mapM_place_clean : ds4.

(** C12 Reading an inventory ends on every file, whatever its bytes, its size,
    the allocator and the seek limit: [parse_gguf] returns an inventory or
    exits with status 1.  Neither the nested metadata arrays nor the counts in
    the header, up to 2^64 - 1 each, can keep a loop running, because each
    turn consumes bytes of the file. *)
Theorem parse_gguf_terminates `{Allocator} (path : bytes) (f : gguf_file) :
  (exists inv, parse_gguf path f = Ok inv) \/ (exists msg, parse_gguf path f = Error (Exit 1 msg)).
Proof.
  assert (clean (parse_gguf path f)) as Hc.
  { unfold parse_gguf. destruct (gf_stat f) as [size|]; [|done]. destruct (gf_open f); [|done]. cbn [negb].
    unfold parse_gguf_data. clean_chain. }
  destruct (parse_gguf path f) as [inv|[c msg| |]]; simpl in Hc; [eauto|subst; eauto|done|done].
Qed.

(** ** Accepted inventories *)

Lemma align_up_ok (v a w : Z) : is_u64 v -> 0 < a -> align_up v a = Ok w ->
  v <= w < v + a /\ w mod a = 0 /\ is_u64 w.
Proof.
  intros Hv Ha. unfold align_up. destruct (Z.eqb_spec a 0); [lia|].
  pose proof (Z.mod_pos_bound v a Ha) as Hm. destruct (Z.eqb_spec (v mod a) 0) as [E|E].
  - intros [= <-]. split; [lia|done].
  - destruct (Z.ltb_spec (UINT64_MAX - (a - v mod a)) v); [done|]. intros [= <-].
    destruct Hv as [Hv0 Hv1]. rewrite u64_small by (split; lia). split; [lia|]. split; [|split; lia].
    replace (v + (a - v mod a)) with ((v / a + 1) * a); [by apply Z.mod_mul; lia|].
    pose proof (Z.div_mod v a ltac:(lia)). lia.
Qed.

(** Where a placed tensor lies, and that it lies inside the file. *)
Definition tensor_placed (fsize pos : Z) (t : tensor_desc) : Prop :=
  abs_offset t = pos + rel_offset t /\ is_u64 (abs_offset t) /\
  (t_bytes t <> 0 -> abs_offset t + t_bytes t <= fsize).

Lemma place_tensor_ok (fsize pos : Z) (t t' : tensor_desc) :
  is_u64 pos -> tensor_read t -> place_tensor fsize pos t = Ok t' ->
  tensor_read t' /\ tensor_placed fsize pos t' /\ t_name t' = t_name t.
Proof.
  intros Hpos Ht. unfold place_tensor.
  destruct (Z.ltb_spec (UINT64_MAX - pos) (rel_offset t)); [done|].
  assert (is_u64 (rel_offset t)) as Hrel by apply Ht.
  assert (is_u64 (pos + rel_offset t)) as Habs by (destruct Hpos, Hrel; split; lia).
  rewrite (u64_small _ Habs). destruct (Z.eqb_spec (t_bytes t) 0); cbn [negb andb].
  - intros [= <-]. split; [exact Ht|]. split; [|done]. split; [done|]. split; [done|]. cbn. lia.
  - destruct ((fsize <? pos + rel_offset t) || (fsize - (pos + rel_offset t) <? t_bytes t)) eqn:E; [done|].
    bool_hyps. intros [= <-]. split; [exact Ht|]. split; [|done]. split; [done|]. split; [done|]. cbn. lia.
Qed.

(** The byte length [type_nbytes] computes, when the rounding up to blocks
    does not leave 64 bits. *)
Lemma type_nbytes_exact (type n : Z) (info : ggml_type_info) :
  type_info type = Some info -> 0 <= n -> n + block_elems info <= UINT64_MAX ->
  (n + block_elems info - 1) / block_elems info * block_bytes info <= UINT64_MAX ->
  type_nbytes type n = Some ((n + block_elems info - 1) / block_elems info * block_bytes info).
Proof.
  intros Hi Hn Hmax Hb. unfold type_nbytes. rewrite Hi.
  assert (1 <= block_elems info <= 256 /\ 1 <= block_bytes info <= 292) as [He Hbb].
  { unfold type_info in Hi. destruct (43 <=? type); [done|].
    assert (Forall (fun o => match o with
      | Some i => 1 <= block_elems i <= 256 /\ 1 <= block_bytes i <= 292 | None => True end) ggml_types) as HF.
    { unfold ggml_types, gt. repeat (constructor; [simpl; lia||exact I|]). constructor. }
    destruct (ggml_types !! Z.to_nat type) as [o|] eqn:El; [|done]. simpl in Hi. subst o.
    apply (Forall_lookup_1 _ _ _ _ HF El). }
  rewrite (u64_small (n + _)) by (split; lia). rewrite u64_small by (split; lia).
  pose proof (Z.div_pos (n + block_elems info - 1) (block_elems info) ltac:(lia) ltac:(lia)).
  destruct (Z.ltb_spec (UINT64_MAX / block_bytes info) ((n + block_elems info - 1) / block_elems info)) as [Hd|_].
  - exfalso. assert ((n + block_elems info - 1) / block_elems info <= UINT64_MAX / block_bytes info); [|lia].
    apply Z.div_le_lower_bound; lia.
  - rewrite u64_small; [done|]. split; [nia|done].
Qed.

(** The invariant of an inventory. *)
Record inventory_wf (inv : gguf_inventory) : Prop := {
  wf_version : version inv = 3;
  wf_count : Z.of_nat (length (tensors inv)) = n_tensors inv;
  wf_align : 0 < alignment inv <= UINT32_MAX;
  wf_data_pos : tensor_data_pos inv mod alignment inv = 0 /\ is_u64 (tensor_data_pos inv);
  wf_read : Forall tensor_read (tensors inv);
  wf_placed : Forall (tensor_placed (file_size inv) (tensor_data_pos inv)) (tensors inv)
}.

(** *** The position stays a 64-bit number *)

Definition pos_ok (r : reader) : Prop := is_u64 (r_pos r).

Lemma read_exact_pos (r r' : reader) (n : Z) (b : bytes) : read_exact r n = Ok (b, r') -> pos_ok r'.
Proof. unfold read_exact. case_match; [done|]. intros [= _ <-]. apply u64_range. Qed.

Lemma read_u32_pos (r r' : reader) (v : Z) : read_u32 r = Ok (v, r') -> pos_ok r'.
Proof.
  unfold read_u32. destruct (read_exact r 4) as [[b r1]|] eqn:E; [|done]. intros [= _ <-].
  by eapply read_exact_pos.
Qed.

Lemma read_u64_pos (r r' : reader) (v : Z) : read_u64 r = Ok (v, r') -> pos_ok r'.
Proof.
  unfold read_u64. destruct (read_exact r 8) as [[b r1]|] eqn:E; [|done]. intros [= _ <-].
  by eapply read_exact_pos.
Qed.

Section Positions.
Context `{Allocator} (seek_max : Z).

Lemma read_string_pos (r r' : reader) (s : bytes) : read_string r = Ok (s, r') -> pos_ok r'.
Proof.
  unfold read_string. destruct (read_u64 r) as [[len r1]|]; [|done].
  repeat (case_match; [done|]). apply read_exact_pos.
Qed.

Lemma skip_bytes_pos (r r' : reader) (n : Z) : skip_bytes seek_max r n = Ok r' -> pos_ok r'.
Proof. unfold skip_bytes. do 2 (case_match; [done|]). intros [= <-]. apply u64_range. Qed.

Lemma repeat_skip_pos (step : reader -> pres reader) :
  (forall r r', step r = Ok r' -> pos_ok r') ->
  forall fuel len r r', pos_ok r -> repeat_skip fuel step len r = Ok r' -> pos_ok r'.
Proof.
  intros Hs. induction fuel as [|fuel IH]; intros len r r' Hr; cbn [repeat_skip];
    (destruct (len <=? 0); [by intros [= <-]|]); [done|].
  destruct (step r) as [r1|] eqn:E; [|done]. apply IH. by eapply Hs.
Qed.

Lemma skip_value_pos (levels : nat) : forall r r' type,
  skip_value seek_max levels r type = Ok r' -> pos_ok r'.
Proof.
  induction levels as [|levels IH]; intros r r' type; cbn [skip_value]; [done|].
  destruct (negb (scalar_value_size type =? 0)); [apply skip_bytes_pos|].
  destruct (type =? GGUF_VALUE_STRING).
  { destruct (read_string r) as [[s r1]|] eqn:E; [|done]. intros [= <-]. by eapply read_string_pos. }
  destruct (type =? GGUF_VALUE_ARRAY); [|done].
  destruct (read_u32 r) as [[item r1]|]; [|done].
  destruct (read_u64 r1) as [[len r2]|] eqn:E; [|done]. apply read_u64_pos in E.
  destruct (negb (scalar_value_size item =? 0)).
  - case_match; [done|apply skip_bytes_pos].
  - apply repeat_skip_pos; [intros; by eapply IH|done].
Qed.

Lemma read_kv_pos (align a : Z) (r r' : reader) : read_kv seek_max align r = Ok (a, r') -> pos_ok r'.
Proof.
  unfold read_kv. destruct (read_string r) as [[key r1]|]; [|done].
  destruct (read_u32 r1) as [[type r2]|]; [|done]. destruct (str_eqb _ _ && _).
  - destruct (read_u32 r2) as [[v r3]|] eqn:E; [|done]. intros [= _ <-]. by eapply read_u32_pos.
  - destruct (skip_value seek_max 9 r2 type) as [r3|] eqn:E; [|done]. intros [= _ <-].
    by eapply skip_value_pos.
Qed.

Lemma read_kvs_pos (fuel : nat) : forall n align a r r', pos_ok r ->
  read_kvs seek_max fuel n align r = Ok (a, r') -> pos_ok r'.
Proof.
  induction fuel as [|fuel IH]; intros n align a r r' Hr; cbn [read_kvs];
    (destruct (n <=? 0); [by intros [= _ <-]|]); [done|].
  destruct (read_kv seek_max align r) as [[a1 r1]|] eqn:E; [|done]. apply IH. by eapply read_kv_pos.
Qed.

Lemma read_tensor_pos (r r' : reader) (t : tensor_desc) : read_tensor r = Ok (t, r') -> pos_ok r'.
Proof.
  unfold read_tensor. destruct (read_string r) as [[name r1]|]; [|done].
  destruct (read_u32 r1) as [[ndim r2]|]; [|done]. case_match; [done|].
  destruct (read_dims _ 1 r2) as [[[ds e] r3]|]; [|done].
  destruct (read_u32 r3) as [[type r4]|]; [|done].
  destruct (read_u64 r4) as [[rel r5]|] eqn:E; [|done]. intros [= _ <-]. by eapply read_u64_pos.
Qed.

Lemma read_tensors_pos (fuel : nat) : forall n ts r r', pos_ok r ->
  read_tensors fuel n r = Ok (ts, r') -> pos_ok r'.
Proof.
  induction fuel as [|fuel IH]; intros n ts r r' Hr; cbn [read_tensors];
    (destruct (n <=? 0); [by intros [= _ <-]|]); [done|].
  destruct (read_tensor r) as [[t r1]|] eqn:E; [|done]. apply read_tensor_pos in E.
  destruct (read_tensors fuel (n - 1) r1) as [[ts' r2]|] eqn:Es; [|done]. intros [= _ <-]. by eapply IH.
Qed.
End Positions.

Lemma place_tensors_ok (fsize pos : Z) (ts placed : list tensor_desc) : is_u64 pos -> Forall tensor_read ts ->
  mapM_res (place_tensor fsize pos) ts = Ok placed ->
  Forall tensor_read placed /\ Forall (tensor_placed fsize pos) placed /\ length placed = length ts.
Proof.
  intros Hpos Hts Hm. apply mapM_res_inv in Hm.
  induction Hm as [|t t' ts placed Ht Hm IH]; [done|]. inversion_clear Hts.
  destruct IH as (IH1 & IH2 & IH3); [done|]. eapply place_tensor_ok in Ht as (H1 & H2 & _); [|done..].
  split; [by constructor|]. split; [by constructor|]. simpl. lia.
Qed.

(** An inventory that [parse_gguf] accepts is well formed: as many tensors
    as the header counts, the data position aligned; of every tensor one to
    four dimensions, an element count that is their exact product, the byte
    length of its type, an absolute offset that is the data position plus its
    own offset without wrap-around, and, when its byte length is known and not
    zero, all of its bytes inside the file. *)
Theorem parse_gguf_wf `{Allocator} (path : bytes) (f : gguf_file) (inv : gguf_inventory) :
  parse_gguf path f = Ok inv ->
  inventory_wf inv /\
  forall t info, t ∈ tensors inv -> type_info (t_type t) = Some info ->
    let blocks := (elements t + block_elems info - 1) / block_elems info in
    elements t + block_elems info <= UINT64_MAX -> blocks * block_bytes info <= UINT64_MAX ->
    t_bytes t = blocks * block_bytes info.
Proof.
  intros E. assert (inventory_wf inv) as Hwf; [revert E|].
  2: { split; [done|]. intros t info Ht Hi blocks H1 H2. destruct Hwf as [_ _ _ _ Hr _].
       rewrite Forall_forall in Hr. destruct (Hr t Ht) as (_ & _ & _ & [He _] & _ & _ & ->).
       unfold blocks in *. by rewrite (type_nbytes_exact _ _ info). }
  unfold parse_gguf. destruct (gf_stat f) as [size|]; [|done]. destruct (gf_open f); [|done]. cbn [negb].
  unfold parse_gguf_data.
  destruct (read_u32 _) as [[magic r1]|]; [|done]. destruct (negb (magic =? _)); [done|].
  destruct (read_u32 r1) as [[ver r2]|] eqn:E2; [|done].
  destruct (read_u64 r2) as [[nt r3]|] eqn:E3; [|done].
  destruct (read_u64 r3) as [[nkv r4]|] eqn:E4; [|done].
  destruct (Z.eqb_spec ver 3) as [-> |]; [cbn [negb]|done].
  destruct (read_kvs _ _ nkv 32 r4) as [[align r5]|] eqn:E5; [|done].
  pose proof (read_kvs_spec (gf_seek_max f) (S (length (r_rest r4))) nkv 32 r4
    ltac:(unfold unread; lia) ltac:(zlia)) as [_ Ha]. specialize (Ha _ _ E5) as [_ Ha].
  destruct (negb (calloc_ok nt _)); [done|].
  destruct (read_tensors _ nt r5) as [[ts r6]|] eqn:E6; [|done].
  pose proof (read_tensors_spec (S (length (r_rest r5))) nt r5 ltac:(unfold unread; lia)) as [_ Ht].
  specialize (Ht _ _ E6) as (_ & Hts & Hlen). apply read_u64_ok in E3 as [_ Hnt].
  destruct (align_up (r_pos r6) align) as [pos|] eqn:E7; [|done].
  destruct (mapM_res _ ts) as [placed|] eqn:E8; [|done]. intros [= <-].
  assert (pos_ok r6) as Hr6.
  { eapply read_tensors_pos; [|exact E6]. eapply read_kvs_pos; [|exact E5]. by eapply read_u64_pos. }
  apply align_up_ok in E7 as (_ & Hmod & Hpos); [|done|lia].
  destruct (place_tensors_ok _ _ _ _ Hpos Hts E8) as (H1 & H2 & H3).
  split; cbn [version tensors n_tensors alignment tensor_data_pos file_size];
    [done|destruct Hnt; lia|done|split; done|done|done].
Qed.


(** ** Writing the format *)

(** A metadata value as the format writes it. *)
Inductive gguf_value :=
| VScalar (type : Z) (raw : bytes)
| VString (s : bytes)
| VScalars (item : Z) (count : Z) (raw : bytes)
| VArray (item : Z) (items : list gguf_value).

Definition value_type (v : gguf_value) : Z :=
  match v with
  | VScalar type _ => type
  | VString _ => GGUF_VALUE_STRING
  | VScalars _ _ _ | VArray _ _ => GGUF_VALUE_ARRAY
  end.

Definition put_string (s : bytes) : bytes := le_bytes 8 (Z.of_nat (length s)) ++ s.

Fixpoint put_value (v : gguf_value) : bytes :=
  match v with
  | VScalar _ raw => raw
  | VString s => put_string s
  | VScalars item count raw => le_bytes 4 item ++ le_bytes 8 count ++ raw
  | VArray item items =>
      le_bytes 4 item ++ le_bytes 8 (Z.of_nat (length items)) ++
      concat (map put_value items)
  end.

(** Values nested at most [levels] deep whose sizes the format can express. *)
Fixpoint value_ok (levels : nat) (v : gguf_value) : Prop :=
  match levels with
  | O => False
  | S l =>
      match v with
      | VScalar type raw => scalar_value_size type = Z.of_nat (length raw) /\ raw <> []
      | VString s => Z.of_nat (length s) < SIZE_MAX
      | VScalars item count raw =>
          is_u32 item /\ is_u64 count /\ 0 < scalar_value_size item /\
          Z.of_nat (length raw) = count * scalar_value_size item /\ Z.of_nat (length raw) <= INT64_MAX
      | VArray item items =>
          is_u32 item /\ scalar_value_size item = 0 /\ is_u64 (Z.of_nat (length items)) /\
          Forall (fun v => value_type v = item /\ value_ok l v) items
      end
  end.

Record header_tensor := HeaderTensor { ht_name : bytes; ht_dims : list Z; ht_type : Z; ht_rel : Z }.

Definition put_tensor (t : header_tensor) : bytes :=
  put_string (ht_name t) ++ le_bytes 4 (Z.of_nat (length (ht_dims t))) ++
  concat (map (le_bytes 8) (ht_dims t)) ++ le_bytes 4 (ht_type t) ++ le_bytes 8 (ht_rel t).

Definition put_kv (kv : bytes * gguf_value) : bytes :=
  put_string (fst kv) ++ le_bytes 4 (value_type (snd kv)) ++ put_value (snd kv).

Definition put_header (kvs : list (bytes * gguf_value)) (ts : list header_tensor) : bytes :=
  le_bytes 4 DS4_GGUF_MAGIC ++ le_bytes 4 3 ++
  le_bytes 8 (Z.of_nat (length ts)) ++ le_bytes 8 (Z.of_nat (length kvs)) ++
  concat (map put_kv kvs) ++ concat (map put_tensor ts).

Definition after (s tail : bytes) (p : Z) : reader := Reader tail (p + Z.of_nat (length s)).

(** Show the reader a call returned, to read on from it. *)
Ltac expose :=
  match goal with
  | |- context [after ?s ?t ?q] => change (after s t q) with (Reader t (q + Z.of_nat (length s)))
  end.

Section Roundtrip.
Context `{Allocator} (Hmalloc : forall n, malloc_ok n = true) (seek_max : Z).

(** The unread text [s] at position [p] stays within every limit. *)
Definition room (s : bytes) (p : Z) : Prop :=
  0 <= p /\ p + Z.of_nat (length s) <= INT64_MAX /\ p + Z.of_nat (length s) <= seek_max.

Lemma room_app (s tail : bytes) (p : Z) : room (s ++ tail) p -> room tail (p + Z.of_nat (length s)).
Proof. unfold room. rewrite length_app. lia. Qed.

Lemma after_app (s1 s2 tail : bytes) (p : Z) :
  after s2 tail (p + Z.of_nat (length s1)) = after (s1 ++ s2) tail p.
Proof. unfold after. f_equal. rewrite length_app. lia. Qed.

Lemma get_exact (s tail : bytes) (p : Z) : room (s ++ tail) p ->
  read_exact (Reader (s ++ tail) p) (Z.of_nat (length s)) = Ok (s, after s tail p).
Proof.
  intros (Hp & Hr & _). rewrite length_app in Hr. unfold read_exact. cbn [r_rest r_pos].
  rewrite (proj2 (Z.ltb_ge _ _)) by (rewrite length_app; lia).
  rewrite Nat2Z.id, take_app_length, drop_app_length, u64_small by zlia. done.
Qed.

Lemma get_u32 (v : Z) (tail : bytes) (p : Z) : is_u32 v -> room (le_bytes 4 v ++ tail) p ->
  read_u32 (Reader (le_bytes 4 v ++ tail) p) = Ok (v, after (le_bytes 4 v) tail p).
Proof.
  intros Hv Hr. unfold read_u32. change 4 with (Z.of_nat (length (le_bytes 4 v))) at 1.
  rewrite get_exact by done. rewrite le_value_bytes; [done|].
  change (2 ^ (8 * Z.of_nat 4)) with (2 ^ 32). zlia.
Qed.

Lemma get_u64 (v : Z) (tail : bytes) (p : Z) : is_u64 v -> room (le_bytes 8 v ++ tail) p ->
  read_u64 (Reader (le_bytes 8 v ++ tail) p) = Ok (v, after (le_bytes 8 v) tail p).
Proof.
  intros Hv Hr. unfold read_u64. change 8 with (Z.of_nat (length (le_bytes 8 v))) at 1.
  rewrite get_exact by done. rewrite le_value_bytes; [done|].
  change (2 ^ (8 * Z.of_nat 8)) with (2 ^ 64). zlia.
Qed.

Lemma get_string (s tail : bytes) (p : Z) : Z.of_nat (length s) < SIZE_MAX -> room (put_string s ++ tail) p ->
  read_string (Reader (put_string s ++ tail) p) = Ok (s, after (put_string s) tail p).
Proof.
  unfold SIZE_MAX. intros Hs Hr. unfold read_string, put_string in *. rewrite <- app_assoc in *.
  rewrite get_u64 by (done || zlia). expose. apply room_app in Hr.
  rewrite (proj2 (Z.ltb_ge _ _)) by (unfold SIZE_MAX; lia). rewrite Hmalloc. cbn [negb].
  by rewrite get_exact, after_app by done.
Qed.

Lemma skip_ok (s tail : bytes) (p n : Z) : n = Z.of_nat (length s) -> room (s ++ tail) p ->
  skip_bytes seek_max (Reader (s ++ tail) p) n = Ok (after s tail p).
Proof.
  intros -> (Hp & Hr & Hm). rewrite length_app in Hr, Hm. unfold skip_bytes. cbn [r_rest r_pos].
  rewrite (proj2 (Z.ltb_ge _ _)) by lia. rewrite (proj2 (Z.ltb_ge _ _)) by lia.
  rewrite u64_small by zlia. unfold after. do 2 f_equal. rewrite length_app.
  destruct (Z.leb_spec (Z.of_nat (length s + length tail)) (Z.of_nat (length s))) as [Hl|_].
  - destruct tail; [done|]. simpl in Hl. lia.
  - by rewrite Nat2Z.id, drop_app_length.
Qed.

Lemma repeat_skip_items (step : reader -> pres reader) (items : list gguf_value) :
  (forall v tail p, v ∈ items -> room (put_value v ++ tail) p ->
     step (Reader (put_value v ++ tail) p) = Ok (after (put_value v) tail p)) ->
  forall fuel tail p, (length items <= fuel)%nat -> room (concat (map put_value items) ++ tail) p ->
  repeat_skip fuel step (Z.of_nat (length items)) (Reader (concat (map put_value items) ++ tail) p) =
    Ok (after (concat (map put_value items)) tail p).
Proof.
  induction items as [|v items IH]; intros Hs fuel tail p Hf Hr.
  - destruct fuel; cbn; unfold after; simpl; by rewrite Z.add_0_r.
  - cbn [map concat length] in *. destruct fuel as [|fuel]; [lia|]. cbn [repeat_skip].
    rewrite (proj2 (Z.leb_gt _ _)) by lia. rewrite <- app_assoc in *. rewrite Hs by (done || by left).
    expose. replace (Z.of_nat (S (length items)) - 1) with (Z.of_nat (length items)) by lia.
    rewrite IH; [by rewrite after_app|intros; apply Hs; [by right|done]|lia|by apply room_app].
Qed.

Lemma value_size (levels : nat) (v : gguf_value) : value_ok levels v -> (1 <= length (put_value v))%nat.
Proof.
  destruct levels as [|l]; [done|]. destruct v as [ty raw|s|it c raw|it items]; cbn [value_ok put_value].
  - intros [_ Hr]. destruct raw; [done|]. simpl. lia.
  - intros _. unfold put_string. rewrite length_app, le_bytes_length. lia.
  - intros _. rewrite length_app, le_bytes_length. lia.
  - intros _. rewrite length_app, le_bytes_length. lia.
Qed.

Lemma items_size (levels : nat) (items : list gguf_value) :
  Forall (value_ok levels) items -> (length items <= length (concat (map put_value items)))%nat.
Proof.
  induction 1 as [|v items Hv _ IH]; simpl; [lia|]. rewrite length_app. pose proof (value_size _ _ Hv). lia.
Qed.

Lemma skip_put_value (levels : nat) : forall v tail p, value_ok levels v -> room (put_value v ++ tail) p ->
  skip_value seek_max levels (Reader (put_value v ++ tail) p) (value_type v) = Ok (after (put_value v) tail p).
Proof.
  induction levels as [|levels IH]; intros v tail p Hv Hr; [done|]. cbn [skip_value].
  destruct v as [type raw|s|item count raw|item items]; cbn [value_ok value_type put_value] in *.
  - destruct Hv as [Hsize Hraw]. rewrite Hsize. destruct (Z.eqb_spec (Z.of_nat (length raw)) 0) as [E|_].
    + destruct raw; [done|]. simpl in E. lia.
    + by apply skip_ok.
  - change (scalar_value_size GGUF_VALUE_STRING) with 0. cbn [Z.eqb negb].
    change (GGUF_VALUE_STRING =? GGUF_VALUE_STRING) with true. cbn iota. by rewrite get_string.
  - destruct Hv as (Hi & Hc & Hsz & Hlen & Hmax).
    change (scalar_value_size GGUF_VALUE_ARRAY) with 0. cbn [Z.eqb negb].
    change (GGUF_VALUE_ARRAY =? GGUF_VALUE_STRING) with false. change (GGUF_VALUE_ARRAY =? GGUF_VALUE_ARRAY) with true.
    cbn iota. rewrite <- !app_assoc in *. rewrite get_u32 by done. expose. apply room_app in Hr.
    rewrite get_u64 by done. expose. apply room_app in Hr.
    rewrite (proj2 (Z.eqb_neq _ _)) by lia. cbn [negb].
    destruct (Z.ltb_spec (UINT64_MAX / scalar_value_size item) count) as [Hd|_].
    { exfalso. assert (count <= UINT64_MAX / scalar_value_size item); [|lia].
      apply Z.div_le_lower_bound; zlia. }
    rewrite <- Hlen, u64_small by zlia. rewrite skip_ok by done. by rewrite !after_app, <- ?app_assoc.
  - destruct Hv as (Hi & Hsz & Hn & Hitems).
    change (scalar_value_size GGUF_VALUE_ARRAY) with 0. cbn [Z.eqb negb].
    change (GGUF_VALUE_ARRAY =? GGUF_VALUE_STRING) with false. change (GGUF_VALUE_ARRAY =? GGUF_VALUE_ARRAY) with true.
    cbn iota. rewrite <- !app_assoc in *. rewrite get_u32 by done. expose. apply room_app in Hr.
    rewrite get_u64 by done. apply room_app in Hr.
    expose.
    rewrite Hsz. cbn [Z.eqb negb]. rewrite Forall_forall in Hitems.
    rewrite repeat_skip_items; [by rewrite !after_app, <- ?app_assoc| | |done].
    + intros v tl q Hin Hroom. destruct (Hitems v Hin) as [<- Hok]. by apply IH.
    + cbn [after r_rest]. rewrite length_app.
      assert (length items <= length (concat (map put_value items)))%nat; [|lia].
      apply (items_size levels), Forall_forall. intros v Hin. by apply Hitems.
Qed.

(** The alignment after an entry. *)
Definition align_after (a : Z) (kv : bytes * gguf_value) : Z :=
  match snd kv with
  | VScalar type raw =>
      if str_eqb (c_str (fst kv)) (B "general.alignment") && (type =? GGUF_VALUE_UINT32) &&
         negb (le_value raw =? 0)
      then le_value raw else a
  | _ => a
  end.

Definition kv_ok (kv : bytes * gguf_value) : Prop :=
  Z.of_nat (length (fst kv)) < SIZE_MAX /\ is_u32 (value_type (snd kv)) /\ value_ok 9 (snd kv).

Lemma read_put_kv (kv : bytes * gguf_value) (align : Z) (tail : bytes) (p : Z) :
  kv_ok kv -> room (put_kv kv ++ tail) p ->
  read_kv seek_max align (Reader (put_kv kv ++ tail) p) = Ok (align_after align kv, after (put_kv kv) tail p).
Proof.
  destruct kv as [key v]. intros (Hkey & Hty & Hv) Hr. cbn [fst snd] in *.
  unfold read_kv, put_kv in *. cbn [fst snd] in *. rewrite <- !app_assoc in *.
  rewrite get_string by done. expose. apply room_app in Hr.
  rewrite get_u32 by done. expose. apply room_app in Hr.
  unfold align_after. cbn [fst snd].
  destruct (str_eqb (c_str key) _ && (value_type v =? GGUF_VALUE_UINT32)) eqn:E.
  - apply andb_true_iff in E as [Ek Et%Z.eqb_eq].
    destruct v as [type raw|s|item count raw|item items]; try discriminate Et. cbn [value_type put_value] in *.
    subst type. rewrite Ek. cbn [andb]. destruct Hv as [Hl _].
    change (scalar_value_size GGUF_VALUE_UINT32) with 4 in Hl.
    unfold read_u32. rewrite Hl. rewrite get_exact by done.
    change (GGUF_VALUE_UINT32 =? GGUF_VALUE_UINT32) with true. cbn [andb]. by rewrite !after_app, <- ?app_assoc.
  - rewrite skip_put_value by done. rewrite !after_app, <- ?app_assoc. do 2 f_equal.
    destruct v as [type raw|s|item count raw|item items]; try done. cbn [value_type] in E. by rewrite E.
Qed.

Lemma put_kv_size (kv : bytes * gguf_value) : (1 <= length (put_kv kv))%nat.
Proof. unfold put_kv, put_string. rewrite !length_app, le_bytes_length. lia. Qed.

Lemma read_put_kvs (kvs : list (bytes * gguf_value)) : forall fuel align tail p,
  (length kvs <= fuel)%nat -> Forall kv_ok kvs -> room (concat (map put_kv kvs) ++ tail) p ->
  read_kvs seek_max fuel (Z.of_nat (length kvs)) align (Reader (concat (map put_kv kvs) ++ tail) p) =
    Ok (foldl align_after align kvs, after (concat (map put_kv kvs)) tail p).
Proof.
  induction kvs as [|kv kvs IH]; intros fuel align tail p Hf Hok Hr.
  - destruct fuel; cbn; unfold after; simpl; by rewrite Z.add_0_r.
  - apply Forall_cons in Hok as [Hkv Hok]. cbn [map concat length foldl] in *.
    destruct fuel as [|fuel]; [lia|]. cbn [read_kvs].
    rewrite (proj2 (Z.leb_gt _ _)) by lia. rewrite <- app_assoc in *. rewrite read_put_kv by done.
    expose. replace (Z.of_nat (S (length kvs)) - 1) with (Z.of_nat (length kvs)) by lia.
    rewrite IH; [by rewrite after_app|lia|done|by apply room_app].
Qed.

Definition ht_elements (t : header_tensor) : Z := foldr Z.mul 1 (ht_dims t).

Definition ht_ok (t : header_tensor) : Prop :=
  Z.of_nat (length (ht_name t)) < SIZE_MAX /\ (1 <= length (ht_dims t) <= 4)%nat /\
  Forall is_u64 (ht_dims t) /\ (forall k, foldr Z.mul 1 (take k (ht_dims t)) <= UINT64_MAX) /\
  is_u32 (ht_type t) /\ is_u64 (ht_rel t).

(** What is read of a tensor; [pos] is the data position. *)
Definition ht_desc (pos : Z) (t : header_tensor) : tensor_desc :=
  TensorDesc (c_str (ht_name t)) (ht_dims t) (ht_type t) (ht_rel t) pos (ht_elements t)
    (default 0 (type_nbytes (ht_type t) (ht_elements t))).

Lemma foldr_mul_nonneg (ds : list Z) : Forall is_u64 ds -> 0 <= foldr Z.mul 1 ds.
Proof. induction 1 as [|d ds [Hd _] _ IH]; simpl; [lia|nia]. Qed.

Lemma read_put_dims (ds : list Z) : forall e tail p,
  Forall is_u64 ds -> 0 <= e -> (forall k, e * foldr Z.mul 1 (take k ds) <= UINT64_MAX) ->
  room (concat (map (le_bytes 8) ds) ++ tail) p ->
  read_dims (length ds) e (Reader (concat (map (le_bytes 8) ds) ++ tail) p) =
    Ok (ds, e * foldr Z.mul 1 ds, after (concat (map (le_bytes 8) ds)) tail p).
Proof.
  induction ds as [|d ds IH]; intros e tail p Hds He Hk Hr; cbn [length read_dims map concat foldr] in *.
  - unfold after. simpl. by rewrite Z.mul_1_r, Z.add_0_r.
  - apply Forall_cons in Hds as [Hd Hds]. rewrite <- app_assoc in *. rewrite get_u64 by done.
    expose. apply room_app in Hr. pose proof (Hk 1%nat) as H1. cbn in H1. rewrite Z.mul_1_r in H1.
    rewrite checked_mul_ok by (destruct Hd; lia). rewrite IH; [|done|destruct Hd; nia| |done].
    + rewrite after_app, Z.mul_assoc. done.
    + intros k. specialize (Hk (S k)). cbn [take foldr] in Hk. lia.
Qed.

Lemma read_put_tensor (t : header_tensor) (tail : bytes) (p : Z) : ht_ok t -> room (put_tensor t ++ tail) p ->
  read_tensor (Reader (put_tensor t ++ tail) p) = Ok (ht_desc 0 t, after (put_tensor t) tail p).
Proof.
  intros (Hn & Hd & Hds & Hk & Ht & Hrel) Hr. unfold read_tensor, put_tensor in *. rewrite <- !app_assoc in *.
  rewrite get_string by done. expose. apply room_app in Hr.
  rewrite get_u32 by (done || zlia). expose. apply room_app in Hr.
  destruct ((Z.of_nat (length (ht_dims t)) =? 0) || (DS4_MAX_DIMS <? Z.of_nat (length (ht_dims t)))) eqn:E.
  { unfold DS4_MAX_DIMS in E. apply orb_true_iff in E as [E%Z.eqb_eq|E%Z.ltb_lt]; lia. }
  rewrite Nat2Z.id. rewrite read_put_dims; [|done|done|intros k; specialize (Hk k); lia|done].
  expose. apply room_app in Hr.
  rewrite get_u32 by done. expose. apply room_app in Hr.
  rewrite get_u64 by done. rewrite !after_app, <- ?app_assoc. unfold ht_desc, ht_elements.
  by rewrite Z.mul_1_l.
Qed.

Lemma put_tensor_size (t : header_tensor) : (1 <= length (put_tensor t))%nat.
Proof. unfold put_tensor, put_string. rewrite !length_app, le_bytes_length. lia. Qed.

Lemma read_put_tensors (ts : list header_tensor) : forall fuel tail p,
  (length ts <= fuel)%nat -> Forall ht_ok ts -> room (concat (map put_tensor ts) ++ tail) p ->
  read_tensors fuel (Z.of_nat (length ts)) (Reader (concat (map put_tensor ts) ++ tail) p) =
    Ok (map (ht_desc 0) ts, after (concat (map put_tensor ts)) tail p).
Proof.
  induction ts as [|t ts IH]; intros fuel tail p Hf Hok Hr.
  - destruct fuel; cbn; unfold after; simpl; by rewrite Z.add_0_r.
  - apply Forall_cons in Hok as [Ht Hok]. cbn [map concat length] in *.
    destruct fuel as [|fuel]; [lia|]. cbn [read_tensors].
    rewrite (proj2 (Z.leb_gt _ _)) by lia. rewrite <- app_assoc in *. rewrite read_put_tensor by done.
    expose. replace (Z.of_nat (S (length ts)) - 1) with (Z.of_nat (length ts)) by lia.
    rewrite IH; [by rewrite after_app|lia|done|by apply room_app].
Qed.

(** A tensor's data region ends within the file. *)
Definition ht_fits (fsize pos : Z) (t : header_tensor) : Prop :=
  pos + ht_rel t + default 0 (type_nbytes (ht_type t) (ht_elements t)) <= fsize.

Lemma type_nbytes_nonneg (type n : Z) : 0 <= default 0 (type_nbytes type n).
Proof.
  unfold type_nbytes. destruct (type_info type); [|done]. case_match; [done|]. apply u64_range.
Qed.

Lemma place_put_tensor (fsize pos : Z) (t : header_tensor) :
  ht_ok t -> 0 <= pos -> fsize <= UINT64_MAX -> ht_fits fsize pos t ->
  place_tensor fsize pos (ht_desc 0 t) = Ok (ht_desc (pos + ht_rel t) t).
Proof.
  intros (_ & _ & _ & _ & _ & [Hrel _]) Hp Hf Hfit. unfold ht_fits in Hfit.
  pose proof (type_nbytes_nonneg (ht_type t) (ht_elements t)) as Hn.
  unfold place_tensor. cbn [ht_desc rel_offset t_bytes t_name t_dim t_type elements].
  rewrite (proj2 (Z.ltb_ge _ _)) by lia. rewrite u64_sum by lia.
  rewrite (proj2 (Z.ltb_ge _ _)) by lia. rewrite (proj2 (Z.ltb_ge _ _)) by lia.
  by rewrite andb_false_r.
Qed.

Lemma place_put_tensors (fsize pos : Z) (ts : list header_tensor) :
  0 <= pos -> fsize <= UINT64_MAX -> Forall ht_ok ts -> Forall (ht_fits fsize pos) ts ->
  mapM_res (place_tensor fsize pos) (map (ht_desc 0) ts) = Ok (map (fun t => ht_desc (pos + ht_rel t) t) ts).
Proof.
  intros Hp Hf Hok Hfit. induction Hok as [|t ts Ht _ IH]; [done|]. inversion_clear Hfit.
  cbn [map mapM_res]. rewrite place_put_tensor by done. by rewrite IH.
Qed.
End Roundtrip.

(** The position behind [n] bytes, rounded up to the alignment. *)
Definition aligned_pos (n align : Z) : Z := (n + align - 1) / align * align.

Lemma align_up_rounds (n align : Z) : 0 <= n -> 0 < align -> n + align <= UINT64_MAX ->
  align_up n align = Ok (aligned_pos n align).
Proof.
  intros Hn Ha Hmax. unfold align_up, aligned_pos. rewrite (proj2 (Z.eqb_neq align 0)) by lia.
  pose proof (Z.div_mod n align ltac:(lia)) as Hdm. pose proof (Z.mod_pos_bound n align Ha) as Hm.
  destruct (Z.eqb_spec (n mod align) 0) as [E|E].
  - do 2 f_equal. replace ((n + align - 1) / align) with (n / align); [lia|].
    apply Z.div_unique with (align - 1); lia.
  - rewrite (proj2 (Z.ltb_ge _ _)) by lia. rewrite u64_sum by lia. f_equal.
    replace ((n + align - 1) / align) with (n / align + 1); [lia|].
    apply Z.div_unique with (n mod align - 1); lia.
Qed.

Lemma align_after_range (kvs : list (bytes * gguf_value)) (a : Z) :
  Forall kv_ok kvs -> 0 < a <= UINT32_MAX -> 0 < foldl align_after a kvs <= UINT32_MAX.
Proof.
  intros Hok. revert a. induction Hok as [|[k v] kvs (_ & _ & Hv) _ IH]; intros a Ha; [done|].
  cbn [foldl]. apply IH. unfold align_after. cbn [fst snd] in *. destruct v as [type raw| | |]; try done.
  destruct (_ && _ && _) eqn:E; [|done].
  apply andb_true_iff in E as [[_ Et%Z.eqb_eq]%andb_true_iff E%negb_true_iff%Z.eqb_neq]. subst type.
  destruct Hv as [Hl _]. change (scalar_value_size GGUF_VALUE_UINT32) with 4 in Hl.
  pose proof (le_value_range raw) as Hr. rewrite <- Hl in Hr. change (2 ^ (8 * 4)) with (2 ^ 32) in Hr. zlia.
Qed.

(** Reading undoes writing: for every list of metadata entries (scalars,
    strings and arrays nested as deep as the reader allows) and every tensor
    table the format can express, [parse_gguf] on a file that holds their
    serialisation and whose data regions lie inside it returns exactly that
    table, with the alignment of the last usable [general.alignment] entry (32
    when there is none) and the data position rounded up to it. *)
Theorem parse_gguf_roundtrip `{Allocator} (path : bytes) (f : gguf_file)
    (kvs : list (bytes * gguf_value)) (ts : list header_tensor) (data : bytes) :
  (forall n, malloc_ok n = true) ->
  gf_open f = true -> gf_data f = put_header kvs ts ++ data ->
  let fsize := Z.of_nat (length (gf_data f)) in
  let align := foldl align_after 32 kvs in
  let pos := aligned_pos (Z.of_nat (length (put_header kvs ts))) align in
  gf_stat f = Some fsize -> fsize <= INT64_MAX -> fsize <= gf_seek_max f ->
  Z.of_nat (length ts) * sizeof_tensor_desc <= SIZE_MAX ->
  Forall kv_ok kvs -> Forall ht_ok ts -> Forall (ht_fits fsize pos) ts ->
  parse_gguf path f =
    Ok (Inventory 3 (Z.of_nat (length kvs)) (Z.of_nat (length ts)) fsize align pos
          (map (fun t => ht_desc (pos + ht_rel t) t) ts)).
Proof.
  intros Hm Hopen Hdata fsize align pos Hstat Hmax Hseek Htab Hkvs Hts Hfits.
  assert (room (gf_seek_max f) (gf_data f) 0) as Hr by (unfold room; fold fsize; lia).
  pose proof (align_after_range kvs 32 Hkvs ltac:(zlia)) as Halign. fold align in Halign.
  assert (Z.of_nat (length kvs) <= fsize /\ Z.of_nat (length ts) <= fsize) as [Hnk Hnt].
  { unfold fsize. rewrite Hdata. unfold put_header. rewrite !length_app.
    assert (forall A (put : A -> bytes) l, (forall a, (1 <= length (put a))%nat) ->
      (length l <= length (concat (map put l)))%nat) as Hgo.
    { intros A put l Hput. induction l as [|a l IH]; simpl; [lia|]. rewrite length_app.
      specialize (Hput a). lia. }
    pose proof (Hgo _ put_kv kvs put_kv_size). pose proof (Hgo _ put_tensor ts put_tensor_size). lia. }
  assert (Z.of_nat (length (put_header kvs ts)) <= fsize) as Hhead
    by (unfold fsize; rewrite Hdata, length_app; lia).
  unfold parse_gguf. rewrite Hstat, Hopen. cbn [negb]. rewrite (u64_small fsize) by zlia.
  unfold parse_gguf_data. rewrite Hdata in Hr |- *. pose proof Hr as Hr0. unfold put_header in Hr |- *.
  rewrite <- !app_assoc in *.
  rewrite (get_u32 (gf_seek_max f)) by done. expose. apply room_app in Hr.
  change (DS4_GGUF_MAGIC =? DS4_GGUF_MAGIC) with true. cbn [negb].
  rewrite (get_u32 (gf_seek_max f)) by done. expose. apply room_app in Hr.
  rewrite (get_u64 (gf_seek_max f)) by (done || zlia). expose. apply room_app in Hr.
  rewrite (get_u64 (gf_seek_max f)) by (done || zlia). apply room_app in Hr.
  change (3 =? 3) with true. cbn [negb].
  expose.
  rewrite read_put_kvs; [|done| |done|done].
  2: { cbn [r_rest]. rewrite length_app.
       assert (length kvs <= length (concat (map put_kv kvs)))%nat; [|lia].
       clear. induction kvs as [|kv kvs IH]; simpl; [lia|]. rewrite length_app.
       pose proof (put_kv_size kv). lia. }
  apply room_app in Hr. fold align. unfold calloc_ok. rewrite Hm, (proj2 (Z.leb_le _ _)) by done. cbn [andb negb].
  expose.
  rewrite (read_put_tensors Hm (gf_seek_max f)); [| |done|done].
  2: { cbn [r_rest]. rewrite length_app.
       assert (length ts <= length (concat (map put_tensor ts)))%nat; [|lia].
       clear. induction ts as [|t ts IH]; simpl; [lia|]. rewrite length_app.
       pose proof (put_tensor_size t). lia. }
  rewrite !after_app. unfold after. cbn [r_pos]. rewrite Z.add_0_l.
  match goal with |- context [align_up ?n align] =>
    replace n with (Z.of_nat (length (put_header kvs ts)))
      by (unfold put_header; by rewrite <- ?app_assoc) end.
  rewrite align_up_rounds by zlia. fold pos.
  assert (0 <= pos) as Hpos.
  { unfold pos, aligned_pos.
    pose proof (Z.div_pos (Z.of_nat (length (put_header kvs ts)) + align - 1) align). nia. }
  assert (fsize <= UINT64_MAX) as Hf64 by zlia. by rewrite place_put_tensors.
Qed.

(** ** Witnesses *)

(** A header with a nested array, an alignment entry and two tensors. *)
Definition ex_kvs : list (bytes * gguf_value) :=
  [(B "general.name", VString (B "ds4"));
   (B "tok", VArray GGUF_VALUE_STRING [VString (B "a"); VString (B "")]);
   (B "general.alignment", VScalar GGUF_VALUE_UINT32 (le_bytes 4 64));
   (B "ids", VScalars 5 2 (le_bytes 8 7))].

Definition ex_tensors : list header_tensor :=
  [HeaderTensor (B "blk.2.ffn_up_exps.weight") [32; 2] 39 0; HeaderTensor (B "output.weight") [3] 0 64].

Definition ex_gguf : gguf_file :=
  let data := put_header ex_kvs ex_tensors ++ replicate 400 NUL in
  GgufFile (Some (Z.of_nat (length data))) true data (2 ^ 44) [].

Lemma ex_kvs_ok : Forall kv_ok ex_kvs.
Proof.
  unfold ex_kvs. apply List.Forall_cons; [|apply List.Forall_cons; [|apply List.Forall_cons;
    [|apply List.Forall_cons; [|apply List.Forall_nil]]]]; unfold kv_ok.
  all: split; [reflexivity|split; [split; [discriminate|discriminate]|]].
  - reflexivity.
  - split; [split; discriminate|]. split; [reflexivity|]. split; [split; discriminate|].
    do 2 (apply List.Forall_cons; [split; reflexivity|]). apply List.Forall_nil.
  - split; [reflexivity|discriminate].
  - split; [split; discriminate|]. split; [split; discriminate|]. split; [reflexivity|].
    split; [reflexivity|discriminate].
Qed.

Lemma ex_tensors_ok : Forall ht_ok ex_tensors.
Proof.
  unfold ex_tensors. apply List.Forall_cons; [|apply List.Forall_cons; [|apply List.Forall_nil]]; unfold ht_ok.
  all: split; [reflexivity|]; split; [cbn; lia|]; split; [repeat constructor; discriminate|].
  all: split; [intros [|[|[|k]]]; vm_compute; discriminate|split; split; discriminate].
Qed.

Lemma ex_fits :
  Forall (ht_fits (Z.of_nat (length (gf_data ex_gguf)))
    (aligned_pos (Z.of_nat (length (put_header ex_kvs ex_tensors))) (foldl align_after 32 ex_kvs))) ex_tensors.
Proof.
  apply List.Forall_cons; [|apply List.Forall_cons; [|apply List.Forall_nil]]; vm_compute; discriminate.
Qed.

Lemma parse_gguf_roundtrip_witness :
  exists inv, @parse_gguf unlimited (B "m.gguf") ex_gguf = Ok inv /\ alignment inv = 64 /\
    map abs_offset (tensors inv) = [320; 384].
Proof.
  eexists. split.
  - refine (@parse_gguf_roundtrip unlimited (B "m.gguf") ex_gguf ex_kvs ex_tensors (replicate 400 NUL)
      _ _ _ _ _ _ _ ex_kvs_ok ex_tensors_ok ex_fits).
    + intros n. reflexivity.
    + reflexivity.
    + reflexivity.
    + reflexivity.
    + vm_compute. discriminate.
    + vm_compute. discriminate.
    + vm_compute. discriminate.
  - vm_compute. split; reflexivity.
Defined.


Lemma ex_gguf_ok : is_ok (@parse_gguf unlimited (B "m.gguf") ex_gguf) = true.
Proof. vm_compute. reflexivity. Qed.

Lemma parse_gguf_wf_witness :
  exists inv, @parse_gguf unlimited (B "m.gguf") ex_gguf = Ok inv /\ inventory_wf inv.
Proof.
  pose proof ex_gguf_ok as H. destruct (@parse_gguf unlimited (B "m.gguf") ex_gguf) as [inv|] eqn:E; [|discriminate H].
  exists inv. split; [reflexivity|]. exact (proj1 (@parse_gguf_wf unlimited (B "m.gguf") ex_gguf inv E)).
Defined.

(** ** Sizes the inventory gets wrong *)

(** The rounding up to blocks wraps: 2^64 - 1 elements of q4_0 take no
    bytes. *)
Example nbytes_wraps : type_nbytes 2 UINT64_MAX = Some 0.
Proof. reflexivity. Qed.

(** A tensor too large for a 64-bit byte length is recorded with no bytes, so
    the check against the end of the file is skipped. *)
Example huge_tensor_accepted :
  let data := put_header [] [HeaderTensor (B "output.weight") [2 ^ 62; 2] 0 5000] in
  match @parse_gguf unlimited (B "m.gguf") (GgufFile (Some 96) true data (2 ^ 44) []) with
  | Ok inv => map (fun t => (elements t, t_bytes t)) (tensors inv) = [(2 ^ 63, 0)]
  | Error _ => False
  end.
Proof. vm_compute. reflexivity. Qed.

(** ** The summary *)

Definition in_family (f : tensor_family) (t : tensor_desc) : bool :=
  bool_decide (classify_tensor (t_name t) = f).

Lemma family_index_inj (f g : tensor_family) : family_index f = family_index g -> f = g.
Proof. destruct f, g; try done; discriminate. Qed.

Lemma family_index_lt (f : tensor_family) : (family_index f < 12)%nat.
Proof. destruct f; simpl; lia. Qed.

(** The bucket of the tensors that satisfy [p]. *)
Definition bucket_of (p : tensor_desc -> bool) (ts : list tensor_desc) : bucket :=
  Bucket (u64 (countZ p ts))
    (u64 (sumZ (fun t => if p t then t_bytes t else 0) ts))
    (u64 (sumZ (fun t => if p t then elements t else 0) ts)).

Lemma u64_add_l (a b : Z) : u64 (u64 a + b) = u64 (a + b).
Proof. unfold u64. apply Zplus_mod_idemp_l. Qed.

Lemma bucket_of_snoc (p : tensor_desc -> bool) (ts : list tensor_desc) (t : tensor_desc) :
  bucket_of p (ts ++ [t]) = if p t then bucket_add t (bucket_of p ts) else bucket_of p ts.
Proof.
  unfold bucket_of, bucket_add, countZ. cbn [b_count b_bytes b_elements].
  rewrite !sumZ_app. cbn [sumZ foldr].
  destruct (p t); [rewrite !u64_add_l|]; rewrite ?Z.add_0_r; f_equal; f_equal; lia.
Qed.

Definition known_type (t : tensor_desc) : bool := is_Some_b (type_info (t_type t)).

Lemma type_info_lt (type : Z) (i : ggml_type_info) : is_u32 type -> type_info type = Some i -> 0 <= type < 43.
Proof. unfold type_info. intros [H0 _]. destruct (Z.leb_spec 43 type); [done|]. lia. Qed.

Lemma count_tensor_known (s : summary) (t : tensor_desc) :
  count_tensor s t =
    Summary
      (if known_type t then alter (bucket_add t) (Z.to_nat (t_type t)) (type_buckets s) else type_buckets s)
      (alter (bucket_add t) (family_index (classify_tensor (t_name t))) (family_buckets s))
      (u64 (described s + t_bytes t))
      (if known_type t then unknown_type_count s else u64 (unknown_type_count s + 1)).
Proof. unfold count_tensor, known_type. by destruct (type_info (t_type t)). Qed.

Lemma summarize_snoc (ts : list tensor_desc) (t : tensor_desc) :
  summarize (ts ++ [t]) = count_tensor (summarize ts) t.
Proof. unfold summarize. by rewrite foldl_app. Qed.

Lemma family_bucket (ts : list tensor_desc) (f : tensor_family) :
  family_buckets (summarize ts) !! family_index f = Some (bucket_of (in_family f) ts).
Proof.
  induction ts as [|t ts IH] using rev_ind; [by destruct f|].
  rewrite summarize_snoc, count_tensor_known, bucket_of_snoc. cbn [family_buckets].
  unfold in_family at 1. case_bool_decide as Hf.
  - subst f. by rewrite list_lookup_alter_eq, IH.
  - rewrite list_lookup_alter_ne; [done|]. intros E. by apply family_index_inj in E.
Qed.

Lemma type_bucket (ts : list tensor_desc) (type : Z) (i : ggml_type_info) :
  Forall (fun t => is_u32 (t_type t)) ts -> is_u32 type -> type_info type = Some i ->
  type_buckets (summarize ts) !! Z.to_nat type = Some (bucket_of (fun t => t_type t =? type) ts).
Proof.
  intros Hts Hty Hi. pose proof (type_info_lt _ _ Hty Hi) as Hr.
  induction ts as [|t ts IH] using rev_ind.
  - apply lookup_replicate_2. lia.
  - apply Forall_app in Hts as [Hts Ht]. inversion_clear Ht as [|? ? [H0 _] _].
    rewrite summarize_snoc, count_tensor_known, bucket_of_snoc. cbn [type_buckets].
    destruct (Z.eqb_spec (t_type t) type) as [<-|Hne].
    + unfold known_type. rewrite Hi. cbn [is_Some_b]. by rewrite list_lookup_alter_eq, IH.
    + destruct (known_type t); [|by apply IH]. rewrite list_lookup_alter_ne; [by apply IH|lia].
Qed.

(** The summary printed by [run_inventory] counts right: every family and
    every known type has the bucket of exactly its tensors (number, bytes and
    elements modulo 2^64), the unknown types are the tensors no type bucket
    counts, the described bytes are those of all tensors, and the families
    partition the inventory. *)
Theorem summarize_spec (ts : list tensor_desc) :
  Forall (fun t => is_u32 (t_type t)) ts ->
  let s := summarize ts in
  (forall f, family_buckets s !! family_index f = Some (bucket_of (in_family f) ts)) /\
  (forall type i, is_u32 type -> type_info type = Some i ->
     type_buckets s !! Z.to_nat type = Some (bucket_of (fun t => t_type t =? type) ts)) /\
  unknown_type_count s = u64 (countZ (fun t => negb (known_type t)) ts) /\
  described s = u64 (sumZ t_bytes ts) /\
  sumZ (fun f => countZ (in_family f) ts) families = Z.of_nat (length ts).
Proof.
  intros Hts s. split; [apply family_bucket|]. split; [intros; by eapply type_bucket|].
  split; [|split].
  - unfold s, countZ. clear. induction ts as [|t ts IH] using rev_ind; [done|].
    rewrite summarize_snoc, count_tensor_known, sumZ_app. cbn [unknown_type_count sumZ foldr].
    destruct (known_type t); cbn [negb]; rewrite IH; [f_equal; lia|by rewrite u64_add_l, Z.add_0_r].
  - unfold s. clear. induction ts as [|t ts IH] using rev_ind; [done|].
    rewrite summarize_snoc, count_tensor_known, sumZ_app. cbn [described sumZ foldr].
    by rewrite IH, u64_add_l, Z.add_0_r.
  - clear. induction ts as [|t ts IH]; [done|]. unfold countZ in *. cbn [length].
    rewrite (sumZ_ext _ (fun f => (if in_family f t then 1 else 0) +
      sumZ (fun t => if in_family f t then 1 else 0) ts)) by done.
    rewrite sumZ_plus, IH.
    assert (sumZ (fun f => if in_family f t then 1 else 0) families = 1) as ->; [|lia].
    unfold in_family. by destruct (classify_tensor (t_name t)).
Qed.

Lemma summarize_spec_witness :
  family_buckets (summarize (map (ht_desc 0) ex_tensors)) !! 7%nat = Some (Bucket 1 34 64).
Proof.
  refine (eq_trans (proj1 (summarize_spec (map (ht_desc 0) ex_tensors) _) FAMILY_ROUTED_EXPERT) _).
  - repeat constructor; discriminate.
  - vm_compute. reflexivity.
Defined.
