(* ===== verification/SourceFormats.v ===== *)
(** * Source tensor formats (ds4_source_formats.c)

    The scalar decoders, the packed rows of FP8-E4M3 blocks (a scale byte and
    128 codes) and of MXFP4 blocks (a scale byte and 16 bytes of two codes),
    their sizes, conversions to [float] and dot products.  [float] and
    [double] are Stdlib's binary floats with IEEE rounding, in the order of
    operations the code writes; the build's fast-math flag lets a compiler
    choose another order or flush subnormal numbers, which is not modelled. *)
From Stdlib Require Import Floats.SpecFloat.
From S2P Require Import Prelude.

Abbreviation f32 := spec_float.
Abbreviation f64 := spec_float.

Definition f32_mul : f32 -> f32 -> f32 := SFmul 24 128.
Definition f64_mul : f64 -> f64 -> f64 := SFmul 53 1024.
Definition f64_add : f64 -> f64 -> f64 := SFadd 53 1024.

(** Conversions between the two widths: exact one way, rounded the other. *)
Definition f_convert (prec emax : Z) (x : spec_float) : spec_float :=
  match x with
  | S754_finite s m e => binary_normalize prec emax (cond_Zopp s (Zpos m)) e s
  | _ => x
  end.
Definition f64_of_f32 : f32 -> f64 := f_convert 53 1024.
Definition f32_of_f64 : f64 -> f32 := f_convert 24 128.
Definition f32_of_int (n : Z) : f32 := binary_normalize 24 128 n 0 false.

Definition f32_from_bits (bits : Z) : f32 :=
  let s := Z.testbit bits 31 in
  let e := Z.land (Z.shiftr bits 23) 255 in
  let m := Z.land bits (2 ^ 23 - 1) in
  if e =? 0 then match m with Zpos p => S754_finite s p (-149) | _ => S754_zero s end
  else if e =? 255 then if m =? 0 then S754_infinity s else S754_nan
  else S754_finite s (Z.to_pos (m + 2 ^ 23)) (e - 150).

(** ** Scalars *)

Definition ds4_src_bf16_to_f32 (bits : Z) : f32 := f32_from_bits (Z.shiftl bits 16).

Definition ds4_src_e8m0_to_f32 (e : Z) : f32 :=
  f32_from_bits (if e =? 0 then 0x00400000 else Z.shiftl e 23).

Definition ds4_src_e4m3fn_to_f32 (x : Z) : f32 :=
  let abs := Z.land x 0x7f in
  let sign := negb (Z.land x 0x80 =? 0) in
  if abs =? 0 then f32_from_bits (if sign then 0x80000000 else 0)
  else if abs =? 0x7f then f32_from_bits 0x7fc00000
  else
    let exp := Z.land (Z.shiftr x 3) 0x0f in
    let man := Z.land x 0x07 in
    let value :=
      if exp =? 0 then SFldexp 24 128 (f32_of_int man) (-9)
      else SFldexp 24 128
             (SFadd 24 128 (f32_of_int 1) (SFdiv 24 128 (f32_of_int man) (f32_of_int 8))) (exp - 7) in
    if sign then SFopp value else value.

(** The table, in halves. *)
Definition fp4_table : list Z := [0; 1; 2; 3; 4; 6; 8; 12; 0; -1; -2; -3; -4; -6; -8; -12].
Definition ds4_src_mxfp4_nibble_to_f32 (q : Z) : f32 :=
  binary_normalize 24 128 (default 0 (fp4_table !! Z.to_nat (Z.land q 0x0f))) (-1) false.

(** ** Row sizes *)

Definition DS4_SRC_F8_E4M3_B128_BLOCK_ELEMS : Z := 128.
Definition DS4_SRC_F8_E4M3_B128_BLOCK_BYTES : Z := 129.
Definition DS4_SRC_MXFP4_BLOCK_ELEMS : Z := 32.
Definition DS4_SRC_MXFP4_BLOCK_BYTES : Z := 17.

Definition packed_row_bytes (ncols block_elems block_bytes : Z) : Z :=
  if (ncols =? 0) || negb (ncols mod block_elems =? 0) then 0
  else
    let nblocks := ncols / block_elems in
    if UINT64_MAX / block_bytes <? nblocks then 0 else u64 (nblocks * block_bytes).

(** The messages fit the buffer of 96 bytes for both names. *)
Definition validate_packed_row_span (name : string) (ncols span_bytes block_elems block_bytes : Z) : res unit :=
  if (ncols =? 0) || negb (ncols mod block_elems =? 0) then
    fail "%s row length is not a nonzero multiple of block size" [AS (B name)]
  else
    let need := packed_row_bytes ncols block_elems block_bytes in
    if need =? 0 then fail "%s row byte count overflow" [AS (B name)]
    else if span_bytes <? need then fail "undersized %s row span" [AS (B name)]
    else Ok tt.

Definition ds4_src_f8_e4m3_b128_row_bytes (ncols : Z) : Z :=
  packed_row_bytes ncols DS4_SRC_F8_E4M3_B128_BLOCK_ELEMS DS4_SRC_F8_E4M3_B128_BLOCK_BYTES.
Definition ds4_src_mxfp4_row_bytes (ncols : Z) : Z :=
  packed_row_bytes ncols DS4_SRC_MXFP4_BLOCK_ELEMS DS4_SRC_MXFP4_BLOCK_BYTES.
Definition ds4_src_f8_e4m3_b128_validate_row_span (ncols span_bytes : Z) : res unit :=
  validate_packed_row_span "f8" ncols span_bytes
    DS4_SRC_F8_E4M3_B128_BLOCK_ELEMS DS4_SRC_F8_E4M3_B128_BLOCK_BYTES.
Definition ds4_src_mxfp4_validate_row_span (ncols span_bytes : Z) : res unit :=
  validate_packed_row_span "mxfp4" ncols span_bytes
    DS4_SRC_MXFP4_BLOCK_ELEMS DS4_SRC_MXFP4_BLOCK_BYTES.

(** ** Rows

    A row function returns [None] when it reads past the end of a buffer
    (undefined in C), else its result: the values written to [dst], in index
    order, or the error. *)

(** [for (i = 0; i < n; i++)]. *)
Definition upto (n : Z) : list Z := map Z.of_nat (seq 0 (Z.to_nat n)).

Definition read (src : bytes) (i : Z) : option Z := bz <$> src !! Z.to_nat i.

(** A loop whose body may read out of bounds. *)
Fixpoint ofold {S A : Type} (f : S -> A -> option S) (s : S) (l : list A) : option S :=
  match l with
  | [] => Some s
  | a :: l' => match f s a with Some s' => ofold f s' l' | None => None end
  end.

Definition ds4_src_bf16_row_to_f32 (src : option (list Z)) (n : Z) : option (option (list f32)) :=
  match src with
  | None => Some None
  | Some src =>
      if n =? 0 then Some None
      else Some <$> mapM (fun i => ds4_src_bf16_to_f32 <$> src !! Z.to_nat i) (upto n)
  end.

(** The product [ds4_src_e4m3fn_to_f32(qs[i]) * scale] of block [b]. *)
Definition f8_elem (src : bytes) (b i : Z) : option f32 :=
  let block := u64 (b * DS4_SRC_F8_E4M3_B128_BLOCK_BYTES) in
  s ← read src block; q ← read src (block + 1 + i);
  Some (f32_mul (ds4_src_e4m3fn_to_f32 q) (ds4_src_e8m0_to_f32 s)).

Definition ds4_src_f8_e4m3_b128_row_to_f32 (src : option bytes) (ncols : Z) : option (res (list f32)) :=
  match src with
  | None => Some (fail "null f8 row buffer" [])
  | Some src =>
      if (ncols =? 0) || negb (ncols mod DS4_SRC_F8_E4M3_B128_BLOCK_ELEMS =? 0) then
        Some (fail "f8 row length is not a nonzero multiple of 128" [])
      else
        blocks ← mapM (fun b => mapM (f8_elem src b) (upto DS4_SRC_F8_E4M3_B128_BLOCK_ELEMS))
                   (upto (ncols / DS4_SRC_F8_E4M3_B128_BLOCK_ELEMS));
        Some (Ok (concat blocks))
  end.

(** [acc += (double)p * (double)xb[i]]. *)
Definition dot_step (x : list f32) (acc : f64) (p : f32) (at_ : Z) : option f64 :=
  xi ← x !! Z.to_nat at_;
  Some (f64_add acc (f64_mul (f64_of_f32 p) (f64_of_f32 xi))).

Definition ds4_src_f8_e4m3_b128_row_dot (src : option bytes) (x : option (list f32)) (ncols : Z)
  : option (res f32) :=
  match src, x with
  | Some src, Some x =>
      if (ncols =? 0) || negb (ncols mod DS4_SRC_F8_E4M3_B128_BLOCK_ELEMS =? 0) then
        Some (fail "f8 dot length is not a nonzero multiple of 128" [])
      else
        acc ← ofold (fun acc b =>
                ofold (fun acc i =>
                    p ← f8_elem src b i;
                    dot_step x acc p (u64 (b * DS4_SRC_F8_E4M3_B128_BLOCK_ELEMS) + i))
                  acc (upto DS4_SRC_F8_E4M3_B128_BLOCK_ELEMS))
              (S754_zero false) (upto (ncols / DS4_SRC_F8_E4M3_B128_BLOCK_ELEMS));
        Some (Ok (f32_of_f64 acc))
  | _, _ => Some (fail "null f8 dot buffer" [])
  end.

(** The two products of byte [qs[j]] of block [b]: low and high nibble. *)
Definition mxfp4_elems (src : bytes) (b j : Z) : option (f32 * f32) :=
  let block := u64 (b * DS4_SRC_MXFP4_BLOCK_BYTES) in
  s ← read src block; q ← read src (block + 1 + j);
  let scale := ds4_src_e8m0_to_f32 s in
  Some (f32_mul (ds4_src_mxfp4_nibble_to_f32 (Z.land q 0x0f)) scale,
        f32_mul (ds4_src_mxfp4_nibble_to_f32 (Z.land (Z.shiftr q 4) 0x0f)) scale).

(** Low nibbles fill the first half of the block, high nibbles the second. *)
Definition ds4_src_mxfp4_row_to_f32 (src : option bytes) (ncols : Z) : option (res (list f32)) :=
  match src with
  | None => Some (fail "null mxfp4 row buffer" [])
  | Some src =>
      if (ncols =? 0) || negb (ncols mod DS4_SRC_MXFP4_BLOCK_ELEMS =? 0) then
        Some (fail "mxfp4 row length is not a nonzero multiple of 32" [])
      else
        blocks ← mapM (fun b =>
                     pairs ← mapM (mxfp4_elems src b) (upto (DS4_SRC_MXFP4_BLOCK_ELEMS / 2));
                     Some (map fst pairs ++ map snd pairs))
                   (upto (ncols / DS4_SRC_MXFP4_BLOCK_ELEMS));
        Some (Ok (concat blocks))
  end.

Definition ds4_src_mxfp4_row_dot (src : option bytes) (x : option (list f32)) (ncols : Z)
  : option (res f32) :=
  match src, x with
  | Some src, Some x =>
      if (ncols =? 0) || negb (ncols mod DS4_SRC_MXFP4_BLOCK_ELEMS =? 0) then
        Some (fail "mxfp4 dot length is not a nonzero multiple of 32" [])
      else
        acc ← ofold (fun acc b =>
                ofold (fun acc j =>
                    p ← mxfp4_elems src b j;
                    let xb := u64 (b * DS4_SRC_MXFP4_BLOCK_ELEMS) in
                    acc ← dot_step x acc p.1 (xb + j);
                    dot_step x acc p.2 (xb + (j + DS4_SRC_MXFP4_BLOCK_ELEMS / 2)))
                  acc (upto (DS4_SRC_MXFP4_BLOCK_ELEMS / 2)))
              (S754_zero false) (upto (ncols / DS4_SRC_MXFP4_BLOCK_ELEMS));
        Some (Ok (f32_of_f64 acc))
  | _, _ => Some (fail "null mxfp4 dot buffer" [])
  end.

(** Routing ids; the result is the values written on success. *)
Definition ds4_src_i32_row_to_u32 (src : option (list Z)) (n : Z) : option (res (list Z)) :=
  match src with
  | None => Some (fail "null i32 row buffer" [])
  | Some src =>
      if n =? 0 then Some (fail "i32 row length is zero" [])
      else
        ofold (fun (acc : res (list Z)) i =>
          match acc with
          | Error _ => Some acc
          | Ok out =>
              v ← src !! Z.to_nat i;
              Some (if v <? 0 then fail "negative i32 routing id" [] else Ok (out ++ [u32 v]))
          end) (Ok []) (upto n)
  end.

(** ** What the rows mean *)

(** Byte [i] of a buffer that has it. *)
Definition byte_at (src : bytes) (i : Z) : Z := default 0 (read src i).
Definition f32_at (x : list f32) (i : Z) : f32 := default S754_nan (x !! Z.to_nat i).

Definition f8_value (src : bytes) (b i : Z) : f32 :=
  f32_mul (ds4_src_e4m3fn_to_f32 (byte_at src (b * 129 + 1 + i))) (ds4_src_e8m0_to_f32 (byte_at src (b * 129))).
Definition f8_row (src : bytes) (ncols : Z) : list f32 :=
  map (fun i => f8_value src (i / 128) (i mod 128)) (upto ncols).

(** Code [j] of block [b]. *)
Definition mxfp4_code (src : bytes) (b j : Z) : Z :=
  if j <? 16 then Z.land (byte_at src (b * 17 + 1 + j)) 15
  else Z.shiftr (byte_at src (b * 17 + 1 + (j - 16))) 4.
Definition mxfp4_value (src : bytes) (b j : Z) : f32 :=
  f32_mul (ds4_src_mxfp4_nibble_to_f32 (mxfp4_code src b j)) (ds4_src_e8m0_to_f32 (byte_at src (b * 17))).
Definition mxfp4_row (src : bytes) (ncols : Z) : list f32 :=
  map (fun i => mxfp4_value src (i / 32) (i mod 32)) (upto ncols).

(** The dot product of two rows, accumulated in double over the indexes [order]. *)
Definition dot_over (order : list Z) (row x : list f32) : f32 :=
  f32_of_f64 (foldl (fun acc i => f64_add acc (f64_mul (f64_of_f32 (f32_at row i)) (f64_of_f32 (f32_at x i))))
                (S754_zero false) order).

(** The order of the MXFP4 loop: both nibbles of a byte before the next byte. *)
Definition mxfp4_order (ncols : Z) : list Z :=
  flat_map (fun b => flat_map (fun j => [b * 32 + j; b * 32 + (j + 16)]) (upto 16)) (upto (ncols / 32)).

(** [f] is exactly [m * 2^e], or the infinity of its sign when that is too large
    for a [float]. *)
Definition f32_is (f : f32) (m e : Z) : bool :=
  match f with
  | S754_zero _ => m =? 0
  | S754_finite s p k =>
      let lo := Z.min e k in
      (m * 2 ^ (e - lo) =? cond_Zopp s (Zpos p) * 2 ^ (k - lo))
  | S754_infinity s => (2 ^ 428 <=? Z.abs m * 2 ^ (e + 300)) && Bool.eqb s (m <? 0)
  | S754_nan => false
  end.

(** The value of an E4M3 code, [None] for not-a-number. *)
Definition e4m3_value (x : Z) : option (Z * Z) :=
  let sign := if x <? 128 then 1 else -1 in
  let E := (x mod 128) / 8 in let M := x mod 8 in
  if x mod 128 =? 127 then None
  else Some (if E =? 0 then (sign * M, -9) else (sign * (8 + M), E - 10)).

(** ** Lemmas *)

Lemma upto_elem (n i : Z) : i ∈ upto n <-> 0 <= i < n.
Proof.
  unfold upto. rewrite list_elem_of_In, in_map_iff. setoid_rewrite in_seq. split.
  - intros (k & <- & ?). lia.
  - intros. exists (Z.to_nat i). lia.
Qed.

Lemma upto_snoc (n : Z) : 0 <= n -> upto (n + 1) = upto n ++ [n].
Proof.
  intros Hn. unfold upto. replace (Z.to_nat (n + 1)) with (S (Z.to_nat n)) by lia.
  rewrite seq_S, map_app. simpl. by rewrite Z2Nat.id.
Qed.

Lemma upto_length (n : Z) : length (upto n) = Z.to_nat n.
Proof. unfold upto. by rewrite length_map, length_seq. Qed.

Lemma upto_lookup (n i : Z) : 0 <= i < n -> upto n !! Z.to_nat i = Some i.
Proof.
  intros Hi. unfold upto. rewrite list_lookup_fmap, lookup_seq_lt by lia. simpl. f_equal. lia.
Qed.

(** Adding a block of [n] indexes. *)
Lemma upto_block (n k : Z) : 0 <= n -> 0 <= k ->
  upto (n * (k + 1)) = upto (n * k) ++ map (fun i => n * k + i) (upto n).
Proof.
  intros Hn Hk. unfold upto.
  replace (Z.to_nat (n * (k + 1))) with (Z.to_nat (n * k) + Z.to_nat n)%nat by nia.
  rewrite seq_app, map_app. f_equal. rewrite map_map, Nat.add_0_l.
  assert (forall a, map Z.of_nat (seq a (Z.to_nat n)) = map (fun x => Z.of_nat a + Z.of_nat x) (seq 0 (Z.to_nat n))) as Hs.
  { induction (Z.to_nat n) as [|m IH]; intros a; [done|]. rewrite !seq_S, !map_app, IH. simpl.
    do 2 f_equal. lia. }
  rewrite Hs. apply map_ext. intros a. nia.
Qed.

(** Blocks of [n] elements laid end to end. *)
Lemma concat_blocks {A : Type} (n : Z) (g : Z -> Z -> A) (k : nat) : 0 < n ->
  concat (map (fun b => map (g b) (upto n)) (upto (Z.of_nat k))) =
  map (fun i => g (i / n) (i mod n)) (upto (n * Z.of_nat k)).
Proof.
  intros Hn. induction k as [|k IH]; [by rewrite Z.mul_0_r|].
  replace (Z.of_nat (S k)) with (Z.of_nat k + 1) by lia.
  rewrite upto_snoc, map_app, concat_app, IH, upto_block, map_app, map_map by lia. f_equal.
  simpl. rewrite app_nil_r. apply map_ext_in. intros i Hi. apply list_elem_of_In, upto_elem in Hi.
  assert ((n * Z.of_nat k + i) / n = Z.of_nat k) as ->.
  { rewrite Z.mul_comm, Z.add_comm, Z.div_add, Z.div_small by lia. lia. }
  by rewrite Z.mul_comm, Z.add_comm, Z.mod_add, Z.mod_small by lia.
Qed.

Lemma foldl_blocks {T : Type} (n : Z) (g : T -> Z -> T) (k : nat) (s : T) : 0 < n ->
  foldl (fun s b => foldl (fun s i => g s (n * b + i)) s (upto n)) s (upto (Z.of_nat k)) =
  foldl g s (upto (n * Z.of_nat k)).
Proof.
  intros Hn. induction k as [|k IH]; [by rewrite Z.mul_0_r|].
  replace (Z.of_nat (S k)) with (Z.of_nat k + 1) by lia.
  rewrite upto_snoc, foldl_app, IH, upto_block, foldl_app by lia. simpl.
  generalize (foldl g s (upto (n * Z.of_nat k))) as s'. clear IH.
  induction (upto n) as [|i l IHl]; intros s'; [done|]. simpl. apply IHl.
Qed.

Lemma mapM_total {A B : Type} (f : A -> option B) (g : A -> B) (l : list A) :
  (forall a, a ∈ l -> f a = Some (g a)) -> mapM f l = Some (map g l).
Proof.
  induction l as [|a l IH]; intros H; [done|]. simpl. rewrite H by (by left). simpl.
  rewrite IH; [done|]. intros. apply H. by right.
Qed.

Lemma ofold_total {T A : Type} (f : T -> A -> option T) (g : T -> A -> T) (l : list A) : forall s,
  (forall s a, a ∈ l -> f s a = Some (g s a)) -> ofold f s l = Some (foldl g s l).
Proof.
  induction l as [|a l IH]; intros s H; [done|]. simpl. rewrite H by (by left). apply IH.
  intros. apply H. by right.
Qed.

Lemma foldl_ext_in {T A : Type} (f g : T -> A -> T) (l : list A) : forall s,
  (forall s a, a ∈ l -> f s a = g s a) -> foldl f s l = foldl g s l.
Proof.
  induction l as [|a l IH]; intros s H; [done|]. simpl. rewrite H by (by left). apply IH.
  intros. apply H. by right.
Qed.

Lemma foldl_flat_map {T A B : Type} (g : T -> B -> T) (h : A -> list B) (l : list A) : forall s,
  foldl g s (flat_map h l) = foldl (fun s a => foldl g s (h a)) s l.
Proof. induction l as [|a l IH]; intros s; [done|]. simpl. by rewrite foldl_app, IH. Qed.

Lemma read_in (src : bytes) (i : Z) : 0 <= i < Z.of_nat (length src) -> read src i = Some (byte_at src i).
Proof.
  intros Hi. unfold byte_at, read. destruct (lookup_lt_is_Some_2 src (Z.to_nat i)) as [b ->]; [lia|done].
Qed.

Lemma byte_at_range (src : bytes) (i : Z) : 0 <= byte_at src i < 256.
Proof. unfold byte_at, read. destruct (src !! _); simpl; [apply bz_range|lia]. Qed.

(** When a row has a size, the length is a positive number of whole blocks. *)
Lemma packed_row_bytes_blocks (ncols n w : Z) : is_u64 ncols -> 0 < n -> 0 < w ->
  packed_row_bytes ncols n w <> 0 ->
  exists k : nat, ncols = n * Z.of_nat k /\ (0 < k)%nat /\ ncols / n = Z.of_nat k /\
    packed_row_bytes ncols n w = Z.of_nat k * w /\ Z.of_nat k * w <= UINT64_MAX /\
    (ncols =? 0) || negb (ncols mod n =? 0) = false.
Proof.
  intros Hu Hn Hw. unfold packed_row_bytes. destruct (_ || _) eqn:E1; [done|]. cbv zeta.
  destruct (_ <? _) eqn:E2; [done|]. bool_hyps. intros _.
  pose proof (Z.div_mod ncols n ltac:(lia)) as Hd.
  pose proof (Z.div_mod UINT64_MAX w ltac:(lia)) as Hm.
  pose proof (Z.mod_pos_bound UINT64_MAX w ltac:(lia)).
  assert (0 <= ncols / n) by (apply Z.div_pos; zlia).
  exists (Z.to_nat (ncols / n)). rewrite !Z2Nat.id by done.
  assert (ncols / n * w <= UINT64_MAX) by nia.
  rewrite u64_small by (unfold is_u64; nia).
  assert (ncols / n <> 0) by nia.
  split; [lia|]. split; [lia|]. do 2 (split; [done|]). split; done.
Qed.

Lemma f8_elem_in (src : bytes) (b i : Z) (k : nat) :
  Z.of_nat k * 129 <= Z.of_nat (length src) -> Z.of_nat k * 129 <= UINT64_MAX ->
  b ∈ upto (Z.of_nat k) -> i ∈ upto 128 ->
  f8_elem src b i = Some (f8_value src b i).
Proof.
  intros Hl Hu Hb%upto_elem Hi%upto_elem. unfold f8_elem, DS4_SRC_F8_E4M3_B128_BLOCK_BYTES.
  rewrite u64_small by (unfold is_u64; lia). by rewrite !read_in by lia.
Qed.

Lemma high_nibble (q : Z) : 0 <= q < 256 -> Z.land (Z.shiftr q 4) 15 = Z.shiftr q 4.
Proof.
  intros Hq. change 15 with (Z.ones 4). rewrite Z.land_ones, Z.shiftr_div_pow2 by lia.
  apply Z.mod_small. split; [apply Z.div_pos; lia|apply Z.div_lt_upper_bound; lia].
Qed.

Lemma mxfp4_elems_in (src : bytes) (b j : Z) (k : nat) :
  Z.of_nat k * 17 <= Z.of_nat (length src) -> Z.of_nat k * 17 <= UINT64_MAX ->
  b ∈ upto (Z.of_nat k) -> j ∈ upto 16 ->
  mxfp4_elems src b j = Some (mxfp4_value src b j, mxfp4_value src b (j + 16)).
Proof.
  intros Hl Hu Hb%upto_elem Hj%upto_elem. unfold mxfp4_elems, DS4_SRC_MXFP4_BLOCK_BYTES.
  rewrite u64_small by (unfold is_u64; lia). rewrite !read_in by lia. cbn [mbind option_bind].
  unfold mxfp4_value, mxfp4_code. destruct (Z.ltb_spec j 16); [|lia]. destruct (Z.ltb_spec (j + 16) 16); [lia|].
  replace (j + 16 - 16) with j by lia.
  rewrite (high_nibble (byte_at src (b * 17 + 1 + j))) by apply byte_at_range. done.
Qed.

Lemma f8_row_at (src : bytes) (ncols b i : Z) : 0 <= b -> 0 <= i < 128 -> 128 * b + i < ncols ->
  f32_at (f8_row src ncols) (128 * b + i) = f8_value src b i.
Proof.
  intros Hb Hi Hn. unfold f32_at, f8_row. rewrite list_lookup_fmap, upto_lookup by lia. simpl.
  by rewrite (Z.mul_comm 128 b), Z.add_comm, Z.div_add, Z.mod_add, Z.div_small, Z.mod_small by lia.
Qed.

Lemma mxfp4_row_at (src : bytes) (ncols b i : Z) : 0 <= b -> 0 <= i < 32 -> b * 32 + i < ncols ->
  f32_at (mxfp4_row src ncols) (b * 32 + i) = mxfp4_value src b i.
Proof.
  intros Hb Hi Hn. unfold f32_at, mxfp4_row. rewrite list_lookup_fmap, upto_lookup by lia. simpl.
  by rewrite Z.add_comm, Z.div_add, Z.mod_add, Z.div_small, Z.mod_small by lia.
Qed.

(** A block in index order is its low nibbles, then its high nibbles. *)
Lemma mxfp4_halves (src : bytes) (b : Z) :
  map (mxfp4_value src b) (upto 32) =
  map (mxfp4_value src b) (upto 16) ++ map (fun j => mxfp4_value src b (j + 16)) (upto 16).
Proof.
  change (upto 32) with (upto (16 * (1 + 1))). rewrite upto_block by lia.
  rewrite map_app, map_map. change (16 * 1) with 16.
  apply (f_equal2 app); [done|]. apply map_ext. intros j. by rewrite Z.add_comm.
Qed.

Lemma dot_step_in (x : list f32) (acc : f64) (p : f32) (i : Z) : 0 <= i < Z.of_nat (length x) ->
  dot_step x acc p i = Some (f64_add acc (f64_mul (f64_of_f32 p) (f64_of_f32 (f32_at x i)))).
Proof.
  intros Hi. unfold dot_step, f32_at. destruct (lookup_lt_is_Some_2 x (Z.to_nat i)) as [v ->]; [lia|done].
Qed.

(** Exhaustive checks over the small code spaces. *)
Lemma forallb_upto (f : Z -> bool) (n i : Z) : forallb f (upto n) = true -> 0 <= i < n -> f i = true.
Proof. rewrite forallb_forall. intros H Hi. by apply H, list_elem_of_In, upto_elem. Qed.

Lemma forallb_upto2 (f : Z -> Z -> bool) (n m i j : Z) :
  forallb (fun i => forallb (f i) (upto m)) (upto n) = true -> 0 <= i < n -> 0 <= j < m -> f i j = true.
Proof. intros H Hi Hj. apply (forallb_upto _ m); [|done]. by apply (forallb_upto (fun i => forallb (f i) (upto m)) n). Qed.

Definition e4m3_ok (q : Z) : bool :=
  match e4m3_value q, ds4_src_e4m3fn_to_f32 q with
  | Some (m, k), f => f32_is f m k
  | None, S754_nan => true
  | None, _ => false
  end.
Definition fp4_ok (q e : Z) : bool :=
  f32_is (f32_mul (ds4_src_mxfp4_nibble_to_f32 q) (ds4_src_e8m0_to_f32 e))
    (default 0 (fp4_table !! Z.to_nat q)) (e - 128).

(** ** Properties *)

(** The scalar decoders are exact.  Every E4M3 code decodes to the number
    the format assigns to it (the code 0x7f of either sign to not-a-number),
    every scale byte below 255 to its power of two, and an MXFP4 code times
    any such scale is exactly the product, or the infinity of its sign when
    the product exceeds the range of [float]. *)
Theorem ds4_src_scalars_exact (x q e : Z) : 0 <= x < 256 -> 0 <= q < 16 -> 0 <= e < 255 ->
  match e4m3_value x with
  | Some (m, k) => f32_is (ds4_src_e4m3fn_to_f32 x) m k = true
  | None => ds4_src_e4m3fn_to_f32 x = S754_nan
  end /\
  f32_is (ds4_src_e8m0_to_f32 e) 1 (e - 127) = true /\
  f32_is (f32_mul (ds4_src_mxfp4_nibble_to_f32 q) (ds4_src_e8m0_to_f32 e))
    (default 0 (fp4_table !! Z.to_nat q)) (e - 128) = true.
Proof.
  intros Hx Hq He. split; [|split].
  - pose proof (forallb_upto e4m3_ok 256 x ltac:(vm_cast_no_check (eq_refl true)) Hx) as H.
    unfold e4m3_ok in H. destruct (e4m3_value x) as [[m k]|]; [done|].
    by destruct (ds4_src_e4m3fn_to_f32 x).
  - exact (forallb_upto (fun e => f32_is (ds4_src_e8m0_to_f32 e) 1 (e - 127)) 255 e
             ltac:(vm_cast_no_check (eq_refl true)) He).
  - exact (forallb_upto2 fp4_ok 16 255 q e ltac:(vm_cast_no_check (eq_refl true)) Hq He).
Qed.

(** FP8 rows: for a length that is a positive multiple of 128 whose row size
    fits 64 bits, over a buffer of at least that many bytes,
    [ds4_src_f8_e4m3_b128_row_to_f32] reads within the buffer and writes each
    code times the scale of its block; every other length is refused without
    reading.  [ds4_src_f8_e4m3_b128_row_dot] is the dot product of the decoded
    row with [x], accumulated in index order. *)
Theorem ds4_src_f8_e4m3_b128_row_spec (src : bytes) (x : list f32) (ncols : Z) : is_u64 ncols ->
  let need := ds4_src_f8_e4m3_b128_row_bytes ncols in
  (need <> 0 -> need <= Z.of_nat (length src) -> ncols <= Z.of_nat (length x) ->
   ds4_src_f8_e4m3_b128_row_to_f32 (Some src) ncols = Some (Ok (f8_row src ncols)) /\
   ds4_src_f8_e4m3_b128_row_dot (Some src) (Some x) ncols =
     Some (Ok (dot_over (upto ncols) (f8_row src ncols) x))) /\
  (ncols = 0 \/ ncols mod 128 <> 0 ->
   need = 0 /\
   ds4_src_f8_e4m3_b128_row_to_f32 (Some src) ncols =
     Some (fail "f8 row length is not a nonzero multiple of 128" []) /\
   ds4_src_f8_e4m3_b128_row_dot (Some src) (Some x) ncols =
     Some (fail "f8 dot length is not a nonzero multiple of 128" [])).
Proof.
  intros Hu need. subst need. unfold ds4_src_f8_e4m3_b128_row_bytes,
    ds4_src_f8_e4m3_b128_row_to_f32, ds4_src_f8_e4m3_b128_row_dot,
    DS4_SRC_F8_E4M3_B128_BLOCK_ELEMS, DS4_SRC_F8_E4M3_B128_BLOCK_BYTES.
  split.
  - intros H0 Hlen Hx.
    destruct (packed_row_bytes_blocks ncols 128 129 Hu ltac:(lia) ltac:(lia) H0) as (k & Hn & Hk & Hd & Hb & Hm & Ht).
    rewrite Ht, Hd. rewrite Hb in Hlen. split.
    + erewrite mapM_total; [|intros b Hib; apply mapM_total; intros i Hi; by apply (f8_elem_in src b i k)].
      cbn [mbind option_bind]. do 2 f_equal. rewrite concat_blocks by lia. unfold f8_row. by rewrite Hn.
    + erewrite ofold_total; [cbn [mbind option_bind]; do 3 f_equal|].
      2:{ intros acc b Hib. apply ofold_total. intros acc' i Hi. rewrite (f8_elem_in src b i k) by done.
          cbn [mbind option_bind]. apply upto_elem in Hib. apply upto_elem in Hi.
          rewrite u64_small by (unfold is_u64; lia). apply dot_step_in. lia. }
      unfold dot_over. rewrite Hn, <- foldl_blocks by lia. f_equal.
      apply foldl_ext_in. intros acc b Hib. apply foldl_ext_in.
      intros acc' i Hi. apply upto_elem in Hib. apply upto_elem in Hi. rewrite f8_row_at by lia.
      by rewrite (Z.mul_comm 128 b).
  - intros Hbad. assert ((ncols =? 0) || negb (ncols mod 128 =? 0) = true) as Ht.
    { apply orb_true_iff. rewrite negb_true_iff, Z.eqb_eq, Z.eqb_neq. done. }
    unfold packed_row_bytes. by rewrite Ht.
Qed.

(** MXFP4 rows: as for FP8, with 32 codes to a block of 17 bytes; the low
    nibbles of the 16 code bytes are the first half of a block and the high
    nibbles the second.  The dot product visits the indexes of
    [mxfp4_order]: both nibbles of a byte before the next byte. *)
Theorem ds4_src_mxfp4_row_spec (src : bytes) (x : list f32) (ncols : Z) : is_u64 ncols ->
  let need := ds4_src_mxfp4_row_bytes ncols in
  (need <> 0 -> need <= Z.of_nat (length src) -> ncols <= Z.of_nat (length x) ->
   ds4_src_mxfp4_row_to_f32 (Some src) ncols = Some (Ok (mxfp4_row src ncols)) /\
   ds4_src_mxfp4_row_dot (Some src) (Some x) ncols =
     Some (Ok (dot_over (mxfp4_order ncols) (mxfp4_row src ncols) x))) /\
  (ncols = 0 \/ ncols mod 32 <> 0 ->
   need = 0 /\
   ds4_src_mxfp4_row_to_f32 (Some src) ncols =
     Some (fail "mxfp4 row length is not a nonzero multiple of 32" []) /\
   ds4_src_mxfp4_row_dot (Some src) (Some x) ncols =
     Some (fail "mxfp4 dot length is not a nonzero multiple of 32" [])).
Proof.
  intros Hu need. subst need. unfold ds4_src_mxfp4_row_bytes, ds4_src_mxfp4_row_to_f32,
    ds4_src_mxfp4_row_dot, DS4_SRC_MXFP4_BLOCK_ELEMS, DS4_SRC_MXFP4_BLOCK_BYTES.
  change (32 / 2) with 16. split.
  - intros H0 Hlen Hx.
    destruct (packed_row_bytes_blocks ncols 32 17 Hu ltac:(lia) ltac:(lia) H0) as (k & Hn & Hk & Hd & Hb & Hm & Ht).
    rewrite Ht, Hd. rewrite Hb in Hlen. split.
    + erewrite mapM_total; [cbn [mbind option_bind]; do 2 f_equal|].
      2:{ intros b Hib. erewrite mapM_total; [reflexivity|]. intros j Hj. by apply (mxfp4_elems_in src b j k). }
      unfold mxfp4_row. rewrite Hn, <- concat_blocks by lia. apply (f_equal (@concat f32)), map_ext. intros b.
      by rewrite !map_map, mxfp4_halves.
    + erewrite ofold_total; [cbn [mbind option_bind]|].
      2:{ intros acc b Hib. apply ofold_total. intros acc' j Hj. rewrite (mxfp4_elems_in src b j k) by done.
          cbn [mbind option_bind fst snd]. apply upto_elem in Hib. apply upto_elem in Hj.
          rewrite u64_small by (unfold is_u64 in *; lia). rewrite dot_step_in by lia. cbn [mbind option_bind].
          apply dot_step_in. lia. }
      unfold dot_over, mxfp4_order. rewrite foldl_flat_map, Hd. apply (f_equal (fun a => Some (Ok (f32_of_f64 a)))).
      apply foldl_ext_in. intros acc b Hib. rewrite foldl_flat_map. apply foldl_ext_in.
      intros acc' j Hj. apply upto_elem in Hib. apply upto_elem in Hj. cbn [foldl].
      by rewrite !mxfp4_row_at by lia.
  - intros Hbad. assert ((ncols =? 0) || negb (ncols mod 32 =? 0) = true) as Ht.
    { apply orb_true_iff. rewrite negb_true_iff, Z.eqb_eq, Z.eqb_neq. done. }
    unfold packed_row_bytes. by rewrite Ht.
Qed.

(** ** Witnesses *)

(** A row of one block: scale byte 128 (two), code 0x38 (one) throughout. *)
Definition ex_f8_src : bytes := zb 128 :: replicate 128 (zb 0x38).
(** Scale byte 127 (one), code bytes 0x21 (one half and one). *)
Definition ex_mx_src : bytes := zb 127 :: replicate 16 (zb 0x21).
Definition ex_ones (n : nat) : list f32 := replicate n (f32_of_int 1).

Lemma ds4_src_scalars_exact_witness :
  f32_is (ds4_src_e4m3fn_to_f32 0xfe) (-14) 5 = true /\
  f32_is (f32_mul (ds4_src_mxfp4_nibble_to_f32 15) (ds4_src_e8m0_to_f32 254)) (-12) 126 = true.
Proof.
  destruct (ds4_src_scalars_exact 0xfe 15 254 ltac:(lia) ltac:(lia) ltac:(lia)) as (H1 & _ & H3).
  split; [exact H1|exact H3].
Defined.

Lemma ds4_src_f8_e4m3_b128_row_spec_witness :
  ds4_src_f8_e4m3_b128_row_to_f32 (Some ex_f8_src) 128 = Some (Ok (replicate 128 (f32_of_int 2))) /\
  ds4_src_f8_e4m3_b128_row_dot (Some ex_f8_src) (Some (ex_ones 128)) 128 = Some (Ok (f32_of_int 256)).
Proof.
  destruct (ds4_src_f8_e4m3_b128_row_spec ex_f8_src (ex_ones 128) 128 ltac:(zlia)) as [H _].
  destruct (H ltac:(by vm_compute) ltac:(by vm_compute) ltac:(by vm_compute)) as [H1 H2].
  rewrite H1, H2. split; vm_compute; reflexivity.
Defined.

Lemma ds4_src_mxfp4_row_spec_witness :
  ds4_src_mxfp4_row_dot (Some ex_mx_src) (Some (ex_ones 32)) 32 = Some (Ok (f32_of_int 24)).
Proof.
  destruct (ds4_src_mxfp4_row_spec ex_mx_src (ex_ones 32) 32 ltac:(zlia)) as [H _].
  destruct (H ltac:(by vm_compute) ltac:(by vm_compute) ltac:(by vm_compute)) as [_ H2].
  rewrite H2. vm_compute. reflexivity.
Defined.
