(* ===== verification/Shape.v ===== *)
(** * Tensor shapes and sizes (engine/context.c)

    [parse_shape_dims] reads a shape such as "[4096x2048]";
    [expected_bytes_for_entry] derives the stored size of a tensor from its
    shape and dtype. *)
From S2P Require Import Prelude.
From S2P Require Import CNum.
From S2P Require Import Pack.
From S2P Require Import Policy.

(** ** Shapes *)

Definition c_open : byte := x5b.    (* '[' *)
Definition c_close : byte := x5d.   (* ']' *)
Definition c_x : byte := x78.       (* 'x' *)

(** The inner loop: the digits of one dimension, refused when they overflow. *)
Fixpoint scan_dim (p : bytes) (dim : Z) : option (Z * bytes) :=
  match p with
  | c :: p' =>
      if byte_isdigit c then
        let d := digit_val c in
        if (UINT64_MAX - d) / 10 <? dim then None else scan_dim p' (u64 (dim * 10 + d))
      else Some (dim, p)
  | [] => Some (dim, [])
  end.

(** The outer loop; the result is [dims], the product and the final [p].  Each
    turn consumes at least one digit, so [fuel] above the length of [p] is
    never used up ([parse_dims_fuel]). *)
Fixpoint parse_dims_loop (fuel cap : nat) (p : bytes) (dims : list Z) (product : Z)
  : option (list Z * Z * bytes) :=
  match fuel with
  | O => None
  | S fuel' =>
      match p with
      | [] => Some (dims, product, p)
      | c :: _ =>
          if Byte.eqb c c_close then Some (dims, product, p)
          else if negb (byte_isdigit c) then None
          else
            match scan_dim p 0 with
            | None => None
            | Some (dim, p1) =>
                if (dim =? 0) || (UINT64_MAX / dim <? product) then None
                else if (cap <=? length dims)%nat then None
                else
                  let dims1 := dims ++ [dim] in
                  let product1 := u64 (product * dim) in
                  match p1 with
                  | c1 :: p2 =>
                      if Byte.eqb c1 c_x then parse_dims_loop fuel' cap p2 dims1 product1
                      else if negb (Byte.eqb c1 c_close) then None
                      else parse_dims_loop fuel' cap p1 dims1 product1
                  | [] => None
                  end
            end
      end
  end.

(** [dims] and [elements]; [None] is the return value 1. *)
Definition parse_shape_dims (shape : option bytes) (cap : nat) : option (list Z * Z) :=
  match shape with
  | None | Some [] => None
  | Some (c :: p) =>
      if negb (Byte.eqb c c_open) then None
      else
        match parse_dims_loop (S (length p)) cap p [] 1 with
        | None => None
        | Some (dims, product, rest) =>
            if negb (str_eqb rest [c_close]) || (length dims =? 0)%nat then None
            else Some (dims, product)
        end
  end.

Definition parse_shape_elements (shape : option bytes) : option Z :=
  snd <$> parse_shape_dims shape DS4_V100_MAX_SHAPE_DIMS.

(** ** Sizes *)

(** The switch on the dtype. *)
Definition dtype_bytes (dtype : ds4_source_dtype) (elements : Z) : option Z :=
  match dtype with
  | DS4_V100_SOURCE_BF16 =>
      if UINT64_MAX / 2 <? elements then None else Some (u64 (elements * 2))
  | DS4_V100_SOURCE_F32 | DS4_V100_SOURCE_I32 =>
      if UINT64_MAX / 4 <? elements then None else Some (u64 (elements * 4))
  | DS4_V100_SOURCE_F8_E4M3_B128 =>
      let scales := u64 (elements + 127) / 128 in
      if UINT64_MAX - scales <? elements then None else Some (u64 (elements + scales))
  | DS4_V100_SOURCE_MXFP4 | DS4_V100_SOURCE_FP4 =>
      if negb (elements mod 32 =? 0) then None
      else if UINT64_MAX / 17 <? elements then None
      else Some (u64 (elements * 17) / 32)
  | DS4_V100_SOURCE_UNKNOWN => None
  end.

Definition expected_bytes_for_entry (e : ds4_pack_entry) : option Z :=
  match parse_shape_elements (Some (source_shape e)) with
  | None => None
  | Some elements => dtype_bytes (ds4_source_dtype_parse (Some (Pack.source_dtype e))) elements
  end.

(** ** Lemmas *)

Lemma scan_dim_spec (p rest : bytes) (dim r : Z) :
  is_u64 dim -> scan_dim p dim = Some (r, rest) ->
  is_u64 r /\ (length rest <= length p)%nat /\
  (forall c p', p = c :: p' -> byte_isdigit c = true -> (length rest < length p)%nat).
Proof.
  revert dim. induction p as [|c p IH]; intros dim Hd Hs; simpl in Hs.
  - simplify_eq. split; [done|]. split; [done|]. done.
  - destruct (byte_isdigit c) eqn:Hc.
    + destruct (_ <? dim) eqn:E; [done|]. bool_hyps. apply digit_val_range in Hc as Hv.
      destruct (IH _ (u64_range _) Hs) as (R1 & R2 & _). simpl. split; [done|]. split; [lia|]. intros. lia.
    + simplify_eq. split; [done|]. split; [done|]. intros ? ? [= <- <-]. congruence.
Qed.

(** More fuel than bytes changes nothing: the loop ends by itself. *)
Lemma parse_dims_fuel (cap : nat) (f1 f2 : nat) : forall (p : bytes) (dims : list Z) (product : Z),
  (length p < f1)%nat -> (length p < f2)%nat ->
  parse_dims_loop f1 cap p dims product = parse_dims_loop f2 cap p dims product.
Proof.
  revert f2. induction f1 as [|f1 IH]; intros [|f2] p dims product H1 H2; try lia. simpl.
  destruct p as [|c p]; [done|]. destruct (Byte.eqb c c_close); [done|].
  destruct (byte_isdigit c) eqn:Hc; [|done]. cbn [negb].
  destruct (scan_dim (c :: p) 0) as [[dim p1]|] eqn:Hs; [|done].
  destruct (scan_dim_spec _ p1 0 dim ltac:(zlia) Hs) as (_ & _ & Hlt).
  specialize (Hlt _ _ eq_refl Hc). simpl in *.
  destruct (_ || _); [done|]. destruct (cap <=? length dims)%nat; [done|].
  destruct p1 as [|c1 p2]; [done|]. simpl in Hlt. destruct (Byte.eqb c1 c_x); [apply IH; lia|].
  destruct (negb _); [done|]. apply IH; simpl; lia.
Qed.

(** The product of the dimensions. *)
Definition prodZ (l : list Z) : Z := foldr Z.mul 1 l.

Lemma prodZ_app (l1 l2 : list Z) : prodZ (l1 ++ l2) = prodZ l1 * prodZ l2.
Proof. induction l1 as [|a l1 IH]; simpl; [destruct (prodZ l2); lia|]. rewrite IH. ring. Qed.

Lemma prodZ_pos (l : list Z) : Forall (fun d => 0 < d) l -> 0 < prodZ l.
Proof. induction 1; simpl; nia. Qed.

Lemma parse_dims_sound (fuel cap : nat) : forall (p rest : bytes) (dims dims' : list Z) (product product' : Z),
  Forall (fun d => 0 < d) dims -> product = prodZ dims -> product <= UINT64_MAX ->
  (length dims <= cap)%nat ->
  parse_dims_loop fuel cap p dims product = Some (dims', product', rest) ->
  Forall (fun d => 0 < d) dims' /\ product' = prodZ dims' /\ product' <= UINT64_MAX /\
  (length dims' <= cap)%nat.
Proof.
  induction fuel as [|fuel IH]; intros p rest dims dims' product product' Hd Hp Hm Hc Hr; [done|].
  simpl in Hr. destruct p as [|c p]; [by simplify_eq|].
  destruct (Byte.eqb c c_close); [by simplify_eq|]. destruct (negb _); [done|].
  destruct (scan_dim (c :: p) 0) as [[dim p1]|] eqn:Hs; [|done].
  destruct (scan_dim_spec _ p1 0 dim ltac:(zlia) Hs) as (Hr1 & _).
  destruct (_ || _) eqn:E1; [done|]. bool_hyps.
  destruct (cap <=? length dims)%nat eqn:E2; [done|]. apply Nat.leb_gt in E2.
  pose proof (prodZ_pos _ Hd) as Hpos. assert (0 < dim) as Hdim by zlia.
  assert (product * dim <= UINT64_MAX) as Hb.
  { pose proof (Z.mul_div_le UINT64_MAX dim Hdim).
    pose proof (Z.mul_le_mono_nonneg_r product (UINT64_MAX / dim) dim ltac:(lia) ltac:(lia)). lia. }
  assert (0 <= product * dim) as Hb0 by (apply Z.mul_nonneg_nonneg; lia).
  rewrite u64_small in Hr by zlia.
  assert (forall q, parse_dims_loop fuel cap q (dims ++ [dim]) (product * dim) = Some (dims', product', rest) ->
    Forall (fun d => 0 < d) dims' /\ product' = prodZ dims' /\ product' <= UINT64_MAX /\
    (length dims' <= cap)%nat) as Hgo.
  { intros q Hq. eapply IH; [| | | |exact Hq].
    - apply Forall_app. split; [done|]. by repeat constructor.
    - rewrite prodZ_app, <- Hp. simpl. ring.
    - done.
    - rewrite length_app. simpl. lia. }
  destruct p1 as [|c1 p2]; [done|]. destruct (Byte.eqb c1 c_x); [by eapply Hgo|].
  destruct (negb _); [done|]. by eapply Hgo.
Qed.

(** ** Round trip *)

Definition render_dims (dims : list Z) : bytes := join_with c_x (map print_u64 dims) ++ [c_close].
Definition render_shape (dims : list Z) : bytes := c_open :: render_dims dims.

Lemma scan_dim_digits (s t : bytes) (dim : Z) :
  Forall (fun b => byte_isdigit b = true) s -> 0 <= dim ->
  fst (scan_digits s dim) <= UINT64_MAX ->
  (match t with c :: _ => byte_isdigit c = false | [] => True end) ->
  scan_dim (s ++ t) dim = Some (fst (scan_digits s dim), t).
Proof.
  revert dim. induction s as [|c s IH]; intros dim Hs Hd Hb Ht; simpl.
  - destruct t as [|c t]; [done|]. simpl. by rewrite Ht.
  - apply Forall_cons in Hs as [Hc Hs]. simpl in Hb. rewrite Hc in *.
    apply digit_val_range in Hc as Hv.
    assert (forall u acc, Forall (fun b => byte_isdigit b = true) u -> 0 <= acc ->
              acc <= fst (scan_digits u acc)) as Hmono.
    { clear. induction u as [|c u IH]; intros acc Hu Ha; simpl; [lia|].
      apply Forall_cons in Hu as [Hc Hu]. rewrite Hc. apply digit_val_range in Hc.
      etrans; [|apply IH; [done|lia]]. lia. }
    pose proof (Hmono s (dim * 10 + digit_val c) Hs ltac:(lia)) as Hm.
    destruct (Z.ltb_spec ((UINT64_MAX - digit_val c) / 10) dim) as [Hlt|Hge].
    + exfalso. pose proof (Z.div_lt_upper_bound (UINT64_MAX - digit_val c) 10 dim) as Hx.
      assert (UINT64_MAX - digit_val c < 10 * dim).
      { pose proof (Z.div_mod (UINT64_MAX - digit_val c) 10 ltac:(lia)).
        pose proof (Z.mod_pos_bound (UINT64_MAX - digit_val c) 10 ltac:(lia)). lia. }
      lia.
    + rewrite u64_small by zlia. apply IH; [done|lia|done|done].
Qed.

Lemma parse_dims_render (cap : nat) : forall (ds dims : list Z) (fuel : nat),
  ds <> [] -> Forall (fun d => 0 < d) dims -> Forall (fun d => 0 < d) ds ->
  prodZ (dims ++ ds) <= UINT64_MAX -> (length (dims ++ ds) <= cap)%nat ->
  (length (render_dims ds) < fuel)%nat ->
  parse_dims_loop fuel cap (render_dims ds) dims (prodZ dims) =
    Some (dims ++ ds, prodZ (dims ++ ds), [c_close]).
Proof.
  induction ds as [|d ds IH]; intros dims fuel Hne Hdims Hds Hp Hc Hf; [done|].
  apply Forall_cons in Hds as [Hd Hds].
  assert (0 < prodZ dims) as P1 by by apply prodZ_pos.
  assert (0 < prodZ ds) as P2 by by apply prodZ_pos.
  assert (prodZ (dims ++ d :: ds) = prodZ dims * d * prodZ ds) as Hprod
    by (rewrite prodZ_app; simpl; ring).
  assert (0 < prodZ dims * d) as P3 by (apply Z.mul_pos_pos; lia).
  assert (prodZ dims * d <= UINT64_MAX) as P4.
  { pose proof (Z.mul_le_mono_nonneg_l 1 (prodZ ds) (prodZ dims * d) ltac:(lia) ltac:(lia)). lia. }
  assert (d <= UINT64_MAX) as P5.
  { pose proof (Z.mul_le_mono_nonneg_r 1 (prodZ dims) d ltac:(lia) ltac:(lia)). lia. }
  destruct fuel as [|fuel]; [lia|].
  set (tail := match ds with [] => [c_close] | _ => c_x :: render_dims ds end).
  assert (render_dims (d :: ds) = print_u64 d ++ tail) as Hren.
  { unfold render_dims, tail. destruct ds as [|d2 ds]; [done|].
    change (join_with c_x (map print_u64 (d :: d2 :: ds)))
      with (print_u64 d ++ c_x :: join_with c_x (map print_u64 (d2 :: ds))).
    by rewrite <- app_assoc. }
  rewrite Hren in *. destruct (print_u64_cons d) as (b & s & Eb & Hb); [lia|].
  assert (scan_dim (print_u64 d ++ tail) 0 = Some (d, tail)) as Hscan.
  { assert (fst (scan_digits (print_u64 d) 0) = d) as Hv
      by (unfold print_u64; by rewrite scan_dec_digits by zlia).
    rewrite scan_dim_digits; rewrite ?Hv; try done.
    - apply print_u64_digits. lia.
    - unfold tail. by destruct ds. }
  rewrite Eb in *. cbn [app parse_dims_loop].
  assert (Byte.eqb b c_close = false) as -> by (apply beqb_neq; intros ->; done).
  rewrite Hb. cbn [negb]. change ((b :: s) ++ tail) with (b :: s ++ tail) in Hscan. rewrite Hscan.
  destruct (Z.eqb_spec d 0); [lia|]. cbn [orb].
  destruct (Z.ltb_spec (UINT64_MAX / d) (prodZ dims)) as [Hlt|_].
  { exfalso. pose proof (Z.div_mod UINT64_MAX d ltac:(lia)).
    pose proof (Z.mod_pos_bound UINT64_MAX d ltac:(lia)).
    pose proof (Z.mul_le_mono_nonneg_l (UINT64_MAX / d + 1) (prodZ dims) d ltac:(lia) ltac:(lia)). lia. }
  rewrite length_app in Hc. simpl in Hc. destruct (Nat.leb_spec cap (length dims)); [lia|].
  rewrite u64_small by zlia.
  assert (prodZ dims * d = prodZ (dims ++ [d])) as -> by (rewrite prodZ_app; simpl; ring).
  unfold tail. destruct ds as [|d2 ds].
  - simpl. destruct fuel as [|fuel]; [rewrite length_app in Hf; simpl in Hf; lia|]. done.
  - simpl. replace (dims ++ d :: d2 :: ds) with ((dims ++ [d]) ++ d2 :: ds) by (by rewrite <- app_assoc).
    apply IH; try done.
    + apply Forall_app. by repeat constructor.
    + rewrite <- app_assoc. simpl. done.
    + rewrite <- app_assoc, length_app. simpl in *. lia.
    + unfold tail in Hf. simpl in Hf. rewrite length_app in Hf. simpl in Hf. lia.
Qed.

Lemma parse_shape_sound (shape : bytes) (cap : nat) (dims : list Z) (elements : Z) :
  parse_shape_dims (Some shape) cap = Some (dims, elements) ->
  dims <> [] /\ Forall (fun d => 0 < d) dims /\ (length dims <= cap)%nat /\
  elements = prodZ dims /\ elements <= UINT64_MAX.
Proof.
  unfold parse_shape_dims. intros Hr. destruct shape as [|c p]; [done|]. destruct (negb _); [done|].
  destruct (parse_dims_loop _ _ _ _ _) as [[[ds pr] rest]|] eqn:E; [|done].
  destruct (_ || _) eqn:E1; [done|]. bool_hyps. simplify_eq.
  apply parse_dims_sound in E as (H1 & H2 & H3 & H4); [|constructor|done|zlia|simpl; lia].
  by destruct dims.
Qed.

Lemma parse_elements_range (shape : bytes) (n : Z) :
  parse_shape_elements (Some shape) = Some n -> 0 < n <= UINT64_MAX.
Proof.
  unfold parse_shape_elements. intros ([dims el] & Hp & ->)%fmap_Some.
  apply parse_shape_sound in Hp as (_ & Hd & _ & -> & ?). split; [by apply prodZ_pos|done].
Qed.

(** The code's overflow test is exact. *)
Lemma div_test (k n : Z) : 0 < k -> (UINT64_MAX / k <? n) = negb (k * n <=? UINT64_MAX).
Proof.
  intros Hk. pose proof (Z.div_mod UINT64_MAX k ltac:(lia)).
  pose proof (Z.mod_pos_bound UINT64_MAX k Hk).
  destruct (Z.ltb_spec (UINT64_MAX / k) n) as [Hlt|Hge], (Z.leb_spec (k * n) UINT64_MAX); try done.
  - pose proof (Z.mul_le_mono_nonneg_l (UINT64_MAX / k + 1) n k ltac:(lia) ltac:(lia)). lia.
  - pose proof (Z.mul_le_mono_nonneg_l n (UINT64_MAX / k) k ltac:(lia) ltac:(lia)). lia.
Qed.

Lemma mxfp4_bytes (n : Z) :
  0 < n <= UINT64_MAX ->
  (if negb (n mod 32 =? 0) then None
   else if UINT64_MAX / 17 <? n then None else Some (u64 (n * 17) / 32)) =
  match (if n mod 32 =? 0 then Some (n / 32 * 17) else None) with
  | Some b => if (b <=? UINT64_MAX) && (17 * n <=? UINT64_MAX) then Some b else None
  | None => None
  end.
Proof.
  intros Hn. destruct (Z.eqb_spec (n mod 32) 0) as [Hm|]; cbn [negb]; [|done].
  pose proof (Z.div_mod n 32 ltac:(lia)) as Hd. rewrite Hm, Z.add_0_r in Hd.
  rewrite div_test by lia.
  destruct (Z.leb_spec (17 * n) UINT64_MAX); rewrite ?andb_false_r; cbn [negb]; [|done].
  destruct (Z.leb_spec (n / 32 * 17) UINT64_MAX); [|exfalso; zlia]. cbn [andb].
  rewrite u64_small by zlia. f_equal. rewrite Hd at 1.
  replace (32 * (n / 32) * 17) with (n / 32 * 17 * 32) by ring. apply Z.div_mul. lia.
Qed.

(** ** Properties *)

(** The storage a tensor of [n] elements needs: 2 or 4 bytes per element, one
    byte per element and one scale byte per started block of 128 for FP8, and
    17 bytes per block of 32 for the 4-bit formats. *)
Definition storage_bytes (d : ds4_source_dtype) (n : Z) : option Z :=
  match d with
  | DS4_V100_SOURCE_BF16 => Some (2 * n)
  | DS4_V100_SOURCE_F32 | DS4_V100_SOURCE_I32 => Some (4 * n)
  | DS4_V100_SOURCE_F8_E4M3_B128 => Some (n + (n + 127) / 128)
  | DS4_V100_SOURCE_MXFP4 | DS4_V100_SOURCE_FP4 => if n mod 32 =? 0 then Some (n / 32 * 17) else None
  | DS4_V100_SOURCE_UNKNOWN => None
  end.

(** Writing dimensions as "[AxBxC]" and parsing them gives the dimensions
    and their product back, for at most [cap] positive dimensions whose product
    fits in 64 bits; and whatever string parses, its dimensions are positive,
    at most [cap] and not empty, and the product is exact. *)
Theorem parse_shape_dims_spec (cap : nat) (dims : list Z) (shape : bytes) (elements : Z) :
  (dims <> [] -> Forall (fun d => 0 < d) dims -> prodZ dims <= UINT64_MAX -> (length dims <= cap)%nat ->
   parse_shape_dims (Some (render_shape dims)) cap = Some (dims, prodZ dims)) /\
  (parse_shape_dims (Some shape) cap = Some (dims, elements) ->
   dims <> [] /\ Forall (fun d => 0 < d) dims /\ (length dims <= cap)%nat /\
   elements = prodZ dims /\ elements <= UINT64_MAX).
Proof.
  split.
  - intros Hne Hd Hp Hc. unfold parse_shape_dims, render_shape. rewrite beqb_refl. cbn [negb].
    pose proof (parse_dims_render cap dims [] (S (length (render_dims dims))) Hne
                  ltac:(constructor) Hd Hp Hc ltac:(lia)) as Hr.
    change (prodZ []) with 1 in Hr. rewrite Hr, str_eqb_refl. by destruct dims.
  - apply parse_shape_sound.
Qed.

(** . [expected_bytes_for_entry] computes the storage of the tensor its
    shape and dtype describe, whenever that fits (for the 4-bit formats: when
    17 times the elements fit), and refuses every other entry; tensors within
    127 elements of UINT64_MAX are outside the claim, their FP8 scale count
    wraps. *)
Theorem expected_bytes_for_entry_spec (e : ds4_pack_entry) (n : Z) :
  parse_shape_elements (Some (source_shape e)) = Some n -> n + 127 <= UINT64_MAX ->
  let d := ds4_source_dtype_parse (Some (Pack.source_dtype e)) in
  expected_bytes_for_entry e =
    match storage_bytes d n with
    | Some b =>
        if (b <=? UINT64_MAX) &&
           (negb (bool_decide (d = DS4_V100_SOURCE_MXFP4 \/ d = DS4_V100_SOURCE_FP4)) ||
            (17 * n <=? UINT64_MAX))
        then Some b else None
    | None => None
    end.
Proof.
  intros Hs Hn d. unfold expected_bytes_for_entry, dtype_bytes. rewrite Hs.
  change (ds4_source_dtype_parse (Some (Pack.source_dtype e))) with d.
  apply parse_elements_range in Hs.
  destruct d; cbn [storage_bytes]; try done;
    rewrite ?bool_decide_false by (intros [?|?]; done);
    rewrite ?bool_decide_true by tauto; cbn [negb orb].
  - rewrite div_test by lia. destruct (Z.leb_spec (2 * n) UINT64_MAX); cbn [andb negb]; [|done].
    rewrite u64_small by zlia. f_equal. lia.
  - rewrite div_test by lia. destruct (Z.leb_spec (4 * n) UINT64_MAX); cbn [andb negb]; [|done].
    rewrite u64_small by zlia. f_equal. lia.
  - rewrite div_test by lia. destruct (Z.leb_spec (4 * n) UINT64_MAX); cbn [andb negb]; [|done].
    rewrite u64_small by zlia. f_equal. lia.
  - rewrite (u64_small (n + 127)) by zlia. pose proof (Z.div_pos (n + 127) 128 ltac:(lia) ltac:(lia)).
    destruct (Z.ltb_spec (UINT64_MAX - (n + 127) / 128) n),
      (Z.leb_spec (n + (n + 127) / 128) UINT64_MAX); cbn [andb]; try done; try lia.
    by rewrite u64_small by zlia.
  - apply mxfp4_bytes. done.
  - apply mxfp4_bytes. done.
Qed.

(** What was accepted as the length of an entry is its storage. *)
Lemma expected_bytes_storage (e : ds4_pack_entry) (b : Z) : expected_bytes_for_entry e = Some b ->
  exists n, parse_shape_elements (Some (source_shape e)) = Some n /\
    (n + 127 <= UINT64_MAX -> storage_bytes (ds4_source_dtype_parse (Some (Pack.source_dtype e))) n = Some b).
Proof.
  intros He. destruct (parse_shape_elements (Some (source_shape e))) as [n|] eqn:Hn.
  - exists n. split; [done|]. intros Hs. rewrite (expected_bytes_for_entry_spec e n Hn Hs) in He. repeat case_match; by simplify_eq.
  - unfold expected_bytes_for_entry in He. by rewrite Hn in He.
Qed.

(** ** Concrete runs *)

Definition ex_shaped (dtype shape : string) : ds4_pack_entry :=
  PackEntry (B "t") (B "t") (B dtype) (B shape) (B "l") (B "k") [] 0 0 0 0 1 0.

Lemma parse_shape_dims_spec_witness :
  parse_shape_dims (Some (B "[4096x64x2]")) 4 = Some ([4096; 64; 2], 524288).
Proof.
  apply (parse_shape_dims_spec 4 [4096; 64; 2] (B "[4096x64x2]") 524288);
    [discriminate|repeat constructor; lia|by vm_compute|simpl; lia].
Defined.

Lemma expected_bytes_for_entry_spec_witness :
  expected_bytes_for_entry (ex_shaped "f8_e4m3_b128" "[129x10]") = Some (1290 + 11).
Proof.
  exact (expected_bytes_for_entry_spec (ex_shaped "f8_e4m3_b128" "[129x10]") 1290
           ltac:(by vm_compute) ltac:(by vm_compute)).
Defined.

(** Shapes with a trailing separator are accepted, and an FP8 tensor close to
    2^64 elements gets too small a size. *)
Example shape_trailing_x : parse_shape_dims (Some (B "[4x]")) 4 = Some ([4], 4).
Proof. by vm_compute. Qed.

Example fp8_size_wraps :
  expected_bytes_for_entry (ex_shaped "f8_e4m3_b128" "[18446744073709551615]") =
    Some (18446744073709551615 + 0).
Proof. by vm_compute. Qed.
