(* ===== verification/Context.v ===== *)
(** * The runtime context (engine/context.c)

    Opening a context: topology checks, binding of the pack and sidecar rows to
    stages and layers, memory budget; then the lookups and the reports.  The
    KV plan is in KvPlan.v, shapes and sizes in Shape.v. *)
From S2P Require Import Prelude.
From S2P Require Import CNum.
From S2P Require Import TsvFile.
From S2P Require Import KeyIndex.
From S2P Require Import Pack.
From S2P Require Import TmPack.
From S2P Require Import Policy.
From S2P Require Import ContextTypes.
From S2P Require Import KvPlan.
From S2P Require Import Shape.

Definition ds4_context_options_init : ds4_context_options :=
  {| pack_index_path := None; turbomind_pack_index_path := None;
     expected_gpus := DS4_V100_EXPECTED_GPUS; mode := DS4_V100_INIT_PROBE_ONLY;
     require_production_topology := false; enable_f32_debug_relay := false;
     scratch_bytes_per_gpu := 0; relay_max_active_slots := 1;
     reserve_bytes_per_gpu := DS4_V100_DEFAULT_RESERVE_BYTES; planned_kv_bytes_per_gpu := 0;
     kv_ctx_tokens := 0; kv_active_slots := 1; output_head_reserve_bytes := 0;
     mtp_reserve_bytes := 0; device_facts := None |}.

(** ** Topology *)

(** The sum of the code: each addition wraps at 64 bits. *)
Definition checked_stage_used (s : ds4_stage_info) : Z :=
  u64 (u64 (u64 (u64 (u64 (u64 (arena_bytes s + scratch_bytes s) + relay_f16_bytes s) +
    relay_f32_debug_bytes s) + planned_kv_bytes s) + sg_output_head_reserve_bytes s) +
    sg_mtp_reserve_bytes s).

Definition fact_zero : ds4_device_fact := DeviceFact 0 0 0 0 [] [] [].
Definition peer (f : ds4_device_fact) (i : Z) : bool := default false (peer_access f !! Z.to_nat i).

Definition validate_device (facts : list ds4_device_fact) (ctx : ds4_context) (i : Z) : res ds4_context :=
  let f := default fact_zero (facts !! Z.to_nat i) in
  if negb (visible_id f =? i) then
    fail "device fact %d has visible id %d" [AZ i; AZ (visible_id f)]
  else if negb (cc_major f =? 7) then
    fail "device %d is not V100-class compute capability 7.x" [AZ i]
  else if total_global_mem f <? DS4_V100_MIN_VRAM_BYTES then
    fail "device %d has insufficient VRAM: %lu" [AZ i; AZ (total_global_mem f)]
  else Ok (upd_stage i (fun s => s <| device_total_bytes := total_global_mem f |>) ctx).

Definition validate_peer (facts : list ds4_device_fact) (ctx : ds4_context) (i : Z) : res ds4_context :=
  let f := default fact_zero (facts !! Z.to_nat i) in
  let g := default fact_zero (facts !! Z.to_nat (i + 1)) in
  if negb (peer f (i + 1)) || negb (peer g i) then
    fail "missing peer edge between stage %d and %d" [AZ i; AZ (i + 1)]
  else Ok ctx.

Definition validate_topology (ctx : ds4_context) : res ds4_context :=
  if negb (require_production_topology (opts ctx)) then Ok ctx
  else if negb (expected_gpus (opts ctx) =? DS4_V100_EXPECTED_GPUS) then
    fail "production topology requires %d GPUs" [AZ DS4_V100_EXPECTED_GPUS]
  else
    match device_facts (opts ctx) with
    | None => fail "production topology requires %d device facts" [AZ DS4_V100_EXPECTED_GPUS]
    | Some facts =>
        if negb (Z.of_nat (length facts) =? DS4_V100_EXPECTED_GPUS) then
          fail "production topology requires %d device facts" [AZ DS4_V100_EXPECTED_GPUS]
        else
          ctx <- rfold (validate_device facts) ctx stage_ids ;;
          rfold (validate_peer facts) ctx (map Z.of_nat (seq 0 (Z.to_nat (DS4_V100_EXPECTED_GPUS - 1))))
    end.

(** ** Descriptor tables *)

(** sizeof of both descriptor structs: a pointer and a policy of three enums
    and two pointers. *)
Definition sizeof_desc : Z := 40.

Definition count_exec (p : ds4_policy) (ctx : ds4_context) : ds4_context :=
  ctx <| exec_counts ::= alter (fun n => u64 (n + 1)) (exec_index (exec_kind p)) |>.

Section Bind.
Context `{Allocator}.

Definition append_desc (ctx : ds4_context) (e : ds4_pack_entry) (policy : ds4_policy) : res ds4_context :=
  ctx <-
    (if n_descs ctx =? cap_descs ctx then
       let next := if cap_descs ctx =? 0 then 256 else u64 (cap_descs ctx * 2) in
       if (next <? cap_descs ctx) || (SIZE_MAX / sizeof_desc <? next) then
         fail "too many V100 descriptors" []
       else if negb (malloc_ok (next * sizeof_desc)) then
         fail "out of memory growing V100 descriptors" []
       else Ok (ctx <| cap_descs := next |>)
     else Ok ctx) ;;
  Ok (count_exec policy (ctx <| descs ::= fun l => l ++ [TensorDesc e policy] |>)).

Definition append_tm_desc (ctx : ds4_context) (e : TM.ds4_tm_pack_entry) (policy : ds4_policy) : res ds4_context :=
  ctx <-
    (if n_tm_descs ctx =? cap_tm_descs ctx then
       let next := if cap_tm_descs ctx =? 0 then 128 else u64 (cap_tm_descs ctx * 2) in
       if (next <? cap_tm_descs ctx) || (SIZE_MAX / sizeof_desc <? next) then
         fail "too many V100 TurboMind descriptors" []
       else if negb (malloc_ok (next * sizeof_desc)) then
         fail "out of memory growing V100 TurboMind descriptors" []
       else Ok (ctx <| cap_tm_descs := next |>)
     else Ok ctx) ;;
  Ok (count_exec policy (ctx <| tm_descs ::= fun l => l ++ [TmTensorDesc e policy] |>)).

(** ** Binding the pack *)

Definition bind_max_gpu (ctx : ds4_context) : Z :=
  if 0 <? expected_gpus (opts ctx) then expected_gpus (opts ctx) else DS4_V100_EXPECTED_GPUS.

(** The [switch] on the family of a tensor bound to a layer. *)
Definition mark_family (f : ds4_tensor_family) (li : ds4_layer_info) : ds4_layer_info :=
  let li := li <| li_tensor_count ::= fun n => u64 (n + 1) |> in
  match f with
  | DS4_V100_FAMILY_F32_CONTROL => li <| has_f32_control := true |>
  | DS4_V100_FAMILY_FP8_DENSE => li <| has_fp8_dense := true |>
  | DS4_V100_FAMILY_MXFP4_EXPERT => li <| has_mxfp4_expert := true |>
  | DS4_V100_FAMILY_HC_CONTROL => li <| has_hc_control := true |>
  | DS4_V100_FAMILY_BF16_GLOBAL | DS4_V100_FAMILY_KV_CACHE | DS4_V100_FAMILY_UNKNOWN => li
  end.

Definition bind_pack_entry (ctx : ds4_context) (e : ds4_pack_entry) : res ds4_context :=
  let id := AS (semantic_tensor_id e) in
  if (owning_gpu e <? 0) || (bind_max_gpu ctx <=? owning_gpu e) then
    fail "%s has invalid owning GPU %d" [id; AZ (owning_gpu e)]
  else if DS4_V100_N_LAYERS <=? layer_id e then
    fail "%s has invalid layer id %d" [id; AZ (layer_id e)]
  else if (0 <=? layer_id e) && negb (ds4_stage_for_layer (layer_id e) =? owning_gpu e) then
    fail "%s owner gpu %d does not match layer %d stage %d"
         [id; AZ (owning_gpu e); AZ (layer_id e); AZ (ds4_stage_for_layer (layer_id e))]
  else
  match expected_bytes_for_entry e with
  | None => fail "%s has unsupported source shape/dtype %s %s"
                 [id; AS (Pack.source_dtype e); AS (source_shape e)]
  | Some expected =>
  if negb (expected =? byte_length e) then
    fail "%s byte length mismatch: expected %lu got %lu" [id; AZ expected; AZ (byte_length e)]
  else
  policy <- ds4_classify_or_die (Some (Pack.source_dtype e)) (Some (runtime_layout e))
              (Some (kernel_family e)) ;;
  let arena := ds4_pack_arena_bytes (pack ctx) (owning_gpu e) in
  if (arena <? shard_offset e) || (arena - shard_offset e <? byte_length e) then
    fail "%s arena span overflows gpu%d arena" [id; AZ (owning_gpu e)]
  else
    let ctx := upd_stage (owning_gpu e) (fun s => s <| sg_tensor_count ::= fun n => u64 (n + 1) |>) ctx in
    let ctx := if 0 <=? layer_id e then upd_layer (layer_id e) (mark_family (family policy)) ctx else ctx in
    let ctx := if str_eqb (semantic_tensor_id e) (B "token_embd.weight")
               then ctx <| has_token_embedding := true |> else ctx in
    append_desc ctx e policy
  end.

Definition bind_pack (fs : bytes -> file_env) (ctx : ds4_context) : res ds4_context :=
  match pack_index_path (opts ctx) with
  | None | Some [] => Ok ctx
  | Some path =>
      p <- ds4_pack_open (Some path) (fs path) ;;
      let ctx := ctx <| pack := Some p |> in
      let ctx := foldl (fun c i => upd_stage i (fun s => s <| arena_bytes := ds4_pack_arena_bytes (pack c) i |>) c)
                       ctx stage_ids in
      ds4_pack_for_each p bind_pack_entry ctx
  end.

(** ** Binding the TurboMind sidecars *)

Definition is_routed_expert_id (id : bytes) : bool :=
  str_strstr id (B ".ffn_gate_exps.weight") || str_strstr id (B ".ffn_up_exps.weight") ||
  str_strstr id (B ".ffn_gate_up_exps.weight") || str_strstr id (B ".ffn_gate_up_exps.tp0.weight") ||
  str_strstr id (B ".ffn_gate_up_exps.tp1.weight") || str_strstr id (B ".ffn_down_exps.tp0.weight") ||
  str_strstr id (B ".ffn_down_exps.tp1.weight") || str_strstr id (B ".ffn_down_exps.weight").

Definition is_tp_routed_expert_id (id : bytes) : bool :=
  str_strstr id (B ".ffn_gate_up_exps.tp0.weight") || str_strstr id (B ".ffn_gate_up_exps.tp1.weight") ||
  str_strstr id (B ".ffn_down_exps.tp0.weight") || str_strstr id (B ".ffn_down_exps.tp1.weight").

(** Whether the shape is [k x n x experts_total]. *)
Definition tm_shape_matches (e : TM.ds4_tm_pack_entry) : bool :=
  match parse_shape_dims (Some (TM.source_shape e)) DS4_V100_MAX_SHAPE_DIMS with
  | Some ([d0; d1; d2], _) => (d0 =? TM.k e) && (d1 =? TM.n e) && (d2 =? TM.experts_total e)
  | _ => false
  end.

Definition bind_tm_pack_entry (ctx : ds4_context) (e : TM.ds4_tm_pack_entry) : res ds4_context :=
  let sid := TM.semantic_tensor_id e in
  let id := AS sid in
  if (TM.owning_gpu e <? 0) || (bind_max_gpu ctx <=? TM.owning_gpu e) then
    fail "%s has invalid TurboMind owning GPU %d" [id; AZ (TM.owning_gpu e)]
  else if (TM.layer_id e <? 0) || (DS4_V100_N_LAYERS <=? TM.layer_id e) then
    fail "%s has invalid TurboMind layer id %d" [id; AZ (TM.layer_id e)]
  else if negb (is_tp_routed_expert_id sid) &&
          negb (ds4_stage_for_layer (TM.layer_id e) =? TM.owning_gpu e) then
    fail "%s TurboMind owner gpu %d does not match layer %d stage %d"
         [id; AZ (TM.owning_gpu e); AZ (TM.layer_id e); AZ (ds4_stage_for_layer (TM.layer_id e))]
  else if negb (is_routed_expert_id sid) then
    fail "%s TurboMind binding is not a routed expert tensor" [id]
  else if negb (str_eq_ci (Some (TM.source_dtype e)) (Some (B "mxfp4"))) then
    fail "%s TurboMind source dtype must be mxfp4" [id]
  else if negb (tm_shape_matches e) then
    fail "%s TurboMind shape does not match n/k/expert metadata" [id]
  else
  policy <- ds4_classify_or_die (Some (TM.source_dtype e)) (Some (TM.runtime_layout e))
              (Some (TM.kernel_family e)) ;;
  let weight_end := u64 (TM.weight_offset e + TM.weight_run e) in
  let scale_end := u64 (TM.scale_offset e + TM.scale_run e) in
  if (weight_end <? TM.weight_offset e) || (scale_end <? TM.scale_offset e) then
    fail "%s TurboMind arena span overflows" [id]
  else
    let ctx := upd_stage (TM.owning_gpu e)
      (fun s =>
         let s := if arena_bytes s <? weight_end then s <| arena_bytes := weight_end |> else s in
         let s := if arena_bytes s <? scale_end then s <| arena_bytes := scale_end |> else s in
         s <| sg_tensor_count ::= fun n => u64 (n + 1) |>) ctx in
    let ctx := upd_layer (TM.layer_id e)
      (fun li => li <| li_tensor_count ::= fun n => u64 (n + 1) |> <| has_mxfp4_expert := true |>) ctx in
    append_tm_desc ctx e policy.

Definition bind_tm_pack (fs : bytes -> file_env) (ctx : ds4_context) : res ds4_context :=
  match turbomind_pack_index_path (opts ctx) with
  | None | Some [] => Ok ctx
  | Some path =>
      p <- TM.ds4_tm_pack_open (Some path) (fs path) ;;
      let ctx := ctx <| tm_pack := Some p |> in
      TM.ds4_tm_pack_for_each p bind_tm_pack_entry ctx
  end.

(** ** Memory budget and opening *)

Definition validate_stage_budget (ctx : ds4_context) (i : Z) : res ds4_context :=
  let s := get_stage ctx i in
  let used := checked_stage_used s in
  if (device_total_bytes s <? used) || (device_total_bytes s - used <? reserve_bytes s) then
    fail "stage %d falls below reserve: used=%lu total=%lu reserve=%lu"
         [AZ i; AZ used; AZ (device_total_bytes s); AZ (reserve_bytes s)]
  else Ok ctx.

Definition validate_memory_budget (ctx : ds4_context) : res ds4_context :=
  if negb (require_production_topology (opts ctx)) then Ok ctx
  else rfold validate_stage_budget ctx stage_ids.

(** sizeof(struct ds4_context) on LP64. *)
Definition sizeof_context : Z := 10144.

Definition ds4_context_open (fs : bytes -> file_env) (o : option ds4_context_options) : res ds4_context :=
  let local := default ds4_context_options_init o in
  if (expected_gpus local <=? 0) || (DS4_V100_EXPECTED_GPUS <? expected_gpus local) then
    fail "expected_gpus must be 1..%d" [AZ DS4_V100_EXPECTED_GPUS]
  else if relay_max_active_slots local =? 0 then fail "relay_max_active_slots must be nonzero" []
  else if negb (kv_ctx_tokens local =? 0) && (kv_active_slots local =? 0) then
    fail "kv_active_slots must be nonzero when kv_ctx_tokens is set" []
  else if negb (kv_ctx_tokens local =? 0) && negb (planned_kv_bytes_per_gpu local =? 0) then
    fail "planned_kv_bytes_per_gpu cannot be combined with derived kv_ctx_tokens" []
  else if negb (malloc_ok sizeof_context) then fail "out of memory allocating V100 context" []
  else
    ctx <- validate_topology (planned local) ;;
    ctx <- bind_pack fs ctx ;;
    ctx <- bind_tm_pack fs ctx ;;
    validate_memory_budget ctx.
End Bind.

(** ** Accessors *)

Definition ds4_context_stage_count (ctx : option ds4_context) : Z :=
  match ctx with Some c => expected_gpus (opts c) | None => 0 end.

Definition ds4_context_stage (ctx : option ds4_context) (stage_id : Z) : option ds4_stage_info :=
  match ctx with
  | Some c => if (stage_id <? 0) || (expected_gpus (opts c) <=? stage_id) then None
              else Some (get_stage c stage_id)
  | None => None
  end.

Definition ds4_context_layer (ctx : option ds4_context) (layer_id : Z) : option ds4_layer_info :=
  match ctx with
  | Some c => if (layer_id <? 0) || (DS4_V100_N_LAYERS <=? layer_id) then None
              else Some (get_layer c layer_id)
  | None => None
  end.

Definition ds4_context_tensor_count (ctx : option ds4_context) : Z :=
  match ctx with Some c => u64 (n_descs c + n_tm_descs c) | None => 0 end.

Definition ds4_context_exec_count (ctx : option ds4_context) (kind : ds4_exec_kind) : Z :=
  match ctx with Some c => default 0 (exec_counts c !! exec_index kind) | None => 0 end.

Definition ds4_context_has_token_embedding (ctx : option ds4_context) : bool :=
  match ctx with Some c => has_token_embedding c | None => false end.

(** ** Bindings *)

Record ds4_tensor_binding := TensorBinding {
  tb_semantic_tensor_id : bytes;
  tb_source_name : bytes;
  tb_source_dtype : bytes;
  tb_source_shape : bytes;
  tb_runtime_layout : bytes;
  tb_kernel_family : bytes;
  tb_shard_file : bytes;
  tb_owning_gpu : Z;
  tb_layer_id : Z;
  tb_scale_offset : Z;
  tb_source_offset : Z;
  tb_byte_length : Z;
  tb_shard_offset : Z;
  tb_policy : ds4_policy;
  tb_n_shape_dims : Z;
  tb_shape : list Z              (* uint64_t[4] *)
}.

Record ds4_turbomind_binding := TmBinding {
  mb_semantic_tensor_id : bytes;
  mb_source_name : bytes;
  mb_source_dtype : bytes;
  mb_source_shape : bytes;
  mb_runtime_layout : bytes;
  mb_kernel_family : bytes;
  mb_shard_file : bytes;
  mb_source_shard_file : bytes;
  mb_owning_gpu : Z;
  mb_layer_id : Z;
  mb_n : Z;
  mb_k : Z;
  mb_experts_packed : Z;
  mb_experts_total : Z;
  mb_weight_bytes_per_expert : Z;
  mb_scale_bytes_per_expert : Z;
  mb_k_pack : Z;
  mb_weight_stride : Z;
  mb_scale_stride : Z;
  mb_weight_offset : Z;
  mb_scale_offset : Z;
  mb_source_shard_offset : Z;
  mb_source_byte_length : Z;
  mb_tm_abi_version : Z;
  mb_policy : ds4_policy;
  mb_n_shape_dims : Z;
  mb_shape : list Z              (* uint64_t[4] *)
}.

(** The dimensions written into the zeroed array. *)
Definition shape_array (dims : list Z) : list Z := take DS4_V100_MAX_SHAPE_DIMS (dims ++ [0; 0; 0; 0]).

Definition fill_binding (desc : ds4_tensor_desc) : res ds4_tensor_binding :=
  let e := td_entry desc in
  match parse_shape_dims (Some (source_shape e)) DS4_V100_MAX_SHAPE_DIMS with
  | None => fail "%s has invalid source shape %s" [AS (semantic_tensor_id e); AS (source_shape e)]
  | Some (dims, _) =>
      Ok {| tb_semantic_tensor_id := semantic_tensor_id e; tb_source_name := source_name e;
            tb_source_dtype := Pack.source_dtype e; tb_source_shape := source_shape e;
            tb_runtime_layout := runtime_layout e; tb_kernel_family := kernel_family e;
            tb_shard_file := shard_file e; tb_owning_gpu := owning_gpu e;
            tb_layer_id := layer_id e; tb_scale_offset := scale_offset e;
            tb_source_offset := source_offset e; tb_byte_length := byte_length e;
            tb_shard_offset := shard_offset e; tb_policy := td_policy desc;
            tb_n_shape_dims := Z.of_nat (length dims); tb_shape := shape_array dims |}
  end.

Definition fill_tm_binding (desc : ds4_tm_tensor_desc) : res ds4_turbomind_binding :=
  let e := tmd_entry desc in
  match parse_shape_dims (Some (TM.source_shape e)) DS4_V100_MAX_SHAPE_DIMS with
  | None => fail "%s has invalid TurboMind source shape %s"
                 [AS (TM.semantic_tensor_id e); AS (TM.source_shape e)]
  | Some (dims, _) =>
      Ok {| mb_semantic_tensor_id := TM.semantic_tensor_id e; mb_source_name := TM.source_name e;
            mb_source_dtype := TM.source_dtype e; mb_source_shape := TM.source_shape e;
            mb_runtime_layout := TM.runtime_layout e; mb_kernel_family := TM.kernel_family e;
            mb_shard_file := TM.sidecar_file e; mb_source_shard_file := TM.source_shard_file e;
            mb_owning_gpu := TM.owning_gpu e; mb_layer_id := TM.layer_id e;
            mb_n := TM.n e; mb_k := TM.k e; mb_experts_packed := TM.experts_packed e;
            mb_experts_total := TM.experts_total e;
            mb_weight_bytes_per_expert := TM.weight_bytes_per_expert e;
            mb_scale_bytes_per_expert := TM.scale_bytes_per_expert e;
            mb_k_pack := TM.k_pack e; mb_weight_stride := TM.weight_stride e;
            mb_scale_stride := TM.scale_stride e; mb_weight_offset := TM.weight_offset e;
            mb_scale_offset := TM.scale_offset e;
            mb_source_shard_offset := TM.source_shard_offset e;
            mb_source_byte_length := TM.source_byte_length e;
            mb_tm_abi_version := TM.tm_abi_version e; mb_policy := tmd_policy desc;
            mb_n_shape_dims := Z.of_nat (length dims); mb_shape := shape_array dims |}
  end.

(** [desc->entry] is never null: both append functions store a row's address. *)
Definition find_desc (ctx : ds4_context) (id : bytes) : option ds4_tensor_desc :=
  snd <$> find_key (fun d => semantic_tensor_id (td_entry d)) (descs ctx) id.
Definition find_tm_desc (ctx : ds4_context) (id : bytes) : option ds4_tm_tensor_desc :=
  snd <$> find_key (fun d => TM.semantic_tensor_id (tmd_entry d)) (tm_descs ctx) id.

Definition ds4_context_lookup_tensor_binding (ctx : option ds4_context) (id : option bytes)
  : res ds4_tensor_binding :=
  match ctx with
  | None => fail "missing V100 context" []
  | Some ctx =>
      match id with
      | None | Some [] => fail "missing semantic tensor id" []
      | Some id =>
          match find_desc ctx id with
          | Some desc => fill_binding desc
          | None => fail "missing tensor descriptor %s" [AS id]
          end
      end
  end.

Definition ds4_context_lookup_turbomind_binding (ctx : option ds4_context) (id : option bytes)
  : res ds4_turbomind_binding :=
  match ctx with
  | None => fail "missing V100 context" []
  | Some ctx =>
      match id with
      | None | Some [] => fail "missing semantic tensor id" []
      | Some id =>
          match find_tm_desc ctx id with
          | Some desc => fill_tm_binding desc
          | None => fail "missing TurboMind tensor descriptor %s" [AS id]
          end
      end
  end.

(** snprintf(id, 192, "blk.%d.%s"); the untruncated text. *)
Definition layer_tensor_id (layer_id : Z) (suffix : bytes) : bytes :=
  B "blk." ++ print_i64 layer_id ++ B "." ++ suffix.

Definition ds4_context_require_layer_tensor_binding (ctx : option ds4_context) (layer_id : Z)
    (suffix : option bytes) : res ds4_tensor_binding :=
  if (layer_id <? 0) || (DS4_V100_N_LAYERS <=? layer_id) then fail "bad layer id %d" [AZ layer_id]
  else
    match suffix with
    | None | Some [] => fail "missing layer tensor suffix" []
    | Some suffix =>
        let id := layer_tensor_id layer_id suffix in
        if 192 <=? Z.of_nat (length id) then fail "layer tensor id too long" []
        else ds4_context_lookup_tensor_binding ctx (Some id)
    end.

Definition ds4_context_require_layer_turbomind_binding (ctx : option ds4_context) (layer_id : Z)
    (suffix : option bytes) : res ds4_turbomind_binding :=
  if (layer_id <? 0) || (DS4_V100_N_LAYERS <=? layer_id) then fail "bad layer id %d" [AZ layer_id]
  else
    match suffix with
    | None | Some [] => fail "missing layer tensor suffix" []
    | Some suffix =>
        let id := layer_tensor_id layer_id suffix in
        if 192 <=? Z.of_nat (length id) then fail "layer tensor id too long" []
        else ds4_context_lookup_turbomind_binding ctx (Some id)
    end.

Definition ds4_context_output_head_binding (ctx : option ds4_context) : res ds4_tensor_binding :=
  ds4_context_lookup_tensor_binding ctx (Some (B "output.weight")).

(** ** Reports *)

Definition skeleton_header : bytes :=
  tsv_line (map B ["layer"; "stage"; "class"; "kv_bytes"; "tensors"; "f32_control"; "fp8_dense";
                   "mxfp4_expert"; "hc_control"; "status"]%string).

Definition layer_status (li : ds4_layer_info) (layer total_descs : Z) : string :=
  if negb (li_stage_id li =? ds4_stage_for_layer layer) then "BAD_STAGE"%string
  else if (0 <? total_descs) && (li_tensor_count li =? 0) then "MISSING_LAYER_DESCRIPTORS"%string
  else if (0 <? total_descs) && negb (has_f32_control li) then "MISSING_F32_CONTROL"%string
  else if (0 <? total_descs) && negb (has_fp8_dense li) then "MISSING_FP8_DENSE"%string
  else if (0 <? total_descs) && negb (has_mxfp4_expert li) then "MISSING_MXFP4_EXPERT"%string
  else if (0 <? total_descs) && negb (has_hc_control li) then "MISSING_HC_CONTROL"%string
  else "OK"%string.

Definition flag (b : bool) : bytes := print_i64 (if b then 1 else 0).

(** One turn of the loop; the report is kept on failure too. *)
Definition validate_layer (ctx : ds4_context) (total_descs : Z) (report : bytes) (layer : Z)
  : result bytes (bytes * diag) :=
  let li := get_layer ctx layer in
  let status := layer_status li layer total_descs in
  let report' := report ++
    tsv_line [print_i64 layer; print_i64 (li_stage_id li); B (ds4_layer_class_name (layer_class li));
              print_u64 (total_bytes (kv_budget li)); print_u64 (li_tensor_count li);
              flag (has_f32_control li); flag (has_fp8_dense li); flag (has_mxfp4_expert li);
              flag (has_hc_control li); B status] in
  if negb (String.eqb status "OK") then
    Error (report', Diag "layer %d skeleton validation failed: %s" [AZ layer; AS (B status)])
  else Ok report'.

Definition ds4_context_validate_layer_skeleton (ctx : option ds4_context) : result bytes (bytes * diag) :=
  match ctx with
  | None => Error ([], Diag "missing V100 context" [])
  | Some c =>
      let total_descs := ds4_context_tensor_count ctx in
      match rfold (validate_layer c total_descs) skeleton_header layer_ids with
      | Error e => Error e
      | Ok report =>
          if (0 <? total_descs) && negb (has_token_embedding c) then
            Error (report, Diag "missing token embedding descriptor" [])
          else Ok report
      end
  end.

Definition mode_value (m : ds4_init_mode) : Z :=
  match m with
  | DS4_V100_INIT_PROBE_ONLY => 0 | DS4_V100_INIT_USE_EXISTING_ARENAS => 1
  | DS4_V100_INIT_FULL_RESIDENT => 2
  end.

Definition report_stage (ctx : ds4_context) (i : Z) : bytes :=
  let s := get_stage ctx i in let a := kv_arena s in
  tsv_line ([print_i64 (sg_stage_id s); print_i64 (sg_gpu s);
             print_i64 (layer_begin s) ++ B "-" ++ print_i64 (layer_end s)] ++
    map print_u64 [arena_bytes s; scratch_bytes s; relay_f16_bytes s; relay_f32_debug_bytes s;
      ka_total_bytes a; ka_raw_swa_offset a; ka_raw_swa_bytes a; ka_compressed_attn_offset a;
      ka_compressed_attn_bytes a; ka_indexer_kv_offset a; ka_indexer_kv_bytes a;
      ka_compression_state_offset a; ka_compression_state_bytes a; planned_kv_bytes s;
      reserve_bytes s; device_total_bytes s]).

Definition report_layer (ctx : ds4_context) (layer : Z) : bytes :=
  let li := get_layer ctx layer in let v := kv_view li in
  tsv_line ([B "layer_kv_view"; print_i64 layer; print_i64 (li_stage_id li);
             B (ds4_layer_class_name (layer_class li))] ++
    map print_u64 [kw_raw_swa_offset v; kw_raw_swa_bytes v; kw_compressed_attn_offset v;
      kw_compressed_attn_bytes v; kw_indexer_kv_offset v; kw_indexer_kv_bytes v;
      kw_attn_state_kv_offset v; kw_attn_state_kv_bytes v; kw_attn_state_score_offset v;
      kw_attn_state_score_bytes v; kw_indexer_state_kv_offset v; kw_indexer_state_kv_bytes v;
      kw_indexer_state_score_offset v; kw_indexer_state_score_bytes v; kw_total_bytes v]).

Definition count_class (ctx : ds4_context) (c : ds4_layer_class) : Z :=
  countZ (fun layer => bool_decide (layer_class (get_layer ctx layer) = c)) layer_ids.

Definition report_class (ctx : ds4_context) (c : ds4_layer_class) : bytes :=
  tsv_line [B "layer_class_count"; B (ds4_layer_class_name c); print_i64 (count_class ctx c)].

Definition ds4_context_print_report (ctx : ds4_context) : bytes :=
  B "ds4_context_report" ++ [LF] ++
  tsv_line [B "expected_gpus"; print_i64 (expected_gpus (opts ctx))] ++
  tsv_line [B "mode"; print_i64 (mode_value (mode (opts ctx)))] ++
  tsv_line [B "policy"; B "bf16_fp8_fp4_are_not_native_v100_tensor_core_formats"] ++
  tsv_line [B "policy"; B "production_dense_gemm_target_fp16_hmma_with_fp32_accumulation"] ++
  tsv_line [B "kv_ctx_tokens"; print_u64 (kv_ctx_tokens (opts ctx))] ++
  tsv_line [B "kv_active_slots"; print_u64 (kv_active_slots (opts ctx))] ++
  tsv_line [B "tensor_count"; print_u64 (ds4_context_tensor_count (Some ctx))] ++
  tsv_line [B "pack_tensor_count"; print_u64 (n_descs ctx)] ++
  tsv_line [B "turbomind_tensor_count"; print_u64 (n_tm_descs ctx)] ++
  concat (map (fun k => tsv_line [B "exec_count"; B (ds4_exec_kind_name k);
                                  print_u64 (ds4_context_exec_count (Some ctx) k)]) exec_kinds) ++
  report_class ctx DS4_V100_LAYER_SWA_ONLY ++ report_class ctx DS4_V100_LAYER_RATIO_4 ++
  report_class ctx DS4_V100_LAYER_RATIO_128 ++
  tsv_line (map B ["stage"; "gpu"; "layers"; "arena_bytes"; "scratch_bytes"; "relay_f16_bytes";
    "relay_f32_debug_bytes"; "kv_arena_bytes"; "kv_raw_swa_offset"; "kv_raw_swa_bytes";
    "kv_compressed_attn_offset"; "kv_compressed_attn_bytes"; "kv_indexer_offset";
    "kv_indexer_bytes"; "kv_compression_state_offset"; "kv_compression_state_bytes";
    "planned_kv_bytes"; "reserve_bytes"; "device_total_bytes"]%string) ++
  concat (map (report_stage ctx) (map Z.of_nat (seq 0 (Z.to_nat (expected_gpus (opts ctx)))))) ++
  tsv_line (map B ["layer_kv_view"; "layer"; "stage"; "class"; "raw_swa_offset"; "raw_swa_bytes";
    "compressed_attn_offset"; "compressed_attn_bytes"; "indexer_kv_offset"; "indexer_kv_bytes";
    "attn_state_kv_offset"; "attn_state_kv_bytes"; "attn_state_score_offset";
    "attn_state_score_bytes"; "indexer_state_kv_offset"; "indexer_state_kv_bytes";
    "indexer_state_score_offset"; "indexer_state_score_bytes"; "total_bytes"]%string) ++
  concat (map (report_layer ctx) layer_ids).

(** ** The binding tables as indexes *)

#[export] Instance desc_index : KeyIndex ds4_context ds4_tensor_desc := {
  ki_entries := descs;
  ki_id d := semantic_tensor_id (td_entry d);
  ki_lookup := find_desc;
  ki_lookup_first _ _ := eq_refl
}.

#[export] Instance tm_desc_index : KeyIndex ds4_context ds4_tm_tensor_desc := {
  ki_entries := tm_descs;
  ki_id d := TM.semantic_tensor_id (tmd_entry d);
  ki_lookup := find_tm_desc;
  ki_lookup_first _ _ := eq_refl
}.

(** ** What binding establishes *)

(** A pack row that was bound. *)
Record desc_ok (max_gpu : Z) (p : option ds4_pack) (d : ds4_tensor_desc) : Prop := {
  dk_gpu : 0 <= owning_gpu (td_entry d) < max_gpu;
  dk_layer : layer_id (td_entry d) < DS4_V100_N_LAYERS;
  dk_stage : 0 <= layer_id (td_entry d) ->
             ds4_stage_for_layer (layer_id (td_entry d)) = owning_gpu (td_entry d);
  dk_bytes : expected_bytes_for_entry (td_entry d) = Some (byte_length (td_entry d));
  dk_policy : ds4_classify_or_die (Some (Pack.source_dtype (td_entry d)))
                (Some (runtime_layout (td_entry d))) (Some (kernel_family (td_entry d))) = Ok (td_policy d);
  dk_span : shard_offset (td_entry d) + byte_length (td_entry d) <=
            ds4_pack_arena_bytes p (owning_gpu (td_entry d))
}.

(** A sidecar row that was bound. *)
Record tm_desc_ok (max_gpu : Z) (d : ds4_tm_tensor_desc) : Prop := {
  tk_gpu : 0 <= TM.owning_gpu (tmd_entry d) < max_gpu;
  tk_layer : 0 <= TM.layer_id (tmd_entry d) < DS4_V100_N_LAYERS;
  tk_stage : is_tp_routed_expert_id (TM.semantic_tensor_id (tmd_entry d)) = true \/
             ds4_stage_for_layer (TM.layer_id (tmd_entry d)) = TM.owning_gpu (tmd_entry d);
  tk_routed : is_routed_expert_id (TM.semantic_tensor_id (tmd_entry d)) = true;
  tk_dtype : str_eq_ci (Some (TM.source_dtype (tmd_entry d))) (Some (B "mxfp4")) = true;
  tk_shape : tm_shape_matches (tmd_entry d) = true;
  tk_policy : ds4_classify_or_die (Some (TM.source_dtype (tmd_entry d)))
                (Some (TM.runtime_layout (tmd_entry d))) (Some (TM.kernel_family (tmd_entry d))) =
              Ok (tmd_policy d)
}.

(** The context after one row was bound, before the table grows. *)
Definition bind_marks (e : ds4_pack_entry) (policy : ds4_policy) (ctx : ds4_context) : ds4_context :=
  let ctx := upd_stage (owning_gpu e) (fun s => s <| sg_tensor_count ::= fun n => u64 (n + 1) |>) ctx in
  let ctx := if 0 <=? layer_id e then upd_layer (layer_id e) (mark_family (family policy)) ctx else ctx in
  if str_eqb (semantic_tensor_id e) (B "token_embd.weight")
  then ctx <| has_token_embedding := true |> else ctx.

Definition tm_stage_mark (e : TM.ds4_tm_pack_entry) (s : ds4_stage_info) : ds4_stage_info :=
  let weight_end := u64 (TM.weight_offset e + TM.weight_run e) in
  let scale_end := u64 (TM.scale_offset e + TM.scale_run e) in
  let s := if arena_bytes s <? weight_end then s <| arena_bytes := weight_end |> else s in
  let s := if arena_bytes s <? scale_end then s <| arena_bytes := scale_end |> else s in
  s <| sg_tensor_count ::= fun n => u64 (n + 1) |>.

Definition tm_bind_marks (e : TM.ds4_tm_pack_entry) (ctx : ds4_context) : ds4_context :=
  upd_layer (TM.layer_id e)
    (fun li => li <| li_tensor_count ::= fun n => u64 (n + 1) |> <| has_mxfp4_expert := true |>)
    (upd_stage (TM.owning_gpu e) (tm_stage_mark e) ctx).

Definition push_desc (e : ds4_pack_entry) (p : ds4_policy) (cap : Z) (ctx : ds4_context) : ds4_context :=
  count_exec p (ctx <| cap_descs := cap |> <| descs ::= fun l => l ++ [TensorDesc e p] |>).
Definition push_tm_desc (e : TM.ds4_tm_pack_entry) (p : ds4_policy) (cap : Z) (ctx : ds4_context) : ds4_context :=
  count_exec p (ctx <| cap_tm_descs := cap |> <| tm_descs ::= fun l => l ++ [TmTensorDesc e p] |>).

Lemma append_desc_ok `{Allocator} (ctx ctx' : ds4_context) (e : ds4_pack_entry) (p : ds4_policy) :
  append_desc ctx e p = Ok ctx' -> exists cap, ctx' = push_desc e p cap ctx.
Proof.
  unfold append_desc. destruct (n_descs ctx =? cap_descs ctx).
  - destruct (_ || _); [done|]. destruct (negb _); [done|]. intros [= <-]. eexists. reflexivity.
  - intros [= <-]. exists (cap_descs ctx). by destruct ctx.
Qed.

Lemma append_tm_desc_ok `{Allocator} (ctx ctx' : ds4_context) (e : TM.ds4_tm_pack_entry) (p : ds4_policy) :
  append_tm_desc ctx e p = Ok ctx' -> exists cap, ctx' = push_tm_desc e p cap ctx.
Proof.
  unfold append_tm_desc. destruct (n_tm_descs ctx =? cap_tm_descs ctx).
  - destruct (_ || _); [done|]. destruct (negb _); [done|]. intros [= <-]. eexists. reflexivity.
  - intros [= <-]. exists (cap_tm_descs ctx). by destruct ctx.
Qed.

Lemma bind_pack_entry_ok `{Allocator} (ctx ctx' : ds4_context) (e : ds4_pack_entry) :
  bind_pack_entry ctx e = Ok ctx' ->
  exists policy cap, desc_ok (bind_max_gpu ctx) (pack ctx) (TensorDesc e policy) /\
    ctx' = push_desc e policy cap (bind_marks e policy ctx).
Proof.
  unfold bind_pack_entry. intros Hr. destruct (_ || _) eqn:E1 in Hr; [done|].
  destruct (_ <=? _) eqn:E2 in Hr; [done|]. destruct (_ && _) eqn:E3 in Hr; [done|].
  destruct (expected_bytes_for_entry e) as [expected|] eqn:E4; [|done].
  destruct (negb _) eqn:E5 in Hr; [done|].
  destruct (ds4_classify_or_die _ _ _) as [policy|] eqn:E6; [|done].
  destruct (_ || _) eqn:E7 in Hr; [done|].
  apply append_desc_ok in Hr as [cap ->]. exists policy, cap. split; [|reflexivity].
  bool_hyps. subst expected. split; cbn [td_entry td_policy]; try done; try lia.
Qed.

Lemma bind_tm_pack_entry_ok `{Allocator} (ctx ctx' : ds4_context) (e : TM.ds4_tm_pack_entry) :
  bind_tm_pack_entry ctx e = Ok ctx' ->
  exists policy cap, tm_desc_ok (bind_max_gpu ctx) (TmTensorDesc e policy) /\
    TM.weight_offset e <= u64 (TM.weight_offset e + TM.weight_run e) /\
    TM.scale_offset e <= u64 (TM.scale_offset e + TM.scale_run e) /\
    ctx' = push_tm_desc e policy cap (tm_bind_marks e ctx).
Proof.
  unfold bind_tm_pack_entry. intros Hr. destruct (_ || _) eqn:E1 in Hr; [done|].
  destruct (_ || _) eqn:E2 in Hr; [done|]. destruct (_ && _) eqn:E3 in Hr; [done|].
  destruct (negb _) eqn:E4 in Hr; [done|]. destruct (negb _) eqn:E5 in Hr; [done|].
  destruct (negb _) eqn:E6 in Hr; [done|].
  destruct (ds4_classify_or_die _ _ _) as [policy|] eqn:E7; [|done].
  destruct (_ || _) eqn:E8 in Hr; [done|].
  apply append_tm_desc_ok in Hr as [cap ->]. exists policy, cap. bool_hyps.
  split; [|split; [done|split; [done|reflexivity]]].
  split; cbn [tmd_entry tmd_policy]; try done; try lia.
  apply andb_false_iff in E3 as [E3|E3]; apply negb_false_iff in E3; [by left|right; by apply Z.eqb_eq].
Qed.

(** ** Facts about a bound context *)

(** Tensors of the family bound to a layer. *)
Definition layer_has (f : ds4_tensor_family) (l : Z) (ds : list ds4_tensor_desc) : bool :=
  existsb (fun d => (layer_id (td_entry d) =? l) && bool_decide (family (td_policy d) = f)) ds.
Definition layer_has_tm (l : Z) (ds : list ds4_tm_tensor_desc) : bool :=
  existsb (fun d => TM.layer_id (tmd_entry d) =? l) ds.

(** Tensors bound to a layer. *)
Definition layer_count (l : Z) (ctx : ds4_context) : Z :=
  countZ (fun d => layer_id (td_entry d) =? l) (descs ctx) +
  countZ (fun d => TM.layer_id (tmd_entry d) =? l) (tm_descs ctx).

(** The flags of the layers say which families are bound. *)
Definition flags_ok (ctx : ds4_context) : Prop :=
  (forall l, 0 <= l < 43 ->
     let li := get_layer ctx l in
     li_stage_id li = ds4_stage_for_layer l /\ li_tensor_count li = u64 (layer_count l ctx) /\
     has_f32_control li = layer_has DS4_V100_FAMILY_F32_CONTROL l (descs ctx) /\
     has_fp8_dense li = layer_has DS4_V100_FAMILY_FP8_DENSE l (descs ctx) /\
     has_mxfp4_expert li =
       layer_has DS4_V100_FAMILY_MXFP4_EXPERT l (descs ctx) || layer_has_tm l (tm_descs ctx) /\
     has_hc_control li = layer_has DS4_V100_FAMILY_HC_CONTROL l (descs ctx)) /\
  has_token_embedding ctx =
    existsb (fun d => str_eqb (semantic_tensor_id (td_entry d)) (B "token_embd.weight")) (descs ctx).

(** The histogram of execution kinds counts the descriptors. *)
Definition kind_count (k : ds4_exec_kind) (ctx : ds4_context) : Z :=
  countZ (fun d => bool_decide (exec_kind (td_policy d) = k)) (descs ctx) +
  countZ (fun d => bool_decide (exec_kind (tmd_policy d) = k)) (tm_descs ctx).
Definition counts_ok (ctx : ds4_context) : Prop :=
  exec_counts ctx = map (fun k => u64 (kind_count k ctx)) exec_kinds.

Lemma u64_succ (n : Z) : u64 (u64 n + 1) = u64 (n + 1).
Proof. unfold u64. by rewrite Z.add_mod_idemp_l by done. Qed.

Lemma existsb_snoc {A} (f : A -> bool) (l : list A) (a : A) :
  existsb f (l ++ [a]) = existsb f l || f a.
Proof. rewrite existsb_app. simpl. by rewrite orb_false_r. Qed.

Lemma countZ_snoc {A} (f : A -> bool) (l : list A) (a : A) :
  countZ f (l ++ [a]) = countZ f l + (if f a then 1 else 0).
Proof. unfold countZ. rewrite sumZ_app. simpl. lia. Qed.

Lemma count_exec_counts (f : ds4_exec_kind -> Z) (g : ds4_exec_kind -> Z) (k0 : ds4_exec_kind) :
  (forall k, g k = f k + (if bool_decide (k0 = k) then 1 else 0)) ->
  alter (fun n => u64 (n + 1)) (exec_index k0) (map (fun k => u64 (f k)) exec_kinds) =
    map (fun k => u64 (g k)) exec_kinds.
Proof.
  intros Hg. unfold exec_kinds. simpl map. rewrite !Hg.
  destruct k0; simpl; rewrite ?Z.add_0_r; unfold alter; simpl; by rewrite ?u64_succ.
Qed.

Lemma bind_marks_frame (e : ds4_pack_entry) (p : ds4_policy) (ctx : ds4_context) :
  let c := bind_marks e p ctx in
  opts c = opts ctx /\ pack c = pack ctx /\ tm_pack c = tm_pack ctx /\ descs c = descs ctx /\
  tm_descs c = tm_descs ctx /\ exec_counts c = exec_counts ctx /\
  stages c = alter (fun s => s <| sg_tensor_count ::= fun n => u64 (n + 1) |>)
               (Z.to_nat (owning_gpu e)) (stages ctx) /\
  layers c = (if 0 <=? layer_id e
              then alter (mark_family (family p)) (Z.to_nat (layer_id e)) (layers ctx) else layers ctx) /\
  has_token_embedding c =
    (has_token_embedding ctx || str_eqb (semantic_tensor_id e) (B "token_embd.weight")).
Proof.
  unfold bind_marks. destruct (0 <=? layer_id e), (str_eqb _ _); simpl;
    rewrite ?orb_true_r, ?orb_false_r; done.
Qed.

Lemma get_layer_bind (e : ds4_pack_entry) (p : ds4_policy) (cap l : Z) (ctx : ds4_context) :
  ctx_arrays ctx -> 0 <= l < 43 ->
  get_layer (push_desc e p cap (bind_marks e p ctx)) l =
    if layer_id e =? l then mark_family (family p) (get_layer ctx l) else get_layer ctx l.
Proof.
  intros Ha Hl. destruct (bind_marks_frame e p ctx) as (_ & _ & _ & _ & _ & _ & _ & Hlay & _).
  assert (get_layer (push_desc e p cap (bind_marks e p ctx)) l =
          get_layer (if 0 <=? layer_id e then upd_layer (layer_id e) (mark_family (family p)) ctx else ctx) l)
    as ->.
  { unfold get_layer. simpl layers. rewrite Hlay. by destruct (0 <=? layer_id e). }
  destruct (Z.leb_spec 0 (layer_id e)).
  - rewrite get_upd_layer by done. by rewrite Z.eqb_sym.
  - destruct (Z.eqb_spec (layer_id e) l); [lia|done].
Qed.

Lemma get_stage_bind (e : ds4_pack_entry) (p : ds4_policy) (cap i : Z) (ctx : ds4_context) :
  ctx_arrays ctx -> 0 <= owning_gpu e -> 0 <= i < 8 ->
  get_stage (push_desc e p cap (bind_marks e p ctx)) i =
    if i =? owning_gpu e then (get_stage ctx i) <| sg_tensor_count ::= fun n => u64 (n + 1) |>
    else get_stage ctx i.
Proof.
  intros Ha Hg Hi. destruct (bind_marks_frame e p ctx) as (_ & _ & _ & _ & _ & _ & Hst & _).
  assert (get_stage (push_desc e p cap (bind_marks e p ctx)) i =
          get_stage (upd_stage (owning_gpu e) (fun s => s <| sg_tensor_count ::= fun n => u64 (n + 1) |>) ctx) i)
    as -> by (unfold get_stage; simpl stages; by rewrite Hst).
  by rewrite get_upd_stage.
Qed.

Lemma mark_family_flags (f : ds4_tensor_family) (li : ds4_layer_info) :
  let li' := mark_family f li in
  li_stage_id li' = li_stage_id li /\ li_tensor_count li' = u64 (li_tensor_count li + 1) /\
  has_f32_control li' = has_f32_control li || bool_decide (f = DS4_V100_FAMILY_F32_CONTROL) /\
  has_fp8_dense li' = has_fp8_dense li || bool_decide (f = DS4_V100_FAMILY_FP8_DENSE) /\
  has_mxfp4_expert li' = has_mxfp4_expert li || bool_decide (f = DS4_V100_FAMILY_MXFP4_EXPERT) /\
  has_hc_control li' = has_hc_control li || bool_decide (f = DS4_V100_FAMILY_HC_CONTROL).
Proof. destruct f; simpl; rewrite ?orb_true_r, ?orb_false_r; done. Qed.

Lemma flags_push (e : ds4_pack_entry) (p : ds4_policy) (cap : Z) (ctx : ds4_context) :
  ctx_arrays ctx -> flags_ok ctx -> flags_ok (push_desc e p cap (bind_marks e p ctx)).
Proof.
  intros Ha [Hf Htok].
  destruct (bind_marks_frame e p ctx) as (_ & _ & _ & Hd & Htm & _ & _ & _ & Hte).
  split.
  - intros l Hl. rewrite get_layer_bind by done. destruct (Hf l Hl) as (F0 & Fc & F1 & F2 & F3 & F4).
    unfold layer_count in *. simpl descs. simpl tm_descs. rewrite Hd, Htm, countZ_snoc. cbn [td_entry]. unfold layer_has. rewrite !existsb_snoc. cbn [td_entry td_policy].
    fold (layer_has DS4_V100_FAMILY_F32_CONTROL l (descs ctx))
      (layer_has DS4_V100_FAMILY_FP8_DENSE l (descs ctx))
      (layer_has DS4_V100_FAMILY_MXFP4_EXPERT l (descs ctx))
      (layer_has DS4_V100_FAMILY_HC_CONTROL l (descs ctx)).
    destruct (mark_family_flags (family p) (get_layer ctx l)) as (M0 & Mc & M1 & M2 & M3 & M4).
    destruct (layer_id e =? l); cbn [andb].
    + rewrite M0, Mc, M1, M2, M3, M4, F0, Fc, F1, F2, F3, F4, u64_succ.
      split; [done|]. split; [f_equal; lia|]. do 2 (split; [done|]). split; [|done].
      rewrite <- !orb_assoc. f_equal. apply orb_comm.
    + rewrite !orb_false_r, Z.add_0_r. done.
  - simpl has_token_embedding. simpl descs. by rewrite Hd, existsb_snoc, Hte, Htok.
Qed.

Lemma counts_push (e : ds4_pack_entry) (p : ds4_policy) (cap : Z) (ctx : ds4_context) :
  counts_ok ctx -> counts_ok (push_desc e p cap (bind_marks e p ctx)).
Proof.
  intros Hc. destruct (bind_marks_frame e p ctx) as (_ & _ & _ & Hd & Htm & He & _).
  unfold counts_ok in *. simpl exec_counts. rewrite He, Hc. apply count_exec_counts.
  intros k. unfold kind_count. simpl. rewrite Hd, Htm, countZ_snoc. simpl. lia.
Qed.

Lemma flags_push_tm (e : TM.ds4_tm_pack_entry) (p : ds4_policy) (cap : Z) (ctx : ds4_context) :
  ctx_arrays ctx -> 0 <= TM.layer_id e -> flags_ok ctx ->
  flags_ok (push_tm_desc e p cap (tm_bind_marks e ctx)).
Proof.
  intros Ha He [Hf Htok]. split; [|done].
  intros l Hl. destruct (Hf l Hl) as (F0 & Fc & F1 & F2 & F3 & F4). unfold layer_count in *.
  assert (get_layer (push_tm_desc e p cap (tm_bind_marks e ctx)) l =
          get_layer (upd_layer (TM.layer_id e)
            (fun li => li <| li_tensor_count ::= fun n => u64 (n + 1) |> <| has_mxfp4_expert := true |>) ctx) l)
    as -> by done.
  rewrite get_upd_layer by done. simpl descs. simpl tm_descs.
  rewrite countZ_snoc. unfold layer_has_tm. rewrite existsb_snoc. cbn [tmd_entry]. fold (layer_has_tm l (tm_descs ctx)).
  rewrite (Z.eqb_sym l). destruct (TM.layer_id e =? l); simpl.
  - rewrite !orb_true_r, Fc, u64_succ. split; [done|]. split; [f_equal; lia|done].
  - by rewrite orb_false_r, Z.add_0_r.
Qed.

Lemma counts_push_tm (e : TM.ds4_tm_pack_entry) (p : ds4_policy) (cap : Z) (ctx : ds4_context) :
  counts_ok ctx -> counts_ok (push_tm_desc e p cap (tm_bind_marks e ctx)).
Proof.
  intros Hc. unfold counts_ok in *. simpl exec_counts. rewrite Hc. apply count_exec_counts.
  intros k. unfold kind_count. simpl. rewrite countZ_snoc. simpl. lia.
Qed.

(** Bytes of a sidecar row lie inside the arena of its stage. *)
Definition tm_span_ok (ctx : ds4_context) (d : ds4_tm_tensor_desc) : Prop :=
  let e := tmd_entry d in
  TM.weight_offset e + TM.weight_run e <= arena_bytes (get_stage ctx (TM.owning_gpu e)) /\
  TM.scale_offset e + TM.scale_run e <= arena_bytes (get_stage ctx (TM.owning_gpu e)).

Record bound (ctx : ds4_context) : Prop := {
  bd_arrays : ctx_arrays ctx;
  bd_max : 0 < bind_max_gpu ctx <= 8;
  bd_descs : Forall (desc_ok (bind_max_gpu ctx) (pack ctx)) (descs ctx);
  bd_tm_descs : Forall (tm_desc_ok (bind_max_gpu ctx)) (tm_descs ctx);
  bd_arena : forall i, 0 <= i < 8 -> ds4_pack_arena_bytes (pack ctx) i <= arena_bytes (get_stage ctx i);
  bd_tm_span : Forall (tm_span_ok ctx) (tm_descs ctx);
  bd_flags : flags_ok ctx;
  bd_counts : counts_ok ctx
}.

(** What binding leaves alone: everything the budget check reads, the arena
    size apart, which only grows. *)
Definition stage_grows (s s' : ds4_stage_info) : Prop :=
  arena_bytes s <= arena_bytes s' /\
  s' = s <| sg_tensor_count := sg_tensor_count s' |> <| arena_bytes := arena_bytes s' |>.

Lemma stage_grows_refl (s : ds4_stage_info) : stage_grows s s.
Proof. split; [done|]. by destruct s. Qed.

Lemma stage_grows_count (s : ds4_stage_info) f : stage_grows s (s <| sg_tensor_count ::= f |>).
Proof. split; [done|]. by destruct s. Qed.

Lemma tm_stage_mark_grows (e : TM.ds4_tm_pack_entry) (s : ds4_stage_info) :
  stage_grows s (tm_stage_mark e s) /\
  u64 (TM.weight_offset e + TM.weight_run e) <= arena_bytes (tm_stage_mark e s) /\
  u64 (TM.scale_offset e + TM.scale_run e) <= arena_bytes (tm_stage_mark e s).
Proof.
  unfold tm_stage_mark, stage_grows.
  set (w := u64 (TM.weight_offset e + _)). set (c := u64 (TM.scale_offset e + _)). clearbody w c.
  destruct (Z.ltb_spec (arena_bytes s) w); cbn [arena_bytes set_field];
    [destruct (Z.ltb_spec w c)|destruct (Z.ltb_spec (arena_bytes s) c)]; simpl;
    (repeat split; try lia; try by destruct s).
Qed.

Lemma stage_grows_trans (s1 s2 s3 : ds4_stage_info) :
  stage_grows s1 s2 -> stage_grows s2 s3 -> stage_grows s1 s3.
Proof.
  intros [H1 E1] [H2 E2]. split; [lia|]. rewrite E2, E1. by destruct s1.
Qed.

(** ** Binding preserves the facts *)

Lemma bound_push `{Allocator} (ctx : ds4_context) (e : ds4_pack_entry) (p : ds4_policy) (cap : Z) :
  bound ctx -> tm_descs ctx = [] -> desc_ok (bind_max_gpu ctx) (pack ctx) (TensorDesc e p) ->
  bound (push_desc e p cap (bind_marks e p ctx)).
Proof.
  intros [B1 B2 B3 B4 B5 B6 B7 B8] Htm Hd.
  destruct (bind_marks_frame e p ctx) as (Ho & Hp & _ & Hds & Htms & _ & Hst & Hly & _).
  assert (bind_max_gpu (push_desc e p cap (bind_marks e p ctx)) = bind_max_gpu ctx) as Hmax
    by (unfold bind_max_gpu; simpl; by rewrite Ho).
  assert (0 <= owning_gpu e) as Hg by (destruct Hd as [Hg _ _ _ _ _]; simpl in Hg; lia).
  split.
  - unfold ctx_arrays. simpl. rewrite Hst, Hly, length_alter. destruct B1 as [A1 A2].
    split; [done|]. by destruct (0 <=? layer_id e); rewrite ?length_alter.
  - by rewrite Hmax.
  - rewrite Hmax. simpl. rewrite Hp, Hds. apply Forall_app. split; [done|]. by apply Forall_singleton.
  - simpl. rewrite Htms, Htm. constructor.
  - intros i Hi. rewrite get_stage_bind by done. simpl pack. rewrite Hp.
    specialize (B5 i Hi). by destruct (i =? owning_gpu e).
  - simpl. rewrite Htms, Htm. constructor.
  - by apply flags_push.
  - by apply counts_push.
Qed.

Lemma stage_grows_bind (e : ds4_pack_entry) (p : ds4_policy) (cap i : Z) (ctx : ds4_context) :
  ctx_arrays ctx -> 0 <= owning_gpu e -> 0 <= i < 8 ->
  stage_grows (get_stage ctx i) (get_stage (push_desc e p cap (bind_marks e p ctx)) i).
Proof.
  intros Ha Hg Hi. rewrite get_stage_bind by done.
  destruct (_ =? _); [apply stage_grows_count|apply stage_grows_refl].
Qed.

Lemma get_stage_tm (e : TM.ds4_tm_pack_entry) (p : ds4_policy) (cap i : Z) (ctx : ds4_context) :
  ctx_arrays ctx -> 0 <= TM.owning_gpu e -> 0 <= i < 8 ->
  get_stage (push_tm_desc e p cap (tm_bind_marks e ctx)) i =
    if i =? TM.owning_gpu e then tm_stage_mark e (get_stage ctx i) else get_stage ctx i.
Proof.
  intros Ha Hg Hi.
  change (get_stage (upd_stage (TM.owning_gpu e) (tm_stage_mark e) ctx) i =
    if i =? TM.owning_gpu e then tm_stage_mark e (get_stage ctx i) else get_stage ctx i).
  by rewrite get_upd_stage.
Qed.

Lemma stage_grows_tm (e : TM.ds4_tm_pack_entry) (p : ds4_policy) (cap i : Z) (ctx : ds4_context) :
  ctx_arrays ctx -> 0 <= TM.owning_gpu e -> 0 <= i < 8 ->
  stage_grows (get_stage ctx i) (get_stage (push_tm_desc e p cap (tm_bind_marks e ctx)) i).
Proof.
  intros Ha Hg Hi. rewrite get_stage_tm by done.
  destruct (_ =? _); [apply tm_stage_mark_grows|apply stage_grows_refl].
Qed.

Lemma bound_push_tm (ctx : ds4_context) (e : TM.ds4_tm_pack_entry) (p : ds4_policy) (cap : Z) :
  bound ctx -> tm_desc_ok (bind_max_gpu ctx) (TmTensorDesc e p) ->
  is_u64 (TM.weight_offset e + TM.weight_run e) -> is_u64 (TM.scale_offset e + TM.scale_run e) ->
  bound (push_tm_desc e p cap (tm_bind_marks e ctx)).
Proof.
  intros [B1 B2 B3 B4 B5 B6 B7 B8] Hd Hw Hs.
  assert (0 <= TM.owning_gpu e < 8) as Hg by (destruct Hd as [Hg _ _ _ _ _]; simpl in Hg; lia).
  assert (0 <= TM.layer_id e) as Hl by (destruct Hd as [_ Hl _ _ _ _]; simpl in Hl; lia).
  assert (forall i, 0 <= i < 8 ->
    arena_bytes (get_stage ctx i) <=
    arena_bytes (get_stage (push_tm_desc e p cap (tm_bind_marks e ctx)) i)) as Hgrow
    by (intros i Hi; apply stage_grows_tm; done || lia).
  split; try done.
  - unfold ctx_arrays. simpl. rewrite !length_alter. exact B1.
  - apply Forall_app. split; [exact B4|]. by apply Forall_singleton.
  - intros i Hi. specialize (B5 i Hi). specialize (Hgrow i Hi). simpl pack in *. simpl in B5. lia.
  - apply Forall_app. split.
    + apply Forall_forall. intros d Hin. rewrite Forall_forall in B6, B4.
      destruct (B6 d Hin) as [W1 S1]. destruct (B4 d Hin) as [G _ _ _ _ _].
      specialize (Hgrow (TM.owning_gpu (tmd_entry d)) ltac:(lia)). split; lia.
    + apply Forall_singleton. unfold tm_span_ok. cbn [tmd_entry].
      rewrite get_stage_tm, Z.eqb_refl by (done || lia).
      destruct (tm_stage_mark_grows e (get_stage ctx (TM.owning_gpu e))) as (_ & M1 & M2).
      rewrite u64_small in M1, M2 by done. done.
  - by apply flags_push_tm.
  - by apply counts_push_tm.
Qed.

(** ** The two binding loops *)

Section BindLoops.
Context `{Allocator}.

Lemma bind_rows (p : ds4_pack) (c1 c2 : ds4_context) :
  bound c1 -> pack c1 = Some p -> descs c1 = [] -> tm_descs c1 = [] ->
  ds4_pack_for_each p bind_pack_entry c1 = Ok c2 ->
  bound c2 /\ opts c2 = opts c1 /\ pack c2 = Some p /\ tm_descs c2 = [] /\
  td_entry <$> descs c2 = entries p /\
  (forall i, 0 <= i < 8 -> stage_grows (get_stage c1 i) (get_stage c2 i)).
Proof.
  intros Hb Hp Hd Htm Hr.
  apply (rfold_inv _ (fun done c => bound c /\ opts c = opts c1 /\ pack c = Some p /\
    tm_descs c = [] /\ td_entry <$> descs c = done /\
    (forall i, 0 <= i < 8 -> stage_grows (get_stage c1 i) (get_stage c i))) (entries p) c1 c2)
    with (pre := []) in Hr; [done| |].
  - intros seen e c c' _ (I1 & I2 & I3 & I4 & I5 & I6) Hs.
    apply bind_pack_entry_ok in Hs as (policy & cap & Hok & ->).
    assert (0 <= owning_gpu e) as Hg by (destruct Hok as [Hg _ _ _ _ _]; simpl in Hg; lia).
    destruct (bind_marks_frame e policy c) as (Ho & Hpk & _ & Hds & Htms & _).
    split; [by apply bound_push|]. split; [simpl; by rewrite Ho|]. split; [simpl; by rewrite Hpk|].
    split; [simpl; by rewrite Htms|]. split; [simpl; by rewrite Hds, fmap_app, I5|].
    intros i Hi. eapply stage_grows_trans; [by apply I6|].
    apply stage_grows_bind; [apply I1|done|done].
  - split; [done|]. split; [done|]. split; [done|]. split; [done|]. split; [by rewrite Hd|].
    intros. apply stage_grows_refl.
Qed.

Lemma bind_tm_rows (p : TM.ds4_tm_pack) (c1 c2 : ds4_context) :
  bound c1 -> TM.tm_pack_wf p -> tm_descs c1 = [] ->
  TM.ds4_tm_pack_for_each p bind_tm_pack_entry c1 = Ok c2 ->
  bound c2 /\ opts c2 = opts c1 /\ pack c2 = pack c1 /\ tm_pack c2 = tm_pack c1 /\
  descs c2 = descs c1 /\ tmd_entry <$> tm_descs c2 = TM.entries p /\
  (forall i, 0 <= i < 8 -> stage_grows (get_stage c1 i) (get_stage c2 i)).
Proof.
  intros Hb [Hwf _] Htm Hr. rewrite Forall_forall in Hwf.
  apply (rfold_inv _ (fun done c => bound c /\ opts c = opts c1 /\ pack c = pack c1 /\
    tm_pack c = tm_pack c1 /\ descs c = descs c1 /\ tmd_entry <$> tm_descs c = done /\
    (forall i, 0 <= i < 8 -> stage_grows (get_stage c1 i) (get_stage c i))) (TM.entries p) c1 c2)
    with (pre := []) in Hr; [done| |].
  - intros seen e c c' Hin (I1 & I2 & I3 & I3' & I4 & I5 & I6) Hs.
    apply bind_tm_pack_entry_ok in Hs as (policy & cap & Hok & _ & _ & ->).
    assert (0 <= TM.owning_gpu e) as Hg by (destruct Hok as [Hg _ _ _ _ _]; simpl in Hg; lia).
    specialize (Hwf e Hin). unfold TM.entry_wf in Hwf.
    pose proof (u64_range (TM.experts_packed e * TM.weight_bytes_per_expert e)) as R1.
    pose proof (u64_range (TM.experts_packed e * TM.scale_bytes_per_expert e)) as R2.
    fold (TM.weight_run e) in R1. fold (TM.scale_run e) in R2.
    split; [apply bound_push_tm; [done|done|zlia|zlia]|].
    do 4 (split; [done|]). split; [simpl; by rewrite fmap_app, I5|].
    intros i Hi. eapply stage_grows_trans; [by apply I6|].
    apply stage_grows_tm; [apply I1|done|done].
  - do 5 (split; [done|]). split; [by rewrite Htm|]. intros. apply stage_grows_refl.
Qed.
End BindLoops.

(** ** From the options to the bound context *)

Lemma fresh_flags (o : ds4_context_options) : flags_ok (planned o) /\ counts_ok (planned o) /\
  ctx_arrays (planned o) /\ opts (planned o) = o /\ pack (planned o) = None /\
  tm_pack (planned o) = None /\ descs (planned o) = [] /\ tm_descs (planned o) = [].
Proof.
  pose proof (init_stage_map_inv (context_calloc o) (context_calloc_arrays o)) as (A1 & A2 & A3 & A4 & _).
  assert (init_stage_map (context_calloc o) =
    (context_calloc o) <| stages := stages (init_stage_map (context_calloc o)) |>
                       <| layers := layers (init_stage_map (context_calloc o)) |>) as Hrest.
  { clear. unfold init_stage_map. generalize (context_calloc o) as c. intros c.
    assert (forall (f : Z -> ds4_context -> ds4_layer_info -> ds4_layer_info) l c0,
      foldl (fun c i => upd_layer i (f i c) c) c0 l =
        c0 <| layers := layers (foldl (fun c i => upd_layer i (f i c) c) c0 l) |>) as HL.
    { intros f l. induction l as [|i l IH]; intros c0; simpl; [by destruct c0|]. rewrite IH. by destruct c0. }
    assert (forall (f : Z -> ds4_context -> ds4_stage_info -> ds4_stage_info) l c0,
      foldl (fun c i => upd_stage i (f i c) c) c0 l =
        c0 <| stages := stages (foldl (fun c i => upd_stage i (f i c) c) c0 l) |>) as HS.
    { intros f l. induction l as [|i l IH]; intros c0; simpl; [by destruct c0|]. rewrite IH. by destruct c0. }
    rewrite (HL (fun i _ => init_layer i) layer_ids).
    rewrite (HS (fun i c => init_stage (opts c) i) stage_ids c). by destruct c. }
  assert (forall l, 0 <= l < 43 -> get_layer (context_calloc o) l = layer_zero) as Hz.
  { intros l Hl. unfold get_layer, context_calloc, DS4_V100_N_LAYERS. cbn [layers].
    by rewrite lookup_replicate_2 by lia. }
  pose proof (apply_plan_frame (init_stage_map (context_calloc o))) as Hf.
  unfold planned. revert A1 A2 A3 A4 Hrest Hf. generalize (init_stage_map (context_calloc o)) as c0.
  intros c0 A1 A2 A3 A4 Hrest Hf.
  assert (forall l, 0 <= l < 43 ->
    core_layer (get_layer (apply_derived_kv_plan c0) l) = core_layer (init_layer l layer_zero)) as Hcore.
  { intros l Hl. rewrite (kv_frame_get_layer _ _ l Hf), A4, Hz by done. done. }
  pose proof (kv_frame_arrays _ _ Hf A1) as Harr. destruct Hf as [_ _ Hk].
  revert Hcore Harr Hk. generalize (apply_derived_kv_plan c0) as c1. intros c1 Hcore Harr Hk.
  rewrite Hk, Hrest. cbn -[layers stages].
  split; [|split; [reflexivity|split; [exact Harr|repeat split]]].
  split; [|reflexivity]. intros l Hl. specialize (Hcore l Hl).
  assert (get_layer c1 l = get_layer c1 l) as _ by done.
  change (get_layer _ l) with (get_layer c1 l).
  destruct (get_layer c1 l). unfold core_layer, init_layer in Hcore. simpl in Hcore.
  injection Hcore as _ -> _ -> -> -> -> ->. simpl. repeat split.
Qed.

(** ** Topology *)

(** Only [device_total_bytes] of the stages changes. *)
Definition topo_frame (c c' : ds4_context) : Prop :=
  c' = c <| stages := stages c' |> /\ (ctx_arrays c -> ctx_arrays c') /\
  forall i, 0 <= i < 8 ->
    get_stage c' i = (get_stage c i) <| device_total_bytes := device_total_bytes (get_stage c' i) |>.

Lemma topo_frame_refl (c : ds4_context) : topo_frame c c.
Proof. split; [by destruct c|]. split; [done|]. intros i _. by destruct (get_stage c i). Qed.

Lemma validate_topology_inv (c c' : ds4_context) :
  ctx_arrays c -> validate_topology c = Ok c' ->
  topo_frame c c' /\
  (require_production_topology (opts c) = true ->
   exists facts, device_facts (opts c) = Some facts /\ expected_gpus (opts c) = 8 /\
     forall i, 0 <= i < 8 -> exists f, facts !! Z.to_nat i = Some f /\
       device_total_bytes (get_stage c' i) = total_global_mem f /\
       DS4_V100_MIN_VRAM_BYTES <= total_global_mem f /\ cc_major f = 7 /\ visible_id f = i).
Proof.
  intros Ha. unfold validate_topology. destruct (require_production_topology (opts c)) eqn:Hp; cbn [negb].
  2: { intros [= <-]. split; [apply topo_frame_refl|done]. }
  destruct (Z.eqb_spec (expected_gpus (opts c)) DS4_V100_EXPECTED_GPUS) as [Hg|]; [|done].
  destruct (device_facts (opts c)) as [facts|]; [|done].
  destruct (Z.eqb_spec (Z.of_nat (length facts)) DS4_V100_EXPECTED_GPUS) as [Hn|]; [|done]. cbn [negb].
  unfold DS4_V100_EXPECTED_GPUS in Hg, Hn.
  destruct (rfold (validate_device facts) c stage_ids) as [c1|] eqn:E1; [|done]. intros E2.
  assert (c' = c1) as ->.
  { apply (rfold_inv _ (fun _ x => x = c1) _ c1 c') with (pre := []) in E2; [done| |done].
    intros _ i x x' _ -> Hs. unfold validate_peer in Hs. destruct (_ || _); by simplify_eq. }
  apply (rfold_inv _ (fun seen x => topo_frame c x /\ forall i, i ∈ seen -> exists f,
      facts !! Z.to_nat i = Some f /\ device_total_bytes (get_stage x i) = total_global_mem f /\
      DS4_V100_MIN_VRAM_BYTES <= total_global_mem f /\ cc_major f = 7 /\ visible_id f = i)
    _ c c1) with (pre := []) in E1.
  - destruct E1 as [Hf Hall]. split; [done|]. intros _. exists facts. split; [done|]. split; [done|].
    intros i Hi. apply Hall. by apply stage_ids_elem.
  - intros seen i x x' Hin [(F1 & F2 & F3) Hall] Hs. apply stage_ids_elem in Hin. unfold validate_device in Hs.
    destruct (lookup_lt_is_Some_2 facts (Z.to_nat i)) as [f Hfi]; [lia|]. rewrite Hfi in Hs. simpl in Hs.
    destruct (negb _) eqn:V1 in Hs; [done|]. destruct (negb _) eqn:V2 in Hs; [done|].
    destruct (_ <? _) eqn:V3 in Hs; [done|]. injection Hs as <-. bool_hyps. split.
    + split; [rewrite F1; by destruct c|]. split; [intros; by apply ctx_arrays_upd_stage, F2|].
      intros j Hj. rewrite get_upd_stage by (auto || lia).
      destruct (j =? i); [|by apply F3]. rewrite (F3 j Hj) at 1. by destruct (get_stage c j).
    + intros j Hj. apply elem_of_app in Hj as [Hj|Hj%list_elem_of_singleton].
      * destruct (Hall j Hj) as (g & G1 & G2 & G3 & G4 & G5). exists g.
        split; [done|]. split; [|done]. unfold get_stage in *. simpl stages.
        destruct (decide (Z.to_nat i = Z.to_nat j)) as [Heq|Hne].
        -- rewrite Heq. rewrite list_lookup_alter_eq. rewrite Heq in Hfi.
           destruct (lookup_lt_is_Some_2 (stages x) (Z.to_nat j)) as [s Hs];
             [destruct (F2 Ha); lia|]. rewrite Hs. simpl. congruence.
        -- by rewrite list_lookup_alter_ne.
      * subst j. exists f. rewrite get_upd_stage, Z.eqb_refl by (auto || lia). simpl.
        repeat split; done || lia.
  - split; [apply topo_frame_refl|]. by intros i ?%elem_of_nil.
Qed.

Lemma topo_bound (c c' : ds4_context) :
  topo_frame c c' -> ctx_arrays c -> 0 < bind_max_gpu c <= 8 -> pack c = None ->
  descs c = [] -> tm_descs c = [] -> flags_ok c -> counts_ok c ->
  (forall i, 0 <= i < 8 -> 0 <= arena_bytes (get_stage c i)) -> bound c'.
Proof.
  intros (F1 & F2 & F3) Ha Hmax Hp Hd Htm Hf Hc Hz.
  assert (layers c' = layers c /\ opts c' = opts c /\ pack c' = pack c /\ descs c' = descs c /\
          tm_descs c' = tm_descs c /\ exec_counts c' = exec_counts c /\
          has_token_embedding c' = has_token_embedding c) as (L & O & P & D & T & X & E)
    by (rewrite F1; by destruct c).
  split.
  - by apply F2.
  - unfold bind_max_gpu. by rewrite O.
  - rewrite D, Hd. constructor.
  - rewrite T, Htm. constructor.
  - intros i Hi. rewrite P, Hp, (F3 i Hi). simpl. by apply Hz.
  - rewrite T, Htm. constructor.
  - destruct Hf as [Hf Ht]. split; [|by rewrite E, D].
    intros l Hl. specialize (Hf l Hl). unfold get_layer, layer_count in *. by rewrite L, D, T.
  - unfold counts_ok, kind_count in *. by rewrite X, D, T.
Qed.

(** ** Opening *)

Section Open.
Context `{Allocator}.

(** The stages start with an empty arena. *)
Lemma core_arena (s1 s2 : ds4_stage_info) :
  core_stage s1 = core_stage s2 -> arena_bytes s1 = arena_bytes s2 /\ reserve_bytes s1 = reserve_bytes s2.
Proof.
  intros Hc. destruct s1, s2. unfold core_stage, clear_stage_kv in Hc. simpl in *.
  by injection Hc as -> -> -> -> -> -> -> -> -> -> -> -> -> ->.
Qed.

Lemma init_stage_arena (o : ds4_context_options) (i : Z) (s : ds4_stage_info) :
  arena_bytes (init_stage o i s) = arena_bytes s /\ reserve_bytes (init_stage o i s) = reserve_bytes_per_gpu o.
Proof. unfold init_stage. by destruct (i =? 7). Qed.

Lemma calloc_stage (o : ds4_context_options) (i : Z) :
  0 <= i < 8 -> get_stage (context_calloc o) i = stage_zero.
Proof.
  intros Hi. unfold get_stage, context_calloc, DS4_V100_EXPECTED_GPUS. cbn [stages].
  by rewrite lookup_replicate_2 by lia.
Qed.

Lemma frame_arena (o : ds4_context_options) (c0 c1 : ds4_context) (i : Z) :
  kv_frame c0 c1 -> get_stage c0 i = init_stage o i stage_zero ->
  arena_bytes (get_stage c1 i) = 0 /\ reserve_bytes (get_stage c1 i) = reserve_bytes_per_gpu o.
Proof.
  intros Hf H0. destruct (core_arena _ _ (kv_frame_get_stage _ _ i Hf)) as [-> ->].
  rewrite H0. apply init_stage_arena.
Qed.

Lemma planned_arena (o : ds4_context_options) (i : Z) :
  0 <= i < 8 -> arena_bytes (get_stage (planned o) i) = 0 /\
    reserve_bytes (get_stage (planned o) i) = reserve_bytes_per_gpu o.
Proof.
  intros Hi. unfold planned. apply (frame_arena o (init_stage_map (context_calloc o))); [apply apply_plan_frame|].
  destruct (init_stage_map_inv (context_calloc o) (context_calloc_arrays o)) as (_ & _ & _ & _ & A5).
  rewrite A5 by done. by rewrite calloc_stage.
Qed.

Lemma arena_bytes_nonneg (p : option ds4_pack) (gpu : Z) : 0 <= ds4_pack_arena_bytes p gpu.
Proof.
  unfold ds4_pack_arena_bytes. destruct p as [p|]; [|done]. destruct (gpu <? 0); [done|].
  generalize (entries p) as l. assert (0 <= 0) as H0 by done. revert H0. generalize 0 at 2 4 as m.
  intros m Hm l. revert m Hm. induction l as [|e l IH]; intros m Hm; simpl; [done|].
  apply IH. destruct (_ && _); [|done]. pose proof (u64_range (shard_offset e + byte_length e)). zlia.
Qed.

Lemma bind_pack_inv (fs : bytes -> file_env) (c1 c2 : ds4_context) :
  bound c1 -> pack c1 = None -> descs c1 = [] -> tm_descs c1 = [] ->
  (forall i, 0 <= i < 8 -> arena_bytes (get_stage c1 i) = 0) ->
  bind_pack fs c1 = Ok c2 ->
  bound c2 /\ opts c2 = opts c1 /\ tm_descs c2 = [] /\
  (forall i, 0 <= i < 8 -> stage_grows (get_stage c1 i) (get_stage c2 i)) /\
  match pack_index_path (opts c1) with
  | None | Some [] => pack c2 = None /\ descs c2 = []
  | Some path => exists p, ds4_pack_open (Some path) (fs path) = Ok p /\ pack c2 = Some p /\
                           td_entry <$> descs c2 = entries p
  end.
Proof.
  intros Hb Hp Hd Htm Hz. unfold bind_pack.
  assert (bound c1 /\ opts c1 = opts c1 /\ tm_descs c1 = [] /\
    (forall i, 0 <= i < 8 -> stage_grows (get_stage c1 i) (get_stage c1 i))) as Hrefl
    by (do 3 (split; [done|]); intros; apply stage_grows_refl).
  destruct (pack_index_path (opts c1)) as [[|ch path]|] eqn:Hpath.
  1, 3: intros [= <-]; destruct Hrefl as (? & ? & ? & ?); by do 4 (split; [done|]).
  destruct (ds4_pack_open (Some (ch :: path)) (fs (ch :: path))) as [p|] eqn:Hopen; [|done].
  destruct (ds4_pack_open_inv _ _ _ Hopen) as (_ & _ & _ & _).
  set (c0 := c1 <| pack := Some p |>).
  assert (ctx_arrays c0) as A0 by exact (bd_arrays _ Hb).
  intros Hr. pose proof (foldl_stages
    (fun i s => s <| arena_bytes := ds4_pack_arena_bytes (Some p) i |>) c0 A0) as HS.
  assert (forall l c, pack c = Some p ->
    foldl (fun c i => upd_stage i (fun s => s <| arena_bytes := ds4_pack_arena_bytes (pack c) i |>) c) c l =
    foldl (fun c i => upd_stage i (fun s => s <| arena_bytes := ds4_pack_arena_bytes (Some p) i |>) c) c l /\
    (foldl (fun c i => upd_stage i (fun s => s <| arena_bytes := ds4_pack_arena_bytes (Some p) i |>) c) c l) =
      c <| stages := stages (foldl (fun c i =>
             upd_stage i (fun s => s <| arena_bytes := ds4_pack_arena_bytes (Some p) i |>) c) c l) |>) as Hfl.
  { induction l as [|i l IH]; intros c Hc; cbn [foldl]; [split; [done|by destruct c]|].
    rewrite Hc. destruct (IH (upd_stage i (fun s => s <| arena_bytes := ds4_pack_arena_bytes (Some p) i |>) c) Hc)
      as [-> E]. split; [done|]. rewrite E. by destruct c. }
  destruct (Hfl stage_ids c0 eq_refl) as [E1 E2]. rewrite E1 in Hr. cbv beta zeta in HS.
  revert Hr HS E2. clear E1 Hfl.
  generalize (foldl (fun c i => upd_stage i (fun s => s <| arena_bytes := ds4_pack_arena_bytes (Some p) i |>) c)
                c0 stage_ids).
  intros c Hr (S1 & S2 & S3 & S4) E2.
  assert (pack c = Some p /\ descs c = [] /\ tm_descs c = [] /\ exec_counts c = exec_counts c1 /\
          has_token_embedding c = has_token_embedding c1) as (P & D & T & X & E)
    by (rewrite E2; by destruct c1).
  assert (bound c) as Hbc.
  { destruct Hb as [B1 B2 B3 B4 B5 B6 B7 B8]. split.
    - done.
    - unfold bind_max_gpu. by rewrite S3.
    - rewrite D. constructor.
    - rewrite T. constructor.
    - intros i Hi. rewrite P, S4 by done. done.
    - rewrite T. constructor.
    - destruct B7 as [Hf Ht]. split; [|by rewrite E, D, Ht, Hd].
      intros l Hl. specialize (Hf l Hl). unfold get_layer, layer_count in *.
      rewrite S2, D, T. rewrite Hd, Htm in Hf. done.
    - unfold counts_ok, kind_count in *. rewrite X, D, T, B8, Hd, Htm. done. }
  destruct (bind_rows p c c2 Hbc P D T Hr) as (R1 & R2 & R3 & R4 & R5 & R6).
  split; [done|]. split; [by rewrite R2, S3|]. split; [done|]. split; [|by exists p].
  intros i Hi. eapply stage_grows_trans; [|by apply R6]. rewrite S4 by done.
  change (get_stage c0 i) with (get_stage c1 i). split.
  - rewrite Hz by done. apply arena_bytes_nonneg.
  - by destruct (get_stage c1 i).
Qed.
End Open.

(** What [ds4_context_open] returned: the facts above, and where the tables
    come from. *)
Record opened `{Allocator} (fs : bytes -> file_env) (ctx : ds4_context) : Prop := {
  op_bound : bound ctx;
  op_pack :
    match pack_index_path (opts ctx) with
    | None | Some [] => pack ctx = None /\ descs ctx = []
    | Some path => exists p, ds4_pack_open (Some path) (fs path) = Ok p /\
                     pack ctx = Some p /\ td_entry <$> descs ctx = entries p
    end;
  op_tm :
    match turbomind_pack_index_path (opts ctx) with
    | None | Some [] => tm_descs ctx = []
    | Some path => exists p, TM.ds4_tm_pack_open (Some path) (fs path) = Ok p /\
                     tm_pack ctx = Some p /\ tmd_entry <$> tm_descs ctx = TM.entries p
    end
}.

Lemma bind_tm_pack_inv `{Allocator} (fs : bytes -> file_env) (c1 c2 : ds4_context) :
  bound c1 -> tm_descs c1 = [] -> bind_tm_pack fs c1 = Ok c2 ->
  bound c2 /\ opts c2 = opts c1 /\ pack c2 = pack c1 /\ descs c2 = descs c1 /\
  (forall i, 0 <= i < 8 -> stage_grows (get_stage c1 i) (get_stage c2 i)) /\
  match turbomind_pack_index_path (opts c1) with
  | None | Some [] => tm_descs c2 = []
  | Some path => exists p, TM.ds4_tm_pack_open (Some path) (fs path) = Ok p /\
                   tm_pack c2 = Some p /\ tmd_entry <$> tm_descs c2 = TM.entries p
  end.
Proof.
  intros Hb Htm. unfold bind_tm_pack.
  destruct (turbomind_pack_index_path (opts c1)) as [[|ch path]|] eqn:Hpath.
  1, 3: intros [= <-]; do 4 (split; [done|]); split; [intros; apply stage_grows_refl|done].
  destruct (TM.ds4_tm_pack_open (Some (ch :: path)) (fs (ch :: path))) as [p|] eqn:Hopen; [|done].
  set (c0 := c1 <| tm_pack := Some p |>).
  assert (bound c0) as Hb0 by (destruct Hb as [B1 B2 B3 B4 B5 B6 B7 B8]; split; done).
  intros Hr. destruct (TM.tm_open_wf _ _ _ Hopen) as [Hwf _].
  destruct (bind_tm_rows p c0 c2 Hb0 Hwf Htm Hr) as (R1 & R2 & R3 & R4 & R5 & R6 & R7).
  do 4 (split; [done|]). split; [exact R7|]. exists p. split; [done|]. split; [by rewrite R4|done].
Qed.

Lemma memory_budget_inv (c c' : ds4_context) :
  validate_memory_budget c = Ok c' ->
  c' = c /\ (require_production_topology (opts c) = true ->
    forall i, 0 <= i < 8 -> let s := get_stage c i in
      checked_stage_used s + reserve_bytes s <= device_total_bytes s).
Proof.
  unfold validate_memory_budget. destruct (require_production_topology (opts c)); cbn [negb].
  2: by intros [= <-].
  intros Hr. apply (rfold_inv _ (fun seen x => x = c /\ forall i, i ∈ seen ->
      checked_stage_used (get_stage c i) + reserve_bytes (get_stage c i) <= device_total_bytes (get_stage c i))
    _ c c') with (pre := []) in Hr.
  - destruct Hr as [-> Hall]. split; [done|]. intros _ i Hi. by apply Hall, stage_ids_elem.
  - intros seen i x x' _ [-> Hall] Hs. unfold validate_stage_budget in Hs.
    destruct (_ || _) eqn:E; [done|]. injection Hs as <-. bool_hyps. split; [done|].
    intros j [Hj|Hj%list_elem_of_singleton]%elem_of_app; [by apply Hall|subst j; lia].
  - split; [done|]. by intros i ?%elem_of_nil.
Qed.

Lemma context_open_inv `{Allocator} (fs : bytes -> file_env) (o : option ds4_context_options) (ctx : ds4_context) :
  ds4_context_open fs o = Ok ctx ->
  let local := default ds4_context_options_init o in
  opts ctx = local /\ opened fs ctx /\ 0 < expected_gpus local <= 8 /\
  (require_production_topology local = true ->
   exists facts, device_facts local = Some facts /\ expected_gpus local = 8 /\
   forall i, 0 <= i < 8 -> let s := get_stage ctx i in
     checked_stage_used s + reserve_bytes s <= device_total_bytes s /\
     reserve_bytes s = reserve_bytes_per_gpu local /\
     exists f, facts !! Z.to_nat i = Some f /\ device_total_bytes s = total_global_mem f /\
       DS4_V100_MIN_VRAM_BYTES <= total_global_mem f /\ cc_major f = 7 /\ visible_id f = i).
Proof.
  unfold ds4_context_open. set (local := default _ o). clearbody local. cbv zeta. intros Hr.
  destruct (_ || _) eqn:E1 in Hr; [done|]. destruct (_ =? 0) eqn:E2 in Hr; [done|].
  destruct (_ && _) eqn:E3 in Hr; [done|]. destruct (_ && _) eqn:E4 in Hr; [done|].
  destruct (negb _) eqn:E5 in Hr; [done|]. bool_hyps. unfold DS4_V100_EXPECTED_GPUS in *.
  destruct (fresh_flags local) as (P1 & P2 & P3 & P4 & P5 & P6 & P7 & P8).
  pose proof (planned_arena local) as Parena. revert Hr P1 P2 P3 P4 P5 P6 P7 P8 Parena.
  generalize (planned local) as c0. intros c0 Hr P1 P2 P3 P4 P5 P6 P7 P8 Parena.
  destruct (validate_topology c0) as [c1|] eqn:T1; [|done].
  destruct (bind_pack fs c1) as [c2|] eqn:T2; [|done].
  destruct (bind_tm_pack fs c2) as [c3|] eqn:T3; [|done].
  apply memory_budget_inv in Hr as [-> Hbudget].
  destruct (validate_topology_inv c0 c1 P3 T1) as [Hframe Hprod].
  assert (0 < bind_max_gpu c0 <= 8) as Hmax.
  { unfold bind_max_gpu. rewrite P4. destruct (Z.ltb_spec 0 (expected_gpus local)); lia. }
  assert (bound c1) as B1
    by (eapply topo_bound; try done; intros i Hi; destruct (Parena i Hi) as [-> _]; done).
  assert (opts c1 = opts c0 /\ pack c1 = None /\ descs c1 = [] /\ tm_descs c1 = []) as (O1 & K1 & D1 & M1)
    by (destruct Hframe as (F1 & _); rewrite F1; by destruct c0).
  assert (forall i, 0 <= i < 8 -> get_stage c1 i =
      (get_stage c0 i) <| device_total_bytes := device_total_bytes (get_stage c1 i) |>) as F3
    by apply Hframe.
  destruct (bind_pack_inv fs c1 c2 B1 K1 D1 M1) as (B2 & O2 & M2 & G2 & EP); [|done|].
  { intros i Hi. rewrite (F3 i Hi). simpl. apply (Parena i Hi). }
  destruct (bind_tm_pack_inv fs c2 c3 B2 M2 T3) as (B3 & O3 & K3 & D3 & G3 & ET).
  assert (opts c3 = local) as O by congruence.
  split; [done|]. split; [|split; [lia|]].
  - split; [done| |].
    + rewrite O. rewrite O1, P4 in EP. rewrite K3, D3.
      destruct (pack_index_path local) as [[|? ?]|]; [done| |done]. exact EP.
    + rewrite O. rewrite O2, O1, P4 in ET.
      destruct (turbomind_pack_index_path local) as [[|? ?]|]; [done| |done].
      exact ET.
  - intros Hp. rewrite P4 in Hprod. destruct (Hprod Hp) as (facts & Hfacts & Hg & Hdev).
    exists facts. split; [done|]. split; [done|]. intros i Hi. rewrite O in Hbudget.
    split; [by apply Hbudget|].
    destruct (stage_grows_trans _ _ _ (G2 i Hi) (G3 i Hi)) as [_ Hs].
    destruct (Hdev i Hi) as (f & Hf1 & Hf2 & Hf3). 
    assert (reserve_bytes (get_stage c3 i) = reserve_bytes (get_stage c1 i)) as -> by (by rewrite Hs).
    assert (device_total_bytes (get_stage c3 i) = device_total_bytes (get_stage c1 i)) as -> by (by rewrite Hs).
    split; [rewrite (F3 i Hi); simpl; apply (Parena i Hi)|]. by exists f.
Qed.
