(* ===== verification/ContextProps.v ===== *)
(** * Properties of the runtime context

    What [ds4_context_open] of engine/context.c guarantees to the engine: where
    the bound tensors lie, that lookups agree with the pack index, that the
    memory budget holds, and what a successful skeleton validation means. *)
From S2P Require Import Prelude.
From S2P Require Import CNum.
From S2P Require Import TsvFile.
From S2P Require Import KeyIndex.
From S2P Require Import Pack.
From S2P Require Import TmPack.
From S2P Require Import Policy.
From S2P Require Import ContextTypes.
From S2P Require Import KvPlan.
From S2P Require Import Shape.
From S2P Require Import Context.

(** ** Lemmas *)

(** The exact sum behind [checked_stage_used]. *)
Definition stage_need (s : ds4_stage_info) : Z :=
  arena_bytes s + scratch_bytes s + relay_f16_bytes s + relay_f32_debug_bytes s +
  planned_kv_bytes s + sg_output_head_reserve_bytes s + sg_mtp_reserve_bytes s.

Lemma checked_stage_used_mod (s : ds4_stage_info) : checked_stage_used s = u64 (stage_need s).
Proof.
  unfold checked_stage_used, stage_need.
  assert (forall x y c, u64 x = u64 y -> u64 (u64 x + c) = u64 (y + c)) as Hu
    by (intros x y c ->; unfold u64; by rewrite Z.add_mod_idemp_l by done).
  by repeat apply Hu.
Qed.

Lemma rfold_ok_iff {A S E} (f : S -> A -> result S E) (ok : A -> Prop) (l : list A) : forall s,
  (forall s a, a ∈ l -> is_ok (f s a) = true <-> ok a) ->
  is_ok (rfold f s l) = true <-> forall a, a ∈ l -> ok a.
Proof.
  induction l as [|a l IH]; intros s Hf; simpl.
  - split; [by intros _ ? ?%elem_of_nil|done].
  - destruct (Hf s a ltac:(by left)) as [H1 H2]. destruct (f s a) as [s'|e]; simpl in *.
    + rewrite IH; [|intros; apply Hf; by right]. split.
      * intros Hall b [-> |Hb]%elem_of_cons; auto.
      * intros Hall b Hb. apply Hall. by right.
    + split; [done|]. intros Hall. apply H2, Hall. by left.
Qed.

Lemma validate_layer_ok (ctx : ds4_context) (total l : Z) (report : bytes) :
  is_ok (validate_layer ctx total report l) = true <->
  layer_status (get_layer ctx l) l total = "OK"%string.
Proof.
  unfold validate_layer. destruct (String.eqb_spec (layer_status (get_layer ctx l) l total) "OK"); done.
Qed.

Lemma layer_status_ok (li : ds4_layer_info) (l total : Z) :
  0 < total ->
  layer_status li l total = "OK"%string <->
  li_stage_id li = ds4_stage_for_layer l /\ li_tensor_count li <> 0 /\ has_f32_control li = true /\
  has_fp8_dense li = true /\ has_mxfp4_expert li = true /\ has_hc_control li = true.
Proof.
  intros Ht. unfold layer_status. destruct (Z.ltb_spec 0 total); [|lia].
  destruct (Z.eqb_spec (li_stage_id li) (ds4_stage_for_layer l)), (Z.eqb_spec (li_tensor_count li) 0);
    destruct (has_f32_control li), (has_fp8_dense li), (has_mxfp4_expert li), (has_hc_control li);
    cbn; (split; [try done; tauto|]); intros Hs; naive_solver.
Qed.

Lemma layer_status_empty (li : ds4_layer_info) (l : Z) :
  layer_status li l 0 = "OK"%string <-> li_stage_id li = ds4_stage_for_layer l.
Proof.
  unfold layer_status. destruct (Z.eqb_spec (li_stage_id li) (ds4_stage_for_layer l)); cbn; done.
Qed.

(** A family of a layer is present when some bound tensor has it. *)
Lemma layer_has_spec (f : ds4_tensor_family) (l : Z) (ds : list ds4_tensor_desc) :
  layer_has f l ds = true <->
  exists d, d ∈ ds /\ layer_id (td_entry d) = l /\ family (td_policy d) = f.
Proof.
  unfold layer_has. rewrite existsb_exists. setoid_rewrite andb_true_iff.
  setoid_rewrite Z.eqb_eq. setoid_rewrite bool_decide_eq_true. setoid_rewrite list_elem_of_In. done.
Qed.

Lemma layer_has_tm_spec (l : Z) (ds : list ds4_tm_tensor_desc) :
  layer_has_tm l ds = true <-> exists d, d ∈ ds /\ TM.layer_id (tmd_entry d) = l.
Proof.
  unfold layer_has_tm. rewrite existsb_exists. setoid_rewrite Z.eqb_eq.
  setoid_rewrite list_elem_of_In. done.
Qed.

Lemma layer_count_pos (ctx : ds4_context) (f : ds4_tensor_family) (l : Z) :
  n_descs ctx + n_tm_descs ctx <= UINT64_MAX -> layer_has f l (descs ctx) = true ->
  u64 (layer_count l ctx) <> 0.
Proof.
  intros Hn Hf. apply layer_has_spec in Hf as (d & Hd & Hl & _). unfold layer_count.
  pose proof (countZ_range (fun d => layer_id (td_entry d) =? l) (descs ctx)) as R1.
  pose proof (countZ_range (fun d => TM.layer_id (tmd_entry d) =? l) (tm_descs ctx)) as R2.
  pose proof (countZ_zero (fun d => layer_id (td_entry d) =? l) (descs ctx)) as Hz.
  unfold n_descs, n_tm_descs in Hn. rewrite u64_small by zlia.
  intros E. assert (countZ (fun d => layer_id (td_entry d) =? l) (descs ctx) = 0) as E0 by lia.
  apply Hz with (a := d) in E0; [|done]. apply Z.eqb_neq in E0. done.
Qed.

(** The binding of an entry, with its classification and its dimensions,
    zeros behind them. *)
Definition binding_of (e : ds4_pack_entry) (policy : ds4_policy) (dims : list Z) : ds4_tensor_binding :=
  TensorBinding (semantic_tensor_id e) (source_name e) (Pack.source_dtype e) (source_shape e) (runtime_layout e)
    (kernel_family e) (shard_file e) (owning_gpu e) (layer_id e) (scale_offset e) (source_offset e) (byte_length e)
    (shard_offset e) policy (Z.of_nat (length dims)) (dims ++ replicate (4 - length dims) 0).

(** A desc that was bound can be turned into a binding. *)
Lemma fill_binding_ok (max_gpu : Z) (p : option ds4_pack) (d : ds4_tensor_desc) :
  desc_ok max_gpu p d ->
  exists dims elements, fill_binding d = Ok (binding_of (td_entry d) (td_policy d) dims) /\
    parse_shape_dims (Some (source_shape (td_entry d))) DS4_V100_MAX_SHAPE_DIMS = Some (dims, elements).
Proof.
  intros [_ _ _ Hb _ _]. unfold expected_bytes_for_entry, parse_shape_elements in Hb.
  destruct (parse_shape_dims _ _) as [[dims el]|] eqn:Hp; [|done].
  pose proof (parse_shape_sound _ _ _ _ Hp) as (_ & _ & Hlen & _). unfold DS4_V100_MAX_SHAPE_DIMS in Hlen.
  unfold fill_binding. rewrite Hp. exists dims, el. split; [|done]. unfold binding_of, shape_array, DS4_V100_MAX_SHAPE_DIMS.
  do 2 f_equal. rewrite take_app_ge by lia. by destruct dims as [|d0 [|d1 [|d2 [|d3 [|d4 dims]]]]]; try (simpl in Hlen; lia).
Qed.

Lemma classified_supported (d l k : option bytes) (p : ds4_policy) :
  ds4_classify_or_die d l k = Ok p -> exec_kind p <> DS4_V100_EXEC_UNSUPPORTED.
Proof.
  unfold ds4_classify_or_die. intros Hr. case_bool_decide as E; [done|]. by injection Hr as <-.
Qed.

(** Every descriptor has one of the five kinds. *)
Lemma count_kinds {D : Type} (pol : D -> ds4_policy) (l : list D) :
  sumZ (fun k => countZ (fun d => bool_decide (exec_kind (pol d) = k)) l) exec_kinds = Z.of_nat (length l).
Proof.
  unfold exec_kinds, countZ. simpl. induction l as [|d l IH]; [done|].
  cbn [sumZ foldr length]. destruct (exec_kind (pol d)); simpl; unfold sumZ in *; lia.
Qed.

Lemma exec_kind_lookup {A} (f : ds4_exec_kind -> A) (k : ds4_exec_kind) :
  map f exec_kinds !! exec_index k = Some (f k).
Proof. by destruct k. Qed.

Lemma forall_proper_impl (P : Prop) (Q R : Prop) : (P -> Q <-> R) -> (P -> Q) <-> (P -> R).
Proof. tauto. Qed.

(** ** Properties *)

(** The shape of a sidecar row, as it was compared. *)
Lemma tm_shape_matches_dims (e : TM.ds4_tm_pack_entry) : tm_shape_matches e = true ->
  exists elements, parse_shape_dims (Some (TM.source_shape e)) DS4_V100_MAX_SHAPE_DIMS =
    Some ([TM.k e; TM.n e; TM.experts_total e], elements).
Proof.
  unfold tm_shape_matches. intros Hs. repeat case_match; try done. bool_hyps. simplify_eq. by eexists.
Qed.

(** C5. Every tensor of an opened context is placed where the engine expects
    it.  A tensor of the pack is on a GPU in range, the one that owns its layer
    if it has one; its length is the storage that its shape and dtype need
    ([storage_bytes]; for shapes within 127 elements of 2^64 the code's own
    count); its policy is its classification; and its bytes lie inside the
    arena of that GPU's stage.  A tensor of the sidecar is a routed expert
    tensor of the format mxfp4 in a layer of the model, on a GPU in range, which
    is the one that owns the layer unless the row was cut for tensor
    parallelism ([is_tp_routed_expert_id]); its shape is k by n by experts; its
    policy is its classification; and the weights and scales of its packed
    experts lie inside the arena of that GPU's stage where their lengths fit in
    64 bits (the code multiplies without a check). *)
Theorem ds4_context_open_placed `{Allocator} (fs : bytes -> file_env) (o : option ds4_context_options)
    (ctx : ds4_context) :
  ds4_context_open fs o = Ok ctx ->
  (forall d, d ∈ descs ctx -> let e := td_entry d in
     0 <= owning_gpu e < expected_gpus (opts ctx) /\
     (0 <= layer_id e -> layer_id e < DS4_V100_N_LAYERS /\ ds4_stage_for_layer (layer_id e) = owning_gpu e) /\
     expected_bytes_for_entry e = Some (byte_length e) /\
     (exists n, parse_shape_elements (Some (source_shape e)) = Some n /\
       (n + 127 <= UINT64_MAX ->
        storage_bytes (ds4_source_dtype_parse (Some (Pack.source_dtype e))) n = Some (byte_length e))) /\
     ds4_classify_or_die (Some (Pack.source_dtype e)) (Some (runtime_layout e)) (Some (kernel_family e)) =
       Ok (td_policy d) /\
     shard_offset e + byte_length e <= arena_bytes (get_stage ctx (owning_gpu e))) /\
  (forall d, d ∈ tm_descs ctx -> let e := tmd_entry d in
     let inside offset bytes := 0 <= TM.experts_packed e * bytes <= UINT64_MAX ->
       offset + TM.experts_packed e * bytes <= arena_bytes (get_stage ctx (TM.owning_gpu e)) in
     0 <= TM.owning_gpu e < expected_gpus (opts ctx) /\ 0 <= TM.layer_id e < DS4_V100_N_LAYERS /\
     (is_tp_routed_expert_id (TM.semantic_tensor_id e) = false ->
      ds4_stage_for_layer (TM.layer_id e) = TM.owning_gpu e) /\
     is_routed_expert_id (TM.semantic_tensor_id e) = true /\
     str_eq_ci (Some (TM.source_dtype e)) (Some (B "mxfp4")) = true /\
     (exists elements, parse_shape_dims (Some (TM.source_shape e)) DS4_V100_MAX_SHAPE_DIMS =
       Some ([TM.k e; TM.n e; TM.experts_total e], elements)) /\
     ds4_classify_or_die (Some (TM.source_dtype e)) (Some (TM.runtime_layout e)) (Some (TM.kernel_family e)) =
       Ok (tmd_policy d) /\
     inside (TM.weight_offset e) (TM.weight_bytes_per_expert e) /\
     inside (TM.scale_offset e) (TM.scale_bytes_per_expert e)).
Proof.
  intros Hopen. destruct (context_open_inv fs o ctx Hopen) as (Ho & [Hb _ _] & Hg & _).
  destruct Hb as [_ _ B3 B4 B5 B6 _ _]. rewrite Forall_forall in B3. rewrite Forall_forall in B4, B6.
  assert (bind_max_gpu ctx = expected_gpus (opts ctx)) as Hmax.
  { unfold bind_max_gpu. rewrite Ho. destruct (Z.ltb_spec 0 (expected_gpus (default ds4_context_options_init o)));
      [done|lia]. }
  rewrite Hmax in *. rewrite <- Ho in Hg. split.
  - intros d Hd e. destruct (B3 d Hd) as [D1 D2 D3 D4 D5 D6]. fold e in D1, D2, D3, D4, D5, D6.
    split; [done|]. split; [auto|]. split; [done|]. split; [by apply expected_bytes_storage|]. split; [done|].
    specialize (B5 (owning_gpu e) ltac:(lia)). lia.
  - intros d Hd e inside. destruct (B4 d Hd) as [D1 D2 D3 D4 D5 D6 D7]. destruct (B6 d Hd) as [S1 S2].
    fold e in D1, D2, D3, D4, D5, D6, D7, S1, S2. do 2 (split; [done|]).
    split; [destruct D3 as [D3|D3]; [congruence|done]|]. split; [done|]. split; [done|].
    split; [by apply tm_shape_matches_dims|]. split; [done|]. unfold TM.weight_run, TM.scale_run in *.
    unfold inside. split; intros Hsmall; rewrite u64_small in * by zlia; lia.
Qed.

(** C6. Lookups in an opened context agree with the pack index: a tensor id
    resolves exactly when the index holds it, to a binding in which every field
    is the entry's - names, dtype, shape text, layout, kernel, shard file, GPU,
    layer, the three offsets and the length - with the entry's classification
    and with the dimensions of its shape, zeros behind them; any other id is
    reported as missing. *)
Theorem ds4_context_lookup_agrees `{Allocator} (fs : bytes -> file_env) (o : option ds4_context_options)
    (ctx : ds4_context) (path id : bytes) :
  ds4_context_open fs o = Ok ctx -> pack_index_path (opts ctx) = Some path -> path <> [] -> id <> [] ->
  exists p, ds4_pack_open (Some path) (fs path) = Ok p /\
  match ds4_pack_lookup (Some p) (Some id) with
  | Some e =>
      exists policy dims elements,
        ds4_context_lookup_tensor_binding (Some ctx) (Some id) =
          Ok {| tb_semantic_tensor_id := id; tb_source_name := source_name e;
                tb_source_dtype := Pack.source_dtype e; tb_source_shape := source_shape e;
                tb_runtime_layout := runtime_layout e; tb_kernel_family := kernel_family e;
                tb_shard_file := shard_file e; tb_owning_gpu := owning_gpu e; tb_layer_id := layer_id e;
                tb_scale_offset := scale_offset e; tb_source_offset := source_offset e;
                tb_byte_length := byte_length e; tb_shard_offset := shard_offset e; tb_policy := policy;
                tb_n_shape_dims := Z.of_nat (length dims); tb_shape := dims ++ replicate (4 - length dims) 0 |} /\
        ds4_classify_or_die (Some (Pack.source_dtype e)) (Some (runtime_layout e)) (Some (kernel_family e)) = Ok policy /\
        parse_shape_dims (Some (source_shape e)) DS4_V100_MAX_SHAPE_DIMS = Some (dims, elements)
  | None =>
      ds4_context_lookup_tensor_binding (Some ctx) (Some id) = fail "missing tensor descriptor %s" [AS id]
  end.
Proof.
  intros Hopen Hpath Hne Hid. destruct (context_open_inv fs o ctx Hopen) as (_ & [Hb Hp _] & _).
  rewrite Hpath in Hp. destruct path as [|ch path]; [done|]. destruct Hp as (p & Hpo & Hpk & Hent).
  destruct (pack_open_wf _ _ _ Hpo) as [[_ Hnd _] _].
  assert (ki_unique (T := ds4_context) (E := ds4_tensor_desc) ctx) as Hu.
  { unfold ki_unique. simpl. rewrite <- Hent in Hnd. by rewrite <- list_fmap_compose in Hnd. }
  exists p. split; [done|]. destruct id as [|c0 id]; [done|].
  change (ds4_pack_lookup (Some p) (Some (c0 :: id))) with (ki_lookup p (c0 :: id)).
  destruct (ki_lookup p (c0 :: id)) as [e|] eqn:Hl.
  - apply (ki_lookup_spec (H := pack_index) p _ e Hnd) in Hl as [Hin Heq]. simpl in Hin, Heq.
    rewrite <- Hent in Hin. apply list_elem_of_fmap in Hin as (d & -> & Hd).
    assert (find_desc ctx (c0 :: id) = Some d) as Hf by (apply (ki_lookup_spec (H := desc_index) ctx _ d Hu); done).
    destruct Hb as [_ _ B3 _ _ _ _ _]. rewrite Forall_forall in B3. specialize (B3 d Hd).
    destruct (fill_binding_ok _ _ _ B3) as (dims & el & F1 & F2).
    exists (td_policy d), dims, el. unfold ds4_context_lookup_tensor_binding. rewrite Hf, F1, <- Heq.
    split; [done|]. split; [apply B3|done].
  - unfold ds4_context_lookup_tensor_binding.
    assert (find_desc ctx (c0 :: id) = None) as ->; [|done].
    apply (ki_lookup_none (H := desc_index) ctx). intros d Hd.
    apply (ki_lookup_none (H := pack_index) p) with (e := td_entry d) in Hl; [done|]. simpl. rewrite <- Hent. by apply list_elem_of_fmap_2.
Qed.

(** C7. With the production topology, an opened context fits its devices: on
    each of the eight stages the weights, scratch, relay and KV bytes and the
    reserve together do not exceed the memory of a V100 with at least the
    minimum VRAM - provided the sum of the planned bytes fits in 64 bits, which
    the code does not check. *)
Theorem ds4_context_budget `{Allocator} (fs : bytes -> file_env) (o : option ds4_context_options)
    (ctx : ds4_context) (i : Z) :
  ds4_context_open fs o = Ok ctx -> require_production_topology (opts ctx) = true -> 0 <= i < 8 ->
  let s := get_stage ctx i in
  0 <= stage_need s <= UINT64_MAX ->
  stage_need s + reserve_bytes_per_gpu (opts ctx) <= device_total_bytes s /\
  DS4_V100_MIN_VRAM_BYTES <= device_total_bytes s /\
  exists facts f, device_facts (opts ctx) = Some facts /\ facts !! Z.to_nat i = Some f /\
    device_total_bytes s = total_global_mem f /\ cc_major f = 7 /\ visible_id f = i.
Proof.
  intros Hopen Hp Hi s Hneed. destruct (context_open_inv fs o ctx Hopen) as (Ho & _ & _ & Hbud).
  rewrite Ho in *. destruct (Hbud Hp) as (facts & Hf & _ & Hst).
  destruct (Hst i Hi) as (H1 & H2 & f & H3 & H4 & H5 & H6 & H7). fold s in H1, H2, H4.
  rewrite checked_stage_used_mod, u64_small in H1 by done.
  split; [lia|]. split; [lia|]. by exists facts, f.
Qed.

(** Skeleton validation of an opened context that holds tensors succeeds
    exactly when every one of the 43 layers has a bound F32 control tensor, an
    FP8 dense tensor, an HC control tensor and an MXFP4 expert tensor (from the
    pack or from the sidecars), and the token embedding is bound. *)
Theorem ds4_context_skeleton_spec `{Allocator} (fs : bytes -> file_env) (o : option ds4_context_options)
    (ctx : ds4_context) :
  ds4_context_open fs o = Ok ctx -> 0 < n_descs ctx + n_tm_descs ctx <= UINT64_MAX ->
  let bound_in f l := exists d, d ∈ descs ctx /\ layer_id (td_entry d) = l /\ family (td_policy d) = f in
  is_ok (ds4_context_validate_layer_skeleton (Some ctx)) = true <->
  (forall l, 0 <= l < 43 ->
     bound_in DS4_V100_FAMILY_F32_CONTROL l /\ bound_in DS4_V100_FAMILY_FP8_DENSE l /\
     bound_in DS4_V100_FAMILY_HC_CONTROL l /\
     (bound_in DS4_V100_FAMILY_MXFP4_EXPERT l \/
      exists d, d ∈ tm_descs ctx /\ TM.layer_id (tmd_entry d) = l)) /\
  (exists d, d ∈ descs ctx /\ semantic_tensor_id (td_entry d) = B "token_embd.weight").
Proof.
  intros Hopen Hn bound_in. destruct (context_open_inv fs o ctx Hopen) as (_ & [Hb _ _] & _).
  destruct Hb as [_ _ _ _ _ _ [Hflags Htok] _].
  unfold ds4_context_validate_layer_skeleton. set (total := ds4_context_tensor_count (Some ctx)).
  assert (total = n_descs ctx + n_tm_descs ctx) as Ht by (apply u64_small; zlia).
  assert (is_ok (rfold (validate_layer ctx total) skeleton_header layer_ids) = true <->
    forall l, 0 <= l < 43 ->
     bound_in DS4_V100_FAMILY_F32_CONTROL l /\ bound_in DS4_V100_FAMILY_FP8_DENSE l /\
     bound_in DS4_V100_FAMILY_HC_CONTROL l /\
     (bound_in DS4_V100_FAMILY_MXFP4_EXPERT l \/
      exists d, d ∈ tm_descs ctx /\ TM.layer_id (tmd_entry d) = l)) as Hloop.
  { rewrite (rfold_ok_iff _ (fun l => layer_status (get_layer ctx l) l total = "OK"%string));
      [|intros; apply validate_layer_ok].
    setoid_rewrite layer_ids_elem. apply forall_proper. intros l. apply forall_proper_impl. intros Hl.
    rewrite layer_status_ok by lia. destruct (Hflags l Hl) as (F0 & Fc & F1 & F2 & F3 & F4).
    rewrite F0, Fc, F1, F2, F3, F4, orb_true_iff, !layer_has_spec, layer_has_tm_spec.
    fold (bound_in DS4_V100_FAMILY_F32_CONTROL l) (bound_in DS4_V100_FAMILY_FP8_DENSE l)
      (bound_in DS4_V100_FAMILY_HC_CONTROL l) (bound_in DS4_V100_FAMILY_MXFP4_EXPERT l).
    split; [intros (_ & _ & G1 & G2 & G3 & G4); by split|].
    intros (G1 & G2 & G3 & G4). split; [done|]. split; [|by split].
    apply (layer_count_pos ctx DS4_V100_FAMILY_F32_CONTROL); [lia|]. by apply layer_has_spec. }
  rewrite <- Hloop. destruct (rfold _ _ _) as [report|e]; simpl is_ok; [|split; [done|by intros [? _]]].
  destruct (Z.ltb_spec 0 total); [|lia]. rewrite Htok. cbn [andb].
  assert (existsb (fun d => str_eqb (semantic_tensor_id (td_entry d)) (B "token_embd.weight")) (descs ctx) = true
    <-> exists d, d ∈ descs ctx /\ semantic_tensor_id (td_entry d) = B "token_embd.weight") as <-.
  { rewrite existsb_exists. setoid_rewrite str_eqb_eq. setoid_rewrite list_elem_of_In. done. }
  destruct (existsb _ _); simpl; tauto.
Qed.

(** The execution histogram of an opened context counts its tensors: for
    every execution kind it holds the number of descriptors whose policy has
    that kind, no descriptor has an unsupported kind, and the counts add up to
    the number of tensors. *)
Theorem ds4_context_exec_counts `{Allocator} (fs : bytes -> file_env) (o : option ds4_context_options)
    (ctx : ds4_context) :
  ds4_context_open fs o = Ok ctx -> n_descs ctx + n_tm_descs ctx <= UINT64_MAX ->
  (forall k, ds4_context_exec_count (Some ctx) k =
     countZ (fun d => bool_decide (exec_kind (td_policy d) = k)) (descs ctx) +
     countZ (fun d => bool_decide (exec_kind (tmd_policy d) = k)) (tm_descs ctx)) /\
  ds4_context_exec_count (Some ctx) DS4_V100_EXEC_UNSUPPORTED = 0 /\
  sumZ (ds4_context_exec_count (Some ctx)) exec_kinds = ds4_context_tensor_count (Some ctx).
Proof.
  intros Hopen Hn. destruct (context_open_inv fs o ctx Hopen) as (_ & [Hb _ _] & _).
  destruct Hb as [_ _ B3 B4 _ _ _ Hc].
  assert (forall k, ds4_context_exec_count (Some ctx) k = kind_count k ctx) as Hk.
  { intros k. unfold ds4_context_exec_count. rewrite Hc, exec_kind_lookup. cbn [default].
    apply u64_small. unfold kind_count, n_descs, n_tm_descs in *.
      pose proof (countZ_range (fun d => bool_decide (exec_kind (td_policy d) = k)) (descs ctx)).
      pose proof (countZ_range (fun d => bool_decide (exec_kind (tmd_policy d) = k)) (tm_descs ctx)). zlia. }
  split; [exact Hk|]. split.
  - rewrite Hk. unfold kind_count. rewrite !(proj2 (countZ_zero _ _)); [done| |]; rewrite Forall_forall in B3; rewrite Forall_forall in B4.
    + intros d Hd. apply bool_decide_false. apply (classified_supported _ _ _ _ (tk_policy _ _ (B4 d Hd))).
    + intros d Hd. apply bool_decide_false. apply (classified_supported _ _ _ _ (dk_policy _ _ _ (B3 d Hd))).
  - unfold ds4_context_tensor_count. rewrite u64_small by (unfold n_descs, n_tm_descs in *; zlia).
    unfold n_descs, n_tm_descs.
    rewrite <- (count_kinds td_policy (descs ctx)), <- (count_kinds tmd_policy (tm_descs ctx)).
    unfold exec_kinds, sumZ. cbn [foldr]. rewrite !Hk. unfold kind_count. lia.
Qed.

(** ** Concrete runs *)

(** A pack with the token embedding and one tensor of each family per layer. *)
Definition ex_row (id dtype shape kernel : bytes) (gpu layer off len : Z) : ds4_pack_entry :=
  PackEntry id id dtype shape (B "row_major") kernel (shard_name gpu) gpu layer (-1) off len off.

Definition ex_layer_rows (l : Z) : list ds4_pack_entry :=
  let g := ds4_stage_for_layer l in
  let id s := B "blk." ++ print_i64 l ++ B s in
  [ex_row (id ".attn_norm.weight"%string) (B "f32") (B "[16]") (B "control") g l (l * 1024) 64;
   ex_row (id ".attn_q.weight"%string) (B "f8_e4m3_b128") (B "[64x2]") (B "dense") g l (l * 1024 + 256) 129;
   ex_row (id ".ffn_gate_exps.weight"%string) (B "mxfp4") (B "[32x2]") (B "expert") g l (l * 1024 + 512) 34;
   ex_row (id ".hc.weight"%string) (B "f32") (B "[4]") (B "hc_control") g l (l * 1024 + 768) 16].

Definition ex_rows : list ds4_pack_entry :=
  ex_row (B "token_embd.weight") (B "bf16") (B "[4x8]") (B "dense") 0 (-1) 65536 64 ::
  concat (map ex_layer_rows layer_ids).

Definition ex_fs (path : bytes) : file_env :=
  if str_eqb path (B "pack.tsv") then regular_file (render_index ex_rows)
  else FileEnv false false 0 false [] (B "No such file or directory").

Definition ex_fact (i : Z) : ds4_device_fact :=
  DeviceFact i 7 0 (32 * 1024 * 1024 * 1024) [] [] (replicate 8 true).

Definition ex_opts (path : option bytes) (tokens slots : Z) : ds4_context_options :=
  Options path None 8 DS4_V100_INIT_PROBE_ONLY true false (2 ^ 20) 1 DS4_V100_DEFAULT_RESERVE_BYTES 0
    tokens slots 0 0 (Some (map ex_fact stage_ids)).

Definition result_of (r : res ds4_context) : ds4_context :=
  match r with Ok c => c | Error _ => context_calloc ds4_context_options_init end.

Lemma result_of_ok (r : res ds4_context) : is_ok r = true -> r = Ok (result_of r).
Proof. by destruct r. Qed.

Definition ex_opts1 : option ds4_context_options := Some (ex_opts (Some (B "pack.tsv")) 100000 4).
Definition ex_ctx : ds4_context := result_of (@ds4_context_open unlimited ex_fs ex_opts1).

Lemma ex_run_ok : @ds4_context_open unlimited ex_fs ex_opts1 = Ok ex_ctx.
Proof. apply result_of_ok. by vm_compute. Qed.

Lemma ex_ctx_opts : opts ex_ctx = ex_opts (Some (B "pack.tsv")) 100000 4.
Proof. by vm_compute. Qed.

(** The same pack with two rows of a sidecar, the second cut for tensor
    parallelism and kept on another GPU. *)
Definition ex_tm_row (id : bytes) (gpu : Z) : TM.ds4_tm_pack_entry :=
  {| TM.semantic_tensor_id := id; TM.source_name := id; TM.source_dtype := B "mxfp4";
     TM.source_shape := B "[4x8x256]"; TM.runtime_layout := B "turbomind_mxfp4_grouped";
     TM.kernel_family := B "tm_mxfp4"; TM.sidecar_file := B "gpu" ++ print_i64 gpu ++ B ".turbomind";
     TM.source_shard_file := B "gpu0.weights"; TM.source_checksum := B "-";
     TM.owning_gpu := gpu; TM.layer_id := 0; TM.n := 8; TM.k := 4; TM.experts_packed := 2;
     TM.experts_total := 256; TM.weight_bytes_per_expert := 256; TM.scale_bytes_per_expert := 16;
     TM.k_pack := 1; TM.weight_stride := 4; TM.scale_stride := 1; TM.weight_offset := 131072;
     TM.scale_offset := 131584; TM.source_shard_offset := 0; TM.source_byte_length := 64;
     TM.tm_abi_version := 1 |}.

Definition ex_tm_fs (path : bytes) : file_env :=
  if str_eqb path (B "tm.tsv")
  then regular_file (TM.render_tm_index [ex_tm_row (B "blk.0.ffn_gate_exps.weight") 0; ex_tm_row (B "blk.0.ffn_down_exps.tp1.weight") 1])
  else ex_fs path.

Definition ex_tm_opts : option ds4_context_options :=
  Some ((ex_opts (Some (B "pack.tsv")) 100000 4) <| turbomind_pack_index_path := Some (B "tm.tsv") |>).
Definition ex_tm_ctx : ds4_context := result_of (@ds4_context_open unlimited ex_tm_fs ex_tm_opts).

Lemma ex_tm_run_ok : @ds4_context_open unlimited ex_tm_fs ex_tm_opts = Ok ex_tm_ctx.
Proof. apply result_of_ok. by vm_compute. Qed.

Lemma ds4_context_open_placed_witness :
  length (descs ex_tm_ctx) = 173%nat /\ length (tm_descs ex_tm_ctx) = 2%nat /\
  (forall d, d ∈ descs ex_tm_ctx ->
    shard_offset (td_entry d) + byte_length (td_entry d) <= arena_bytes (get_stage ex_tm_ctx (owning_gpu (td_entry d)))) /\
  (forall d, d ∈ tm_descs ex_tm_ctx ->
    0 <= TM.experts_packed (tmd_entry d) * TM.weight_bytes_per_expert (tmd_entry d) <= UINT64_MAX ->
    TM.weight_offset (tmd_entry d) + TM.experts_packed (tmd_entry d) * TM.weight_bytes_per_expert (tmd_entry d) <=
      arena_bytes (get_stage ex_tm_ctx (TM.owning_gpu (tmd_entry d)))).
Proof.
  destruct (@ds4_context_open_placed unlimited ex_tm_fs ex_tm_opts ex_tm_ctx ex_tm_run_ok) as [H1 H2].
  split; [by vm_compute|]. split; [by vm_compute|]. split.
  - intros d Hd. apply (H1 d Hd).
  - intros d Hd. apply (H2 d Hd).
Defined.

Definition ex_embedding : ds4_tensor_binding :=
  TensorBinding (B "token_embd.weight") (B "token_embd.weight") (B "bf16") (B "[4x8]") (B "row_major") (B "dense")
    (shard_name 0) 0 (-1) (-1) 65536 64 65536
    (Policy DS4_V100_SOURCE_BF16 DS4_V100_FAMILY_BF16_GLOBAL DS4_V100_EXEC_DIAGNOSTIC_ONLY
      (Some "bf16_source_to_fp16_or_f32_boundary"%string) (Some "native_bf16_tensor_core_execution"%string)) 2 [4; 8; 0; 0].

Lemma ds4_context_lookup_agrees_witness :
  ds4_context_lookup_tensor_binding (Some ex_ctx) (Some (B "token_embd.weight")) = Ok ex_embedding /\
  ds4_context_lookup_tensor_binding (Some ex_ctx) (Some (B "nope")) = fail "missing tensor descriptor %s" [AS (B "nope")].
Proof.
  assert (Hpath : pack_index_path (opts ex_ctx) = Some (B "pack.tsv")) by (by rewrite ex_ctx_opts).
  split.
  - destruct (@ds4_context_lookup_agrees unlimited ex_fs ex_opts1 ex_ctx (B "pack.tsv") (B "token_embd.weight") ex_run_ok Hpath)
      as (p & Hp & Hl); [discriminate|discriminate|].
    assert (Hfound : exists p0, @ds4_pack_open unlimited (Some (B "pack.tsv")) (ex_fs (B "pack.tsv")) = Ok p0 /\
      ds4_pack_lookup (Some p0) (Some (B "token_embd.weight")) = Some (ex_row (B "token_embd.weight") (B "bf16") (B "[4x8]") (B "dense") 0 (-1) 65536 64)).
    { eexists. split; vm_compute; reflexivity. }
    destruct Hfound as (p0 & Hp0 & He). assert (p0 = p) as -> by congruence. rewrite He in Hl.
    destruct Hl as (policy & dims & el & Hb & Hc & Hd). rewrite Hb. vm_compute in Hd. injection Hd as <- <-.
    vm_compute in Hc. injection Hc as <-. vm_compute. reflexivity.
  - destruct (@ds4_context_lookup_agrees unlimited ex_fs ex_opts1 ex_ctx (B "pack.tsv") (B "nope") ex_run_ok Hpath)
      as (p & Hp & Hl); [discriminate|discriminate|].
    assert (Hfound : exists p0, @ds4_pack_open unlimited (Some (B "pack.tsv")) (ex_fs (B "pack.tsv")) = Ok p0 /\
      ds4_pack_lookup (Some p0) (Some (B "nope")) = None).
    { eexists. split; vm_compute; reflexivity. }
    destruct Hfound as (p0 & Hp0 & He). assert (p0 = p) as -> by congruence. rewrite He in Hl. exact Hl.
Defined.

Lemma ds4_context_budget_witness :
  stage_need (get_stage ex_ctx 0) + DS4_V100_DEFAULT_RESERVE_BYTES <= 32 * 1024 * 1024 * 1024 /\
  0 < stage_need (get_stage ex_ctx 0).
Proof.
  split; [|by vm_compute].
  destruct (@ds4_context_budget unlimited ex_fs ex_opts1 ex_ctx 0 ex_run_ok)
    as (H1 & _ & facts & f & _).
  - by rewrite ex_ctx_opts.
  - lia.
  - split; by vm_compute.
  - rewrite ex_ctx_opts in H1.
    replace (device_total_bytes (get_stage ex_ctx 0)) with (32 * 1024 * 1024 * 1024) in H1 by (by vm_compute).
    exact H1.
Defined.

Lemma ds4_context_skeleton_spec_witness :
  is_ok (ds4_context_validate_layer_skeleton (Some ex_ctx)) = true /\
  exists d, d ∈ descs ex_ctx /\ layer_id (td_entry d) = 42 /\ family (td_policy d) = DS4_V100_FAMILY_HC_CONTROL.
Proof.
  assert (is_ok (ds4_context_validate_layer_skeleton (Some ex_ctx)) = true) as Hok by (by vm_compute).
  split; [exact Hok|].
  apply (@ds4_context_skeleton_spec unlimited ex_fs ex_opts1 ex_ctx ex_run_ok)
    in Hok as [Hl _].
  - apply (Hl 42). lia.
  - split; by vm_compute.
Defined.

Lemma ds4_context_exec_counts_witness :
  map (ds4_context_exec_count (Some ex_ctx)) exec_kinds = [86; 43; 43; 1; 0] /\
  sumZ (ds4_context_exec_count (Some ex_ctx)) exec_kinds = ds4_context_tensor_count (Some ex_ctx).
Proof.
  split; [by vm_compute|].
  apply (@ds4_context_exec_counts unlimited ex_fs ex_opts1 ex_ctx ex_run_ok).
  by vm_compute.
Defined.

(** A KV plan that saturates at UINT64_MAX passes the budget check: the sum of
    the planned bytes wraps. *)
Example budget_wraps :
  let r := @ds4_context_open unlimited ex_fs (Some (ex_opts None (2 ^ 60) (2 ^ 10))) in
  is_ok r = true /\ planned_kv_bytes (get_stage (result_of r) 1) = UINT64_MAX /\
  checked_stage_used (get_stage (result_of r) 1) < 2 ^ 21.
Proof. by vm_compute. Qed.
