(* ===== verification/GpuArena.v ===== *)
(** * GPU arenas (ds4_gpu.h, ds4_gpu_arena_stub.c)

    An arena is memory of a device that the host fills and reads back by
    ranges.  [ArenaOps] and [ArenaLaws] are what the rest of the library
    relies on; the arena of builds without a GPU, in host memory, is modelled
    in full, with the two decoders of rows that it implements.  Bytes that
    were never written are [None]: reading them is possible, but they have no
    value. *)
From Stdlib Require Import Floats.SpecFloat.
From S2P Require Import Prelude.
From S2P Require Import LittleEndian.
From S2P Require Import SourceFormats.

(** ** The interface *)

Abbreviation memory := (list (option byte)).

Definition mem_read (m : memory) (off n : Z) : memory := take (Z.to_nat n) (drop (Z.to_nat off) m).
Definition mem_write (m : memory) (off : Z) (b : bytes) : memory :=
  take (Z.to_nat off) m ++ map Some b ++ drop (Z.to_nat off + length b) m.

(** [ds4_gpu_arena_open] returns [None] when it fails; the other calls get an
    arena that was opened.  [upload] gives whether it succeeded and the arena
    after it, [read] nothing when it fails. *)
Class ArenaOps (arena : Type) := {
  arena_open : Z -> Z -> option arena;
  arena_upload : arena -> Z -> bytes -> bool * arena;
  arena_read : arena -> Z -> Z -> option memory;
  arena_bytes : arena -> Z;
  arena_free_after_upload : arena -> Z;
  arena_memory_kind : arena -> bytes;
  arena_is_device_memory : arena -> bool
}.

(** What they promise: an arena is a range of bytes, an upload that succeeds
    was in range and changes exactly its bytes, and a read that succeeds was
    in range and gives them back. *)
Class ArenaLaws (arena : Type) `{ArenaOps arena} := {
  arena_ok : arena -> Prop;
  arena_memory : arena -> memory;
  law_open : forall gpu n a, is_u64 n -> arena_open gpu n = Some a -> arena_ok a /\ Z.of_nat (length (arena_memory a)) = n;
  law_upload : forall a off b a', arena_ok a -> 0 <= off -> arena_upload a off b = (true, a') ->
    off + Z.of_nat (length b) <= Z.of_nat (length (arena_memory a)) /\ arena_ok a' /\ arena_memory a' = mem_write (arena_memory a) off b;
  law_read : forall a off n l, arena_ok a -> 0 <= off -> 0 <= n -> arena_read a off n = Some l ->
    off + n <= Z.of_nat (length (arena_memory a)) /\ l = mem_read (arena_memory a) off n
}.

(** ** The arena in host memory *)

Record ds4_gpu_arena := Arena { ptr : memory; bytes_ : Z; used : Z; gpu_ : Z; valid : bool }.

Definition arena_range_ok (a : ds4_gpu_arena) (offset n : Z) : bool :=
  valid a && (offset <=? bytes_ a) && (n <=? bytes_ a - offset).

Definition sizeof_arena : Z := 32.

(** [malloc] leaves the bytes without a value. *)
Definition ds4_gpu_arena_open `{Allocator} (gpu n : Z) : option ds4_gpu_arena :=
  if (gpu <? 0) || negb (malloc_ok sizeof_arena) then None
  else if negb (n =? 0) && negb (malloc_ok n) then None
  else Some (Arena (replicate (Z.to_nat n) None) n 0 gpu true).

Definition ds4_gpu_arena_upload (a : ds4_gpu_arena) (offset : Z) (host_src : bytes) : bool * ds4_gpu_arena :=
  let n := Z.of_nat (length host_src) in
  if negb (arena_range_ok a offset n) then (false, Arena (ptr a) (bytes_ a) (used a) (gpu_ a) false)
  else
    let e := u64 (offset + n) in
    (true, Arena (mem_write (ptr a) offset host_src) (bytes_ a) (if used a <? e then e else used a) (gpu_ a) (valid a)).

Definition ds4_gpu_arena_read (a : ds4_gpu_arena) (offset n : Z) : option memory :=
  if negb (arena_range_ok a offset n) then None else Some (mem_read (ptr a) offset n).

Definition ds4_gpu_arena_free_after_upload_bytes (a : ds4_gpu_arena) : Z := 0.
Definition ds4_gpu_arena_memory_kind (a : ds4_gpu_arena) : bytes := B "host-stub".
Definition ds4_gpu_arena_is_device_memory (a : ds4_gpu_arena) : bool := false.

#[export] Instance host_arena `{Allocator} : ArenaOps ds4_gpu_arena := {
  arena_open := ds4_gpu_arena_open;
  arena_upload := ds4_gpu_arena_upload;
  arena_read := ds4_gpu_arena_read;
  arena_bytes := bytes_;
  arena_free_after_upload := ds4_gpu_arena_free_after_upload_bytes;
  arena_memory_kind := ds4_gpu_arena_memory_kind;
  arena_is_device_memory := ds4_gpu_arena_is_device_memory
}.

(** The calls of the header accept a null arena. *)
Definition ds4_gpu_arena_bytes (a : option ds4_gpu_arena) : Z := match a with Some a => bytes_ a | None => 0 end.
Definition ds4_gpu_arena_used (a : option ds4_gpu_arena) : Z := match a with Some a => used a | None => 0 end.
Definition ds4_gpu_arena_gpu (a : option ds4_gpu_arena) : Z := match a with Some a => gpu_ a | None => -1 end.

(** A line of the report for each arena of the array that is there. *)
Definition ds4_gpu_arena_print_memory_report (arenas : list (option ds4_gpu_arena)) : list diag :=
  Diag "gpu\tarena_bytes\tused_bytes\tmemory_kind\tvalid\n" [] ::
  omap (fun o => (fun a => Diag "%d\t%llu\t%llu\t%s\t%d\n"
    [AZ (gpu_ a); AZ (bytes_ a); AZ (used a); AS (ds4_gpu_arena_memory_kind a); AZ (Z.b2z (valid a))]) <$> o) arenas.

(** ** Decoding rows *)

Record ds4_gpu_bf16_matrix_view := Bf16View {
  bv_arena_offset : Z; bv_byte_length : Z; bv_rows : Z; bv_cols : Z; bv_row_stride_elements : Z }.
Record ds4_gpu_source_row_view := SourceRowView {
  sv_arena_offset : Z; sv_byte_length : Z; sv_rows : Z; sv_cols : Z; sv_row_stride_bytes : Z }.
Record ds4_gpu_q4_k_expert_view := ExpertView {
  ev_arena_offset : Z; ev_byte_length : Z; ev_experts : Z; ev_rows : Z; ev_cols : Z; ev_row_stride_bytes : Z; ev_expert_stride_bytes : Z }.

(** [None]: the product does not fit. *)
Definition checked_mul_u64 (a b : Z) : option Z := if negb (a =? 0) && (UINT64_MAX / a <? b) then None else Some (u64 (a * b)).

Definition f8_e4m3_b128_row_bytes (cols : Z) : option Z :=
  if (cols =? 0) || negb (cols mod 128 =? 0) then None
  else let blocks := cols / 128 in if UINT64_MAX / 129 <? blocks then None else Some (u64 (blocks * 129)).

(** Whether [n_rows * cols] floats fit in [out_bytes]. *)
Definition output_fits (n_rows cols out_bytes : Z) : bool :=
  match checked_mul_u64 n_rows cols with
  | Some values => match checked_mul_u64 values 4 with Some output_bytes => output_bytes <=? out_bytes | None => false end
  | None => false
  end.

(** [row_ids] are the [n_rows] ids of the array; the pointers are not null. *)
Definition bf16_view_range_ok (a : ds4_gpu_arena) (v : ds4_gpu_bf16_matrix_view) (row_ids : list Z) (out_bytes : Z) : bool :=
  let n_rows := Z.of_nat (length row_ids) in
  valid a && negb ((n_rows =? 0) || (bv_rows v =? 0) || (bv_cols v =? 0)) && (bv_cols v <=? bv_row_stride_elements v) &&
  Z.even (bv_arena_offset v) && Z.even (bv_byte_length v) && arena_range_ok a (bv_arena_offset v) (bv_byte_length v) &&
  output_fits n_rows (bv_cols v) out_bytes &&
  match checked_mul_u64 (bv_rows v - 1) (bv_row_stride_elements v) with
  | Some last_start =>
      let total := bv_byte_length v / 2 in (bv_cols v <=? total) && (last_start <=? total - bv_cols v)
  | None => false
  end && forallb (fun id => id <? bv_rows v) row_ids.

Definition f8_view_range_ok (a : ds4_gpu_arena) (v : ds4_gpu_source_row_view) (row_ids : list Z) (out_bytes : Z) : bool :=
  let n_rows := Z.of_nat (length row_ids) in
  valid a && negb ((n_rows =? 0) || (sv_rows v =? 0) || (sv_cols v =? 0) || (sv_row_stride_bytes v =? 0)) &&
  arena_range_ok a (sv_arena_offset v) (sv_byte_length v) &&
  match f8_e4m3_b128_row_bytes (sv_cols v) with
  | Some row_bytes =>
      (row_bytes <=? sv_row_stride_bytes v) && output_fits n_rows (sv_cols v) out_bytes &&
      match checked_mul_u64 (sv_rows v - 1) (sv_row_stride_bytes v) with
      | Some last_start => (last_start <=? sv_byte_length v) && (row_bytes <=? sv_byte_length v - last_start)
      | None => false
      end
  | None => false
  end && forallb (fun id => id <? sv_rows v) row_ids.

(** A byte of the arena; outside of it, and where it has no value, the read
    is undefined. *)
Definition arena_byte (a : ds4_gpu_arena) (at_ : Z) : pres Z :=
  match ptr a !! Z.to_nat at_ with Some (Some b) => Ok (bz b) | _ => Error (Undefined "arena byte") end.

Definition bf16_to_f32 (v : Z) : f32 := f32_from_bits (Z.shiftl v 16).
Definition e8m0_to_f32 (e : Z) : f32 := f32_from_bits (if e =? 0 then 0x00400000 else Z.shiftl e 23).
Definition e4m3fn_to_f32 (x : Z) : f32 :=
  let ax := Z.land x 0x7f in
  let sign := negb (Z.land x 0x80 =? 0) in
  if ax =? 0 then f32_from_bits (if sign then 0x80000000 else 0)
  else if ax =? 0x7f then f32_from_bits 0x7fc00000
  else
    let exp := Z.land (Z.shiftr x 3) 0x0f in
    let man := Z.land x 0x07 in
    let v := if exp =? 0 then SFldexp 24 128 (f32_of_int man) (-9)
      else SFldexp 24 128 (SFadd 24 128 (f32_of_int 1) (SFdiv 24 128 (f32_of_int man) (f32_of_int 8))) (exp - 7) in
    if sign then SFopp v else v.

(** The element of a row that starts at byte [row] of the arena. *)
Definition bf16_at (a : ds4_gpu_arena) (row c : Z) : pres f32 :=
  lo <- arena_byte a (row + 2 * c) ;; hi <- arena_byte a (row + 2 * c + 1) ;; Ok (bf16_to_f32 (lo + 256 * hi)).

Definition f8_at (a : ds4_gpu_arena) (row c : Z) : pres f32 :=
  let block := row + c / 128 * 129 in
  q <- arena_byte a (block + (1 + c mod 128)) ;; s <- arena_byte a block ;; Ok (f32_mul (e4m3fn_to_f32 q) (e8m0_to_f32 s)).

(** [None]: the call returns 1.  Otherwise the floats it writes, in order. *)
Definition ds4_gpu_arena_bf16_row_gather_f32 (a : ds4_gpu_arena) (v : ds4_gpu_bf16_matrix_view) (row_ids : list Z) (out_bytes : Z)
    : pres (option (list f32)) :=
  if negb (bf16_view_range_ok a v row_ids out_bytes) then Ok None
  else
    rows <- mapM_res (fun id => mapM_res (bf16_at a (bv_arena_offset v + 2 * (id * bv_row_stride_elements v))) (upto (bv_cols v))) row_ids ;;
    Ok (Some (concat rows)).

Definition ds4_gpu_arena_f8_e4m3_b128_row_decode_f32 (a : ds4_gpu_arena) (v : ds4_gpu_source_row_view) (row_ids : list Z) (out_bytes : Z)
    : pres (option (list f32)) :=
  if negb (f8_view_range_ok a v row_ids out_bytes) then Ok None
  else
    rows <- mapM_res (fun id => mapM_res (f8_at a (sv_arena_offset v + id * sv_row_stride_bytes v)) (upto (sv_cols v))) row_ids ;;
    Ok (Some (concat rows)).
