(* ===== verification/GpuArenaProps.v ===== *)
(** * GPU arenas: what the host arena does

    The arena in host memory keeps the promises of the interface, and its
    decoders give the rows of the source formats. *)
From Stdlib Require Import Floats.SpecFloat.
From S2P Require Import Prelude.
From S2P Require Import LittleEndian.
From S2P Require Import SourceFormats.
From S2P Require Import GpuArena.

(** ** Ranges of memory *)

Section Memory.
Context (m : memory) (off : Z) (b : bytes).
Hypothesis Hoff : 0 <= off.
Hypothesis Hfit : off + Z.of_nat (length b) <= Z.of_nat (length m).

Lemma mem_write_length : length (mem_write m off b) = length m.
Proof. unfold mem_write. rewrite !length_app, length_map, length_take, length_drop. lia. Qed.

Lemma mem_write_same : mem_read (mem_write m off b) off (Z.of_nat (length b)) = map Some b.
Proof.
  unfold mem_read, mem_write. rewrite Nat2Z.id. rewrite drop_app_ge by (rewrite length_take; lia). rewrite length_take.
  replace (Z.to_nat off - _)%nat with 0%nat by lia. rewrite drop_0. rewrite <- (length_map Some b) at 1. apply take_app_length.
Qed.

Lemma mem_write_other (off' n : Z) : 0 <= off' -> 0 <= n -> off' + n <= off \/ off + Z.of_nat (length b) <= off' ->
  mem_read (mem_write m off b) off' n = mem_read m off' n.
Proof.
  intros Ho Hn Hd. apply list_eq. intros i. unfold mem_read, mem_write. destruct (decide (i < Z.to_nat n)%nat) as [Hi|Hi].
  2: { rewrite !lookup_take_ge by lia. done. }
  rewrite !lookup_take_lt, !lookup_drop by lia. destruct Hd as [Hd|Hd].
  - rewrite lookup_app_l by (rewrite length_take; lia). by rewrite lookup_take_lt by lia.
  - rewrite lookup_app_r by (rewrite length_take; lia). rewrite lookup_app_r by (rewrite length_take, length_map; lia).
    rewrite lookup_drop, length_take, length_map. f_equal. lia.
Qed.
End Memory.

(** ** The host arena keeps the laws *)

Record host_ok (a : ds4_gpu_arena) : Prop := {
  ho_length : Z.of_nat (length (ptr a)) = bytes_ a;
  ho_used : 0 <= used a <= bytes_ a;
  ho_small : bytes_ a <= UINT64_MAX
}.

Lemma range_ok_spec (a : ds4_gpu_arena) (off n : Z) : arena_range_ok a off n = true <-> valid a = true /\ off <= bytes_ a /\ n <= bytes_ a - off.
Proof. unfold arena_range_ok. rewrite !andb_true_iff, !Z.leb_le. tauto. Qed.

Lemma host_open `{Allocator} (gpu n : Z) (a : ds4_gpu_arena) : is_u64 n -> ds4_gpu_arena_open gpu n = Some a ->
  host_ok a /\ Z.of_nat (length (ptr a)) = n.
Proof.
  intros [Hn1 Hn2]. unfold ds4_gpu_arena_open. destruct (_ || _); [done|]. destruct (_ && _); [done|]. intros [= <-]. cbn [ptr].
  rewrite length_replicate. split; [constructor; cbn [ptr bytes_ used]; rewrite ?length_replicate|]; lia.
Qed.

Lemma host_upload (a : ds4_gpu_arena) (off : Z) (b : bytes) (a' : ds4_gpu_arena) : host_ok a -> 0 <= off ->
  ds4_gpu_arena_upload a off b = (true, a') ->
  off + Z.of_nat (length b) <= Z.of_nat (length (ptr a)) /\ host_ok a' /\ ptr a' = mem_write (ptr a) off b.
Proof.
  intros [Hl Hu Hs] Ho. unfold ds4_gpu_arena_upload. destruct (arena_range_ok _ _ _) eqn:E; [|done]. cbn [negb]. intros [= <-].
  apply range_ok_spec in E as (_ & H1 & H2). split; [lia|]. split; [|done].
  constructor; cbn [ptr bytes_ used]; [rewrite mem_write_length; lia| |done]. rewrite u64_small by (split; lia). destruct (_ <? _); lia.
Qed.

Lemma host_read (a : ds4_gpu_arena) (off n : Z) (l : memory) : host_ok a -> 0 <= off -> 0 <= n -> ds4_gpu_arena_read a off n = Some l ->
  off + n <= Z.of_nat (length (ptr a)) /\ l = mem_read (ptr a) off n.
Proof.
  intros [Hl _ _] Ho Hn. unfold ds4_gpu_arena_read. destruct (arena_range_ok _ _ _) eqn:E; [|done]. cbn [negb]. intros [= <-].
  apply range_ok_spec in E as (_ & H1 & H2). split; [lia|done].
Qed.

#[export] Instance host_laws `{Allocator} : ArenaLaws ds4_gpu_arena := {
  arena_ok := host_ok;
  arena_memory := ptr;
  law_open := host_open;
  law_upload := host_upload;
  law_read := host_read
}.

(** ** The decoders *)

Lemma scalars_agree (x : Z) : e4m3fn_to_f32 x = ds4_src_e4m3fn_to_f32 x /\ e8m0_to_f32 x = ds4_src_e8m0_to_f32 x /\
  bf16_to_f32 x = ds4_src_bf16_to_f32 x.
Proof. split_and!; reflexivity. Qed.

(** The bytes of a view have these values. *)
Definition view_holds (a : ds4_gpu_arena) (off : Z) (data : bytes) : Prop :=
  mem_read (ptr a) off (Z.of_nat (length data)) = map Some data.

Lemma arena_byte_at (a : ds4_gpu_arena) (off i : Z) (data : bytes) : 0 <= off -> view_holds a off data -> 0 <= i < Z.of_nat (length data) ->
  arena_byte a (off + i) = Ok (byte_at data i).
Proof.
  unfold view_holds, mem_read, arena_byte, byte_at, read. intros Ho Hv Hi. rewrite Nat2Z.id in Hv.
  assert (E : take (length data) (drop (Z.to_nat off) (ptr a)) !! Z.to_nat i = map Some data !! Z.to_nat i) by (by rewrite Hv).
  rewrite lookup_take_lt, lookup_drop in E by lia. replace (Z.to_nat off + Z.to_nat i)%nat with (Z.to_nat (off + i)) in E by lia.
  rewrite E. change (map Some data) with (Some <$> data). rewrite list_lookup_fmap.
  destruct (data !! Z.to_nat i) as [b|] eqn:Eb; [done|]. apply lookup_ge_None in Eb. lia.
Qed.

(** Two bytes as the [uint16_t] at index [i] of a row. *)
Definition u16_at (data : bytes) (i : Z) : Z := byte_at data (2 * i) + 256 * byte_at data (2 * i + 1).

Definition bf16_row (data : bytes) (ncols : Z) : list f32 := map (fun c => ds4_src_bf16_to_f32 (u16_at data c)) (upto ncols).

Lemma byte_at_drop (data : bytes) (k i : Z) : 0 <= k -> 0 <= i -> byte_at (drop (Z.to_nat k) data) i = byte_at data (k + i).
Proof. intros Hk Hi. unfold byte_at, read. rewrite lookup_drop. do 3 f_equal. lia. Qed.

Lemma checked_mul_u64_ok (a b p : Z) : 0 <= a -> 0 <= b -> checked_mul_u64 a b = Some p -> p = a * b.
Proof.
  intros Ha Hb. unfold checked_mul_u64. destruct (negb (a =? 0) && (UINT64_MAX / a <? b)) eqn:E; [done|]. intros [= <-]. apply u64_small.
  split; [nia|]. apply andb_false_iff in E as [E|E].
  - apply negb_false_iff, Z.eqb_eq in E. subst. unfold UINT64_MAX. lia.
  - apply Z.ltb_ge in E. destruct (Z.eq_dec a 0) as [->|Hne]; [unfold UINT64_MAX; lia|].
    assert (a * (UINT64_MAX / a) <= UINT64_MAX) by (apply Z.mul_div_le; lia). nia.
Qed.

(** A row of a view that passed the checks lies in its bytes. *)
Lemma row_in_range (id rows stride len row : Z) : 0 <= id < rows -> 0 <= stride -> (rows - 1) * stride + row <= len -> id * stride + row <= len.
Proof. intros [H1 H2] Hs Hl. assert (id * stride <= (rows - 1) * stride) by (apply Z.mul_le_mono_nonneg_r; lia). lia. Qed.

Record bf16_view_ok (v : ds4_gpu_bf16_matrix_view) : Prop := {
  bo_offset : 0 <= bv_arena_offset v; bo_length : 0 <= bv_byte_length v; bo_rows : 0 <= bv_rows v; bo_cols : 0 <= bv_cols v;
  bo_stride : 0 <= bv_row_stride_elements v }.
Record source_view_ok (v : ds4_gpu_source_row_view) : Prop := {
  so_offset : 0 <= sv_arena_offset v; so_length : 0 <= sv_byte_length v; so_rows : 0 <= sv_rows v; so_cols : 0 <= sv_cols v;
  so_stride : 0 <= sv_row_stride_bytes v }.

Lemma bf16_row_decoded (a : ds4_gpu_arena) (v : ds4_gpu_bf16_matrix_view) (ids : list Z) (out_bytes id : Z) (data : bytes) :
  bf16_view_ok v -> view_holds a (bv_arena_offset v) data -> Z.of_nat (length data) = bv_byte_length v ->
  bf16_view_range_ok a v ids out_bytes = true -> id ∈ ids -> 0 <= id ->
  mapM_res (bf16_at a (bv_arena_offset v + 2 * (id * bv_row_stride_elements v))) (upto (bv_cols v)) =
    Ok (bf16_row (drop (Z.to_nat (2 * (id * bv_row_stride_elements v))) data) (bv_cols v)).
Proof.
  intros [Ho Hl Hr Hc Hs] Hv Hd H Hin Hid. unfold bf16_view_range_ok in H. bool_hyps.
  destruct (checked_mul_u64 (bv_rows v - 1) (bv_row_stride_elements v)) as [last|] eqn:El; [|done].
  match goal with H : forallb _ ids = true |- _ => rewrite forallb_forall in H; apply list_elem_of_In, H, Z.ltb_lt in Hin end.
  apply checked_mul_u64_ok in El; [|lia..]. bool_hyps.
  assert (Hrow : id * bv_row_stride_elements v + bv_cols v <= bv_byte_length v / 2) by (apply (row_in_range id (bv_rows v)); lia).
  pose proof (Z.div_mod (bv_byte_length v) 2 ltac:(lia)). pose proof (Z.mod_pos_bound (bv_byte_length v) 2 ltac:(lia)).
  apply mapM_res_ok. intros c [Hc1 Hc2]%upto_elem. unfold bf16_at, u16_at. set (k := 2 * (id * bv_row_stride_elements v)).
  assert (Hk : 0 <= k) by (unfold k; nia). assert (Hk2 : k + 2 * bv_cols v <= bv_byte_length v) by (unfold k; lia).
  rewrite !byte_at_drop by lia.
  replace (bv_arena_offset v + k + 2 * c) with (bv_arena_offset v + (k + 2 * c)) by lia.
  replace (bv_arena_offset v + (k + 2 * c) + 1) with (bv_arena_offset v + (k + (2 * c + 1))) by lia.
  rewrite (arena_byte_at _ _ _ data) by (done || lia). by rewrite (arena_byte_at _ _ _ data) by (done || lia).
Qed.

Lemma f8_row_decoded (a : ds4_gpu_arena) (v : ds4_gpu_source_row_view) (ids : list Z) (out_bytes id : Z) (data : bytes) :
  source_view_ok v -> view_holds a (sv_arena_offset v) data -> Z.of_nat (length data) = sv_byte_length v ->
  f8_view_range_ok a v ids out_bytes = true -> id ∈ ids -> 0 <= id ->
  mapM_res (f8_at a (sv_arena_offset v + id * sv_row_stride_bytes v)) (upto (sv_cols v)) =
    Ok (f8_row (drop (Z.to_nat (id * sv_row_stride_bytes v)) data) (sv_cols v)).
Proof.
  intros [Ho Hl Hr Hc Hs] Hv Hd H Hin Hid. unfold f8_view_range_ok in H. bool_hyps.
  destruct (f8_e4m3_b128_row_bytes (sv_cols v)) as [rb|] eqn:Eb; [|done]. bool_hyps.
  destruct (checked_mul_u64 (sv_rows v - 1) (sv_row_stride_bytes v)) as [last|] eqn:El; [|done].
  match goal with H : forallb _ ids = true |- _ => rewrite forallb_forall in H; apply list_elem_of_In, H, Z.ltb_lt in Hin end.
  apply checked_mul_u64_ok in El; [|lia..]. bool_hyps.
  unfold f8_e4m3_b128_row_bytes in Eb. destruct ((sv_cols v =? 0) || _) eqn:Ec; [done|]. destruct (_ <? _) eqn:Eo; [done|]. bool_hyps.
  injection Eb as Eb. rewrite u64_small in Eb.
  2: { pose proof (Z.div_pos (sv_cols v) 128 ltac:(lia) ltac:(lia)). pose proof (Z.mul_div_le UINT64_MAX 129 ltac:(lia)). split; lia. }
  assert (Hrow : id * sv_row_stride_bytes v + rb <= sv_byte_length v) by (apply (row_in_range id (sv_rows v)); lia).
  apply mapM_res_ok. intros c [Hc1 Hc2]%upto_elem. unfold f8_at, f8_value. set (k := id * sv_row_stride_bytes v) in *.
  assert (Hk : 0 <= k) by (unfold k; nia). pose proof (Z.div_mod c 128 ltac:(lia)). pose proof (Z.mod_pos_bound c 128 ltac:(lia)).
  assert (Hb : c / 128 < sv_cols v / 128) by (apply Z.div_lt_upper_bound; [lia|]; pose proof (Z.div_mod (sv_cols v) 128 ltac:(lia)); lia).
  assert (Hb0 : 0 <= c / 128) by (apply Z.div_pos; lia).
  rewrite !byte_at_drop by lia.
  replace (sv_arena_offset v + k + c / 128 * 129 + (1 + c mod 128)) with (sv_arena_offset v + (k + (c / 128 * 129 + 1 + c mod 128))) by lia.
  replace (sv_arena_offset v + k + c / 128 * 129) with (sv_arena_offset v + (k + c / 128 * 129)) by lia.
  rewrite (arena_byte_at _ _ _ data) by (done || lia). by rewrite (arena_byte_at _ _ _ data) by (done || lia).
Qed.

(** C29 The decoders of the arena give the rows of the source formats: for a
    view whose bytes were uploaded they return 1 exactly when the view, the
    row ids or the output do not fit, and otherwise write for each id the row
    that ds4_source_formats.c decodes from the view's bytes; no byte outside
    the view is read. *)
Theorem arena_rows_decoded (a : ds4_gpu_arena) (ids : list Z) (out_bytes : Z) (data : bytes) : Forall (Z.le 0) ids ->
  (forall v, bf16_view_ok v -> view_holds a (bv_arena_offset v) data -> Z.of_nat (length data) = bv_byte_length v ->
     ds4_gpu_arena_bf16_row_gather_f32 a v ids out_bytes = Ok (if bf16_view_range_ok a v ids out_bytes then
       Some (concat (map (fun id => bf16_row (drop (Z.to_nat (2 * (id * bv_row_stride_elements v))) data) (bv_cols v)) ids)) else None)) /\
  (forall v, source_view_ok v -> view_holds a (sv_arena_offset v) data -> Z.of_nat (length data) = sv_byte_length v ->
     ds4_gpu_arena_f8_e4m3_b128_row_decode_f32 a v ids out_bytes = Ok (if f8_view_range_ok a v ids out_bytes then
       Some (concat (map (fun id => f8_row (drop (Z.to_nat (id * sv_row_stride_bytes v)) data) (sv_cols v)) ids)) else None)).
Proof.
  intros Hids. rewrite Forall_forall in Hids. split; intros v Hv Hh Hl.
  - unfold ds4_gpu_arena_bf16_row_gather_f32. destruct (bf16_view_range_ok a v ids out_bytes) eqn:E; cbn [negb]; [|done].
    rewrite (mapM_res_ok _ (fun id => bf16_row (drop (Z.to_nat (2 * (id * bv_row_stride_elements v))) data) (bv_cols v))); [done|].
    intros id Hin. by apply (bf16_row_decoded a v ids out_bytes); auto.
  - unfold ds4_gpu_arena_f8_e4m3_b128_row_decode_f32. destruct (f8_view_range_ok a v ids out_bytes) eqn:E; cbn [negb]; [|done].
    rewrite (mapM_res_ok _ (fun id => f8_row (drop (Z.to_nat (id * sv_row_stride_bytes v)) data) (sv_cols v))); [done|].
    intros id Hin. by apply (f8_row_decoded a v ids out_bytes); auto.
Qed.

(** Two rows of 128 codes, uploaded behind 16 other bytes. *)
Definition example_rows : bytes := map (fun i => zb (i mod 256)) (upto 258).
Definition example_arena : ds4_gpu_arena := snd (ds4_gpu_arena_upload (Arena (replicate 300 None) 300 0 0 true) 16 example_rows).

Lemma arena_rows_decoded_witness :
  ds4_gpu_arena_f8_e4m3_b128_row_decode_f32 example_arena (SourceRowView 16 258 2 128 129) [1; 0] 1024 =
    Ok (Some (f8_row (drop 129 example_rows) 128 ++ f8_row example_rows 128)).
Proof.
  rewrite (proj2 (arena_rows_decoded example_arena [1; 0] 1024 example_rows ltac:(repeat constructor; lia)) (SourceRowView 16 258 2 128 129)).
  - vm_compute. reflexivity.
  - constructor; cbn; lia.
  - vm_compute. reflexivity.
  - reflexivity.
Defined.
