(* ===== verification/LayerState.v ===== *)
(** * The state of one layer (engine/layer_state.c)

    [ds4_layer_state_init] binds every tensor a layer needs from an opened
    context, checks dtypes, sizes, owners and dimensions, and records them;
    the other functions compute expert matrices, arena spans and views.

    The struct [ds4_layer_state] is kept as a record of the groups its
    declaration lists.  The fields guarded by [has_attention_compressor] and
    [has_indexer] are options, [None] when the flag is false. *)
From S2P Require Import Prelude.
From S2P Require Import ContextTypes.
From S2P Require Import Policy.
From S2P Require Import SourceFormats.
From S2P Require Import Context.
From S2P Require Import GpuArena.

Inductive ds4_router_kind := DS4_V100_ROUTER_UNKNOWN | DS4_V100_ROUTER_HASH | DS4_V100_ROUTER_BIAS.
#[export] Instance router_kind_eq : EqDecision ds4_router_kind. Proof. solve_decision. Defined.

Definition ds4_router_kind_name (kind : ds4_router_kind) : string :=
  match kind with
  | DS4_V100_ROUTER_HASH => "hash" | DS4_V100_ROUTER_BIAS => "bias"
  | DS4_V100_ROUTER_UNKNOWN => "unknown"
  end.

Record ds4_bound_matrix := BoundMatrix {
  binding : ds4_tensor_binding;
  rows : Z;
  cols : Z;
  planes : Z;
  row_bytes : Z;
  mat_bytes : Z;        (* bytes *)
  rel : Z
}.

Record ds4_route_matrices := RouteMatrices {
  rm_gate : ds4_bound_matrix; rm_up : ds4_bound_matrix; rm_down : ds4_bound_matrix
}.

(** ds4_gpu.h *)
Record ds4_gpu_turbomind_mxfp4_matrix_view := TmView {
  tv_weight_offset : Z;
  tv_scale_offset : Z;
  tv_weight_bytes_per_expert : Z;
  tv_scale_bytes_per_expert : Z;
  tv_n : Z;
  tv_k : Z;
  tv_experts_packed : Z;
  tv_experts_total : Z;
  tv_k_pack : Z;
  tv_weight_stride : Z;
  tv_scale_stride : Z;
  tv_flags : Z
}.
Definition tm_view_zero := TmView 0 0 0 0 0 0 0 0 0 0 0 0.
Definition DS4_GPU_TURBOMIND_MXFP4_GATE_UP_INTERLEAVED : Z := 1.

(** ** The state *)

Record layer_head := LayerHead {
  ls_layer_id : Z; ls_stage_id : Z; ls_owning_gpu : Z;
  ls_layer_class : ds4_layer_class; ls_kv_view : ds4_layer_kv_view
}.

(** The tensors every layer has, as bound. *)
Record layer_tensors := LayerTensors {
  t_shared_gate : ds4_tensor_binding;
  t_shared_up : ds4_tensor_binding;
  t_shared_down : ds4_tensor_binding;
  t_router : ds4_tensor_binding;
  t_attn_q_a : ds4_tensor_binding;
  t_attn_q_b : ds4_tensor_binding;
  t_attn_kv_latent : ds4_tensor_binding;
  t_attn_output_a : ds4_tensor_binding;
  t_attn_output_b : ds4_tensor_binding;
  attn_norm : ds4_tensor_binding;
  attn_q_a_norm : ds4_tensor_binding;
  attn_kv_a_norm : ds4_tensor_binding;
  attn_sinks : ds4_tensor_binding;
  hc_attn_fn : ds4_tensor_binding;
  hc_attn_base : ds4_tensor_binding;
  hc_attn_scale : ds4_tensor_binding;
  ffn_norm : ds4_tensor_binding;
  hc_ffn_fn : ds4_tensor_binding;
  hc_ffn_base : ds4_tensor_binding;
  hc_ffn_scale : ds4_tensor_binding
}.

(** The matrices among them. *)
Record layer_matrices := LayerMatrices {
  router : ds4_bound_matrix;
  attn_q_a : ds4_bound_matrix;
  attn_q_b : ds4_bound_matrix;
  attn_kv_latent : ds4_bound_matrix;
  attn_output_a : ds4_bound_matrix;
  attn_output_b : ds4_bound_matrix;
  shared_gate : ds4_bound_matrix;
  shared_up : ds4_bound_matrix;
  shared_down : ds4_bound_matrix
}.

(** [router_hash] and [router_bias] with their flags. *)
Record router_info := RouterInfo {
  router_hash : option ds4_tensor_binding;
  router_bias : option ds4_tensor_binding;
  router_kind : ds4_router_kind;
  routes_per_token : Z;
  router_token_capacity : Z
}.

Record attention_compressor := Compressor {
  attn_compressor_ape : ds4_bound_matrix;
  attn_compressor_kv : ds4_bound_matrix;
  attn_compressor_gate : ds4_bound_matrix;
  attn_compressor_norm : ds4_tensor_binding
}.

Record layer_indexer := Indexer {
  indexer_attn_q_b : ds4_bound_matrix;
  indexer_proj : ds4_bound_matrix;
  indexer_compressor_ape : ds4_bound_matrix;
  indexer_compressor_kv : ds4_bound_matrix;
  indexer_compressor_gate : ds4_bound_matrix;
  indexer_compressor_norm : ds4_tensor_binding
}.

(** The two halves of a TP2 layer. *)
Record tp2_half := Tp2Half {
  tp2_gate_up_binding : ds4_turbomind_binding;
  tp2_down_binding : ds4_turbomind_binding;
  tp2_gate_up_view : ds4_gpu_turbomind_mxfp4_matrix_view;
  tp2_down_view : ds4_gpu_turbomind_mxfp4_matrix_view
}.

(** [turbomind_*_binding] is [None] when its lookup failed; [tp2] holds both
    halves and the peer GPU when [has_turbomind_tp2_routed]. *)
Record routed_tensors := RoutedTensors {
  routed_gate_binding : ds4_tensor_binding;
  routed_up_binding : ds4_tensor_binding;
  routed_down_binding : ds4_tensor_binding;
  has_turbomind_routed : bool;
  has_turbomind_fused_gate_up : bool;
  turbomind_gate_binding : option ds4_turbomind_binding;
  turbomind_up_binding : option ds4_turbomind_binding;
  turbomind_gate_up_binding : option ds4_turbomind_binding;
  turbomind_down_binding : option ds4_turbomind_binding;
  turbomind_gate_view : ds4_gpu_turbomind_mxfp4_matrix_view;
  turbomind_up_view : ds4_gpu_turbomind_mxfp4_matrix_view;
  turbomind_gate_up_view : ds4_gpu_turbomind_mxfp4_matrix_view;
  turbomind_down_view : ds4_gpu_turbomind_mxfp4_matrix_view;
  turbomind_tp2 : option (tp2_half * tp2_half);
  turbomind_tp2_peer_gpu : Z
}.

Record layer_dims := LayerDims {
  hidden_size : Z;
  q_lora_rank : Z;
  q_width : Z;
  kv_latent_width : Z;
  attention_output_rank : Z;
  intermediate_size : Z;
  routed_experts : Z
}.

Record layer_widths := LayerWidths {
  compress_ratio : Z;
  compressor_width : Z;
  indexer_q_width : Z;
  indexer_proj_width : Z;
  indexer_compressor_width : Z
}.

Record ds4_layer_state := LayerState {
  ls_head : layer_head;
  ls_dims : layer_dims;
  ls_widths : layer_widths;
  ls_router : router_info;
  ls_tensors : layer_tensors;
  ls_matrices : layer_matrices;
  ls_compressor : option attention_compressor;
  ls_indexer : option layer_indexer;
  ls_routed : routed_tensors
}.

(** ** Matrices *)

Definition dtype_is (b : ds4_tensor_binding) (dtype : string) : bool :=
  str_eqb (tb_source_dtype b) (B dtype).
Definition shape_at (b : ds4_tensor_binding) (i : nat) : Z := default 0 (tb_shape b !! i).

Definition bind_required (ctx : option ds4_context) (layer_id : Z) (suffix : string) : res ds4_tensor_binding :=
  ds4_context_require_layer_tensor_binding ctx layer_id (Some (B suffix)).

Definition bind_optional (ctx : option ds4_context) (layer_id : Z) (suffix : string) : option ds4_tensor_binding :=
  match bind_required ctx layer_id suffix with Ok b => Some b | Error _ => None end.

(** The common end of the three 2D constructors. *)
Definition make_matrix (b : ds4_tensor_binding) (row_bytes_of : Z -> Z) (label : string) : res ds4_bound_matrix :=
  let cols := u32 (shape_at b 0) in
  let rows := u32 (shape_at b 1) in
  let rb := row_bytes_of cols in
  let bytes := u64 (rows * rb) in
  if negb (bytes =? tb_byte_length b) then
    fail "%s byte length mismatch: expected %lu got %lu" [AS (B label); AZ bytes; AZ (tb_byte_length b)]
  else Ok (BoundMatrix b rows cols 1 rb bytes 0).

Definition make_f32_matrix (b : ds4_tensor_binding) (label : string) : res ds4_bound_matrix :=
  if negb (tb_n_shape_dims b =? 2) || negb (dtype_is b "f32") then
    fail "%s must be a 2D f32 tensor" [AS (B label)]
  else make_matrix b (fun cols => u64 (cols * 4)) label.

Definition make_f8_matrix (b : ds4_tensor_binding) (label : string) : res ds4_bound_matrix :=
  if negb (tb_n_shape_dims b =? 2) || negb (dtype_is b "f8_e4m3_b128") then
    fail "%s must be a 2D f8_e4m3_b128 tensor" [AS (B label)]
  else make_matrix b ds4_src_f8_e4m3_b128_row_bytes label.

Definition make_bf16_matrix (b : ds4_tensor_binding) (label : string) : res ds4_bound_matrix :=
  if negb (tb_n_shape_dims b =? 2) || negb (dtype_is b "bf16") then
    fail "%s must be a 2D bf16 tensor" [AS (B label)]
  else make_matrix b (fun cols => u64 (cols * 2)) label.

Definition make_mxfp4_expert_matrix (b : ds4_tensor_binding) (expert : Z) (label : string) : res ds4_bound_matrix :=
  if negb (tb_n_shape_dims b =? 3) || negb (dtype_is b "mxfp4") then
    fail "%s must be a 3D mxfp4 expert tensor" [AS (B label)]
  else if shape_at b 2 <=? expert then
    fail "%s expert %u outside expert count %lu" [AS (B label); AZ expert; AZ (shape_at b 2)]
  else
    let cols := u32 (shape_at b 0) in
    let rows := u32 (shape_at b 1) in
    let rb := ds4_src_mxfp4_row_bytes cols in
    let bytes := u64 (rows * rb) in
    let rel := u64 (expert * bytes) in
    if (tb_byte_length b <? rel) || (tb_byte_length b - rel <? bytes) then
      fail "%s expert span overflows binding" [AS (B label)]
    else Ok (BoundMatrix b rows cols (u32 (shape_at b 2)) rb bytes rel).

(** ** TurboMind tensors *)

Definition mb_shape_at (b : ds4_turbomind_binding) (i : nat) : Z := default 0 (mb_shape b !! i).

Definition tm_gpu_view (b : ds4_turbomind_binding) : ds4_gpu_turbomind_mxfp4_matrix_view :=
  {| tv_n := mb_n b; tv_k := mb_k b;
     tv_weight_offset := mb_weight_offset b; tv_scale_offset := mb_scale_offset b;
     tv_weight_bytes_per_expert := mb_weight_bytes_per_expert b;
     tv_scale_bytes_per_expert := mb_scale_bytes_per_expert b;
     tv_k_pack := mb_k_pack b; tv_weight_stride := mb_weight_stride b;
     tv_scale_stride := mb_scale_stride b;
     tv_experts_packed := mb_experts_packed b; tv_experts_total := mb_experts_total b;
     tv_flags := if str_strstr (mb_runtime_layout b) (B "turbomind_mxfp4_grouped_gate_up_interleaved")
                 then Z.lor 0 DS4_GPU_TURBOMIND_MXFP4_GATE_UP_INTERLEAVED else 0 |}.

(** The loop that copies the first [n] dimensions into the zeroed array. *)
Definition copy_shape (n : Z) (shape : list Z) : list Z :=
  map (fun i => if Z.of_nat i <? n then default 0 (shape !! i) else 0) (seq 0 DS4_V100_MAX_SHAPE_DIMS).

Definition make_turbomind_routed_binding (b : ds4_turbomind_binding) (label : string) : res ds4_tensor_binding :=
  if negb (mb_n_shape_dims b =? 3) || negb (str_eqb (mb_source_dtype b) (B "mxfp4")) then
    fail "%s must be a 3D TurboMind MXFP4 tensor" [AS (B label)]
  else if mb_experts_packed b <? mb_experts_total b then
    fail "%s TurboMind binding packs only %u/%u experts"
         [AS (B label); AZ (mb_experts_packed b); AZ (mb_experts_total b)]
  else Ok {| tb_semantic_tensor_id := mb_semantic_tensor_id b; tb_source_name := mb_source_name b;
             tb_source_dtype := mb_source_dtype b; tb_source_shape := mb_source_shape b;
             tb_runtime_layout := mb_runtime_layout b; tb_kernel_family := mb_kernel_family b;
             tb_shard_file := mb_shard_file b; tb_owning_gpu := mb_owning_gpu b;
             tb_layer_id := mb_layer_id b; tb_scale_offset := -1; tb_source_offset := 0;
             tb_byte_length := mb_source_byte_length b; tb_shard_offset := mb_source_shard_offset b;
             tb_policy := mb_policy b; tb_n_shape_dims := mb_n_shape_dims b;
             tb_shape := copy_shape (mb_n_shape_dims b) (mb_shape b) |}.

#[export] Instance tensor_binding_fields : Fields ds4_tensor_binding :=
  rd_pure TensorBinding <*> tb_semantic_tensor_id <*> tb_source_name <*> tb_source_dtype
    <*> tb_source_shape <*> tb_runtime_layout <*> tb_kernel_family <*> tb_shard_file
    <*> tb_owning_gpu <*> tb_layer_id <*> tb_scale_offset <*> tb_source_offset <*> tb_byte_length
    <*> tb_shard_offset <*> tb_policy <*> tb_n_shape_dims <*> tb_shape.

Definition make_turbomind_fused_gate_up_synthetic_binding (b : ds4_turbomind_binding) (label : string)
  : res ds4_tensor_binding :=
  out <- make_turbomind_routed_binding b label ;;
  if (mb_n b =? 0) || negb (mb_n b mod 2 =? 0) || negb (mb_n_shape_dims b =? 3) ||
     negb (mb_shape_at b 1 =? mb_n b) || negb (mb_shape_at b 0 =? mb_k b) then
    fail "%s must be a fused gate_up tensor with even N" [AS (B label)]
  else Ok (out <| tb_shape ::= <[1%nat := mb_n b / 2]> |>
               <| tb_byte_length := mb_source_byte_length b / 2 |>).

(** A lookup whose error text is discarded. *)
Definition tm_lookup (ctx : option ds4_context) (layer_id : Z) (suffix : string) : option ds4_turbomind_binding :=
  match ds4_context_require_layer_turbomind_binding ctx layer_id (Some (B suffix)) with
  | Ok b => Some b | Error _ => None
  end.
Definition found {A : Type} (o : option A) : bool := match o with Some _ => true | None => false end.
Definition view_of (b : option ds4_turbomind_binding) : ds4_gpu_turbomind_mxfp4_matrix_view :=
  match b with Some b => tm_gpu_view b | None => tm_view_zero end.

(** The zeroed struct. *)
Definition binding_zero : ds4_tensor_binding :=
  TensorBinding [] [] [] [] [] [] [] 0 0 0 0 0 0
    (Policy DS4_V100_SOURCE_UNKNOWN DS4_V100_FAMILY_UNKNOWN DS4_V100_EXEC_F32_CONTROL None None)
    0 [0; 0; 0; 0].

(** The end of the TurboMind branch: gate and up from the separate tensors when
    both are there, else from the fused one; then down, then the TP2 halves. *)
Definition bind_turbomind_routed (g u gu : option ds4_turbomind_binding) (d : ds4_turbomind_binding)
    (tp2 : option (tp2_half * tp2_half)) : res routed_tensors :=
  fused <-
    (match gu with
     | Some gub =>
         fg <- make_turbomind_fused_gate_up_synthetic_binding gub "ffn_gate_up_exps.weight" ;;
         fu <- make_turbomind_fused_gate_up_synthetic_binding gub "ffn_gate_up_exps.weight" ;;
         Ok (Some (fg, fu))
     | None => Ok None
     end) ;;
  sep <-
    (match g, u with
     | Some gb, Some ub =>
         rg <- make_turbomind_routed_binding gb "ffn_gate_exps.weight" ;;
         ru <- make_turbomind_routed_binding ub "ffn_up_exps.weight" ;;
         Ok (Some (rg, ru))
     | _, _ => Ok None
     end) ;;
  let gate_up := default (binding_zero, binding_zero)
                   (match sep with Some p => Some p | None => fused end) in
  rd <- make_turbomind_routed_binding d "ffn_down_exps.weight" ;;
  Ok {| routed_gate_binding := gate_up.1; routed_up_binding := gate_up.2; routed_down_binding := rd;
        has_turbomind_routed := true; has_turbomind_fused_gate_up := found gu;
        turbomind_gate_binding := g; turbomind_up_binding := u;
        turbomind_gate_up_binding := gu; turbomind_down_binding := Some d;
        turbomind_gate_view := if found sep then view_of g else tm_view_zero;
        turbomind_up_view := if found sep then view_of u else tm_view_zero;
        turbomind_gate_up_view := view_of gu; turbomind_down_view := tm_gpu_view d;
        turbomind_tp2 := tp2;
        turbomind_tp2_peer_gpu :=
          match tp2 with Some (_, h1) => mb_owning_gpu (tp2_gate_up_binding h1) | None => 0 end |}.

(** The four TP2 lookups: both halves, nothing, or a partial set. *)
Definition tp2_halves (gu0 gu1 d0 d1 : option ds4_turbomind_binding) : option (tp2_half * tp2_half) :=
  match gu0, gu1, d0, d1 with
  | Some a, Some b, Some c, Some d =>
      Some (Tp2Half a c (tm_gpu_view a) (tm_gpu_view c), Tp2Half b d (tm_gpu_view b) (tm_gpu_view d))
  | _, _, _, _ => None
  end.

(** Source MXFP4 tensors; the TurboMind lookups leave their bindings behind. *)
Definition bind_source_routed (ctx : option ds4_context) (layer_id : Z)
    (g u gu d : option ds4_turbomind_binding) : res routed_tensors :=
  rg <- bind_required ctx layer_id "ffn_gate_exps.weight" ;;
  ru <- bind_required ctx layer_id "ffn_up_exps.weight" ;;
  rd <- bind_required ctx layer_id "ffn_down_exps.weight" ;;
  Ok {| routed_gate_binding := rg; routed_up_binding := ru; routed_down_binding := rd;
        has_turbomind_routed := false; has_turbomind_fused_gate_up := false;
        turbomind_gate_binding := g; turbomind_up_binding := u;
        turbomind_gate_up_binding := gu; turbomind_down_binding := d;
        turbomind_gate_view := tm_view_zero; turbomind_up_view := tm_view_zero;
        turbomind_gate_up_view := tm_view_zero; turbomind_down_view := tm_view_zero;
        turbomind_tp2 := None; turbomind_tp2_peer_gpu := 0 |}.

Definition bind_routed_expert_tensors (ctx : option ds4_context) (layer_id : Z) : res routed_tensors :=
  let g := tm_lookup ctx layer_id "ffn_gate_exps.weight" in
  let u := tm_lookup ctx layer_id "ffn_up_exps.weight" in
  let gu := tm_lookup ctx layer_id "ffn_gate_up_exps.weight" in
  let d := tm_lookup ctx layer_id "ffn_down_exps.weight" in
  let tp_gu0 := tm_lookup ctx layer_id "ffn_gate_up_exps.tp0.weight" in
  let tp_gu1 := tm_lookup ctx layer_id "ffn_gate_up_exps.tp1.weight" in
  let tp_d0 := tm_lookup ctx layer_id "ffn_down_exps.tp0.weight" in
  let tp_d1 := tm_lookup ctx layer_id "ffn_down_exps.tp1.weight" in
  let tp2 := tp2_halves tp_gu0 tp_gu1 tp_d0 tp_d1 in
  let has_partial_tp2 :=
    (found tp_gu0 || found tp_gu1 || found tp_d0 || found tp_d1) && negb (found tp2) in
  if has_partial_tp2 then
    fail "partial TurboMind TP2 routed expert binding for layer %d" [AZ layer_id]
  else
  let has_separate_gate_up := found g && found u in
  let has_partial_separate_gate_up := negb (Bool.eqb (found g) (found u)) in
  match d with
  | Some db =>
      if has_separate_gate_up || found gu then
        if has_partial_separate_gate_up then
          fail "partial TurboMind routed expert binding for layer %d" [AZ layer_id]
        else bind_turbomind_routed g u gu db tp2
      else bind_source_routed ctx layer_id g u gu d
  | None => bind_source_routed ctx layer_id g u gu d
  end.

(** ** Initialisation *)

Definition check_same_owner (owning_gpu : Z) (b : ds4_tensor_binding) (label : string) : res unit :=
  if negb (tb_owning_gpu b =? owning_gpu) then
    fail "%s owner mismatch: got gpu%d expected gpu%d" [AS (B label); AZ (tb_owning_gpu b); AZ owning_gpu]
  else Ok tt.

(** A chain of [check_same_owner] calls joined by [||]. *)
Definition check_owners (owning_gpu : Z) (l : list (ds4_tensor_binding * string)) : res unit :=
  rfold (fun _ bl => check_same_owner owning_gpu bl.1 bl.2) tt l.

Definition bind_layer_tensors (ctx : option ds4_context) (layer_id : Z) : res layer_tensors :=
  sg <- bind_required ctx layer_id "ffn_gate_shexp.weight" ;;
  su <- bind_required ctx layer_id "ffn_up_shexp.weight" ;;
  sd <- bind_required ctx layer_id "ffn_down_shexp.weight" ;;
  ro <- bind_required ctx layer_id "ffn_gate_inp.weight" ;;
  qa <- bind_required ctx layer_id "attn_q_a.weight" ;;
  qb <- bind_required ctx layer_id "attn_q_b.weight" ;;
  kv <- bind_required ctx layer_id "attn_kv_latent.weight" ;;
  oa <- bind_required ctx layer_id "attn_output_a.weight" ;;
  ob <- bind_required ctx layer_id "attn_output_b.weight" ;;
  an <- bind_required ctx layer_id "attn_norm.weight" ;;
  qn <- bind_required ctx layer_id "attn_q_a_norm.weight" ;;
  kn <- bind_required ctx layer_id "attn_kv_a_norm.weight" ;;
  sk <- bind_required ctx layer_id "attn_sinks" ;;
  af <- bind_required ctx layer_id "hc_attn_fn" ;;
  ab <- bind_required ctx layer_id "hc_attn_base" ;;
  asc <- bind_required ctx layer_id "hc_attn_scale" ;;
  fnm <- bind_required ctx layer_id "ffn_norm.weight" ;;
  ff <- bind_required ctx layer_id "hc_ffn_fn" ;;
  fb <- bind_required ctx layer_id "hc_ffn_base" ;;
  fs <- bind_required ctx layer_id "hc_ffn_scale" ;;
  Ok (LayerTensors sg su sd ro qa qb kv oa ob an qn kn sk af ab asc fnm ff fb fs).

Definition make_layer_matrices (t : layer_tensors) : res layer_matrices :=
  ro <- make_f32_matrix (t_router t) "ffn_gate_inp.weight" ;;
  qa <- make_f8_matrix (t_attn_q_a t) "attn_q_a.weight" ;;
  qb <- make_f8_matrix (t_attn_q_b t) "attn_q_b.weight" ;;
  kv <- make_f8_matrix (t_attn_kv_latent t) "attn_kv_latent.weight" ;;
  oa <- make_f8_matrix (t_attn_output_a t) "attn_output_a.weight" ;;
  ob <- make_f8_matrix (t_attn_output_b t) "attn_output_b.weight" ;;
  sg <- make_f8_matrix (t_shared_gate t) "ffn_gate_shexp.weight" ;;
  su <- make_f8_matrix (t_shared_up t) "ffn_up_shexp.weight" ;;
  sd <- make_f8_matrix (t_shared_down t) "ffn_down_shexp.weight" ;;
  Ok (LayerMatrices ro qa qb kv oa ob sg su sd).

Definition validate_router_binding (router : ds4_bound_matrix) (hash bias : option ds4_tensor_binding)
  : res router_info :=
  if negb (rows router =? 256) || (cols router =? 0) then
    fail "router dimensions must be [hidden x 256], got rows=%u cols=%u" [AZ (rows router); AZ (cols router)]
  else
    match hash, bias with
    | Some h, _ =>
        if negb (dtype_is h "i32") || negb (tb_n_shape_dims h =? 2) || negb (shape_at h 0 =? 6) then
          fail "hash router must be i32 [6 x tokens]" []
        else Ok (RouterInfo hash bias DS4_V100_ROUTER_HASH 6 (u32 (shape_at h 1)))
    | None, Some b =>
        if negb (dtype_is b "f32") || negb (tb_n_shape_dims b =? 1) || negb (shape_at b 0 =? 256) then
          fail "bias router must be f32 [256]" []
        else Ok (RouterInfo hash bias DS4_V100_ROUTER_BIAS 6 0)
    | None, None => fail "layer has neither hash nor bias router metadata" []
    end.

Definition layer_widths_of (c : ds4_layer_class) : layer_widths :=
  let ratio := match c with DS4_V100_LAYER_RATIO_4 => 4 | DS4_V100_LAYER_RATIO_128 => 128
                          | DS4_V100_LAYER_SWA_ONLY => 0 end in
  {| compress_ratio := ratio;
     compressor_width := if ratio =? 4 then 2 * DS4_V100_HEAD_DIM
                         else if ratio =? 128 then DS4_V100_HEAD_DIM else 0;
     indexer_q_width := if ratio =? 4 then 64 * DS4_V100_INDEXER_HEAD_DIM else 0;
     indexer_proj_width := if ratio =? 4 then 64 else 0;
     indexer_compressor_width := if ratio =? 4 then 2 * DS4_V100_INDEXER_HEAD_DIM else 0 |}.

Definition bind_compressor (ctx : option ds4_context) (layer_id owning_gpu : Z) (w : layer_widths)
  : res (option attention_compressor) :=
  if negb (compress_ratio w =? 0) then
    comp_ape <- bind_required ctx layer_id "attn_compress_ape" ;;
    comp_kv <- bind_required ctx layer_id "attn_compress_kv.weight" ;;
    comp_gate <- bind_required ctx layer_id "attn_compress_gate.weight" ;;
    norm <- bind_required ctx layer_id "attn_compress_norm.weight" ;;
    ape <- make_f32_matrix comp_ape "attn_compress_ape" ;;
    kv <- make_bf16_matrix comp_kv "attn_compress_kv.weight" ;;
    gate <- make_bf16_matrix comp_gate "attn_compress_gate.weight" ;;
    _ <- check_owners owning_gpu
           [(binding ape, "attn_compress_ape"%string); (binding kv, "attn_compress_kv.weight"%string);
            (binding gate, "attn_compress_gate.weight"%string); (norm, "attn_compress_norm.weight"%string)] ;;
    Ok (Some (Compressor ape kv gate norm))
  else Ok None.

Definition bind_indexer (ctx : option ds4_context) (layer_id owning_gpu : Z) (w : layer_widths)
  : res (option layer_indexer) :=
  if compress_ratio w =? 4 then
    index_q_b <- bind_required ctx layer_id "indexer.attn_q_b.weight" ;;
    index_proj <- bind_required ctx layer_id "indexer.proj.weight" ;;
    index_ape <- bind_required ctx layer_id "indexer.compress_ape" ;;
    index_kv <- bind_required ctx layer_id "indexer.compress_kv.weight" ;;
    index_gate <- bind_required ctx layer_id "indexer.compress_gate.weight" ;;
    norm <- bind_required ctx layer_id "indexer.compress_norm.weight" ;;
    q_b <- make_f8_matrix index_q_b "indexer.attn_q_b.weight" ;;
    proj <- make_bf16_matrix index_proj "indexer.proj.weight" ;;
    ape <- make_f32_matrix index_ape "indexer.compress_ape" ;;
    kv <- make_bf16_matrix index_kv "indexer.compress_kv.weight" ;;
    gate <- make_bf16_matrix index_gate "indexer.compress_gate.weight" ;;
    _ <- check_owners owning_gpu
           [(binding q_b, "indexer.attn_q_b.weight"%string); (binding proj, "indexer.proj.weight"%string);
            (binding ape, "indexer.compress_ape"%string); (binding kv, "indexer.compress_kv.weight"%string);
            (binding gate, "indexer.compress_gate.weight"%string); (norm, "indexer.compress_norm.weight"%string)] ;;
    Ok (Some (Indexer q_b proj ape kv gate norm))
  else Ok None.

(** The [owned] and [labels] tables. *)
Definition owned (r : routed_tensors) (t : layer_tensors) (m : layer_matrices) : list (ds4_tensor_binding * string) :=
  [(routed_gate_binding r, "ffn_gate_exps.weight"); (routed_up_binding r, "ffn_up_exps.weight");
   (routed_down_binding r, "ffn_down_exps.weight"); (binding (shared_gate m), "ffn_gate_shexp.weight");
   (binding (shared_up m), "ffn_up_shexp.weight"); (binding (shared_down m), "ffn_down_shexp.weight");
   (binding (router m), "ffn_gate_inp.weight"); (binding (attn_q_a m), "attn_q_a.weight");
   (binding (attn_q_b m), "attn_q_b.weight"); (binding (attn_kv_latent m), "attn_kv_latent.weight");
   (binding (attn_output_a m), "attn_output_a.weight"); (binding (attn_output_b m), "attn_output_b.weight");
   (attn_norm t, "attn_norm.weight"); (attn_q_a_norm t, "attn_q_a_norm.weight");
   (attn_kv_a_norm t, "attn_kv_a_norm.weight"); (attn_sinks t, "attn_sinks");
   (hc_attn_fn t, "hc_attn_fn"); (hc_attn_base t, "hc_attn_base"); (hc_attn_scale t, "hc_attn_scale");
   (ffn_norm t, "ffn_norm.weight"); (hc_ffn_fn t, "hc_ffn_fn"); (hc_ffn_base t, "hc_ffn_base");
   (hc_ffn_scale t, "hc_ffn_scale")]%string.

(** [dtype_is(b, "f32")], one dimension, of length [n]. *)
Definition f32_vector (b : ds4_tensor_binding) (n : Z) : bool :=
  dtype_is b "f32" && (tb_n_shape_dims b =? 1) && (shape_at b 0 =? n).
Definition has_dims (m : ds4_bound_matrix) (r c : Z) : bool := (rows m =? r) && (cols m =? c).

(** The dimensions taken from the matrices, before [routed_experts]. *)
Definition dims_of (r : routed_tensors) (m : layer_matrices) : layer_dims :=
  {| hidden_size := cols (router m); q_lora_rank := rows (attn_q_a m); q_width := rows (attn_q_b m);
     kv_latent_width := rows (attn_kv_latent m); attention_output_rank := rows (attn_output_a m);
     intermediate_size := rows (shared_gate m);
     routed_experts := u32 (shape_at (routed_gate_binding r) 2) |}.

Definition attention_dims_ok (d : layer_dims) (m : layer_matrices) : bool :=
  (cols (attn_q_a m) =? hidden_size d) && (cols (attn_q_b m) =? q_lora_rank d) &&
  (cols (attn_kv_latent m) =? hidden_size d) && (cols (attn_output_a m) =? hidden_size d) &&
  (cols (attn_output_b m) =? attention_output_rank d) && (rows (attn_output_b m) =? hidden_size d) &&
  (q_lora_rank d =? 1024) && (q_width d =? 32768) && (kv_latent_width d =? DS4_V100_HEAD_DIM) &&
  (attention_output_rank d =? 8192).

Definition attention_controls_ok (d : layer_dims) (t : layer_tensors) : bool :=
  f32_vector (attn_norm t) (hidden_size d) && f32_vector (attn_q_a_norm t) (q_lora_rank d) &&
  f32_vector (attn_kv_a_norm t) (kv_latent_width d) && f32_vector (attn_sinks t) 64.

Definition compressor_dims_ok (d : layer_dims) (w : layer_widths) (c : attention_compressor) : bool :=
  has_dims (attn_compressor_ape c) (compress_ratio w) (compressor_width w) &&
  has_dims (attn_compressor_kv c) (compressor_width w) (hidden_size d) &&
  has_dims (attn_compressor_gate c) (compressor_width w) (hidden_size d) &&
  f32_vector (attn_compressor_norm c) DS4_V100_HEAD_DIM.

Definition indexer_dims_ok (d : layer_dims) (w : layer_widths) (i : layer_indexer) : bool :=
  has_dims (indexer_attn_q_b i) (indexer_q_width w) (q_lora_rank d) &&
  has_dims (indexer_proj i) (indexer_proj_width w) (hidden_size d) &&
  has_dims (indexer_compressor_ape i) (compress_ratio w) (indexer_compressor_width w) &&
  has_dims (indexer_compressor_kv i) (indexer_compressor_width w) (hidden_size d) &&
  has_dims (indexer_compressor_gate i) (indexer_compressor_width w) (hidden_size d) &&
  f32_vector (indexer_compressor_norm i) DS4_V100_INDEXER_HEAD_DIM.

Definition routed_dims_ok (d : layer_dims) (r : routed_tensors) : bool :=
  (shape_at (routed_gate_binding r) 0 =? hidden_size d) && (shape_at (routed_up_binding r) 0 =? hidden_size d) &&
  (shape_at (routed_gate_binding r) 1 =? intermediate_size d) &&
  (shape_at (routed_up_binding r) 1 =? intermediate_size d) &&
  (shape_at (routed_down_binding r) 0 =? intermediate_size d) &&
  (shape_at (routed_down_binding r) 1 =? hidden_size d).

Definition shared_dims_ok (d : layer_dims) (m : layer_matrices) : bool :=
  (cols (shared_up m) =? hidden_size d) && (rows (shared_up m) =? intermediate_size d) &&
  (cols (shared_down m) =? intermediate_size d) && (rows (shared_down m) =? hidden_size d).

Definition tp2_half_ok (d : layer_dims) (h : tp2_half) : bool :=
  let gu := tp2_gate_up_view h in let dw := tp2_down_view h in
  (tv_n gu =? intermediate_size d) && (tv_k gu =? hidden_size d) && (tv_n dw =? hidden_size d) &&
  (tv_k dw =? intermediate_size d / 2) && (tv_experts_total gu =? routed_experts d) &&
  (tv_experts_total dw =? routed_experts d) &&
  negb (Z.land (tv_flags gu) DS4_GPU_TURBOMIND_MXFP4_GATE_UP_INTERLEAVED =? 0).

Definition validate_tp2 (owning_gpu : Z) (d : layer_dims) (r : routed_tensors) : res unit :=
  match turbomind_tp2 r with
  | None => Ok tt
  | Some (h0, h1) =>
      if negb (intermediate_size d mod 2 =? 0) then fail "TP2 requires even intermediate size" []
      else if negb (mb_owning_gpu (tp2_gate_up_binding h0) =? owning_gpu) ||
              negb (mb_owning_gpu (tp2_down_binding h0) =? owning_gpu) ||
              (mb_owning_gpu (tp2_gate_up_binding h1) =? owning_gpu) ||
              negb (mb_owning_gpu (tp2_down_binding h1) =? mb_owning_gpu (tp2_gate_up_binding h1)) then
        fail "TP2 routed owner/peer GPU layout is invalid" []
      else if negb (tp2_half_ok d h0 && tp2_half_ok d h1) then
        fail "TP2 routed expert dimensions do not match DS4 FFN dims" []
      else Ok tt
  end.

(** The checks after everything is bound. *)
Definition validate_layer_dims (owning_gpu : Z) (d : layer_dims) (w : layer_widths) (t : layer_tensors)
    (m : layer_matrices) (c : option attention_compressor) (i : option layer_indexer) (r : routed_tensors)
  : res unit :=
  if negb (tb_n_shape_dims (routed_gate_binding r) =? 3) || negb (tb_n_shape_dims (routed_up_binding r) =? 3) ||
     negb (tb_n_shape_dims (routed_down_binding r) =? 3) then fail "routed expert tensors must be 3D" []
  else if negb (attention_dims_ok d m) then
    fail "attention projection dimensions do not match DS4 layer state" []
  else if negb (attention_controls_ok d t) then
    fail "attention control dimensions do not match DS4 layer state" []
  else if match c with Some c => negb (compressor_dims_ok d w c) | None => false end then
    fail "attention compressor dimensions do not match DS4 layer state" []
  else if match i with Some i => negb (indexer_dims_ok d w i) | None => false end then
    fail "indexer dimensions do not match DS4 layer state" []
  else if negb (shape_at (routed_up_binding r) 2 =? routed_experts d) ||
          negb (shape_at (routed_down_binding r) 2 =? routed_experts d) then
    fail "routed expert counts do not match" []
  else if negb (routed_dims_ok d r) then
    fail "routed expert dimensions do not match router/shared dims" []
  else
    _ <- validate_tp2 owning_gpu d r ;;
    if negb (shared_dims_ok d m) then fail "shared expert dimensions do not match router dims" []
    else Ok tt.

Definition ds4_layer_state_init (ctx : option ds4_context) (layer_id : Z) : res ds4_layer_state :=
  match ctx with
  | None => fail "missing V100 context" []
  | Some _ =>
  match ds4_context_layer ctx layer_id with
  | None => fail "invalid layer %d" [AZ layer_id]
  | Some li =>
  match ds4_context_stage ctx (li_stage_id li) with
  | None => fail "missing stage for layer %d" [AZ layer_id]
  | Some stage =>
      let head := LayerHead layer_id (li_stage_id li) (sg_gpu stage) (layer_class li) (kv_view li) in
      let gpu := sg_gpu stage in
      r <- bind_routed_expert_tensors ctx layer_id ;;
      t <- bind_layer_tensors ctx layer_id ;;
      let hash := bind_optional ctx layer_id "ffn_gate_tid2eid" in
      let bias := bind_optional ctx layer_id "exp_probs_b" in
      m <- make_layer_matrices t ;;
      ri <- validate_router_binding (router m) hash bias ;;
      let w := layer_widths_of (layer_class li) in
      c <- bind_compressor ctx layer_id gpu w ;;
      i <- bind_indexer ctx layer_id gpu w ;;
      _ <- check_owners gpu (owned r t m) ;;
      let d := dims_of r m in
      _ <- validate_layer_dims gpu d w t m c i r ;;
      Ok (LayerState head d w ri t m c i r)
  end end end.

(** ** Expert matrices, spans and views *)

Definition ds4_layer_state_route_matrices (state : ds4_layer_state) (expert : Z) : res ds4_route_matrices :=
  let r := ls_routed state in
  if has_turbomind_routed r then
    fail "source MXFP4 expert matrix view is unavailable for TurboMind-bound layer %d"
         [AZ (ls_layer_id (ls_head state))]
  else if routed_experts (ls_dims state) <=? expert then
    fail "expert %u outside routed expert count %u" [AZ expert; AZ (routed_experts (ls_dims state))]
  else
    gate <- make_mxfp4_expert_matrix (routed_gate_binding r) expert "ffn_gate_exps.weight" ;;
    up <- make_mxfp4_expert_matrix (routed_up_binding r) expert "ffn_up_exps.weight" ;;
    down <- make_mxfp4_expert_matrix (routed_down_binding r) expert "ffn_down_exps.weight" ;;
    Ok (RouteMatrices gate up down).

Definition ds4_bound_matrix_arena_offset (matrix : ds4_bound_matrix) : Z :=
  u64 (tb_shard_offset (binding matrix) + rel matrix).

(** [None] is the return value 1. *)
Definition grow_span_for_matrix (span : Z) (matrix : ds4_bound_matrix) : option Z :=
  let start := ds4_bound_matrix_arena_offset matrix in
  if UINT64_MAX - start <? mat_bytes matrix then None
  else
    let end_ := u64 (start + mat_bytes matrix) in
    Some (if span <? end_ then end_ else span).

Definition grow_span_for_turbomind_view (span : Z) (view : ds4_gpu_turbomind_mxfp4_matrix_view) : option Z :=
  let weight_end := u64 (tv_weight_offset view + u64 (tv_experts_packed view * tv_weight_bytes_per_expert view)) in
  let scale_end := u64 (tv_scale_offset view + u64 (tv_experts_packed view * tv_scale_bytes_per_expert view)) in
  if (weight_end <? tv_weight_offset view) || (scale_end <? tv_scale_offset view) then None
  else
    let span := if span <? weight_end then weight_end else span in
    Some (if span <? scale_end then scale_end else span).

(** A chain of [grow_span_for_matrix] calls joined by [||]. *)
Definition grow_span (span : Z) (l : list ds4_bound_matrix) : option Z := ofold grow_span_for_matrix span l.

Definition check_selected (state : ds4_layer_state) (e : Z) : res unit :=
  if (e <? 0) || (routed_experts (ls_dims state) <=? u32 e) then
    fail "selected expert %d outside routed expert count" [AZ e]
  else Ok tt.

(** The first [n] elements of [selected_experts], each read in its turn;
    [None] is the null pointer. *)
Definition selected (experts : option (list Z)) (n : Z) : list (option Z) :=
  match experts with
  | Some l => map (fun i => l !! Z.to_nat i) (upto n)
  | None => replicate (Z.to_nat n) None
  end.

Definition turbomind_arena_span (state : ds4_layer_state) (sel : list (option Z)) (span : Z) : res Z :=
  let r := ls_routed state in
  let overflow := "TurboMind routed FFN arena span overflow"%string in
  _ <- rfold (fun _ e => match e with
                         | None => fail "missing selected experts" []
                         | Some e => check_selected state e
                         end) tt sel ;;
  match (if has_turbomind_fused_gate_up r then grow_span_for_turbomind_view span (turbomind_gate_up_view r)
         else Some span) with
  | None => fail overflow []
  | Some span =>
      match (if negb (tv_experts_packed (turbomind_gate_view r) =? 0) ||
                negb (tv_experts_packed (turbomind_up_view r) =? 0)
             then ofold grow_span_for_turbomind_view span [turbomind_gate_view r; turbomind_up_view r]
             else Some span) with
      | None => fail overflow []
      | Some span =>
          match grow_span_for_turbomind_view span (turbomind_down_view r) with
          | None => fail overflow []
          | Some span => Ok span
          end
      end
  end.

Definition route_arena_span (state : ds4_layer_state) (span : Z) (e : option Z) : res Z :=
  match e with
  | None => fail "missing selected experts" []
  | Some e =>
      _ <- check_selected state e ;;
      route <- ds4_layer_state_route_matrices state (u32 e) ;;
      match grow_span span [rm_gate route; rm_up route; rm_down route] with
      | None => fail "routed FFN arena span overflow" []
      | Some span => Ok span
      end
  end.

Definition ds4_layer_state_ffn_arena_span (state : ds4_layer_state) (experts : option (list Z)) (n : Z) : res Z :=
  let m := ls_matrices state in
  match grow_span 0 [router m; shared_gate m; shared_up m; shared_down m] with
  | None => fail "fixed FFN arena span overflow" []
  | Some span =>
      if has_turbomind_routed (ls_routed state) then turbomind_arena_span state (selected experts n) span
      else rfold (route_arena_span state) span (selected experts n)
  end.

Definition ds4_layer_state_attention_arena_span (state : ds4_layer_state) : res Z :=
  let m := ls_matrices state in
  match grow_span 0 [attn_q_a m; attn_q_b m; attn_kv_latent m; attn_output_a m; attn_output_b m] with
  | None => fail "attention arena span overflow" []
  | Some span =>
      match match ls_compressor state with
            | Some c => grow_span span [attn_compressor_ape c; attn_compressor_kv c; attn_compressor_gate c]
            | None => Some span
            end with
      | None => fail "attention compressor arena span overflow" []
      | Some span =>
          match match ls_indexer state with
                | Some i => grow_span span [indexer_attn_q_b i; indexer_proj i; indexer_compressor_ape i;
                                            indexer_compressor_kv i; indexer_compressor_gate i]
                | None => Some span
                end with
          | None => fail "indexer arena span overflow" []
          | Some span => Ok span
          end
      end
  end.

Definition empty_matrix (m : ds4_bound_matrix) : bool :=
  (rows m =? 0) || (cols m =? 0) || (row_bytes m =? 0) || (mat_bytes m =? 0).

Definition ds4_bound_matrix_source_view (matrix : option ds4_bound_matrix) : res ds4_gpu_source_row_view :=
  match matrix with
  | None => fail "missing source row view output" []
  | Some m =>
      if empty_matrix m then fail "invalid bound matrix dimensions" []
      else Ok (SourceRowView (ds4_bound_matrix_arena_offset m) (mat_bytes m) (rows m) (cols m) (u32 (row_bytes m)))
  end.

Definition ds4_bound_matrix_bf16_view (matrix : option ds4_bound_matrix) : res ds4_gpu_bf16_matrix_view :=
  match matrix with
  | None => fail "missing bf16 matrix view output" []
  | Some m =>
      if negb (dtype_is (binding m) "bf16") then fail "matrix is not bf16" []
      else if empty_matrix m then fail "invalid bf16 matrix dimensions" []
      else Ok (Bf16View (ds4_bound_matrix_arena_offset m) (mat_bytes m) (rows m) (cols m) (cols m))
  end.
