(* ===== verification/LayerStateProps.v ===== *)
(** * Properties of the layer state

    What a state built by [ds4_layer_state_init] of engine/layer_state.c over
    an opened context guarantees: bindings, matrices without truncation, the
    tiling of expert tensors, and arena spans that stay inside the arena. *)
From S2P Require Import Prelude.
From S2P Require Import CNum.
From S2P Require Import TsvFile.
From S2P Require Import KeyIndex.
From S2P Require Import Pack.
From S2P Require Import TmPack.
From S2P Require Import Policy.
From S2P Require Import ContextTypes.
From S2P Require Import KvPlan.
From S2P Require Import SourceFormats.
From S2P Require Import Shape.
From S2P Require Import Context.
From S2P Require Import LayerState.

(** ** Bindings of an opened context *)

(** A binding made from a bound row: its shape and size are those of a tensor
    of its dtype, and its bytes lie in the arena of its GPU. *)
Record binding_ok (ctx : ds4_context) (b : ds4_tensor_binding) : Prop := {
  bo_dims : exists dims, tb_n_shape_dims b = Z.of_nat (length dims) /\ tb_shape b = shape_array dims /\
    (length dims <= 4)%nat /\ Forall (fun d => 0 < d) dims /\ prodZ dims <= UINT64_MAX /\
    dtype_bytes (ds4_source_dtype_parse (Some (tb_source_dtype b))) (prodZ dims) = Some (tb_byte_length b);
  bo_span : 0 <= tb_shard_offset b /\ tb_shard_offset b + tb_byte_length b <= UINT64_MAX /\
    tb_shard_offset b + tb_byte_length b <= arena_bytes (get_stage ctx (tb_owning_gpu b))
}.

Lemma lookup_binding_ok `{Allocator} (fs : bytes -> file_env) (o : option ds4_context_options)
    (ctx : ds4_context) (id : bytes) (b : ds4_tensor_binding) :
  ds4_context_open fs o = Ok ctx -> ds4_context_lookup_tensor_binding (Some ctx) (Some id) = Ok b ->
  binding_ok ctx b.
Proof.
  intros Hopen Hl. destruct (context_open_inv fs o ctx Hopen) as (_ & [[B1 B2 B3 B4 B5 B6 B7 B8] Hp _] & _).
  unfold ds4_context_lookup_tensor_binding in Hl. destruct id as [|c id]; [done|].
  destruct (find_desc ctx (c :: id)) as [d|] eqn:Hf; [|done].
  unfold find_desc in Hf. apply fmap_Some in Hf as ([j d0] & Hf & ->). simpl in Hl.
  apply find_key_some in Hf as (Hin & _). rename d0 into d'.
  rewrite Forall_forall in B3. destruct (B3 d' Hin) as [K1 K2 K3 K4 K5 K6].
  assert (entry_wf (td_entry d')) as (W1 & _ & _ & _ & W5 & _ & _ & W8 & _).
  { destruct (pack_index_path (opts ctx)) as [[|c0 path]|].
    - destruct Hp as [_ Hd]. rewrite Hd in Hin. by apply elem_of_nil in Hin.
    - destruct Hp as (p & Hpo & _ & He). destruct (pack_open_wf _ _ _ Hpo) as [[Hw _ _] _].
      rewrite Forall_forall in Hw. apply Hw. rewrite <- He. by apply list_elem_of_fmap_2.
    - destruct Hp as [_ Hd]. rewrite Hd in Hin. by apply elem_of_nil in Hin. }
  unfold fill_binding in Hl. unfold expected_bytes_for_entry, parse_shape_elements in K4.
  destruct (parse_shape_dims _ _) as [[dims el]|] eqn:Hs; [|done]. simpl in K4.
  apply parse_shape_sound in Hs as (_ & S2 & S3 & -> & S5). injection Hl as <-.
  split.
  - exists dims. cbn -[shape_array]. by repeat split.
  - cbn -[arena_bytes]. split; [apply W5|]. split; [exact W8|]. pose proof (B5 (owning_gpu (td_entry d')) ltac:(lia)). lia.
Qed.

Lemma bind_required_lookup (ctx : option ds4_context) (l : Z) (suffix : string) (b : ds4_tensor_binding) :
  bind_required ctx l suffix = Ok b ->
  0 <= l < 43 /\ ds4_context_lookup_tensor_binding ctx (Some (layer_tensor_id l (B suffix))) = Ok b.
Proof.
  unfold bind_required, ds4_context_require_layer_tensor_binding. intros Hr.
  destruct (_ || _) eqn:E; [done|]. destruct (B suffix) as [|c s]; [done|]. destruct (192 <=? _) in Hr; [done|].
  bool_hyps. unfold DS4_V100_N_LAYERS in *. split; [lia|done].
Qed.

(** ** Matrices without truncation *)

(** The 32-bit dimensions of the matrix are those of the tensor, and its bytes
    are the tensor's. *)
Record exact_matrix (m : ds4_bound_matrix) : Prop := {
  em_cols : cols m = shape_at (binding m) 0;
  em_rows : rows m = shape_at (binding m) 1;
  em_bytes : mat_bytes m = tb_byte_length (binding m);
  em_size : mat_bytes m = rows m * row_bytes m;
  em_pos : 0 < rows m <= UINT32_MAX /\ 0 < cols m <= UINT32_MAX /\ 0 < row_bytes m;
  em_rel : rel m = 0
}.

Lemma u32_le (d : Z) : 0 <= d -> 0 <= u32 d <= d.
Proof.
  intros Hd. unfold u32. pose proof (Z.mod_pos_bound d (2 ^ 32) ltac:(lia)).
  pose proof (Z.mod_le d (2 ^ 32) Hd ltac:(lia)). lia.
Qed.

(** Truncating either side of a product that keeps its value changes nothing. *)
Lemma mul_no_truncation (r c d0 d1 : Z) :
  0 <= c <= d0 -> 0 <= r <= d1 -> 0 < d0 -> 0 < d1 -> r * c = d0 * d1 -> c = d0 /\ r = d1.
Proof. intros. split; nia. Qed.

Lemma plain_bytes_exact (k d0 d1 : Z) : 0 < k <= 4 -> 0 < d0 -> 0 < d1 -> k * (d0 * d1) <= UINT64_MAX ->
  u64 (u32 d1 * u64 (u32 d0 * k)) = k * (d0 * d1) ->
  u32 d0 = d0 /\ u32 d1 = d1 /\ u64 (u32 d0 * k) = d0 * k.
Proof.
  intros Hk H0 H1 Hm He. pose proof (u32_le d0 ltac:(lia)). pose proof (u32_le d1 ltac:(lia)).
  pose proof (u32_range d0). unfold is_u32, UINT32_MAX in *.
  rewrite (u64_small (u32 d0 * k)) in * by (unfold is_u64, UINT64_MAX; nia).
  rewrite u64_small in He.
  - destruct (mul_no_truncation (u32 d1) (u32 d0) d0 d1) as [E0 E1]; [lia..|nia|]. by rewrite E0.
  - split; [nia|]. etransitivity; [|exact Hm].
    assert (u32 d1 * u32 d0 <= d1 * d0) by (apply Z.mul_le_mono_nonneg; lia). nia.
Qed.

Lemma u32_full (d : Z) : 0 <= d -> u32 d = d -> d <= UINT32_MAX.
Proof. intros Hd <-. apply u32_range. Qed.

Lemma u64_over (w : Z) : 2 ^ 64 <= w < 2 * 2 ^ 64 -> u64 w = w - 2 ^ 64.
Proof. intros Hw. unfold u64. replace w with (w - 2 ^ 64 + 1 * 2 ^ 64) at 1 by lia. rewrite Z.mod_add, Z.mod_small; lia. Qed.

(** With FP8 sizes whose scale count wrapped, no truncated matrix fits. *)
Lemma f8_wrap_case (c r a b k : Z) : 0 < k -> c = 128 * k -> 0 <= c < 2 ^ 32 -> 0 <= r < 2 ^ 32 -> 0 <= a -> 0 <= b ->
  (c + 2 ^ 32 * a) * (r + 2 ^ 32 * b) = 129 * (r * k) -> 129 * (r * k) <= UINT64_MAX -> r = 0.
Proof.
  intros Hk -> Hc Hr Ha Hb He Hm. unfold UINT64_MAX in Hm.
  assert (128 * k * (2 ^ 32 * b) + 2 ^ 32 * a * r + 2 ^ 64 * (a * b) = r * k) as H by (change (2 ^ 64) with (2 ^ 32 * 2 ^ 32); lia).
  assert (0 <= a * b) by nia. assert (0 <= a * r) by nia. assert (0 <= k * b) by nia.
  assert (k < 2 ^ 25) as Hk2 by lia.
  destruct (Z.eq_dec b 0) as [-> |Hb0]; destruct (Z.eq_dec a 0) as [-> |Ha0]; [nia|nia| |].
  - assert (k <= k * b) by nia. nia.
  - assert (k <= k * b) by nia. nia.
Qed.

(** The FP8 size of a 2D tensor can only match when nothing was truncated and
    rows are whole blocks. *)
Lemma f8_bytes_exact (d0 d1 bl : Z) : 0 < d0 -> 0 < d1 -> d0 * d1 <= UINT64_MAX ->
  dtype_bytes DS4_V100_SOURCE_F8_E4M3_B128 (d0 * d1) = Some bl ->
  u64 (u32 d1 * ds4_src_f8_e4m3_b128_row_bytes (u32 d0)) = bl ->
  u32 d0 = d0 /\ u32 d1 = d1 /\ d0 mod 128 = 0 /\
  ds4_src_f8_e4m3_b128_row_bytes (u32 d0) = d0 / 128 * 129 /\ bl = d1 * (d0 / 128 * 129).
Proof.
  intros H0 H1 Hn Hb Hw. set (n := d0 * d1) in *. unfold dtype_bytes in Hb.
  set (s := u64 (n + 127) / 128) in Hb. destruct (_ <? _) eqn:E in Hb; [done|]. bool_hyps. injection Hb as Hb.
  assert (0 < n) as Hn0 by (unfold n; nia).
  assert (0 <= s) as Hs0 by (apply Z.div_pos; [apply u64_range|lia]).
  rewrite u64_small in Hb by (unfold is_u64; lia).
  assert (ds4_src_f8_e4m3_b128_row_bytes (u32 d0) <> 0) as Hr0.
  { intros E0. rewrite E0, Z.mul_0_r in Hw. change (u64 0) with 0 in Hw. lia. }
  pose proof (u32_le d0 ltac:(lia)) as Hc. pose proof (u32_le d1 ltac:(lia)) as Hr.
  pose proof (u32_range d0) as Hc2. pose proof (u32_range d1) as Hr2.
  assert (d0 = u32 d0 + 2 ^ 32 * (d0 / 2 ^ 32)) as Hd0 by (unfold u32; rewrite Z.add_comm; apply Z.div_mod; lia).
  assert (d1 = u32 d1 + 2 ^ 32 * (d1 / 2 ^ 32)) as Hd1 by (unfold u32; rewrite Z.add_comm; apply Z.div_mod; lia).
  assert (0 <= d0 / 2 ^ 32) as Ha by (apply Z.div_pos; lia).
  assert (0 <= d1 / 2 ^ 32) as Hb' by (apply Z.div_pos; lia).
  destruct (packed_row_bytes_blocks (u32 d0) 128 129 ltac:(zlia) ltac:(lia) ltac:(lia) Hr0)
    as (k & K1 & K2 & K3 & K4 & K5 & _).
  unfold ds4_src_f8_e4m3_b128_row_bytes, DS4_SRC_F8_E4M3_B128_BLOCK_ELEMS, DS4_SRC_F8_E4M3_B128_BLOCK_BYTES in *.
  rewrite K4 in *. set (kz := Z.of_nat k) in *. assert (0 < kz) by lia.
  set (c := u32 d0) in *. set (r := u32 d1) in *.
  assert (r * c <= n) as Hrc by (unfold n; rewrite Z.mul_comm; apply Z.mul_le_mono_nonneg; lia).
  assert (128 * (r * kz) <= n) as Hrk by (rewrite K1 in Hrc; lia).
  assert (n + s <= UINT64_MAX) as Hns by lia.
  assert (0 <= r * kz) as Hrk0 by (apply Z.mul_nonneg_nonneg; lia).
  assert (r * (kz * 129) = 129 * (r * kz)) as Hw1 by ring.
  assert (129 * (r * kz) <= UINT64_MAX) as Hnowrap.
  { destruct (Z.le_gt_cases (129 * (r * kz)) UINT64_MAX) as [?|Hgt]; [done|exfalso].
    rewrite Hw1, u64_over in Hw by (unfold UINT64_MAX in *; lia). unfold UINT64_MAX in *. lia. }
  rewrite Hw1, u64_small in Hw by (unfold is_u64; lia).
  assert (n = 128 * (r * kz)) as Hfull.
  { destruct (Z.le_gt_cases (n + 127) UINT64_MAX) as [Hle|Hgt].
    - unfold s in *. rewrite u64_small in * by (unfold is_u64; lia).
      pose proof (Z.div_mod (n + 127) 128 ltac:(lia)). pose proof (Z.mod_pos_bound (n + 127) 128 ltac:(lia)). lia.
    - exfalso. assert (s = 0) as Hs.
      { unfold s. rewrite u64_over by (unfold UINT64_MAX in *; lia). apply Z.div_small. unfold UINT64_MAX in *. lia. }
      rewrite Hs, Z.add_0_r in Hb. assert (r = 0) as Hr00; [|rewrite Hr00 in Hw; lia].
      apply (f8_wrap_case c r (d0 / 2 ^ 32) (d1 / 2 ^ 32) kz); try done; [unfold is_u32, UINT32_MAX in *; lia..|].
      rewrite <- Hd0, <- Hd1. unfold n in *. lia. }
  assert (c = d0 /\ r = d1) as [Ec Er].
  { apply mul_no_truncation; [lia..|]. rewrite K1. unfold n in Hfull. lia. }
  split; [done|]. split; [done|]. rewrite <- Ec, <- Er. split.
  - by rewrite K1, Z.mul_comm, Z.mod_mul.
  - rewrite K3. split; [done|]. lia.
Qed.

Lemma binding_dims2 (ctx : ds4_context) (b : ds4_tensor_binding) :
  binding_ok ctx b -> tb_n_shape_dims b = 2 ->
  exists d0 d1, shape_at b 0 = d0 /\ shape_at b 1 = d1 /\ 0 < d0 /\ 0 < d1 /\ d0 * d1 <= UINT64_MAX /\
    dtype_bytes (ds4_source_dtype_parse (Some (tb_source_dtype b))) (d0 * d1) = Some (tb_byte_length b).
Proof.
  intros [(dims & D1 & D2 & D3 & D4 & D5 & D6) _] Hn. rewrite Hn in D1.
  destruct dims as [|d0 [|d1 [|]]]; simpl in D1; try lia.
  exists d0, d1. unfold shape_at. rewrite D2. rewrite !Forall_cons in D4. destruct D4 as (? & ? & _).
  cbn [prodZ foldr] in *. rewrite Z.mul_1_r in *. done.
Qed.

Lemma binding_dims3 (ctx : ds4_context) (b : ds4_tensor_binding) :
  binding_ok ctx b -> tb_n_shape_dims b = 3 ->
  exists d0 d1 d2, shape_at b 0 = d0 /\ shape_at b 1 = d1 /\ shape_at b 2 = d2 /\ 0 < d0 /\ 0 < d1 /\ 0 < d2 /\
    d0 * d1 * d2 <= UINT64_MAX /\
    dtype_bytes (ds4_source_dtype_parse (Some (tb_source_dtype b))) (d0 * d1 * d2) = Some (tb_byte_length b).
Proof.
  intros [(dims & D1 & D2 & D3 & D4 & D5 & D6) _] Hn. rewrite Hn in D1.
  destruct dims as [|d0 [|d1 [|d2 [|]]]]; simpl in D1; try lia.
  exists d0, d1, d2. unfold shape_at. rewrite D2. rewrite !Forall_cons in D4. destruct D4 as (? & ? & ? & _).
  cbn [prodZ foldr] in *. rewrite Z.mul_1_r, Z.mul_assoc in *. done.
Qed.

Lemma dtype_is_parse (b : ds4_tensor_binding) (s : string) :
  dtype_is b s = true ->
  ds4_source_dtype_parse (Some (tb_source_dtype b)) = ds4_source_dtype_parse (Some (B s)).
Proof. unfold dtype_is. intros H%str_eqb_eq. by rewrite H. Qed.

Lemma make_matrix_ok (b : ds4_tensor_binding) (f : Z -> Z) (label : string) (m : ds4_bound_matrix) :
  make_matrix b f label = Ok m ->
  m = BoundMatrix b (u32 (shape_at b 1)) (u32 (shape_at b 0)) 1 (f (u32 (shape_at b 0))) (tb_byte_length b) 0 /\
  u64 (u32 (shape_at b 1) * f (u32 (shape_at b 0))) = tb_byte_length b.
Proof.
  unfold make_matrix. intros Hr. destruct (negb _) eqn:E; [done|]. bool_hyps. injection Hr as <-.
  by rewrite E.
Qed.

Lemma plain_matrix_exact (ctx : ds4_context) (b : ds4_tensor_binding) (k : Z) (label : string) (m : ds4_bound_matrix) :
  0 < k <= 4 -> binding_ok ctx b -> tb_n_shape_dims b = 2 ->
  (forall n bl, dtype_bytes (ds4_source_dtype_parse (Some (tb_source_dtype b))) n = Some bl ->
     0 < n <= UINT64_MAX -> bl = k * n /\ k * n <= UINT64_MAX) ->
  make_matrix b (fun cols => u64 (cols * k)) label = Ok m -> binding m = b /\ exact_matrix m.
Proof.
  intros Hk Hok Hn Hd Hm. destruct (binding_dims2 _ _ Hok Hn) as (d0 & d1 & S0 & S1 & P0 & P1 & Hmax & Hb).
  apply Hd in Hb as [Hbl Hbm]; [|split; [nia|done]].
  apply make_matrix_ok in Hm as [-> He]. rewrite S0, S1 in *.
  destruct (plain_bytes_exact k d0 d1 Hk P0 P1 Hbm ltac:(lia)) as (E0 & E1 & E2).
  split; [done|]. rewrite E2, E1, E0. pose proof (u32_full d0 ltac:(lia) E0). pose proof (u32_full d1 ltac:(lia) E1).
  split; cbn; try done; try lia; nia.
Qed.

Lemma make_f32_exact (ctx : ds4_context) (b : ds4_tensor_binding) (label : string) (m : ds4_bound_matrix) :
  binding_ok ctx b -> make_f32_matrix b label = Ok m -> binding m = b /\ exact_matrix m.
Proof.
  intros Hok Hm. unfold make_f32_matrix in Hm. destruct (_ || _) eqn:E; [done|]. bool_hyps.
  apply (plain_matrix_exact ctx b 4 label m); [lia|done|done| |exact Hm].
  rewrite (dtype_is_parse b "f32") by done. intros n bl Hb Hn.
  change (ds4_source_dtype_parse (Some (B "f32"))) with DS4_V100_SOURCE_F32 in Hb.
  unfold dtype_bytes in Hb. rewrite div_test in Hb by lia. destruct (Z.leb_spec (4 * n) UINT64_MAX); [|done].
  cbn [negb] in Hb. rewrite u64_small in Hb by zlia. injection Hb as <-. lia.
Qed.

Lemma make_bf16_exact (ctx : ds4_context) (b : ds4_tensor_binding) (label : string) (m : ds4_bound_matrix) :
  binding_ok ctx b -> make_bf16_matrix b label = Ok m -> binding m = b /\ exact_matrix m.
Proof.
  intros Hok Hm. unfold make_bf16_matrix in Hm. destruct (_ || _) eqn:E; [done|]. bool_hyps.
  apply (plain_matrix_exact ctx b 2 label m); [lia|done|done| |exact Hm].
  rewrite (dtype_is_parse b "bf16") by done. intros n bl Hb Hn.
  change (ds4_source_dtype_parse (Some (B "bf16"))) with DS4_V100_SOURCE_BF16 in Hb.
  unfold dtype_bytes in Hb. rewrite div_test in Hb by lia. destruct (Z.leb_spec (2 * n) UINT64_MAX); [|done].
  cbn [negb] in Hb. rewrite u64_small in Hb by zlia. injection Hb as <-. lia.
Qed.

Lemma make_f8_exact (ctx : ds4_context) (b : ds4_tensor_binding) (label : string) (m : ds4_bound_matrix) :
  binding_ok ctx b -> make_f8_matrix b label = Ok m ->
  binding m = b /\ exact_matrix m /\ cols m mod 128 = 0.
Proof.
  intros Hok Hm. unfold make_f8_matrix in Hm. destruct (_ || _) eqn:E; [done|]. bool_hyps.
  destruct (binding_dims2 _ _ Hok ltac:(done)) as (d0 & d1 & S0 & S1 & P0 & P1 & Hmax & Hb).
  rewrite (dtype_is_parse b "f8_e4m3_b128") in Hb by done.
  change (ds4_source_dtype_parse (Some (B "f8_e4m3_b128"))) with DS4_V100_SOURCE_F8_E4M3_B128 in Hb.
  apply make_matrix_ok in Hm as [-> He]. rewrite S0, S1 in *.
  destruct (f8_bytes_exact d0 d1 _ P0 P1 Hmax Hb He) as (E0 & E1 & E2 & E3 & E4).
  split; [done|]. rewrite E3, E1, E0. pose proof (u32_full d0 ltac:(lia) E0). pose proof (u32_full d1 ltac:(lia) E1).
  pose proof (Z.div_mod d0 128 ltac:(lia)).
  split; [|done]. split; cbn; try done; lia.
Qed.

(** ** What initialisation established *)

(** The tensors every layer binds, under their suffixes. *)
Definition layer_tensor_table : list (string * (layer_tensors -> ds4_tensor_binding)) :=
  [("ffn_gate_shexp.weight", t_shared_gate); ("ffn_up_shexp.weight", t_shared_up);
   ("ffn_down_shexp.weight", t_shared_down); ("ffn_gate_inp.weight", t_router);
   ("attn_q_a.weight", t_attn_q_a); ("attn_q_b.weight", t_attn_q_b);
   ("attn_kv_latent.weight", t_attn_kv_latent); ("attn_output_a.weight", t_attn_output_a);
   ("attn_output_b.weight", t_attn_output_b); ("attn_norm.weight", attn_norm);
   ("attn_q_a_norm.weight", attn_q_a_norm); ("attn_kv_a_norm.weight", attn_kv_a_norm);
   ("attn_sinks", attn_sinks); ("hc_attn_fn", hc_attn_fn); ("hc_attn_base", hc_attn_base);
   ("hc_attn_scale", hc_attn_scale); ("ffn_norm.weight", ffn_norm); ("hc_ffn_fn", hc_ffn_fn);
   ("hc_ffn_base", hc_ffn_base); ("hc_ffn_scale", hc_ffn_scale)]%string.

(** The matrices made from them. *)
Definition layer_matrix_table : list ((layer_matrices -> ds4_bound_matrix) * (layer_tensors -> ds4_tensor_binding)) :=
  [(router, t_router); (attn_q_a, t_attn_q_a); (attn_q_b, t_attn_q_b); (attn_kv_latent, t_attn_kv_latent);
   (attn_output_a, t_attn_output_a); (attn_output_b, t_attn_output_b); (shared_gate, t_shared_gate);
   (shared_up, t_shared_up); (shared_down, t_shared_down)].

(** [Forall] over a table as one conjunction. *)
Fixpoint conj_all {A : Type} (P : A -> Prop) (l : list A) : Prop :=
  match l with [] => True | a :: l' => P a /\ conj_all P l' end.
Lemma Forall_conj {A : Type} (P : A -> Prop) (l : list A) : Forall P l <-> conj_all P l.
Proof. induction l as [|a l IH]; [done|]. simpl. by rewrite Forall_cons, IH. Qed.
Ltac table_in H := apply Forall_conj in H; cbn [conj_all fst snd tl layer_tensor_table layer_matrix_table] in H; destruct_and? H.
Ltac table_goal := apply Forall_conj; cbn [conj_all fst snd].

(** Walk through a chain of calls that succeeded. *)
Ltac chain H :=
  repeat match type of H with
  | match ?x with Ok _ => _ | Error _ => _ end = Ok _ =>
      let E := fresh "E" in destruct x eqn:E; [|discriminate H]
  end.

Lemma bind_layer_tensors_ok (ctx : option ds4_context) (l : Z) (t : layer_tensors) :
  bind_layer_tensors ctx l = Ok t ->
  Forall (fun p => bind_required ctx l p.1 = Ok (p.2 t)) layer_tensor_table.
Proof.
  unfold bind_layer_tensors. intros Hr. chain Hr. injection Hr as <-.
  unfold layer_tensor_table. table_goal. repeat (split; [done|]). done.
Qed.

Lemma make_layer_matrices_ok (ctx : ds4_context) (t : layer_tensors) (m : layer_matrices) :
  Forall (fun p => binding_ok ctx (p.2 t)) layer_tensor_table ->
  make_layer_matrices t = Ok m ->
  Forall (fun p => binding (p.1 m) = p.2 t /\ exact_matrix (p.1 m)) layer_matrix_table /\
  Forall (fun p => cols (p.1 m) mod 128 = 0) (tl layer_matrix_table).
Proof.
  unfold layer_tensor_table. intros Hok Hr. table_in Hok.
  unfold make_layer_matrices in Hr. chain Hr. injection Hr as <-.
  repeat match goal with
  | E : make_f32_matrix _ _ = Ok _ |- _ => apply (make_f32_exact ctx) in E; [|assumption]
  | E : make_f8_matrix _ _ = Ok _ |- _ => apply (make_f8_exact ctx) in E; [|assumption]
  end.
  unfold layer_matrix_table. cbn [tl]. split; table_goal; cbn [router attn_q_a attn_q_b attn_kv_latent
    attn_output_a attn_output_b shared_gate shared_up shared_down]; tauto.
Qed.

Lemma check_owners_ok (gpu : Z) (l : list (ds4_tensor_binding * string)) (u : unit) :
  check_owners gpu l = Ok u -> Forall (fun bl => tb_owning_gpu bl.1 = gpu) l.
Proof.
  unfold check_owners. intros Hr. apply Forall_forall. intros bl Hbl.
  destruct (rfold_each _ _ _ _ Hr bl Hbl) as (s1 & s2 & Hc). unfold check_same_owner in Hc.
  destruct (negb _) eqn:E; [done|]. by bool_hyps.
Qed.

(** A matrix whose bytes lie in the arena of [gpu], the ones of its tensor. *)
Record placed (ctx : ds4_context) (gpu : Z) (m : ds4_bound_matrix) : Prop := {
  pl_exact : exact_matrix m;
  pl_owner : tb_owning_gpu (binding m) = gpu;
  pl_span : 0 <= tb_shard_offset (binding m) /\
    tb_shard_offset (binding m) + tb_byte_length (binding m) <= UINT64_MAX /\
    tb_shard_offset (binding m) + tb_byte_length (binding m) <= arena_bytes (get_stage ctx gpu)
}.

Lemma placed_of (ctx : ds4_context) (gpu : Z) (m : ds4_bound_matrix) (b : ds4_tensor_binding) :
  binding_ok ctx b -> binding m = b -> exact_matrix m -> tb_owning_gpu (binding m) = gpu -> placed ctx gpu m.
Proof. intros [_ Hs] <- He <-. by split. Qed.

(** The facts about a state, in the order the code establishes them. *)
Record state_ok (ctx : ds4_context) (l : Z) (st : ds4_layer_state) : Prop := {
  so_layer : 0 <= l < 43 /\ ls_layer_id (ls_head st) = l /\
    ls_layer_class (ls_head st) = layer_class (get_layer ctx l) /\
    ls_kv_view (ls_head st) = kv_view (get_layer ctx l) /\
    ls_stage_id (ls_head st) = li_stage_id (get_layer ctx l) /\
    ls_owning_gpu (ls_head st) = sg_gpu (get_stage ctx (li_stage_id (get_layer ctx l)));
  so_tensors : Forall (fun p => bind_required (Some ctx) l p.1 = Ok (p.2 (ls_tensors st)) /\
                                binding_ok ctx (p.2 (ls_tensors st)) /\
                                tb_owning_gpu (p.2 (ls_tensors st)) = ls_owning_gpu (ls_head st)) layer_tensor_table;
  so_routed : bind_routed_expert_tensors (Some ctx) l = Ok (ls_routed st) /\
    Forall (fun b => tb_owning_gpu b = ls_owning_gpu (ls_head st))
      [routed_gate_binding (ls_routed st); routed_up_binding (ls_routed st); routed_down_binding (ls_routed st)];
  so_matrices : Forall (fun p => binding (p.1 (ls_matrices st)) = p.2 (ls_tensors st) /\
                                 placed ctx (ls_owning_gpu (ls_head st)) (p.1 (ls_matrices st))) layer_matrix_table /\
                Forall (fun p => cols (p.1 (ls_matrices st)) mod 128 = 0) (tl layer_matrix_table);
  so_router : validate_router_binding (router (ls_matrices st))
                (bind_optional (Some ctx) l "ffn_gate_tid2eid") (bind_optional (Some ctx) l "exp_probs_b") =
              Ok (ls_router st);
  so_widths : ls_widths st = layer_widths_of (ls_layer_class (ls_head st));
  so_compressor : bind_compressor (Some ctx) l (ls_owning_gpu (ls_head st)) (ls_widths st) = Ok (ls_compressor st);
  so_indexer : bind_indexer (Some ctx) l (ls_owning_gpu (ls_head st)) (ls_widths st) = Ok (ls_indexer st);
  so_dims : ls_dims st = dims_of (ls_routed st) (ls_matrices st);
  so_valid : validate_layer_dims (ls_owning_gpu (ls_head st)) (ls_dims st) (ls_widths st) (ls_tensors st)
               (ls_matrices st) (ls_compressor st) (ls_indexer st) (ls_routed st) = Ok tt
}.

(** The tables of the code cover the required tensors. *)
Lemma owned_split (gpu : Z) (r : routed_tensors) (t : layer_tensors) (m : layer_matrices) :
  Forall (fun bl => tb_owning_gpu bl.1 = gpu) (owned r t m) ->
  Forall (fun p => binding (p.1 m) = p.2 t /\ exact_matrix (p.1 m)) layer_matrix_table ->
  Forall (fun b => tb_owning_gpu b = gpu) [routed_gate_binding r; routed_up_binding r; routed_down_binding r] /\
  Forall (fun p => tb_owning_gpu (p.2 t) = gpu) layer_tensor_table /\
  Forall (fun p => tb_owning_gpu (binding (p.1 m)) = gpu) layer_matrix_table.
Proof.
  unfold owned, layer_matrix_table, layer_tensor_table. intros Ho Hm. table_in Ho. table_in Hm.
  split; [|split]; table_goal; repeat split; try assumption;
    match goal with H : binding _ = ?b |- tb_owning_gpu ?b = _ => rewrite <- H; assumption end.
Qed.

(** The tensors of the matrix table are among those of the tensor table. *)
Lemma matrix_binding_ok (P : ds4_tensor_binding -> Prop) (t : layer_tensors) :
  Forall (fun p => P (p.2 t)) layer_tensor_table -> Forall (fun p => P (p.2 t)) layer_matrix_table.
Proof. unfold layer_matrix_table, layer_tensor_table. intros Ho. table_in Ho. table_goal. repeat (split; [done|]). done. Qed.

Section Init.
Context `{Allocator} (fs : bytes -> file_env) (o : option ds4_context_options) (ctx : ds4_context).
Hypothesis Hopen : ds4_context_open fs o = Ok ctx.

Lemma bind_required_ok (l : Z) (suffix : string) (b : ds4_tensor_binding) :
  bind_required (Some ctx) l suffix = Ok b -> binding_ok ctx b.
Proof. intros [_ Hl]%bind_required_lookup. by eapply lookup_binding_ok. Qed.

Lemma layer_state_init_ok (l : Z) (st : ds4_layer_state) :
  ds4_layer_state_init (Some ctx) l = Ok st -> state_ok ctx l st.
Proof.
  unfold ds4_layer_state_init. intros Hr.
  destruct (ds4_context_layer (Some ctx) l) as [li|] eqn:El; [|done].
  destruct (ds4_context_stage (Some ctx) (li_stage_id li)) as [stage|] eqn:Es; [|done].
  unfold ds4_context_layer in El. destruct (_ || _) eqn:E1 in El; [done|]. bool_hyps. injection El as <-.
  unfold ds4_context_stage in Es. destruct (_ || _) eqn:E2 in Es; [done|]. bool_hyps. injection Es as <-.
  set (gpu := sg_gpu _) in Hr. cbv zeta in Hr.
  destruct (bind_routed_expert_tensors _ _) as [r|] eqn:Er; [|done].
  destruct (bind_layer_tensors _ _) as [t|] eqn:Et; [|done].
  destruct (make_layer_matrices _) as [m|] eqn:Em; [|done].
  destruct (validate_router_binding _ _ _) as [ri|] eqn:Eri; [|done].
  destruct (bind_compressor _ _ _ _) as [c|] eqn:Ec; [|done].
  destruct (bind_indexer _ _ _ _) as [i|] eqn:Ei; [|done].
  destruct (check_owners _ _) as [u1|] eqn:Eo; [|done].
  destruct (validate_layer_dims _ _ _ _ _ _ _ _) as [[]|] eqn:Ev; [|done]. injection Hr as <-.
  apply bind_layer_tensors_ok in Et. apply check_owners_ok in Eo.
  assert (Forall (fun p => binding_ok ctx (p.2 t)) layer_tensor_table) as Hok.
  { eapply Forall_impl; [exact Et|]. intros p Hp. exact (bind_required_ok _ _ _ Hp). }
  destruct (make_layer_matrices_ok ctx _ _ Hok Em) as [Hm Hmod].
  destruct (owned_split gpu r t m Eo Hm) as (O1 & O2 & O3).
  split; cbn [ls_head ls_layer_id ls_layer_class ls_kv_view ls_stage_id ls_owning_gpu ls_tensors ls_routed
    ls_matrices ls_router ls_widths ls_compressor ls_indexer ls_dims]; try done.
  - apply Forall_forall. intros p Hp. rewrite Forall_forall in Et, Hok, O2. auto.
  - split; [|done]. apply (matrix_binding_ok (binding_ok ctx) t) in Hok.
    rewrite Forall_forall in Hok, Hm, O3. apply Forall_forall. intros p Hp. destruct (Hm p Hp) as [Hb He].
    split; [done|]. eapply placed_of; [|exact Hb|done|by apply O3].
    by apply Hok.
Qed.
Lemma compressor_ok (l gpu : Z) (w : layer_widths) (c : attention_compressor) :
  bind_compressor (Some ctx) l gpu w = Ok (Some c) ->
  compress_ratio w <> 0 /\ placed ctx gpu (attn_compressor_ape c) /\ placed ctx gpu (attn_compressor_kv c) /\
  placed ctx gpu (attn_compressor_gate c) /\ tb_owning_gpu (attn_compressor_norm c) = gpu.
Proof.
  unfold bind_compressor. intros Hr. destruct (negb _) eqn:Ew; [|done]. bool_hyps. chain Hr. injection Hr as <-.
  repeat match goal with E : bind_required _ _ _ = Ok _ |- _ => apply bind_required_ok in E end.
  repeat match goal with
  | E : make_f32_matrix _ _ = Ok _ |- _ => apply (make_f32_exact ctx) in E as [? ?]; [|assumption]
  | E : make_bf16_matrix _ _ = Ok _ |- _ => apply (make_bf16_exact ctx) in E as [? ?]; [|assumption]
  | E : check_owners _ _ = Ok _ |- _ => apply check_owners_ok in E; table_in E
  end.
  split; [done|]. cbn. split; [|split; [|split]]; try done;
    (eapply placed_of; [|eassumption|eassumption|eassumption]; eassumption).
Qed.

Lemma indexer_ok (l gpu : Z) (w : layer_widths) (i : layer_indexer) :
  bind_indexer (Some ctx) l gpu w = Ok (Some i) ->
  compress_ratio w = 4 /\ placed ctx gpu (indexer_attn_q_b i) /\ placed ctx gpu (indexer_proj i) /\
  placed ctx gpu (indexer_compressor_ape i) /\ placed ctx gpu (indexer_compressor_kv i) /\
  placed ctx gpu (indexer_compressor_gate i) /\ tb_owning_gpu (indexer_compressor_norm i) = gpu.
Proof.
  unfold bind_indexer. intros Hr. destruct (_ =? _) eqn:Ew; [|done]. bool_hyps. chain Hr. injection Hr as <-.
  repeat match goal with E : bind_required _ _ _ = Ok _ |- _ => apply bind_required_ok in E end.
  repeat match goal with
  | E : make_f32_matrix _ _ = Ok _ |- _ => apply (make_f32_exact ctx) in E as [? ?]; [|assumption]
  | E : make_bf16_matrix _ _ = Ok _ |- _ => apply (make_bf16_exact ctx) in E as [? ?]; [|assumption]
  | E : make_f8_matrix _ _ = Ok _ |- _ => apply (make_f8_exact ctx) in E as (? & ? & ?); [|assumption]
  | E : check_owners _ _ = Ok _ |- _ => apply check_owners_ok in E; table_in E
  end.
  split; [done|]. cbn. split; [|split; [|split; [|split; [|split]]]]; try done;
    (eapply placed_of; [|eassumption|eassumption|eassumption]; eassumption).
Qed.


End Init.

(** ** Spans *)

(** Where the bytes of a matrix end in its arena. *)
Definition matrix_end (m : ds4_bound_matrix) : Z := tb_shard_offset (binding m) + rel m + mat_bytes m.

(** A matrix whose bytes lie within [0, limit). *)
Definition within (limit : Z) (m : ds4_bound_matrix) : Prop :=
  0 <= tb_shard_offset (binding m) + rel m /\ 0 < mat_bytes m /\ matrix_end m <= UINT64_MAX /\ matrix_end m <= limit.

Lemma placed_within (ctx : ds4_context) (gpu : Z) (m : ds4_bound_matrix) :
  placed ctx gpu m -> within (arena_bytes (get_stage ctx gpu)) m.
Proof.
  intros [[] ? ?]. unfold within, matrix_end. rewrite em_rel0, em_bytes0 in *.
  assert (0 < tb_byte_length (binding m)) by nia. lia.
Qed.

(** The span of a list of matrices. *)
Definition max_end (s : Z) (ms : list ds4_bound_matrix) : Z := foldl (fun s m => Z.max s (matrix_end m)) s ms.

Lemma grow_span_ok (limit : Z) (ms : list ds4_bound_matrix) : forall s,
  Forall (within limit) ms -> grow_span s ms = Some (max_end s ms).
Proof.
  induction ms as [|m ms IH]; intros s Hall; [done|]. apply Forall_cons in Hall as [(H1 & H2 & H3 & H4) Hall].
  unfold grow_span. simpl. unfold grow_span_for_matrix, ds4_bound_matrix_arena_offset, matrix_end in *.
  rewrite (u64_small (_ + rel m)) by (unfold is_u64; lia).
  destruct (Z.ltb_spec (UINT64_MAX - (tb_shard_offset (binding m) + rel m)) (mat_bytes m)); [lia|].
  rewrite u64_small by (unfold is_u64; lia).
  assert ((if s <? tb_shard_offset (binding m) + rel m + mat_bytes m
           then tb_shard_offset (binding m) + rel m + mat_bytes m else s) =
          Z.max s (tb_shard_offset (binding m) + rel m + mat_bytes m)) as ->.
  { destruct (Z.ltb_spec s (tb_shard_offset (binding m) + rel m + mat_bytes m)); lia. }
  by apply IH.
Qed.

Lemma max_end_app (s : Z) (l1 l2 : list ds4_bound_matrix) : max_end s (l1 ++ l2) = max_end (max_end s l1) l2.
Proof. unfold max_end. by rewrite foldl_app. Qed.

(** The span covers every matrix and is the end of one of them. *)
Lemma max_end_spec (s : Z) (ms : list ds4_bound_matrix) :
  s <= max_end s ms /\ (forall m, m ∈ ms -> matrix_end m <= max_end s ms) /\
  (max_end s ms = s \/ exists m, m ∈ ms /\ max_end s ms = matrix_end m).
Proof.
  revert s. induction ms as [|m ms IH]; intros s; simpl.
  - split; [lia|]. split; [by intros ? ?%elem_of_nil|by left].
  - destruct (IH (Z.max s (matrix_end m))) as (H1 & H2 & H3). split; [lia|]. split.
    + intros m' [-> |Hm]%elem_of_cons; [lia|by apply H2].
    + destruct H3 as [H3|(m' & Hm & H3)]; [|right; exists m'; split; [by right|done]].
      destruct (Z.max_spec s (matrix_end m)) as [[? E]|[? E]]; rewrite E in *; [right; exists m; split; [by left|done]|by left].
Qed.

Lemma max_end_limit (limit s : Z) (ms : list ds4_bound_matrix) :
  s <= limit -> Forall (within limit) ms -> max_end s ms <= limit.
Proof.
  intros Hs Hall. destruct (max_end_spec s ms) as (_ & _ & [-> |(m & Hm & ->)]); [done|].
  rewrite Forall_forall in Hall. apply (Hall m Hm).
Qed.

(** ** Dimensions *)

(** The checks of [validate_layer_dims] as facts. *)
Record dims_facts (gpu : Z) (d : layer_dims) (w : layer_widths) (t : layer_tensors) (m : layer_matrices)
    (c : option attention_compressor) (i : option layer_indexer) (r : routed_tensors) : Prop := {
  df_routed_3d : tb_n_shape_dims (routed_gate_binding r) = 3 /\ tb_n_shape_dims (routed_up_binding r) = 3 /\
    tb_n_shape_dims (routed_down_binding r) = 3;
  df_attention : attention_dims_ok d m = true;
  df_controls : attention_controls_ok d t = true;
  df_compressor : match c with Some c => compressor_dims_ok d w c = true | None => True end;
  df_indexer : match i with Some i => indexer_dims_ok d w i = true | None => True end;
  df_experts : shape_at (routed_up_binding r) 2 = routed_experts d /\
    shape_at (routed_down_binding r) 2 = routed_experts d;
  df_routed : routed_dims_ok d r = true;
  df_tp2 : validate_tp2 gpu d r = Ok tt;
  df_shared : shared_dims_ok d m = true
}.

Lemma validate_layer_dims_ok gpu d w t m c i r :
  validate_layer_dims gpu d w t m c i r = Ok tt -> dims_facts gpu d w t m c i r.
Proof.
  unfold validate_layer_dims. intros Hr.
  destruct (_ || _ || _) eqn:E1 in Hr; [done|]. destruct (negb (attention_dims_ok _ _)) eqn:E2 in Hr; [done|].
  destruct (negb (attention_controls_ok _ _)) eqn:E3 in Hr; [done|].
  destruct (match c with Some _ => _ | None => _ end) eqn:E4 in Hr; [done|].
  destruct (match i with Some _ => _ | None => _ end) eqn:E5 in Hr; [done|].
  destruct (_ || _) eqn:E6 in Hr; [done|]. destruct (negb (routed_dims_ok _ _)) eqn:E7 in Hr; [done|].
  destruct (validate_tp2 _ _ _) as [[]|] eqn:E8; [|done].
  destruct (negb (shared_dims_ok _ _)) eqn:E9 in Hr; [done|].
  destruct c, i; bool_hyps; by split.
Qed.

(** The row of an MXFP4 expert: whole blocks of 32 columns in 17 bytes. *)
Lemma mxfp4_row_bytes_blocks (c : Z) : 0 < c <= UINT32_MAX -> c mod 32 = 0 ->
  ds4_src_mxfp4_row_bytes c = c / 32 * 17 /\ 0 < c / 32.
Proof.
  intros Hc Hm. pose proof (Z.div_mod c 32 ltac:(lia)) as Hd. rewrite Hm in Hd.
  unfold ds4_src_mxfp4_row_bytes, packed_row_bytes, DS4_SRC_MXFP4_BLOCK_ELEMS, DS4_SRC_MXFP4_BLOCK_BYTES.
  rewrite Hm. destruct (Z.eqb_spec c 0); [lia|]. cbn [negb orb].
  assert (c / 32 <= UINT32_MAX) by (unfold UINT32_MAX in *; lia).
  destruct (Z.ltb_spec (UINT64_MAX / 17) (c / 32)) as [Hlt|_].
  - change (UINT64_MAX / 17) with 1085102592571150095 in Hlt. unfold UINT32_MAX in *. lia.
  - rewrite u64_small by (unfold is_u64, UINT64_MAX, UINT32_MAX in *; lia). split; [done|]. lia.
Qed.

(** An expert of a 3D MXFP4 tensor of known dimensions: plane [e] of equal
    planes that fill the tensor. *)
Lemma make_expert_ok (ctx : ds4_context) (b : ds4_tensor_binding) (c r n e : Z) (label : string) :
  binding_ok ctx b -> tb_n_shape_dims b = 3 -> dtype_is b "mxfp4" = true ->
  shape_at b 0 = c -> shape_at b 1 = r -> shape_at b 2 = n ->
  c <= UINT32_MAX -> r <= UINT32_MAX -> c mod 32 = 0 -> 0 <= e < n ->
  exists m, make_mxfp4_expert_matrix b e label = Ok m /\ binding m = b /\ rows m = r /\ cols m = c /\ planes m = u32 n /\
    0 < mat_bytes m /\ mat_bytes m = rows m * row_bytes m /\ rel m = e * mat_bytes m /\
    n * mat_bytes m = tb_byte_length b.
Proof.
  intros Hok H3 Hd S0 S1 S2 Hc Hr Hm He.
  destruct (binding_dims3 _ _ Hok H3) as (d0 & d1 & d2 & E0 & E1 & E2 & P0 & P1 & P2 & Hmax & Hb).
  rewrite S0 in E0. rewrite S1 in E1. rewrite S2 in E2. subst d0 d1 d2.
  rewrite (dtype_is_parse b "mxfp4") in Hb by done.
  change (ds4_source_dtype_parse (Some (B "mxfp4"))) with DS4_V100_SOURCE_MXFP4 in Hb.
  unfold dtype_bytes in Hb. destruct (negb (_ =? 0)) eqn:E1 in Hb; [done|].
  rewrite div_test in Hb by lia. destruct (Z.leb_spec (17 * (c * r * n)) UINT64_MAX) as [Hfit|]; [|done].
  cbn [negb] in Hb. rewrite u64_small in Hb by (unfold is_u64; lia). injection Hb as Hb.
  destruct (mxfp4_row_bytes_blocks c ltac:(lia) Hm) as [Hrb Hk]. set (k := c / 32) in *.
  pose proof (Z.div_mod c 32 ltac:(lia)) as Hdm. rewrite Hm, Z.add_0_r in Hdm. fold k in Hdm.
  assert (tb_byte_length b = n * (r * (k * 17))) as Hlen.
  { rewrite <- Hb, Hdm. replace (32 * k * r * n * 17) with (n * (r * (k * 17)) * 32) by ring. apply Z.div_mul. lia. }
  assert (0 < r * (k * 17)) as Hpos by nia.
  assert (n * (r * (k * 17)) <= UINT64_MAX) as Hfit2.
  { rewrite Hdm in Hfit. assert (17 * (32 * k * r * n) = 32 * (n * (r * (k * 17)))) by ring. nia. }
  unfold make_mxfp4_expert_matrix. rewrite H3, Hd, S0, S1, S2. cbn [negb orb].
  change (negb (3 =? 3)) with false. cbn [orb]. destruct (Z.leb_spec n e); [lia|].
  rewrite (u32_small c), (u32_small r) by (unfold is_u32; lia). rewrite Hrb.
  rewrite (u64_small (r * (k * 17))) by (unfold is_u64; nia).
  rewrite (u64_small (e * _)) by (unfold is_u64; nia). rewrite Hlen.
  set (p := r * (k * 17)) in *.
  destruct (Z.ltb_spec (n * p) (e * p)); [nia|]. destruct (Z.ltb_spec (n * p - e * p) p); [nia|]. cbn [orb].
  eexists. split; [reflexivity|]. cbn. done.
Qed.

(** The matrices the attention kernels read. *)
Definition attention_matrices (st : ds4_layer_state) : list ds4_bound_matrix :=
  let m := ls_matrices st in
  [attn_q_a m; attn_q_b m; attn_kv_latent m; attn_output_a m; attn_output_b m] ++
  match ls_compressor st with
  | Some c => [attn_compressor_ape c; attn_compressor_kv c; attn_compressor_gate c] | None => []
  end ++
  match ls_indexer st with
  | Some i => [indexer_attn_q_b i; indexer_proj i; indexer_compressor_ape i; indexer_compressor_kv i;
               indexer_compressor_gate i]
  | None => []
  end.

(** The matrices every FFN reads. *)
Definition fixed_ffn_matrices (st : ds4_layer_state) : list ds4_bound_matrix :=
  let m := ls_matrices st in [router m; shared_gate m; shared_up m; shared_down m].

Definition arena_limit (ctx : ds4_context) (st : ds4_layer_state) : Z :=
  arena_bytes (get_stage ctx (ls_owning_gpu (ls_head st))).

Lemma state_matrices_within (ctx : ds4_context) (l : Z) (st : ds4_layer_state) :
  state_ok ctx l st ->
  Forall (fun p => within (arena_limit ctx st) (p.1 (ls_matrices st))) layer_matrix_table.
Proof.
  intros [? ? ? [Hm _] ? ? ? ? ? ?]. eapply Forall_impl; [exact Hm|]. intros p [_ Hp]. by apply placed_within.
Qed.

Lemma attention_within `{Allocator} fs o (ctx : ds4_context) (l : Z) (st : ds4_layer_state) :
  ds4_context_open fs o = Ok ctx -> state_ok ctx l st ->
  Forall (within (arena_limit ctx st)) (attention_matrices st).
Proof.
  intros Hopen Hst. pose proof (state_matrices_within _ _ _ Hst) as Hm. table_in Hm.
  destruct Hst as [? ? ? ? ? ? Hc Hi ? ?]. unfold attention_matrices.
  rewrite !Forall_app. split; [table_goal; repeat (split; [assumption|]); done|]. split.
  - destruct (ls_compressor st) as [c|]; [|constructor].
    destruct (compressor_ok fs o ctx Hopen _ _ _ _ Hc) as (_ & ? & ? & ? & _).
    table_goal. repeat (split; [by apply placed_within|]). done.
  - destruct (ls_indexer st) as [i|]; [|constructor].
    destruct (indexer_ok fs o ctx Hopen _ _ _ _ Hi) as (_ & ? & ? & ? & ? & ? & _).
    table_goal. repeat (split; [by apply placed_within|]). done.
Qed.

Lemma fixed_ffn_within (ctx : ds4_context) (l : Z) (st : ds4_layer_state) :
  state_ok ctx l st -> Forall (within (arena_limit ctx st)) (fixed_ffn_matrices st).
Proof.
  intros Hst. pose proof (state_matrices_within _ _ _ Hst) as Hm. table_in Hm.
  unfold fixed_ffn_matrices. table_goal. repeat (split; [assumption|]). done.
Qed.

(** The dimensions of the routed experts of a layer on source tensors. *)
Record source_routed (ctx : ds4_context) (st : ds4_layer_state) : Prop := {
  sr_hidden : 0 < hidden_size (ls_dims st) <= UINT32_MAX /\ hidden_size (ls_dims st) mod 32 = 0;
  sr_mid : 0 < intermediate_size (ls_dims st) <= UINT32_MAX /\ intermediate_size (ls_dims st) mod 32 = 0;
  sr_experts : 0 < routed_experts (ls_dims st) <= UINT32_MAX;
  sr_bindings : Forall (fun b => binding_ok ctx b /\ tb_n_shape_dims b = 3 /\
      tb_owning_gpu b = ls_owning_gpu (ls_head st) /\ routed_experts (ls_dims st) <= shape_at b 2)
    [routed_gate_binding (ls_routed st); routed_up_binding (ls_routed st); routed_down_binding (ls_routed st)]
}.

Lemma mod_128_32 (c : Z) : c mod 128 = 0 -> c mod 32 = 0.
Proof.
  intros Hm. pose proof (Z.div_mod c 128 ltac:(lia)) as Hd. rewrite Hm, Z.add_0_r in Hd. rewrite Hd.
  replace (128 * (c / 128)) with (c / 128 * 4 * 32) by ring. by apply Z.mod_mul.
Qed.

Lemma source_bindings_ok `{Allocator} fs o (ctx : ds4_context) (l : Z) (r : routed_tensors) :
  ds4_context_open fs o = Ok ctx -> bind_routed_expert_tensors (Some ctx) l = Ok r ->
  has_turbomind_routed r = false ->
  Forall (binding_ok ctx) [routed_gate_binding r; routed_up_binding r; routed_down_binding r].
Proof.
  intros Hopen Hr Htm. unfold bind_routed_expert_tensors in Hr.
  set (g := tm_lookup _ _ "ffn_gate_exps.weight") in *. set (u := tm_lookup _ _ "ffn_up_exps.weight") in *.
  set (gu := tm_lookup _ _ "ffn_gate_up_exps.weight") in *. set (d := tm_lookup _ _ "ffn_down_exps.weight") in *.
  destruct (_ && _) in Hr; [done|].
  assert (bind_source_routed (Some ctx) l g u gu d = Ok r) as Hs.
  { destruct d as [db|]; [|done]. destruct (found g && found u || found gu); [|done].
    destruct (negb _) in Hr; [done|]. unfold bind_turbomind_routed in Hr.
    repeat match type of Hr with match ?x with Ok _ => _ | Error _ => _ end = _ => destruct x; [|done] end.
    by injection Hr as <-. }
  unfold bind_source_routed in Hs. chain Hs. injection Hs as <-. cbn.
  repeat match goal with E : bind_required _ _ _ = Ok _ |- _ => apply (bind_required_ok fs o ctx Hopen) in E end.
  table_goal. repeat (split; [assumption|]). done.
Qed.

Lemma source_routed_ok `{Allocator} fs o (ctx : ds4_context) (l : Z) (st : ds4_layer_state) :
  ds4_context_open fs o = Ok ctx -> state_ok ctx l st -> has_turbomind_routed (ls_routed st) = false ->
  source_routed ctx st.
Proof.
  intros Hopen Hst Htm. destruct Hst as [_ _ [Hr Hown] [Hm Hmod] _ _ _ _ Hd Hv].
  apply validate_layer_dims_ok in Hv as [D1 D2 _ _ _ [D6 D6'] _ _ D9].
  pose proof (source_bindings_ok fs o ctx l _ Hopen Hr Htm) as Hb.
  table_in Hm. table_in Hmod. table_in Hb. table_in Hown.
  repeat match goal with H : placed _ _ _ |- _ => apply pl_exact, em_pos in H as (? & ? & _) end.
  unfold attention_dims_ok in D2. unfold shared_dims_ok in D9. bool_hyps.
  destruct D1 as (N1 & N2 & N3).
  destruct (binding_dims3 ctx (routed_up_binding (ls_routed st))) as (_ & _ & d2 & _ & _ & E2 & _ & _ & P2 & _);
    [assumption..|].
  destruct (binding_dims3 ctx (routed_gate_binding (ls_routed st))) as (_ & _ & e2 & _ & _ & G2 & _ & _ & Q2 & _);
    [assumption..|].
  assert (routed_experts (ls_dims st) = u32 (shape_at (routed_gate_binding (ls_routed st)) 2)) as He by (by rewrite Hd).
  assert (hidden_size (ls_dims st) = cols (router (ls_matrices st))) as Hh by (by rewrite Hd).
  assert (intermediate_size (ls_dims st) = rows (shared_gate (ls_matrices st))) as Hi by (by rewrite Hd).
  pose proof (u32_le e2 ltac:(lia)). pose proof (u32_range e2) as [_ ?].
  split.
  - split; [congruence|]. apply mod_128_32. congruence.
  - split; [congruence|]. apply mod_128_32. congruence.
  - rewrite He, G2. split; [|done]. rewrite <- G2, <- He, <- D6, E2. done.
  - table_goal. repeat match goal with |- _ /\ _ => split end; try assumption; try done; first [lia|rewrite He, G2; lia].
Qed.

(** Expert [e] of one routed tensor of a source-bound layer. *)
Definition expert_plane (b : ds4_tensor_binding) (e r c : Z) (m : ds4_bound_matrix) : Prop :=
  binding m = b /\ rows m = r /\ cols m = c /\ 0 < mat_bytes m /\ rel m = e * mat_bytes m /\
  shape_at b 2 * mat_bytes m = tb_byte_length b.

Lemma expert_within (ctx : ds4_context) (gpu : Z) (b : ds4_tensor_binding) (e r c : Z) (m : ds4_bound_matrix) :
  binding_ok ctx b -> tb_owning_gpu b = gpu -> expert_plane b e r c m -> 0 <= e < shape_at b 2 ->
  within (arena_bytes (get_stage ctx gpu)) m.
Proof.
  intros [_ (S1 & S2 & S3)] <- (<- & _ & _ & Hp & Hr & Ht) He. unfold within, matrix_end. rewrite Hr.
  assert (0 <= e * mat_bytes m) by nia.
  assert (e * mat_bytes m + mat_bytes m <= tb_byte_length (binding m)) by (rewrite <- Ht; nia). lia.
Qed.

Lemma route_matrices_ok (ctx : ds4_context) (st : ds4_layer_state) (e : Z) :
  let r := ls_routed st in let d := ls_dims st in
  source_routed ctx st -> has_turbomind_routed r = false -> routed_dims_ok d r = true ->
  0 <= e < routed_experts d ->
  Forall (fun b => dtype_is b "mxfp4" = true) [routed_gate_binding r; routed_up_binding r; routed_down_binding r] ->
  exists g u dn, ds4_layer_state_route_matrices st e = Ok (RouteMatrices g u dn) /\
    expert_plane (routed_gate_binding r) e (intermediate_size d) (hidden_size d) g /\
    expert_plane (routed_up_binding r) e (intermediate_size d) (hidden_size d) u /\
    expert_plane (routed_down_binding r) e (hidden_size d) (intermediate_size d) dn.
Proof.
  intros r d [Hh Hi He Hb] Htm Hdims Hr Hty. table_in Hb. table_in Hty.
  unfold routed_dims_ok in Hdims. bool_hyps. cbv zeta in *. subst r d.
  destruct (make_expert_ok ctx (routed_gate_binding (ls_routed st)) (hidden_size (ls_dims st)) (intermediate_size (ls_dims st)) _ e
    "ffn_gate_exps.weight" ltac:(assumption) ltac:(assumption) ltac:(assumption) ltac:(assumption) ltac:(assumption)
    eq_refl ltac:(lia) ltac:(lia) ltac:(tauto) ltac:(lia)) as (g & G1 & G2 & G3 & G4 & _ & G5 & _ & G6 & G7).
  destruct (make_expert_ok ctx (routed_up_binding (ls_routed st)) (hidden_size (ls_dims st)) (intermediate_size (ls_dims st)) _ e
    "ffn_up_exps.weight" ltac:(assumption) ltac:(assumption) ltac:(assumption) ltac:(assumption) ltac:(assumption)
    eq_refl ltac:(lia) ltac:(lia) ltac:(tauto) ltac:(lia)) as (u & U1 & U2 & U3 & U4 & _ & U5 & _ & U6 & U7).
  destruct (make_expert_ok ctx (routed_down_binding (ls_routed st)) (intermediate_size (ls_dims st)) (hidden_size (ls_dims st)) _ e
    "ffn_down_exps.weight" ltac:(assumption) ltac:(assumption) ltac:(assumption) ltac:(assumption) ltac:(assumption)
    eq_refl ltac:(lia) ltac:(lia) ltac:(tauto) ltac:(lia)) as (n & D1 & D2 & D3 & D4 & _ & D5 & _ & D6 & D7).
  exists g, u, n. unfold ds4_layer_state_route_matrices. rewrite Htm.
  destruct (Z.leb_spec (routed_experts (ls_dims st)) e); [lia|]. rewrite G1, U1, D1. done.
Qed.

Lemma within_offset (limit : Z) (m : ds4_bound_matrix) :
  within limit m -> 0 <= ds4_bound_matrix_arena_offset m /\ ds4_bound_matrix_arena_offset m + mat_bytes m <= limit.
Proof.
  intros (? & ? & ? & ?). unfold ds4_bound_matrix_arena_offset, matrix_end in *.
  rewrite u64_small by (unfold is_u64; lia). lia.
Qed.




Lemma attention_rel `{Allocator} fs o (ctx : ds4_context) (l : Z) (st : ds4_layer_state) :
  ds4_context_open fs o = Ok ctx -> state_ok ctx l st -> forall m, m ∈ attention_matrices st -> rel m = 0.
Proof.
  intros Hopen [? ? ? [Hm _] ? ? Hc Hi ? ?]. apply Forall_forall. unfold attention_matrices. table_in Hm.
  rewrite !Forall_app. split; [|split].
  - table_goal. repeat (split; [by apply em_rel, pl_exact with ctx (ls_owning_gpu (ls_head st))|]). done.
  - destruct (ls_compressor st) as [c|]; [|constructor].
    destruct (compressor_ok fs o ctx Hopen _ _ _ _ Hc) as (_ & ? & ? & ? & _).
    table_goal. repeat (split; [by apply em_rel, pl_exact with ctx (ls_owning_gpu (ls_head st))|]). done.
  - destruct (ls_indexer st) as [i|]; [|constructor].
    destruct (indexer_ok fs o ctx Hopen _ _ _ _ Hi) as (_ & ? & ? & ? & ? & ? & _).
    table_goal. repeat (split; [by apply em_rel, pl_exact with ctx (ls_owning_gpu (ls_head st))|]). done.
Qed.

(** ** TurboMind spans *)

(** A view whose runs end within 64 bits. *)
Definition view_fits (v : ds4_gpu_turbomind_mxfp4_matrix_view) : Prop :=
  0 <= tv_weight_offset v /\ 0 <= tv_scale_offset v /\
  tv_weight_offset v + u64 (tv_experts_packed v * tv_weight_bytes_per_expert v) <= UINT64_MAX /\
  tv_scale_offset v + u64 (tv_experts_packed v * tv_scale_bytes_per_expert v) <= UINT64_MAX.

(** The end of the two runs of a view. *)
Definition view_end (v : ds4_gpu_turbomind_mxfp4_matrix_view) : Z :=
  Z.max (tv_weight_offset v + u64 (tv_experts_packed v * tv_weight_bytes_per_expert v))
        (tv_scale_offset v + u64 (tv_experts_packed v * tv_scale_bytes_per_expert v)).

Lemma view_zero_fits : view_fits tm_view_zero.
Proof. by vm_compute. Qed.

Lemma grow_view_ok (s : Z) (v : ds4_gpu_turbomind_mxfp4_matrix_view) :
  view_fits v -> grow_span_for_turbomind_view s v = Some (Z.max s (view_end v)).
Proof.
  intros (H1 & H2 & H3 & H4). unfold grow_span_for_turbomind_view, view_end.
  set (a := u64 (tv_experts_packed v * tv_weight_bytes_per_expert v)) in *.
  set (b := u64 (tv_experts_packed v * tv_scale_bytes_per_expert v)) in *.
  assert (0 <= a) by apply u64_range. assert (0 <= b) by apply u64_range.
  rewrite !u64_small by (unfold is_u64; lia).
  destruct (Z.ltb_spec (tv_weight_offset v + a) (tv_weight_offset v)); [lia|].
  destruct (Z.ltb_spec (tv_scale_offset v + b) (tv_scale_offset v)); [lia|]. cbn [orb]. f_equal.
  destruct (Z.ltb_spec s (tv_weight_offset v + a)).
  - destruct (Z.ltb_spec (tv_weight_offset v + a) (tv_scale_offset v + b)); lia.
  - destruct (Z.ltb_spec s (tv_scale_offset v + b)); lia.
Qed.

Lemma tm_lookup_fits `{Allocator} fs o (ctx : ds4_context) (l : Z) (suffix : string) (b : ds4_turbomind_binding) :
  ds4_context_open fs o = Ok ctx -> tm_lookup (Some ctx) l suffix = Some b -> view_fits (tm_gpu_view b).
Proof.
  intros Hopen Hl. destruct (context_open_inv fs o ctx Hopen) as (_ & [_ _ Ht] & _).
  unfold tm_lookup, ds4_context_require_layer_turbomind_binding, ds4_context_lookup_turbomind_binding in Hl.
  destruct (_ || _) in Hl; [done|]. destruct (B suffix) as [|c s]; [done|]. destruct (192 <=? _) in Hl; [done|].
  destruct (layer_tensor_id l (c :: s)) as [|c1 id]; [done|].
  destruct (find_tm_desc ctx (c1 :: id)) as [d|] eqn:Hf; [|done].
  unfold find_tm_desc in Hf. apply fmap_Some in Hf as ([j d0] & Hf & ->). simpl in Hl.
  apply find_key_some in Hf as (Hin & _). rename d0 into d.
  assert (TM.entry_wf (tmd_entry d)) as W.
  { destruct (turbomind_pack_index_path (opts ctx)) as [[|c0 path]|].
    - rewrite Ht in Hin. by apply elem_of_nil in Hin.
    - destruct Ht as (p & Hpo & _ & He). destruct (TM.tm_open_wf _ _ _ Hpo) as [[Hw _] _].
      rewrite Forall_forall in Hw. apply Hw. rewrite <- He. by apply list_elem_of_fmap_2.
    - rewrite Ht in Hin. by apply elem_of_nil in Hin. }
  unfold fill_tm_binding in Hl. destruct (parse_shape_dims _ _) as [[dims el]|]; [|done].
  cbn -[shape_array] in Hl. injection Hl as <-. unfold view_fits. cbn -[u64]. unfold TM.entry_wf, TM.weight_run, TM.scale_run, is_u64 in W.
  destruct_and? W. by repeat split.
Qed.

Lemma routed_views_fit `{Allocator} fs o (ctx : ds4_context) (l : Z) (r : routed_tensors) :
  ds4_context_open fs o = Ok ctx -> bind_routed_expert_tensors (Some ctx) l = Ok r ->
  view_fits (turbomind_gate_view r) /\ view_fits (turbomind_up_view r) /\
  view_fits (turbomind_gate_up_view r) /\ view_fits (turbomind_down_view r).
Proof.
  intros Hopen Hr. pose proof (fun s b => tm_lookup_fits fs o ctx l s b Hopen) as Hfit.
  assert (forall s, view_fits (view_of (tm_lookup (Some ctx) l s))) as Hv.
  { intros s. pose proof (Hfit s) as Hs. destruct (tm_lookup (Some ctx) l s) as [b|]; [by apply Hs|apply view_zero_fits]. }
  unfold bind_routed_expert_tensors in Hr. pose proof (Hfit "ffn_down_exps.weight"%string) as Hd.
  pose proof (Hv "ffn_gate_exps.weight"%string) as Vg. pose proof (Hv "ffn_up_exps.weight"%string) as Vu.
  pose proof (Hv "ffn_gate_up_exps.weight"%string) as Vgu.
  set (g := tm_lookup _ _ "ffn_gate_exps.weight") in *. set (u := tm_lookup _ _ "ffn_up_exps.weight") in *.
  set (gu := tm_lookup _ _ "ffn_gate_up_exps.weight") in *. set (d := tm_lookup _ _ "ffn_down_exps.weight") in *.
  clearbody g u gu d. clear Hfit Hv.
  destruct (_ && _) in Hr; [done|]. pose proof view_zero_fits as Hz.
  assert (bind_source_routed (Some ctx) l g u gu d = Ok r ->
    view_fits (turbomind_gate_view r) /\ view_fits (turbomind_up_view r) /\
    view_fits (turbomind_gate_up_view r) /\ view_fits (turbomind_down_view r)) as Hsrc.
  { unfold bind_source_routed. intros Hs. chain Hs. by injection Hs as <-. }
  destruct d as [db|]; [|by apply Hsrc]. destruct (found g && found u || found gu); [|by apply Hsrc].
  destruct (negb _) in Hr; [done|]. unfold bind_turbomind_routed in Hr. cbv zeta in Hr.
  repeat match type of Hr with match ?x with Ok _ => _ | Error _ => _ end = _ => destruct x; [|done] end.
  injection Hr as <-. cbn [turbomind_gate_view turbomind_up_view turbomind_gate_up_view turbomind_down_view].
  split; [|split; [|split; [done|by apply Hd]]]; by case_match.
Qed.

(** ** Selected experts *)

Definition in_range (st : ds4_layer_state) (e : Z) : Prop := 0 <= e < routed_experts (ls_dims st).

Lemma check_selected_iff (st : ds4_layer_state) (e : Z) : is_int e ->
  is_ok (check_selected st e) = true <-> in_range st e.
Proof.
  intros He. unfold check_selected, in_range. destruct (Z.ltb_spec e 0); [cbn; split; [done|lia]|].
  rewrite u32_small by zlia. cbn [orb]. destruct (Z.leb_spec (routed_experts (ls_dims st)) e); cbn; split; try done; lia.
Qed.

(** The array is read element by element. *)
Lemma selected_all (l : list Z) : selected (Some l) (Z.of_nat (length l)) = map Some l.
Proof.
  unfold selected. apply list_eq. intros i. rewrite !list_lookup_fmap. unfold upto. rewrite Nat2Z.id.
  destruct (decide (i < length l)%nat) as [Hi|Hi].
  - rewrite list_lookup_fmap, lookup_seq_lt by done. simpl.
    destruct (lookup_lt_is_Some_2 l i Hi) as [x Hx]. by rewrite Nat2Z.id, Hx.
  - rewrite list_lookup_fmap, lookup_seq_ge by lia. by rewrite (lookup_ge_None_2 l i) by lia.
Qed.

(** The three matrices of a selected expert. *)
Definition route_list (st : ds4_layer_state) (e : Z) : list ds4_bound_matrix :=
  match ds4_layer_state_route_matrices st e with Ok r => [rm_gate r; rm_up r; rm_down r] | Error _ => [] end.

Lemma route_spans (st : ds4_layer_state) (limit : Z) (l : list Z) : forall s,
  Forall (fun e => is_int e /\ in_range st e) l ->
  (forall e, in_range st e -> is_ok (ds4_layer_state_route_matrices st e) = true /\ Forall (within limit) (route_list st e)) ->
  rfold (route_arena_span st) s (map Some l) = Ok (max_end s (flat_map (route_list st) l)).
Proof.
  induction l as [|e l IH]; intros s Hl Hr; [done|]. apply Forall_cons in Hl as [[He1 He2] Hl].
  cbn [map rfold route_arena_span flat_map]. rewrite max_end_app.
  destruct (Hr e He2) as [Hok Hw]. pose proof (proj2 (check_selected_iff st e He1) He2) as Hc.
  destruct (check_selected st e); [|done].
  rewrite u32_small by (unfold in_range in He2; zlia). unfold route_list in Hw.
  destruct (ds4_layer_state_route_matrices st e) as [r|] eqn:Er; [|done].
  rewrite (grow_span_ok limit _ s Hw). rewrite IH by done. do 2 f_equal. unfold route_list. by rewrite Er.
Qed.

(** An expert out of range stops either loop. *)
Lemma rfold_stops {A S E} (f : S -> A -> result S E) (a : A) (l : list A) : forall s,
  a ∈ l -> (forall s, is_ok (f s a) = false) -> is_ok (rfold f s l) = false.
Proof.
  induction l as [|b l IH]; intros s Hin Hf; [by apply elem_of_nil in Hin|]. simpl.
  apply elem_of_cons in Hin as [<-|Hin].
  - specialize (Hf s). by destruct (f s a).
  - destruct (f s b); [by apply IH|done].
Qed.

Lemma selected_ok (st : ds4_layer_state) (l : list Z) : Forall (fun e => is_int e /\ in_range st e) l ->
  rfold (fun _ e => match e with None => fail "missing selected experts" [] | Some e => check_selected st e end)
    tt (map Some l) = Ok tt.
Proof.
  induction l as [|e l IH]; intros Hl; [done|]. apply Forall_cons in Hl as [[He1 He2] Hl]. cbn [map rfold].
  apply check_selected_iff in He2; [|exact He1]. destruct (check_selected st e) as [[]|]; [by apply IH|done].
Qed.

(** The views a TurboMind layer reads. *)
Definition used_views (r : routed_tensors) : list ds4_gpu_turbomind_mxfp4_matrix_view :=
  (if has_turbomind_fused_gate_up r then [turbomind_gate_up_view r] else []) ++
  (if negb (tv_experts_packed (turbomind_gate_view r) =? 0) || negb (tv_experts_packed (turbomind_up_view r) =? 0)
   then [turbomind_gate_view r; turbomind_up_view r] else []) ++
  [turbomind_down_view r].

Lemma turbomind_span_ok (st : ds4_layer_state) (l : list Z) (s : Z) :
  let r := ls_routed st in
  view_fits (turbomind_gate_view r) -> view_fits (turbomind_up_view r) ->
  view_fits (turbomind_gate_up_view r) -> view_fits (turbomind_down_view r) ->
  Forall (fun e => is_int e /\ in_range st e) l ->
  turbomind_arena_span st (map Some l) s = Ok (foldl (fun s v => Z.max s (view_end v)) s (used_views r)).
Proof.
  intros r Vg Vu Vgu Vd Hl. unfold turbomind_arena_span. rewrite (selected_ok st l Hl). fold r.
  unfold used_views. rewrite !foldl_app. cbv zeta.
  destruct (has_turbomind_fused_gate_up r); rewrite ?(grow_view_ok _ _ Vgu);
    (destruct (_ || _); cbn [ofold]; rewrite ?(grow_view_ok _ _ Vg), ?(grow_view_ok _ _ Vu), (grow_view_ok _ _ Vd); done).
Qed.

Lemma expert_routes `{Allocator} fs o (ctx : ds4_context) (l e : Z) (st : ds4_layer_state) :
  let r := ls_routed st in
  ds4_context_open fs o = Ok ctx -> state_ok ctx l st -> in_range st e -> has_turbomind_routed r = false ->
  Forall (fun b => dtype_is b "mxfp4" = true) [routed_gate_binding r; routed_up_binding r; routed_down_binding r] ->
  is_ok (ds4_layer_state_route_matrices st e) = true /\ length (route_list st e) = 3%nat /\
  Forall (within (arena_limit ctx st)) (route_list st e).
Proof.
  intros r Hopen Hst He Htm Hty. pose proof (source_routed_ok fs o ctx l st Hopen Hst Htm) as Hsr.
  destruct Hst as [_ _ _ _ _ _ _ _ _ Hv]. apply validate_layer_dims_ok in Hv as [_ _ _ _ _ _ D7 _ _].
  destruct (route_matrices_ok ctx st e Hsr Htm D7 ltac:(done) Hty) as (g & u & dn & R & G & U & D).
  unfold route_list. rewrite R. split; [done|]. split; [done|]. destruct Hsr as [_ _ _ Hb]. table_in Hb.
  unfold in_range in He. cbn [rm_gate rm_up rm_down]. unfold arena_limit.
  table_goal. split; [|split; [|split; [|done]]];
    (eapply expert_within; [| |eassumption|]; [assumption|assumption|lia]).
Qed.

(** ** Properties *)










(** The attention span of an initialised layer is computed without overflow;
    it covers every attention matrix of the layer, is the end of one of them,
    and does not exceed the arena of the layer's GPU. *)
Theorem ds4_layer_state_attention_arena_span_spec `{Allocator} (fs : bytes -> file_env)
    (o : option ds4_context_options) (ctx : ds4_context) (l : Z) (st : ds4_layer_state) :
  ds4_context_open fs o = Ok ctx -> ds4_layer_state_init (Some ctx) l = Ok st ->
  exists span, ds4_layer_state_attention_arena_span st = Ok span /\
    span <= arena_bytes (get_stage ctx (ls_owning_gpu (ls_head st))) /\
    (forall m, m ∈ attention_matrices st ->
       ds4_bound_matrix_arena_offset m = tb_shard_offset (binding m) /\ matrix_end m <= span) /\
    (exists m, m ∈ attention_matrices st /\ span = matrix_end m).
Proof.
  intros Hopen Hinit. pose proof (layer_state_init_ok fs o ctx Hopen l st Hinit) as Hst.
  pose proof (attention_within fs o ctx l st Hopen Hst) as Hw.
  exists (max_end 0 (attention_matrices st)). split; [|split; [|split]].
  - unfold ds4_layer_state_attention_arena_span. pose proof Hw as Hw2.
    unfold attention_matrices in Hw2 |- *. rewrite !Forall_app in Hw2. destruct Hw2 as (W1 & W2 & W3).
    rewrite !max_end_app. rewrite (grow_span_ok _ _ 0 W1).
    destruct (ls_compressor st); rewrite ?(grow_span_ok _ _ _ W2);
      destruct (ls_indexer st); rewrite ?(grow_span_ok _ _ _ W3); done.
  - apply max_end_limit; [|done]. apply Forall_inv in Hw as (? & ? & ? & ?). unfold arena_limit, matrix_end in *. lia.
  - intros m Hm. split; [|by apply max_end_spec].
    pose proof (attention_rel fs o ctx l st Hopen Hst m Hm) as Hrel.
    rewrite Forall_forall in Hw. destruct (Hw m Hm) as (? & ? & ? & _).
    unfold ds4_bound_matrix_arena_offset, matrix_end in *. rewrite Hrel in *.
    rewrite u64_small by (unfold is_u64; lia). lia.
  - destruct (max_end_spec 0 (attention_matrices st)) as (_ & H2 & [H3|H3]); [exfalso|done].
    assert (attn_q_a (ls_matrices st) ∈ attention_matrices st) as Hin by (by left).
    rewrite Forall_forall in Hw. destruct (Hw _ Hin) as (? & ? & _). specialize (H2 _ Hin).
    unfold matrix_end in *. lia.
Qed.

(** Expert matrices of a layer bound to source tensors.  For an expert in
    range, when the three routed tensors are MXFP4 (which initialisation does
    not check), [ds4_layer_state_route_matrices] returns plane [e] of each
    tensor: the planes have equal sizes, follow each other and fill the
    tensor, and the plane of every expert lies in the arena of the layer's
    GPU.  Any other expert is refused, and so is every expert of a layer bound
    to TurboMind sidecars. *)
Theorem ds4_layer_state_route_matrices_spec `{Allocator} (fs : bytes -> file_env)
    (o : option ds4_context_options) (ctx : ds4_context) (l e : Z) (st : ds4_layer_state) :
  ds4_context_open fs o = Ok ctx -> ds4_layer_state_init (Some ctx) l = Ok st -> 0 <= e ->
  let r := ls_routed st in let d := ls_dims st in
  let routed := [routed_gate_binding r; routed_up_binding r; routed_down_binding r] in
  (has_turbomind_routed r = false -> e < routed_experts d -> Forall (fun b => dtype_is b "mxfp4" = true) routed ->
   exists g u dn, ds4_layer_state_route_matrices st e = Ok (RouteMatrices g u dn) /\
     expert_plane (routed_gate_binding r) e (intermediate_size d) (hidden_size d) g /\
     expert_plane (routed_up_binding r) e (intermediate_size d) (hidden_size d) u /\
     expert_plane (routed_down_binding r) e (hidden_size d) (intermediate_size d) dn /\
     Forall (fun m => 0 <= ds4_bound_matrix_arena_offset m /\
                      ds4_bound_matrix_arena_offset m + mat_bytes m <=
                        arena_bytes (get_stage ctx (ls_owning_gpu (ls_head st)))) [g; u; dn]) /\
  (has_turbomind_routed r = true \/ routed_experts d <= e -> is_ok (ds4_layer_state_route_matrices st e) = false).
Proof.
  intros Hopen Hinit He r d routed. pose proof (layer_state_init_ok fs o ctx Hopen l st Hinit) as Hst. split.
  - intros Htm Hlt Hty. pose proof (source_routed_ok fs o ctx l st Hopen Hst Htm) as Hsr.
    destruct Hst as [_ _ _ _ _ _ _ _ _ Hv]. apply validate_layer_dims_ok in Hv as [_ _ _ _ _ _ D7 _ _].
    destruct (route_matrices_ok ctx st e Hsr Htm D7 ltac:(done) Hty) as (g & u & dn & R & G & U & D).
    exists g, u, dn. do 4 (split; [done|]). destruct Hsr as [_ _ _ Hb]. table_in Hb.
    table_goal. split; [|split; [|split; [|done]]]; apply within_offset;
      (eapply expert_within; [| |eassumption|]; [assumption|assumption|unfold d in *; lia]).
  - intros Hbad. unfold ds4_layer_state_route_matrices. fold r d. destruct (has_turbomind_routed r); [done|].
    destruct Hbad as [?|?]; [done|]. destruct (Z.leb_spec (routed_experts d) e); [done|lia].
Qed.

(** The FFN span of an initialised layer for a list of selected experts.
    When every expert is in range the span is computed without overflow: it is
    the largest end among the router, the shared expert and, for a layer on
    source MXFP4 tensors, the planes of the selected experts - within the
    arena of the layer's GPU - or, for a TurboMind layer, the sidecar views.
    A list with an expert out of range is refused. *)
Theorem ds4_layer_state_ffn_arena_span_spec `{Allocator} (fs : bytes -> file_env)
    (o : option ds4_context_options) (ctx : ds4_context) (l : Z) (st : ds4_layer_state) (experts : list Z) :
  ds4_context_open fs o = Ok ctx -> ds4_layer_state_init (Some ctx) l = Ok st -> Forall is_int experts ->
  let r := ls_routed st in
  let fixed := [router (ls_matrices st); shared_gate (ls_matrices st); shared_up (ls_matrices st);
                shared_down (ls_matrices st)] in
  let run := ds4_layer_state_ffn_arena_span st (Some experts) (Z.of_nat (length experts)) in
  (Forall (in_range st) experts -> has_turbomind_routed r = false ->
   Forall (fun b => dtype_is b "mxfp4" = true) [routed_gate_binding r; routed_up_binding r; routed_down_binding r] ->
   let ms := fixed ++ flat_map (route_list st) experts in
   length ms = (4 + 3 * length experts)%nat /\ run = Ok (max_end 0 ms) /\
   max_end 0 ms <= arena_bytes (get_stage ctx (ls_owning_gpu (ls_head st)))) /\
  (Forall (in_range st) experts -> has_turbomind_routed r = true ->
   run = Ok (foldl (fun s v => Z.max s (view_end v)) (max_end 0 fixed) (used_views r))) /\
  (Exists (fun e => ~ in_range st e) experts -> is_ok run = false).
Proof.
  intros Hopen Hinit Hint r fixed run.
  pose proof (layer_state_init_ok fs o ctx Hopen l st Hinit) as Hst.
  pose proof (fixed_ffn_within ctx l st Hst) as Hfix. unfold fixed_ffn_matrices in Hfix. fold fixed in Hfix.
  unfold run, ds4_layer_state_ffn_arena_span. fold fixed. rewrite (grow_span_ok _ _ 0 Hfix), selected_all.
  change (ls_routed st) with r. split; [|split].
  - intros Hin Htm Hty. set (ms := fixed ++ flat_map (route_list st) experts). rewrite Htm.
    assert (forall e, in_range st e -> is_ok (ds4_layer_state_route_matrices st e) = true /\
              length (route_list st e) = 3%nat /\ Forall (within (arena_limit ctx st)) (route_list st e)) as Hroute.
    { intros e He. apply (expert_routes fs o ctx l e st Hopen Hst He Htm Hty). }
    assert (Forall (within (arena_limit ctx st)) ms) as Hms.
    { apply Forall_app. split; [exact Hfix|]. apply Forall_flat_map.
      eapply Forall_impl; [exact Hin|]. intros e He. apply Hroute. done. }
    split; [|split].
    + unfold ms. rewrite length_app. simpl. do 4 f_equal. clear -Hin Hroute.
      induction Hin as [|e es He _ IH]; [done|]. cbn [flat_map length]. rewrite length_app.
      destruct (Hroute e He) as (_ & -> & _). lia.
    + unfold ms. rewrite max_end_app. apply (route_spans st (arena_limit ctx st)).
      * apply Forall_and. done.
      * intros e He. destruct (Hroute e He) as (? & _ & ?). done.
    + apply max_end_limit; [|done]. apply Forall_inv in Hfix as (? & ? & ? & ?). unfold matrix_end, arena_limit in *. lia.
  - intros Hin Htm. rewrite Htm. destruct Hst as [_ _ [Hr _] _ _ _ _ _ _ _].
    destruct (routed_views_fit fs o ctx l _ Hopen Hr) as (? & ? & ? & ?).
    apply turbomind_span_ok; try done. by apply Forall_and.
  - intros (e & He & Hbad)%Exists_exists. rewrite Forall_forall in Hint.
    assert (is_ok (check_selected st e) = false) as Hc.
    { destruct (is_ok (check_selected st e)) eqn:E; [|done]. apply check_selected_iff in E; [done|by apply Hint]. }
    assert (Some e ∈ map Some experts) as Hin by (by apply list_elem_of_fmap_2).
    destruct (has_turbomind_routed r).
    + unfold turbomind_arena_span.
      pose proof (rfold_stops (fun (_ : unit) (e : option Z) => match e with
        | None => fail "missing selected experts" [] | Some e => check_selected st e end) (Some e) _ tt Hin ltac:(done)) as Hs.
      by destruct (rfold _ _ _).
    + apply (rfold_stops _ (Some e) _ _ Hin). intros s. cbn [route_arena_span]. by destruct (check_selected st e).
Qed.

(** ** A concrete layer *)

(** The tensors of layer 2, of hidden and intermediate size 128 with eight
    experts; [gc] is the width of the shared gate. *)
Definition ex_tensors (gc : Z) : list (string * string * list Z) :=
  [("ffn_gate_exps.weight", "mxfp4", [128; 128; 8]); ("ffn_up_exps.weight", "mxfp4", [128; 128; 8]);
   ("ffn_down_exps.weight", "mxfp4", [128; 128; 8]);
   ("ffn_gate_shexp.weight", "f8_e4m3_b128", [gc; 128]); ("ffn_up_shexp.weight", "f8_e4m3_b128", [128; 128]);
   ("ffn_down_shexp.weight", "f8_e4m3_b128", [128; 128]); ("ffn_gate_inp.weight", "f32", [128; 256]);
   ("attn_q_a.weight", "f8_e4m3_b128", [128; 1024]); ("attn_q_b.weight", "f8_e4m3_b128", [1024; 32768]);
   ("attn_kv_latent.weight", "f8_e4m3_b128", [128; 512]); ("attn_output_a.weight", "f8_e4m3_b128", [128; 8192]);
   ("attn_output_b.weight", "f8_e4m3_b128", [8192; 128]); ("attn_norm.weight", "f32", [128]);
   ("attn_q_a_norm.weight", "f32", [1024]); ("attn_kv_a_norm.weight", "f32", [512]); ("attn_sinks", "f32", [64]);
   ("hc_attn_fn", "f32", [4]); ("hc_attn_base", "f32", [4]); ("hc_attn_scale", "f32", [4]);
   ("ffn_norm.weight", "f32", [128]); ("hc_ffn_fn", "f32", [4]); ("hc_ffn_base", "f32", [4]);
   ("hc_ffn_scale", "f32", [4]); ("exp_probs_b", "f32", [256]);
   ("attn_compress_ape", "f32", [1024; 4]); ("attn_compress_kv.weight", "bf16", [128; 1024]);
   ("attn_compress_gate.weight", "bf16", [128; 1024]); ("attn_compress_norm.weight", "f32", [512]);
   ("indexer.attn_q_b.weight", "f8_e4m3_b128", [1024; 8192]); ("indexer.proj.weight", "bf16", [128; 64]);
   ("indexer.compress_ape", "f32", [256; 4]); ("indexer.compress_kv.weight", "bf16", [128; 256]);
   ("indexer.compress_gate.weight", "bf16", [128; 256]); ("indexer.compress_norm.weight", "f32", [128])]%string.

Fixpoint ex_layer (l off : Z) (ts : list (string * string * list Z)) : list ds4_pack_entry :=
  match ts with
  | [] => []
  | (suffix, dtype, dims) :: ts' =>
      let len := default 0 (dtype_bytes (ds4_source_dtype_parse (Some (B dtype))) (prodZ dims)) in
      let id := layer_tensor_id l (B suffix) in
      let g := ds4_stage_for_layer l in
      PackEntry id id (B dtype) (render_shape dims) (B "row_major") (B "plain") (shard_name g) g l (-1) off len off
        :: ex_layer l (off + len) ts'
  end.

Definition ex_layer_fs (gc : Z) (path : bytes) : file_env :=
  if str_eqb path (B "pack.tsv") then regular_file (render_index (ex_layer 2 0 (ex_tensors gc)))
  else FileEnv false false 0 false [] (B "No such file or directory").

Definition ex_layer_opts : option ds4_context_options :=
  Some (ds4_context_options_init <| pack_index_path := Some (B "pack.tsv") |>).
Definition ex_open (gc : Z) : res ds4_context := @ds4_context_open unlimited (ex_layer_fs gc) ex_layer_opts.
Definition ex_state (gc : Z) : res ds4_layer_state :=
  ctx <- ex_open gc ;; ds4_layer_state_init (Some ctx) 2.

Lemma ex_state_inv (gc : Z) : is_ok (ex_state gc) = true -> exists ctx st,
  @ds4_context_open unlimited (ex_layer_fs gc) ex_layer_opts = Ok ctx /\ ds4_layer_state_init (Some ctx) 2 = Ok st /\ ex_state gc = Ok st.
Proof.
  unfold ex_state, ex_open. destruct (ds4_context_open _ _) as [ctx|]; [|done].
  destruct (ds4_layer_state_init (Some ctx) 2) as [st|] eqn:E; [|done]. intros _. by exists ctx, st.
Qed.

Lemma ex_state_run : exists ctx st,
  @ds4_context_open unlimited (ex_layer_fs 128) ex_layer_opts = Ok ctx /\ ds4_layer_state_init (Some ctx) 2 = Ok st /\ ex_state 128 = Ok st.
Proof. apply ex_state_inv. by vm_compute. Qed.

(** A test that the example state passes. *)
Lemma ex_state_test (P : ds4_layer_state -> bool) (st : ds4_layer_state) :
  match ex_state 128 with Ok st => P st | Error _ => false end = true -> ex_state 128 = Ok st -> P st = true.
Proof. generalize (ex_state 128) as r. by intros r H ->. Qed.


Lemma ds4_layer_state_attention_arena_span_spec_witness : exists ctx st,
  @ds4_context_open unlimited (ex_layer_fs 128) ex_layer_opts = Ok ctx /\ ex_state 128 = Ok st /\
  ds4_layer_state_attention_arena_span st = Ok 45674720 /\
  45674720 <= arena_bytes (get_stage ctx (ls_owning_gpu (ls_head st))).
Proof.
  destruct ex_state_run as (ctx & st & Ho & Hi & Hs). exists ctx, st. split; [exact Ho|]. split; [exact Hs|].
  destruct (@ds4_layer_state_attention_arena_span_spec unlimited (ex_layer_fs 128) ex_layer_opts ctx 2 st Ho Hi) as (span & H1 & H2 & _).
  pose proof (ex_state_test (fun st => match ds4_layer_state_attention_arena_span st with
    Ok s => s =? 45674720 | Error _ => false end) st ltac:(by vm_compute) Hs) as Hv. cbv beta in Hv.
  rewrite H1 in Hv. apply Z.eqb_eq in Hv. rewrite Hv in *. split; [exact H1|exact H2].
Defined.

(** What the example state is bound to. *)
Definition ex_check (st : ds4_layer_state) : bool :=
  negb (has_turbomind_routed (ls_routed st)) && (routed_experts (ls_dims st) =? 8) &&
  forallb (fun b => dtype_is b "mxfp4")
    [routed_gate_binding (ls_routed st); routed_up_binding (ls_routed st); routed_down_binding (ls_routed st)].

Lemma ex_check_ok (st : ds4_layer_state) : ex_state 128 = Ok st ->
  has_turbomind_routed (ls_routed st) = false /\ routed_experts (ls_dims st) = 8 /\
  Forall (fun b => dtype_is b "mxfp4" = true)
    [routed_gate_binding (ls_routed st); routed_up_binding (ls_routed st); routed_down_binding (ls_routed st)].
Proof.
  intros Hs. pose proof (ex_state_test ex_check st ltac:(by vm_compute) Hs) as Hf. unfold ex_check in Hf. bool_hyps. split; [done|]. split; [done|].
  apply Forall_forall. intros b Hb. rewrite forallb_forall in H0. by apply H0, list_elem_of_In.
Qed.

Lemma ds4_layer_state_route_matrices_spec_witness : exists st g u dn,
  ex_state 128 = Ok st /\ ds4_layer_state_route_matrices st 7 = Ok (RouteMatrices g u dn) /\
  rel g = 7 * mat_bytes g /\ is_ok (ds4_layer_state_route_matrices st 8) = false.
Proof.
  destruct ex_state_run as (ctx & st & Ho & Hi & Hs). destruct (ex_check_ok st Hs) as (C1 & C2 & C3).
  destruct (@ds4_layer_state_route_matrices_spec unlimited (ex_layer_fs 128) ex_layer_opts ctx 2 7 st Ho Hi ltac:(lia)) as [H1 _].
  destruct (@ds4_layer_state_route_matrices_spec unlimited (ex_layer_fs 128) ex_layer_opts ctx 2 8 st Ho Hi ltac:(lia)) as [_ H2].
  destruct (H1 C1 ltac:(lia) C3) as (g & u & dn & R & (_ & _ & _ & _ & G & _) & _).
  exists st, g, u, dn. split; [exact Hs|]. split; [exact R|]. split; [exact G|]. apply H2. right. lia.
Defined.

Lemma ds4_layer_state_ffn_arena_span_spec_witness : exists st,
  ex_state 128 = Ok st /\ is_ok (ds4_layer_state_ffn_arena_span st (Some [0; 7; 3]) 3) = true /\
  is_ok (ds4_layer_state_ffn_arena_span st (Some [0; 8; 3]) 3) = false.
Proof.
  destruct ex_state_run as (ctx & st & Ho & Hi & Hs). destruct (ex_check_ok st Hs) as (C1 & C2 & C3).
  exists st. split; [exact Hs|].
  destruct (@ds4_layer_state_ffn_arena_span_spec unlimited (ex_layer_fs 128) ex_layer_opts ctx 2 st [0; 7; 3] Ho Hi) as [H1 _].
  { apply Forall_conj. cbn. unfold is_int. repeat split; by vm_compute. }
  destruct (@ds4_layer_state_ffn_arena_span_spec unlimited (ex_layer_fs 128) ex_layer_opts ctx 2 st [0; 8; 3] Ho Hi) as (_ & _ & H2).
  { apply Forall_conj. cbn. unfold is_int. repeat split; by vm_compute. }
  split.
  - destruct H1 as (_ & R & _); [|exact C1|exact C3|].
    + apply Forall_conj. cbn. unfold in_range. rewrite C2. repeat split; by vm_compute.
    + change (Z.of_nat (length [0; 7; 3])) with 3 in R. rewrite R. reflexivity.
  - apply H2. apply Exists_exists. exists 8. split; [right; by left|]. intros [_ Hlt]. rewrite C2 in Hlt. exact (Z.lt_irrefl 8 Hlt).
Defined.

(** Initialisation takes the intermediate size from the shared gate but never
    checks its width: a gate of 256 columns is accepted for hidden size 128. *)
Example shared_gate_width_unchecked :
  match ex_state 256 with
  | Ok st => (cols (shared_gate (ls_matrices st)), hidden_size (ls_dims st)) | Error _ => (0, 0)
  end = (256, 128).
Proof. by vm_compute. Qed.
