(* ===== verification/ServerJson.v ===== *)
(** * JSON text (ds4_server.c)

    The server's hand-written JSON reader and writer: strings with escapes and
    surrogate pairs, numbers, skipping of ignored values under a nesting
    ceiling, and the escaping of output.  A cursor [const char **p] is the rest
    of the C string; reading at its end yields NUL.  Buffers hold any bytes,
    NUL included; running out of memory ends the process and is not modelled. *)
From S2P Require Import Prelude.
From S2P Require Import CNum.
From S2P Require Import CFloat.

(** ** Outcomes *)

(** A parser call: the value and the rest, [false], or (never, for enough
    fuel) an unfinished loop. *)
Inductive jres (A : Type) := JOk (a : A) (rest : bytes) | JFail | JFuel.
Arguments JOk {A} _ _.
Arguments JFail {A}.
Arguments JFuel {A}.

Notation "'jlet' ( a , p ) := e 'in' k" :=
  (match e with JOk a p => k | JFail => JFail | JFuel => JFuel end)
  (at level 100, a name, p name, e at level 200, k at level 200, right associativity) : ds4_scope.

(** ** Lexical helpers *)

Definition QUOTE : byte := x22.
Definition BACKSLASH : byte := x5c.

Definition json_ws (p : bytes) : bytes := skip_space p.

Definition json_lit (p lit : bytes) : option bytes :=
  if str_prefixb lit p then Some (drop (length lit) p) else None.

(** The byte under the cursor. *)
Definition peek (p : bytes) : byte := hd NUL p.
Definition at_byte (p : bytes) (c : byte) : bool :=
  match p with b :: _ => Byte.eqb b c | [] => false end.

Definition json_hex (c : byte) : option Z :=
  let z := bz c in
  if (48 <=? z) && (z <=? 57) then Some (z - 48)
  else if (97 <=? z) && (z <=? 102) then Some (10 + z - 97)
  else if (65 <=? z) && (z <=? 70) then Some (10 + z - 65)
  else None.

Definition utf8_put (cp : Z) : bytes :=
  if cp <=? 0x7f then [zb cp]
  else if cp <=? 0x7ff then
    [zb (Z.lor 0xc0 (Z.shiftr cp 6)); zb (Z.lor 0x80 (Z.land cp 0x3f))]
  else if cp <=? 0xffff then
    [zb (Z.lor 0xe0 (Z.shiftr cp 12)); zb (Z.lor 0x80 (Z.land (Z.shiftr cp 6) 0x3f));
     zb (Z.lor 0x80 (Z.land cp 0x3f))]
  else
    [zb (Z.lor 0xf0 (Z.shiftr cp 18)); zb (Z.lor 0x80 (Z.land (Z.shiftr cp 12) 0x3f));
     zb (Z.lor 0x80 (Z.land (Z.shiftr cp 6) 0x3f)); zb (Z.lor 0x80 (Z.land cp 0x3f))].

(** The four digits: [cp = (cp << 4) | h]. *)
Fixpoint json_hex4 (n : nat) (p : bytes) (cp : Z) : option (Z * bytes) :=
  match n with
  | O => Some (cp, p)
  | S n' =>
      match p with
      | c :: p' =>
          match json_hex c with
          | Some h => json_hex4 n' p' (u32 (Z.lor (u32 (Z.shiftl cp 4)) h))
          | None => None
          end
      | [] => None
      end
  end.

(** Reads [\uXXXX]; the cursor moves only on success. *)
Definition json_u16 (p : bytes) : option (Z * bytes) :=
  match p with
  | b :: u :: p' => if Byte.eqb b BACKSLASH && Byte.eqb u x75 then json_hex4 4 p' 0 else None
  | _ => None
  end.

(** The escape behind a [\u]: one code point, or a surrogate pair.  The second
    escape is consumed even when it is no low surrogate. *)
Definition json_unicode (p : bytes) : option (bytes * bytes) :=
  match json_u16 p with
  | None => None
  | Some (cp, p1) =>
      if (0xd800 <=? cp) && (cp <=? 0xdbff) then
        match json_u16 p1 with
        | Some (lo, p2) =>
            if (0xdc00 <=? lo) && (lo <=? 0xdfff)
            then Some (utf8_put (0x10000 + Z.shiftl (cp - 0xd800) 10 + (lo - 0xdc00)), p2)
            else Some (utf8_put cp, p2)
        | None => Some (utf8_put cp, p1)
        end
      else Some (utf8_put cp, p1)
  end.

Definition simple_escape (c : byte) : option byte :=
  if Byte.eqb c QUOTE then Some QUOTE
  else if Byte.eqb c BACKSLASH then Some BACKSLASH
  else if Byte.eqb c x2f then Some x2f
  else if Byte.eqb c x62 then Some x08
  else if Byte.eqb c x66 then Some x0c
  else if Byte.eqb c x6e then Some LF
  else if Byte.eqb c x72 then Some CR
  else if Byte.eqb c x74 then Some TAB
  else None.

(** The loop of [json_string] behind the opening quote; [acc] is the buffer,
    reversed.  One turn per unread byte is enough. *)
Fixpoint json_string_body (fuel : nat) (p acc : bytes) : jres bytes :=
  match fuel with
  | O => JFuel
  | S fuel' =>
      match p with
      | [] => JFail
      | c :: p1 =>
          if Byte.eqb c QUOTE then JOk (rev acc) p1
          else if negb (Byte.eqb c BACKSLASH) then json_string_body fuel' p1 (c :: acc)
          else
            match p1 with
            | [] => JFail
            | e :: p2 =>
                match simple_escape e with
                | Some b => json_string_body fuel' p2 (b :: acc)
                | None =>
                    if Byte.eqb e x75 then
                      match json_unicode p with
                      | Some (s, p3) => json_string_body fuel' p3 (rev s ++ acc)
                      | None => JFail
                      end
                    else JFail
                end
            end
      end
  end.

Definition json_string (p : bytes) : jres bytes :=
  let p := json_ws p in
  if at_byte p QUOTE then json_string_body (length p) (tl p) [] else JFail.

Definition json_number (p : bytes) : jres double :=
  let p := json_ws p in
  let '(v, rest, _) := strtod p in
  if (length rest =? length p)%nat then JFail else JOk v rest.

(** [None] is the conversion of a NaN, which C leaves undefined. *)
Definition json_int (p : bytes) : jres (option Z) :=
  jlet ( v , rest ) := json_number p in
  let v := if SFltb v (S754_zero false) then S754_zero false else v in
  let v := if SFltb (d_of_Z INT_MAX) v then d_of_Z INT_MAX else v in
  JOk (d_to_int v) rest.

Definition json_bool (p : bytes) : jres bool :=
  let p := json_ws p in
  match json_lit p (B "true"), json_lit p (B "false") with
  | Some rest, _ => JOk true rest
  | None, Some rest => JOk false rest
  | None, None => JFail
  end.

(** ** Skipping values *)

Definition JSON_MAX_NESTING : nat := 256.

(** The three mutually recursive functions, with the two [for(;;)] loops as
    functions of their own. *)
Fixpoint json_skip_value_depth (fuel : nat) (p : bytes) (depth : nat) : jres unit :=
  match fuel with
  | O => JFuel
  | S fuel =>
      let p := json_ws p in
      if at_byte p QUOTE then jlet ( s , p ) := json_string p in JOk tt p
      else if at_byte p x7b then json_skip_object_depth fuel p depth
      else if at_byte p x5b then json_skip_array_depth fuel p depth
      else
        match json_lit p (B "true"), json_lit p (B "false"), json_lit p (B "null") with
        | Some p, _, _ | None, Some p, _ | None, None, Some p => JOk tt p
        | None, None, None => jlet ( v , p ) := json_number p in JOk tt p
        end
  end
with json_skip_array_depth (fuel : nat) (p : bytes) (depth : nat) : jres unit :=
  match fuel with
  | O => JFuel
  | S fuel =>
      if (JSON_MAX_NESTING <=? depth)%nat then JFail
      else
        let p := json_ws p in
        if negb (at_byte p x5b) then JFail
        else
          let p := json_ws (tl p) in
          if at_byte p x5d then JOk tt (tl p) else json_array_loop fuel p depth
  end
with json_array_loop (fuel : nat) (p : bytes) (depth : nat) : jres unit :=
  match fuel with
  | O => JFuel
  | S fuel =>
      jlet ( u , p ) := json_skip_value_depth fuel p (S depth) in
      let p := json_ws p in
      if at_byte p x5d then JOk tt (tl p)
      else if negb (at_byte p x2c) then JFail
      else json_array_loop fuel (tl p) depth
  end
with json_skip_object_depth (fuel : nat) (p : bytes) (depth : nat) : jres unit :=
  match fuel with
  | O => JFuel
  | S fuel =>
      if (JSON_MAX_NESTING <=? depth)%nat then JFail
      else
        let p := json_ws p in
        if negb (at_byte p x7b) then JFail
        else
          let p := json_ws (tl p) in
          if at_byte p x7d then JOk tt (tl p) else json_object_loop fuel p depth
  end
with json_object_loop (fuel : nat) (p : bytes) (depth : nat) : jres unit :=
  match fuel with
  | O => JFuel
  | S fuel =>
      jlet ( key , p ) := json_string p in
      let p := json_ws p in
      if negb (at_byte p x3a) then JFail
      else
        jlet ( u , p ) := json_skip_value_depth fuel (tl p) (S depth) in
        let p := json_ws p in
        if at_byte p x7d then JOk tt (tl p)
        else if negb (at_byte p x2c) then JFail
        else json_object_loop fuel (tl p) depth
  end.

(** Turns enough for any text: a value, its bracket and its loop take at most
    three calls between two bytes. *)
Definition json_fuel (p : bytes) : nat := (3 * length p + 3)%nat.

Definition json_skip_value (p : bytes) : jres unit := json_skip_value_depth (json_fuel p) p 0.

(** The value's text, from its first byte. *)
Definition json_raw_value (p : bytes) : jres bytes :=
  let start := json_ws p in
  jlet ( u , rest ) := json_skip_value start in
  JOk (take (length start - length rest) start) rest.

(** The loop of [json_minify_raw_value]. *)
Fixpoint minify_loop (s : bytes) (in_string escape : bool) : bytes :=
  match s with
  | [] => []
  | c :: s' =>
      if in_string then
        c :: (if escape then minify_loop s' true false
              else if Byte.eqb c BACKSLASH then minify_loop s' true true
              else if Byte.eqb c QUOTE then minify_loop s' false false
              else minify_loop s' true false)
      else if Byte.eqb c QUOTE then c :: minify_loop s' true escape
      else if negb (byte_isspace c) then c :: minify_loop s' false escape
      else minify_loop s' false escape
  end.

Definition json_minify_raw_value (json : option bytes) : bytes :=
  let text := default (B "null") json in
  match json_raw_value text with
  | JOk raw _ => minify_loop raw false false
  | _ => text
  end.

(** ** Message content *)

(** Behind an item: an optional comma between white space. *)
Definition next_item (p : bytes) : bytes :=
  let p := json_ws p in
  let p := if at_byte p x2c then tl p else p in
  json_ws p.

(** The inner loop of [json_content], over the members of one part: the texts
    are appended to the buffer [b], other members are skipped. *)
Fixpoint json_content_part (fuel : nat) (p b : bytes) : jres bytes :=
  match fuel with
  | O => JFuel
  | S fuel =>
      match p with
      | [] => JFail
      | c :: rest =>
          if Byte.eqb c x7d then JOk b rest
          else
            jlet ( key , p ) := json_string p in
            let p := json_ws p in
            if negb (at_byte p x3a) then JFail
            else if str_eqb (c_str key) (B "text") then
              jlet ( s , p ) := json_string (tl p) in
              json_content_part fuel (next_item p) (b ++ c_str s)
            else
              jlet ( u , p ) := json_skip_value (tl p) in
              json_content_part fuel (next_item p) b
      end
  end.

(** The outer loop, over the parts of the array. *)
Fixpoint json_content_items (fuel : nat) (p b : bytes) : jres bytes :=
  match fuel with
  | O => JFuel
  | S fuel =>
      match p with
      | [] => JFail
      | c :: rest =>
          if Byte.eqb c x5d then JOk b rest
          else if Byte.eqb c QUOTE then
            jlet ( s , p ) := json_string p in
            json_content_items fuel (next_item p) (b ++ c_str s)
          else if Byte.eqb c x7b then
            let p := json_ws rest in
            jlet ( b , p ) := json_content_part (S (length p)) p b in
            json_content_items fuel (next_item p) b
          else
            jlet ( u , p ) := json_skip_value p in
            json_content_items fuel (next_item p) b
      end
  end.

(** A string, [null], an array of strings and text parts, or any other value,
    which counts as empty. *)
Definition json_content (p : bytes) : jres bytes :=
  let p := json_ws p in
  if at_byte p QUOTE then json_string p
  else
    match json_lit p (B "null") with
    | Some rest => JOk [] rest
    | None =>
        if negb (at_byte p x5b) then jlet ( u , rest ) := json_skip_value p in JOk [] rest
        else let p := json_ws (tl p) in json_content_items (S (length p)) p []
    end.

(** ** Writing strings *)

Definition hex_digit (n : Z) : byte := if n <? 10 then zb (48 + n) else zb (87 + n).

Definition escape_byte (c : byte) : bytes :=
  if Byte.eqb c QUOTE || Byte.eqb c BACKSLASH then [BACKSLASH; c]
  else if Byte.eqb c LF then B "\n"
  else if Byte.eqb c CR then B "\r"
  else if Byte.eqb c TAB then B "\t"
  else if bz c <? 0x20 then B "\u00" ++ [hex_digit (bz c / 16); hex_digit (bz c mod 16)]
  else [c].

(** [json_escape]: [s] is a C string. *)
Definition json_escape (s : bytes) : bytes := QUOTE :: concat (map escape_byte s) ++ [QUOTE].

(** [json_escape_n(b, s, n)]: the copy of [n] bytes is read as a C string. *)
Definition json_escape_n (s : bytes) (n : nat) : bytes := json_escape (c_str (take n s)).

(** [json_escape_fragment_n]: no quotes, and every one of the [n] bytes. *)
Definition json_escape_fragment_n (s : bytes) (n : nat) : bytes := concat (map escape_byte (take n s)).
