(* ===== verification/ServerJsonProps.v ===== *)
(** * Properties of the JSON text functions

    Reading ends on every text and only moves forward, writing a string and
    reading it back is the identity, and skipping accepts exactly the values
    within the nesting ceiling. *)
From S2P Require Import Prelude.
From S2P Require Import CNum.
From S2P Require Import CFloat.
From S2P Require Import ServerJson.

(** ** The cursor moves forward *)

Lemma suffix_drop {A} (n : nat) (l : list A) : drop n l `suffix_of` l.
Proof. exists (take n l). by rewrite take_drop. Qed.

Lemma suffix_tl {A} (l : list A) : tl l `suffix_of` l.
Proof. destruct l; [done|]. by exists [a]. Qed.

Lemma suffix_length_le {A} (l1 l2 : list A) : l1 `suffix_of` l2 -> (length l1 <= length l2)%nat.
Proof. intros [k ->]. rewrite length_app. lia. Qed.

Lemma skip_space_suffix (s : bytes) : skip_space s `suffix_of` s.
Proof.
  induction s as [|b s IH]; [done|]. simpl. destruct (byte_isspace b); [by apply suffix_cons_r|done].
Qed.

Lemma scan_digits_suffix (s : bytes) : forall acc v r, scan_digits s acc = (v, r) -> r `suffix_of` s.
Proof.
  induction s as [|b s IH]; intros acc v r; simpl; [by intros [= _ <-]|].
  destruct (byte_isdigit b); [|by intros [= _ <-]]. intros H. apply suffix_cons_r. by eapply IH.
Qed.

Lemma scan_hex_suffix (s : bytes) : forall acc v r, scan_hex s acc = (v, r) -> r `suffix_of` s.
Proof.
  induction s as [|b s IH]; intros acc v r; simpl; [by intros [= _ <-]|].
  destruct (hex_val b); [|by intros [= _ <-]]. intros H. apply suffix_cons_r. by eapply IH.
Qed.

Lemma scan_sign_suffix (s : bytes) (neg : bool) (r : bytes) : scan_sign s = (neg, r) -> r `suffix_of` s.
Proof.
  destruct s as [|b s]; simpl; [by intros [= _ <-]|].
  destruct (Byte.eqb b x2d); [intros [= _ <-]; by apply suffix_cons_r|].
  destruct (Byte.eqb b x2b); intros [= _ <-]; [by apply suffix_cons_r|done].
Qed.

Lemma scan_exponent_suffix (c : byte) (s : bytes) (v : Z) (r : bytes) :
  scan_exponent c s = (v, r) -> r `suffix_of` s.
Proof.
  unfold scan_exponent. destruct s as [|b s]; [by intros [= _ <-]|].
  destruct (Byte.eqb _ c); [|by intros [= _ <-]].
  destruct (scan_sign s) as [neg s1] eqn:E. apply scan_sign_suffix in E.
  destruct s1 as [|d s1]; [by intros [= _ <-]|]. destruct (byte_isdigit d); [|by intros [= _ <-]].
  destruct (scan_digits (d :: s1) 0) as [w r'] eqn:Ed. apply scan_digits_suffix in Ed.
  intros [= _ <-]. apply suffix_cons_r. by etrans.
Qed.

Lemma scan_point_suffix (scan : bytes -> Z -> Z * bytes) (s : bytes) (v nf n : Z) (r : bytes) :
  (forall s acc v r, scan s acc = (v, r) -> r `suffix_of` s) ->
  scan_point scan s = (v, nf, n, r) -> r `suffix_of` s.
Proof.
  intros Hs. unfold scan_point. destruct (scan s 0) as [w s1] eqn:E. apply Hs in E.
  destruct s1 as [|b s2]; [by intros [= _ _ _ <-]|]. destruct (Byte.eqb b x2e); [|by intros [= _ _ _ <-]].
  destruct (scan s2 w) as [w' s3] eqn:E2. apply Hs in E2.
  case_match; intros [= _ _ _ <-]; [done|]. etrans; [exact E2|]. etrans; [|exact E]. by apply suffix_cons_r.
Qed.

Lemma prefix_ci_suffix (lit s r : bytes) : prefix_ci lit s = Some r -> r `suffix_of` s.
Proof.
  revert s. induction lit as [|c lit IH]; intros s; simpl; [by intros [= <-]|].
  destruct s as [|b s]; [done|]. destruct (Byte.eqb c (byte_tolower b)); [|done].
  intros H. apply suffix_cons_r. by apply IH.
Qed.

Lemma nan_seq_suffix (s r : bytes) : nan_seq s = Some r -> r `suffix_of` s.
Proof.
  induction s as [|b s IH]; simpl; [done|]. destruct (Byte.eqb b x29).
  - intros [= <-]. by apply suffix_cons_r.
  - destruct (is_nan_char b); [|done]. intros H. apply suffix_cons_r. by apply IH.
Qed.

Lemma strtod_abs_suffix (s r : bytes) (d : double) (e : bool) : strtod_abs s = Some (d, r, e) -> r `suffix_of` s.
Proof.
  unfold strtod_abs.
  destruct (prefix_ci (B "infinity") s) as [r1|] eqn:E1; [intros [= _ <- _]; by eapply prefix_ci_suffix|].
  destruct (prefix_ci (B "inf") s) as [r2|] eqn:E2; [intros [= _ <- _]; by eapply prefix_ci_suffix|].
  destruct (prefix_ci (B "nan") s) as [r3|] eqn:E3.
  { apply prefix_ci_suffix in E3. destruct r3 as [|b r3]; [by intros [= _ <- _]|].
    destruct (Byte.eqb b x28); [|by intros [= _ <- _]]. intros [= _ <- _].
    destruct (nan_seq r3) as [r4|] eqn:E4; [|done]. apply nan_seq_suffix in E4. simpl.
    etrans; [exact E4|]. etrans; [|exact E3]. by apply suffix_cons_r. }
  assert (forall v nf n r4, scan_point scan_digits s = (v, nf, n, r4) ->
    (if n =? 0 then None
     else let '(x, r5) := scan_exponent x65 r4 in
          let '(d, o) := nearest v 10 (x - nf) in Some (d, r5, o)) = Some (d, r, e) -> r `suffix_of` s) as Hdec.
  { intros v nf n r4 E5. apply scan_point_suffix in E5; [|apply scan_digits_suffix].
    destruct (n =? 0); [done|]. destruct (scan_exponent x65 r4) as [x r5] eqn:E6.
    apply scan_exponent_suffix in E6. destruct (nearest v 10 (x - nf)). intros [= _ <- _]. by etrans. }
  destruct (prefix_ci (B "0x") s) as [r4|] eqn:E4.
  - destruct (scan_point scan_hex r4) as [[[v nf] n] r5] eqn:E5.
    destruct (n =? 0).
    + destruct (scan_point scan_digits s) as [[[v' nf'] n'] r6] eqn:E6. by eapply Hdec.
    + apply prefix_ci_suffix in E4. apply scan_point_suffix in E5; [|apply scan_hex_suffix].
      destruct (scan_exponent x70 r5) as [x r6] eqn:E6. apply scan_exponent_suffix in E6.
      destruct (nearest v 2 (x - 4 * nf)). intros [= _ <- _]. etrans; [exact E6|]. by etrans.
  - destruct (scan_point scan_digits s) as [[[v' nf'] n'] r6] eqn:E6. by eapply Hdec.
Qed.

Lemma strtod_suffix (s r : bytes) (d : double) (e : bool) : strtod s = (d, r, e) -> r `suffix_of` s.
Proof.
  unfold strtod. destruct (scan_sign (skip_space s)) as [neg s1] eqn:E. apply scan_sign_suffix in E.
  destruct (strtod_abs s1) as [[[d' r'] e']|] eqn:E2; [|by intros [= _ <- _]].
  apply strtod_abs_suffix in E2. intros [= _ <- _]. etrans; [exact E2|]. etrans; [exact E|].
  apply skip_space_suffix.
Qed.

(** A call that ended and, when it succeeded, left a proper suffix. *)
Definition forward {A} (p : bytes) (r : jres A) : Prop :=
  match r with
  | JOk _ rest => rest `suffix_of` p /\ (length rest < length p)%nat
  | JFail => True
  | JFuel => False
  end.

Lemma forward_suffix {A} (p q : bytes) (r : jres A) : p `suffix_of` q -> forward p r -> forward q r.
Proof.
  intros Hs. destruct r as [a rest| |]; simpl; try done. intros [H1 H2]. split; [by etrans|].
  pose proof (suffix_length_le _ _ Hs). lia.
Qed.

Lemma at_byte_cons (p : bytes) (c : byte) : at_byte p c = true -> exists p', p = c :: p'.
Proof. destruct p as [|b p]; simpl; [done|]. intros ->%beqb_eq. eauto. Qed.

Lemma json_hex4_suffix (n : nat) : forall p cp v r, json_hex4 n p cp = Some (v, r) -> r `suffix_of` p.
Proof.
  induction n as [|n IH]; intros p cp v r; simpl; [by intros [= _ <-]|].
  destruct p as [|c p]; [done|]. destruct (json_hex c); [|done]. intros H. apply suffix_cons_r. by eapply IH.
Qed.

Lemma json_u16_suffix (p r : bytes) (v : Z) :
  json_u16 p = Some (v, r) -> r `suffix_of` p /\ (length r < length p)%nat.
Proof.
  unfold json_u16. destruct p as [|b [|u p]]; try done. destruct (_ && _); [|done].
  intros H. apply json_hex4_suffix in H. split; [by do 2 apply suffix_cons_r|].
  apply suffix_length_le in H. simpl. lia.
Qed.

Lemma json_unicode_suffix (p r s : bytes) :
  json_unicode p = Some (s, r) -> r `suffix_of` p /\ (length r < length p)%nat.
Proof.
  unfold json_unicode. destruct (json_u16 p) as [[cp p1]|] eqn:E; [|done]. apply json_u16_suffix in E as [E1 E2].
  destruct (_ && _); [|by intros [= _ <-]].
  destruct (json_u16 p1) as [[lo p2]|] eqn:E3; [|by intros [= _ <-]]. apply json_u16_suffix in E3 as [E3 E4].
  case_match; intros [= _ <-]; (split; [by etrans|lia]).
Qed.

Lemma json_string_body_forward (fuel : nat) : forall p acc, (length p < fuel)%nat ->
  forward p (json_string_body fuel p acc).
Proof.
  induction fuel as [|fuel IH]; intros p acc Hf; [lia|]. cbn [json_string_body].
  destruct p as [|c p1]; [done|]. destruct (Byte.eqb c QUOTE).
  { simpl. split; [by apply suffix_cons_r|lia]. }
  destruct (negb (Byte.eqb c BACKSLASH)).
  { eapply forward_suffix; [|apply IH; simpl in Hf; lia]. by apply suffix_cons_r. }
  destruct p1 as [|e p2]; [done|]. destruct (simple_escape e) as [b|].
  { eapply forward_suffix; [|apply IH; simpl in Hf; lia]. by do 2 apply suffix_cons_r. }
  destruct (Byte.eqb e x75); [|done].
  destruct (json_unicode (c :: e :: p2)) as [[s p3]|] eqn:E; [|done].
  apply json_unicode_suffix in E as [E1 E2]. eapply forward_suffix; [exact E1|]. apply IH. lia.
Qed.

Lemma json_string_forward (p : bytes) : forward p (json_string p).
Proof.
  unfold json_string. pose proof (skip_space_suffix p) as Hs. fold (json_ws p) in Hs.
  destruct (at_byte (json_ws p) QUOTE) eqn:E; [|done]. apply at_byte_cons in E as [p' E]. rewrite E in *.
  cbn [tl]. eapply forward_suffix; [|apply json_string_body_forward; simpl; lia].
  etrans; [|exact Hs]. by apply suffix_cons_r.
Qed.

Lemma json_number_forward (p : bytes) : forward p (json_number p).
Proof.
  unfold json_number. pose proof (skip_space_suffix p) as Hs. fold (json_ws p) in Hs.
  destruct (strtod (json_ws p)) as [[v rest] e] eqn:E. apply strtod_suffix in E.
  pose proof (suffix_length_le _ _ E). pose proof (suffix_length_le _ _ Hs).
  destruct (Nat.eqb_spec (length rest) (length (json_ws p))); [done|]. simpl. split; [by etrans|lia].
Qed.

Lemma json_lit_suffix (p lit r : bytes) : lit <> [] -> json_lit p lit = Some r ->
  r `suffix_of` p /\ (length r < length p)%nat.
Proof.
  intros Hl. unfold json_lit. destruct (str_prefixb lit p) eqn:E; [|done]. intros [= <-].
  apply str_prefixb_spec in E as [t ->]. rewrite drop_app_length. split; [by exists lit|].
  rewrite length_app. destruct lit; [done|]. simpl. lia.
Qed.

(** ** Skipping ends *)

Lemma forward_ws {A} (p : bytes) (r : jres A) : forward (json_ws p) r -> forward p r.
Proof. apply forward_suffix, skip_space_suffix. Qed.

Lemma ws_length (p : bytes) : (length (json_ws p) <= length p)%nat.
Proof. apply suffix_length_le, skip_space_suffix. Qed.

Lemma forward_step {A C} (p : bytes) (r : jres A) (k : A -> bytes -> jres C) :
  forward p r ->
  (forall a q, q `suffix_of` p -> (length q < length p)%nat -> forward q (k a q) \/
     exists c, k a q = JOk c q) ->
  forward p (match r with JOk a q => k a q | JFail => JFail | JFuel => JFuel end).
Proof.
  destruct r as [a q| |]; simpl; try done. intros [H1 H2] Hk.
  destruct (Hk a q H1 H2) as [Hq|[c ->]]; [by eapply forward_suffix|done].
Qed.

Lemma at_byte_tl (p : bytes) (c : byte) : at_byte p c = true ->
  tl p `suffix_of` p /\ (length (tl p) < length p)%nat.
Proof. intros [p' ->]%at_byte_cons. simpl. split; [by apply suffix_cons_r|lia]. Qed.

Lemma forward_closing {A} (p q : bytes) (a : A) (c : byte) : q `suffix_of` p -> (length q <= length p)%nat ->
  at_byte (json_ws q) c = true -> forward p (JOk a (tl (json_ws q))).
Proof.
  intros Hs Hl Hc. destruct (at_byte_tl _ _ Hc) as [H1 H2]. pose proof (ws_length q). simpl.
  split; [|lia]. etrans; [exact H1|]. etrans; [apply skip_space_suffix|done].
Qed.

Lemma json_skip_forward (fuel : nat) :
  (forall p d, (3 * length p + 1 <= fuel)%nat -> forward p (json_skip_value_depth fuel p d)) /\
  (forall p d, (3 * length p <= fuel)%nat -> (1 <= fuel)%nat -> forward p (json_skip_array_depth fuel p d)) /\
  (forall p d, (3 * length p + 2 <= fuel)%nat -> forward p (json_array_loop fuel p d)) /\
  (forall p d, (3 * length p <= fuel)%nat -> (1 <= fuel)%nat -> forward p (json_skip_object_depth fuel p d)) /\
  (forall p d, (3 * length p + 2 <= fuel)%nat -> forward p (json_object_loop fuel p d)).
Proof.
  induction fuel as [|fuel (IHv & IHa & IHal & IHo & IHol)]; [repeat split; intros; lia|].
  split; [|split; [|split; [|split]]]; intros p d Hf.
  - cbn [json_skip_value_depth]. pose proof (ws_length p) as Hw. apply forward_ws. cbv zeta.
    destruct (at_byte (json_ws p) QUOTE) eqn:Eq.
    { apply forward_step; [apply json_string_forward|]. eauto. }
    destruct (at_byte (json_ws p) x7b) eqn:Eo.
    { apply IHo; [|apply at_byte_tl in Eo]; lia. }
    destruct (at_byte (json_ws p) x5b) eqn:Ea.
    { apply IHa; [|apply at_byte_tl in Ea]; lia. }
    destruct (json_lit (json_ws p) (B "true")) as [r|] eqn:E1; [by eapply json_lit_suffix in E1|].
    destruct (json_lit (json_ws p) (B "false")) as [r|] eqn:E2; [by eapply json_lit_suffix in E2|].
    destruct (json_lit (json_ws p) (B "null")) as [r|] eqn:E3; [by eapply json_lit_suffix in E3|].
    apply forward_step; [apply json_number_forward|]. eauto.
  - intros _. cbn [json_skip_array_depth]. destruct (JSON_MAX_NESTING <=? d)%nat; [done|]. cbv zeta.
    apply forward_ws. pose proof (ws_length p) as Hw. destruct (at_byte (json_ws p) x5b) eqn:E; [|done]. cbn [negb].
    apply at_byte_tl in E as [E1 E2]. pose proof (ws_length (tl (json_ws p))) as Hw2.
    destruct (at_byte (json_ws (tl (json_ws p))) x5d) eqn:Ec; [eapply forward_closing; [done|lia|done]|].
    eapply forward_suffix; [exact E1|]. apply forward_ws, IHal. lia.
  - cbn [json_array_loop]. apply forward_step; [apply IHv; lia|]. intros _ q Hq Hlen. left. cbv zeta.
    destruct (at_byte (json_ws q) x5d) eqn:Ec; [eapply forward_closing; done|].
    destruct (at_byte (json_ws q) x2c) eqn:E; [|done]. cbn [negb]. pose proof (ws_length q) as Hw.
    apply at_byte_tl in E as [E1 E2]. apply forward_ws. eapply forward_suffix; [exact E1|]. apply IHal. lia.
  - intros _. cbn [json_skip_object_depth]. destruct (JSON_MAX_NESTING <=? d)%nat; [done|]. cbv zeta.
    apply forward_ws. pose proof (ws_length p) as Hw. destruct (at_byte (json_ws p) x7b) eqn:E; [|done]. cbn [negb].
    apply at_byte_tl in E as [E1 E2]. pose proof (ws_length (tl (json_ws p))) as Hw2.
    destruct (at_byte (json_ws (tl (json_ws p))) x7d) eqn:Ec; [eapply forward_closing; [done|lia|done]|].
    eapply forward_suffix; [exact E1|]. apply forward_ws, IHol. lia.
  - cbn [json_object_loop]. apply forward_step; [apply json_string_forward|]. intros key q Hq Hlen. left. cbv zeta.
    apply forward_ws. pose proof (ws_length q) as Hw.
    destruct (at_byte (json_ws q) x3a) eqn:E; [|done]. cbn [negb].
    apply at_byte_tl in E as [E1 E2]. eapply forward_suffix; [exact E1|].
    apply forward_step; [apply IHv; lia|]. intros _ r Hr Hrlen. left.
    destruct (at_byte (json_ws r) x7d) eqn:Ec; [eapply forward_closing; done|].
    destruct (at_byte (json_ws r) x2c) eqn:E3; [|done]. cbn [negb]. pose proof (ws_length r) as Hw2.
    apply at_byte_tl in E3 as [E3 E4]. apply forward_ws. eapply forward_suffix; [exact E3|]. apply IHol. lia.
Qed.

Lemma json_skip_value_fw (p : bytes) : forward p (json_skip_value p).
Proof. apply json_skip_forward. unfold json_fuel. lia. Qed.

Lemma next_item_suffix (p : bytes) : next_item p `suffix_of` p.
Proof.
  unfold next_item. etrans; [apply skip_space_suffix|]. etrans; [|apply skip_space_suffix].
  fold (json_ws p). destruct (at_byte (json_ws p) x2c); [apply suffix_tl|done].
Qed.

(** A loop over items: one item read, then the next turn behind it. *)
Lemma forward_item {A C} (p : bytes) (r : jres A) (k : A -> bytes -> jres C) :
  forward p r ->
  (forall a q, (length q < length p)%nat -> forward q (k a q)) ->
  forward p (match r with JOk a q => k a (next_item q) | JFail => JFail | JFuel => JFuel end).
Proof.
  destruct r as [a q| |]; simpl; try done. intros [H1 H2] Hk. eapply forward_suffix; [exact H1|].
  eapply forward_suffix; [apply next_item_suffix|]. apply Hk.
  pose proof (suffix_length_le _ _ (next_item_suffix q)). lia.
Qed.

Lemma json_content_part_forward (fuel : nat) : forall p b, (length p < fuel)%nat ->
  forward p (json_content_part fuel p b).
Proof.
  induction fuel as [|fuel IH]; intros p b Hf; [lia|]. cbn [json_content_part].
  destruct p as [|c rest]; [done|]. set (p := c :: rest) in *.
  destruct (Byte.eqb c x7d); [split; [by apply suffix_cons_r|simpl; lia]|].
  apply forward_step; [apply json_string_forward|]. intros key q Hq Hl. left. cbv zeta.
  apply forward_ws. pose proof (ws_length q) as Hw.
  destruct (at_byte (json_ws q) x3a) eqn:E; [|done]. cbn [negb]. apply at_byte_tl in E as [E1 E2].
  eapply forward_suffix; [exact E1|]. destruct (str_eqb _ _).
  - apply (forward_item _ _ (fun s q => json_content_part fuel q (b ++ c_str s))); [apply json_string_forward|].
    intros s r Hr. apply IH. lia.
  - apply (forward_item _ _ (fun _ q => json_content_part fuel q b)); [apply json_skip_value_fw|].
    intros s r Hr. apply IH. lia.
Qed.

Lemma json_content_items_forward (fuel : nat) : forall p b, (length p < fuel)%nat ->
  forward p (json_content_items fuel p b).
Proof.
  induction fuel as [|fuel IH]; intros p b Hf; [lia|]. cbn [json_content_items].
  destruct p as [|c rest]; [done|].
  destruct (Byte.eqb c x5d); [split; [by apply suffix_cons_r|simpl; lia]|].
  destruct (Byte.eqb c QUOTE).
  { apply (forward_item _ _ (fun s q => json_content_items fuel q (b ++ c_str s))); [apply json_string_forward|].
    intros s r Hr. apply IH. lia. }
  destruct (Byte.eqb c x7b).
  - cbv zeta. eapply forward_suffix; [by apply suffix_cons_r|]. apply forward_ws.
    pose proof (ws_length rest) as Hw.
    apply (forward_item _ _ (fun b q => json_content_items fuel q b)).
    + apply json_content_part_forward. lia.
    + intros b' r Hr. apply IH. simpl in Hf. lia.
  - apply (forward_item _ _ (fun _ q => json_content_items fuel q b)); [apply json_skip_value_fw|].
    intros s r Hr. apply IH. lia.
Qed.

Lemma json_content_fw (p : bytes) : forward p (json_content p).
Proof.
  unfold json_content. cbv zeta. apply forward_ws. destruct (at_byte _ QUOTE); [apply json_string_forward|].
  destruct (json_lit _ (B "null")) as [r|] eqn:E1; [by eapply json_lit_suffix in E1|].
  destruct (at_byte (json_ws p) x5b) eqn:E; cbn [negb].
  - apply at_byte_tl in E as [E1' E2]. eapply forward_suffix; [exact E1'|]. apply forward_ws.
    apply json_content_items_forward. lia.
  - apply forward_step; [apply json_skip_value_fw|]. eauto.
Qed.

(** The readers end on every text: no nesting, however deep, and no
    unterminated string or number makes [json_skip_value], [json_raw_value] or
    [json_content] run on, and when one succeeds its cursor has moved forward
    within the text.  [json_raw_value] then returns exactly the bytes it
    stepped over. *)
Theorem json_skip_value_forward (p : bytes) :
  (json_skip_value p = JFail \/
   exists rest, json_skip_value p = JOk tt rest /\ rest `suffix_of` p /\ (length rest < length p)%nat) /\
  match json_raw_value p with
  | JOk raw rest => json_ws p = raw ++ rest /\ raw <> [] /\ json_skip_value (json_ws p) = JOk tt rest
  | JFail => json_skip_value (json_ws p) = JFail
  | JFuel => False
  end /\
  match json_content p with
  | JOk _ rest => rest `suffix_of` p /\ (length rest < length p)%nat
  | JFail => True
  | JFuel => False
  end.
Proof.
  split; [|split].
  - pose proof (json_skip_value_fw p) as H. destruct (json_skip_value p) as [[] rest| |]; [right|by left|done].
    exists rest. destruct H. auto.
  - unfold json_raw_value. pose proof (json_skip_value_fw (json_ws p)) as H.
    destruct (json_skip_value (json_ws p)) as [[] rest| |]; [|done|done].
    destruct H as [[k Hk] Hlen]. rewrite Hk in *. rewrite length_app in Hlen |- *.
    replace (length k + length rest - length rest)%nat with (length k) by lia.
    rewrite take_app_length. split; [done|]. split; [|done]. intros ->. simpl in Hlen. lia.
  - apply json_content_fw.
Qed.

(** ** Strings read back *)

Lemma body_escape_byte (c : byte) (fuel : nat) (t acc : bytes) :
  json_string_body (S fuel) (escape_byte c ++ t) acc = json_string_body fuel t (c :: acc).
Proof. destruct c; reflexivity. Qed.

Lemma body_escape (s : bytes) : forall fuel rest acc, (length s < fuel)%nat ->
  json_string_body fuel (concat (map escape_byte s) ++ QUOTE :: rest) acc = JOk (rev acc ++ s) rest.
Proof.
  induction s as [|c s IH]; intros fuel rest acc Hf; (destruct fuel as [|fuel]; [simpl in Hf; lia|]).
  - simpl. by rewrite app_nil_r.
  - cbn [map concat]. rewrite <- app_assoc, body_escape_byte, IH by (simpl in Hf; lia).
    cbn [rev]. by rewrite <- app_assoc.
Qed.

Lemma escape_length (s : bytes) : (length s <= length (concat (map escape_byte s)))%nat.
Proof.
  induction s as [|c s IH]; simpl; [lia|]. rewrite length_app.
  assert (1 <= length (escape_byte c))%nat by (destruct c; simpl; lia). lia.
Qed.

Lemma string_escape (s rest : bytes) : json_string (json_escape s ++ rest) = JOk s rest.
Proof.
  unfold json_string, json_escape. cbn [app]. change (json_ws (QUOTE :: ?x)) with (QUOTE :: x).
  change (at_byte (QUOTE :: ?x) QUOTE) with true. cbn iota. cbn [tl length].
  rewrite <- app_assoc. cbn [app]. rewrite body_escape; [done|].
  rewrite length_app. cbn [length]. pose proof (escape_length s). lia.
Qed.

(** No byte of the output ends or breaks the literal early. *)
Definition literal_safe (b : byte) : bool := (0x20 <=? bz b) && negb (Byte.eqb b QUOTE).

(** What the server writes it reads back: for every C string,
    [json_string] on the output of [json_escape], behind any white space and
    before any further text, returns that string and stops right behind the
    closing quote; and the output holds no raw control character. *)
Theorem json_escape_roundtrip (ws s rest : bytes) :
  Forall (fun b => byte_isspace b = true) ws ->
  json_string (ws ++ json_escape s ++ rest) = JOk s rest /\
  Forall (fun b => 0x20 <= bz b) (json_escape s).
Proof.
  intros Hws. split.
  - rewrite <- (string_escape s rest). unfold json_string, json_ws.
    assert (skip_space (ws ++ json_escape s ++ rest) = json_escape s ++ rest) as ->; [|done].
    induction Hws as [|b ws Hb _ IH]; [done|]. cbn [app skip_space]. by rewrite Hb.
  - unfold json_escape. constructor; [by vm_compute|]. apply Forall_app. split.
    + induction s as [|c s IH]; [constructor|]. cbn [map concat]. apply Forall_app. split; [|done].
      destruct c; repeat constructor; by vm_compute.
    + constructor; [by vm_compute|constructor].
Qed.

(** ** Values read back *)

(** A reference data type of JSON values and its compact text. *)
Inductive jvalue :=
| JNull | JBool (b : bool) | JInt (z : Z) | JStr (s : bytes)
| JArr (l : list jvalue) | JObj (l : list (bytes * jvalue)).

Fixpoint print_json (v : jvalue) : bytes :=
  match v with
  | JNull => B "null"
  | JBool true => B "true"
  | JBool false => B "false"
  | JInt z => print_i64 z
  | JStr s => json_escape s
  | JArr l => x5b :: join_with x2c (map print_json l) ++ [x5d]
  | JObj l => x7b :: join_with x2c (map (fun kv => json_escape (fst kv) ++ x3a :: print_json (snd kv)) l) ++ [x7d]
  end.

(** How deep arrays and objects nest. *)
Fixpoint nesting (v : jvalue) : nat :=
  match v with
  | JArr l => S (list_max (map nesting l))
  | JObj l => S (list_max (map (fun kv => nesting (snd kv)) l))
  | _ => 0
  end.

Section JvalueInd.
Context (P : jvalue -> Prop).
Context (Hnull : P JNull) (Hbool : forall b, P (JBool b)) (Hint : forall z, P (JInt z)) (Hstr : forall s, P (JStr s)).
Context (Harr : forall l, Forall P l -> P (JArr l)).
Context (Hobj : forall l, Forall (fun kv => P (snd kv)) l -> P (JObj l)).

Fixpoint jvalue_ind' (v : jvalue) : P v :=
  match v with
  | JNull => Hnull
  | JBool b => Hbool b
  | JInt z => Hint z
  | JStr s => Hstr s
  | JArr l =>
      Harr l ((fix go (l : list jvalue) : Forall P l :=
        match l with [] => List.Forall_nil _ | v :: l' => List.Forall_cons _ _ _ (jvalue_ind' v) (go l') end) l)
  | JObj l =>
      Hobj l ((fix go (l : list (bytes * jvalue)) : Forall (fun kv => P (snd kv)) l :=
        match l with
        | [] => List.Forall_nil _
        | kv :: l' => List.Forall_cons _ _ _ (jvalue_ind' (snd kv)) (go l')
        end) l)
  end.
End JvalueInd.

(** Text a number cannot run into. *)
Definition number_stops (rest : bytes) : Prop :=
  match rest with
  | [] => True
  | b :: _ => byte_isdigit b = false /\ b <> x2e /\ b <> x65 /\ b <> x45 /\ b <> x78 /\ b <> x58
  end.

Lemma number_stops_dec (rest : bytes) : number_stops rest ->
  scan_digits rest 0 = (0, rest) /\ (forall v, scan_digits rest v = (v, rest)) /\
  scan_exponent x65 rest = (0, rest) /\ (forall b r, rest = b :: r -> Byte.eqb b x2e = false).
Proof.
  destruct rest as [|b rest]; [done|]. intros (H1 & H2 & H3 & H4 & H5 & H6). cbn [scan_digits scan_exponent].
  rewrite H1. split; [done|]. split; [done|]. split.
  - destruct (Byte.eqb (byte_tolower b) x65) eqn:E; [|done]. apply beqb_eq in E.
    destruct b; try done; vm_compute in E; discriminate E.
  - intros b' r [= <- <-]. by apply beqb_neq.
Qed.

Lemma digit_not_letters (b : byte) : byte_isdigit b = true ->
  byte_tolower b = b /\ Byte.eqb x69 b = false /\ Byte.eqb x6e b = false /\ Byte.eqb x78 b = false.
Proof. destruct b; done. Qed.

Lemma strtod_abs_digits (s rest : bytes) : s <> [] -> Forall (fun b => byte_isdigit b = true) s ->
  number_stops rest -> exists d e, strtod_abs (s ++ rest) = Some (d, rest, e).
Proof.
  intros Hne Hs Hr. destruct s as [|b s]; [done|]. apply Forall_cons in Hs as [Hb Hs].
  destruct (digit_not_letters b Hb) as (Hl & Hi & Hn & _). unfold strtod_abs.
  change (prefix_ci (B "infinity") ((b :: s) ++ rest)) with
    (if Byte.eqb x69 (byte_tolower b) then prefix_ci (B "nfinity") (s ++ rest) else None).
  change (prefix_ci (B "inf") ((b :: s) ++ rest)) with
    (if Byte.eqb x69 (byte_tolower b) then prefix_ci (B "nf") (s ++ rest) else None).
  change (prefix_ci (B "nan") ((b :: s) ++ rest)) with
    (if Byte.eqb x6e (byte_tolower b) then prefix_ci (B "an") (s ++ rest) else None).
  rewrite Hl, Hi, Hn.
  assert (prefix_ci (B "0x") ((b :: s) ++ rest) = None) as ->.
  { change (prefix_ci (B "0x") ((b :: s) ++ rest)) with
      (if Byte.eqb x30 (byte_tolower b) then prefix_ci (B "x") (s ++ rest) else None).
    case_match; [|done]. destruct s as [|c s].
    - destruct rest as [|c rest]; [done|]. destruct Hr as (_ & _ & _ & _ & H5 & H6).
      cbn. destruct c; done.
    - apply Forall_cons in Hs as [Hc _]. destruct (digit_not_letters c Hc) as (Hcl & _ & _ & Hx).
      cbn [app]. change (prefix_ci (B "x") (c :: ?x)) with (if Byte.eqb x78 (byte_tolower c) then Some x else None).
      by rewrite Hcl, Hx. }
  destruct (number_stops_dec rest Hr) as (_ & Hd & Hexp & Hdot).
  unfold scan_point. rewrite scan_digits_app by (by constructor). rewrite Hd.
  assert ((dist ((b :: s) ++ rest) rest =? 0) = false) as Hdist.
  { apply Z.eqb_neq. unfold dist. rewrite length_app. cbn [length]. lia. }
  destruct rest as [|c rest].
  - rewrite Hdist, Hexp. destruct (nearest _ 10 _). eauto.
  - rewrite (Hdot c rest eq_refl), Hdist, Hexp. destruct (nearest _ 10 _). eauto.
Qed.

Lemma strtod_int (z : Z) (rest : bytes) : number_stops rest ->
  exists d e, strtod (print_i64 z ++ rest) = (d, rest, e).
Proof.
  intros Hr. unfold strtod.
  assert (exists s, s <> [] /\ Forall (fun b => byte_isdigit b = true) s /\
    exists neg, scan_sign (skip_space (print_i64 z ++ rest)) = (neg, s ++ rest)) as (s & Hne & Hs & neg & ->).
  { unfold print_i64. destruct (Z.ltb_spec z 0).
    - exists (print_u64 (- z)). split; [by apply dec_digits_nonempty|].
      split; [apply print_u64_digits; lia|]. by exists true.
    - exists (print_u64 z). split; [by apply dec_digits_nonempty|]. split; [by apply print_u64_digits|].
      exists false. destruct (print_u64_cons z) as (b & s & -> & Hb); [done|].
      destruct (digit_plain b Hb) as (Hsp & Hm & Hp & _). cbn [app skip_space]. rewrite Hsp. cbn [scan_sign].
      apply beqb_neq in Hm as ->. by apply beqb_neq in Hp as ->. }
  destruct (strtod_abs_digits s rest Hne Hs Hr) as (d & e & ->). eauto.
Qed.

(** The first byte of a printed value is no white space. *)
Lemma print_head (v : jvalue) : exists b s, print_json v = b :: s /\ byte_isspace b = false.
Proof.
  destruct v as [|[]|z|s|l|l]; try by eexists _, _.
  cbn [print_json]. unfold print_i64. destruct (Z.ltb_spec z 0); [by eexists _, _|].
  destruct (print_u64_cons z) as (b & s & -> & Hb); [done|]. exists b, s. split; [done|].
  by destruct (digit_plain b Hb).
Qed.

Lemma ws_print (v : jvalue) (rest : bytes) : json_ws (print_json v ++ rest) = print_json v ++ rest.
Proof.
  destruct (print_head v) as (b & s & -> & Hb). unfold json_ws. cbn [app skip_space]. by rewrite Hb.
Qed.

Lemma skip_int (fuel d : nat) (z : Z) (rest : bytes) : (1 <= fuel)%nat -> number_stops rest ->
  json_skip_value_depth fuel (print_i64 z ++ rest) d = JOk tt rest.
Proof.
  intros Hf Hr. destruct fuel as [|fuel]; [lia|]. cbn [json_skip_value_depth].
  change (print_i64 z) with (print_json (JInt z)). rewrite ws_print. cbn [print_json].
  assert (exists b s, print_i64 z ++ rest = b :: s /\ (byte_isdigit b = true \/ b = x2d)) as (b & s & E & Hb).
  { unfold print_i64. destruct (Z.ltb_spec z 0); [by eexists _, _; split; [|right]|].
    destruct (print_u64_cons z) as (b & s & -> & Hb); [done|]. exists b, (s ++ rest). auto. }
  assert (json_number (print_i64 z ++ rest) = JOk (fst (fst (strtod (print_i64 z ++ rest)))) rest) as Hnum.
  { unfold json_number. change (print_i64 z) with (print_json (JInt z)). rewrite ws_print. cbn [print_json].
    destruct (strtod_int z rest Hr) as (v & e & ->). cbn [fst].
    destruct (Nat.eqb_spec (length rest) (length (print_i64 z ++ rest))) as [El|_]; [|done].
    rewrite length_app in El. destruct (print_i64 z) as [|c t] eqn:Ep; [|simpl in El; lia].
    destruct (print_head (JInt z)) as (? & ? & Eh & _). cbn [print_json] in Eh. congruence. }
  rewrite E in *. unfold at_byte, json_lit.
  change (str_prefixb (B "true") (b :: s)) with (Byte.eqb x74 b && str_prefixb (B "rue") s).
  change (str_prefixb (B "false") (b :: s)) with (Byte.eqb x66 b && str_prefixb (B "alse") s).
  change (str_prefixb (B "null") (b :: s)) with (Byte.eqb x6e b && str_prefixb (B "ull") s).
  assert (Byte.eqb b QUOTE = false /\ Byte.eqb b x7b = false /\ Byte.eqb b x5b = false /\
    Byte.eqb x74 b = false /\ Byte.eqb x66 b = false /\ Byte.eqb x6e b = false) as (-> & -> & -> & -> & -> & ->).
  { destruct Hb as [Hb| ->]; [|done]. destruct b; done. }
  cbn [andb]. by rewrite Hnum.
Qed.

(** The outcome skipping has on a printed value that starts at depth [d]. *)
Definition skip_outcome (d : nat) (v : jvalue) (rest : bytes) : jres unit :=
  if (d + nesting v <=? JSON_MAX_NESTING)%nat then JOk tt rest else JFail.

Definition skips_at (v : jvalue) : Prop :=
  forall fuel d rest, (d <= JSON_MAX_NESTING)%nat -> number_stops rest ->
  (3 * length (print_json v ++ rest) + 1 <= fuel)%nat ->
  json_skip_value_depth fuel (print_json v ++ rest) d = skip_outcome d v rest.

(** The items of an array and the members of an object, with what closes. *)
Definition array_tail (l : list jvalue) (rest : bytes) : bytes :=
  join_with x2c (map print_json l) ++ x5d :: rest.
Definition print_member (kv : bytes * jvalue) : bytes := json_escape (fst kv) ++ x3a :: print_json (snd kv).
Definition object_tail (l : list (bytes * jvalue)) (rest : bytes) : bytes :=
  join_with x2c (map print_member l) ++ x7d :: rest.

Lemma join_cons (sep : byte) (x : bytes) (l : list bytes) :
  join_with sep (x :: l) = x ++ match l with [] => [] | _ => sep :: join_with sep l end.
Proof. destruct l; simpl; [by rewrite app_nil_r|done]. Qed.

Lemma stops_after (c : byte) (rest : bytes) : c = x2c \/ c = x5d \/ c = x7d -> number_stops (c :: rest).
Proof. intros [-> |[-> | ->]]; simpl; repeat split; discriminate. Qed.

Definition max_ok (d : nat) (ns : list nat) : bool := (S d + list_max ns <=? JSON_MAX_NESTING)%nat.

Lemma array_loop_print (l : list jvalue) : Forall skips_at l -> l <> [] ->
  forall fuel d rest, (d < JSON_MAX_NESTING)%nat -> (3 * length (array_tail l rest) + 2 <= fuel)%nat ->
  json_array_loop fuel (array_tail l rest) d =
    if max_ok d (map nesting l) then JOk tt rest else JFail.
Proof.
  induction 1 as [|v l Hv Hl IH]; [done|]. intros _ fuel d rest Hd Hf.
  destruct fuel as [|fuel]; [lia|]. unfold array_tail in *. cbn [map] in *. rewrite join_cons in *.
  rewrite <- app_assoc in *. cbn [json_array_loop].
  set (more := match map print_json l with [] => [] | _ => x2c :: join_with x2c (map print_json l) end ++ x5d :: rest) in *.
  assert (exists c t, more = c :: t /\ (c = x2c \/ c = x5d \/ c = x7d)) as (c & t & Hmore & Hc).
  { subst more. destruct (map print_json l); simpl; eauto 10. }
  rewrite Hv; [|lia|rewrite Hmore; by apply stops_after|lia].
  unfold skip_outcome, max_ok.
  change (list_max (nesting v :: map nesting l)) with (Nat.max (nesting v) (list_max (map nesting l))).
  destruct (Nat.leb_spec (S d + nesting v) JSON_MAX_NESTING) as [Hn|Hn].
  2: { rewrite (proj2 (Nat.leb_gt _ _)) by lia. done. }
  destruct l as [|w l].
  - subst more. cbn [map app]. change (json_ws (x5d :: rest)) with (x5d :: rest).
    change (at_byte (x5d :: rest) x5d) with true. cbn iota. change (list_max []) with 0%nat.
    rewrite (proj2 (Nat.leb_le _ _)) by lia. done.
  - subst more. cbn [map] in *. cbn [app]. change (json_ws (x2c :: ?x)) with (x2c :: x).
    change (at_byte (x2c :: ?x) x5d) with false. change (at_byte (x2c :: ?x) x2c) with true. cbn [negb tl].
    rewrite length_app in Hf. cbn [app length] in Hf.
    pose proof (IH ltac:(done) fuel d rest Hd) as IH'. cbn [map] in IH'. rewrite IH' by lia. unfold max_ok.
    destruct (Nat.leb_spec (S d + list_max (nesting w :: map nesting l)) JSON_MAX_NESTING),
      (Nat.leb_spec (S d + Nat.max (nesting v) (list_max (nesting w :: map nesting l))) JSON_MAX_NESTING);
      (done || lia).
Qed.

Lemma object_loop_print (l : list (bytes * jvalue)) : Forall (fun kv => skips_at (snd kv)) l -> l <> [] ->
  forall fuel d rest, (d < JSON_MAX_NESTING)%nat -> (3 * length (object_tail l rest) + 2 <= fuel)%nat ->
  json_object_loop fuel (object_tail l rest) d =
    if max_ok d (map (fun kv => nesting (snd kv)) l) then JOk tt rest else JFail.
Proof.
  induction 1 as [|[k v] l Hv Hl IH]; [done|]. intros _ fuel d rest Hd Hf.
  destruct fuel as [|fuel]; [lia|]. unfold object_tail in *. cbn [map] in *. rewrite join_cons in *.
  unfold print_member at 1 in Hf. unfold print_member at 1. cbn [fst snd] in *.
  rewrite <- !app_assoc in *. cbn [app] in *. cbn [json_object_loop]. rewrite string_escape.
  change (json_ws (x3a :: ?x)) with (x3a :: x). change (at_byte (x3a :: ?x) x3a) with true. cbn [negb tl].
  set (more := match map print_member l with [] => [] | _ => x2c :: join_with x2c (map print_member l) end ++ x7d :: rest) in *.
  assert (exists c t, more = c :: t /\ (c = x2c \/ c = x5d \/ c = x7d)) as (c & t & Hmore & Hc).
  { subst more. destruct (map print_member l); simpl; eauto 10. }
  rewrite length_app in Hf. cbn [length] in Hf.
  rewrite Hv; [|lia|rewrite Hmore; by apply stops_after|lia].
  unfold skip_outcome, max_ok. 
  change (list_max (nesting v :: map (fun kv => nesting (snd kv)) l))
    with (Nat.max (nesting v) (list_max (map (fun kv => nesting (snd kv)) l))).
  destruct (Nat.leb_spec (S d + nesting v) JSON_MAX_NESTING) as [Hn|Hn].
  2: { rewrite (proj2 (Nat.leb_gt _ _)) by lia. done. }
  destruct l as [|w l].
  - subst more. cbn [map app]. change (json_ws (x7d :: rest)) with (x7d :: rest).
    change (at_byte (x7d :: rest) x7d) with true. cbn iota. change (list_max []) with 0%nat.
    rewrite (proj2 (Nat.leb_le _ _)) by lia. done.
  - subst more. cbn [map] in *. cbn [app]. change (json_ws (x2c :: ?x)) with (x2c :: x).
    change (at_byte (x2c :: ?x) x7d) with false. change (at_byte (x2c :: ?x) x2c) with true. cbn [negb tl].
    rewrite length_app in Hf. cbn [app length] in Hf.
    pose proof (IH ltac:(done) fuel d rest Hd) as IH'. cbn [map] in IH'. rewrite IH' by lia. unfold max_ok.
    set (m := list_max (nesting (snd w) :: map (fun kv => nesting (snd kv)) l)).
    destruct (Nat.leb_spec (S d + m) JSON_MAX_NESTING),
      (Nat.leb_spec (S d + Nat.max (nesting v) m) JSON_MAX_NESTING); (done || lia).
Qed.

Lemma join_tail_not (c : byte) (v : bytes) (l : list bytes) (rest : bytes) :
  (exists b s, v = b :: s /\ byte_isspace b = false /\ b <> c) ->
  json_ws (join_with x2c (v :: l) ++ rest) = join_with x2c (v :: l) ++ rest /\
  at_byte (join_with x2c (v :: l) ++ rest) c = false.
Proof.
  intros (b & s & -> & Hb & Hc). rewrite join_cons. unfold json_ws. cbn [app skip_space at_byte]. rewrite Hb.
  split; [done|]. by apply beqb_neq.
Qed.

Lemma print_head_not (v : jvalue) : exists b s, print_json v = b :: s /\ byte_isspace b = false /\ b <> x5d.
Proof.
  destruct v as [|[]|z|s|l|l]; try by eexists _, _.
  cbn [print_json]. unfold print_i64. destruct (Z.ltb_spec z 0); [by eexists _, _|].
  destruct (print_u64_cons z) as (b & s & -> & Hb); [done|]. exists b, s. split; [done|].
  by destruct b.
Qed.

Lemma print_skips (v : jvalue) : skips_at v.
Proof.
  induction v as [|b|z|s|l IH|l IH] using jvalue_ind'; intros fuel d rest Hd Hr Hf; unfold skip_outcome.
  - destruct fuel; [lia|]. cbn. rewrite Nat.add_0_r. by rewrite (proj2 (Nat.leb_le d _)).
  - destruct fuel; [lia|]. destruct b; cbn; rewrite Nat.add_0_r; by rewrite (proj2 (Nat.leb_le d _)).
  - cbn [print_json nesting] in *. rewrite skip_int by (done || lia). rewrite Nat.add_0_r.
    by rewrite (proj2 (Nat.leb_le d _)).
  - destruct fuel; [lia|]. cbn [json_skip_value_depth]. rewrite ws_print. cbn [print_json nesting].
    change (at_byte (json_escape s ++ rest) QUOTE) with true. cbn iota. rewrite string_escape, Nat.add_0_r.
    by rewrite (proj2 (Nat.leb_le d _)).
  - destruct fuel as [|[|fuel]]; [lia|cbn in Hf; lia|]. cbn [json_skip_value_depth]. rewrite ws_print.
    cbn [print_json nesting] in *. rewrite <- !app_comm_cons, <- app_assoc in *. cbn [app] in *.
    fold (array_tail l rest) in *.
    change (at_byte (x5b :: ?x) QUOTE) with false. change (at_byte (x5b :: ?x) x7b) with false.
    change (at_byte (x5b :: ?x) x5b) with true. cbn iota. cbn [json_skip_array_depth].
    destruct (Nat.leb_spec JSON_MAX_NESTING d).
    { rewrite (proj2 (Nat.leb_gt _ _)) by lia. done. }
    change (json_ws (x5b :: ?x)) with (x5b :: x). change (at_byte (x5b :: ?x) x5b) with true. cbn [negb tl].
    destruct l as [|v l].
    + change (array_tail [] rest) with (x5d :: rest). change (json_ws (x5d :: rest)) with (x5d :: rest).
      change (at_byte (x5d :: rest) x5d) with true. cbn iota. change (list_max (map nesting [])) with 0%nat.
      rewrite (proj2 (Nat.leb_le _ _)) by lia. done.
    + destruct (join_tail_not x5d (print_json v) (map print_json l) (x5d :: rest) (print_head_not v)) as [E1 E2].
      unfold array_tail in *. cbn [map] in *. rewrite E1, E2. cbn iota.
      pose proof (array_loop_print (v :: l) IH ltac:(done) fuel d rest) as Hloop.
      unfold array_tail in Hloop. cbn [map] in Hloop. cbn [app length] in *. rewrite Hloop by lia.
      unfold max_ok. rewrite <- (Nat.add_succ_comm d). done.
  - destruct fuel as [|[|fuel]]; [lia|cbn in Hf; lia|]. cbn [json_skip_value_depth]. rewrite ws_print.
    cbn [print_json nesting] in *. rewrite <- !app_comm_cons, <- app_assoc in *. cbn [app] in *.
    change (fun kv : bytes * jvalue => json_escape kv.1 ++ x3a :: print_json kv.2) with print_member in *.
    change (at_byte (x7b :: ?x) QUOTE) with false. change (at_byte (x7b :: ?x) x7b) with true.
    cbn iota. cbn [json_skip_object_depth].
    destruct (Nat.leb_spec JSON_MAX_NESTING d).
    { rewrite (proj2 (Nat.leb_gt _ _)) by lia. done. }
    change (json_ws (x7b :: ?x)) with (x7b :: x). change (at_byte (x7b :: ?x) x7b) with true. cbn [negb tl].
    destruct l as [|kv l].
    + change (json_ws (join_with x2c (map print_member []) ++ x7d :: rest)) with (x7d :: rest).
      change (at_byte (x7d :: rest) x7d) with true. cbn iota.
      change (list_max (map (fun kv : bytes * jvalue => nesting kv.2) [])) with 0%nat.
      rewrite (proj2 (Nat.leb_le _ _)) by lia. done.
    + cbn [map] in *.
      destruct (join_tail_not x7d (print_member kv) (map print_member l) (x7d :: rest)) as [E1 E2];
        [by eexists _, _|].
      rewrite E1, E2. cbn iota.
      pose proof (object_loop_print (kv :: l) IH ltac:(done) fuel d rest) as Hloop.
      unfold object_tail in Hloop. cbn [map] in Hloop. cbn [app length] in *. rewrite Hloop by lia.
      unfold max_ok. rewrite <- (Nat.add_succ_comm d). done.
Qed.

Lemma raw_value_here (v : jvalue) (rest : bytes) : number_stops rest ->
  json_raw_value (print_json v ++ rest) = if (nesting v <=? 256)%nat then JOk (print_json v) rest else JFail.
Proof.
  intros Hr. unfold json_raw_value. rewrite ws_print. unfold json_skip_value.
  rewrite print_skips; [|unfold JSON_MAX_NESTING; lia|done|unfold json_fuel; lia].
  unfold skip_outcome. change (0 + nesting v)%nat with (nesting v). change JSON_MAX_NESTING with 256%nat.
  destruct (nesting v <=? 256)%nat; [|done]. rewrite length_app.
  replace (length (print_json v) + length rest - length rest)%nat with (length (print_json v)) by lia.
  by rewrite take_app_length.
Qed.

(** Ignored fields are skipped exactly up to the ceiling: on the text of any
    JSON value, behind white space and before text that does not prolong a
    number, [json_raw_value] returns precisely that text when arrays and
    objects nest at most 256 deep, and fails when they nest deeper. *)
Theorem json_raw_value_print (ws : bytes) (v : jvalue) (rest : bytes) :
  Forall (fun b => byte_isspace b = true) ws -> number_stops rest ->
  json_raw_value (ws ++ print_json v ++ rest) =
    if (nesting v <=? 256)%nat then JOk (print_json v) rest else JFail.
Proof.
  intros Hws Hr. rewrite <- (raw_value_here v rest Hr). unfold json_raw_value. rewrite ws_print.
  assert (json_ws (ws ++ print_json v ++ rest) = print_json v ++ rest) as ->; [|done].
  induction Hws as [|b ws Hb _ IH]; [apply ws_print|]. unfold json_ws in *. cbn [app skip_space]. by rewrite Hb.
Qed.

(** ** Witnesses and examples *)

Lemma json_escape_roundtrip_witness :
  json_string (B " " ++ json_escape [x61; QUOTE; x01; x5c; x0a] ++ B ", ") =
    JOk [x61; QUOTE; x01; x5c; x0a] (B ", ").
Proof.
  refine (proj1 (json_escape_roundtrip (B " ") [x61; QUOTE; x01; x5c; x0a] (B ", ") _)).
  constructor; [reflexivity|constructor].
Defined.

Definition ex_value : jvalue :=
  JObj [(B "a", JArr [JInt (-12); JNull; JBool true]); (B "b", JStr (B "x"))].

Lemma json_raw_value_print_witness :
  json_raw_value (B " " ++ print_json ex_value ++ B ",") = JOk (print_json ex_value) (B ",").
Proof.
  refine (json_raw_value_print (B " ") ex_value (B ",") _ _).
  - constructor; [reflexivity|constructor].
  - simpl. repeat split; discriminate.
Defined.

(** A high surrogate eats the escape behind it: the pair of an unpaired
    surrogate and a letter reads as the surrogate's three bytes, which are no
    UTF-8, and the letter is lost. *)
Example surrogate_swallows : json_string (QUOTE :: B "\uD83D\u0041" ++ [QUOTE]) = JOk [xed; xa0; xbd] [].
Proof. vm_compute. reflexivity. Qed.

(** An escaped NUL is stored in the C string, which ends there. *)
Example escaped_nul : exists s, json_string (QUOTE :: B "a\u0000b" ++ [QUOTE]) = JOk s [] /\ c_str s = B "a".
Proof. eexists. split; vm_compute; reflexivity. Qed.
