(* ===== verification/ServerStream.v ===== *)
(** * Streaming of generated text (ds4_server.c)

    Stop sequences, the UTF-8 boundary rule and the plain text stream of
    [generate_job]: which bytes of the growing text are sent after each token,
    where generation is cut, and what the final flush sends.  Texts are
    buffers; [strstr] reads them up to their first NUL. *)
From S2P Require Import Prelude.
From S2P Require Import CNum.
From S2P Require Import CFloat.
From S2P Require Import ServerJson.

(** ** Stop lists *)

Record stop_list := StopList { sl_v : list bytes; max_len : nat }.

Definition stop_list_clear (stops : stop_list) : stop_list := StopList [] 0.

(** [s] is a C string; [None] is NULL. *)
Definition stop_list_push (stops : stop_list) (s : option bytes) : stop_list :=
  match s with
  | None | Some [] => stops
  | Some s =>
      let n := length s in
      StopList (sl_v stops ++ [s]) (if (max_len stops <? n)%nat then n else max_len stops)
  end.

(** The loop of [parse_stop] over the items of an array. *)
Fixpoint parse_stop_items (fuel : nat) (p : bytes) (out : stop_list) : jres stop_list :=
  match fuel with
  | O => JFuel
  | S fuel =>
      match p with
      | [] => JFail
      | c :: rest =>
          if Byte.eqb c x5d then JOk out rest
          else
            let next (p : bytes) (out : stop_list) :=
              let p := json_ws p in
              let p := if at_byte p x2c then tl p else p in
              parse_stop_items fuel (json_ws p) out in
            if Byte.eqb c QUOTE then
              jlet (s, p) := json_string p in next p (stop_list_push out (Some (c_str s)))
            else
              jlet (u, p) := json_skip_value p in next p out
      end
  end.

Definition parse_stop (p : bytes) (out : stop_list) : jres stop_list :=
  let p := json_ws p in
  let out := stop_list_clear out in
  if at_byte p QUOTE then
    jlet (s, p) := json_string p in JOk (stop_list_push out (Some (c_str s))) p
  else if negb (at_byte p x5b) then jlet (u, p) := json_skip_value p in JOk out p
  else let p := json_ws (tl p) in parse_stop_items (S (length p)) p out.

(** Offset of the first occurrence: [strstr]. *)
Fixpoint strstr_pos (s needle : bytes) : option nat :=
  if str_prefixb needle s then Some 0%nat
  else match s with
       | [] => None
       | _ :: s' => S <$> strstr_pos s' needle
       end.

(** [strstr(text + from, stop) - text]. *)
Definition find_at (text : bytes) (from : nat) (stop : bytes) : option nat :=
  (fun p => from + p)%nat <$> strstr_pos (c_str (drop from text)) stop.

(** The loop of [stop_list_find_from]: the leftmost hit, the earlier entry
    among equals. *)
Definition best_hit (text : bytes) (from : nat) (best : option (nat * nat)) (stop : bytes)
    : option (nat * nat) :=
  match find_at text from stop with
  | None => best
  | Some ppos =>
      match best with
      | Some (bpos, blen) => if (ppos <? bpos)%nat then Some (ppos, length stop) else best
      | None => Some (ppos, length stop)
      end
  end.

(** Position and length of the hit; [None] is [false]. *)
Definition stop_list_find_from (stops : stop_list) (text : bytes) (from : nat) : option (nat * nat) :=
  foldl (best_hit text from) None (sl_v stops).

Definition stop_list_stream_safe_len (stops : stop_list) (text_len : nat) : nat :=
  if (length (sl_v stops) =? 0)%nat || (max_len stops <=? 1)%nat then text_len
  else
    let hold := (max_len stops - 1)%nat in
    if (hold <? text_len)%nat then (text_len - hold)%nat else 0%nat.

(** ** UTF-8 boundaries *)

Definition utf8_expected_len (c : Z) : nat :=
  if c <? 0x80 then 1
  else if (0xc2 <=? c) && (c <=? 0xdf) then 2
  else if (0xe0 <=? c) && (c <=? 0xef) then 3
  else if (0xf0 <=? c) && (c <=? 0xf4) then 4
  else 1.

Definition byte_at (s : bytes) (i : nat) : Z := bz (nth i s NUL).

Definition is_cont (c : Z) : bool := Z.land c 0xc0 =? 0x80.

(** [while (p > start && cont < 4 && is_cont(s[p - 1])) p--], [n] turns left. *)
Fixpoint back_over_cont (n : nat) (s : bytes) (start p : nat) : nat :=
  match n with
  | O => p
  | S n' =>
      if (start <? p)%nat && is_cont (byte_at s (p - 1)) then back_over_cont n' s start (p - 1) else p
  end.

Definition utf8_stream_safe_len (s : bytes) (start limit : nat) (final : bool) : nat :=
  if final || (limit <=? start)%nat then limit
  else
    let p := back_over_cont 4 s start limit in
    if (p =? limit)%nat then
      if (1 <? utf8_expected_len (byte_at s (limit - 1)))%nat then (limit - 1)%nat else limit
    else if (p =? start)%nat && is_cont (byte_at s p) then start
    else
      let lead := (p - 1)%nat in
      let need := utf8_expected_len (byte_at s lead) in
      if (limit - lead <? need)%nat then lead else limit.

(** ** The plain stream of [generate_job] *)

(** [text], [plain_stream_pos], [stop_scan_from] and the deltas sent. *)
Record plain_stream := PlainStream {
  ps_text : bytes;
  plain_stream_pos : nat;
  stop_scan_from : nat;
  ps_sent : list bytes
}.

Definition plain_start : plain_stream := PlainStream [] 0 0 [].

(** One generated piece of a streamed, unstructured request whose chunks are
    delivered: the state behind it, and whether a stop was hit (the text is
    then cut and decoding ends). *)
Definition stream_piece (stops : stop_list) (st : plain_stream) (piece : bytes) : plain_stream * bool :=
  let text := ps_text st ++ piece in
  let hit := stop_list_find_from stops text (stop_scan_from st) in
  let hit_stop := match hit with Some _ => true | None => false end in
  let stream_len :=
    match hit with Some (pos, _) => pos | None => stop_list_stream_safe_len stops (length text) end in
  let stream_len := if (length text <? stream_len)%nat then length text else stream_len in
  let stream_len := utf8_stream_safe_len text (plain_stream_pos st) stream_len hit_stop in
  let scan_from :=
    if negb hit_stop && (1 <? max_len stops)%nat then
      let hold := (max_len stops - 1)%nat in
      if (hold <? length text)%nat then (length text - hold)%nat else 0%nat
    else stop_scan_from st in
  let '(pos, sent) :=
    if (plain_stream_pos st <? stream_len)%nat then
      (stream_len,
       ps_sent st ++ [take (stream_len - plain_stream_pos st) (drop (plain_stream_pos st) text)])
    else (plain_stream_pos st, ps_sent st) in
  (PlainStream (match hit with Some (p, _) => take p text | None => text end) pos scan_from sent, hit_stop).

(** The pieces in turn, up to a stop. *)
Fixpoint stream_pieces (stops : stop_list) (st : plain_stream) (pieces : list bytes) : plain_stream * bool :=
  match pieces with
  | [] => (st, false)
  | piece :: more =>
      let '(st, hit) := stream_piece stops st piece in
      if hit then (st, true) else stream_pieces stops st more
  end.

(** The flush behind the loop. *)
Definition final_flush (st : plain_stream) : plain_stream :=
  let n := length (ps_text st) in
  if (plain_stream_pos st <? n)%nat then
    PlainStream (ps_text st) n (stop_scan_from st)
      (ps_sent st ++ [take (n - plain_stream_pos st) (drop (plain_stream_pos st) (ps_text st))])
  else st.
