(* ===== verification/ServerStreamProps.v ===== *)
(** * Properties of the text stream

    Scanning for stop sequences from where the last scan left off finds what a
    full scan finds; what is streamed is the text cut at the first stop; and a
    held-back delta ends between UTF-8 characters. *)
From S2P Require Import Prelude.
From S2P Require Import CNum.
From S2P Require Import CFloat.
From S2P Require Import ServerJson.
From S2P Require Import ServerStream.

(** ** Occurrences *)

(** A stop of the list stands at offset [k]. *)
Definition occurs (stops : stop_list) (text : bytes) (k : nat) : Prop :=
  exists s, s ∈ sl_v stops /\ str_prefixb s (drop k text) = true.

Definition no_nul (s : bytes) : Prop := NUL ∉ s.

(** Stops are non-empty C strings within the recorded maximum. *)
Definition stops_wf (stops : stop_list) : Prop :=
  Forall (fun s => s <> [] /\ no_nul s /\ (length s <= max_len stops)%nat) (sl_v stops).

Lemma stop_push_wf (stops : stop_list) (s : bytes) : stops_wf stops ->
  stops_wf (stop_list_push stops (Some (c_str s))).
Proof.
  unfold stops_wf. intros Hw. cbn [stop_list_push]. destruct (c_str s) as [|c t] eqn:E; [done|].
  cbn [sl_v max_len]. apply Forall_app. split.
  - eapply Forall_impl; [exact Hw|]. cbv beta. intros x (H1 & H2 & H3). split; [done|]. split; [done|].
    case_match eqn:Em; [|done]. apply Nat.ltb_lt in Em. lia.
  - constructor; [|constructor]. split; [done|]. split; [rewrite <- E; apply c_str_no_nul|].
    case_match eqn:Em; [done|]. apply Nat.ltb_ge in Em. done.
Qed.

Lemma parse_stop_items_wf (fuel : nat) : forall p out out' rest, stops_wf out ->
  parse_stop_items fuel p out = JOk out' rest -> stops_wf out'.
Proof.
  induction fuel as [|fuel IH]; intros p out out' rest Hw; cbn [parse_stop_items]; [done|].
  destruct p as [|c p]; [done|]. destruct (Byte.eqb c x5d); [by intros [= <- _]|]. cbv zeta.
  destruct (Byte.eqb c QUOTE).
  - destruct (json_string (c :: p)) as [s q| |]; try done. apply IH. by apply stop_push_wf.
  - destruct (json_skip_value (c :: p)) as [u q| |]; try done. by apply IH.
Qed.

(** Whatever the request's [stop] field holds, the list built from it is well
    formed. *)
Lemma parse_stop_wf (p rest : bytes) (out out' : stop_list) :
  parse_stop p out = JOk out' rest -> stops_wf out'.
Proof.
  assert (stops_wf (stop_list_clear out)) as Hw by constructor.
  unfold parse_stop. destruct (at_byte (json_ws p) QUOTE).
  - destruct (json_string (json_ws p)) as [s q| |]; try done. intros [= <- _]. by apply stop_push_wf.
  - destruct (negb _).
    + destruct (json_skip_value (json_ws p)) as [u q| |]; try done. by intros [= <- _].
    + by apply parse_stop_items_wf.
Qed.

Lemma strstr_pos_some (s needle : bytes) (i : nat) : strstr_pos s needle = Some i ->
  str_prefixb needle (drop i s) = true /\ forall j, (j < i)%nat -> str_prefixb needle (drop j s) = false.
Proof.
  revert i. induction s as [|b s IH]; intros i; cbn [strstr_pos].
  - destruct (str_prefixb needle []) eqn:E; [|done]. intros [= <-]. split; [done|]. intros. lia.
  - destruct (str_prefixb needle (b :: s)) eqn:E.
    + intros [= <-]. split; [done|]. intros. lia.
    + destruct (strstr_pos s needle) as [k|]; [|done]. intros [= <-]. destruct (IH k eq_refl) as [H1 H2].
      split; [done|]. intros [|j] Hj; [done|]. apply H2. lia.
Qed.

Lemma strstr_pos_none (s needle : bytes) : strstr_pos s needle = None ->
  forall j, str_prefixb needle (drop j s) = false.
Proof.
  induction s as [|b s IH]; cbn [strstr_pos].
  - destruct (str_prefixb needle []) eqn:E; [done|]. intros _ j. by rewrite drop_nil.
  - destruct (str_prefixb needle (b :: s)) eqn:E; [done|].
    destruct (strstr_pos s needle) as [k|]; [done|]. intros _ [|j]; [done|]. by apply IH.
Qed.

Lemma no_nul_drop (n : nat) (s : bytes) : no_nul s -> no_nul (drop n s).
Proof. unfold no_nul. intros H Hin. apply H. rewrite <- (take_drop n s). apply elem_of_app. by right. Qed.

Lemma find_at_spec (text stop : bytes) (from : nat) : no_nul text ->
  match find_at text from stop with
  | Some p => (from <= p)%nat /\ str_prefixb stop (drop p text) = true /\
      forall j, (from <= j < p)%nat -> str_prefixb stop (drop j text) = false
  | None => forall j, (from <= j)%nat -> str_prefixb stop (drop j text) = false
  end.
Proof.
  intros Hn. unfold find_at. rewrite c_str_id by (by apply no_nul_drop).
  destruct (strstr_pos (drop from text) stop) as [i|] eqn:E; cbn [fmap option_fmap option_map].
  - apply strstr_pos_some in E as [H1 H2]. rewrite drop_drop in H1. split; [lia|]. split; [done|].
    intros j Hj. specialize (H2 (j - from)%nat ltac:(lia)). rewrite drop_drop in H2.
    by replace (from + (j - from))%nat with j in H2 by lia.
  - intros j Hj. pose proof (strstr_pos_none _ _ E (j - from)%nat) as H. rewrite drop_drop in H.
    by replace (from + (j - from))%nat with j in H by lia.
Qed.

(** The hits of a list of stops from an offset on. *)
Definition hit_spec (l : list bytes) (text : bytes) (from : nat) (r : option (nat * nat)) : Prop :=
  match r with
  | Some (p, n) => (from <= p)%nat /\ (exists s, s ∈ l /\ length s = n /\ str_prefixb s (drop p text) = true) /\
      forall s j, s ∈ l -> (from <= j < p)%nat -> str_prefixb s (drop j text) = false
  | None => forall s j, s ∈ l -> (from <= j)%nat -> str_prefixb s (drop j text) = false
  end.

Lemma best_hit_spec (text : bytes) (from : nat) (l : list bytes) (best : option (nat * nat)) (stop : bytes) :
  no_nul text -> hit_spec l text from best -> hit_spec (l ++ [stop]) text from (best_hit text from best stop).
Proof.
  intros Hn Hb. pose proof (find_at_spec text stop from Hn) as Hf. unfold best_hit.
  destruct (find_at text from stop) as [p|].
  - destruct Hf as (Hp & Hs & Hbefore). destruct best as [[bp bn]|].
    + destruct Hb as (Hbp & (s & Hin & Hlen & Hpre) & Hmin). destruct (Nat.ltb_spec p bp).
      * split; [done|]. split; [exists stop; split; [set_solver|done]|].
        intros s' j [Hs'| ->%list_elem_of_singleton]%elem_of_app Hj; [apply Hmin; [done|lia]|by apply Hbefore].
      * split; [done|]. split; [exists s; split; [set_solver|done]|].
        intros s' j [Hs'| ->%list_elem_of_singleton]%elem_of_app Hj; [by apply Hmin|apply Hbefore; lia].
    + split; [done|]. split; [exists stop; split; [set_solver|done]|].
      intros s' j [Hs'| ->%list_elem_of_singleton]%elem_of_app Hj; [apply Hb; [done|lia]|by apply Hbefore].
  - destruct best as [[bp bn]|].
    + destruct Hb as (Hbp & (s & Hin & Hlen & Hpre) & Hmin). split; [done|].
      split; [exists s; split; [set_solver|done]|].
      intros s' j [Hs'| ->%list_elem_of_singleton]%elem_of_app Hj; [by apply Hmin|apply Hf; lia].
    + intros s' j [Hs'| ->%list_elem_of_singleton]%elem_of_app Hj; [by apply Hb|by apply Hf].
Qed.

Lemma find_from_spec (stops : stop_list) (text : bytes) (from : nat) : no_nul text ->
  hit_spec (sl_v stops) text from (stop_list_find_from stops text from).
Proof.
  intros Hn. unfold stop_list_find_from.
  induction (sl_v stops) as [|s l IH] using rev_ind; [by intros s j H%elem_of_nil|].
  rewrite foldl_app. by apply best_hit_spec.
Qed.

Lemma find_from_occurs (stops : stop_list) (text : bytes) (from : nat) : no_nul text ->
  match stop_list_find_from stops text from with
  | Some (p, _) => (from <= p)%nat /\ occurs stops text p /\ forall j, (from <= j < p)%nat -> ~ occurs stops text j
  | None => forall j, (from <= j)%nat -> ~ occurs stops text j
  end.
Proof.
  intros Hn. pose proof (find_from_spec stops text from Hn) as H.
  destruct (stop_list_find_from stops text from) as [[p n]|]; unfold hit_spec in H.
  - destruct H as (H1 & (s & Hin & _ & Hs) & H3). split; [done|]. split; [by exists s|].
    intros j Hj (s' & Hin' & Hs'). by rewrite (H3 s' j Hin' Hj) in Hs'.
  - intros j Hj (s & Hin & Hs). by rewrite (H s j Hin Hj) in Hs.
Qed.

(** ** The boundary rule stays in range *)

Lemma back_over_cont_spec (n : nat) (s : bytes) (start : nat) : forall p, (start <= p)%nat ->
  let q := back_over_cont n s start p in
  (start <= q <= p)%nat /\ (p - q <= n)%nat /\ (forall i, (q <= i < p)%nat -> is_cont (byte_at s i) = true).
Proof.
  induction n as [|n IH]; intros p Hp; cbn [back_over_cont]; [repeat split; try lia; intros; lia|].
  destruct (start <? p)%nat eqn:E; cbn [andb]; [apply Nat.ltb_lt in E|repeat split; try lia; intros; lia].
  destruct (is_cont (byte_at s (p - 1))) eqn:Ec; [|repeat split; try lia; intros; lia].
  destruct (IH (p - 1)%nat ltac:(lia)) as (H1 & H2 & H3). split; [lia|]. split; [lia|].
  intros i Hi. destruct (Nat.eq_dec i (p - 1)%nat) as [-> |]; [done|]. apply H3. lia.
Qed.

Lemma utf8_safe_range (s : bytes) (start limit : nat) (final : bool) : (start <= limit)%nat ->
  (start <= utf8_stream_safe_len s start limit final <= limit)%nat.
Proof.
  intros H. unfold utf8_stream_safe_len. destruct (final || (limit <=? start)%nat) eqn:E; [lia|].
  apply orb_false_iff in E as [_ E%Nat.leb_gt].
  destruct (back_over_cont_spec 4 s start limit H) as (H1 & _ & H3). cbv zeta in *.
  set (p := back_over_cont 4 s start limit) in *.
  destruct (Nat.eqb_spec p limit); [destruct (1 <? _)%nat; lia|].
  destruct (Nat.eqb_spec p start) as [Ep|]; cbn [andb].
  - rewrite H3 by lia. lia.
  - case_match; lia.
Qed.

(** ** The stream *)

(** The state behind pieces that held no stop. *)
Record stream_inv (stops : stop_list) (st : plain_stream) : Prop := {
  si_none : forall j, ~ occurs stops (ps_text st) j;
  si_nul : no_nul (ps_text st);
  si_scan : (stop_scan_from st <= length (ps_text st))%nat /\
    forall k, (k + max_len stops <= length (ps_text st))%nat \/ (stop_scan_from st <= k)%nat;
  si_pos : (plain_stream_pos st <= length (ps_text st))%nat /\
    ((plain_stream_pos st + (max_len stops - 1) <= length (ps_text st) \/ plain_stream_pos st = 0)%nat \/
     sl_v stops = []);
  si_sent : concat (ps_sent st) = take (plain_stream_pos st) (ps_text st)
}.

Lemma occurs_app (stops : stop_list) (t more : bytes) (k : nat) : stops_wf stops ->
  (k + max_len stops <= length t)%nat -> occurs stops (t ++ more) k -> occurs stops t k.
Proof.
  intros Hw Hk (s & Hin & Hs). exists s. split; [done|].
  unfold stops_wf in Hw. rewrite Forall_forall in Hw. destruct (Hw s Hin) as (_ & _ & Hl).
  apply str_prefixb_spec in Hs as [r Hr]. apply str_prefixb_spec. rewrite drop_app_le in Hr by lia.
  exists (drop (length s) (drop k t)).
  assert (s = take (length s) (drop k t)) as Hst.
  { pose proof (f_equal (take (length s)) Hr) as E. rewrite take_app_length, take_app_le in E; [done|].
    rewrite length_drop. lia. }
  rewrite Hst at 1. by rewrite take_drop.
Qed.

(** Scanning on from [stop_scan_from] misses nothing. *)
Lemma scan_complete (stops : stop_list) (st : plain_stream) (piece : bytes) (k : nat) :
  stops_wf stops -> stream_inv stops st -> occurs stops (ps_text st ++ piece) k -> (stop_scan_from st <= k)%nat.
Proof.
  intros Hw [Hnone _ [_ Hscan] _ _] Hk. destruct (Hscan k) as [H|]; [|done].
  exfalso. apply (Hnone k). by eapply occurs_app.
Qed.

Lemma max_len_pos (stops : stop_list) (text : bytes) (k : nat) : stops_wf stops -> occurs stops text k ->
  (1 <= max_len stops)%nat /\ (k < length text)%nat /\ sl_v stops <> [].
Proof.
  intros Hw (s & Hin & Hs). unfold stops_wf in Hw. rewrite Forall_forall in Hw.
  destruct (Hw s Hin) as (H1 & _ & H3). assert (1 <= length s)%nat by (destruct s; [done|simpl; lia]).
  split; [lia|]. apply str_prefixb_spec in Hs as [r Hr].
  assert (length (drop k text) = length s + length r)%nat as El by (rewrite Hr, length_app; done).
  rewrite length_drop in El. split; [lia|]. intros E. rewrite E in Hin. by apply elem_of_nil in Hin.
Qed.

Lemma concat_sent (sent : list bytes) (text : bytes) (p q : nat) : (p <= q)%nat ->
  concat sent = take p text -> concat (sent ++ [take (q - p) (drop p text)]) = take q text.
Proof.
  intros Hpq Hs. rewrite concat_app, Hs. cbn [concat]. rewrite app_nil_r.
  rewrite take_take_drop. by replace (p + (q - p))%nat with q by lia.
Qed.

(** A piece without a stop keeps the invariant; a piece with one ends with
    exactly the text before the leftmost stop sent. *)
Lemma stream_piece_spec (stops : stop_list) (st st' : plain_stream) (piece : bytes) (hit : bool) :
  stops_wf stops -> stream_inv stops st -> no_nul piece ->
  stream_piece stops st piece = (st', hit) ->
  let text := ps_text st ++ piece in
  if hit then
    exists k, occurs stops text k /\ (forall j, (j < k)%nat -> ~ occurs stops text j) /\
      ps_text st' = take k text /\ concat (ps_sent st') = take k text /\ plain_stream_pos st' = k
  else stream_inv stops st' /\ ps_text st' = text.
Proof.
  intros Hw Hi Hp Hst text. pose proof Hi as [Hnone Hnul [Hsl Hscan] [Hpl Hpos] Hsent].
  assert (no_nul text) as Hnt by (unfold no_nul, text in *; rewrite elem_of_app; tauto).
  pose proof (find_from_occurs stops text (stop_scan_from st) Hnt) as Hf.
  unfold stream_piece in Hst. fold text in Hst.
  assert (length text = length (ps_text st) + length piece)%nat as Hlen by (apply length_app).
  destruct (stop_list_find_from stops text (stop_scan_from st)) as [[k n]|].
  - destruct Hf as (Hk & Hocc & Hmin). cbn [negb andb] in Hst.
    destruct (max_len_pos _ _ _ Hw Hocc) as (Hml & Hkl & Hne).
    rewrite (proj2 (Nat.ltb_ge (length text) k)) in Hst by lia.
    unfold utf8_stream_safe_len in Hst. cbn [orb] in Hst.
    assert (plain_stream_pos st <= k)%nat as Hle.
    { destruct Hpos as [[Hpos|]|]; [|lia|done]. destruct (le_lt_dec (plain_stream_pos st) k) as [|Hlt]; [done|].
      exfalso. apply (Hnone k). eapply (occurs_app _ _ piece); [done|lia|exact Hocc]. }
    assert (forall j, (j < k)%nat -> ~ occurs stops text j) as Hfirst.
    { intros j Hj Hoj. apply (Hmin j); [|done]. split; [|done]. by eapply scan_complete. }
    assert (concat (ps_sent st) = take (plain_stream_pos st) text) as Hsent'.
    { rewrite Hsent. unfold text. by rewrite take_app_le by lia. }
    destruct (Nat.ltb_spec (plain_stream_pos st) k); simplify_eq; exists k.
    + do 3 (split; [done|]). split; [|done]. by apply concat_sent; [lia|].
    + assert (plain_stream_pos st = k) as <- by lia. do 3 (split; [done|]). by split.
  - cbn [negb andb] in Hst.
    set (safe := stop_list_stream_safe_len stops (length text)) in Hst.
    assert (safe <= length text /\ (safe + (max_len stops - 1) <= length text \/ safe = 0 \/ sl_v stops = []))%nat
      as [Hs1 Hs2].
    { unfold safe, stop_list_stream_safe_len.
      destruct (Nat.eqb_spec (length (sl_v stops)) 0) as [E|]; cbn [orb].
      { destruct (sl_v stops); [|simpl in E; lia]. split; [lia|]. right. by right. }
      destruct (Nat.leb_spec (max_len stops) 1); [lia|].
      destruct (Nat.ltb_spec (max_len stops - 1) (length text)); lia. }
    rewrite (proj2 (Nat.ltb_ge (length text) safe)) in Hst by lia.
    set (len := utf8_stream_safe_len text (plain_stream_pos st) safe false) in Hst.
    assert (plain_stream_pos st < len -> len <= safe)%nat as Hlen2.
    { intros Hlt. unfold len in *. destruct (le_lt_dec (plain_stream_pos st) safe) as [Hle|Hgt].
      - by apply utf8_safe_range.
      - unfold utf8_stream_safe_len in *. rewrite (proj2 (Nat.leb_le safe _)) in * by lia. cbn [orb] in *. lia. }
    assert (forall j, ~ occurs stops text j) as Hnone'.
    { intros j Hoj. apply (Hf j); [|done]. by eapply scan_complete. }
    set (scan := if (1 <? max_len stops)%nat then
      if (max_len stops - 1 <? length text)%nat then (length text - (max_len stops - 1))%nat else 0%nat
      else stop_scan_from st) in Hst.
    assert (scan <= length text /\ forall k, (k + max_len stops <= length text)%nat \/ (scan <= k)%nat)%nat as Hscan'.
    { unfold scan. destruct (Nat.ltb_spec 1 (max_len stops)).
      - destruct (Nat.ltb_spec (max_len stops - 1) (length text)); (split; [lia|intros; lia]).
      - split; [lia|]. intros k. destruct (Hscan k); [left; lia|by right]. }
    assert (hit = false /\ ps_text st' = text /\ stop_scan_from st' = scan /\
      ((plain_stream_pos st' = len /\ (plain_stream_pos st < len)%nat /\
        ps_sent st' = ps_sent st ++ [take (len - plain_stream_pos st) (drop (plain_stream_pos st) text)]) \/
       (plain_stream_pos st' = plain_stream_pos st /\ ps_sent st' = ps_sent st))) as (-> & Ht & Hsc & Hcase).
    { destruct (Nat.ltb_spec (plain_stream_pos st) len); simplify_eq; (split; [done|]); (split; [done|]);
        (split; [done|]); [left|right]; done. }
    split; [|done]. split; rewrite ?Ht, ?Hsc; try done.
    + destruct Hcase as [(-> & Hlt & _)|[-> _]].
      * specialize (Hlen2 Hlt). split; [lia|]. destruct Hs2 as [|[|Hnil]]; [left; lia|lia|by right].
      * split; [lia|]. destruct Hpos as [[|]|]; [left; lia|left; lia|by right].
    + assert (concat (ps_sent st) = take (plain_stream_pos st) text) as Hsent'.
      { rewrite Hsent. unfold text. by rewrite take_app_le by lia. }
      destruct Hcase as [(-> & Hlt & ->)|[-> ->]]; [|done]. apply concat_sent; [lia|done].
Qed.

Lemma stream_start_inv (stops : stop_list) : stops_wf stops -> stream_inv stops plain_start.
Proof.
  intros Hw. split; cbn; try done.
  - intros j Hj. destruct (max_len_pos _ _ _ Hw Hj) as (_ & H & _). simpl in H. lia.
  - by intros ?%elem_of_nil.
  - split; [lia|]. intros k. right. lia.
  - split; [lia|]. left. by right.
Qed.

Lemma stream_pieces_spec (stops : stop_list) (pieces : list bytes) : stops_wf stops -> Forall no_nul pieces ->
  forall st st' hit, stream_inv stops st -> stream_pieces stops st pieces = (st', hit) ->
  if hit then
    exists pre piece more k, pieces = pre ++ piece :: more /\
      (forall j, ~ occurs stops (ps_text st ++ concat pre) j) /\
      let text := ps_text st ++ concat pre ++ piece in
      occurs stops text k /\ (forall j, (j < k)%nat -> ~ occurs stops text j) /\
      ps_text st' = take k text /\ concat (ps_sent st') = take k text /\ plain_stream_pos st' = k
  else stream_inv stops st' /\ ps_text st' = ps_text st ++ concat pieces.
Proof.
  intros Hw Hps. induction Hps as [|piece pieces Hp _ IH]; intros st st' hit Hi Hst; cbn [stream_pieces] in Hst.
  - simplify_eq. cbn. by rewrite app_nil_r.
  - destruct (stream_piece stops st piece) as [st1 hit1] eqn:E1.
    pose proof (stream_piece_spec stops st st1 piece hit1 Hw Hi Hp E1) as H1. destruct hit1.
    + simplify_eq. destruct H1 as (k & H2). exists [], piece, pieces, k. split; [done|].
      split; [|exact H2]. cbn. rewrite app_nil_r. apply Hi.
    + destruct H1 as [Hi1 Ht1]. specialize (IH st1 st' hit Hi1 Hst). destruct hit.
      * destruct IH as (pre & p & more & k & -> & Hnone & H2). exists (piece :: pre), p, more, k.
        split; [done|]. rewrite Ht1 in *. cbn [concat]. rewrite <- !app_assoc in *. split; [exact Hnone|exact H2].
      * destruct IH as [Hi2 Ht2]. split; [done|]. rewrite Ht2, Ht1. cbn [concat]. by rewrite <- app_assoc.
Qed.

(** C13 What a client of the plain stream receives is the generated text cut at
    the first stop.  For every stop list that [parse_stop] can build and every
    sequence of pieces without NUL: if no stop is hit, no stop occurs in the
    whole text and the chunks, with the final flush, concatenate to all of it;
    if one is hit, no stop had occurred before that piece and the chunks
    concatenate to exactly the text before the leftmost stop, so no byte of a
    stop sequence is ever sent, although each step scans only the tail. *)
Theorem plain_stream_cut (stops : stop_list) (pieces : list bytes) :
  stops_wf stops -> Forall no_nul pieces ->
  let '(st, hit) := stream_pieces stops plain_start pieces in
  let received := concat (ps_sent (final_flush st)) in
  if hit then
    exists pre piece more k, pieces = pre ++ piece :: more /\
      (forall j, ~ occurs stops (concat pre) j) /\
      let text := concat pre ++ piece in
      occurs stops text k /\ (forall j, (j < k)%nat -> ~ occurs stops text j) /\
      received = take k text /\ ps_text st = take k text
  else (forall j, ~ occurs stops (concat pieces) j) /\ received = concat pieces /\ ps_text st = concat pieces.
Proof.
  intros Hw Hps. destruct (stream_pieces stops plain_start pieces) as [st hit] eqn:E.
  pose proof (stream_pieces_spec stops pieces Hw Hps plain_start st hit (stream_start_inv stops Hw) E) as H.
  destruct hit.
  - destruct H as (pre & piece & more & k & -> & Hnone & Hocc & Hmin & Ht & Hs & Hpos).
    exists pre, piece, more, k. cbn [plain_start ps_text app] in *.
    do 4 (split; [done|]). split; [|done]. unfold final_flush. rewrite Ht, Hpos.
    destruct (Nat.ltb_spec k (length (take k (concat pre ++ piece)))) as [Hl|_]; [|done].
    rewrite length_take in Hl. lia.
  - destruct H as [Hi Ht]. cbn [plain_start ps_text app] in Ht. rewrite Ht.
    destruct Hi as [Hnone _ _ [Hpl _] Hsent]. rewrite Ht in *. split; [done|]. split; [|done].
    unfold final_flush. rewrite Ht. destruct (Nat.ltb_spec (plain_stream_pos st) (length (concat pieces))).
    + cbn [ps_sent]. rewrite (concat_sent _ (concat pieces) (plain_stream_pos st)) by (done || lia).
      by rewrite firstn_all.
    + rewrite Hsent. apply take_ge. lia.
Qed.

(** ** UTF-8 *)

(** Text of code points. *)
Definition utf8_text (cps : list Z) : bytes := concat (map utf8_put cps).

Definition code_point (cp : Z) : Prop := 0 <= cp <= 0x10ffff.

(** A position between two characters. *)
Definition char_boundary (cps : list Z) (b : nat) : Prop :=
  exists n, (n <= length cps)%nat /\ b = length (utf8_text (take n cps)).

Lemma shiftr_div (cp k : Z) : 0 <= k -> Z.shiftr cp k = cp / 2 ^ k.
Proof. intros. by apply Z.shiftr_div_pow2. Qed.

Lemma land_63 (x : Z) : Z.land x 0x3f = x mod 64.
Proof. change 0x3f with (Z.ones 6). by rewrite Z.land_ones. Qed.

Lemma cont_byte (x : Z) : bz (zb (Z.lor 0x80 (Z.land x 0x3f))) = 128 + x mod 64.
Proof.
  rewrite land_63. pose proof (Z.mod_pos_bound x 64 ltac:(lia)).
  change 0x80 with (2 * 2 ^ 6). rewrite lor_fields by lia. apply bz_zb. lia.
Qed.

Lemma is_cont_byte (b : byte) : is_cont (bz b) = (128 <=? bz b) && (bz b <? 192).
Proof. destruct b; reflexivity. Qed.

Lemma is_cont_tail (x : Z) : is_cont (bz (zb (Z.lor 0x80 (Z.land x 0x3f)))) = true.
Proof.
  rewrite is_cont_byte, cont_byte. pose proof (Z.mod_pos_bound x 64 ltac:(lia)).
  rewrite (proj2 (Z.leb_le _ _)), (proj2 (Z.ltb_lt _ _)) by lia. done.
Qed.

(** The shape of an encoded code point: a lead byte that announces the length,
    then continuation bytes. *)
Lemma utf8_put_shape (cp : Z) : code_point cp -> exists lead tail,
  utf8_put cp = lead :: tail /\ is_cont (bz lead) = false /\
  utf8_expected_len (bz lead) = S (length tail) /\ (length tail <= 3)%nat /\
  Forall (fun b => is_cont (bz b) = true) tail.
Proof.
  unfold code_point. intros Hcp.
  assert (forall x lo hi, 0 <= lo -> hi < 256 -> lo <= x <= hi -> (192 <= lo \/ hi < 128) ->
    bz (zb x) = x /\ is_cont (bz (zb x)) = false) as Hlead.
  { intros x lo hi H1 H2 H3 H4. rewrite is_cont_byte, !bz_zb by lia. split; [done|].
    destruct H4; [rewrite (proj2 (Z.ltb_ge x 192)) by lia; apply andb_false_r|].
    by rewrite (proj2 (Z.leb_gt 128 x)) by lia. }
  unfold utf8_put. destruct (Z.leb_spec cp 0x7f).
  - exists (zb cp), []. destruct (Hlead cp 0 127) as [-> ->]; [lia..|]. split; [done|]. split; [done|].
    unfold utf8_expected_len. rewrite (proj2 (Z.ltb_lt cp 128)) by lia. split; [done|]. split; [simpl; lia|constructor].
  - destruct (Z.leb_spec cp 0x7ff).
    + rewrite shiftr_div by lia. change 0xc0 with (6 * 2 ^ 5).
      assert (2 <= cp / 2 ^ 6 < 32) by (split; [apply Z.div_le_lower_bound|apply Z.div_lt_upper_bound]; lia).
      rewrite lor_fields by lia. eexists _, _. split; [reflexivity|].
      destruct (Hlead (6 * 2 ^ 5 + cp / 2 ^ 6) 0xc2 0xdf) as [-> ->]; [lia..|]. split; [done|].
      unfold utf8_expected_len. rewrite (proj2 (Z.ltb_ge _ 128)) by lia.
      rewrite (proj2 (Z.leb_le 194 _)), (proj2 (Z.leb_le _ 223)) by lia.
      split; [done|]. split; [simpl; lia|]. constructor; [apply is_cont_tail|constructor].
    + destruct (Z.leb_spec cp 0xffff).
      * rewrite !shiftr_div by lia. change 0xe0 with (14 * 2 ^ 4).
        assert (0 <= cp / 2 ^ 12 < 16) by (split; [apply Z.div_pos|apply Z.div_lt_upper_bound]; lia).
        rewrite lor_fields by lia. eexists _, _. split; [reflexivity|].
        destruct (Hlead (14 * 2 ^ 4 + cp / 2 ^ 12) 0xe0 0xef) as [-> ->]; [lia..|]. split; [done|].
        unfold utf8_expected_len. rewrite (proj2 (Z.ltb_ge _ 128)) by lia.
        rewrite (proj2 (Z.leb_gt _ 223)) by lia. rewrite andb_false_r.
        rewrite (proj2 (Z.leb_le 224 _)), (proj2 (Z.leb_le _ 239)) by lia.
        split; [done|]. split; [simpl; lia|]. do 2 (constructor; [apply is_cont_tail|]). constructor.
      * rewrite !shiftr_div by lia. change 0xf0 with (30 * 2 ^ 3).
        assert (0 <= cp / 2 ^ 18 < 5) by (split; [apply Z.div_pos|apply Z.div_lt_upper_bound]; lia).
        rewrite lor_fields by lia. eexists _, _. split; [reflexivity|].
        destruct (Hlead (30 * 2 ^ 3 + cp / 2 ^ 18) 0xf0 0xf4) as [-> ->]; [lia..|]. split; [done|].
        unfold utf8_expected_len. rewrite (proj2 (Z.ltb_ge _ 128)) by lia.
        rewrite (proj2 (Z.leb_gt _ 223)), andb_false_r by lia.
        rewrite (proj2 (Z.leb_gt _ 239)), andb_false_r by lia.
        rewrite (proj2 (Z.leb_le 240 _)), (proj2 (Z.leb_le _ 244)) by lia.
        split; [done|]. split; [simpl; lia|]. do 3 (constructor; [apply is_cont_tail|]). constructor.
Qed.

Lemma back_to_lead (n : nat) (s : bytes) (start l : nat) : (start <= l)%nat -> is_cont (byte_at s l) = false ->
  forall p, (l < p)%nat -> (p - S l < n)%nat -> (forall i, (l < i < p)%nat -> is_cont (byte_at s i) = true) ->
  back_over_cont n s start p = S l.
Proof.
  intros Hsl Hl. induction n as [|n IH]; intros p Hp Hn Hc; [lia|]. cbn [back_over_cont].
  rewrite (proj2 (Nat.ltb_lt start p)) by lia. cbn [andb].
  destruct (Nat.eq_dec p (S l)) as [-> |].
  - replace (S l - 1)%nat with l by lia. by rewrite Hl.
  - rewrite Hc by lia. apply IH; [lia|lia|]. intros i Hi. apply Hc. lia.
Qed.

(** The rule on the character whose lead byte is at [l]. *)
Lemma safe_len_at (s : bytes) (start l limit len : nat) : (start <= l)%nat -> (l < limit <= l + len)%nat ->
  (len <= 4)%nat -> is_cont (byte_at s l) = false -> utf8_expected_len (byte_at s l) = len ->
  (forall i, (l < i < limit)%nat -> is_cont (byte_at s i) = true) ->
  utf8_stream_safe_len s start limit false = if (limit =? l + len)%nat then limit else l.
Proof.
  intros Hs Hl Hlen Hlead Hexp Hcont. unfold utf8_stream_safe_len. cbn [orb].
  rewrite (proj2 (Nat.leb_gt limit start)) by lia.
  rewrite (back_to_lead 4 s start l) by (done || lia). replace (S l - 1)%nat with l by lia.
  destruct (Nat.eqb_spec (S l) limit) as [<-|Hne].
  - replace (S l - 1)%nat with l by lia. rewrite Hexp.
    destruct (Nat.ltb_spec 1 len), (Nat.eqb_spec (S l) (l + len)); lia.
  - rewrite (proj2 (Nat.eqb_neq (S l) start)) by lia. cbn [andb]. rewrite Hexp.
    destruct (Nat.ltb_spec (limit - l) len), (Nat.eqb_spec limit (l + len)); lia.
Qed.

Lemma utf8_text_app (a b : list Z) : utf8_text (a ++ b) = utf8_text a ++ utf8_text b.
Proof. unfold utf8_text. by rewrite map_app, concat_app. Qed.

(** The character a position falls into, or ends. *)
Lemma char_at (cps : list Z) (limit : nat) : (0 < limit <= length (utf8_text cps))%nat ->
  exists pre cp post, cps = pre ++ cp :: post /\
    (length (utf8_text pre) < limit <= length (utf8_text pre) + length (utf8_put cp))%nat.
Proof.
  revert limit. induction cps as [|cp cps IH]; intros limit Hl; [simpl in Hl; lia|].
  unfold utf8_text in Hl. cbn [map concat] in Hl. fold (utf8_text cps) in Hl. rewrite length_app in Hl.
  destruct (le_lt_dec limit (length (utf8_put cp))).
  - exists [], cp, cps. split; [done|]. simpl. lia.
  - destruct (IH (limit - length (utf8_put cp))%nat ltac:(lia)) as (pre & c & post & -> & H).
    exists (cp :: pre), c, post. split; [done|]. unfold utf8_text in *. cbn [map concat]. rewrite length_app. lia.
Qed.

Lemma boundary_cases (pre post : list Z) (cp : Z) (b : nat) : char_boundary (pre ++ cp :: post) b ->
  (b <= length (utf8_text pre) \/ length (utf8_text pre) + length (utf8_put cp) <= b)%nat.
Proof.
  intros (n & Hn & ->). destruct (le_lt_dec n (length pre)).
  - left. rewrite take_app_le by lia. unfold utf8_text.
    rewrite <- (take_drop n pre) at 2. rewrite map_app, concat_app, length_app. lia.
  - right. rewrite take_app_ge by lia. replace (n - length pre)%nat with (S (n - length pre - 1)) by lia.
    cbn [take]. rewrite utf8_text_app, length_app. unfold utf8_text. cbn [map concat]. rewrite length_app. lia.
Qed.

(** A delta never splits a character: when the generated text so far is the
    beginning, possibly mid-character, of some UTF-8 text, and streaming
    stands at a character boundary, [utf8_stream_safe_len] returns the last
    character boundary at or before the limit, so at most the bytes of one
    incomplete character are held back. *)
Theorem utf8_stream_safe_len_boundary (cps : list Z) (s rest : bytes) (start limit : nat) :
  Forall code_point cps -> utf8_text cps = s ++ rest -> (start <= limit <= length s)%nat ->
  char_boundary cps start ->
  let r := utf8_stream_safe_len s start limit false in
  char_boundary cps r /\ (r <= limit)%nat /\ (limit - r <= 3)%nat /\
  forall b, char_boundary cps b -> (b <= limit)%nat -> (b <= r)%nat.
Proof.
  intros Hcps Htext Hl Hstart r.
  destruct (Nat.eq_dec limit start) as [-> |Hne].
  { assert (r = start) as ->; [|split; [done|]; split; [done|]; split; [lia|done]].
    unfold r, utf8_stream_safe_len. rewrite (proj2 (Nat.leb_le start start)) by lia. by rewrite orb_true_r. }
  assert (length (utf8_text cps) = length s + length rest)%nat as Hlen by (rewrite Htext; apply length_app).
  destruct (char_at cps limit ltac:(lia)) as (pre & cp & post & -> & Hpos).
  apply Forall_app in Hcps as [_ [Hcp _]%Forall_cons].
  destruct (utf8_put_shape cp Hcp) as (lead & tail & Hput & Hlead & Hexp & Htail & Hconts).
  set (l := length (utf8_text pre)) in *. rewrite Hput in Hpos. cbn [length] in Hpos.
  assert (forall i, (i < limit)%nat -> (l <= i)%nat -> byte_at s i = bz (nth (i - l) (lead :: tail) NUL)) as Hat.
  { intros i Hi Hil. unfold byte_at. f_equal.
    rewrite <- (app_nth1 s rest) by lia. rewrite <- Htext, utf8_text_app, app_nth2 by (fold l; lia). fold l.
    change (utf8_text (cp :: post)) with (utf8_put cp ++ utf8_text post). rewrite Hput.
    apply app_nth1. cbn [length]. lia. }
  assert (start <= l)%nat as Hsl.
  { destruct (boundary_cases _ _ _ _ Hstart) as [|Hb]; [done|]. rewrite Hput in Hb. cbn [length] in Hb. lia. }
  assert (r = if (limit =? l + S (length tail))%nat then limit else l) as Hr.
  { apply safe_len_at; [done|lia|lia|..].
    - rewrite Hat by lia. replace (l - l)%nat with 0%nat by lia. done.
    - rewrite Hat by lia. replace (l - l)%nat with 0%nat by lia. done.
    - intros i Hi. rewrite Hat by lia. destruct (i - l)%nat as [|k] eqn:Ek; [lia|]. cbn [nth].
      rewrite Forall_forall in Hconts. apply Hconts. apply list_elem_of_In, nth_In. lia. }
  assert (char_boundary (pre ++ cp :: post) l) as Hbl.
  { exists (length pre). split; [rewrite length_app; simpl; lia|]. by rewrite take_app_length. }
  assert (char_boundary (pre ++ cp :: post) (l + S (length tail))) as Hbr.
  { exists (S (length pre)). split; [rewrite length_app; simpl; lia|].
    replace (S (length pre)) with (length (pre ++ [cp])) by (rewrite length_app; simpl; lia).
    replace (pre ++ cp :: post) with ((pre ++ [cp]) ++ post) by (by rewrite <- app_assoc).
    rewrite take_app_length, utf8_text_app, length_app. unfold l. f_equal. unfold utf8_text. cbn [map concat].
    by rewrite app_nil_r, Hput. }
  rewrite Hr. destruct (Nat.eqb_spec limit (l + S (length tail))) as [->|].
  - split; [done|]. split; [done|]. split; [lia|done].
  - split; [done|]. split; [lia|]. split; [lia|]. intros b Hb Hbl'.
    destruct (boundary_cases _ _ _ _ Hb) as [|Hb']; [done|]. rewrite Hput in Hb'. cbn [length] in Hb'. lia.
Qed.

(** ** Witnesses *)

Definition ex_stops : stop_list :=
  stop_list_push (stop_list_push (stop_list_clear (StopList [] 0)) (Some (B "END"))) (Some (B "STOP")).

Lemma ex_stops_wf : stops_wf ex_stops.
Proof. apply (stop_push_wf _ (B "STOP")), (stop_push_wf _ (B "END")). constructor. Qed.

Lemma plain_stream_cut_witness :
  concat (ps_sent (final_flush (fst (stream_pieces ex_stops plain_start [B "go S"; B "TO"])))) = B "go STO".
Proof.
  assert (Forall no_nul [B "go S"; B "TO"]) as Hn
    by (unfold no_nul; eapply bool_decide_unpack; vm_compute; exact I).
  pose proof (plain_stream_cut ex_stops [B "go S"; B "TO"] ex_stops_wf Hn) as H.
  destruct (stream_pieces ex_stops plain_start [B "go S"; B "TO"]) as [st hit] eqn:E.
  assert (hit = false) as -> by (apply (f_equal snd) in E; vm_compute in E; congruence).
  exact (proj1 (proj2 H)).
Defined.

(** With the rest of the stop the stream ends before it. *)
Example ex_stream_stop :
  ps_sent (final_flush (fst (stream_pieces ex_stops plain_start [B "go S"; B "TO"; B "P it"]))) =
    [B "g"; B "o "].
Proof. vm_compute. reflexivity. Qed.

Lemma utf8_stream_safe_len_boundary_witness :
  char_boundary [0x61; 0xe9; 0x1f600] (utf8_stream_safe_len (take 6 (utf8_text [0x61; 0xe9; 0x1f600])) 1 6 false).
Proof.
  refine (proj1 (utf8_stream_safe_len_boundary [0x61; 0xe9; 0x1f600]
    (take 6 (utf8_text [0x61; 0xe9; 0x1f600])) (drop 6 (utf8_text [0x61; 0xe9; 0x1f600])) 1 6 _ _ _ _)).
  - repeat constructor; discriminate.
  - symmetry. apply take_drop.
  - vm_compute. lia.
  - exists 1%nat. split; [simpl; lia|reflexivity].
Defined.
