(* ===== verification/ServerMsgs.v ===== *)
(** * Messages and live tool state (ds4_server.c)

    Tool calls, chat messages and the lists of call ids of the server, and the
    live state that binds the ids of one assistant turn to a token frontier.
    C strings that may be null pointers are options; the arrays of the source
    grow by doubling and are lists here. *)
From S2P Require Import Prelude.
From S2P Require Import CNum.
From S2P Require Import CFloat.
From S2P Require Import ServerJson.
From S2P Require Import ServerStream.

(** ** Data *)

Record tool_call := ToolCall { tc_id : option bytes; tc_name : option bytes; tc_arguments : option bytes }.

Record tool_calls := ToolCalls { tcs_v : list tool_call; raw_dsml : option bytes }.

Record chat_msg := ChatMsg {
  role : option bytes;
  content : option bytes;
  reasoning : option bytes;
  tool_call_id : option bytes;
  tool_call_ids : list bytes;
  calls : tool_calls
}.
#[export] Instance tool_call_fields : Fields tool_call :=
  rd_pure ToolCall <*> tc_id <*> tc_name <*> tc_arguments.
#[export] Instance tool_calls_fields : Fields tool_calls := rd_pure ToolCalls <*> tcs_v <*> raw_dsml.
#[export] Instance chat_msg_fields : Fields chat_msg :=
  rd_pure ChatMsg <*> role <*> content <*> reasoning <*> tool_call_id <*> tool_call_ids <*> calls.

(** [id && id[0]]. *)
Definition nonempty (s : option bytes) : option bytes :=
  match s with Some (c :: s') => Some (c :: s') | _ => None end.

Definition tool_calls_push (cs : tool_calls) (tc : tool_call) : tool_calls :=
  cs <| tcs_v := tcs_v cs ++ [tc] |>.

Definition chat_msgs_push (msgs : list chat_msg) (msg : chat_msg) : list chat_msg := msgs ++ [msg].

Definition chat_msg_add_tool_call_id (m : chat_msg) (id : option bytes) : chat_msg :=
  match nonempty id with
  | None => m
  | Some id =>
      let m := match tool_call_id m with None => m <| tool_call_id := Some id |> | Some _ => m end in
      if existsb (fun x => str_eqb x id) (tool_call_ids m) then m
      else m <| tool_call_ids := tool_call_ids m ++ [id] |>
  end.

(** ** Lists of ids *)

Definition id_list_contains (ids : stop_list) (id : option bytes) : bool :=
  match nonempty id with
  | None => false
  | Some id => existsb (fun x => str_eqb x id) (sl_v ids)
  end.

Definition id_list_push_unique (ids : stop_list) (id : option bytes) : stop_list :=
  match nonempty id with
  | None => ids
  | Some s => if id_list_contains ids id then ids else stop_list_push ids (Some s)
  end.

Definition collect_msg_ids (ids : stop_list) (m : chat_msg) : stop_list :=
  let ids := id_list_push_unique ids (tool_call_id m) in
  let ids := foldl (fun ids id => id_list_push_unique ids (Some id)) ids (tool_call_ids m) in
  foldl (fun ids tc => id_list_push_unique ids (tc_id tc)) ids (tcs_v (calls m)).

Definition collect_tool_call_ids (msgs : list chat_msg) (ids : stop_list) : stop_list :=
  foldl collect_msg_ids ids msgs.

Definition tool_calls_contains_id (cs : tool_calls) (id : bytes) (upto : nat) : bool :=
  match id with
  | [] => false
  | _ => existsb (fun tc => match tc_id tc with Some x => str_eqb x id | None => false end) (take upto (tcs_v cs))
  end.

(** ** Live state *)

Record live_tool_state := LiveToolState {
  lt_valid : bool;
  lt_live_tokens : Z;
  lt_visible_text : option bytes;
  call_ids : stop_list
}.

Record visible_live_state := VisibleLiveState {
  vl_valid : bool;
  vl_live_tokens : Z;
  vl_visible_text : option bytes
}.

Definition live_tool_state_clear_locked (st : live_tool_state) : live_tool_state :=
  LiveToolState false 0 None (stop_list_clear (call_ids st)).

Definition visible_live_clear_locked (st : visible_live_state) : visible_live_state :=
  VisibleLiveState false 0 None.

(** [pos] is [ds4_session_pos(s->session)]. *)
Definition thinking_live_remember (st : visible_live_state) (visible_text : option bytes) (pos : Z)
    : visible_live_state :=
  match nonempty visible_text with
  | None => st
  | Some text => VisibleLiveState true pos (Some text)
  end.

Definition push_call_ids (ids : stop_list) (cs : tool_calls) : stop_list :=
  foldl (fun ids tc => id_list_push_unique ids (tc_id tc)) ids (tcs_v cs).

Definition responses_live_remember (st : live_tool_state) (visible_text : option bytes)
    (cs : option tool_calls) (pos : Z) : live_tool_state :=
  match nonempty visible_text with
  | None => st
  | Some text =>
      let st := live_tool_state_clear_locked st in
      let ids := match cs with Some cs => push_call_ids (call_ids st) cs | None => call_ids st end in
      LiveToolState true pos (Some text) ids
  end.

Definition anthropic_live_remember (st : live_tool_state) (cs : option tool_calls) (pos : Z) : live_tool_state :=
  match cs with
  | Some (ToolCalls (_ :: _) _ as cs) =>
      let st := live_tool_state_clear_locked st in
      let ids := push_call_ids (call_ids st) cs in
      LiveToolState (negb (length (sl_v ids) =? 0)%nat) pos (lt_visible_text st) ids
  | _ => st
  end.

(** [responses_live_has_call_id] and [anthropic_live_has_call_id]. *)
Definition live_has_call_id (st : live_tool_state) (id : option bytes) : bool :=
  match nonempty id with
  | None => false
  | Some _ => lt_valid st && id_list_contains (call_ids st) id
  end.

(** [responses_live_matches_request] and [anthropic_live_matches_request]. *)
Definition live_matches_request (st : live_tool_state) (ids : stop_list) (live_tokens : Z) : bool :=
  if (length (sl_v ids) =? 0)%nat then false
  else
    lt_valid st && (lt_live_tokens st =? live_tokens) &&
    (length (sl_v (call_ids st)) =? length (sl_v ids))%nat &&
    forallb (fun id => id_list_contains (call_ids st) (Some id)) (sl_v ids).
