(* ===== verification/Dsml.v ===== *)
(** * The DSML text of tool calls (ds4_server.c)

    How tool calls are written into the prompt and read back from generated
    text: the argument list of a JSON object, the escapes, the renderer, and
    the parser with its three spellings of the tags.  A pointer into a text is
    the rest of the text behind it; functions that append to a buffer return
    the bytes they append. *)
From S2P Require Import Prelude.
From S2P Require Import CNum.
From S2P Require Import CFloat.
From S2P Require Import ServerJson.
From S2P Require Import ServerStream.
From S2P Require Import ServerMsgs.
Open Scope Z_scope.

(** ** Arguments of a call *)

Record json_arg := JsonArg { arg_key : bytes; arg_value : bytes; arg_is_string : bool; arg_used : bool }.
#[export] Instance json_arg_fields : Fields json_arg :=
  rd_pure JsonArg <*> arg_key <*> arg_value <*> arg_is_string <*> arg_used.

(** The first unused argument of that name, with its index. *)
Definition json_args_find_unused (args : list json_arg) (key : option bytes) : option (Z * json_arg) :=
  match key with
  | None => None
  | Some k => find_index (fun a => negb (arg_used a) && str_eqb (arg_key a) k) args 0
  end.

(** The loop over the members; strings are kept as C strings. *)
Fixpoint json_args_loop (fuel : nat) (p : bytes) (args : list json_arg) : jres (list json_arg) :=
  match fuel with
  | O => JFuel
  | S fuel =>
      match p with
      | [] => JFail
      | c :: _ =>
          if Byte.eqb c x7d then JOk args p
          else
            jlet ( key , p ) := json_string p in
            let p := json_ws p in
            if negb (at_byte p x3a) then JFail
            else
              let p := json_ws (tl p) in
              if at_byte p QUOTE then
                jlet ( value , p ) := json_string p in
                json_args_loop fuel (next_item p) (args ++ [JsonArg (c_str key) (c_str value) true false])
              else
                jlet ( raw , p ) := json_raw_value p in
                json_args_loop fuel (next_item p)
                  (args ++ [JsonArg (c_str key) (json_minify_raw_value (Some raw)) false false])
      end
  end.

Definition json_args_parse (json : option bytes) : jres (list json_arg) :=
  let p := json_ws (default [] json) in
  if negb (at_byte p x7b) then JFail
  else let p := json_ws (tl p) in json_args_loop (S (length p)) p [].

(** ** Escapes *)

Definition DS4_DSML : bytes := B "｜DSML｜".
Definition DS4_DSML_SHORT : bytes := B "DSML｜".

Definition DS4_TOOL_CALLS_START : bytes := B "<" ++ DS4_DSML ++ B "tool_calls>".
Definition DS4_TOOL_CALLS_END : bytes := B "</" ++ DS4_DSML ++ B "tool_calls>".
Definition DS4_INVOKE_START : bytes := B "<" ++ DS4_DSML ++ B "invoke".
Definition DS4_INVOKE_END : bytes := B "</" ++ DS4_DSML ++ B "invoke>".
Definition DS4_PARAM_START : bytes := B "<" ++ DS4_DSML ++ B "parameter".
Definition DS4_PARAM_END : bytes := B "</" ++ DS4_DSML ++ B "parameter>".
Definition DS4_TOOL_CALLS_START_SHORT : bytes := B "<" ++ DS4_DSML_SHORT ++ B "tool_calls>".
Definition DS4_TOOL_CALLS_END_SHORT : bytes := B "</" ++ DS4_DSML_SHORT ++ B "tool_calls>".
Definition DS4_INVOKE_START_SHORT : bytes := B "<" ++ DS4_DSML_SHORT ++ B "invoke".
Definition DS4_INVOKE_END_SHORT : bytes := B "</" ++ DS4_DSML_SHORT ++ B "invoke>".
Definition DS4_PARAM_START_SHORT : bytes := B "<" ++ DS4_DSML_SHORT ++ B "parameter".
Definition DS4_PARAM_END_SHORT : bytes := B "</" ++ DS4_DSML_SHORT ++ B "parameter>".

Definition attr_byte (c : byte) : bytes :=
  if Byte.eqb c x26 then B "&amp;"
  else if Byte.eqb c x3c then B "&lt;"
  else if Byte.eqb c x3e then B "&gt;"
  else if Byte.eqb c QUOTE then B "&quot;"
  else [c].

Definition append_dsml_attr_escaped (s : option bytes) : bytes := concat (map attr_byte (default [] s)).

(** The loop that writes [repl] for the first byte of every closing tag. *)
Fixpoint protect (tag repl s : bytes) : bytes :=
  match s with
  | [] => []
  | c :: s' => (if str_prefixb tag s then repl else [c]) ++ protect tag repl s'
  end.

Definition append_dsml_parameter_text (s : option bytes) : bytes := protect DS4_PARAM_END (B "&lt;") (default [] s).
Definition append_tool_result_text (s : option bytes) : bytes := protect (B "</tool_result>") (B "&lt;") (default [] s).
Definition append_dsml_json_literal (s : option bytes) : bytes := protect DS4_PARAM_END (B "\u003c") (default [] s).

(** ** Writing calls *)

Definition append_dsml_arg (arg : json_arg) : bytes :=
  DS4_PARAM_START ++ B " name=" ++ [QUOTE] ++ append_dsml_attr_escaped (Some (arg_key arg)) ++
  [QUOTE] ++ B " string=" ++ [QUOTE] ++ B (if arg_is_string arg then "true" else "false") ++ [QUOTE] ++ B ">" ++
  (if arg_is_string arg then append_dsml_parameter_text (Some (arg_value arg))
   else append_dsml_json_literal (Some (arg_value arg))) ++
  DS4_PARAM_END ++ [LF].

(** The properties of the schema first, as far as they are given. *)
Definition append_ordered (acc : bytes * list json_arg) (prop : option bytes) : bytes * list json_arg :=
  let '(b, args) := acc in
  match json_args_find_unused args prop with
  | None => (b, args)
  | Some (i, arg) => (b ++ append_dsml_arg arg, <[Z.to_nat i := arg <| arg_used := true |>]> args)
  end.

(** [None]: the text is no JSON object. *)
Definition append_dsml_arguments_from_json (json : option bytes) (order : option (list (option bytes))) : option bytes :=
  match json_args_parse json with
  | JOk args _ =>
      let '(b, args) := foldl append_ordered ([], args) (default [] order) in
      Some (b ++ concat (map (fun a => if arg_used a then [] else append_dsml_arg a) args))
  | _ => None
  end.

Definition append_json_arg_pair (arg : json_arg) : bytes :=
  json_escape (arg_key arg) ++ B ":" ++ (if arg_is_string arg then json_escape (arg_value arg) else arg_value arg).

Definition append_json_object_or_empty (json : option bytes) : bytes :=
  match json_args_parse json with
  | JOk args _ => B "{" ++ join_with x2c (map append_json_arg_pair args) ++ B "}"
  | _ => B "{}"
  end.

Definition append_dsml_call (tc : tool_call) : bytes :=
  DS4_INVOKE_START ++ B " name=" ++ [QUOTE] ++ append_dsml_attr_escaped (tc_name tc) ++ [QUOTE] ++ B ">" ++ [LF] ++
  match append_dsml_arguments_from_json (tc_arguments tc) None with
  | Some b => b
  | None =>
      DS4_PARAM_START ++ B " name=" ++ [QUOTE] ++ B "arguments" ++ [QUOTE] ++ B " string=" ++ [QUOTE] ++ B "true" ++
      [QUOTE] ++ B ">" ++ append_dsml_parameter_text (tc_arguments tc) ++ DS4_PARAM_END ++ [LF]
  end ++ DS4_INVOKE_END ++ [LF].

Definition append_dsml_tool_calls_text (cs : option tool_calls) : bytes :=
  match cs with
  | None | Some (ToolCalls [] _) => []
  | Some cs =>
      match nonempty (raw_dsml cs) with
      | Some raw => raw
      | None =>
          [LF; LF] ++ DS4_TOOL_CALLS_START ++ [LF] ++ concat (map append_dsml_call (tcs_v cs)) ++ DS4_TOOL_CALLS_END
      end
  end.

(** ** Finding markers *)

(** The nearest of several markers: [None] is NULL. *)
Definition nearest_marker (s : bytes) (markers : list bytes) : option nat :=
  foldl (fun best m =>
    match strstr_pos s m, best with
    | Some i, None => Some i
    | Some i, Some b => if (i <? b)%nat then Some i else best
    | None, _ => best
    end) None markers.

Definition find_any_tool_start (s : bytes) : option nat :=
  nearest_marker s [DS4_TOOL_CALLS_START; DS4_TOOL_CALLS_START_SHORT; B "<tool_calls>"].
Definition find_any_tool_end (s : bytes) : option nat :=
  nearest_marker s [DS4_TOOL_CALLS_END; DS4_TOOL_CALLS_END_SHORT; B "</tool_calls>"].

(** [saw_start], [saw_end] and [orphan_end]. *)
Definition observe_tool_markers (scan : option bytes) (flags : bool * bool * bool) : bool * bool * bool :=
  match scan with
  | None => flags
  | Some scan =>
      let '(had_start, saw_end, orphan_end) := flags in
      let start := find_any_tool_start scan in
      let saw_start := match start with Some _ => true | None => had_start end in
      let end_scan := if had_start then Some scan else match start with Some i => Some (drop i scan) | None => None end in
      match match end_scan with Some s => find_any_tool_end s | None => None end with
      | Some _ => (saw_start, true, orphan_end)
      | None =>
          let orphan := negb had_start && match start with None => true | _ => false end &&
                        match find_any_tool_end scan with Some _ => true | None => false end in
          (saw_start, saw_end, orphan || orphan_end)
      end
  end.

Fixpoint trim_tool_separator_ws (raw : bytes) (start limit : nat) : nat :=
  match limit with
  | O => O
  | S l => if (start <? limit)%nat && byte_isspace (nth l raw NUL) then trim_tool_separator_ws raw start l else limit
  end.

Definition skip_ascii_ws (p : bytes) : bytes := skip_space p.

(** [p++] behind every hit. *)
Fixpoint last_substr_loop (fuel : nat) (p needle : bytes) (off : nat) (last : option nat) : option nat :=
  match fuel with
  | O => last
  | S fuel =>
      match strstr_pos p needle with
      | None => last
      | Some i => last_substr_loop fuel (drop (S i) p) needle (off + S i) (Some (off + i)%nat)
      end
  end.

Definition find_last_substr (s needle : bytes) : option nat :=
  match needle with [] => None | _ => last_substr_loop (S (length s)) s needle 0 None end.

(** ** Reading attributes and values *)

(** One entity of [dsml_unescape_text], with its length. *)
Definition entity (s : bytes) : option (byte * nat) :=
  if str_prefixb (B "&amp;") s then Some (x26, 5%nat)
  else if str_prefixb (B "&lt;") s then Some (x3c, 4%nat)
  else if str_prefixb (B "&gt;") s then Some (x3e, 4%nat)
  else if str_prefixb (B "&quot;") s then Some (QUOTE, 6%nat)
  else if str_prefixb (B "&apos;") s then Some (x27, 6%nat)
  else None.

Fixpoint unescape_loop (fuel : nat) (s : bytes) : bytes :=
  match fuel, s with
  | S fuel, c :: s' =>
      match entity s with
      | Some (b, n) => b :: unescape_loop fuel (drop n s)
      | None => c :: unescape_loop fuel s'
      end
  | _, _ => []
  end.

Definition dsml_unescape_text (s : option bytes) : bytes := unescape_loop (length (default [] s)) (default [] s).

(** [strchr(p, c)]. *)
Definition strchr_pos (p : bytes) (c : byte) : option nat := strstr_pos p [c].

Definition dsml_attr (tag name : bytes) : option bytes :=
  let pat := take 63 (name ++ B "=" ++ [QUOTE]) in
  match strstr_pos tag pat with
  | None => None
  | Some i =>
      let p := drop (i + length pat) tag in
      match strchr_pos p QUOTE with
      | None => None
      | Some q => Some (dsml_unescape_text (Some (take q p)))
      end
  end.

(** The buffer of members after another one. *)
Definition tool_call_json_args_add (args name value : bytes) (is_string : bytes) : bytes :=
  args ++ (match args with [] => [] | _ => B ", " end) ++ json_escape name ++ B ": " ++
  (if str_eqb is_string (B "true") then json_escape value
   else match json_minify_raw_value (Some value) with [] => B "null" | m => m end).

(** ** Parsing calls *)

(** The tags of one spelling. *)
Record dsml_syntax := DsmlSyntax {
  tool_calls_start : bytes;
  tool_calls_end : bytes;
  invoke_start : bytes;
  invoke_end : bytes;
  param_start : bytes;
  param_end : bytes
}.

Definition syntax_full : dsml_syntax :=
  DsmlSyntax DS4_TOOL_CALLS_START DS4_TOOL_CALLS_END DS4_INVOKE_START DS4_INVOKE_END DS4_PARAM_START DS4_PARAM_END.
Definition syntax_short : dsml_syntax :=
  DsmlSyntax DS4_TOOL_CALLS_START_SHORT DS4_TOOL_CALLS_END_SHORT DS4_INVOKE_START_SHORT DS4_INVOKE_END_SHORT
    DS4_PARAM_START_SHORT DS4_PARAM_END_SHORT.
Definition syntax_plain : dsml_syntax :=
  DsmlSyntax (B "<tool_calls>") (B "</tool_calls>") (B "<invoke") (B "</invoke>") (B "<parameter") (B "</parameter>").

(** A tag at [p]: its text with the [>], and what follows. *)
Definition take_tag (p : bytes) : option (bytes * bytes) :=
  match strchr_pos p x3e with Some i => Some (take (S i) p, drop (S i) p) | None => None end.

(** A value up to its closing tag, and what follows that. *)
Definition take_value (p close : bytes) : option (bytes * bytes) :=
  match strstr_pos p close with Some i => Some (take i p, drop (i + length close) p) | None => None end.

(** Behind the start tag of a parameter: its value is added to [out]. *)
Definition leaf_value (syn : dsml_syntax) (p out name : bytes) (is_string : option bytes) : option (bytes * bytes) :=
  match take_value p (param_end syn) with
  | None => None
  | Some (raw_value, rest) =>
      let type := default (B "true") is_string in
      let value := if str_eqb type (B "true") then dsml_unescape_text (Some raw_value) else raw_value in
      Some (rest, tool_call_json_args_add out name value type)
  end.

Definition dsml_parse_leaf_param_json (syn : dsml_syntax) (p out : bytes) : option (bytes * bytes) :=
  if negb (str_prefixb (param_start syn) p) then None
  else
    match take_tag p with
    | None => None
    | Some (tag, rest) =>
        match dsml_attr tag (B "name") with
        | None => None
        | Some name => leaf_value syn rest out name (dsml_attr tag (B "string"))
        end
    end.

Fixpoint nested_loop (fuel : nat) (syn : dsml_syntax) (p members : bytes) (any : bool) : option (bytes * bytes * bool) :=
  match fuel with
  | O => None
  | S fuel =>
      let p := skip_ascii_ws p in
      if negb (str_prefixb (param_start syn) p) then Some (p, members, any)
      else
        match dsml_parse_leaf_param_json syn p members with
        | None => None
        | Some (p, members) => nested_loop fuel syn p members true
        end
  end.

(** The rest and the object. *)
Definition dsml_parse_nested_params_object (syn : dsml_syntax) (p : bytes) : option (bytes * bytes) :=
  match nested_loop (S (length p)) syn p [] false with
  | Some (p, members, true) => Some (p, B "{" ++ members ++ B "}")
  | _ => None
  end.

(** One parameter of an invoke: the rest and the members. *)
Definition parse_param (syn : dsml_syntax) (p args : bytes) : option (bytes * bytes) :=
  if negb (str_prefixb (param_start syn) p) then None
  else
    match take_tag p with
    | None => None
    | Some (tag, value_start) =>
        match dsml_attr tag (B "name"), dsml_attr tag (B "string") with
        | None, _ => None
        | Some name, None =>
            if str_prefixb (param_start syn) (skip_ascii_ws value_start) then
              match dsml_parse_nested_params_object syn value_start with
              | None => None
              | Some (p, nested) =>
                  let args := tool_call_json_args_add args name nested (B "false") in
                  let p := skip_ascii_ws p in
                  Some (if str_prefixb (param_end syn) p then drop (length (param_end syn)) p else p, args)
              end
            else leaf_value syn value_start args name None
        | Some name, is_string => leaf_value syn value_start args name is_string
        end
    end.

Fixpoint params_loop (fuel : nat) (syn : dsml_syntax) (p args : bytes) : option (bytes * bytes) :=
  match fuel with
  | O => None
  | S fuel =>
      let p := skip_ascii_ws p in
      if str_prefixb (invoke_end syn) p then Some (drop (length (invoke_end syn)) p, args)
      else
        match parse_param syn p args with
        | None => None
        | Some (p, args) => params_loop fuel syn p args
        end
  end.

(** The calls so far, and the rest behind the closing tag when it was reached. *)
Fixpoint invokes_loop (fuel : nat) (syn : dsml_syntax) (p : bytes) (cs : tool_calls) : option bytes * tool_calls :=
  match fuel with
  | O => (None, cs)
  | S fuel =>
      let p := skip_ascii_ws p in
      if str_prefixb (tool_calls_end syn) p then (Some (drop (length (tool_calls_end syn)) p), cs)
      else if negb (str_prefixb (invoke_start syn) p) then (None, cs)
      else
        match take_tag p with
        | None => (None, cs)
        | Some (tag, p) =>
            match dsml_attr tag (B "name") with
            | None => (None, cs)
            | Some name =>
                match params_loop (S (length p)) syn p [] with
                | None => (None, cs)
                | Some (p, args) =>
                    invokes_loop fuel syn p (tool_calls_push cs (ToolCall None (Some name) (Some (B "{" ++ args ++ B "}"))))
                end
            end
        end
  end.

(** Content and reasoning of the first [n] bytes. *)
Definition split_reasoning_content (text : bytes) (n : nat) : bytes * option bytes :=
  let s := take n text in
  let body := if str_prefixb (B "<think>") s then drop 7 s else s in
  match strstr_pos body (B "</think>") with
  | Some i => (drop (i + 8) body, Some (take i body))
  | None => (s, None)
  end.

(** Where the block starts and how it is spelled: the searches in the order of
    the code. *)
Definition find_block (s : bytes) : option (nat * dsml_syntax) :=
  foldl (fun found c =>
    match found with
    | Some _ => found
    | None => match strstr_pos s (fst c) with Some i => Some (i, snd c) | None => None end
    end) None
    [([LF; LF] ++ DS4_TOOL_CALLS_START, syntax_full); (DS4_TOOL_CALLS_START, syntax_full);
     ([LF; LF] ++ DS4_TOOL_CALLS_START_SHORT, syntax_short); (DS4_TOOL_CALLS_START_SHORT, syntax_short);
     ([LF; LF] ++ B "<tool_calls>", syntax_plain); (B "<tool_calls>", syntax_plain)].

(** Whether it worked, content and reasoning when they were set, the calls. *)
Definition parse_generated_message_ex (text : option bytes) (require_thinking_closed : bool) (cs : tool_calls)
    : bool * option (bytes * option bytes) * tool_calls :=
  let text := default [] text in
  let plain := (true, Some (split_reasoning_content text (length text)), cs) in
  match (if require_thinking_closed
         then match find_last_substr text (B "</think>") with Some i => Some (i + 8)%nat | None => None end
         else Some 0%nat) with
  | None => plain
  | Some search =>
      match find_block (drop search text) with
      | None => plain
      | Some (i, syn) =>
          let start := (search + i)%nat in
          let content_len := trim_tool_separator_ws text 0 start in
          match strstr_pos (drop start text) (tool_calls_start syn) with
          | None => (false, None, cs)
          | Some j =>
              let p := drop (start + j + length (tool_calls_start syn)) text in
              match invokes_loop (S (length p)) syn p cs with
              | (None, cs) => (false, None, cs)
              | (Some rest, cs) =>
                  let raw := take (length text - start - length rest) (drop start text) in
                  (true, Some (split_reasoning_content text content_len), cs <| raw_dsml := Some raw |>)
              end
          end
      end
  end.

Definition tool_parse_failure_recovery_finish (finish : option bytes) : bytes :=
  match finish with
  | Some f => if str_eqb f (B "length") then B "length" else B "stop"
  | None => B "stop"
  end.

(** What [parse_generated_message_for_response] leaves behind. *)
Record parsed_response := ParsedResponse {
  pr_ok : bool;
  pr_finish : option bytes;
  pr_err : option bytes;
  pr_content : option bytes;
  pr_reasoning : option bytes;
  pr_calls : tool_calls;
  pr_recovered : bool
}.

(** The error buffer is given, with [err] in it. *)
Definition parse_generated_message_for_response (text : option bytes) (has_tools saw_tool_start require_thinking_closed : bool)
    (finish err : option bytes) (cs : tool_calls) : parsed_response :=
  match parse_generated_message_ex text require_thinking_closed cs with
  | (true, Some (content, reasoning), cs) => ParsedResponse true finish err (Some content) reasoning cs false
  | (_, _, _) =>
      let recover := has_tools && saw_tool_start && negb (str_eqb (default (B "stop") finish) (B "error")) in
      ParsedResponse false
        (if recover then Some (tool_parse_failure_recovery_finish (Some (default (B "stop") finish))) else finish)
        (if recover then Some (B "invalid tool call") else err)
        (Some (default [] text)) None (ToolCalls [] None) recover
  end.
