(* ===== verification/DsmlProps.v ===== *)
(** * Tool calls survive the DSML text

    Writing calls with JSON arguments as DSML and parsing the text gives the
    calls back, for every name and key and every string value that holds no
    entity; rendering what was parsed gives the same text again.  Examples at
    the end show what happens outside these conditions. *)
From S2P Require Import Prelude.
From S2P Require Import CNum.
From S2P Require Import CFloat.
From S2P Require Import ServerJson.
From S2P Require Import ServerJsonProps.
From S2P Require Import ServerStream.
From S2P Require Import ServerStreamProps.
From S2P Require Import ServerMsgs.
From S2P Require Import Dsml.
Open Scope Z_scope.

(** ** Searching *)

Lemma prefixb_app (p s : bytes) : str_prefixb p (p ++ s) = true.
Proof. apply str_prefixb_spec. by exists s. Qed.

(** No proper tail of the marker starts it again. *)
Definition borderless (m : bytes) : bool :=
  forallb (fun d => negb (str_prefixb (drop d m) m)) (seq 1 (length m - 1)).

Lemma strstr_here (s m : bytes) (i : nat) : str_prefixb m (drop i s) = true ->
  (forall j, (j < i)%nat -> str_prefixb m (drop j s) = false) -> strstr_pos s m = Some i.
Proof.
  intros Hi Hlt. destruct (strstr_pos s m) as [k|] eqn:E.
  - apply strstr_pos_some in E as [H1 H2]. f_equal.
    destruct (Nat.lt_total k i) as [Hk|[Hk|Hk]]; [|done|].
    + rewrite Hlt in H1 by done. done.
    + rewrite H2 in Hi by done. done.
  - by rewrite (strstr_pos_none _ _ E i) in Hi.
Qed.

Lemma prefixb_cases (m s t : bytes) : str_prefixb m (s ++ t) = true -> str_prefixb m s = true \/ str_prefixb s m = true.
Proof.
  revert s. induction m as [|c m IH]; intros [|b s]; cbn [app str_prefixb]; auto.
  intros [H1 H2]%andb_true_iff. apply beqb_eq in H1 as ->. rewrite beqb_refl. by apply IH.
Qed.

Lemma prefixb_length (m s : bytes) : str_prefixb m s = true -> (length m <= length s)%nat.
Proof. intros [t ->]%str_prefixb_spec. rewrite length_app. lia. Qed.

Lemma prefixb_app_l (x t y : bytes) : str_prefixb (x ++ t) (x ++ y) = str_prefixb t y.
Proof. induction x as [|c x IH]; [done|]. cbn [app str_prefixb]. by rewrite beqb_refl. Qed.

(** The marker behind a text that does not hold it. *)
Lemma strstr_border (c m rest : bytes) : borderless m = true -> strstr_pos c m = None ->
  strstr_pos (c ++ m ++ rest) m = Some (length c).
Proof.
  intros Hb Hc. apply strstr_here; [by rewrite drop_app_length, prefixb_app|].
  intros j Hj. apply not_true_iff_false. intros E.
  rewrite drop_app_le in E by lia. pose proof (strstr_pos_none c m Hc j) as Hn. set (x := drop j c) in *.
  destruct (prefixb_cases _ _ _ E) as [H|H]; [congruence|].
  apply str_prefixb_spec in H as [t Ht]. rewrite Ht, prefixb_app_l in E at 1. 
  destruct t as [|t0 t]; [rewrite app_nil_r in Ht; rewrite Ht, <- (app_nil_r x), prefixb_app_l in Hn; done|].
  assert (Hx : (0 < length x)%nat) by (unfold x; rewrite length_drop; lia).
  assert (Hdm : drop (length x) m = t0 :: t) by (rewrite Ht at 1; apply drop_app_length).
  unfold borderless in Hb. rewrite forallb_forall in Hb. specialize (Hb (length x)). rewrite Hdm in Hb.
  assert (Hin : In (length x) (seq 1 (length m - 1))).
  { apply in_seq. apply (f_equal length) in Ht. rewrite length_app in Ht. simpl in Ht. lia. }
  specialize (Hb Hin). apply negb_true_iff in Hb. destruct (prefixb_cases _ _ _ E) as [H|H]; [congruence|].
  apply prefixb_length in H. apply (f_equal length) in Ht. rewrite length_app in Ht. simpl in Ht, H. lia.
Qed.

Lemma strchr_behind (s : bytes) (c : byte) (rest : bytes) : c ∉ s -> strchr_pos (s ++ c :: rest) c = Some (length s).
Proof.
  intros Hc. apply (strstr_border s [c] rest); [done|].
  destruct (strstr_pos s [c]) as [i|] eqn:E; [|done]. apply strstr_pos_some in E as [E _].
  apply str_prefixb_spec in E as [t E]. exfalso. apply Hc. apply (elem_of_suffix (drop i s)).
  - rewrite E. by left.
  - apply suffix_drop.
Qed.

(** A text without the first byte of a marker does not hold it. *)
Lemma strstr_absent (s m : bytes) (c : byte) : c ∈ m -> c ∉ s -> strstr_pos s m = None.
Proof.
  intros Hm Hs. destruct (strstr_pos s m) as [i|] eqn:E; [|done]. apply strstr_pos_some in E as [E _].
  apply str_prefixb_spec in E as [t E]. exfalso. apply Hs. apply (elem_of_suffix (drop i s)); [|apply suffix_drop].
  rewrite E. apply elem_of_app. by left.
Qed.

(** ** Protected text *)

(** [PARAM_END] behind its first byte. *)
Definition tail_of_end : bytes := tl DS4_PARAM_END.

Definition plain (u : bytes) : Prop := x3c ∉ u /\ x26 ∉ u.

Lemma plain_tail : plain tail_of_end.
Proof. split; apply (bool_decide_unpack _); vm_compute; exact I. Qed.

Section Protect.
Variable repl : bytes.
Hypothesis Hrepl : exists c r, repl = c :: r /\ (c = x26 \/ c = x5c).

(** Text without [<] and [&] at the front of protected text is at the front
    of the text itself. *)
Lemma prefix_protect (u : bytes) : plain u -> x5c ∉ u -> forall s,
  str_prefixb u (protect DS4_PARAM_END repl s) = true -> str_prefixb u s = true.
Proof.
  intros [H1 H2] H3. induction u as [|c u IH]; intros s; [done|]. destruct s as [|b s]; [done|]. cbn [protect].
  destruct (str_prefixb DS4_PARAM_END (b :: s)).
  - destruct Hrepl as (c0 & r & -> & Hc). cbn [app str_prefixb]. intros [E _]%andb_true_iff. apply beqb_eq in E as ->.
    destruct Hc as [-> | ->]; exfalso; [apply H2; left|apply H3; left].
  - cbn [app str_prefixb]. intros [E1 E2]%andb_true_iff. rewrite E1. cbn [andb].
    apply IH; [intros Hi; apply H1; by right|intros Hi; apply H2; by right|intros Hi; apply H3; by right|done].
Qed.

Lemma plain_tail_backslash : x5c ∉ tail_of_end.
Proof. apply (bool_decide_unpack _). vm_compute. exact I. Qed.

Lemma protect_no_end (s : bytes) : x3c ∉ repl -> strstr_pos (protect DS4_PARAM_END repl s) DS4_PARAM_END = None.
Proof.
  intros Hr. assert (Hskip : forall r t, x3c ∉ r -> strstr_pos t DS4_PARAM_END = None -> strstr_pos (r ++ t) DS4_PARAM_END = None).
  { induction r as [|c r IH]; intros t Hc Ht; [done|]. cbn [app strstr_pos].
    assert (str_prefixb DS4_PARAM_END (c :: r ++ t) = false) as ->.
    { change DS4_PARAM_END with (x3c :: tail_of_end). cbn [str_prefixb].
      destruct (Byte.eqb x3c c) eqn:E; [|done]. apply beqb_eq in E as <-. exfalso. apply Hc. left. }
    rewrite IH; [done|intros Hi; apply Hc; by right|done]. }
  induction s as [|c s IH]; [done|]. cbn [protect].
  destruct (str_prefixb DS4_PARAM_END (c :: s)) eqn:E; [by apply Hskip|].
  cbn [app strstr_pos]. rewrite IH.
  assert (str_prefixb DS4_PARAM_END (c :: protect DS4_PARAM_END repl s) = false) as ->; [|done].
  apply not_true_iff_false. intros H. change DS4_PARAM_END with (x3c :: tail_of_end) in H at 1. cbn [str_prefixb] in H.
  apply andb_true_iff in H as [H1 H2]. apply prefix_protect in H2; [|apply plain_tail|apply plain_tail_backslash].
  change DS4_PARAM_END with (x3c :: tail_of_end) in E. cbn [str_prefixb] in E. by rewrite H1, H2 in E.
Qed.
End Protect.

Lemma protect_id (tag repl s : bytes) : strstr_pos s tag = None -> protect tag repl s = s.
Proof.
  induction s as [|c s IH]; [done|]. cbn [strstr_pos protect]. destruct (str_prefixb tag (c :: s)); [done|].
  destruct (strstr_pos s tag); [done|]. intros _. by rewrite IH.
Qed.

(** ** Entities *)

Lemma entity_amp (c : byte) (s : bytes) : c <> x26 -> entity (c :: s) = None.
Proof.
  intros Hc. assert (Byte.eqb x26 c = false) as E by (apply beqb_neq; congruence).
  unfold entity. cbn [str_prefixb B list_byte_of_string map]. 
  change (str_prefixb (B "&amp;") (c :: s)) with (Byte.eqb x26 c && str_prefixb (B "amp;") s).
  change (str_prefixb (B "&lt;") (c :: s)) with (Byte.eqb x26 c && str_prefixb (B "lt;") s).
  change (str_prefixb (B "&gt;") (c :: s)) with (Byte.eqb x26 c && str_prefixb (B "gt;") s).
  change (str_prefixb (B "&quot;") (c :: s)) with (Byte.eqb x26 c && str_prefixb (B "quot;") s).
  change (str_prefixb (B "&apos;") (c :: s)) with (Byte.eqb x26 c && str_prefixb (B "apos;") s).
  by rewrite E.
Qed.

(** No entity in the text. *)
Fixpoint entity_free (s : bytes) : bool :=
  match s with
  | [] => true
  | _ :: s' => match entity s with Some _ => false | None => entity_free s' end
  end.

Lemma unescape_attr (k rest : bytes) : forall fuel, (length (concat (map attr_byte k)) <= fuel)%nat ->
  unescape_loop fuel (concat (map attr_byte k)) = k.
Proof.
  clear rest. induction k as [|c k IH]; intros fuel Hf; [by destruct fuel|]. cbn [map concat] in *.
  set (t := concat (map attr_byte k)) in *. rewrite length_app in Hf.
  assert (Hc : (attr_byte c = [c] /\ c <> x26) \/
    exists e n, attr_byte c = e /\ entity (e ++ t) = Some (c, n) /\ length e = n /\ (0 < n)%nat).
  { unfold attr_byte.
    destruct (Byte.eqb c x26) eqn:E1; [apply beqb_eq in E1 as ->; right; exists (B "&amp;"), 5%nat; repeat split; simpl; lia|].
    destruct (Byte.eqb c x3c) eqn:E2; [apply beqb_eq in E2 as ->; right; exists (B "&lt;"), 4%nat; repeat split; simpl; lia|].
    destruct (Byte.eqb c x3e) eqn:E3; [apply beqb_eq in E3 as ->; right; exists (B "&gt;"), 4%nat; repeat split; simpl; lia|].
    destruct (Byte.eqb c QUOTE) eqn:E4;
      [apply beqb_eq in E4 as ->; right; exists (B "&quot;"), 6%nat; repeat split; simpl; lia|].
    left. split; [done|]. by apply beqb_neq. }
  destruct Hc as [[Ha Hc]|(e & n & Ha & He & Hn & Hpos)]; rewrite Ha in *.
  - destruct fuel as [|fuel]; [simpl in Hf; lia|]. cbn [app unescape_loop]. rewrite entity_amp by done.
    rewrite IH; [done|simpl in Hf; lia].
  - destruct fuel as [|fuel]; [lia|]. destruct e as [|e0 e]; [simpl in Hn; lia|]. cbn [app unescape_loop].
    change (e0 :: e ++ t) with ((e0 :: e) ++ t) in *. rewrite He, <- Hn, drop_app_length.
    rewrite IH; [done|lia].
Qed.

(** The tails of the entities are plain text. *)
Lemma entity_protect (s : bytes) : entity (x26 :: s) = None ->
  entity (x26 :: protect DS4_PARAM_END (B "&lt;") s) = None.
Proof.
  intros H. assert (Hr : exists c r, B "&lt;" = c :: r /\ (c = x26 \/ c = x5c)) by (eexists _, _; split; [done|by left]).
  assert (Hp : forall u, plain u -> x5c ∉ u -> str_prefixb u s = false ->
    str_prefixb u (protect DS4_PARAM_END (B "&lt;") s) = false).
  { intros u Hu Hb Hs. apply not_true_iff_false. intros E%(prefix_protect _ Hr u Hu Hb). congruence. }
  revert H. unfold entity.
  change (str_prefixb (B "&amp;") (x26 :: ?s)) with (str_prefixb (B "amp;") s).
  change (str_prefixb (B "&lt;") (x26 :: ?s)) with (str_prefixb (B "lt;") s).
  change (str_prefixb (B "&gt;") (x26 :: ?s)) with (str_prefixb (B "gt;") s).
  change (str_prefixb (B "&quot;") (x26 :: ?s)) with (str_prefixb (B "quot;") s).
  change (str_prefixb (B "&apos;") (x26 :: ?s)) with (str_prefixb (B "apos;") s).
  assert (Hd : forall u, bool_decide (x3c ∉ u /\ x26 ∉ u) = true -> bool_decide (x5c ∉ u) = true ->
    str_prefixb u s = false -> str_prefixb u (protect DS4_PARAM_END (B "&lt;") s) = false).
  { intros u H1%bool_decide_eq_true H2%bool_decide_eq_true. by apply Hp. }
  destruct (str_prefixb (B "amp;") s) eqn:E1; [done|]. destruct (str_prefixb (B "lt;") s) eqn:E2; [done|].
  destruct (str_prefixb (B "gt;") s) eqn:E3; [done|]. destruct (str_prefixb (B "quot;") s) eqn:E4; [done|].
  destruct (str_prefixb (B "apos;") s) eqn:E5; [done|].
  rewrite !Hd by (vm_compute; reflexivity || assumption). done.
Qed.

Lemma unescape_protect (s : bytes) : entity_free s = true -> forall fuel,
  (length (protect DS4_PARAM_END (B "&lt;") s) <= fuel)%nat ->
  unescape_loop fuel (protect DS4_PARAM_END (B "&lt;") s) = s.
Proof.
  induction s as [|c s IH]; intros Hs fuel Hf; [by destruct fuel|]. cbn [protect] in *.
  cbn [entity_free] in Hs. destruct (entity (c :: s)) eqn:Ee; [done|]. rewrite length_app in Hf.
  destruct (str_prefixb DS4_PARAM_END (c :: s)) eqn:E.
  - assert (c = x3c) as -> by (apply andb_true_iff in E as [E _]; by apply beqb_eq in E).
    destruct fuel as [|fuel]; [simpl in Hf; lia|]. cbn [unescape_loop].
    change (B "&lt;" ++ ?t) with (x26 :: B "lt;" ++ t). cbn [unescape_loop].
    change (entity (x26 :: B "lt;" ++ ?t)) with (Some (x3c, 4%nat)). cbn iota.
    change (drop 4 (x26 :: B "lt;" ++ ?t)) with t. rewrite IH; [done|done|simpl in Hf; lia].
  - destruct fuel as [|fuel]; [simpl in Hf; lia|]. cbn [app unescape_loop].
    assert (entity (c :: protect DS4_PARAM_END (B "&lt;") s) = None) as ->.
    { destruct (decide (c = x26)) as [-> | Hc]; [by apply entity_protect|by apply entity_amp]. }
    rewrite IH; [done|done|simpl in Hf; lia].
Qed.

(** ** Tags *)

Lemma attr_clean (k : bytes) (c : byte) : c = QUOTE \/ c = x3e -> c ∉ append_dsml_attr_escaped (Some k).
Proof.
  intros Hc. unfold append_dsml_attr_escaped. cbn [default]. induction k as [|b k IH]; [by intros ?%elem_of_nil|].
  cbn [map concat]. intros [H|H]%elem_of_app; [|done]. revert H. unfold attr_byte.
  repeat match goal with |- context [Byte.eqb b ?x] => destruct (Byte.eqb b x) eqn:? end;
    try (destruct Hc as [-> | ->]; change (~ (?x ∈ ?l)) with (x ∉ l); by apply (bool_decide_unpack _)).
  intros ->%list_elem_of_singleton. destruct Hc as [-> | ->]; done.
Qed.

Lemma unescape_attr_text (k : bytes) : dsml_unescape_text (Some (append_dsml_attr_escaped (Some k))) = k.
Proof. by apply (unescape_attr k []). Qed.

Lemma attr_found (pre name v post : bytes) :
  (length (name ++ B "=" ++ [QUOTE]) <= 63)%nat -> borderless (name ++ B "=" ++ [QUOTE]) = true ->
  strstr_pos pre (name ++ B "=" ++ [QUOTE]) = None ->
  dsml_attr (pre ++ (name ++ B "=" ++ [QUOTE]) ++ append_dsml_attr_escaped (Some v) ++ QUOTE :: post) name = Some v.
Proof.
  intros Hl Hb Hn. unfold dsml_attr. rewrite take_ge by done. set (pat := name ++ B "=" ++ [QUOTE]) in *.
  rewrite strstr_border by done. rewrite app_assoc, <- length_app, drop_app_length.
  rewrite strchr_behind by (apply attr_clean; auto). by rewrite take_app_length, unescape_attr_text.
Qed.

Lemma tag_taken (tag rest : bytes) : x3e ∉ tag -> take_tag (tag ++ x3e :: rest) = Some (tag ++ [x3e], rest).
Proof.
  intros H. unfold take_tag. rewrite strchr_behind by done.
  replace (tag ++ x3e :: rest) with ((tag ++ [x3e]) ++ rest) by (rewrite <- app_assoc; done).
  replace (S (length tag)) with (length (tag ++ [x3e])) by (rewrite length_app; simpl; lia).
  by rewrite take_app_length, drop_app_length.
Qed.

Lemma value_taken (v close rest : bytes) : borderless close = true -> strstr_pos v close = None ->
  take_value (v ++ close ++ rest) close = Some (v, rest).
Proof.
  intros Hb Hv. unfold take_value. rewrite strstr_border by done.
  by rewrite take_app_length, app_assoc, <- length_app, drop_app_length.
Qed.

(** The first [c] of a text splits it in one way. *)
Lemma first_split (c : byte) (a b s t : bytes) : c ∉ a -> c ∉ s -> a ++ c :: b = s ++ c :: t -> a = s.
Proof.
  revert s. induction a as [|x a IH]; intros [|y s] Ha Hs E; cbn [app] in E; [done| | |].
  - injection E as -> _. exfalso. apply Hs. left.
  - injection E as -> _. exfalso. apply Ha. left.
  - injection E as -> E. f_equal. apply IH; [intros Hi; apply Ha; by right|intros Hi; apply Hs; by right|done].
Qed.

(** A name in front of a quote is only found where it ends. *)
Lemma quote_skip (u s t : bytes) : QUOTE ∉ u -> QUOTE ∉ s -> ~ u `suffix_of` s ->
  strstr_pos t (u ++ [QUOTE]) = None -> strstr_pos (s ++ QUOTE :: t) (u ++ [QUOTE]) = None.
Proof.
  intros Hu Hs Hn Ht. destruct (strstr_pos (s ++ QUOTE :: t) (u ++ [QUOTE])) as [j|] eqn:E; [|done].
  apply strstr_pos_some in E as [E _]. exfalso. destruct (decide (j <= length s)%nat) as [Hj|Hj].
  - rewrite drop_app_le in E by done. apply str_prefixb_spec in E as [w E]. rewrite <- app_assoc in E. cbn [app] in E.
    apply first_split in E; [apply Hn; rewrite <- E; apply suffix_drop| |done].
    intros Hi. apply Hs. by apply (elem_of_suffix (drop j s)); [|apply suffix_drop].
  - rewrite drop_app_ge in E by lia. destruct (j - length s)%nat as [|d] eqn:Ed; [lia|]. cbn [drop] in E.
    by rewrite (strstr_pos_none _ _ Ht d) in E.
Qed.

Lemma suffix_attr (u k : bytes) : x3b ∉ u -> u `suffix_of` append_dsml_attr_escaped (Some k) -> u `suffix_of` k.
Proof.
  change (append_dsml_attr_escaped (Some k)) with (concat (map attr_byte k)). revert k. induction u as [|c u IH] using rev_ind; intros k Hu H.
  { by apply suffix_nil. }
  induction k as [|b k _] using rev_ind; [apply suffix_nil_inv in H; by destruct u|].
  rewrite map_app, concat_app in H. cbn [map concat] in H. rewrite app_nil_r in H.
  assert (Hc : (exists e, attr_byte b = e ++ [x3b]) \/ attr_byte b = [b]).
  { unfold attr_byte. destruct (Byte.eqb b x26); [left; by exists (B "&amp")|].
    destruct (Byte.eqb b x3c); [left; by exists (B "&lt")|]. destruct (Byte.eqb b x3e); [left; by exists (B "&gt")|].
    destruct (Byte.eqb b QUOTE); [left; by exists (B "&quot")|by right]. }
  destruct Hc as [[e He]|He]; rewrite He in H.
  - rewrite app_assoc in H. apply suffix_snoc_inv_1 in H as ->. exfalso. apply Hu, elem_of_app. right. left.
  - pose proof (suffix_snoc_inv_1 _ _ _ _ H) as ->. apply suffix_snoc_inv_2 in H. apply suffix_app.
    apply IH; [|done]. intros Hi. apply Hu, elem_of_app. by left.
Qed.
