(* ===== verification/DsmlRoundtrip.v ===== *)
(** * Tool calls survive the DSML text

    A call whose arguments are a JSON object, written by
    [append_dsml_tool_calls_text] behind any content and read back by
    [parse_generated_message_ex], is the same call again, and writing what was
    read gives the same text. *)
From S2P Require Import Prelude.
From S2P Require Import CNum.
From S2P Require Import CFloat.
From S2P Require Import ServerJson.
From S2P Require Import ServerJsonProps.
From S2P Require Import ServerStream.
From S2P Require Import ServerStreamProps.
From S2P Require Import ServerMsgs.
From S2P Require Import Dsml.
From S2P Require Import DsmlProps.
Open Scope Z_scope.

(** ** Minified text of a printed value *)

Lemma minify_escape_byte (c : byte) (t : bytes) :
  minify_loop (escape_byte c ++ t) true false = escape_byte c ++ minify_loop t true false.
Proof. destruct c; reflexivity. Qed.

Lemma minify_escape (s rest : bytes) :
  minify_loop (json_escape s ++ rest) false false = json_escape s ++ minify_loop rest false false.
Proof.
  unfold json_escape. cbn [app minify_loop]. change (Byte.eqb QUOTE QUOTE) with true. cbn iota. f_equal.
  rewrite <- !app_assoc. induction s as [|c s IH]; [done|]. cbn [map concat].
  by rewrite <- !app_assoc, minify_escape_byte, IH.
Qed.

(** Bytes outside strings that are kept. *)
Definition kept (b : byte) : bool := negb (Byte.eqb b QUOTE) && negb (byte_isspace b).

Lemma minify_kept (l rest : bytes) : Forall (fun b => kept b = true) l ->
  minify_loop (l ++ rest) false false = l ++ minify_loop rest false false.
Proof.
  induction 1 as [|b l Hb _ IH]; [done|]. cbn [app minify_loop].
  apply andb_true_iff in Hb as [H1 H2]. apply negb_true_iff in H1. by rewrite H1, H2, IH.
Qed.

Lemma digits_kept (l : bytes) : Forall (fun b => byte_isdigit b = true) l -> Forall (fun b => kept b = true) l.
Proof. intros H. eapply Forall_impl; [exact H|]. intros b Hb. by destruct b. Qed.

Lemma minify_print (v : jvalue) : forall rest,
  minify_loop (print_json v ++ rest) false false = print_json v ++ minify_loop rest false false.
Proof.
  induction v as [|b|z|s|l IH|l IH] using jvalue_ind'; intros rest.
  - done.
  - by destruct b.
  - apply minify_kept. cbn [print_json]. unfold print_i64. destruct (Z.ltb_spec z 0); [constructor; [done|]|];
      apply digits_kept, print_u64_digits; lia.
  - apply minify_escape.
  - cbn [print_json]. rewrite <- !app_comm_cons, <- !app_assoc. cbn [app].
    change (minify_loop (x5b :: ?x) false false) with (x5b :: minify_loop x false false). f_equal.
    induction IH as [|v l Hv _ IHl]; [done|]. cbn [map] in *. rewrite join_cons, <- !app_assoc, Hv. f_equal.
    destruct l as [|w l]; [done|]. cbn [map app] in *.
    change (minify_loop (x2c :: ?x) false false) with (x2c :: minify_loop x false false). by rewrite IHl.
  - cbn [print_json]. rewrite <- !app_comm_cons, <- !app_assoc. cbn [app].
    change (minify_loop (x7b :: ?x) false false) with (x7b :: minify_loop x false false). f_equal.
    induction IH as [|[k v] l Hv _ IHl]; [done|]. cbn [map fst snd] in *. rewrite join_cons, <- !app_assoc, minify_escape.
    f_equal. rewrite <- !app_comm_cons.
    change (minify_loop (x3a :: ?x) false false) with (x3a :: minify_loop x false false). rewrite Hv. f_equal. f_equal.
    destruct l as [|w l]; [done|]. cbn [map app] in *.
    change (minify_loop (x2c :: ?x) false false) with (x2c :: minify_loop x false false). by rewrite IHl.
Qed.

Lemma minified (v : jvalue) : (nesting v <= 256)%nat -> json_minify_raw_value (Some (print_json v)) = print_json v.
Proof.
  intros Hn. unfold json_minify_raw_value. cbn [default]. pose proof (raw_value_here v [] I) as E.
  rewrite app_nil_r, (proj2 (Nat.leb_le _ _) Hn) in E. unfold default, id. rewrite E.
  pose proof (minify_print v []) as H. by rewrite !app_nil_r in H.
Qed.

(** ** The members of an object as arguments *)

(** An object with [sp] behind every comma and colon. *)
Definition member_text (sp : bytes) (kv : bytes * jvalue) : bytes :=
  json_escape (fst kv) ++ x3a :: sp ++ print_json (snd kv).

Fixpoint members_text (sp : bytes) (ms : list (bytes * jvalue)) : bytes :=
  match ms with
  | [] => []
  | kv :: ms' => member_text sp kv ++ match ms' with [] => [] | _ => x2c :: sp ++ members_text sp ms' end
  end.

Definition object_text (sp : bytes) (ms : list (bytes * jvalue)) : bytes := x7b :: members_text sp ms ++ [x7d].

Lemma object_text_print (ms : list (bytes * jvalue)) : print_json (JObj ms) = object_text [] ms.
Proof.
  unfold object_text. cbn [print_json]. f_equal. f_equal. induction ms as [|kv ms IH]; [done|]. cbn [map members_text].
  rewrite join_cons. unfold member_text at 1. cbn [app]. f_equal. destruct ms; [done|]. cbn [map] in *. by rewrite IH.
Qed.

Definition arg_of (kv : bytes * jvalue) : json_arg :=
  match snd kv with
  | JStr s => JsonArg (fst kv) s true false
  | v => JsonArg (fst kv) (print_json v) false false
  end.

(** Strings are C strings, other values stay below the ceiling. *)
Definition member_ok (kv : bytes * jvalue) : bool :=
  bool_decide (NUL ∉ fst kv) &&
  match snd kv with JStr s => bool_decide (NUL ∉ s) | v => (nesting v <=? 256)%nat end.

Lemma print_quote (v : jvalue) (rest : bytes) :
  at_byte (print_json v ++ rest) QUOTE = match v with JStr _ => true | _ => false end.
Proof.
  destruct v as [|[]|z|s|l|l]; try done. cbn [print_json]. unfold print_i64. destruct (Z.ltb_spec z 0); [done|].
  destruct (print_u64_cons z) as (b & s & -> & Hb); [done|]. cbn [app at_byte]. by destruct b.
Qed.

Section Spaces.
Variable sp : bytes.
Hypothesis Hsp : Forall (fun b => byte_isspace b = true) sp.

Lemma ws_skip (t : bytes) : json_ws (sp ++ t) = json_ws t.
Proof.
  generalize Hsp. generalize sp. induction 1 as [|b l Hb _ IH]; [done|]. unfold json_ws in *. cbn [app skip_space].
  by rewrite Hb.
Qed.

Lemma ws_members (ms : list (bytes * jvalue)) (t : bytes) :
  json_ws (members_text sp ms ++ x7d :: t) = members_text sp ms ++ x7d :: t.
Proof. by destruct ms. Qed.

Lemma args_loop_members (ms : list (bytes * jvalue)) : forall fuel t args,
  (length ms < fuel)%nat -> forallb member_ok ms = true ->
  json_args_loop fuel (members_text sp ms ++ x7d :: t) args = JOk (args ++ map arg_of ms) (x7d :: t).
Proof.
  induction ms as [|[k v] ms IH]; intros fuel t args Hf Hok; (destruct fuel as [|fuel]; [simpl in Hf; lia|]).
  { cbn. by rewrite app_nil_r. }
  cbn [forallb] in Hok. apply andb_true_iff in Hok as [Hkv Hok]. unfold member_ok in Hkv.
  apply andb_true_iff in Hkv as [Hk Hv]. apply bool_decide_eq_true in Hk. cbn [fst snd] in Hk, Hv.
  cbn [members_text]. unfold member_text at 1. cbn [fst snd].
  set (more := match ms with [] => [] | _ => x2c :: sp ++ members_text sp ms end).
  assert (Hnext : next_item (more ++ x7d :: t) = members_text sp ms ++ x7d :: t /\ number_stops (more ++ x7d :: t)).
  { subst more. destruct ms as [|kv ms']; [split; [done|apply stops_after; auto]|]. split; [|apply stops_after; auto].
    unfold next_item. rewrite <- app_comm_cons. change (json_ws (x2c :: ?x)) with (x2c :: x).
    change (at_byte (x2c :: ?x) x2c) with true. cbn [tl]. by rewrite <- app_assoc, ws_skip, ws_members. }
  destruct Hnext as [Hnext Hstop].
  rewrite <- !app_assoc, <- app_comm_cons, <- !app_assoc. cbn [json_args_loop].
  change (json_escape k ++ ?x) with (QUOTE :: tl (json_escape k) ++ x) at 1. cbn iota beta.
  change (Byte.eqb QUOTE x7d) with false. cbn iota. change (QUOTE :: tl (json_escape k) ++ ?x) with (json_escape k ++ x).
  rewrite string_escape. change (json_ws (x3a :: ?x)) with (x3a :: x). change (at_byte (x3a :: ?x) x3a) with true.
  cbn [negb tl]. rewrite ws_skip, ws_print, print_quote, (c_str_id k Hk).
  assert (Hv' : (nesting v <=? 256)%nat = true ->
    (jlet ( raw , p ) := json_raw_value (print_json v ++ more ++ x7d :: t) in
     json_args_loop fuel (next_item p) (args ++ [JsonArg k (json_minify_raw_value (Some raw)) false false])) =
    JOk (args ++ JsonArg k (print_json v) false false :: map arg_of ms) (x7d :: t)).
  { intros Hn. rewrite raw_value_here, Hn by done. cbn iota. apply Nat.leb_le in Hn.
    rewrite Hnext, minified, IH by (done || (simpl in Hf; lia)). by rewrite <- app_assoc. }
  destruct v; try (by apply Hv').
  cbn [print_json]. rewrite string_escape. apply bool_decide_eq_true in Hv.
  rewrite Hnext, (c_str_id s Hv), IH by (done || (simpl in Hf; lia)). by rewrite <- app_assoc.
Qed.

Lemma members_length (ms : list (bytes * jvalue)) : (length ms <= length (members_text sp ms))%nat.
Proof.
  induction ms as [|kv ms IH]; [done|]. cbn [members_text length]. unfold member_text, json_escape.
  rewrite !length_app. destruct ms; cbn [length] in *; [lia|].
  rewrite !length_app in *. cbn [length] in *. lia.
Qed.

Lemma args_parse_object (ms : list (bytes * jvalue)) : forallb member_ok ms = true ->
  json_args_parse (Some (object_text sp ms)) = JOk (map arg_of ms) [x7d].
Proof.
  intros Hok. unfold json_args_parse, object_text. cbv zeta. unfold default, id.
  change (json_ws (x7b :: ?x)) with (x7b :: x). change (at_byte (x7b :: ?x) x7b) with true. cbn [negb tl].
  rewrite ws_members, args_loop_members; [done| |done]. rewrite length_app. pose proof (members_length ms). lia.
Qed.
End Spaces.

(** ** Parameters *)

(** What the text of a parameter can carry. *)
Definition param_ok (kv : bytes * jvalue) : bool :=
  member_ok kv && bool_decide (~ B "string=" `suffix_of` fst kv) &&
  match snd kv with
  | JStr s => entity_free s
  | v => match strstr_pos (print_json v) DS4_PARAM_END with None => true | _ => false end
  end.

Definition add_member (args : bytes) (kv : bytes * jvalue) : bytes :=
  args ++ (match args with [] => [] | _ => B ", " end) ++ member_text [x20] kv.

Definition arg_tag (a : json_arg) : bytes :=
  (DS4_PARAM_START ++ B " ") ++ (B "name" ++ B "=" ++ [QUOTE]) ++ append_dsml_attr_escaped (Some (arg_key a)) ++
  QUOTE :: B " string=" ++ [QUOTE] ++ B (if arg_is_string a then "true" else "false") ++ [QUOTE].

Definition arg_body (a : json_arg) : bytes :=
  if arg_is_string a then append_dsml_parameter_text (Some (arg_value a))
  else append_dsml_json_literal (Some (arg_value a)).

Lemma append_arg_tag (a : json_arg) (rest : bytes) :
  append_dsml_arg a ++ rest = arg_tag a ++ x3e :: arg_body a ++ DS4_PARAM_END ++ LF :: rest.
Proof.
  unfold append_dsml_arg, arg_tag, arg_body. repeat (rewrite <- app_assoc; cbn [app]). reflexivity.
Qed.

Lemma absent_app (c : byte) (a b : bytes) : c ∉ a -> c ∉ b -> c ∉ a ++ b.
Proof. intros Ha Hb [H|H]%elem_of_app; tauto. Qed.

Lemma absent_cons (c b : byte) (a : bytes) : c <> b -> c ∉ a -> c ∉ b :: a.
Proof. intros Hc Ha [H|H]%elem_of_cons; tauto. Qed.

Ltac absent := repeat (apply absent_app || apply absent_cons);
  first [discriminate | assumption | by apply (bool_decide_unpack _) | idtac].

Lemma arg_tag_open (a : json_arg) : x3e ∉ arg_tag a.
Proof. unfold arg_tag. destruct (arg_is_string a); absent; apply attr_clean; auto. Qed.

Lemma tag_name (a : json_arg) : dsml_attr (arg_tag a ++ [x3e]) (B "name") = Some (arg_key a).
Proof.
  rewrite <- (attr_found (DS4_PARAM_START ++ B " ") (B "name") (arg_key a)
    (B " string=" ++ [QUOTE] ++ B (if arg_is_string a then "true" else "false") ++ [QUOTE; x3e]));
    [|by apply Nat.leb_le|done..].
  f_equal. unfold arg_tag. by repeat (rewrite <- app_assoc; cbn [app]).
Qed.

Lemma tag_string (a : json_arg) : ~ B "string=" `suffix_of` arg_key a ->
  dsml_attr (arg_tag a ++ [x3e]) (B "string") = Some (B (if arg_is_string a then "true" else "false")).
Proof.
  intros Hk.
  rewrite <- (attr_found ((DS4_PARAM_START ++ B " name=") ++ QUOTE :: append_dsml_attr_escaped (Some (arg_key a)) ++ QUOTE :: B " ")
    (B "string") (B (if arg_is_string a then "true" else "false")) [x3e]); [|by apply Nat.leb_le|done|].
  - f_equal. unfold arg_tag. destruct (arg_is_string a); by repeat (rewrite <- app_assoc; cbn [app]).
  - apply (quote_skip (B "string=")); [by apply (bool_decide_unpack _)|by apply (bool_decide_unpack _)| |].
    { by apply (bool_decide_unpack _). }
    apply (quote_skip (B "string=")); [by apply (bool_decide_unpack _)|by apply attr_clean; auto| |done].
    intros Hs. apply Hk, suffix_attr; [by apply (bool_decide_unpack _)|done].
Qed.

Lemma literal_repl : exists c r, B "\u003c" = c :: r /\ (c = x26 \/ c = x5c).
Proof. eexists _, _. split; [done|by right]. Qed.
Lemma text_repl : exists c r, B "&lt;" = c :: r /\ (c = x26 \/ c = x5c).
Proof. eexists _, _. split; [done|by left]. Qed.

(** The value of a written parameter. *)
Lemma body_taken (a : json_arg) (rest : bytes) :
  take_value (arg_body a ++ DS4_PARAM_END ++ rest) DS4_PARAM_END = Some (arg_body a, rest).
Proof.
  apply value_taken; [done|]. unfold arg_body. destruct (arg_is_string a).
  - apply (protect_no_end _ text_repl). by apply (bool_decide_unpack _).
  - apply (protect_no_end _ literal_repl). by apply (bool_decide_unpack _).
Qed.

Lemma arg_parsed (a : json_arg) (rest args : bytes) : ~ B "string=" `suffix_of` arg_key a ->
  parse_param syntax_full (append_dsml_arg a ++ rest) args =
  Some (LF :: rest,
    tool_call_json_args_add args (arg_key a)
      (if arg_is_string a then dsml_unescape_text (Some (arg_body a)) else arg_body a)
      (B (if arg_is_string a then "true" else "false"))).
Proof.
  intros Hk. rewrite append_arg_tag. unfold parse_param.
  assert (str_prefixb (param_start syntax_full) (arg_tag a ++ x3e :: arg_body a ++ DS4_PARAM_END ++ LF :: rest) = true) as ->.
  { unfold arg_tag. rewrite <- !app_assoc. apply prefixb_app. }
  cbn [negb]. rewrite tag_taken by apply arg_tag_open. rewrite tag_name, tag_string by done.
  unfold leaf_value. change (param_end syntax_full) with DS4_PARAM_END. rewrite body_taken.
  unfold default, id. by destruct (arg_is_string a).
Qed.

Lemma member_parsed (kv : bytes * jvalue) (rest args : bytes) : param_ok kv = true ->
  parse_param syntax_full (append_dsml_arg (arg_of kv) ++ rest) args = Some (LF :: rest, add_member args kv).
Proof.
  intros [[Hm Hk]%andb_true_iff Hv]%andb_true_iff. apply bool_decide_eq_true in Hk.
  unfold member_ok in Hm. apply andb_true_iff in Hm as [_ Hm]. destruct kv as [k v]. cbn [fst snd] in *.
  assert (arg_key (arg_of (k, v)) = k) as Ek by by destruct v.
  rewrite arg_parsed by by rewrite Ek. rewrite Ek. do 2 f_equal. unfold add_member, member_text, tool_call_json_args_add.
  cbn [fst snd]. f_equal. f_equal. 
  assert (Hlit : (nesting v <=? 256)%nat = true ->
    match strstr_pos (print_json v) DS4_PARAM_END with None => true | _ => false end = true ->
    json_minify_raw_value (Some (append_dsml_json_literal (Some (print_json v)))) = print_json v).
  { intros Hn Hp. destruct (strstr_pos (print_json v) DS4_PARAM_END) eqn:E; [done|].
    unfold append_dsml_json_literal. change (default [] (Some ?x)) with x. rewrite protect_id by done.
    apply minified. by apply Nat.leb_le. }
  destruct (print_head v) as (b & s & Hp & _).
  destruct v; try (unfold arg_of, arg_body; cbn [arg_is_string arg_value snd fst]; change (str_eqb (B "false") (B "true")) with false;
    cbn iota; rewrite Hlit by done; by rewrite Hp).
  cbn [arg_of snd arg_is_string]. change (str_eqb (B "true") (B "true")) with true. cbn iota.
  unfold dsml_unescape_text, arg_body, append_dsml_parameter_text. cbn [arg_is_string arg_value].
  unfold default, id. by rewrite unescape_protect.
Qed.

(** ** Calls *)

Lemma params_parsed (ms : list (bytes * jvalue)) (rest : bytes) : forall fuel args, forallb param_ok ms = true ->
  (length ms < fuel)%nat ->
  params_loop fuel syntax_full (LF :: concat (map append_dsml_arg (map arg_of ms)) ++ DS4_INVOKE_END ++ rest) args =
  Some (rest, foldl add_member args ms).
Proof.
  induction ms as [|kv ms IH]; intros fuel args Hok Hf; (destruct fuel as [|fuel]; [simpl in Hf; lia|]).
  - cbn [map concat app params_loop]. change (skip_ascii_ws (LF :: DS4_INVOKE_END ++ rest)) with (DS4_INVOKE_END ++ rest).
    change (invoke_end syntax_full) with DS4_INVOKE_END. by rewrite prefixb_app, drop_app_length.
  - cbn [forallb] in Hok. apply andb_true_iff in Hok as [Hkv Hok].
    cbn [map concat params_loop foldl]. rewrite <- app_assoc.
    set (t := concat (map append_dsml_arg (map arg_of ms)) ++ DS4_INVOKE_END ++ rest) in *.
    change (skip_ascii_ws (LF :: append_dsml_arg (arg_of kv) ++ t)) with (append_dsml_arg (arg_of kv) ++ t).
    change (str_prefixb (invoke_end syntax_full) (append_dsml_arg (arg_of kv) ++ t)) with false. cbn iota.
    rewrite member_parsed by done. apply IH; [done|simpl in Hf; lia].
Qed.

Lemma add_members (ms : list (bytes * jvalue)) : forall args,
  foldl add_member args ms =
  args ++ (match args, ms with _ :: _, _ :: _ => B ", " | _, _ => [] end) ++ members_text [x20] ms.
Proof.
  induction ms as [|kv ms IH]; intros args; cbn [foldl members_text].
  { destruct args; [done|]. by rewrite !app_nil_r. }
  rewrite IH. unfold add_member. destruct (args ++ _) as [|b l] eqn:E.
  { exfalso. apply app_eq_nil in E as [_ E]. apply app_eq_nil in E as [_ E]. done. }
  rewrite <- E. rewrite <- !app_assoc. f_equal. destruct args, ms; cbn [app]; rewrite ?app_nil_r; try done;
    do 2 f_equal; by rewrite <- ?app_assoc.
Qed.

(** A call as a client sends it, and as the parser stores it. *)
Definition sent_call (c : option bytes * bytes * list (bytes * jvalue)) : tool_call :=
  let '(id, name, ms) := c in ToolCall id (Some name) (Some (print_json (JObj ms))).
Definition read_call (c : option bytes * bytes * list (bytes * jvalue)) : tool_call :=
  let '(id, name, ms) := c in ToolCall None (Some name) (Some (object_text [x20] ms)).

Definition call_ok (c : option bytes * bytes * list (bytes * jvalue)) : bool := forallb param_ok (snd c).

Lemma members_of_params (ms : list (bytes * jvalue)) : forallb param_ok ms = true -> forallb member_ok ms = true.
Proof.
  induction ms as [|kv ms IH]; [done|]. cbn [forallb]. intros [H1 H2]%andb_true_iff. rewrite IH by done.
  unfold param_ok in H1. apply andb_true_iff in H1 as [H1 _]. apply andb_true_iff in H1 as [-> _]. done.
Qed.

Lemma arguments_written (sp : bytes) (ms : list (bytes * jvalue)) : Forall (fun b => byte_isspace b = true) sp ->
  forallb member_ok ms = true ->
  append_dsml_arguments_from_json (Some (object_text sp ms)) None = Some (concat (map append_dsml_arg (map arg_of ms))).
Proof.
  intros Hsp Hok. unfold append_dsml_arguments_from_json. rewrite args_parse_object by done.
  unfold default. cbn [foldl app]. do 2 f_equal. rewrite !map_map. apply map_ext. intros [k v]. by destruct v.
Qed.

Definition invoke_tag (name : bytes) : bytes :=
  (DS4_INVOKE_START ++ B " ") ++ (B "name" ++ B "=" ++ [QUOTE]) ++ append_dsml_attr_escaped (Some name) ++ [QUOTE].

Definition call_text (name : bytes) (ms : list (bytes * jvalue)) : bytes :=
  invoke_tag name ++ x3e :: LF :: concat (map append_dsml_arg (map arg_of ms)) ++ DS4_INVOKE_END ++ [LF].

Lemma call_written (sp : bytes) (id : option bytes) (name : bytes) (ms : list (bytes * jvalue)) :
  Forall (fun b => byte_isspace b = true) sp -> forallb member_ok ms = true ->
  append_dsml_call (ToolCall id (Some name) (Some (object_text sp ms))) = call_text name ms.
Proof.
  intros Hsp Hok. unfold append_dsml_call, call_text, invoke_tag. cbn [tc_name tc_arguments].
  rewrite arguments_written by done. by repeat (rewrite <- app_assoc; cbn [app]).
Qed.

Lemma invoke_tag_open (name : bytes) : x3e ∉ invoke_tag name.
Proof. unfold invoke_tag. absent; apply attr_clean; auto. Qed.

Lemma invoke_name (name : bytes) : dsml_attr (invoke_tag name ++ [x3e]) (B "name") = Some name.
Proof.
  rewrite <- (attr_found (DS4_INVOKE_START ++ B " ") (B "name") name [x3e]); [|by apply Nat.leb_le|done..].
  f_equal. unfold invoke_tag. by repeat (rewrite <- app_assoc; cbn [app]).
Qed.

Lemma args_length (ms : list (bytes * jvalue)) : (length ms <= length (concat (map append_dsml_arg (map arg_of ms))))%nat.
Proof.
  induction ms as [|kv ms IH]; [done|]. cbn [map concat length]. rewrite length_app.
  assert (1 <= length (append_dsml_arg (arg_of kv)))%nat; [|lia].
  change (append_dsml_arg (arg_of kv)) with (x3c :: tl (append_dsml_arg (arg_of kv))). simpl. lia.
Qed.

Lemma read_object (ms : list (bytes * jvalue)) :
  B "{" ++ foldl add_member [] ms ++ B "}" = object_text [x20] ms.
Proof. rewrite add_members. by destruct ms. Qed.

Lemma invokes_parsed (cs : list (option bytes * bytes * list (bytes * jvalue))) (rest : bytes) : forall fuel tcs,
  forallb call_ok cs = true -> (length cs < fuel)%nat ->
  invokes_loop fuel syntax_full
    (LF :: concat (map (fun c => call_text (snd (fst c)) (snd c)) cs) ++ DS4_TOOL_CALLS_END ++ rest) tcs =
  (Some rest, tcs <| tcs_v := tcs_v tcs ++ map read_call cs |>).
Proof.
  induction cs as [|[[id name] ms] cs IH]; intros fuel tcs Hok Hf; (destruct fuel as [|fuel]; [simpl in Hf; lia|]).
  - cbn [map concat app invokes_loop].
    change (skip_ascii_ws (LF :: DS4_TOOL_CALLS_END ++ rest)) with (DS4_TOOL_CALLS_END ++ rest).
    change (tool_calls_end syntax_full) with DS4_TOOL_CALLS_END. rewrite prefixb_app, drop_app_length.
    destruct tcs as [v r]. change (set_field tcs_v ?f (ToolCalls v r)) with (ToolCalls (f v) r). cbn [tcs_v]. 
    by rewrite app_nil_r.
  - cbn [forallb] in Hok. apply andb_true_iff in Hok as [Hc Hok]. unfold call_ok in Hc. cbn [snd] in Hc.
    cbn [map concat invokes_loop fst snd]. rewrite <- app_assoc.
    set (t := concat (map (fun c : option bytes * bytes * list (bytes * jvalue) => call_text c.1.2 c.2) cs)
      ++ DS4_TOOL_CALLS_END ++ rest) in *.
    change (skip_ascii_ws (LF :: call_text name ms ++ t)) with (call_text name ms ++ t).
    change (str_prefixb (tool_calls_end syntax_full) (call_text name ms ++ t)) with false. cbn iota.
    assert (str_prefixb (invoke_start syntax_full) (call_text name ms ++ t) = true) as ->.
    { unfold call_text, invoke_tag. rewrite <- !app_assoc. apply prefixb_app. }
    cbn [negb]. unfold call_text at 1. rewrite <- !app_assoc, <- !app_comm_cons, <- !app_assoc.
    rewrite tag_taken by apply invoke_tag_open. rewrite invoke_name. cbn [app].
    rewrite params_parsed; [|done|].
    2: { cbn [length]. rewrite length_app. pose proof (args_length ms). lia. }
    rewrite IH by (done || (simpl in Hf; lia)). f_equal.
    rewrite read_object. destruct tcs as [v r]. unfold tool_calls_push.
    change (set_field tcs_v ?f (ToolCalls ?v r)) with (ToolCalls (f v) r). cbn [tcs_v].
    change (set_field tcs_v ?f (ToolCalls ?v r)) with (ToolCalls (f v) r). cbn [map read_call]. by rewrite <- app_assoc.
Qed.

(** ** The block in a text *)

Definition block_text (cs : list (option bytes * bytes * list (bytes * jvalue))) : bytes :=
  [LF; LF] ++ DS4_TOOL_CALLS_START ++ LF :: concat (map (fun c => call_text (snd (fst c)) (snd c)) cs) ++ DS4_TOOL_CALLS_END.

Lemma block_written (to : option bytes * bytes * list (bytes * jvalue) -> tool_call) (sp : bytes)
    (cs : list (option bytes * bytes * list (bytes * jvalue))) :
  Forall (fun b => byte_isspace b = true) sp ->
  (forall c, exists id, to c = ToolCall id (Some (snd (fst c))) (Some (object_text sp (snd c)))) ->
  forallb call_ok cs = true -> cs <> [] ->
  append_dsml_tool_calls_text (Some (ToolCalls (map to cs) None)) = block_text cs.
Proof.
  intros Hsp Hto Hok Hne. unfold append_dsml_tool_calls_text. destruct cs as [|c cs]; [done|].
  change (to c :: map to cs) with (map to (c :: cs)). cbn [nonempty raw_dsml tcs_v].
  change (match map to (c :: cs) with [] => [] | _ :: _ => ?x end) with x.
  assert (concat (map append_dsml_call (map to (c :: cs))) =
    concat (map (fun c => call_text (snd (fst c)) (snd c)) (c :: cs))) as ->; [|done].
  revert Hok. generalize (c :: cs) as l. clear -Hsp Hto.
  induction l as [|d l IH]; [done|]. cbn [forallb]. intros [Hd Hl]%andb_true_iff. cbn [map concat].
  destruct (Hto d) as [id ->]. rewrite (call_written sp) by (done || by apply members_of_params).
  f_equal. by apply IH.
Qed.

(** Where [parse_generated_message_ex] starts to look for calls. *)
Definition search_from (text : bytes) (require_thinking_closed : bool) : option nat :=
  if require_thinking_closed
  then match find_last_substr text (B "</think>") with Some i => Some (i + 8)%nat | None => None end
  else Some 0%nat.

Lemma trim_front (content rest : bytes) (n : nat) : (n <= length content)%nat ->
  trim_tool_separator_ws (content ++ rest) 0 n = trim_tool_separator_ws content 0 n.
Proof.
  induction n as [|n IH]; intros Hn; [done|]. cbn [trim_tool_separator_ws]. rewrite app_nth1 by lia.
  by rewrite IH by lia.
Qed.

Lemma trim_le (content : bytes) (n : nat) : (trim_tool_separator_ws content 0 n <= n)%nat.
Proof. induction n as [|n IH]; [done|]. cbn [trim_tool_separator_ws]. destruct (_ && _); lia. Qed.

Lemma split_front (content rest : bytes) (n : nat) : (n <= length content)%nat ->
  split_reasoning_content (content ++ rest) n = split_reasoning_content content n.
Proof. intros Hn. unfold split_reasoning_content. by rewrite take_app_le. Qed.

Lemma message_parsed (content after : bytes) (require : bool) (search : nat) (v : list tool_call) (raw : option bytes)
    (cs : list (option bytes * bytes * list (bytes * jvalue))) :
  forallb call_ok cs = true ->
  search_from (content ++ block_text cs ++ after) require = Some search -> (search <= length content)%nat ->
  strstr_pos (drop search content) ([LF; LF] ++ DS4_TOOL_CALLS_START) = None ->
  parse_generated_message_ex (Some (content ++ block_text cs ++ after)) require (ToolCalls v raw) =
  (true, Some (split_reasoning_content content (trim_tool_separator_ws content 0 (length content))),
   ToolCalls (v ++ map read_call cs) (Some (block_text cs))).
Proof.
  intros Hok Hs Hlen Hno. unfold parse_generated_message_ex. unfold default, id. fold (search_from (content ++ block_text cs ++ after) require).
  rewrite Hs. set (text := content ++ block_text cs ++ after).
  set (body := LF :: concat (map (fun c => call_text (snd (fst c)) (snd c)) cs) ++ DS4_TOOL_CALLS_END).
  assert (Hb : block_text cs = ([LF; LF] ++ DS4_TOOL_CALLS_START) ++ body) by (unfold block_text; by rewrite <- app_assoc).
  assert (find_block (drop search text) = Some (length content - search, syntax_full)%nat) as ->.
  { unfold find_block. cbn [foldl fst snd]. unfold text. rewrite drop_app_le by done. rewrite Hb, <- app_assoc.
    rewrite strstr_border by done. by rewrite length_drop. }
  replace (search + (length content - search))%nat with (length content) by lia.
  assert (Hd : drop (length content) text = [LF; LF] ++ DS4_TOOL_CALLS_START ++ body ++ after).
  { unfold text. rewrite drop_app_length, Hb, <- !app_assoc. done. }
  change (tool_calls_start syntax_full) with DS4_TOOL_CALLS_START. rewrite Hd.
  rewrite (strstr_border [LF; LF] DS4_TOOL_CALLS_START) by done.
  replace (length content + length [LF; LF] + length DS4_TOOL_CALLS_START)%nat
    with (length content + length ([LF; LF] ++ DS4_TOOL_CALLS_START))%nat by (rewrite length_app; lia).
  rewrite <- drop_drop, Hd, (app_assoc [LF; LF]), drop_app_length.
  assert (Hf : (length cs < S (length (body ++ after)))%nat).
  { unfold body. cbn [app length]. rewrite !length_app.
    assert (length cs <= length (concat (map (fun c => call_text c.1.2 c.2) cs)))%nat; [|lia].
    clear. induction cs as [|c cs IH]; [done|]. cbn [map concat length]. rewrite length_app.
    assert (1 <= length (call_text c.1.2 c.2))%nat; [|lia].
    unfold call_text. rewrite length_app. cbn [length]. lia. }
  revert Hf. generalize (S (length (body ++ after))) as fuel. intros fuel Hf.
  assert (Hba : body ++ after = LF :: concat (map (fun c => call_text (snd (fst c)) (snd c)) cs) ++ DS4_TOOL_CALLS_END ++ after)
    by (unfold body; by rewrite <- app_comm_cons, <- app_assoc).
  rewrite Hba, invokes_parsed by done. cbv zeta. rewrite <- Hba.
  assert (Hraw : take (length text - length content - length after)
    (([LF; LF] ++ DS4_TOOL_CALLS_START) ++ body ++ after) = block_text cs).
  { replace (length text - length content - length after)%nat with (length (block_text cs))
      by (unfold text; rewrite !length_app; lia).
    rewrite Hb, app_assoc. apply take_app_length. }
  rewrite Hraw. unfold text. rewrite trim_front by done. by rewrite split_front by apply trim_le.
Qed.

(** C19 Tool calls survive the DSML text, under conditions on the calls
    ([call_ok]) and on the place of the search.  Take at least one call, with
    any names, whose arguments are JSON objects of C strings and of values
    within the nesting ceiling, where no key ends in [string=] (see
    [key_confuses]), no string holds an entity ([entity_changes]) and no other
    value holds the closing tag of a parameter.  Written by
    [append_dsml_tool_calls_text] behind a content, and with anything behind
    them, they are read back by [parse_generated_message_ex] when the search for
    a block begins within the content - so with thinking required to be closed,
    no argument may hold [</think>] ([think_hides]) - and no block starts in the
    content from there on: the parser accepts, splits the trimmed content,
    appends the same names with the same members in the same order, and keeps
    the block's text.  The arguments it stores parse to the same members as
    those that were sent, and writing the calls it stored without the kept text
    gives the same bytes again. *)
Theorem dsml_roundtrip (content after : bytes) (require_thinking_closed : bool) (search : nat)
    (v : list tool_call) (raw : option bytes) (cs : list (option bytes * bytes * list (bytes * jvalue))) :
  forallb call_ok cs = true -> cs <> [] ->
  let block := append_dsml_tool_calls_text (Some (ToolCalls (map sent_call cs) None)) in
  search_from (content ++ block ++ after) require_thinking_closed = Some search ->
  (search <= length content)%nat ->
  strstr_pos (drop search content) ([LF; LF] ++ DS4_TOOL_CALLS_START) = None ->
  parse_generated_message_ex (Some (content ++ block ++ after)) require_thinking_closed (ToolCalls v raw) =
    (true, Some (split_reasoning_content content (trim_tool_separator_ws content 0 (length content))),
     ToolCalls (v ++ map read_call cs) (Some block)) /\
  Forall (fun c => json_args_parse (tc_arguments (read_call c)) = json_args_parse (tc_arguments (sent_call c)) /\
                   json_args_parse (tc_arguments (read_call c)) = JOk (map arg_of (snd c)) [x7d]) cs /\
  append_dsml_tool_calls_text (Some (ToolCalls (map read_call cs) None)) = block.
Proof.
  intros Hok Hne block.
  assert (Hb : block = block_text cs).
  { apply (block_written sent_call []); [done| |done..]. intros [[id n] ms]. exists id. cbn [sent_call fst snd].
    by rewrite object_text_print. }
  rewrite Hb. clear block Hb. intros Hs Hl Hn. split; [by apply (message_parsed _ _ _ search)|]. split.
  - rewrite Forall_forall. intros [[id n] ms] Hin. cbn [read_call sent_call tc_arguments snd].
    rewrite object_text_print. rewrite forallb_forall in Hok. apply list_elem_of_In in Hin. apply Hok in Hin.
    assert (forallb member_ok ms = true) by by apply members_of_params.
    by rewrite !args_parse_object by (done || by repeat constructor).
  - apply (block_written read_call [x20]); [by repeat constructor| |done..]. intros [[id n] ms]. by exists None.
Qed.

(** ** Witness and examples *)

Definition ex_calls : list (option bytes * bytes * list (bytes * jvalue)) :=
  [(Some (B "call_1"), B "a<b>", [(B "path & key", JStr (B "x </｜DSML｜parameter> y"));
      (B "n", JArr [JInt 3; JStr (B " a b "); JNull])]);
   (None, B "none", [])].

Lemma dsml_roundtrip_witness :
  let block := append_dsml_tool_calls_text (Some (ToolCalls (map sent_call ex_calls) None)) in
  parse_generated_message_ex (Some (B "<think>plan</think>Hello  " ++ block ++ B "tail")) true (ToolCalls [] None) =
    (true, Some (B "Hello", Some (B "plan")), ToolCalls (map read_call ex_calls) (Some block)).
Proof.
  refine (proj1 (dsml_roundtrip (B "<think>plan</think>Hello  ") (B "tail") true 19 [] None ex_calls _ _ _ _ _)).
  - vm_compute. reflexivity.
  - discriminate.
  - vm_compute. reflexivity.
  - apply (bool_decide_unpack _). vm_compute. exact I.
  - vm_compute. reflexivity.
Defined.

(** One call with one string argument, behind [content]. *)
Definition ex_text (content key value : bytes) : bytes :=
  content ++ append_dsml_tool_calls_text (Some (ToolCalls [sent_call (None, B "f", [(key, JStr value)])] None)).

Definition ex_arguments (r : bool * option (bytes * option bytes) * tool_calls) : bool * list (option bytes) :=
  (fst (fst r), map tc_arguments (tcs_v (snd r))).

(** An entity in a string is written as it is and read back as its character. *)
Example entity_changes :
  ex_arguments (parse_generated_message_ex (Some (ex_text [] (B "k") (B "a &lt; b"))) false (ToolCalls [] None)) =
  (true, [Some (B "{" ++ json_escape (B "k") ++ B ": " ++ json_escape (B "a < b") ++ B "}")]).
Proof. vm_compute. reflexivity. Qed.

(** A key that ends in [string=] is taken for the other attribute, and the
    arguments that are stored are no JSON. *)
Example key_confuses :
  ex_arguments (parse_generated_message_ex (Some (ex_text [] (B "string=") (B "v"))) false (ToolCalls [] None)) =
  (true, [Some (B "{" ++ json_escape (B "string=") ++ B ": v}")]) /\
  json_args_parse (Some (B "{" ++ json_escape (B "string=") ++ B ": v}")) = JFail.
Proof. vm_compute. split; reflexivity. Qed.

(** With thinking required to be closed, an argument that holds [</think>]
    hides its call: the search starts behind it. *)
Example think_hides :
  ex_arguments (parse_generated_message_ex (Some (ex_text (B "<think>p</think>") (B "k") (B "say </think>"))) true
    (ToolCalls [] None)) = (true, []).
Proof. vm_compute. reflexivity. Qed.
