(* ===== verification/DsmlTrack.v ===== *)
(** * Where decoding is inside a tool call (ds4_server.c)

    The tracker that tells protocol text from payload while the model writes a
    tool call, the slow recognizer its tests compare it with, and how much of
    a parameter's value may be sent.  [raw] is the text generated so far, of
    which only bytes below [raw_len] are read. *)
From S2P Require Import Prelude.
From S2P Require Import CNum.
From S2P Require Import CFloat.
From S2P Require Import ServerJson.
From S2P Require Import ServerStream.
From S2P Require Import ServerMsgs.
From S2P Require Import Dsml.
Open Scope Z_scope.

(** ** Literals in a text *)

Definition raw_full_lit (raw : bytes) (pos : nat) (lit : bytes) : bool := str_prefixb lit (drop pos raw).

Definition raw_partial_lit_min (raw : bytes) (pos : nat) (lit : bytes) (min_len : nat) : bool :=
  let avail := (length raw - pos)%nat in
  (pos <=? length raw)%nat && (avail <? length lit)%nat && (min_len <=? avail)%nat && str_prefixb (drop pos raw) lit.

Definition raw_partial_lit (raw : bytes) (pos : nat) (lit : bytes) : bool := raw_partial_lit_min raw pos lit 0.

Definition raw_partial_any (raw : bytes) (pos : nat) (a b : bytes) : bool :=
  raw_partial_lit raw pos a || raw_partial_lit raw pos b.

Definition find_lit_bounded (s lit : bytes) : option nat := strstr_pos s lit.

(** ** States *)

Inductive dsml_decode_state :=
  DSML_DECODE_OUTSIDE | DSML_DECODE_STRUCTURAL | DSML_DECODE_STRING_BODY | DSML_DECODE_JSON_STRUCTURAL | DSML_DECODE_JSON_STRING.

Inductive dsml_track_mode :=
  DSML_TRACK_SEARCH | DSML_TRACK_STRUCTURAL | DSML_TRACK_STRING_BODY | DSML_TRACK_JSON_PARAM | DSML_TRACK_DONE.

Definition dsml_syntaxes : list dsml_syntax := [syntax_full; syntax_short; syntax_plain].

Record dsml_decode_tracker := Tracker {
  dt_mode : dsml_track_mode;
  dt_decode : dsml_decode_state;
  dt_syn : option dsml_syntax;
  dt_pos : nat;
  json_in_string : bool;
  json_escaped : bool
}.
#[export] Instance tracker_fields : Fields dsml_decode_tracker :=
  rd_pure Tracker <*> dt_mode <*> dt_decode <*> dt_syn <*> dt_pos <*> json_in_string <*> json_escaped.

Definition dsml_max_tool_start_len : nat :=
  foldl (fun max syn => if (max <? length (tool_calls_start syn))%nat then length (tool_calls_start syn) else max) 0%nat
    dsml_syntaxes.

(** The nearest start tag of any spelling: behind it, and the spelling. *)
Definition nearest_start (raw : bytes) (best : option (nat * dsml_syntax)) (syn : dsml_syntax) : option (nat * dsml_syntax) :=
  match find_lit_bounded raw (tool_calls_start syn), best with
  | Some p, None => Some (p, syn)
  | Some p, Some (b, _) => if (p <? b)%nat then Some (p, syn) else best
  | None, _ => best
  end.

Definition dsml_find_tool_start (raw : bytes) : option (nat * dsml_syntax) :=
  match foldl (nearest_start raw) None dsml_syntaxes with
  | None => None
  | Some (best, syn) => Some ((best + length (tool_calls_start syn))%nat, syn)
  end.

Definition dsml_find_tool_start_from (raw : bytes) (start : nat) : option (nat * dsml_syntax) :=
  if (length raw <? start)%nat then None
  else match dsml_find_tool_start (drop start raw) with
       | None => None
       | Some (rel, syn) => Some ((start + rel)%nat, syn)
       end.

Definition dsml_attr_is_string_true (raw : bytes) (tag_start tag_end : nat) : bool :=
  if (tag_end <=? tag_start)%nat || (length raw <? tag_end)%nat then false
  else match dsml_attr (c_str (take (tag_end - tag_start) (drop tag_start raw))) (B "string") with
       | Some v => str_eqb v (B "true")
       | None => false
       end.

(** ** The recognizer of the tests *)

(** [n] bytes, from [min_len] up to [max]. *)
Fixpoint suffix_partial_loop (raw lit : bytes) (n turns : nat) : bool :=
  match turns with
  | O => false
  | S turns => str_prefixb (drop (length raw - n) raw) lit || suffix_partial_loop raw lit (S n) turns
  end.

Definition raw_suffix_partial_lit (raw lit : bytes) (min_len : nat) : bool :=
  if (length raw =? 0)%nat || (length lit =? 0)%nat then false
  else
    let max := if (length raw <? length lit)%nat then length raw else (length lit - 1)%nat in
    suffix_partial_loop raw lit min_len (S max - min_len).

(** The flags after one byte of a JSON value. *)
Definition json_flags (c : byte) (in_string escaped : bool) : bool * bool :=
  if in_string then
    if escaped then (true, false)
    else if Byte.eqb c BACKSLASH then (true, true)
    else if Byte.eqb c QUOTE then (false, false)
    else (true, false)
  else if Byte.eqb c QUOTE then (true, escaped)
  else (false, escaped).

(** [None]: the closing tag was met; otherwise whether the text ends in a
    string.  [s] is the text from the position on. *)
Fixpoint scan_json_loop (s close : bytes) (in_string escaped : bool) : option bool :=
  match s with
  | [] => Some in_string
  | c :: s' =>
      if negb in_string && str_prefixb close s then None
      else let '(in_string, escaped) := json_flags c in_string escaped in scan_json_loop s' close in_string escaped
  end.

Definition dsml_decode_scan_json_param (raw : bytes) (pos : nat) (syn : dsml_syntax) : dsml_decode_state :=
  match scan_json_loop (drop pos raw) (param_end syn) false false with
  | None => DSML_DECODE_STRUCTURAL
  | Some in_string =>
      if negb in_string && raw_suffix_partial_lit raw (param_end syn) 2 then DSML_DECODE_STRUCTURAL
      else if in_string then DSML_DECODE_JSON_STRING else DSML_DECODE_JSON_STRUCTURAL
  end.

(** [while (pos < raw_len && isspace(raw[pos])) pos++]. *)
Definition skip_spaces (raw : bytes) (pos : nat) : nat :=
  (pos + (length (drop pos raw) - length (skip_space (drop pos raw))))%nat.

(** Behind the first [>] from [pos] on. *)
Definition tag_after (raw : bytes) (pos : nat) : option nat :=
  match strchr_pos (drop pos raw) x3e with Some i => Some (S (pos + i)) | None => None end.

Fixpoint decode_state_loop (fuel : nat) (raw : bytes) (syn : dsml_syntax) (pos : nat) : dsml_decode_state :=
  match fuel with
  | O => DSML_DECODE_STRUCTURAL
  | S fuel =>
      let pos := skip_spaces raw pos in
      if (length raw <=? pos)%nat then DSML_DECODE_STRUCTURAL
      else if raw_full_lit raw pos (tool_calls_end syn) then DSML_DECODE_OUTSIDE
      else if raw_full_lit raw pos (invoke_end syn) then decode_state_loop fuel raw syn (pos + length (invoke_end syn))
      else if raw_full_lit raw pos (invoke_start syn) then
        match tag_after raw pos with
        | None => DSML_DECODE_STRUCTURAL
        | Some pos => decode_state_loop fuel raw syn pos
        end
      else if raw_full_lit raw pos (param_start syn) then
        match tag_after raw pos with
        | None => DSML_DECODE_STRUCTURAL
        | Some tag_end =>
            if dsml_attr_is_string_true raw pos tag_end then
              match find_lit_bounded (drop tag_end raw) (param_end syn) with
              | None =>
                  if raw_suffix_partial_lit raw (param_end syn) 2 then DSML_DECODE_STRUCTURAL else DSML_DECODE_STRING_BODY
              | Some e => decode_state_loop fuel raw syn (tag_end + e + length (param_end syn))
              end
            else
              match dsml_decode_scan_json_param raw tag_end syn with
              | DSML_DECODE_STRUCTURAL =>
                  match find_lit_bounded (drop tag_end raw) (param_end syn) with
                  | None => DSML_DECODE_STRUCTURAL
                  | Some e => decode_state_loop fuel raw syn (tag_end + e + length (param_end syn))
                  end
              | json_state => json_state
              end
        end
      else DSML_DECODE_STRUCTURAL
  end.

Definition dsml_decode_state_for_text (raw : bytes) : dsml_decode_state :=
  if (length raw =? 0)%nat then DSML_DECODE_OUTSIDE
  else match dsml_find_tool_start raw with
       | None => DSML_DECODE_OUTSIDE
       | Some (pos, syn) => decode_state_loop (S (length raw)) raw syn pos
       end.

Definition dsml_decode_state_is_tool (state : dsml_decode_state) : bool :=
  match state with DSML_DECODE_OUTSIDE => false | _ => true end.

Definition dsml_decode_state_uses_payload_sampling (state : dsml_decode_state) : bool :=
  match state with DSML_DECODE_STRING_BODY | DSML_DECODE_JSON_STRING => true | _ => false end.

(** ** The tracker *)

Definition dsml_decode_tracker_init : dsml_decode_tracker :=
  Tracker DSML_TRACK_SEARCH DSML_DECODE_OUTSIDE None 0 false false.

(** The spelling; it is only null while the start tag is searched. *)
Definition the_syn (dt : dsml_decode_tracker) : dsml_syntax := default syntax_full (dt_syn dt).

(** How a walk over a value ends: at its closing tag, at what may become it,
    or with the text. *)
Inductive value_walk := WalkClosed | WalkPartial | WalkEnd.

(** The loop of a string value over the text from [pos] on. *)
Fixpoint string_body_loop (s close : bytes) (pos : nat) : value_walk * nat :=
  match s with
  | [] => (WalkEnd, pos)
  | c :: s' =>
      if str_prefixb close s then (WalkClosed, pos)
      else if raw_partial_lit_min s 0 close 2 then (WalkPartial, pos)
      else string_body_loop s' close (S pos)
  end.

Fixpoint json_param_loop (s close : bytes) (pos : nat) (in_string escaped : bool) : value_walk * nat * bool * bool :=
  match s with
  | [] => (WalkEnd, pos, in_string, escaped)
  | c :: s' =>
      if negb in_string && str_prefixb close s then (WalkClosed, pos, in_string, escaped)
      else if negb in_string && raw_partial_lit_min s 0 close 2 then (WalkPartial, pos, in_string, escaped)
      else let '(in_string, escaped) := json_flags c in_string escaped in
           json_param_loop s' close (S pos) in_string escaped
  end.

(** One turn of the loops; [true] when they go on. *)
Definition structural_turn (dt : dsml_decode_tracker) (raw : bytes) : dsml_decode_tracker * bool :=
  let syn := the_syn dt in
  let pos := skip_spaces raw (dt_pos dt) in
  let dt := dt <| dt_pos := pos |> in
  if (length raw <=? pos)%nat then (dt <| dt_decode := DSML_DECODE_STRUCTURAL |>, false)
  else if raw_full_lit raw pos (tool_calls_end syn) then
    (dt <| dt_mode := DSML_TRACK_DONE |> <| dt_pos := (pos + length (tool_calls_end syn))%nat |>
        <| dt_decode := DSML_DECODE_OUTSIDE |>, false)
  else if raw_full_lit raw pos (invoke_end syn) then
    (dt <| dt_pos := (pos + length (invoke_end syn))%nat |>, true)
  else if raw_full_lit raw pos (invoke_start syn) then
    match tag_after raw pos with
    | None => (dt <| dt_decode := DSML_DECODE_STRUCTURAL |>, false)
    | Some after => (dt <| dt_pos := after |>, true)
    end
  else if raw_full_lit raw pos (param_start syn) then
    match tag_after raw pos with
    | None => (dt <| dt_decode := DSML_DECODE_STRUCTURAL |>, false)
    | Some after =>
        let dt := dt <| dt_pos := after |> in
        if dsml_attr_is_string_true raw pos after
        then (dt <| dt_mode := DSML_TRACK_STRING_BODY |> <| dt_decode := DSML_DECODE_STRING_BODY |>, true)
        else (dt <| dt_mode := DSML_TRACK_JSON_PARAM |> <| json_in_string := false |> <| json_escaped := false |>
                 <| dt_decode := DSML_DECODE_JSON_STRUCTURAL |>, true)
    end
  else (dt <| dt_decode := DSML_DECODE_STRUCTURAL |>, false).

(** Behind the closing tag of a value. *)
Definition close_value (dt : dsml_decode_tracker) (pos : nat) : dsml_decode_tracker :=
  dt <| dt_pos := (pos + length (param_end (the_syn dt)))%nat |> <| dt_mode := DSML_TRACK_STRUCTURAL |>
     <| dt_decode := DSML_DECODE_STRUCTURAL |>.

Definition track_turn (dt : dsml_decode_tracker) (raw : bytes) : dsml_decode_tracker * bool :=
  match dt_mode dt with
  | DSML_TRACK_DONE => (dt <| dt_decode := DSML_DECODE_OUTSIDE |>, false)
  | DSML_TRACK_SEARCH =>
      match dsml_find_tool_start_from raw (dt_pos dt) with
      | None =>
          let hold := dsml_max_tool_start_len in
          (dt <| dt_pos := if (hold <? length raw)%nat then (length raw - hold)%nat else 0%nat |>
              <| dt_decode := DSML_DECODE_OUTSIDE |>, false)
      | Some (pos, syn) =>
          (dt <| dt_syn := Some syn |> <| dt_pos := pos |> <| dt_mode := DSML_TRACK_STRUCTURAL |>
              <| dt_decode := DSML_DECODE_STRUCTURAL |>, true)
      end
  | DSML_TRACK_STRING_BODY =>
      match string_body_loop (drop (dt_pos dt) raw) (param_end (the_syn dt)) (dt_pos dt) with
      | (WalkClosed, pos) => (close_value dt pos, true)
      | (WalkPartial, pos) => (dt <| dt_pos := pos |> <| dt_decode := DSML_DECODE_STRUCTURAL |>, false)
      | (WalkEnd, pos) => (dt <| dt_pos := pos |> <| dt_decode := DSML_DECODE_STRING_BODY |>, false)
      end
  | DSML_TRACK_JSON_PARAM =>
      let '(walk, pos, in_string, escaped) :=
        json_param_loop (drop (dt_pos dt) raw) (param_end (the_syn dt)) (dt_pos dt) (json_in_string dt) (json_escaped dt) in
      let dt := dt <| json_in_string := in_string |> <| json_escaped := escaped |> in
      match walk with
      | WalkClosed => (close_value dt pos, true)
      | WalkPartial => (dt <| dt_pos := pos |> <| dt_decode := DSML_DECODE_STRUCTURAL |>, false)
      | WalkEnd =>
          (dt <| dt_pos := pos |>
              <| dt_decode := if in_string then DSML_DECODE_JSON_STRING else DSML_DECODE_JSON_STRUCTURAL |>, false)
      end
  | DSML_TRACK_STRUCTURAL => structural_turn dt raw
  end.

Fixpoint track_loop (fuel : nat) (dt : dsml_decode_tracker) (raw : bytes) : dsml_decode_tracker :=
  match fuel with
  | O => dt
  | S fuel =>
      match track_turn dt raw with
      | (dt, true) => track_loop fuel dt raw
      | (dt, false) => dt
      end
  end.

(** Every turn that goes on leaves a tag behind. *)
Definition dsml_decode_tracker_update (dt : dsml_decode_tracker) (raw : bytes) : dsml_decode_tracker :=
  track_loop (S (S (length raw))) dt raw.

(** ** What may be sent of a value *)

Definition entities : list bytes := [B "&amp;"; B "&lt;"; B "&gt;"; B "&quot;"; B "&apos;"].

(** The loop from [i] down to [scan], in [turns] turns. *)
Fixpoint entity_safe_loop (raw : bytes) (limit i turns : nat) : nat :=
  match turns with
  | O => limit
  | S turns =>
      if negb (Byte.eqb (nth (i - 1) raw NUL) x26) then entity_safe_loop raw limit (i - 1) turns
      else
        let amp := (i - 1)%nat in
        let tail := (limit - amp)%nat in
        if existsb (fun e => (tail <? length e)%nat && str_prefixb (take tail (drop amp raw)) e) entities then amp else limit
  end.

Definition dsml_entity_stream_safe_len (raw : bytes) (start limit : nat) : nat :=
  let scan := if (start + 6 <? limit)%nat then (limit - 6)%nat else start in
  entity_safe_loop raw limit limit (limit - scan).

Fixpoint marker_safe_loop (raw param_end : bytes) (raw_len i turns : nat) : nat :=
  match turns with
  | O => raw_len
  | S turns =>
      if negb (Byte.eqb (nth (i - 1) raw NUL) x3c) then marker_safe_loop raw param_end raw_len (i - 1) turns
      else
        let marker := (i - 1)%nat in
        let tail := (raw_len - marker)%nat in
        if (tail <? length param_end)%nat && str_prefixb (take tail (drop marker raw)) param_end then marker else raw_len
  end.

Definition tool_param_value_stream_safe_len (raw : bytes) (start raw_len : nat) (param_end : bytes) (is_string : bool) : nat :=
  let end_len := length param_end in
  let scan := if (start + end_len <? raw_len)%nat then (raw_len - end_len)%nat else start in
  let limit := marker_safe_loop raw param_end raw_len raw_len (raw_len - scan) in
  let limit := if is_string then dsml_entity_stream_safe_len raw start limit else limit in
  utf8_stream_safe_len raw start limit false.
