(* ===== verification/DsmlTrackProps.v ===== *)
(** * The tracker does not depend on how the text arrives

    Updating the tracker as the text grows leaves it where one update on the
    whole text does, provided no update ends in a lone [<]; and one update
    gives the state of the slow recognizer, unless a JSON value holds its
    closing tag inside a string. *)
From S2P Require Import Prelude.
From S2P Require Import CNum.
From S2P Require Import CFloat.
From S2P Require Import ServerJson.
From S2P Require Import ServerJsonProps.
From S2P Require Import ServerStream.
From S2P Require Import ServerStreamProps.
From S2P Require Import ServerMsgs.
From S2P Require Import Dsml.
From S2P Require Import DsmlProps.
From S2P Require Import DsmlTrack.
Open Scope Z_scope.

(** ** Literals in a growing text *)

Lemma prefix_grow (lit s d : bytes) : str_prefixb lit s = true -> str_prefixb lit (s ++ d) = true.
Proof. intros [t ->]%str_prefixb_spec. rewrite <- app_assoc. apply prefixb_app. Qed.

Lemma prefix_fixed (lit s d : bytes) : (length lit <= length s)%nat -> str_prefixb lit (s ++ d) = str_prefixb lit s.
Proof.
  revert s. induction lit as [|c lit IH]; intros [|b s]; cbn [length app str_prefixb]; try done; [lia|].
  intros Hl. destruct (Byte.eqb c b); [|done]. apply IH. lia.
Qed.

Lemma drop_grow (n : nat) (t d : bytes) : (n <= length t)%nat -> drop n (t ++ d) = drop n t ++ d.
Proof. apply drop_app_le. Qed.

Lemma full_grow (t d lit : bytes) (pos : nat) : lit <> [] -> raw_full_lit t pos lit = true ->
  raw_full_lit (t ++ d) pos lit = true /\ (pos + length lit <= length t)%nat.
Proof.
  unfold raw_full_lit. intros Hn H. pose proof (prefixb_length _ _ H) as Hl. rewrite length_drop in Hl.
  assert (0 < length lit)%nat by (destruct lit; simpl; [done|lia]).
  rewrite drop_grow by lia. split; [by apply prefix_grow|lia].
Qed.

Lemma strstr_grow (s d m : bytes) (i : nat) : m <> [] -> strstr_pos s m = Some i -> strstr_pos (s ++ d) m = Some i.
Proof.
  intros Hm Hi. apply strstr_pos_some in Hi as [H1 H2]. pose proof (prefixb_length _ _ H1) as Hl. rewrite length_drop in Hl.
  assert (0 < length m)%nat by (destruct m; simpl; [done|lia]).
  apply strstr_here; [rewrite drop_grow by lia; by apply prefix_grow|].
  intros j Hj. rewrite drop_grow by lia. rewrite prefix_fixed by (rewrite length_drop; lia). by apply H2.
Qed.

(** Two literals at overlapping places of one text are comparable. *)
Lemma overlap (a c s : bytes) (j b : nat) : str_prefixb a (drop b s) = true -> str_prefixb c (drop j s) = true ->
  (j <= b)%nat -> str_prefixb a (drop (b - j) c) = true \/ str_prefixb (drop (b - j) c) a = true \/ (length c < b - j)%nat.
Proof.
  intros Ha [t Hc]%str_prefixb_spec Hj. destruct (Nat.le_gt_cases (b - j) (length c)) as [Hl|Hl]; [|auto].
  replace b with (j + (b - j))%nat in Ha by lia. rewrite <- drop_drop, Hc, drop_grow in Ha by done.
  apply prefixb_cases in Ha as [Ha|Ha]; auto.
Qed.

(** ** Facts about the tags, by computation *)

Definition incomparable (a c : bytes) : bool := negb (str_prefixb a c) && negb (str_prefixb c a).

Definition tags (syn : dsml_syntax) : list bytes := [tool_calls_end syn; invoke_end syn; invoke_start syn; param_start syn].

Definition pairwise_ok (l : list bytes) : bool :=
  forallb (fun i => forallb (fun j => (i =? j)%nat || incomparable (nth i l []) (nth j l [])) (seq 0 (length l)))
    (seq 0 (length l)).

Lemma tags_ok (syn : dsml_syntax) : syn ∈ dsml_syntaxes -> pairwise_ok (tags syn) = true.
Proof.
  intros [-> |[-> |[-> |[]%elem_of_nil]%elem_of_cons]%elem_of_cons]%elem_of_cons; vm_compute; reflexivity.
Qed.

Lemma tags_apart (syn : dsml_syntax) (i j : nat) (s : bytes) : syn ∈ dsml_syntaxes -> (i < 4)%nat -> (j < 4)%nat -> i <> j ->
  str_prefixb (nth i (tags syn) []) s = true -> str_prefixb (nth j (tags syn) []) s = false.
Proof.
  intros Hsyn Hi Hj Hij H. pose proof (tags_ok syn Hsyn) as Hok. unfold pairwise_ok in Hok.
  rewrite forallb_forall in Hok. specialize (Hok i ltac:(apply in_seq; simpl; lia)). cbv beta in Hok.
  rewrite forallb_forall in Hok. specialize (Hok j ltac:(apply in_seq; simpl; lia)).
  apply orb_true_iff in Hok as [Hok|Hok]; [by apply Nat.eqb_eq in Hok|].
  apply not_true_iff_false. intros H2. apply str_prefixb_spec in H as [t ->].
  unfold incomparable in Hok. apply andb_true_iff in Hok as [H1 H3]. apply negb_true_iff in H1, H3.
  destruct (prefixb_cases _ _ _ H2); congruence.
Qed.

Definition starts_ok : bool :=
  forallb (fun a => forallb (fun c => forallb (fun k =>
      ((k =? 0)%nat && str_eqb a c) || (negb (str_prefixb a (drop k c)) && negb (str_prefixb (drop k c) a)))
    (seq 0 (length c))) (map tool_calls_start dsml_syntaxes)) (map tool_calls_start dsml_syntaxes).

Lemma starts_ok_true : starts_ok = true.
Proof. vm_compute. reflexivity. Qed.

(** Start tags do not overlap. *)
Lemma starts_apart (sa sc : dsml_syntax) (s : bytes) (b j : nat) : sa ∈ dsml_syntaxes -> sc ∈ dsml_syntaxes ->
  str_prefixb (tool_calls_start sa) (drop b s) = true -> str_prefixb (tool_calls_start sc) (drop j s) = true ->
  (j <= b < j + length (tool_calls_start sc))%nat -> b = j /\ tool_calls_start sa = tool_calls_start sc.
Proof.
  intros Ha Hc H1 H2 Hj. pose proof starts_ok_true as Hok. unfold starts_ok in Hok.
  rewrite forallb_forall in Hok. specialize (Hok (tool_calls_start sa)). rewrite forallb_forall in Hok.
  assert (Hin : forall x, x ∈ dsml_syntaxes -> In (tool_calls_start x) (map tool_calls_start dsml_syntaxes)).
  { intros x Hx. apply in_map. by apply list_elem_of_In. }
  specialize (Hok (Hin _ Ha) _ (Hin _ Hc)). rewrite forallb_forall in Hok.
  specialize (Hok (b - j)%nat ltac:(apply in_seq; lia)). apply orb_true_iff in Hok as [Hok|Hok].
  - apply andb_true_iff in Hok as [Hk He]. apply Nat.eqb_eq in Hk. apply str_eqb_eq in He. split; [lia|done].
  - apply andb_true_iff in Hok as [H3 H4]. apply negb_true_iff in H3, H4.
    destruct (overlap _ _ _ _ _ H1 H2) as [H|[H|H]]; [lia|congruence|congruence|lia].
Qed.

(** ** The first start tag *)

Definition start_at (raw : bytes) (syn : dsml_syntax) (b : nat) : Prop :=
  syn ∈ dsml_syntaxes /\ str_prefixb (tool_calls_start syn) (drop b raw) = true.

(** The first start tag at or behind [from]. *)
Definition first_start (raw : bytes) (from : nat) (r : option (nat * dsml_syntax)) : Prop :=
  match r with
  | Some (p, syn) => exists b, (from <= b)%nat /\ p = (b + length (tool_calls_start syn))%nat /\ start_at raw syn b /\
      forall syn' j, (from <= j)%nat -> start_at raw syn' j -> (b <= j)%nat
  | None => forall syn' j, (from <= j)%nat -> ~ start_at raw syn' j
  end.

Lemma start_inj (s1 s2 : dsml_syntax) : s1 ∈ dsml_syntaxes -> s2 ∈ dsml_syntaxes ->
  tool_calls_start s1 = tool_calls_start s2 -> s1 = s2.
Proof.
  intros [-> |[-> |[-> |[]%elem_of_nil]%elem_of_cons]%elem_of_cons]%elem_of_cons
    [-> |[-> |[-> |[]%elem_of_nil]%elem_of_cons]%elem_of_cons]%elem_of_cons; vm_compute; congruence.
Qed.

Lemma start_nonempty (syn : dsml_syntax) : syn ∈ dsml_syntaxes -> (0 < length (tool_calls_start syn) <= dsml_max_tool_start_len)%nat.
Proof. intros [-> |[-> |[-> |[]%elem_of_nil]%elem_of_cons]%elem_of_cons]%elem_of_cons; vm_compute; lia. Qed.

Lemma first_start_unique (raw : bytes) (from : nat) (r r' : option (nat * dsml_syntax)) :
  first_start raw from r -> first_start raw from r' -> r = r'.
Proof.
  destruct r as [[p syn]|], r' as [[p' syn']|]; cbn [first_start]; [| | |done].
  - intros (b & Hf & -> & Hs & Hmin) (b' & Hf' & -> & Hs' & Hmin').
    assert (b = b') as <- by (apply Nat.le_antisymm; eauto).
    destruct Hs as [Hin Hp], Hs' as [Hin' Hp'].
    destruct (starts_apart syn syn' raw b b) as [_ E]; [done..| |]; [pose proof (start_nonempty _ Hin'); lia|].
    by rewrite (start_inj _ _ Hin Hin' E).
  - intros (b & Hf & -> & Hs & _) H. by destruct (H syn b).
  - intros H (b & Hf & -> & Hs & _). by destruct (H syn' b).
Qed.

Lemma nearest_fold (raw : bytes) (l : list dsml_syntax) :
  match foldl (nearest_start raw) None l with
  | Some (b, syn) => syn ∈ l /\ str_prefixb (tool_calls_start syn) (drop b raw) = true /\
      forall syn' j, syn' ∈ l -> str_prefixb (tool_calls_start syn') (drop j raw) = true -> (b <= j)%nat
  | None => forall syn' j, syn' ∈ l -> str_prefixb (tool_calls_start syn') (drop j raw) = false
  end.
Proof.
  induction l as [|s l IH] using rev_ind; [by intros ? ? ?%elem_of_nil|]. rewrite foldl_app. cbn [foldl].
  unfold nearest_start at 1, find_lit_bounded.
  destruct (strstr_pos raw (tool_calls_start s)) as [p|] eqn:E.
  - apply strstr_pos_some in E as [E1 E2].
    assert (Hmin : forall j, str_prefixb (tool_calls_start s) (drop j raw) = true -> (p <= j)%nat).
    { intros j Hj. destruct (Nat.le_gt_cases p j) as [|Hlt]; [done|]. by rewrite E2 in Hj. }
    destruct (foldl (nearest_start raw) None l) as [[b syn]|].
    + destruct IH as (H1 & H2 & H3). destruct (Nat.ltb_spec p b) as [Hlt|Hge].
      * split; [apply elem_of_app; right; left|]. split; [done|]. intros syn' j Hin Hj.
        apply elem_of_app in Hin as [Hin| ->%list_elem_of_singleton]; [|by apply Hmin]. specialize (H3 _ _ Hin Hj). lia.
      * split; [apply elem_of_app; by left|]. split; [done|]. intros syn' j Hin Hj.
        apply elem_of_app in Hin as [Hin| ->%list_elem_of_singleton]; [by eapply H3|]. specialize (Hmin _ Hj). lia.
    + split; [apply elem_of_app; right; left|]. split; [done|]. intros syn' j Hin Hj.
      apply elem_of_app in Hin as [Hin| ->%list_elem_of_singleton]; [by rewrite IH in Hj|by apply Hmin].
  - pose proof (strstr_pos_none _ _ E) as Hn. destruct (foldl (nearest_start raw) None l) as [[b syn]|].
    + destruct IH as (H1 & H2 & H3). split; [apply elem_of_app; by left|]. split; [done|]. intros syn' j Hin Hj.
      apply elem_of_app in Hin as [Hin| ->%list_elem_of_singleton]; [by eapply H3|]. by rewrite Hn in Hj.
    + intros syn' j [Hin| ->%list_elem_of_singleton]%elem_of_app; [by apply IH|done].
Qed.

Lemma find_start_spec (raw : bytes) (from : nat) : first_start raw from (dsml_find_tool_start_from raw from).
Proof.
  unfold dsml_find_tool_start_from. destruct (Nat.ltb_spec (length raw) from) as [Hl|Hl].
  { intros syn' j Hj [Hin H]. rewrite drop_ge in H by lia. pose proof (start_nonempty _ Hin). destruct (tool_calls_start syn'); [simpl in *; lia|done]. }
  unfold dsml_find_tool_start. pose proof (nearest_fold (drop from raw) dsml_syntaxes) as H.
  destruct (foldl _ None dsml_syntaxes) as [[b syn]|].
  - destruct H as (H1 & H2 & H3). cbn [first_start]. exists (from + b)%nat. split; [lia|]. split; [lia|].
    rewrite drop_drop in H2. split; [done|]. intros syn' j Hj [Hin Hp].
    specialize (H3 syn' (j - from)%nat Hin). rewrite drop_drop in H3. replace (from + (j - from))%nat with j in H3 by lia.
    specialize (H3 Hp). lia.
  - intros syn' j Hj [Hin Hp]. specialize (H syn' (j - from)%nat Hin). rewrite drop_drop in H.
    replace (from + (j - from))%nat with j in H by lia. congruence.
Qed.

Lemma start_at_fits (raw : bytes) (syn : dsml_syntax) (b : nat) : start_at raw syn b ->
  (b + length (tool_calls_start syn) <= length raw)%nat.
Proof.
  intros [Hin H]. pose proof (start_nonempty _ Hin). apply prefixb_length in H. rewrite length_drop in H. lia.
Qed.

Lemma start_at_grow (t d : bytes) (syn : dsml_syntax) (b : nat) : start_at t syn b -> start_at (t ++ d) syn b.
Proof.
  intros Hs. pose proof (start_at_fits _ _ _ Hs) as Hf. destruct Hs as [Hin H]. split; [done|].
  pose proof (start_nonempty _ Hin). rewrite drop_grow by lia. by apply prefix_grow.
Qed.

(** A start tag that fits in the old text was already there. *)
Lemma start_at_old (t d : bytes) (syn : dsml_syntax) (b : nat) : start_at (t ++ d) syn b ->
  (b + length (tool_calls_start syn) <= length t)%nat -> start_at t syn b.
Proof.
  intros [Hin H] Hf. split; [done|]. pose proof (start_nonempty _ Hin). rewrite drop_grow in H by lia.
  rewrite prefix_fixed in H by (rewrite length_drop; lia). done.
Qed.

Lemma find_start_grow (t d : bytes) (from p : nat) (syn : dsml_syntax) :
  dsml_find_tool_start_from t from = Some (p, syn) -> dsml_find_tool_start_from (t ++ d) from = Some (p, syn).
Proof.
  intros E. apply (first_start_unique (t ++ d) from); [apply find_start_spec|].
  pose proof (find_start_spec t from) as H. rewrite E in H. destruct H as (b & Hf & -> & Hs & Hmin).
  exists b. split; [done|]. split; [done|]. split; [by apply start_at_grow|]. intros syn' j Hj Hs'.
  destruct (Nat.le_gt_cases b j) as [|Hlt]; [done|].
  destruct (Nat.le_gt_cases (j + length (tool_calls_start syn')) (length t)) as [Hfit|Hover].
  - apply (Hmin syn' j Hj). by eapply start_at_old.
  - exfalso. pose proof (start_at_fits _ _ _ Hs) as Hb. pose proof (start_at_grow t d syn b Hs) as Hsg.
    destruct Hs as [Hin _], Hs' as [Hin' Hp'], Hsg as [_ Hp]. pose proof (start_nonempty _ Hin).
    destruct (starts_apart syn syn' (t ++ d) b j) as [E' _]; [done..| |]; lia.
Qed.

(** Searching again from further on, as far as nothing can have started. *)
Lemma find_start_again (t d : bytes) (from from' : nat) : dsml_find_tool_start_from t from = None ->
  (from <= from')%nat -> (from' <= length t - dsml_max_tool_start_len)%nat ->
  dsml_find_tool_start_from (t ++ d) from = dsml_find_tool_start_from (t ++ d) from'.
Proof.
  intros E Hle Hm. apply (first_start_unique (t ++ d) from); [apply find_start_spec|].
  pose proof (find_start_spec t from) as Hn. rewrite E in Hn. cbn [first_start] in Hn.
  assert (Hskip : forall syn' j, (from <= j)%nat -> start_at (t ++ d) syn' j -> (from' <= j)%nat).
  { intros syn' j Hj Hs. destruct (Nat.le_gt_cases from' j) as [|Hlt]; [done|]. exfalso. apply (Hn syn' j Hj).
    pose proof (start_nonempty syn' (proj1 Hs)). eapply start_at_old; [done|]. lia. }
  pose proof (find_start_spec (t ++ d) from') as H. destruct (dsml_find_tool_start_from (t ++ d) from') as [[p syn]|].
  - destruct H as (b & Hf & -> & Hs & Hmin). exists b. split; [lia|]. split; [done|]. split; [done|].
    intros syn' j Hj Hs'. eapply Hmin; [|done]. by eapply Hskip.
  - intros syn' j Hj Hs'. eapply H; [|done]. by eapply Hskip.
Qed.

(** ** Values *)

(** The text does not end in a lone [<]. *)
Definition settled (t : bytes) : Prop := last t <> Some x3c.

Lemma settled_drop (n : nat) (t : bytes) : (n < length t)%nat -> settled t -> settled (drop n t).
Proof.
  unfold settled. intros Hn Hs E. apply Hs. rewrite <- (take_drop n t), last_app, E. done.
Qed.

Lemma settled_tail (c : byte) (s : bytes) : settled (c :: s) -> settled s.
Proof. unfold settled. destruct s as [|b s]; [done|]. by rewrite last_cons_cons. Qed.

(** A closing tag starts with [<] and is longer than that. *)
Definition is_close (close : bytes) : Prop := exists b r, close = x3c :: b :: r.

Lemma close_of (syn : dsml_syntax) : syn ∈ dsml_syntaxes -> is_close (param_end syn).
Proof. intros [-> |[-> |[-> |[]%elem_of_nil]%elem_of_cons]%elem_of_cons]%elem_of_cons; by eexists _, _. Qed.

(** A place that neither closes the value nor may close it stays so. *)
Lemma walked_on (s d close : bytes) (c : byte) : is_close close -> settled (c :: s) ->
  str_prefixb close (c :: s) = false -> raw_partial_lit_min (c :: s) 0 close 2 = false ->
  str_prefixb close (c :: s ++ d) = false /\ raw_partial_lit_min (c :: s ++ d) 0 close 2 = false.
Proof.
  intros (b & r & ->) Hset Hf Hp. change (c :: s ++ d) with ((c :: s) ++ d).
  destruct (Nat.le_gt_cases (length (x3c :: b :: r)) (length (c :: s))) as [Hl|Hl].
  - rewrite prefix_fixed by done. split; [done|]. unfold raw_partial_lit_min. rewrite length_app.
    rewrite (proj2 (Nat.ltb_ge _ _)); [|lia]. by rewrite andb_false_r.
  - destruct s as [|c2 s].
    + unfold settled in Hset. cbn in Hset.
      assert (Byte.eqb x3c c = false) as Hc by (apply beqb_neq; congruence).
      assert (Byte.eqb c x3c = false) as Hc' by (apply beqb_neq; congruence).
      unfold raw_partial_lit_min. cbn [app str_prefixb drop]. by rewrite Hc, Hc', !andb_false_r.
    + unfold raw_partial_lit_min in Hp. cbn [drop] in Hp. rewrite Nat.sub_0_r in Hp.
      rewrite (proj2 (Nat.leb_le _ _)) in Hp by lia. rewrite (proj2 (Nat.ltb_lt _ _)) in Hp by done.
      rewrite (proj2 (Nat.leb_le 2 _)) in Hp by (simpl; lia). cbn [andb] in Hp.
      assert (Hno : forall x y : bytes, str_prefixb (c :: c2 :: s) x = false -> (length (c :: c2 :: s) <= length x)%nat ->
        str_prefixb x ((c :: c2 :: s) ++ y) = false).
      { intros x y Hx Hlx. apply not_true_iff_false. intros [t E]%str_prefixb_spec.
        assert (str_prefixb (c :: c2 :: s) x = true); [|congruence]. apply str_prefixb_spec.
        apply (f_equal (take (length (c :: c2 :: s)))) in E. rewrite take_app_length, take_app_le in E by done.
        exists (drop (length (c :: c2 :: s)) x). by rewrite E, take_drop at 1. }
      split; [apply Hno; [done|lia]|]. unfold raw_partial_lit_min. cbn [drop].
      rewrite drop_0.
      assert (str_prefixb ((c :: c2 :: s) ++ d) (x3c :: b :: r) = false) as ->; [|by rewrite andb_false_r].
      apply not_true_iff_false. intros [t E]%str_prefixb_spec. apply not_true_iff_false in Hp. apply Hp.
      apply str_prefixb_spec. exists (d ++ t). by rewrite E, <- app_assoc.
Qed.

(** A walk that did not close goes on where it stopped. *)
Lemma string_walk_on (close d : bytes) : is_close close -> forall s pos w q, settled s ->
  string_body_loop s close pos = (w, q) -> w <> WalkClosed ->
  (pos <= q <= pos + length s)%nat /\ string_body_loop (s ++ d) close pos = string_body_loop (drop (q - pos) s ++ d) close q.
Proof.
  intros Hc. induction s as [|c s IH]; intros pos w q Hset E Hw; cbn [string_body_loop] in E.
  { injection E as <- <-. split; [simpl; lia|]. by rewrite Nat.sub_diag. }
  destruct (str_prefixb close (c :: s)) eqn:Ef; [by injection E as <- <-|].
  destruct (raw_partial_lit_min (c :: s) 0 close 2) eqn:Ep.
  { injection E as <- <-. split; [lia|]. by rewrite Nat.sub_diag. }
  destruct (IH _ _ _ (settled_tail _ _ Hset) E Hw) as [Hr Heq]. split; [simpl; lia|].
  destruct (walked_on s d close c Hc Hset Ef Ep) as [E1 E2].
  cbn [app string_body_loop]. rewrite E1, E2, Heq. replace (q - pos)%nat with (S (q - S pos)) by lia. done.
Qed.

(** A walk that closed closes in every longer text. *)
Lemma string_walk_closed (close d : bytes) : is_close close -> forall s pos q,
  string_body_loop s close pos = (WalkClosed, q) ->
  (pos <= q)%nat /\ (q + length close <= pos + length s)%nat /\
  string_body_loop (s ++ d) close pos = (WalkClosed, q).
Proof.
  intros Hc. induction s as [|c s IH]; intros pos q E; cbn [string_body_loop] in E; [done|].
  destruct (str_prefixb close (c :: s)) eqn:Ef.
  { injection E as <-. pose proof (prefixb_length _ _ Ef). split; [lia|]. split; [lia|].
    cbn [app string_body_loop]. change (c :: s ++ d) with ((c :: s) ++ d). by rewrite prefix_grow. }
  destruct (raw_partial_lit_min (c :: s) 0 close 2) eqn:Ep; [done|].
  destruct (IH _ _ E) as (H1 & H2 & H3). split; [lia|]. split; [simpl; lia|]. cbn [app string_body_loop].
  change (c :: s ++ d) with ((c :: s) ++ d). rewrite prefix_fixed, Ef by (simpl; lia).
  assert (raw_partial_lit_min ((c :: s) ++ d) 0 close 2 = false) as ->; [|done].
  unfold raw_partial_lit_min. rewrite (proj2 (Nat.ltb_ge _ _)); [by rewrite andb_false_r|]. rewrite length_app. simpl in *. lia.
Qed.

Lemma json_walk_on (close d : bytes) : is_close close -> forall s pos ins esc w q ins' esc', settled s ->
  json_param_loop s close pos ins esc = (w, q, ins', esc') -> w <> WalkClosed ->
  (pos <= q <= pos + length s)%nat /\
  json_param_loop (s ++ d) close pos ins esc = json_param_loop (drop (q - pos) s ++ d) close q ins' esc'.
Proof.
  intros Hc. induction s as [|c s IH]; intros pos ins esc w q ins' esc' Hset E Hw; cbn [json_param_loop] in E.
  { injection E as <- <- <- <-. split; [simpl; lia|]. by rewrite Nat.sub_diag. }
  destruct (negb ins && str_prefixb close (c :: s)) eqn:Ef; [by injection E as <- <- <- <-|].
  destruct (negb ins && raw_partial_lit_min (c :: s) 0 close 2) eqn:Ep.
  { injection E as <- <- <- <-. split; [lia|]. by rewrite Nat.sub_diag. }
  assert (Hon : negb ins && str_prefixb close (c :: s ++ d) = false /\ negb ins && raw_partial_lit_min (c :: s ++ d) 0 close 2 = false).
  { destruct ins; [done|]. cbn [negb andb] in *. by apply walked_on. }
  destruct Hon as [E1 E2]. cbn [app json_param_loop]. rewrite E1, E2. destruct (json_flags c ins esc) as [i2 e2].
  destruct (IH _ _ _ _ _ _ _ (settled_tail _ _ Hset) E Hw) as [Hr Heq]. split; [simpl; lia|].
  rewrite Heq. replace (q - pos)%nat with (S (q - S pos)) by lia. done.
Qed.

Lemma json_walk_closed (close d : bytes) : is_close close -> forall s pos ins esc q ins' esc',
  json_param_loop s close pos ins esc = (WalkClosed, q, ins', esc') ->
  (pos <= q)%nat /\ (q + length close <= pos + length s)%nat /\
  json_param_loop (s ++ d) close pos ins esc = (WalkClosed, q, ins', esc').
Proof.
  intros Hc. induction s as [|c s IH]; intros pos ins esc q ins' esc' E; cbn [json_param_loop] in E; [done|].
  destruct (negb ins && str_prefixb close (c :: s)) eqn:Ef.
  { injection E as <- <- <-. apply andb_true_iff in Ef as [Hi Ef]. pose proof (prefixb_length _ _ Ef). split; [lia|].
    split; [lia|]. cbn [app json_param_loop]. change (c :: s ++ d) with ((c :: s) ++ d). by rewrite Hi, prefix_grow. }
  destruct (negb ins && raw_partial_lit_min (c :: s) 0 close 2) eqn:Ep; [done|].
  destruct (json_flags c ins esc) as [i2 e2] eqn:Ej.
  destruct (IH _ _ _ _ _ _ E) as (H1 & H2 & H3). split; [lia|]. split; [simpl; lia|]. cbn [app json_param_loop].
  change (c :: s ++ d) with ((c :: s) ++ d). rewrite prefix_fixed, Ef by (simpl; lia).
  assert (raw_partial_lit_min ((c :: s) ++ d) 0 close 2 = false) as ->.
  { unfold raw_partial_lit_min. rewrite (proj2 (Nat.ltb_ge _ _)); [by rewrite andb_false_r|]. rewrite length_app. simpl in *. lia. }
  by rewrite andb_false_r, Ej.
Qed.

(** ** Turns *)

Lemma skip_space_app (s d : bytes) :
  skip_space (s ++ d) = match skip_space s with [] => skip_space d | r => r ++ d end.
Proof. induction s as [|c s IH]; [done|]. cbn [app skip_space]. by destruct (byte_isspace c). Qed.

Lemma skip_space_twice (s d : bytes) : skip_space (skip_space s ++ d) = skip_space (s ++ d).
Proof.
  induction s as [|c s IH]; [done|]. cbn [app skip_space]. destruct (byte_isspace c) eqn:E; [done|].
  cbn [app skip_space]. by rewrite E.
Qed.

Lemma skipped (s : bytes) : drop (length s - length (skip_space s)) s = skip_space s.
Proof.
  destruct (skip_space_suffix s) as [k Hk]. rewrite Hk at 1 3. rewrite length_app, Nat.add_sub. apply drop_app_length.
Qed.

Lemma skip_spaces_range (t : bytes) (p : nat) : (p <= length t)%nat -> (p <= skip_spaces t p <= length t)%nat.
Proof.
  intros Hp. unfold skip_spaces. pose proof (suffix_length_le _ _ (skip_space_suffix (drop p t))) as Hl.
  rewrite length_drop in *. lia.
Qed.

Lemma skip_spaces_drop (t : bytes) (p : nat) : drop (skip_spaces t p) t = skip_space (drop p t).
Proof. unfold skip_spaces. rewrite <- drop_drop. apply skipped. Qed.

Lemma skip_spaces_grow (t d : bytes) (p : nat) : (p <= length t)%nat -> (skip_spaces t p < length t)%nat ->
  skip_spaces (t ++ d) p = skip_spaces t p.
Proof.
  intros Hp Hlt. assert (Hne : skip_space (drop p t) <> []).
  { rewrite <- skip_spaces_drop. intros E. apply (f_equal length) in E. rewrite length_drop in E. simpl in E. lia. }
  unfold skip_spaces in *. rewrite drop_grow, skip_space_app by done. destruct (skip_space (drop p t)) as [|c r] eqn:E; [done|].
  rewrite !length_app. lia.
Qed.

Lemma skip_spaces_again (t d : bytes) (p : nat) : (p <= length t)%nat ->
  skip_spaces (t ++ d) (skip_spaces t p) = skip_spaces (t ++ d) p.
Proof.
  intros Hp. pose proof (skip_spaces_range t p Hp) as Hr. unfold skip_spaces at 1 3.
  rewrite !drop_grow, skip_spaces_drop by lia. rewrite skip_space_twice, !length_app.
  unfold skip_spaces. pose proof (suffix_length_le _ _ (skip_space_suffix (drop p t))) as H1.
  pose proof (suffix_length_le _ _ (skip_space_suffix (skip_space (drop p t) ++ d))) as H2.
  rewrite skip_space_twice, length_app in H2. lia.
Qed.

Lemma tag_after_range (t : bytes) (p a : nat) : tag_after t p = Some a -> (p < a <= length t)%nat.
Proof.
  unfold tag_after, strchr_pos. destruct (strstr_pos (drop p t) [x3e]) as [i|] eqn:E; [|done]. intros [= <-].
  apply strstr_pos_some in E as [E _]. apply prefixb_length in E. rewrite !length_drop in E. simpl in E. lia.
Qed.

Lemma tag_after_grow (t d : bytes) (p a : nat) : tag_after t p = Some a -> tag_after (t ++ d) p = Some a.
Proof.
  intros E. pose proof (tag_after_range _ _ _ E) as Hr. unfold tag_after, strchr_pos in *. rewrite drop_grow by lia.
  destruct (strstr_pos (drop p t) [x3e]) as [i|] eqn:Ei; [|done]. by rewrite (strstr_grow _ _ _ i).
Qed.

Lemma is_string_grow (t d : bytes) (p a : nat) : (a <= length t)%nat ->
  dsml_attr_is_string_true (t ++ d) p a = dsml_attr_is_string_true t p a.
Proof.
  intros Ha. unfold dsml_attr_is_string_true. destruct (Nat.leb_spec a p) as [|Hlt]; [done|]. cbn [orb].
  rewrite (proj2 (Nat.ltb_ge _ _)) by (rewrite length_app; lia). rewrite (proj2 (Nat.ltb_ge _ _)) by lia.
  rewrite drop_grow, take_app_le by (rewrite ?length_drop; lia). done.
Qed.

(** What holds between updates on texts up to [t]. *)
Definition tracks (t : bytes) (dt : dsml_decode_tracker) : Prop :=
  the_syn dt ∈ dsml_syntaxes /\
  match dt_mode dt with
  | DSML_TRACK_SEARCH => (dt_pos dt <= length t - dsml_max_tool_start_len)%nat
  | _ => (dt_pos dt <= length t)%nat
  end.

Lemma tracks_grow (t d : bytes) (dt : dsml_decode_tracker) : tracks t dt -> tracks (t ++ d) dt.
Proof. unfold tracks. rewrite length_app. intros [H1 H2]. split; [done|]. destruct (dt_mode dt); lia. Qed.

Lemma tracks_init (t : bytes) : tracks t dsml_decode_tracker_init.
Proof. split; [left|]. cbn. lia. Qed.

(** A turn that goes on: the same with more text, and further along. *)
Definition goes_on (t d : bytes) (dt dt1 : dsml_decode_tracker) : Prop :=
  track_turn dt (t ++ d) = (dt1, true) /\ tracks t dt1 /\ (dt_pos dt < dt_pos dt1)%nat /\ dt_mode dt1 <> DSML_TRACK_SEARCH.

Lemma tag_lit (syn : dsml_syntax) (i : nat) : syn ∈ dsml_syntaxes -> (i < 4)%nat -> nth i (tags syn) [] <> [].
Proof.
  intros [-> |[-> |[-> |[]%elem_of_nil]%elem_of_cons]%elem_of_cons]%elem_of_cons Hi;
    destruct i as [|[|[|[|]]]]; (discriminate || lia).
Qed.

Lemma structural_go (t d : bytes) (dt dt1 : dsml_decode_tracker) : dt_mode dt = DSML_TRACK_STRUCTURAL -> tracks t dt ->
  structural_turn dt t = (dt1, true) -> goes_on t d dt dt1.
Proof.
  intros Hm [Hsyn Hpos] E. rewrite Hm in Hpos. unfold structural_turn in E.
  set (p := skip_spaces t (dt_pos dt)) in *. pose proof (skip_spaces_range t (dt_pos dt) Hpos) as Hr. fold p in Hr.
  destruct (Nat.leb_spec (length t) p) as [Hl|Hl]; [done|].
  assert (Hp : skip_spaces (t ++ d) (dt_pos dt) = p) by (by apply skip_spaces_grow).
  assert (Hlen : (length (t ++ d) <=? p)%nat = false) by (apply Nat.leb_gt; rewrite length_app; lia).
  assert (Hnot : forall i j, (i < 4)%nat -> (j < 4)%nat -> i <> j -> raw_full_lit t p (nth i (tags (the_syn dt)) []) = true ->
    raw_full_lit (t ++ d) p (nth j (tags (the_syn dt)) []) = false).
  { intros i j Hi Hj Hij H. apply full_grow with (d := d) in H as [H _]; [|by apply tag_lit]. unfold raw_full_lit in *.
    exact (tags_apart _ i j _ Hsyn Hi Hj Hij H). }
  unfold goes_on, track_turn. rewrite Hm. unfold structural_turn. rewrite Hp, Hlen.
  destruct (raw_full_lit t p (tool_calls_end (the_syn dt))) eqn:E1; [done|].
  destruct (raw_full_lit t p (invoke_end (the_syn dt))) eqn:E2.
  { injection E as <-. pose proof (Hnot 1%nat 0%nat) as N0. cbn [nth tags] in N0. rewrite N0 by (done || lia).
    pose proof (full_grow t d _ p (tag_lit _ 1%nat Hsyn ltac:(lia)) E2) as [Hf Hfit]. cbn [nth tags] in Hf, Hfit. rewrite Hf.
    pose proof (tag_lit _ 1%nat Hsyn ltac:(lia)) as Hne. cbn [nth tags] in Hne.
    assert (0 < length (invoke_end (the_syn dt)))%nat by (destruct (invoke_end (the_syn dt)); [done|simpl; lia]).
    split; [done|]. unfold tracks. destruct dt; cbn in *. rewrite Hm. split; [split; [done|lia]|]. split; [lia|congruence]. }
  destruct (raw_full_lit t p (invoke_start (the_syn dt))) eqn:E3.
  { destruct (tag_after t p) as [a|] eqn:Ea; [|done]. injection E as <-.
    pose proof (Hnot 2%nat 0%nat) as N0. pose proof (Hnot 2%nat 1%nat) as N1. cbn [nth tags] in N0, N1.
    rewrite N0, N1 by (done || lia).
    pose proof (full_grow t d _ p (tag_lit _ 2%nat Hsyn ltac:(lia)) E3) as [Hf _]. cbn [nth tags] in Hf. rewrite Hf.
    rewrite (tag_after_grow _ _ _ _ Ea). pose proof (tag_after_range _ _ _ Ea). split; [done|]. unfold tracks.
    destruct dt; cbn in *. rewrite Hm. split; [split; [done|]; lia|]. split; [lia|congruence]. }
  destruct (raw_full_lit t p (param_start (the_syn dt))) eqn:E4; [|done].
  destruct (tag_after t p) as [a|] eqn:Ea; [|done].
  pose proof (Hnot 3%nat 0%nat) as N0. pose proof (Hnot 3%nat 1%nat) as N1. pose proof (Hnot 3%nat 2%nat) as N2.
  cbn [nth tags] in N0, N1, N2. rewrite N0, N1, N2 by (done || lia).
  pose proof (full_grow t d _ p (tag_lit _ 3%nat Hsyn ltac:(lia)) E4) as [Hf _]. cbn [nth tags] in Hf. rewrite Hf.
  rewrite (tag_after_grow _ _ _ _ Ea). pose proof (tag_after_range _ _ _ Ea) as Hra. rewrite is_string_grow by lia.
  destruct (dsml_attr_is_string_true t p a); injection E as <-; (split; [done|]); unfold tracks; destruct dt; cbn in *;
    (split; [split; [done|]; lia|]); (split; [lia|congruence]).
Qed.

Lemma search_go (t d : bytes) (dt dt1 : dsml_decode_tracker) : dt_mode dt = DSML_TRACK_SEARCH ->
  track_turn dt t = (dt1, true) -> goes_on t d dt dt1.
Proof.
  intros Hm E. unfold goes_on. unfold track_turn in *. rewrite Hm in *.
  destruct (dsml_find_tool_start_from t (dt_pos dt)) as [[p syn]|] eqn:Ef; [|done]. injection E as <-.
  rewrite (find_start_grow _ _ _ _ _ Ef). pose proof (find_start_spec t (dt_pos dt)) as H. rewrite Ef in H.
  destruct H as (b & Hb & -> & Hs & _). pose proof (start_at_fits _ _ _ Hs). pose proof (start_nonempty _ (proj1 Hs)).
  split; [done|]. destruct dt; cbn in *. split; [|split; [lia|done]]. split; [apply Hs|]. cbn. lia.
Qed.

Lemma value_go (t d : bytes) (dt dt1 : dsml_decode_tracker) :
  dt_mode dt = DSML_TRACK_STRING_BODY \/ dt_mode dt = DSML_TRACK_JSON_PARAM -> tracks t dt ->
  track_turn dt t = (dt1, true) -> goes_on t d dt dt1.
Proof.
  intros Hm [Hsyn Hpos] E. pose proof (close_of _ Hsyn) as Hc.
  assert (Hl : (0 < length (param_end (the_syn dt)))%nat) by (destruct Hc as (b & r & ->); simpl; lia).
  assert (Hpos' : (dt_pos dt <= length t)%nat) by (by destruct Hm as [Hm|Hm]; rewrite Hm in Hpos).
  unfold goes_on, track_turn in *. destruct Hm as [Hm|Hm]; rewrite Hm in *.
  - destruct (string_body_loop (drop (dt_pos dt) t) (param_end (the_syn dt)) (dt_pos dt)) as [[] q] eqn:El; [|done|done].
    injection E as <-. destruct (string_walk_closed _ d Hc _ _ _ El) as (H1 & H2 & H3). rewrite length_drop in H2.
    rewrite drop_grow, H3 by done. split; [done|]. unfold tracks, close_value. destruct dt; cbn in *.
    split; [split; [done|]; lia|]. split; [lia|done].
  - destruct (json_param_loop _ _ _ _ _) as [[[[] q] ins] esc] eqn:El; [|done|done].
    injection E as <-. destruct (json_walk_closed _ d Hc _ _ _ _ _ _ _ El) as (H1 & H2 & H3). rewrite length_drop in H2.
    rewrite drop_grow, H3 by done. split; [done|]. unfold tracks, close_value. destruct dt; cbn in *.
    split; [split; [done|]; lia|]. split; [lia|done].
Qed.

Lemma turn_go (t d : bytes) (dt dt1 : dsml_decode_tracker) : tracks t dt -> track_turn dt t = (dt1, true) -> goes_on t d dt dt1.
Proof.
  intros Ht E. destruct (dt_mode dt) eqn:Hm.
  - by apply search_go.
  - apply structural_go; [done..|]. unfold track_turn in E. by rewrite Hm in E.
  - apply value_go; auto.
  - apply value_go; auto.
  - unfold track_turn in E. rewrite Hm in E. done.
Qed.

(** The loop as a relation. *)
Inductive runs (t : bytes) : dsml_decode_tracker -> dsml_decode_tracker -> Prop :=
| runs_stop dt dt' : track_turn dt t = (dt', false) -> runs t dt dt'
| runs_go dt dt1 dt' : track_turn dt t = (dt1, true) -> runs t dt1 dt' -> runs t dt dt'.

Lemma runs_unique (t : bytes) (dt a b : dsml_decode_tracker) : runs t dt a -> runs t dt b -> a = b.
Proof.
  intros Ha. revert b. induction Ha as [dt a E|dt dt1 a E _ IH]; intros b Hb; inversion Hb; subst; [congruence..|].
  apply IH. congruence.
Qed.

Lemma loop_runs (t : bytes) (fuel : nat) : forall dt, tracks t dt -> (length t < fuel + dt_pos dt)%nat ->
  runs t dt (track_loop fuel dt t).
Proof.
  induction fuel as [|fuel IH]; intros dt Ht Hf.
  { exfalso. destruct Ht as [_ Ht]. destruct (dt_mode dt); lia. }
  cbn [track_loop]. destruct (track_turn dt t) as [dt1 []] eqn:E; [|by apply runs_stop].
  eapply runs_go; [done|]. destruct (turn_go t [] dt dt1 Ht E) as (_ & H1 & H2 & _). apply IH; [done|lia].
Qed.

Lemma update_runs (t : bytes) (dt : dsml_decode_tracker) : tracks t dt -> runs t dt (dsml_decode_tracker_update dt t).
Proof. intros Ht. apply loop_runs; [done|lia]. Qed.

(** The old decoding state is never read. *)
Definition with_decode (st : dsml_decode_state) (dt : dsml_decode_tracker) : dsml_decode_tracker := dt <| dt_decode := st |>.

Lemma turn_decode (t : bytes) (dt dt1 : dsml_decode_tracker) (b : bool) (st : dsml_decode_state) :
  track_turn dt t = (dt1, b) ->
  track_turn (with_decode st dt) t = (dt1, b) \/ (b = true /\ track_turn (with_decode st dt) t = (with_decode st dt1, true)).
Proof.
  destruct dt as [mode dec syn pos ins esc]. unfold track_turn, with_decode, structural_turn, the_syn, close_value. 
  change (set_field dt_decode ?f (Tracker mode dec syn pos ins esc)) with (Tracker mode (f dec) syn pos ins esc).
  cbn [dt_mode dt_pos dt_syn json_in_string json_escaped].
  destruct mode; intros E; repeat case_match; simplify_eq; auto.
Qed.

Lemma runs_decode (t : bytes) (st : dsml_decode_state) (dt dt' : dsml_decode_tracker) :
  runs t dt dt' -> runs t (with_decode st dt) dt'.
Proof.
  induction 1 as [dt dt' E|dt dt1 dt' E Hr IH].
  - destruct (turn_decode t dt dt' false st E) as [H|[H _]]; [by apply runs_stop|done].
  - destruct (turn_decode t dt dt1 true st E) as [H|[_ H]]; eapply runs_go; done.
Qed.

Lemma runs_same (t : bytes) (a b dt' : dsml_decode_tracker) : track_turn a t = track_turn b t -> runs t a dt' -> runs t b dt'.
Proof. intros E H. inversion H; subst; [apply runs_stop|eapply runs_go]; try done; by rewrite <- E. Qed.

Lemma structural_again (t d : bytes) (dt : dsml_decode_tracker) : dt_mode dt = DSML_TRACK_STRUCTURAL -> (dt_pos dt <= length t)%nat ->
  let dt1 := dt <| dt_pos := skip_spaces t (dt_pos dt) |> <| dt_decode := DSML_DECODE_STRUCTURAL |> in
  track_turn dt1 (t ++ d) = track_turn (with_decode (dt_decode dt1) dt) (t ++ d).
Proof.
  intros Hm Hpos. pose proof (skip_spaces_again t d (dt_pos dt) Hpos) as Hs.
  destruct dt as [mode dec syn pos ins esc]. cbn in *. subst mode. unfold track_turn, structural_turn. cbn.
  rewrite Hs. reflexivity.
Qed.

(** Where an update stopped the next one goes on as if nothing had been. *)
Lemma stop_same (t d : bytes) (dt dt1 dt2 : dsml_decode_tracker) : tracks t dt -> settled t ->
  track_turn dt t = (dt1, false) -> runs (t ++ d) dt1 dt2 -> runs (t ++ d) dt dt2.
Proof.
  intros [Hsyn Hpos] Hset E Hr.
  assert (Hback : track_turn dt1 (t ++ d) = track_turn (with_decode (dt_decode dt1) dt) (t ++ d) -> runs (t ++ d) dt dt2).
  { intros He. apply (runs_same _ _ (with_decode (dt_decode dt1) dt)) in Hr; [|done].
    apply (runs_decode _ (dt_decode dt)) in Hr. by destruct dt. }
  pose proof (close_of _ Hsyn) as Hc.
  assert (Hset' : (dt_pos dt <= length t)%nat -> settled (drop (dt_pos dt) t)).
  { intros Hp. destruct (Nat.eq_dec (dt_pos dt) (length t)) as [->|Hne]; [by rewrite drop_all|]. apply settled_drop; [lia|done]. }
  destruct (dt_mode dt) eqn:Hm.
  - apply Hback. unfold track_turn in E |- *. rewrite Hm in E.
    destruct (dsml_find_tool_start_from t (dt_pos dt)) as [[p syn]|] eqn:Ef; [done|]. injection E as <-.
    assert (Hp1 : (if (dsml_max_tool_start_len <? length t)%nat then length t - dsml_max_tool_start_len else 0)%nat =
      (length t - dsml_max_tool_start_len)%nat) by (destruct (Nat.ltb_spec dsml_max_tool_start_len (length t)); lia).
    rewrite Hp1. pose proof (find_start_again t d (dt_pos dt) (length t - dsml_max_tool_start_len) Ef Hpos ltac:(lia)) as Hfa.
    destruct dt as [mode dec syn pos ins esc]. cbn in *. subst mode. rewrite Hfa. cbn.
    destruct (dsml_find_tool_start_from (t ++ d) (length t - dsml_max_tool_start_len)) as [[p2 syn2]|]; done.
  - unfold track_turn in E. rewrite Hm in E. unfold structural_turn in E.
    set (p := skip_spaces t (dt_pos dt)) in *. pose proof (skip_spaces_range t (dt_pos dt) Hpos) as Hrange. fold p in Hrange.
    destruct (Nat.leb_spec (length t) p) as [Hl|Hl].
    { apply Hback. injection E as <-. by apply structural_again. }
    destruct (raw_full_lit t p (tool_calls_end (the_syn dt))) eqn:E1.
    { injection E as <-. assert (Hp : skip_spaces (t ++ d) (dt_pos dt) = p) by (by apply skip_spaces_grow).
      pose proof (full_grow t d _ p (tag_lit _ 0%nat Hsyn ltac:(lia)) E1) as [Hf _]. cbn [nth tags] in Hf.
      inversion Hr as [? ? Ht|? ? ? Ht _]; subst; cbn in Ht; [|done]. injection Ht as <-.
      apply runs_stop. unfold track_turn. rewrite Hm. unfold structural_turn. rewrite Hp.
      rewrite (proj2 (Nat.leb_gt _ _)) by (rewrite length_app; lia). by rewrite Hf. }
    apply Hback. destruct (raw_full_lit t p (invoke_end (the_syn dt))); [done|].
    destruct (raw_full_lit t p (invoke_start (the_syn dt))).
    { destruct (tag_after t p); [done|]. injection E as <-. by apply structural_again. }
    destruct (raw_full_lit t p (param_start (the_syn dt))).
    { destruct (tag_after t p); [by destruct (dsml_attr_is_string_true _ _ _)|]. injection E as <-. by apply structural_again. }
    injection E as <-. by apply structural_again.
  - apply Hback. unfold track_turn in E |- *. rewrite Hm in E.
    destruct (string_body_loop (drop (dt_pos dt) t) (param_end (the_syn dt)) (dt_pos dt)) as [w q] eqn:El.
    assert (Hw : w <> WalkClosed) by (by destruct w).
    destruct (string_walk_on _ d Hc _ _ _ _ (Hset' Hpos) El Hw) as [Hq Hon]. rewrite length_drop in Hq.
    rewrite drop_drop in Hon. replace (dt_pos dt + (q - dt_pos dt))%nat with q in Hon by lia.
    rewrite <- !drop_grow in Hon by lia.
    destruct dt as [mode dec syn pos ins esc]. cbn in *. subst mode. unfold the_syn in *. cbn in *.
    destruct w; [done| |]; injection E as <-; cbn; rewrite Hon; by destruct (string_body_loop _ _ q) as [[] q2].
  - apply Hback. unfold track_turn in E |- *. rewrite Hm in E.
    destruct (json_param_loop _ _ _ _ _) as [[[w q] ins'] esc'] eqn:El.
    assert (Hw : w <> WalkClosed) by (by destruct w).
    destruct (json_walk_on _ d Hc _ _ _ _ _ _ _ _ (Hset' Hpos) El Hw) as [Hq Hon]. rewrite length_drop in Hq.
    rewrite drop_drop in Hon. replace (dt_pos dt + (q - dt_pos dt))%nat with q in Hon by lia.
    rewrite <- !drop_grow in Hon by lia.
    destruct dt as [mode dec syn pos ins esc]. cbn in *. subst mode. unfold the_syn in *. cbn in *.
    destruct w; [done| |]; injection E as <-; cbn; rewrite Hon; by destruct (json_param_loop _ _ q _ _) as [[[[] q2] i2] e2].
  - apply Hback. unfold track_turn in E |- *. rewrite Hm in E. injection E as <-.
    destruct dt as [mode dec syn pos ins esc]. cbn in *. by subst mode.
Qed.

(** ** Updates as the text grows *)

Lemma string_walk_range (close s : bytes) : forall pos w q, string_body_loop s close pos = (w, q) -> (pos <= q <= pos + length s)%nat.
Proof.
  induction s as [|c s IH]; intros pos w q E; cbn [string_body_loop] in E; [injection E as <- <-; simpl; lia|].
  destruct (str_prefixb close (c :: s)); [injection E as <- <-; lia|].
  destruct (raw_partial_lit_min _ _ _ _); [injection E as <- <-; lia|]. apply IH in E. simpl. lia.
Qed.

Lemma json_walk_range (close s : bytes) : forall pos ins esc w q ins' esc',
  json_param_loop s close pos ins esc = (w, q, ins', esc') -> (pos <= q <= pos + length s)%nat.
Proof.
  induction s as [|c s IH]; intros pos ins esc w q ins' esc' E; cbn [json_param_loop] in E; [injection E as <- <- <- <-; simpl; lia|].
  destruct (negb ins && str_prefixb _ _); [injection E as <- <- <- <-; lia|].
  destruct (negb ins && raw_partial_lit_min _ _ _ _); [injection E as <- <- <- <-; lia|].
  destruct (json_flags c ins esc). apply IH in E. simpl. lia.
Qed.

Lemma turn_stop_tracks (t : bytes) (dt dt' : dsml_decode_tracker) : tracks t dt -> track_turn dt t = (dt', false) -> tracks t dt'.
Proof.
  intros [Hsyn Hpos] E. unfold track_turn in E. destruct (dt_mode dt) eqn:Hm.
  - destruct (dsml_find_tool_start_from t (dt_pos dt)) as [[p syn]|]; [done|]. unfold tracks. revert Hpos E.
    generalize dsml_max_tool_start_len. intros hold Hpos E.
    assert (Hif : (if (hold <? length t)%nat then length t - hold else 0)%nat = (length t - hold)%nat)
      by (destruct (Nat.ltb_spec hold (length t)); lia).
    rewrite Hif in E. injection E as <-. split; [done|]. cbn. rewrite Hm. lia.
  - unfold structural_turn in E. pose proof (skip_spaces_range t (dt_pos dt) Hpos) as Hr.
    assert (Hs : tracks t (dt <| dt_pos := skip_spaces t (dt_pos dt) |> <| dt_decode := DSML_DECODE_STRUCTURAL |>)).
    { split; [done|]. cbn. rewrite Hm. lia. }
    repeat case_match; simplify_eq; try exact Hs. split; [done|]. cbn.
    match goal with H : raw_full_lit t _ (tool_calls_end _) = true |- _ =>
      pose proof (full_grow t [] _ _ (tag_lit _ 0%nat Hsyn ltac:(lia)) H) as [_ Hf] end. done.
  - destruct (string_body_loop _ _ _) as [w q] eqn:El. destruct w; [done| |]; injection E as <-; (split; [done|]); cbn; rewrite Hm;
      pose proof (string_walk_range _ _ _ _ _ El) as Hq; rewrite length_drop in Hq; lia.
  - destruct (json_param_loop _ _ _ _ _) as [[[w q] ins] esc] eqn:El.
    destruct w; [done| |]; injection E as <-; (split; [done|]); cbn; rewrite Hm;
      pose proof (json_walk_range _ _ _ _ _ _ _ _ _ El) as Hq; rewrite length_drop in Hq; lia.
  - injection E as <-. split; [done|]. cbn. by rewrite Hm.
Qed.

Lemma runs_tracks (t : bytes) (dt dt' : dsml_decode_tracker) : tracks t dt -> runs t dt dt' -> tracks t dt'.
Proof.
  intros Ht Hr. revert Ht. induction Hr as [dt dt' E|dt dt1 dt' E _ IH]; intros Ht.
  - by eapply turn_stop_tracks.
  - apply IH. by destruct (turn_go t [] dt dt1 Ht E) as (_ & H1 & _).
Qed.

Lemma runs_extend (t d : bytes) (dt dt1 dt2 : dsml_decode_tracker) : tracks t dt -> settled t ->
  runs t dt dt1 -> runs (t ++ d) dt1 dt2 -> runs (t ++ d) dt dt2.
Proof.
  intros Ht Hset Hr. revert Ht. induction Hr as [dt dt1 E|dt dt0 dt1 E _ IH]; intros Ht H2.
  - by eapply stop_same.
  - destruct (turn_go t d dt dt0 Ht E) as (H1 & H3 & _). eapply runs_go; [done|]. by apply IH.
Qed.

(** One update per piece, each on the text so far. *)
Fixpoint track_pieces (dt : dsml_decode_tracker) (raw : bytes) (pieces : list bytes) : dsml_decode_tracker :=
  match pieces with
  | [] => dt
  | p :: pieces' => track_pieces (dsml_decode_tracker_update dt (raw ++ p)) (raw ++ p) pieces'
  end.

Lemma track_pieces_runs (pieces : list bytes) : forall raw dt0 dt, pieces <> [] -> tracks raw dt0 -> settled raw ->
  runs raw dt0 dt ->
  (forall k, (0 < k < length pieces)%nat -> settled (raw ++ concat (take k pieces))) ->
  runs (raw ++ concat pieces) dt0 (track_pieces dt raw pieces).
Proof.
  induction pieces as [|p ps IH]; intros raw dt0 dt Hne Ht Hset Hr Hk; [done|]. cbn [track_pieces concat].
  assert (Hr1 : runs (raw ++ p) dt0 (dsml_decode_tracker_update dt (raw ++ p))).
  { eapply runs_extend; [done..|]. apply update_runs. apply tracks_grow. by eapply runs_tracks. }
  destruct ps as [|p2 ps]; [cbn [track_pieces concat]; by rewrite app_nil_r|].
  rewrite app_assoc. apply IH; [done|by apply tracks_grow| |done|].
  - specialize (Hk 1%nat ltac:(simpl; lia)). cbn in Hk. by rewrite app_nil_r in Hk.
  - intros k Hk2. specialize (Hk (S k) ltac:(simpl in *; lia)). cbn [take concat] in Hk. by rewrite app_assoc in Hk.
Qed.

(** C21 The tracker does not depend on how the text arrives: when it is updated
    after each of any pieces, and the text before the last update never ends
    in a lone [<], it is left in the same state, with the same mode, position
    and flags, as by one update on the whole text. *)
Theorem dsml_tracker_pieces (pieces : list bytes) :
  pieces <> [] ->
  (forall k, (0 < k < length pieces)%nat -> last (concat (take k pieces)) <> Some x3c) ->
  track_pieces dsml_decode_tracker_init [] pieces = dsml_decode_tracker_update dsml_decode_tracker_init (concat pieces).
Proof.
  intros Hne Hk. apply (runs_unique (concat pieces) dsml_decode_tracker_init); [|apply update_runs, tracks_init].
  apply (track_pieces_runs pieces [] dsml_decode_tracker_init dsml_decode_tracker_init); [done|apply tracks_init|done| |done].
  apply runs_stop. reflexivity.
Qed.

(** ** The recognizer of the tests *)

Lemma strstr_short (s m : bytes) : (length s < length m)%nat -> strstr_pos s m = None.
Proof.
  intros Hl. destruct (strstr_pos s m) as [i|] eqn:E; [|done]. apply strstr_pos_some in E as [E _].
  apply prefixb_length in E. rewrite length_drop in E. lia.
Qed.

Lemma strstr_step (c : byte) (s m : bytes) : str_prefixb m (c :: s) = false ->
  strstr_pos (c :: s) m = match strstr_pos s m with Some i => Some (S i) | None => None end.
Proof. intros H. cbn [strstr_pos]. by rewrite H. Qed.

(** The text behind [s] of length [n] may become the closing tag. *)
Definition ends_open (close s : bytes) (n : nat) : Prop :=
  (2 <= n < length close)%nat /\ (n <= length s)%nat /\ str_prefixb (drop (length s - n) s) close = true.

Lemma partial_spec (s close : bytes) : raw_partial_lit_min s 0 close 2 = true <->
  (2 <= length s < length close)%nat /\ str_prefixb s close = true.
Proof.
  unfold raw_partial_lit_min. rewrite drop_0, Nat.sub_0_r, !andb_true_iff, Nat.ltb_lt, !Nat.leb_le. intuition lia.
Qed.

Lemma string_walk_find (close s : bytes) : close <> [] -> forall pos,
  match string_body_loop s close pos with
  | (WalkClosed, q) => (pos <= q)%nat /\ strstr_pos s close = Some (q - pos)%nat
  | (WalkPartial, q) => strstr_pos s close = None /\ exists n, ends_open close s n
  | (WalkEnd, q) => strstr_pos s close = None /\ forall n, ~ ends_open close s n
  end.
Proof.
  intros Hc. assert (Hpos : (0 < length close)%nat) by (destruct close; simpl; [done|lia]).
  induction s as [|c s IH]; intros pos; cbn [string_body_loop].
  { split; [by apply strstr_short|]. intros n (H1 & H2 & _). simpl in H2. lia. }
  destruct (str_prefixb close (c :: s)) eqn:Ef.
  { split; [lia|]. rewrite Nat.sub_diag. cbn [strstr_pos]. by rewrite Ef. }
  destruct (raw_partial_lit_min (c :: s) 0 close 2) eqn:Ep.
  { apply partial_spec in Ep as [Hl Hp]. split; [apply strstr_short; lia|]. exists (length (c :: s)).
    split; [done|]. split; [lia|]. by rewrite Nat.sub_diag. }
  rewrite strstr_step by done. specialize (IH (S pos)).
  destruct (string_body_loop s close (S pos)) as [[] q].
  - destruct IH as [Hq ->]. split; [lia|]. f_equal. lia.
  - destruct IH as [-> (n & H1 & H2 & H3)]. split; [done|]. exists n. split; [done|]. split; [simpl; lia|].
    cbn [length]. replace (S (length s) - n)%nat with (S (length s - n)) by lia. done.
  - destruct IH as [-> IH]. split; [done|]. intros n (H1 & H2 & H3).
    destruct (Nat.eq_dec n (length (c :: s))) as [->|Hne].
    + rewrite Nat.sub_diag, drop_0 in H3. apply not_true_iff_false in Ep. apply Ep, partial_spec. done.
    + apply (IH n). split; [done|]. simpl in H2, Hne. split; [lia|]. cbn [length] in H3.
      replace (S (length s) - n)%nat with (S (length s - n)) in H3 by lia. done.
Qed.

(** The flags behind a text. *)
Definition json_state (s : bytes) (ins esc : bool) : bool * bool := foldl (fun st c => json_flags c (fst st) (snd st)) (ins, esc) s.

(** Without quotes the string flag stays. *)
Lemma quoteless (s : bytes) : QUOTE ∉ s -> forall ins esc, fst (json_state s ins esc) = ins.
Proof.
  induction s as [|c s IH]; intros Hq ins esc; [done|]. unfold json_state. cbn [foldl fst snd].
  destruct (json_flags c ins esc) as [i e] eqn:E.
  assert (i = ins) as ->; [|apply IH; intros Hi; apply Hq; by right].
  assert (Byte.eqb c QUOTE = false) as Hc by (apply beqb_neq; intros ->; apply Hq; left).
  unfold json_flags in E. rewrite Hc in E. destruct ins, esc; [congruence|destruct (Byte.eqb c BACKSLASH); congruence|congruence..].
Qed.

Lemma scan_short (s close : bytes) : (length s < length close)%nat -> forall ins esc,
  scan_json_loop s close ins esc = Some (fst (json_state s ins esc)).
Proof.
  intros Hl ins esc. revert ins esc. induction s as [|c s IH]; intros ins esc; [done|]. cbn [scan_json_loop].
  assert (str_prefixb close (c :: s) = false) as ->.
  { apply not_true_iff_false. intros H%prefixb_length. lia. }
  rewrite andb_false_r. unfold json_state. cbn [foldl fst snd]. destruct (json_flags c ins esc) as [i e].
  apply IH. simpl in Hl. lia.
Qed.

(** What the tracker's walk over a JSON value tells of the scan. *)
Lemma json_walk_scan (close s : bytes) : close <> [] -> QUOTE ∉ close -> forall pos ins esc,
  match json_param_loop s close pos ins esc with
  | (WalkClosed, q, _, _) => scan_json_loop s close ins esc = None /\ (pos <= q)%nat /\
      str_prefixb close (drop (q - pos) s) = true
  | (WalkPartial, q, _, _) => scan_json_loop s close ins esc = Some false /\ exists n, ends_open close s n
  | (WalkEnd, q, ins', _) => scan_json_loop s close ins esc = Some ins' /\ (ins' = false -> forall n, ~ ends_open close s n)
  end.
Proof.
  intros Hc Hq. induction s as [|c s IH]; intros pos ins esc; cbn [json_param_loop scan_json_loop].
  { split; [done|]. intros _ n (H1 & H2 & _). simpl in H2. lia. }
  destruct (negb ins && str_prefixb close (c :: s)) eqn:Ef.
  { split; [done|]. split; [lia|]. rewrite Nat.sub_diag. by apply andb_true_iff in Ef as [_ Ef]. }
  destruct (negb ins && raw_partial_lit_min (c :: s) 0 close 2) eqn:Ep.
  { apply andb_true_iff in Ep as [Hi Ep]. apply negb_true_iff in Hi as ->. apply partial_spec in Ep as [Hl Hp].
    destruct (json_flags c false esc) as [i e] eqn:Ej. split.
    - assert (QUOTE ∉ c :: s) as Hqs.
      { apply str_prefixb_spec in Hp as [t ->]. intros H. apply Hq, elem_of_app. by left. }
      rewrite scan_short by (simpl in Hl; lia). f_equal.
      pose proof (quoteless (c :: s) Hqs false esc) as H. unfold json_state in H. cbn [foldl fst snd] in H. by rewrite Ej in H.
    - exists (length (c :: s)). split; [done|]. split; [lia|]. by rewrite Nat.sub_diag. }
  destruct (json_flags c ins esc) as [i e] eqn:Ej. specialize (IH (S pos) i e).
  destruct (json_param_loop s close (S pos) i e) as [[[[] q] ins'] esc'] eqn:El.
  - destruct IH as (H1 & H2 & H3). split; [done|]. split; [lia|]. replace (q - pos)%nat with (S (q - S pos)) by lia. done.
  - destruct IH as [-> (n & H1 & H2 & H3)]. split; [done|]. exists n. split; [done|]. split; [simpl; lia|].
    cbn [length]. replace (S (length s) - n)%nat with (S (length s - n)) by lia. done.
  - destruct IH as [Hs IH]. split; [done|]. intros Hi n (H1 & H2 & H3).
    destruct (Nat.eq_dec n (length (c :: s))) as [->|Hne].
    + rewrite Nat.sub_diag, drop_0 in H3.
      assert (QUOTE ∉ c :: s) as Hqs.
      { apply str_prefixb_spec in H3 as [t ->]. intros H. apply Hq, elem_of_app. by left. }
      rewrite scan_short in Hs by (simpl in H1; lia). pose proof (quoteless (c :: s) Hqs ins esc) as H.
      unfold json_state in H. cbn [foldl fst snd] in H. rewrite Ej in H. fold (json_state s i e) in H.
      injection Hs as Hs. assert (ins = false) as -> by congruence. cbn [negb andb] in Ep.
      apply not_true_iff_false in Ep. apply Ep, partial_spec. done.
    + apply (IH Hi n). split; [done|]. simpl in H2, Hne. split; [lia|]. cbn [length] in H3.
      replace (S (length s) - n)%nat with (S (length s - n)) in H3 by lia. done.
Qed.

(** A closing tag outside of strings ends the walk there or before. *)
Lemma json_walk_closes (close s : bytes) : forall e pos ins esc, str_prefixb close (drop e s) = true ->
  close <> [] -> fst (json_state (take e s) ins esc) = false ->
  exists q ins' esc', json_param_loop s close pos ins esc = (WalkClosed, q, ins', esc') /\ (pos <= q <= pos + e)%nat.
Proof.
  induction s as [|c s IH]; intros e pos ins esc Hp Hc Hst.
  { rewrite drop_nil in Hp. by destruct close. }
  cbn [json_param_loop]. destruct (negb ins && str_prefixb close (c :: s)) eqn:Ef.
  { eexists _, _, _. split; [done|lia]. }
  destruct e as [|e].
  { cbn [take json_state foldl fst] in Hst. rewrite drop_0 in Hp. unfold json_state in Hst. cbn in Hst. subst ins.
    by rewrite Hp in Ef. }
  cbn [drop] in Hp. pose proof (prefixb_length _ _ Hp) as Hl. rewrite length_drop in Hl.
  assert (raw_partial_lit_min (c :: s) 0 close 2 = false) as ->.
  { apply not_true_iff_false. rewrite partial_spec. simpl. lia. }
  rewrite andb_false_r. unfold json_state in Hst. cbn [take foldl fst snd] in Hst.
  destruct (json_flags c ins esc) as [i e2]. destruct (IH e (S pos) i e2 Hp Hc Hst) as (q & i' & e' & -> & Hq).
  eexists _, _, _. split; [done|lia].
Qed.

Lemma suffix_partial_spec (raw lit : bytes) (turns : nat) : forall n,
  suffix_partial_loop raw lit n turns = true <->
  exists k, (n <= k < n + turns)%nat /\ str_prefixb (drop (length raw - k) raw) lit = true.
Proof.
  induction turns as [|turns IH]; intros n; cbn [suffix_partial_loop].
  { split; [done|]. intros (k & Hk & _). lia. }
  rewrite orb_true_iff, IH. split.
  - intros [H|(k & Hk & H)]; [exists n|exists k]; (split; [lia|done]).
  - intros (k & Hk & H). destruct (Nat.eq_dec k n) as [->|]; [by left|]. right. exists k. split; [lia|done].
Qed.

Lemma raw_suffix_spec (raw close : bytes) : is_close close ->
  raw_suffix_partial_lit raw close 2 = true <-> exists n, ends_open close raw n.
Proof.
  intros (b & r & Hc). unfold raw_suffix_partial_lit. assert (Hl : (2 <= length close)%nat) by (rewrite Hc; simpl; lia).
  destruct (Nat.eqb_spec (length raw) 0) as [E|E]; cbn [orb].
  { split; [done|]. intros (n & H1 & H2 & _). lia. }
  destruct (Nat.eqb_spec (length close) 0) as [|Hz]; [lia|]. rewrite suffix_partial_spec. unfold ends_open.
  destruct (Nat.ltb_spec (length raw) (length close)) as [H|H]; split; intros (n & Hn); exists n; intuition lia.
Qed.

(** Only the last byte of a closing tag is a [>], and it holds no quote. *)
Lemma close_bytes (syn : dsml_syntax) : syn ∈ dsml_syntaxes ->
  QUOTE ∉ param_end syn /\ x3e ∉ take (length (param_end syn) - 1) (param_end syn).
Proof.
  intros [-> |[-> |[-> |[]%elem_of_nil]%elem_of_cons]%elem_of_cons]%elem_of_cons; split; by apply (bool_decide_unpack _).
Qed.

(** What may become the closing tag starts behind the start tag. *)
Lemma ends_open_local (syn : dsml_syntax) (raw : bytes) (pos : nat) : syn ∈ dsml_syntaxes -> (0 < pos <= length raw)%nat ->
  nth (pos - 1) raw NUL = x3e ->
  (exists n, ends_open (param_end syn) raw n) <-> (exists n, ends_open (param_end syn) (drop pos raw) n).
Proof.
  intros Hsyn Hpos Hgt. destruct (close_bytes _ Hsyn) as [_ Hno]. unfold ends_open. rewrite length_drop.
  split; intros (n & H1 & H2 & H3); exists n.
  - destruct (Nat.le_gt_cases n (length raw - pos)) as [Hn|Hn].
    + split; [done|]. split; [done|]. rewrite drop_drop. replace (pos + (length raw - pos - n))%nat with (length raw - n)%nat by lia. done.
    + exfalso. apply Hno. apply str_prefixb_spec in H3 as [t Ht]. set (k := (pos - 1 - (length raw - n))%nat).
      assert (Hk : nth k (param_end syn) NUL = x3e).
      { rewrite Ht, app_nth1 by (rewrite length_drop; unfold k; lia). rewrite <- Hgt.
        rewrite nth_lookup, lookup_drop, <- nth_lookup. f_equal. unfold k. lia. }
      rewrite <- Hk, <- (take_drop (length (param_end syn) - 1) (param_end syn)) at 1.
      rewrite app_nth1 by (rewrite length_take; unfold k; lia).
      apply list_elem_of_In, nth_In. rewrite length_take. unfold k. lia.
  - split; [done|]. split; [lia|]. rewrite drop_drop in H3.
    replace (pos + (length raw - pos - n))%nat with (length raw - n)%nat in H3 by lia. done.
Qed.

(** Where the value of a parameter that is no string starts. *)
Definition json_value_at (raw : bytes) (syn : dsml_syntax) (p : nat) : Prop :=
  exists tag, raw_full_lit raw tag (param_start syn) = true /\ tag_after raw tag = Some p /\
    dsml_attr_is_string_true raw tag p = false.

(** Its first closing tag is outside of the strings of the value. *)
Definition closes_outside (raw : bytes) (syn : dsml_syntax) (p : nat) : Prop :=
  forall e, find_lit_bounded (drop p raw) (param_end syn) = Some e -> fst (json_state (take e (drop p raw)) false false) = false.

Lemma tag_after_gt (raw : bytes) (p a : nat) : tag_after raw p = Some a -> nth (a - 1) raw NUL = x3e.
Proof.
  intros E. pose proof (tag_after_range _ _ _ E). unfold tag_after, strchr_pos in E.
  destruct (strstr_pos (drop p raw) [x3e]) as [i|] eqn:Ei; [|done]. injection E as <-.
  apply strstr_pos_some in Ei as [Ei _]. apply str_prefixb_spec in Ei as [t Et]. rewrite drop_drop in Et.
  replace (S (p + i) - 1)%nat with (p + i)%nat by lia. rewrite nth_lookup, <- (Nat.add_0_r (p + i)), <- lookup_drop, Et. done.
Qed.

(** What the recognizer does with a value. *)
Definition ref_string (fuel : nat) (raw : bytes) (syn : dsml_syntax) (pos : nat) : dsml_decode_state :=
  match find_lit_bounded (drop pos raw) (param_end syn) with
  | None => if raw_suffix_partial_lit raw (param_end syn) 2 then DSML_DECODE_STRUCTURAL else DSML_DECODE_STRING_BODY
  | Some e => decode_state_loop fuel raw syn (pos + e + length (param_end syn))
  end.

Definition ref_json (fuel : nat) (raw : bytes) (syn : dsml_syntax) (pos : nat) : dsml_decode_state :=
  match dsml_decode_scan_json_param raw pos syn with
  | DSML_DECODE_STRUCTURAL =>
      match find_lit_bounded (drop pos raw) (param_end syn) with
      | None => DSML_DECODE_STRUCTURAL
      | Some e => decode_state_loop fuel raw syn (pos + e + length (param_end syn))
      end
  | json_state => json_state
  end.

(** What a tracker at [dt] promises about the state it ends in. *)
Definition agrees (raw : bytes) (dt : dsml_decode_tracker) (st : dsml_decode_state) : Prop :=
  match dt_mode dt with
  | DSML_TRACK_SEARCH => True
  | DSML_TRACK_DONE => st = DSML_DECODE_OUTSIDE
  | DSML_TRACK_STRUCTURAL =>
      forall fuel, (length raw < fuel + dt_pos dt)%nat -> decode_state_loop fuel raw (the_syn dt) (dt_pos dt) = st
  | DSML_TRACK_STRING_BODY =>
      (0 < dt_pos dt)%nat -> nth (dt_pos dt - 1) raw NUL = x3e ->
      forall fuel, (length raw < fuel + dt_pos dt)%nat -> ref_string fuel raw (the_syn dt) (dt_pos dt) = st
  | DSML_TRACK_JSON_PARAM =>
      (0 < dt_pos dt)%nat -> nth (dt_pos dt - 1) raw NUL = x3e -> json_in_string dt = false -> json_escaped dt = false ->
      json_value_at raw (the_syn dt) (dt_pos dt) ->
      forall fuel, (length raw < fuel + dt_pos dt)%nat -> ref_json fuel raw (the_syn dt) (dt_pos dt) = st
  end.

Lemma string_agrees (raw : bytes) (dt dt1 : dsml_decode_tracker) (b : bool) (st : dsml_decode_state) :
  dt_mode dt = DSML_TRACK_STRING_BODY -> tracks raw dt -> track_turn dt raw = (dt1, b) ->
  (if b then agrees raw dt1 st else st = dt_decode dt1) -> agrees raw dt st.
Proof.
  intros Hm [Hsyn Hpos] E Hst. unfold agrees. rewrite Hm in *. intros H0 Hgt fuel Hf. pose proof (close_of _ Hsyn) as Hc.
  assert (Hne : param_end (the_syn dt) <> []) by (destruct Hc as (? & ? & ->); done).
  pose proof (string_walk_find _ (drop (dt_pos dt) raw) Hne (dt_pos dt)) as Hw.
  pose proof (ends_open_local _ raw (dt_pos dt) Hsyn ltac:(lia) Hgt) as Hloc. pose proof (raw_suffix_spec raw _ Hc) as Hsuf.
  unfold track_turn in E. rewrite Hm in E. unfold ref_string, find_lit_bounded.
  destruct (string_body_loop _ _ _) as [[] q]; injection E as <- <-.
  - destruct Hw as [Hq ->]. unfold agrees, close_value in Hst. destruct dt; cbn in *.
    rewrite <- (Hst fuel); [f_equal; lia|lia].
  - destruct Hw as [-> Hw]. rewrite (proj2 Hsuf (proj2 Hloc Hw)). by rewrite Hst.
  - destruct Hw as [-> Hw]. rewrite (proj1 (not_true_iff_false _)); [by rewrite Hst|].
    rewrite Hsuf, Hloc. intros (n & Hn). by apply (Hw n).
Qed.

Lemma json_agrees (raw : bytes) (dt dt1 : dsml_decode_tracker) (b : bool) (st : dsml_decode_state) :
  (forall syn p, syn ∈ dsml_syntaxes -> json_value_at raw syn p -> closes_outside raw syn p) ->
  dt_mode dt = DSML_TRACK_JSON_PARAM -> tracks raw dt -> track_turn dt raw = (dt1, b) ->
  (if b then agrees raw dt1 st else st = dt_decode dt1) -> agrees raw dt st.
Proof.
  intros Hout Hm [Hsyn Hpos] E Hst. unfold agrees. rewrite Hm in *. intros H0 Hgt Hins Hesc Hval fuel Hf.
  pose proof (close_of _ Hsyn) as Hc. specialize (Hout _ _ Hsyn Hval). unfold closes_outside, find_lit_bounded in Hout.
  assert (Hne : param_end (the_syn dt) <> []) by (destruct Hc as (? & ? & ->); done).
  pose proof (json_walk_scan _ (drop (dt_pos dt) raw) Hne (proj1 (close_bytes _ Hsyn)) (dt_pos dt) false false) as Hw.
  pose proof (ends_open_local _ raw (dt_pos dt) Hsyn ltac:(lia) Hgt) as Hloc. pose proof (raw_suffix_spec raw _ Hc) as Hsuf.
  assert (Hcl : forall e, strstr_pos (drop (dt_pos dt) raw) (param_end (the_syn dt)) = Some e ->
    exists q i' e', json_param_loop (drop (dt_pos dt) raw) (param_end (the_syn dt)) (dt_pos dt) false false =
      (WalkClosed, q, i', e') /\ (dt_pos dt <= q <= dt_pos dt + e)%nat).
  { intros e He. apply json_walk_closes; [|done|by apply Hout]. by apply strstr_pos_some in He as [He _]. }
  unfold track_turn in E. rewrite Hm, Hins, Hesc in E. unfold ref_json, dsml_decode_scan_json_param, find_lit_bounded.
  destruct (strstr_pos (drop (dt_pos dt) raw) (param_end (the_syn dt))) as [e|] eqn:Ee.
  - destruct (Hcl e eq_refl) as (q & i' & e' & El & Hq). rewrite El in E, Hw. injection E as <- <-.
    destruct Hw as (-> & _ & Hp). unfold agrees, close_value in Hst. apply strstr_pos_some in Ee as [_ Hfirst].
    assert (q = (dt_pos dt + e)%nat) as ->.
    { destruct (Nat.lt_ge_cases (q - dt_pos dt) e) as [Hlt|]; [|lia]. by rewrite Hfirst in Hp. }
    destruct dt; cbn in *. apply Hst. lia.
  - pose proof (strstr_pos_none _ _ Ee) as Hnone.
    destruct (json_param_loop _ _ _ _ _) as [[[[] q] i'] e'] eqn:El; injection E as <- <-.
    + destruct Hw as (_ & _ & Hp). by rewrite Hnone in Hp.
    + destruct Hw as [-> Hw]. cbn [negb andb]. rewrite (proj2 Hsuf (proj2 Hloc Hw)). by rewrite Hst.
    + destruct Hw as [-> Hw]. destruct i'; cbn [negb andb]; [by rewrite Hst|].
      rewrite (proj1 (not_true_iff_false _)); [by rewrite Hst|]. rewrite Hsuf, Hloc. intros (n & Hn). by apply (Hw eq_refl n).
Qed.

Lemma structural_agrees (raw : bytes) (dt dt1 : dsml_decode_tracker) (b : bool) (st : dsml_decode_state) :
  dt_mode dt = DSML_TRACK_STRUCTURAL -> tracks raw dt -> track_turn dt raw = (dt1, b) ->
  (if b then agrees raw dt1 st else st = dt_decode dt1) -> agrees raw dt st.
Proof.
  intros Hm Ht E Hst. assert (Hmove : b = true -> (dt_pos dt < dt_pos dt1)%nat).
  { intros ->. by destruct (turn_go raw [] dt dt1 Ht E) as (_ & _ & H & _). }
  destruct Ht as [Hsyn Hpos]. unfold agrees. rewrite Hm in *. intros fuel Hf. destruct fuel as [|fuel]; [lia|].
  unfold track_turn in E. rewrite Hm in E. unfold structural_turn in E. cbn [decode_state_loop]. 
  set (p := skip_spaces raw (dt_pos dt)) in *. destruct dt as [mode dec syn pos ins esc]. unfold the_syn in *.
  cbn [dt_mode dt_pos dt_syn] in Hm, Hsyn, Hpos, Hmove, Hf, p, E |- *.
  subst mode. destruct (length raw <=? p)%nat; [by injection E as <- <-|].
  destruct (raw_full_lit raw p (tool_calls_end _)); [by injection E as <- <-|].
  destruct (raw_full_lit raw p (invoke_end _)).
  { injection E as <- <-. cbn in Hst, Hmove. specialize (Hmove eq_refl). apply Hst. cbn. lia. }
  destruct (raw_full_lit raw p (invoke_start _)).
  { destruct (tag_after raw p) as [a|]; injection E as <- <-; [|done]. cbn in Hst, Hmove. specialize (Hmove eq_refl).
    apply Hst. cbn. lia. }
  destruct (raw_full_lit raw p (param_start _)) eqn:E4; [|by injection E as <- <-].
  destruct (tag_after raw p) as [a|] eqn:Ea; [|by injection E as <- <-].
  pose proof (tag_after_range _ _ _ Ea). pose proof (tag_after_gt _ _ _ Ea).
  destruct (dsml_attr_is_string_true raw p a) eqn:Es; injection E as <- <-; cbn in Hst, Hmove; specialize (Hmove eq_refl).
  - apply Hst; [lia|done|lia].
  - apply Hst; [lia|done|done|done| |lia]. by exists p.
Qed.

Lemma runs_agree (raw : bytes) (dt dt' : dsml_decode_tracker) :
  (forall syn p, syn ∈ dsml_syntaxes -> json_value_at raw syn p -> closes_outside raw syn p) ->
  tracks raw dt -> runs raw dt dt' -> agrees raw dt (dt_decode dt').
Proof.
  intros Hout Ht Hr. revert Ht. induction Hr as [dt dt' E|dt dt1 dt' E _ IH]; intros Ht.
  - destruct (dt_mode dt) eqn:Hm; [unfold agrees; by rewrite Hm|by eapply structural_agrees|by eapply string_agrees|
      by eapply json_agrees|]. unfold agrees. rewrite Hm. unfold track_turn in E. rewrite Hm in E. by injection E as <-.
  - destruct (turn_go raw [] dt dt1 Ht E) as (_ & Ht1 & _). specialize (IH Ht1).
    destruct (dt_mode dt) eqn:Hm; [unfold agrees; by rewrite Hm|by eapply structural_agrees|by eapply string_agrees|
      by eapply json_agrees|]. unfold track_turn in E. by rewrite Hm in E.
Qed.

(** The tracker agrees with the slow recognizer the tests compare it with:
    one update of a new tracker on any text leaves the state that
    [dsml_decode_state_for_text] computes from it, as long as no parameter
    value outside of strings, in any spelling of the tags, meets its first
    closing tag inside a JSON string. *)
Theorem dsml_tracker_reference (raw : bytes) :
  (forall syn p, syn ∈ dsml_syntaxes -> json_value_at raw syn p -> closes_outside raw syn p) ->
  dt_decode (dsml_decode_tracker_update dsml_decode_tracker_init raw) = dsml_decode_state_for_text raw.
Proof.
  intros Hout. pose proof (update_runs raw dsml_decode_tracker_init (tracks_init raw)) as Hr.
  set (dt := dsml_decode_tracker_update _ raw) in *. unfold dsml_decode_state_for_text.
  assert (Hfs : dsml_find_tool_start_from raw 0 = match dsml_find_tool_start raw with Some (p, syn) => Some (p, syn) | None => None end).
  { unfold dsml_find_tool_start_from. rewrite drop_0. by destruct (dsml_find_tool_start raw) as [[p syn]|]. }
  destruct (Nat.eqb_spec (length raw) 0) as [E0|E0].
  { apply length_zero_iff_nil in E0 as ->. reflexivity. }
  destruct (dsml_find_tool_start raw) as [[p syn]|] eqn:Ef; inversion Hr as [? ? E|? dt1 ? E Hr1]; subst;
    unfold track_turn in E; cbn [dt_mode dt_pos dsml_decode_tracker_init] in E; rewrite Hfs in E; try done.
  - pose proof (turn_go raw [] dsml_decode_tracker_init dt1 (tracks_init raw)) as Hgo.
    unfold track_turn at 1 in Hgo. cbn [dt_mode dt_pos dsml_decode_tracker_init] in Hgo. rewrite Hfs in Hgo.
    destruct (Hgo E) as (_ & Ht1 & _). injection E as <-.
    pose proof (runs_agree raw _ _ Hout Ht1 Hr1) as Ha. unfold agrees in Ha. cbn in Ha. symmetry. apply Ha. lia.
  - apply (f_equal fst) in E. cbn [fst] in E. by rewrite <- E.
Qed.

(** ** Witnesses and examples *)

Definition ex_head : bytes :=
  B "Hi" ++ DS4_TOOL_CALLS_START ++ [LF] ++ DS4_INVOKE_START ++ B " name=" ++ [QUOTE] ++ B "edit" ++ [QUOTE] ++ B ">" ++ [LF].
Definition ex_param (s : string) : bytes :=
  DS4_PARAM_START ++ B " name=" ++ [QUOTE] ++ B "path" ++ [QUOTE] ++ B " string=" ++ [QUOTE] ++ B s ++ [QUOTE] ++ B ">".

Lemma dsml_tracker_pieces_witness :
  dt_decode (track_pieces dsml_decode_tracker_init [] [ex_head; ex_param "true" ++ B "/tmp/a.py"; B "</"]) =
  DSML_DECODE_STRUCTURAL.
Proof.
  refine (eq_trans (f_equal dt_decode (dsml_tracker_pieces [ex_head; ex_param "true" ++ B "/tmp/a.py"; B "</"] _ _)) _).
  - discriminate.
  - intros [|[|[|k]]] Hk; [exfalso; inversion Hk; lia|vm_compute; discriminate|vm_compute; discriminate|exfalso; simpl in Hk; lia].
  - vm_compute. reflexivity.
Defined.

Lemma dsml_tracker_reference_witness :
  dt_decode (dsml_decode_tracker_update dsml_decode_tracker_init (B "plain text")) = DSML_DECODE_OUTSIDE.
Proof.
  refine (eq_trans (dsml_tracker_reference (B "plain text") _) _).
  - intros syn p Hsyn (tag & H & _). exfalso.
    assert (Hlt : (tag < 10)%nat \/ (10 <= tag)%nat) by lia.
    revert Hsyn H. intros [-> |[-> |[-> |[]%elem_of_nil]%elem_of_cons]%elem_of_cons]%elem_of_cons H;
      (destruct Hlt as [Hlt|Hlt]; [do 10 (destruct tag as [|tag]; [vm_compute in H; discriminate H|]); lia|]);
      unfold raw_full_lit in H; rewrite drop_ge in H by exact Hlt; vm_compute in H; discriminate H.
  - vm_compute. reflexivity.
Defined.

(** An update that ends in [<] loses it: the closing tag that follows is not
    seen and the value never ends. *)
Example lone_bracket_lost :
  let t1 := ex_head ++ ex_param "true" ++ B "/tmp/a.py<" in
  dt_decode (track_pieces dsml_decode_tracker_init [] [t1; tl DS4_PARAM_END]) = DSML_DECODE_STRING_BODY /\
  dsml_decode_state_for_text (t1 ++ tl DS4_PARAM_END) = DSML_DECODE_STRUCTURAL.
Proof. vm_compute. split; reflexivity. Qed.

(** The recognizer takes a closing tag inside a JSON string for the end of the
    value once the value has closed; the tracker does not. *)
Example recognizer_differs :
  let t := ex_head ++ ex_param "false" ++ QUOTE :: DS4_PARAM_END ++ QUOTE :: DS4_PARAM_END ++ ex_param "true" ++ B "x" in
  dt_decode (dsml_decode_tracker_update dsml_decode_tracker_init t) = DSML_DECODE_STRING_BODY /\
  dsml_decode_state_for_text t = DSML_DECODE_STRUCTURAL.
Proof. vm_compute. split; reflexivity. Qed.
