(* ===== verification/ToolMemory.v ===== *)
(** * Tool-call text memory (ds4_server.c)

    The exact DSML text of every generated tool call, kept under the call's
    random id: entries in a doubly linked list from most to least recently
    used, text blocks shared by the entries of one turn and counted by
    references, two maps from bytes to pointers, and a budget of ids and
    bytes.  Entries and blocks live in a heap, a pointer is an address, and
    reading or writing through a null or freed pointer is [Undefined].

    The maps are rax trees: rax.c is a vendored library, used here by its
    contract, a map from byte strings to pointers.  Running out of memory ends
    the process and is not modelled; the functions run under [tool_mu]. *)
From stdpp Require Import gmap.
From S2P Require Import Prelude.
From S2P Require Import CNum.
From S2P Require Import CFloat.
From S2P Require Import ServerJson.
From S2P Require Import ServerStream.
From S2P Require Import ServerMsgs.

Open Scope Z_scope.

(** ** Data *)

Abbreviation ptr := positive (only parsing).

(** The C allocator returns an address that no live object has. *)
Class Malloc := {
  malloc : gset positive -> positive;
  malloc_fresh (live : gset positive) : malloc live ∉ live
}.

Inductive tool_memory_source := TOOL_MEMORY_RAM | TOOL_MEMORY_DISK.

Record tool_memory_block := Block {
  b_dsml : bytes;
  b_len : Z;
  b_bytes : Z;
  b_refs : Z;
  b_seen : Z;
  b_entries : option positive
}.

Record tool_memory_entry := Entry {
  e_id : bytes;
  e_block : option positive;
  e_bytes : Z;
  e_stamp : Z;
  e_source : tool_memory_source;
  e_prev : option positive;
  e_next : option positive;
  e_block_next : option positive
}.

Record tool_memory := ToolMemory {
  by_id : option (gmap bytes positive);
  by_block : option (gmap bytes positive);
  tm_head : option positive;
  tm_tail : option positive;
  entries : Z;
  max_entries : Z;
  mbytes : Z;
  max_bytes : Z;
  clock : Z;
  scan_clock : Z
}.

(** The struct and the heap of its entries and blocks. *)
Record tm_state := TmState {
  mem : tool_memory;
  ents : gmap positive tool_memory_entry;
  blks : gmap positive tool_memory_block
}.
#[export] Instance block_fields : Fields tool_memory_block :=
  rd_pure Block <*> b_dsml <*> b_len <*> b_bytes <*> b_refs <*> b_seen <*> b_entries.
#[export] Instance entry_fields : Fields tool_memory_entry :=
  rd_pure Entry <*> e_id <*> e_block <*> e_bytes <*> e_stamp <*> e_source <*> e_prev <*> e_next <*> e_block_next.
#[export] Instance memory_fields : Fields tool_memory :=
  rd_pure ToolMemory <*> by_id <*> by_block <*> tm_head <*> tm_tail <*> entries <*> max_entries <*> mbytes
    <*> max_bytes <*> clock <*> scan_clock.
#[export] Instance tm_state_fields : Fields tm_state := rd_pure TmState <*> mem <*> ents <*> blks.

(** [sizeof(tool_memory_block)] and [sizeof(tool_memory_entry)] (LP64). *)
Definition sizeof_block : Z := 48.
Definition sizeof_entry : Z := 64.

Definition DS4_TOOL_MEMORY_DEFAULT_MAX_IDS : Z := 100000.
Definition DS4_TOOL_MEMORY_MAX_BYTES : Z := 512 * 1024 * 1024.

Definition strlen (s : bytes) : Z := Z.of_nat (length s).

(** ** Memory accesses *)

Definition undefined {A} (what : string) : pres A := Error (Undefined what).

(** [*e] and [*b]. *)
Definition entry (st : tm_state) (e : positive) : pres tool_memory_entry :=
  match ents st !! e with Some x => Ok x | None => undefined "access to a freed entry" end.
Definition block (st : tm_state) (b : positive) : pres tool_memory_block :=
  match blks st !! b with Some x => Ok x | None => undefined "access to a freed block" end.

(** Assignment to a field of [*e] or [*b]. *)
Definition set_entry (st : tm_state) (e : positive) (f : tool_memory_entry -> tool_memory_entry) : pres tm_state :=
  x <- entry st e ;; Ok (st <| ents ::= insert e (f x) |>).
Definition set_block (st : tm_state) (b : positive) (f : tool_memory_block -> tool_memory_block) : pres tm_state :=
  x <- block st b ;; Ok (st <| blks ::= insert b (f x) |>).

(** [free(e)] and [free(b)]. *)
Definition free_entry (st : tm_state) (e : positive) : tm_state := st <| ents ::= delete e |>.
Definition free_block (st : tm_state) (b : positive) : tm_state := st <| blks ::= delete b |>.

(** ** Limits and set-up *)

Definition tool_memory_max_entries (m : tool_memory) : Z :=
  if 0 <? max_entries m then max_entries m else DS4_TOOL_MEMORY_DEFAULT_MAX_IDS.
Definition tool_memory_max_bytes (m : tool_memory) : Z :=
  if 0 <? max_bytes m then max_bytes m else DS4_TOOL_MEMORY_MAX_BYTES.

(** A zeroed struct with its limits. *)
Definition tool_memory_zero (max_entries max_bytes : Z) : tm_state :=
  TmState (ToolMemory None None None None 0 max_entries 0 max_bytes 0 0) ∅ ∅.

Definition tool_memory_init_locked (st : tm_state) : tm_state :=
  match by_id (mem st), by_block (mem st) with
  | Some _, Some _ => st
  | _, _ => st <| mem ::= fun m => m <| by_id := Some ∅ |> <| by_block := Some ∅ |> |>
  end.

(** ** The list *)

Definition tool_memory_link_head (st : tm_state) (e : positive) : pres tm_state :=
  st <- set_entry st e (fun x => x <| e_prev := None |>) ;;
  st <- set_entry st e (fun x => x <| e_next := tm_head (mem st) |>) ;;
  st <- match tm_head (mem st) with
        | Some h => set_entry st h (fun x => x <| e_prev := Some e |>)
        | None => Ok (st <| mem ::= fun m => m <| tm_tail := Some e |> |>)
        end ;;
  Ok (st <| mem ::= fun m => m <| tm_head := Some e |> |>).

Definition tool_memory_unlink (st : tm_state) (e : positive) : pres tm_state :=
  x <- entry st e ;;
  st <- match e_prev x with
        | Some p => set_entry st p (fun y => y <| e_next := e_next x |>)
        | None => Ok (st <| mem ::= fun m => m <| tm_head := e_next x |> |>)
        end ;;
  x <- entry st e ;;
  st <- match e_next x with
        | Some n => set_entry st n (fun y => y <| e_prev := e_prev x |>)
        | None => Ok (st <| mem ::= fun m => m <| tm_tail := e_prev x |> |>)
        end ;;
  set_entry st e (fun x => x <| e_prev := None |> <| e_next := None |>).

Definition tool_memory_touch (st : tm_state) (e : positive) : pres tm_state :=
  let now := u64 (clock (mem st) + 1) in
  let st := st <| mem ::= fun m => m <| clock := now |> |> in
  st <- set_entry st e (fun x => x <| e_stamp := now |>) ;;
  if bool_decide (tm_head (mem st) = Some e) then Ok st
  else
    st <- tool_memory_unlink st e ;;
    tool_memory_link_head st e.

(** ** Blocks *)

(** The cell that [p] of [tool_block_unlink_entry] points to: [b->entries], or
    the [block_next] of an entry. *)
Inductive chain_cell := BlockEntries (b : positive) | EntryNext (e : positive).

Definition read_cell (st : tm_state) (c : chain_cell) : pres (option positive) :=
  match c with
  | BlockEntries b => x <- block st b ;; Ok (b_entries x)
  | EntryNext e => x <- entry st e ;; Ok (e_block_next x)
  end.

Definition write_cell (st : tm_state) (c : chain_cell) (v : option positive) : pres tm_state :=
  match c with
  | BlockEntries b => set_block st b (fun x => x <| b_entries := v |>)
  | EntryNext e => set_entry st e (fun x => x <| e_block_next := v |>)
  end.

Fixpoint unlink_loop (fuel : nat) (st : tm_state) (p : chain_cell) (e : positive) : pres tm_state :=
  match fuel with
  | O => Error OutOfFuel
  | S fuel =>
      v <- read_cell st p ;;
      match v with
      | None => Ok st
      | Some q =>
          if bool_decide (q = e) then
            x <- entry st e ;;
            st <- write_cell st p (e_block_next x) ;;
            set_entry st e (fun x => x <| e_block_next := None |>)
          else unlink_loop fuel st (EntryNext q) e
      end
  end.

Definition tool_block_unlink_entry (st : tm_state) (b e : positive) : pres tm_state :=
  unlink_loop (S (size (ents st))) st (BlockEntries b) e.

(** [dsml] is the [len] bytes passed. *)
Definition tool_memory_find_block_locked (st : tm_state) (dsml : bytes) : option positive :=
  match by_block (mem st), dsml with
  | Some t, _ :: _ => t !! dsml
  | _, _ => None
  end.

Definition tool_memory_get_block_locked {_ : Malloc} (st : tm_state) (dsml : bytes) : positive * tm_state :=
  match tool_memory_find_block_locked st dsml with
  | Some b => (b, st)
  | None =>
      let b := malloc (dom (blks st)) in
      let size := u64 (strlen dsml + 1 + sizeof_block) in
      (b, st <| blks ::= insert b (Block dsml (strlen dsml) size 0 0 None) |>
             <| mem ::= fun m => m <| by_block ::= fmap (insert dsml b) |>
                                   <| mbytes := u64 (mbytes m + size) |> |>)
  end.

(** [if (m->bytes >= n) m->bytes -= n; else m->bytes = 0]. *)
Definition drop_bytes (m : tool_memory) (n : Z) : tool_memory :=
  m <| mbytes := if n <=? mbytes m then mbytes m - n else 0 |>.

(** Signed counters: overflow is undefined. *)
Definition int_step (z : Z) : pres Z :=
  if (INT_MIN <=? z) && (z <=? INT_MAX) then Ok z else undefined "signed overflow".

Definition tool_memory_release_block_locked (st : tm_state) (b : option positive) : pres tm_state :=
  match b with
  | None => Ok st
  | Some b =>
      x <- block st b ;;
      refs <- int_step (b_refs x - 1) ;;
      st <- set_block st b (fun x => x <| b_refs := refs |>) ;;
      if 0 <? refs then Ok st
      else
        x <- block st b ;;
        let st := st <| mem ::= fun m => m <| by_block ::= fmap (delete (b_dsml x)) |> |> in
        let st := st <| mem ::= fun m => drop_bytes m (b_bytes x) |> in
        Ok (free_block st b)
  end.

(** ** Entries *)

Definition tool_memory_remove_entry_locked (st : tm_state) (e : option positive) : pres tm_state :=
  match e with
  | None => Ok st
  | Some e =>
      x <- entry st e ;;
      let st := st <| mem ::= fun m => m <| by_id ::= fmap (delete (e_id x)) |> |> in
      st <- tool_memory_unlink st e ;;
      st <- match e_block x with
            | Some b => tool_block_unlink_entry st b e
            | None => Ok st
            end ;;
      let st := st <| mem ::= fun m => drop_bytes m (e_bytes x) |> in
      let st := st <| mem ::= fun m => m <| entries := if 0 <? entries m then entries m - 1 else entries m |> |> in
      st <- tool_memory_release_block_locked st (e_block x) ;;
      Ok (free_entry st e)
  end.

(** The condition of the loop of [tool_memory_prune_locked]. *)
Definition over_budget (m : tool_memory) : bool :=
  (tool_memory_max_entries m <? entries m) || (tool_memory_max_bytes m <? mbytes m).

Fixpoint prune_loop (fuel : nat) (st : tm_state) : pres tm_state :=
  match fuel with
  | O => Error OutOfFuel
  | S fuel =>
      if over_budget (mem st) then
        match tm_tail (mem st) with
        | Some t =>
            st <- tool_memory_remove_entry_locked st (Some t) ;;
            prune_loop fuel st
        | None => Ok st
        end
      else Ok st
  end.

(** Every turn frees an entry. *)
Definition tool_memory_prune_locked (st : tm_state) : pres tm_state :=
  prune_loop (S (size (ents st))) st.

Definition tool_memory_find_entry_locked (st : tm_state) (id : option bytes) : option positive :=
  match by_id (mem st), nonempty id with
  | Some t, Some id => t !! id
  | _, _ => None
  end.

(** The part of [tool_memory_put_locked] that stores a new entry. *)
Definition put_new {_ : Malloc} (st : tm_state) (id dsml : bytes) (source : tool_memory_source) : pres tm_state :=
  let '(b, st) := tool_memory_get_block_locked st dsml in
  let e := malloc (dom (ents st)) in
  let now := u64 (clock (mem st) + 1) in
  x <- block st b ;;
  let size := u64 (strlen id + 1 + sizeof_entry) in
  let st := st <| mem ::= fun m => m <| clock := now |> |>
               <| ents ::= insert e (Entry id (Some b) size now source None None (b_entries x)) |> in
  refs <- int_step (b_refs x + 1) ;;
  st <- set_block st b (fun x => x <| b_entries := Some e |> <| b_refs := refs |>) ;;
  let st := st <| mem ::= fun m => m <| by_id ::= fmap (insert id e) |> |> in
  st <- tool_memory_link_head st e ;;
  count <- int_step (entries (mem st) + 1) ;;
  let st := st <| mem ::= fun m => m <| entries := count |> <| mbytes := u64 (mbytes m + size) |> |> in
  tool_memory_prune_locked st.

(** [old && old->block && old->block holds dsml]. *)
Definition same_block (st : tm_state) (old : positive) (dsml : bytes) : pres bool :=
  x <- entry st old ;;
  match e_block x with
  | None => Ok false
  | Some b => y <- block st b ;; Ok ((b_len y =? strlen dsml) && str_eqb (b_dsml y) dsml)
  end.

Definition tool_memory_put_locked {_ : Malloc} (st : tm_state) (id dsml : option bytes) (source : tool_memory_source)
    : pres tm_state :=
  match nonempty id, nonempty dsml with
  | Some id, Some dsml =>
      let st := tool_memory_init_locked st in
      match tool_memory_find_entry_locked st (Some id) with
      | Some old =>
          same <- same_block st old dsml ;;
          if (same : bool) then
            st <- match source with
                  | TOOL_MEMORY_RAM => set_entry st old (fun x => x <| e_source := TOOL_MEMORY_RAM |>)
                  | TOOL_MEMORY_DISK => Ok st
                  end ;;
            st <- tool_memory_touch st old ;;
            tool_memory_prune_locked st
          else
            st <- tool_memory_remove_entry_locked st (Some old) ;;
            put_new st id dsml source
      | None => put_new st id dsml source
      end
  | _, _ => Ok st
  end.

Fixpoint free_loop (fuel : nat) (st : tm_state) : pres tm_state :=
  match fuel with
  | O => Error OutOfFuel
  | S fuel =>
      match tm_tail (mem st) with
      | Some t => st <- tool_memory_remove_entry_locked st (Some t) ;; free_loop fuel st
      | None => Ok st
      end
  end.

Definition tool_memory_free (st : tm_state) : pres tm_state :=
  st <- free_loop (S (size (ents st))) st ;;
  Ok (st <| mem := mem (tool_memory_zero 0 0) |>).

(** ** Lookup and replay *)

(** The text, source and block of the entry, or NULL. *)
Definition tool_memory_lookup_locked (st : tm_state) (id : option bytes)
    : pres (option (bytes * tool_memory_source * positive) * tm_state) :=
  match tool_memory_find_entry_locked st id with
  | None => Ok (None, st)
  | Some e =>
      x <- entry st e ;;
      match e_block x with
      | None => Ok (None, st)
      | Some b =>
          st <- tool_memory_touch st e ;;
          y <- block st b ;;
          Ok (Some (b_dsml y, e_source x, b), st)
      end
  end.

(** [disabled] is [s->disable_exact_dsml_tool_replay]. *)
Definition tool_memory_has_id (disabled : bool) (st : tm_state) (id : option bytes) : bool :=
  match nonempty id with
  | None => false
  | Some _ => negb disabled && match tool_memory_find_entry_locked st id with Some _ => true | None => false end
  end.

Definition tool_memory_remember {_ : Malloc} (disabled : bool) (st : tm_state) (cs : option tool_calls) : pres tm_state :=
  match cs with
  | None => Ok st
  | Some cs =>
      match disabled, nonempty (raw_dsml cs) with
      | false, Some _ =>
          rfold (fun st tc => tool_memory_put_locked st (tc_id tc) (raw_dsml cs) TOOL_MEMORY_RAM) st (tcs_v cs)
      | _, _ => Ok st
      end
  end.

Definition tool_memory_put_source {_ : Malloc} (disabled : bool) (st : tm_state) (id dsml : option bytes)
    (source : tool_memory_source) : pres tm_state :=
  match disabled, nonempty id, nonempty dsml with
  | false, Some _, Some _ => tool_memory_put_locked st id dsml source
  | _, _, _ => Ok st
  end.

Record tool_replay_stats := ToolReplayStats {
  rs_mem : Z; rs_disk : Z; rs_canonical : Z; rs_missing_ids : Z
}.
#[export] Instance replay_fields : Fields tool_replay_stats :=
  rd_pure ToolReplayStats <*> rs_mem <*> rs_disk <*> rs_canonical <*> rs_missing_ids.

(** The locals of the loop over the calls of one message. *)
Record replay_match := ReplayMatch {
  rm_matched : option positive;
  rm_source : tool_memory_source;
  rm_exact : bool;
  rm_missing : Z
}.

Definition match_call (acc : replay_match * tm_state) (tc : tool_call) : pres (replay_match * tm_state) :=
  let '(r, st) := acc in
  let* (found, st) := tool_memory_lookup_locked st (tc_id tc) in
  Ok (match found with
      | None => ReplayMatch (rm_matched r) (rm_source r) false (rm_missing r + 1)
      | Some (_, source, b) =>
          let r := match rm_matched r with
                   | None => ReplayMatch (Some b) source (rm_exact r) (rm_missing r)
                   | Some m =>
                       ReplayMatch (Some m) (rm_source r) (if Pos.eqb m b then rm_exact r else false) (rm_missing r)
                   end in
          match source with
          | TOOL_MEMORY_RAM => ReplayMatch (rm_matched r) TOOL_MEMORY_RAM (rm_exact r) (rm_missing r)
          | TOOL_MEMORY_DISK => r
          end
      end, st).

(** A message whose calls have no text yet. *)
Definition wants_replay (m : chat_msg) : bool :=
  negb (length (tcs_v (calls m)) =? 0)%nat && match raw_dsml (calls m) with Some _ => false | None => true end.

Definition attach_message (acc : list chat_msg * tool_replay_stats * tm_state) (m : chat_msg)
    : pres (list chat_msg * tool_replay_stats * tm_state) :=
  let '(done, stats, st) := acc in
  if negb (wants_replay m) then Ok (done ++ [m], stats, st)
  else
    let* (r, st) := rfold match_call (ReplayMatch None TOOL_MEMORY_DISK true 0, st) (tcs_v (calls m)) in
    match rm_exact r, rm_matched r with
    | true, Some b =>
        y <- block st b ;;
        Ok (done ++ [m <| calls ::= fun cs => cs <| raw_dsml := Some (b_dsml y) |> |>],
            match rm_source r with
            | TOOL_MEMORY_RAM => stats <| rs_mem := rs_mem stats + 1 |>
            | TOOL_MEMORY_DISK => stats <| rs_disk := rs_disk stats + 1 |>
            end, st)
    | _, _ =>
        Ok (done ++ [m],
            stats <| rs_canonical := rs_canonical stats + 1 |>
                  <| rs_missing_ids := rs_missing_ids stats + rm_missing r |>, st)
    end.

(** A disabled memory only counts the calls that will be rendered anew. *)
Definition count_disabled (stats : tool_replay_stats) (m : chat_msg) : tool_replay_stats :=
  if wants_replay m then
    stats <| rs_canonical := rs_canonical stats + 1 |>
          <| rs_missing_ids := rs_missing_ids stats + Z.of_nat (length (tcs_v (calls m))) |>
  else stats.

Definition tool_memory_attach_to_messages (disabled : bool) (st : tm_state) (msgs : list chat_msg)
    (stats : tool_replay_stats) : pres (list chat_msg * tool_replay_stats * tm_state) :=
  if disabled then Ok (msgs, foldl count_disabled stats msgs, st)
  else rfold attach_message ([], stats, st) msgs.
