(* ===== verification/ToolMemoryProps.v ===== *)
(** * Properties of the tool-call text memory

    The heap of linked entries and shared blocks implements a plain list of
    remembered calls, most recently used first: no operation follows a dangling
    pointer, and after every store the list is the longest recent part that
    fits the budget. *)
From stdpp Require Import gmap.
From S2P Require Import Prelude.
From S2P Require Import CNum.
From S2P Require Import CFloat.
From S2P Require Import ServerJson.
From S2P Require Import ServerStream.
From S2P Require Import ServerMsgs.
From S2P Require Import ToolMemory.
Open Scope Z_scope.

(** ** Linked segments

    A map from addresses to the pointer stored there; a list of addresses is
    linked forwards through [N] up to [qn], backwards through [P] from [pp]. *)

Abbreviation links := (gmap positive (option positive)).

Definition first (ps : list positive) (qn : option positive) : option positive :=
  match ps with [] => qn | q :: _ => Some q end.

Fixpoint lastp (pp : option positive) (ps : list positive) : option positive :=
  match ps with [] => pp | p :: ps => lastp (Some p) ps end.

Fixpoint nseg (N : links) (ps : list positive) (qn : option positive) : Prop :=
  match ps with
  | [] => True
  | p :: ps => N !! p = Some (first ps qn) /\ nseg N ps qn
  end.

Fixpoint pseg (P : links) (pp : option positive) (ps : list positive) : Prop :=
  match ps with
  | [] => True
  | p :: ps => P !! p = Some pp /\ pseg P (Some p) ps
  end.

Lemma first_app (ps qs : list positive) (qn : option positive) : first (ps ++ qs) qn = first ps (first qs qn).
Proof. by destruct ps. Qed.

Lemma lastp_app (pp : option positive) (ps qs : list positive) : lastp pp (ps ++ qs) = lastp (lastp pp ps) qs.
Proof. revert pp. induction ps as [|p ps IH]; intros pp; [done|apply IH]. Qed.

Lemma nseg_app (N : links) (ps qs : list positive) (qn : option positive) :
  nseg N (ps ++ qs) qn <-> nseg N ps (first qs qn) /\ nseg N qs qn.
Proof. induction ps as [|p ps IH]; simpl; [tauto|]. rewrite IH, first_app. tauto. Qed.

Lemma pseg_app (P : links) (ps qs : list positive) (pp : option positive) :
  pseg P pp (ps ++ qs) <-> pseg P pp ps /\ pseg P (lastp pp ps) qs.
Proof. revert pp. induction ps as [|p ps IH]; intros pp; simpl; [tauto|]. rewrite IH. tauto. Qed.

Lemma nseg_ext (N N' : links) (ps : list positive) (qn : option positive) :
  (forall p, p ∈ ps -> N' !! p = N !! p) -> nseg N ps qn -> nseg N' ps qn.
Proof.
  induction ps as [|p ps IH]; simpl; [done|]. intros HN [H1 H2]. split.
  - rewrite HN; [done|set_solver].
  - apply IH; [|done]. intros q Hq. apply HN. set_solver.
Qed.

Lemma pseg_ext (P P' : links) (pp : option positive) (ps : list positive) :
  (forall p, p ∈ ps -> P' !! p = P !! p) -> pseg P pp ps -> pseg P' pp ps.
Proof.
  revert pp. induction ps as [|p ps IH]; intros pp; simpl; [done|]. intros HP [H1 H2]. split.
  - rewrite HP; [done|set_solver].
  - apply IH; [|done]. intros q Hq. apply HP. set_solver.
Qed.

Lemma nseg_in (N : links) (ps : list positive) (qn : option positive) (p : positive) :
  nseg N ps qn -> p ∈ ps -> is_Some (N !! p).
Proof. induction ps as [|q ps IH]; simpl; [set_solver|]. intros [H1 H2] [->|Hp]%elem_of_cons; eauto. Qed.

(** Redirecting the last link, or the first back link, of a segment. *)
Definition set_last (N : links) (ps : list positive) (v : option positive) : links :=
  match last ps with Some p => <[p := v]> N | None => N end.
Definition set_first (P : links) (ps : list positive) (v : option positive) : links :=
  match ps with p :: _ => <[p := v]> P | [] => P end.

Lemma set_last_other (N : links) (ps : list positive) (v : option positive) (p : positive) :
  p ∉ ps -> set_last N ps v !! p = N !! p.
Proof.
  intros Hp. unfold set_last. destruct (last ps) as [q|] eqn:E; [|done]. apply lookup_insert_ne.
  intros ->. apply last_Some in E as [? ->]. set_solver.
Qed.

Lemma set_first_other (P : links) (ps : list positive) (v : option positive) (p : positive) :
  p ∉ ps -> set_first P ps v !! p = P !! p.
Proof. intros Hp. destruct ps as [|q ps]; [done|]. apply lookup_insert_ne. set_solver. Qed.

Lemma nseg_set_last (N : links) (ps : list positive) (qn v : option positive) :
  NoDup ps -> nseg N ps qn -> nseg (set_last N ps v) ps v.
Proof.
  intros Hnd HN. unfold set_last. destruct (last ps) as [p|] eqn:E.
  - apply last_Some in E as [qs ->]. apply NoDup_app in Hnd as (_ & Hnd & _).
    apply nseg_app in HN as [HN _]. apply nseg_app. split.
    + eapply nseg_ext; [|exact HN]. intros q Hq. apply lookup_insert_ne. intros ->. by eapply Hnd; [|apply list_elem_of_here].
    + simpl. by rewrite lookup_insert_eq.
  - apply last_None in E as ->. done.
Qed.

Lemma pseg_set_first (P : links) (ps : list positive) (pp v : option positive) :
  NoDup ps -> pseg P pp ps -> pseg (set_first P ps v) v ps.
Proof.
  destruct ps as [|p ps]; [done|]. intros [Hp _]%NoDup_cons [_ HP]. simpl. split; [by rewrite lookup_insert_eq|].
  eapply pseg_ext; [|exact HP]. intros q Hq. apply lookup_insert_ne. congruence.
Qed.

(** Taking one address out of a linked list. *)
Lemma nseg_remove (N : links) (ps1 ps2 : list positive) (e : positive) :
  NoDup (ps1 ++ e :: ps2) -> nseg N (ps1 ++ e :: ps2) None ->
  nseg (set_last N ps1 (first ps2 None)) (ps1 ++ ps2) None.
Proof.
  intros Hnd HN. apply NoDup_app in Hnd as (H1 & H12 & [He H2]%NoDup_cons).
  apply nseg_app in HN as [HN1 [_ HN2]]. apply nseg_app. split; [by eapply nseg_set_last|].
  eapply nseg_ext; [|exact HN2]. intros q Hq. apply set_last_other. intros Hin. eapply H12; [done|]. set_solver.
Qed.

Lemma pseg_remove (P : links) (ps1 ps2 : list positive) (e : positive) :
  NoDup (ps1 ++ e :: ps2) -> pseg P None (ps1 ++ e :: ps2) ->
  pseg (set_first P ps2 (lastp None ps1)) None (ps1 ++ ps2).
Proof.
  intros Hnd HP. apply NoDup_app in Hnd as (H1 & H12 & [He H2]%NoDup_cons).
  apply pseg_app in HP as [HP1 [_ HP2]]. apply pseg_app. split; [|by eapply pseg_set_first].
  eapply pseg_ext; [|exact HP1]. intros q Hq. apply set_first_other. intros Hin. eapply H12; [done|]. set_solver.
Qed.

Lemma lastp_last (pp : option positive) (ps : list positive) :
  lastp pp ps = match last ps with Some p => Some p | None => pp end.
Proof.
  revert pp. induction ps as [|p ps IH]; intros pp; [done|]. simpl lastp. rewrite IH. destruct ps as [|q ps]; [done|].
  change (last (p :: q :: ps)) with (last (q :: ps)). destruct (last (q :: ps)) eqn:E; [done|]. by apply last_None in E.
Qed.

(** ** Views of the heap

    Each operation writes some fields only; the others are read off a state by
    field. *)

Definition prv (st : tm_state) : links := e_prev <$> ents st.
Definition nxt (st : tm_state) : links := e_next <$> ents st.
Definition bnx (st : tm_state) : links := e_block_next <$> ents st.

Record ecore := ECore { c_id : bytes; c_block : option positive; c_bytes : Z; c_source : tool_memory_source }.
Definition core_of (x : tool_memory_entry) : ecore := ECore (e_id x) (e_block x) (e_bytes x) (e_source x).
Definition core (st : tm_state) : gmap positive ecore := core_of <$> ents st.

Lemma view_insert {A} (g : tool_memory_entry -> A) (m : gmap positive tool_memory_entry) (e : positive)
    (x y : tool_memory_entry) : m !! e = Some x -> g y = g x -> g <$> <[e := y]> m = g <$> m.
Proof. intros Hx Hg. rewrite fmap_insert, Hg. apply insert_id. by rewrite lookup_fmap, Hx. Qed.

Lemma view_lookup {A} (g : tool_memory_entry -> A) (m : gmap positive tool_memory_entry) (e : positive) (v : A) :
  (g <$> m) !! e = Some v -> exists x, m !! e = Some x /\ g x = v.
Proof. rewrite lookup_fmap. intros (x & -> & Hx)%fmap_Some. eauto. Qed.

Lemma view_some {A} (g : tool_memory_entry -> A) (m : gmap positive tool_memory_entry) (e : positive)
    (x : tool_memory_entry) : m !! e = Some x -> (g <$> m) !! e = Some (g x).
Proof. intros H. by rewrite lookup_fmap, H. Qed.

Lemma set_entry_ok (st : tm_state) (e : positive) (x : tool_memory_entry) (f : tool_memory_entry -> tool_memory_entry) :
  ents st !! e = Some x -> set_entry st e f = Ok (st <| ents ::= insert e (f x) |>).
Proof. intros H. unfold set_entry, entry. by rewrite H. Qed.

Lemma entry_ok (st : tm_state) (e : positive) (x : tool_memory_entry) : ents st !! e = Some x -> entry st e = Ok x.
Proof. intros H. unfold entry. by rewrite H. Qed.

Lemma block_get (st : tm_state) (b : positive) (k : tool_memory_block) : blks st !! b = Some k -> block st b = Ok k.
Proof. intros H. unfold block. by rewrite H. Qed.

Lemma set_block_ok (st : tm_state) (b : positive) (k : tool_memory_block) (f : tool_memory_block -> tool_memory_block) :
  blks st !! b = Some k -> set_block st b f = Ok (st <| blks ::= insert b (f k) |>).
Proof. intros H. unfold set_block, block. by rewrite H. Qed.

(** ** The list of entries *)

Definition dlist (st : tm_state) (ps : list positive) : Prop :=
  NoDup ps /\ nseg (nxt st) ps None /\ pseg (prv st) None ps /\
  tm_head (mem st) = first ps None /\ tm_tail (mem st) = lastp None ps.

(** What the list operations leave alone. *)
Definition list_frame (st st' : tm_state) : Prop :=
  core st' = core st /\ bnx st' = bnx st /\ blks st' = blks st /\
  mem st' = (mem st) <| tm_head := tm_head (mem st') |> <| tm_tail := tm_tail (mem st') |>.

Lemma list_frame_trans (a b c : tm_state) : list_frame a b -> list_frame b c -> list_frame a c.
Proof.
  intros (E1 & E2 & E3 & E4) (F1 & F2 & F3 & F4). repeat split; try congruence.
  rewrite F4, E4. by destruct (mem a).
Qed.

(** The state after a pointer of the list was redirected: the next pointer of
    the last of [ps1] or the head, then the previous pointer of the first of
    [ps2] or the tail. *)
Lemma set_next_ok (st : tm_state) (ps : list positive) (v : option positive) :
  (forall p, p ∈ ps -> is_Some (ents st !! p)) ->
  exists st', (match lastp None ps with
      | Some p => set_entry st p (fun y => y <| e_next := v |>)
      | None => Ok (st <| mem ::= fun m => m <| tm_head := v |> |>)
      end) = Ok st' /\
    nxt st' = set_last (nxt st) ps v /\ prv st' = prv st /\ list_frame st st' /\
    tm_head (mem st') = match ps with [] => v | _ => tm_head (mem st) end /\
    tm_tail (mem st') = tm_tail (mem st).
Proof.
  intros Hin. rewrite lastp_last. unfold set_last. destruct (last ps) as [p|] eqn:E.
  - apply last_Some in E as [qs ->]. destruct (Hin p) as [x Hx]; [set_solver|].
    erewrite set_entry_ok by done. eexists. split; [done|]. unfold nxt, prv, list_frame, core, bnx. simpl.
    rewrite fmap_insert. split; [done|]. split; [by eapply view_insert|]. split; [|by destruct qs].
    repeat split; first [by eapply view_insert | by destruct st as [[]]].
  - apply last_None in E as ->. eexists. split; [done|]. repeat split; by destruct st as [[]].
Qed.

Lemma set_prev_ok (st : tm_state) (ps : list positive) (v : option positive) :
  (forall p, p ∈ ps -> is_Some (ents st !! p)) ->
  exists st', (match first ps None with
      | Some p => set_entry st p (fun y => y <| e_prev := v |>)
      | None => Ok (st <| mem ::= fun m => m <| tm_tail := v |> |>)
      end) = Ok st' /\
    prv st' = set_first (prv st) ps v /\ nxt st' = nxt st /\ list_frame st st' /\
    tm_tail (mem st') = match ps with [] => v | _ => tm_tail (mem st) end /\
    tm_head (mem st') = tm_head (mem st).
Proof.
  intros Hin. destruct ps as [|p ps]; simpl.
  - eexists. split; [done|]. repeat split; by destruct st as [[]].
  - destruct (Hin p) as [x Hx]; [set_solver|]. erewrite set_entry_ok by done. eexists. split; [done|].
    unfold nxt, prv, list_frame, core, bnx. simpl. rewrite fmap_insert.
    repeat split; first [by eapply view_insert | by destruct st as [[]]].
Qed.

Lemma frame_some (st st' : tm_state) (p : positive) :
  core st' = core st -> is_Some (ents st !! p) -> is_Some (ents st' !! p).
Proof.
  intros Hc. rewrite <- (fmap_is_Some core_of (ents st !! p)), <- (fmap_is_Some core_of (ents st' !! p)).
  rewrite <- !lookup_fmap. fold (core st) (core st'). by rewrite Hc.
Qed.

Lemma seg_some (st : tm_state) (ps : list positive) (qn : option positive) (p : positive) :
  nseg (nxt st) ps qn -> p ∈ ps -> is_Some (ents st !! p).
Proof.
  intros H Hp. destruct (nseg_in _ _ _ _ H Hp) as [v Hv]. apply view_lookup in Hv as (x & -> & _). done.
Qed.

Lemma unlink_ok (st : tm_state) (ps1 ps2 : list positive) (e : positive) : dlist st (ps1 ++ e :: ps2) ->
  exists st', tool_memory_unlink st e = Ok st' /\ dlist st' (ps1 ++ ps2) /\ list_frame st st'.
Proof.
  intros (Hnd & HN & HP & Hh & Ht).
  assert (forall p, p ∈ ps1 ++ e :: ps2 -> is_Some (ents st !! p)) as Hin by (intros; by eapply seg_some).
  destruct (Hin e) as [x Hx]; [set_solver|].
  assert (e_next x = first ps2 None) as Hxn.
  { apply nseg_app in HN as [_ [HN _]]. unfold nxt in HN. rewrite (view_some _ _ _ _ Hx) in HN. congruence. }
  assert (e_prev x = lastp None ps1) as Hxp.
  { apply pseg_app in HP as [_ [HP _]]. unfold prv in HP. rewrite (view_some _ _ _ _ Hx) in HP. congruence. }
  unfold tool_memory_unlink. rewrite (entry_ok _ _ _ Hx), Hxp, Hxn.
  destruct (set_next_ok st ps1 (first ps2 None)) as (st1 & -> & N1 & P1 & F1 & H1 & T1); [set_solver|].
  assert ((e ∉ ps1) /\ (e ∉ ps2)) as [He1 He2].
  { apply NoDup_app in Hnd as (_ & H12 & [He _]%NoDup_cons). split; [|done]. intros Hin1. eapply H12; [done|]. set_solver. }
  assert (exists x1, ents st1 !! e = Some x1 /\ e_next x1 = first ps2 None /\ e_prev x1 = lastp None ps1) as (x1 & Hx1 & Hxn1 & Hxp1).
  { assert (nxt st1 !! e = Some (e_next x)) as HN1.
    { rewrite N1, set_last_other by done. by apply view_some. }
    assert (prv st1 !! e = Some (e_prev x)) as HP1 by (rewrite P1; by apply view_some).
    apply view_lookup in HN1 as (x1 & Hx1 & E). exists x1. split; [done|]. split; [congruence|].
    unfold prv in HP1. rewrite (view_some _ _ _ _ Hx1) in HP1. congruence. }
  rewrite (entry_ok _ _ _ Hx1), Hxn1, Hxp1.
  destruct (set_prev_ok st1 ps2 (lastp None ps1)) as (st2 & -> & P2 & N2 & F2 & T2 & H2).
  { intros p Hp. eapply frame_some; [apply F1|]. apply Hin. set_solver. }
  pose proof (list_frame_trans _ _ _ F1 F2) as F.
  destruct (frame_some _ _ e (proj1 F)) as [x2 Hx2]; [by rewrite Hx|].
  erewrite set_entry_ok by done. eexists. split; [done|]. split.
  - unfold dlist, nxt, prv. simpl. rewrite !fmap_insert. fold (nxt st2) (prv st2). rewrite P2, N2, N1, P1.
    assert (e ∉ ps1 ++ ps2) as He by set_solver.
    split; [|split; [|split; [|split]]].
    + apply NoDup_app in Hnd as (? & H12 & [_ ?]%NoDup_cons). apply NoDup_app. split; [done|]. split; [|done]. set_solver.
    + eapply nseg_ext; [|by eapply nseg_remove]. intros p Hp. apply lookup_insert_ne. congruence.
    + eapply pseg_ext; [|by eapply pseg_remove]. intros p Hp. apply lookup_insert_ne. congruence.
    + rewrite H2, H1, Hh, !first_app. by destruct ps1.
    + rewrite T2, T1, Ht, !lastp_app. by destruct ps2.
  - eapply list_frame_trans; [exact F|]. unfold list_frame, core, bnx. simpl.
    repeat split; first [by eapply view_insert | by destruct st2 as [[]]].
Qed.

Lemma link_head_ok (st : tm_state) (ps : list positive) (e : positive) :
  dlist st ps -> e ∉ ps -> is_Some (ents st !! e) ->
  exists st', tool_memory_link_head st e = Ok st' /\ dlist st' (e :: ps) /\ list_frame st st'.
Proof.
  intros (Hnd & HN & HP & Hh & Ht) He [x Hx]. unfold tool_memory_link_head.
  erewrite set_entry_ok by done. set (y := x <| e_prev := None |>).
  set (st1 := st <| ents ::= insert e y |>).
  assert (ents st1 !! e = Some y) as Hy by apply lookup_insert_eq.
  erewrite set_entry_ok by done. change (mem st1) with (mem st). set (z := y <| e_next := tm_head (mem st) |>).
  set (st2 := st1 <| ents ::= insert e z |>). change (mem st2) with (mem st). rewrite Hh.
  assert (ents st2 = <[e := z]> (ents st)) as E2 by apply insert_insert_eq.
  assert (nxt st2 = <[e := first ps None]> (nxt st)) as N2 by (unfold nxt; rewrite E2, fmap_insert; simpl; by rewrite Hh).
  assert (prv st2 = <[e := None]> (prv st)) as P2 by (unfold prv; by rewrite E2, fmap_insert).
  assert (list_frame st st2) as F2.
  { unfold list_frame, core, bnx. rewrite E2. repeat split; first [by eapply view_insert | by destruct st as [[]]]. }
  destruct (set_prev_ok st2 ps (Some e)) as (st3 & -> & P3 & N3 & F3 & T3 & H3).
  { intros p Hp. eapply frame_some; [apply F2|]. by eapply seg_some. }
  eexists. split; [done|]. split.
  - unfold dlist. simpl. change (nxt (st3 <| mem ::= _ |>)) with (nxt st3). change (prv (st3 <| mem ::= _ |>)) with (prv st3).
    rewrite N3, P3, N2, P2. split; [by apply NoDup_cons|]. split; [|split; [|split]].
    + split; [by rewrite lookup_insert_eq|]. eapply nseg_ext; [|exact HN]. intros p Hp. apply lookup_insert_ne. congruence.
    + split; [rewrite set_first_other by done; by rewrite lookup_insert_eq|].
      eapply pseg_set_first; [done|]. eapply pseg_ext; [|exact HP]. intros p Hp. apply lookup_insert_ne. congruence.
    + done.
    + rewrite T3. change (mem st2) with (mem st). rewrite Ht. by destruct ps.
  - pose proof (list_frame_trans _ _ _ F2 F3) as (E1 & E3 & E4 & E5). repeat split; try done.
    simpl. rewrite E5. by destruct (mem st).
Qed.

(** ** The chain of a block *)

Definition chain (st : tm_state) (c : option positive) (qs : list positive) : Prop :=
  NoDup qs /\ c = first qs None /\ nseg (bnx st) qs None.

(** Walking the chain finds the entry: the loop redirects the cell in front. *)
Lemma unlink_loop_ok (e : positive) (qs1 qs2 : list positive) : forall (fuel : nat) (st : tm_state) (p : chain_cell),
  (length qs1 < fuel)%nat -> NoDup (qs1 ++ e :: qs2) ->
  read_cell st p = Ok (first (qs1 ++ e :: qs2) None) -> nseg (bnx st) (qs1 ++ e :: qs2) None ->
  unlink_loop fuel st p e =
    (st' <- write_cell st (match last qs1 with Some q => EntryNext q | None => p end) (first qs2 None) ;;
     set_entry st' e (fun x => x <| e_block_next := None |>)).
Proof.
  induction qs1 as [|q qs1 IH]; intros [|fuel] st p Hf Hnd Hr Hn; try (simpl in Hf; lia); cbn [unlink_loop]; rewrite Hr.
  - cbn [app first]. rewrite bool_decide_true by done. destruct Hn as [Hn _].
    apply view_lookup in Hn as (x & Hx & Hxn). rewrite (entry_ok _ _ _ Hx), Hxn. done.
  - cbn [app first]. cbn [app] in Hnd, Hn. apply NoDup_cons in Hnd as [Hq Hnd]. destruct Hn as [Hqn Hn].
    rewrite bool_decide_false by set_solver.
    rewrite (IH fuel st (EntryNext q)); [|simpl in Hf; lia|done| |done].
    + destruct qs1 as [|q' qs1]; [done|]. change (last (q :: q' :: qs1)) with (last (q' :: qs1)).
      by destruct (last (q' :: qs1)) eqn:E; [|apply last_None in E].
    + cbn [read_cell]. apply view_lookup in Hqn as (x & Hx & Hxn). by rewrite (entry_ok _ _ _ Hx), Hxn.
Qed.

Definition chain_frame (st st' : tm_state) : Prop :=
  core st' = core st /\ prv st' = prv st /\ nxt st' = nxt st /\ mem st' = mem st.

Lemma block_unlink_ok (st : tm_state) (b e : positive) (k : tool_memory_block) (qs1 qs2 : list positive) :
  blks st !! b = Some k -> chain st (b_entries k) (qs1 ++ e :: qs2) ->
  exists st', tool_block_unlink_entry st b e = Ok st' /\ chain_frame st st' /\
    blks st' = <[b := k <| b_entries := first (qs1 ++ qs2) None |>]> (blks st) /\
    chain st' (first (qs1 ++ qs2) None) (qs1 ++ qs2) /\
    forall p, p ∉ qs1 ++ e :: qs2 -> bnx st' !! p = bnx st !! p.
Proof.
  intros Hk (Hnd & Hc & Hn). unfold tool_block_unlink_entry.
  assert (forall p, p ∈ qs1 ++ e :: qs2 -> is_Some (ents st !! p)) as Hin.
  { intros p Hp. destruct (nseg_in _ _ _ _ Hn Hp) as [v Hv]. apply view_lookup in Hv as (x & -> & _). done. }
  rewrite (unlink_loop_ok e qs1 qs2); [|  |done|cbn [read_cell]; rewrite (block_get _ _ _ Hk); congruence|done].
  2: { assert (length (qs1 ++ e :: qs2) <= size (ents st))%nat as H.
       { rewrite <- size_dom, <- (size_list_to_set (C:=gset positive) (qs1 ++ e :: qs2)) by done.
         apply subseteq_size. intros p Hp. apply elem_of_dom, Hin. set_solver. }
       rewrite length_app in H. simpl in H. lia. }
  pose proof (nseg_remove _ _ _ _ Hnd Hn) as Hn'. unfold set_last in Hn'.
  assert ((e ∉ qs1 ++ qs2) /\ NoDup (qs1 ++ qs2)) as [He Hnd'].
  { rewrite <- Permutation_middle in Hnd. by apply NoDup_cons in Hnd. }
  destruct (last qs1) as [q|] eqn:El; cbn [write_cell].
  - apply last_Some in El as [rs ->]. destruct (Hin q) as [x Hx]; [set_solver|].
    rewrite (set_entry_ok _ _ _ _ Hx). set (st1 := st <| ents ::= _ |>).
    destruct (Hin e) as [y Hy]; [set_solver|].
    assert (q <> e) as Hqe by set_solver.
    assert (ents st1 !! e = Some y) as Hy1 by (simpl; by rewrite lookup_insert_ne).
    rewrite (set_entry_ok _ _ _ _ Hy1). eexists. split; [done|].
    assert (bnx (st1 <| ents ::= insert e (y <| e_block_next := None |>) |>) = <[e := None]> (<[q := first qs2 None]> (bnx st))) as Eb.
    { unfold bnx. simpl. by rewrite !fmap_insert. }
    unfold chain. rewrite Eb. split; [|split; [|split]].
    + unfold chain_frame, core, prv, nxt. simpl.
      repeat split; (erewrite view_insert; [|exact Hy1|done]); by eapply view_insert.
    + simpl. symmetry. apply insert_id. rewrite Hk. destruct k as [????? en]. simpl in *. rewrite Hc, !first_app. by destruct rs.
    + split; [done|]. split; [done|]. eapply nseg_ext; [|exact Hn']. intros p Hp. apply lookup_insert_ne. congruence.
    + intros p Hp. rewrite !lookup_insert_ne; [done|set_solver|set_solver].
  - apply last_None in El as ->. cbn [app] in *. rewrite (set_block_ok _ _ _ _ Hk). set (st1 := st <| blks ::= _ |>).
    destruct (Hin e) as [y Hy]; [set_solver|].
    assert (ents st1 !! e = Some y) as Hy1 by done. rewrite (set_entry_ok _ _ _ _ Hy1). eexists. split; [done|].
    assert (bnx (st1 <| ents ::= insert e (y <| e_block_next := None |>) |>) = <[e := None]> (bnx st)) as Eb.
    { unfold bnx. simpl. by rewrite fmap_insert. }
    unfold chain. rewrite Eb. split; [|split; [|split]].
    + unfold chain_frame, core, prv, nxt. simpl. repeat split; by eapply view_insert.
    + done.
    + split; [done|]. split; [done|]. eapply nseg_ext; [|exact Hn']. intros p Hp. apply lookup_insert_ne. congruence.
    + intros p Hp. rewrite !lookup_insert_ne; [done|set_solver].
Qed.

(** ** The abstract memory

    What is remembered, most recently used first. *)

Record remembered := Remembered { a_id : bytes; a_dsml : bytes; a_source : tool_memory_source }.

Definition id_weight (id : bytes) : Z := strlen id + 1 + sizeof_entry.
Definition dsml_weight (d : bytes) : Z := strlen d + 1 + sizeof_block.
Definition knows (d : bytes) (l : list remembered) : bool := existsb (fun a => str_eqb (a_dsml a) d) l.

(** The bytes accounted for: every entry, and every different text once. *)
Fixpoint a_bytes (l : list remembered) : Z :=
  match l with
  | [] => 0
  | a :: l => id_weight (a_id a) + (if knows (a_dsml a) l then 0 else dsml_weight (a_dsml a)) + a_bytes l
  end.

Lemma knows_spec (d : bytes) (l : list remembered) : knows d l = true <-> exists a, a ∈ l /\ a_dsml a = d.
Proof.
  unfold knows. rewrite existsb_exists. split; intros (a & H1 & H2); exists a.
  - apply str_eqb_eq in H2. by apply list_elem_of_In in H1.
  - split; [by apply list_elem_of_In|]. by apply str_eqb_eq.
Qed.

Lemma knows_app (d : bytes) (l1 l2 : list remembered) : knows d (l1 ++ l2) = knows d l1 || knows d l2.
Proof. apply existsb_app. Qed.

Lemma knows_cons (d : bytes) (a : remembered) (l : list remembered) :
  knows d (a :: l) = str_eqb (a_dsml a) d || knows d l.
Proof. done. Qed.

Lemma a_bytes_middle (l1 l2 : list remembered) (a : remembered) :
  a_bytes (l1 ++ a :: l2) =
    id_weight (a_id a) + (if knows (a_dsml a) (l1 ++ l2) then 0 else dsml_weight (a_dsml a)) + a_bytes (l1 ++ l2).
Proof.
  induction l1 as [|x l1 IH]; [done|]. cbn [app a_bytes]. rewrite IH.
  rewrite !knows_app, !knows_cons, knows_app.
  destruct (str_eqb (a_dsml a) (a_dsml x)) eqn:E.
  - pose proof E as E'. apply str_eqb_eq in E'. rewrite <- E' in *. rewrite str_eqb_refl. simpl.
    rewrite orb_true_r. destruct (knows _ l1 || knows _ l2); lia.
  - assert (str_eqb (a_dsml x) (a_dsml a) = false) as ->.
    { apply str_eqb_neq. apply str_eqb_neq in E. congruence. }
    simpl. destruct (knows (a_dsml x) l1 || knows (a_dsml x) l2), (knows (a_dsml a) l1 || knows (a_dsml a) l2); lia.
Qed.

Lemma strlen_nonneg (s : bytes) : 0 <= strlen s.
Proof. unfold strlen. lia. Qed.

Lemma a_bytes_length (l : list remembered) : 65 * Z.of_nat (length l) <= a_bytes l.
Proof.
  induction l as [|a l IH]; [done|]. cbn [length a_bytes]. pose proof (strlen_nonneg (a_id a)).
  pose proof (strlen_nonneg (a_dsml a)). unfold id_weight, dsml_weight, sizeof_entry, sizeof_block.
  destruct (knows _ _); lia.
Qed.

Lemma known_weight (d : bytes) (l : list remembered) : knows d l = true -> dsml_weight d <= a_bytes l.
Proof.
  assert (forall s, 0 < id_weight s /\ 0 < dsml_weight s) as Hpos.
  { intros s. unfold id_weight, dsml_weight, sizeof_entry, sizeof_block. pose proof (strlen_nonneg s). lia. }
  induction l as [|a l IH]; [done|]. rewrite knows_cons. cbn [a_bytes]. pose proof (Hpos (a_id a)).
  pose proof (Hpos (a_dsml a)). pose proof (a_bytes_length l). intros [E|E]%orb_true_iff.
  - apply str_eqb_eq in E as <-. destruct (knows _ l); [specialize (IH eq_refl)|]; lia.
  - specialize (IH E). destruct (knows (a_dsml a) l); lia.
Qed.

(** ** The representation *)

(** An entry of the heap holds a remembered call. *)
Definition holds (st : tm_state) (p : positive) (a : remembered) : Prop :=
  exists b k, core st !! p = Some (ECore (a_id a) (Some b) (id_weight (a_id a)) (a_source a)) /\
    blks st !! b = Some k /\ b_dsml k = a_dsml a.

(** A block, the chain of its entries and their count. *)
Definition block_ok (st : tm_state) (b : positive) (k : tool_memory_block) : Prop :=
  b_len k = strlen (b_dsml k) /\ b_bytes k = dsml_weight (b_dsml k) /\ b_dsml k <> [] /\
  exists qs, chain st (b_entries k) qs /\ qs <> [] /\ b_refs k = Z.of_nat (length qs) /\
    forall p, p ∈ qs <-> exists c, core st !! p = Some c /\ c_block c = Some b.

(** The state [st] keeps the calls [l] in the entries [ps]. *)
Record inv (st : tm_state) (l : list remembered) (ps : list positive) : Prop := Inv {
  i_list : dlist st ps;
  i_holds : Forall2 (holds st) ps l;
  i_dom : forall p c, core st !! p = Some c -> p ∈ ps;
  i_id : exists t, by_id (mem st) = Some t /\
    forall id p, t !! id = Some p <-> exists c, core st !! p = Some c /\ c_id c = id;
  i_block : exists t, by_block (mem st) = Some t /\
    forall d b, t !! d = Some b <-> exists k, blks st !! b = Some k /\ b_dsml k = d;
  i_chains : forall b k, blks st !! b = Some k -> block_ok st b k;
  i_names : Forall (fun a => a_id a <> []) l;
  i_entries : entries (mem st) = Z.of_nat (length l);
  i_bytes : mbytes (mem st) = a_bytes l
}.

(** The budget of ids and bytes stays the same. *)
Definition same_limits (st st' : tm_state) : Prop :=
  max_entries (mem st') = max_entries (mem st) /\ max_bytes (mem st') = max_bytes (mem st).

Lemma core_lookup (st : tm_state) (p : positive) (c : ecore) : core st !! p = Some c ->
  exists x, ents st !! p = Some x /\ core_of x = c.
Proof. apply view_lookup. Qed.

Lemma same_core_lookup (st st' : tm_state) (p : positive) (x : tool_memory_entry) : core st' = core st ->
  ents st !! p = Some x -> exists y, ents st' !! p = Some y /\ core_of y = core_of x.
Proof. intros Hc Hx. apply core_lookup. rewrite Hc. by apply view_some. Qed.

Lemma holds_frame (st st' : tm_state) (p : positive) (a : remembered) :
  core st' !! p = core st !! p ->
  (forall b k, blks st !! b = Some k -> (exists c, core st !! p = Some c /\ c_block c = Some b) ->
     exists k', blks st' !! b = Some k' /\ b_dsml k' = b_dsml k) ->
  holds st p a -> holds st' p a.
Proof.
  intros Hc Hb (b & k & H1 & H2 & H3). destruct (Hb b k H2) as (k' & H4 & H5); [by eexists|].
  exists b, k'. rewrite Hc. split; [done|]. split; [done|]. congruence.
Qed.

(** ** Removing an entry *)

(** The counters stay far inside [int]. *)
Definition moderate (l : list remembered) : Prop := a_bytes l <= 2 ^ 37.

Lemma moderate_length (l : list remembered) : moderate l -> Z.of_nat (length l) < INT_MAX.
Proof. unfold moderate, INT_MAX. pose proof (a_bytes_length l). lia. Qed.

Lemma int_step_ok (z : Z) : INT_MIN <= z <= INT_MAX -> int_step z = Ok z.
Proof.
  intros H. unfold int_step. by rewrite (proj2 (Z.leb_le _ _)), (proj2 (Z.leb_le _ _)) by lia.
Qed.

Lemma dlist_delete (st : tm_state) (m : tool_memory) (bl : gmap positive tool_memory_block) (ps : list positive) (e : positive) :
  dlist st ps -> e ∉ ps -> tm_head m = tm_head (mem st) -> tm_tail m = tm_tail (mem st) ->
  dlist (TmState m (delete e (ents st)) bl) ps.
Proof.
  intros (Hnd & HN & HP & Hh & Ht) He H1 H2. unfold dlist, nxt, prv. simpl. rewrite !fmap_delete, H1, H2.
  split; [done|]. split; [|split; [|done]].
  - eapply nseg_ext; [|exact HN]. intros p Hp. apply lookup_delete_ne. congruence.
  - eapply pseg_ext; [|exact HP]. intros p Hp. apply lookup_delete_ne. congruence.
Qed.

(** Dropping one reference of a block. *)
Definition block_left (bl : gmap positive tool_memory_block) (b : positive) (k : tool_memory_block) (qs : list positive)
    : gmap positive tool_memory_block :=
  match qs with
  | [] => delete b bl
  | _ => <[b := k <| b_refs := Z.of_nat (length qs) |>]> bl
  end.

Lemma release_ok (st : tm_state) (b : positive) (k : tool_memory_block) (qs : list positive) :
  blks st !! b = Some k -> b_refs k = Z.of_nat (length qs) + 1 -> Z.of_nat (length qs) < INT_MAX ->
  exists m, tool_memory_release_block_locked st (Some b) = Ok (TmState m (ents st) (block_left (blks st) b k qs)) /\
    m = match qs with
        | [] => drop_bytes ((mem st) <| by_block ::= fmap (delete (b_dsml k)) |>) (b_bytes k)
        | _ => mem st
        end.
Proof.
  intros Hk Hr Hlen. unfold tool_memory_release_block_locked. rewrite (block_get _ _ _ Hk).
  rewrite int_step_ok by (unfold INT_MIN, INT_MAX in *; lia). rewrite (set_block_ok _ _ _ _ Hk).
  replace (b_refs k - 1) with (Z.of_nat (length qs)) by lia.
  destruct qs as [|q qs]; cbn [length block_left].
  - change (0 <? Z.of_nat 0) with false. cbn iota.
    erewrite block_get by (simpl; apply lookup_insert_eq). eexists. split; [|done].
    unfold free_block, set_field. cbn [mem ents blks]. by rewrite delete_insert_eq.
  - rewrite (proj2 (Z.ltb_lt _ _)) by lia. eexists. split; [|done]. by destruct st.
Qed.

(** The steps of a removal in terms of the fields: what is left behind. *)
Lemma remove_run (st : tm_state) (ps1 ps2 qs1 qs2 : list positive) (e b : positive) (k : tool_memory_block) (c : ecore) :
  dlist st (ps1 ++ e :: ps2) -> core st !! e = Some c -> c_block c = Some b -> blks st !! b = Some k ->
  chain st (b_entries k) (qs1 ++ e :: qs2) -> b_refs k = Z.of_nat (length (qs1 ++ e :: qs2)) -> b_refs k <= INT_MAX ->
  let qs := qs1 ++ qs2 in
  let k' := k <| b_entries := first qs None |> in
  exists st', tool_memory_remove_entry_locked st (Some e) = Ok st' /\
    dlist st' (ps1 ++ ps2) /\ core st' = delete e (core st) /\ blks st' = block_left (<[b := k']> (blks st)) b k' qs /\
    chain st' (first qs None) qs /\ (forall p, p ∉ qs1 ++ e :: qs2 -> bnx st' !! p = bnx st !! p) /\
    let m := drop_bytes (mem st) (c_bytes c) in
    let m := m <| entries := if 0 <? entries m then entries m - 1 else entries m |> in
    let m := match qs with [] => drop_bytes (m <| by_block ::= fmap (delete (b_dsml k)) |>) (b_bytes k) | _ => m end in
    mem st' = m <| by_id ::= fmap (delete (c_id c)) |>
                <| tm_head := first (ps1 ++ ps2) None |> <| tm_tail := lastp None (ps1 ++ ps2) |>.
Proof.
  intros Hd Hc Hcb Hk Hch Hr Hmax qs k'. cbn [tool_memory_remove_entry_locked].
  destruct (core_lookup _ _ _ Hc) as (x & Hx & Ex). rewrite (entry_ok _ _ _ Hx).
  assert (e_id x = c_id c /\ e_block x = Some b /\ e_bytes x = c_bytes c) as (Eid & Eb & Ew).
  { rewrite <- Ex, <- Hcb, <- Ex. done. }
  set (st1 := st <| mem ::= _ |>).
  assert (dlist st1 (ps1 ++ e :: ps2)) as Hd1 by exact Hd.
  destruct (unlink_ok st1 ps1 ps2 e Hd1) as (st2 & -> & Hd2 & (C2 & B2 & K2 & M2)). rewrite Eb.
  change (core st1) with (core st) in C2. change (bnx st1) with (bnx st) in B2. change (blks st1) with (blks st) in K2.
  assert (blks st2 !! b = Some k) as Hk2 by (by rewrite K2).
  assert (chain st2 (b_entries k) (qs1 ++ e :: qs2)) as Hch2 by (unfold chain; rewrite B2; exact Hch).
  destruct (block_unlink_ok st2 b e k qs1 qs2 Hk2 Hch2) as (st3 & -> & (C3 & P3 & N3 & M3) & K3 & Hch3 & Hbn3).
  fold qs k' in K3, Hch3. 
  set (st4 := st3 <| mem ::= _ |>). set (st5 := st4 <| mem ::= _ |>).
  assert (blks st5 !! b = Some k') as Hk5 by (change (blks st5) with (blks st3); rewrite K3; apply lookup_insert_eq).
  assert (Z.of_nat (length (qs1 ++ e :: qs2)) = Z.of_nat (length qs) + 1) as Hlen.
  { unfold qs. rewrite !length_app. simpl. lia. }
  destruct (release_ok st5 b k' qs Hk5) as (m & -> & Hm); [simpl; lia|lia|].
  eexists. split; [done|]. unfold free_entry. simpl.
  assert ((e ∉ ps1 ++ ps2) /\ (e ∉ qs)) as [He Heq].
  { destruct Hd as [Hnd _], Hch as [Hnd' _]. rewrite <- Permutation_middle in Hnd, Hnd'.
    apply NoDup_cons in Hnd as [? _], Hnd' as [? _]. done. }
  clearbody qs.
  assert (mem st5 = (mem st5) <| tm_head := first (ps1 ++ ps2) None |> <| tm_tail := lastp None (ps1 ++ ps2) |>) as M5.
  { subst st5 st4. simpl. rewrite M3. destruct Hd2 as (_ & _ & _ & Hh & Ht). rewrite <- Hh, <- Ht.
    by destruct (mem st2). }
  split; [|split; [|split; [|split; [|split]]]].
  - apply (dlist_delete st5); [|done| |].
    + destruct Hd2 as (? & HN & HP & Hh & Ht). repeat split; [done| | | |].
      * rewrite <- N3 in HN. exact HN.
      * rewrite <- P3 in HP. exact HP.
      * rewrite M5. done.
      * rewrite M5. done.
    + rewrite Hm. by destruct qs.
    + rewrite Hm. by destruct qs.
  - unfold core. simpl. rewrite fmap_delete. fold (core st3). by rewrite C3, C2.
  - by rewrite K3, K2.
  - destruct Hch3 as (? & _ & Hn). split; [done|]. split; [done|]. unfold bnx. simpl. rewrite fmap_delete.
    eapply nseg_ext; [|exact Hn]. intros p Hp. apply lookup_delete_ne. congruence.
  - intros p Hp. unfold bnx. simpl. rewrite fmap_delete, lookup_delete_ne by set_solver. fold (bnx st3).
    by rewrite Hbn3, B2 by done.
  - rewrite Hm. subst st5 st4. simpl. rewrite M3, M2. subst st1. simpl. destruct Hd2 as (_ & _ & _ & Hh & Ht).
    rewrite Hh, Ht, Eid, Ew. destruct (mem st). destruct qs; reflexivity.
Qed.

Lemma holds_of_entry (st : tm_state) (l : list remembered) (ps : list positive) (p : positive) :
  Forall2 (holds st) ps l -> p ∈ ps -> exists a, a ∈ l /\ holds st p a.
Proof.
  intros H [i Hi]%list_elem_of_lookup. destruct (Forall2_lookup_l _ _ _ _ _ H Hi) as (a & Ha & Hp).
  exists a. split; [by eapply list_elem_of_lookup_2|done].
Qed.

Lemma entry_of_holds (st : tm_state) (l : list remembered) (ps : list positive) (a : remembered) :
  Forall2 (holds st) ps l -> a ∈ l -> exists p, p ∈ ps /\ holds st p a.
Proof.
  intros H [i Hi]%list_elem_of_lookup. destruct (Forall2_lookup_r _ _ _ _ _ H Hi) as (p & Hp & Ha).
  exists p. split; [by eapply list_elem_of_lookup_2|done].
Qed.

Lemma same_text_same_block (st : tm_state) (l : list remembered) (ps : list positive) (b b' : positive) (k k' : tool_memory_block) :
  inv st l ps -> blks st !! b = Some k -> blks st !! b' = Some k' -> b_dsml k = b_dsml k' -> b = b'.
Proof.
  intros Hi Hb Hb' E. destruct (i_block _ _ _ Hi) as (t & _ & Ht).
  assert (t !! b_dsml k = Some b) as H1 by (apply Ht; eauto).
  assert (t !! b_dsml k = Some b') as H2 by (apply Ht; eauto). congruence.
Qed.

(** The text of a block is known to other entries exactly when they share it. *)
Lemma knows_sharers (st : tm_state) (l1 l2 : list remembered) (ps1 ps2 qs1 qs2 : list positive) (a : remembered)
    (e b : positive) (k : tool_memory_block) :
  inv st (l1 ++ a :: l2) (ps1 ++ e :: ps2) -> length ps1 = length l1 -> blks st !! b = Some k -> b_dsml k = a_dsml a ->
  NoDup (qs1 ++ e :: qs2) ->
  (forall p, p ∈ qs1 ++ e :: qs2 <-> exists c, core st !! p = Some c /\ c_block c = Some b) ->
  knows (a_dsml a) (l1 ++ l2) = match qs1 ++ qs2 with [] => false | _ => true end.
Proof.
  intros Hi Hlen Hk Hd Hnd Hq.
  assert (Forall2 (holds st) (ps1 ++ ps2) (l1 ++ l2)) as Hh.
  { pose proof (i_holds _ _ _ Hi) as Hh. apply Forall2_app_inv in Hh as [H1 H2]; [|done].
    apply Forall2_app; [done|]. by inversion H2. }
  assert ((e ∉ ps1 ++ ps2) /\ (e ∉ qs1 ++ qs2)) as [He Heq].
  { destruct (i_list _ _ _ Hi) as [Hn _]. rewrite <- Permutation_middle in Hn, Hnd.
    apply NoDup_cons in Hn as [? _], Hnd as [? _]. done. }
  destruct (qs1 ++ qs2) as [|q qs] eqn:E.
  - apply not_true_iff_false. intros (a' & Ha' & Hda)%knows_spec.
    destruct (entry_of_holds _ _ _ _ Hh Ha') as (p & Hp & b' & k' & Hc & Hk' & Hd').
    assert (b' = b) as -> by (eapply same_text_same_block; [done..|]; congruence).
    assert (p ∈ qs1 ++ e :: qs2) as Hin by (apply Hq; eauto).
    rewrite <- Permutation_middle, E in Hin. apply list_elem_of_singleton in Hin as ->. done.
  - apply knows_spec.
    assert (q ∈ qs1 ++ e :: qs2) as Hin by (rewrite <- Permutation_middle, E; set_solver).
    assert (q <> e) as Hne by set_solver.
    apply Hq in Hin as (c & Hc & Hcb). pose proof (i_dom _ _ _ Hi _ _ Hc) as Hps.
    assert (q ∈ ps1 ++ ps2) as Hps' by set_solver.
    destruct (holds_of_entry _ _ _ _ Hh Hps') as (a' & Ha' & b' & k' & Hc' & Hk' & Hd').
    exists a'. split; [done|]. rewrite Hc in Hc'. injection Hc' as ->. simpl in Hcb. congruence.
Qed.

Lemma drop_bytes_exact (m : tool_memory) (n : Z) : n <= mbytes m -> drop_bytes m n = m <| mbytes := mbytes m - n |>.
Proof. intros H. unfold drop_bytes. by rewrite (proj2 (Z.leb_le _ _)). Qed.

Lemma dsml_weight_pos (d : bytes) : 0 < dsml_weight d.
Proof. unfold dsml_weight, sizeof_block. pose proof (strlen_nonneg d). lia. Qed.

Lemma id_weight_pos (d : bytes) : 0 < id_weight d.
Proof. unfold id_weight, sizeof_entry. pose proof (strlen_nonneg d). lia. Qed.

Lemma a_bytes_nonneg (l : list remembered) : 0 <= a_bytes l.
Proof. pose proof (a_bytes_length l). lia. Qed.

Lemma Forall2_impl_in {A C} (P Q : A -> C -> Prop) (l : list A) (k : list C) :
  Forall2 P l k -> (forall x y, x ∈ l -> P x y -> Q x y) -> Forall2 Q l k.
Proof.
  induction 1 as [|x y l k Hxy _ IH]; intros HQ; constructor.
  - apply HQ; [set_solver|done].
  - apply IH. intros u v Hu. apply HQ. set_solver.
Qed.

(** The maps lose exactly the removed keys. *)
Lemma id_map_delete (st st' : tm_state) (l : list remembered) (ps : list positive) (e : positive) (c : ecore) :
  inv st l ps -> core st !! e = Some c -> core st' = delete e (core st) ->
  by_id (mem st') = delete (c_id c) <$> by_id (mem st) ->
  exists t, by_id (mem st') = Some t /\
    forall id p, t !! id = Some p <-> exists c, core st' !! p = Some c /\ c_id c = id.
Proof.
  intros Hi Hc Hc' Hm. destruct (i_id _ _ _ Hi) as (t & Ht & Hid). rewrite Ht in Hm.
  exists (delete (c_id c) t). split; [done|]. intros id p. rewrite lookup_delete_Some, Hid, Hc'. split.
  - intros (Hne & c0 & H1 & H2). exists c0. split; [|done]. apply lookup_delete_Some. split; [|done].
    intros ->. congruence.
  - intros (c0 & [H1 H2]%lookup_delete_Some & H3). split; [|eauto]. intros Heq.
    assert (t !! id = Some p) as E1 by (apply Hid; eauto).
    assert (t !! id = Some e) as E2 by (apply Hid; eauto). congruence.
Qed.

(** Chains of other blocks do not notice the removal. *)
Lemma block_ok_frame (st st' : tm_state) (b : positive) (k : tool_memory_block) (touched : list positive) :
  block_ok st b k ->
  (forall p c, p ∈ touched -> core st !! p = Some c -> c_block c <> Some b) ->
  (forall p, p ∉ touched -> bnx st' !! p = bnx st !! p) ->
  (forall p c, c_block c = Some b -> core st' !! p = Some c <-> core st !! p = Some c) ->
  block_ok st' b k.
Proof.
  intros (H1 & H2 & H3 & qs & (Hnd & Hc & Hn) & Hne & Hr & Hq) H0 Hbn Hcore.
  split; [done|]. split; [done|]. split; [done|]. exists qs. split; [|split; [done|split; [done|]]].
  - split; [done|]. split; [done|]. eapply nseg_ext; [|exact Hn]. intros p Hp. apply Hbn. intros Hp0.
    apply Hq in Hp as (c & Hc' & Hb'). by eapply H0.
  - intros p. rewrite Hq. split; intros (c & Hc0 & Hb0); exists c; split; try done; by apply Hcore.
Qed.

Lemma remove_ok (st : tm_state) (l1 l2 : list remembered) (ps1 ps2 : list positive) (a : remembered) (e : positive) :
  inv st (l1 ++ a :: l2) (ps1 ++ e :: ps2) -> length ps1 = length l1 -> moderate (l1 ++ a :: l2) ->
  exists st', tool_memory_remove_entry_locked st (Some e) = Ok st' /\ inv st' (l1 ++ l2) (ps1 ++ ps2) /\ same_limits st st'.
Proof.
  intros Hi Hlen Hmod.
  pose proof (i_holds _ _ _ Hi) as Hh. apply Forall2_app_inv in Hh as [Hh1 Hh2]; [|done].
  inversion Hh2 as [|? ? ? ? (b & k & Hc & Hk & Hd) Hh3]; subst. clear Hh2.
  destruct (i_chains _ _ _ Hi b k Hk) as (Hkl & Hkb & Hkn & qs & Hch & Hqne & Hr & Hq).
  assert (e ∈ qs) as Heq by (apply Hq; eauto).
  apply list_elem_of_split in Heq as (qs1 & qs2 & ->).
  assert (length (qs1 ++ e :: qs2) <= length (l1 ++ a :: l2))%nat as Hql.
  { rewrite <- (Forall2_length _ _ _ (i_holds _ _ _ Hi)). apply submseteq_length, NoDup_submseteq; [by destruct Hch|].
    intros p (c & Hp & _)%Hq. by eapply (i_dom _ _ _ Hi). }
  pose proof (moderate_length _ Hmod) as Hml.
  pose proof (proj1 (i_list _ _ _ Hi)) as Hnd.
  destruct (remove_run st ps1 ps2 qs1 qs2 e b k _ (i_list _ _ _ Hi) Hc eq_refl Hk Hch Hr) as
    (st' & Hrun & Hd' & Hc' & Hb' & Hch' & Hbn & Hm); [unfold INT_MAX in *; lia|].
  exists st'. split; [done|]. cbn [c_bytes c_id] in Hm.
  assert ((e ∉ ps1 ++ ps2) /\ NoDup (ps1 ++ ps2)) as [He Hndp].
  { rewrite <- Permutation_middle in Hnd. by apply NoDup_cons in Hnd. }
  pose proof (knows_sharers _ _ _ _ _ qs1 qs2 _ _ _ _ Hi Hlen Hk Hd (proj1 Hch) Hq) as Hkn'.
  pose proof (a_bytes_middle l1 l2 a) as Hbytes. pose proof (i_bytes _ _ _ Hi) as Hmb. pose proof (i_entries _ _ _ Hi) as Hen.
  pose proof (a_bytes_nonneg (l1 ++ l2)) as Hnn. pose proof (dsml_weight_pos (a_dsml a)) as Hw.
  rewrite Hbytes in Hmb. rewrite Hkn' in Hmb. rewrite Hd in Hkb.
  rewrite (drop_bytes_exact (mem st)) in Hm by (rewrite Hmb; destruct (qs1 ++ qs2); lia).
  cbn [mbytes entries] in Hm.
  assert (forall p, p ∈ ps1 ++ ps2 -> core st' !! p = core st !! p) as Hcore.
  { intros p Hp. rewrite Hc'. apply lookup_delete_ne. congruence. }
  assert (forall b0 k0, blks st !! b0 = Some k0 -> b0 <> b -> blks st' !! b0 = Some k0) as Hother.
  { intros b0 k0 H0 Hne. rewrite Hb'. unfold block_left. destruct (qs1 ++ qs2).
    - by rewrite lookup_delete_ne, lookup_insert_ne.
    - by rewrite !lookup_insert_ne. }
  split; [|unfold same_limits; rewrite Hm; by destruct (qs1 ++ qs2)].
  assert (forall p c, p <> e -> core st' !! p = Some c <-> core st !! p = Some c) as Hcore'.
  { intros p c Hp. by rewrite Hc', lookup_delete_ne. }
  assert (forall p, p ∈ qs1 ++ qs2 <-> exists c, core st' !! p = Some c /\ c_block c = Some b) as Hq'.
  { intros p. split.
    - intros Hp. assert (p <> e) as Hpe.
      { intros ->. pose proof (proj1 Hch) as Hn. rewrite <- Permutation_middle in Hn. by apply NoDup_cons in Hn as [? _]. }
      assert (p ∈ qs1 ++ e :: qs2) as (c & H1 & H2)%Hq by set_solver. exists c. split; [by apply Hcore'|done].
    - intros (c & H1 & H2). rewrite Hc' in H1. apply lookup_delete_Some in H1 as [Hpe H1].
      assert (p ∈ qs1 ++ e :: qs2) as Hp by (apply Hq; eauto). set_solver. }
  constructor.
  - done.
  - assert (Forall2 (holds st) (ps1 ++ ps2) (l1 ++ l2)) as H12 by (by apply Forall2_app).
    eapply Forall2_impl_in; [exact H12|]. intros p a' Hp Ha'. eapply holds_frame; [by apply Hcore| |exact Ha'].
    intros b0 k0 H0 (c & Hc0 & Hcb). destruct (decide (b0 = b)) as [->|Hne]; [|eauto].
    assert (p ∈ qs1 ++ qs2) as Hpq by (apply Hq'; exists c; split; [|done]; by rewrite Hcore).
    rewrite Hb'. unfold block_left. destruct (qs1 ++ qs2); [set_solver|]. eexists. split; [apply lookup_insert_eq|].
    simpl. congruence.
  - intros p c Hp. rewrite Hc' in Hp. apply lookup_delete_Some in Hp as [Hpe Hp].
    apply (i_dom _ _ _ Hi) in Hp. set_solver.
  - eapply (id_map_delete st); [exact Hi|exact Hc|done|]. rewrite Hm. by destruct (qs1 ++ qs2).
  - destruct (i_block _ _ _ Hi) as (t & Ht & Htb). rewrite Hm, Hb'. unfold block_left.
    destruct (qs1 ++ qs2) as [|q qs] eqn:Eqs.
    + exists (delete (b_dsml k) t). split; [simpl; by rewrite Ht|]. intros d b'.
      rewrite lookup_delete_Some, Htb. split.
      * intros (Hne & k' & H1 & H2). exists k'. split; [|done].
        rewrite lookup_delete_ne, lookup_insert_ne; [done|congruence..].
      * intros (k' & H1 & H2). apply lookup_delete_Some in H1 as [Hbb H1]. rewrite lookup_insert_ne in H1 by done.
        split; [|eauto]. intros Heq. apply Hbb. apply (same_text_same_block st _ _ b b' k k' Hi Hk H1). congruence.
    + exists t. split; [simpl; by rewrite Ht|]. intros d b'. rewrite Htb, insert_insert_eq. split.
      * intros (k' & H1 & H2). destruct (decide (b' = b)) as [->|Hne].
        -- eexists. split; [apply lookup_insert_eq|]. simpl. congruence.
        -- exists k'. split; [by rewrite lookup_insert_ne|done].
      * intros (k' & H1 & H2). destruct (decide (b' = b)) as [->|Hne].
        -- rewrite lookup_insert_eq in H1. injection H1 as <-. exists k. done.
        -- rewrite lookup_insert_ne in H1 by done. eauto.
  - intros b0 k0 H0. destruct (decide (b0 = b)) as [->|Hne].
    + rewrite Hb' in H0. unfold block_left in H0. destruct (qs1 ++ qs2) as [|q qs] eqn:Eqs.
      { by rewrite lookup_delete_eq in H0. }
      rewrite lookup_insert_eq in H0. injection H0 as <-. split; [done|]. split; [by rewrite <- Hd in Hkb|]. split; [done|].
      exists (q :: qs). split; [done|]. split; [done|]. split; [done|]. done.
    + assert (blks st !! b0 = Some k0) as H0'.
      { rewrite Hb' in H0. unfold block_left in H0. destruct (qs1 ++ qs2).
        - rewrite lookup_delete_ne, lookup_insert_ne in H0; done.
        - rewrite !lookup_insert_ne in H0; done. }
      eapply (block_ok_frame st); [exact (i_chains _ _ _ Hi _ _ H0')| |exact Hbn|].
      * intros p c Hp Hpc Hcb. apply Hq in Hp as (c' & Hc'' & Hcb'). congruence.
      * intros p c Hcb. destruct (decide (p = e)) as [->|Hpe]; [|by apply Hcore'].
        split; intros H1; [by rewrite Hc', lookup_delete_eq in H1|].
        rewrite Hc in H1. injection H1 as <-. simpl in Hcb. congruence.
  - pose proof (i_names _ _ _ Hi) as Hn. apply Forall_app in Hn as [? Hn]. apply Forall_app. split; [done|].
    by inversion Hn.
  - assert (entries (mem st') = entries (mem st) - 1) as ->.
    { rewrite Hm. assert (0 <? entries (mem st) = true) as E by (apply Z.ltb_lt; rewrite Hen, length_app; simpl; lia).
      simpl. destruct (qs1 ++ qs2); simpl; by rewrite E. }
    rewrite Hen, !length_app. simpl. lia.
  - rewrite Hm. destruct (qs1 ++ qs2).
    + rewrite drop_bytes_exact; simpl; rewrite ?Hmb, ?Hkb; lia.
    + simpl. rewrite Hmb. lia.
Qed.

(** ** Reordering *)

(** A state that differs in the links of the list, stamps and clock only. *)
Definition order_frame (st st' : tm_state) : Prop :=
  core st' = core st /\ bnx st' = bnx st /\ blks st' = blks st /\
  by_id (mem st') = by_id (mem st) /\ by_block (mem st') = by_block (mem st) /\
  entries (mem st') = entries (mem st) /\ mbytes (mem st') = mbytes (mem st) /\ same_limits st st'.

Lemma order_of_list (st st' : tm_state) : list_frame st st' -> order_frame st st'.
Proof. intros (E1 & E2 & E3 & E4). unfold order_frame, same_limits. rewrite E4. done. Qed.

Lemma order_frame_trans (a b c : tm_state) : order_frame a b -> order_frame b c -> order_frame a c.
Proof. unfold order_frame, same_limits. intros H1 H2. destruct_and!. repeat split; congruence. Qed.

Lemma holds_order (st st' : tm_state) (p : positive) (a : remembered) :
  order_frame st st' -> holds st p a -> holds st' p a.
Proof. intros (E1 & _ & E3 & _) (b & k & H). exists b, k. by rewrite E1, E3. Qed.

Lemma inv_reorder (st st' : tm_state) (l l' : list remembered) (ps ps' : list positive) :
  inv st l ps -> order_frame st st' -> dlist st' ps' -> Forall2 (holds st) ps' l' ->
  l' ≡ₚ l -> ps' ≡ₚ ps -> a_bytes l' = a_bytes l -> inv st' l' ps'.
Proof.
  intros Hi Hf Hd Hh Hl Hp Hb. pose proof Hf as (E1 & E2 & E3 & E4 & E5 & E6 & E7 & _). constructor.
  - done.
  - eapply Forall2_impl; [exact Hh|]. intros. by eapply holds_order.
  - intros p c. rewrite E1, Hp. apply (i_dom _ _ _ Hi).
  - rewrite E4, E1. apply (i_id _ _ _ Hi).
  - rewrite E5, E3. apply (i_block _ _ _ Hi).
  - intros b k Hk. rewrite E3 in Hk. pose proof (i_chains _ _ _ Hi b k Hk) as H. unfold block_ok, chain in *.
    by rewrite E1, E2.
  - rewrite Hl. apply (i_names _ _ _ Hi).
  - rewrite E6, (i_entries _ _ _ Hi). by rewrite Hl.
  - by rewrite E7, (i_bytes _ _ _ Hi).
Qed.

Lemma holds_split (st : tm_state) (l1 l2 : list remembered) (ps1 ps2 : list positive) (a : remembered) (e : positive) :
  Forall2 (holds st) (ps1 ++ e :: ps2) (l1 ++ a :: l2) -> length ps1 = length l1 ->
  Forall2 (holds st) ps1 l1 /\ holds st e a /\ Forall2 (holds st) ps2 l2.
Proof.
  intros H Hlen. apply Forall2_app_inv in H as [H1 H2]; [|done]. inversion H2. done.
Qed.

Lemma touch_ok (st : tm_state) (l1 l2 : list remembered) (ps1 ps2 : list positive) (a : remembered) (e : positive) :
  inv st (l1 ++ a :: l2) (ps1 ++ e :: ps2) -> length ps1 = length l1 ->
  exists st', tool_memory_touch st e = Ok st' /\ inv st' (a :: l1 ++ l2) (e :: ps1 ++ ps2) /\
    order_frame st st' /\ tm_head (mem st') = Some e.
Proof.
  intros Hi Hlen. pose proof (holds_split _ _ _ _ _ _ _ (i_holds _ _ _ Hi) Hlen) as (H1 & He & H2).
  assert (Forall2 (holds st) (e :: ps1 ++ ps2) (a :: l1 ++ l2)) as Hh by (constructor; [done|by apply Forall2_app]).
  destruct He as (b & k & Hc & _). apply core_lookup in Hc as (x & Hx & _).
  unfold tool_memory_touch. set (st1 := st <| mem ::= _ |>). assert (ents st1 !! e = Some x) as Hx1 by done.
  rewrite (set_entry_ok _ _ _ _ Hx1). set (st2 := st1 <| ents ::= _ |>).
  assert (order_frame st st2) as F2.
  { unfold order_frame, core, bnx, same_limits. simpl. repeat split; first [by eapply view_insert|done]. }
  assert (dlist st2 (ps1 ++ e :: ps2)) as D2.
  { destruct (i_list _ _ _ Hi) as (Hnd & HN & HP & Hhd & Htl). unfold dlist, nxt, prv. simpl.
    rewrite !(view_insert _ _ _ _ _ Hx) by done. done. }
  assert (forall st3, dlist st3 (e :: ps1 ++ ps2) -> order_frame st st3 ->
    inv st3 (a :: l1 ++ l2) (e :: ps1 ++ ps2) /\ order_frame st st3 /\ tm_head (mem st3) = Some e) as Hend.
  { intros st3 D3 F3. split; [|split; [done|by destruct D3 as (_ & _ & _ & -> & _)]].
    eapply (inv_reorder st); [exact Hi|done..| | |].
    - apply Permutation_middle.
    - apply Permutation_middle.
    - symmetry. apply a_bytes_middle. }
  destruct (bool_decide_reflect (tm_head (mem st2) = Some e)) as [Hhd|Hhd].
  - eexists. split; [done|]. apply Hend; [|done]. destruct ps1 as [|p ps1]; [done|].
    destruct D2 as (Hnd & _ & _ & Hhd' & _). rewrite Hhd' in Hhd. simpl in Hhd. injection Hhd as ->.
    apply NoDup_cons in Hnd as [Hnd _]. set_solver.
  - destruct (unlink_ok st2 ps1 ps2 e D2) as (st3 & -> & D3 & F3).
    assert ((e ∉ ps1 ++ ps2)) as Hne.
    { destruct D2 as [Hnd _]. rewrite <- Permutation_middle in Hnd. by apply NoDup_cons in Hnd as [? _]. }
    destruct (link_head_ok st3 (ps1 ++ ps2) e D3 Hne) as (st4 & -> & D4 & F4).
    { eapply (frame_some st2); [apply F3|]. simpl. by rewrite lookup_insert_eq. }
    eexists. split; [done|]. apply Hend; [done|]. eapply order_frame_trans; [exact F2|].
    eapply order_frame_trans; by apply order_of_list.
Qed.

(** ** Pruning *)

(** What the limits of a state admit. *)
Definition fits (st : tm_state) (l : list remembered) : Prop :=
  Z.of_nat (length l) <= tool_memory_max_entries (mem st) /\ a_bytes l <= tool_memory_max_bytes (mem st).

(** The longest recent part of [l] within the budget. *)
Definition longest_fit (st : tm_state) (l kept : list remembered) : Prop :=
  kept `prefix_of` l /\ fits st kept /\
  forall n, (length kept < n <= length l)%nat -> ~ fits st (take n l).

Lemma over_budget_spec (st : tm_state) (l : list remembered) (ps : list positive) : inv st l ps ->
  over_budget (mem st) = true <-> ~ fits st l.
Proof.
  intros Hi. unfold over_budget, fits. rewrite (i_entries _ _ _ Hi), (i_bytes _ _ _ Hi).
  rewrite orb_true_iff, !Z.ltb_lt. lia.
Qed.

Lemma fits_same (st st' : tm_state) (l : list remembered) : same_limits st st' -> fits st' l <-> fits st l.
Proof. intros [H1 H2]. unfold fits, tool_memory_max_entries, tool_memory_max_bytes. by rewrite H1, H2. Qed.

Lemma a_bytes_prefix (l1 l2 : list remembered) : a_bytes l1 <= a_bytes (l1 ++ l2).
Proof.
  induction l2 as [|a l2 IH]; [by rewrite app_nil_r|]. rewrite a_bytes_middle. pose proof (id_weight_pos (a_id a)).
  pose proof (dsml_weight_pos (a_dsml a)). destruct (knows _ _); lia.
Qed.

Lemma fits_nil (st : tm_state) : fits st [].
Proof.
  unfold fits, tool_memory_max_entries, tool_memory_max_bytes, DS4_TOOL_MEMORY_DEFAULT_MAX_IDS, DS4_TOOL_MEMORY_MAX_BYTES.
  simpl. destruct (Z.ltb_spec 0 (max_entries (mem st))), (Z.ltb_spec 0 (max_bytes (mem st))); lia.
Qed.

Lemma entries_size (st : tm_state) (l : list remembered) (ps : list positive) : inv st l ps ->
  length ps = length l /\ (length l <= size (ents st))%nat.
Proof.
  intros Hi. pose proof (Forall2_length _ _ _ (i_holds _ _ _ Hi)) as El. split; [done|]. rewrite <- El.
  destruct (i_list _ _ _ Hi) as [Hnd _]. rewrite <- size_dom, <- (size_list_to_set (C:=gset positive) ps) by done.
  apply subseteq_size. intros p [i Hip]%elem_of_list_to_set%list_elem_of_lookup.
  destruct (Forall2_lookup_l _ _ _ _ _ (i_holds _ _ _ Hi) Hip) as (a & _ & b & k & Hc & _).
  apply core_lookup in Hc as (x & Hx & _). apply elem_of_dom. eauto.
Qed.

(** The tail is the last entry, and removing it drops the oldest call. *)
Lemma remove_tail_ok (st : tm_state) (l : list remembered) (a : remembered) (ps : list positive) :
  inv st (l ++ [a]) ps -> moderate (l ++ [a]) ->
  exists e st' ps', tm_tail (mem st) = Some e /\ tool_memory_remove_entry_locked st (Some e) = Ok st' /\
    inv st' l ps' /\ same_limits st st'.
Proof.
  intros Hi Hmod. pose proof (proj1 (entries_size _ _ _ Hi)) as Hlen. rewrite length_app in Hlen. simpl in Hlen.
  destruct ps as [|e ps _] using rev_ind; [simpl in Hlen; lia|]. rewrite length_app in Hlen. simpl in Hlen.
  destruct (remove_ok st l [] ps [] a e Hi) as (st' & Hr & Hi' & Hs); [lia|done|]. rewrite !app_nil_r in Hi'.
  exists e, st', ps. split; [|done]. destruct (i_list _ _ _ Hi) as (_ & _ & _ & _ & ->). by rewrite lastp_app.
Qed.

Lemma moderate_prefix (l1 l2 : list remembered) : moderate (l1 ++ l2) -> moderate l1.
Proof. unfold moderate. pose proof (a_bytes_prefix l1 l2). lia. Qed.

Lemma prune_loop_ok (l : list remembered) : forall (fuel : nat) (st : tm_state) (ps : list positive),
  inv st l ps -> moderate l -> (length l < fuel)%nat ->
  exists st' kept ps', prune_loop fuel st = Ok st' /\ inv st' kept ps' /\ same_limits st st' /\ longest_fit st l kept.
Proof.
  induction l as [|a l IH] using rev_ind; intros fuel st ps Hi Hmod Hf; (destruct fuel as [|fuel]; [lia|]); cbn [prune_loop].
  - destruct (over_budget (mem st)) eqn:E; [by apply (over_budget_spec _ _ _ Hi) in E; pose proof (fits_nil st)|].
    exists st, [], ps. split; [done|]. split; [done|]. split; [done|]. split; [done|]. split; [apply fits_nil|].
    intros n. simpl. lia.
  - destruct (over_budget (mem st)) eqn:E.
    + apply (over_budget_spec _ _ _ Hi) in E.
      destruct (remove_tail_ok _ _ _ _ Hi Hmod) as (e & st1 & ps1 & -> & -> & Hi1 & Hs1).
      rewrite length_app in Hf. simpl in Hf.
      destruct (IH fuel st1 ps1 Hi1 (moderate_prefix _ _ Hmod)) as (st2 & kept & ps2 & -> & Hi2 & Hs2 & Hp & Hfit & Hmax); [lia|].
      exists st2, kept, ps2. split; [done|]. split; [done|].
      split; [destruct Hs1, Hs2; split; congruence|]. split; [by apply prefix_app_r|].
      split; [by apply (fits_same st st1)|]. intros n Hn. rewrite length_app in Hn. simpl in Hn.
      destruct (decide (n = length l + 1)%nat) as [->|Hne]; [by rewrite firstn_all2 by (rewrite length_app; simpl; lia)|].
      rewrite take_app_le by lia. rewrite <- (fits_same st st1) by done. apply Hmax. lia.
    + exists st, (l ++ [a]), ps. split; [done|]. split; [done|]. split; [done|]. split; [done|]. split.
      * destruct (Z.leb_spec (Z.of_nat (length (l ++ [a]))) (tool_memory_max_entries (mem st))),
          (Z.leb_spec (a_bytes (l ++ [a])) (tool_memory_max_bytes (mem st))); [done|..];
        exfalso; apply not_true_iff_false in E; apply E, (over_budget_spec _ _ _ Hi); unfold fits; lia.
      * intros n. lia.
Qed.

Lemma prune_ok (st : tm_state) (l : list remembered) (ps : list positive) : inv st l ps -> moderate l ->
  exists st' kept ps', tool_memory_prune_locked st = Ok st' /\ inv st' kept ps' /\ same_limits st st' /\ longest_fit st l kept.
Proof.
  intros Hi Hmod. unfold tool_memory_prune_locked. eapply prune_loop_ok; [done..|].
  pose proof (proj2 (entries_size _ _ _ Hi)). lia.
Qed.

(** ** Storing *)

Lemma stored_inv (st st' : tm_state) (l : list remembered) (ps : list positive) (a : remembered)
    (b e : positive) (k : tool_memory_block) (qs : list positive) :
  inv st l ps -> a_id a <> [] -> a_dsml a <> [] -> Forall (fun x => a_id x <> a_id a) l -> core st !! e = None ->
  b_dsml k = a_dsml a -> b_len k = strlen (a_dsml a) -> b_bytes k = dsml_weight (a_dsml a) ->
  b_refs k = Z.of_nat (length qs) -> chain st (b_entries k) qs ->
  (forall p, p ∈ qs <-> exists c, core st !! p = Some c /\ c_block c = Some b) ->
  (forall k', blks st !! b = Some k' -> k' = k) ->
  (exists t, by_block (mem st') = Some t /\
     forall d b', t !! d = Some b' <-> exists k', <[b := k]> (blks st) !! b' = Some k' /\ b_dsml k' = d) ->
  dlist st' (e :: ps) ->
  core st' = <[e := ECore (a_id a) (Some b) (id_weight (a_id a)) (a_source a)]> (core st) ->
  bnx st' = <[e := b_entries k]> (bnx st) ->
  blks st' = <[b := k <| b_entries := Some e |> <| b_refs := Z.of_nat (S (length qs)) |>]> (blks st) ->
  by_id (mem st') = <[a_id a := e]> <$> by_id (mem st) ->
  entries (mem st') = entries (mem st) + 1 -> mbytes (mem st') = a_bytes (a :: l) ->
  inv st' (a :: l) (e :: ps).
Proof.
  intros Hi Hid Hd Hfresh Hce Hkd Hkl Hkb Hkr Hch Hq Hold (tb & Htb & Htbs) Hdl Hc Hb Hbl Hm Hen Hby.
  set (k' := k <| b_entries := Some e |> <| b_refs := Z.of_nat (S (length qs)) |>) in *.
  assert (forall p c, p <> e -> core st' !! p = Some c <-> core st !! p = Some c) as Hcore.
  { intros p c Hp. by rewrite Hc, lookup_insert_ne. }
  assert (e ∉ qs) as Heqs by (intros (c & Hx & _)%Hq; congruence).
  constructor.
  - done.
  - constructor.
    + exists b, k'. rewrite Hc, Hbl, !lookup_insert_eq. done.
    + eapply Forall2_impl_in; [apply (i_holds _ _ _ Hi)|]. intros p x Hp Hx.
      assert (p <> e) as Hpe by (intros ->; destruct Hx as (? & ? & ? & _); congruence).
      eapply holds_frame; [by rewrite Hc, lookup_insert_ne| |exact Hx].
      intros b0 k0 H0 _. rewrite Hbl. destruct (decide (b0 = b)) as [->|Hne].
      * exists k'. rewrite lookup_insert_eq. split; [done|]. by rewrite (Hold _ H0).
      * exists k0. by rewrite lookup_insert_ne.
  - intros p c Hp. destruct (decide (p = e)) as [->|Hpe]; [set_solver|].
    apply Hcore, (i_dom _ _ _ Hi) in Hp; [set_solver|done].
  - destruct (i_id _ _ _ Hi) as (t & Ht & Hts). exists (<[a_id a := e]> t). split; [by rewrite Hm, Ht|].
    assert (t !! a_id a = None) as Hnew.
    { destruct (t !! a_id a) as [p|] eqn:E; [|done]. apply Hts in E as (c & Hpc & Hcid).
      destruct (holds_of_entry _ _ _ _ (i_holds _ _ _ Hi) (i_dom _ _ _ Hi _ _ Hpc)) as (x & Hx & ? & ? & Hc' & _).
      rewrite Hpc in Hc'. injection Hc' as ->. rewrite List.Forall_forall in Hfresh.
      exfalso. apply (Hfresh x); [by apply list_elem_of_In|done]. }
    intros i p. destruct (decide (i = a_id a)) as [->|Hne].
    + rewrite lookup_insert_eq. split.
      * intros [= <-]. eexists. by rewrite Hc, lookup_insert_eq.
      * intros (c & H1 & H2). destruct (decide (p = e)) as [->|Hpe]; [done|]. apply Hcore in H1; [|done].
        assert (t !! a_id a = Some p) as E by (apply Hts; eauto). congruence.
    + rewrite lookup_insert_ne by done. rewrite Hts. split; intros (c & H1 & H2); exists c; (split; [|done]).
      * apply Hcore; [|done]. intros ->. congruence.
      * destruct (decide (p = e)) as [->|Hpe]; [|by apply Hcore]. rewrite Hc, lookup_insert_eq in H1.
        injection H1 as <-. simpl in H2. congruence.
  - exists tb. split; [done|]. intros d b'. rewrite Htbs, Hbl. destruct (decide (b' = b)) as [->|Hne].
    + rewrite !lookup_insert_eq. split; intros (k0 & [= <-] & H2); eauto.
    + by rewrite !lookup_insert_ne.
  - intros b0 k0 H0. rewrite Hbl in H0. destruct (decide (b0 = b)) as [->|Hne].
    + rewrite lookup_insert_eq in H0. injection H0 as <-. split; [simpl; congruence|]. split; [simpl; congruence|].
      split; [simpl; congruence|]. exists (e :: qs). split; [|split; [done|split; [done|]]].
      * destruct Hch as (Hnd & Hce' & Hn). split; [by apply NoDup_cons|]. split; [done|]. split.
        -- by rewrite Hb, lookup_insert_eq, Hce'.
        -- eapply nseg_ext; [|exact Hn]. intros p Hp. rewrite Hb. apply lookup_insert_ne. congruence.
      * intros p. rewrite elem_of_cons, Hq. split.
        -- intros [->|(c & H1 & H2)]; [eexists; by rewrite Hc, lookup_insert_eq|]. exists c. split; [|done].
           apply Hcore; [|done]. intros ->. congruence.
        -- intros (c & H1 & H2). destruct (decide (p = e)) as [->|Hpe]; [by left|right]. exists c.
           split; [by apply Hcore|done].
    + rewrite lookup_insert_ne in H0 by done.
      eapply (block_ok_frame st st' b0 k0 [e]); [exact (i_chains _ _ _ Hi _ _ H0)|..].
      * intros p c ->%list_elem_of_singleton. congruence.
      * intros p Hp. rewrite Hb. apply lookup_insert_ne. set_solver.
      * intros p c Hcb. destruct (decide (p = e)) as [->|Hpe]; [|by apply Hcore].
        rewrite Hc, lookup_insert_eq, Hce. split; [intros [= <-]; simpl in Hcb; congruence|done].
  - constructor; [done|]. apply (i_names _ _ _ Hi).
  - rewrite Hen, (i_entries _ _ _ Hi). simpl. lia.
  - done.
Qed.

Section Storing.
Context {MA : Malloc}.

(** The block for a text: shared if the text is known, fresh and still without
    entries otherwise. *)
Lemma get_block_ok (st : tm_state) (l : list remembered) (ps : list positive) (dsml : bytes) :
  inv st l ps -> dsml <> [] -> moderate l -> a_bytes l + dsml_weight dsml < 2 ^ 64 ->
  exists b k qs m, tool_memory_get_block_locked st dsml = (b, TmState m (ents st) (<[b := k]> (blks st))) /\
    b_dsml k = dsml /\ b_len k = strlen dsml /\ b_bytes k = dsml_weight dsml /\
    b_refs k = Z.of_nat (length qs) /\ chain st (b_entries k) qs /\
    (forall p, p ∈ qs <-> exists c, core st !! p = Some c /\ c_block c = Some b) /\
    (forall k', blks st !! b = Some k' -> k' = k) /\
    (exists t, by_block m = Some t /\
       forall d b', t !! d = Some b' <-> exists k', <[b := k]> (blks st) !! b' = Some k' /\ b_dsml k' = d) /\
    mbytes m = a_bytes l + (if knows dsml l then 0 else dsml_weight dsml) /\
    m = (mem st) <| by_block := by_block m |> <| mbytes := mbytes m |>.
Proof.
  intros Hi Hd Hmod Hsz. destruct (i_block _ _ _ Hi) as (t & Ht & Htb).
  unfold tool_memory_get_block_locked, tool_memory_find_block_locked. rewrite Ht.
  destruct dsml as [|d0 ds] eqn:Ed; [done|]. rewrite <- Ed in *. clear Ed Hd.
  destruct (t !! dsml) as [b|] eqn:Eb.
  - pose proof Eb as (k & Hk & Hkd)%Htb. destruct (i_chains _ _ _ Hi b k Hk) as (H1 & H2 & _ & qs & Hch & Hne & Hr & Hq).
    exists b, k, qs, (mem st). rewrite Hkd in *. rewrite (insert_id _ _ _ Hk). destruct st as [m en bl]. simpl in *.
    split; [done|]. split; [done|]. split; [done|]. split; [done|]. split; [done|]. split; [done|]. split; [done|].
    split; [intros k' Hk'; congruence|]. split; [by exists t|]. split; [|by destruct m].
    pose proof (i_bytes _ _ _ Hi) as Hbm. simpl in Hbm.
    assert (knows dsml l = true) as ->; [|rewrite Hbm; lia].
    apply knows_spec. destruct qs as [|q qs]; [done|].
    assert (q ∈ q :: qs) as (c & Hc & Hcb)%Hq by set_solver. pose proof (i_dom _ _ _ Hi _ _ Hc) as Hps.
    destruct (holds_of_entry _ _ _ _ (i_holds _ _ _ Hi) Hps) as (a & Ha & b' & k' & Hc' & Hk' & Hkd').
    exists a. split; [done|]. rewrite Hc in Hc'. injection Hc' as ->. simpl in Hcb, Hk'. congruence.
  - set (b := malloc (dom (blks st))). assert (blks st !! b = None) as Hb.
    { apply not_elem_of_dom. apply malloc_fresh. }
    pose proof (a_bytes_nonneg l) as Hn. pose proof (dsml_weight_pos dsml) as Hw.
    change (strlen dsml + 1 + sizeof_block) with (dsml_weight dsml).
    assert (u64 (dsml_weight dsml) = dsml_weight dsml) as -> by (apply u64_small; unfold is_u64, UINT64_MAX; lia).
    eexists b, _, [], _. split; [done|]. simpl. split; [done|]. split; [done|]. split; [done|]. split; [done|].
    split; [split; [apply NoDup_nil_2|done]|]. split; [|split; [|split; [|split]]].
    + intros p. split; [by intros ?%elem_of_nil|]. intros (c & Hc & Hcb).
      destruct (holds_of_entry _ _ _ _ (i_holds _ _ _ Hi) (i_dom _ _ _ Hi _ _ Hc)) as (a & _ & b' & k' & Hc' & Hk' & _).
      rewrite Hc in Hc'. injection Hc' as ->. simpl in Hcb. congruence.
    + intros k'. rewrite Hb. done.
    + exists (<[dsml := b]> t). split; [by rewrite Ht|]. intros d b'. destruct (decide (d = dsml)) as [->|Hne].
      * rewrite lookup_insert_eq. split.
        -- intros [= <-]. eexists. by rewrite lookup_insert_eq.
        -- intros (k' & H1 & H2). destruct (decide (b' = b)) as [->|Hbb]; [done|].
           rewrite lookup_insert_ne in H1 by done. assert (t !! dsml = Some b') as E by (apply Htb; eauto). congruence.
      * rewrite lookup_insert_ne by done. rewrite Htb. split; intros (k' & H1 & H2).
        -- exists k'. split; [|done]. rewrite lookup_insert_ne; [done|]. intros <-. congruence.
        -- destruct (decide (b' = b)) as [->|Hbb].
           ++ rewrite lookup_insert_eq in H1. injection H1 as <-. simpl in H2. congruence.
           ++ rewrite lookup_insert_ne in H1 by done. eauto.
    + assert (knows dsml l = false) as ->; [|rewrite (i_bytes _ _ _ Hi); apply u64_small; unfold is_u64, UINT64_MAX; lia].
      apply not_true_iff_false. intros (a & Ha & Had)%knows_spec.
      destruct (entry_of_holds _ _ _ _ (i_holds _ _ _ Hi) Ha) as (p & _ & b' & k' & _ & Hk' & Hkd').
      assert (t !! dsml = Some b') as E by (apply Htb; exists k'; split; [done|congruence]). congruence.
    + by destruct (mem st).
Qed.

(** A new entry, before the list is pruned. *)
Lemma put_new_ok (st : tm_state) (l : list remembered) (ps : list positive) (id dsml : bytes) (source : tool_memory_source) :
  let a := Remembered id dsml source in
  inv st l ps -> id <> [] -> dsml <> [] -> Forall (fun x => a_id x <> id) l -> moderate (a :: l) ->
  exists st1 ps1, put_new st id dsml source = tool_memory_prune_locked st1 /\ inv st1 (a :: l) ps1 /\ same_limits st st1.
Proof.
  intros a Hi Hid Hd Hfresh Hmod.
  assert (moderate l /\ a_bytes l + dsml_weight dsml < 2 ^ 64 /\ id_weight id <= 2 ^ 37) as (Hmod' & Hsz & Hidw).
  { unfold moderate in *. cbn [a_bytes a a_id a_dsml] in Hmod. pose proof (id_weight_pos id). pose proof (dsml_weight_pos dsml).
    pose proof (a_bytes_nonneg l). pose proof (known_weight dsml l) as Hkw.
    destruct (knows dsml l); [specialize (Hkw eq_refl)|]; lia. }
  destruct (get_block_ok st l ps dsml Hi Hd Hmod' Hsz) as
    (b & k & qs & m & Hget & Hkd & Hkl & Hkb & Hkr & Hch & Hq & Hold & (tb & Htb & Htbs) & Hmb & Hm).
  unfold put_new. rewrite Hget. cbn [ents mem].
  set (e := malloc (dom (ents st))). set (now := u64 (clock m + 1)).
  assert (ents st !! e = None) as He by (apply not_elem_of_dom, malloc_fresh).
  assert (core st !! e = None) as Hce by (unfold core; by rewrite lookup_fmap, He).
  assert (e ∉ ps) as Heps.
  { intros Hin. destruct (holds_of_entry _ _ _ _ (i_holds _ _ _ Hi) Hin) as (? & _ & ? & ? & ? & _). congruence. }
  assert (e ∉ qs) as Heqs by (intros (c & Hc & _)%Hq; congruence).
  change (strlen id + 1 + sizeof_entry) with (id_weight id).
  assert (u64 (id_weight id) = id_weight id) as ->.
  { apply u64_small. unfold is_u64, UINT64_MAX. pose proof (id_weight_pos id). lia. }
  erewrite block_get by (simpl; apply lookup_insert_eq).
  assert (length qs <= length l)%nat as Hql.
  { rewrite <- (proj1 (entries_size _ _ _ Hi)). apply submseteq_length, NoDup_submseteq; [by destruct Hch|].
    intros p (c & Hp & _)%Hq. by eapply (i_dom _ _ _ Hi). }
  pose proof (moderate_length _ Hmod) as Hml. cbn [length] in Hml.
  rewrite int_step_ok by (rewrite Hkr; unfold INT_MIN, INT_MAX in *; lia).
  erewrite set_block_ok by (simpl; apply lookup_insert_eq).
  match goal with |- context [tool_memory_link_head ?s e] => set (st4 := s) end.
  destruct (i_list _ _ _ Hi) as (Hnd & HN & HP & Hhd & Htl).
  assert (dlist st4 ps) as D4.
  { split; [done|]. unfold nxt, prv. simpl. rewrite !fmap_insert. split; [|split].
    - eapply nseg_ext; [|exact HN]. intros p Hp. apply lookup_insert_ne. congruence.
    - eapply pseg_ext; [|exact HP]. intros p Hp. apply lookup_insert_ne. congruence.
    - by rewrite Hm. }
  destruct (link_head_ok st4 ps e D4 Heps) as (st5 & -> & D5 & (C5 & B5 & K5 & M5)).
  { simpl. by rewrite lookup_insert_eq. }
  assert (entries (mem st5) = Z.of_nat (length l)) as Hen5.
  { rewrite M5. simpl. rewrite Hm. apply (i_entries _ _ _ Hi). }
  assert (mbytes (mem st5) = mbytes m) as Hmb5 by (rewrite M5; done).
  rewrite Hen5. rewrite int_step_ok by (unfold INT_MIN, INT_MAX in *; lia).
  eexists _, (e :: ps). split; [reflexivity|]. split.
  - eapply (stored_inv st _ l ps a b e k qs); try done.
    + exists tb. split; [|done]. simpl. by rewrite M5.
    + transitivity (core st5); [reflexivity|]. rewrite C5. unfold core. simpl. by rewrite fmap_insert.
    + transitivity (bnx st5); [reflexivity|]. rewrite B5. unfold bnx. simpl. by rewrite fmap_insert.
    + simpl. rewrite K5. simpl. rewrite insert_insert_eq. by replace (b_refs k + 1) with (Z.of_nat (S (length qs))) by lia.
    + simpl. rewrite M5. simpl. by rewrite Hm.
    + simpl. by rewrite (i_entries _ _ _ Hi).
    + simpl. rewrite Hmb5, Hmb. unfold moderate in Hmod. cbn [a_bytes a a_id a_dsml] in *.
      pose proof (a_bytes_nonneg l). pose proof (id_weight_pos id). pose proof (dsml_weight_pos dsml).
      rewrite u64_small; [lia|]. unfold is_u64, UINT64_MAX. destruct (knows dsml l); lia.
  - unfold same_limits. simpl. rewrite M5. simpl. by rewrite Hm.
Qed.

(** What a store does to the list: the call comes first; putting the same text
    again from disk does not lose its origin. *)
Definition is_call (id : bytes) (a : remembered) : bool := str_eqb (a_id a) id.

Definition stored (id dsml : bytes) (source : tool_memory_source) (l : list remembered) : remembered :=
  match find (is_call id) l, source with
  | Some old, TOOL_MEMORY_DISK => if str_eqb (a_dsml old) dsml then Remembered id dsml (a_source old)
                                  else Remembered id dsml source
  | _, _ => Remembered id dsml source
  end.

Definition a_put (id dsml : bytes) (source : tool_memory_source) (l : list remembered) : list remembered :=
  stored id dsml source l :: List.filter (fun a => negb (is_call id a)) l.

Lemma find_entry_spec (st : tm_state) (l : list remembered) (ps : list positive) (id : bytes) :
  inv st l ps -> id <> [] ->
  match tool_memory_find_entry_locked st (Some id) with
  | Some e => exists l1 a l2 ps1 ps2, l = l1 ++ a :: l2 /\ ps = ps1 ++ e :: ps2 /\ length ps1 = length l1 /\
      a_id a = id /\ Forall (fun x => a_id x <> id) (l1 ++ l2)
  | None => Forall (fun x => a_id x <> id) l
  end.
Proof.
  intros Hi Hid. destruct (i_id _ _ _ Hi) as (t & Ht & Hts). unfold tool_memory_find_entry_locked. rewrite Ht.
  destruct id as [|c0 cs]; [done|]. cbn [nonempty]. set (id := c0 :: cs) in *.
  assert (forall p x, p ∈ ps -> holds st p x -> a_id x = id -> t !! id = Some p) as Hof.
  { intros p x _ (b & k & Hc & _) <-. apply Hts. eauto. }
  destruct (t !! id) as [e|] eqn:E.
  - pose proof E as (c & Hc & Hcid)%Hts. pose proof (i_dom _ _ _ Hi _ _ Hc) as Hin.
    apply list_elem_of_split in Hin as (ps1 & ps2 & ->). pose proof (i_holds _ _ _ Hi) as Hh.
    apply Forall2_app_inv_l in Hh as (l1 & l' & H1 & H2 & ->). inversion H2 as [|? a ? l2 Ha H2']; subst.
    exists l1, a, l2, ps1, ps2. split; [done|]. split; [done|]. split; [by eapply Forall2_length|].
    destruct Ha as (b & k & Hc' & _). rewrite Hc in Hc'. injection Hc' as ->. split; [done|].
    apply List.Forall_forall. intros x Hx%list_elem_of_In Hxid.
    destruct (entry_of_holds st (l1 ++ l2) (ps1 ++ ps2) x) as (p & Hp & Hpx); [by apply Forall2_app|done|].
    assert (p = e) as ->.
    { assert (Some e = Some p) as E' by (eapply Hof; [|exact Hpx|done]; set_solver). congruence. }
    destruct (i_list _ _ _ Hi) as [Hnd _]. rewrite <- Permutation_middle in Hnd. by apply NoDup_cons in Hnd as [? _].
  - apply List.Forall_forall. intros x Hx%list_elem_of_In Hxid.
    destruct (entry_of_holds _ _ _ _ (i_holds _ _ _ Hi) Hx) as (p & Hp & Hpx).
    by pose proof (Hof p x Hp Hpx Hxid).
Qed.

Lemma same_field {A} (f : ecore -> A) (m : gmap positive ecore) (e : positive) (c c' : ecore) :
  m !! e = Some c -> f c' = f c ->
  forall p v, (exists x, <[e := c']> m !! p = Some x /\ f x = v) <-> (exists x, m !! p = Some x /\ f x = v).
Proof.
  intros Hc Hf p v. destruct (decide (p = e)) as [->|Hne]; [|by rewrite lookup_insert_ne].
  rewrite lookup_insert_eq, Hc. split; intros (x & [= <-] & <-); eauto.
Qed.

(** Writing the origin of an entry. *)
Lemma set_source_ok (st : tm_state) (l1 l2 : list remembered) (ps1 ps2 : list positive) (a : remembered) (e : positive)
    (source : tool_memory_source) :
  inv st (l1 ++ a :: l2) (ps1 ++ e :: ps2) -> length ps1 = length l1 ->
  exists st', set_entry st e (fun x => x <| e_source := source |>) = Ok st' /\ same_limits st st' /\
    inv st' (l1 ++ Remembered (a_id a) (a_dsml a) source :: l2) (ps1 ++ e :: ps2).
Proof.
  intros Hi Hlen. destruct (holds_split _ _ _ _ _ _ _ (i_holds _ _ _ Hi) Hlen) as (H1 & (b & k & Hc & Hk & Hkd) & H2).
  destruct (core_lookup _ _ _ Hc) as (x & Hx & Ex). erewrite set_entry_ok by done. eexists. split; [done|]. split; [done|].
  set (st' := st <| ents ::= _ |>).
  assert (core st' = <[e := ECore (a_id a) (Some b) (id_weight (a_id a)) source]> (core st)) as Hc'.
  { unfold core. simpl. rewrite fmap_insert. f_equal. unfold core_of in *. simpl. congruence. }
  constructor.
  - destruct (i_list _ _ _ Hi) as (Hnd & HN & HP & Hhd & Htl). unfold dlist, nxt, prv. simpl.
    by rewrite !(view_insert _ _ _ _ _ Hx) by done.
  - assert (forall p y, p <> e -> holds st p y -> holds st' p y) as Hother.
    { intros p y Hpe (b' & k' & H). exists b', k'. by rewrite Hc', lookup_insert_ne. }
    destruct (i_list _ _ _ Hi) as [Hnd _]. apply NoDup_app in Hnd as (_ & H12 & [He2 _]%NoDup_cons).
    apply Forall2_app; [|constructor].
    + eapply Forall2_impl_in; [exact H1|]. intros p y Hp. apply Hother. intros ->. eapply H12; [done|]. set_solver.
    + exists b, k. by rewrite Hc', lookup_insert_eq.
    + eapply Forall2_impl_in; [exact H2|]. intros p y Hp. apply Hother. congruence.
  - intros p c. rewrite Hc'. destruct (decide (p = e)) as [->|Hne]; [set_solver|].
    rewrite lookup_insert_ne by done. apply (i_dom _ _ _ Hi).
  - destruct (i_id _ _ _ Hi) as (t & Ht & Hts). exists t. split; [done|]. intros i p. rewrite Hts, Hc'. symmetry.
    by eapply same_field.
  - apply (i_block _ _ _ Hi).
  - intros b0 k0 H0. destruct (i_chains _ _ _ Hi b0 k0 H0) as (E1 & E2 & E3 & qs & Hch & Hne & Hr & Hq).
    split; [done|]. split; [done|]. split; [done|]. exists qs. split; [|split; [done|split; [done|]]].
    + unfold chain, bnx. simpl. by rewrite (view_insert _ _ _ _ _ Hx).
    + intros p. rewrite Hq, Hc'. symmetry. by eapply same_field.
  - pose proof (i_names _ _ _ Hi) as Hn. apply Forall_app in Hn as [? Hn]. inversion Hn; subst.
    apply Forall_app. split; [done|]. by constructor.
  - simpl. rewrite (i_entries _ _ _ Hi), !length_app. done.
  - simpl. rewrite (i_bytes _ _ _ Hi), !a_bytes_middle. done.
Qed.

(** ** The operations on the list *)

(** After set-up, which happens on first use, the state keeps [l]. *)
Definition ready (st : tm_state) (l : list remembered) : Prop := exists ps, inv (tool_memory_init_locked st) l ps.

Lemma init_id (st : tm_state) (l : list remembered) (ps : list positive) : inv st l ps -> tool_memory_init_locked st = st.
Proof.
  intros Hi. destruct (i_id _ _ _ Hi) as (t & Ht & _), (i_block _ _ _ Hi) as (t' & Ht' & _).
  unfold tool_memory_init_locked. by rewrite Ht, Ht'.
Qed.

Lemma ready_inv (st : tm_state) (l : list remembered) (ps : list positive) : inv st l ps -> ready st l.
Proof. intros Hi. exists ps. by rewrite (init_id _ _ _ Hi). Qed.

Lemma init_limits (st : tm_state) : same_limits st (tool_memory_init_locked st).
Proof. unfold tool_memory_init_locked. by destruct (by_id (mem st)), (by_block (mem st)). Qed.

Lemma zero_ready (me mb : Z) : ready (tool_memory_zero me mb) [].
Proof.
  set (st := tool_memory_init_locked (tool_memory_zero me mb)).
  assert (forall p c, core st !! p <> Some c) as Hno.
  { intros p c Hc. apply core_lookup in Hc as (x & Hx & _).
    change (ents st) with (∅ : gmap positive tool_memory_entry) in Hx. by rewrite lookup_empty in Hx. }
  exists []. constructor; try done.
  - split; [apply NoDup_nil_2|done].
  - exists ∅. split; [done|]. intros id p. rewrite lookup_empty. split; [done|]. intros (c & Hc & _). by apply Hno in Hc.
  - exists ∅. split; [done|]. intros d b. rewrite lookup_empty. split; [done|]. intros (k & Hk & _). discriminate Hk.
Qed.

Lemma find_call_none (l : list remembered) (id : bytes) : Forall (fun x => a_id x <> id) l ->
  find (is_call id) l = None /\ List.filter (fun a => negb (is_call id a)) l = l.
Proof.
  induction 1 as [|x l Hx _ [IH1 IH2]]; [done|].
  assert (is_call id x = false) as E by (by apply str_eqb_neq). simpl. rewrite E. simpl. by rewrite IH1, IH2.
Qed.

Lemma find_call (l1 l2 : list remembered) (a : remembered) (id : bytes) :
  a_id a = id -> Forall (fun x => a_id x <> id) (l1 ++ l2) ->
  find (is_call id) (l1 ++ a :: l2) = Some a /\
  List.filter (fun a => negb (is_call id a)) (l1 ++ a :: l2) = l1 ++ l2.
Proof.
  intros Ha [H1 H2]%Forall_app. destruct (find_call_none l2 id H2) as [_ E2]. induction H1 as [|x l1 Hx _ [IH1 IH2]].
  - assert (is_call id a = true) as E by (by apply str_eqb_eq). simpl. rewrite E. simpl. by rewrite E2.
  - assert (is_call id x = false) as E by (by apply str_eqb_neq). simpl. rewrite E. simpl. by rewrite IH1, IH2.
Qed.

(** Room for one more call above the budget, far inside the counters. *)
Definition room (st : tm_state) (id dsml : bytes) : Prop :=
  tool_memory_max_bytes (mem st) + id_weight id + dsml_weight dsml <= 2 ^ 37.

Lemma same_block_ok (st : tm_state) (e : positive) (a : remembered) (dsml : bytes) :
  holds st e a -> (forall b k, blks st !! b = Some k -> b_len k = strlen (b_dsml k)) ->
  same_block st e dsml = Ok (str_eqb (a_dsml a) dsml).
Proof.
  intros (b & k & Hc & Hk & Hd) Hlen. destruct (core_lookup _ _ _ Hc) as (x & Hx & Ex). unfold same_block.
  assert (e_block x = Some b) as Hb by (change (e_block x) with (c_block (core_of x)); by rewrite Ex).
  rewrite (entry_ok _ _ _ Hx), Hb, (block_get _ _ _ Hk), (Hlen _ _ Hk), Hd. f_equal.
  destruct (str_eqb (a_dsml a) dsml) eqn:E; [|apply andb_false_r].
  apply str_eqb_eq in E as ->. by rewrite Z.eqb_refl.
Qed.

Lemma put_ok (st : tm_state) (l : list remembered) (id dsml : bytes) (source : tool_memory_source) :
  ready st l -> fits st l -> id <> [] -> dsml <> [] -> room st id dsml ->
  exists st' kept ps', tool_memory_put_locked st (Some id) (Some dsml) source = Ok st' /\ inv st' kept ps' /\
    same_limits st st' /\ longest_fit st (a_put id dsml source l) kept.
Proof.
  intros [ps Hi] [_ Hfit] Hid Hd Hroom. unfold room in Hroom.
  unfold tool_memory_put_locked. destruct id as [|c0 cs]; [done|]. destruct dsml as [|d0 ds]; [done|].
  cbn [nonempty]. set (id := c0 :: cs) in *. set (dsml := d0 :: ds) in *.
  pose proof (init_limits st) as Hlim. set (st0 := tool_memory_init_locked st) in *.
  pose proof (id_weight_pos id). pose proof (dsml_weight_pos dsml).
  assert (forall st1 x, same_limits st0 st1 -> (exists ps1, inv st1 x ps1) -> moderate x ->
    exists st' kept ps', tool_memory_prune_locked st1 = Ok st' /\ inv st' kept ps' /\ same_limits st st' /\ longest_fit st x kept) as Hend.
  { intros st1 x Hs [ps1 Hi1] Hm. destruct (prune_ok st1 x ps1 Hi1 Hm) as (st' & kept & ps' & E & Hi' & Hs' & Hp & Hf & Hmax).
    assert (same_limits st st1) as Hs1 by (destruct Hlim, Hs; split; congruence).
    exists st', kept, ps'. split; [done|]. split; [done|]. split; [destruct Hs1, Hs'; split; congruence|].
    split; [done|]. split; [by apply (fits_same st st1)|]. intros n Hn. rewrite <- (fits_same st st1) by done. by apply Hmax. }
  pose proof (find_entry_spec _ _ _ id Hi Hid) as Hfind.
  destruct (tool_memory_find_entry_locked st0 (Some id)) as [e|].
  - destruct Hfind as (l1 & a & l2 & ps1 & ps2 & -> & -> & Hlen & Haid & Hfr).
    destruct (find_call l1 l2 a id Haid Hfr) as [Hf1 Hf2]. unfold a_put, stored. rewrite Hf1, Hf2.
    destruct (holds_split _ _ _ _ _ _ _ (i_holds _ _ _ Hi) Hlen) as (_ & Ha & _).
    rewrite (same_block_ok st0 e a dsml Ha) by (intros b k Hk; by destruct (i_chains _ _ _ Hi b k Hk)).
    rewrite a_bytes_middle in Hfit. pose proof (a_bytes_nonneg (l1 ++ l2)). rewrite Haid in Hfit.
    destruct (str_eqb (a_dsml a) dsml) eqn:Ed.
    + apply str_eqb_eq in Ed. rewrite Ed in Hfit.
      assert (forall s, moderate (Remembered id dsml s :: l1 ++ l2)) as Hmod.
      { intros s. unfold moderate. cbn [a_bytes a_id a_dsml]. lia. }
      assert (forall st1 s, same_limits st0 st1 -> inv st1 (l1 ++ Remembered id dsml s :: l2) (ps1 ++ e :: ps2) ->
        exists st' kept ps', (st <- tool_memory_touch st1 e ;; tool_memory_prune_locked st) = Ok st' /\ inv st' kept ps' /\
          same_limits st st' /\ longest_fit st (Remembered id dsml s :: l1 ++ l2) kept) as Htouch.
      { intros st1 s Hs Hi1. destruct (touch_ok _ _ _ _ _ _ _ Hi1 Hlen) as (st2 & -> & Hi2 & Hf2' & _).
        apply Hend; [|by eexists|apply Hmod]. destruct Hf2' as (_ & _ & _ & _ & _ & _ & _ & Hs2).
        destruct Hs, Hs2. split; congruence. }
      destruct source.
      * destruct (set_source_ok _ _ _ _ _ _ _ TOOL_MEMORY_RAM Hi Hlen) as (st1 & -> & Hs1 & Hi1).
        rewrite Haid, Ed in Hi1. by apply Htouch.
      * apply Htouch; [done|]. rewrite <- Haid, <- Ed. by destruct a.
    + assert (moderate (l1 ++ a :: l2)) as Hmod.
      { unfold moderate. rewrite a_bytes_middle, Haid. lia. }
      destruct (remove_ok _ _ _ _ _ _ _ Hi Hlen Hmod) as (st1 & -> & Hi1 & Hs1).
      assert (moderate (Remembered id dsml source :: l1 ++ l2)) as Hmod'.
      { unfold moderate. cbn [a_bytes a_id a_dsml]. destruct (knows dsml (l1 ++ l2)), (knows (a_dsml a) (l1 ++ l2));
          pose proof (dsml_weight_pos (a_dsml a)); lia. }
      destruct (put_new_ok st1 _ _ id dsml source Hi1 Hid Hd Hfr Hmod') as (st2 & ps' & -> & Hi2 & Hs2).
      destruct source; (apply Hend; [destruct Hs1, Hs2; split; congruence|by eexists|done]).
  - destruct (find_call_none _ _ Hfind) as [Hf1 Hf2]. unfold a_put, stored. rewrite Hf1, Hf2.
    assert (moderate (Remembered id dsml source :: l)) as Hmod'.
    { unfold moderate. cbn [a_bytes a_id a_dsml]. destruct (knows dsml l); lia. }
    destruct (put_new_ok st0 _ _ id dsml source Hi Hid Hd Hfind Hmod') as (st2 & ps' & -> & Hi2 & Hs2).
    apply Hend; [done|by eexists|done].
Qed.

End Storing.

(** ** Lookups *)

(** Equal ids mean the same call. *)
Lemma calls_unique (st : tm_state) (l : list remembered) (ps : list positive) (a a' : remembered) :
  inv st l ps -> a ∈ l -> a' ∈ l -> a_id a = a_id a' -> a = a'.
Proof.
  intros Hi Ha Ha' E. destruct (i_id _ _ _ Hi) as (t & _ & Hts).
  destruct (entry_of_holds _ _ _ _ (i_holds _ _ _ Hi) Ha) as (p & _ & b & k & Hc & Hk & Hd).
  destruct (entry_of_holds _ _ _ _ (i_holds _ _ _ Hi) Ha') as (p' & _ & b' & k' & Hc' & Hk' & Hd').
  assert (t !! a_id a = Some p) as E1 by (apply Hts; eauto).
  assert (t !! a_id a = Some p') as E2 by (apply Hts; eauto).
  assert (p' = p) as -> by congruence. rewrite Hc in Hc'. injection Hc' as E3 E4 E5 E6. subst b'.
  destruct a, a'; simpl in *. congruence.
Qed.

Lemma find_unique (st : tm_state) (l : list remembered) (ps : list positive) (id : bytes) (a : remembered) :
  inv st l ps -> find (is_call id) l = Some a <-> a ∈ l /\ a_id a = id.
Proof.
  intros Hi. split.
  - intros H%find_some. destruct H as [H1 H2]. apply str_eqb_eq in H2. by apply list_elem_of_In in H1.
  - intros [Hin Hid]. destruct (find (is_call id) l) as [a'|] eqn:E.
    + apply find_some in E as [H1%list_elem_of_In H2%str_eqb_eq]. f_equal.
      eapply calls_unique; [done..|]. congruence.
    + apply list_elem_of_In in Hin. pose proof (find_none _ _ E a Hin) as H2. by apply str_eqb_neq in H2.
Qed.

(** What is recorded for a call of a message. *)
Definition recorded (l : list remembered) (id : option bytes) : option remembered :=
  match nonempty id with Some id => find (is_call id) l | None => None end.

Lemma recorded_perm (st st' : tm_state) (l l' : list remembered) (ps ps' : list positive) (id : option bytes) :
  inv st l ps -> inv st' l' ps' -> l' ≡ₚ l -> recorded l' id = recorded l id.
Proof.
  intros Hi Hi' Hp. unfold recorded. destruct (nonempty id) as [i|]; [|done].
  apply option_eq. intros a. by rewrite (find_unique _ _ _ _ _ Hi), (find_unique _ _ _ _ _ Hi'), Hp.
Qed.

Lemma lookup_ok (st : tm_state) (l : list remembered) (ps : list positive) (id : option bytes) : inv st l ps ->
  exists found st' l' ps', tool_memory_lookup_locked st id = Ok (found, st') /\ inv st' l' ps' /\ l' ≡ₚ l /\
    same_limits st st' /\ blks st' = blks st /\
    match recorded l id with
    | Some a => exists b k, found = Some (a_dsml a, a_source a, b) /\ blks st !! b = Some k /\ b_dsml k = a_dsml a
    | None => found = None
    end.
Proof.
  intros Hi. unfold tool_memory_lookup_locked, recorded. destruct (nonempty id) as [i|] eqn:En.
  2: { unfold tool_memory_find_entry_locked. rewrite En. exists None, st, l, ps. by destruct (by_id (mem st)). }
  assert (i <> [] /\ id = Some i) as [Hne ->] by (destruct id as [[|c s]|]; try done; by injection En as <-).
  pose proof (find_entry_spec _ _ _ i Hi Hne) as Hf. destruct (tool_memory_find_entry_locked st (Some i)) as [e|].
  - destruct Hf as (l1 & a & l2 & ps1 & ps2 & -> & -> & Hlen & Hid & Hfr).
    destruct (find_call l1 l2 a i Hid Hfr) as [-> _].
    destruct (holds_split _ _ _ _ _ _ _ (i_holds _ _ _ Hi) Hlen) as (_ & (b & k & Hc & Hk & Hd) & _).
    destruct (core_lookup _ _ _ Hc) as (x & Hx & Ex). rewrite (entry_ok _ _ _ Hx).
    assert (e_block x = Some b /\ e_source x = a_source a) as [-> ->].
    { change (e_block x) with (c_block (core_of x)). change (e_source x) with (c_source (core_of x)). by rewrite Ex. }
    destruct (touch_ok _ _ _ _ _ _ _ Hi Hlen) as (st' & -> & Hi' & Hf' & _).
    pose proof Hf' as (_ & _ & Hb & _ & _ & _ & _ & Hs).
    erewrite block_get by (rewrite Hb; exact Hk). eexists _, st', (a :: l1 ++ l2), _. split; [done|]. split; [done|].
    split; [apply Permutation_middle|]. split; [done|]. split; [done|]. exists b, k. by rewrite Hd.
  - destruct (find_call_none _ _ Hf) as [-> _]. exists None, st, l, ps. done.
Qed.

(** ** Replay *)

(** Every call of the list is recorded with the text [d]. *)
Definition all_recorded (l : list remembered) (cs : list tool_call) (d : bytes) : Prop :=
  Forall (fun tc => exists a, recorded l (tc_id tc) = Some a /\ a_dsml a = d) cs.

(** What the loop over the calls knows after [cs]. *)
Definition matched_so_far (st : tm_state) (l : list remembered) (cs : list tool_call) (r : replay_match) : Prop :=
  match rm_matched r with
  | None => rm_exact r = true -> cs = []
  | Some b => exists k, blks st !! b = Some k /\ (rm_exact r = true -> all_recorded l cs (b_dsml k)) /\
      exists tc a, tc ∈ cs /\ recorded l (tc_id tc) = Some a /\ a_dsml a = b_dsml k
  end /\
  (rm_exact r = false -> forall d, ~ all_recorded l cs d).

Lemma not_all_app (l : list remembered) (cs cs' : list tool_call) (d : bytes) :
  ~ all_recorded l cs d -> ~ all_recorded l (cs ++ cs') d.
Proof. intros Hn [H _]%Forall_app. done. Qed.

Lemma match_call_ok (st : tm_state) (l l1 : list remembered) (ps ps1 : list positive) (st1 : tm_state)
    (cs : list tool_call) (r : replay_match) (tc : tool_call) :
  inv st l ps -> inv st1 l1 ps1 -> l1 ≡ₚ l -> same_limits st st1 -> blks st1 = blks st -> matched_so_far st l cs r ->
  exists r' st2 l2 ps2, match_call (r, st1) tc = Ok (r', st2) /\ inv st2 l2 ps2 /\ l2 ≡ₚ l /\ same_limits st st2 /\
    blks st2 = blks st /\ matched_so_far st l (cs ++ [tc]) r'.
Proof.
  intros Hi Hi1 Hp1 Hs1 Hb1 [Hm Hex]. unfold match_call.
  destruct (lookup_ok st1 l1 ps1 (tc_id tc) Hi1) as (found & st2 & l2 & ps2 & -> & Hi2 & Hp2 & Hs2 & Hb2 & Hf).
  rewrite (recorded_perm _ _ _ _ _ _ _ Hi Hi1 Hp1) in Hf.
  assert (forall r', matched_so_far st l (cs ++ [tc]) r' ->
    exists r'' st3 l3 ps3, @Ok _ stop (r', st2) = Ok (r'', st3) /\ inv st3 l3 ps3 /\ l3 ≡ₚ l /\ same_limits st st3 /\
      blks st3 = blks st /\ matched_so_far st l (cs ++ [tc]) r'') as Hend.
  { intros r' Hr'. exists r', st2, l2, ps2. split; [done|]. split; [done|]. split; [by rewrite Hp2|].
    split; [destruct Hs1, Hs2; split; congruence|]. split; [congruence|done]. }
  destruct (recorded l (tc_id tc)) as [a|] eqn:Er.
  - destruct Hf as (b & k & -> & Hk & Hd). rewrite Hb1 in Hk. cbn beta iota zeta.
    assert (forall d, all_recorded l [tc] d <-> a_dsml a = d) as Hone.
    { intros d. unfold all_recorded. rewrite List.Forall_cons_iff, Er. split.
      - by intros [(? & [= <-] & ?) _].
      - intros E. split; [eauto|constructor]. }
    destruct (rm_matched r) as [b0|] eqn:Em.
    + destruct Hm as (k0 & Hk0 & Hall & tc0 & a0 & Hin & Hr0 & Hd0).
      assert (matched_so_far st l (cs ++ [tc]) (ReplayMatch (Some b0) (rm_source r) (if Pos.eqb b0 b then rm_exact r else false) (rm_missing r))) as Hgoal.
      { split; cbn [rm_matched rm_exact].
        - exists k0. split; [done|]. split.
          + destruct (Pos.eqb_spec b0 b) as [->|]; [|done]. intros E. apply Forall_app. split; [by apply Hall|].
            apply Hone. congruence.
          + exists tc0, a0. split; [apply elem_of_app; by left|done].
        - destruct (Pos.eqb_spec b0 b) as [->|Hne].
          + intros E d. by apply not_all_app, Hex.
          + intros _ d [H1 H2]%Forall_app. apply Hone in H2. unfold all_recorded in H1. rewrite List.Forall_forall in H1.
            destruct (H1 tc0) as (a1 & E1 & E2); [by apply list_elem_of_In|]. rewrite Hr0 in E1. injection E1 as <-.
            apply Hne. eapply (same_text_same_block st l ps); [done..|]. congruence. }
      destruct (a_source a); by apply Hend.
    + assert (matched_so_far st l (cs ++ [tc]) (ReplayMatch (Some b) (a_source a) (rm_exact r) (rm_missing r))) as Hgoal.
      { split; cbn [rm_matched rm_exact].
        - exists k. split; [done|]. split.
          + intros E. rewrite (Hm E). cbn [app]. by apply Hone.
          + exists tc, a. split; [apply elem_of_app; right; set_solver|done].
        - intros E d. by apply not_all_app, Hex. }
      destruct (a_source a); by apply Hend.
  - subst found. apply Hend. split; cbn [rm_matched rm_exact].
    + destruct (rm_matched r) as [b0|]; [|done]. destruct Hm as (k0 & Hk0 & _ & tc0 & a0 & Hin & Hr0 & Hd0).
      exists k0. split; [done|]. split; [done|]. exists tc0, a0. split; [apply elem_of_app; by left|done].
    + intros _ d [_ H2]%Forall_app. inversion H2 as [|? ? (a & E & _)]; subst. congruence.
Qed.

Lemma match_calls_ok (st : tm_state) (l : list remembered) (ps : list positive) (cs : list tool_call) : inv st l ps ->
  forall done_cs r st1 l1 ps1,
  inv st1 l1 ps1 -> l1 ≡ₚ l -> same_limits st st1 -> blks st1 = blks st -> matched_so_far st l done_cs r ->
  exists r' st2 l2 ps2, rfold match_call (r, st1) cs = Ok (r', st2) /\ inv st2 l2 ps2 /\ l2 ≡ₚ l /\ same_limits st st2 /\
    blks st2 = blks st /\ matched_so_far st l (done_cs ++ cs) r'.
Proof.
  intros Hi. induction cs as [|tc cs IH]; intros done_cs r st1 l1 ps1 Hi1 Hp1 Hs1 Hb1 Hm.
  - exists r, st1, l1, ps1. by rewrite app_nil_r.
  - cbn [rfold]. destruct (match_call_ok _ _ _ _ _ _ _ _ tc Hi Hi1 Hp1 Hs1 Hb1 Hm) as (r' & st2 & l2 & ps2 & -> & Hi2 & Hp2 & Hs2 & Hb2 & Hm2).
    destruct (IH _ _ _ _ _ Hi2 Hp2 Hs2 Hb2 Hm2) as (r3 & st3 & l3 & ps3 & H). exists r3, st3, l3, ps3.
    by rewrite <- app_assoc in H.
Qed.

(** The message after replay: it gets the recorded text of its calls exactly
    when they all have one and it is the same. *)
Definition replayed (l : list remembered) (m m' : chat_msg) : Prop :=
  if wants_replay m then
    (exists d, m' = m <| calls ::= fun cs => cs <| raw_dsml := Some d |> |> /\ all_recorded l (tcs_v (calls m)) d) \/
    (m' = m /\ forall d, ~ all_recorded l (tcs_v (calls m)) d)
  else m' = m.

Lemma attach_message_ok (st : tm_state) (l : list remembered) (ps : list positive) (msgs : list chat_msg)
    (stats : tool_replay_stats) (m : chat_msg) : inv st l ps ->
  exists m' stats' st' l' ps', attach_message (msgs, stats, st) m = Ok (msgs ++ [m'], stats', st') /\
    inv st' l' ps' /\ l' ≡ₚ l /\ same_limits st st' /\ replayed l m m'.
Proof.
  intros Hi. unfold attach_message, replayed. destruct (wants_replay m) eqn:Ew; cbn [negb].
  2: { exists m, stats, st, l, ps. done. }
  destruct (match_calls_ok st l ps (tcs_v (calls m)) Hi [] (ReplayMatch None TOOL_MEMORY_DISK true 0) st l ps Hi) as
    (r & st' & l' & ps' & -> & Hi' & Hp' & Hs' & Hb' & Hm & Hex); [done..|by split|]. cbn [app] in Hm, Hex.
  destruct (rm_exact r) eqn:E.
  - destruct (rm_matched r) as [b|].
    + destruct Hm as (k & Hk & Hall & _). erewrite block_get by (rewrite Hb'; exact Hk).
      eexists _, _, st', l', ps'. split; [done|]. split; [done|]. split; [done|]. split; [done|]. left. eauto.
    + unfold wants_replay in Ew. rewrite (Hm eq_refl) in Ew. done.
  - exists m. destruct (rm_matched r); eexists _, st', l', ps'; (split; [done|]); eauto 10.
Qed.

Lemma attach_all_ok (st : tm_state) (l : list remembered) (ps : list positive) (msgs : list chat_msg) : inv st l ps ->
  forall done_msgs stats, exists msgs' stats' st' l' ps',
    rfold attach_message (done_msgs, stats, st) msgs = Ok (done_msgs ++ msgs', stats', st') /\
    inv st' l' ps' /\ l' ≡ₚ l /\ same_limits st st' /\ Forall2 (replayed l) msgs msgs'.
Proof.
  revert st l ps. induction msgs as [|m msgs IH]; intros st l ps Hi done_msgs stats.
  - exists [], stats, st, l, ps. rewrite app_nil_r. split; [done|]. split; [done|]. split; [done|]. split; [done|constructor].
  - cbn [rfold]. destruct (attach_message_ok st l ps done_msgs stats m Hi) as (m' & stats1 & st1 & l1 & ps1 & -> & Hi1 & Hp1 & Hs1 & Hr1).
    destruct (IH st1 l1 ps1 Hi1 (done_msgs ++ [m']) stats1) as (ms & stats2 & st2 & l2 & ps2 & -> & Hi2 & Hp2 & Hs2 & Hr2).
    exists (m' :: ms), stats2, st2, l2, ps2. rewrite <- app_assoc. split; [done|]. split; [done|].
    split; [by rewrite Hp2|]. split; [destruct Hs1, Hs2; split; congruence|]. constructor; [done|].
    eapply Forall2_impl_in; [exact Hr2|]. intros x y _. unfold replayed, all_recorded.
    assert (forall id, recorded l1 id = recorded l id) as E by (intros id; by eapply recorded_perm).
    destruct (wants_replay x); [|done].
    intros [(d & -> & H)|[-> H]]; [left; exists d; split; [done|]|right; split; [done|]; intros d Hd; apply (H d)];
      (eapply Forall_impl; [eassumption|]); intros tc (a & Ha & Hda); exists a; by rewrite E in * || rewrite <- E in *.
Qed.

(** Before the first store nothing is found. *)
Lemma lookup_unset (st : tm_state) (id : option bytes) : by_id (mem st) = None ->
  tool_memory_lookup_locked st id = Ok (None, st).
Proof. intros H. unfold tool_memory_lookup_locked, tool_memory_find_entry_locked. by rewrite H. Qed.

Lemma match_calls_unset (st : tm_state) (cs : list tool_call) : by_id (mem st) = None ->
  forall r, exists r', rfold match_call (r, st) cs = Ok (r', st) /\ rm_matched r' = rm_matched r.
Proof.
  intros H. induction cs as [|tc cs IH]; intros r; cbn [rfold]; [by exists r|].
  unfold match_call at 1. rewrite lookup_unset by done.
  destruct (IH (ReplayMatch (rm_matched r) (rm_source r) false (rm_missing r + 1))) as (r' & -> & Hm). by exists r'.
Qed.

Lemma attach_unset (st : tm_state) (msgs : list chat_msg) : by_id (mem st) = None ->
  forall done_msgs stats, exists stats', rfold attach_message (done_msgs, stats, st) msgs = Ok (done_msgs ++ msgs, stats', st).
Proof.
  intros H. induction msgs as [|m msgs IH]; intros done_msgs stats; [exists stats; by rewrite app_nil_r|].
  cbn [rfold]. assert (exists stats1, attach_message (done_msgs, stats, st) m = Ok (done_msgs ++ [m], stats1, st)) as (stats1 & ->).
  { unfold attach_message. destruct (wants_replay m); [|by eexists]. cbn [negb].
    destruct (match_calls_unset st (tcs_v (calls m)) H (ReplayMatch None TOOL_MEMORY_DISK true 0)) as (r & -> & Hm).
    cbn [rm_matched] in Hm. rewrite Hm. destruct (rm_exact r); by eexists. }
  destruct (IH (done_msgs ++ [m]) stats1) as (stats2 & ->). exists stats2. by rewrite <- app_assoc.
Qed.

Lemma replayed_nil (m : chat_msg) : replayed [] m m.
Proof.
  unfold replayed. destruct (wants_replay m) eqn:E; [|done]. right. split; [done|]. intros d Hd.
  unfold wants_replay in E. destruct (tcs_v (calls m)) as [|tc cs]; [done|].
  inversion Hd as [|? ? (a & Ha & _)]; subst. unfold recorded in Ha. by destruct (nonempty (tc_id tc)).
Qed.

(** The state represents the list [l] of remembered calls. *)
Definition repr (st : tm_state) (l : list remembered) : Prop :=
  (exists ps, inv st l ps) \/ (l = [] /\ by_id (mem st) = None /\ ready st []).

Lemma repr_ready (st : tm_state) (l : list remembered) : repr st l -> ready st l.
Proof. intros [[ps Hi]|(-> & _ & H)]; [by eapply ready_inv|done]. Qed.

Lemma zero_repr (me mb : Z) : repr (tool_memory_zero me mb) [].
Proof. right. split; [done|]. split; [done|]. apply zero_ready. Qed.

Lemma attach_ok (st : tm_state) (l : list remembered) (msgs : list chat_msg) (stats : tool_replay_stats) : repr st l ->
  exists msgs' stats' st' l', tool_memory_attach_to_messages false st msgs stats = Ok (msgs', stats', st') /\
    repr st' l' /\ l' ≡ₚ l /\ same_limits st st' /\ Forall2 (replayed l) msgs msgs'.
Proof.
  intros [[ps Hi]|(-> & Hu & Hr)]; unfold tool_memory_attach_to_messages.
  - destruct (attach_all_ok st l ps msgs Hi [] stats) as (msgs' & stats' & st' & l' & ps' & -> & Hi' & H).
    exists msgs', stats', st', l'. split; [done|]. split; [left; eauto|done].
  - destruct (attach_unset st msgs Hu [] stats) as (stats' & ->). exists msgs, stats', st, []. split; [done|].
    split; [by right|]. split; [done|]. split; [done|]. clear. induction msgs; constructor; [apply replayed_nil|done].
Qed.

Lemma free_loop_ok (l : list remembered) : forall (fuel : nat) (st : tm_state) (ps : list positive),
  inv st l ps -> moderate l -> (length l < fuel)%nat ->
  exists st', free_loop fuel st = Ok st' /\ ents st' = ∅ /\ blks st' = ∅.
Proof.
  induction l as [|a l IH] using rev_ind; intros fuel st ps Hi Hmod Hf; (destruct fuel as [|fuel]; [lia|]); cbn [free_loop].
  - pose proof (entries_size _ _ _ Hi) as [Hl _]. destruct ps as [|]; [|done].
    destruct (i_list _ _ _ Hi) as (_ & _ & _ & _ & Ht). rewrite Ht. exists st. split; [done|].
    assert (forall p c, core st !! p <> Some c) as Hno.
    { intros p c Hc. apply (i_dom _ _ _ Hi) in Hc. by apply elem_of_nil in Hc. }
    split; apply map_empty.
    + intros p. apply eq_None_not_Some. intros [x Hx]. apply (Hno p (core_of x)). by apply view_some.
    + intros b. apply eq_None_not_Some. intros [k Hk].
      destruct (i_chains _ _ _ Hi _ _ Hk) as (_ & _ & _ & [|q qs] & _ & Hne & _ & Hq); [done|].
      assert (q ∈ q :: qs) as (c & Hc & _)%Hq by set_solver. by apply Hno in Hc.
  - destruct (remove_tail_ok _ _ _ _ Hi Hmod) as (e & st1 & ps1 & -> & -> & Hi1 & _).
    rewrite length_app in Hf. simpl in Hf. apply (IH fuel st1 ps1 Hi1); [by eapply moderate_prefix|lia].
Qed.

Lemma free_ok (st : tm_state) (l : list remembered) : repr st l -> moderate l ->
  exists st', tool_memory_free st = Ok st' /\ ents st' = ∅ /\ blks st' = ∅.
Proof.
  intros Hr Hmod. unfold tool_memory_free.
  assert (exists st', free_loop (S (size (ents st))) st = Ok st' /\ ents st' = ∅ /\ blks st' = ∅) as (st' & -> & H).
  { destruct Hr as [[ps Hi]|(-> & Hu & [ps Hi])].
    - eapply (free_loop_ok l); [done..|]. pose proof (proj2 (entries_size _ _ _ Hi)). lia.
    - unfold tool_memory_init_locked in Hi. rewrite Hu in Hi.
      destruct (free_loop_ok [] (S (size (ents st))) _ ps Hi Hmod) as (st' & _ & _ & _); [simpl; lia|].
      destruct (i_list _ _ _ Hi) as (_ & _ & _ & _ & Ht). pose proof (entries_size _ _ _ Hi) as [Hl _].
      destruct ps; [|done]. simpl in Ht. exists st. cbn [free_loop]. rewrite Ht. split; [done|].
      destruct (free_loop_ok [] 1 _ [] Hi Hmod) as (st2 & E & H2); [simpl; lia|]. cbn [free_loop] in E. simpl in E.
      rewrite Ht in E. injection E as <-. exact H2. }
  eexists. split; [done|]. exact H.
Qed.

(** ** Sessions *)

(** What requests do to the memory: storing the text of generated calls, and
    replaying it into the messages of the next request. *)
Inductive tm_op :=
| OpPut (id dsml : option bytes) (source : tool_memory_source)
| OpAttach (msgs : list chat_msg).

Definition run_op {_ : Malloc} (st : tm_state) (op : tm_op) : pres tm_state :=
  match op with
  | OpPut id dsml source => tool_memory_put_source false st id dsml source
  | OpAttach msgs => let* (_, _, st') := tool_memory_attach_to_messages false st msgs (ToolReplayStats 0 0 0 0) in Ok st'
  end.

Definition op_room (st : tm_state) (op : tm_op) : Prop :=
  match op with
  | OpPut id dsml _ => room st (default [] id) (default [] dsml)
  | OpAttach _ => True
  end.

Lemma fits_moderate (st : tm_state) (l : list remembered) (id dsml : bytes) : fits st l -> room st id dsml -> moderate l.
Proof.
  intros [_ H] Hr. unfold room, moderate in *. pose proof (id_weight_pos id). pose proof (dsml_weight_pos dsml). lia.
Qed.

Lemma a_bytes_perm (l l' : list remembered) : l' ≡ₚ l -> a_bytes l' = a_bytes l.
Proof.
  induction 1 as [|a l l' Hp IH|a b l|l l' l'' _ IH1 _ IH2]; [done| | |congruence].
  - cbn [a_bytes]. rewrite IH. assert (knows (a_dsml a) l = knows (a_dsml a) l') as ->; [|done].
    apply eq_true_iff_eq. rewrite !knows_spec. by setoid_rewrite Hp.
  - exact (a_bytes_middle [b] l a).
Qed.

Lemma run_op_ok {MA : Malloc} (st : tm_state) (l : list remembered) (op : tm_op) :
  repr st l -> fits st l -> op_room st op ->
  exists st' l', run_op st op = Ok st' /\ repr st' l' /\ fits st' l' /\ same_limits st st'.
Proof.
  intros Hr Hfit Hroom. destruct op as [id dsml source|msgs]; cbn [run_op op_room] in *.
  - unfold tool_memory_put_source.
    destruct id as [[|c0 cs]|]; cbn [nonempty]; [by exists st, l| |by exists st, l].
    destruct dsml as [[|d0 ds]|]; cbn [nonempty]; [by exists st, l| |by exists st, l].
    destruct (put_ok st l (c0 :: cs) (d0 :: ds) source (repr_ready _ _ Hr) Hfit) as
      (st' & kept & ps' & E & Hi & Hs & _ & Hf & _); [done..|].
    exists st', kept. split; [done|]. split; [left; eauto|]. split; [by apply (fits_same st st')|done].
  - destruct (attach_ok st l msgs (ToolReplayStats 0 0 0 0) Hr) as (ms & stats & st' & l' & -> & Hr' & Hp & Hs & _).
    exists st', l'. split; [done|]. split; [done|]. split; [|done]. apply (fits_same st st' l' Hs).
    destruct Hfit as [H1 H2]. split; [by rewrite Hp|by rewrite (a_bytes_perm _ _ Hp)].
Qed.

Lemma op_room_same (st st' : tm_state) (op : tm_op) : same_limits st st' -> op_room st op -> op_room st' op.
Proof. intros [_ H]. destruct op; [|done]. unfold op_room, room, tool_memory_max_bytes. by rewrite H. Qed.

Lemma run_ops_ok {MA : Malloc} (ops : list tm_op) : forall (st : tm_state) (l : list remembered),
  repr st l -> fits st l -> Forall (op_room st) ops ->
  exists st' l', rfold run_op st ops = Ok st' /\ repr st' l' /\ fits st' l' /\ same_limits st st'.
Proof.
  induction ops as [|op ops IH]; intros st l Hr Hf Ho; [by exists st, l|]. cbn [rfold].
  inversion Ho as [|? ? Hop Hops]; subst.
  destruct (run_op_ok st l op Hr Hf Hop) as (st1 & l1 & -> & Hr1 & Hf1 & Hs1).
  destruct (IH st1 l1 Hr1 Hf1) as (st2 & l2 & -> & Hr2 & Hf2 & Hs2).
  { eapply Forall_impl; [exact Hops|]. intros o. by apply op_room_same. }
  exists st2, l2. split; [done|]. split; [done|]. split; [done|]. destruct Hs1, Hs2. split; congruence.
Qed.

(** ** Theorems *)

(** C14 The linked heap implements a plain list of remembered calls: storing the
    text [dsml] under the call [id] never follows a bad pointer, overflows a
    counter or runs on, whatever addresses the allocator returns; and from a
    state that keeps the calls [l], most recent first, within the budget, it
    yields one that keeps the longest part of [a_put id dsml source l] that
    fits the budget: the call in front, any older text of the same id gone,
    and the least recently used calls dropped. *)
Theorem tool_memory_put_refines {MA : Malloc} (st : tm_state) (l : list remembered) (id dsml : bytes)
    (source : tool_memory_source) :
  repr st l -> fits st l -> id <> [] -> dsml <> [] -> room st id dsml ->
  exists st' kept, tool_memory_put_locked st (Some id) (Some dsml) source = Ok st' /\ repr st' kept /\
    same_limits st st' /\ longest_fit st (a_put id dsml source l) kept.
Proof.
  intros Hr Hf Hid Hd Hroom.
  destruct (put_ok st l id dsml source (repr_ready _ _ Hr) Hf Hid Hd Hroom) as (st' & kept & ps' & E & Hi & Hs & Hk).
  exists st', kept. split; [done|]. split; [left; eauto|done].
Qed.

(** C15 No session corrupts the memory: from a zeroed struct, any sequence of
    stores and replays (of strings that leave the byte counter far from its
    end) runs to its end without undefined behaviour, the number of ids and
    the bytes accounted for stay within the limits after every operation, and
    [tool_memory_free] then releases every entry and every block. *)
Theorem tool_memory_session_safe {MA : Malloc} (max_ids max_mem : Z) (ops : list tm_op) :
  let st0 := tool_memory_zero max_ids max_mem in
  Forall (op_room st0) ops -> room st0 [] [] ->
  exists st l, rfold run_op st0 ops = Ok st /\ repr st l /\
    entries (mem st) <= tool_memory_max_entries (mem st0) /\ mbytes (mem st) <= tool_memory_max_bytes (mem st0) /\
    exists st', tool_memory_free st = Ok st' /\ ents st' = ∅ /\ blks st' = ∅.
Proof.
  intros st0 Hops Hroom.
  destruct (run_ops_ok ops st0 [] (zero_repr _ _) (fits_nil _) Hops) as (st & l & E & Hr & Hf & Hs).
  exists st, l. split; [done|]. split; [done|].
  assert (entries (mem st) = Z.of_nat (length l) /\ mbytes (mem st) = a_bytes l) as [-> ->].
  { destruct Hr as [[ps Hi]|(-> & Hu & [ps Hi])]; [by destruct Hi|]. pose proof (i_entries _ _ _ Hi) as H1.
    pose proof (i_bytes _ _ _ Hi) as H2. unfold tool_memory_init_locked in *. by rewrite Hu in *. }
  apply (fits_same st0 st l Hs) in Hf. split; [apply Hf|]. split; [apply Hf|].
  eapply free_ok; [done|]. by eapply fits_moderate.
Qed.

(** Replay is exact: attaching remembered text to the messages of a request
    gives a message that has tool calls and no text yet the text [d] exactly
    when every call of the message is remembered with that same text, and
    leaves every other message as it is; it reorders what is remembered but
    loses none of it.  That two calls share a text is decided by comparing
    block pointers. *)
Theorem tool_memory_replay_exact (st : tm_state) (l : list remembered) (msgs : list chat_msg) (stats : tool_replay_stats) :
  repr st l ->
  exists msgs' stats' st' l', tool_memory_attach_to_messages false st msgs stats = Ok (msgs', stats', st') /\
    Forall2 (replayed l) msgs msgs' /\ repr st' l' /\ l' ≡ₚ l.
Proof.
  intros Hr. destruct (attach_ok st l msgs stats Hr) as (msgs' & stats' & st' & l' & E & Hr' & Hp & _ & H).
  exists msgs', stats', st', l'. done.
Qed.

(** ** Witnesses *)

Definition first_fit : Malloc := {| malloc := fresh; malloc_fresh := is_fresh |}.

Lemma tool_memory_put_refines_witness :
  exists st' kept, @tool_memory_put_locked first_fit (tool_memory_zero 2 0) (Some (B "call_1")) (Some (B "text")) TOOL_MEMORY_RAM = Ok st' /\
    repr st' kept /\ same_limits (tool_memory_zero 2 0) st' /\
    longest_fit (tool_memory_zero 2 0) [Remembered (B "call_1") (B "text") TOOL_MEMORY_RAM] kept.
Proof.
  refine (@tool_memory_put_refines first_fit (tool_memory_zero 2 0) [] (B "call_1") (B "text") TOOL_MEMORY_RAM _ _ _ _ _).
  - apply zero_repr.
  - apply fits_nil.
  - discriminate.
  - discriminate.
  - vm_compute. discriminate.
Defined.

Definition ex_ops : list tm_op :=
  [OpPut (Some (B "a")) (Some (B "D1")) TOOL_MEMORY_RAM; OpPut (Some (B "b")) (Some (B "D1")) TOOL_MEMORY_DISK;
   OpPut (Some (B "a")) (Some (B "D1")) TOOL_MEMORY_DISK; OpPut (Some (B "c")) (Some (B "D2")) TOOL_MEMORY_DISK].

Lemma tool_memory_session_safe_witness :
  exists st l, @rfold _ _ _ (@run_op first_fit) (tool_memory_zero 2 0) ex_ops = Ok st /\ repr st l /\
    entries (mem st) <= 2 /\ mbytes (mem st) <= 536870912 /\
    exists st', tool_memory_free st = Ok st' /\ ents st' = ∅ /\ blks st' = ∅.
Proof.
  refine (@tool_memory_session_safe first_fit 2 0 ex_ops _ _).
  - repeat (apply List.Forall_cons; [vm_compute; discriminate|]). apply List.Forall_nil.
  - vm_compute. discriminate.
Defined.

Definition ex_call (id : bytes) : tool_call := ToolCall (Some id) None None.
Definition ex_msg (ids : list bytes) : chat_msg :=
  ChatMsg (Some (B "assistant")) None None None [] (ToolCalls (map ex_call ids) None).

Lemma tool_memory_replay_exact_witness :
  exists st l, @rfold _ _ _ (@run_op first_fit) (tool_memory_zero 3 0) ex_ops = Ok st /\
  exists msgs' stats' st' l',
    tool_memory_attach_to_messages false st [ex_msg [B "a"; B "b"]] (ToolReplayStats 0 0 0 0) = Ok (msgs', stats', st') /\
    Forall2 (replayed l) [ex_msg [B "a"; B "b"]] msgs' /\ repr st' l' /\ l' ≡ₚ l.
Proof.
  destruct (@run_ops_ok first_fit ex_ops (tool_memory_zero 3 0) [] (zero_repr 3 0) (fits_nil _)) as (st & l & E & Hr & _).
  { repeat (apply List.Forall_cons; [vm_compute; discriminate|]). apply List.Forall_nil. }
  exists st, l. split; [exact E|].
  exact (tool_memory_replay_exact st l [ex_msg [B "a"; B "b"]] (ToolReplayStats 0 0 0 0) Hr).
Defined.

(** A run: the oldest id is dropped, a message of two calls of one turn gets
    its text back, and one that mixes turns does not. *)
Example ex_replay :
  (st <- rfold (@run_op first_fit) (tool_memory_zero 3 0) ex_ops ;;
   let* (msgs, stats, _) := tool_memory_attach_to_messages false st
     [ex_msg [B "a"; B "b"]; ex_msg [B "a"; B "c"]; ex_msg [B "z"]] (ToolReplayStats 0 0 0 0) in
   Ok (map (fun m => raw_dsml (calls m)) msgs, stats)) =
  Ok ([Some (B "D1"); None; None], ToolReplayStats 1 0 2 1).
Proof. vm_compute. reflexivity. Qed.
