(* ===== verification/Sha1.v ===== *)
(** * SHA-1 (ds4_server.c)

    The server's own SHA-1, which names the files of the KV disk cache:
    contexts, the block transform, incremental updates and the hexadecimal
    digest.  Words are Z below 2^32, with every wrap-around written out. *)
From S2P Require Import Prelude.
From S2P Require Import CNum.
From S2P Require Import CFloat.
From S2P Require Import ServerJson.

(** [block] holds 64 bytes, of which the first [used] belong to the message;
    those behind them are whatever the context held before. *)
Record sha1_ctx := Sha1Ctx { h : list Z; nbytes : Z; sblock : bytes; used : nat }.

Definition rol32 (v n : Z) : Z := Z.lor (u32 (Z.shiftl v n)) (Z.shiftr v (32 - n)).
Definition not32 (v : Z) : Z := Z.lxor v UINT32_MAX.
Definition add32 (a b : Z) : Z := u32 (a + b).

Definition word_at (w : list Z) (i : nat) : Z := nth i w 0.
Definition byte_val (s : bytes) (i : nat) : Z := bz (nth i s NUL).

Definition load_word (block : bytes) (i : nat) : Z :=
  Z.lor (Z.lor (Z.lor (u32 (Z.shiftl (byte_val block (i * 4)) 24)) (Z.shiftl (byte_val block (i * 4 + 1)) 16))
               (Z.shiftl (byte_val block (i * 4 + 2)) 8))
        (byte_val block (i * 4 + 3)).

(** The message schedule: [w[i]] for the next [n] indices, from [i = length w]. *)
Fixpoint extend_words (n : nat) (w : list Z) : list Z :=
  match n with
  | O => w
  | S n =>
      let i := length w in
      let x := Z.lxor (Z.lxor (Z.lxor (word_at w (i - 3)) (word_at w (i - 8))) (word_at w (i - 14))) (word_at w (i - 16)) in
      extend_words n (w ++ [rol32 x 1])
  end.

Definition message_words (block : bytes) : list Z := extend_words 64 (map (load_word block) (seq 0 16)).

(** The five working variables; [f] and [k] of round [i]. *)
Record regs := Regs { ra : Z; rb : Z; rcc : Z; rd : Z; re : Z }.

Definition round_f (i : nat) (b cc d : Z) : Z :=
  if (i <? 20)%nat then Z.lor (Z.land b cc) (Z.land (not32 b) d)
  else if (i <? 40)%nat then Z.lxor (Z.lxor b cc) d
  else if (i <? 60)%nat then Z.lor (Z.lor (Z.land b cc) (Z.land b d)) (Z.land cc d)
  else Z.lxor (Z.lxor b cc) d.

Definition round_k (i : nat) : Z :=
  if (i <? 20)%nat then 0x5a827999
  else if (i <? 40)%nat then 0x6ed9eba1
  else if (i <? 60)%nat then 0x8f1bbcdc
  else 0xca62c1d6.

Definition round (w : list Z) (r : regs) (i : nat) : regs :=
  let tmp := u32 (rol32 (ra r) 5 + round_f i (rb r) (rcc r) (rd r) + re r + round_k i + word_at w i) in
  Regs tmp (ra r) (rol32 (rb r) 30) (rcc r) (rd r).

Definition sha1_transform (c : sha1_ctx) (block : bytes) : sha1_ctx :=
  let w := message_words block in
  let r := foldl (round w) (Regs (word_at (h c) 0) (word_at (h c) 1) (word_at (h c) 2) (word_at (h c) 3) (word_at (h c) 4))
             (seq 0 80) in
  Sha1Ctx [add32 (word_at (h c) 0) (ra r); add32 (word_at (h c) 1) (rb r); add32 (word_at (h c) 2) (rcc r);
           add32 (word_at (h c) 3) (rd r); add32 (word_at (h c) 4) (re r)]
    (nbytes c) (sblock c) (used c).

(** [stale] is the uninitialised block. *)
Definition sha1_init (stale : bytes) : sha1_ctx :=
  Sha1Ctx [0x67452301; 0xefcdab89; 0x98badcfe; 0x10325476; 0xc3d2e1f0] 0 stale 0.

(** [memcpy(block + off, p, length p)]. *)
Definition overwrite (block : bytes) (off : nat) (p : bytes) : bytes :=
  take off block ++ p ++ drop (off + length p) block.

(** The loop of [sha1_update]; it takes at least one byte per turn. *)
Fixpoint update_loop (fuel : nat) (c : sha1_ctx) (p : bytes) : option sha1_ctx :=
  match fuel with
  | O => None
  | S fuel =>
      match p with
      | [] => Some c
      | _ =>
          let n := (64 - used c)%nat in
          let n := if (length p <? n)%nat then length p else n in
          let c := Sha1Ctx (h c) (nbytes c) (overwrite (sblock c) (used c) (take n p)) (used c + n) in
          let c :=
            if (used c =? 64)%nat then
              let c := sha1_transform c (sblock c) in
              Sha1Ctx (h c) (nbytes c) (sblock c) 0
            else c in
          update_loop fuel c (drop n p)
      end
  end.

Definition sha1_update (c : sha1_ctx) (p : bytes) : option sha1_ctx :=
  update_loop (S (length p)) (Sha1Ctx (h c) (u64 (nbytes c + Z.of_nat (length p))) (sblock c) (used c)) p.

(** [while (c->used != 56) sha1_update(c, &zero, 1)]: at most 64 turns. *)
Fixpoint pad_loop (fuel : nat) (c : sha1_ctx) : option sha1_ctx :=
  match fuel with
  | O => None
  | S fuel =>
      if (used c =? 56)%nat then Some c
      else match sha1_update c [NUL] with Some c => pad_loop fuel c | None => None end
  end.

Definition be64 (v : Z) : bytes := map (fun i => zb (Z.shiftr v (8 * Z.of_nat (7 - i)))) (seq 0 8).
Definition be32 (v : Z) : bytes := [zb (Z.shiftr v 24); zb (Z.shiftr v 16); zb (Z.shiftr v 8); zb v].

Definition sha1_final (c : sha1_ctx) : option bytes :=
  let bits := u64 (nbytes c * 8) in
  match sha1_update c [x80] with
  | None => None
  | Some c =>
      match pad_loop 65 c with
      | None => None
      | Some c =>
          match sha1_update c (be64 bits) with
          | None => None
          | Some c => Some (concat (map (fun i => be32 (word_at (h c) i)) (seq 0 5)))
          end
      end
  end.

Definition hex20 (digest : bytes) : bytes :=
  concat (map (fun b => [hex_digit (bz b / 16); hex_digit (bz b mod 16)]) digest).

Definition sha1_bytes_hex (stale : bytes) (p : bytes) : option bytes :=
  match sha1_update (sha1_init stale) p with
  | None => None
  | Some c => hex20 <$> sha1_final c
  end.
