(* ===== verification/Sha1Props.v ===== *)
(** * Properties of SHA-1

    Incremental hashing with a 64-byte buffer computes the digest that the
    standard defines on the whole padded message. *)
From S2P Require Import Prelude.
From S2P Require Import CNum.
From S2P Require Import CFloat.
From S2P Require Import ServerJson.
From S2P Require Import Sha1.

(** ** The standard (FIPS 180-4, section 6.1) *)

Definition Ch (x y z : Z) : Z := Z.lxor (Z.land x y) (Z.land (not32 x) z).
Definition Parity (x y z : Z) : Z := Z.lxor (Z.lxor x y) z.
Definition Maj (x y z : Z) : Z := Z.lxor (Z.lxor (Z.land x y) (Z.land x z)) (Z.land y z).

Definition fips_f (t : nat) : Z -> Z -> Z -> Z :=
  if (t <? 20)%nat then Ch else if (t <? 40)%nat then Parity else if (t <? 60)%nat then Maj else Parity.

(** [W_t], by recursion on the index. *)
Fixpoint fips_w (fuel : nat) (block : bytes) (t : nat) : Z :=
  match fuel with
  | O => 0
  | S fuel =>
      if (t <? 16)%nat then load_word block t
      else rol32 (Z.lxor (Z.lxor (Z.lxor (fips_w fuel block (t - 3)) (fips_w fuel block (t - 8)))
                                 (fips_w fuel block (t - 14))) (fips_w fuel block (t - 16))) 1
  end.

Definition fips_round (block : bytes) (r : regs) (t : nat) : regs :=
  Regs (u32 (rol32 (ra r) 5 + fips_f t (rb r) (rcc r) (rd r) + re r + round_k t + fips_w (S t) block t))
    (ra r) (rol32 (rb r) 30) (rcc r) (rd r).

Definition fips_compress (hs : list Z) (block : bytes) : list Z :=
  let r := foldl (fips_round block) (Regs (word_at hs 0) (word_at hs 1) (word_at hs 2) (word_at hs 3) (word_at hs 4))
             (seq 0 80) in
  [add32 (word_at hs 0) (ra r); add32 (word_at hs 1) (rb r); add32 (word_at hs 2) (rcc r);
   add32 (word_at hs 3) (rd r); add32 (word_at hs 4) (re r)].

Definition H0 : list Z := [0x67452301; 0xefcdab89; 0x98badcfe; 0x10325476; 0xc3d2e1f0].

(** The message, a one bit, the fewest zero bits, and its length in bits. *)
Definition padded (m : bytes) : bytes :=
  m ++ [x80] ++ repeat NUL ((119 - length m mod 64) mod 64) ++ be64 (8 * Z.of_nat (length m)).

(** The whole 64-byte blocks of a text. *)
Definition full_blocks (m : bytes) : list bytes :=
  map (fun i => take 64 (drop (64 * i) m)) (seq 0 (length m / 64)).

Definition fips_sha1 (m : bytes) : bytes :=
  let hs := foldl fips_compress H0 (full_blocks (padded m)) in
  concat (map (fun i => be32 (word_at hs i)) (seq 0 5)).

(** ** One block *)

Lemma ch_form (x y z : Z) : is_u32 x -> Z.lor (Z.land x y) (Z.land (not32 x) z) = Ch x y z.
Proof.
  intros Hx. unfold Ch. symmetry. apply Z.lxor_lor. apply Z.bits_inj_0. intros n.
  unfold not32. rewrite !Z.land_spec, Z.lxor_spec. destruct (Z.testbit x n) eqn:E; [|done].
  assert (0 <= n < 32) as Hn.
  { destruct (Z.ltb_spec n 0); [by rewrite Z.testbit_neg_r in E|]. split; [done|].
    destruct (Z.ltb_spec n 32); [done|]. rewrite Z.bits_above_log2 in E; [done|unfold is_u32 in Hx; lia|].
    destruct (decide (x = 0)) as [->|]; [simpl; lia|]. apply Z.log2_lt_pow2; [unfold is_u32 in Hx; lia|].
    unfold is_u32, UINT32_MAX in Hx. apply Z.lt_le_trans with (2 ^ 32); [lia|]. apply Z.pow_le_mono_r; lia. }
  assert (Z.testbit UINT32_MAX n = true) as ->; [|by destruct (Z.testbit y n), (Z.testbit z n)].
  change UINT32_MAX with (Z.ones 32). apply Z.ones_spec_low. lia.
Qed.

Lemma maj_form (x y z : Z) : Z.lor (Z.lor (Z.land x y) (Z.land x z)) (Z.land y z) = Maj x y z.
Proof.
  unfold Maj. apply Z.bits_inj'. intros n _. rewrite !Z.lor_spec, !Z.lxor_spec, !Z.land_spec.
  by destruct (Z.testbit x n), (Z.testbit y n), (Z.testbit z n).
Qed.

Lemma round_f_form (t : nat) (b cc d : Z) : is_u32 b -> round_f t b cc d = fips_f t b cc d.
Proof.
  intros Hb. unfold round_f, fips_f. destruct (t <? 20)%nat; [by apply ch_form|].
  destruct (t <? 40)%nat; [done|]. destruct (t <? 60)%nat; [by rewrite maj_form|done].
Qed.

(** The schedule array holds [W_t]. *)
Lemma fips_w_fuel (block : bytes) (f g t : nat) : (t < f)%nat -> (t < g)%nat -> fips_w f block t = fips_w g block t.
Proof.
  revert g t. induction f as [|f IH]; intros g t Hf Hg; [lia|]. destruct g as [|g]; [lia|]. cbn [fips_w].
  destruct (Nat.ltb_spec t 16); [done|]. by rewrite !(IH g) by lia.
Qed.

Lemma extend_words_spec (block : bytes) (n : nat) : forall w, (16 <= length w)%nat ->
  (forall i, (i < length w)%nat -> word_at w i = fips_w (S i) block i) ->
  length (extend_words n w) = (length w + n)%nat /\
  forall i, (i < length w + n)%nat -> word_at (extend_words n w) i = fips_w (S i) block i.
Proof.
  induction n as [|n IH]; intros w Hlen Hw; cbn [extend_words].
  { rewrite Nat.add_0_r. split; [done|]. intros i Hi. apply Hw. lia. }
  set (x := rol32 _ 1). destruct (IH (w ++ [x])) as [H1 H2].
  - rewrite length_app. simpl. lia.
  - intros i Hi. rewrite length_app in Hi. simpl in Hi. unfold word_at in *.
    destruct (Nat.ltb_spec i (length w)) as [Hl|Hl]; [by rewrite app_nth1 by done; apply Hw|].
    assert (i = length w) as -> by lia. rewrite app_nth2, Nat.sub_diag by lia. cbn [nth fips_w].
    rewrite (proj2 (Nat.ltb_ge _ _)) by lia. subst x.
    assert (forall k, (0 < k <= length w)%nat -> word_at w (length w - k) = fips_w (length w) block (length w - k)) as E.
    { intros k Hk. unfold word_at. rewrite Hw by lia. apply fips_w_fuel; lia. }
    unfold word_at in E. by rewrite !E by lia.
  - rewrite length_app in H1, H2. simpl in H1, H2. split; [lia|]. intros i Hi. apply H2. lia.
Qed.

Lemma message_words_spec (block : bytes) (t : nat) : (t < 80)%nat -> word_at (message_words block) t = fips_w (S t) block t.
Proof.
  intros Ht. unfold message_words. apply extend_words_spec; rewrite length_map, length_seq; [done| |lia].
  intros i Hi. unfold word_at. rewrite (nth_indep _ 0 (load_word block 0)) by (by rewrite length_map, length_seq).
  rewrite map_nth, seq_nth by done. cbn [fips_w]. by rewrite (proj2 (Nat.ltb_lt _ _)).
Qed.

Definition regs_ok (r : regs) : Prop := is_u32 (ra r) /\ is_u32 (rb r).

Lemma round_form (block : bytes) (r : regs) (t : nat) : (t < 80)%nat -> regs_ok r ->
  round (message_words block) r t = fips_round block r t /\ regs_ok (fips_round block r t).
Proof.
  intros Ht [Ha Hb]. unfold round, fips_round. rewrite round_f_form, message_words_spec by done.
  split; [done|]. split; [apply u32_range|done].
Qed.

Lemma rounds_form (block : bytes) (ts : list nat) : Forall (fun t => (t < 80)%nat) ts -> forall r, regs_ok r ->
  foldl (round (message_words block)) r ts = foldl (fips_round block) r ts.
Proof.
  induction 1 as [|t ts Ht _ IH]; intros r Hr; [done|]. cbn [foldl].
  destruct (round_form block r t Ht Hr) as [-> H]. by apply IH.
Qed.

(** The chaining value: five words. *)
Definition words_ok (hs : list Z) : Prop := is_u32 (word_at hs 0) /\ is_u32 (word_at hs 1).

Lemma transform_form (c : sha1_ctx) (block : bytes) : words_ok (h c) ->
  sha1_transform c block = Sha1Ctx (fips_compress (h c) block) (nbytes c) (sblock c) (used c) /\
  words_ok (fips_compress (h c) block).
Proof.
  intros Hh. unfold sha1_transform, fips_compress. rewrite rounds_form; [|by apply List.Forall_forall; intros t [_ Ht]%in_seq|exact Hh].
  split; [done|]. split; apply u32_range.
Qed.

(** ** The buffer *)

Lemma full_blocks_same (m x : bytes) : (length m mod 64 + length x < 64)%nat -> full_blocks (m ++ x) = full_blocks m.
Proof.
  intros H. unfold full_blocks. rewrite length_app.
  pose proof (Nat.div_mod_eq (length m) 64) as Hd.
  assert ((length m + length x) / 64 = length m / 64)%nat as ->.
  { symmetry. apply (Nat.div_unique _ _ _ (length m mod 64 + length x)); lia. }
  apply map_ext_in. intros i [_ Hi]%in_seq. rewrite drop_app_le by lia. rewrite take_app_le; [done|].
  rewrite length_drop. lia.
Qed.

Lemma full_blocks_snoc (m x : bytes) : (length m mod 64 + length x = 64)%nat ->
  full_blocks (m ++ x) = full_blocks m ++ [drop (64 * (length m / 64)) m ++ x].
Proof.
  intros H. unfold full_blocks. rewrite length_app.
  pose proof (Nat.div_mod_eq (length m) 64) as Hd.
  assert ((length m + length x) / 64 = S (length m / 64))%nat as ->.
  { symmetry. apply (Nat.div_unique _ _ _ 0); lia. }
  rewrite seq_S, map_app. cbn [map Nat.add]. f_equal.
  - apply map_ext_in. intros i [_ Hi]%in_seq. rewrite drop_app_le by lia. rewrite take_app_le; [done|].
    rewrite length_drop. lia.
  - rewrite drop_app_le by lia. rewrite firstn_all2; [done|]. rewrite length_app, length_drop. lia.
Qed.

Lemma overwrite_length (block p : bytes) (off : nat) : (off + length p <= length block)%nat ->
  length (overwrite block off p) = length block.
Proof. intros H. unfold overwrite. rewrite !length_app, length_take, length_drop. lia. Qed.

Lemma overwrite_take (block p : bytes) (off : nat) : (off + length p <= length block)%nat ->
  take (off + length p) (overwrite block off p) = take off block ++ p.
Proof.
  intros H. unfold overwrite. rewrite app_assoc, take_app_length'; [done|]. rewrite length_app, length_take. lia.
Qed.

(** A context that has absorbed the message [m]. *)
Definition absorbed (c : sha1_ctx) (m : bytes) : Prop :=
  h c = foldl fips_compress H0 (full_blocks m) /\ words_ok (h c) /\
  used c = (length m mod 64)%nat /\ length (sblock c) = 64%nat /\
  take (used c) (sblock c) = drop (64 * (length m / 64)) m.

Lemma update_loop_ok (fuel : nat) : forall (c : sha1_ctx) (m p : bytes),
  absorbed c m -> (length p < fuel)%nat ->
  exists c', update_loop fuel c p = Some c' /\ absorbed c' (m ++ p) /\ nbytes c' = nbytes c.
Proof.
  induction fuel as [|fuel IH]; intros c m p Hc Hf; [lia|]. cbn [update_loop].
  destruct p as [|b0 p0]; [exists c; by rewrite app_nil_r|]. set (p := b0 :: p0) in *.
  destruct Hc as (Hh & Hw & Hu & Hl & Ht).
  pose proof (Nat.mod_upper_bound (length m) 64 ltac:(lia)) as Hm. pose proof (Nat.div_mod_eq (length m) 64) as Hd.
  assert (0 < length p)%nat as Hp by (simpl; lia).
  set (n := if (length p <? 64 - used c)%nat then length p else (64 - used c)%nat).
  assert (n <= length p /\ used c + n <= 64 /\ 0 < n /\ (used c + n < 64 -> n = length p))%nat as (Hn1 & Hn2 & Hn3 & Hn4).
  { subst n. destruct (Nat.ltb_spec (length p) (64 - used c)); lia. }
  assert (length (take n p) = n) as Hlt by (rewrite length_take; lia).
  assert (length (overwrite (sblock c) (used c) (take n p)) = 64%nat) as Hol by (rewrite overwrite_length; lia).
  assert (take (used c + n) (overwrite (sblock c) (used c) (take n p)) = drop (64 * (length m / 64)) m ++ take n p) as Hot.
  { rewrite <- Hlt at 1. rewrite overwrite_take by lia. by rewrite Ht. }
  cbn [h nbytes sblock used].
  assert (forall c1, absorbed c1 (m ++ take n p) -> nbytes c1 = nbytes c ->
    exists c', update_loop fuel c1 (drop n p) = Some c' /\ absorbed c' (m ++ p) /\ nbytes c' = nbytes c) as Hend.
  { intros c1 H1 Hb. destruct (IH c1 _ (drop n p) H1) as (c' & -> & Ha & Hn); [rewrite length_drop; lia|].
    exists c'. split; [done|]. split; [by rewrite <- app_assoc, take_drop in Ha|congruence]. }
  destruct (Nat.eqb_spec (used c + n) 64) as [Hfull|Hpart].
  - apply Hend; [|done]. cbn [h sblock used nbytes].
    destruct (transform_form (Sha1Ctx (h c) (nbytes c) (overwrite (sblock c) (used c) (take n p)) (used c + n))
      (overwrite (sblock c) (used c) (take n p)) Hw) as [-> Hw'].
    cbn [h sblock used] in *. rewrite Hfull, firstn_all2 in Hot by lia. split.
    + rewrite full_blocks_snoc by lia. rewrite foldl_app. cbn [foldl h]. by rewrite Hot, <- Hh.
    + split; [done|]. cbn [used sblock]. rewrite length_app, Hlt.
      assert ((length m + n) / 64 = S (length m / 64))%nat as -> by (symmetry; apply (Nat.div_unique _ _ _ 0); lia).
      split; [|split; [done|]].
      * symmetry. replace (length m + n)%nat with (S (length m / 64) * 64)%nat by lia. apply Nat.Div0.mod_mul.
      * rewrite drop_ge; [done|]. rewrite length_app. lia.
  - apply Hend; [|done]. assert (used c + n < 64)%nat as Hlt64 by lia. split; cbn [h used sblock].
    + rewrite full_blocks_same by lia. done.
    + split; [done|]. rewrite length_app, Hlt.
      assert ((length m + n) / 64 = length m / 64)%nat as Hq by (symmetry; apply (Nat.div_unique _ _ _ (length m mod 64 + n)); lia).
      rewrite Hq. split; [|split; [done|]].
      * rewrite Hu. symmetry. symmetry. apply (Nat.mod_unique _ _ (length m / 64)); lia.
      * rewrite Hot. rewrite drop_app_le by lia. done.
Qed.

Lemma update_ok (c : sha1_ctx) (m p : bytes) : absorbed c m ->
  exists c', sha1_update c p = Some c' /\ absorbed c' (m ++ p) /\ nbytes c' = u64 (nbytes c + Z.of_nat (length p)).
Proof. intros Hc. unfold sha1_update. by apply update_loop_ok; [exact Hc|lia]. Qed.

Lemma init_ok (stale : bytes) : length stale = 64%nat -> absorbed (sha1_init stale) [].
Proof. intros H. repeat split; try done; unfold UINT32_MAX; simpl; lia. Qed.

(** ** Padding and the digest *)

Lemma pad_loop_ok (d : nat) : forall (fuel : nat) (c : sha1_ctx) (m : bytes),
  absorbed c m -> ((length m + d) mod 64 = 56)%nat -> (forall d', (d' < d)%nat -> ((length m + d') mod 64 <> 56)%nat) ->
  (d < fuel)%nat ->
  exists c', pad_loop fuel c = Some c' /\ absorbed c' (m ++ repeat NUL d).
Proof.
  induction d as [|d IH]; intros [|fuel] c m Hc Hd Hmin Hf; try lia; cbn [pad_loop].
  - destruct Hc as (? & ? & Hu & ?). rewrite Nat.add_0_r in Hd. rewrite Hu, Hd. exists c. rewrite app_nil_r. done.
  - assert ((used c =? 56)%nat = false) as ->.
    { apply Nat.eqb_neq. destruct Hc as (_ & _ & -> & _). rewrite <- (Nat.add_0_r (length m)). apply Hmin. lia. }
    destruct (update_ok c m [NUL] Hc) as (c1 & -> & H1 & _).
    destruct (IH fuel c1 (m ++ [NUL]) H1) as (c2 & -> & H2).
    + rewrite length_app. simpl. by rewrite <- Nat.add_assoc.
    + intros d' Hd'. rewrite length_app. simpl. rewrite <- Nat.add_assoc. apply Hmin. lia.
    + lia.
    + exists c2. by rewrite <- app_assoc in H2.
Qed.

Lemma pad_count (n : nat) : let k := ((119 - n mod 64) mod 64)%nat in
  ((n + 1 + k) mod 64 = 56)%nat /\ forall d', (d' < k)%nat -> ((n + 1 + d') mod 64 <> 56)%nat.
Proof.
  intros k. pose proof (Nat.mod_upper_bound n 64 ltac:(lia)). pose proof (Nat.div_mod_eq n 64).
  assert ((n mod 64 <= 55 /\ k = 55 - n mod 64) \/ (56 <= n mod 64 /\ k = 119 - n mod 64))%nat as Hk.
  { subst k. destruct (Nat.leb_spec (n mod 64) 55); [left|right]; (split; [done|]).
    - symmetry. apply (Nat.mod_unique _ _ 1); lia.
    - apply Nat.mod_small. lia. }
  split.
  - symmetry. destruct Hk as [[Hk1 Hk2]|[Hk1 Hk2]].
    + apply (Nat.mod_unique _ _ (n / 64)); lia.
    + apply (Nat.mod_unique _ _ (S (n / 64))); lia.
  - intros d' Hd' E. pose proof (Nat.div_mod_eq (n + 1 + d') 64) as Hd. rewrite E in Hd. lia.
Qed.

Lemma be64_length (v : Z) : length (be64 v) = 8%nat.
Proof. unfold be64. by rewrite length_map, length_seq. Qed.

Lemma final_ok (c : sha1_ctx) (m : bytes) : absorbed c m -> nbytes c = Z.of_nat (length m) ->
  8 * Z.of_nat (length m) <= UINT64_MAX -> sha1_final c = Some (fips_sha1 m).
Proof.
  intros Hc Hn Hsz. unfold sha1_final. rewrite Hn, u64_small by (unfold is_u64; lia).
  destruct (update_ok c m [x80] Hc) as (c1 & -> & H1 & _).
  destruct (pad_count (length m)) as [Hk1 Hk2].
  destruct (pad_loop_ok ((119 - length m mod 64) mod 64) 65 c1 (m ++ [x80]) H1) as (c2 & -> & H2).
  - by rewrite length_app.
  - rewrite length_app. exact Hk2.
  - pose proof (Nat.mod_upper_bound (119 - length m mod 64) 64). lia.
  - destruct (update_ok c2 _ (be64 (Z.of_nat (length m) * 8)) H2) as (c3 & -> & (H3 & _) & _).
    unfold fips_sha1, padded. rewrite H3, Z.mul_comm. by rewrite <- !app_assoc.
Qed.

(** Feeding a context the chunks of a message in turn. *)
Fixpoint update_all (c : sha1_ctx) (chunks : list bytes) : option sha1_ctx :=
  match chunks with
  | [] => Some c
  | p :: chunks => match sha1_update c p with Some c => update_all c chunks | None => None end
  end.

Lemma update_all_ok (chunks : list bytes) : forall (c : sha1_ctx) (m : bytes),
  absorbed c m -> nbytes c = Z.of_nat (length m) -> Z.of_nat (length (m ++ concat chunks)) <= UINT64_MAX ->
  exists c', update_all c chunks = Some c' /\ absorbed c' (m ++ concat chunks) /\
    nbytes c' = Z.of_nat (length (m ++ concat chunks)).
Proof.
  induction chunks as [|p chunks IH]; intros c m Hc Hn Hsz; cbn [update_all concat] in *.
  { exists c. by rewrite app_nil_r. }
  rewrite app_assoc in Hsz |- *. destruct (update_ok c m p Hc) as (c1 & -> & H1 & Hb1). apply IH; [done| |done].
  rewrite Hb1, Hn, length_app. rewrite u64_small; [lia|]. unfold is_u64. rewrite !length_app in Hsz. lia.
Qed.

(** C16 The server's SHA-1 is the standard's: however a message shorter than
    2^61 bytes is cut into chunks, and whatever the context's buffer held
    before, initialising, updating chunk by chunk and finishing ends and gives
    the FIPS 180-4 digest of the whole message (blocks of the message padded
    at once, with the standard's choice, parity and majority functions and
    recursive message schedule); [sha1_bytes_hex] is its hexadecimal text. *)
Theorem sha1_matches_fips (stale : bytes) (chunks : list bytes) :
  length stale = 64%nat -> 8 * Z.of_nat (length (concat chunks)) <= UINT64_MAX ->
  (exists c, update_all (sha1_init stale) chunks = Some c /\ sha1_final c = Some (fips_sha1 (concat chunks))) /\
  sha1_bytes_hex stale (concat chunks) = Some (hex20 (fips_sha1 (concat chunks))).
Proof.
  intros Hs Hsz. split.
  - destruct (update_all_ok chunks _ _ (init_ok _ Hs)) as (c & E & Hc & Hn); [done|simpl; lia|]. cbn [app] in *.
    exists c. split; [done|]. by apply final_ok.
  - unfold sha1_bytes_hex. destruct (update_ok _ _ (concat chunks) (init_ok _ Hs)) as (c & -> & Hc & Hn). cbn [app] in Hc.
    rewrite (final_ok c (concat chunks) Hc); [done| |done]. rewrite Hn. apply u64_small. unfold is_u64. simpl. lia.
Qed.

Lemma sha1_matches_fips_witness :
  (exists c, update_all (sha1_init (repeat x41 64)) [B "ab"; B "c"] = Some c /\ sha1_final c = Some (fips_sha1 (B "abc"))) /\
  sha1_bytes_hex (repeat x41 64) (B "abc") = Some (hex20 (fips_sha1 (B "abc"))).
Proof. refine (sha1_matches_fips (repeat x41 64) [B "ab"; B "c"] _ _); [reflexivity|vm_compute; discriminate]. Defined.

(** The standard's test vector. *)
Example sha1_abc : sha1_bytes_hex (repeat x41 64) (B "abc") = Some (B "a9993e364706816aba3e25717850c26c9cd0d89d").
Proof. vm_compute. reflexivity. Qed.
