(* ===== verification/KvFile.v ===== *)
(** * Files of the KV disk cache (ds4_server.c)

    The header and the tool-id map of a cache file, the names of the files,
    and the scan of the cache directory.  A directory is the list of its files
    in the order of readdir; [opendir] fails on [None]. *)
From stdpp Require Import gmap.
From S2P Require Import Prelude.
From S2P Require Import CNum.
From S2P Require Import CFloat.
From S2P Require Import ServerJson.
From S2P Require Import ServerStream.
From S2P Require Import ServerMsgs.
From S2P Require Import ToolMemory.
Open Scope Z_scope.

(** ** Constants and data *)

Definition KV_CACHE_VERSION : Z := 1.
Definition KV_CACHE_FIXED_HEADER : Z := 48.
Definition KV_CACHE_DEFAULT_MB : Z := 4096.
Definition KV_EXT_TOOL_MAP : Z := 1.
Definition KV_EXT_RESPONSES_VISIBLE : Z := 2.
Definition KV_EXT_THINKING_VISIBLE : Z := 4.
Definition KV_TOOL_MAP_VERSION : Z := 1.
Definition KV_TOOL_MAP_HEADER : Z := 8.
Definition KV_REASON_UNKNOWN : Z := 0.
Definition KV_REASON_SHUTDOWN : Z := 4.

Definition kv_reason_code (reason : option bytes) : Z :=
  match reason with
  | None => KV_REASON_UNKNOWN
  | Some r =>
      if str_eqb r (B "cold") then 1
      else if str_eqb r (B "continued") then 2
      else if str_eqb r (B "evict") then 3
      else if str_eqb r (B "shutdown") then KV_REASON_SHUTDOWN
      else KV_REASON_UNKNOWN
  end.

Record kv_entry := KvEntry {
  sha : bytes;
  path : bytes;
  quant_bits : Z;
  reason : Z;
  tokens : Z;
  hits : Z;
  ctx_size : Z;
  ext_flags : Z;
  created_at : Z;
  last_used : Z;
  payload_bytes : Z;
  text_bytes : Z;
  file_size : Z
}.

#[export] Instance kv_entry_eq_dec : EqDecision kv_entry.
Proof. solve_decision. Defined.

Record kv_cache_options := KvOptions {
  min_tokens : Z;
  cold_max_tokens : Z;
  continued_interval_tokens : Z;
  boundary_trim_tokens : Z;
  boundary_align_tokens : Z
}.

Definition kv_cache_default_options : kv_cache_options := KvOptions 512 30000 10000 32 2048.

Record kv_disk_cache := KvDiskCache {
  enabled : bool;
  dir : bytes;
  budget_bytes : Z;
  reject_different_quant : bool;
  opt : kv_cache_options;
  continued_last_store_tokens : Z;
  kvs : list kv_entry
}.
#[export] Instance kv_entry_fields : Fields kv_entry :=
  rd_pure KvEntry <*> sha <*> path <*> quant_bits <*> reason <*> tokens <*> hits <*> ctx_size <*> ext_flags
    <*> created_at <*> last_used <*> payload_bytes <*> text_bytes <*> file_size.
#[export] Instance kv_cache_fields : Fields kv_disk_cache :=
  rd_pure KvDiskCache <*> enabled <*> dir <*> budget_bytes <*> reject_different_quant <*> opt
    <*> continued_last_store_tokens <*> kvs.

(** ** Little-endian integers *)

Definition le_put32 (v : Z) : bytes := [zb v; zb (Z.shiftr v 8); zb (Z.shiftr v 16); zb (Z.shiftr v 24)].
Definition le_put64 (v : Z) : bytes := map (fun i => zb (Z.shiftr v (8 * Z.of_nat i))) (seq 0 8).

(** [p[i]] of a buffer of sufficient length. *)
Definition u8_at (p : bytes) (i : nat) : Z := bz (nth i p NUL).

Definition le_get32 (p : bytes) : Z :=
  Z.lor (Z.lor (Z.lor (u8_at p 0) (Z.shiftl (u8_at p 1) 8)) (Z.shiftl (u8_at p 2) 16)) (Z.shiftl (u8_at p 3) 24).

Definition le_get64 (p : bytes) : Z :=
  foldl (fun v i => Z.lor (u64 (Z.shiftl v 8)) (u8_at p i)) 0 [7; 6; 5; 4; 3; 2; 1; 0]%nat.

(** ** The header *)

Definition kv_fill_header (quant_bits reason ext_flags tokens hits ctx_size created_at last_used payload_bytes : Z) : bytes :=
  [x4b; x56; x43; zb KV_CACHE_VERSION; zb quant_bits; zb reason; zb ext_flags; NUL] ++
  le_put32 tokens ++ le_put32 hits ++ le_put32 ctx_size ++ repeat NUL 4 ++
  le_put64 created_at ++ le_put64 last_used ++ le_put64 payload_bytes.

(** [fread(buf, 1, n, fp) == n]: the bytes and the rest of the file. *)
Definition read_n (n : nat) (fp : bytes) : option (bytes * bytes) :=
  if (n <=? length fp)%nat then Some (take n fp, drop n fp) else None.

(** The entry and the file behind the header; the text length is in the
    entry. *)
Definition kv_read_header (fp : bytes) : option (kv_entry * bytes) :=
  match read_n 48 fp with
  | None => None
  | Some (h, fp) =>
      if negb ((u8_at h 0 =? 0x4b) && (u8_at h 1 =? 0x56) && (u8_at h 2 =? 0x43) && (u8_at h 3 =? KV_CACHE_VERSION)) then None
      else
        match read_n 4 fp with
        | None => None
        | Some (tb, fp) =>
            let e := KvEntry [] [] (u8_at h 4) (if u8_at h 5 <=? KV_REASON_SHUTDOWN then u8_at h 5 else KV_REASON_UNKNOWN)
              (le_get32 (drop 8 h)) (le_get32 (drop 12 h)) (le_get32 (drop 16 h)) (u8_at h 6)
              (le_get64 (drop 24 h)) (le_get64 (drop 32 h)) (le_get64 (drop 40 h)) (le_get32 tb) 0 in
            if negb (tokens e =? 0) && ((quant_bits e =? 2) || (quant_bits e =? 4)) then Some (e, fp) else None
        end
  end.

(** ** Names *)

Definition byte_isxdigit (b : byte) : bool := match json_hex b with Some _ => true | None => false end.

Definition sha_hex_name (name : bytes) : option bytes :=
  if negb (length name =? 43)%nat || negb (str_eqb (drop 40 name) (B ".kv")) then None
  else if forallb byte_isxdigit (take 40 name) then Some (map byte_tolower (take 40 name))
  else None.

Definition path_join (dir name : bytes) : bytes :=
  match last dir with
  | Some c => if Byte.eqb c x2f then dir ++ name else dir ++ x2f :: name
  | None => x2f :: name
  end.

Definition kv_path_for_sha (kc : kv_disk_cache) (sha : bytes) : bytes := path_join (dir kc) (sha ++ B ".kv").

(** ** The directory *)

(** A file of the cache directory: its name and bytes, and whether fopen and
    unlink succeed on it. *)
Record kv_file := KvFile { f_name : bytes; f_content : bytes; f_readable : bool; f_removable : bool }.

Definition kv_read_entry_file (fpath fsha : bytes) (f : kv_file) : option kv_entry :=
  let st_size := Z.of_nat (length (f_content f)) in
  if st_size <? KV_CACHE_FIXED_HEADER + 4 then None
  else if negb (f_readable f) then None
  else
    match kv_read_header (f_content f) with
    | None => None
    | Some (e, _) =>
        let fixed := KV_CACHE_FIXED_HEADER + 4 in
        if (UINT64_MAX - fixed <? text_bytes e) || (UINT64_MAX - fixed - text_bytes e <? payload_bytes e) then None
        else
          let expected := fixed + text_bytes e + payload_bytes e in
          if st_size <? expected then None
          else Some (e <| sha := fsha |> <| path := fpath |> <| file_size := st_size |>)
    end.

Definition kv_scan_file (kc : kv_disk_cache) (es : list kv_entry) (f : kv_file) : list kv_entry :=
  match sha_hex_name (f_name f) with
  | None => es
  | Some s =>
      match kv_read_entry_file (path_join (dir kc) (f_name f)) s f with
      | Some e => es ++ [e]
      | None => es
      end
  end.

Definition kv_cache_refresh (kc : kv_disk_cache) (d : option (list kv_file)) : kv_disk_cache :=
  if negb (enabled kc) then kc
  else
    let kc := kc <| kvs := [] |> in
    match d with
    | None => kc
    | Some files => kc <| kvs := foldl (kv_scan_file kc) [] files |>
    end.

(** The file's bytes after a successful touch. *)
Definition kv_cache_touch_file (content : bytes) (hits now : Z) : option bytes :=
  match kv_read_header content with
  | None => None
  | Some (e, _) =>
      Some (kv_fill_header (quant_bits e) (reason e) (ext_flags e) (tokens e) hits (ctx_size e) (created_at e) now
              (payload_bytes e) ++ drop 48 content)
  end.
