(* ===== verification/KvFileProps.v ===== *)
(** * Properties of the cache files

    A header is read back as it was written, and refreshing a file's use
    counters changes nothing else. *)
From stdpp Require Import gmap.
From S2P Require Import Prelude.
From S2P Require Import CNum.
From S2P Require Import CFloat.
From S2P Require Import ServerJson.
From S2P Require Import ServerStream.
From S2P Require Import ServerMsgs.
From S2P Require Import ToolMemory.
From S2P Require Import KvFile.
Open Scope Z_scope.

(** ** Integers *)

Lemma bz_zb_mod (z : Z) : bz (zb z) = z mod 256.
Proof.
  rewrite <- (bz_zb (z mod 256)) by (apply Z.mod_pos_bound; lia). unfold zb. by rewrite Z.mod_mod by lia.
Qed.

Lemma shr_div (v k : Z) : 0 <= k -> Z.shiftr v k = v / 2 ^ k.
Proof. apply Z.shiftr_div_pow2. Qed.

(** Appending a byte below or above. *)
Lemma lor_above (lo hi k : Z) : 0 <= k -> 0 <= lo < 2 ^ k -> Z.lor lo (Z.shiftl hi k) = lo + hi * 2 ^ k.
Proof. intros Hk Hlo. rewrite Z.shiftl_mul_pow2, Z.lor_comm, lor_fields by lia. lia. Qed.

Lemma le_get_put32 (v : Z) (rest : bytes) : is_u32 v -> le_get32 (le_put32 v ++ rest) = v.
Proof.
  intros Hv. unfold is_u32, UINT32_MAX in Hv. unfold le_get32, le_put32, u8_at. cbn [app nth].
  rewrite !bz_zb_mod, !shr_div by lia.
  set (a := v / 2 ^ 8). set (b := v / 2 ^ 16). set (c := v / 2 ^ 24).
  assert (v = 256 * a + v mod 256) as E1 by (apply Z.div_mod; lia).
  assert (a = 256 * b + a mod 256) as E2.
  { replace b with (a / 256) by (subst a b; rewrite Z.div_div by lia; done). apply Z.div_mod. lia. }
  assert (b = 256 * c + b mod 256) as E3.
  { replace c with (b / 256) by (subst b c; rewrite Z.div_div by lia; done). apply Z.div_mod. lia. }
  pose proof (Z.mod_pos_bound v 256 ltac:(lia)). pose proof (Z.mod_pos_bound a 256 ltac:(lia)).
  pose proof (Z.mod_pos_bound b 256 ltac:(lia)).
  assert (0 <= c < 256) as Hc by (subst c; split; [apply Z.div_pos; lia|apply Z.div_lt_upper_bound; lia]).
  rewrite (Z.mod_small c) by lia.
  rewrite (lor_above (v mod 256) _ 8), (lor_above _ _ 16), (lor_above _ _ 24) by lia. lia.
Qed.

Lemma le_put32_length (v : Z) : length (le_put32 v) = 4%nat.
Proof. done. Qed.

Lemma le_put64_length (v : Z) : length (le_put64 v) = 8%nat.
Proof. done. Qed.

(** One turn of [le_get64]: the bytes so far are the high part of [v]. *)
Lemma get64_step (v : Z) (k : nat) : 0 <= v <= UINT64_MAX -> (k < 8)%nat ->
  Z.lor (u64 (Z.shiftl (v / 2 ^ (8 * Z.of_nat (S k))) 8)) (v / 2 ^ (8 * Z.of_nat k) mod 256) = v / 2 ^ (8 * Z.of_nat k).
Proof.
  intros Hv Hk. unfold UINT64_MAX in Hv. set (a := v / 2 ^ (8 * Z.of_nat k)).
  assert (v / 2 ^ (8 * Z.of_nat (S k)) = a / 256) as ->.
  { subst a. rewrite Z.div_div by lia. f_equal. rewrite <- (Z.pow_add_r 2 _ 8) by lia. f_equal. lia. }
  assert (0 <= a <= v) as Ha.
  { subst a. split; [apply Z.div_pos; lia|]. apply Z.div_le_upper_bound; [lia|]. nia. }
  pose proof (Z.div_mod a 256 ltac:(lia)). pose proof (Z.mod_pos_bound a 256 ltac:(lia)).
  rewrite Z.shiftl_mul_pow2 by lia. change (2 ^ 8) with 256.
  rewrite u64_small by (unfold is_u64, UINT64_MAX; split; [apply Z.mul_nonneg_nonneg; [apply Z.div_pos; lia|lia]|lia]).
  rewrite (lor_fields (a / 256) 8) by lia. lia.
Qed.

Lemma le_get_put64 (v : Z) (rest : bytes) : is_u64 v -> le_get64 (le_put64 v ++ rest) = v.
Proof.
  intros Hv. unfold is_u64 in Hv. unfold le_get64, le_put64, u8_at. cbn [foldl seq map app nth].
  rewrite !bz_zb_mod, !shr_div by lia.
  assert (v / 2 ^ (8 * Z.of_nat 8) = 0) as H8 by (apply Z.div_small; unfold UINT64_MAX in Hv; lia).
  pose proof (get64_step v 7 Hv ltac:(lia)) as E. rewrite H8 in E. change (u64 (Z.shiftl 0 8)) with 0 in *. rewrite E.
  rewrite (get64_step v 6), (get64_step v 5), (get64_step v 4), (get64_step v 3), (get64_step v 2), (get64_step v 1),
    (get64_step v 0) by (done || lia).
  apply Z.div_1_r.
Qed.

(** ** The header *)

(** The fields fit the file format. *)
Definition storable (e : kv_entry) : Prop :=
  (quant_bits e = 2 \/ quant_bits e = 4) /\ 0 <= reason e <= 4 /\ 0 <= ext_flags e < 256 /\
  is_u32 (tokens e) /\ tokens e <> 0 /\ is_u32 (hits e) /\ is_u32 (ctx_size e) /\ is_u32 (text_bytes e) /\
  is_u64 (created_at e) /\ is_u64 (last_used e) /\ is_u64 (payload_bytes e).

(** The bytes of a file: header, text length, and what follows. *)
Definition file_of (e : kv_entry) (body : bytes) : bytes :=
  kv_fill_header (quant_bits e) (reason e) (ext_flags e) (tokens e) (hits e) (ctx_size e) (created_at e) (last_used e)
    (payload_bytes e) ++ le_put32 (text_bytes e) ++ body.

Lemma fill_header_length (q r x t hi c cr lu pb : Z) : length (kv_fill_header q r x t hi c cr lu pb) = 48%nat.
Proof. reflexivity. Qed.

Lemma read_n_app (n : nat) (a b : bytes) : length a = n -> read_n n (a ++ b) = Some (a, b).
Proof.
  intros H. unfold read_n. rewrite length_app, (proj2 (Nat.leb_le _ _)) by lia.
  by rewrite take_app_length', drop_app_length' by done.
Qed.

Lemma u8_small (z : Z) : 0 <= z < 256 -> bz (zb z) = z.
Proof. apply bz_zb. Qed.

Lemma read_file_of (e : kv_entry) (body : bytes) : storable e ->
  kv_read_header (file_of e body) = Some (e <| sha := [] |> <| path := [] |> <| file_size := 0 |>, body).
Proof.
  intros (Hq & Hr & Hx & Ht & Ht0 & Hh & Hc & Hb & Hca & Hlu & Hp). unfold kv_read_header, file_of.
  rewrite read_n_app by apply fill_header_length. rewrite (read_n_app 4) by apply le_put32_length.
  set (h := kv_fill_header _ _ _ _ _ _ _ _ _).
  assert (u8_at h 4 = quant_bits e) as -> by (apply u8_small; lia).
  assert (u8_at h 5 = reason e) as -> by (apply u8_small; lia).
  assert (u8_at h 6 = ext_flags e) as -> by (apply u8_small; lia).
  assert (le_get32 (drop 8 h) = tokens e) as -> by (by apply le_get_put32).
  assert (le_get32 (drop 12 h) = hits e) as -> by (by apply le_get_put32).
  assert (le_get32 (drop 16 h) = ctx_size e) as -> by (by apply le_get_put32).
  assert (le_get64 (drop 24 h) = created_at e) as -> by (by apply le_get_put64).
  assert (le_get64 (drop 32 h) = last_used e) as -> by (by apply le_get_put64).
  assert (le_get64 (drop 40 h) = payload_bytes e) as ->.
  { rewrite <- (app_nil_r (drop 40 h)). by apply (le_get_put64 _ []). }
  assert (le_get32 (le_put32 (text_bytes e)) = text_bytes e) as ->.
  { rewrite <- (app_nil_r (le_put32 _)). by apply le_get_put32. }
  assert ((u8_at h 0 =? 75) && (u8_at h 1 =? 86) && (u8_at h 2 =? 67) && (u8_at h 3 =? KV_CACHE_VERSION) = true) as -> by done.
  cbn [negb tokens quant_bits]. rewrite (proj2 (Z.eqb_neq _ _) Ht0).
  assert ((quant_bits e =? 2) || (quant_bits e =? 4) = true) as -> by (destruct Hq as [-> | ->]; done).
  cbn [negb andb]. rewrite (proj2 (Z.leb_le _ _)) by (unfold KV_REASON_SHUTDOWN; lia). by destruct e.
Qed.

Lemma storable_touch (e : kv_entry) (hi now : Z) : storable e -> is_u32 hi -> is_u64 now ->
  storable (e <| hits := hi |> <| last_used := now |>).
Proof. unfold storable. intros H Hh Hn. simpl. tauto. Qed.

(** A cache file is read back as it was written.  For every entry whose
    fields fit the format, written in front of any body (text, payload, tool
    map): [kv_read_header] returns exactly its fields and the body;
    [kv_read_entry_file] accepts the file exactly when the body is not shorter
    than the text and the payload it announces, so a truncated file is never
    used; and [kv_cache_touch_file] gives the file of the same entry with the
    new hit count and time of use, body and other fields untouched. *)
Theorem kv_file_roundtrip (e : kv_entry) (body fpath fsha : bytes) (f : kv_file) (hi now : Z) :
  storable e -> is_u32 hi -> is_u64 now -> f_content f = file_of e body -> f_readable f = true ->
  payload_bytes e <= INT64_MAX ->
  kv_read_header (f_content f) = Some (e <| sha := [] |> <| path := [] |> <| file_size := 0 |>, body) /\
  kv_read_entry_file fpath fsha f =
    (if text_bytes e + payload_bytes e <=? Z.of_nat (length body)
     then Some (e <| sha := fsha |> <| path := fpath |> <| file_size := 52 + Z.of_nat (length body) |>) else None) /\
  kv_cache_touch_file (f_content f) hi now = Some (file_of (e <| hits := hi |> <| last_used := now |>) body).
Proof.
  intros He Hhi Hnow Hf Hread Hpay. rewrite Hf. pose proof (read_file_of e body He) as Hr. split; [done|].
  assert (Z.of_nat (length (file_of e body)) = 52 + Z.of_nat (length body)) as Hlen.
  { unfold file_of. rewrite !length_app, fill_header_length, le_put32_length. lia. }
  split.
  - unfold kv_read_entry_file. rewrite Hf, Hlen, Hread, Hr. cbn [negb]. set (n := Z.of_nat (length body)).
    change (KV_CACHE_FIXED_HEADER + 4) with 52. rewrite (proj2 (Z.ltb_ge _ _)) by lia. cbn zeta.
    change (text_bytes (e <| sha := [] |> <| path := [] |> <| file_size := 0 |>)) with (text_bytes e).
    change (payload_bytes (e <| sha := [] |> <| path := [] |> <| file_size := 0 |>)) with (payload_bytes e).
    destruct He as (_ & _ & _ & _ & _ & _ & _ & Hb & _ & _ & Hp). unfold is_u32, is_u64, UINT32_MAX, UINT64_MAX, INT64_MAX in *.
    rewrite (proj2 (Z.ltb_ge _ _)) by lia. rewrite (proj2 (Z.ltb_ge (2 ^ 64 - 1 - 52 - text_bytes e) _)) by lia. cbn [orb].
    destruct (Z.leb_spec (text_bytes e + payload_bytes e) n), (Z.ltb_spec (52 + n) (52 + text_bytes e + payload_bytes e));
      (done || lia).
  - unfold kv_cache_touch_file. by rewrite Hr.
Qed.

(** ** Names *)

Lemma hex_name_ok (s : bytes) : length s = 40%nat -> Forall (fun b => byte_isxdigit b = true /\ byte_tolower b = b) s ->
  sha_hex_name (s ++ B ".kv") = Some s.
Proof.
  intros Hl Hs. unfold sha_hex_name. rewrite length_app, Hl. rewrite drop_app_length', take_app_length' by done. cbn.
  assert (forallb byte_isxdigit s = true) as ->.
  { apply forallb_forall. intros b Hb. rewrite List.Forall_forall in Hs. by apply Hs. }
  f_equal. clear Hl. induction Hs as [|b s [_ Hb] _ IH]; [done|]. cbn [map]. by rewrite Hb, IH.
Qed.

(** ** Witnesses *)

Definition ex_entry : kv_entry := KvEntry [] [] 4 2 1000 7 65536 1 1700000000 1700000100 3 2 0.
Definition ex_file : kv_file := KvFile (B "x") (file_of ex_entry (B "hiABC")) true true.

Lemma ex_entry_storable : storable ex_entry.
Proof. unfold storable, is_u32, is_u64, UINT32_MAX, UINT64_MAX. cbn. lia. Qed.

Lemma kv_file_roundtrip_witness :
  kv_read_header (f_content ex_file) = Some (ex_entry <| sha := [] |> <| path := [] |> <| file_size := 0 |>, B "hiABC") /\
  kv_read_entry_file (B "d/x") (B "s") ex_file =
    (if text_bytes ex_entry + payload_bytes ex_entry <=? Z.of_nat (length (B "hiABC"))
     then Some (ex_entry <| sha := B "s" |> <| path := B "d/x" |> <| file_size := 52 + Z.of_nat (length (B "hiABC")) |>) else None) /\
  kv_cache_touch_file (f_content ex_file) 8 1700000200 =
    Some (file_of (ex_entry <| hits := 8 |> <| last_used := 1700000200 |>) (B "hiABC")).
Proof.
  refine (kv_file_roundtrip ex_entry (B "hiABC") (B "d/x") (B "s") ex_file 8 1700000200 ex_entry_storable _ _ _ _ _).
  - unfold is_u32, UINT32_MAX. lia.
  - unfold is_u64, UINT64_MAX. lia.
  - reflexivity.
  - reflexivity.
  - unfold INT64_MAX. cbn. lia.
Defined.
