(* ===== verification/KvToolMap.v ===== *)
(** * The tool-id map of a cache file (ds4_server.c)

    Finding the tool-call blocks of a transcript, and saving and restoring the
    ids remembered for them.  A stream being written has room for a number of
    bytes; a write that does not fit is short. *)
From stdpp Require Import gmap.
From S2P Require Import Prelude.
From S2P Require Import CNum.
From S2P Require Import CFloat.
From S2P Require Import ServerJson.
From S2P Require Import ServerStream.
From S2P Require Import ServerMsgs.
From S2P Require Import Dsml.
From S2P Require Import ToolMemory.
From S2P Require Import KvFile.
Open Scope Z_scope.

(** ** Tool-call blocks in a text *)

(** How a block may start and end. *)
Definition forms : list (bytes * bytes) :=
  [(LF :: LF :: DS4_TOOL_CALLS_START, DS4_TOOL_CALLS_END);
   (DS4_TOOL_CALLS_START, DS4_TOOL_CALLS_END);
   (LF :: LF :: DS4_TOOL_CALLS_START_SHORT, DS4_TOOL_CALLS_END_SHORT);
   (DS4_TOOL_CALLS_START_SHORT, DS4_TOOL_CALLS_END_SHORT);
   (LF :: LF :: B "<tool_calls>", B "</tool_calls>");
   (B "<tool_calls>", B "</tool_calls>")].

Definition better_block (p : bytes) (best : option (nat * nat)) (form : bytes * bytes) : option (nat * nat) :=
  match strstr_pos p (fst form) with
  | None => best
  | Some s =>
      if match best with Some (b, _) => (b <=? s)%nat | None => false end then best
      else
        match strstr_pos (drop s p) (snd form) with
        | None => best
        | Some e => Some (s, s + e + length (snd form))%nat
        end
  end.

(** Offsets of the first block and of its end; [None] is NULL. *)
Definition find_next_dsml_tool_block (p : bytes) : option (nat * nat) := foldl (better_block p) None forms.

(** ** Counting and measuring *)

Fixpoint count_loop (fuel : nat) (st : tm_state) (p : bytes) (count : Z) : pres Z :=
  match fuel with
  | O => Error OutOfFuel
  | S fuel =>
      match find_next_dsml_tool_block p with
      | None => Ok count
      | Some (s, e) =>
          match tool_memory_find_block_locked st (take (e - s) (drop s p)) with
          | Some b => x <- block st b ;; count <- int_step (count + b_refs x) ;; count_loop fuel st (drop e p) count
          | None => count_loop fuel st (drop e p) count
          end
      end
  end.

Definition tool_memory_count_dsml_in_text (disabled : bool) (st : tm_state) (text : bytes) : pres Z :=
  match disabled, text with
  | false, _ :: _ => count_loop (S (length text)) st text 0
  | _, _ => Ok 0
  end.

(** What the scans of a text do at a block that was not seen in this scan. *)
Fixpoint scan_blocks {A : Type} (fuel : nat) (scan : Z)
    (visit : tm_state -> tool_memory_block -> A -> pres (A + A)) (st : tm_state) (p : bytes) (acc : A)
    : pres (bool * A * tm_state) :=
  match fuel with
  | O => Error OutOfFuel
  | S fuel =>
      match find_next_dsml_tool_block p with
      | None => Ok (true, acc, st)
      | Some (s, e) =>
          match tool_memory_find_block_locked st (take (e - s) (drop s p)) with
          | None => scan_blocks fuel scan visit st (drop e p) acc
          | Some b =>
              x <- block st b ;;
              if b_seen x =? scan then scan_blocks fuel scan visit st (drop e p) acc
              else
                st <- set_block st b (fun x => x <| b_seen := scan |>) ;;
                r <- visit st x acc ;;
                match r with
                | inl acc => scan_blocks fuel scan visit st (drop e p) acc
                | inr acc => Ok (false, acc, st)
                end
          end
      end
  end.

(** The loop over the entries of a block: [inr] is the early return. *)
Fixpoint measure_entries (fuel : nat) (st : tm_state) (x : tool_memory_block) (e : option positive) (acc : Z * Z)
    : pres ((Z * Z) + (Z * Z)) :=
  match fuel with
  | O => Error OutOfFuel
  | S fuel =>
      match e with
      | None => Ok (inl acc)
      | Some a =>
          y <- entry st a ;;
          let '(count, nb) := acc in
          let id_len := strlen (e_id y) in
          let dsml_len := b_len x in
          if (UINT32_MAX <? id_len) || (UINT32_MAX <? dsml_len) then measure_entries fuel st x (e_block_next y) acc
          else if count =? UINT32_MAX then Ok (inr acc)
          else if (UINT64_MAX - nb <? 8) || (UINT64_MAX - nb - 8 <? id_len) || (UINT64_MAX - nb - 8 - id_len <? dsml_len)
          then Ok (inr acc)
          else measure_entries fuel st x (e_block_next y) (count + 1, nb + 8 + id_len + dsml_len)
      end
  end.

Definition next_scan (st : tm_state) : Z * tm_state :=
  let scan := u64 (scan_clock (mem st) + 1) in
  (scan, st <| mem ::= fun m => m <| scan_clock := scan |> |>).

(** Success with the count and the bytes, and the state. *)
Definition kv_tool_map_measure_locked (st : tm_state) (text : bytes) : pres (option (Z * Z) * tm_state) :=
  let '(scan, st) := next_scan st in
  let* (ok, acc, st) := scan_blocks (S (length text)) scan
    (fun st x acc => measure_entries (S (size (ents st))) st x (b_entries x) acc) st text (0, KV_TOOL_MAP_HEADER) in
  Ok (if (ok : bool) then Some (if fst acc =? 0 then (0, 0) else acc) else None, st).

Definition kv_tool_map_serialized_size (disabled : bool) (st : tm_state) (text : bytes) : pres (option Z * tm_state) :=
  match disabled, text with
  | false, _ :: _ =>
      let* (r, st) := kv_tool_map_measure_locked st text in
      Ok (snd <$> r, st)
  | _, _ => Ok (Some 0, st)
  end.

(** ** Writing *)

Record out_stream := OutStream { written : bytes; fp_room : nat }.

(** [fwrite(p, 1, n, fp) == n]. *)
Definition fwrite (p : bytes) (fp : out_stream) : bool * out_stream :=
  let n := Nat.min (length p) (fp_room fp) in
  ((n =? length p)%nat, OutStream (written fp ++ take n p) (fp_room fp - n)).

(** [fwrite(a) && fwrite(b) && ...]. *)
Fixpoint fwrites (ps : list bytes) (fp : out_stream) : bool * out_stream :=
  match ps with
  | [] => (true, fp)
  | p :: ps => let '(ok, fp) := fwrite p fp in if ok then fwrites ps fp else (false, fp)
  end.

Fixpoint write_entries (fuel : nat) (st : tm_state) (x : tool_memory_block) (e : option positive) (fp : out_stream)
    : pres (out_stream + out_stream) :=
  match fuel with
  | O => Error OutOfFuel
  | S fuel =>
      match e with
      | None => Ok (inl fp)
      | Some a =>
          y <- entry st a ;;
          let id_len := strlen (e_id y) in
          let dsml_len := b_len x in
          if (UINT32_MAX <? id_len) || (UINT32_MAX <? dsml_len) then write_entries fuel st x (e_block_next y) fp
          else
            let '(ok, fp) := fwrites [le_put32 id_len ++ le_put32 dsml_len; e_id y; b_dsml x] fp in
            if ok then write_entries fuel st x (e_block_next y) fp else Ok (inr fp)
      end
  end.

(** Whether it worked, the bytes of the map, the stream and the state. *)
Definition kv_tool_map_write (disabled : bool) (st : tm_state) (fp : out_stream) (text : bytes)
    : pres (bool * Z * out_stream * tm_state) :=
  match disabled, text with
  | false, _ :: _ =>
      let* (m, st) := kv_tool_map_measure_locked st text in
      match m with
      | None => Ok (false, 0, fp, st)
      | Some (count, nb) =>
          if count =? 0 then Ok (true, 0, fp, st)
          else
            let '(ok, fp) := fwrite ([x4b; x54; x4d; zb KV_TOOL_MAP_VERSION] ++ le_put32 count) fp in
            let '(scan, st) := next_scan st in
            if negb ok then Ok (false, 0, fp, st)
            else
              let* (ok, fp, st) := scan_blocks (S (length text)) scan
                (fun st x fp => write_entries (S (size (ents st))) st x (b_entries x) fp) st text fp in
              Ok (ok, if (ok : bool) then nb else 0, fp, st)
      end
  | _, _ => Ok (true, 0, fp, st)
  end.

(** ** Reading *)

Fixpoint load_entries {_ : Malloc} (n : nat) (disabled : bool) (st : tm_state) (fp : bytes) (wanted : option stop_list)
    (loaded : Z) : pres (Z * tm_state) :=
  match n with
  | O => Ok (loaded, st)
  | S n =>
      match read_n 8 fp with
      | None => Ok (loaded, st)
      | Some (lens, fp) =>
          let id_len := le_get32 lens in
          let dsml_len := le_get32 (drop 4 lens) in
          if (id_len =? 0) || (256 <? id_len) || (dsml_len =? 0) || (DS4_TOOL_MEMORY_MAX_BYTES <? dsml_len)
          then Ok (loaded, st)
          else
            match read_n (Z.to_nat id_len) fp with
            | None => Ok (loaded, st)
            | Some (id, fp) =>
                match read_n (Z.to_nat dsml_len) fp with
                | None => Ok (loaded, st)
                | Some (dsml, fp) =>
                    let id := c_str id in
                    if match wanted with None => true | Some w => id_list_contains w (Some id) end then
                      st <- tool_memory_put_source disabled st (Some id) (Some (c_str dsml)) TOOL_MEMORY_DISK ;;
                      load_entries n disabled st fp wanted (loaded + 1)
                    else load_entries n disabled st fp wanted loaded
                end
            end
      end
  end.

(** [fp] is the file from the map on. *)
Definition kv_tool_map_load_from_pos {_ : Malloc} (disabled : bool) (st : tm_state) (fp : bytes) (wanted : option stop_list)
    : pres (Z * tm_state) :=
  if disabled then Ok (0, st)
  else
    match read_n 8 fp with
    | None => Ok (0, st)
    | Some (h, fp) =>
        if negb ((u8_at h 0 =? 0x4b) && (u8_at h 1 =? 0x54) && (u8_at h 2 =? 0x4d) && (u8_at h 3 =? KV_TOOL_MAP_VERSION))
        then Ok (0, st)
        else
          let count := le_get32 (drop 4 h) in
          if tool_memory_max_entries (mem st) * 4 <? count then Ok (0, st)
          else load_entries (Z.to_nat count) disabled st fp wanted 0
    end.

(** ** Restoring from the directory *)

Definition restore_file {_ : Malloc} (st : tm_state) (wanted : stop_list) (f : kv_file) : pres tm_state :=
  match sha_hex_name (f_name f), f_readable f with
  | Some _, true =>
      match kv_read_header (f_content f) with
      | None => Ok st
      | Some (e, fp) =>
          let skip := u64 (text_bytes e + payload_bytes e) in
          if negb (Z.land (ext_flags e) KV_EXT_TOOL_MAP =? 0) && (skip <=? INT64_MAX) then
            let* (_, st) := kv_tool_map_load_from_pos false st (drop (Z.to_nat skip) fp) (Some wanted) in Ok st
          else Ok st
      end
  | _, _ => Ok st
  end.

Definition kv_cache_restore_tool_memory_for_messages {_ : Malloc} (disabled : bool) (kc : kv_disk_cache)
    (d : option (list kv_file)) (st : tm_state) (msgs : list chat_msg) : pres tm_state :=
  if disabled || negb (enabled kc) then Ok st
  else
    let wanted := collect_tool_call_ids msgs (StopList [] 0) in
    match sl_v wanted, d with
    | _ :: _, Some files => rfold (fun st f => restore_file st wanted f) st files
    | _, _ => Ok st
    end.
