(* ===== verification/KvPolicy.v ===== *)
(** * Policy of the KV disk cache (ds4_server.c)

    Which checkpoints are stored, found again and evicted: the eviction score
    in doubles, the eviction loop over the cache directory, the search for the
    longest cached prefix of a prompt, and the schedule of continued
    checkpoints.  [exp2] is the function of the C library; the clock is an
    argument. *)
From S2P Require Import Prelude.
From S2P Require Import CNum.
From S2P Require Import CFloat.
From S2P Require Import ServerJson.
From S2P Require Import ServerStream.
From S2P Require Import ServerMsgs.
From S2P Require Import ToolMemory.
From S2P Require Import Sha1.
From S2P Require Import KvFile.
From Stdlib Require Import Floats.SpecFloat.
Open Scope Z_scope.

Class Exp2 := exp2 : double -> double.

(** The digest does not depend on the uninitialised block of the context. *)
Definition sha1_hex (p : bytes) : bytes := default [] (sha1_bytes_hex (repeat NUL 64) p).

(** ** Eviction *)

Definition d_add : double -> double -> double := SFadd prec64 emax64.
Definition DBL_MAX : double := S754_finite false (2 ^ 53 - 1) 971.
Definition KV_CACHE_HIT_HALF_LIFE_SECONDS : Z := 6 * 60 * 60.
Definition KV_CACHE_MIN_EFFECTIVE_HITS : double := fst (nearest 1 10 (-2)).

Definition kv_entry_eviction_score {_ : Exp2} (e : kv_entry) (protected_sha : option bytes) (now : Z) : double :=
  if file_size e =? 0 then S754_zero false
  else if match protected_sha with Some s => str_eqb (sha e) s | None => false end then DBL_MAX
  else
    let effective_hits := d_of_Z (hits e) in
    let used_at := if last_used e =? 0 then created_at e else last_used e in
    let effective_hits :=
      if used_at =? 0 then S754_zero false
      else if used_at <? now then
        let elapsed := d_of_Z (now - used_at) in
        let x := d_mul effective_hits (exp2 (d_div (SFopp elapsed) (d_of_Z KV_CACHE_HIT_HALF_LIFE_SECONDS))) in
        if SFltb x KV_CACHE_MIN_EFFECTIVE_HITS then S754_zero false else x
      else effective_hits in
    d_div (d_mul (d_add effective_hits (d_of_Z 1)) (d_of_Z (tokens e))) (d_of_Z (file_size e)).

(** The scan for a victim, from index [i], with the best so far. *)
Fixpoint victim_loop (score : kv_entry -> double) (es : list kv_entry) (i : nat) (victim : nat) (v : kv_entry)
    (victim_score : double) : nat :=
  match es with
  | [] => victim
  | e :: es =>
      let s := score e in
      if SFltb s victim_score || (SFeqb s victim_score && (last_used e <? last_used v))
      then victim_loop score es (S i) i e s
      else victim_loop score es (S i) victim v victim_score
  end.

Definition pick_victim (score : kv_entry -> double) (es : list kv_entry) : option (nat * kv_entry) :=
  match es with
  | [] => None
  | e :: rest =>
      let v := victim_loop score rest 1 0 e (score e) in
      Some (v, nth v es e)
  end.

(** [unlink(path)]: success and the directory. *)
Definition unlink (d : bytes) (files : list kv_file) (p : bytes) : bool * list kv_file :=
  match find (fun f => str_eqb (path_join d (f_name f)) p) files with
  | Some f =>
      if f_removable f then (true, List.filter (fun f => negb (str_eqb (path_join d (f_name f)) p)) files)
      else (false, files)
  | None => (false, files)
  end.

(** [while (total > budget && len > 0)]: every turn drops an entry. *)
Fixpoint evict_loop (fuel : nat) (score : kv_entry -> double) (kc : kv_disk_cache) (files : list kv_file) (total : Z)
    : option (kv_disk_cache * list kv_file) :=
  match fuel with
  | O => None
  | S fuel =>
      if total <=? budget_bytes kc then Some (kc, files)
      else
        match pick_victim score (kvs kc) with
        | None => Some (kc, files)
        | Some (i, e) =>
            let '(ok, files) := unlink (dir kc) files (path e) in
            let total := if ok then (if file_size e <=? total then total - file_size e else 0) else 0 in
            evict_loop fuel score (kc <| kvs := delete i (kvs kc) |>) files total
        end
  end.

(** [d] is the cache directory, [now] the clock. *)
Definition kv_cache_evict {_ : Exp2} (kc : kv_disk_cache) (d : option (list kv_file)) (protected_sha : option bytes) (now : Z)
    : option (kv_disk_cache * option (list kv_file)) :=
  if negb (enabled kc) || (budget_bytes kc =? 0) then Some (kc, d)
  else
    let kc := kv_cache_refresh kc d in
    let total := foldl (fun t e => u64 (t + file_size e)) 0 (kvs kc) in
    let protected_sha :=
      match protected_sha with
      | Some s =>
          let protected_size := match find (fun e => str_eqb (sha e) s) (kvs kc) with Some e => file_size e | None => 0 end in
          if budget_bytes kc <? protected_size then None else Some s
      | None => None
      end in
    match evict_loop (S (length (kvs kc))) (fun e => kv_entry_eviction_score e protected_sha now) kc (default [] d) total with
    | None => None
    | Some (kc, files) => Some (kc, match d with Some _ => Some files | None => None end)
    end.

(** [mkdir_ok]: whether [mkdir_p] succeeded; [kc] without [enabled] is false. *)
Definition kv_cache_open {_ : Exp2} (dirname : option bytes) (mkdir_ok : bool) (d : option (list kv_file)) (budget_mb : Z)
    (reject : bool) (opts : kv_cache_options) (now : Z) : option (bool * kv_disk_cache * option (list kv_file)) :=
  let kc := KvDiskCache false [] 0 false (KvOptions 0 0 0 0 0) 0 [] in
  match dirname with
  | None => Some (false, kc, d)
  | Some dn =>
      if negb mkdir_ok then Some (false, kc, d)
      else
        let budget_mb := if budget_mb =? 0 then KV_CACHE_DEFAULT_MB else budget_mb in
        let kc := KvDiskCache true dn (u64 (budget_mb * 1024 * 1024)) reject opts 0 [] in
        match kv_cache_evict kc d None now with
        | None => None
        | Some (kc, d) => Some (true, kc, d)
        end
  end.

(** ** Sizes *)

Definition kv_cache_file_size_bytes (text_bytes payload_bytes tool_map_bytes : Z) : option Z :=
  let fixed := KV_CACHE_FIXED_HEADER + 4 in
  if (UINT64_MAX - fixed <? text_bytes) || (UINT64_MAX - fixed - text_bytes <? payload_bytes) ||
     (UINT64_MAX - fixed - text_bytes - payload_bytes <? tool_map_bytes) then None
  else Some (fixed + text_bytes + payload_bytes + tool_map_bytes).

Definition kv_cache_budget_required (file_bytes : Z) : option Z :=
  let slack := file_bytes / 100 + (if file_bytes mod 100 =? 0 then 0 else 1) in
  if UINT64_MAX - file_bytes <? slack then None else Some (file_bytes + slack).

Definition kv_cache_file_size_fits (kc : kv_disk_cache) (text_bytes payload_bytes tool_map_bytes : Z) : bool :=
  match kv_cache_file_size_bytes text_bytes payload_bytes tool_map_bytes with
  | None => false
  | Some file_bytes =>
      if budget_bytes kc =? 0 then true
      else match kv_cache_budget_required file_bytes with
           | None => false
           | Some required => required <=? budget_bytes kc
           end
  end.

(** ** Where checkpoints are taken *)

(** C's [%] truncates towards zero. *)
Definition kv_cache_store_len (kc : kv_disk_cache) (tokens : Z) : pres Z :=
  let trim := boundary_trim_tokens (opt kc) in
  let align := boundary_align_tokens (opt kc) in
  limit <- int_step (min_tokens (opt kc) + trim) ;;
  if limit <? tokens then
    stable <- int_step (tokens - trim) ;;
    stable <- (if 0 <? align then int_step (stable - Z.rem stable align) else Ok stable) ;;
    Ok (if min_tokens (opt kc) <=? stable then stable else tokens)
  else Ok tokens.

(** The loop of [kv_cache_chat_anchor_pos]. *)
Fixpoint last_user_loop (prompt : list Z) (i last_user user_token_id assistant_token_id : Z) : Z :=
  match prompt with
  | [] => last_user
  | token :: prompt =>
      if token =? assistant_token_id then last_user
      else last_user_loop prompt (i + 1) (if token =? user_token_id then i else last_user) user_token_id assistant_token_id
  end.

Definition kv_cache_chat_anchor_pos (kc : kv_disk_cache) (prompt : option (list Z)) (user_token_id assistant_token_id : Z) : Z :=
  match prompt with
  | None => -1
  | Some prompt =>
      if (user_token_id <? 0) || (assistant_token_id <? 0) then -1
      else
        let last_user := last_user_loop prompt 0 (-1) user_token_id assistant_token_id in
        if min_tokens (opt kc) <=? last_user then last_user else -1
  end.

Definition kv_cache_continued_step (kc : kv_disk_cache) : pres Z :=
  let step := continued_interval_tokens (opt kc) in
  if negb (enabled kc) || (step <=? 0) then Ok 0
  else
    let align := boundary_align_tokens (opt kc) in
    if 0 <? align then
      sum <- int_step (step + align) ;;
      step <- int_step (Z.quot (sum - 1) align * align) ;;
      Ok (if step <=? 0 then align else step)
    else Ok step.

Definition kv_cache_continued_store_target (kc : kv_disk_cache) (live_tokens : Z) : pres Z :=
  step <- kv_cache_continued_step kc ;;
  Ok (if step <=? 0 then 0
      else if live_tokens <? min_tokens (opt kc) then 0
      else if negb (Z.rem live_tokens step =? 0) then 0
      else if live_tokens <=? continued_last_store_tokens kc then 0
      else live_tokens).

Definition kv_cache_note_store (kc : kv_disk_cache) (tokens : Z) : kv_disk_cache :=
  if continued_last_store_tokens kc <? tokens then kc <| continued_last_store_tokens := tokens |> else kc.

Definition kv_cache_suppress_continued_store (kc : kv_disk_cache) (tokens : Z) : pres (Z * kv_disk_cache) :=
  target <- kv_cache_continued_store_target kc tokens ;;
  Ok (if negb (target =? tokens) then (-1, kc)
      else (continued_last_store_tokens kc, kv_cache_note_store kc tokens)).

Definition kv_cache_restore_suppressed_continued (kc : kv_disk_cache) (old_tokens suppressed_tokens : Z) : kv_disk_cache :=
  if (0 <=? old_tokens) && (continued_last_store_tokens kc =? suppressed_tokens)
  then kc <| continued_last_store_tokens := old_tokens |> else kc.

(** ** Finding a checkpoint *)

Definition byte_prefix_match (text prefix : bytes) : bool := str_prefixb prefix text.

Definition kv_cache_key_kind (ext_flags : Z) : bytes :=
  if negb (Z.land ext_flags KV_EXT_RESPONSES_VISIBLE =? 0) then B "responses-visible"
  else if negb (Z.land ext_flags KV_EXT_THINKING_VISIBLE =? 0) then B "thinking-visible"
  else B "token-text".

(** What skips an entry before its hash is looked at. *)
Definition usable (kc : kv_disk_cache) (prompt_bytes quant ctx : Z) (e : kv_entry) : bool :=
  negb (prompt_bytes <? text_bytes e) && negb (to_int (tokens e) <? min_tokens (opt kc)) &&
  negb (u32 ctx <? ctx_size e) && negb (reject_different_quant kc && negb (quant_bits e =? quant mod 256)).

Definition prefix_step (kc : kv_disk_cache) (prompt : bytes) (quant ctx : Z) (acc : nat * option (nat * kv_entry))
    (e : kv_entry) : nat * option (nat * kv_entry) :=
  let '(i, best) := acc in
  let skip :=
    negb (usable kc (strlen prompt) quant ctx e) ||
    match best with
    | Some (_, b) => (text_bytes e <? text_bytes b) || ((text_bytes e =? text_bytes b) && (tokens e <=? tokens b))
    | None => false
    end in
  if skip then (S i, best)
  else if str_eqb (sha1_hex (take (Z.to_nat (text_bytes e)) prompt)) (sha e) then (S i, Some (i, e))
  else (S i, best).

(** The index of the best entry, with the entry, and the refreshed cache. *)
Definition kv_cache_find_text_prefix (kc : kv_disk_cache) (d : option (list kv_file)) (prompt : option bytes) (quant ctx : Z)
    : option (nat * kv_entry) * kv_disk_cache :=
  match prompt with
  | None => (None, kc)
  | Some prompt =>
      let kc := kv_cache_refresh kc d in
      (snd (foldl (prefix_step kc prompt quant ctx) (0%nat, None) (kvs kc)), kc)
  end.

(** The stored text of the file is the one that is looked for. *)
Definition kv_cache_file_text_matches (f : kv_file) (fsha text : bytes) : bool :=
  if UINT32_MAX <? strlen text then false
  else if negb (f_readable f) then false
  else
    match kv_read_header (f_content f) with
    | None => false
    | Some (e, fp) =>
        if negb (text_bytes e =? strlen text) then false
        else
          match read_n (length text) fp with
          | None => false
          | Some (stored, _) => str_eqb (sha1_hex stored) fsha && str_eqb stored text
          end
    end.
