(* ===== verification/KvPolicyProps.v ===== *)
(** * The KV disk cache keeps its promises

    Eviction ends, brings the directory under its budget, removes nothing
    but cache files, leaves the index in step with the directory and spares
    the checkpoint just stored; the search for a prefix finds the best usable
    checkpoint; the continued-checkpoint schedule. *)
From S2P Require Import Prelude.
From S2P Require Import CNum.
From S2P Require Import CFloat.
From S2P Require Import ServerJson.
From S2P Require Import ServerStream.
From S2P Require Import ServerMsgs.
From S2P Require Import ToolMemory.
From S2P Require Import Sha1.
From S2P Require Import KvFile.
From S2P Require Import KvFileProps.
From S2P Require Import KvPolicy.
From Stdlib Require Import Floats.SpecFloat.
Open Scope Z_scope.

(** ** The index of a directory *)

(** The entry the scan makes of a file. *)
Definition entry_of (d : bytes) (f : kv_file) : option kv_entry :=
  match sha_hex_name (f_name f) with
  | None => None
  | Some s => kv_read_entry_file (path_join d (f_name f)) s f
  end.

Definition dir_index (d : bytes) (files : list kv_file) : list kv_entry := omap (entry_of d) files.

Lemma scan_omap (kc : kv_disk_cache) (files : list kv_file) : forall es,
  foldl (kv_scan_file kc) es files = es ++ omap (entry_of (dir kc)) files.
Proof.
  induction files as [|f files IH]; intros es; simpl; [by rewrite app_nil_r|].
  rewrite IH; unfold kv_scan_file, entry_of.
  destruct (sha_hex_name (f_name f)); [|done].
  destruct (kv_read_entry_file _ _ f); [|done].
  by rewrite <- app_assoc.
Qed.

Lemma refresh_kvs (kc : kv_disk_cache) (files : list kv_file) : enabled kc = true ->
  kv_cache_refresh kc (Some files) = kc <| kvs := dir_index (dir kc) files |>.
Proof. intros He; unfold kv_cache_refresh; rewrite He, scan_omap; reflexivity. Qed.

Lemma entry_of_path (d : bytes) (f : kv_file) (e : kv_entry) :
  entry_of d f = Some e -> path e = path_join d (f_name f) /\ file_size e = Z.of_nat (length (f_content f)).
Proof.
  unfold entry_of, kv_read_entry_file; intros H.
  repeat case_match; simplify_eq; done.
Qed.

Lemma path_join_inj (d a b : bytes) : path_join d a = path_join d b -> a = b.
Proof.
  unfold path_join; destruct (last d) as [c|]; [destruct (Byte.eqb c x2f)|]; intros H;
    try apply app_inv_head in H; by simplify_eq.
Qed.

Lemma entry_other_path (d : bytes) (f : kv_file) (files : list kv_file) (e : kv_entry) :
  f_name f ∉ map f_name files -> e ∈ omap (entry_of d) files -> str_eqb (path_join d (f_name f)) (path e) = false.
Proof.
  intros Hf He; apply str_eqb_neq; intros Heq.
  apply list_elem_of_omap in He as (g & Hg & He).
  destruct (entry_of_path d g e He) as [Hp _]; rewrite Hp in Heq; apply path_join_inj in Heq.
  apply Hf; rewrite Heq; apply list_elem_of_In, in_map, list_elem_of_In, Hg.
Qed.

Lemma unlink_absent (d : bytes) (files : list kv_file) (n : bytes) : n ∉ map f_name files ->
  List.filter (fun f => negb (str_eqb (path_join d (f_name f)) (path_join d n))) files = files.
Proof.
  intros Hn; induction files as [|f files IH]; [done|]; simpl in *.
  rewrite (proj2 (str_eqb_neq _ _)); simpl; [rewrite IH; [done|]; set_solver|].
  intros Heq; apply path_join_inj in Heq; set_solver.
Qed.

(** Removing the file of an entry removes the entry and nothing else. *)
Lemma omap_unlink (d : bytes) (files : list kv_file) : NoDup (map f_name files) -> forall i e,
  omap (entry_of d) files !! i = Some e ->
  omap (entry_of d) (List.filter (fun f => negb (str_eqb (path_join d (f_name f)) (path e))) files)
    = delete i (omap (entry_of d) files) /\
  exists f, find (fun f => str_eqb (path_join d (f_name f)) (path e)) files = Some f /\ entry_of d f = Some e /\ f ∈ files.
Proof.
  induction files as [|f files IH]; intros Hnd i e Hi; [done|].
  cbn [map] in Hnd; apply NoDup_cons in Hnd as [Hf Hnd].
  destruct (entry_of d f) as [e0|] eqn:E0; [destruct i as [|i]|]; simpl in Hi; rewrite E0 in Hi; simpl in Hi.
  { simplify_eq. destruct (entry_of_path d f e E0) as [Hp _].
    split; [|exists f]; simpl; rewrite Hp, str_eqb_refl; simpl.
    - by rewrite unlink_absent, E0.
    - split; [done|]. split; [done|]. set_solver. }
  all: pose proof (entry_other_path d f files e Hf (list_elem_of_lookup_2 _ _ _ Hi)) as Hd;
    destruct (IH Hnd i e Hi) as (IHd & g & Hg & He & Hin);
    split; [|exists g; split; [|split]]; [simpl; rewrite Hd; simpl; rewrite E0; first [exact IHd|exact (f_equal (cons e0) IHd)]|simpl; rewrite Hd| |set_solver]; done.
Qed.

(** ** The victim *)

Lemma below_max (s : double) : SFltb s DBL_MAX = true -> SFltb DBL_MAX s = false /\ SFeqb DBL_MAX s = false.
Proof.
  unfold SFltb, SFeqb, DBL_MAX. generalize (2 ^ 53 - 1)%positive. intros q.
  destruct s as [[]|[]| |[] m e]; try done.
  cbn [SFcompare]. rewrite (Z.compare_antisym e 971). destruct (e ?= 971); cbn; try done.
  pose proof (Pos.compare_cont_antisym m q Eq) as Ha. simpl in Ha.
  change (PosDef.Pos.compare_cont Eq q m) with (Pos.compare_cont Eq q m). rewrite <- Ha.
  change (PosDef.Pos.compare_cont Eq m q) with (Pos.compare_cont Eq m q). by destruct (Pos.compare_cont Eq m q).
Qed.

Section Victim.
Variable score : kv_entry -> double.

Lemma victim_lookup (es : list kv_entry) : forall (pre : list kv_entry) (victim : nat) (v : kv_entry) (vs : double),
  (pre ++ es) !! victim = Some v ->
  is_Some ((pre ++ es) !! victim_loop score es (length pre) victim v vs).
Proof.
  induction es as [|e es IH]; intros pre victim v vs Hv; simpl; [by eexists|].
  specialize (IH (pre ++ [e])). rewrite length_app, <- app_assoc in IH. simpl in IH.
  rewrite Nat.add_1_r in IH. destruct (_ || _); apply IH; [|done].
  by rewrite lookup_app_r, Nat.sub_diag.
Qed.

Lemma pick_victim_lookup (es : list kv_entry) (i : nat) (e : kv_entry) :
  pick_victim score es = Some (i, e) -> es !! i = Some e.
Proof.
  destruct es as [|e0 es]; [done|]. unfold pick_victim. intros [= Hi He].
  destruct (victim_lookup es [e0] 0 e0 (score e0) eq_refl) as [x Hx].
  change (length [e0]) with 1%nat in Hx. rewrite Hi in Hx. change ([e0] ++ es) with (e0 :: es) in Hx.
  rewrite Hi in He. subst e. rewrite Hx. f_equal. symmetry. exact (nth_lookup_Some (e0 :: es) i e0 x Hx).
Qed.

(** An entry of the highest score is spared as long as another has less. *)
Let low (e : kv_entry) : Prop := SFltb (score e) DBL_MAX = true.

Lemma victim_low (es : list kv_entry) : forall (pre : list kv_entry) (victim : nat) (v : kv_entry),
  (pre ++ es) !! victim = Some v ->
  Forall (fun e => low e \/ score e = DBL_MAX) (v :: es) -> Exists low (v :: es) ->
  exists e, (pre ++ es) !! victim_loop score es (length pre) victim v (score v) = Some e /\ low e.
Proof.
  induction es as [|e es IH]; intros pre victim v Hv Hall Hex.
  { simpl. exists v. split; [done|]. by apply Exists_cons in Hex as [?|?%Exists_nil]. }
  specialize (IH (pre ++ [e])). rewrite length_app, <- app_assoc, Nat.add_1_r in IH.
  apply Forall_cons in Hall as [Hlv [Hle Hall]%Forall_cons]. simpl.
  destruct (SFltb (score e) (score v) || _) eqn:E.
  - apply IH; [by rewrite lookup_app_r, Nat.sub_diag|by apply Forall_cons|].
    apply Exists_cons in Hex as [Hv' | Hex]; [|done].
    destruct Hle as [?|Hm]; [by left|].
    rewrite Hm in E. destruct (below_max _ Hv') as [H1 H2]. by rewrite H1, H2 in E.
  - apply IH; [done|by apply Forall_cons|].
    destruct Hlv as [?|Hm]; [by left|]. rewrite Hm in E.
    apply Exists_cons in Hex as [Hv' | [He | Hex]%Exists_cons]; [by left| |by right].
    unfold low in He. by rewrite He in E.
Qed.

Lemma pick_victim_low (es : list kv_entry) (i : nat) (e : kv_entry) :
  Forall (fun e => low e \/ score e = DBL_MAX) es -> Exists low es ->
  pick_victim score es = Some (i, e) -> low e.
Proof.
  intros Hall Hex H. pose proof (pick_victim_lookup es i e H) as Hl.
  destruct es as [|e0 es]; [done|]. unfold pick_victim in H. injection H as Hi _.
  destruct (victim_low es [e0] 0 e0 eq_refl Hall Hex) as (x & Hx & Hlow).
  change (length [e0]) with 1%nat in Hx. rewrite Hi in Hx. change ([e0] ++ es) with (e0 :: es) in Hx. congruence.
Qed.
End Victim.

(** An entry of the highest score that fits the budget is not the victim. *)
Lemma victim_spares (score : kv_entry -> double) (budget : Z) (es : list kv_entry) (i : nat) (x e : kv_entry) :
  score e = DBL_MAX -> file_size e <= budget < sumZ file_size es -> NoDup es -> e ∈ es ->
  (forall y, y ∈ es -> y <> e -> SFltb (score y) DBL_MAX = true) -> pick_victim score es = Some (i, x) -> x <> e.
Proof.
  intros He Hfit Hnd Hin Hlow Hv ->.
  apply list_elem_of_split in Hin as (l1 & l2 & ->).
  assert (Hne : forall y, y ∈ l1 ++ l2 -> y <> e).
  { intros y Hy ->. apply NoDup_app in Hnd as (_ & Hd & [He2 _]%NoDup_cons).
    apply elem_of_app in Hy as [Hy|Hy]; [|done]. apply (Hd e Hy). by left. }
  assert (Hl : SFltb (score e) DBL_MAX = true).
  { apply (pick_victim_low score (l1 ++ e :: l2) i e); [| |done].
    - apply Forall_forall. intros y Hy. destruct (decide (y = e)) as [->|?]; [by right|left; auto].
    - apply Exists_exists. destruct (l1 ++ l2) as [|y l] eqn:El.
      + apply app_eq_nil in El as [-> ->]. simpl in Hfit. lia.
      + assert (Hy : y ∈ y :: l) by (by left). rewrite <- El in Hy. assert (y ∈ l1 ++ e :: l2) by set_solver.
        exists y. split; [done|]. apply Hlow; [done|]. apply Hne. by left. }
  rewrite He in Hl. vm_compute in Hl. discriminate.
Qed.

(** ** The eviction loop *)

Lemma sumZ_delete {A} (f : A -> Z) (l : list A) (i : nat) (a : A) : l !! i = Some a ->
  sumZ f (delete i l) = sumZ f l - f a.
Proof.
  revert i; induction l as [|b l IH]; intros [|i] Hi; simpl in *; simplify_eq; [lia|].
  pose proof (IH i Hi) as IHi; simpl in IHi; lia.
Qed.

Lemma same_name (files : list kv_file) (f g : kv_file) : NoDup (map f_name files) -> f ∈ files -> g ∈ files ->
  f_name f = f_name g -> f = g.
Proof.
  intros Hnd Hf Hg Hn. apply list_elem_of_lookup in Hf as [i Hi], Hg as [j Hj].
  assert (i = j) as <-; [|congruence].
  apply (NoDup_lookup (map f_name files) i j (f_name f) Hnd); apply list_lookup_fmap_Some; eauto.
Qed.

Lemma dir_index_NoDup (d : bytes) (files : list kv_file) : NoDup (map f_name files) -> NoDup (dir_index d files).
Proof.
  induction files as [|f files IH]; cbn [map]; intros Hnd; [constructor|]. apply NoDup_cons in Hnd as [Hf Hnd].
  unfold dir_index in *. simpl. destruct (entry_of d f) as [e|] eqn:E; [|auto]. apply NoDup_cons. split; [|auto].
  intros Hin. pose proof (entry_other_path d f files e Hf Hin) as H.
  destruct (entry_of_path d f e E) as [Hp _]. by rewrite Hp, str_eqb_refl in H.
Qed.

Lemma sum_u64 (es : list kv_entry) : forall t, Forall (fun e => 0 <= file_size e) es -> 0 <= t ->
  t + sumZ file_size es <= UINT64_MAX -> foldl (fun t e => u64 (t + file_size e)) t es = t + sumZ file_size es.
Proof.
  induction es as [|e es IH]; intros t Hpos Ht Hb; simpl in *; [lia|].
  apply Forall_cons in Hpos as [He Hpos]. pose proof (sumZ_nonneg file_size es Hpos).
  rewrite (u64_small (t + _)) by zlia. rewrite IH by (done || lia). lia.
Qed.

Lemma entries_pos (d : bytes) (files : list kv_file) : Forall (fun e => 0 <= file_size e) (dir_index d files).
Proof.
  apply Forall_forall; intros e He. apply list_elem_of_omap in He as (f & _ & He).
  destruct (entry_of_path d f e He) as [_ ->]. lia.
Qed.

(** One turn: the file of the victim goes, and its entry. *)
Lemma unlink_entry (d : bytes) (files : list kv_file) (i : nat) (e : kv_entry) :
  NoDup (map f_name files) -> Forall (fun f => f_removable f = true) files -> dir_index d files !! i = Some e ->
  exists files1, unlink d files (path e) = (true, files1) /\ sublist files1 files /\
    dir_index d files1 = delete i (dir_index d files) /\
    forall f, f ∈ files -> entry_of d f = None -> f ∈ files1.
Proof.
  intros Hnd Hrm Hi. destruct (omap_unlink d files Hnd i e Hi) as (Hdel & f & Hfind & He & Hin).
  eexists. unfold unlink. rewrite Hfind, (proj1 (List.Forall_forall _ _) Hrm f) by (by apply list_elem_of_In).
  split; [reflexivity|]. split; [|split; [exact Hdel|]].
  - clear. induction files as [|g files IH]; simpl; [constructor|]. destruct (negb _); by constructor.
  - intros g Hg Hn. apply list_elem_of_In, List.filter_In.
    split; [by apply list_elem_of_In|]. apply negb_true_iff, str_eqb_neq. intros Heq.
    apply List.find_some in Hfind as [_ Hfp]. apply str_eqb_eq in Hfp. rewrite <- Hfp in Heq.
    apply path_join_inj in Heq. rewrite (same_name files g f Hnd Hg Hin Heq) in Hn. congruence.
Qed.

Section EvictLoop.
Variable score : kv_entry -> double.

Lemma evict_loop_total (fuel : nat) : forall kc files total, (length (kvs kc) < fuel)%nat ->
  is_Some (evict_loop fuel score kc files total).
Proof.
  induction fuel as [|fuel IH]; intros kc files total Hf; [lia|]. simpl.
  destruct (total <=? budget_bytes kc); [by eexists|].
  destruct (pick_victim score (kvs kc)) as [[i e]|] eqn:Ev; [|by eexists].
  destruct (unlink (dir kc) files (path e)) as [ok files'].
  apply IH. simpl. apply pick_victim_lookup in Ev. rewrite length_delete by (by eexists).
  apply lookup_lt_Some in Ev. lia.
Qed.

(** A property of the index that the choice of victims keeps. *)
Variable Q : list kv_entry -> Prop.
Variable kc0 : kv_disk_cache.
Hypothesis Q_keeps : forall es i e, Q es -> budget_bytes kc0 < sumZ file_size es ->
  pick_victim score es = Some (i, e) -> Q (delete i es).

Let synced (files : list kv_file) : kv_disk_cache := kc0 <| kvs := dir_index (dir kc0) files |>.

Lemma evict_loop_ok (fuel : nat) : forall files,
  NoDup (map f_name files) -> Forall (fun f => f_removable f = true) files -> 0 <= budget_bytes kc0 ->
  (length (dir_index (dir kc0) files) < fuel)%nat -> Q (dir_index (dir kc0) files) ->
  exists files', evict_loop fuel score (synced files) files (sumZ file_size (dir_index (dir kc0) files))
      = Some (synced files', files') /\
    sublist files' files /\ sumZ file_size (dir_index (dir kc0) files') <= budget_bytes kc0 /\
    Q (dir_index (dir kc0) files') /\ (forall f, f ∈ files -> entry_of (dir kc0) f = None -> f ∈ files') /\
    (sumZ file_size (dir_index (dir kc0) files) <= budget_bytes kc0 -> files' = files).
Proof.
  induction fuel as [|fuel IH]; intros files Hnd Hrm Hb Hf HQ; [lia|].
  cbn [evict_loop]. change (kvs (synced files)) with (dir_index (dir kc0) files).
  change (budget_bytes (synced files)) with (budget_bytes kc0). change (dir (synced files)) with (dir kc0).
  destruct (Z.leb_spec (sumZ file_size (dir_index (dir kc0) files)) (budget_bytes kc0)) as [Hle|Hgt];
    [by exists files|].
  destruct (pick_victim score (dir_index (dir kc0) files)) as [[i e]|] eqn:Ev.
  2:{ destruct (dir_index (dir kc0) files); [simpl in Hgt; lia|done]. }
  pose proof (pick_victim_lookup score _ i e Ev) as Hi.
  destruct (unlink_entry (dir kc0) files i e Hnd Hrm Hi) as (files1 & Hu & Hsub & Hdel & Hkeep). rewrite Hu.
  pose proof (sumZ_delete file_size _ i e Hi) as Hsum. rewrite <- Hdel in Hsum.
  pose proof (sumZ_nonneg file_size _ (entries_pos (dir kc0) files1)) as Hpos.
  rewrite (proj2 (Z.leb_le _ _)) by lia. rewrite <- Hsum.
  match goal with |- context [evict_loop fuel score ?k] =>
    replace k with (synced files1) by (unfold synced, set_field; simpl; by rewrite Hdel) end.
  destruct (IH files1) as (files' & Hl & Hs & Hbud & HQ' & Hkeep' & _).
  - eapply sublist_NoDup; [exact Hnd|]. by apply fmap_sublist.
  - clear - Hrm Hsub. induction Hsub; [done| |]; apply Forall_cons in Hrm as [? ?]; [apply Forall_cons|]; auto.
  - done.
  - rewrite Hdel, length_delete by (by eexists). apply lookup_lt_Some in Hi. lia.
  - rewrite Hdel. by apply (Q_keeps _ _ e).
  - exists files'. split; [exact Hl|]. split; [by etransitivity|]. split; [done|]. split; [done|].
    split; [auto|lia].
Qed.
End EvictLoop.

(** ** Eviction *)

(** The hash that is really protected: not one that cannot fit. *)
Definition effective_protected (kc : kv_disk_cache) (es : list kv_entry) (protected_sha : option bytes) : option bytes :=
  match protected_sha with
  | Some s =>
      if budget_bytes kc <? match find (fun e => str_eqb (sha e) s) es with Some e => file_size e | None => 0 end
      then None else Some s
  | None => None
  end.

(** A directory whose files can be removed and measured. *)
Definition evictable (kc : kv_disk_cache) (files : list kv_file) : Prop :=
  enabled kc = true /\ 0 < budget_bytes kc /\ NoDup (map f_name files) /\
  Forall (fun f => f_removable f = true) files /\ sumZ file_size (dir_index (dir kc) files) <= UINT64_MAX.

Lemma evict_run {EX : Exp2} (Q : list kv_entry -> Prop) (kc : kv_disk_cache) (files : list kv_file) (p : option bytes) (now : Z) :
  evictable kc files -> Q (dir_index (dir kc) files) ->
  (forall es i e, Q es -> budget_bytes kc < sumZ file_size es ->
     pick_victim (fun e => kv_entry_eviction_score e (effective_protected kc (dir_index (dir kc) files) p) now) es = Some (i, e) ->
     Q (delete i es)) ->
  exists files', kv_cache_evict kc (Some files) p now = Some (kv_cache_refresh kc (Some files'), Some files') /\
    sublist files' files /\ sumZ file_size (dir_index (dir kc) files') <= budget_bytes kc /\
    Q (dir_index (dir kc) files') /\ (forall f, f ∈ files -> entry_of (dir kc) f = None -> f ∈ files') /\
    (sumZ file_size (dir_index (dir kc) files) <= budget_bytes kc -> files' = files).
Proof.
  intros (He & Hb & Hnd & Hrm & Hsum) HQ Hkeep.
  destruct (evict_loop_ok _ Q kc Hkeep (S (length (dir_index (dir kc) files))) files) as (files' & Hl & H);
    [done|done|lia|lia|done|].
  exists files'. split; [|exact H]. rewrite refresh_kvs by done. unfold kv_cache_evict.
  rewrite He, (proj2 (Z.eqb_neq _ _)) by lia. cbn [negb orb]. rewrite refresh_kvs by done. cbv zeta.
  change (kvs (kc <| kvs := _ |>)) with (dir_index (dir kc) files).
  change (budget_bytes (kc <| kvs := _ |>)) with (budget_bytes kc).
  rewrite sum_u64 by (done || apply entries_pos). rewrite Z.add_0_l. cbn [default].
  fold (effective_protected kc (dir_index (dir kc) files) p). change (id files) with files. by rewrite Hl.
Qed.

(** C17: eviction always ends, whatever the clock, [exp2] and the file system do.
    When the files can be removed it leaves the index in step with the
    directory and the cache within its budget, deletes cache files only, and
    deletes none when the budget was already kept. *)
Theorem kv_cache_evict_frees {EX : Exp2} (kc : kv_disk_cache) (d : option (list kv_file)) (p : option bytes) (now : Z) :
  is_Some (kv_cache_evict kc d p now) /\
  forall files, d = Some files -> evictable kc files ->
  exists files', kv_cache_evict kc d p now = Some (kv_cache_refresh kc (Some files'), Some files') /\
    sublist files' files /\ sumZ file_size (kvs (kv_cache_refresh kc (Some files'))) <= budget_bytes kc /\
    (forall f, f ∈ files -> entry_of (dir kc) f = None -> f ∈ files') /\
    (sumZ file_size (dir_index (dir kc) files) <= budget_bytes kc -> files' = files).
Proof.
  split.
  - unfold kv_cache_evict. destruct (negb (enabled kc) || _); [by eexists|]. cbv zeta.
    match goal with |- context [evict_loop ?n ?s ?k ?f ?t] =>
      destruct (evict_loop_total s n k f t ltac:(lia)) as [[k' f'] ->] end. by eexists.
  - intros files -> Hev. pose proof Hev as (He & Hb & Hnd & Hrm & Hsum).
    destruct (evict_run (fun _ => True) kc files p now Hev) as (files' & Hr & Hsub & Hbud & _ & Hkeep & Hsame); [done..|].
    exists files'. rewrite (refresh_kvs kc files') at 2 by done. by repeat (split; [done|]).
Qed.

(** The checkpoint [f] with hash [s] fits, and every other checkpoint has an
    eviction score below the largest double. *)
Definition protects {EX : Exp2} (kc : kv_disk_cache) (files : list kv_file) (s : bytes) (f : kv_file) (now : Z) : Prop :=
  exists e, f ∈ files /\ entry_of (dir kc) f = Some e /\ sha e = s /\ file_size e <= budget_bytes kc /\
  forall e', e' ∈ dir_index (dir kc) files ->
    (sha e' = s -> e' = e) /\ (sha e' <> s -> SFltb (kv_entry_eviction_score e' (Some s) now) DBL_MAX = true).

(** the eviction that follows a store never deletes the checkpoint just
    stored when that fits the budget, however full the cache is. *)
Theorem kv_cache_evict_spares {EX : Exp2} (kc : kv_disk_cache) (files : list kv_file) (s : bytes) (f : kv_file) (now : Z)
    (Hev : evictable kc files) (Hp : protects kc files s f now) :
  exists files', kv_cache_evict kc (Some files) (Some s) now = Some (kv_cache_refresh kc (Some files'), Some files') /\
    f ∈ files' /\ sumZ file_size (dir_index (dir kc) files') <= budget_bytes kc.
Proof.
  destruct Hp as (e & Hf & He & Hs & Hfit & Hothers). pose proof Hev as (_ & _ & Hnd & _ & _).
  set (es0 := dir_index (dir kc) files) in *.
  assert (Hin : e ∈ es0) by (apply list_elem_of_omap; eauto).
  assert (Hep : effective_protected kc es0 (Some s) = Some s).
  { simpl. destruct (find _ es0) as [x|] eqn:Ex.
    - apply List.find_some in Ex as [Hx Hxs]. apply str_eqb_eq in Hxs. apply list_elem_of_In in Hx.
      rewrite (proj1 (Hothers x Hx) Hxs). by rewrite (proj2 (Z.ltb_ge _ _)).
    - eapply List.find_none in Ex; [|apply list_elem_of_In, Hin]. by rewrite Hs, str_eqb_refl in Ex. }
  assert (Hpos : 0 < file_size e).
  { destruct (entry_of_path _ _ _ He) as [_ ->]. unfold entry_of, kv_read_entry_file in He.
    repeat case_match; simplify_eq; bool_hyps; unfold KV_CACHE_FIXED_HEADER in *; lia. }
  destruct (evict_run (fun es => NoDup es /\ e ∈ es /\ forall x, x ∈ es -> x ∈ es0) kc files (Some s) now Hev)
    as (files' & Hr & Hsub & Hbud & (_ & Hin' & _) & _).
  - split; [by apply dir_index_NoDup|done].
  - fold es0. rewrite Hep. intros es i x (Hnde & Hein & Hall) Hgt Hv.
    pose proof (pick_victim_lookup _ _ _ _ Hv) as Hi.
    assert (Hx : x <> e).
    { apply (victim_spares _ (budget_bytes kc) _ _ _ e) in Hv; try done.
      + unfold kv_entry_eviction_score. by rewrite (proj2 (Z.eqb_neq _ _)), Hs, str_eqb_refl by lia.
      + intros y Hy Hye. apply (proj2 (Hothers y (Hall y Hy))). intros Hys. by apply Hye, Hothers; [apply Hall|]. }
    rewrite delete_take_drop. rewrite <- (take_drop_middle es i x Hi) in Hein, Hall, Hnde.
    apply NoDup_app in Hnde as (Hn1 & Hd & [Hn2 Hn3]%NoDup_cons).
    split; [|set_solver]. apply NoDup_app. set_solver.
  - exists files'. split; [done|]. split; [|done].
    apply list_elem_of_omap in Hin' as (g & Hg & Heg).
    enough (f = g) by congruence. apply (same_name files f g Hnd Hf).
    + by eapply elem_of_sublist.
    + apply (path_join_inj (dir kc)). destruct (entry_of_path _ _ _ He) as [<- _].
      by destruct (entry_of_path _ _ _ Heg) as [<- _].
Qed.

(** ** Finding a checkpoint *)

(** What makes an entry a checkpoint of a prefix of the prompt. *)
Definition matching (kc : kv_disk_cache) (prompt : bytes) (quant ctx : Z) (e : kv_entry) : bool :=
  usable kc (strlen prompt) quant ctx e && str_eqb (sha1_hex (take (Z.to_nat (text_bytes e)) prompt)) (sha e).

(** Longer text first, then more tokens. *)
Definition not_better (a b : kv_entry) : Prop :=
  text_bytes a < text_bytes b \/ (text_bytes a = text_bytes b /\ tokens a <= tokens b).

Definition best_of (m : kv_entry -> bool) (es : list kv_entry) (r : option (nat * kv_entry)) : Prop :=
  match r with
  | None => forall e, e ∈ es -> m e = false
  | Some (i, b) =>
      es !! i = Some b /\ m b = true /\
      forall j e, es !! j = Some e -> m e = true -> not_better e b /\ (not_better b e -> (i <= j)%nat)
  end.

(** One more entry is looked at. *)
Lemma prefix_step_best (kc : kv_disk_cache) (prompt : bytes) (quant ctx : Z) (es : list kv_entry) (r : option (nat * kv_entry))
    (e : kv_entry) : best_of (matching kc prompt quant ctx) es r ->
  exists r', prefix_step kc prompt quant ctx (length es, r) e = (length (es ++ [e]), r') /\
    best_of (matching kc prompt quant ctx) (es ++ [e]) r'.
Proof.
  intros Hb. set (m := matching kc prompt quant ctx) in *. rewrite length_app, Nat.add_1_r.
  assert (Hlast : forall j x, (es ++ [e]) !! j = Some x -> es !! j = Some x \/ (j = length es /\ x = e)).
  { intros j x [Hj|[Hj Hx]]%lookup_app_Some; [by left|right]. apply list_lookup_singleton_Some in Hx as [? <-]. split; [lia|done]. }
  (* the entry is passed over *)
  assert (Hpass : m e = false \/ (exists i b, r = Some (i, b) /\ not_better e b) -> best_of m (es ++ [e]) r).
  { intros Hskip. destruct r as [[i b]|]; simpl in *.
    - destruct Hb as (Hi & Hm & Hall). split; [by apply lookup_app_l_Some|]. split; [done|].
      intros j x [Hj|[-> ->]]%Hlast Hx; [by apply Hall|].
      destruct Hskip as [Hf|(i' & b' & Heq & Hnb)]; [congruence|]. simplify_eq. split; [done|].
      intros _. apply lookup_lt_Some in Hi. lia.
    - intros x [Hx| ->%list_elem_of_singleton]%elem_of_app; [by apply Hb|].
      by destruct Hskip as [Hf|(? & ? & ? & _)]. }
  unfold prefix_step. destruct (usable kc (strlen prompt) quant ctx e) eqn:Eu; simpl.
  2:{ eexists. split; [done|]. apply Hpass. left. unfold m, matching. by rewrite Eu. }
  destruct (match r with Some (_, b) => _ | None => false end) eqn:Es.
  { eexists. split; [done|]. apply Hpass. right. destruct r as [[i b]|]; [|done]. exists i, b. split; [done|].
    unfold not_better. apply orb_true_iff in Es as [Es|Es]; bool_hyps; lia. }
  destruct (str_eqb _ (sha e)) eqn:Eh; eexists; (split; [done|]).
  2:{ apply Hpass. left. unfold m, matching. by rewrite Eu, Eh. }
  assert (Hme : m e = true) by (unfold m, matching; by rewrite Eu, Eh).
  simpl. split; [by rewrite lookup_app_r, Nat.sub_diag|]. split; [done|].
  intros j x [Hj|[-> ->]]%Hlast Hx; [|unfold not_better; split; [right|]; lia].
  destruct r as [[i b]|]; simpl in Hb.
  - destruct Hb as (_ & _ & Hall). destruct (Hall j x Hj Hx) as [Hnb _].
    apply orb_false_iff in Es as [E1 E2]. apply Z.ltb_ge in E1.
    assert (text_bytes b < text_bytes e \/ tokens b < tokens e).
    { apply andb_false_iff in E2 as [E2|E2]; bool_hyps; lia. }
    unfold not_better in *. lia.
  - rewrite Hb in Hx; [done|]. by apply list_elem_of_lookup_2 in Hj.
Qed.

(** the search of the disk cache is optimal.  The index returned is that of
    a usable checkpoint (text not longer than the prompt, enough tokens, a
    context that fits, an accepted quantisation) whose file name is the hash of
    a prefix of the prompt; no usable checkpoint of a prefix has a longer text,
    or the same text and more tokens, and among equals it is the first of the
    directory; none is returned only when there is no such checkpoint. *)
Theorem kv_cache_find_text_prefix_best (kc : kv_disk_cache) (d : option (list kv_file)) (prompt : bytes) (quant ctx : Z) :
  let kc' := kv_cache_refresh kc d in
  exists r, kv_cache_find_text_prefix kc d (Some prompt) quant ctx = (r, kc') /\
    best_of (matching kc' prompt quant ctx) (kvs kc') r.
Proof.
  intros kc'. unfold kv_cache_find_text_prefix. fold kc'. eexists. split; [done|].
  assert (H : forall todo seen r, best_of (matching kc' prompt quant ctx) seen r ->
    best_of (matching kc' prompt quant ctx) (seen ++ todo)
      (snd (foldl (prefix_step kc' prompt quant ctx) (length seen, r) todo))).
  { induction todo as [|e todo IH]; intros es r Hb; cbn [foldl]; [by rewrite app_nil_r|].
    destruct (prefix_step_best kc' prompt quant ctx es r e Hb) as (r' & -> & Hb').
    specialize (IH (es ++ [e]) r' Hb'). by rewrite <- app_assoc in IH. }
  apply (H (kvs kc') [] None). intros e He. by apply elem_of_nil in He.
Qed.

(** ** The schedule of continued checkpoints *)

(** Options for which the schedule is on and its arithmetic stays in [int]. *)
Definition schedule_on (kc : kv_disk_cache) : Prop :=
  enabled kc = true /\ 0 < continued_interval_tokens (opt kc) /\ 0 <= boundary_align_tokens (opt kc) /\
  continued_interval_tokens (opt kc) + boundary_align_tokens (opt kc) <= INT_MAX /\ 0 <= continued_last_store_tokens kc.

Lemma int_step_small (z : Z) : is_int z -> int_step z = Ok z.
Proof.
  unfold int_step, is_int. intros [H1 H2]. by rewrite (proj2 (Z.leb_le _ _) H1), (proj2 (Z.leb_le _ _) H2).
Qed.

(** The step is the interval rounded up to the boundary. *)
Lemma continued_step_spec (kc : kv_disk_cache) : schedule_on kc ->
  exists step, kv_cache_continued_step kc = Ok step /\ 0 < step /\
    continued_interval_tokens (opt kc) <= step < continued_interval_tokens (opt kc) + Z.max 1 (boundary_align_tokens (opt kc)) /\
    (0 < boundary_align_tokens (opt kc) -> (boundary_align_tokens (opt kc) | step)).
Proof.
  unfold schedule_on, kv_cache_continued_step. intros (-> & Hi & Ha & Hs & _).
  set (n := continued_interval_tokens (opt kc)) in *. set (a := boundary_align_tokens (opt kc)) in *.
  rewrite (proj2 (Z.leb_gt _ _)) by lia. cbn [negb orb].
  destruct (Z.ltb_spec 0 a) as [Hpos|Hz]; [|exists n; split; [done|]; lia].
  rewrite int_step_small by zlia. cbn. rewrite Z.quot_div_nonneg by lia.
  pose proof (Z.div_mod (n + a - 1) a ltac:(lia)). pose proof (Z.mod_pos_bound (n + a - 1) a Hpos).
  set (q := (n + a - 1) / a) in *. rewrite int_step_small by (unfold_ranges; nia). cbn.
  rewrite (proj2 (Z.leb_gt _ _)) by nia. exists (q * a). split; [done|]. split; [nia|]. split; [nia|].
  intros _. by exists q.
Qed.

Lemma store_target_eq (kc : kv_disk_cache) (step live : Z) : kv_cache_continued_step kc = Ok step -> 0 < step -> 0 <= live ->
  kv_cache_continued_store_target kc live =
    Ok (if (live mod step =? 0) && (min_tokens (opt kc) <=? live) && (continued_last_store_tokens kc <? live) then live else 0).
Proof.
  intros Hs Hp Hl. unfold kv_cache_continued_store_target. rewrite Hs. cbn. f_equal.
  rewrite (proj2 (Z.leb_gt _ _)), Z.rem_mod_nonneg by lia.
  rewrite (Z.ltb_antisym (min_tokens (opt kc)) live), (Z.ltb_antisym live (continued_last_store_tokens kc)).
  by destruct (_ <=? live), (_ =? 0), (live <=? _).
Qed.

(** continued checkpoints are taken exactly at the absolute frontiers: the
    multiples of the aligned step, at or above the minimum, beyond the last
    checkpoint stored.  Once a frontier is noted it is not stored again, and a
    suppressed store leaves no trace when it is restored. *)
Theorem kv_continued_schedule (kc : kv_disk_cache) (live : Z) (Hon : schedule_on kc) (Hl : 0 <= live) :
  exists step, kv_cache_continued_step kc = Ok step /\ 0 < step /\
    continued_interval_tokens (opt kc) <= step < continued_interval_tokens (opt kc) + Z.max 1 (boundary_align_tokens (opt kc)) /\
    (0 < boundary_align_tokens (opt kc) -> (boundary_align_tokens (opt kc) | step)) /\
    kv_cache_continued_store_target kc live =
      Ok (if (live mod step =? 0) && (min_tokens (opt kc) <=? live) && (continued_last_store_tokens kc <? live) then live else 0) /\
    kv_cache_continued_store_target (kv_cache_note_store kc live) live = Ok 0 /\
    exists old kc', kv_cache_suppress_continued_store kc live = Ok (old, kc') /\
      kv_cache_restore_suppressed_continued kc' old live = kc.
Proof.
  destruct (continued_step_spec kc Hon) as (step & Hs & Hp & Hr & Ha). exists step. do 4 (split; [done|]).
  pose proof Hon as (_ & _ & _ & _ & Hlast).
  split; [by apply store_target_eq|]. split.
  - assert (Hs' : kv_cache_continued_step (kv_cache_note_store kc live) = Ok step).
    { rewrite <- Hs. unfold kv_cache_note_store. by destruct (_ <? _). }
    rewrite (store_target_eq _ step) by done. 
    unfold kv_cache_note_store. destruct (Z.ltb_spec (continued_last_store_tokens kc) live) as [Hlt|Hge]; simpl.
    + by rewrite Z.ltb_irrefl, andb_false_r.
    + by rewrite (proj2 (Z.ltb_ge _ _) Hge), andb_false_r.
  - unfold kv_cache_suppress_continued_store. rewrite (store_target_eq kc step) by done. cbn.
    match goal with |- context [negb (?t =? live)] => destruct (t =? live) end; cbn [negb].
    2:{ exists (-1), kc. split; [done|]. done. }
    eexists _, _. split; [done|]. unfold kv_cache_restore_suppressed_continued, kv_cache_note_store.
    rewrite (proj2 (Z.leb_le _ _) Hlast). cbn [andb].
    destruct (Z.ltb_spec (continued_last_store_tokens kc) live); cbn [continued_last_store_tokens].
    + unfold set_field; cbn. rewrite Z.eqb_refl. by destruct kc.
    + destruct (Z.eqb_spec (continued_last_store_tokens kc) live); [|done]. by destruct kc.
Qed.

(** A cold checkpoint is never longer than the prompt; it is cut back by
    the trim to a boundary, unless that would leave less than the minimum. *)
Theorem kv_cache_store_len_spec (kc : kv_disk_cache) (n : Z)
    (Ho : 0 <= min_tokens (opt kc) /\ 0 <= boundary_trim_tokens (opt kc) /\ 0 <= boundary_align_tokens (opt kc))
    (Hr : min_tokens (opt kc) + boundary_trim_tokens (opt kc) <= INT_MAX) (Hn : 0 <= n <= INT_MAX) :
  let trim := boundary_trim_tokens (opt kc) in
  let align := Z.max 1 (boundary_align_tokens (opt kc)) in
  exists len, kv_cache_store_len kc n = Ok len /\
    (len = n \/ (min_tokens (opt kc) <= len /\ (align | len) /\ n - trim - align < len <= n - trim)) /\
    (min_tokens (opt kc) + trim + align <= n -> len <= n - trim).
Proof.
  intros trim align. unfold kv_cache_store_len. fold trim. destruct Ho as (Hm & Ht & Ha). fold trim in Ht, Hr.
  assert (Hal : 1 <= align) by (unfold align; lia).
  set (m := min_tokens (opt kc)) in *. rewrite int_step_small by zlia. cbn.
  destruct (Z.ltb_spec (m + trim) n) as [Hlt|Hge]; [|exists n; split; [done|]; lia].
  rewrite int_step_small by zlia. cbn.
  assert (Hst : exists st, (if 0 <? boundary_align_tokens (opt kc)
      then int_step (n - trim - Z.rem (n - trim) (boundary_align_tokens (opt kc))) else Ok (n - trim)) = Ok st /\
      (align | st) /\ n - trim - align < st <= n - trim).
  { unfold align. destruct (Z.ltb_spec 0 (boundary_align_tokens (opt kc))) as [Hp|Hz].
    - set (a := boundary_align_tokens (opt kc)) in *. rewrite Z.rem_mod_nonneg, Z.max_r by lia.
      pose proof (Z.mod_pos_bound (n - trim) a Hp). pose proof (Z.div_mod (n - trim) a ltac:(lia)).
      pose proof (Z.mod_le (n - trim) a ltac:(lia) Hp). rewrite int_step_small by zlia.
      eexists. split; [done|]. split; [exists ((n - trim) / a)|]; nia.
    - rewrite Z.max_l by lia. exists (n - trim). split; [done|]. split; [apply Z.divide_1_l|lia]. }
  destruct Hst as (st & -> & Hd & Hb). cbn. eexists. split; [done|].
  destruct (Z.leb_spec m st); [split; [right; done|lia]|split; [by left|lia]].
Qed.

(** ** Witnesses *)

(** Powers of two at integral exponents. *)
Definition ex_exp2 : Exp2 := fun x =>
  match d_trunc x with Some z => SFldexp prec64 emax64 (d_of_Z 1) z | None => S754_zero false end.
Definition ex_hash (c : byte) : bytes := repeat c 40.
Definition ex_ckpt (c : byte) : kv_file := KvFile (ex_hash c ++ B ".kv") (file_of ex_entry (B "hiABC")) true true.
Definition ex_dir : list kv_file := [ex_ckpt x61; KvFile (B "README") (B "notes") true true; ex_ckpt x62].
Definition ex_cache : kv_disk_cache := KvDiskCache true (B "kv") 100 false kv_cache_default_options 0 [].

Lemma ex_evictable : evictable ex_cache ex_dir.
Proof.
  split; [done|]. split; [done|]. split; [|split].
  - apply (bool_decide_unpack _). vm_compute. exact I.
  - repeat constructor.
  - vm_compute. discriminate.
Qed.

Lemma kv_cache_evict_frees_witness :
  is_Some (@kv_cache_evict ex_exp2 ex_cache (Some ex_dir) None 1700086400) /\
  sumZ file_size (dir_index (dir ex_cache) ex_dir) = 114 /\
  exists files', @kv_cache_evict ex_exp2 ex_cache (Some ex_dir) None 1700086400
      = Some (kv_cache_refresh ex_cache (Some files'), Some files') /\
    sublist files' ex_dir /\ sumZ file_size (kvs (kv_cache_refresh ex_cache (Some files'))) <= 100 /\
    (forall f, f ∈ ex_dir -> entry_of (dir ex_cache) f = None -> f ∈ files') /\
    (sumZ file_size (dir_index (dir ex_cache) ex_dir) <= 100 -> files' = ex_dir).
Proof.
  destruct (@kv_cache_evict_frees ex_exp2 ex_cache (Some ex_dir) None 1700086400) as [H1 H2].
  split; [exact H1|]. split; [vm_compute; reflexivity|]. exact (H2 ex_dir eq_refl ex_evictable).
Defined.

Lemma kv_cache_evict_spares_witness :
  exists files', @kv_cache_evict ex_exp2 ex_cache (Some ex_dir) (Some (ex_hash x61)) 1700086400
      = Some (kv_cache_refresh ex_cache (Some files'), Some files') /\
    ex_ckpt x61 ∈ files' /\ sumZ file_size (dir_index (dir ex_cache) files') <= budget_bytes ex_cache.
Proof.
  refine (@kv_cache_evict_spares ex_exp2 ex_cache ex_dir (ex_hash x61) (ex_ckpt x61) 1700086400 ex_evictable _).
  assert (Hi : exists a b, dir_index (dir ex_cache) ex_dir = [a; b] /\ entry_of (dir ex_cache) (ex_ckpt x61) = Some a /\
    sha a = ex_hash x61 /\ file_size a = 57 /\ sha b = ex_hash x62 /\
    SFltb (@kv_entry_eviction_score ex_exp2 b (Some (ex_hash x61)) 1700086400) DBL_MAX = true).
  { eexists _, _. split; [vm_compute; reflexivity|]. repeat split; vm_compute; reflexivity. }
  destruct Hi as (a & b & Hi & Ha & Hsa & Hfa & Hsb & Hlow). exists a. split; [by left|]. split; [exact Ha|].
  split; [exact Hsa|]. split; [rewrite Hfa; discriminate|]. rewrite Hi. intros e' He.
  apply elem_of_cons in He as [-> | ->%list_elem_of_singleton]; split; try done.
  rewrite Hsb. discriminate.
Defined.

Lemma kv_continued_schedule_witness :
  exists step, kv_cache_continued_step ex_cache = Ok step /\ 0 < step /\
    continued_interval_tokens (opt ex_cache) <= step <
      continued_interval_tokens (opt ex_cache) + Z.max 1 (boundary_align_tokens (opt ex_cache)) /\
    (0 < boundary_align_tokens (opt ex_cache) -> (boundary_align_tokens (opt ex_cache) | step)) /\
    kv_cache_continued_store_target ex_cache 20480 =
      Ok (if (20480 mod step =? 0) && (min_tokens (opt ex_cache) <=? 20480) && (continued_last_store_tokens ex_cache <? 20480)
          then 20480 else 0) /\
    kv_cache_continued_store_target (kv_cache_note_store ex_cache 20480) 20480 = Ok 0 /\
    exists old kc', kv_cache_suppress_continued_store ex_cache 20480 = Ok (old, kc') /\
      kv_cache_restore_suppressed_continued kc' old 20480 = ex_cache.
Proof.
  refine (kv_continued_schedule ex_cache 20480 _ _); [|discriminate].
  unfold schedule_on, INT_MAX; cbn. lia.
Defined.

Lemma kv_cache_store_len_spec_witness :
  let trim := boundary_trim_tokens (opt ex_cache) in
  let align := Z.max 1 (boundary_align_tokens (opt ex_cache)) in
  exists len, kv_cache_store_len ex_cache 11000 = Ok len /\
    (len = 11000 \/ (min_tokens (opt ex_cache) <= len /\ (align | len) /\ 11000 - trim - align < len <= 11000 - trim)) /\
    (min_tokens (opt ex_cache) + trim + align <= 11000 -> len <= 11000 - trim).
Proof.
  refine (kv_cache_store_len_spec ex_cache 11000 _ _ _); unfold INT_MAX; cbn; lia.
Defined.
