(* ===== verification/KvToolMapProps.v ===== *)
(** * The tool-id map survives a restart

    Writing the map for a transcript saves exactly the remembered calls whose
    text is one of its blocks, in the measured number of bytes, and loading what
    was written into an empty memory remembers them again, as long as the
    loader's limits are kept. *)
From stdpp Require Import gmap.
From S2P Require Import Prelude.
From S2P Require Import CNum.
From S2P Require Import CFloat.
From S2P Require Import ServerJson.
From S2P Require Import ServerStream.
From S2P Require Import ServerStreamProps.
From S2P Require Import ServerMsgs.
From S2P Require Import Dsml.
From S2P Require Import ToolMemory.
From S2P Require Import ToolMemoryProps.
From S2P Require Import KvFile.
From S2P Require Import KvFileProps.
From S2P Require Import KvToolMap.
Open Scope Z_scope.

(** ** The blocks of a text *)

Lemma find_block_bounds (p : bytes) (s e : nat) : find_next_dsml_tool_block p = Some (s, e) -> (s < e <= length p)%nat.
Proof.
  unfold find_next_dsml_tool_block. assert (H : forall fs best, Forall (fun f => snd f <> []) fs ->
    (forall s e, best = Some (s, e) -> (s < e <= length p)%nat) ->
    foldl (better_block p) best fs = Some (s, e) -> (s < e <= length p)%nat).
  { induction fs as [|f fs IH]; intros best Hfs Hb; cbn [foldl]; [by apply Hb|].
    apply Forall_cons in Hfs as [Hf Hfs]. apply IH; [done|]. intros s' e'. unfold better_block.
    destruct (strstr_pos p (fst f)) as [i|]; [|by apply Hb].
    destruct (match best with Some _ => _ | None => false end); [by apply Hb|].
    destruct (strstr_pos (drop i p) (snd f)) as [j|] eqn:Ej; [|by apply Hb]. intros [= <- <-].
    apply strstr_pos_some in Ej as [Hj _]. apply str_prefixb_spec in Hj as [t Hj].
    apply (f_equal length) in Hj. rewrite !length_drop, length_app in Hj. destruct (snd f) as [|c r]; [done|].
    simpl in *. lia. }
  apply H; [|done]. repeat constructor; discriminate.
Qed.

Fixpoint text_blocks (fuel : nat) (p : bytes) : list bytes :=
  match fuel with
  | O => []
  | S fuel =>
      match find_next_dsml_tool_block p with
      | None => []
      | Some (s, e) => take (e - s) (drop s p) :: text_blocks fuel (drop e p)
      end
  end.

(** The tool-call blocks of a transcript. *)
Definition tool_blocks (text : bytes) : list bytes := text_blocks (S (length text)) text.

(** *** What a transcript holds, without the code's search

    A block starts with a start tag, perhaps behind an empty line, and ends with
    the first end tag of the same spelling behind its start. *)
Definition spellings : list (bytes * bytes) :=
  [(DS4_TOOL_CALLS_START, DS4_TOOL_CALLS_END); (DS4_TOOL_CALLS_START_SHORT, DS4_TOOL_CALLS_END_SHORT);
   (B "<tool_calls>", B "</tool_calls>")].

Definition tag_at (p : bytes) (tag : bytes) (i : nat) : Prop := exists rest, drop i p = tag ++ rest.

Definition block_at (p : bytes) (s e : nat) : Prop :=
  exists start stop k, (start, stop) ∈ spellings /\ (tag_at p start s \/ tag_at p (LF :: LF :: start) s) /\
    (s <= k)%nat /\ tag_at p stop k /\ (forall j, (s <= j < k)%nat -> ~ tag_at p stop j) /\ e = (k + length stop)%nat.

(** The blocks of a text from left to right, each searched behind the last. *)
Inductive call_blocks : bytes -> list bytes -> Prop :=
| blocks_none p : (forall s e, ~ block_at p s e) -> call_blocks p []
| blocks_next p s e ds : block_at p s e -> (forall s' e', (s' < s)%nat -> ~ block_at p s' e') ->
    call_blocks (drop e p) ds -> call_blocks p (take (e - s) (drop s p) :: ds).

(** A block in one of the forms of the code. *)
Definition form_at (f : bytes * bytes) (p : bytes) (s e : nat) : Prop :=
  tag_at p (fst f) s /\ exists k, (s <= k)%nat /\ tag_at p (snd f) k /\
    (forall j, (s <= j < k)%nat -> ~ tag_at p (snd f) j) /\ e = (k + length (snd f))%nat.

Lemma tag_at_prefix (p tag : bytes) (i : nat) : tag_at p tag i <-> str_prefixb tag (drop i p) = true.
Proof. unfold tag_at. by rewrite str_prefixb_spec. Qed.

Lemma no_tag_at (p tag : bytes) (i : nat) : ~ tag_at p tag i <-> str_prefixb tag (drop i p) = false.
Proof. rewrite tag_at_prefix. apply not_true_iff_false. Qed.

Lemma block_at_form (p : bytes) (s e : nat) : block_at p s e <-> exists f, f ∈ forms /\ form_at f p s e.
Proof.
  unfold block_at, form_at, forms, spellings. split.
  - intros (start & stop & k & Hin & Htag & H). rewrite !elem_of_cons, elem_of_nil in Hin.
    destruct Htag as [Ht|Ht]; [exists (start, stop)|exists (LF :: LF :: start, stop)]; (split; [|by eauto]); rewrite !elem_of_cons;
      destruct Hin as [[= -> ->]|[[= -> ->]|[[= -> ->]|[]]]]; repeat first [left; reflexivity|right].
  - intros (f & Hin & Ht & k & H). rewrite !elem_of_cons, elem_of_nil in Hin.
    destruct Hin as [-> |[-> |[-> |[-> |[-> |[-> |[]]]]]]]; cbn [fst snd] in *; do 2 eexists; exists k;
      (split; [|split; [first [right; exact Ht|left; exact Ht]|exact H]]); rewrite !elem_of_cons; repeat first [left; reflexivity|right].
Qed.

Lemma better_block_spec (p : bytes) (fs : list (bytes * bytes)) :
  match foldl (better_block p) None fs with
  | Some (s, e) => (exists f, f ∈ fs /\ form_at f p s e) /\ forall f s' e', f ∈ fs -> (s' < s)%nat -> ~ form_at f p s' e'
  | None => forall f s' e', f ∈ fs -> ~ form_at f p s' e'
  end.
Proof.
  induction fs as [|f fs IH] using rev_ind; [by intros f s' e' Hf%elem_of_nil|]. rewrite foldl_app. cbn [foldl].
  set (best := foldl _ None fs) in *. clearbody best.
  (* [f] alone: nothing in front of [lim] *)
  assert (Hkeep : forall lim, (forall s' e', (s' < lim)%nat -> ~ form_at f p s' e') -> forall s e, best = Some (s, e) -> (s <= lim)%nat ->
    (exists f0, f0 ∈ fs ++ [f] /\ form_at f0 p s e) /\ forall f0 s' e', f0 ∈ fs ++ [f] -> (s' < s)%nat -> ~ form_at f0 p s' e').
  { intros lim Hf s e -> Hs. destruct IH as [(f0 & Hin & Hat) Hmin]. split; [exists f0; split; [apply elem_of_app; by left|done]|].
    intros f1 s' e' Hin1 Hlt. apply elem_of_app in Hin1 as [Hin1|Hin1%list_elem_of_singleton]; [by apply Hmin|]. subst f1. apply Hf. lia. }
  assert (Hnever : (forall s' e', ~ form_at f p s' e') ->
    match best with
    | Some (s, e) => (exists f0, f0 ∈ fs ++ [f] /\ form_at f0 p s e) /\ forall f0 s' e', f0 ∈ fs ++ [f] -> (s' < s)%nat -> ~ form_at f0 p s' e'
    | None => forall f0 s' e', f0 ∈ fs ++ [f] -> ~ form_at f0 p s' e'
    end).
  { intros Hf. destruct best as [[s e]|] eqn:E; [apply (Hkeep s); auto|].
    intros f1 s' e' [Hin|Hin%list_elem_of_singleton]%elem_of_app; [by apply IH|by subst f1]. }
  unfold better_block. destruct (strstr_pos p (fst f)) as [i|] eqn:Ei.
  2:{ apply Hnever. intros s' e' [Ht _]. apply tag_at_prefix in Ht. by rewrite (strstr_pos_none _ _ Ei) in Ht. }
  apply strstr_pos_some in Ei as [Hi Hbefore].
  assert (Hfirst : forall s' e', (s' < i)%nat -> ~ form_at f p s' e').
  { intros s' e' Hlt [Ht _]. apply tag_at_prefix in Ht. by rewrite Hbefore in Ht. }
  destruct (match best with Some (b, _) => (b <=? i)%nat | None => false end) eqn:Eb.
  { destruct best as [[b eb]|]; [|done]. apply Nat.leb_le in Eb. by apply (Hkeep i). }
  destruct (strstr_pos (drop i p) (snd f)) as [j|] eqn:Ej.
  - apply strstr_pos_some in Ej as [Hj Hjb]. rewrite drop_drop in Hj. split.
    + exists f. split; [apply elem_of_app; right; by apply list_elem_of_singleton|]. split; [by apply tag_at_prefix|].
      exists (i + j)%nat. split; [lia|]. split; [by apply tag_at_prefix|]. split; [|done]. intros x Hx. apply no_tag_at.
      specialize (Hjb (x - i)%nat ltac:(lia)). rewrite drop_drop in Hjb. by replace (i + (x - i))%nat with x in Hjb by lia.
    + intros f1 s' e' [Hin|Hin%list_elem_of_singleton]%elem_of_app Hlt; [|subst f1; by apply Hfirst].
      destruct best as [[b eb]|]; [|by apply IH]. apply Nat.leb_gt in Eb. apply (proj2 IH); [done|lia].
  - apply Hnever. intros s' e' (Ht & k & Hk & Hstop & _). destruct (Nat.le_gt_cases i s') as [Hge|Hlt].
    + pose proof (strstr_pos_none _ _ Ej (k - i)%nat) as Hn. rewrite drop_drop in Hn. replace (i + (k - i))%nat with k in Hn by lia.
      apply tag_at_prefix in Hstop. congruence.
    + apply tag_at_prefix in Ht. by rewrite Hbefore in Ht.
Qed.

(** Two forms do not start at the same place. *)
Lemma form_unique (p : bytes) (f1 f2 : bytes * bytes) (s e1 e2 : nat) : f1 ∈ forms -> f2 ∈ forms ->
  form_at f1 p s e1 -> form_at f2 p s e2 -> e1 = e2.
Proof.
  intros H1 H2 (T1 & k1 & L1 & S1 & N1 & ->) (T2 & k2 & L2 & S2 & N2 & ->).
  assert (Heq : f1 = f2).
  { destruct T1 as [r1 E1], T2 as [r2 E2]. rewrite E1 in E2. unfold forms in H1, H2. rewrite !elem_of_cons, elem_of_nil in H1, H2.
    destruct H1 as [-> |[-> |[-> |[-> |[-> |[-> |[]]]]]]]; destruct H2 as [-> |[-> |[-> |[-> |[-> |[-> |[]]]]]]];
      first [reflexivity|exfalso; clear -E2; vm_compute in E2; congruence]. }
  subst f2. assert (k1 = k2) as ->; [|done]. destruct (Nat.lt_total k1 k2) as [Hlt|[|Hlt]]; [|done|].
  - by destruct (N2 k1 ltac:(lia) S1).
  - by destruct (N1 k2 ltac:(lia) S2).
Qed.

Lemma text_blocks_spec (p : bytes) (ds : list bytes) : call_blocks p ds -> forall fuel, (length p < fuel)%nat -> text_blocks fuel p = ds.
Proof.
  induction 1 as [p Hno|p s e ds Hat Hmin _ IH]; intros fuel Hf; (destruct fuel as [|fuel]; [lia|]); cbn [text_blocks];
    pose proof (better_block_spec p forms) as Hs; fold (find_next_dsml_tool_block p) in Hs;
    destruct (find_next_dsml_tool_block p) as [[s' e']|] eqn:E.
  - destruct Hs as [Hs _]. apply block_at_form in Hs. by destruct (Hno _ _ Hs).
  - done.
  - destruct Hs as [(f' & Hin' & Hs') Hmin']. pose proof Hat as Hat0. apply block_at_form in Hat as (f & Hin & Hat).
    assert (s' = s) as ->.
    { destruct (Nat.lt_total s s') as [Hlt|[|Hlt]]; [by destruct (Hmin' f s e Hin Hlt)|done|].
      exfalso. apply (Hmin s' e' Hlt), block_at_form. by exists f'. }
    rewrite (form_unique p f' f s e' e Hin' Hin Hs' Hat) in *. f_equal. apply IH.
    apply find_block_bounds in E. rewrite length_drop. lia.
  - apply block_at_form in Hat as (f & Hin & Hat). by destruct (Hs f s e Hin).
Qed.

Lemma call_blocks_text (fuel : nat) : forall p, (length p < fuel)%nat -> call_blocks p (text_blocks fuel p).
Proof.
  induction fuel as [|fuel IH]; intros p Hf; [lia|]. cbn [text_blocks].
  pose proof (better_block_spec p forms) as Hs; fold (find_next_dsml_tool_block p) in Hs.
  destruct (find_next_dsml_tool_block p) as [[s e]|] eqn:E.
  - destruct Hs as [Hs Hmin]. apply blocks_next; [by apply block_at_form| |].
    + intros s' e' Hlt (f & Hin & Hat)%block_at_form. by apply (Hmin f s' e' Hin Hlt).
    + apply IH. apply find_block_bounds in E. rewrite length_drop. lia.
  - apply blocks_none. intros s e (f & Hin & Hat)%block_at_form. by apply (Hs f s e Hin).
Qed.

(** The code's scan finds exactly these blocks. *)
Lemma tool_blocks_iff (text : bytes) (ds : list bytes) : call_blocks text ds <-> ds = tool_blocks text.
Proof.
  unfold tool_blocks. split; [intros H; symmetry; apply (text_blocks_spec _ _ H); lia|]. intros ->. apply call_blocks_text. lia.
Qed.

(** Those of [ds] that are remembered, each once, in order. *)
Fixpoint first_seen (l : list remembered) (seen ds : list bytes) : list bytes :=
  match ds with
  | [] => []
  | d :: ds =>
      if knows d l && negb (bool_decide (d ∈ seen)) then d :: first_seen l (d :: seen) ds else first_seen l seen ds
  end.

Lemma first_seen_spec (l : list remembered) (ds : list bytes) : forall seen,
  NoDup (first_seen l seen ds) /\
  forall d, d ∈ first_seen l seen ds <-> d ∈ ds /\ knows d l = true /\ d ∉ seen.
Proof.
  induction ds as [|d ds IH]; intros seen; cbn [first_seen].
  - split; [constructor|]. intros x. rewrite elem_of_nil. tauto.
  - destruct (knows d l) eqn:Ek; simpl; [destruct (bool_decide_reflect (d ∈ seen)) as [Hs|Hs]; simpl|].
    + destruct (IH seen) as [H1 H2]. split; [done|]. intros x. rewrite H2, elem_of_cons.
      split; [tauto|]. intros ([-> | ?] & ? & ?); tauto.
    + destruct (IH (d :: seen)) as [H1 H2]. split.
      * apply NoDup_cons. split; [|done]. rewrite H2, elem_of_cons. tauto.
      * intros x. rewrite !elem_of_cons, H2, elem_of_cons. destruct (decide (x = d)) as [-> | ?]; tauto.
    + destruct (IH seen) as [H1 H2]. split; [done|]. intros x. rewrite H2, elem_of_cons.
      split; [tauto|]. intros ([-> | ?] & Hk & ?); [congruence|tauto].
Qed.

(** ** The entries of a block *)

Fixpoint chain_ids (fuel : nat) (es : gmap positive tool_memory_entry) (c : option positive) : list bytes :=
  match fuel, c with
  | S fuel, Some a =>
      match es !! a with Some x => e_id x :: chain_ids fuel es (e_block_next x) | None => [] end
  | _, _ => []
  end.

(** The ids remembered with the text [d], in the order of its block. *)
Definition ids_of (st : tm_state) (d : bytes) : list bytes :=
  match tool_memory_find_block_locked st d with
  | Some b => match blks st !! b with Some k => chain_ids (S (size (ents st))) (ents st) (b_entries k) | None => [] end
  | None => []
  end.

(** An id of the chain is the id of one of its entries. *)
Definition id_at (st : tm_state) (q : positive) (id : bytes) : Prop := exists x, ents st !! q = Some x /\ e_id x = id.

Lemma chain_ids_ok (st : tm_state) (qs : list positive) : forall fuel, (length qs <= fuel)%nat ->
  nseg (bnx st) qs None -> Forall2 (id_at st) qs (chain_ids fuel (ents st) (first qs None)).
Proof.
  induction qs as [|q qs IH]; intros fuel Hf Hn.
  - destruct fuel; constructor.
  - destruct fuel as [|fuel]; [simpl in Hf; lia|]. destruct Hn as [Hq Hn]. cbn [first chain_ids].
    apply view_lookup in Hq as (x & Hx & Hnx). rewrite Hx, Hnx. constructor; [by exists x|].
    apply IH; [simpl in Hf; lia|done].
Qed.

Definition pair_of (a : remembered) : bytes * bytes := (a_id a, a_dsml a).

Lemma ids_NoDup (st : tm_state) (l : list remembered) (ps : list positive) : inv st l ps -> NoDup (map a_id l).
Proof.
  intros Hi. apply NoDup_alt. intros i j id Hl Hl'.
  apply list_lookup_fmap_Some in Hl as (a & -> & Ha), Hl' as (a' & Hid & Ha').
  assert (forall i a, l !! i = Some a -> exists p, ps !! i = Some p /\ holds st p a) as Hp.
  { intros k x Hx. apply (Forall2_lookup_r _ _ _ _ _ (i_holds _ _ _ Hi) Hx). }
  destruct (Hp i a Ha) as (p & H1 & b & k & Hc & _), (Hp j a' Ha') as (p' & H2 & b' & k' & Hc' & _).
  destruct (i_id _ _ _ Hi) as (t & _ & Ht).
  assert (t !! a_id a = Some p) as E1 by (apply Ht; eauto).
  assert (t !! a_id a' = Some p') as E2 by (apply Ht; eauto).
  assert (p' = p) as -> by congruence.
  destruct (i_list _ _ _ Hi) as [Hnd _]. by apply (NoDup_lookup ps i j p).
Qed.

(** Entries of one id are one entry. *)
Lemma id_at_inj (st : tm_state) (l : list remembered) (ps : list positive) (q q' : positive) (id : bytes) :
  inv st l ps -> id_at st q id -> id_at st q' id -> q = q'.
Proof.
  intros Hi (x & Hx & Hid) (x' & Hx' & Hid'). destruct (i_id _ _ _ Hi) as (t & _ & Ht).
  assert (t !! id = Some q) as E1 by (apply Ht; exists (core_of x); split; [by apply view_some|done]).
  assert (t !! id = Some q') as E2 by (apply Ht; exists (core_of x'); split; [by apply view_some|done]). congruence.
Qed.

(** A remembered call is an entry of the block of its text. *)
Lemma call_entry (st : tm_state) (l : list remembered) (ps : list positive) (b : positive) (k : tool_memory_block) (id : bytes) :
  inv st l ps -> blks st !! b = Some k ->
  (exists q, id_at st q id /\ exists c, core st !! q = Some c /\ c_block c = Some b) <->
  (exists a, a ∈ l /\ a_id a = id /\ a_dsml a = b_dsml k).
Proof.
  intros Hi Hk. split.
  - intros (q & (x & Hx & Hid) & c & Hc & Hcb).
    destruct (holds_of_entry _ _ _ _ (i_holds _ _ _ Hi) (i_dom _ _ _ Hi _ _ Hc)) as (a & Ha & b' & k' & Hc' & Hk' & Hd).
    exists a. split; [done|]. pose proof (view_some core_of _ _ _ Hx) as Hv. fold (core st) in Hv.
    rewrite Hv in Hc. rewrite Hv in Hc'. injection Hc as <-. injection Hc' as Hi1 Hi2 _ _. split; [congruence|].
    simpl in Hcb. congruence.
  - intros (a & Ha & Hid & Hd). destruct (entry_of_holds _ _ _ _ (i_holds _ _ _ Hi) Ha) as (q & _ & b' & k' & Hc & Hk' & Hd').
    assert (b' = b) as -> by (eapply same_text_same_block; [done..|congruence]).
    exists q. split; [|by eexists]. apply core_lookup in Hc as (x & Hx & Hxc). exists x. split; [done|].
    change (e_id x) with (c_id (core_of x)). by rewrite Hxc.
Qed.

(** The known text [d] has a block, and the ids of the block are those of the
    calls remembered with that text. *)
Lemma ids_of_ok (st : tm_state) (l : list remembered) (ps : list positive) (d : bytes) : inv st l ps -> knows d l = true ->
  exists b k qs, tool_memory_find_block_locked st d = Some b /\ blks st !! b = Some k /\ b_dsml k = d /\
    b_len k = strlen d /\ chain st (b_entries k) qs /\ (length qs <= size (ents st))%nat /\
    Forall2 (id_at st) qs (ids_of st d) /\
    map (fun id => (id, d)) (ids_of st d) ≡ₚ map pair_of (filter (fun a => a_dsml a = d) l).
Proof.
  intros Hi (a & Ha & Hd)%knows_spec.
  destruct (entry_of_holds _ _ _ _ (i_holds _ _ _ Hi) Ha) as (p & _ & b & k & Hc & Hk & Hkd).
  destruct (i_block _ _ _ Hi) as (t & Ht & Htb). destruct (i_chains _ _ _ Hi b k Hk) as (Hlen & _ & Hne & qs & Hch & _ & _ & Hq).
  assert (Hf : tool_memory_find_block_locked st d = Some b).
  { unfold tool_memory_find_block_locked. rewrite Ht. destruct d as [|c d0] eqn:E; [congruence|].
    apply Htb. exists k. split; [done|congruence]. }
  assert (Hsz : (length qs <= size (ents st))%nat).
  { destruct Hch as (Hnd & _ & _). rewrite <- (size_list_to_set (C := gset positive) qs Hnd), <- size_dom.
    apply subseteq_size. intros q Hin%elem_of_list_to_set. apply Hq in Hin as (c & Hcq & _).
    apply core_lookup in Hcq as (x & Hx & _). by apply elem_of_dom_2 in Hx. }
  assert (Hids : Forall2 (id_at st) qs (ids_of st d)).
  { unfold ids_of. rewrite Hf, Hk. destruct Hch as (_ & -> & Hn). apply chain_ids_ok; [lia|done]. }
  exists b, k, qs. repeat (split; [first [done|congruence]|]).
  apply NoDup_Permutation.
  - apply (NoDup_fmap_2 (fun id => (id, d))). apply NoDup_alt. intros i j id Hl Hl'.
    destruct (Forall2_lookup_r _ _ _ _ _ Hids Hl) as (q & Hqi & Hqa), (Forall2_lookup_r _ _ _ _ _ Hids Hl') as (q' & Hqj & Hqa').
    destruct Hch as (Hnd & _). apply (NoDup_lookup qs i j q Hnd Hqi). by rewrite (id_at_inj _ _ _ _ _ _ Hi Hqa Hqa').
  - apply (NoDup_fmap_1 fst). rewrite <- list_fmap_compose. change (NoDup (map a_id (filter (fun a => a_dsml a = d) l))).
    eapply sublist_NoDup; [exact (ids_NoDup st l ps Hi)|]. apply fmap_sublist, sublist_filter.
  - intros [id d']. rewrite !list_elem_of_fmap. split.
    + intros (id' & [= -> ->] & Hin). apply list_elem_of_lookup in Hin as [i Hi'].
      destruct (Forall2_lookup_r _ _ _ _ _ Hids Hi') as (q & Hqi & Hqa).
      destruct (proj1 (call_entry st l ps b k id' Hi Hk)) as (a' & Ha' & <- & Hda').
      { exists q. split; [done|]. apply Hq. by eapply list_elem_of_lookup_2. }
      exists a'. unfold pair_of. rewrite list_elem_of_filter. split; [congruence|]. split; [congruence|done].
    + intros (a' & [= -> ->] & [Hda' Ha']%list_elem_of_filter). exists (a_id a'). split; [congruence|].
      destruct (proj2 (call_entry st l ps b k (a_id a') Hi Hk)) as (q & Hqa & Hqc); [exists a'; split; [done|]; split; congruence|].
      apply Hq in Hqc. apply list_elem_of_lookup in Hqc as [i Hqi].
      destruct (Forall2_lookup_l _ _ _ _ _ Hids Hqi) as (id' & Hi' & x & Hx & <-).
      destruct Hqa as (x' & Hx' & <-). apply list_elem_of_lookup. exists i. congruence.
Qed.

(** ** A scan marks the blocks it has seen *)

Definition mark (scan : Z) (seen : list bytes) (k : tool_memory_block) : tool_memory_block :=
  if bool_decide (b_dsml k ∈ seen) then k <| b_seen := scan |> else k.

(** [st] after a scan that saw the texts [seen]. *)
Definition scanned (scan : Z) (seen : list bytes) (st : tm_state) : tm_state :=
  TmState (mem st) (ents st) (mark scan seen <$> blks st).

Lemma mark_nil (scan : Z) (st : tm_state) : scanned scan [] st = st.
Proof.
  destruct st as [m es bl]. unfold scanned. simpl. f_equal. rewrite <- (map_fmap_id bl) at 2. apply map_fmap_ext.
  intros b k _. unfold mark. by rewrite bool_decide_false by apply not_elem_of_nil.
Qed.

Lemma mark_fields (scan : Z) (seen : list bytes) (k : tool_memory_block) :
  b_dsml (mark scan seen k) = b_dsml k /\ b_len (mark scan seen k) = b_len k /\ b_bytes (mark scan seen k) = b_bytes k /\
  b_refs (mark scan seen k) = b_refs k /\ b_entries (mark scan seen k) = b_entries k.
Proof. unfold mark. by destruct (bool_decide _). Qed.

Lemma scanned_block (scan : Z) (seen : list bytes) (st : tm_state) (b : positive) (k : tool_memory_block) :
  blks (scanned scan seen st) !! b = Some k <-> exists k0, blks st !! b = Some k0 /\ k = mark scan seen k0.
Proof. unfold scanned. simpl. rewrite lookup_fmap, fmap_Some. naive_solver. Qed.

(** Scanning does not change what is remembered. *)
Lemma inv_scanned (scan : Z) (seen : list bytes) (st : tm_state) (l : list remembered) (ps : list positive) :
  inv st l ps -> inv (scanned scan seen st) l ps.
Proof.
  intros Hi. destruct Hi as [H1 H2 H3 H4 (t & Ht & Htb) H6 H7 H8 H9]. constructor; try done.
  - eapply Forall2_impl; [exact H2|]. intros p a (b & k & Hc & Hk & Hd). exists b, (mark scan seen k). split; [done|].
    split; [apply scanned_block; eauto|]. by destruct (mark_fields scan seen k) as (-> & _).
  - exists t. split; [done|]. intros d b. rewrite Htb. split; intros (k & Hk & Hd).
    + exists (mark scan seen k). split; [apply scanned_block; eauto|]. by destruct (mark_fields scan seen k) as (-> & _).
    + apply scanned_block in Hk as (k0 & Hk & ->). exists k0. split; [done|]. by destruct (mark_fields scan seen k0) as (<- & _).
  - intros b k (k0 & Hk & ->)%scanned_block. unfold block_ok. destruct (mark_fields scan seen k0) as (-> & -> & -> & -> & ->).
    by apply H6.
Qed.

Lemma mark_again (scan : Z) (seen : list bytes) (st : tm_state) (l : list remembered) (ps : list positive) (b : positive)
    (k : tool_memory_block) : inv st l ps -> blks st !! b = Some k -> b_dsml k ∉ seen ->
  set_block (scanned scan seen st) b (fun x => x <| b_seen := scan |>) = Ok (scanned scan (b_dsml k :: seen) st).
Proof.
  intros Hi Hk Hns. rewrite (set_block_ok _ _ (mark scan seen k)) by (apply scanned_block; eauto).
  f_equal. unfold scanned, set_field; simpl. f_equal. apply map_eq. intros b'.
  destruct (decide (b' = b)) as [-> | Hne].
  - rewrite lookup_insert_eq, lookup_fmap, Hk. simpl. unfold mark.
    rewrite bool_decide_false by done. by rewrite bool_decide_true by set_solver.
  - rewrite lookup_insert_ne, !lookup_fmap by done. destruct (blks st !! b') as [k'|] eqn:Hk'; [|done]. simpl. f_equal.
    assert (b_dsml k' <> b_dsml k) as Hd by (intros E; apply Hne; by eapply same_text_same_block).
    unfold mark. rewrite (bool_decide_ext (b_dsml k' ∈ seen) (b_dsml k' ∈ b_dsml k :: seen)); [done|].
    rewrite elem_of_cons. tauto.
Qed.

(** A scan whose visits succeed, step by step, for an invariant of the texts
    that are still to come. *)
Section Scan.
Context {A : Type}.
Variable visit : tm_state -> tool_memory_block -> A -> pres (A + A).
Variables (st0 : tm_state) (l : list remembered) (ps : list positive) (scan : Z).
Variable I : list bytes -> A -> Prop.
Hypothesis Hinv : inv st0 l ps.
Hypothesis Hold : forall b k, blks st0 !! b = Some k -> b_seen k < scan.
Hypothesis Hvisit : forall st b k ds d acc, ents st = ents st0 -> knows d l = true -> tool_memory_find_block_locked st0 d = Some b ->
  blks st0 !! b = Some k -> I (d :: ds) acc -> exists acc', visit st k acc = Ok (inl acc') /\ I ds acc'.

Lemma scan_blocks_ok (fuel : nat) : forall seen p acc, (length p < fuel)%nat ->
  I (first_seen l seen (text_blocks fuel p)) acc ->
  exists acc' seen', scan_blocks fuel scan visit (scanned scan seen st0) p acc = Ok (true, acc', scanned scan seen' st0) /\
    I [] acc'.
Proof.
  induction fuel as [|fuel IH]; intros seen p acc Hf HI; [lia|]. cbn [scan_blocks]. cbn [text_blocks] in HI.
  destruct (find_next_dsml_tool_block p) as [[s e]|] eqn:Efind; [|eauto].
  apply find_block_bounds in Efind as Hb. set (d := take (e - s) (drop s p)) in *.
  assert (Hf' : (length (drop e p) < fuel)%nat) by (rewrite length_drop; lia).
  change (tool_memory_find_block_locked (scanned scan seen st0) d) with (tool_memory_find_block_locked st0 d).
  cbn [first_seen] in HI. destruct (tool_memory_find_block_locked st0 d) as [b|] eqn:Ed.
  2:{ assert (knows d l = false) as Ek.
      { destruct (knows d l) eqn:Ek; [|done]. destruct (ids_of_ok st0 l ps d Hinv Ek) as (? & _ & _ & Hb' & _). congruence. }
      rewrite Ek in HI. by apply IH. }
  assert (exists k, blks st0 !! b = Some k /\ b_dsml k = d /\ knows d l = true) as (k & Hk & Hkd & Hkn).
  { unfold tool_memory_find_block_locked in Ed. destruct (i_block _ _ _ Hinv) as (t & Ht & Htb). rewrite Ht in Ed.
    destruct d as [|c d0] eqn:E0; [done|]. rewrite <- E0 in *. apply Htb in Ed as (k & Hk & Hkd). exists k. split; [done|].
    split; [done|]. destruct (i_chains _ _ _ Hinv b k Hk) as (_ & _ & _ & qs & _ & Hne & _ & Hq).
    destruct qs as [|q qs]; [done|]. destruct (proj1 (Hq q)) as (cc & Hc & Hcb); [by left|].
    destruct (holds_of_entry _ _ _ _ (i_holds _ _ _ Hinv) (i_dom _ _ _ Hinv _ _ Hc)) as (a & Ha & b' & k' & Hc' & Hk' & Hd).
    apply knows_spec. exists a. split; [done|]. rewrite Hc in Hc'. injection Hc' as ->. simpl in Hcb. congruence. }
  rewrite (block_get _ b (mark scan seen k)) by (apply scanned_block; eauto). rewrite Hkn in HI.
  destruct (bool_decide_reflect (d ∈ seen)) as [Hs|Hs]; simpl in HI.
  - unfold mark. rewrite Hkd, bool_decide_true by done. cbn [b_seen]. rewrite Z.eqb_refl. by apply IH.
  - assert (mark scan seen k = k) as -> by (unfold mark; by rewrite Hkd, bool_decide_false).
    rewrite (proj2 (Z.eqb_neq _ _)) by (specialize (Hold b k Hk); lia).
    rewrite (mark_again scan seen st0 l ps b k Hinv Hk) by congruence. rewrite Hkd.
    destruct (Hvisit (scanned scan (d :: seen) st0) b k _ d acc eq_refl Hkn Ed Hk HI) as (acc' & -> & HI').
    by apply IH.
Qed.
End Scan.

(** ** Measuring and writing *)

(** A pair of the map on disk. *)
Definition record_size (p : bytes * bytes) : Z := 8 + strlen (fst p) + strlen (snd p).
Definition record_bytes (p : bytes * bytes) : bytes :=
  le_put32 (strlen (fst p)) ++ le_put32 (strlen (snd p)) ++ fst p ++ snd p.

Definition map_bytes (prs : list (bytes * bytes)) : bytes :=
  ([x4b; x54; x4d; zb KV_TOOL_MAP_VERSION] ++ le_put32 (Z.of_nat (length prs))) ++ concat (map record_bytes prs).

Definition small (p : bytes * bytes) : Prop := strlen (fst p) <= UINT32_MAX /\ strlen (snd p) <= UINT32_MAX.

Lemma record_length (p : bytes * bytes) : Z.of_nat (length (record_bytes p)) = record_size p.
Proof. unfold record_bytes, record_size, strlen. rewrite !length_app, !le_put32_length. lia. Qed.

Lemma records_length (prs : list (bytes * bytes)) : Z.of_nat (length (concat (map record_bytes prs))) = sumZ record_size prs.
Proof.
  induction prs as [|p prs IH]; [done|]. cbn [map concat sumZ foldr]. rewrite length_app. fold (sumZ record_size prs).
  rewrite Nat2Z.inj_add, IH, record_length. done.
Qed.

Lemma record_size_pos (p : bytes * bytes) : 8 <= record_size p.
Proof. unfold record_size, strlen. lia. Qed.

Lemma records_size_pos (prs : list (bytes * bytes)) : 0 <= sumZ record_size prs.
Proof. apply sumZ_nonneg, Forall_forall. intros p _. pose proof (record_size_pos p). lia. Qed.

(** What is written so far. *)
Definition push (fp : out_stream) (p : bytes) : out_stream := OutStream (written fp ++ p) (fp_room fp - length p).

Lemma fwrite_ok (p : bytes) (fp : out_stream) : (length p <= fp_room fp)%nat -> fwrite p fp = (true, push fp p).
Proof. intros H. unfold fwrite, push. rewrite Nat.min_l by done. by rewrite Nat.eqb_refl, take_ge by lia. Qed.

Lemma push_app (fp : out_stream) (p q : bytes) : push (push fp p) q = push fp (p ++ q).
Proof. unfold push. simpl. rewrite length_app, app_assoc. f_equal. lia. Qed.

Lemma fwrites_ok (ps : list bytes) : forall fp, (length (concat ps) <= fp_room fp)%nat ->
  fwrites ps fp = (true, push fp (concat ps)).
Proof.
  induction ps as [|p ps IH]; intros fp H; cbn [fwrites concat] in *.
  - unfold push. simpl. rewrite app_nil_r, Nat.sub_0_r. by destruct fp.
  - rewrite length_app in H. rewrite fwrite_ok by lia. rewrite IH by (simpl; lia). by rewrite push_app.
Qed.

Section Visits.
Variables (st : tm_state) (x : tool_memory_block).
Hypothesis Hlen : b_len x = strlen (b_dsml x).
Let prs (ids : list bytes) : list (bytes * bytes) := map (fun id => (id, b_dsml x)) ids.

Lemma measure_entries_ok (qs : list positive) : forall fuel ids count nb, (length qs < fuel)%nat ->
  nseg (bnx st) qs None -> Forall2 (id_at st) qs ids -> Forall small (prs ids) ->
  count + Z.of_nat (length ids) <= UINT32_MAX -> 0 <= nb -> nb + sumZ record_size (prs ids) <= UINT64_MAX ->
  measure_entries fuel st x (first qs None) (count, nb) =
    Ok (inl (count + Z.of_nat (length ids), nb + sumZ record_size (prs ids))).
Proof.
  induction qs as [|q qs IH]; intros [|fuel] ids count nb Hf Hn Hids Hsm Hc Hnb Hsz; try (simpl in Hf; lia).
  - inversion Hids; subst. simpl. do 3 f_equal; lia.
  - inversion Hids as [|? id ? ids' (y & Hy & Hid) Hids']; subst. cbn [first measure_entries]. rewrite (entry_ok _ _ _ Hy).
    destruct Hn as [Hq Hn]. apply view_lookup in Hq as (y' & Hy' & Hnx). assert (y' = y) as -> by congruence. rewrite Hnx.
    apply Forall_cons in Hsm as [[Hs1 Hs2] Hsm]. cbn [fst snd] in Hs1, Hs2.
    change (sumZ record_size (prs (e_id y :: ids'))) with
      (8 + strlen (e_id y) + strlen (b_dsml x) + sumZ record_size (prs ids')) in *.
    cbn [length] in *. pose proof (records_size_pos (prs ids')) as Hpos. rewrite Hlen.
    pose proof (strlen_nonneg (e_id y)) as P1. pose proof (strlen_nonneg (b_dsml x)) as P2.
    set (i := strlen (e_id y)) in *. set (d := strlen (b_dsml x)) in *.
    rewrite (proj2 (Z.ltb_ge _ _) Hs1), (proj2 (Z.ltb_ge _ _) Hs2). cbn [orb].
    rewrite (proj2 (Z.eqb_neq _ _)) by zlia.
    rewrite (proj2 (Z.ltb_ge (UINT64_MAX - nb) _)), (proj2 (Z.ltb_ge (UINT64_MAX - nb - 8) _)),
      (proj2 (Z.ltb_ge (UINT64_MAX - nb - 8 - i) _)) by lia. cbn [orb].
    rewrite (IH fuel ids') by (done || lia || (simpl in Hf; lia)).
    f_equal. f_equal. f_equal; lia.
Qed.

Lemma write_entries_ok (qs : list positive) : forall fuel ids fp, (length qs < fuel)%nat ->
  nseg (bnx st) qs None -> Forall2 (id_at st) qs ids -> Forall small (prs ids) ->
  (length (concat (map record_bytes (prs ids))) <= fp_room fp)%nat ->
  write_entries fuel st x (first qs None) fp = Ok (inl (push fp (concat (map record_bytes (prs ids))))).
Proof.
  induction qs as [|q qs IH]; intros [|fuel] ids fp Hf Hn Hids Hsm Hsz; try (simpl in Hf; lia).
  - inversion Hids; subst. unfold push. simpl. rewrite app_nil_r, Nat.sub_0_r. by destruct fp.
  - inversion Hids as [|? id ? ids' (y & Hy & Hid) Hids']; subst. cbn [first write_entries]. rewrite (entry_ok _ _ _ Hy).
    destruct Hn as [Hq Hn]. apply view_lookup in Hq as (y' & Hy' & Hnx). assert (y' = y) as -> by congruence. rewrite Hnx.
    apply Forall_cons in Hsm as [[Hs1 Hs2] Hsm]. cbn [fst snd] in Hs1, Hs2.
    change (concat (map record_bytes (prs (e_id y :: ids')))) with
      (record_bytes (e_id y, b_dsml x) ++ concat (map record_bytes (prs ids'))) in *.
    rewrite Hlen, (proj2 (Z.ltb_ge _ _) Hs1), (proj2 (Z.ltb_ge _ _) Hs2). cbn [orb].
    rewrite length_app in Hsz.
    assert (Hrec : concat [le_put32 (strlen (e_id y)) ++ le_put32 (strlen (b_dsml x)); e_id y; b_dsml x] =
      record_bytes (e_id y, b_dsml x)) by (unfold record_bytes; cbn [concat fst snd]; by rewrite app_nil_r, <- app_assoc).
    rewrite fwrites_ok by (rewrite Hrec; lia). rewrite Hrec.
    rewrite (IH fuel ids') by (done || (simpl in Hf; lia) || (unfold push; cbn [fp_room]; lia)). by rewrite push_app.
Qed.
End Visits.

(** ** The map of a transcript *)

(** The pairs saved for the texts [ds]. *)
Definition pairs_of (st : tm_state) (ds : list bytes) : list (bytes * bytes) :=
  concat (map (fun d => map (fun id => (id, d)) (ids_of st d)) ds).

(** What a transcript saves: the calls whose text occurs in it. *)
Definition saved (st : tm_state) (l : list remembered) (text : bytes) : list (bytes * bytes) :=
  pairs_of st (first_seen l [] (tool_blocks text)).

Lemma filter_split (l : list remembered) (d : bytes) (ds : list bytes) : d ∉ ds ->
  filter (fun a => a_dsml a ∈ d :: ds) l ≡ₚ filter (fun a => a_dsml a = d) l ++ filter (fun a => a_dsml a ∈ ds) l.
Proof.
  intros Hd. induction l as [|a l IH]; [done|]. rewrite !filter_cons.
  destruct (decide (a_dsml a = d)) as [<-|Hne].
  - rewrite decide_True by (by left). rewrite decide_False by done. simpl. by rewrite IH.
  - destruct (decide (a_dsml a ∈ ds)).
    + rewrite decide_True by (by right). rewrite IH. by rewrite Permutation_middle.
    + rewrite decide_False by (by intros [?|?]%elem_of_cons). done.
Qed.

Lemma pairs_perm (st : tm_state) (l : list remembered) (ps : list positive) (ds : list bytes) : inv st l ps -> NoDup ds ->
  Forall (fun d => knows d l = true) ds ->
  pairs_of st ds ≡ₚ map pair_of (filter (fun a => a_dsml a ∈ ds) l).
Proof.
  intros Hi Hnd Hk. induction ds as [|d ds IH].
  - assert (filter (fun a => a_dsml a ∈ []) l = []) as ->; [|done].
    clear. induction l as [|a l IH]; [done|]. by rewrite filter_cons, decide_False, IH by apply not_elem_of_nil.
  - apply NoDup_cons in Hnd as [Hd Hnd]. apply Forall_cons in Hk as [Hkd Hk].
    change (pairs_of st (d :: ds)) with (map (fun id => (id, d)) (ids_of st d) ++ pairs_of st ds).
    rewrite (filter_split l d ds Hd), map_app. destruct (ids_of_ok st l ps d Hi Hkd) as (_ & _ & _ & _ & _ & _ & _ & _ & _ & _ & ->).
    by rewrite IH.
Qed.

Lemma filter_ext_in {A} (P Q : A -> Prop) `{!forall x, Decision (P x), !forall x, Decision (Q x)} (l : list A) :
  (forall x, x ∈ l -> P x <-> Q x) -> filter P l = filter Q l.
Proof.
  intros Hpq. induction l as [|a l IH]; [done|]. rewrite !filter_cons, IH by (intros x Hx; apply Hpq; by right).
  pose proof (Hpq a (list_elem_of_here _ _)). destruct (decide (P a)), (decide (Q a)); tauto.
Qed.

Lemma saved_perm (st : tm_state) (l : list remembered) (ps : list positive) (text : bytes) : inv st l ps ->
  saved st l text ≡ₚ map pair_of (filter (fun a => a_dsml a ∈ tool_blocks text) l).
Proof.
  intros Hi. destruct (first_seen_spec l (tool_blocks text) []) as [Hnd Hin].
  unfold saved. rewrite (pairs_perm st l ps _ Hi Hnd) by (apply Forall_forall; intros d; rewrite Hin; tauto).
  rewrite (filter_ext_in (fun a => a_dsml a ∈ first_seen l [] (tool_blocks text)) (fun a => a_dsml a ∈ tool_blocks text) l); [done|].
  intros a Ha. rewrite Hin. split; [tauto|]. intros Hb. split; [done|]. split; [|apply not_elem_of_nil].
  apply knows_spec. eauto.
Qed.

(** A block scanned by no scan that is still to come. *)
Definition unscanned (st : tm_state) : Prop :=
  scan_clock (mem st) + 2 <= UINT64_MAX /\ 0 <= scan_clock (mem st) /\
  forall b k, blks st !! b = Some k -> b_seen k <= scan_clock (mem st).

Lemma inv_clock (st : tm_state) (l : list remembered) (ps : list positive) (n : Z) : inv st l ps ->
  inv (st <| mem ::= fun m => m <| scan_clock := n |> |>) l ps.
Proof. by intros []. Qed.

Section Write.
Variables (st : tm_state) (l : list remembered) (ps : list positive) (text : bytes).
Hypothesis Hinv : inv st l ps.
Hypothesis Hsmall : a_bytes l <= UINT32_MAX.

Lemma saved_small : Forall small (saved st l text).
Proof.
  rewrite (saved_perm st l ps text Hinv). apply Forall_fmap, Forall_forall. intros a [_ Ha]%list_elem_of_filter.
  unfold compose, small, pair_of. cbn [fst snd]. pose proof (known_weight (a_dsml a) l) as Hw.
  assert (knows (a_dsml a) l = true) as Hk by (apply knows_spec; eauto). specialize (Hw Hk).
  apply list_elem_of_split in Ha as (l1 & l2 & E). pose proof (a_bytes_middle l1 l2 a) as Hm. rewrite <- E in Hm.
  pose proof (a_bytes_nonneg (l1 ++ l2)). pose proof (dsml_weight_pos (a_dsml a)).
  unfold id_weight, dsml_weight, sizeof_entry, sizeof_block in *. destruct (knows (a_dsml a) (l1 ++ l2)); lia.
Qed.

(** A visit sees the entries of the block as they were. *)
Lemma visit_chain (st' : tm_state) (b : positive) (k : tool_memory_block) (d : bytes) :
  ents st' = ents st -> knows d l = true -> tool_memory_find_block_locked st d = Some b -> blks st !! b = Some k ->
  exists qs, b_dsml k = d /\ b_len k = strlen (b_dsml k) /\ b_entries k = first qs None /\ nseg (bnx st') qs None /\
    Forall2 (id_at st') qs (ids_of st d) /\ (length qs < S (size (ents st')))%nat.
Proof.
  intros He Hk Hf Hb. destruct (ids_of_ok st l ps d Hinv Hk) as (b' & k' & qs & Hf' & Hb' & Hd & Hl & Hch & Hsz & Hids & _).
  assert (b' = b) as -> by congruence. assert (k' = k) as -> by congruence. exists qs.
  destruct Hch as (_ & Hc & Hn). unfold bnx, id_at in *. rewrite He. rewrite Hd. repeat split; done || lia.
Qed.

Lemma pairs_cons (d : bytes) (ds : list bytes) :
  pairs_of st (d :: ds) = map (fun id => (id, d)) (ids_of st d) ++ pairs_of st ds.
Proof. done. Qed.

Lemma measure_ok (scan : Z) : (forall b k, blks st !! b = Some k -> b_seen k < scan) ->
  Z.of_nat (length (saved st l text)) <= UINT32_MAX -> KV_TOOL_MAP_HEADER + sumZ record_size (saved st l text) <= UINT64_MAX ->
  exists seen, scan_blocks (S (length text)) scan
    (fun st x acc => measure_entries (S (size (ents st))) st x (b_entries x) acc) st text (0, KV_TOOL_MAP_HEADER) =
    Ok (true, (Z.of_nat (length (saved st l text)), KV_TOOL_MAP_HEADER + sumZ record_size (saved st l text)), scanned scan seen st).
Proof.
  intros Hold Hn Hs. set (N := Z.of_nat (length (saved st l text))) in *. set (M := KV_TOOL_MAP_HEADER + _) in *.
  set (I := fun (ds : list bytes) (acc : Z * Z) => Forall small (pairs_of st ds) /\ 0 <= snd acc /\
    fst acc + Z.of_nat (length (pairs_of st ds)) = N /\ snd acc + sumZ record_size (pairs_of st ds) = M).
  destruct (scan_blocks_ok (fun st x acc => measure_entries (S (size (ents st))) st x (b_entries x) acc) st l ps scan I)
    with (fuel := S (length text)) (seen := @nil bytes) (p := text) (acc := (0, KV_TOOL_MAP_HEADER))
    as (acc & seen & Hrun & _ & _ & Hc & Hb); [done|done| |lia| |].
  - intros st' b k ds d [c n] He Hk Hf Hb (Hsm & Hpos & Hc & Hsz). cbn [fst snd] in *.
    rewrite pairs_cons in *. rewrite length_app, length_map in Hc. rewrite sumZ_app in Hsz. apply Forall_app in Hsm as [Hsm Hsm'].
    destruct (visit_chain st' b k d He Hk Hf Hb) as (qs & <- & Hlen & -> & Hnx & Hids & Hfuel).
    pose proof (records_size_pos (pairs_of st ds)).
    eexists. split; [apply measure_entries_ok; (done || lia)|].
    pose proof (records_size_pos (map (fun id => (id, b_dsml k)) (ids_of st (b_dsml k)))).
    unfold I. cbn [fst snd]. split; [done|]. split; [lia|]. split; lia.
  - split; [apply saved_small|]. split; [done|]. split; [done|]. done.
  - rewrite mark_nil in Hrun. exists seen. rewrite Hrun. destruct acc as [c n]. unfold pairs_of in Hc, Hb. simpl in Hc, Hb.
    do 3 f_equal. f_equal; lia.
Qed.

Lemma write_ok (scan : Z) (fp : out_stream) : (forall b k, blks st !! b = Some k -> b_seen k < scan) ->
  (length (concat (map record_bytes (saved st l text))) <= fp_room fp)%nat ->
  exists seen, scan_blocks (S (length text)) scan
    (fun st x fp => write_entries (S (size (ents st))) st x (b_entries x) fp) st text fp =
    Ok (true, push fp (concat (map record_bytes (saved st l text))), scanned scan seen st).
Proof.
  intros Hold Hroom. set (total := concat (map record_bytes (saved st l text))) in *.
  set (I := fun (ds : list bytes) (fp' : out_stream) => Forall small (pairs_of st ds) /\
    (length (concat (map record_bytes (pairs_of st ds))) <= fp_room fp')%nat /\
    push fp' (concat (map record_bytes (pairs_of st ds))) = push fp total).
  destruct (scan_blocks_ok (fun st x fp => write_entries (S (size (ents st))) st x (b_entries x) fp) st l ps scan I)
    with (fuel := S (length text)) (seen := @nil bytes) (p := text) (acc := fp)
    as (fp' & seen & Hrun & _ & _ & Hp); [done|done| |lia| |].
  - intros st' b k ds d fp' He Hk Hf Hb (Hsm & Hr & Hp).
    rewrite pairs_cons, map_app, concat_app in *. rewrite length_app in Hr. apply Forall_app in Hsm as [Hsm Hsm'].
    destruct (visit_chain st' b k d He Hk Hf Hb) as (qs & <- & Hlen & -> & Hnx & Hids & Hfuel).
    eexists. split; [apply write_entries_ok; (done || lia)|].
    unfold I. split; [done|]. rewrite push_app. split; [unfold push; cbn [fp_room]; lia|done].
  - split; [apply saved_small|]. done.
  - rewrite mark_nil in Hrun. exists seen. rewrite Hrun, <- Hp. unfold push. simpl. rewrite app_nil_r, Nat.sub_0_r.
    by destruct fp'.
Qed.
End Write.

Lemma ids_of_scanned (scan : Z) (seen : list bytes) (st : tm_state) (d : bytes) : ids_of (scanned scan seen st) d = ids_of st d.
Proof.
  unfold ids_of. change (tool_memory_find_block_locked (scanned scan seen st) d) with (tool_memory_find_block_locked st d).
  destruct (tool_memory_find_block_locked st d) as [b|]; [|done]. unfold scanned. cbn [blks ents]. rewrite lookup_fmap.
  destruct (blks st !! b) as [k|]; [|done]. simpl. by destruct (mark_fields scan seen k) as (_ & _ & _ & _ & ->).
Qed.

Lemma saved_scanned (scan : Z) (seen : list bytes) (st : tm_state) (l : list remembered) (text : bytes) :
  saved (scanned scan seen st) l text = saved st l text.
Proof.
  unfold saved, pairs_of. f_equal. apply map_ext. intros d. by rewrite ids_of_scanned.
Qed.

Lemma saved_bounds (st : tm_state) (l : list remembered) (ps : list positive) (text : bytes) :
  inv st l ps -> a_bytes l <= UINT32_MAX ->
  Z.of_nat (length (saved st l text)) <= UINT32_MAX /\ KV_TOOL_MAP_HEADER + sumZ record_size (saved st l text) <= UINT64_MAX.
Proof.
  intros Hi Hs. assert (Hn : 65 * Z.of_nat (length (saved st l text)) <= UINT32_MAX).
  { rewrite (saved_perm st l ps text Hi), length_map. pose proof (a_bytes_length l).
    pose proof (length_filter (fun a => a_dsml a ∈ tool_blocks text) l). lia. }
  assert (Hsum : forall prs, Forall small prs -> sumZ record_size prs <= Z.of_nat (length prs) * (8 + 2 * UINT32_MAX)).
  { induction 1 as [|p prs [H1 H2] _ IH]; [done|]. cbn [sumZ foldr length]. fold (sumZ record_size prs).
    unfold record_size at 1. lia. }
  specialize (Hsum _ (saved_small st l ps text Hi Hs)). unfold KV_TOOL_MAP_HEADER, UINT32_MAX, UINT64_MAX in *. lia.
Qed.

Lemma next_scan_ok (st : tm_state) : 0 <= scan_clock (mem st) < UINT64_MAX ->
  next_scan st = (scan_clock (mem st) + 1, st <| mem ::= fun m => m <| scan_clock := scan_clock (mem st) + 1 |> |>).
Proof. intros H. unfold next_scan. by rewrite u64_small by zlia. Qed.

Lemma map_bytes_length (prs : list (bytes * bytes)) :
  Z.of_nat (length (map_bytes prs)) = KV_TOOL_MAP_HEADER + sumZ record_size prs.
Proof. unfold map_bytes. rewrite !length_app, le_put32_length, Nat2Z.inj_add, records_length. done. Qed.

(** Writing the map. *)
Lemma tool_map_written (st : tm_state) (l : list remembered) (ps : list positive) (fp : out_stream) (text : bytes) :
  inv st l ps -> a_bytes l <= UINT32_MAX -> unscanned st -> text <> [] -> saved st l text <> [] ->
  (length (map_bytes (saved st l text)) <= fp_room fp)%nat ->
  exists st', kv_tool_map_write false st fp text =
      Ok (true, Z.of_nat (length (map_bytes (saved st l text))), push fp (map_bytes (saved st l text)), st') /\
    inv st' l ps /\ forall b k, blks st' !! b = Some k -> b_seen k <= scan_clock (mem st').
Proof.
  intros Hi Hs (Hc1 & Hc0 & Hold) Ht Hne Hroom. destruct (saved_bounds st l ps text Hi Hs) as [Hn Hb].
  rewrite map_bytes_length. set (c := scan_clock (mem st)) in *.
  unfold kv_tool_map_write. destruct text as [|t0 ts] eqn:E; [done|]. rewrite <- E in *. clear E Ht.
  unfold kv_tool_map_measure_locked. rewrite next_scan_ok by (fold c; lia). fold c.
  pose proof (inv_clock st l ps (c + 1) Hi) as Hi1. set (st1 := st <| mem ::= fun m => m <| scan_clock := c + 1 |> |>) in *.
  change (saved st l text) with (saved st1 l text) in *.
  destruct (measure_ok st1 l ps text Hi1 Hs (c + 1)) as (seen & ->); [|done|done|].
  { intros b k Hk. specialize (Hold b k Hk). lia. }
  cbn [fst]. assert (Hcnt : Z.of_nat (length (saved st1 l text)) <> 0) by (destruct (saved st1 l text); [done|simpl; lia]).
  rewrite (proj2 (Z.eqb_neq _ _) Hcnt). cbn [negb]. rewrite (proj2 (Z.eqb_neq _ _) Hcnt).
  unfold map_bytes in Hroom. rewrite length_app in Hroom.
  rewrite fwrite_ok by lia. pose proof (inv_scanned (c + 1) seen st1 l ps Hi1) as Hi2.
  set (st2 := scanned (c + 1) seen st1) in *.
  rewrite next_scan_ok by (change (scan_clock (mem st2)) with (c + 1); lia). change (scan_clock (mem st2)) with (c + 1).
  cbn [negb]. pose proof (inv_clock st2 l ps (c + 1 + 1) Hi2) as Hi3.
  set (st3 := st2 <| mem ::= fun m => m <| scan_clock := c + 1 + 1 |> |>) in *.
  assert (Hsv : saved st3 l text = saved st1 l text) by (change (saved st3 l text) with (saved st2 l text); apply saved_scanned).
  assert (Hold3 : forall b k, blks st3 !! b = Some k -> b_seen k < c + 1 + 1).
  { intros b k (k0 & Hk0 & ->)%scanned_block. specialize (Hold b k0 Hk0). unfold mark. destruct (bool_decide _); simpl; lia. }
  destruct (write_ok st3 l ps text Hi3 Hs (c + 1 + 1)
    (push fp ([x4b; x54; x4d; zb KV_TOOL_MAP_VERSION] ++ le_put32 (Z.of_nat (length (saved st1 l text)))))) as (seen' & Hw).
  - exact Hold3.
  - rewrite Hsv. unfold push. cbn [fp_room]. lia.
  - rewrite Hsv in Hw. rewrite Hw. rewrite push_app. exists (scanned (c + 1 + 1) seen' st3). split; [done|].
    split; [by apply inv_scanned|]. intros b k (k0 & Hk0 & ->)%scanned_block. specialize (Hold3 b k0 Hk0).
    change (scan_clock (mem (scanned (c + 1 + 1) seen' st3))) with (c + 1 + 1). unfold mark.
    destruct (bool_decide _); simpl; lia.
Qed.

(** ** Loading *)

(** What the loader accepts, and a C string holds. *)
Definition loadable (p : bytes * bytes) : Prop :=
  0 < strlen (fst p) <= 256 /\ 0 < strlen (snd p) <= DS4_TOOL_MEMORY_MAX_BYTES /\ NUL ∉ fst p /\ NUL ∉ snd p.

Definition wants (wanted : option stop_list) (p : bytes * bytes) : bool :=
  match wanted with None => true | Some w => id_list_contains w (Some (fst p)) end.

Definition from_disk (p : bytes * bytes) : remembered := Remembered (fst p) (snd p) TOOL_MEMORY_DISK.

Lemma fits_suffix (st : tm_state) (l1 l2 : list remembered) : fits st (l1 ++ l2) -> fits st l2.
Proof.
  unfold fits. rewrite length_app. intros [H1 H2]. split; [lia|].
  assert (a_bytes l2 <= a_bytes (l1 ++ l2)); [|lia]. clear. induction l1 as [|a l1 IH]; [done|]. cbn [app a_bytes].
  pose proof (id_weight_pos (a_id a)). pose proof (dsml_weight_pos (a_dsml a)). destruct (knows _ _); lia.
Qed.

Lemma longest_fit_all (st : tm_state) (l kept : list remembered) : longest_fit st l kept -> fits st l -> kept = l.
Proof.
  intros ([r ->] & _ & Hmax) Hf. destruct r as [|a r]; [by rewrite app_nil_r|].
  exfalso. apply (Hmax (length (kept ++ a :: r))); [rewrite length_app; simpl; lia|]. by rewrite take_ge.
Qed.

Section Load.
Context {MA : Malloc}.

(** A call that is not remembered yet, within the budget. *)
Lemma put_from_disk (st : tm_state) (l : list remembered) (p : bytes * bytes) : repr st l -> fits st (from_disk p :: l) ->
  loadable p -> fst p ∉ map a_id l -> tool_memory_max_bytes (mem st) <= 2 ^ 36 ->
  exists st', tool_memory_put_source false st (Some (fst p)) (Some (snd p)) TOOL_MEMORY_DISK = Ok st' /\
    repr st' (from_disk p :: l) /\ same_limits st st'.
Proof.
  intros Hr Hf (Hid & Hd & _ & _) Hnew Hmax. pose proof (fits_suffix st [from_disk p] l Hf) as Hfl.
  destruct (put_ok st l (fst p) (snd p) TOOL_MEMORY_DISK (repr_ready _ _ Hr) Hfl) as (st' & kept & ps' & E & Hi & Hs & Hk).
  - intros E. rewrite E in Hid. unfold strlen in Hid; simpl in Hid; lia.
  - intros E. rewrite E in Hd. unfold strlen in Hd; simpl in Hd; lia.
  - unfold room, id_weight, dsml_weight, sizeof_entry, sizeof_block, DS4_TOOL_MEMORY_MAX_BYTES in *. lia.
  - assert (Hput : a_put (fst p) (snd p) TOOL_MEMORY_DISK l = from_disk p :: l).
    { assert (Forall (fun x => a_id x <> fst p) l) as Hall.
      { apply Forall_forall. intros x Hx Hxp. apply Hnew. rewrite <- Hxp. by apply list_elem_of_fmap_2. }
      destruct (find_call_none l (fst p) Hall) as [H1 H2]. unfold a_put, stored. by rewrite H1, H2. }
    rewrite Hput in Hk. apply longest_fit_all in Hk; [|done]. subst kept. exists st'. split; [|split; [left; eauto|done]].
    unfold tool_memory_put_source. destruct (fst p) as [|i0 i]; [unfold strlen in Hid; simpl in Hid; lia|]. destruct (snd p) as [|d0 d]; [unfold strlen in Hd; simpl in Hd; lia|]. done.
Qed.

Lemma read_record (p : bytes * bytes) (rest : bytes) : loadable p -> read_n 8 (record_bytes p ++ rest) =
    Some (le_put32 (strlen (fst p)) ++ le_put32 (strlen (snd p)), fst p ++ snd p ++ rest).
Proof.
  intros _. unfold record_bytes. rewrite <- !app_assoc, (app_assoc (le_put32 _) (le_put32 _)).
  apply read_n_app. by rewrite length_app, !le_put32_length.
Qed.

Lemma load_entries_ok (wanted : option stop_list) (prs : list (bytes * bytes)) : forall st l tail n,
  repr st l -> Forall loadable prs -> NoDup (map fst prs ++ map a_id l) -> tool_memory_max_bytes (mem st) <= 2 ^ 36 ->
  fits st (rev (map from_disk (List.filter (wants wanted) prs)) ++ l) ->
  exists st', load_entries (length prs) false st (concat (map record_bytes prs) ++ tail) wanted n =
      Ok (n + Z.of_nat (length (List.filter (wants wanted) prs)), st') /\
    repr st' (rev (map from_disk (List.filter (wants wanted) prs)) ++ l).
Proof.
  induction prs as [|p prs IH]; intros st l tail n Hr Hl Hnd Hmax Hf.
  - exists st. simpl. by rewrite Z.add_0_r.
  - apply Forall_cons in Hl as [Hp Hl]. cbn [length load_entries map concat]. rewrite <- app_assoc.
    rewrite read_record by done. pose proof Hp as (Hid & Hd & Hn1 & Hn2). unfold DS4_TOOL_MEMORY_MAX_BYTES in Hd.
    rewrite le_get_put32 by zlia.
    rewrite (drop_app_length' (le_put32 (strlen (fst p)))) by (by rewrite le_put32_length).
    rewrite <- (app_nil_r (le_put32 (strlen (snd p)))), le_get_put32 by zlia.
    rewrite (proj2 (Z.eqb_neq (strlen (fst p)) 0)), (proj2 (Z.ltb_ge 256 _)), (proj2 (Z.eqb_neq (strlen (snd p)) 0)),
      (proj2 (Z.ltb_ge DS4_TOOL_MEMORY_MAX_BYTES _)) by (unfold DS4_TOOL_MEMORY_MAX_BYTES; lia). cbn [orb].
    rewrite (read_n_app _ (fst p)) by (unfold strlen; lia). rewrite (read_n_app _ (snd p)) by (unfold strlen; lia).
    rewrite !c_str_id by done. cbn [map app] in Hnd. apply NoDup_cons in Hnd as [Hnew Hnd].
    fold (wants wanted p). cbn [List.filter] in Hf |- *. destruct (wants wanted p) eqn:Ew.
    + cbn [map rev] in Hf |- *. rewrite <- app_assoc in Hf |- *. cbn [app] in Hf |- *.
      destruct (put_from_disk st l p Hr) as (st1 & E1 & Hr1 & Hs1); [by eapply fits_suffix|done| |done|].
      { intros Hin. apply Hnew, elem_of_app. by right. }
      rewrite E1. destruct (IH st1 (from_disk p :: l) tail (n + 1) Hr1 Hl) as (st' & E & Hr').
      * cbn [map from_disk a_id]. rewrite <- Permutation_middle. by apply NoDup_cons.
      * destruct Hs1 as [_ Hb]. unfold tool_memory_max_bytes. rewrite Hb. exact Hmax.
      * by apply (fits_same st st1).
      * exists st'. rewrite E. split; [|done]. f_equal. f_equal. cbn [length]. lia.
    + by apply IH.
Qed.

Lemma load_ok (st : tm_state) (prs : list (bytes * bytes)) (tail : bytes) (wanted : option stop_list) :
  repr st [] -> Forall loadable prs -> NoDup (map fst prs) -> tool_memory_max_bytes (mem st) <= 2 ^ 36 ->
  Z.of_nat (length prs) <= UINT32_MAX -> Z.of_nat (length prs) <= tool_memory_max_entries (mem st) * 4 ->
  fits st (rev (map from_disk (List.filter (wants wanted) prs))) ->
  exists st', kv_tool_map_load_from_pos false st (map_bytes prs ++ tail) wanted =
      Ok (Z.of_nat (length (List.filter (wants wanted) prs)), st') /\
    repr st' (rev (map from_disk (List.filter (wants wanted) prs))).
Proof.
  intros Hr Hl Hnd Hmax Hn Hent Hf. unfold kv_tool_map_load_from_pos, map_bytes. rewrite <- !app_assoc.
  rewrite (app_assoc _ (le_put32 _)), read_n_app by (by rewrite length_app, le_put32_length).
  set (hd := [x4b; x54; x4d; zb KV_TOOL_MAP_VERSION] ++ le_put32 (Z.of_nat (length prs))).
  change (drop 4 hd) with (le_put32 (Z.of_nat (length prs))).
  change (negb ((u8_at hd 0 =? 0x4b) && (u8_at hd 1 =? 0x54) && (u8_at hd 2 =? 0x4d) && (u8_at hd 3 =? KV_TOOL_MAP_VERSION))) with false.
  rewrite <- (app_nil_r (le_put32 _)), le_get_put32 by zlia. cbn [negb].
  rewrite (proj2 (Z.ltb_ge _ _)) by lia. rewrite Nat2Z.id.
  destruct (load_entries_ok wanted prs st [] tail 0 Hr Hl) as (st' & E & Hr'); [by rewrite app_nil_r|done|by rewrite app_nil_r|].
  rewrite app_nil_r in Hr'. exists st'. by rewrite E.
Qed.
End Load.

(** ** The theorem *)

(** The calls whose text is among the blocks [ds] of a transcript. *)
Definition mentioned (l : list remembered) (ds : list bytes) : list remembered :=
  filter (fun a => a_dsml a ∈ ds) l.

(** Memory [st2] is empty and can take the saved calls: they are at most four
    times its limit of entries, and those wanted fit within its limits. *)
Definition takes (st2 : tm_state) (wanted : option stop_list) (l : list remembered) : Prop :=
  repr st2 [] /\ tool_memory_max_bytes (mem st2) <= 2 ^ 36 /\
  Z.of_nat (length l) <= tool_memory_max_entries (mem st2) * 4 /\
  fits st2 (map from_disk (List.filter (wants wanted) (map pair_of l))).

Lemma filter_perm {A} (p : A -> bool) (l l' : list A) : l ≡ₚ l' -> List.filter p l ≡ₚ List.filter p l'.
Proof.
  induction 1 as [|x l l' _ IH|x y l|l1 l2 l3 _ IH1 _ IH2]; simpl; [done| | |by rewrite IH1].
  - destruct (p x); by rewrite ?IH.
  - destruct (p x), (p y); done || apply Permutation_swap.
Qed.

Lemma sumZ_perm {A} (f : A -> Z) (l l' : list A) : l ≡ₚ l' -> sumZ f l = sumZ f l'.
Proof. unfold sumZ. induction 1; simpl; lia. Qed.

(** C18: the exact text of tool calls survives a restart.  Take a transcript
    and its blocks of calls [ds]: those found from left to right, each from a
    start tag, with an empty line in front if there is one, to the first end tag
    of the same spelling ([call_blocks]).  Writing the tool-id map behind the
    transcript saves, once each and in the number of bytes that was measured
    beforehand, exactly the remembered calls whose text is one of these blocks,
    and forgets none; loading the bytes written into an empty memory (of
    another process) remembers exactly the saved calls that are wanted, with
    their texts, whatever follows the map in the file.  This holds when the
    file takes all the bytes, when every saved id has between 1 and 256 bytes
    and every text is within the loader's limit ([loadable]: one longer id and
    the loader drops every mapping behind it), and when the new memory has room
    for the calls ([takes]); the memory that is written holds less than 4 GiB and
    remembers at least one of the blocks. *)
Theorem tool_map_survives_restart {MA : Malloc} (st st2 : tm_state) (l : list remembered) (fp : out_stream)
    (text tail : bytes) (ds : list bytes) (wanted : option stop_list) :
  call_blocks text ds ->
  repr st l -> a_bytes l <= UINT32_MAX -> unscanned st -> mentioned l ds <> [] ->
  Forall loadable (map pair_of (mentioned l ds)) ->
  KV_TOOL_MAP_HEADER + sumZ record_size (map pair_of (mentioned l ds)) <= Z.of_nat (fp_room fp) ->
  takes st2 wanted (mentioned l ds) ->
  exists order st', order ≡ₚ map pair_of (mentioned l ds) /\
    kv_tool_map_write false st fp text =
      Ok (true, KV_TOOL_MAP_HEADER + sumZ record_size order, push fp (map_bytes order), st') /\
    Z.of_nat (length (map_bytes order)) = KV_TOOL_MAP_HEADER + sumZ record_size order /\
    repr st' l /\
    exists st3, kv_tool_map_load_from_pos false st2 (map_bytes order ++ tail) wanted =
        Ok (Z.of_nat (length (List.filter (wants wanted) order)), st3) /\
      repr st3 (rev (map from_disk (List.filter (wants wanted) order))).
Proof.
  intros Hds Hr Hs Hu Hne Hl Hroom (Hr2 & Hmax & Hent & Hf). apply tool_blocks_iff in Hds. subst ds.
  destruct Hr as [[ps Hi]|(-> & _)]; [|done].
  assert (Hperm : saved st l text ≡ₚ map pair_of (mentioned l (tool_blocks text))) by (by eapply saved_perm).
  assert (Hsum : sumZ record_size (saved st l text) = sumZ record_size (map pair_of (mentioned l (tool_blocks text)))).
  { by apply sumZ_perm. }
  pose proof (map_bytes_length (saved st l text)) as Hlen. destruct (saved_bounds st l ps text Hi Hs) as [Hn _].
  destruct (tool_map_written st l ps fp text Hi Hs Hu) as (st' & Hw & Hi' & _).
  - intros ->. apply Hne. unfold mentioned. change (tool_blocks []) with (@nil bytes). clear.
    induction l as [|a l IH]; [done|]. by rewrite filter_cons, decide_False, IH by apply not_elem_of_nil.
  - intros E. rewrite E in Hperm. apply Permutation_nil, map_eq_nil in Hperm. done.
  - rewrite Hsum in Hlen. lia.
  - rewrite Hlen in Hw. exists (saved st l text), st'. split; [done|]. split; [done|]. split; [done|]. split; [left; eauto|].
    apply load_ok; [done| | |done|done| |].
    + by rewrite Hperm.
    + rewrite Hperm. rewrite <- list_fmap_compose. eapply sublist_NoDup; [exact (ids_NoDup st l ps Hi)|].
      apply (fmap_sublist a_id), sublist_filter.
    + by rewrite Hperm, length_map.
    + assert (rev (map from_disk (List.filter (wants wanted) (saved st l text))) ≡ₚ
        map from_disk (List.filter (wants wanted) (map pair_of (mentioned l (tool_blocks text))))) as E.
      { rewrite <- Permutation_rev. apply Permutation_map, filter_perm, Hperm. }
      destruct Hf as [H1 H2]. split; [by rewrite E|]. by rewrite (a_bytes_perm _ _ E).
Qed.

(** ** Witness *)

Definition ex_block : bytes := B "<tool_calls>f()</tool_calls>".
Definition ex_transcript : bytes := B "Sure. " ++ ex_block ++ B " Done.".
Definition ex_calls : list remembered := [Remembered (B "call_1") ex_block TOOL_MEMORY_RAM].
Definition ex_memory : tm_state :=
  match @tool_memory_put_locked first_fit (tool_memory_zero 0 0) (Some (B "call_1")) (Some ex_block) TOOL_MEMORY_RAM with
  | Ok st => st
  | Error _ => tool_memory_zero 0 0
  end.

Lemma ex_memory_repr : repr ex_memory ex_calls.
Proof.
  destruct (@put_ok first_fit (tool_memory_zero 0 0) [] (B "call_1") ex_block TOOL_MEMORY_RAM
    (zero_ready 0 0) (fits_nil _)) as (st' & kept & ps & E & Hi & Hs & Hk); [discriminate|discriminate|vm_compute; discriminate|].
  assert (kept = ex_calls) as ->.
  { apply (longest_fit_all _ _ _ Hk). split; vm_compute; discriminate. }
  left. exists ps. unfold ex_memory. rewrite E. exact Hi.
Qed.

Lemma tool_map_survives_restart_witness :
  map pair_of (mentioned ex_calls [ex_block]) = [(B "call_1", ex_block)] /\
  exists order st', order ≡ₚ map pair_of (mentioned ex_calls [ex_block]) /\
    kv_tool_map_write false ex_memory (OutStream [] 100) ex_transcript =
      Ok (true, KV_TOOL_MAP_HEADER + sumZ record_size order, push (OutStream [] 100) (map_bytes order), st') /\
    Z.of_nat (length (map_bytes order)) = KV_TOOL_MAP_HEADER + sumZ record_size order /\
    repr st' ex_calls /\
    exists st3, @kv_tool_map_load_from_pos first_fit false (tool_memory_zero 0 0) (map_bytes order ++ B "rest") None =
        Ok (Z.of_nat (length (List.filter (wants None) order)), st3) /\
      repr st3 (rev (map from_disk (List.filter (wants None) order))).
Proof.
  assert (Hm : mentioned ex_calls [ex_block] = ex_calls) by (vm_compute; reflexivity).
  split; [by rewrite Hm|].
  refine (@tool_map_survives_restart first_fit ex_memory (tool_memory_zero 0 0) ex_calls (OutStream [] 100)
    ex_transcript (B "rest") [ex_block] None _ ex_memory_repr _ _ _ _ _ _).
  - apply tool_blocks_iff. vm_compute. reflexivity.
  - vm_compute. discriminate.
  - split; [vm_compute; discriminate|]. split; [vm_compute; discriminate|].
    assert (map_Forall (fun _ k => b_seen k <= scan_clock (mem ex_memory)) (blks ex_memory)) as H; [|exact H].
    apply (bool_decide_unpack _). vm_compute. exact I.
  - rewrite Hm. discriminate.
  - rewrite Hm. constructor; [|constructor]. unfold loadable.
    split; [vm_compute; split; [reflexivity|discriminate]|]. split; [vm_compute; split; [reflexivity|discriminate]|].
    split; apply (bool_decide_unpack _); vm_compute; exact I.
  - rewrite Hm. vm_compute. discriminate.
  - rewrite Hm. split; [apply zero_repr|]. split; [vm_compute; discriminate|]. split; [vm_compute; discriminate|].
    split; vm_compute; discriminate.
Defined.
