(* ===== verification/Chat.v ===== *)
(** * Prompts and live continuations (ds4_server.c)

    How a conversation becomes the text of a prompt, the tail that continues a
    live session behind a tool call, the evidence a request carries for that,
    and the texts under which a finished turn is remembered.  A role is never
    null in the code that runs here; [the_role] reads it. *)
From S2P Require Import Prelude.
From S2P Require Import CNum.
From S2P Require Import CFloat.
From S2P Require Import ServerJson.
From S2P Require Import ServerStream.
From S2P Require Import ServerMsgs.
From S2P Require Import Dsml.
From S2P Require Import ToolMemory.
Open Scope Z_scope.

(** ** Thinking (ds4.c) *)

Inductive ds4_think_mode := DS4_THINK_NONE | DS4_THINK_HIGH | DS4_THINK_MAX.

Definition ds4_think_mode_enabled (mode : ds4_think_mode) : bool :=
  match mode with DS4_THINK_HIGH | DS4_THINK_MAX => true | DS4_THINK_NONE => false end.

Definition DS4_THINK_MAX_MIN_CONTEXT : Z := 393216.

Definition ds4_think_mode_for_context (mode : ds4_think_mode) (ctx_size : Z) : ds4_think_mode :=
  match mode with
  | DS4_THINK_MAX => if u32 (if 0 <? ctx_size then ctx_size else 0) <? DS4_THINK_MAX_MIN_CONTEXT then DS4_THINK_HIGH else mode
  | _ => mode
  end.

Definition ds4_think_max_prefix : bytes :=
  B "Reasoning Effort: Absolute maximum with no shortcuts permitted." ++ [LF] ++
  B "You MUST be very thorough in your thinking and comprehensively decompose the problem to resolve the root cause, rigorously stress-testing your logic against all potential paths, edge cases, and adversarial scenarios." ++
  [LF] ++
  B "Explicitly write out your entire deliberation process, documenting every intermediate step, considered alternative, and rejected hypothesis to ensure absolutely no assumption is left unchecked." ++
  [LF] ++ [LF].

(** ** Requests *)

Inductive request_kind := REQ_CHAT | REQ_COMPLETION.
Inductive api_style := API_OPENAI | API_ANTHROPIC | API_RESPONSES.

Record tool_schema_order := SchemaOrder {
  so_name : option bytes;
  wire_name : option bytes;
  so_namespace : option bytes;
  responses_tool_search : bool;
  so_prop : list bytes
}.

(** A [float]. *)
Abbreviation float32 := SpecFloat.spec_float (only parsing).

Record request := Request {
  r_kind : request_kind;
  r_api : api_style;
  r_prompt : list Z;
  r_model : option bytes;
  r_stops : stop_list;
  raw_body : option bytes;
  prompt_text : option bytes;
  tool_orders : list tool_schema_order;
  max_tokens : Z;
  top_k : Z;
  temperature : float32;
  top_p : float32;
  min_p : float32;
  seed : Z;
  r_stream : bool;
  stream_include_usage : bool;
  cache_read_tokens : Z;
  cache_write_tokens : Z;
  think_mode : ds4_think_mode;
  has_tools : bool;
  prompt_preserves_reasoning : bool;
  reasoning_summary_emit : bool;
  responses_requires_live_tool_state : bool;
  responses_requires_live_reasoning : bool;
  responses_live_call_ids : stop_list;
  responses_live_suffix_text : option bytes;
  anthropic_requires_live_tool_state : bool;
  anthropic_live_call_ids : stop_list;
  anthropic_live_suffix_text : option bytes;
  tool_replay : tool_replay_stats
}.
#[export] Instance schema_order_fields : Fields tool_schema_order :=
  rd_pure SchemaOrder <*> so_name <*> wire_name <*> so_namespace <*> responses_tool_search <*> so_prop.
#[export] Instance request_fields : Fields request :=
  rd_pure Request <*> r_kind <*> r_api <*> r_prompt <*> r_model <*> r_stops <*> raw_body <*> prompt_text <*> tool_orders <*>
  max_tokens <*> top_k <*> temperature <*> top_p <*> min_p <*> seed <*> r_stream <*> stream_include_usage <*>
  cache_read_tokens <*> cache_write_tokens <*> think_mode <*> has_tools <*> prompt_preserves_reasoning <*>
  reasoning_summary_emit <*> responses_requires_live_tool_state <*> responses_requires_live_reasoning <*>
  responses_live_call_ids <*> responses_live_suffix_text <*> anthropic_requires_live_tool_state <*>
  anthropic_live_call_ids <*> anthropic_live_suffix_text <*> tool_replay.

(** ** The system part *)

Definition append_tools_prompt_text (tool_schemas : option bytes) : bytes :=
  match nonempty tool_schemas with
  | None => []
  | Some schemas =>
    B "## Tools" ++ [LF] ++ [LF] ++
    B "You have access to a set of tools to help answer the user question. You can invoke tools by writing a " ++
    [QUOTE] ++ B "<｜DSML｜tool_calls>" ++ [QUOTE] ++ B " block like the following:" ++ [LF] ++ [LF] ++
    B "<｜DSML｜tool_calls>" ++ [LF] ++ B "<｜DSML｜invoke name=" ++ [QUOTE] ++ B "$TOOL_NAME" ++ [QUOTE] ++ B ">" ++
    [LF] ++ B "<｜DSML｜parameter name=" ++ [QUOTE] ++ B "$PARAMETER_NAME" ++ [QUOTE] ++ B " string=" ++ [QUOTE] ++
    B "true|false" ++ [QUOTE] ++ B ">$PARAMETER_VALUE</｜DSML｜parameter>" ++ [LF] ++ B "..." ++ [LF] ++
    B "</｜DSML｜invoke>" ++ [LF] ++ B "<｜DSML｜invoke name=" ++ [QUOTE] ++ B "$TOOL_NAME2" ++ [QUOTE] ++ B ">" ++
    [LF] ++ B "..." ++ [LF] ++ B "</｜DSML｜invoke>" ++ [LF] ++ B "</｜DSML｜tool_calls>" ++ [LF] ++ [LF] ++
    B "String parameters should be specified as raw text and set `string=" ++ [QUOTE] ++ B "true" ++ [QUOTE] ++
    B "`. Preserve characters such as `>`, `&`, and `&&` exactly; never replace normal string characters with XML or HTML entity escapes. Only if a string value itself contains the exact closing parameter tag `</｜DSML｜parameter>`, write that tag as `&lt;/｜DSML｜parameter>` inside the value. For all other types (numbers, booleans, arrays, objects), pass the value in JSON format and set `string=" ++
    [QUOTE] ++ B "false" ++ [QUOTE] ++ B "`." ++ [LF] ++ [LF] ++
    B "If thinking_mode is enabled (triggered by <think>), you MUST output your complete reasoning inside <think>...</think> BEFORE any tool calls or final response." ++
    [LF] ++ [LF] ++ B "Otherwise, output directly after </think> with tool calls or final response." ++ [LF] ++
    [LF] ++ B "### Available Tool Schemas" ++ [LF] ++ [LF] ++
    schemas ++
    [LF] ++ [LF] ++
    B "You MUST strictly follow the above defined tool name and parameter schemas to invoke tool calls. Use the exact parameter names from the schemas."
  end.

Definition the_role (m : chat_msg) : bytes := default [] (role m).
Definition is_role (m : chat_msg) (r : string) : bool := str_eqb (the_role m) (B r).

Definition role_is_system (m : chat_msg) : bool := is_role m "system" || is_role m "developer".
Definition role_is_user_like (m : chat_msg) : bool := is_role m "user" || is_role m "tool" || is_role m "function".

(** Roles of a tool result. *)
Definition is_tool_role (m : chat_msg) : bool := is_role m "tool" || is_role m "function".

Definition has_calls (m : chat_msg) : bool := match tcs_v (calls m) with [] => false | _ => true end.

Definition chat_history_uses_tool_context (msgs : list chat_msg) (tool_schemas : option bytes) : bool :=
  match nonempty tool_schemas with
  | Some _ => true
  | None => existsb (fun m => (is_role m "assistant" && has_calls m) || is_tool_role m) msgs
  end.

(** The text in front of the first turn; the client's system messages are
    separated by an empty line. *)
Definition append_system (system : bytes) (m : chat_msg) : bytes :=
  if role_is_system m
  then system ++ (match system with [] => [] | _ => [LF; LF] end) ++ default [] (content m)
  else system.

Definition system_text (msgs : list chat_msg) (tool_schemas : option bytes) : bytes :=
  foldl append_system (append_tools_prompt_text tool_schemas) msgs.

(** [-1] when there is none. *)
Fixpoint last_user_loop (msgs : list chat_msg) (i last_user_idx : Z) : Z :=
  match msgs with
  | [] => last_user_idx
  | m :: msgs' => last_user_loop msgs' (i + 1) (if role_is_user_like m then i else last_user_idx)
  end.

(** ** Turns *)

Definition BOS : bytes := B "<｜begin▁of▁sentence｜>".
Definition EOS : bytes := B "<｜end▁of▁sentence｜>".
Definition USER : bytes := B "<｜User｜>".
Definition ASSISTANT : bytes := B "<｜Assistant｜>".

(** What is written and the two flags of the loops. *)
Record render_state := RenderState { out : bytes; pending_assistant : bool; pending_tool_result : bool }.

(** One message; [keep] says whether an assistant's reasoning is shown. *)
Definition render_msg (think keep : bool) (st : render_state) (m : chat_msg) : render_state :=
  if role_is_system m then st
  else if is_role m "user" then RenderState (out st ++ USER ++ default [] (content m)) true false
  else if is_tool_role m then
    RenderState (out st ++ (if pending_tool_result st then [] else USER) ++ B "<tool_result>" ++
      append_tool_result_text (content m) ++ B "</tool_result>") true true
  else if is_role m "assistant" then
    RenderState (out st ++
      (if pending_assistant st then
         ASSISTANT ++
         (if think then
            if keep then B "<think>" ++ default [] (reasoning m) ++ B "</think>" else B "</think>"
          else B "</think>")
       else []) ++
      default [] (content m) ++ append_dsml_tool_calls_text (Some (calls m)) ++ EOS) false false
  else st.

Fixpoint render_msgs (think : bool) (keep : Z -> bool) (msgs : list chat_msg) (i : Z) (st : render_state) : render_state :=
  match msgs with
  | [] => st
  | m :: msgs' => render_msgs think keep msgs' (i + 1) (render_msg think (keep i) st m)
  end.

Definition render_end (think : bool) (st : render_state) : bytes :=
  out st ++ (if pending_assistant st then ASSISTANT ++ B (if think then "<think>" else "</think>") else []).

Definition render_chat_prompt_text (msgs : list chat_msg) (tool_schemas : option bytes) (mode : ds4_think_mode) : bytes :=
  let think := ds4_think_mode_enabled mode in
  let tool_context := chat_history_uses_tool_context msgs tool_schemas in
  let system := system_text msgs tool_schemas in
  let last_user_idx := last_user_loop msgs 0 (-1) in
  let start := BOS ++ (match mode with DS4_THINK_MAX => ds4_think_max_prefix | _ => [] end) ++ system in
  render_end think
    (render_msgs think (fun i => tool_context || (last_user_idx <? i)) msgs 0 (RenderState start false false)).

(** The messages from [start] on; their reasoning is always kept. *)
Definition render_live_tool_tail (msgs : list chat_msg) (start : nat) (mode : ds4_think_mode) : bytes :=
  let think := ds4_think_mode_enabled mode in
  render_end think (render_msgs think (fun _ => true) (drop start msgs) (Z.of_nat start) (RenderState EOS false false)).

(** ** Tool results and the calls they answer *)

Definition chat_msg_has_call_id (m : chat_msg) (id : option bytes) : bool :=
  match nonempty id with
  | None => false
  | Some id =>
      is_role m "assistant" &&
      existsb (fun tc => match tc_id tc with Some x => str_eqb x id | None => false end) (tcs_v (calls m))
  end.

Definition chat_msg_collect_tool_call_ids (m : chat_msg) (ids : stop_list) : stop_list :=
  foldl (fun ids id => id_list_push_unique ids (Some id)) (id_list_push_unique ids (tool_call_id m)) (tool_call_ids m).

Definition no_ids : stop_list := StopList [] 0.

(** The nearest message before [before]. *)
Definition responses_find_prior_call_msg (msgs : list chat_msg) (before : nat) (id : option bytes) : option chat_msg :=
  match nonempty id with
  | None => None
  | Some _ => match find_index (fun m => chat_msg_has_call_id m id) (rev (take before msgs)) 0 with
              | Some (_, m) => Some m
              | None => None
              end
  end.

(** One id of one tool message; the flags say whether live tool state and live
    reasoning are required. *)
Definition check_tool_output (live : live_tool_state) (msgs : list chat_msg) (i : nat) (needs_reasoning : bool)
    (flags : bool * bool) (id : bytes) : res (bool * bool) :=
  let live_known := live_has_call_id live (Some id) in
  match responses_find_prior_call_msg msgs i (Some id) with
  | None =>
      if live_known then Ok (true, snd flags)
      else fail "Responses continuation state is not available for call_id %s; retry by replaying the full input history" [AS id]
  | Some prior =>
      Ok (if needs_reasoning && match nonempty (reasoning prior) with None => true | _ => false end
          then (fst flags, true) else flags)
  end.

Fixpoint validate_loop (live : live_tool_state) (msgs rest : list chat_msg) (i : nat) (needs_reasoning : bool)
    (flags : bool * bool) : res (bool * bool) :=
  match rest with
  | [] => Ok flags
  | m :: rest' =>
      let* flags := (if is_tool_role m
                     then rfold (check_tool_output live msgs i needs_reasoning) flags
                            (sl_v (chat_msg_collect_tool_call_ids m no_ids))
                     else Ok flags) in
      validate_loop live msgs rest' (S i) needs_reasoning flags
  end.

(** [requires_live_tool_state] and [requires_live_reasoning]. *)
Definition responses_validate_tool_outputs (live : live_tool_state) (msgs : list chat_msg) (mode : ds4_think_mode)
    : res (bool * bool) :=
  validate_loop live msgs msgs 0 (ds4_think_mode_enabled mode) (false, false).

(** Where the messages at the end that satisfy [p] start. *)
Fixpoint tail_start_loop (p : chat_msg -> bool) (msgs : list chat_msg) (tail_start : nat) : nat :=
  match tail_start with
  | O => O
  | S n => match msgs !! n with
           | Some m => if p m then tail_start_loop p msgs n else tail_start
           | None => tail_start
           end
  end.

Definition push_call (ids : stop_list) (tc : tool_call) : stop_list := id_list_push_unique ids (tc_id tc).

Definition responses_prepare_live_continuation (r : request) (msgs : list chat_msg) : request :=
  match r_api r, msgs with
  | API_RESPONSES, _ :: _ =>
      let tail_start := tail_start_loop is_tool_role msgs (length msgs) in
      if (tail_start =? length msgs)%nat then r
      else
        let r := r <| responses_live_call_ids := stop_list_clear (responses_live_call_ids r) |> in
        let found :=
          match tail_start with
          | S anchor =>
              match msgs !! anchor with
              | Some assistant =>
                  if negb (is_role assistant "assistant") || negb (has_calls assistant) then None
                  else Some (foldl push_call (responses_live_call_ids r) (tcs_v (calls assistant)))
              | None => None
              end
          | O => Some (foldl (fun ids m => chat_msg_collect_tool_call_ids m ids) (responses_live_call_ids r) msgs)
          end in
        match found with
        | None => r
        | Some ids =>
            let r := r <| responses_live_call_ids := ids |> in
            if (length (sl_v ids) =? 0)%nat then r
            else r <| responses_live_suffix_text := Some (render_live_tool_tail msgs tail_start (think_mode r)) |>
        end
  | _, _ => r
  end.

Definition anthropic_msg_is_tool_result_tail (m : chat_msg) : bool :=
  is_role m "user" && (match nonempty (tool_call_id m) with Some _ => true | None => false end ||
                       negb (length (tool_call_ids m) =? 0)%nat).

Definition check_tool_result (live : live_tool_state) (msgs : list chat_msg) (i : nat) (flag : bool) (id : bytes)
    : res bool :=
  match responses_find_prior_call_msg msgs i (Some id) with
  | None =>
      if live_has_call_id live (Some id) then Ok true
      else fail "Anthropic continuation state is not available for tool_use_id %s; retry by replaying the full messages history"
             [AS id]
  | Some _ => Ok flag
  end.

Fixpoint anthropic_validate_loop (live : live_tool_state) (msgs rest : list chat_msg) (i : nat) (flag : bool) : res bool :=
  match rest with
  | [] => Ok flag
  | m :: rest' =>
      flag <- (if anthropic_msg_is_tool_result_tail m
               then rfold (check_tool_result live msgs i) flag (sl_v (chat_msg_collect_tool_call_ids m no_ids))
               else Ok flag) ;;
      anthropic_validate_loop live msgs rest' (S i) flag
  end.

(** [requires_live_tool_state]. *)
Definition anthropic_validate_tool_results (live : live_tool_state) (msgs : list chat_msg) : res bool :=
  anthropic_validate_loop live msgs msgs 0 false.

Definition anthropic_prepare_live_continuation (r : request) (msgs : list chat_msg) : request :=
  match r_api r, msgs with
  | API_ANTHROPIC, _ :: _ =>
      let tail_end := tail_start_loop role_is_system msgs (length msgs) in
      let tail_start := tail_start_loop anthropic_msg_is_tool_result_tail msgs tail_end in
      if (tail_start =? tail_end)%nat then r
      else
        let ids := foldl (fun ids m => chat_msg_collect_tool_call_ids m ids)
                     (stop_list_clear (anthropic_live_call_ids r)) (drop tail_start msgs) in
        let r := r <| anthropic_live_call_ids := ids |> in
        if (length (sl_v ids) =? 0)%nat then r
        else r <| anthropic_live_suffix_text := Some (render_live_tool_tail msgs tail_start (think_mode r)) |>
  | _, _ => r
  end.

(** ** Thinking tags in a stream *)

Record thinking_state := ThinkingState { ts_inside : bool; ts_tail : bytes }.

Definition thinking_tail_ends_with (tail s : bytes) : bool :=
  (length s <=? length tail)%nat && str_eqb (drop (length tail - length s) tail) s.

Definition thinking_feed_byte (st : thinking_state) (c : byte) : thinking_state :=
  let tail := (if (length (ts_tail st) =? 8)%nat then drop 1 (ts_tail st) else ts_tail st) ++ [c] in
  ThinkingState
    (if thinking_tail_ends_with tail (B "<think>") then true
     else if thinking_tail_ends_with tail (B "</think>") then false
     else ts_inside st) tail.

Definition thinking_state_feed (st : thinking_state) (p : bytes) : thinking_state := foldl thinking_feed_byte st p.

Definition thinking_state_from_prompt (r : request) : thinking_state :=
  match prompt_text r with
  | Some text => thinking_state_feed (ThinkingState false []) text
  | None => ThinkingState (ds4_think_mode_enabled (think_mode r)) []
  end.

(** ** What a finished turn is remembered by *)

Definition should_remember_thinking_checkpoint (r : request) (thinking : thinking_state) (finish : option bytes) : bool :=
  match r_kind r with
  | REQ_CHAT =>
      negb (has_tools r) && negb (prompt_preserves_reasoning r) && ds4_think_mode_enabled (think_mode r) &&
      negb (match finish with Some f => str_eqb f (B "error") || str_eqb f (B "length") | None => false end) &&
      negb (ts_inside thinking)
  | REQ_COMPLETION => false
  end.

Definition build_tool_checkpoint_suffix (r : request) (content reasoning : option bytes) (cs : option tool_calls) : bytes :=
  (if ds4_think_mode_enabled (think_mode r) then default [] reasoning ++ B "</think>" else []) ++
  default [] content ++ append_dsml_tool_calls_text cs ++ EOS.

Definition build_responses_visible_assistant_suffix (r : request) (content reasoning : option bytes)
    (cs : option tool_calls) : bytes :=
  (if ds4_think_mode_enabled (think_mode r)
   then (if reasoning_summary_emit r && match cs with Some (ToolCalls (_ :: _) _) => true | _ => false end
         then default [] reasoning else []) ++ B "</think>"
   else []) ++
  default [] content ++ append_dsml_tool_calls_text cs ++ EOS.

Definition build_toolless_thinking_visible_text (r : request) (content : option bytes) : option bytes :=
  match prompt_text r with
  | None => None
  | Some text =>
      if negb (ds4_think_mode_enabled (think_mode r)) then None
      else
        let tag_len := length (B "<think>") in
        if (length text <? tag_len)%nat || negb (str_eqb (drop (length text - tag_len) text) (B "<think>")) then None
        else Some (take (length text - tag_len) text ++ B "</think>" ++ default [] content ++ EOS)
  end.

(** [exact]: exact tool replay is not disabled. *)
Definition should_canonicalize_tool_checkpoint (exact : bool) (cs : option tool_calls) : bool :=
  match cs with
  | None | Some (ToolCalls [] _) => false
  | Some cs => negb (exact && match nonempty (raw_dsml cs) with Some _ => true | None => false end)
  end.
