(* ===== verification/ChatProps.v ===== *)
(** * Prompts and what is remembered of them agree

    The text under which a finished turn is remembered is a prefix of every
    later prompt that replays the turn, the tail that continues a live session
    is what a full replay would add, and the streaming detector of thinking
    tags agrees with a search of the whole text. *)
From S2P Require Import Prelude.
From S2P Require Import CNum.
From S2P Require Import CFloat.
From S2P Require Import ServerJson.
From S2P Require Import ServerJsonProps.
From S2P Require Import ServerStream.
From S2P Require Import ServerStreamProps.
From S2P Require Import ServerMsgs.
From S2P Require Import Dsml.
From S2P Require Import ToolMemory.
From S2P Require Import Chat.
Open Scope Z_scope.

(** ** Rendering in pieces *)

Lemma render_msgs_app (think : bool) (keep : Z -> bool) (a b : list chat_msg) : forall i st,
  render_msgs think keep (a ++ b) i st = render_msgs think keep b (i + Z.of_nat (length a)) (render_msgs think keep a i st).
Proof.
  induction a as [|m a IH]; intros i st; cbn [app render_msgs length]; [by rewrite Z.add_0_r|].
  rewrite IH. f_equal. lia.
Qed.

(** Only the reasoning of assistants depends on [keep]. *)
Lemma render_msgs_keep (think : bool) (keep keep' : Z -> bool) (l : list chat_msg) : forall i st,
  (forall j, i <= j < i + Z.of_nat (length l) -> keep j = keep' j) ->
  render_msgs think keep l i st = render_msgs think keep' l i st.
Proof.
  induction l as [|m l IH]; intros i st Hk; [done|]. cbn [render_msgs length] in *.
  rewrite (Hk i) by lia. apply IH. intros j Hj. apply Hk. lia.
Qed.

(** Text in front stays in front. *)
Definition behind (t : bytes) (st : render_state) : render_state := RenderState (t ++ out st) (pending_assistant st) (pending_tool_result st).

Lemma render_msg_behind (think keep : bool) (t : bytes) (st : render_state) (m : chat_msg) :
  render_msg think keep (behind t st) m = behind t (render_msg think keep st m).
Proof.
  unfold render_msg, behind. destruct (role_is_system m); [done|].
  destruct (is_role m "user"); cbn [out pending_assistant pending_tool_result]; [by rewrite <- app_assoc|].
  destruct (is_tool_role m); cbn [out pending_assistant pending_tool_result]; [by rewrite <- app_assoc|].
  destruct (is_role m "assistant"); cbn [out pending_assistant pending_tool_result]; [by rewrite <- app_assoc|done].
Qed.

Lemma render_msgs_behind (think : bool) (keep : Z -> bool) (t : bytes) (l : list chat_msg) : forall i st,
  render_msgs think keep l i (behind t st) = behind t (render_msgs think keep l i st).
Proof. induction l as [|m l IH]; intros i st; cbn [render_msgs]; [done|]. by rewrite render_msg_behind, IH. Qed.

Lemma render_end_behind (think : bool) (t : bytes) (st : render_state) :
  render_end think (behind t st) = t ++ render_end think st.
Proof. unfold render_end, behind. cbn [out pending_assistant]. by rewrite <- app_assoc. Qed.

Lemma render_rest (think : bool) (keep : Z -> bool) (l : list chat_msg) (i : Z) (t : bytes) (pa ptr : bool) :
  render_end think (render_msgs think keep l i (RenderState t pa ptr)) =
  t ++ render_end think (render_msgs think keep l i (RenderState [] pa ptr)).
Proof.
  rewrite <- render_end_behind, <- render_msgs_behind. unfold behind. cbn [out pending_assistant pending_tool_result].
  by rewrite app_nil_r.
Qed.

(** ** The parts that depend on the whole conversation *)

Definition no_system (l : list chat_msg) : Prop := forallb (fun m => negb (role_is_system m)) l = true.

Lemma system_text_app (a b : list chat_msg) (schemas : option bytes) : no_system b ->
  system_text (a ++ b) schemas = system_text a schemas.
Proof.
  intros Hb. unfold system_text. rewrite foldl_app. generalize (foldl append_system (append_tools_prompt_text schemas) a) as s.
  induction b as [|m b IH]; intros s; [done|]. apply andb_true_iff in Hb as [Hm Hb]. cbn [foldl].
  unfold append_system at 2. apply negb_true_iff in Hm. rewrite Hm. by apply IH.
Qed.

Lemma tool_context_app (a b : list chat_msg) (schemas : option bytes) :
  chat_history_uses_tool_context (a ++ b) schemas =
  chat_history_uses_tool_context a schemas || chat_history_uses_tool_context b None.
Proof. unfold chat_history_uses_tool_context. cbn [nonempty]. destruct (nonempty schemas); [done|]. by rewrite existsb_app. Qed.

Lemma last_user_app (a b : list chat_msg) : forall i u,
  last_user_loop (a ++ b) i u = last_user_loop b (i + Z.of_nat (length a)) (last_user_loop a i u).
Proof.
  induction a as [|m a IH]; intros i u; cbn [app last_user_loop length]; [by rewrite Z.add_0_r|].
  rewrite IH. f_equal. lia.
Qed.

(** The last user-like message is at least any of them. *)
Lemma last_user_ge (l : list chat_msg) : forall i u, u < i -> u <= last_user_loop l i u.
Proof.
  induction l as [|m l IH]; intros i u Hu; cbn [last_user_loop]; [lia|]. destruct (role_is_user_like m).
  - etrans; [|apply IH; lia]. lia.
  - apply IH. lia.
Qed.

Lemma last_user_in (l : list chat_msg) : forall i u, u < i -> existsb role_is_user_like l = true -> i <= last_user_loop l i u.
Proof.
  induction l as [|m l IH]; intros i u Hu; cbn [last_user_loop existsb]; [done|].
  destruct (role_is_user_like m); cbn [orb]; intros H; [apply last_user_ge; lia|].
  etrans; [|apply IH; [lia|done]]. lia.
Qed.

Lemma role_cases (m : chat_msg) (r s : string) : is_role m r = true -> bool_decide (B r <> B s) = true -> is_role m s = false.
Proof. unfold is_role. intros ->%str_eqb_eq Hne%bool_decide_eq_true. by apply str_eqb_neq. Qed.

Lemma assistant_not_system (m : chat_msg) : is_role m "assistant" = true ->
  role_is_system m = false /\ is_role m "user" = false /\ is_tool_role m = false.
Proof.
  intros H. unfold role_is_system, is_tool_role. 
  repeat split; [apply orb_false_iff; split| |apply orb_false_iff; split]; by apply (role_cases m "assistant").
Qed.

(** A user-like message leaves an answer pending. *)
Lemma user_pending (think keep : bool) (st : render_state) (m : chat_msg) : role_is_user_like m = true ->
  exists t ptr, render_msg think keep st m = RenderState (out st ++ t) true ptr.
Proof.
  intros Hm. unfold role_is_user_like in Hm. unfold render_msg.
  assert (role_is_system m = false) as ->.
  { unfold role_is_system. apply orb_false_iff. apply orb_true_iff in Hm as [[Hm|Hm]%orb_true_iff|Hm];
      split; by eapply role_cases. }
  destruct (is_role m "user") eqn:Eu; [eauto|]. cbn [orb] in Hm. unfold is_tool_role. rewrite Hm. eauto.
Qed.

(** An answer with its reasoning continues the prompt that asked for it. *)
Lemma render_assistant (think : bool) (st : render_state) (m : chat_msg) : is_role m "assistant" = true ->
  pending_assistant st = true ->
  render_msg think true st m =
  RenderState (render_end think st ++ (if think then default [] (reasoning m) ++ B "</think>" else []) ++
    default [] (content m) ++ append_dsml_tool_calls_text (Some (calls m)) ++ EOS) false false.
Proof.
  intros Hm Hp. destruct (assistant_not_system m Hm) as (H1 & H2 & H3).
  unfold render_msg, render_end. rewrite H1, H2, H3, Hm, Hp. f_equal. destruct think; by rewrite <- !app_assoc.
Qed.

(** Without it only the closing tag is written. *)
Lemma render_assistant_hidden (st : render_state) (m : chat_msg) : is_role m "assistant" = true ->
  pending_assistant st = true ->
  render_msg true false st m =
  RenderState (out st ++ ASSISTANT ++ B "</think>" ++
    default [] (content m) ++ append_dsml_tool_calls_text (Some (calls m)) ++ EOS) false false.
Proof.
  intros Hm Hp. destruct (assistant_not_system m Hm) as (H1 & H2 & H3).
  unfold render_msg. rewrite H1, H2, H3, Hm, Hp. done.
Qed.

Lemma no_system_cons (m : chat_msg) (l : list chat_msg) : role_is_system m = false -> no_system l -> no_system (m :: l).
Proof. unfold no_system. cbn [forallb]. by intros -> ->. Qed.

Definition start_text (msgs : list chat_msg) (schemas : option bytes) (mode : ds4_think_mode) : bytes :=
  BOS ++ (match mode with DS4_THINK_MAX => ds4_think_max_prefix | _ => [] end) ++ system_text msgs schemas.

(** A conversation in which tools occur keeps all reasoning. *)
Lemma render_tool_context (msgs : list chat_msg) (schemas : option bytes) (mode : ds4_think_mode) :
  chat_history_uses_tool_context msgs schemas = true ->
  render_chat_prompt_text msgs schemas mode =
  render_end (ds4_think_mode_enabled mode)
    (render_msgs (ds4_think_mode_enabled mode) (fun _ => true) msgs 0 (RenderState (start_text msgs schemas mode) false false)).
Proof.
  intros Ht. unfold render_chat_prompt_text, start_text. f_equal. apply render_msgs_keep. intros j _. by rewrite Ht.
Qed.

(** An assistant's turn ends the sentence. *)
Lemma render_assistant_ends (think : bool) (st : render_state) (m : chat_msg) : is_role m "assistant" = true ->
  exists t, render_msg think true st m = RenderState (t ++ EOS) false false.
Proof.
  intros Hm. destruct (assistant_not_system m Hm) as (H1 & H2 & H3). unfold render_msg. rewrite H1, H2, H3, Hm.
  rewrite !app_assoc. eexists. reflexivity.
Qed.

Lemma start_text_app (a b : list chat_msg) (schemas : option bytes) (mode : ds4_think_mode) : no_system b ->
  start_text (a ++ b) schemas mode = start_text a schemas mode.
Proof. intros Hb. unfold start_text. by rewrite system_text_app. Qed.

(** With constant [keep] the index does not matter. *)
Lemma render_index (think : bool) (l : list chat_msg) (i j : Z) (st : render_state) :
  render_msgs think (fun _ => true) l i st = render_msgs think (fun _ => true) l j st.
Proof. revert i j st. induction l as [|m l IH]; intros i j st; [done|]. cbn [render_msgs]. apply IH. Qed.

(** The tail behind an assistant's turn is what the full prompt has there. *)
Lemma live_tail (msgs : list chat_msg) (a : chat_msg) (more : list chat_msg) (schemas : option bytes) (mode : ds4_think_mode) :
  chat_history_uses_tool_context (msgs ++ [a]) schemas = true -> is_role a "assistant" = true -> no_system more ->
  exists body,
    render_chat_prompt_text (msgs ++ [a]) schemas mode = body ++ EOS /\
    render_chat_prompt_text (msgs ++ a :: more) schemas mode =
      body ++ render_live_tool_tail (msgs ++ a :: more) (length msgs + 1) mode.
Proof.
  intros Ht Ha Hmore. set (think := ds4_think_mode_enabled mode). change (a :: more) with ([a] ++ more). rewrite app_assoc.
  rewrite !render_tool_context by (rewrite ?(tool_context_app (msgs ++ [a])), Ht; done).
  rewrite (start_text_app (msgs ++ [a]) more) by done. fold think. rewrite render_msgs_app with (b := more).
  rewrite render_msgs_app. cbn [render_msgs].
  destruct (render_assistant_ends think (render_msgs think (fun _ => true) msgs 0 (RenderState (start_text (msgs ++ [a]) schemas mode) false false)) a Ha)
    as (t & ->). exists t. split; [unfold render_end; cbn [out pending_assistant]; by rewrite app_nil_r|].
  unfold render_live_tool_tail. fold think.
  replace (length msgs + 1)%nat with (length (msgs ++ [a])) by (rewrite length_app; done). rewrite drop_app_length.
  rewrite (render_rest _ _ _ _ (t ++ EOS)), (render_rest _ _ _ _ EOS), <- app_assoc.
  by rewrite (render_index think more _ (Z.of_nat (length (msgs ++ [a])))).
Qed.

(** The answer behind the prompt it was asked with. *)
Lemma answered_prompt (r : request) (msgs : list chat_msg) (u a : chat_msg) (schemas : option bytes) :
  chat_history_uses_tool_context (msgs ++ [u]) schemas = true ->
  role_is_user_like u = true -> is_role a "assistant" = true ->
  render_chat_prompt_text ((msgs ++ [u]) ++ [a]) schemas (think_mode r) =
  render_chat_prompt_text (msgs ++ [u]) schemas (think_mode r) ++
  build_tool_checkpoint_suffix r (content a) (reasoning a) (Some (calls a)).
Proof.
  intros Ht Hu Ha. set (think := ds4_think_mode_enabled (think_mode r)).
  rewrite !render_tool_context by (rewrite ?(tool_context_app (msgs ++ [u])), Ht; done).
  rewrite (start_text_app (msgs ++ [u])) by (apply no_system_cons; [by apply assistant_not_system|done]). fold think.
  set (s0 := RenderState _ false false). rewrite render_msgs_app. cbn [render_msgs].
  set (st := render_msgs think (fun _ => true) (msgs ++ [u]) 0 s0).
  assert (Hp : pending_assistant st = true).
  { unfold st. rewrite render_msgs_app. cbn [render_msgs].
    destruct (user_pending think true (render_msgs think (fun _ => true) msgs 0 s0) u Hu) as (t & ptr & ->). done. }
  rewrite render_assistant by done. unfold render_end at 1. cbn [out pending_assistant]. by rewrite app_nil_r.
Qed.

(** C20 A finished tool turn is remembered as what the next prompt replays.  In
    a conversation with tools whose last message is a user's or a tool's, the
    prompt followed by [build_tool_checkpoint_suffix] of the answer is a
    prefix of the prompt of every later request that sends the same messages,
    the answer, and then anything but system messages; what follows it there
    is what [render_live_tool_tail] sends behind its end of sentence. *)
Theorem tool_checkpoint_future_prompt (r : request) (msgs : list chat_msg) (u a : chat_msg) (more : list chat_msg)
    (schemas : option bytes) :
  chat_history_uses_tool_context (msgs ++ [u]) schemas = true ->
  role_is_user_like u = true -> is_role a "assistant" = true -> no_system more ->
  exists rest,
    render_chat_prompt_text ((msgs ++ [u]) ++ a :: more) schemas (think_mode r) =
      render_chat_prompt_text (msgs ++ [u]) schemas (think_mode r) ++
      build_tool_checkpoint_suffix r (content a) (reasoning a) (Some (calls a)) ++ rest /\
    render_live_tool_tail ((msgs ++ [u]) ++ a :: more) (length (msgs ++ [u]) + 1) (think_mode r) = EOS ++ rest.
Proof.
  intros Ht Hu Ha Hmore. destruct (live_tail (msgs ++ [u]) a more schemas (think_mode r)) as (body & E1 & E2); [|done..|].
  { rewrite tool_context_app. by rewrite Ht. }
  rewrite answered_prompt in E1 by done. unfold render_live_tool_tail in *.
  rewrite render_rest in E2 |- *. eexists. split; [|reflexivity]. rewrite E2.
  rewrite (app_assoc body), <- E1. by rewrite <- app_assoc.
Qed.

(** ** Live continuations of the Responses protocol *)

Lemma tail_start_front (p : chat_msg -> bool) (a b : list chat_msg) (n : nat) : (n <= length a)%nat ->
  tail_start_loop p (a ++ b) n = tail_start_loop p a n.
Proof.
  induction n as [|n IH]; intros Hn; [done|]. cbn [tail_start_loop]. rewrite lookup_app_l by lia.
  destruct (a !! n); [|done]. by rewrite IH by lia.
Qed.

Lemma tail_start_snoc (p : chat_msg -> bool) (l : list chat_msg) (m : chat_msg) :
  tail_start_loop p (l ++ [m]) (length (l ++ [m])) = if p m then tail_start_loop p l (length l) else length (l ++ [m]).
Proof.
  rewrite length_app. cbn [length]. rewrite Nat.add_1_r. cbn [tail_start_loop].
  assert ((l ++ [m]) !! length l = Some m) as -> by (rewrite lookup_app_r, Nat.sub_diag by lia; done).
  destruct (p m); [|done]. by rewrite tail_start_front.
Qed.

Lemma tail_start_behind (p : chat_msg -> bool) (pre tail : list chat_msg) : forallb p tail = true ->
  (match last pre with Some m => p m = false | None => True end) ->
  tail_start_loop p (pre ++ tail) (length (pre ++ tail)) = length pre.
Proof.
  intros Ht Hl. induction tail as [|m tail IH] using rev_ind.
  - rewrite app_nil_r. destruct pre as [|m pre _] using rev_ind; [done|]. rewrite last_snoc in Hl.
    by rewrite tail_start_snoc, Hl.
  - rewrite forallb_app in Ht. cbn [forallb] in Ht. rewrite andb_true_r in Ht. apply andb_true_iff in Ht as [Ht Hm].
    rewrite app_assoc, tail_start_snoc, Hm. by apply IH.
Qed.

Lemma tool_not_system (l : list chat_msg) : forallb is_tool_role l = true -> no_system l.
Proof.
  induction l as [|m l IH]; [done|]. cbn [forallb]. intros [Hm Hl]%andb_true_iff. apply no_system_cons; [|by apply IH].
  unfold is_tool_role in Hm. unfold role_is_system. apply orb_false_iff.
  apply orb_true_iff in Hm as [Hm|Hm]; split; by eapply role_cases.
Qed.

(** Once there is an id the list is not empty. *)
Lemma push_calls_some (l : list tool_call) : forall ids,
  existsb (fun tc => match nonempty (tc_id tc) with Some _ => true | None => false end) l = true \/ sl_v ids <> [] ->
  sl_v (foldl push_call ids l) <> [].
Proof.
  induction l as [|tc l IH]; intros ids [H|H]; cbn [foldl existsb] in *; [done|done| |]; apply IH.
  - unfold push_call, id_list_push_unique. destruct (nonempty (tc_id tc)) as [s|] eqn:E; [|by left]. right.
    unfold id_list_contains. rewrite E. destruct (existsb _ (sl_v ids)) eqn:Ex; [by destruct (sl_v ids)|].
    unfold stop_list_push. destruct s; [by destruct (tc_id tc) as [[|]|]|]. cbn [sl_v]. by destruct (sl_v ids).
  - right. unfold push_call, id_list_push_unique. destruct (nonempty (tc_id tc)) as [s|] eqn:E; [|done].
    destruct (id_list_contains ids (tc_id tc)); [done|]. unfold stop_list_push. destruct s; [done|].
    cbn [sl_v]. by destruct (sl_v ids).
Qed.

(** The fast path of a Responses tool loop sends what a full replay would.
    When a request's messages end in tool results right behind an assistant
    that made calls, at least one of them with an id, then
    [responses_prepare_live_continuation] stores the calls' ids, each once and
    in their order, and a suffix; the prompt of the whole history is the
    prompt up to that assistant, less its end of sentence, followed by the
    suffix. *)
Theorem responses_live_suffix_is_replay (r : request) (pre : list chat_msg) (a : chat_msg) (tail : list chat_msg)
    (schemas : option bytes) :
  r_api r = API_RESPONSES -> is_role a "assistant" = true ->
  existsb (fun tc => match nonempty (tc_id tc) with Some _ => true | None => false end) (tcs_v (calls a)) = true ->
  forallb is_tool_role tail = true -> tail <> [] ->
  let r' := responses_prepare_live_continuation r (pre ++ a :: tail) in
  responses_live_call_ids r' = foldl push_call no_ids (tcs_v (calls a)) /\
  exists body suffix,
    responses_live_suffix_text r' = Some suffix /\
    render_chat_prompt_text (pre ++ [a]) schemas (think_mode r) = body ++ EOS /\
    render_chat_prompt_text (pre ++ a :: tail) schemas (think_mode r) = body ++ suffix.
Proof.
  intros Hr Ha Hid Ht Hne r'. destruct (assistant_not_system a Ha) as (_ & _ & Hnt).
  assert (Hcalls : has_calls a = true) by (unfold has_calls; by destruct (tcs_v (calls a))).
  assert (Hids : (length (sl_v (foldl push_call no_ids (tcs_v (calls a)))) =? 0)%nat = false).
  { apply Nat.eqb_neq. intros H0. apply length_zero_iff_nil in H0. revert H0. apply push_calls_some. by left. }
  assert (Hr' : r' = r <| responses_live_call_ids := foldl push_call no_ids (tcs_v (calls a)) |>
    <| responses_live_suffix_text := Some (render_live_tool_tail (pre ++ a :: tail) (length pre + 1) (think_mode r)) |>).
  { unfold r'. clear r'. unfold responses_prepare_live_continuation. rewrite Hr.
    destruct (pre ++ a :: tail) as [|m0 l0] eqn:El; [by destruct pre|]. rewrite <- El. clear El m0 l0.
    assert (tail_start_loop is_tool_role (pre ++ a :: tail) (length (pre ++ a :: tail)) = S (length pre)) as ->.
    { change (a :: tail) with ([a] ++ tail). rewrite app_assoc. rewrite tail_start_behind; [rewrite length_app; simpl; lia|done|].
      by rewrite last_snoc. }
    destruct (Nat.eqb_spec (S (length pre)) (length (pre ++ a :: tail))) as [E|_].
    { rewrite length_app in E. destruct tail; [done|]. simpl in E. lia. }
    rewrite lookup_app_r, Nat.sub_diag by lia. cbn [lookup list_lookup]. rewrite Ha, Hcalls. cbn [negb orb].
    change (responses_live_call_ids (set_field responses_live_call_ids ?f r)) with (f (responses_live_call_ids r)).
    cbv beta. change (stop_list_clear (responses_live_call_ids r)) with no_ids. rewrite Hids.
    replace (length pre + 1)%nat with (S (length pre)) by lia. reflexivity. }
  destruct (live_tail pre a tail schemas (think_mode r)) as (body & E1 & E2); [|done|by apply tool_not_system|].
  { rewrite tool_context_app. apply orb_true_iff. right. unfold chat_history_uses_tool_context. cbn [nonempty existsb].
    by rewrite Ha, Hcalls. }
  rewrite Hr'. split; [done|]. exists body. eexists. split; [reflexivity|]. done.
Qed.

(** ** Finished turns without tools *)

Lemma user_like_last (msgs : list chat_msg) (u : chat_msg) : role_is_user_like u = true ->
  last_user_loop (msgs ++ [u]) 0 (-1) = Z.of_nat (length msgs).
Proof. intros Hu. rewrite last_user_app. cbn [last_user_loop]. rewrite Hu. lia. Qed.

(** Up to the last user message no reasoning is shown without tools. *)
Lemma render_hidden (a b : list chat_msg) (schemas : option bytes) (mode : ds4_think_mode) :
  chat_history_uses_tool_context (a ++ b) schemas = false ->
  Z.of_nat (length a) <= last_user_loop (a ++ b) 0 (-1) + 1 ->
  exists keep i, render_chat_prompt_text (a ++ b) schemas mode =
  render_end (ds4_think_mode_enabled mode) (render_msgs (ds4_think_mode_enabled mode) keep b i
    (render_msgs (ds4_think_mode_enabled mode) (fun _ => false) a 0
      (RenderState (start_text (a ++ b) schemas mode) false false))).
Proof.
  intros Ht Hl. unfold render_chat_prompt_text. rewrite Ht. eexists _, _. rewrite render_msgs_app. f_equal. f_equal.
  apply render_msgs_keep. intros j Hj. cbn [orb]. apply Z.ltb_ge. lia.
Qed.

(** A finished turn without tools is remembered as what the next prompt
    shows of it.  When the conversation so far ends in a user's message and no
    tool occurs in it or later, [build_toolless_thinking_visible_text] gives a
    text for the prompt the answer was sampled with, and that text is a prefix
    of the prompt of every later request that sends the same messages, the
    answer with whatever reasoning, and then messages without system roles
    among which a user speaks again. *)
Theorem toolless_visible_future_prompt (r : request) (msgs : list chat_msg) (u a : chat_msg) (more : list chat_msg)
    (schemas : option bytes) :
  ds4_think_mode_enabled (think_mode r) = true ->
  prompt_text r = Some (render_chat_prompt_text (msgs ++ [u]) schemas (think_mode r)) ->
  chat_history_uses_tool_context ((msgs ++ [u]) ++ a :: more) schemas = false ->
  role_is_user_like u = true -> is_role a "assistant" = true -> no_system more -> existsb role_is_user_like more = true ->
  exists visible rest,
    build_toolless_thinking_visible_text r (content a) = Some visible /\
    render_chat_prompt_text ((msgs ++ [u]) ++ a :: more) schemas (think_mode r) = visible ++ rest.
Proof.
  intros Hth Hp Ht Hu Ha Hmore Huser. destruct (assistant_not_system a Ha) as (Ha1 & _ & _).
  assert (Ht1 : chat_history_uses_tool_context ((msgs ++ [u]) ++ []) schemas = false).
  { rewrite app_nil_r. rewrite tool_context_app in Ht. by apply orb_false_iff in Ht as [-> _]. }
  assert (Hcalls : append_dsml_tool_calls_text (Some (calls a)) = []).
  { rewrite tool_context_app in Ht. apply orb_false_iff in Ht as [_ Ht]. unfold chat_history_uses_tool_context in Ht.
    cbn [nonempty existsb] in Ht. rewrite Ha in Ht. cbn [andb] in Ht. apply orb_false_iff in Ht as [Ht _].
    apply orb_false_iff in Ht as [Ht _]. unfold has_calls in Ht. destruct (calls a) as [[|] raw]; done. }
  set (s0 := RenderState (start_text (msgs ++ [u]) schemas (think_mode r)) false false).
  set (st := render_msgs true (fun _ => false) (msgs ++ [u]) 0 s0).
  assert (Hpend : pending_assistant st = true).
  { unfold st. rewrite render_msgs_app. cbn [render_msgs].
    destruct (user_pending true false (render_msgs true (fun _ => false) msgs 0 s0) u Hu) as (t & ptr & ->). done. }
  destruct (render_hidden (msgs ++ [u]) [] schemas (think_mode r)) as (k1 & i1 & E1); [done| |].
  { rewrite app_nil_r, user_like_last, length_app by done. simpl. lia. }
  rewrite app_nil_r in E1. cbn [render_msgs] in E1. rewrite Hth in E1. fold s0 st in E1.
  unfold render_end in E1. rewrite Hpend in E1.
  change ((msgs ++ [u]) ++ a :: more) with ((msgs ++ [u]) ++ [a] ++ more) in *. rewrite app_assoc in Ht |- *.
  destruct (render_hidden ((msgs ++ [u]) ++ [a]) more schemas (think_mode r)) as (k2 & i2 & E2); [done| |].
  { rewrite last_user_app. etrans; [|apply Z.add_le_mono_r, last_user_in; [|done]]; [lia|].
    rewrite last_user_app, user_like_last by done. cbn [last_user_loop].
    replace (role_is_user_like a) with false; [rewrite !length_app; simpl; lia|].
    symmetry. unfold role_is_user_like. apply orb_false_iff. split; [apply orb_false_iff; split|]; by apply (role_cases a "assistant"). }
  assert (start_text (((msgs ++ [u]) ++ [a]) ++ more) schemas (think_mode r) = start_text (msgs ++ [u]) schemas (think_mode r)) as Es.
  { by rewrite !start_text_app by (done || by apply no_system_cons). }
  rewrite Es, Hth in E2. fold s0 in E2. rewrite render_msgs_app in E2. fold st in E2. cbn [render_msgs] in E2.
  rewrite render_assistant_hidden, Hcalls, render_rest in E2 by done. cbn [app] in E2.
  eexists _, _. split; [|rewrite E2; reflexivity].
  unfold build_toolless_thinking_visible_text. rewrite Hp, Hth, E1. cbn [negb].
  rewrite app_assoc, length_app.
  replace (length (out st ++ ASSISTANT) + length (B "<think>") - length (B "<think>"))%nat with (length (out st ++ ASSISTANT)) by lia.
  rewrite drop_app_length, take_app_length, str_eqb_refl. cbn [negb].
  assert ((length (out st ++ ASSISTANT) + length (B "<think>") <? length (B "<think>"))%nat = false) as ->
    by (apply Nat.ltb_ge; lia).
  cbn [orb]. by rewrite <- !app_assoc.
Qed.

(** ** Tags in a stream *)

Lemma ends_with_spec (text tail s : bytes) : tail = drop (length text - 8) text -> (length s <= 8)%nat ->
  thinking_tail_ends_with tail s = true <-> s `suffix_of` text.
Proof.
  intros -> Hs. unfold thinking_tail_ends_with. rewrite andb_true_iff, Nat.leb_le, str_eqb_eq, length_drop, drop_drop.
  split.
  - intros [Hl He]. rewrite <- He. apply suffix_drop.
  - intros [k ->]. rewrite length_app. split; [lia|].
    replace (length k + length s - 8 + (length k + length s - (length k + length s - 8) - length s))%nat with (length k) by lia.
    apply drop_app_length.
Qed.

(** Where a text has its last [n]. *)
Definition last_ok (n s : bytes) (r : option nat) : Prop :=
  match r with
  | Some i => str_prefixb n (drop i s) = true /\ forall j, (i < j)%nat -> str_prefixb n (drop j s) = false
  | None => forall j, str_prefixb n (drop j s) = false
  end.

Lemma last_ok_unique (n s : bytes) (r r' : option nat) : last_ok n s r -> last_ok n s r' -> r = r'.
Proof.
  destruct r as [i|], r' as [j|]; cbn [last_ok]; [|intros [H _] H'; by rewrite H' in H|intros H [H' _]; by rewrite H in H'|done].
  intros [H1 H2] [H3 H4]. f_equal. destruct (Nat.lt_total i j) as [H|[H|H]]; [by rewrite H2 in H3|done|by rewrite H4 in H1].
Qed.

Lemma last_loop_ok (n : bytes) : n <> [] -> forall fuel p off last, (length p < fuel)%nat ->
  exists best, last_ok n p best /\
  last_substr_loop fuel p n off last = match best with Some i => Some (off + i)%nat | None => last end.
Proof.
  intros Hn. induction fuel as [|fuel IH]; intros p off last Hf; [lia|]. cbn [last_substr_loop].
  destruct (strstr_pos p n) as [i|] eqn:E; [|exists None; split; [intros j; by apply strstr_pos_none|done]].
  apply strstr_pos_some in E as [E1 E2].
  assert (Hi : (i < length p)%nat).
  { destruct (Nat.lt_ge_cases i (length p)) as [|Hge]; [done|]. rewrite drop_ge in E1 by done. by destruct n. }
  destruct (IH (drop (S i) p) (off + S i)%nat (Some (off + i)%nat)) as (best & Hb & ->); [rewrite length_drop; lia|].
  destruct best as [k|].
  - exists (Some (S i + k)%nat). cbn [last_ok] in *. rewrite drop_drop in Hb. destruct Hb as [Hb1 Hb2]. split; [|f_equal; lia].
    split; [done|]. intros j Hj. rewrite <- (Hb2 (j - S i)%nat) by lia. rewrite drop_drop. do 2 f_equal. lia.
  - exists (Some i). cbn [last_ok] in *. split; [|done]. split; [done|]. intros j Hj. rewrite <- (Hb (j - S i)%nat), drop_drop.
    do 2 f_equal. lia.
Qed.

Lemma find_last_ok (n s : bytes) : n <> [] -> last_ok n s (find_last_substr s n).
Proof.
  intros Hn. unfold find_last_substr. destruct n as [|c n]; [done|].
  destruct (last_loop_ok (c :: n) Hn (S (length s)) s 0 None) as (best & Hb & ->); [lia|]. by destruct best.
Qed.

Lemma prefix_snoc (n s : bytes) (c : byte) (j : nat) : n <> [] ->
  str_prefixb n (drop j (s ++ [c])) = true <->
  str_prefixb n (drop j s) = true \/ (n `suffix_of` s ++ [c] /\ (j + length n = length s + 1)%nat).
Proof.
  intros Hn. split.
  - intros [t E]%str_prefixb_spec. assert (Hj : (j <= length s)%nat).
    { destruct (Nat.le_gt_cases j (length s)) as [|Hj]; [done|]. rewrite drop_ge in E by (rewrite length_app; simpl; lia).
      by destruct n. }
    destruct t as [|t0 t _] using rev_ind.
    + right. rewrite app_nil_r in E. split; [rewrite <- E; apply suffix_drop|].
      apply (f_equal length) in E. rewrite length_drop, length_app in E. simpl in E. lia.
    + left. rewrite drop_app_le, app_assoc in E by done. apply app_inj_tail in E as [E _]. rewrite E.
      apply str_prefixb_spec. eauto.
  - intros [[t E]%str_prefixb_spec|[[k E] Hj]].
    + assert (Hj : (j <= length s)%nat).
      { destruct (Nat.le_gt_cases j (length s)) as [|Hj]; [done|]. rewrite drop_ge in E by lia. by destruct n. }
      rewrite drop_app_le, E, <- app_assoc by done. apply str_prefixb_spec. eauto.
    + apply str_prefixb_spec. exists []. rewrite app_nil_r, E. apply (f_equal length) in E.
      rewrite !length_app in E. simpl in E. replace j with (length k) by lia. apply drop_app_length.
Qed.

Lemma find_last_snoc (n s : bytes) (c : byte) : n <> [] ->
  find_last_substr (s ++ [c]) n =
  if bool_decide (n `suffix_of` s ++ [c]) then Some (length s + 1 - length n)%nat else find_last_substr s n.
Proof.
  intros Hn. apply (last_ok_unique n (s ++ [c])); [by apply find_last_ok|].
  pose proof (find_last_ok n s Hn) as Hs.
  destruct (bool_decide_reflect (n `suffix_of` s ++ [c])) as [Hsuf|Hsuf].
  - pose proof (suffix_length_le _ _ Hsuf) as Hl. rewrite length_app in Hl. simpl in Hl. split.
    + apply prefix_snoc; [done|]. right. split; [done|]. lia.
    + intros j Hj. apply not_true_iff_false. rewrite prefix_snoc by done. intros [[t E]%str_prefixb_spec|[_ E]]; [|lia].
      apply (f_equal length) in E. rewrite length_drop, length_app in E. destruct n; [done|]. simpl in *. lia.
  - assert (Heq : forall j, str_prefixb n (drop j (s ++ [c])) = str_prefixb n (drop j s)).
    { intros j. apply eq_true_iff_eq. rewrite prefix_snoc by done. tauto. }
    destruct (find_last_substr s n) as [i|]; cbn [last_ok] in *.
    + rewrite Heq. split; [apply Hs|]. intros j Hj. rewrite Heq. by apply Hs.
    + intros j. by rewrite Heq.
Qed.

(** The state a search of the whole text gives. *)
Definition thinking_reference (start : bool) (text : bytes) : bool :=
  match find_last_substr text (B "<think>"), find_last_substr text (B "</think>") with
  | Some i, Some j => (j <? i)%nat
  | Some _, None => true
  | None, Some _ => false
  | None, None => start
  end.

Lemma last_lt (n s : bytes) (i : nat) : n <> [] -> find_last_substr s n = Some i -> (i + length n <= length s)%nat.
Proof.
  intros Hn E. pose proof (find_last_ok n s Hn) as H. rewrite E in H. destruct H as [[t H]%str_prefixb_spec _].
  apply (f_equal length) in H. rewrite length_drop, length_app in H. destruct n; [done|]. simpl in *. lia.
Qed.

Lemma feed_inv (text : bytes) (start : bool) :
  thinking_state_feed (ThinkingState start []) text = ThinkingState (thinking_reference start text) (drop (length text - 8) text).
Proof.
  induction text as [|c text IH] using rev_ind; [done|].
  unfold thinking_state_feed in *. rewrite foldl_app, IH. cbn [foldl]. unfold thinking_feed_byte. cbn [ts_tail ts_inside].
  assert (Ht : (if (length (drop (length text - 8) text) =? 8)%nat then drop 1 (drop (length text - 8) text)
    else drop (length text - 8) text) ++ [c] = drop (length (text ++ [c]) - 8) (text ++ [c])).
  { rewrite length_drop, length_app. cbn [length]. destruct (Nat.eqb_spec (length text - (length text - 8)) 8) as [E|E].
    - rewrite drop_drop, drop_app_le by lia. do 2 f_equal. lia.
    - rewrite drop_app_le by lia. do 2 f_equal. lia. }
  rewrite Ht. f_equal. unfold thinking_reference. rewrite !find_last_snoc by done.
  pose proof (ends_with_spec (text ++ [c]) _ (B "<think>") eq_refl ltac:(vm_compute; lia)) as H1.
  pose proof (ends_with_spec (text ++ [c]) _ (B "</think>") eq_refl ltac:(vm_compute; lia)) as H2.
  destruct (bool_decide_reflect (B "<think>" `suffix_of` text ++ [c])) as [S1|S1];
    [rewrite (proj2 H1 S1)|rewrite (proj1 (not_true_iff_false _) (fun H => S1 (proj1 H1 H)))].
  - pose proof (suffix_length_le _ _ S1) as Hl. rewrite length_app in Hl. cbn [length] in Hl.
    destruct (bool_decide_reflect (B "</think>" `suffix_of` text ++ [c])) as [S2|S2].
    + exfalso. destruct S1 as [k1 E1], S2 as [k2 E2]. rewrite E1 in E2.
      change (B "<think>") with ([x3c] ++ B "think>") in E2. change (B "</think>") with ([x3c; x2f] ++ B "think>") in E2.
      rewrite !app_assoc in E2. apply app_inv_tail in E2. 
      change (k2 ++ [x3c; x2f]) with (k2 ++ [x3c] ++ [x2f]) in E2. rewrite app_assoc in E2.
      by apply app_inj_tail in E2 as [_ E2].
    + destruct (find_last_substr text (B "</think>")) as [j|] eqn:Ej; [|done].
      apply last_lt in Ej; [|done]. symmetry. apply Nat.ltb_lt.
      change (length (B "</think>")) with 8%nat in Ej. change (length (B "<think>")) with 7%nat in *. lia.
  - destruct (bool_decide_reflect (B "</think>" `suffix_of` text ++ [c])) as [S2|S2];
      [rewrite (proj2 H2 S2)|by rewrite (proj1 (not_true_iff_false _) (fun H => S2 (proj1 H2 H)))].
    pose proof (suffix_length_le _ _ S2) as Hl. rewrite length_app in Hl. cbn [length] in Hl.
    destruct (find_last_substr text (B "<think>")) as [i|] eqn:Ei; [|done].
    apply last_lt in Ei; [|done]. symmetry. apply Nat.ltb_ge.
    change (length (B "</think>")) with 8%nat in *. change (length (B "<think>")) with 7%nat in *. lia.
Qed.

(** The streaming detector of thinking tags agrees with a search of the
    whole text, however the text is cut into pieces: after a prompt and any
    pieces generated behind it, [inside] holds exactly when the last [<think>]
    of prompt and pieces together starts behind the last [</think>], which are
    the places [find_last_substr] finds; and no more than the last eight bytes
    are kept. *)
Theorem thinking_state_reference (r : request) (prompt : bytes) (pieces : list bytes) :
  prompt_text r = Some prompt ->
  let st := foldl thinking_state_feed (thinking_state_from_prompt r) pieces in
  let text := prompt ++ concat pieces in
  ts_inside st =
    match find_last_substr text (B "<think>"), find_last_substr text (B "</think>") with
    | Some i, Some j => (j <? i)%nat
    | Some _, None => true
    | None, _ => false
    end /\
  ts_tail st = drop (length text - 8) text.
Proof.
  intros Hp st text.
  assert (st = thinking_state_feed (ThinkingState false []) text) as ->.
  { unfold st, text, thinking_state_from_prompt. rewrite Hp. unfold thinking_state_feed at 2 3. rewrite foldl_app.
    generalize (foldl thinking_feed_byte (ThinkingState false []) prompt) as s. clear.
    induction pieces as [|p ps IH]; intros s; [done|]. cbn [foldl concat]. rewrite IH, foldl_app. done. }
  rewrite feed_inv. cbn [ts_inside ts_tail]. split; [|done]. unfold thinking_reference.
  destruct (find_last_substr text (B "<think>")), (find_last_substr text (B "</think>")); done.
Qed.

(** ** Witnesses and examples *)

Definition ex_msg (r c : string) : chat_msg := ChatMsg (Some (B r)) (Some (B c)) None None [] (ToolCalls [] None).
Definition ex_call : tool_call := ToolCall (Some (B "call_1")) (Some (B "ls")) (Some (B "{}")).
Definition ex_caller : chat_msg :=
  ChatMsg (Some (B "assistant")) (Some (B "Looking.")) (Some (B "plan")) None [] (ToolCalls [ex_call] None).

(** [request_init], up to the sampling parameters. *)
Definition ex_request (api : api_style) (prompt : option bytes) : request :=
  Request REQ_CHAT api [] None no_ids None prompt [] 0 0 (SpecFloat.S754_zero false) (SpecFloat.S754_zero false)
    (SpecFloat.S754_zero false) 0 false false 0 0 DS4_THINK_HIGH false false false false false no_ids None false no_ids None
    (ToolReplayStats 0 0 0 0).

Lemma tool_checkpoint_future_prompt_witness : exists rest,
  render_chat_prompt_text [ex_msg "system" "Be brief."; ex_msg "user" "hi"; ex_caller; ex_msg "tool" "a b"] (Some (B "s")) DS4_THINK_HIGH =
  render_chat_prompt_text [ex_msg "system" "Be brief."; ex_msg "user" "hi"] (Some (B "s")) DS4_THINK_HIGH ++
  build_tool_checkpoint_suffix (ex_request API_OPENAI None) (Some (B "Looking.")) (Some (B "plan"))
    (Some (ToolCalls [ex_call] None)) ++ rest.
Proof.
  destruct (tool_checkpoint_future_prompt (ex_request API_OPENAI None) [ex_msg "system" "Be brief."] (ex_msg "user" "hi")
    ex_caller [ex_msg "tool" "a b"] (Some (B "s"))) as (rest & H & _).
  - vm_compute. reflexivity.
  - vm_compute. reflexivity.
  - vm_compute. reflexivity.
  - vm_compute. reflexivity.
  - exists rest. exact H.
Defined.

Lemma responses_live_suffix_is_replay_witness : exists suffix,
  responses_live_suffix_text (responses_prepare_live_continuation (ex_request API_RESPONSES None)
    [ex_msg "user" "hi"; ex_caller; ex_msg "tool" "a b"]) = Some suffix.
Proof.
  destruct (responses_live_suffix_is_replay (ex_request API_RESPONSES None) [ex_msg "user" "hi"] ex_caller
    [ex_msg "tool" "a b"] None) as (_ & _ & suffix & H & _).
  - reflexivity.
  - vm_compute. reflexivity.
  - vm_compute. reflexivity.
  - vm_compute. reflexivity.
  - discriminate.
  - exists suffix. exact H.
Defined.

Lemma toolless_visible_future_prompt_witness : exists visible rest,
  build_toolless_thinking_visible_text
    (ex_request API_OPENAI (Some (render_chat_prompt_text [ex_msg "user" "hi"] None DS4_THINK_HIGH))) (Some (B "Hello")) =
    Some visible /\
  render_chat_prompt_text [ex_msg "user" "hi"; ex_msg "assistant" "Hello"; ex_msg "user" "more"] None DS4_THINK_HIGH =
    visible ++ rest.
Proof.
  refine (toolless_visible_future_prompt
    (ex_request API_OPENAI (Some (render_chat_prompt_text [ex_msg "user" "hi"] None DS4_THINK_HIGH)))
    [] (ex_msg "user" "hi") (ex_msg "assistant" "Hello") [ex_msg "user" "more"] None _ _ _ _ _ _ _);
    vm_compute; reflexivity.
Defined.

Lemma thinking_state_reference_witness :
  ts_inside (foldl thinking_state_feed (thinking_state_from_prompt (ex_request API_OPENAI (Some (B "x<th")))) [B "ink>a</thi"; B "nk>b"]) =
  false.
Proof.
  refine (eq_trans (proj1 (thinking_state_reference (ex_request API_OPENAI (Some (B "x<th"))) (B "x<th")
    [B "ink>a</thi"; B "nk>b"] eq_refl)) _). vm_compute. reflexivity.
Defined.

(** A conversation that gains its first call without schemas shows older
    reasoning again, so what was remembered is no prefix of the next prompt. *)
Example first_call_breaks_prefix :
  let old := ChatMsg (Some (B "assistant")) (Some (B "Hello")) (Some (B "why")) None [] (ToolCalls [] None) in
  let msgs := [ex_msg "user" "hi"; old; ex_msg "user" "list"] in
  str_prefixb
    (render_chat_prompt_text msgs None DS4_THINK_HIGH ++
     build_tool_checkpoint_suffix (ex_request API_OPENAI None) (content ex_caller) (reasoning ex_caller) (Some (calls ex_caller)))
    (render_chat_prompt_text (msgs ++ [ex_caller; ex_msg "tool" "a"]) None DS4_THINK_HIGH) = false.
Proof. vm_compute. reflexivity. Qed.

(** A system message that comes with the tool result is in the full prompt, in
    front, and missing from the live tail. *)
Example live_tail_drops_system :
  let msgs := [ex_msg "user" "hi"; ex_caller; ex_msg "tool" "a"; ex_msg "system" "Stop now."] in
  render_live_tool_tail msgs 2 DS4_THINK_HIGH = render_live_tool_tail (take 3 msgs) 2 DS4_THINK_HIGH /\
  str_strstr (render_chat_prompt_text msgs None DS4_THINK_HIGH) (B "Stop now.") = true.
Proof. vm_compute. split; reflexivity. Qed.
