(* ===== verification/OpenaiStream.v ===== *)
(** * The OpenAI chat stream (ds4_server.c)

    How sampled text becomes events for an OpenAI client while it is being
    generated: reasoning, content and tool calls.  An event stands for one
    chunk; [event_text] gives its bytes.  Sends succeed here: a chunk that
    cannot be sent ends the request.  Ids of calls come from the class
    [ToolIds]. *)
From S2P Require Import Prelude.
From S2P Require Import CNum.
From S2P Require Import CFloat.
From S2P Require Import ServerJson.
From S2P Require Import ServerStream.
From S2P Require Import ServerMsgs.
From S2P Require Import Dsml.
From S2P Require Import DsmlTrack.
From S2P Require Import ToolMemory.
From S2P Require Import Chat.
Open Scope Z_scope.

(** Random ids are drawn until one is not taken. *)
Class ToolIds := {
  new_tool_id : list bytes -> bytes;
  new_tool_id_free (taken : list bytes) : new_tool_id taken ∉ taken;
  new_tool_id_nonempty (taken : list bytes) : new_tool_id taken <> []
}.

(** ** Events *)

Inductive openai_event :=
| ChatDelta (field text : bytes)
| ToolCallStart (index : Z) (tool_id name : bytes)
| ToolCallArgs (index : Z) (text : bytes).

(** [id] and [now] of the chunk, and the model's name. *)
Definition chunk_head (id : bytes) (now : Z) (model : bytes) : bytes :=
  B "data: {" ++ json_escape (B "id") ++ B ":" ++ [QUOTE] ++ id ++ [QUOTE] ++ B "," ++ json_escape (B "object") ++ B ":" ++
  json_escape (B "chat.completion.chunk") ++ B "," ++ json_escape (B "created") ++ B ":" ++ print_i64 now ++ B "," ++
  json_escape (B "model") ++ B ":" ++ json_escape model ++
  B "," ++ json_escape (B "choices") ++ B ":[{" ++ json_escape (B "index") ++ B ":0," ++ json_escape (B "delta") ++ B ":{".

Definition chunk_tail : bytes := B "}," ++ json_escape (B "finish_reason") ++ B ":null}]}" ++ [LF; LF].

Definition event_text (id : bytes) (now : Z) (model : bytes) (ev : openai_event) : bytes :=
  chunk_head id now model ++
  match ev with
  | ChatDelta field text => json_escape field ++ B ":" ++ json_escape_n text (length text)
  | ToolCallStart index tool_id name =>
      json_escape (B "tool_calls") ++ B ":[{" ++ json_escape (B "index") ++ B ":" ++ print_i64 index ++ B "," ++
      json_escape (B "id") ++ B ":" ++ json_escape tool_id ++ B "," ++ json_escape (B "type") ++ B ":" ++
      json_escape (B "function") ++ B "," ++ json_escape (B "function") ++ B ":{" ++ json_escape (B "name") ++ B ":" ++
      json_escape name ++ B "," ++ json_escape (B "arguments") ++ B ":" ++ json_escape [] ++ B "}}]"
  | ToolCallArgs index text =>
      json_escape (B "tool_calls") ++ B ":[{" ++ json_escape (B "index") ++ B ":" ++ print_i64 index ++ B "," ++
      json_escape (B "function") ++ B ":{" ++ json_escape (B "arguments") ++ B ":" ++ json_escape_n text (length text) ++ B "}}]"
  end ++ chunk_tail.

(** [sse_chat_delta_n] and [sse_chat_tool_call_args_delta_n]: nothing for an
    empty text. *)
Definition sse_chat_delta_n (field text : bytes) : list openai_event :=
  match text with [] => [] | _ => [ChatDelta field text] end.
Definition sse_chat_tool_call_args_delta_n (index : Z) (text : bytes) : list openai_event :=
  match text with [] => [] | _ => [ToolCallArgs index text] end.

(** ** State *)

Inductive openai_stream_mode := OPENAI_STREAM_THINKING | OPENAI_STREAM_TEXT | OPENAI_STREAM_TOOL | OPENAI_STREAM_SUPPRESS.

Inductive dsml_tool_stream_state :=
  DSML_TOOL_BETWEEN_INVOKES | DSML_TOOL_BETWEEN_PARAMS | DSML_TOOL_PARAM_VALUE | DSML_TOOL_DONE | DSML_TOOL_ERROR.

(** The five tag pointers are one [dsml_syntax], null before
    [openai_tool_stream_init]; [ids] may have holes. *)
Record openai_tool_stream := ToolStream {
  ts_state : dsml_tool_stream_state;
  ts_syn : option dsml_syntax;
  parse_pos : nat;
  ts_index : Z;
  ts_active : bool;
  emitted_any : bool;
  args_open : bool;
  first_param : bool;
  param_is_string : bool;
  ts_ids : list (option bytes)
}.
#[export] Instance tool_stream_fields : Fields openai_tool_stream :=
  rd_pure ToolStream <*> ts_state <*> ts_syn <*> parse_pos <*> ts_index <*> ts_active <*> emitted_any <*> args_open <*>
  first_param <*> param_is_string <*> ts_ids.

(** After [memset]. *)
Definition zero_tool_stream : openai_tool_stream :=
  ToolStream DSML_TOOL_BETWEEN_INVOKES None 0 0 false false false false false [].

Record openai_stream := OpenaiStream {
  st_mode : openai_stream_mode;
  emit_pos : nat;
  st_active : bool;
  checked_think_prefix : bool;
  sent_reasoning : bool;
  sent_content : bool;
  st_tool : openai_tool_stream
}.
#[export] Instance openai_stream_fields : Fields openai_stream :=
  rd_pure OpenaiStream <*> st_mode <*> emit_pos <*> st_active <*> checked_think_prefix <*> sent_reasoning <*> sent_content <*> st_tool.

Definition openai_stream_start (r : request) : openai_stream :=
  OpenaiStream (if ds4_think_mode_enabled (think_mode r) then OPENAI_STREAM_THINKING else OPENAI_STREAM_TEXT)
    0 true false false false zero_tool_stream.

(** ** Ids *)

Definition some_ids (ids : list (option bytes)) : list bytes := omap id ids.

Definition openai_tool_stream_has_id (ts : openai_tool_stream) (id : bytes) (upto : Z) : bool :=
  match id with
  | [] => false
  | _ => existsb (fun x => match x with Some s => str_eqb s id | None => false end) (take (Z.to_nat upto) (ts_ids ts))
  end.

(** Doubling from [old], or from 4, until it is larger than [index]. *)
Fixpoint grow_cap (fuel : nat) (cap index : Z) : Z :=
  match fuel with
  | O => cap
  | S fuel => if cap <=? index then grow_cap fuel (cap * 2) index else cap
  end.

Definition openai_tool_stream_id `{ToolIds} (known : list bytes) (ts : openai_tool_stream) (index : Z)
    : openai_tool_stream * bytes :=
  if index <? 0 then (ts, [])
  else
    let old := Z.of_nat (length (ts_ids ts)) in
    let ids :=
      if old <=? index
      then ts_ids ts ++ replicate (Z.to_nat (grow_cap 64 (if old =? 0 then 4 else old) index - old)) None
      else ts_ids ts in
    match ids !! Z.to_nat index with
    | Some (Some id) => (ts <| ts_ids := ids |>, id)
    | _ =>
        let id := new_tool_id (some_ids (take (Z.to_nat index) ids) ++ known) in
        (ts <| ts_ids := <[Z.to_nat index := Some id]> ids |>, id)
    end.

(** ** Emitting arguments *)

Definition openai_tool_emit_args_fragment (ts : openai_tool_stream) (text : bytes) : list openai_event :=
  sse_chat_tool_call_args_delta_n (ts_index ts) text.

Definition openai_tool_emit_string_value (ts : openai_tool_stream) (text : bytes) : list openai_event :=
  match text with
  | [] => []
  | _ =>
      let unescaped := dsml_unescape_text (Some text) in
      openai_tool_emit_args_fragment ts (json_escape_fragment_n unescaped (length unescaped))
  end.

Definition openai_tool_emit_param_prefix (ts : openai_tool_stream) (name : bytes) (is_string : bool)
    : openai_tool_stream * list openai_event :=
  let comma := if first_param ts then [] else B "," in
  let ts := if first_param ts then ts <| first_param := false |> else ts in
  (ts, openai_tool_emit_args_fragment ts (comma ++ json_escape name ++ B ":" ++ (if is_string then [QUOTE] else []))).

Definition emit_value (ts : openai_tool_stream) (text : bytes) : list openai_event :=
  if param_is_string ts then openai_tool_emit_string_value ts text else openai_tool_emit_args_fragment ts text.

(** ** Tool calls *)

Definition tool_stream_at (syn : dsml_syntax) (pos : nat) : openai_tool_stream :=
  zero_tool_stream <| ts_active := true |> <| ts_syn := Some syn |>
    <| parse_pos := (pos + length (tool_calls_start syn))%nat |>.

Definition openai_tool_stream_init (raw : bytes) (pos : nat) : openai_tool_stream * bool :=
  if raw_full_lit raw pos DS4_TOOL_CALLS_START then (tool_stream_at syntax_full pos, true)
  else if raw_full_lit raw pos DS4_TOOL_CALLS_START_SHORT then (tool_stream_at syntax_short pos, true)
  else if raw_full_lit raw pos (B "<tool_calls>") then (tool_stream_at syntax_plain pos, true)
  else (zero_tool_stream <| ts_state := DSML_TOOL_ERROR |> <| parse_pos := pos |>, false).

Definition openai_tool_stream_fail (ts : openai_tool_stream) : openai_tool_stream :=
  ts <| ts_active := false |> <| ts_state := DSML_TOOL_ERROR |>.

Definition stream_syn (ts : openai_tool_stream) : dsml_syntax := default syntax_full (ts_syn ts).

(** The tag from [pos] on, up to the first [>], as a C string. *)
Definition tag_text (raw : bytes) (pos after : nat) : bytes := c_str (take (after - pos) (drop pos raw)).

(** [None]: the tag is not complete. *)
Definition openai_tool_start_invoke `{ToolIds} (known : list bytes) (ts : openai_tool_stream) (raw : bytes)
    : option (openai_tool_stream * list openai_event) :=
  match tag_after raw (parse_pos ts) with
  | None => None
  | Some after =>
      match dsml_attr (tag_text raw (parse_pos ts) after) (B "name") with
      | None => Some (openai_tool_stream_fail ts, [])
      | Some name =>
          let '(ts, tool_id) := openai_tool_stream_id known ts (ts_index ts) in
          Some (ts <| emitted_any := true |> <| args_open := true |> <| first_param := true |> <| parse_pos := after |>
                   <| ts_state := DSML_TOOL_BETWEEN_PARAMS |>,
                ToolCallStart (ts_index ts) tool_id name :: openai_tool_emit_args_fragment ts (B "{"))
      end
  end.

Definition openai_tool_start_param (ts : openai_tool_stream) (raw : bytes) : option (openai_tool_stream * list openai_event) :=
  match tag_after raw (parse_pos ts) with
  | None => None
  | Some after =>
      let tag := tag_text raw (parse_pos ts) after in
      match dsml_attr tag (B "name"), dsml_attr tag (B "string") with
      | Some name, Some is_string =>
          let string_value := str_eqb is_string (B "true") in
          let '(ts, evs) := openai_tool_emit_param_prefix ts name string_value in
          Some (ts <| param_is_string := string_value |> <| parse_pos := after |> <| ts_state := DSML_TOOL_PARAM_VALUE |>, evs)
      | _, _ => Some (openai_tool_stream_fail ts, [])
      end
  end.

Definition openai_tool_finish_param (ts : openai_tool_stream) (raw : bytes) (value_end : nat)
    : openai_tool_stream * list openai_event :=
  (ts <| parse_pos := (value_end + length (param_end (stream_syn ts)))%nat |> <| ts_state := DSML_TOOL_BETWEEN_PARAMS |>,
   (if (parse_pos ts <? value_end)%nat then emit_value ts (take (value_end - parse_pos ts) (drop (parse_pos ts) raw)) else []) ++
   (if param_is_string ts then openai_tool_emit_args_fragment ts [QUOTE] else [])).

(** One turn of the loop of [openai_tool_stream_update]; [true] when it goes
    on. *)
Definition tool_stream_turn `{ToolIds} (known : list bytes) (ts : openai_tool_stream) (raw : bytes)
    : openai_tool_stream * list openai_event * bool :=
  let syn := stream_syn ts in
  if negb (ts_active ts) || (length raw <=? parse_pos ts)%nat then (ts, [], false)
  else
    match ts_state ts with
    | DSML_TOOL_BETWEEN_INVOKES =>
        let ts := ts <| parse_pos := skip_spaces raw (parse_pos ts) |> in
        if (length raw <=? parse_pos ts)%nat then (ts, [], false)
        else if raw_full_lit raw (parse_pos ts) (tool_calls_end syn) then
          (ts <| parse_pos := (parse_pos ts + length (tool_calls_end syn))%nat |> <| ts_active := false |>
              <| ts_state := DSML_TOOL_DONE |>, [], false)
        else if raw_partial_any raw (parse_pos ts) (tool_calls_end syn) (invoke_start syn) then (ts, [], false)
        else if raw_full_lit raw (parse_pos ts) (invoke_start syn) then
          match openai_tool_start_invoke known ts raw with
          | None => (ts, [], false)
          | Some (ts, evs) => (ts, evs, true)
          end
        else (openai_tool_stream_fail ts, [], false)
    | DSML_TOOL_BETWEEN_PARAMS =>
        let ts := ts <| parse_pos := skip_spaces raw (parse_pos ts) |> in
        if (length raw <=? parse_pos ts)%nat then (ts, [], false)
        else if raw_full_lit raw (parse_pos ts) (invoke_end syn) then
          (ts <| args_open := false |> <| parse_pos := (parse_pos ts + length (invoke_end syn))%nat |>
              <| ts_index := ts_index ts + 1 |> <| ts_state := DSML_TOOL_BETWEEN_INVOKES |>,
           (if args_open ts then openai_tool_emit_args_fragment ts (B "}") else []), true)
        else if raw_partial_any raw (parse_pos ts) (invoke_end syn) (param_start syn) then (ts, [], false)
        else if raw_full_lit raw (parse_pos ts) (param_start syn) then
          match openai_tool_start_param ts raw with
          | None => (ts, [], false)
          | Some (ts, evs) => (ts, evs, true)
          end
        else (openai_tool_stream_fail ts, [], false)
    | DSML_TOOL_PARAM_VALUE =>
        match find_lit_bounded (drop (parse_pos ts) raw) (param_end syn) with
        | Some e =>
            let '(ts, evs) := openai_tool_finish_param ts raw (parse_pos ts + e) in (ts, evs, true)
        | None =>
            let limit := tool_param_value_stream_safe_len raw (parse_pos ts) (length raw) (param_end syn) (param_is_string ts) in
            if (parse_pos ts <? limit)%nat
            then (ts <| parse_pos := limit |>, emit_value ts (take (limit - parse_pos ts) (drop (parse_pos ts) raw)), false)
            else (ts, [], false)
        end
    | DSML_TOOL_DONE | DSML_TOOL_ERROR => (ts, [], false)
    end.

Fixpoint tool_stream_loop `{ToolIds} (fuel : nat) (known : list bytes) (ts : openai_tool_stream) (raw : bytes)
    : openai_tool_stream * list openai_event :=
  match fuel with
  | O => (ts, [])
  | S fuel =>
      match tool_stream_turn known ts raw with
      | (ts, evs, true) => let '(ts, more) := tool_stream_loop fuel known ts raw in (ts, evs ++ more)
      | (ts, evs, false) => (ts, evs)
      end
  end.

(** Every turn that goes on leaves a tag behind or fails. *)
Definition openai_tool_stream_update `{ToolIds} (known : list bytes) (ts : openai_tool_stream) (raw : bytes)
    : openai_tool_stream * list openai_event :=
  tool_stream_loop (S (S (length raw))) known ts raw.

(** ** Reasoning and content *)

(** The last [<] above [scan]: looking down from [i] in [turns] turns. *)
Fixpoint last_bracket (raw : bytes) (i turns : nat) : option nat :=
  match turns with
  | O => None
  | S turns => if Byte.eqb (nth (i - 1) raw NUL) x3c then Some (i - 1)%nat else last_bracket raw (i - 1) turns
  end.

(** [raw] is the whole text, up to its NUL, and [raw_len] what may be sent of
    it.  The search for a start tag runs over the whole text; looking at the
    bytes in front of a limit stays below [raw_len]. *)
Definition text_stream_safe_limit (raw : bytes) (start raw_len : nat) (has_tools final : bool) : nat :=
  if (raw_len <=? start)%nat then raw_len
  else
    match (if has_tools then find_any_tool_start (drop start raw) else None) with
    | Some tool => utf8_stream_safe_len raw start (trim_tool_separator_ws raw start (start + tool)) true
    | None =>
        let limit :=
          if has_tools && negb final then
            let limit := trim_tool_separator_ws raw start raw_len in
            let scan := if (80 <? raw_len - start)%nat then (raw_len - 80)%nat else start in
            let limit := match last_bracket raw raw_len (raw_len - scan) with
                         | Some marker => if (marker <? limit)%nat then marker else limit
                         | None => limit
                         end in
            trim_tool_separator_ws raw start limit
          else raw_len in
        utf8_stream_safe_len raw start limit final
    end.

(** What is sent of [raw] up to [limit], with the new state. *)
Definition send_delta (st : openai_stream) (field raw : bytes) (limit : nat) : openai_stream * list openai_event :=
  if (emit_pos st <? limit)%nat
  then (st <| emit_pos := limit |>, sse_chat_delta_n field (take (limit - emit_pos st) (drop (emit_pos st) raw)))
  else (st, []).

(** The thinking part; [false]: the function returns behind it.  The end of
    the reasoning is looked for in the whole text, behind [raw_len] too. *)
Definition thinking_part (st : openai_stream) (raw : bytes) (raw_len : nat) (final : bool)
    : openai_stream * list openai_event * bool :=
  let open := B "<think>" in
  if negb (checked_think_prefix st) && (raw_len <? length open)%nat && str_prefixb (take raw_len raw) open && negb final then (st, [], false)
  else
    let st :=
      if negb (checked_think_prefix st)
      then (if (length open <=? raw_len)%nat && str_prefixb open raw then st <| emit_pos := length open |> else st) <| checked_think_prefix := true |>
      else st in
    let close := strstr_pos (drop (emit_pos st) raw) (B "</think>") in
    let limit :=
      match close with
      | Some i => (emit_pos st + i)%nat
      | None =>
          if final then raw_len
          else
            let hold := (length (B "</think>") - 1)%nat in
            utf8_stream_safe_len raw (emit_pos st) (if (hold <? raw_len)%nat then (raw_len - hold)%nat else emit_pos st) false
      end in
    let sent := (emit_pos st <? limit)%nat in
    let '(st', evs) := send_delta st (B "reasoning_content") raw limit in
    let st' := if sent then st' <| sent_reasoning := true |> else st' in
    match close with
    | Some i => (st' <| emit_pos := (emit_pos st + i + length (B "</think>"))%nat |> <| st_mode := OPENAI_STREAM_TEXT |>, evs, true)
    | None => if final then (st' <| st_mode := OPENAI_STREAM_SUPPRESS |>, evs, false) else (st', evs, false)
    end.

(** A start tag is looked for in the whole text, but it opens a stream of
    calls only when all of it lies below [raw_len]. *)
Definition text_part (has_tools : bool) (st : openai_stream) (raw : bytes) (raw_len : nat) (final : bool)
    : openai_stream * list openai_event :=
  let tool := if has_tools then find_any_tool_start (drop (emit_pos st) raw) else None in
  let limit := text_stream_safe_limit raw (emit_pos st) raw_len has_tools final in
  let sent := (emit_pos st <? limit)%nat in
  let '(st', evs) := send_delta st (B "content") raw limit in
  let st' := if sent then st' <| sent_content := true |> else st' in
  match tool with
  | Some i =>
      let pos := (emit_pos st + i)%nat in
      let '(ts, ok) := openai_tool_stream_init (take raw_len raw) pos in
      (st' <| emit_pos := pos |> <| st_tool := ts |> <| st_mode := if ok then OPENAI_STREAM_TOOL else OPENAI_STREAM_SUPPRESS |>, evs)
  | None => (if final then st' <| st_mode := OPENAI_STREAM_SUPPRESS |> else st', evs)
  end.

(** The functions on tool calls read nothing from [raw_len] on: they get the
    text up to there. *)
Definition tool_part `{ToolIds} (known : list bytes) (st : openai_stream) (raw : bytes) (raw_len : nat)
    : openai_stream * list openai_event :=
  let '(ts, evs) := openai_tool_stream_update known (st_tool st) (take raw_len raw) in
  let st := st <| st_tool := ts |> in
  (if ts_active ts then st else st <| st_mode := OPENAI_STREAM_SUPPRESS |>, evs).

Definition openai_sse_stream_update `{ToolIds} (known : list bytes) (has_tools : bool) (st : openai_stream)
    (raw : bytes) (raw_len : nat) (final : bool)
    : openai_stream * list openai_event :=
  if negb (st_active st) then (st, [])
  else
    let '(st, evs1, go) :=
      match st_mode st with OPENAI_STREAM_THINKING => thinking_part st raw raw_len final | _ => (st, [], true) end in
    if negb go then (st, evs1)
    else
      let '(st, evs2) := match st_mode st with OPENAI_STREAM_TEXT => text_part has_tools st raw raw_len final | _ => (st, []) end in
      let '(st, evs3) := match st_mode st with OPENAI_STREAM_TOOL => tool_part known st raw raw_len | _ => (st, []) end in
      (st, evs1 ++ evs2 ++ evs3).

(** The ids a stream has shown are the ids of the calls it parsed. *)
Fixpoint apply_stream_tool_ids (cs : list tool_call) (ids : list (option bytes)) : list tool_call :=
  match cs, ids with
  | tc :: cs', id :: ids' =>
      (match nonempty (tc_id tc), nonempty id with None, Some id => tc <| tc_id := Some id |> | _, _ => tc end)
        :: apply_stream_tool_ids cs' ids'
  | _, _ => cs
  end.

Definition apply_openai_stream_tool_ids (cs : tool_calls) (st : openai_stream) : tool_calls :=
  cs <| tcs_v := apply_stream_tool_ids (tcs_v cs) (ts_ids (st_tool st)) |>.

Definition assign_tool_call_ids `{ToolIds} (known : list bytes) (cs : tool_calls) : tool_calls :=
  cs <| tcs_v := foldl (fun done tc =>
      done ++ [match nonempty (tc_id tc) with
               | Some _ => tc
               | None => tc <| tc_id := Some (new_tool_id (omap tc_id done ++ known)) |>
               end]) [] (tcs_v cs) |>.
