(* ===== verification/OpenaiStreamProps.v ===== *)
(** * What a streaming client assembles

    However the text of a tool call arrives, the fragments of arguments that
    are sent add up to the same text, and for a block written by the renderer
    that is the compact JSON the arguments came from. *)
From S2P Require Import Prelude.
From S2P Require Import CNum.
From S2P Require Import CFloat.
From S2P Require Import ServerJson.
From S2P Require Import ServerJsonProps.
From S2P Require Import ServerStream.
From S2P Require Import ServerStreamProps.
From S2P Require Import ServerMsgs.
From S2P Require Import Dsml.
From S2P Require Import DsmlProps.
From S2P Require Import DsmlRoundtrip.
From S2P Require Import DsmlTrack.
From S2P Require Import DsmlTrackProps.
From S2P Require Import ToolMemory.
From S2P Require Import Chat.
From S2P Require Import OpenaiStream.
Open Scope Z_scope.

(** ** The last byte of a kind *)

Fixpoint last_of (c : byte) (raw : bytes) (i turns : nat) : option nat :=
  match turns with
  | O => None
  | S turns => if Byte.eqb (nth (i - 1) raw NUL) c then Some (i - 1)%nat else last_of c raw (i - 1) turns
  end.

Lemma last_of_spec (c : byte) (raw : bytes) (turns : nat) : forall i, (turns <= i)%nat ->
  match last_of c raw i turns with
  | Some m => (i - turns <= m < i)%nat /\ nth m raw NUL = c /\ forall x, (m < x < i)%nat -> nth x raw NUL <> c
  | None => forall x, (i - turns <= x < i)%nat -> nth x raw NUL <> c
  end.
Proof.
  induction turns as [|turns IH]; intros i Hi; cbn [last_of]; [intros x Hx; lia|].
  destruct (beqb_spec (nth (i - 1) raw NUL) c) as [E|E].
  - split; [lia|]. split; [done|]. intros x Hx. lia.
  - specialize (IH (i - 1)%nat ltac:(lia)). destruct (last_of c raw (i - 1) turns) as [m|].
    + destruct IH as (H1 & H2 & H3). split; [lia|]. split; [done|]. intros x Hx.
      destruct (Nat.eq_dec x (i - 1)%nat) as [->|]; [done|]. apply H3. lia.
    + intros x Hx. destruct (Nat.eq_dec x (i - 1)%nat) as [->|]; [done|]. apply IH. lia.
Qed.

Definition partial_at (raw lit : bytes) (limit m : nat) : bool :=
  (limit - m <? length lit)%nat && str_prefixb (take (limit - m) (drop m raw)) lit.

Lemma marker_loop_eq (raw close : bytes) (len turns : nat) : forall i,
  marker_safe_loop raw close len i turns =
  match last_of x3c raw i turns with Some m => if partial_at raw close len m then m else len | None => len end.
Proof.
  induction turns as [|turns IH]; intros i; [done|]. cbn [marker_safe_loop last_of].
  destruct (Byte.eqb (nth (i - 1) raw NUL) x3c); [done|]. apply IH.
Qed.

Lemma entity_loop_eq (raw : bytes) (limit turns : nat) : forall i,
  entity_safe_loop raw limit i turns =
  match last_of x26 raw i turns with
  | Some m => if existsb (fun e => partial_at raw e limit m) entities then m else limit
  | None => limit
  end.
Proof.
  induction turns as [|turns IH]; intros i; [done|]. cbn [entity_safe_loop last_of].
  destruct (Byte.eqb (nth (i - 1) raw NUL) x26); [done|]. apply IH.
Qed.

(** A literal that starts at [m] in a longer text, seen from inside. *)
Lemma lit_inside (raw d lit : bytes) (m x : nat) : str_prefixb lit (drop m (raw ++ d)) = true ->
  (m <= x)%nat -> (x < length raw)%nat -> (x < m + length lit)%nat -> nth x raw NUL = nth (x - m) lit NUL.
Proof.
  intros [t E]%str_prefixb_spec H1 H2 H3. rewrite <- (app_nth1 lit t) by lia. rewrite <- E.
  rewrite <- (app_nth1 raw d) by done. rewrite !nth_lookup, lookup_drop. do 2 f_equal. lia.
Qed.

Lemma lit_partial (raw d lit : bytes) (limit m : nat) : str_prefixb lit (drop m (raw ++ d)) = true ->
  (m <= limit <= length raw)%nat -> (limit - m < length lit)%nat -> partial_at raw lit limit m = true.
Proof.
  intros [t E]%str_prefixb_spec Hm Hl. unfold partial_at. rewrite (proj2 (Nat.ltb_lt _ _) Hl). cbn [andb].
  assert (Ht : take (limit - m) (drop m raw) = take (limit - m) lit).
  { rewrite drop_app_le in E by lia. rewrite <- (take_app_le (drop m raw) d) by (rewrite length_drop; lia).
    rewrite E, take_app_le by lia. done. }
  rewrite Ht. apply str_prefixb_spec. exists (drop (limit - m) lit). by rewrite take_drop.
Qed.

(** ** How far a value may be sent *)

Definition value_safe (raw : bytes) (start : nat) (close : bytes) (is_string : bool) (n : nat) : Prop :=
  (start <= n <= length raw)%nat /\
  (forall d e, (start <= e)%nat -> str_prefixb close (drop e (raw ++ d)) = true -> (n <= e)%nat) /\
  (is_string = true -> forall d amp b k, (start <= amp < n)%nat -> entity (drop amp (raw ++ d)) = Some (b, k) ->
    (amp + k <= n)%nat).

Lemma nth_tail (lit : bytes) (c : byte) (k : nat) : c ∉ tl lit -> (0 < k < length lit)%nat -> nth k lit NUL <> c.
Proof.
  intros Hc Hk E. apply Hc. destruct lit as [|x lit]; [simpl in Hk; lia|]. destruct k as [|k]; [lia|]. cbn in *.
  rewrite <- E. apply list_elem_of_In, nth_In. lia.
Qed.

Lemma close_single (syn : dsml_syntax) : syn ∈ dsml_syntaxes -> x3c ∉ tl (param_end syn).
Proof.
  intros [-> |[-> |[-> |[]%elem_of_nil]%elem_of_cons]%elem_of_cons]%elem_of_cons; by apply (bool_decide_unpack _).
Qed.

Lemma marker_safe (syn : dsml_syntax) (raw : bytes) (start : nat) : syn ∈ dsml_syntaxes -> (start <= length raw)%nat ->
  strstr_pos (drop start raw) (param_end syn) = None ->
  let scan := if (start + length (param_end syn) <? length raw)%nat then (length raw - length (param_end syn))%nat else start in
  let limit := marker_safe_loop raw (param_end syn) (length raw) (length raw) (length raw - scan) in
  (start <= limit <= length raw)%nat /\
  forall d e, (start <= e)%nat -> str_prefixb (param_end syn) (drop e (raw ++ d)) = true -> (limit <= e)%nat.
Proof.
  intros Hsyn Hstart Hno scan limit. destruct (close_of _ Hsyn) as (b & r & Hclose).
  assert (Hscan : (start <= scan <= length raw)%nat /\ (scan = start \/ scan = length raw - length (param_end syn))%nat).
  { unfold scan. destruct (Nat.ltb_spec (start + length (param_end syn)) (length raw)); lia. }
  pose proof (last_of_spec x3c raw (length raw - scan) (length raw) ltac:(lia)) as Hlast.
  assert (Hlimit : limit = match last_of x3c raw (length raw) (length raw - scan) with
    | Some m => if partial_at raw (param_end syn) (length raw) m then m else length raw | None => length raw end)
    by apply marker_loop_eq.
  clearbody limit. split.
  { subst limit. destruct (last_of _ _ _ _) as [m|]; [|lia]. destruct Hlast as [Hm _]. destruct (partial_at _ _ _ _); lia. }
  intros d e He Hp. destruct (Nat.le_gt_cases limit e) as [|Hlt]; [done|]. exfalso.
  assert (Hlen : (limit <= length raw)%nat).
  { subst limit. destruct (last_of _ _ _ _) as [m|]; [|lia]. destruct Hlast as [Hm _]. destruct (partial_at _ _ _ _); lia. }
  assert (Hover : (length raw < e + length (param_end syn))%nat).
  { destruct (Nat.le_gt_cases (e + length (param_end syn)) (length raw)) as [Hfit|]; [|done]. exfalso.
    pose proof (strstr_pos_none _ _ Hno (e - start)) as Hn. rewrite drop_drop in Hn.
    replace (start + (e - start))%nat with e in Hn by lia.
    rewrite drop_grow, prefix_fixed in Hp by (rewrite ?length_drop; lia). congruence. }
  assert (Hbr : nth e raw NUL = x3c).
  { rewrite (lit_inside _ _ _ _ e Hp) by (rewrite ?Hclose; simpl; lia). by rewrite Nat.sub_diag, Hclose. }
  destruct (last_of x3c raw (length raw) (length raw - scan)) as [m|].
  - destruct Hlast as (Hm & Hc & Hafter). assert (e <= m)%nat.
    { destruct (Nat.le_gt_cases e m) as [|Hgt]; [done|]. by destruct (Hafter e ltac:(lia)). }
    destruct (Nat.eq_dec m e) as [->|Hne].
    + rewrite (lit_partial _ _ _ _ _ Hp) in Hlimit by lia. lia.
    + apply (nth_tail (param_end syn) x3c (m - e)); [by apply close_single|lia|].
      rewrite <- (lit_inside _ _ _ _ m Hp) by lia. done.
  - by apply (Hlast e ltac:(lia)).
Qed.

Lemma entity_text (s : bytes) (b : byte) (k : nat) : entity s = Some (b, k) ->
  exists e, e ∈ entities /\ length e = k /\ str_prefixb e s = true.
Proof.
  unfold entity. repeat (match goal with |- context [str_prefixb ?e s] =>
    destruct (str_prefixb e s) eqn:?; [intros [= <- <-]; exists e; split; [|split; [reflexivity|done]];
      by apply (bool_decide_unpack _)|] end). done.
Qed.

(** Entities start with their only [&] and are six ASCII bytes at most. *)
Lemma entity_shape (e : bytes) : e ∈ entities ->
  (0 < length e <= 6)%nat /\ nth 0 e NUL = x26 /\ x26 ∉ tl e /\ Forall (fun c => bz c < 0x80) e.
Proof.
  unfold entities. intros [-> |[-> |[-> |[-> |[-> |[]%elem_of_nil]%elem_of_cons]%elem_of_cons]%elem_of_cons]%elem_of_cons]%elem_of_cons;
    (split; [simpl; lia|]); (split; [reflexivity|]); (split; [by apply (bool_decide_unpack _)|]);
    repeat constructor; vm_compute; reflexivity.
Qed.

Lemma entity_safe (raw : bytes) (start limit : nat) : (start <= limit <= length raw)%nat ->
  let n := dsml_entity_stream_safe_len raw start limit in
  (start <= n <= limit)%nat /\
  forall d amp e, (start <= amp < n)%nat -> e ∈ entities -> str_prefixb e (drop amp (raw ++ d)) = true -> (amp + length e <= n)%nat.
Proof.
  intros Hl n. unfold dsml_entity_stream_safe_len in n.
  set (scan := if (start + 6 <? limit)%nat then (limit - 6)%nat else start) in n.
  assert (Hscan : (start <= scan <= limit)%nat /\ (scan = start \/ scan = limit - 6)%nat).
  { unfold scan. destruct (Nat.ltb_spec (start + 6) limit); lia. }
  pose proof (last_of_spec x26 raw (limit - scan) limit ltac:(lia)) as Hlast.
  assert (Hn : n = match last_of x26 raw limit (limit - scan) with
    | Some m => if existsb (fun e => partial_at raw e limit m) entities then m else limit | None => limit end) by apply entity_loop_eq.
  clearbody n. assert (Hrange : (start <= n <= limit)%nat).
  { subst n. destruct (last_of _ _ _ _) as [m|]; [|lia]. destruct Hlast as [Hm _]. destruct (existsb _ _); lia. }
  split; [done|]. intros d amp e Hamp Hin Hp. destruct (entity_shape e Hin) as (Hlen & Hfirst & Hsingle & _).
  destruct (Nat.le_gt_cases (amp + length e) n) as [|Hover]; [done|]. exfalso.
  assert (Hat : nth amp raw NUL = x26) by (rewrite (lit_inside _ _ _ _ amp Hp) by lia; by rewrite Nat.sub_diag).
  assert (Hm : forall m, (amp < m < limit)%nat -> (m < amp + length e)%nat -> nth m raw NUL <> x26).
  { intros m Hm1 Hm2. rewrite (lit_inside _ _ _ _ m Hp) by lia. apply nth_tail; [done|lia]. }
  destruct (last_of x26 raw limit (limit - scan)) as [m|].
  - destruct Hlast as (Hmr & Hmc & Hafter). destruct (Nat.lt_total m amp) as [H|[->|H]].
    + by apply (Hafter amp ltac:(lia)).
    + assert (existsb (fun e => partial_at raw e limit amp) entities = true) as Hex; [|rewrite Hex in Hn; lia].
      apply existsb_exists. exists e. split; [by apply list_elem_of_In|]. apply (lit_partial _ _ _ _ _ Hp); [lia|].
      destruct (existsb _ entities) in Hn; lia.
    + destruct (Nat.le_gt_cases (amp + length e) m); [|by apply (Hm m ltac:(lia) ltac:(lia))].
      destruct (existsb _ entities) in Hn; lia.
  - subst n. destruct (Nat.le_gt_cases scan amp); [by apply (Hlast amp ltac:(lia))|lia].
Qed.

Lemma expected_ascii (c : Z) : (1 < utf8_expected_len c)%nat -> 0x80 <= c.
Proof. unfold utf8_expected_len. destruct (Z.ltb_spec c 0x80); lia. Qed.

Lemma cont_not_ascii (c : Z) : 0 <= c < 256 -> is_cont c = true -> 0x80 <= c.
Proof.
  intros Hc. rewrite <- (bz_zb c Hc). rewrite is_cont_byte, bz_zb by done. intros [H _]%andb_true_iff. by apply Z.leb_le in H.
Qed.

(** What is held back starts with a byte beyond ASCII. *)
Lemma utf8_cut (s : bytes) (start limit : nat) :
  let n := utf8_stream_safe_len s start limit false in (n < limit)%nat -> 0x80 <= byte_at s n.
Proof.
  unfold utf8_stream_safe_len. cbn [orb]. destruct (limit <=? start)%nat; [lia|].
  destruct (back_over_cont 4 s start limit =? limit)%nat.
  { destruct (Nat.ltb_spec 1 (utf8_expected_len (byte_at s (limit - 1)))); [|lia]. intros _. by apply expected_ascii. }
  destruct (_ && _) eqn:E.
  { apply andb_true_iff in E as [E1%Nat.eqb_eq E2]. rewrite E1 in E2. intros _. apply cont_not_ascii; [apply bz_range|done]. }
  destruct (Nat.ltb_spec (limit - (back_over_cont 4 s start limit - 1))
    (utf8_expected_len (byte_at s (back_over_cont 4 s start limit - 1)))); [|lia].
  intros Hlt. apply expected_ascii. lia.
Qed.

Lemma value_safe_len (syn : dsml_syntax) (raw : bytes) (start : nat) (is_string : bool) :
  syn ∈ dsml_syntaxes -> (start <= length raw)%nat -> strstr_pos (drop start raw) (param_end syn) = None ->
  value_safe raw start (param_end syn) is_string
    (tool_param_value_stream_safe_len raw start (length raw) (param_end syn) is_string).
Proof.
  intros Hsyn Hstart Hno. unfold tool_param_value_stream_safe_len.
  destruct (marker_safe syn raw start Hsyn Hstart Hno) as [Hr Hm].
  set (limit := marker_safe_loop _ _ _ _ _) in *. 
  set (limit2 := if is_string then dsml_entity_stream_safe_len raw start limit else limit).
  destruct (entity_safe raw start limit Hr) as [Hr2 He].
  assert (Hl2 : (start <= limit2 <= limit)%nat) by (unfold limit2; destruct is_string; lia).
  pose proof (utf8_safe_range raw start limit2 false ltac:(lia)) as Hu.
  pose proof (utf8_cut raw start limit2) as Hcut. cbv zeta in Hcut. set (n := utf8_stream_safe_len raw start limit2 false) in *.
  split; [lia|]. split; [intros d e H1 H2; specialize (Hm d e H1 H2); lia|].
  intros -> d amp b k Hamp Hent. unfold limit2 in *. apply entity_text in Hent as (e & Hin & <- & Hp).
  specialize (He d amp e ltac:(lia) Hin Hp). destruct (Nat.le_gt_cases (amp + length e) n) as [|Hover]; [done|]. exfalso.
  specialize (Hcut ltac:(lia)). unfold byte_at in Hcut. rewrite (lit_inside _ _ _ _ n Hp) in Hcut by lia.
  destruct (entity_shape e Hin) as (_ & _ & _ & Hascii). rewrite Forall_forall in Hascii.
  specialize (Hascii (nth (n - amp) e NUL)). assert (nth (n - amp) e NUL ∈ e); [|specialize (Hascii ltac:(done)); lia].
  apply list_elem_of_In, nth_In. lia.
Qed.

(** ** A value sent in parts *)

Lemma entity_some (s : bytes) (b : byte) (k : nat) : entity s = Some (b, k) -> (0 < k <= length s)%nat.
Proof.
  intros H. apply entity_text in H as (e & Hin & <- & Hp). destruct (entity_shape e Hin) as [Hl _].
  pose proof (prefixb_length _ _ Hp). lia.
Qed.

Lemma entity_grow (s d : bytes) (b : byte) (k : nat) : entity s = Some (b, k) -> entity (s ++ d) = Some (b, k).
Proof.
  unfold entity. repeat (match goal with |- context [str_prefixb ?e s] =>
    destruct (str_prefixb e s) eqn:?; [intros [= <- <-] |] end); try done;
  repeat match goal with H : str_prefixb _ s = true |- _ => apply str_prefixb_spec in H as [? ->]; reflexivity end.
Qed.

Lemma entity_cut (s d : bytes) (b : byte) (k : nat) : entity (s ++ d) = Some (b, k) -> (k <= length s)%nat -> entity s = Some (b, k).
Proof.
  unfold entity. intros H Hk. revert H.
  repeat (match goal with |- context [str_prefixb ?e (s ++ d)] =>
    destruct (str_prefixb e (s ++ d)) eqn:?; [intros [= <- <-]; 
      match goal with H : str_prefixb e _ = true |- _ => rewrite prefix_fixed in H by (simpl; lia) end |] end); try done;
  repeat match goal with
    | H : str_prefixb ?e s = true |- _ => apply str_prefixb_spec in H as [? ->]; reflexivity
    end.
Qed.

Lemma unescape_split (fuel : nat) : forall x y, (length x <= fuel)%nat ->
  (forall amp b k, (amp < length x)%nat -> entity (drop amp (x ++ y)) = Some (b, k) -> (amp + k <= length x)%nat) ->
  unescape_loop (fuel + length y) (x ++ y) = unescape_loop fuel x ++ unescape_loop (length y) y.
Proof.
  assert (Hmore : forall y n m, (length y <= n)%nat -> (length y <= m)%nat -> unescape_loop n y = unescape_loop m y).
  { intros y. induction y as [y IH] using (induction_ltof1 _ (@length byte)). unfold ltof in IH. intros n m Hn Hm.
    destruct y as [|c y]; [by destruct n, m|]. destruct n as [|n], m as [|m]; try (simpl in *; lia). cbn [unescape_loop].
    destruct (entity (c :: y)) as [[b k]|] eqn:E; f_equal; [|apply IH; simpl in *; lia].
    pose proof (entity_some _ _ _ E). apply IH; rewrite ?length_drop; simpl in *; lia. }
  induction fuel as [|fuel IH]; intros x y Hf Hsafe.
  - destruct x; [|simpl in Hf; lia]. done.
  - destruct x as [|c x]; [cbn [app]; by apply Hmore; lia|]. cbn [app]. change (S fuel + length y)%nat with (S (fuel + length y)).
    cbn [unescape_loop]. pose proof (Hsafe 0%nat) as H0. rewrite drop_0 in H0. cbn [app] in H0.
    destruct (entity (c :: x ++ y)) as [[b k]|] eqn:E.
    + specialize (H0 _ _ ltac:(simpl; lia) eq_refl). pose proof (entity_some _ _ _ E) as [Hk _].
      rewrite (entity_cut (c :: x) y b k E) by lia. cbn [app]. f_equal.
      change (c :: x ++ y) with ((c :: x) ++ y). rewrite drop_app_le by lia. apply IH; [rewrite length_drop; simpl in *; lia|].
      intros amp b' k' Ha He. rewrite length_drop in *. rewrite <- (drop_app_le (c :: x) y k) in He by lia.
      rewrite drop_drop in He. specialize (Hsafe (k + amp)%nat b' k' ltac:(lia) He). lia.
    + destruct (entity (c :: x)) as [[b k]|] eqn:E2; [pose proof (entity_grow (c :: x) y b k E2) as E3; cbn [app] in E3; congruence|].
      cbn [app]. f_equal. apply IH; [simpl in Hf; lia|]. intros amp b' k' Ha He.
      specialize (Hsafe (S amp) b' k' ltac:(simpl; lia) He). simpl in Hsafe. lia.
Qed.

Definition value_text (is_string : bool) (s : bytes) : bytes :=
  if is_string then concat (map escape_byte (dsml_unescape_text (Some s))) else s.

Lemma value_text_split (is_string : bool) (x y : bytes) :
  (is_string = true -> forall amp b k, (amp < length x)%nat -> entity (drop amp (x ++ y)) = Some (b, k) -> (amp + k <= length x)%nat) ->
  value_text is_string (x ++ y) = value_text is_string x ++ value_text is_string y.
Proof.
  intros H. destruct is_string; [|done]. unfold value_text, dsml_unescape_text. cbn [default]. unfold id.
  rewrite length_app, (unescape_split (length x) x y (le_n _) (H eq_refl)). by rewrite map_app, concat_app.
Qed.

(** ** The client *)

Record client_call := ClientCall { cc_id : bytes; cc_name : bytes; cc_args : bytes }.

Definition add_args (i : Z) (s : bytes) (calls : list client_call) : list client_call :=
  alter (fun c => ClientCall (cc_id c) (cc_name c) (cc_args c ++ s)) (Z.to_nat i) calls.

(** A call starts with its id and name; arguments are added to the call with
    the index of the chunk. *)
Definition deliver (calls : list client_call) (ev : openai_event) : list client_call :=
  match ev with
  | ChatDelta _ _ => calls
  | ToolCallStart _ tool_id name => calls ++ [ClientCall tool_id name []]
  | ToolCallArgs i s => add_args i s calls
  end.

Lemma add_args_nil (i : Z) (calls : list client_call) : add_args i [] calls = calls.
Proof. apply list_alter_id. intros []. cbn. by rewrite app_nil_r. Qed.

Lemma add_args_app (i : Z) (x y : bytes) (calls : list client_call) : add_args i y (add_args i x calls) = add_args i (x ++ y) calls.
Proof.
  unfold add_args. rewrite list_alter_alter_eq. apply list_alter_ext; [|done].
  intros c _. cbn. by rewrite <- app_assoc.
Qed.

Lemma deliver_fragment (ts : openai_tool_stream) (s : bytes) (calls : list client_call) :
  foldl deliver calls (openai_tool_emit_args_fragment ts s) = add_args (ts_index ts) s calls.
Proof. unfold openai_tool_emit_args_fragment, sse_chat_tool_call_args_delta_n. destruct s; [by rewrite add_args_nil|done]. Qed.

Lemma deliver_value (ts : openai_tool_stream) (s : bytes) (calls : list client_call) :
  foldl deliver calls (emit_value ts s) = add_args (ts_index ts) (value_text (param_is_string ts) s) calls.
Proof.
  unfold emit_value, value_text. destruct (param_is_string ts); [|apply deliver_fragment].
  unfold openai_tool_emit_string_value. destruct s as [|c s]; [by rewrite add_args_nil|].
  rewrite deliver_fragment. unfold json_escape_fragment_n. by rewrite take_ge by lia.
Qed.

(** ** Updates as runs *)

#[local] Arguments skip_spaces : simpl never.

Section Runs.
Context `{ToolIds}.
Variable known : list bytes.

(** A stream with what its client has assembled. *)
Definition config : Type := openai_tool_stream * list client_call.

(** A value whose closing tag has not come. *)
Definition waiting (t : bytes) (ts : openai_tool_stream) : Prop :=
  ts_active ts = true /\ ts_state ts = DSML_TOOL_PARAM_VALUE /\ (parse_pos ts <= length t)%nat /\
  strstr_pos (drop (parse_pos ts) t) (param_end (stream_syn ts)) = None.

(** The value is sent up to [n]. *)
Definition advance (t : bytes) (c : config) (n : nat) : config :=
  ((fst c) <| parse_pos := n |>,
   add_args (ts_index (fst c)) (value_text (param_is_string (fst c)) (take (n - parse_pos (fst c)) (drop (parse_pos (fst c)) t))) (snd c)).

Definition safe_for (t : bytes) (ts : openai_tool_stream) (n : nat) : Prop :=
  value_safe t (parse_pos ts) (param_end (stream_syn ts)) (param_is_string ts) n.

(** The turns of an update; a waiting value may be sent up to any safe place. *)
Inductive stream_runs (t : bytes) : config -> config -> Prop :=
| stream_stop (ts ts' : openai_tool_stream) (evs : list openai_event) (calls : list client_call) :
    ~ waiting t ts -> tool_stream_turn known ts t = (ts', evs, false) -> stream_runs t (ts, calls) (ts', foldl deliver calls evs)
| stream_wait (c : config) (n : nat) : waiting t (fst c) -> safe_for t (fst c) n -> stream_runs t c (advance t c n)
| stream_go (ts ts1 : openai_tool_stream) (evs : list openai_event) (calls : list client_call) (c' : config) :
    tool_stream_turn known ts t = (ts1, evs, true) -> stream_runs t (ts1, foldl deliver calls evs) c' -> stream_runs t (ts, calls) c'.

Definition streams (t : bytes) (ts : openai_tool_stream) : Prop :=
  ts_active ts = true -> stream_syn ts ∈ dsml_syntaxes /\ (parse_pos ts <= length t)%nat.

Lemma streams_grow (t d : bytes) (ts : openai_tool_stream) : streams t ts -> streams (t ++ d) ts.
Proof. intros Hs Ha. destruct (Hs Ha) as [H1 H2]. split; [done|]. rewrite length_app. lia. Qed.

(** A waiting turn. *)
Lemma waiting_turn (t : bytes) (ts : openai_tool_stream) (calls : list client_call) : streams t ts -> waiting t ts ->
  exists ts' evs, tool_stream_turn known ts t = (ts', evs, false) /\
    exists n, safe_for t ts n /\ (ts', foldl deliver calls evs) = advance t (ts, calls) n.
Proof.
  intros Hs (Ha & Hst & Hpos & Hno). destruct (Hs Ha) as [Hsyn _].
  pose proof (value_safe_len _ t (parse_pos ts) (param_is_string ts) Hsyn Hpos Hno) as Hsafe.
  unfold tool_stream_turn. rewrite Ha. cbn [negb orb]. destruct (Nat.leb_spec (length t) (parse_pos ts)) as [Hl|Hl].
  - exists ts, []. split; [done|]. exists (parse_pos ts). split.
    + split; [lia|]. split; [intros; lia|]. intros; lia.
    + unfold advance. cbn. rewrite Nat.sub_diag, take_0.
      replace (value_text (param_is_string ts) []) with (@nil byte) by (by destruct (param_is_string ts)).
      rewrite add_args_nil. by destruct ts.
  - rewrite Hst. unfold find_lit_bounded. rewrite Hno.
    set (n := tool_param_value_stream_safe_len t _ _ _ _) in *. destruct (Nat.ltb_spec (parse_pos ts) n) as [Hn|Hn].
    + do 2 eexists. split; [reflexivity|]. exists n. split; [done|]. unfold advance. cbn. by rewrite deliver_value.
    + do 2 eexists. split; [reflexivity|]. exists n. split; [done|]. destruct Hsafe as [Hr _].
      assert (n = parse_pos ts) as -> by lia. unfold advance. cbn. rewrite Nat.sub_diag, take_0.
      replace (value_text (param_is_string ts) []) with (@nil byte) by (by destruct (param_is_string ts)).
      rewrite add_args_nil. by destruct ts.
Qed.

Lemma waiting_dec (t : bytes) (ts : openai_tool_stream) : waiting t ts \/ ~ waiting t ts.
Proof.
  unfold waiting. destruct (ts_active ts); [|right; by intros []]. destruct (ts_state ts); try (right; by intros (_ & ? & _)).
  destruct (decide (parse_pos ts <= length t)%nat); [|right; by intros (_ & _ & ? & _)].
  destruct (strstr_pos _ _); [right; by intros (_ & _ & _ & ?)|by left].
Qed.

Lemma neither_grow (t d lit : bytes) (p : nat) : (p <= length t)%nat ->
  raw_full_lit t p lit = false -> raw_partial_lit t p lit = false ->
  raw_full_lit (t ++ d) p lit = false /\ raw_partial_lit (t ++ d) p lit = false.
Proof.
  intros Hp Hf Hpa. assert (Hno : str_prefixb (drop p t) lit = true -> False).
  { intros Hl. unfold raw_partial_lit, raw_partial_lit_min in Hpa. rewrite (proj2 (Nat.leb_le _ _) Hp), Hl, andb_true_r in Hpa.
    cbn [Nat.leb andb] in Hpa. rewrite andb_true_r in Hpa. apply Nat.ltb_ge in Hpa. apply str_prefixb_spec in Hl as [r Hr].
    assert (r = []) as ->.
    { apply (f_equal length) in Hr. rewrite length_app, length_drop in Hr. destruct r; [done|simpl in Hr; lia]. }
    rewrite app_nil_r in Hr. unfold raw_full_lit in Hf. rewrite <- Hr in Hf.
    pose proof (prefixb_app lit []) as Hx. rewrite app_nil_r in Hx. congruence. }
  split.
  - apply not_true_iff_false. unfold raw_full_lit in *. rewrite drop_grow by done. intros Hx.
    destruct (prefixb_cases _ _ _ Hx); [congruence|tauto].
  - apply not_true_iff_false. unfold raw_partial_lit, raw_partial_lit_min. rewrite drop_grow by done.
    intros [_ Hx]%andb_true_iff. apply Hno. apply str_prefixb_spec in Hx as [r Hr]. apply str_prefixb_spec.
    exists (d ++ r). by rewrite app_assoc.
Qed.

Lemma neither_any (t d a b : bytes) (p : nat) : (p <= length t)%nat -> raw_full_lit t p a = false ->
  raw_partial_any t p a b = false ->
  raw_full_lit (t ++ d) p a = false /\ raw_partial_any (t ++ d) p a b = false.
Proof.
  intros Hp Ha [H1 H2]%orb_false_iff. destruct (neither_grow t d a p Hp Ha H1) as [H3 H4]. split; [done|].
  unfold raw_partial_any. rewrite H4. cbn [orb]. destruct (raw_full_lit t p b) eqn:Hb; [|by apply (neither_grow t d b p Hp Hb H2)].
  unfold raw_partial_lit, raw_partial_lit_min. unfold raw_full_lit in Hb. pose proof (prefixb_length _ _ Hb) as Hl.
  rewrite length_drop in Hl. rewrite length_app. rewrite (proj2 (Nat.ltb_ge _ _)) by lia. by rewrite andb_false_r.
Qed.

Lemma tag_text_grow (t d : bytes) (p a : nat) : (p <= length t)%nat -> (a <= length t)%nat -> tag_text (t ++ d) p a = tag_text t p a.
Proof. intros Hp Ha. unfold tag_text. rewrite drop_grow, take_app_le by (rewrite ?length_drop; lia). done. Qed.

Lemma stream_id_shape (ts : openai_tool_stream) (i : Z) :
  exists ids id, openai_tool_stream_id known ts i = (ts <| ts_ids := ids |>, id).
Proof.
  unfold openai_tool_stream_id. destruct (i <? 0); [exists (ts_ids ts), []; by destruct ts|].
  destruct (_ !! _) as [[id|]|]; do 2 eexists; reflexivity.
Qed.

Definition stream_on (t d : bytes) (ts ts1 : openai_tool_stream) (evs : list openai_event) : Prop :=
  tool_stream_turn known ts (t ++ d) = (ts1, evs, true) /\ streams t ts1 /\
  (ts_active ts1 = true -> (parse_pos ts < parse_pos ts1)%nat).

Lemma start_invoke_on (t d : bytes) (ts ts1 : openai_tool_stream) (evs : list openai_event) :
  ts_active ts = true -> streams t ts -> openai_tool_start_invoke known ts t = Some (ts1, evs) ->
  openai_tool_start_invoke known ts (t ++ d) = Some (ts1, evs) /\ streams t ts1 /\
  (ts_active ts1 = true -> (parse_pos ts < parse_pos ts1)%nat).
Proof.
  intros Ha Hs E. destruct (Hs Ha) as [Hsyn Hpos]. unfold openai_tool_start_invoke in *.
  destruct (tag_after t (parse_pos ts)) as [a|] eqn:Et; [|done]. pose proof (tag_after_range _ _ _ Et) as Hr.
  rewrite (tag_after_grow _ _ _ _ Et), tag_text_grow by lia. destruct (dsml_attr _ _) as [name|]; [|by simplify_eq].
  destruct (stream_id_shape ts (ts_index ts)) as (ids & id & Hid). rewrite Hid in *. destruct ts; cbn in *. simplify_eq.
  split; [done|]. cbn. split; [|lia]. intros _. split; [done|]. cbn. lia.
Qed.

Lemma start_param_on (t d : bytes) (ts ts1 : openai_tool_stream) (evs : list openai_event) :
  ts_active ts = true -> streams t ts -> openai_tool_start_param ts t = Some (ts1, evs) ->
  openai_tool_start_param ts (t ++ d) = Some (ts1, evs) /\ streams t ts1 /\
  (ts_active ts1 = true -> (parse_pos ts < parse_pos ts1)%nat).
Proof.
  intros Ha Hs E. destruct (Hs Ha) as [Hsyn Hpos]. unfold openai_tool_start_param in *.
  destruct (tag_after t (parse_pos ts)) as [a|] eqn:Et; [|done]. pose proof (tag_after_range _ _ _ Et) as Hr.
  rewrite (tag_after_grow _ _ _ _ Et), tag_text_grow by lia.
  destruct (dsml_attr _ (B "name")) as [name|]; [|by simplify_eq]. destruct (dsml_attr _ (B "string")) as [str|]; [|by simplify_eq].
  unfold openai_tool_emit_param_prefix in *. destruct (first_param ts); injection E as <- <-;
    (split; [reflexivity|]); (cbn; split; [|lia]); intros _; (split; [exact Hsyn|cbn; lia]).
Qed.

Lemma finish_param_on (t d : bytes) (ts : openai_tool_stream) (e : nat) :
  ts_active ts = true -> streams t ts -> strstr_pos (drop (parse_pos ts) t) (param_end (stream_syn ts)) = Some e ->
  openai_tool_finish_param ts (t ++ d) (parse_pos ts + e) = openai_tool_finish_param ts t (parse_pos ts + e) /\
  streams t (fst (openai_tool_finish_param ts t (parse_pos ts + e))) /\
  (parse_pos ts < parse_pos (fst (openai_tool_finish_param ts t (parse_pos ts + e))))%nat.
Proof.
  intros Ha Hs E. destruct (Hs Ha) as [Hsyn Hpos]. apply strstr_pos_some in E as [E _]. pose proof (prefixb_length _ _ E) as Hl.
  destruct (close_of _ Hsyn) as (b & r & Hc). rewrite !length_drop in Hl. rewrite Hc in Hl. cbn [length] in Hl.
  unfold openai_tool_finish_param. rewrite drop_grow, take_app_le by (rewrite ?length_drop; lia). split; [done|].
  cbn. rewrite Hc. cbn [length]. split; [|lia]. intros _. split; [exact Hsyn|]. cbn. lia.
Qed.

Lemma with_pos (t : bytes) (ts : openai_tool_stream) (p : nat) : streams t ts -> ts_active ts = true -> (parse_pos ts <= p <= length t)%nat ->
  streams t (ts <| parse_pos := p |>).
Proof. intros Hs Ha Hp _. destruct (Hs Ha) as [H1 _]. split; [done|]. cbn. lia. Qed.

Lemma stream_turn_on (t d : bytes) (ts ts1 : openai_tool_stream) (evs : list openai_event) : streams t ts ->
  tool_stream_turn known ts t = (ts1, evs, true) -> stream_on t d ts ts1 evs.
Proof.
  intros Hs E. unfold tool_stream_turn in E. destruct (ts_active ts) eqn:Ha; [|done]. cbn [negb orb] in E.
  destruct (Hs Ha) as [Hsyn Hpos]. destruct (Nat.leb_spec (length t) (parse_pos ts)) as [|Hlt]; [done|].
  assert (Hlen : (length (t ++ d) <=? parse_pos ts)%nat = false) by (apply Nat.leb_gt; rewrite length_app; lia).
  unfold stream_on, tool_stream_turn. rewrite Ha. cbn [negb orb]. rewrite Hlen.
  pose proof (skip_spaces_range t (parse_pos ts) Hpos) as Hr. pose proof (with_pos t ts _ Hs Ha Hr) as Hs1.
  set (p := skip_spaces t (parse_pos ts)) in *. cbv zeta in *.
  assert (Hfit : (p < length t)%nat -> skip_spaces (t ++ d) (parse_pos ts) = p /\ (length (t ++ d) <=? p)%nat = false).
  { intros Hp. split; [by apply skip_spaces_grow|]. apply Nat.leb_gt. rewrite length_app. lia. }
  change (parse_pos (ts <| parse_pos := p |>)) with p in *.
  destruct (ts_state ts) eqn:Hst.
  - destruct (Nat.leb_spec (length t) p) as [|Hp]; [done|]. destruct (Hfit Hp) as [-> Hlp].
    change (parse_pos (ts <| parse_pos := p |>)) with p. rewrite Hlp.
    destruct (raw_full_lit t p (tool_calls_end (stream_syn ts))) eqn:E1; [done|].
    destruct (raw_partial_any t p (tool_calls_end (stream_syn ts)) (invoke_start (stream_syn ts))) eqn:E2; [done|].
    destruct (raw_full_lit t p (invoke_start (stream_syn ts))) eqn:E3; [|done].
    destruct (neither_any t d _ _ p ltac:(lia) E1 E2) as [H1 H2]. rewrite H1, H2.
    pose proof (full_grow t d _ p (tag_lit _ 2%nat Hsyn ltac:(lia)) E3) as [Hf _]. cbn [nth tags] in Hf. rewrite Hf.
    set (tsp := ts <| parse_pos := p |>) in *. destruct (openai_tool_start_invoke known tsp t) as [[ts2 evs2]|] eqn:Ei; [|done]. injection E as <- <-.
    destruct (start_invoke_on t d tsp _ _ Ha Hs1 Ei) as (H3 & H4 & H5). rewrite H3. split; [done|]. split; [done|].
    intros Hact. specialize (H5 Hact). cbn in H5. lia.
  - destruct (Nat.leb_spec (length t) p) as [|Hp]; [done|]. destruct (Hfit Hp) as [-> Hlp].
    change (parse_pos (ts <| parse_pos := p |>)) with p. rewrite Hlp.
    destruct (raw_full_lit t p (invoke_end (stream_syn ts))) eqn:E1.
    { injection E as <- <-. pose proof (full_grow t d _ p (tag_lit _ 1%nat Hsyn ltac:(lia)) E1) as [Hf Hfit2]. cbn [nth tags] in Hf, Hfit2.
      rewrite Hf. pose proof (tag_lit _ 1%nat Hsyn ltac:(lia)) as Hne. cbn [nth tags] in Hne. split; [done|].
      assert (0 < length (invoke_end (stream_syn ts)))%nat by (destruct (invoke_end (stream_syn ts)); [done|simpl; lia]).
      split; [|cbn; lia]. intros _. split; [done|]. cbn. lia. }
    destruct (raw_partial_any t p (invoke_end (stream_syn ts)) (param_start (stream_syn ts))) eqn:E2; [done|].
    destruct (raw_full_lit t p (param_start (stream_syn ts))) eqn:E3; [|done].
    destruct (neither_any t d _ _ p ltac:(lia) E1 E2) as [H1 H2]. rewrite H1, H2.
    pose proof (full_grow t d _ p (tag_lit _ 3%nat Hsyn ltac:(lia)) E3) as [Hf _]. cbn [nth tags] in Hf. rewrite Hf.
    set (tsp := ts <| parse_pos := p |>) in *. destruct (openai_tool_start_param tsp t) as [[ts2 evs2]|] eqn:Ei; [|done]. injection E as <- <-.
    destruct (start_param_on t d tsp _ _ Ha Hs1 Ei) as (H3 & H4 & H5). rewrite H3. split; [done|]. split; [done|].
    intros Hact. specialize (H5 Hact). cbn in H5. lia.
  - unfold find_lit_bounded in *.
    destruct (strstr_pos (drop (parse_pos ts) t) (param_end (stream_syn ts))) as [e|] eqn:Ee.
    + destruct (close_of _ Hsyn) as (b & r & Hc). rewrite drop_grow by done.
      rewrite (strstr_grow _ d _ e); [|by rewrite Hc|done]. destruct (finish_param_on t d ts e Ha Hs Ee) as (-> & H2 & H3).
      destruct (openai_tool_finish_param ts t _) as [ts2 evs2]. injection E as <- <-. split; [done|]. split; [done|]. intros _. exact H3.
    + by destruct (parse_pos ts <? _)%nat.
  - done.
  - done.
Qed.

Lemma runs_turn (t : bytes) (a b : openai_tool_stream) (calls : list client_call) (c : config) :
  tool_stream_turn known a t = tool_stream_turn known b t -> ~ waiting t a -> ~ waiting t b ->
  stream_runs t (a, calls) c -> stream_runs t (b, calls) c.
Proof.
  intros E Ha Hb Hr. inversion Hr as [ts ts' evs calls' Hw Ht|c0 n Hw Hsafe|ts ts1 evs calls' c' Ht Hgo]; subst.
  - apply stream_stop; [done|]. by rewrite <- E.
  - done.
  - eapply stream_go; [|exact Hgo]. by rewrite <- E.
Qed.

(** An inactive stream stays as it is. *)
Lemma runs_inactive (t : bytes) (ts : openai_tool_stream) (calls : list client_call) (c : config) : ts_active ts = false ->
  stream_runs t (ts, calls) c -> c = (ts, calls).
Proof.
  intros Ha Hr. assert (Ht : tool_stream_turn known ts t = (ts, [], false)) by (unfold tool_stream_turn; by rewrite Ha).
  inversion Hr as [ts0 ts' evs calls' Hw E|c0 n [Hw _] Hsafe|ts0 ts1 evs calls' c' E Hgo]; subst.
  - rewrite Ht in E. by simplify_eq.
  - cbn in Hw. congruence.
  - rewrite Ht in E. by simplify_eq.
Qed.

Definition between (st : dsml_tool_stream_state) : bool :=
  match st with DSML_TOOL_BETWEEN_INVOKES | DSML_TOOL_BETWEEN_PARAMS => true | _ => false end.

Lemma between_not_waiting (t : bytes) (ts : openai_tool_stream) : between (ts_state ts) = true -> ~ waiting t ts.
Proof. intros Hb (_ & Hw & _). by rewrite Hw in Hb. Qed.

Lemma skip_spaces_end (t : bytes) (p : nat) : (length t <= p)%nat -> skip_spaces t p = p.
Proof. intros Hp. unfold skip_spaces. rewrite drop_ge by done. simpl. lia. Qed.

Lemma stream_again (t d : bytes) (ts : openai_tool_stream) : ts_active ts = true -> between (ts_state ts) = true ->
  (parse_pos ts < length t)%nat ->
  tool_stream_turn known (ts <| parse_pos := skip_spaces t (parse_pos ts) |>) (t ++ d) = tool_stream_turn known ts (t ++ d).
Proof.
  intros Ha Hb Hp. pose proof (skip_spaces_range t (parse_pos ts) ltac:(lia)) as Hr.
  pose proof (skip_spaces_again t d (parse_pos ts) ltac:(lia)) as Hs.
  destruct ts as [st syn pos i act em ao fp ps ids]. cbn in *. subst act. unfold tool_stream_turn. cbn.
  rewrite (proj2 (Nat.leb_gt (length (t ++ d)) pos)) by (rewrite length_app; lia). revert Hs Hr. set (p := skip_spaces t pos). intros Hs Hr.
  destruct (Nat.leb_spec (length (t ++ d)) p) as [Hl|Hl].
  - rewrite (skip_spaces_end (t ++ d) p Hl) in Hs. rewrite <- Hs. rewrite (proj2 (Nat.leb_le _ _) Hl). by destruct st.
  - rewrite Hs. by destruct st.
Qed.

Lemma stream_stop_same (t d : bytes) (ts ts1 : openai_tool_stream) (evs : list openai_event) (calls : list client_call) (c2 : config) :
  streams t ts -> ~ waiting t ts -> tool_stream_turn known ts t = (ts1, evs, false) ->
  stream_runs (t ++ d) (ts1, foldl deliver calls evs) c2 -> stream_runs (t ++ d) (ts, calls) c2.
Proof.
  intros Hs Hw E Hr. unfold tool_stream_turn in E. destruct (ts_active ts) eqn:Ha; [|cbn in E; by simplify_eq]. cbn [negb orb] in E.
  destruct (Hs Ha) as [Hsyn Hpos]. destruct (Nat.leb_spec (length t) (parse_pos ts)) as [|Hlt]; [by simplify_eq|].
  pose proof (skip_spaces_range t (parse_pos ts) Hpos) as Hrange.
  assert (Hagain : between (ts_state ts) = true ->
    stream_runs (t ++ d) (ts <| parse_pos := skip_spaces t (parse_pos ts) |>, calls) c2 -> stream_runs (t ++ d) (ts, calls) c2).
  { intros Hb. apply runs_turn; [by apply stream_again|by apply between_not_waiting..]. }
  set (p := skip_spaces t (parse_pos ts)) in *. cbv zeta in *. change (parse_pos (ts <| parse_pos := p |>)) with p in *.
  assert (Hlen : (length (t ++ d) <=? parse_pos ts)%nat = false) by (apply Nat.leb_gt; rewrite length_app; lia).
  assert (Hfit : (p < length t)%nat -> skip_spaces (t ++ d) (parse_pos ts) = p /\ (length (t ++ d) <=? p)%nat = false).
  { intros Hp. split; [by apply skip_spaces_grow|]. apply Nat.leb_gt. rewrite length_app. lia. }
  assert (Hsame : forall ts', ts_active ts' = false -> between (ts_state ts) = true -> tool_stream_turn known ts (t ++ d) = (ts', [], false) ->
    stream_runs (t ++ d) (ts', calls) c2 -> stream_runs (t ++ d) (ts, calls) c2).
  { intros ts' Hi Hb Ht ->%(runs_inactive _ _ _ _ Hi). apply (stream_stop _ _ _ [] _ (between_not_waiting _ _ Hb) Ht). }
  destruct (ts_state ts) eqn:Hst; cbn [between] in *.
  - destruct (Nat.leb_spec (length t) p) as [|Hp]; [simplify_eq; by apply Hagain|]. destruct (Hfit Hp) as [Hsk Hlp].
    destruct (raw_full_lit t p (tool_calls_end (stream_syn ts))) eqn:E1.
    { injection E as <- <-. refine (Hsame _ _ eq_refl _ Hr); [done|]. unfold tool_stream_turn. rewrite Ha, Hlen, Hst, Hsk. cbn [negb orb].
      change (parse_pos (ts <| parse_pos := p |>)) with p. rewrite Hlp.
      pose proof (full_grow t d _ p (tag_lit _ 0%nat Hsyn ltac:(lia)) E1) as [Hf _]. cbn [nth tags] in Hf. by rewrite Hf. }
    destruct (raw_partial_any t p (tool_calls_end (stream_syn ts)) (invoke_start (stream_syn ts))) eqn:E2; [simplify_eq; by apply Hagain|].
    destruct (raw_full_lit t p (invoke_start (stream_syn ts))) eqn:E3.
    { destruct (openai_tool_start_invoke known _ t) as [[ts2 evs2]|]; [done|]. simplify_eq. by apply Hagain. }
    injection E as <- <-. refine (Hsame _ _ eq_refl _ Hr); [done|]. unfold tool_stream_turn. rewrite Ha, Hlen, Hst, Hsk. cbn [negb orb].
    change (parse_pos (ts <| parse_pos := p |>)) with p. rewrite Hlp.
    destruct (neither_any t d _ _ p ltac:(lia) E1 E2) as [-> ->]. apply orb_false_iff in E2 as [_ E2].
    by destruct (neither_grow t d _ p ltac:(lia) E3 E2) as [-> _].
  - destruct (Nat.leb_spec (length t) p) as [|Hp]; [simplify_eq; by apply Hagain|]. destruct (Hfit Hp) as [Hsk Hlp].
    destruct (raw_full_lit t p (invoke_end (stream_syn ts))) eqn:E1; [done|].
    destruct (raw_partial_any t p (invoke_end (stream_syn ts)) (param_start (stream_syn ts))) eqn:E2; [simplify_eq; by apply Hagain|].
    destruct (raw_full_lit t p (param_start (stream_syn ts))) eqn:E3.
    { destruct (openai_tool_start_param _ t) as [[ts2 evs2]|]; [done|]. simplify_eq. by apply Hagain. }
    injection E as <- <-. refine (Hsame _ _ eq_refl _ Hr); [done|]. unfold tool_stream_turn. rewrite Ha, Hlen, Hst, Hsk. cbn [negb orb].
    change (parse_pos (ts <| parse_pos := p |>)) with p. rewrite Hlp.
    destruct (neither_any t d _ _ p ltac:(lia) E1 E2) as [-> ->]. apply orb_false_iff in E2 as [_ E2].
    by destruct (neither_grow t d _ p ltac:(lia) E3 E2) as [-> _].
  - unfold find_lit_bounded in E. destruct (strstr_pos _ _) eqn:Ee; [done|]. by destruct Hw.
  - by simplify_eq.
  - by simplify_eq.
Qed.

Lemma slice_split (t d : bytes) (p n m : nat) : (p <= n <= length t)%nat -> (n <= m)%nat ->
  take (m - p) (drop p (t ++ d)) = take (n - p) (drop p t) ++ take (m - n) (drop n (t ++ d)).
Proof.
  intros Hp Hm. replace (m - p)%nat with ((n - p) + (m - n))%nat by lia. rewrite <- take_take_drop, drop_drop.
  replace (p + (n - p))%nat with n by lia. f_equal. rewrite drop_grow, take_app_le by (rewrite ?length_drop; lia). done.
Qed.

Lemma value_split (t d : bytes) (ts : openai_tool_stream) (n m : nat) : safe_for t ts n -> (n <= m <= length (t ++ d))%nat ->
  value_text (param_is_string ts) (take (m - parse_pos ts) (drop (parse_pos ts) (t ++ d))) =
  value_text (param_is_string ts) (take (n - parse_pos ts) (drop (parse_pos ts) t)) ++
  value_text (param_is_string ts) (take (m - n) (drop n (t ++ d))).
Proof.
  intros (Hr & _ & He) Hm. rewrite (slice_split t d (parse_pos ts) n m) by lia. apply value_text_split.
  intros Hstr amp b k Ha Hent. rewrite length_take, length_drop in *.
  rewrite <- (slice_split t d) in Hent by lia. rewrite skipn_firstn_comm, drop_drop in Hent.
  apply (entity_grow _ (drop (m - parse_pos ts - amp) (drop (parse_pos ts + amp) (t ++ d)))) in Hent. rewrite take_drop in Hent.
  specialize (He Hstr d (parse_pos ts + amp)%nat b k ltac:(lia) Hent). lia.
Qed.

Lemma deliver_finish (ts : openai_tool_stream) (raw : bytes) (e : nat) (calls : list client_call) : (parse_pos ts <= e)%nat ->
  foldl deliver calls (snd (openai_tool_finish_param ts raw e)) =
  add_args (ts_index ts) (if param_is_string ts then [QUOTE] else [])
    (add_args (ts_index ts) (value_text (param_is_string ts) (take (e - parse_pos ts) (drop (parse_pos ts) raw))) calls).
Proof.
  intros Hp. unfold openai_tool_finish_param. cbn [snd]. rewrite foldl_app.
  assert (Hv : foldl deliver calls (if (parse_pos ts <? e)%nat then emit_value ts (take (e - parse_pos ts) (drop (parse_pos ts) raw)) else []) =
    add_args (ts_index ts) (value_text (param_is_string ts) (take (e - parse_pos ts) (drop (parse_pos ts) raw))) calls).
  { destruct (Nat.ltb_spec (parse_pos ts) e); [apply deliver_value|]. replace (e - parse_pos ts)%nat with 0%nat by lia.
    rewrite take_0. replace (value_text (param_is_string ts) []) with (@nil byte) by (by destruct (param_is_string ts)).
    by rewrite add_args_nil. }
  rewrite Hv. destruct (param_is_string ts); [apply deliver_fragment|by rewrite add_args_nil].
Qed.

(** The closing tag seen from a safe place. *)
Lemma close_from (t d : bytes) (ts : openai_tool_stream) (n : nat) : waiting t ts -> safe_for t ts n ->
  strstr_pos (drop (parse_pos ts) (t ++ d)) (param_end (stream_syn ts)) =
  match strstr_pos (drop n (t ++ d)) (param_end (stream_syn ts)) with Some e => Some (n - parse_pos ts + e)%nat | None => None end.
Proof.
  intros _ (Hr & Hc & _). destruct (strstr_pos (drop n (t ++ d)) _) as [e|] eqn:E.
  - apply strstr_pos_some in E as [H1 H2]. rewrite drop_drop in H1. apply strstr_here.
    + rewrite drop_drop. by replace (parse_pos ts + (n - parse_pos ts + e))%nat with (n + e)%nat by lia.
    + intros j Hj. apply not_true_iff_false. intros Hx. rewrite drop_drop in Hx. pose proof (Hc d (parse_pos ts + j)%nat ltac:(lia) Hx) as Hge.
      specialize (H2 (parse_pos ts + j - n)%nat ltac:(lia)). rewrite drop_drop in H2.
      replace (n + (parse_pos ts + j - n))%nat with (parse_pos ts + j)%nat in H2 by lia. congruence.
  - destruct (strstr_pos (drop (parse_pos ts) (t ++ d)) _) as [e|] eqn:E2; [|done]. exfalso.
    apply strstr_pos_some in E2 as [H1 _]. rewrite drop_drop in H1. pose proof (Hc d (parse_pos ts + e)%nat ltac:(lia) H1) as Hge.
    pose proof (strstr_pos_none _ _ E (parse_pos ts + e - n)%nat) as H2. rewrite drop_drop in H2.
    replace (n + (parse_pos ts + e - n))%nat with (parse_pos ts + e)%nat in H2 by lia. congruence.
Qed.

Lemma param_turn (t : bytes) (ts : openai_tool_stream) (e : nat) : ts_active ts = true -> ts_state ts = DSML_TOOL_PARAM_VALUE ->
  stream_syn ts ∈ dsml_syntaxes -> strstr_pos (drop (parse_pos ts) t) (param_end (stream_syn ts)) = Some e ->
  tool_stream_turn known ts t = (fst (openai_tool_finish_param ts t (parse_pos ts + e)), snd (openai_tool_finish_param ts t (parse_pos ts + e)), true).
Proof.
  intros Ha Hst Hsyn E. unfold tool_stream_turn, find_lit_bounded. rewrite Ha, Hst, E. cbn [negb orb].
  apply strstr_pos_some in E as [E _]. apply prefixb_length in E. rewrite !length_drop in E.
  destruct (close_of _ Hsyn) as (b & r & Hc). rewrite Hc in E. cbn [length] in E.
  by rewrite (proj2 (Nat.leb_gt _ _)) by lia.
Qed.

Lemma stream_wait_same (t d : bytes) (ts : openai_tool_stream) (n : nat) (calls : list client_call) (c2 : config) :
  streams t ts -> waiting t ts -> safe_for t ts n ->
  stream_runs (t ++ d) (advance t (ts, calls) n) c2 -> stream_runs (t ++ d) (ts, calls) c2.
Proof.
  intros Hs Hw Hsafe Hr. pose proof (close_from t d ts n Hw Hsafe) as Hclose. pose proof Hw as (Ha & Hst & Hpos & _).
  destruct (Hs Ha) as [Hsyn _]. pose proof Hsafe as ([Hp1 Hp2] & Hc & He). pose proof (length_app t d) as Hlen.
  unfold advance in Hr. cbn [fst snd] in Hr. set (tn := ts <| parse_pos := n |>) in *.
  destruct (strstr_pos (drop n (t ++ d)) (param_end (stream_syn ts))) as [e|] eqn:E.
  - pose proof (param_turn (t ++ d) tn e Ha Hst Hsyn E) as Ht.
    pose proof (param_turn (t ++ d) ts _ Ha Hst Hsyn Hclose) as Ht2.
    replace (parse_pos ts + (n - parse_pos ts + e))%nat with (n + e)%nat in Ht2 by lia. change (parse_pos tn) with n in Ht.
    assert (Hend : (n + e <= length (t ++ d))%nat).
    { clear Ht Ht2. apply strstr_pos_some in E as [E _]. apply prefixb_length in E. rewrite !length_drop in E.
      destruct (close_of _ Hsyn) as (b & r & Hcl). rewrite Hcl in E. cbn [length] in E. lia. }
    assert (Hgo : stream_runs (t ++ d) (fst (openai_tool_finish_param tn (t ++ d) (n + e)),
      foldl deliver (add_args (ts_index ts) (value_text (param_is_string ts) (take (n - parse_pos ts) (drop (parse_pos ts) t))) calls)
        (snd (openai_tool_finish_param tn (t ++ d) (n + e)))) c2).
    { inversion Hr as [ts0 ts' evs calls' Hw0 E0|c0 n0 [_ [_ [_ Hno]]] Hsafe0|ts0 ts1 evs calls' c' E0 Hgo]; subst.
      - rewrite Ht in E0. done.
      - change (strstr_pos (drop n (t ++ d)) (param_end (stream_syn ts)) = None) in Hno. congruence.
      - rewrite Ht in E0. injection E0 as <- <-. exact Hgo. }
    eapply stream_go; [exact Ht2|]. rewrite deliver_finish in Hgo |- * by (cbn; lia). cbn in Hgo.
    rewrite (value_split t d ts n (n + e) Hsafe) by lia. rewrite <- add_args_app. exact Hgo.
  - assert (Hwn : waiting (t ++ d) tn) by (split; [done|]; split; [done|]; split; [cbn; lia|done]).
    inversion Hr as [ts0 ts' evs calls' Hw0 E0|c0 m Hw0 Hsafe0|ts0 ts1 evs calls' c' E0 Hgo]; subst.
    + by destruct Hw0.
    + destruct Hsafe0 as ([Hm1 Hm2] & Hcm & Hem). cbn in Hm1, Hm2, Hcm, Hem.
      assert (Hsm : safe_for (t ++ d) ts m).
      { split; [lia|]. split.
        - intros d2 e2 H1 H2. destruct (Nat.le_gt_cases n e2); [by eapply Hcm|]. rewrite <- app_assoc in H2. specialize (Hc (d ++ d2) e2 H1 H2). lia.
        - intros Hstr d2 amp b k Hamp Hent. destruct (Nat.le_gt_cases n amp); [eapply Hem; [done| |exact Hent]; lia|].
          rewrite <- app_assoc in Hent. specialize (He Hstr (d ++ d2) amp b k ltac:(lia) Hent). lia. }
      assert (Hww : waiting (t ++ d) ts) by (split; [done|]; split; [done|]; split; [lia|done]).
      pose proof (stream_wait (t ++ d) (ts, calls) m Hww Hsm) as Hfin. revert Hfin. unfold advance. cbn [fst snd].
      rewrite (value_split t d ts n m Hsafe) by lia. rewrite <- add_args_app. by destruct ts.
    + exfalso. destruct (waiting_turn (t ++ d) tn [] (streams_grow t d tn (with_pos t ts n Hs Ha ltac:(lia))) Hwn) as (? & ? & Ht & _).
      rewrite Ht in E0. done.
Qed.

Lemma stop_streams (t : bytes) (ts ts1 : openai_tool_stream) (evs : list openai_event) : streams t ts ->
  tool_stream_turn known ts t = (ts1, evs, false) -> streams t ts1.
Proof.
  intros Hs E. destruct (waiting_dec t ts) as [Hw|Hw].
  { destruct (waiting_turn t ts [] Hs Hw) as (ts' & evs' & Ht & n & Hsafe & Ha). rewrite Ht in E. injection E as <- <-.
    injection Ha as Ha _. subst ts'. destruct Hsafe as [Hr _], Hw as (Hact & _). destruct (Hs Hact) as [Hsyn _].
    intros _. split; [exact Hsyn|]. cbn. lia. }
  unfold tool_stream_turn in E. destruct (ts_active ts) eqn:Ha; [|cbn in E; by simplify_eq]. cbn [negb orb] in E.
  destruct (Hs Ha) as [Hsyn Hpos]. destruct (Nat.leb_spec (length t) (parse_pos ts)) as [|Hlt]; [by simplify_eq|].
  pose proof (with_pos t ts _ Hs Ha (skip_spaces_range t (parse_pos ts) Hpos)) as Hs1.
  cbv zeta in *. set (tsp := ts <| parse_pos := skip_spaces t (parse_pos ts) |>) in *.
  destruct (ts_state ts) eqn:Hst; unfold find_lit_bounded in E;
    try (destruct (strstr_pos (drop (parse_pos ts) t) (param_end (stream_syn ts))) eqn:Ee; [|by destruct Hw]);
    repeat case_match; simplify_eq; try exact Hs1; try exact Hs; try (intros Hx; discriminate Hx).
Qed.

Lemma runs_streams (t : bytes) (c c' : config) : streams t (fst c) -> stream_runs t c c' -> streams t (fst c').
Proof.
  intros Hs Hr. induction Hr as [ts ts' evs calls Hw E|c n Hw Hsafe|ts ts1 evs calls c' E Hr IH]; cbn [fst] in *.
  - by eapply stop_streams.
  - destruct Hw as (Ha & _). destruct (Hs Ha) as [Hsyn _], Hsafe as [Hp _]. intros _. split; [exact Hsyn|]. cbn. lia.
  - apply IH. by apply (stream_turn_on t [] ts ts1 evs).
Qed.

Lemma runs_more (t d : bytes) (c c1 c2 : config) : streams t (fst c) ->
  stream_runs t c c1 -> stream_runs (t ++ d) c1 c2 -> stream_runs (t ++ d) c c2.
Proof.
  intros Hs Hr. revert Hs. induction Hr as [ts ts' evs calls Hw E|[ts calls] n Hw Hsafe|ts ts1 evs calls c' E Hr IH]; cbn [fst] in *; intros Hs H2.
  - by eapply stream_stop_same.
  - by eapply stream_wait_same.
  - destruct (stream_turn_on t d ts ts1 evs Hs E) as (H1 & H3 & _). eapply stream_go; [exact H1|]. by apply IH.
Qed.

Lemma stream_loop_runs (t : bytes) (fuel : nat) : forall ts calls, streams t ts ->
  (ts_active ts = true -> (length t < fuel + parse_pos ts)%nat) ->
  let r := tool_stream_loop fuel known ts t in stream_runs t (ts, calls) (fst r, foldl deliver calls (snd r)).
Proof.
  induction fuel as [|fuel IH]; intros ts calls Hs Hf; cbn [tool_stream_loop].
  - destruct (ts_active ts) eqn:Ha; [destruct (Hs Ha); specialize (Hf eq_refl); lia|]. apply (stream_stop t ts ts []).
    + intros (Hw & _). congruence.
    + unfold tool_stream_turn. by rewrite Ha.
  - destruct (tool_stream_turn known ts t) as [[ts1 evs] [|]] eqn:E.
    + destruct (stream_turn_on t [] ts ts1 evs Hs E) as (_ & H1 & H2).
      specialize (IH ts1 (foldl deliver calls evs) H1). destruct (tool_stream_loop fuel known ts1 t) as [ts2 more]. cbn [fst snd] in *.
      rewrite foldl_app. eapply stream_go; [exact E|]. apply IH. intros Ha. specialize (H2 Ha).
      destruct (ts_active ts) eqn:Ha0; [specialize (Hf eq_refl); lia|]. unfold tool_stream_turn in E. by rewrite Ha0 in E.
    + cbn [fst snd]. destruct (waiting_dec t ts) as [Hw|Hw]; [|by apply stream_stop].
      destruct (waiting_turn t ts calls Hs Hw) as (ts' & evs' & Ht & n & Hsafe & Ha). rewrite Ht in E. injection E as <- <-.
      rewrite Ha. by apply stream_wait.
Qed.

Lemma stream_update_runs (t : bytes) (ts : openai_tool_stream) (calls : list client_call) : streams t ts ->
  let r := openai_tool_stream_update known ts t in stream_runs t (ts, calls) (fst r, foldl deliver calls (snd r)).
Proof. intros Hs. apply stream_loop_runs; [done|]. intros Ha. destruct (Hs Ha). lia. Qed.

(** Outside of an unfinished value there is one way to run. *)
Lemma runs_only (t : bytes) (c a b : config) : streams t (fst c) -> stream_runs t c a -> stream_runs t c b ->
  ts_state (fst a) <> DSML_TOOL_PARAM_VALUE -> a = b.
Proof.
  intros Hs Ha. revert Hs b. induction Ha as [ts ts' evs calls Hw E|c n Hw Hsafe|ts ts1 evs calls c' E Hr IH]; intros Hs b Hb Hne; cbn [fst] in *.
  - inversion Hb as [ts0 ts0' evs0 calls0 Hw0 E0|c0 n Hw0 Hsafe0|ts0 ts1 evs0 calls0 c' E0 Hgo]; subst; [|done|].
    + rewrite E in E0. by injection E0 as <- <-.
    + rewrite E in E0. done.
  - destruct Hw as (_ & Hst & _). by destruct Hne.
  - destruct (stream_turn_on t [] ts ts1 evs Hs E) as (_ & Hs1 & _).
    inversion Hb as [ts0 ts0' evs0 calls0 Hw0 E0|c0 n Hw0 Hsafe0|ts0 ts2 evs0 calls0 c2 E0 Hgo]; subst.
    + rewrite E in E0. done.
    + destruct (waiting_turn t ts [] Hs Hw0) as (? & ? & Ht & _). cbn in Ht. rewrite E in Ht. done.
    + rewrite E in E0. injection E0 as <- <-. by apply IH.
Qed.

(** One update per piece, each on the text so far; the client takes the events
    in order. *)
Fixpoint stream_pieces (c : config) (raw : bytes) (pieces : list bytes) : config :=
  match pieces with
  | [] => c
  | p :: pieces' =>
      let r := openai_tool_stream_update known (fst c) (raw ++ p) in
      stream_pieces (fst r, foldl deliver (snd c) (snd r)) (raw ++ p) pieces'
  end.

Lemma stream_pieces_runs (pieces : list bytes) : forall raw c0 c, streams raw (fst c0) -> stream_runs raw c0 c ->
  stream_runs (raw ++ concat pieces) c0 (stream_pieces c raw pieces).
Proof.
  induction pieces as [|p ps IH]; intros raw c0 c Hs Hr; cbn [stream_pieces concat]; [by rewrite app_nil_r|].
  rewrite app_assoc. apply IH; [by apply streams_grow|]. eapply runs_more; [done..|].
  destruct c as [ts calls]. apply stream_update_runs, streams_grow. exact (runs_streams raw c0 _ Hs Hr).
Qed.
End Runs.
