(* ===== verification/OpenaiClient.v ===== *)
(** * The calls a streaming client ends up with

    A block of calls written by the renderer, streamed in any pieces, gives
    the client exactly the calls that were written: the names, and the compact
    JSON of the arguments, under ids of their own. *)
From S2P Require Import Prelude.
From S2P Require Import CNum.
From S2P Require Import CFloat.
From S2P Require Import ServerJson.
From S2P Require Import ServerJsonProps.
From S2P Require Import ServerStream.
From S2P Require Import ServerStreamProps.
From S2P Require Import ServerMsgs.
From S2P Require Import Dsml.
From S2P Require Import DsmlProps.
From S2P Require Import DsmlRoundtrip.
From S2P Require Import DsmlTrack.
From S2P Require Import DsmlTrackProps.
From S2P Require Import ToolMemory.
From S2P Require Import Chat.
From S2P Require Import OpenaiStream.
From S2P Require Import OpenaiStreamProps.
Open Scope Z_scope.

#[local] Arguments skip_spaces : simpl never.
#[local] Arguments tag_after : simpl never.
#[local] Arguments openai_tool_stream_id : simpl never.

(** ** Places in a text *)

Lemma place_fits (raw x : bytes) (pos : nat) : drop pos raw = x -> x <> [] -> (pos + length x = length raw)%nat.
Proof.
  intros E Hx. apply (f_equal length) in E. rewrite length_drop in E. destruct x; [done|]. simpl in *. lia.
Qed.

Lemma place_next (raw a b : bytes) (pos : nat) : drop pos raw = a ++ b -> drop (pos + length a) raw = b.
Proof. intros E. by rewrite <- drop_drop, E, drop_app_length. Qed.

(** One space in front of a tag. *)
Lemma skip_line (raw x : bytes) (pos : nat) : drop pos raw = LF :: x -> skip_space x = x -> skip_spaces raw pos = S pos.
Proof.
  intros E Hx. unfold skip_spaces. rewrite E. change (skip_space (LF :: x)) with (skip_space x). rewrite Hx. simpl. lia.
Qed.

Lemma tag_at (raw tag rest : bytes) (pos : nat) : drop pos raw = tag ++ x3e :: rest -> x3e ∉ tag -> NUL ∉ tag ->
  let after := S (pos + length tag) in
  tag_after raw pos = Some after /\ tag_text raw pos after = tag ++ [x3e] /\ drop after raw = rest.
Proof.
  intros E Ho Hn after. assert (Hd : drop after raw = rest).
  { replace after with (pos + length (tag ++ [x3e]))%nat by (rewrite length_app; subst after; simpl; lia).
    apply place_next. by rewrite E, <- app_assoc. }
  split; [|split; [|done]].
  - unfold tag_after. rewrite E, strchr_behind by done. done.
  - unfold tag_text. rewrite E. replace (after - pos)%nat with (length (tag ++ [x3e])) by (rewrite length_app; subst after; simpl; lia).
    replace (tag ++ x3e :: rest) with ((tag ++ [x3e]) ++ rest) by (by rewrite <- app_assoc).
    rewrite take_app_length. apply c_str_id. absent.
Qed.

Lemma not_partial (raw lit : bytes) (pos : nat) : str_prefixb (drop pos raw) lit = false -> raw_partial_lit raw pos lit = false.
Proof. intros E. unfold raw_partial_lit, raw_partial_lit_min. by rewrite E, andb_false_r. Qed.

Lemma not_partial_full (raw lit : bytes) (pos : nat) : raw_full_lit raw pos lit = true -> raw_partial_lit raw pos lit = false.
Proof.
  intros Hl%prefixb_length. rewrite length_drop in Hl. unfold raw_partial_lit, raw_partial_lit_min.
  rewrite (proj2 (Nat.ltb_ge _ _)) by done. by rewrite andb_false_r.
Qed.

(** ** Ids *)

Section Block.
Context `{ToolIds}.
Variable known : list bytes.

(** The ids of the stream are those of the client's calls, all different and
    unknown before. *)
Definition shown (ids : list (option bytes)) (calls : list client_call) : Prop :=
  (exists pad, ids = map (fun c => Some (cc_id c)) calls ++ replicate pad None) /\
  NoDup (map cc_id calls) /\ Forall (fun c => cc_id c <> [] /\ cc_id c ∉ known) calls.

Lemma some_ids_shown (calls : list client_call) : some_ids (map (fun c => Some (cc_id c)) calls) = map cc_id calls.
Proof. unfold some_ids. induction calls as [|c l IH]; [done|]. cbn. by f_equal. Qed.

Lemma grow_cap_enough (fuel : nat) : forall cap index, 0 < cap -> index < cap * 2 ^ Z.of_nat fuel -> index < grow_cap fuel cap index.
Proof.
  induction fuel as [|fuel IH]; intros cap index Hc Hi; cbn [grow_cap]; [simpl in Hi; lia|].
  destruct (Z.leb_spec cap index); [|lia]. apply IH; [lia|]. rewrite Nat2Z.inj_succ, Z.pow_succ_r in Hi by lia. lia.
Qed.

(** The next call gets an id of its own. *)
Lemma next_id (ts : openai_tool_stream) (calls : list client_call) : shown (ts_ids ts) calls ->
  Z.of_nat (length calls) < 2 ^ 31 ->
  exists ids id, openai_tool_stream_id known ts (Z.of_nat (length calls)) = (ts <| ts_ids := ids |>, id) /\
    forall name args, shown ids (calls ++ [ClientCall id name args]).
Proof.
  intros ([pad Hids] & Hnd & Hall) Hbound. unfold openai_tool_stream_id. rewrite (proj2 (Z.ltb_ge _ _)) by lia.
  set (i := Z.of_nat (length calls)). set (old := Z.of_nat (length (ts_ids ts))).
  set (ids := if old <=? i then _ else ts_ids ts).
  assert (exists pad', ids = map (fun c => Some (cc_id c)) calls ++ None :: replicate pad' None) as [pad' Hids'].
  { unfold ids. rewrite Hids, <- app_assoc.
    assert (Hold : old = i + Z.of_nat pad) by (unfold old, i; rewrite Hids, length_app, length_map, length_replicate; lia).
    destruct (Z.leb_spec old i) as [Hl|Hl].
    - assert (pad = 0%nat) as -> by lia. cbn [replicate app].
      assert (Hg : i < grow_cap 64 (if old =? 0 then 4 else old) i).
      { apply grow_cap_enough; destruct (Z.eqb_spec old 0); unfold i in *; lia. }
      destruct (Z.to_nat (grow_cap 64 (if old =? 0 then 4 else old) i - old)) as [|k] eqn:E; [lia|]. by exists k.
    - destruct pad as [|pad]; [lia|]. by exists pad. }
  assert (Hlen : Z.to_nat i = length (map (fun c => Some (cc_id c)) calls)) by (unfold i; rewrite length_map; lia).
  assert (ids !! Z.to_nat i = Some None) as ->.
  { rewrite Hids', Hlen, lookup_app_r, Nat.sub_diag by lia. done. }
  assert (take (Z.to_nat i) ids = map (fun c => Some (cc_id c)) calls) as -> by (rewrite Hids', Hlen; apply take_app_length).
  rewrite some_ids_shown. set (id := new_tool_id (map cc_id calls ++ known)).
  assert (Hfree : id ∉ map cc_id calls ++ known) by apply new_tool_id_free.
  do 2 eexists. split; [reflexivity|]. intros name args. split; [|split].
  - exists pad'. rewrite Hids', Hlen, insert_app_r_alt, Nat.sub_diag by lia. cbn. by rewrite map_app, <- app_assoc.
  - rewrite map_app. apply NoDup_app. split; [done|]. split.
    + intros x Hx Hin%list_elem_of_singleton. cbn in Hin. subst x. apply Hfree, elem_of_app. by left.
    + cbn. apply NoDup_singleton.
  - apply Forall_app. split; [done|]. constructor; [|done]. cbn. split; [apply new_tool_id_nonempty|].
    intros Hin. apply Hfree, elem_of_app. by right.
Qed.

Lemma shown_args (ids : list (option bytes)) (calls : list client_call) (id name a b : bytes) :
  shown ids (calls ++ [ClientCall id name a]) -> shown ids (calls ++ [ClientCall id name b]).
Proof.
  intros (H1 & H2 & H3). unfold shown. rewrite !map_app in *. split; [done|]. split; [done|].
  rewrite Forall_app in *. destruct H3 as [H3 H4]. split; [done|]. inversion H4; subst. constructor; [done|constructor].
Qed.

Lemma add_args_last (calls : list client_call) (id name a s : bytes) :
  add_args (Z.of_nat (length calls)) s (calls ++ [ClientCall id name a]) = calls ++ [ClientCall id name (a ++ s)].
Proof. unfold add_args. rewrite Nat2Z.id, alter_app_r_alt, Nat.sub_diag by lia. done. Qed.

(** ** The turns over a block *)

Lemma attr_no_nul (k : bytes) : NUL ∉ k -> NUL ∉ append_dsml_attr_escaped (Some k).
Proof.
  change (append_dsml_attr_escaped (Some k)) with (concat (map attr_byte k)).
  induction k as [|c k IH]; intros Hn; [by intros ?%elem_of_nil|]. cbn [map concat]. apply absent_app.
  - unfold attr_byte. repeat match goal with |- context [Byte.eqb c ?x] => destruct (Byte.eqb c x) end;
      try (by apply (bool_decide_unpack _)). intros Hc%list_elem_of_singleton. apply Hn. rewrite Hc. left.
  - apply IH. intros Hi. apply Hn. by right.
Qed.

Lemma invoke_tag_no_nul (name : bytes) : NUL ∉ name -> NUL ∉ invoke_tag name.
Proof. intros Hn%attr_no_nul. unfold invoke_tag. absent. Qed.

Lemma arg_tag_no_nul (a : json_arg) : NUL ∉ arg_key a -> NUL ∉ arg_tag a.
Proof. intros Hn%attr_no_nul. unfold arg_tag. destruct (arg_is_string a); absent. Qed.

Definition at_invokes (pos : nat) (i : Z) (em ao fp ps : bool) (ids : list (option bytes)) : openai_tool_stream :=
  ToolStream DSML_TOOL_BETWEEN_INVOKES (Some syntax_full) pos i true em ao fp ps ids.
Definition at_params (pos : nat) (i : Z) (fp ps : bool) (ids : list (option bytes)) : openai_tool_stream :=
  ToolStream DSML_TOOL_BETWEEN_PARAMS (Some syntax_full) pos i true true true fp ps ids.

Lemma run_invoke (raw rest name : bytes) (pos : nat) (em ao fp ps : bool) (ids : list (option bytes)) (calls : list client_call) :
  drop pos raw = LF :: invoke_tag name ++ x3e :: rest -> NUL ∉ name -> shown ids calls -> Z.of_nat (length calls) < 2 ^ 31 ->
  exists ids' id pos', drop pos' raw = rest /\ (forall name args, shown ids' (calls ++ [ClientCall id name args])) /\
    forall c,
      stream_runs known raw (at_params pos' (Z.of_nat (length calls)) true ps ids', calls ++ [ClientCall id name (B "{")]) c ->
      stream_runs known raw (at_invokes pos (Z.of_nat (length calls)) em ao fp ps ids, calls) c.
Proof.
  intros E Hn Hs Hb. pose proof (place_fits _ _ _ E ltac:(done)) as Hfit. cbn [length] in Hfit. rewrite length_app in Hfit. cbn [length] in Hfit.
  pose proof (place_next raw [LF] _ pos E) as E1. cbn [length] in E1. replace (pos + 1)%nat with (S pos) in E1 by lia.
  destruct (tag_at raw (invoke_tag name) rest (S pos) E1 (invoke_tag_open name) (invoke_tag_no_nul name Hn)) as (Ha & Ht & Hd).
  destruct (next_id (at_invokes (S pos) (Z.of_nat (length calls)) em ao fp ps ids) calls Hs Hb) as (ids' & id & Hid & Hshown).
  exists ids', id, (S (S pos + length (invoke_tag name))). split; [done|]. split; [done|]. intros c Hr.
  refine (stream_go known raw _ _ [ToolCallStart (Z.of_nat (length calls)) id name; ToolCallArgs (Z.of_nat (length calls)) (B "{")] calls c _ _).
  - unfold tool_stream_turn, at_invokes. cbn [ts_active negb orb ts_state parse_pos].
    rewrite (proj2 (Nat.leb_gt _ _)) by lia. rewrite (skip_line raw _ pos E ltac:(done)).
    change ((ToolStream DSML_TOOL_BETWEEN_INVOKES (Some syntax_full) pos ?i true em ao fp ps ids) <| parse_pos := S pos |>)
      with (at_invokes (S pos) i em ao fp ps ids). cbv zeta. change (parse_pos (at_invokes (S pos) _ em ao fp ps ids)) with (S pos).
    rewrite (proj2 (Nat.leb_gt _ _)) by lia.
    assert (Hinv : raw_full_lit raw (S pos) (invoke_start syntax_full) = true).
    { unfold raw_full_lit. rewrite E1. unfold invoke_tag. rewrite <- !app_assoc. apply prefixb_app. }
    assert (Hend : raw_full_lit raw (S pos) (tool_calls_end syntax_full) = false) by (unfold raw_full_lit; by rewrite E1).
    assert (Hp : raw_partial_any raw (S pos) (tool_calls_end syntax_full) (invoke_start syntax_full) = false).
    { unfold raw_partial_any. rewrite (not_partial_full _ _ _ Hinv). rewrite not_partial; [done|]. by rewrite E1. }
    change (stream_syn _) with syntax_full. rewrite Hend, Hp, Hinv. unfold openai_tool_start_invoke.
    change (parse_pos (at_invokes (S pos) _ em ao fp ps ids)) with (S pos). rewrite Ha, Ht, invoke_name.
    change (ts_index (at_invokes (S pos) ?i em ao fp ps ids)) with i. rewrite Hid. reflexivity.
  - cbn [foldl deliver]. by rewrite add_args_last.
Qed.

Lemma body_no_end (a : json_arg) : strstr_pos (arg_body a) DS4_PARAM_END = None.
Proof.
  unfold arg_body. destruct (arg_is_string a).
  - apply (protect_no_end _ text_repl). by apply (bool_decide_unpack _).
  - apply (protect_no_end _ literal_repl). by apply (bool_decide_unpack _).
Qed.

(** What is sent of a parameter is its member. *)
Lemma param_sent (kv : bytes * jvalue) : param_ok kv = true ->
  let a := arg_of kv in
  let q := if arg_is_string a then [QUOTE] else [] in
  json_escape (arg_key a) ++ B ":" ++ q ++ value_text (arg_is_string a) (arg_body a) ++ q = member_text [] kv.
Proof.
  intros [_ Hv]%andb_true_iff. destruct kv as [k v]. unfold member_text. cbn [fst snd] in *. cbv zeta.
  assert (Hlit : match strstr_pos (print_json v) DS4_PARAM_END with None => true | _ => false end = true ->
    json_escape k ++ B ":" ++ append_dsml_json_literal (Some (print_json v)) = json_escape k ++ x3a :: print_json v).
  { intros Hp. destruct (strstr_pos (print_json v) DS4_PARAM_END) eqn:E; [done|].
    unfold append_dsml_json_literal. change (default [] (Some ?x)) with x. by rewrite protect_id. }
  destruct v; try (unfold arg_of, value_text, arg_body; cbn [arg_is_string arg_value arg_key snd fst app]; rewrite app_nil_r; by apply Hlit).
  unfold arg_of, value_text, arg_body, append_dsml_parameter_text, dsml_unescape_text. cbn [arg_is_string arg_value arg_key snd fst].
  unfold default, id. rewrite unescape_protect by done. done.
Qed.

Definition comma (fp : bool) : bytes := if fp then [] else B ",".

Definition at_value (pos : nat) (i : Z) (ps : bool) (ids : list (option bytes)) : openai_tool_stream :=
  ToolStream DSML_TOOL_PARAM_VALUE (Some syntax_full) pos i true true true false ps ids.

Lemma run_param_tag (raw rest : bytes) (a : json_arg) (pos : nat) (i : Z) (fp ps : bool) (ids : list (option bytes)) (calls : list client_call) :
  drop pos raw = LF :: arg_tag a ++ x3e :: rest -> NUL ∉ arg_key a -> ~ B "string=" `suffix_of` arg_key a ->
  exists pos', drop pos' raw = rest /\ forall c,
    stream_runs known raw (at_value pos' i (arg_is_string a) ids,
      add_args i (comma fp ++ json_escape (arg_key a) ++ B ":" ++ (if arg_is_string a then [QUOTE] else [])) calls) c ->
    stream_runs known raw (at_params pos i fp ps ids, calls) c.
Proof.
  intros E Hn Hk. pose proof (place_fits _ _ _ E ltac:(done)) as Hfit. cbn [length] in Hfit. rewrite length_app in Hfit. cbn [length] in Hfit.
  pose proof (place_next raw [LF] _ pos E) as E1. cbn [length] in E1. replace (pos + 1)%nat with (S pos) in E1 by lia.
  destruct (tag_at raw (arg_tag a) rest (S pos) E1 (arg_tag_open a) (arg_tag_no_nul a Hn)) as (Ha & Ht & Hd).
  exists (S (S pos + length (arg_tag a))). split; [done|]. intros c Hr.
  eapply (stream_go known raw (at_params pos i fp ps ids)).
  - unfold tool_stream_turn, at_params. cbn [ts_active negb orb ts_state parse_pos].
    rewrite (proj2 (Nat.leb_gt _ _)) by lia. rewrite (skip_line raw _ pos E ltac:(done)).
    change ((ToolStream DSML_TOOL_BETWEEN_PARAMS (Some syntax_full) pos i true true true fp ps ids) <| parse_pos := S pos |>)
      with (at_params (S pos) i fp ps ids). cbv zeta. change (parse_pos (at_params (S pos) _ fp ps ids)) with (S pos).
    rewrite (proj2 (Nat.leb_gt _ _)) by lia.
    assert (Hpar : raw_full_lit raw (S pos) (param_start syntax_full) = true).
    { unfold raw_full_lit. rewrite E1. unfold arg_tag. rewrite <- !app_assoc. apply prefixb_app. }
    assert (Hend : raw_full_lit raw (S pos) (invoke_end syntax_full) = false) by (unfold raw_full_lit; by rewrite E1).
    assert (Hp : raw_partial_any raw (S pos) (invoke_end syntax_full) (param_start syntax_full) = false).
    { unfold raw_partial_any. rewrite (not_partial_full _ _ _ Hpar). rewrite not_partial; [done|]. by rewrite E1. }
    change (stream_syn _) with syntax_full. rewrite Hend, Hp, Hpar. unfold openai_tool_start_param.
    change (parse_pos (at_params (S pos) _ fp ps ids)) with (S pos). rewrite Ha, Ht, tag_name, tag_string by done. reflexivity.
  - assert (Hs : str_eqb (B (if arg_is_string a then "true" else "false")) (B "true") = arg_is_string a) by (by destruct (arg_is_string a)).
    rewrite Hs. unfold openai_tool_emit_param_prefix. rewrite deliver_fragment.
    by destruct fp.
Qed.

Lemma run_value (raw rest : bytes) (a : json_arg) (pos : nat) (i : Z) (ids : list (option bytes)) (calls : list client_call) :
  drop pos raw = arg_body a ++ DS4_PARAM_END ++ rest ->
  exists pos', drop pos' raw = rest /\ forall c,
    stream_runs known raw (at_params pos' i false (arg_is_string a) ids,
      add_args i (value_text (arg_is_string a) (arg_body a) ++ (if arg_is_string a then [QUOTE] else [])) calls) c ->
    stream_runs known raw (at_value pos i (arg_is_string a) ids, calls) c.
Proof.
  intros E. exists (pos + length (arg_body a) + length DS4_PARAM_END)%nat. split.
  { apply place_next. by apply place_next. }
  intros c Hr. set (ts := at_value pos i (arg_is_string a) ids).
  assert (Hc : strstr_pos (drop (parse_pos ts) raw) (param_end (stream_syn ts)) = Some (length (arg_body a))).
  { cbn [ts at_value parse_pos]. rewrite E. apply strstr_border; [done|apply body_no_end]. }
  eapply stream_go; [apply (param_turn known raw ts _ eq_refl eq_refl ltac:(left) Hc)|].
  rewrite deliver_finish by lia. replace (parse_pos ts + length (arg_body a) - parse_pos ts)%nat with (length (arg_body a)) by lia.
  rewrite add_args_app. cbn [ts at_value parse_pos]. rewrite E, take_app_length. exact Hr.
Qed.

(** One parameter, from line to line. *)
Lemma run_param (raw rest : bytes) (kv : bytes * jvalue) (pos : nat) (i : Z) (fp ps : bool) (ids : list (option bytes)) (calls : list client_call) :
  drop pos raw = LF :: append_dsml_arg (arg_of kv) ++ rest -> param_ok kv = true ->
  exists pos' ps', drop pos' raw = LF :: rest /\ forall c,
    stream_runs known raw (at_params pos' i false ps' ids, add_args i (comma fp ++ member_text [] kv) calls) c ->
    stream_runs known raw (at_params pos i fp ps ids, calls) c.
Proof.
  intros E Hok. pose proof (param_sent kv Hok) as Hsent. cbv zeta in Hsent.
  unfold param_ok in Hok. apply andb_true_iff in Hok as [Hok _]. apply andb_true_iff in Hok as [Hm Hk]. apply bool_decide_eq_true in Hk.
  unfold member_ok in Hm. apply andb_true_iff in Hm as [Hn _]. apply bool_decide_eq_true in Hn.
  assert (Ek : arg_key (arg_of kv) = fst kv) by (unfold arg_of; by destruct (snd kv)).
  set (a := arg_of kv) in *. rewrite append_arg_tag in E. rewrite <- Ek in Hn, Hk.
  destruct (run_param_tag raw _ a pos i fp ps ids calls E Hn Hk) as (p1 & Hp1 & H1).
  destruct (run_value raw _ a p1 i ids
    (add_args i (comma fp ++ json_escape (arg_key a) ++ B ":" ++ (if arg_is_string a then [QUOTE] else [])) calls) Hp1) as (p2 & Hp2 & H2).
  exists p2, (arg_is_string a). split; [done|]. intros c Hr. apply H1, H2. rewrite add_args_app. rewrite <- Hsent in Hr.
  rewrite <- !app_assoc. exact Hr.
Qed.

Lemma members_text_cons (kv : bytes * jvalue) (ms : list (bytes * jvalue)) :
  members_text [] (kv :: ms) = member_text [] kv ++ match ms with [] => [] | _ => B "," ++ members_text [] ms end.
Proof. by destruct ms. Qed.

Lemma run_params (raw rest : bytes) (ms : list (bytes * jvalue)) (i : Z) (ids : list (option bytes)) : forall pos fp ps calls,
  drop pos raw = LF :: concat (map append_dsml_arg (map arg_of ms)) ++ rest -> forallb param_ok ms = true ->
  exists pos' fp' ps', drop pos' raw = LF :: rest /\ forall c,
    stream_runs known raw (at_params pos' i fp' ps' ids,
      add_args i (match ms with [] => [] | _ => comma fp ++ members_text [] ms end) calls) c ->
    stream_runs known raw (at_params pos i fp ps ids, calls) c.
Proof.
  induction ms as [|kv ms IH]; intros pos fp ps calls E Hok.
  - exists pos, fp, ps. split; [done|]. intros c. by rewrite add_args_nil.
  - cbn [forallb] in Hok. apply andb_true_iff in Hok as [Hkv Hok]. cbn [map concat] in E. rewrite <- app_assoc in E.
    destruct (run_param raw _ kv pos i fp ps ids calls E Hkv) as (p1 & ps1 & Hp1 & H1).
    destruct (IH p1 false ps1 (add_args i (comma fp ++ member_text [] kv) calls) Hp1 Hok) as (p2 & fp2 & ps2 & Hp2 & H2).
    exists p2, fp2, ps2. split; [done|]. intros c Hr. apply H1, H2. rewrite add_args_app. rewrite members_text_cons in Hr.
    rewrite <- app_assoc. by destruct ms.
Qed.

Lemma run_invoke_end (raw rest : bytes) (pos : nat) (i : Z) (fp ps : bool) (ids : list (option bytes)) (calls : list client_call) :
  drop pos raw = LF :: DS4_INVOKE_END ++ rest ->
  exists pos', drop pos' raw = rest /\ forall c,
    stream_runs known raw (at_invokes pos' (i + 1) true false fp ps ids, add_args i (B "}") calls) c ->
    stream_runs known raw (at_params pos i fp ps ids, calls) c.
Proof.
  intros E. pose proof (place_fits _ _ _ E ltac:(done)) as Hfit. cbn [length] in Hfit. rewrite length_app in Hfit.
  pose proof (place_next raw [LF] _ pos E) as E1. cbn [length] in E1. replace (pos + 1)%nat with (S pos) in E1 by lia.
  exists (S pos + length DS4_INVOKE_END)%nat. split; [by apply place_next|]. intros c Hr.
  assert (0 < length DS4_INVOKE_END)%nat by (vm_compute; lia).
  refine (stream_go known raw (at_params pos i fp ps ids) (at_invokes (S pos + length DS4_INVOKE_END) (i + 1) true false fp ps ids)
    [ToolCallArgs i (B "}")] calls c _ Hr).
  unfold tool_stream_turn, at_params. cbn [ts_active negb orb ts_state parse_pos].
  rewrite (proj2 (Nat.leb_gt _ _)) by lia. rewrite (skip_line raw _ pos E ltac:(done)).
  change ((ToolStream DSML_TOOL_BETWEEN_PARAMS (Some syntax_full) pos i true true true fp ps ids) <| parse_pos := S pos |>)
    with (at_params (S pos) i fp ps ids). cbv zeta. change (parse_pos (at_params (S pos) _ fp ps ids)) with (S pos).
  rewrite (proj2 (Nat.leb_gt _ _)) by lia. change (stream_syn _) with syntax_full.
  assert (Hend : raw_full_lit raw (S pos) (invoke_end syntax_full) = true) by (unfold raw_full_lit; rewrite E1; apply prefixb_app).
  rewrite Hend. reflexivity.
Qed.

Lemma run_block_end (raw rest : bytes) (pos : nat) (i : Z) (em ao fp ps : bool) (ids : list (option bytes)) (calls : list client_call) :
  drop pos raw = LF :: DS4_TOOL_CALLS_END ++ rest ->
  stream_runs known raw (at_invokes pos i em ao fp ps ids, calls)
    (ToolStream DSML_TOOL_DONE (Some syntax_full) (S pos + length DS4_TOOL_CALLS_END) i false em ao fp ps ids, calls).
Proof.
  intros E. pose proof (place_fits _ _ _ E ltac:(done)) as Hfit. cbn [length] in Hfit. rewrite length_app in Hfit.
  pose proof (place_next raw [LF] _ pos E) as E1. cbn [length] in E1. replace (pos + 1)%nat with (S pos) in E1 by lia.
  assert (0 < length DS4_TOOL_CALLS_END)%nat by (vm_compute; lia).
  apply (stream_stop known raw (at_invokes pos i em ao fp ps ids) _ [] calls); [by apply between_not_waiting|].
  unfold tool_stream_turn, at_invokes. cbn [ts_active negb orb ts_state parse_pos].
  rewrite (proj2 (Nat.leb_gt _ _)) by lia. rewrite (skip_line raw _ pos E ltac:(done)).
  change ((ToolStream DSML_TOOL_BETWEEN_INVOKES (Some syntax_full) pos ?i true em ao fp ps ids) <| parse_pos := S pos |>)
    with (at_invokes (S pos) i em ao fp ps ids). cbv zeta. change (parse_pos (at_invokes (S pos) _ em ao fp ps ids)) with (S pos).
  rewrite (proj2 (Nat.leb_gt _ _)) by lia. change (stream_syn _) with syntax_full.
  assert (Hend : raw_full_lit raw (S pos) (tool_calls_end syntax_full) = true) by (unfold raw_full_lit; rewrite E1; apply prefixb_app).
  rewrite Hend. reflexivity.
Qed.

(** A call of the client and the call it was written from. *)
Definition same_call (c : option bytes * bytes * list (bytes * jvalue)) (cc : client_call) : Prop :=
  cc_name cc = snd (fst c) /\ cc_args cc = print_json (JObj (snd c)).

Definition stream_call_ok (c : option bytes * bytes * list (bytes * jvalue)) : bool :=
  call_ok c && bool_decide (NUL ∉ snd (fst c)).

Lemma run_call (raw rest name : bytes) (id0 : option bytes) (ms : list (bytes * jvalue)) (pos : nat) (em ao fp ps : bool)
    (ids : list (option bytes)) (calls : list client_call) :
  drop pos raw = LF :: call_text name ms ++ rest -> stream_call_ok (id0, name, ms) = true ->
  shown ids calls -> Z.of_nat (length calls) < 2 ^ 31 ->
  exists pos' fp' ps' ids' cc, drop pos' raw = LF :: rest /\ shown ids' (calls ++ [cc]) /\ same_call (id0, name, ms) cc /\
    forall c,
      stream_runs known raw (at_invokes pos' (Z.of_nat (length (calls ++ [cc]))) true false fp' ps' ids', calls ++ [cc]) c ->
      stream_runs known raw (at_invokes pos (Z.of_nat (length calls)) em ao fp ps ids, calls) c.
Proof.
  intros E Hok Hs Hb. unfold stream_call_ok in Hok. apply andb_true_iff in Hok as [Hok Hn]. apply bool_decide_eq_true in Hn. cbn [fst snd] in Hn.
  unfold call_ok in Hok. cbn [snd] in Hok. unfold call_text in E.
  assert (E0 : drop pos raw = LF :: invoke_tag name ++ x3e :: (LF :: concat (map append_dsml_arg (map arg_of ms)) ++ DS4_INVOKE_END ++ LF :: rest)).
  { rewrite E. f_equal. by repeat (rewrite <- app_assoc; cbn [app]). }
  destruct (run_invoke raw _ name pos em ao fp ps ids calls E0 Hn Hs Hb) as (ids1 & id & p1 & Hp1 & Hshown & H1).
  set (i := Z.of_nat (length calls)) in *.
  destruct (run_params raw _ ms i ids1 p1 true ps (calls ++ [ClientCall id name (B "{")]) Hp1 Hok) as (p2 & fp2 & ps2 & Hp2 & H2).
  set (mid := match ms with [] => [] | _ => comma true ++ members_text [] ms end) in *.
  destruct (run_invoke_end raw _ p2 i fp2 ps2 ids1 (calls ++ [ClientCall id name (B "{" ++ mid)]) Hp2) as (p3 & Hp3 & H3).
  exists p3, fp2, ps2, ids1, (ClientCall id name ((B "{" ++ mid) ++ B "}")). split; [done|]. split; [apply Hshown|]. split.
  - split; [done|]. cbn [cc_args snd]. rewrite object_text_print. unfold object_text, mid. rewrite <- app_assoc. by destruct ms.
  - intros c Hr. apply H1, H2. unfold i at 2. rewrite add_args_last. apply H3. unfold i at 2. rewrite add_args_last.
    rewrite length_app in Hr. cbn [length] in Hr. replace (Z.of_nat (length calls + 1)) with (i + 1) in Hr by (unfold i; lia). exact Hr.
Qed.

Lemma run_calls (raw rest : bytes) (cs : list (option bytes * bytes * list (bytes * jvalue))) : forall pos em ao fp ps ids calls,
  drop pos raw = LF :: concat (map (fun c => call_text (snd (fst c)) (snd c)) cs) ++ DS4_TOOL_CALLS_END ++ rest ->
  forallb stream_call_ok cs = true -> shown ids calls -> Z.of_nat (length calls + length cs) <= 2 ^ 31 ->
  exists ts new, stream_runs known raw (at_invokes pos (Z.of_nat (length calls)) em ao fp ps ids, calls) (ts, calls ++ new) /\
    ts_state ts = DSML_TOOL_DONE /\ ts_active ts = false /\ shown (ts_ids ts) (calls ++ new) /\ Forall2 same_call cs new.
Proof.
  induction cs as [|[[id0 name] ms] cs IH]; intros pos em ao fp ps ids calls E Hok Hs Hb.
  - eexists _, []. rewrite app_nil_r. split; [exact (run_block_end raw rest pos _ em ao fp ps ids calls E)|]. split; [done|]. split; [done|]. by split.
  - cbn [forallb] in Hok. apply andb_true_iff in Hok as [Hc Hok]. cbn [map concat fst snd] in E. rewrite <- app_assoc in E.
    destruct (run_call raw _ name id0 ms pos em ao fp ps ids calls E Hc Hs) as (p1 & fp1 & ps1 & ids1 & cc & Hp1 & Hs1 & Hsame & H1).
    { cbn [length] in Hb. lia. }
    destruct (IH p1 true false fp1 ps1 ids1 (calls ++ [cc]) Hp1 Hok Hs1) as (ts & new & Hr & Hd & Ha & Hsh & Hall).
    { rewrite length_app. cbn [length] in *. lia. }
    exists ts, (cc :: new). rewrite <- app_assoc in Hr, Hsh. cbn [app] in Hr, Hsh.
    split; [by apply H1|]. split; [done|]. split; [done|]. split; [done|]. by constructor.
Qed.

(** From the start of a block to its end. *)
Lemma run_block (raw rest : bytes) (cs : list (option bytes * bytes * list (bytes * jvalue))) (pos : nat) :
  drop pos raw = DS4_TOOL_CALLS_START ++ LF :: concat (map (fun c => call_text (snd (fst c)) (snd c)) cs) ++ DS4_TOOL_CALLS_END ++ rest ->
  forallb stream_call_ok cs = true -> Z.of_nat (length cs) <= 2 ^ 31 ->
  exists ts new, stream_runs known raw (tool_stream_at syntax_full pos, []) (ts, new) /\
    ts_state ts = DSML_TOOL_DONE /\ ts_active ts = false /\ shown (ts_ids ts) new /\ Forall2 same_call cs new.
Proof.
  intros E Hok Hb. apply place_next in E.
  destruct (run_calls raw rest cs _ false false false false [] [] E Hok) as (ts & new & Hr & H1).
  - split; [by exists 0%nat|]. split; constructor.
  - cbn [length]. lia.
  - by exists ts, new.
Qed.

(** The ids shown are the ids the finished calls get. *)
Lemma ids_applied (tcs : list tool_call) (cs : list client_call) (ids : list (option bytes)) :
  shown ids cs -> length tcs = length cs -> Forall (fun tc => nonempty (tc_id tc) = None) tcs ->
  map tc_id (apply_stream_tool_ids tcs ids) = map (fun c => Some (cc_id c)) cs.
Proof.
  intros ([pad ->] & _ & Hall). revert cs Hall. induction tcs as [|tc tcs IH]; intros cs Hall Hl Hnone; (destruct cs as [|c cs]); [done|done|done|].
  inversion Hall as [|? ? [Hne _] Hall']; subst. inversion Hnone as [|? ? Hn Hnone']; subst. cbn [map app apply_stream_tool_ids].
  rewrite Hn. destruct (cc_id c) as [|b l] eqn:Ec; [done|]. cbn [nonempty map]. f_equal.
  apply IH; [done|simpl in Hl; lia|done].
Qed.
End Block.
