(* ===== verification/OpenaiMessage.v ===== *)
(** * What a streaming client has at the end

    However the text arrives, the reasoning, content and calls of the client
    are those of one final update, and for a message with a block of calls
    they are what the parser of whole messages returns. *)
From S2P Require Import Prelude.
From S2P Require Import CNum.
From S2P Require Import CFloat.
From S2P Require Import ServerJson.
From S2P Require Import ServerJsonProps.
From S2P Require Import ServerStream.
From S2P Require Import ServerStreamProps.
From S2P Require Import ServerMsgs.
From S2P Require Import Dsml.
From S2P Require Import DsmlProps.
From S2P Require Import DsmlRoundtrip.
From S2P Require Import DsmlTrack.
From S2P Require Import DsmlTrackProps.
From S2P Require Import ToolMemory.
From S2P Require Import Chat.
From S2P Require Import OpenaiStream.
From S2P Require Import OpenaiStreamProps.
From S2P Require Import OpenaiClient.
Open Scope Z_scope.

(** ** Start tags *)

Definition start_markers : list bytes := [DS4_TOOL_CALLS_START; DS4_TOOL_CALLS_START_SHORT; B "<tool_calls>"].
Definition is_start (s : bytes) : bool := existsb (fun m => str_prefixb m s) start_markers.

Lemma nearest_spec (s : bytes) (ms : list bytes) :
  match nearest_marker s ms with
  | Some j => existsb (fun m => str_prefixb m (drop j s)) ms = true /\ forall k, (k < j)%nat -> existsb (fun m => str_prefixb m (drop k s)) ms = false
  | None => forall k, existsb (fun m => str_prefixb m (drop k s)) ms = false
  end.
Proof.
  unfold nearest_marker. induction ms as [|m ms IH] using rev_ind; [done|]. rewrite foldl_app. cbn [foldl].
  destruct (foldl _ None ms) as [b|]; destruct (strstr_pos s m) as [i|] eqn:E.
  - apply strstr_pos_some in E as [E1 E2]. destruct IH as [H1 H2]. destruct (Nat.ltb_spec i b).
    + split; [rewrite existsb_app; cbn; rewrite E1; by rewrite orb_true_r|]. intros k Hk.
      rewrite existsb_app, H2 by lia. cbn. by rewrite E2.
    + split; [by rewrite existsb_app, H1|]. intros k Hk. rewrite existsb_app, H2 by lia. cbn. by rewrite E2 by lia.
  - pose proof (strstr_pos_none _ _ E) as Hn. destruct IH as [H1 H2]. split; [by rewrite existsb_app, H1|].
    intros k Hk. rewrite existsb_app, H2 by lia. cbn. by rewrite Hn.
  - apply strstr_pos_some in E as [E1 E2]. split; [rewrite existsb_app; cbn; rewrite E1; by rewrite orb_true_r|].
    intros k Hk. rewrite existsb_app, IH. cbn. by rewrite E2.
  - pose proof (strstr_pos_none _ _ E) as Hn. intros k. rewrite existsb_app, IH. cbn. by rewrite Hn.
Qed.

Lemma any_start (s : bytes) :
  match find_any_tool_start s with
  | Some j => is_start (drop j s) = true /\ forall k, (k < j)%nat -> is_start (drop k s) = false
  | None => forall k, is_start (drop k s) = false
  end.
Proof. apply nearest_spec. Qed.

(** The markers are short, and a bracket is their first byte only. *)
Lemma start_shape (s : bytes) : is_start s = true -> exists m, m ∈ start_markers /\ str_prefixb m s = true /\
  (0 < length m <= 80)%nat /\ nth 0 m NUL = x3c /\ x3c ∉ tl m.
Proof.
  intros [m [Hin Hp]]%existsb_exists. apply list_elem_of_In in Hin. exists m. split; [done|]. split; [done|]. revert Hin.
  intros [-> |[-> |[-> |[]%elem_of_nil]%elem_of_cons]%elem_of_cons]%elem_of_cons;
    (split; [vm_compute; lia|]); (split; [reflexivity|]); by apply (bool_decide_unpack _).
Qed.

Lemma is_start_grow (s d : bytes) : is_start s = true -> is_start (s ++ d) = true.
Proof.
  intros (m & Hin & Hp & _)%start_shape. apply existsb_exists. exists m. split; [by apply list_elem_of_In|]. by apply prefix_grow.
Qed.

Lemma start_bracket (s : bytes) (j : nat) : is_start (drop j s) = true -> (j < length s)%nat /\ nth j s NUL = x3c.
Proof.
  intros (m & _ & Hp & Hl & H0 & _)%start_shape. pose proof (prefixb_length _ _ Hp) as Hlen. rewrite length_drop in Hlen.
  split; [lia|]. rewrite <- (app_nil_r s) in Hp. rewrite (lit_inside s [] m j j Hp) by lia. by rewrite Nat.sub_diag.
Qed.

(** A marker that is not complete holds no other bracket. *)
Lemma start_inside (s d : bytes) (j x : nat) : is_start (drop j (s ++ d)) = true -> is_start (drop j s) = false ->
  (j < x < length s)%nat -> nth x s NUL <> x3c.
Proof.
  intros (m & Hin & Hp & Hl & H0 & Ht)%start_shape Hno Hx. destruct (Nat.le_gt_cases (j + length m) (length s)) as [Hfit|Hover].
  - exfalso. rewrite drop_grow, prefix_fixed in Hp by (rewrite ?length_drop; lia).
    apply not_true_iff_false in Hno. apply Hno, existsb_exists. exists m. split; [by apply list_elem_of_In|done].
  - rewrite (lit_inside s d m j x Hp) by lia. apply nth_tail; [done|lia].
Qed.

Lemma find_start_stable (s d : bytes) (j : nat) : find_any_tool_start s = Some j -> find_any_tool_start (s ++ d) = Some j.
Proof.
  intros E. pose proof (any_start s) as H. rewrite E in H. destruct H as [H1 H2]. destruct (start_bracket s j H1) as [Hj Hb].
  pose proof (any_start (s ++ d)) as H. destruct (find_any_tool_start (s ++ d)) as [j'|].
  - destruct H as [H3 H4]. f_equal. destruct (Nat.lt_total j' j) as [Hlt|[|Hgt]]; [|done|].
    + by destruct (start_inside s d j' j H3 (H2 j' Hlt) ltac:(lia)).
    + specialize (H4 j Hgt). rewrite drop_grow in H4 by lia. by rewrite (is_start_grow _ d H1) in H4.
  - specialize (H j). rewrite drop_grow in H by lia. by rewrite (is_start_grow _ d H1) in H.
Qed.

(** ** Trimmed text *)

Lemma trim_range (raw : bytes) (start limit : nat) : (start <= limit)%nat -> (start <= trim_tool_separator_ws raw start limit <= limit)%nat.
Proof.
  induction limit as [|l IH]; intros Hl; [simpl; lia|]. cbn [trim_tool_separator_ws].
  destruct (Nat.ltb_spec start (S l)); cbn [andb]; [|lia]. destruct (byte_isspace _); [|lia]. specialize (IH ltac:(lia)). lia.
Qed.

Lemma trim_short (raw : bytes) (start limit : nat) : (limit <= start)%nat -> trim_tool_separator_ws raw start limit = limit.
Proof. intros Hl. destruct limit as [|l]; [done|]. cbn [trim_tool_separator_ws]. by rewrite (proj2 (Nat.ltb_ge _ _) Hl). Qed.

Lemma trim_mono (raw : bytes) (start l l' : nat) : (l <= l')%nat ->
  (trim_tool_separator_ws raw start l <= trim_tool_separator_ws raw start l')%nat.
Proof.
  induction l' as [|n IH]; intros Hl; [by replace l with 0%nat by lia|]. destruct (Nat.eq_dec l (S n)) as [->|Hne]; [done|].
  cbn [trim_tool_separator_ws]. destruct (_ && _); [apply IH; lia|].
  destruct (Nat.le_gt_cases start l) as [Hs|Hs]; [pose proof (trim_range raw start l Hs); lia|]. rewrite trim_short by lia. lia.
Qed.

Lemma trim_grow (t d : bytes) (start limit : nat) : (limit <= length t)%nat ->
  trim_tool_separator_ws (t ++ d) start limit = trim_tool_separator_ws t start limit.
Proof.
  induction limit as [|l IH]; intros Hl; [done|]. cbn [trim_tool_separator_ws]. rewrite app_nth1 by lia. by rewrite IH by lia.
Qed.

(** What was already sent does not move the end of the trimmed text. *)
Lemma trim_from (raw : bytes) (start s e : nat) : (start <= s)%nat -> (s <= trim_tool_separator_ws raw start e)%nat ->
  trim_tool_separator_ws raw s e = trim_tool_separator_ws raw start e.
Proof.
  intros Hs. induction e as [|e IH]; intros He; [done|]. cbn [trim_tool_separator_ws] in *.
  destruct (Nat.ltb_spec start (S e)); cbn [andb] in *; [|by rewrite (proj2 (Nat.ltb_ge s (S e))) by lia].
  destruct (byte_isspace _) eqn:Esp.
  - pose proof (trim_range raw start e ltac:(lia)). rewrite (proj2 (Nat.ltb_lt s (S e))) by lia. cbn [andb]. by apply IH.
  - by rewrite andb_false_r.
Qed.

(** ** How far content may be sent *)

(** No start tag at [c0] or behind cuts off what was sent up to [n]. *)
Definition text_safe (t : bytes) (c0 n : nat) : Prop :=
  forall d e, (c0 <= e)%nat -> is_start (drop e (t ++ d)) = true -> (n <= trim_tool_separator_ws (t ++ d) c0 e)%nat.

Lemma last_bracket_eq (raw : bytes) (turns : nat) : forall i, last_bracket raw i turns = last_of x3c raw i turns.
Proof. induction turns as [|n IH]; intros i; [done|]. cbn [last_bracket last_of]. by rewrite IH. Qed.

Definition no_start (t : bytes) (c0 : nat) : Prop := forall e, (c0 <= e)%nat -> is_start (drop e t) = false.

Lemma text_limit_safe (t : bytes) (c0 s : nat) : (c0 <= s <= length t)%nat -> no_start t c0 -> text_safe t c0 s ->
  let n := text_stream_safe_limit t s (length t) true false in (s <= n <= length t)%nat /\ text_safe t c0 n.
Proof.
  intros Hs Hno Hsafe. unfold text_stream_safe_limit. destruct (Nat.leb_spec (length t) s) as [Hl|Hl].
  { cbv zeta. assert (length t = s)%nat as -> by lia. split; [lia|done]. }
  assert (find_any_tool_start (drop s t) = None) as ->.
  { pose proof (any_start (drop s t)) as Ha. destruct (find_any_tool_start (drop s t)) as [j|]; [|done].
    destruct Ha as [Ha _]. rewrite drop_drop in Ha. by rewrite Hno in Ha by lia. }
  cbn [negb andb]. set (scan := if (80 <? length t - s)%nat then (length t - 80)%nat else s).
  assert (Hscan : (s <= scan <= length t)%nat /\ (scan = s \/ scan = length t - 80)%nat)
    by (unfold scan; destruct (Nat.ltb_spec 80 (length t - s)); lia).
  pose proof (trim_range t s (length t) ltac:(lia)) as Ht. set (l0 := trim_tool_separator_ws t s (length t)) in *.
  rewrite last_bracket_eq. pose proof (last_of_spec x3c t (length t - scan) (length t) ltac:(lia)) as Hlast.
  set (l1 := match last_of x3c t (length t) (length t - scan) with Some m => if (m <? l0)%nat then m else l0 | None => l0 end).
  assert (Hl1 : (s <= l1 <= l0)%nat).
  { unfold l1. destruct (last_of _ _ _ _) as [m|]; [|lia]. destruct Hlast as [Hm _]. destruct (Nat.ltb_spec m l0); lia. }
  pose proof (trim_range t s l1 ltac:(lia)) as Ht1. pose proof (utf8_safe_range t s (trim_tool_separator_ws t s l1) false ltac:(lia)) as Hu.
  cbv zeta. split; [lia|]. intros d e He Hst. pose proof (Hsafe d e He Hst) as Hse.
  assert (Hce : (s <= e)%nat) by (pose proof (trim_range (t ++ d) c0 e He); lia).
  rewrite <- (trim_from (t ++ d) c0 s e) by lia.
  assert (Hend : (trim_tool_separator_ws t s l1 <= trim_tool_separator_ws (t ++ d) s e)%nat); [|lia].
  rewrite <- (trim_grow t d s l1) by lia. destruct (Nat.le_gt_cases (length t) e) as [Hout|Hin].
  - apply trim_mono. lia.
  - apply trim_mono. destruct (start_bracket (t ++ d) e Hst) as [_ Hb]. rewrite app_nth1 in Hb by done.
    pose proof (Hno e He) as Hn. apply start_shape in Hst as Hm. destruct Hm as (mk & Hmk & Hp & Hlen & _ & _).
    assert (Hover : (length t < e + length mk)%nat).
    { destruct (Nat.le_gt_cases (e + length mk) (length t)); [|done]. exfalso.
      rewrite drop_grow, prefix_fixed in Hp by (rewrite ?length_drop; lia). apply not_true_iff_false in Hn.
      apply Hn, existsb_exists. exists mk. split; [by apply list_elem_of_In|done]. }
    unfold l1. destruct (last_of x3c t (length t) (length t - scan)) as [m|].
    + destruct Hlast as (Hm & Hmc & Hafter). assert (e <= m)%nat.
      { destruct (Nat.le_gt_cases e m); [done|]. by destruct (Hafter e ltac:(lia)). }
      destruct (Nat.eq_dec m e) as [->|Hne]; [destruct (Nat.ltb_spec e l0); lia|].
      by destruct (start_inside t d e m Hst Hn ltac:(lia)).
    + by destruct (Hlast e ltac:(lia)).
Qed.

(** ** Reasoning *)

Definition think_from (t : bytes) : nat := if str_prefixb (B "<think>") t then 7%nat else 0%nat.

(** The text is long enough to tell. *)
Definition told (t : bytes) : Prop := (7 <= length t)%nat \/ str_prefixb t (B "<think>") = false.

Lemma told_grow (t d : bytes) : told t -> told (t ++ d) /\ think_from (t ++ d) = think_from t.
Proof.
  intros Ht. assert (E : str_prefixb (B "<think>") (t ++ d) = str_prefixb (B "<think>") t).
  { destruct (Nat.le_gt_cases 7 (length t)); [by apply prefix_fixed|]. destruct Ht as [|Ht]; [lia|].
    destruct (str_prefixb (B "<think>") t) eqn:E; [by apply prefix_grow|]. apply not_true_iff_false. intros Hx.
    destruct (prefixb_cases _ _ _ Hx); congruence. }
  split; [|unfold think_from; by rewrite E]. destruct Ht as [Ht|Ht]; [left; rewrite length_app; lia|].
  right. apply not_true_iff_false. intros [r Hr]%str_prefixb_spec. apply not_true_iff_false in Ht. apply Ht, str_prefixb_spec.
  exists (d ++ r). by rewrite app_assoc.
Qed.

Lemma think_from_le (t : bytes) : (think_from t <= length t)%nat.
Proof. unfold think_from. destruct (str_prefixb _ t) eqn:E; [|lia]. apply prefixb_length in E. exact E. Qed.

(** Where the reasoning ends. *)
Definition think_close (t : bytes) : option nat := strstr_pos (drop (think_from t) t) (B "</think>").

Lemma think_close_told (t : bytes) (i : nat) : think_close t = Some i -> told t.
Proof.
  intros [E _]%strstr_pos_some. apply prefixb_length in E. rewrite !length_drop in E. left. simpl in E. lia.
Qed.

Lemma think_close_grow (t d : bytes) (i : nat) : think_close t = Some i -> think_close (t ++ d) = Some i.
Proof.
  intros E. pose proof (think_close_told t i E) as Ht. unfold think_close in *. destruct (told_grow t d Ht) as [_ ->].
  rewrite drop_grow by apply think_from_le. by apply strstr_grow.
Qed.

(** ** What the client has *)

(** Reasoning, content and calls. *)
Definition client_view : Type := bytes * bytes * list client_call.

Definition see (v : client_view) (ev : openai_event) : client_view :=
  let '(r, c, calls) := v in
  match ev with
  | ChatDelta field s => if str_eqb field (B "reasoning_content") then (r ++ s, c, calls) else (r, c ++ s, calls)
  | _ => (r, c, deliver calls ev)
  end.

Definition slice (t : bytes) (a b : nat) : bytes := take (b - a) (drop a t).

Lemma slice_grow (t d : bytes) (a b : nat) : (a <= length t)%nat -> (b <= length t)%nat -> slice (t ++ d) a b = slice t a b.
Proof. intros Ha Hb. unfold slice. rewrite drop_grow, take_app_le by (rewrite ?length_drop; lia). done. Qed.

Lemma slice_more (t : bytes) (a b c : nat) : (a <= b <= c)%nat -> slice t a b ++ slice t b c = slice t a c.
Proof.
  intros Ho. unfold slice. replace (c - a)%nat with ((b - a) + (c - b))%nat by lia. rewrite <- take_take_drop, drop_drop.
  by replace (a + (b - a))%nat with b by lia.
Qed.

Lemma slice_empty (t : bytes) (a b : nat) : (b <= a)%nat -> slice t a b = [].
Proof. intros Hb. unfold slice. by replace (b - a)%nat with 0%nat by lia. Qed.

Lemma slice_all (t : bytes) (a : nat) : slice t a (length t) = drop a t.
Proof. unfold slice. apply take_ge. by rewrite length_drop. Qed.

(** [send_delta] sends what lies between, if anything. *)
Lemma see_delta (st : openai_stream) (field raw : bytes) (limit : nat) (r c : bytes) (calls : list client_call) :
  foldl see (r, c, calls) (snd (send_delta st field raw limit)) =
  if str_eqb field (B "reasoning_content") then (r ++ slice raw (emit_pos st) limit, c, calls)
  else (r, c ++ slice raw (emit_pos st) limit, calls).
Proof.
  unfold send_delta. destruct (Nat.ltb_spec (emit_pos st) limit) as [Hl|Hl]; cbn [snd].
  - unfold sse_chat_delta_n, slice. destruct (take _ _); [by rewrite !app_nil_r; destruct (str_eqb _ _)|]. done.
  - rewrite slice_empty by done. rewrite !app_nil_r. by destruct (str_eqb _ _).
Qed.

Definition tool_event (ev : openai_event) : Prop := match ev with ChatDelta _ _ => False | _ => True end.

Lemma see_tool (evs : list openai_event) : Forall tool_event evs -> forall r c calls,
  foldl see (r, c, calls) evs = (r, c, foldl deliver calls evs).
Proof. induction 1 as [|ev evs Hev _ IH]; intros r c calls; [done|]. cbn [foldl]. destruct ev; [done|apply IH|apply IH]. Qed.

(** ** What an update may send

    Without stop sequences [generate_job] holds back only an incomplete
    character at the end of the text. *)
Definition stream_len (text : bytes) : nat :=
  utf8_stream_safe_len text 0 (stop_list_stream_safe_len (StopList [] 0) (length text)) false.

(** The text ends in a character that is not complete, or holds nothing but
    bytes that continue one. *)
Definition tail_open (t : bytes) (n : nat) : Prop :=
  (n < length t <= n + 4)%nat /\ (forall i, (n < i < length t)%nat -> is_cont (byte_at t i) = true) /\
  ((length t - n < utf8_expected_len (byte_at t n))%nat \/ n = 0%nat /\ is_cont (byte_at t 0) = true).

Lemma expected_cont (c : Z) : 0 <= c < 256 -> (1 < utf8_expected_len c)%nat -> is_cont c = false.
Proof.
  intros Hc. rewrite <- (bz_zb c Hc). rewrite is_cont_byte, bz_zb by done. unfold utf8_expected_len.
  repeat match goal with |- context [?a <=? ?b] => destruct (Z.leb_spec a b) | |- context [?a <? ?b] => destruct (Z.ltb_spec a b) end; cbn; lia || done.
Qed.

Lemma expected_four (c : Z) : (utf8_expected_len c <= 4)%nat.
Proof. unfold utf8_expected_len. repeat case_match; lia. Qed.

Lemma stream_len_le (t : bytes) : (stream_len t <= length t)%nat.
Proof. unfold stream_len. apply (utf8_safe_range t 0 (length t) false). lia. Qed.

Lemma held_open (t : bytes) : stream_len t = length t \/ tail_open t (stream_len t).
Proof.
  unfold stream_len, stop_list_stream_safe_len. cbn [sl_v length Nat.eqb orb]. unfold utf8_stream_safe_len. cbn [orb].
  destruct (Nat.leb_spec (length t) 0) as [|Hl]; [by left|].
  destruct (back_over_cont_spec 4 t 0 (length t) ltac:(lia)) as (H1 & H2 & H3). set (p := back_over_cont 4 t 0 (length t)) in *.
  destruct (Nat.eqb_spec p (length t)) as [E|E].
  { destruct (Nat.ltb_spec 1 (utf8_expected_len (byte_at t (length t - 1)))); [right|by left].
    split; [lia|]. split; [intros; lia|]. left. lia. }
  destruct (Nat.eqb_spec p 0) as [E0|E0]; cbn [andb].
  - destruct (is_cont (byte_at t p)) eqn:Ec; [|by rewrite H3 in Ec by lia]. right. split; [lia|]. split; [intros; apply H3; lia|].
    right. by rewrite E0 in Ec.
  - destruct (Nat.ltb_spec (length t - (p - 1)) (utf8_expected_len (byte_at t (p - 1)))) as [Hlt|]; [right|by left].
    pose proof (expected_four (byte_at t (p - 1))). split; [lia|]. split; [intros; apply H3; lia|]. by left.
Qed.

Lemma open_held (t : bytes) (m : nat) : tail_open t m -> (stream_len t <= m)%nat.
Proof.
  intros (Hm & Hc & Hlead). unfold stream_len, stop_list_stream_safe_len. cbn [sl_v length Nat.eqb orb]. unfold utf8_stream_safe_len. cbn [orb].
  destruct (Nat.leb_spec (length t) 0) as [|Hl]; [lia|].
  destruct Hlead as [Hlead|[-> H0]].
  - pose proof (expected_four (byte_at t m)).
    assert (Hn : is_cont (byte_at t m) = false) by (apply expected_cont; [apply bz_range|lia]).
    rewrite (back_to_lead 4 t 0 m ltac:(lia) Hn (length t)) by (try lia; intros; apply Hc; lia).
    destruct (Nat.eqb_spec (S m) (length t)) as [E|E].
    + replace (length t - 1)%nat with m by lia. rewrite (proj2 (Nat.ltb_lt _ _)) by lia. done.
    + cbn [Nat.eqb andb]. replace (S m - 1)%nat with m by lia. by rewrite (proj2 (Nat.ltb_lt _ _)) by lia.
  - destruct (back_over_cont_spec 4 t 0 (length t) ltac:(lia)) as (H1 & H2 & H3).
    assert (Hp : back_over_cont 4 t 0 (length t) = 0%nat).
    { assert (Hall : forall n q, (q <= n)%nat -> (q <= length t)%nat -> back_over_cont n t 0 q = 0%nat); [|apply Hall; lia].
      induction n as [|n IH]; intros q Hq Hq2; cbn [back_over_cont]; [lia|]. destruct (Nat.ltb_spec 0 q); cbn [andb]; [|lia].
      assert (is_cont (byte_at t (q - 1)) = true) as ->; [|apply IH; lia].
      destruct (Nat.eq_dec q 1%nat) as [->|]; [done|]. apply Hc. lia. }
    rewrite Hp. rewrite (proj2 (Nat.eqb_neq _ _)) by lia. cbn [Nat.eqb andb]. by rewrite H0.
Qed.

(** What was sent once is not held back later. *)
Lemma stream_len_grow (t d : bytes) : (stream_len t <= stream_len (t ++ d))%nat.
Proof.
  pose proof (stream_len_le t) as Hle. destruct (held_open (t ++ d)) as [->|Ho]; [rewrite length_app; lia|].
  destruct (Nat.le_gt_cases (length t) (stream_len (t ++ d))) as [|Hin]; [lia|]. apply open_held.
  destruct Ho as (H1 & H2 & H3). rewrite length_app in *.
  assert (Hat : forall i, (i < length t)%nat -> byte_at (t ++ d) i = byte_at t i) by (intros i Hi; unfold byte_at; by rewrite app_nth1).
  split; [lia|]. split; [intros i Hi; rewrite <- Hat by lia; apply H2; lia|]. rewrite Hat in H3 by done.
  destruct H3 as [H3|[H3 H4]]; [left; lia|right]. split; [done|]. by rewrite Hat in H4 by lia.
Qed.

Lemma held_high (t : bytes) (i : nat) : (stream_len t <= i < length t)%nat -> 0x80 <= byte_at t i.
Proof.
  intros Hi. destruct (held_open t) as [|(H1 & H2 & H3)]; [lia|].
  destruct (Nat.eq_dec i (stream_len t)) as [->|]; [|apply cont_not_ascii; [apply bz_range|apply H2; lia]].
  destruct H3 as [H3|[-> H3]]; [apply expected_ascii; lia|by apply cont_not_ascii; [apply bz_range|]].
Qed.

(** A marker that ends in an ASCII byte does not end in what is held back. *)
Definition ascii_end (m : bytes) : Prop := (0 < length m)%nat /\ bz (nth (length m - 1) m NUL) < 0x80.

Lemma marker_sent (t m : bytes) (e : nat) : ascii_end m -> 
  str_prefixb m (drop e (take (stream_len t) t)) = str_prefixb m (drop e t).
Proof.
  intros [Hm Ha]. pose proof (stream_len_le t) as Hle. set (n := stream_len t) in *.
  destruct (str_prefixb m (drop e t)) eqn:E.
  - assert (Hfit : (e + length m <= n)%nat).
    { destruct (Nat.le_gt_cases (e + length m) n) as [|Hgt]; [done|]. exfalso.
      pose proof (prefixb_length _ _ E) as Hl. rewrite length_drop in Hl.
      pose proof (held_high t (e + length m - 1) ltac:(lia)) as Hh. unfold byte_at in Hh.
      rewrite <- (app_nil_r t) in E. rewrite (lit_inside t [] m e _ E) in Hh by lia.
      replace (e + length m - 1 - e)%nat with (length m - 1)%nat in Hh by lia. lia. }
    rewrite <- (take_drop n t) in E. rewrite drop_grow, prefix_fixed in E by (rewrite ?length_drop, length_take; lia). done.
  - apply not_true_iff_false. intros Hx. apply not_true_iff_false in E. apply E. rewrite <- (take_drop n t).
    destruct (Nat.le_gt_cases e n) as [He|He]; [rewrite drop_grow by (rewrite length_take; lia); by apply prefix_grow|].
    rewrite drop_ge in Hx by (rewrite length_take; lia). apply prefixb_length in Hx. simpl in Hx. lia.
Qed.

Lemma strstr_pos_ext (a b m : bytes) : (forall k, str_prefixb m (drop k a) = str_prefixb m (drop k b)) -> strstr_pos a m = strstr_pos b m.
Proof.
  intros Hk. destruct (strstr_pos a m) as [i|] eqn:E.
  - apply strstr_pos_some in E as [H1 H2]. symmetry. apply strstr_here; [by rewrite <- Hk|]. intros j Hj. rewrite <- Hk. by apply H2.
  - pose proof (strstr_pos_none _ _ E) as Hn. destruct (strstr_pos b m) as [i|] eqn:E2; [|done].
    apply strstr_pos_some in E2 as [H1 _]. by rewrite <- Hk, Hn in H1.
Qed.

Lemma strstr_sent (t m : bytes) (e : nat) : ascii_end m ->
  strstr_pos (drop e (take (stream_len t) t)) m = strstr_pos (drop e t) m.
Proof. intros Hm. apply strstr_pos_ext. intros k. rewrite !drop_drop. by apply marker_sent. Qed.

Lemma start_sent (t : bytes) (e : nat) : find_any_tool_start (drop e (take (stream_len t) t)) = find_any_tool_start (drop e t).
Proof.
  assert (Hk : forall k, is_start (drop k (drop e (take (stream_len t) t))) = is_start (drop k (drop e t))).
  { intros k. rewrite !drop_drop. unfold is_start, start_markers. cbn [existsb].
    by rewrite !marker_sent by (split; vm_compute; first [lia | reflexivity]). }
  pose proof (any_start (drop e (take (stream_len t) t))) as H1. pose proof (any_start (drop e t)) as H2.
  destruct (find_any_tool_start (drop e (take (stream_len t) t))) as [i|], (find_any_tool_start (drop e t)) as [j|]; [| | |done].
  - destruct H1 as [H1 H3], H2 as [H2 H4]. f_equal. rewrite Hk in H1. rewrite <- Hk in H2.
    destruct (Nat.lt_total i j) as [Hlt|[|Hlt]]; [|done|]; [rewrite H4 in H1 by done|rewrite H3 in H2 by done]; done.
  - destruct H1 as [H1 _]. rewrite Hk in H1. by rewrite H2 in H1.
  - destruct H2 as [H2 _]. rewrite <- Hk in H2. by rewrite H1 in H2.
Qed.

(** Reading below a limit does not see what lies behind it. *)
Lemma take_nth (t : bytes) (n i : nat) : (i < n)%nat -> nth i (take n t) NUL = nth i t NUL.
Proof. intros Hi. by rewrite !nth_lookup, lookup_take_lt by lia. Qed.

Lemma trim_sent (t : bytes) (n start limit : nat) : (limit <= n)%nat ->
  trim_tool_separator_ws (take n t) start limit = trim_tool_separator_ws t start limit.
Proof. induction limit as [|l IH]; intros Hl; [done|]. cbn [trim_tool_separator_ws]. by rewrite take_nth, IH by lia. Qed.

Lemma bracket_sent (t : bytes) (n turns : nat) : forall i, (0 < turns -> 0 < i)%nat -> (i <= n)%nat -> (turns <= i)%nat ->
  last_bracket (take n t) i turns = last_bracket t i turns.
Proof.
  induction turns as [|k IH]; intros i Hi Hn Ht; [done|]. cbn [last_bracket]. rewrite take_nth by lia.
  by rewrite IH by lia.
Qed.

Lemma back_sent (t : bytes) (n start k : nat) : forall p, (p <= n)%nat -> back_over_cont k (take n t) start p = back_over_cont k t start p.
Proof.
  induction k as [|k IH]; intros p Hp; [done|]. cbn [back_over_cont]. destruct (Nat.ltb_spec start p); cbn [andb]; [|done].
  unfold byte_at. rewrite take_nth by lia. by rewrite IH by lia.
Qed.

Lemma utf8_sent (t : bytes) (n start limit : nat) (final : bool) : (start < limit -> limit <= n)%nat ->
  utf8_stream_safe_len (take n t) start limit final = utf8_stream_safe_len t start limit final.
Proof.
  intros Hl. unfold utf8_stream_safe_len. destruct final; [done|]. cbn [orb]. destruct (Nat.leb_spec limit start); [done|].
  rewrite back_sent by lia. destruct (back_over_cont_spec 4 t start limit ltac:(lia)) as (Hp & _). 
  set (p := back_over_cont 4 t start limit) in *. unfold byte_at.
  destruct (Nat.eqb_spec p limit); [by rewrite take_nth by lia|]. by rewrite !take_nth by lia.
Qed.

Lemma send_sent (st : openai_stream) (field t : bytes) (n limit : nat) : (emit_pos st < limit -> limit <= n)%nat ->
  send_delta st field (take n t) limit = send_delta st field t limit.
Proof.
  intros Hl. unfold send_delta. destruct (Nat.ltb_spec (emit_pos st) limit) as [H|H]; [|done]. do 2 f_equal.
  rewrite skipn_firstn_comm, take_take. f_equal. lia.
Qed.

Lemma trim_le_limit (t : bytes) (start limit : nat) : (trim_tool_separator_ws t start limit <= limit)%nat.
Proof. induction limit as [|l IH]; [done|]. cbn [trim_tool_separator_ws]. destruct (_ && _); lia. Qed.

Lemma limit_sent (t : bytes) (start : nat) (has_tools : bool) : let n := stream_len t in
  text_stream_safe_limit (take n t) start n has_tools false = text_stream_safe_limit t start n has_tools false.
Proof.
  intros n. unfold text_stream_safe_limit. destruct (Nat.leb_spec n start) as [|Hl]; [done|]. unfold n at 1. rewrite start_sent. fold n.
  destruct (if has_tools then find_any_tool_start (drop start t) else None) as [j|] eqn:E.
  - destruct has_tools; [|done]. pose proof (any_start (drop start (take n t))) as Hst. unfold n in Hst. rewrite start_sent, E in Hst.
    destruct Hst as [Hst _]. apply start_bracket in Hst as [Hlt _]. fold n in Hlt. rewrite length_drop, length_take in Hlt.
    unfold utf8_stream_safe_len. cbn [orb]. apply trim_sent. lia.
  - set (scan := if (80 <? n - start)%nat then (n - 80)%nat else start).
    assert (Hscan : (start <= scan <= n)%nat) by (unfold scan; destruct (Nat.ltb_spec 80 (n - start)); lia).
    rewrite bracket_sent by lia. rewrite (trim_sent t n start n) by lia.
    pose proof (trim_range t start n ltac:(lia)) as Ht.
    set (l0 := match last_bracket t n (n - scan) with Some m => if (m <? trim_tool_separator_ws t start n)%nat then m else trim_tool_separator_ws t start n
      | None => trim_tool_separator_ws t start n end).
    assert (Hl0 : (l0 <= n)%nat) by (unfold l0; destruct (last_bracket _ _ _) as [m|]; [destruct (Nat.ltb_spec m (trim_tool_separator_ws t start n))|]; lia).
    rewrite trim_sent by done. apply utf8_sent. intros _. destruct (has_tools && negb false); [|lia]. pose proof (trim_le_limit t start l0). lia.
Qed.

Lemma thinking_sent (t : bytes) (st : openai_stream) : let n := stream_len t in
  thinking_part st (take n t) n false = thinking_part st t n false.
Proof.
  intros n. unfold thinking_part. rewrite take_take, Nat.min_id. destruct (_ && negb false); [done|].
  assert (Hpre : str_prefixb (B "<think>") (take n t) = str_prefixb (B "<think>") t).
  { apply (marker_sent t (B "<think>") 0). split; vm_compute; first [lia | reflexivity]. }
  rewrite Hpre. set (s1 := if negb (checked_think_prefix st) then _ else st). clearbody s1.
  assert (Hclose : strstr_pos (drop (emit_pos s1) (take n t)) (B "</think>") = strstr_pos (drop (emit_pos s1) t) (B "</think>")).
  { apply strstr_sent. split; vm_compute; first [lia | reflexivity]. }
  rewrite utf8_sent by (destruct (Nat.ltb_spec (length (B "</think>") - 1) n); lia). rewrite send_sent; [by rewrite Hclose|].
  destruct (strstr_pos (drop (emit_pos s1) (take n t)) (B "</think>")) as [i|] eqn:E.
  - apply strstr_pos_some in E as [E _]. apply prefixb_length in E. rewrite !length_drop, length_take in E. simpl in E. lia.
  - set (l := if (length (B "</think>") - 1 <? n)%nat then (n - (length (B "</think>") - 1))%nat else emit_pos s1).
    assert (Hl : l = emit_pos s1 \/ (l <= n)%nat) by (unfold l; destruct (Nat.ltb_spec (length (B "</think>") - 1) n); lia).
    intros Hlt. destruct (Nat.le_gt_cases l (emit_pos s1)) as [Hle|Hgt].
    + unfold utf8_stream_safe_len in *. rewrite (proj2 (Nat.leb_le _ _) Hle) in *. cbn [orb] in *. lia.
    + pose proof (utf8_safe_range t (emit_pos s1) l false ltac:(lia)). lia.
Qed.

Section Message.
Context `{ToolIds}.
Variable known : list bytes.

Lemma fragment_tool (ts : openai_tool_stream) (s : bytes) : Forall tool_event (openai_tool_emit_args_fragment ts s).
Proof. unfold openai_tool_emit_args_fragment, sse_chat_tool_call_args_delta_n. destruct s; by repeat constructor. Qed.

Lemma value_tool (ts : openai_tool_stream) (s : bytes) : Forall tool_event (emit_value ts s).
Proof.
  unfold emit_value, openai_tool_emit_string_value. destruct (param_is_string ts); [|apply fragment_tool].
  destruct s; [constructor|apply fragment_tool].
Qed.

Lemma turn_tool (ts ts1 : openai_tool_stream) (raw : bytes) (evs : list openai_event) (go : bool) :
  tool_stream_turn known ts raw = (ts1, evs, go) -> Forall tool_event evs.
Proof.
  unfold tool_stream_turn, openai_tool_start_invoke, openai_tool_start_param, openai_tool_emit_param_prefix.
  intros E. repeat case_match; simplify_eq; repeat constructor; try apply fragment_tool; try apply value_tool.
  unfold openai_tool_finish_param in *. simplify_eq.
  apply Forall_app. split; [case_match; [apply value_tool|constructor]|case_match; [apply fragment_tool|constructor]].
Qed.

Lemma update_tool (raw : bytes) (ts : openai_tool_stream) : Forall tool_event (snd (openai_tool_stream_update known ts raw)).
Proof.
  unfold openai_tool_stream_update. generalize (S (S (length raw))) as fuel. intros fuel. revert ts.
  induction fuel as [|fuel IH]; intros ts; cbn [tool_stream_loop]; [constructor|].
  destruct (tool_stream_turn known ts raw) as [[ts1 evs] go] eqn:E. apply turn_tool in E. destruct go; [|done].
  specialize (IH ts1). destruct (tool_stream_loop fuel known ts1 raw) as [ts2 more]. cbn [snd] in *. by apply Forall_app.
Qed.

(** ** States between updates *)

Variable has_tools think : bool.

(** The content starts at [c0], behind the reasoning [r]. *)
Definition content_from (t : bytes) (c0 : nat) (r : bytes) : Prop :=
  if think then exists i, think_close t = Some i /\ c0 = (think_from t + i + 8)%nat /\ r = slice t (think_from t) (think_from t + i)
  else c0 = 0%nat /\ r = [].

Lemma content_from_le (t : bytes) (c0 : nat) (r : bytes) : content_from t c0 r -> (c0 <= length t)%nat.
Proof.
  unfold content_from. destruct think; [|lia]. intros (i & E & -> & _). apply strstr_pos_some in E as [E _].
  apply prefixb_length in E. rewrite !length_drop in E. simpl in E. lia.
Qed.

Lemma content_from_grow (t d : bytes) (c0 : nat) (r : bytes) : content_from t c0 r -> content_from (t ++ d) c0 r.
Proof.
  intros Hc. pose proof (content_from_le _ _ _ Hc) as Hl. unfold content_from in *. destruct think; [|done].
  destruct Hc as (i & E & -> & ->). exists i. split; [by apply think_close_grow|].
  destruct (told_grow t d (think_close_told t i E)) as [_ ->]. split; [done|]. rewrite slice_grow by lia. done.
Qed.

Definition tool_at (t : bytes) (pos : nat) : openai_tool_stream := fst (openai_tool_stream_init t pos).

Inductive live (t : bytes) : openai_stream -> client_view -> Prop :=
| live_prefix st : think = true -> st_mode st = OPENAI_STREAM_THINKING -> checked_think_prefix st = false -> emit_pos st = 0%nat ->
    ~ told t -> live t st ([], [], [])
| live_think st : think = true -> st_mode st = OPENAI_STREAM_THINKING -> checked_think_prefix st = true -> told t ->
    (think_from t <= emit_pos st <= length t)%nat -> think_close t = None ->
    (forall d e, (think_from t <= e)%nat -> str_prefixb (B "</think>") (drop e (t ++ d)) = true -> (emit_pos st <= e)%nat) ->
    live t st (slice t (think_from t) (emit_pos st), [], [])
| live_text st c0 r : content_from t c0 r -> st_mode st = OPENAI_STREAM_TEXT -> (c0 <= emit_pos st <= length t)%nat ->
    (has_tools = true -> no_start t c0 /\ text_safe t c0 (emit_pos st)) ->
    live t st (r, slice t c0 (emit_pos st), [])
| live_tool st c0 r j calls : content_from t c0 r -> has_tools = true -> find_any_tool_start (drop c0 t) = Some j ->
    st_mode st = (if ts_active (st_tool st) then OPENAI_STREAM_TOOL else OPENAI_STREAM_SUPPRESS) ->
    stream_runs known t (tool_at t (c0 + j), []) (st_tool st, calls) ->
    live t st (r, slice t c0 (trim_tool_separator_ws t c0 (c0 + j)), calls).

(** What a final update leaves: the tool stream, if there was one. *)
Inductive finished (t : bytes) : option openai_tool_stream -> client_view -> Prop :=
| fin_think : think = true -> think_close t = None -> finished t None (drop (think_from t) t, [], [])
| fin_text c0 r : content_from t c0 r -> (has_tools = true -> no_start t c0) -> finished t None (r, drop c0 t, [])
| fin_tool c0 r j ts calls : content_from t c0 r -> has_tools = true -> find_any_tool_start (drop c0 t) = Some j ->
    stream_runs known t (tool_at t (c0 + j), []) (ts, calls) ->
    finished t (Some ts) (r, slice t c0 (trim_tool_separator_ws t c0 (c0 + j)), calls).

(** ** The parts of an update *)

(** Ready for the text part, on the text of this update. *)
Definition text_ready (t : bytes) (st : openai_stream) (v : client_view) : Prop :=
  exists c0 r, content_from t c0 r /\ st_mode st = OPENAI_STREAM_TEXT /\ (c0 <= emit_pos st <= length t)%nat /\
    (has_tools = true -> text_safe t c0 (emit_pos st)) /\ v = (r, slice t c0 (emit_pos st), []).

Definition tool_ready (t : bytes) (st : openai_stream) (v : client_view) : Prop :=
  exists c0 r j calls, content_from t c0 r /\ has_tools = true /\ find_any_tool_start (drop c0 t) = Some j /\
    st_mode st = OPENAI_STREAM_TOOL /\ streams t (st_tool st) /\
    (forall c, stream_runs known t (st_tool st, calls) c -> stream_runs known t (tool_at t (c0 + j), []) c) /\
    v = (r, slice t c0 (trim_tool_separator_ws t c0 (c0 + j)), calls).

Definition the_tool (st : openai_stream) (o : option openai_tool_stream) : Prop :=
  match o with Some ts => st_tool st = ts | None => True end.

(** What an update comes to. *)
Definition updated (final : bool) (t : bytes) (st : openai_stream) (v : client_view) : Prop :=
  if final then exists o, finished t o v /\ the_tool st o else live t st v.

Lemma tool_part_updated (t : bytes) (st : openai_stream) (v : client_view) (final : bool) : tool_ready t st v ->
  let r := tool_part known st t (length t) in updated final t (fst r) (foldl see v (snd r)).
Proof.
  intros (c0 & r & j & calls & Hc & Ht & Hj & Hm & Hs & Hr & ->). unfold tool_part. rewrite firstn_all.
  pose proof (update_tool t (st_tool st)) as Htool. pose proof (stream_update_runs known t (st_tool st) calls Hs) as Hrun.
  destruct (openai_tool_stream_update known (st_tool st) t) as [ts evs]. cbn [fst snd] in *. rewrite see_tool by done.
  apply Hr in Hrun. unfold updated. destruct final.
  - exists (Some ts). split; [by eapply fin_tool|]. cbn. by destruct (ts_active ts), st.
  - eapply live_tool; [done..| |]; destruct (ts_active ts) eqn:Ea; destruct st; cbn in *; rewrite ?Ea; done.
Qed.

Lemma find_start_from (t : bytes) (c0 s : nat) : (c0 <= s)%nat -> (forall e, (c0 <= e)%nat -> is_start (drop e t) = true -> (s <= e)%nat) ->
  find_any_tool_start (drop c0 t) = match find_any_tool_start (drop s t) with Some j => Some (s - c0 + j)%nat | None => None end.
Proof.
  intros Hs Hmin. pose proof (any_start (drop c0 t)) as H1. pose proof (any_start (drop s t)) as H2.
  assert (Hat : forall e, (s <= e)%nat -> drop (e - s) (drop s t) = drop e t /\ drop (e - c0) (drop c0 t) = drop e t).
  { intros e He. rewrite !drop_drop. split; f_equal; lia. }
  destruct (find_any_tool_start (drop c0 t)) as [j1|], (find_any_tool_start (drop s t)) as [j2|]; [| | |done].
  - destruct H1 as [H1 H3], H2 as [H2 H4]. f_equal. rewrite drop_drop in H1, H2. pose proof (Hmin (c0 + j1)%nat ltac:(lia) H1) as Hge.
    destruct (Nat.lt_total j1 (s - c0 + j2)) as [Hlt|[|Hgt]]; [|done|].
    + specialize (H4 (c0 + j1 - s)%nat ltac:(lia)). rewrite (proj1 (Hat (c0 + j1)%nat Hge)) in H4. congruence.
    + specialize (H3 (s + j2 - c0)%nat ltac:(lia)). rewrite (proj2 (Hat (s + j2)%nat ltac:(lia))) in H3. congruence.
  - destruct H1 as [H1 _]. rewrite drop_drop in H1. pose proof (Hmin (c0 + j1)%nat ltac:(lia) H1) as Hge.
    specialize (H2 (c0 + j1 - s)%nat). rewrite (proj1 (Hat (c0 + j1)%nat Hge)) in H2. congruence.
  - destruct H2 as [H2 _]. rewrite drop_drop in H2. specialize (H1 (s + j2 - c0)%nat).
    rewrite (proj2 (Hat (s + j2)%nat ltac:(lia))) in H1. congruence.
Qed.

Lemma tool_init (t : bytes) (pos : nat) : is_start (drop pos t) = true ->
  openai_tool_stream_init t pos = (tool_at t pos, true) /\ streams t (tool_at t pos) /\
  forall d, tool_at (t ++ d) pos = tool_at t pos.
Proof.
  intros Hst. destruct (start_bracket t pos Hst) as [Hpos _]. unfold tool_at, openai_tool_stream_init, raw_full_lit.
  unfold is_start, start_markers in Hst. cbn [existsb] in Hst.
  assert (Hg : forall m d, str_prefixb m (drop pos t) = true -> str_prefixb m (drop pos (t ++ d)) = true).
  { intros m d Hm. rewrite drop_grow by lia. by apply prefix_grow. }
  assert (Hsyn : forall syn, syn ∈ dsml_syntaxes -> str_prefixb (tool_calls_start syn) (drop pos t) = true -> streams t (tool_stream_at syn pos)).
  { intros syn Hin Hp _. split; [exact Hin|]. apply prefixb_length in Hp. rewrite length_drop in Hp. cbn. lia. }
  assert (Hlen : forall a b d, str_prefixb b (drop pos t) = true -> str_prefixb a (drop pos t) = false -> a <> [] ->
    incomparable a b = true -> str_prefixb a (drop pos (t ++ d)) = false).
  { intros a b d Hb Ha _ Hi. apply (Hg _ d) in Hb. apply not_true_iff_false. intros Hx. apply str_prefixb_spec in Hb as [r Hr].
    rewrite Hr in Hx. unfold incomparable in Hi. apply andb_true_iff in Hi as [H1 H2]. apply negb_true_iff in H1, H2.
    destruct (prefixb_cases _ _ _ Hx); congruence. }
  destruct (str_prefixb DS4_TOOL_CALLS_START (drop pos t)) eqn:E1.
  { split; [done|]. split; [apply (Hsyn syntax_full); [left|done]|]. intros d. by rewrite (Hg _ d E1). }
  destruct (str_prefixb DS4_TOOL_CALLS_START_SHORT (drop pos t)) eqn:E2.
  { split; [done|]. split; [apply (Hsyn syntax_short); [right; left|done]|]. intros d.
    rewrite (Hlen _ _ d E2 E1) by done. by rewrite (Hg _ d E2). }
  destruct (str_prefixb (B "<tool_calls>") (drop pos t)) eqn:E3; [|done].
  split; [done|]. split; [apply (Hsyn syntax_plain); [right; right; left|done]|]. intros d.
  rewrite (Hlen _ _ d E3 E1), (Hlen _ _ d E3 E2) by done. by rewrite (Hg _ d E3).
Qed.

Definition not_tool (st : openai_stream) : Prop := st_mode st <> OPENAI_STREAM_TOOL.

Lemma ready_start (t : bytes) (c0 s : nat) : (c0 <= s)%nat -> text_safe t c0 s ->
  forall e, (c0 <= e)%nat -> is_start (drop e t) = true -> (s <= e)%nat.
Proof.
  intros Hs Hsafe e He Hst. pose proof (Hsafe [] e He) as Hx. rewrite app_nil_r in Hx. specialize (Hx Hst).
  pose proof (trim_range t c0 e He). lia.
Qed.

Lemma send_delta_state (st : openai_stream) (field raw : bytes) (limit : nat) :
  fst (send_delta st field raw limit) = if (emit_pos st <? limit)%nat then st <| emit_pos := limit |> else st.
Proof. unfold send_delta. by destruct (_ <? _)%nat. Qed.

Lemma text_found (t : bytes) (st : openai_stream) (v : client_view) (final : bool) (i : nat) : text_ready t st v -> has_tools = true ->
  find_any_tool_start (drop (emit_pos st) t) = Some i ->
  let r := text_part has_tools st t (length t) final in tool_ready t (fst r) (foldl see v (snd r)).
Proof.
  intros (c0 & r & Hc & Hm & He & Hsafe & ->) Ht Hi. specialize (Hsafe Ht). unfold text_part. rewrite firstn_all, Ht, Hi.
  pose proof (find_start_from t c0 (emit_pos st) ltac:(lia) (ready_start t c0 (emit_pos st) ltac:(lia) Hsafe)) as Hj. rewrite Hi in Hj.
  pose proof (any_start (drop (emit_pos st) t)) as Hst. rewrite Hi in Hst. destruct Hst as [Hst _]. rewrite drop_drop in Hst.
  destruct (start_bracket t _ Hst) as [Hlt _]. destruct (tool_init t _ Hst) as (Hinit & Hstr & _).
  pose proof (Hsafe [] (emit_pos st + i)%nat ltac:(lia)) as Htrim. rewrite app_nil_r in Htrim. specialize (Htrim Hst).
  assert (Hlim : text_stream_safe_limit t (emit_pos st) (length t) true final = trim_tool_separator_ws t c0 (emit_pos st + i)).
  { unfold text_stream_safe_limit. rewrite (proj2 (Nat.leb_gt _ _)) by lia. rewrite Hi. unfold utf8_stream_safe_len. cbn [orb].
    apply trim_from; [lia|done]. }
  rewrite Hlim. pose proof (see_delta st (B "content") t (trim_tool_separator_ws t c0 (emit_pos st + i)) r (slice t c0 (emit_pos st)) []) as Hsee.
  pose proof (send_delta_state st (B "content") t (trim_tool_separator_ws t c0 (emit_pos st + i))) as Hst1.
  destruct (send_delta st (B "content") t _) as [st1 evs]. cbn [fst snd] in *. rewrite Hinit. cbn [fst snd].
  change (str_eqb (B "content") (B "reasoning_content")) with false in Hsee. cbn iota in Hsee. rewrite Hsee.
  rewrite slice_more by (pose proof (trim_range t c0 (emit_pos st + i) ltac:(lia)); lia).
  assert (Hpos : (c0 + (emit_pos st - c0 + i) = emit_pos st + i)%nat) by lia.
  exists c0, r, (emit_pos st - c0 + i)%nat, []. rewrite Hpos. split; [done|]. split; [done|]. split; [done|].
  split; [by destruct (emit_pos st <? _)%nat, st1|]. split; [by destruct (emit_pos st <? _)%nat, st1|]. split; [|done].
  intros c. by destruct (emit_pos st <? _)%nat, st1.
Qed.

Lemma text_plain (t : bytes) (st : openai_stream) (v : client_view) (final : bool) : text_ready t st v ->
  (if has_tools then find_any_tool_start (drop (emit_pos st) t) else None) = None ->
  let r := text_part has_tools st t (length t) final in not_tool (fst r) /\ updated final t (fst r) (foldl see v (snd r)).
Proof.
  intros (c0 & r & Hc & Hm & He & Hsafe & ->) Hnone. unfold text_part. rewrite Hnone.
  assert (Hno : has_tools = true -> no_start t c0).
  { intros Ht. specialize (Hsafe Ht). rewrite Ht in Hnone.
    pose proof (find_start_from t c0 (emit_pos st) ltac:(lia) (ready_start t c0 (emit_pos st) ltac:(lia) Hsafe)) as Hj. rewrite Hnone in Hj.
    pose proof (any_start (drop c0 t)) as Ha. rewrite Hj in Ha. intros e He2. specialize (Ha (e - c0)%nat).
    rewrite drop_drop in Ha. by replace (c0 + (e - c0))%nat with e in Ha by lia. }
  assert (Hlim : let n := text_stream_safe_limit t (emit_pos st) (length t) has_tools final in
    (emit_pos st <= n <= length t)%nat /\ (has_tools = true -> final = false -> text_safe t c0 n) /\ (final = true -> n = length t)).
  { unfold text_stream_safe_limit. destruct (Nat.leb_spec (length t) (emit_pos st)) as [Hl|Hl].
    { cbv zeta. split; [lia|]. split; [|done]. intros Ht _. replace (length t) with (emit_pos st) by lia. by apply Hsafe. }
    rewrite Hnone. destruct final; [rewrite andb_false_r; unfold utf8_stream_safe_len; cbn [orb]; split; [lia|done]|].
    destruct has_tools eqn:Ht; cbn [negb andb].
    - pose proof (text_limit_safe t c0 (emit_pos st) He (Hno eq_refl) (Hsafe eq_refl)) as [H1 H2].
      unfold text_stream_safe_limit in H1, H2. rewrite (proj2 (Nat.leb_gt _ _) Hl), Hnone in H1, H2. cbn [negb andb] in H1, H2.
      split; [exact H1|]. split; [intros _ _; exact H2|done].
    - pose proof (utf8_safe_range t (emit_pos st) (length t) false ltac:(lia)). split; [lia|]. by split. }
  cbv zeta in Hlim. set (n := text_stream_safe_limit t (emit_pos st) (length t) has_tools final) in *. destruct Hlim as (Hr & Hs & Hf).
  pose proof (see_delta st (B "content") t n r (slice t c0 (emit_pos st)) []) as Hsee.
  pose proof (send_delta_state st (B "content") t n) as Hst1.
  destruct (send_delta st (B "content") t n) as [st1 evs]. cbn [fst snd] in *. subst st1.
  change (str_eqb (B "content") (B "reasoning_content")) with false in Hsee. cbn iota in Hsee. rewrite Hsee, slice_more by lia.
  set (st2 := if (emit_pos st <? n)%nat then (if (emit_pos st <? n)%nat then st <| emit_pos := n |> else st) <| sent_content := true |> else _).
  assert (H2 : st_mode st2 = OPENAI_STREAM_TEXT /\ emit_pos st2 = n).
  { unfold st2. destruct (Nat.ltb_spec (emit_pos st) n); destruct st; cbn in *; split; (done || lia). }
  destruct H2 as [Hm2 He2]. clearbody st2. unfold updated, not_tool. destruct final.
  - split; [by destruct st2|]. rewrite (Hf eq_refl), slice_all. exists None. split; [|done]. by apply fin_text.
  - split; [by rewrite Hm2|]. rewrite <- He2. eapply live_text; [done|done|lia|]. intros Ht. split; [by apply Hno|].
    rewrite He2. by apply Hs.
Qed.

Definition CLOSE : bytes := B "</think>".

(** The reasoning sent so far is safe, and so is what comes. *)
Definition think_safe (t : bytes) (n : nat) : Prop :=
  (think_from t <= n <= length t)%nat /\
  forall d e, (think_from t <= e)%nat -> str_prefixb CLOSE (drop e (t ++ d)) = true -> (n <= e)%nat.

Lemma prefix_within (m t : bytes) : (length m <=? length t)%nat && str_prefixb m t = str_prefixb m t.
Proof.
  destruct (str_prefixb m t) eqn:E; [|by rewrite andb_false_r]. apply prefixb_length in E. by rewrite (proj2 (Nat.leb_le _ _) E).
Qed.

Definition think_ready (t : bytes) (st : openai_stream) (v : client_view) : Prop :=
  think = true /\ st_mode st = OPENAI_STREAM_THINKING /\
  if checked_think_prefix st then told t /\ think_safe t (emit_pos st) /\ v = (slice t (think_from t) (emit_pos st), [], [])
  else emit_pos st = 0%nat /\ v = ([], [], []).

Lemma think_safe_start (t : bytes) : think_safe t (think_from t).
Proof. split; [pose proof (think_from_le t); lia|]. by intros. Qed.

Lemma close_at (t : bytes) (s : nat) : think_safe t s ->
  think_close t = match strstr_pos (drop s t) CLOSE with Some i => Some (s - think_from t + i)%nat | None => None end.
Proof.
  intros [Hr Hs]. unfold think_close. fold CLOSE. destruct (strstr_pos (drop s t) CLOSE) as [i|] eqn:E.
  - apply strstr_pos_some in E as [H1 H2]. apply strstr_here.
    + rewrite drop_drop in *. by replace (think_from t + (s - think_from t + i))%nat with (s + i)%nat by lia.
    + intros j Hj. apply not_true_iff_false. intros Hx. rewrite drop_drop in Hx.
      pose proof (Hs [] (think_from t + j)%nat ltac:(lia)) as Hge. rewrite app_nil_r in Hge. specialize (Hge Hx).
      specialize (H2 (think_from t + j - s)%nat ltac:(lia)). rewrite drop_drop in H2.
      replace (s + (think_from t + j - s))%nat with (think_from t + j)%nat in H2 by lia. congruence.
  - destruct (strstr_pos (drop (think_from t) t) CLOSE) as [e|] eqn:E2; [|done]. exfalso.
    apply strstr_pos_some in E2 as [H1 _]. rewrite drop_drop in H1.
    pose proof (Hs [] (think_from t + e)%nat ltac:(lia)) as Hge. rewrite app_nil_r in Hge. specialize (Hge H1).
    pose proof (strstr_pos_none _ _ E (think_from t + e - s)%nat) as H2. rewrite drop_drop in H2.
    replace (s + (think_from t + e - s))%nat with (think_from t + e)%nat in H2 by lia. congruence.
Qed.

Lemma think_limit (t : bytes) (s : nat) : think_safe t s -> strstr_pos (drop s t) CLOSE = None ->
  let hold := utf8_stream_safe_len t s (if (7 <? length t)%nat then (length t - 7)%nat else s) false in
  let n := if (s <? hold)%nat then hold else s in think_safe t n.
Proof.
  intros [Hr Hs] Hno hold n. assert (Hn : (s <= n)%nat /\ (n <= length t)%nat /\ (n = s \/ n <= length t - 7)%nat).
  { unfold n. destruct (Nat.ltb_spec s hold) as [Hlt|]; [|lia]. unfold hold in *.
    destruct (Nat.ltb_spec 7 (length t)); [|rewrite Nat.leb_refl in Hlt || idtac].
    - destruct (Nat.le_gt_cases s (length t - 7)) as [Hl|Hl].
      + pose proof (utf8_safe_range t s (length t - 7) false Hl). lia.
      + unfold utf8_stream_safe_len in Hlt |- *. rewrite (proj2 (Nat.leb_le _ _)) in Hlt |- * by lia. cbn [orb] in *. lia.
    - unfold utf8_stream_safe_len in Hlt. rewrite Nat.leb_refl in Hlt. cbn [orb] in Hlt. lia. }
  clearbody n. split; [lia|]. intros d e He Hp. pose proof (Hs d e He Hp) as Hse. destruct Hn as (_ & _ & [->|Hn]); [done|].
  destruct (Nat.le_gt_cases (e + 8) (length t)) as [Hfit|]; [|lia]. exfalso.
  rewrite drop_grow, prefix_fixed in Hp by (rewrite ?length_drop; change (length CLOSE) with 8%nat; lia).
  pose proof (strstr_pos_none _ _ Hno (e - s)%nat) as H2. rewrite drop_drop in H2. replace (s + (e - s))%nat with e in H2 by lia. congruence.
Qed.

(** The thinking part behind the test of the prefix, sending from [s]. *)
Lemma thinking_rest (t : bytes) (st : openai_stream) (final : bool) : think = true -> st_mode st = OPENAI_STREAM_THINKING ->
  checked_think_prefix st = true -> (final = false -> told t) -> think_safe t (emit_pos st) ->
  let r := thinking_part st t (length t) final in
  let v := foldl see (slice t (think_from t) (emit_pos st), [], []) (snd (fst r)) in
  if snd r then text_ready t (fst (fst r)) v else not_tool (fst (fst r)) /\ updated final t (fst (fst r)) v.
Proof.
  intros Hth Hm Hck Htold Hsafe. unfold thinking_part. rewrite Hck. cbn [negb andb]. fold CLOSE.
  pose proof (close_at t (emit_pos st) Hsafe) as Hclose. pose proof Hsafe as [Hr _].
  set (limit := match strstr_pos (drop (emit_pos st) t) CLOSE with Some i => _ | None => _ end).
  pose proof (see_delta st (B "reasoning_content") t limit (slice t (think_from t) (emit_pos st)) [] []) as Hsee.
  pose proof (send_delta_state st (B "reasoning_content") t limit) as Hst1.
  destruct (send_delta st (B "reasoning_content") t limit) as [st1 evs]. cbn [fst snd] in *. subst st1.
  change (str_eqb (B "reasoning_content") (B "reasoning_content")) with true in Hsee. cbn iota in Hsee.
  set (st2 := if (emit_pos st <? limit)%nat then _ <| sent_reasoning := true |> else _).
  assert (H2 : st_mode st2 = OPENAI_STREAM_THINKING /\ checked_think_prefix st2 = true /\ emit_pos st2 = if (emit_pos st <? limit)%nat then limit else emit_pos st).
  { unfold st2. by destruct (emit_pos st <? limit)%nat, st. }
  destruct H2 as (Hm2 & Hck2 & He2). clearbody st2.
  destruct (strstr_pos (drop (emit_pos st) t) CLOSE) as [i|] eqn:E; cbn [fst snd].
  - rewrite Hsee. assert (Hl : (emit_pos st + i + 8 <= length t)%nat).
    { apply strstr_pos_some in E as [E _]. apply prefixb_length in E. rewrite !length_drop in E. change (length CLOSE) with 8%nat in E. lia. }
    rewrite slice_more by (unfold limit; lia). change (length CLOSE) with 8%nat.
    exists (emit_pos st + i + 8)%nat, (slice t (think_from t) (emit_pos st + i)). split.
    { unfold content_from. rewrite Hth. exists (emit_pos st - think_from t + i)%nat. split; [done|]. split; [lia|]. f_equal. lia. }
    split; [by destruct st2|]. assert (Hep : emit_pos (st2 <| emit_pos := (emit_pos st + i + 8)%nat |> <| st_mode := OPENAI_STREAM_TEXT |>) = (emit_pos st + i + 8)%nat) by (by destruct st2).
    rewrite Hep. split; [lia|]. split; [intros _ d e He _; pose proof (trim_range (t ++ d) _ e He); lia|]. by rewrite (slice_empty t (emit_pos st + i + 8)) by lia.
  - destruct final; cbn [fst snd]; (split; [unfold not_tool; destruct st2; cbn in *; congruence|]); unfold updated.
    + exists None. split; [|done]. rewrite Hsee, slice_more by (unfold limit; lia). unfold limit. rewrite slice_all. by apply fin_think.
    + pose proof (think_limit t (emit_pos st) Hsafe E) as Hnext. cbv zeta in Hnext.
      change (length CLOSE - 1)%nat with 7%nat in limit. fold limit in Hnext. rewrite <- He2 in Hnext.
      assert (Hv : slice t (think_from t) (emit_pos st) ++ slice t (emit_pos st) limit = slice t (think_from t) (emit_pos st2)).
      { rewrite He2. destruct (Nat.ltb_spec (emit_pos st) limit); [apply slice_more; lia|].
        rewrite (slice_empty t (emit_pos st) limit) by lia. by rewrite app_nil_r. }
      rewrite Hsee, Hv. destruct Hnext as [Hn1 Hn2]. by apply live_think; auto.
Qed.

Lemma thinking_part_ready (t : bytes) (st : openai_stream) (v : client_view) (final : bool) : think_ready t st v ->
  let r := thinking_part st t (length t) final in
  let v' := foldl see v (snd (fst r)) in
  if snd r then text_ready t (fst (fst r)) v' else not_tool (fst (fst r)) /\ updated final t (fst (fst r)) v'.
Proof.
  intros (Hth & Hm & Hv). destruct (checked_think_prefix st) eqn:Hck.
  { destruct Hv as (Htold & Hsafe & ->). by apply thinking_rest. }
  destruct Hv as [He ->]. destruct ((length t <? 7)%nat && str_prefixb t (B "<think>") && negb final) eqn:E; pose proof (prefix_within (B "<think>") t) as Hin;
    change (length (B "<think>")) with 7%nat in Hin.
  { unfold thinking_part. rewrite Hck. cbn [negb andb]. change (length (B "<think>")) with 7%nat. rewrite firstn_all, E. cbn [fst snd].
    apply andb_true_iff in E as [E Hf]. apply andb_true_iff in E as [E1 E2]. apply Nat.ltb_lt in E1. destruct final; [done|].
    split; [unfold not_tool; congruence|]. apply live_prefix; [done..|]. intros [|]; [lia|congruence]. }
  set (st0 := st <| emit_pos := think_from t |> <| checked_think_prefix := true |>).
  assert (Heq : thinking_part st t (length t) final = thinking_part st0 t (length t) final).
  { unfold thinking_part at 1. rewrite Hck. cbn [negb andb]. change (length (B "<think>")) with 7%nat. rewrite firstn_all, E.
    unfold thinking_part. rewrite Hin. cbn [st0]. assert (Hst : (if str_prefixb (B "<think>") t then st <| emit_pos := 7%nat |> else st) <| checked_think_prefix := true |> = st0).
    { unfold st0, think_from. destruct (str_prefixb (B "<think>") t), st; cbn in *; by subst. }
    by rewrite Hst. }
  rewrite Heq. assert (He0 : emit_pos st0 = think_from t) by (by destruct st).
  pose proof (thinking_rest t st0 final Hth ltac:(by destruct st) ltac:(by destruct st)) as H1. rewrite He0 in H1.
  rewrite (slice_empty t (think_from t) (think_from t)) in H1 by lia. apply H1; [|apply think_safe_start].
  intros ->. rewrite andb_true_r in E. apply andb_false_iff in E as [E|E]; [apply Nat.ltb_ge in E; by left|by right].
Qed.

(** ** Updates *)

Lemma text_safe_grow (t d : bytes) (c0 n : nat) : text_safe t c0 n -> text_safe (t ++ d) c0 n.
Proof. intros Hs d2 e He Hst. rewrite <- app_assoc in *. by apply Hs. Qed.

Inductive ready (t : bytes) (st : openai_stream) (v : client_view) : Prop :=
| ready_think : think_ready t st v -> ready t st v
| ready_text : text_ready t st v -> ready t st v
| ready_tool : tool_ready t st v -> ready t st v
| ready_done : st_mode st = OPENAI_STREAM_SUPPRESS -> (forall final, updated final t st v) -> ready t st v.

Lemma live_grow (t d : bytes) (st : openai_stream) (v : client_view) : live t st v -> ready (t ++ d) st v.
Proof.
  intros Hl. pose proof (length_app t d) as Hlen. destruct Hl as [st Hth Hm Hck He Htold|st Hth Hm Hck Htold Hr Hcl Hs|st c0 r Hc Hm He Hs|st c0 r j calls Hc Ht Hj Hm Hr].
  - apply ready_think. split; [done|]. split; [done|]. by rewrite Hck.
  - apply ready_think. destruct (told_grow t d Htold) as [H1 H2]. split; [done|]. split; [done|]. rewrite Hck. split; [done|].
    unfold think_safe. rewrite H2. split; [|by rewrite slice_grow by lia]. split; [lia|]. intros d2 e He Hp.
    rewrite <- app_assoc in Hp. by apply (Hs (d ++ d2)).
  - apply ready_text. exists c0, r. split; [by apply content_from_grow|]. split; [done|]. split; [lia|].
    split; [|by rewrite slice_grow by lia]. intros Ht. by apply text_safe_grow, Hs.
  - pose proof (content_from_le _ _ _ Hc) as Hle. pose proof (any_start (drop c0 t)) as Hst. rewrite Hj in Hst. destruct Hst as [Hst _].
    rewrite drop_drop in Hst. destruct (start_bracket t _ Hst) as [Hlt _]. destruct (tool_init t _ Hst) as (_ & Hstr & Hg).
    pose proof (trim_range t c0 (c0 + j) ltac:(lia)) as Htr.
    assert (Hj' : find_any_tool_start (drop c0 (t ++ d)) = Some j) by (rewrite drop_grow by lia; by apply find_start_stable).
    assert (Hmore : forall c, stream_runs known (t ++ d) (st_tool st, calls) c -> stream_runs known (t ++ d) (tool_at (t ++ d) (c0 + j), []) c).
    { intros c Hc2. rewrite Hg. exact (runs_more known t d (tool_at t (c0 + j), []) (st_tool st, calls) c Hstr Hr Hc2). }
    pose proof (runs_streams known t (tool_at t (c0 + j), []) (st_tool st, calls) Hstr Hr) as Hs2. cbn [fst] in Hs2.
    rewrite <- (slice_grow t d), <- (trim_grow t d) by (rewrite ?trim_grow by lia; lia).
    destruct (ts_active (st_tool st)) eqn:Ha.
    + apply ready_tool. exists c0, r, j, calls. split; [by apply content_from_grow|]. split; [done|]. split; [done|]. split; [done|].
      split; [by apply streams_grow|]. by split.
    + assert (Hfin : stream_runs known (t ++ d) (tool_at (t ++ d) (c0 + j), []) (st_tool st, calls)).
      { apply Hmore. apply (stream_stop known (t ++ d) (st_tool st) (st_tool st) [] calls).
        - intros (Hw & _). congruence.
        - unfold tool_stream_turn. by rewrite Ha. }
      apply ready_done; [done|]. intros final. destruct final.
      * exists (Some (st_tool st)). split; [|done]. eapply fin_tool; [by apply content_from_grow|done..].
      * eapply live_tool; [by apply content_from_grow|done|done| |done]. by rewrite Ha.
Qed.

Lemma active_kept (t : bytes) (len : nat) (st : openai_stream) (final : bool) :
  st_active (fst (openai_sse_stream_update known has_tools st t len final)) = st_active st.
Proof.
  assert (Hsend : forall s field n, st_active (fst (send_delta s field t n)) = st_active s).
  { intros s field n. rewrite send_delta_state. destruct (_ <? _)%nat; by destruct s. }
  assert (H1 : forall s, st_active (fst (fst (thinking_part s t len final))) = st_active s).
  { intros s. unfold thinking_part. destruct (_ && negb final); [done|].
    set (s1 := if negb (checked_think_prefix s) then _ else s). assert (Hs1 : st_active s1 = st_active s).
    { unfold s1. destruct (negb _); [|done]. destruct (_ && str_prefixb _ t); by destruct s. }
    rewrite <- Hs1. clearbody s1. set (n := match strstr_pos _ _ with Some i => _ | None => _ end).
    pose proof (Hsend s1 (B "reasoning_content") n) as Hs2. destruct (send_delta s1 _ t n) as [s2 evs]. cbn [fst] in Hs2. rewrite <- Hs2.
    destruct (strstr_pos _ _), final, (emit_pos s1 <? n)%nat; by destruct s2. }
  assert (H2 : forall s, st_active (fst (text_part has_tools s t len final)) = st_active s).
  { intros s. unfold text_part. set (n := text_stream_safe_limit _ _ _ _ _). set (o := if has_tools then _ else None).
    pose proof (Hsend s (B "content") n) as Hs2. destruct (send_delta s _ t n) as [s2 evs]. cbn [fst] in Hs2. rewrite <- Hs2.
    destruct o as [i|]; [destruct (openai_tool_stream_init _ _)|destruct final]; destruct (emit_pos s <? n)%nat; by destruct s2. }
  assert (H3 : forall s, st_active (fst (tool_part known s t len)) = st_active s).
  { intros s. unfold tool_part. destruct (openai_tool_stream_update _ _ _) as [ts evs]. cbn [fst]. destruct (ts_active _); by destruct s. }
  unfold openai_sse_stream_update. destruct (negb (st_active st)); [done|].
  assert (Ha : exists a, (match st_mode st with OPENAI_STREAM_THINKING => thinking_part st t len final | _ => (st, [], true) end) = a /\ st_active (fst (fst a)) = st_active st).
  { eexists. split; [reflexivity|]. destruct (st_mode st); auto. }
  destruct Ha as ([[s1 e1] go] & -> & <-). cbn [fst]. destruct (negb go); [done|].
  assert (Hb : exists b, (match st_mode s1 with OPENAI_STREAM_TEXT => text_part has_tools s1 t len final | _ => (s1, []) end) = b /\ st_active (fst b) = st_active s1).
  { eexists. split; [reflexivity|]. destruct (st_mode s1); auto. }
  destruct Hb as ([s2 e2] & -> & <-). cbn [fst].
  assert (Hc : exists c, (match st_mode s2 with OPENAI_STREAM_TOOL => tool_part known s2 t len | _ => (s2, []) end) = c /\ st_active (fst c) = st_active s2).
  { eexists. split; [reflexivity|]. destruct (st_mode s2); auto. }
  by destruct Hc as ([s3 e3] & -> & <-).
Qed.

Lemma suppressed (t : bytes) (st : openai_stream) (final : bool) : st_mode st = OPENAI_STREAM_SUPPRESS ->
  openai_sse_stream_update known has_tools st t (length t) final = (st, []).
Proof. intros Hm. unfold openai_sse_stream_update. rewrite Hm. destruct (negb (st_active st)); [done|]. cbn [negb]. rewrite Hm. cbv iota beta. by rewrite Hm. Qed.

(** The text part and the tool part in a row. *)
Lemma text_then_tool (t : bytes) (st : openai_stream) (v : client_view) (final : bool) : text_ready t st v ->
  let r2 := text_part has_tools st t (length t) final in
  let r3 := match st_mode (fst r2) with OPENAI_STREAM_TOOL => tool_part known (fst r2) t (length t) | _ => (fst r2, []) end in
  updated final t (fst r3) (foldl see v (snd r2 ++ snd r3)).
Proof.
  intros Hr. destruct (if has_tools then find_any_tool_start (drop (emit_pos st) t) else None) as [i|] eqn:E.
  - destruct has_tools eqn:Ht; [|done]. rewrite <- Ht in *. pose proof (text_found t st v final i Hr Ht E) as H2. cbv zeta in *.
    destruct (text_part has_tools st t (length t) final) as [s2 e2]. cbn [fst snd] in *. pose proof H2 as (_ & _ & _ & _ & _ & _ & _ & Hm & _).
    rewrite Hm. rewrite foldl_app. by apply tool_part_updated.
  - pose proof (text_plain t st v final Hr E) as [Hn H2]. cbv zeta in *.
    destruct (text_part has_tools st t (length t) final) as [s2 e2]. cbn [fst snd] in *. unfold not_tool in Hn.
    destruct (st_mode s2); try done; cbn [fst snd]; rewrite app_nil_r; exact H2.
Qed.

Lemma update_updated (t : bytes) (st : openai_stream) (v : client_view) (final : bool) : st_active st = true -> ready t st v ->
  let r := openai_sse_stream_update known has_tools st t (length t) final in updated final t (fst r) (foldl see v (snd r)).
Proof.
  intros Ha [Hr|Hr|Hr|Hm Hr].
  - pose proof (thinking_part_ready t st v final Hr) as H1. destruct Hr as (_ & Hm & _). unfold openai_sse_stream_update. rewrite Ha, Hm. cbn [negb].
    cbv zeta in H1. destruct (thinking_part st t (length t) final) as [[s1 e1] go]. cbn [fst snd] in H1. destruct go; cbn [negb].
    + pose proof H1 as (_ & _ & _ & Hm1 & _). rewrite Hm1. pose proof (text_then_tool t s1 _ final H1) as H2. cbv zeta in H2.
      destruct (text_part has_tools s1 t (length t) final) as [s2 e2]. cbn [fst snd] in H2.
      destruct (match st_mode s2 with OPENAI_STREAM_TOOL => tool_part known s2 t (length t) | _ => (s2, []) end) as [s3 e3]. cbn [fst snd] in *.
      by rewrite !foldl_app in *.
    + destruct H1 as [_ H1]. exact H1.
  - pose proof (text_then_tool t st v final Hr) as H2. destruct Hr as (_ & _ & _ & Hm & _). unfold openai_sse_stream_update. rewrite Ha, Hm. cbn [negb].
    rewrite Hm. cbv zeta in H2. destruct (text_part has_tools st t (length t) final) as [s2 e2]. cbn [fst snd] in H2.
    destruct (match st_mode s2 with OPENAI_STREAM_TOOL => tool_part known s2 t (length t) | _ => (s2, []) end) as [s3 e3]. exact H2.
  - pose proof (tool_part_updated t st v final Hr) as H2. destruct Hr as (_ & _ & _ & _ & _ & _ & _ & Hm & _).
    unfold openai_sse_stream_update. rewrite Ha, Hm. cbn [negb]. rewrite Hm. cbv iota beta. rewrite Hm. destruct (tool_part known st t (length t)) as [s3 e3]. exact H2.
  - rewrite suppressed by done. apply Hr.
Qed.

Lemma text_part_sent (t : bytes) (st : openai_stream) : let n := stream_len t in
  text_part has_tools st (take n t) n false = text_part has_tools st t n false.
Proof.
  intros n. unfold text_part. rewrite take_take, Nat.min_id. pose proof (limit_sent t (emit_pos st) has_tools) as Hl. cbv zeta in Hl. fold n in Hl.
  pose proof (start_sent t (emit_pos st)) as Hstart. fold n in Hstart. rewrite Hl, Hstart. rewrite send_sent; [done|]. intros Hlt.
  rewrite <- Hl in *. unfold text_stream_safe_limit in *. destruct (Nat.leb_spec n (emit_pos st)) as [|Hn]; [lia|].
  destruct (if has_tools then find_any_tool_start (drop (emit_pos st) (take n t)) else None) as [j|] eqn:E.
  - destruct has_tools; [|done]. pose proof (any_start (drop (emit_pos st) (take n t))) as Hst. rewrite E in Hst.
    destruct Hst as [Hst _]. apply start_bracket in Hst as [Hj _]. rewrite length_drop, length_take in Hj.
    unfold utf8_stream_safe_len. cbn [orb]. pose proof (trim_le_limit (take n t) (emit_pos st) (emit_pos st + j)). lia.
  - match type of Hlt with (_ < utf8_stream_safe_len ?x ?y ?l false)%nat => set (l0 := l) in *; destruct (Nat.le_gt_cases l0 y) as [Hle|Hgt] end.
    + unfold utf8_stream_safe_len in Hlt. rewrite (proj2 (Nat.leb_le _ _) Hle) in Hlt. cbn [orb] in Hlt. lia.
    + pose proof (utf8_safe_range (take n t) (emit_pos st) l0 false ltac:(lia)) as Hr. enough (l0 <= n)%nat by lia. unfold l0.
      destruct (has_tools && negb false); [|lia]. etransitivity; [apply trim_le_limit|].
      pose proof (trim_le_limit (take n t) (emit_pos st) n).
      destruct (last_bracket _ _ _) as [m|]; [destruct (Nat.ltb_spec m (trim_tool_separator_ws (take n t) (emit_pos st) n))|]; lia.
Qed.

(** An update on the whole text with what may be sent is an update on what
    may be sent. *)
Lemma update_sent (t : bytes) (st : openai_stream) : let n := stream_len t in
  openai_sse_stream_update known has_tools st t n false = openai_sse_stream_update known has_tools st (take n t) (length (take n t)) false.
Proof.
  intros n. pose proof (stream_len_le t) as Hle. fold n in Hle. rewrite length_take, Nat.min_l by done.
  unfold openai_sse_stream_update. destruct (negb (st_active st)); [done|].
  pose proof (thinking_sent t st) as H1. cbv zeta in H1. fold n in H1. rewrite H1.
  destruct (match st_mode st with OPENAI_STREAM_THINKING => _ | _ => _ end) as [[s1 e1] go]. destruct (negb go); [done|].
  pose proof (text_part_sent t s1) as H2. cbv zeta in H2. fold n in H2. rewrite H2.
  destruct (match st_mode s1 with OPENAI_STREAM_TEXT => _ | _ => _ end) as [s2 e2].
  unfold tool_part. by rewrite take_take, Nat.min_id.
Qed.

(** The updates of [generate_job] for a request without stop sequences: one
    after each piece, of what [stream_len] lets through, and a final one. *)
Fixpoint message_pieces (st : openai_stream) (v : client_view) (raw : bytes) (pieces : list bytes) : openai_stream * client_view :=
  match pieces with
  | [] => let r := openai_sse_stream_update known has_tools st raw (length raw) true in (fst r, foldl see v (snd r))
  | p :: pieces' =>
      let text := raw ++ p in
      let r := openai_sse_stream_update known has_tools st text (stream_len text) false in
      message_pieces (fst r) (foldl see v (snd r)) text pieces'
  end.

Lemma pieces_finished (pieces : list bytes) : forall raw st v, st_active st = true -> live (take (stream_len raw) raw) st v ->
  let r := message_pieces st v raw pieces in exists o, finished (raw ++ concat pieces) o (snd r) /\ the_tool (fst r) o.
Proof.
  induction pieces as [|p ps IH]; intros raw st v Ha Hl; cbn [message_pieces concat].
  - pose proof (update_updated raw st v true Ha) as H1. rewrite app_nil_r. apply H1.
    rewrite <- (take_drop (stream_len raw) raw). by apply live_grow.
  - rewrite app_assoc. apply IH; [by rewrite active_kept|]. rewrite update_sent.
    apply (update_updated (take (stream_len (raw ++ p)) (raw ++ p)) st v false Ha).
    pose proof (stream_len_le raw). pose proof (stream_len_grow raw p) as Hg.
    assert (E : take (stream_len (raw ++ p)) (raw ++ p) =
      take (stream_len raw) raw ++ drop (stream_len raw) (take (stream_len (raw ++ p)) (raw ++ p))).
    { rewrite <- (take_app_le raw p (stream_len raw)) by done.
      rewrite <- (take_drop (stream_len raw) (take (stream_len (raw ++ p)) (raw ++ p))) at 1. f_equal. rewrite take_take. f_equal. lia. }
    rewrite E. by apply live_grow.
Qed.

Lemma live_start (r : request) : think = ds4_think_mode_enabled (think_mode r) -> live [] (openai_stream_start r) ([], [], []).
Proof.
  intros Hth. unfold openai_stream_start. rewrite <- Hth. destruct think eqn:E.
  - apply live_prefix; [done..|]. intros [H1|H1]; [simpl in H1; lia|done].
  - apply (live_text [] (OpenaiStream OPENAI_STREAM_TEXT 0 true false false false zero_tool_stream) 0 []); [by unfold content_from; rewrite E|done|cbn; lia|]. intros _. split; [by intros e He; rewrite drop_nil|].
    intros d e He _. cbn. lia.
Qed.

Lemma finished_same (t : bytes) (o1 o2 : option openai_tool_stream) (v1 v2 : client_view) : finished t o1 v1 -> finished t o2 v2 ->
  match o2 with Some ts => ts_state ts <> DSML_TOOL_PARAM_VALUE | None => True end -> v1 = v2 /\ o1 = o2.
Proof.
  assert (Huniq : forall c1 c2 r1 r2, content_from t c1 r1 -> content_from t c2 r2 -> c1 = c2 /\ r1 = r2).
  { intros c1 c2 r1 r2. unfold content_from. destruct think; [|by intros [-> ->] [-> ->]].
    intros (i & E1 & -> & ->) (i2 & E2 & -> & ->). rewrite E1 in E2. by injection E2 as ->. }
  assert (Hth : forall c r, think = true -> think_close t = None -> content_from t c r -> False).
  { intros c r Ht Hc. unfold content_from. rewrite Ht. intros (i & E & _). congruence. }
  assert (Hst : forall c j, no_start t c -> find_any_tool_start (drop c t) = Some j -> False).
  { intros c j Hn E. pose proof (any_start (drop c t)) as H1. rewrite E in H1. destruct H1 as [H1 _]. rewrite drop_drop in H1.
    by rewrite Hn in H1 by lia. }
  intros [Ht Hc|c0 r Hc Hn|c0 r j ts calls Hc Ht Hj Hr] [Ht2 Hc2|c2 r2 Hc2 Hn2|c2 r2 j2 ts2 calls2 Hc2 Ht2 Hj2 Hr2] Hv; try done;
    try (by destruct (Hth _ _ Ht Hc Hc2)); try (by destruct (Hth _ _ Ht2 Hc2 Hc)); destruct (Huniq _ _ _ _ Hc Hc2) as [<- <-].
  - done.
  - by destruct (Hst c0 j2 (Hn Ht2) Hj2).
  - by destruct (Hst c0 j (Hn2 Ht) Hj).
  - rewrite Hj in Hj2. injection Hj2 as <-. pose proof (any_start (drop c0 t)) as H1. rewrite Hj in H1. destruct H1 as [H1 _]. rewrite drop_drop in H1.
    destruct (tool_init t _ H1) as (_ & Hstr & _).
    pose proof (runs_only known t (tool_at t (c0 + j), []) (ts2, calls2) (ts, calls) Hstr Hr2 Hr Hv) as E. by injection E as -> ->.
Qed.
End Message.

(** ** Theorems *)

(** What an OpenAI client has received at the end does not depend on how
    the text arrived: after an update for each of any pieces and the final
    one, the reasoning, the content and the calls with their ids, names and
    arguments are those of a single final update on the whole text, as long as
    the text does not stop inside the value of a parameter. *)
Theorem openai_stream_pieces `{ToolIds} (known : list bytes) (has_tools : bool) (r : request) (pieces : list bytes) :
  let one := openai_sse_stream_update known has_tools (openai_stream_start r) (concat pieces) (length (concat pieces)) true in
  ts_state (st_tool (fst one)) <> DSML_TOOL_PARAM_VALUE ->
  snd (message_pieces known has_tools (openai_stream_start r) ([], [], []) [] pieces) = foldl see ([], [], []) (snd one).
Proof.
  intros one Hv. set (think := ds4_think_mode_enabled (think_mode r)).
  pose proof (live_start known has_tools think r eq_refl) as Hl.
  destruct (pieces_finished known has_tools think pieces [] (openai_stream_start r) _ eq_refl Hl) as (o1 & H1 & _).
  pose proof (update_updated known has_tools think (concat pieces) (openai_stream_start r) _ true eq_refl
    (live_grow known has_tools think [] (concat pieces) _ _ Hl)) as (o2 & H2 & Ht2).
  apply (finished_same known has_tools think (concat pieces) o1 o2 _ _ H1 H2). destruct o2 as [ts|]; [|done].
  cbn in Ht2. by rewrite <- Ht2.
Qed.

Lemma markers_no_lf (m : bytes) : m ∈ start_markers -> LF ∉ m.
Proof.
  intros [-> |[-> |[-> |[]%elem_of_nil]%elem_of_cons]%elem_of_cons]%elem_of_cons; by apply (bool_decide_unpack _).
Qed.

(** The block's tag is the first behind [c0]. *)
Lemma first_behind (content d : bytes) (c0 : nat) : (c0 <= length content)%nat -> find_any_tool_start (drop c0 content) = None ->
  is_start d = true -> find_any_tool_start (drop c0 (content ++ [LF; LF] ++ d)) = Some (length content + 2 - c0)%nat.
Proof.
  intros Hc Hno Hd. pose proof (any_start (drop c0 content)) as Hn. rewrite Hno in Hn. set (t := content ++ [LF; LF] ++ d).
  assert (Hat : drop (length content + 2) t = d).
  { unfold t. rewrite app_assoc. replace (length content + 2)%nat with (length (content ++ [LF; LF])) by (rewrite length_app; done).
    apply drop_app_length. }
  assert (Hbefore : forall e, (c0 <= e < length content + 2)%nat -> is_start (drop e t) = false).
  { intros e He. apply not_true_iff_false. intros Hst. apply start_shape in Hst as (m & Hin & Hp & Hl & _).
    set (x := Nat.max e (length content)). assert (Hx : (e <= x < length content + 2)%nat) by lia.
    assert (Hlf : nth x (content ++ [LF; LF]) NUL = LF).
    { rewrite app_nth2 by lia. assert (x - length content = 0 \/ x - length content = 1)%nat as [-> | ->] by lia; done. }
    unfold t in Hp. rewrite app_assoc in Hp. assert (Hlen : length (content ++ [LF; LF]) = (length content + 2)%nat) by (by rewrite length_app).
    destruct (Nat.le_gt_cases (e + length m) x) as [Hfit|Hover].
    - rewrite <- app_assoc, drop_grow, prefix_fixed in Hp by (rewrite ?length_drop; lia).
      specialize (Hn (e - c0)%nat). rewrite drop_drop in Hn. replace (c0 + (e - c0))%nat with e in Hn by lia.
      apply not_true_iff_false in Hn. apply Hn, existsb_exists. exists m. split; [by apply list_elem_of_In|done].
    - rewrite (lit_inside (content ++ [LF; LF]) d m e x Hp) in Hlf by lia. apply (markers_no_lf m Hin). rewrite <- Hlf.
      apply list_elem_of_In, nth_In. lia. }
  pose proof (any_start (drop c0 t)) as Ht. destruct (find_any_tool_start (drop c0 t)) as [j|].
  - destruct Ht as [H1 H2]. f_equal. rewrite drop_drop in H1. destruct (Nat.lt_total j (length content + 2 - c0)) as [Hlt|[|Hgt]]; [|done|].
    + by rewrite Hbefore in H1 by lia.
    + specialize (H2 _ Hgt). rewrite drop_drop in H2. replace (c0 + (length content + 2 - c0))%nat with (length content + 2)%nat in H2 by lia.
      by rewrite Hat, Hd in H2.
  - specialize (Ht (length content + 2 - c0)%nat). rewrite drop_drop in Ht.
    replace (c0 + (length content + 2 - c0))%nat with (length content + 2)%nat in Ht by lia. by rewrite Hat, Hd in Ht.
Qed.

(** The separator goes with the trailing space. *)
Lemma trim_separator (content d : bytes) (c0 : nat) : (c0 <= length content)%nat ->
  trim_tool_separator_ws (content ++ [LF; LF] ++ d) c0 (length content + 2) = trim_tool_separator_ws content c0 (length content).
Proof.
  intros Hc. replace (length content + 2)%nat with (S (S (length content))) by lia. cbn [trim_tool_separator_ws].
  rewrite (proj2 (Nat.ltb_lt c0 (S (S (length content))))), (proj2 (Nat.ltb_lt c0 (S (length content)))) by lia.
  assert (H0 : nth (length content) (content ++ [LF; LF] ++ d) NUL = LF) by (rewrite app_nth2, Nat.sub_diag by lia; done).
  assert (H1 : nth (S (length content)) (content ++ [LF; LF] ++ d) NUL = LF).
  { rewrite app_nth2 by lia. by replace (S (length content) - length content)%nat with 1%nat by lia. }
  rewrite H0, H1. cbn [andb]. change (byte_isspace LF) with true. cbn iota. apply trim_grow. lia.
Qed.

Lemma strstr_take (s m : bytes) (i k : nat) : m <> [] -> strstr_pos s m = Some i -> (i + length m <= k)%nat -> strstr_pos (take k s) m = Some i.
Proof.
  intros Hne [H1 H2]%strstr_pos_some Hk. pose proof (prefixb_length _ _ H1) as Hl. rewrite length_drop in Hl.
  rewrite <- (take_drop k s) in H1, H2. assert (Hlen : length (take k s) = Nat.min k (length s)) by apply length_take.
  assert (0 < length m)%nat by (destruct m; [done|simpl; lia]).
  apply strstr_here.
  - rewrite drop_grow, prefix_fixed in H1 by (rewrite ?length_drop; lia). done.
  - intros j Hj. specialize (H2 j Hj). apply not_true_iff_false. intros Hx. apply not_true_iff_false in H2. apply H2.
    rewrite drop_grow by lia. by apply prefix_grow.
Qed.

Lemma strstr_take_none (s m : bytes) (k : nat) : m <> [] -> strstr_pos s m = None -> strstr_pos (take k s) m = None.
Proof.
  intros Hm Hn. destruct (strstr_pos (take k s) m) as [i|] eqn:E; [|done]. apply (strstr_grow _ (drop k s)) in E; [|done].
  rewrite take_drop in E. congruence.
Qed.

(** A byte that is no space stays. *)
Lemma trim_keeps (content : bytes) (n : nat) : (n < length content)%nat -> byte_isspace (nth n content NUL) = false ->
  (S n <= trim_tool_separator_ws content 0 (length content))%nat.
Proof.
  intros Hn Hb. pose proof (trim_mono content 0 (S n) (length content) ltac:(lia)) as Hm.
  assert (E : trim_tool_separator_ws content 0 (S n) = S n) by (cbn [trim_tool_separator_ws]; rewrite Hb, andb_false_r; done).
  by rewrite E in Hm.
Qed.

(** The parser's split of the trimmed content. *)
Lemma split_closed (content : bytes) (i : nat) : think_close content = Some i ->
  let n := trim_tool_separator_ws content 0 (length content) in
  let c0 := (think_from content + i + 8)%nat in
  (c0 <= n)%nat /\ split_reasoning_content content n = (slice content c0 n, Some (slice content (think_from content) (think_from content + i))).
Proof.
  intros E n c0. pose proof (trim_le content (length content)) as Hn. fold n in Hn.
  pose proof (strstr_pos_some _ _ _ E) as [Hp _]. rewrite drop_drop in Hp. pose proof (prefixb_length _ _ Hp) as Hl.
  rewrite length_drop in Hl. change (length (B "</think>")) with 8%nat in Hl.
  assert (Hc : (c0 <= n)%nat).
  { assert (Hb : nth (c0 - 1) content NUL = x3e).
    { assert (Hp' : str_prefixb (B "</think>") (drop (think_from content + i) (content ++ [])) = true) by (by rewrite app_nil_r).
      rewrite (lit_inside content [] (B "</think>") (think_from content + i) (c0 - 1) Hp')
        by (change (length (B "</think>")) with 8%nat; lia).
      by replace (c0 - 1 - (think_from content + i))%nat with 7%nat by lia. }
    pose proof (trim_keeps content (c0 - 1) ltac:(lia)) as Ht. rewrite Hb in Ht. specialize (Ht eq_refl). fold n in Ht. lia. }
  split; [done|]. unfold split_reasoning_content. assert (Hpre : str_prefixb (B "<think>") (take n content) = str_prefixb (B "<think>") content).
  { rewrite <- (take_drop n content) at 2. symmetry. apply prefix_fixed. rewrite length_take. change (length (B "<think>")) with 7%nat. lia. }
  rewrite Hpre. assert (Hbody : (if str_prefixb (B "<think>") content then drop 7 (take n content) else take n content) =
    take (n - think_from content) (drop (think_from content) content)).
  { unfold think_from in *. destruct (str_prefixb _ content); [apply skipn_firstn_comm|]. by rewrite drop_0, Nat.sub_0_r. }
  rewrite Hbody. unfold think_close in E. rewrite (strstr_take _ _ i) by (done || (change (length (B "</think>")) with 8%nat; lia)).
  unfold slice. f_equal; [|f_equal].
  - rewrite skipn_firstn_comm, drop_drop. f_equal; [lia|]. f_equal. lia.
  - rewrite take_take. f_equal. lia.
Qed.

Lemma split_open (content : bytes) : think_close content = None ->
  let n := trim_tool_separator_ws content 0 (length content) in split_reasoning_content content n = (slice content 0 n, None).
Proof.
  intros E n. pose proof (trim_le content (length content)) as Hn. fold n in Hn.
  assert (Hpre : str_prefixb (B "<think>") (take n content) = str_prefixb (B "<think>") content).
  { destruct (str_prefixb (B "<think>") content) eqn:Ep.
    - pose proof (prefixb_length _ _ Ep) as Hl. change (length (B "<think>")) with 7%nat in Hl.
      assert (Hb : nth 6 content NUL = x3e).
      { apply str_prefixb_spec in Ep as [r ->]. done. }
      pose proof (trim_keeps content 6 ltac:(lia)) as Ht. rewrite Hb in Ht. specialize (Ht eq_refl). fold n in Ht.
      rewrite <- (take_drop n content) in Ep. by rewrite prefix_fixed in Ep by (rewrite length_take; change (length (B "<think>")) with 7%nat; lia).
    - apply not_true_iff_false. intros Hx. apply not_true_iff_false in Ep. apply Ep. rewrite <- (take_drop n content). by apply prefix_grow. }
  unfold split_reasoning_content. rewrite Hpre.
  assert (Hbody : (if str_prefixb (B "<think>") content then drop 7 (take n content) else take n content) =
    take (n - think_from content) (drop (think_from content) content)).
  { unfold think_from in *. destruct (str_prefixb _ content); [apply skipn_firstn_comm|]. by rewrite drop_0, Nat.sub_0_r. }
  rewrite Hbody, strstr_take_none by done. unfold slice. by rewrite drop_0, Nat.sub_0_r.
Qed.

(** The stream over a message with a block. *)
Lemma block_finished `{ToolIds} (known : list bytes) (think : bool) (content after r : bytes) (c0 : nat)
    (cs : list (option bytes * bytes * list (bytes * jvalue))) :
  let text := content ++ block_text cs ++ after in
  forallb stream_call_ok cs = true -> Z.of_nat (length cs) <= 2 ^ 31 -> (c0 <= length content)%nat ->
  content_from think text c0 r -> find_any_tool_start (drop c0 content) = None ->
  exists ts calls, ts_state ts <> DSML_TOOL_PARAM_VALUE /\ shown known (ts_ids ts) calls /\ Forall2 same_call cs calls /\
    finished known true think text (Some ts) (r, slice content c0 (trim_tool_separator_ws content c0 (length content)), calls).
Proof.
  intros text Hok Hb Hc0 Hc Hno.
  set (rest := LF :: concat (map (fun c => call_text (snd (fst c)) (snd c)) cs) ++ DS4_TOOL_CALLS_END ++ after).
  assert (Ht : text = content ++ [LF; LF] ++ DS4_TOOL_CALLS_START ++ rest).
  { unfold text, block_text, rest. by repeat (rewrite <- app_assoc; cbn [app]). }
  assert (Hj : find_any_tool_start (drop c0 text) = Some (length content + 2 - c0)%nat) by (rewrite Ht; by apply first_behind).
  assert (Hat : drop (length content + 2) text = DS4_TOOL_CALLS_START ++ rest).
  { rewrite Ht, app_assoc. replace (length content + 2)%nat with (length (content ++ [LF; LF])) by (by rewrite length_app). apply drop_app_length. }
  destruct (run_block known text after cs (length content + 2) Hat Hok Hb) as (ts & calls & Hr & Hst & _ & Hs & Hsame).
  exists ts, calls. split; [congruence|]. split; [done|]. split; [done|].
  assert (Hlen : (length content + 2 <= length text)%nat) by (rewrite Ht, !length_app; simpl; lia).
  pose proof (fin_tool known true think text c0 r (length content + 2 - c0) ts calls Hc eq_refl Hj) as Hf.
  replace (c0 + (length content + 2 - c0))%nat with (length content + 2)%nat in Hf by lia.
  assert (Htool : tool_at text (length content + 2) = tool_stream_at syntax_full (length content + 2)).
  { unfold tool_at, openai_tool_stream_init, raw_full_lit. by rewrite Hat, prefixb_app. }
  rewrite Htool in Hf. specialize (Hf Hr). rewrite Ht, trim_separator, <- Ht in Hf by done.
  pose proof (trim_range content c0 (length content) Hc0). unfold text in Hf at 2. by rewrite slice_grow in Hf by lia.
Qed.

Lemma no_block_start (content : bytes) (c0 : nat) : find_any_tool_start (drop c0 content) = None ->
  strstr_pos (drop c0 content) ([LF; LF] ++ DS4_TOOL_CALLS_START) = None.
Proof.
  intros Hno. pose proof (any_start (drop c0 content)) as Hn. rewrite Hno in Hn.
  destruct (strstr_pos _ _) as [i|] eqn:E; [|done]. exfalso. apply strstr_pos_some in E as [[w E]%str_prefixb_spec _].
  specialize (Hn (i + 2)%nat). rewrite <- drop_drop, E in Hn. apply not_true_iff_false in Hn. apply Hn, existsb_exists.
  exists DS4_TOOL_CALLS_START. split; [by left|]. change (drop 2 (([LF; LF] ++ DS4_TOOL_CALLS_START) ++ w)) with (DS4_TOOL_CALLS_START ++ w).
  apply prefixb_app.
Qed.

(** C22 A streaming client gets what the parser of the whole message returns,
    for a request without stop sequences: each update gets the whole text and
    the length [stream_len] lets through, which holds back an incomplete
    character at the end, and the last update gets all of it.  (With stop
    sequences more is held back, and the searches see it: [held_tag_suppresses].)
    Take a message without NUL whose content is followed by a block of calls
    written by the renderer, and any text behind it; the content holds no start
    of a block, and its reasoning is closed exactly when thinking is on.
    However the text arrives, the client ends up with the reasoning and the
    trimmed content that [parse_generated_message_ex] returns and with one call
    for each call of the block, in order, with its name and with the compact
    JSON of its arguments.  The calls are such that the block is read back as
    it was written ([stream_call_ok]), and there are 2^31 at most.  The ids the
    client saw are different from each other and new, and they are the ids that
    [apply_openai_stream_tool_ids] gives to the parsed calls. *)
Theorem openai_stream_message `{ToolIds} (known : list bytes) (r : request) (content after : bytes) (c0 : nat)
    (cs : list (option bytes * bytes * list (bytes * jvalue))) (pieces : list bytes) :
  let think := ds4_think_mode_enabled (think_mode r) in
  let block := append_dsml_tool_calls_text (Some (ToolCalls (map sent_call cs) None)) in
  let text := content ++ block ++ after in
  NUL ∉ text -> concat pieces = text -> forallb stream_call_ok cs = true -> cs <> [] -> Z.of_nat (length cs) <= 2 ^ 31 ->
  match think_close content with
  | Some i => think = true /\ c0 = (think_from content + i + 8)%nat
  | None => think = false /\ c0 = 0%nat
  end ->
  search_from text think = Some c0 -> find_any_tool_start (drop c0 content) = None ->
  let out := message_pieces known true (openai_stream_start r) ([], [], []) [] pieces in
  exists split calls,
    parse_generated_message_ex (Some text) think (ToolCalls [] None) =
      (true, Some split, ToolCalls (map read_call cs) (Some block)) /\
    snd out = (default [] (snd split), fst split, calls) /\
    Forall2 same_call cs calls /\ NoDup (map cc_id calls) /\ Forall (fun c => cc_id c ∉ known) calls /\
    map tc_id (tcs_v (apply_openai_stream_tool_ids (ToolCalls (map read_call cs) (Some block)) (fst out))) =
      map (fun c => Some (cc_id c)) calls.
Proof.
  intros think block text _ Hp Hok Hne Hb Hc Hs Hno out.
  assert (Hcall : forallb call_ok cs = true).
  { rewrite forallb_forall in *. intros c Hin. apply Hok in Hin. by apply andb_true_iff in Hin as [Hin _]. }
  assert (Hblock : block = block_text cs).
  { apply (block_written sent_call []); [done| |done..]. intros [[id n] ms]. exists id. cbn [sent_call fst snd]. by rewrite object_text_print. }
  clearbody block. subst block. set (n := trim_tool_separator_ws content 0 (length content)).
  assert (Hc0 : (c0 <= n)%nat /\ exists rs, split_reasoning_content content n = (slice content c0 n, rs) /\ content_from think text c0 (default [] rs)).
  { destruct (think_close content) as [i|] eqn:E.
    - destruct Hc as [Hth ->]. destruct (split_closed content i E) as [H1 H2]. split; [exact H1|]. eexists. split; [exact H2|].
      apply content_from_grow. unfold content_from. rewrite Hth. by exists i.
    - destruct Hc as [Hth ->]. split; [lia|]. exists None. split; [by apply split_open|]. unfold content_from. by rewrite Hth. }
  destruct Hc0 as (Hle & rs & Hsplit & Hfrom). pose proof (trim_le content (length content)) as Hn. fold n in Hn.
  destruct (block_finished known think content after _ c0 cs Hok Hb ltac:(lia) Hfrom Hno) as (ts & calls & Hval & Hshown & Hsame & Hfin).
  rewrite (trim_from content 0 c0 (length content)) in Hfin by (fold n; lia). fold n text in Hfin.
  destruct (pieces_finished known true think pieces [] (openai_stream_start r) _ eq_refl (live_start known true think r eq_refl)) as (o & Ho & Htool).
  fold out in Ho, Htool. cbn [app] in Ho. rewrite Hp in Ho.
  destruct (finished_same known true think text o (Some ts) _ _ Ho Hfin Hval) as [Hout ->]. cbn in Htool.
  exists (slice content c0 n, rs), calls. rewrite <- Hsplit. split.
  { exact (message_parsed content after think c0 [] None cs Hcall Hs ltac:(lia) (no_block_start _ _ Hno)). }
  split; [by rewrite Hsplit|]. split; [done|]. pose proof Hshown as (_ & Hnd & Hnew). split; [done|].
  split; [eapply Forall_impl; [exact Hnew|]; by intros c []|]. unfold apply_openai_stream_tool_ids. rewrite Htool.
  change (tcs_v (_ <| tcs_v := ?x |>)) with x. cbn [tcs_v]. apply (ids_applied known _ calls); [done| |].
  - rewrite length_map. by apply Forall2_length in Hsame.
  - apply Forall_forall. intros tc Hin. apply list_elem_of_fmap in Hin as ([[id name] ms] & -> & _). done.
Qed.

(** ** Witnesses *)

(** An id longer than all that are taken. *)
Definition long_id (taken : list bytes) : bytes := replicate (S (list_max (map length taken))) x61.

Lemma long_id_free (taken : list bytes) : long_id taken ∉ taken.
Proof.
  intros Hin. assert (Hle : (length (long_id taken) <= list_max (map length taken))%nat).
  { pose proof (proj1 (list_max_le (map length taken) _) (le_n _)) as Hall. rewrite Forall_forall in Hall. apply Hall.
    by apply list_elem_of_fmap_2. }
  unfold long_id in Hle. rewrite length_replicate in Hle. lia.
Qed.

#[local] Instance ex_ids : ToolIds := {| new_tool_id := long_id; new_tool_id_free := long_id_free; new_tool_id_nonempty := fun _ => ltac:(discriminate) |}.

Definition ex_request (mode : ds4_think_mode) : request :=
  Request REQ_CHAT API_OPENAI [] None no_ids None None [] 0 0 (SpecFloat.S754_zero false) (SpecFloat.S754_zero false)
    (SpecFloat.S754_zero false) 0 true false 0 0 mode true false false false false no_ids None false no_ids None
    (ToolReplayStats 0 0 0 0).

Definition ex_content : bytes := B "<think>plan</think>Hello  ".

Definition ex_message : bytes :=
  ex_content ++ append_dsml_tool_calls_text (Some (ToolCalls (map sent_call ex_calls) None)) ++ B "tail".

Lemma openai_stream_pieces_witness :
  let pieces := map (fun c => [c]) ex_message in
  snd (message_pieces [] true (openai_stream_start (ex_request DS4_THINK_HIGH)) ([], [], []) [] pieces) =
  (B "plan", B "Hello",
   [ClientCall (B "a") (B "a<b>") (print_json (JObj [(B "path & key", JStr (B "x </｜DSML｜parameter> y"));
      (B "n", JArr [JInt 3; JStr (B " a b "); JNull])]));
    ClientCall (B "aa") (B "none") (B "{}")]).
Proof.
  refine (eq_trans (openai_stream_pieces [] true (ex_request DS4_THINK_HIGH) (map (fun c => [c]) ex_message) _) _).
  - vm_compute. discriminate.
  - vm_compute. reflexivity.
Defined.

Lemma openai_stream_message_witness :
  exists split calls,
    parse_generated_message_ex (Some ex_message) true (ToolCalls [] None) =
      (true, Some split, ToolCalls (map read_call ex_calls) (Some (append_dsml_tool_calls_text (Some (ToolCalls (map sent_call ex_calls) None))))) /\
    snd (message_pieces [] true (openai_stream_start (ex_request DS4_THINK_HIGH)) ([], [], []) [] (map (fun c => [c]) ex_message)) =
      (default [] (snd split), fst split, calls).
Proof.
  destruct (openai_stream_message [] (ex_request DS4_THINK_HIGH) ex_content (B "tail") 19 ex_calls (map (fun c => [c]) ex_message)) as (split & calls & H1 & H2 & _).
  - apply (bool_decide_unpack _). vm_compute. reflexivity.
  - vm_compute. reflexivity.
  - vm_compute. reflexivity.
  - discriminate.
  - vm_compute. discriminate.
  - vm_compute. split; reflexivity.
  - vm_compute. reflexivity.
  - vm_compute. reflexivity.
  - exists split, calls. split; [exact H1|exact H2].
Defined.

(** With a stop sequence of two bytes the last byte of the text is held back.
    A start tag at the end of the text is found all the same, but no stream
    of calls starts for it, and nothing more is streamed. *)
Example held_tag_suppresses :
  let raw := B "Hi " ++ DS4_TOOL_CALLS_START in
  let len := stop_list_stream_safe_len (stop_list_push (StopList [] 0) (Some (B "##"))) (length raw) in
  let r := openai_sse_stream_update [] true (openai_stream_start (ex_request DS4_THINK_NONE)) raw len false in
  snd r = [ChatDelta (B "content") (B "Hi")] /\ st_mode (fst r) = OPENAI_STREAM_SUPPRESS.
Proof. vm_compute. split; reflexivity. Qed.
