(* ===== verification/StrTable.v ===== *)
(** * Hash tables from strings to integers (ds4.c)

    The open-addressed tables of the tokenizer: token strings to ids, and
    merges to ranks.  A table that has a free cell is a finite map. *)
From stdpp Require Import gmap.
From S2P Require Import Prelude.
Open Scope Z_scope.

(** ** The code *)

(** FNV-1a with 64-bit wrap-around. *)
Definition hash_bytes (s : bytes) : Z :=
  foldl (fun h b => u64 (Z.lxor h (bz b) * 1099511628211)) 1469598103934665603 s.

(** A cell that is not used is [None]. *)
Record str_i32_table := StrTable {
  tbl_entry : list (option (bytes * Z));
  tbl_used : Z
}.

Definition tbl_cap (t : str_i32_table) : Z := Z.of_nat (length (tbl_entry t)).

(** [p] doubles until it reaches [n]; above [2^63] it wraps to zero and the
    loop never ends. *)
Fixpoint next_pow2_loop (fuel : nat) (p n : Z) : option Z :=
  match fuel with
  | O => None
  | S fuel => if p <? n then next_pow2_loop fuel (u64 (Z.shiftl p 1)) n else Some p
  end.

Definition next_pow2 (n : Z) : option Z := next_pow2_loop 64 1 n.

Definition table_init (expected : Z) : option str_i32_table :=
  cap ← next_pow2 (u64 (u64 (expected * 2) + 16)); Some (StrTable (replicate (Z.to_nat cap) None) 0).

(** The cell where the probe for [key] ends: unused, or with the key. *)
Fixpoint table_probe (fuel : nat) (t : str_i32_table) (key : bytes) (i : Z) : option Z :=
  match fuel with
  | O => None
  | S fuel =>
      match tbl_entry t !! Z.to_nat i with
      | Some (Some (k, _)) => if str_eqb k key then Some i else table_probe fuel t key (Z.land (u64 (i + 1)) (tbl_cap t - 1))
      | _ => Some i
      end
  end.

Definition probe_from (t : str_i32_table) (key : bytes) : option Z :=
  table_probe (S (length (tbl_entry t))) t key (Z.land (hash_bytes key) (tbl_cap t - 1)).

(** [None]: the loop never ends, the table is full. *)
Definition table_put (t : str_i32_table) (key : bytes) (value : Z) : option str_i32_table :=
  i ← probe_from t key;
  match tbl_entry t !! Z.to_nat i with
  | Some (Some _) => Some (StrTable (<[Z.to_nat i := Some (key, value)]> (tbl_entry t)) (tbl_used t))
  | _ => Some (StrTable (<[Z.to_nat i := Some (key, value)]> (tbl_entry t)) (tbl_used t + 1))
  end.

Definition table_get (t : str_i32_table) (key : bytes) : option (option Z) :=
  if tbl_cap t =? 0 then Some None
  else
    i ← probe_from t key;
    match tbl_entry t !! Z.to_nat i with
    | Some (Some (_, v)) => Some (Some v)
    | _ => Some None
    end.

(** The puts of a list, in order. *)
Definition table_fill (t : str_i32_table) (l : list (bytes * Z)) : option str_i32_table :=
  foldl (fun t kv => match t with Some t => table_put t (fst kv) (snd kv) | None => None end) (Some t) l.

(** ** Cells in probe order *)

Section Table.
Variable k : Z.
Hypothesis Hk : 0 <= k <= 63.

(** A table of [2 ^ k] cells. *)
Definition sized (t : str_i32_table) : Prop := tbl_cap t = 2 ^ k.

Definition slot (key : bytes) (j : nat) : nat := Z.to_nat ((hash_bytes key + Z.of_nat j) mod 2 ^ k).
Definition cell (t : str_i32_table) (key : bytes) (j : nat) : option (option (bytes * Z)) := tbl_entry t !! slot key j.

Lemma pow_range : 0 < 2 ^ k <= 2 ^ 63.
Proof. split; [apply Z.pow_pos_nonneg; lia|apply Z.pow_le_mono_r; lia]. Qed.

Lemma hash_range (s : bytes) : is_u64 (hash_bytes s).
Proof.
  unfold hash_bytes. destruct s as [|b s] using rev_ind; [unfold is_u64, UINT64_MAX; simpl; lia|]. rewrite foldl_app. apply u64_range.
Qed.

Lemma mask_mod (z : Z) : Z.land z (2 ^ k - 1) = z mod 2 ^ k.
Proof. rewrite Z.sub_1_r, <- Z.ones_equiv. apply Z.land_ones. lia. Qed.

Lemma slot_length (t : str_i32_table) (key : bytes) (j : nat) : sized t -> (slot key j < length (tbl_entry t))%nat.
Proof.
  unfold sized, tbl_cap, slot. intros Hs. pose proof pow_range. pose proof (Z.mod_pos_bound (hash_bytes key + Z.of_nat j) (2 ^ k)). lia.
Qed.

(** Every cell is met within one round. *)
Lemma slot_reaches (t : str_i32_table) (key : bytes) (i : nat) : sized t -> (i < length (tbl_entry t))%nat ->
  exists j, (j < length (tbl_entry t))%nat /\ slot key j = i.
Proof.
  unfold sized, tbl_cap. intros Hs Hi. pose proof pow_range as Hp. exists (Z.to_nat ((Z.of_nat i - hash_bytes key) mod 2 ^ k)).
  pose proof (Z.mod_pos_bound (Z.of_nat i - hash_bytes key) (2 ^ k)). split; [lia|]. unfold slot. rewrite Z2Nat.id by lia.
  rewrite Zplus_mod_idemp_r. replace (hash_bytes key + (Z.of_nat i - hash_bytes key)) with (Z.of_nat i) by lia.
  rewrite Z.mod_small by lia. lia.
Qed.

Lemma slot_inj (t : str_i32_table) (key : bytes) (j j' : nat) : sized t ->
  (j < length (tbl_entry t))%nat -> (j' < length (tbl_entry t))%nat -> slot key j = slot key j' -> j = j'.
Proof.
  unfold sized, tbl_cap, slot. intros Hs Hj Hj' E. pose proof pow_range as Hp. set (h := hash_bytes key) in *.
  pose proof (Z.mod_pos_bound (h + Z.of_nat j) (2 ^ k)). pose proof (Z.mod_pos_bound (h + Z.of_nat j') (2 ^ k)).
  apply Z2Nat.inj in E; [|lia..].
  pose proof (Z.div_mod (h + Z.of_nat j) (2 ^ k) ltac:(lia)) as D1. pose proof (Z.div_mod (h + Z.of_nat j') (2 ^ k) ltac:(lia)) as D2.
  rewrite E in D1. set (q := (h + Z.of_nat j) / 2 ^ k) in *. set (q' := (h + Z.of_nat j') / 2 ^ k) in *. set (P := 2 ^ k) in *.
  assert (Hd : P * (q - q') = Z.of_nat j - Z.of_nat j') by lia. assert (q - q' = 0) as Hq by nia. rewrite Hq in Hd. lia.
Qed.

(** The step of the code's index. *)
Lemma next_slot (key : bytes) (j : nat) : Z.of_nat j < 2 ^ k ->
  Z.land (u64 ((hash_bytes key + Z.of_nat j) mod 2 ^ k + 1)) (2 ^ k - 1) = (hash_bytes key + Z.of_nat (S j)) mod 2 ^ k.
Proof.
  intros Hj. pose proof pow_range as Hp. pose proof (Z.mod_pos_bound (hash_bytes key + Z.of_nat j) (2 ^ k)).
  rewrite u64_small by (unfold is_u64, UINT64_MAX; lia). rewrite mask_mod, Zplus_mod_idemp_l. f_equal. lia.
Qed.

(** A probe ends at the first cell that is free or has the key. *)
Lemma probe_stops (t : str_i32_table) (key : bytes) (n : nat) : sized t ->
  (forall j, (j < n)%nat -> exists k' v', cell t key j = Some (Some (k', v')) /\ k' <> key) ->
  (match cell t key n with Some (Some (k', _)) => k' = key | _ => True end) ->
  forall fuel m, (m <= n)%nat -> (n < fuel + m)%nat -> (n < length (tbl_entry t))%nat ->
  table_probe fuel t key ((hash_bytes key + Z.of_nat m) mod 2 ^ k) = Some ((hash_bytes key + Z.of_nat n) mod 2 ^ k).
Proof.
  intros Hs Hused Hend. induction fuel as [|fuel IH]; intros m Hm Hf Hn; [lia|]. cbn [table_probe].
  change (tbl_entry t !! Z.to_nat ((hash_bytes key + Z.of_nat m) mod 2 ^ k)) with (cell t key m).
  destruct (Nat.eq_dec m n) as [->|Hne].
  - destruct (cell t key n) as [[[k' v']|]|]; [|done|done]. subst k'. by rewrite str_eqb_refl.
  - destruct (Hused m ltac:(lia)) as (k' & v' & -> & Hk'). apply str_eqb_neq in Hk' as ->.
    assert (Hlt : Z.of_nat m < 2 ^ k) by (unfold sized, tbl_cap in Hs; lia).
    unfold sized in Hs. rewrite Hs, next_slot by done. apply IH; lia.
Qed.

(** ** The map of a table *)

Definition path (t : str_i32_table) (key : bytes) (n : nat) : Prop :=
  (n < length (tbl_entry t))%nat /\ forall j, (j < n)%nat -> exists k' v', cell t key j = Some (Some (k', v')) /\ k' <> key.

(** [t] holds the map [m]: a key that is in it is at the end of its path, and
    the others are nowhere. *)
Definition holds (t : str_i32_table) (m : gmap bytes Z) : Prop :=
  sized t /\ forall key,
    match m !! key with
    | Some v => exists n, path t key n /\ cell t key n = Some (Some (key, v))
    | None => forall i v, tbl_entry t !! i <> Some (Some (key, v))
    end.

Definition has_room (t : str_i32_table) : Prop := exists i, tbl_entry t !! i = Some None.

(** Where the probe for a key that is not there ends. *)
Lemma free_path (t : str_i32_table) (key : bytes) : sized t -> has_room t ->
  (forall i v, tbl_entry t !! i <> Some (Some (key, v))) -> exists n, path t key n /\ cell t key n = Some None.
Proof.
  intros Hs [i Hi] Hno. pose proof (lookup_lt_Some _ _ _ Hi) as Hlen.
  destruct (slot_reaches t key i Hs Hlen) as (j & Hj & E).
  assert (Hex : exists n, cell t key n = Some None /\ (n < length (tbl_entry t))%nat) by (exists j; split; [unfold cell; by rewrite E|done]).
  assert (Hmin : forall b, (exists n, (n < b)%nat /\ cell t key n = Some None /\ forall j, (j < n)%nat -> cell t key j <> Some None) \/
    forall n, (n < b)%nat -> cell t key n <> Some None).
  { intros b. induction b as [|b IH]; [right; intros; lia|]. destruct IH as [(n & H1 & H2)|IH]; [left; exists n; split; [lia|done]|].
    destruct (decide (cell t key b = Some None)) as [Eb|Eb]; [left; exists b; split; [lia|by split]|].
    right. intros n Hn. destruct (Nat.eq_dec n b) as [->|]; [done|apply IH; lia]. }
  destruct (Hmin (length (tbl_entry t))) as [(n & Hn & Hc & Hbefore)|Hall].
  - exists n. split; [|done]. split; [done|]. intros j' Hj'. specialize (Hbefore j' Hj').
    destruct (lookup_lt_is_Some_2 (tbl_entry t) (slot key j') (slot_length t key j' Hs)) as [[[k' v']|] Ec]; unfold cell in *; [|congruence].
    exists k', v'. split; [done|]. intros ->. by apply (Hno (slot key j') v').
  - destruct Hex as (n & Hc & Hn). by destruct (Hall n Hn).
Qed.

Lemma probe_at (t : str_i32_table) (key : bytes) (n : nat) : sized t -> path t key n ->
  (match cell t key n with Some (Some (k', _)) => k' = key | _ => True end) ->
  probe_from t key = Some (Z.of_nat (slot key n)).
Proof.
  intros Hs [Hn Hused] Hend. unfold probe_from. unfold sized in Hs. rewrite Hs, mask_mod.
  replace (hash_bytes key mod 2 ^ k) with ((hash_bytes key + Z.of_nat 0) mod 2 ^ k) by (f_equal; lia).
  rewrite (probe_stops t key n Hs Hused Hend _ 0%nat) by lia. f_equal. unfold slot. rewrite Z2Nat.id; [done|].
  apply Z.mod_pos_bound. apply pow_range.
Qed.

Lemma get_holds (t : str_i32_table) (m : gmap bytes Z) (key : bytes) : holds t m -> has_room t ->
  table_get t key = Some (m !! key).
Proof.
  intros [Hs Hm] Hroom. unfold table_get. pose proof pow_range as Hp. rewrite (proj2 (Z.eqb_neq _ _)) by (unfold sized in Hs; lia).
  specialize (Hm key). destruct (m !! key) as [v|].
  - destruct Hm as (n & Hpath & Hc). rewrite (probe_at t key n Hs Hpath) by by rewrite Hc. cbn. rewrite Nat2Z.id.
    unfold cell in Hc. by rewrite Hc.
  - destruct (free_path t key Hs Hroom Hm) as (n & Hpath & Hc). rewrite (probe_at t key n Hs Hpath) by by rewrite Hc. cbn.
    rewrite Nat2Z.id. unfold cell in Hc. by rewrite Hc.
Qed.

Definition put_at (t : str_i32_table) (key : bytes) (n : nat) (v used : Z) : str_i32_table :=
  StrTable (<[slot key n := Some (key, v)]> (tbl_entry t)) used.

Lemma put_at_cell (t : str_i32_table) (key : bytes) (n : nat) (v used : Z) (key2 : bytes) (j : nat) : sized t ->
  cell (put_at t key n v used) key2 j = if decide (slot key n = slot key2 j) then Some (Some (key, v)) else cell t key2 j.
Proof.
  intros Hs. unfold cell, put_at. cbn [tbl_entry]. pose proof (slot_length t key n Hs) as Hl.
  destruct (decide (slot key n = slot key2 j)) as [E|E]; [rewrite <- E; by apply list_lookup_insert_eq|by apply list_lookup_insert_ne].
Qed.

Lemma put_at_holds (t : str_i32_table) (m : gmap bytes Z) (key : bytes) (n : nat) (v used : Z) : holds t m -> path t key n ->
  match cell t key n with Some (Some (k', _)) => k' = key | _ => True end ->
  holds (put_at t key n v used) (<[key := v]> m).
Proof.
  intros [Hs Hm] [Hn Hpath] Hend. pose proof (put_at_cell t key n v used) as Hc.
  assert (Hlen : length (tbl_entry (put_at t key n v used)) = length (tbl_entry t)) by apply length_insert.
  split; [unfold sized, tbl_cap; by rewrite Hlen|]. intros key2. destruct (decide (key = key2)) as [<-|Hne].
  - rewrite lookup_insert_eq. exists n. split.
    + split; [by rewrite Hlen|]. intros j Hj. destruct (Hpath j Hj) as (k' & v' & E & Hk'). rewrite Hc by done.
      rewrite decide_False; [by exists k', v'|]. intros Es. apply (slot_inj t) in Es; [lia|done|lia|lia].
    + rewrite Hc by done. by rewrite decide_True.
  - rewrite lookup_insert_ne by done. specialize (Hm key2). destruct (m !! key2) as [v2|].
    + destruct Hm as (n2 & [Hn2 Hp2] & He2). exists n2. split.
      * split; [by rewrite Hlen|]. intros j Hj. rewrite Hc by done. destruct (decide _); [by exists key, v|]. by apply Hp2.
      * rewrite Hc by done. rewrite decide_False; [done|]. intros Es. unfold cell in *. rewrite <- Es in He2. rewrite He2 in Hend. congruence.
    + intros i v'. cbn [put_at tbl_entry]. destruct (decide (slot key n = i)) as [<-|Hi].
      * rewrite list_lookup_insert_eq by (by apply slot_length). congruence.
      * rewrite list_lookup_insert_ne by done. apply Hm.
Qed.

(** Used cells. *)
Definition taken (t : str_i32_table) : nat := length (omap id (tbl_entry t)).

Lemma taken_room (t : str_i32_table) : (taken t < length (tbl_entry t))%nat -> has_room t.
Proof.
  unfold taken, has_room. generalize (tbl_entry t) as l. induction l as [|[x|] l IH]; cbn; intros Hl; [lia| |by exists 0%nat].
  destruct (IH ltac:(lia)) as [i Hi]. by exists (S i).
Qed.

Lemma taken_insert (l : list (option (bytes * Z))) (i : nat) (x : bytes * Z) : (i < length l)%nat ->
  (length (omap id (<[i := Some x]> l)) <= S (length (omap id l)))%nat.
Proof.
  revert i. induction l as [|[y|] l IH]; intros i Hi; [simpl in Hi; lia| |]; (destruct i as [|i]; cbn in *; [first [apply le_n | apply le_S, le_n]|]);
    specialize (IH i ltac:(lia)); first [exact IH | exact (le_n_S _ _ IH)].
Qed.

Lemma put_holds (t : str_i32_table) (m : gmap bytes Z) (key : bytes) (v : Z) : holds t m -> has_room t ->
  exists t', table_put t key v = Some t' /\ holds t' (<[key := v]> m) /\ (taken t' <= S (taken t))%nat /\
    length (tbl_entry t') = length (tbl_entry t).
Proof.
  intros Hh Hroom. pose proof Hh as [Hs Hm].
  assert (Hex : exists n, path t key n /\ exists c, cell t key n = Some c /\ match c with Some (k', _) => k' = key | None => True end).
  { specialize (Hm key). destruct (m !! key) as [v0|].
    - destruct Hm as (n & Hp & Hc). exists n. split; [done|]. by eexists.
    - destruct (free_path t key Hs Hroom Hm) as (n & Hp & Hc). exists n. split; [done|]. by eexists. }
  destruct Hex as (n & Hp & c & Hc & Hend). unfold table_put.
  rewrite (probe_at t key n Hs Hp) by (rewrite Hc; destruct c as [[]|]; done). cbn. rewrite Nat2Z.id.
  unfold cell in Hc. rewrite Hc.
  assert (Hput : forall used, holds (put_at t key n v used) (<[key := v]> m) /\ (taken (put_at t key n v used) <= S (taken t))%nat /\
    length (tbl_entry (put_at t key n v used)) = length (tbl_entry t)).
  { intros used. split; [|split; [apply taken_insert; by apply slot_length|apply length_insert]].
    apply put_at_holds; [done|done|]. unfold cell. rewrite Hc. by destruct c as [[]|]. }
  destruct c as [[k' v']|]; eexists; (split; [reflexivity|]); apply Hput.
Qed.

Lemma fill_holds (l : list (bytes * Z)) : forall t m, holds t m -> (taken t + length l < length (tbl_entry t))%nat ->
  exists t', table_fill t l = Some t' /\ holds t' (foldl (fun m kv => <[kv.1 := kv.2]> m) m l) /\ has_room t'.
Proof.
  induction l as [|[key v] l IH]; intros t m Hh Hl; cbn [foldl].
  - exists t. split; [done|]. split; [done|]. apply taken_room. cbn in Hl. lia.
  - cbn [length] in Hl. destruct (put_holds t m key v Hh) as (t1 & E & Hh1 & Ht1 & Hlen); [apply taken_room; lia|].
    unfold table_fill in *. cbn [foldl fst snd]. rewrite E. apply IH; [done|]. rewrite Hlen. lia.
Qed.
End Table.

(** ** A new table *)

Lemma pow2_loop (fuel : nat) : forall i n, 0 <= i -> i + Z.of_nat fuel <= 64 -> n <= 2 ^ (i + Z.of_nat fuel - 1) -> (0 < fuel)%nat ->
  exists k, 0 <= k <= 63 /\ next_pow2_loop fuel (2 ^ i) n = Some (2 ^ k) /\ n <= 2 ^ k.
Proof.
  induction fuel as [|fuel IH]; intros i n Hi Hf Hn Hp; [lia|]. cbn [next_pow2_loop]. destruct (Z.ltb_spec (2 ^ i) n) as [Hlt|Hge].
  - destruct fuel as [|fuel]; [replace (i + Z.of_nat 1 - 1) with i in Hn by lia; lia|].
    rewrite Z.shiftl_mul_pow2, Z.pow_1_r by lia. replace (2 ^ i * 2) with (2 ^ (i + 1)) by (rewrite Z.pow_add_r; lia).
    assert (2 ^ (i + 1) <= 2 ^ 63) by (apply Z.pow_le_mono_r; lia).
    rewrite u64_small by (unfold is_u64, UINT64_MAX; assert (0 < 2 ^ (i + 1)) by (apply Z.pow_pos_nonneg; lia); lia).
    apply IH; [lia|lia| |lia]. by replace (i + 1 + Z.of_nat (S fuel) - 1) with (i + Z.of_nat (S (S fuel)) - 1) by lia.
  - exists i. split; [lia|]. split; [done|lia].
Qed.

Lemma next_pow2_spec (n : Z) : n <= 2 ^ 63 -> exists k, 0 <= k <= 63 /\ next_pow2 n = Some (2 ^ k) /\ n <= 2 ^ k.
Proof.
  intros Hn. apply (pow2_loop 64 0 n); [lia|lia|exact Hn|lia].
Qed.

Lemma replicate_none (n i : nat) (x : option (bytes * Z)) : replicate n (None : option (bytes * Z)) !! i = Some x -> x = None.
Proof. intros [-> _]%lookup_replicate. done. Qed.

Lemma init_holds (k : Z) : 0 <= k <= 63 -> let t := StrTable (replicate (Z.to_nat (2 ^ k)) None) 0 in
  holds k t ∅ /\ taken t = 0%nat /\ Z.of_nat (length (tbl_entry t)) = 2 ^ k.
Proof.
  intros Hk t. assert (Hp : 0 < 2 ^ k) by (apply Z.pow_pos_nonneg; lia).
  assert (Hl : Z.of_nat (length (tbl_entry t)) = 2 ^ k) by (cbn [tbl_entry t]; rewrite length_replicate; lia).
  split; [split; [exact Hl|]|split; [|exact Hl]].
  - intros key. rewrite lookup_empty. intros i v E. by apply replicate_none in E.
  - unfold taken. cbn [tbl_entry t]. clear. by induction (Z.to_nat (2 ^ k)).
Qed.

(** ** Theorem *)

(** The last value put for each key. *)
Definition last_puts (l : list (bytes * Z)) : gmap bytes Z := foldl (fun m kv => <[fst kv := snd kv]> m) ∅ l.

Lemma table_built (l : list (bytes * Z)) (expected : Z) : Z.of_nat (length l) <= expected <= 2 ^ 61 ->
  exists t0 t, table_init expected = Some t0 /\ table_fill t0 l = Some t /\
    forall key, table_get t key = Some (last_puts l !! key).
Proof.
  intros He. unfold table_init. rewrite !u64_small by (unfold is_u64, UINT64_MAX; rewrite ?u64_small; unfold is_u64, UINT64_MAX; lia).
  destruct (next_pow2_spec (expected * 2 + 16) ltac:(lia)) as (k & Hk & -> & Hle). cbn.
  destruct (init_holds k Hk) as (Hh & Ht & Hl). set (t0 := StrTable _ 0) in *.
  destruct (fill_holds k Hk l t0 ∅ Hh ltac:(lia)) as (t & Hf & Hh2 & Hroom).
  exists t0, t. split; [done|]. split; [done|]. intros key. by apply (get_holds k Hk).
Qed.

Lemma last_puts_spec (l : list (bytes * Z)) (key : bytes) :
  match last_puts l !! key with Some v => (key, v) ∈ l | None => key ∉ map fst l end.
Proof.
  unfold last_puts. induction l as [|[k v] l IH] using rev_ind; [cbn; rewrite lookup_empty; by intros ?%elem_of_nil|]. rewrite foldl_app, map_app. cbn [foldl fst snd map].
  destruct (decide (k = key)) as [->|Hne]; [rewrite lookup_insert_eq; apply elem_of_app; right; left|].
  rewrite lookup_insert_ne by done. revert IH. generalize (foldl (fun (m : gmap bytes Z) kv => <[kv.1 := kv.2]> m) ∅ l !! key).
  intros [v'|] IH; [apply elem_of_app; by left|]. intros [Hin|Hin%list_elem_of_singleton]%elem_of_app; [done|]. by subst.
Qed.

(** C23 A table sized for at least as many keys as are put into it is the
    finite map of the last values put: initialising it, filling it and looking
    up any key all end (no loop runs around a full table, no size wraps), and
    the lookup returns the last value put for the key, or nothing. *)
Theorem str_table_refines (l : list (bytes * Z)) (expected : Z) :
  Z.of_nat (length l) <= expected <= 2 ^ 61 ->
  exists t0 t, table_init expected = Some t0 /\ table_fill t0 l = Some t /\
    forall key, table_get t key = Some (last_puts l !! key).
Proof. apply table_built. Qed.

Lemma str_table_refines_witness :
  exists t, table_fill (StrTable (replicate 32 None) 0) [(B "a", 1); (B "b", 2); (B "a", 3)] = Some t /\ table_get t (B "a") = Some (Some 3).
Proof.
  destruct (str_table_refines [(B "a", 1); (B "b", 2); (B "a", 3)] 3) as (t0 & t & H0 & Hf & Hg); [vm_compute; split; discriminate|].
  assert (E : table_init 3 = Some (StrTable (replicate 32 None) 0)) by (vm_compute; reflexivity).
  exists t. split; [congruence|]. exact (Hg (B "a")).
Defined.
