(* ===== verification/Tokenizer.v ===== *)
(** * The tokenizer (ds4.c)

    Byte-level BPE over the vocabulary of the GGUF file: the pre-tokenizer,
    the merges, the special tokens of rendered chats and the text of tokens.
    A vocabulary lives in two hash tables; they have free cells after
    [vocab_build] (StrTable.v), so lookups end.  Running out of memory ends the
    process and is not modelled. *)
From S2P Require Import Prelude.
From S2P Require Import ServerStream.
From S2P Require Import Chat.
From S2P Require Import StrTable.
Open Scope Z_scope.

(** ** Bytes as printable characters *)

Definition byte_of (z : Z) : byte := zb (Z.land z 0xff).

Definition utf8_put (cp : Z) : bytes :=
  if cp <=? 0x7f then [byte_of cp]
  else if cp <=? 0x7ff then [byte_of (Z.lor 0xc0 (Z.shiftr cp 6)); byte_of (Z.lor 0x80 (Z.land cp 0x3f))]
  else if cp <=? 0xffff then
    [byte_of (Z.lor 0xe0 (Z.shiftr cp 12)); byte_of (Z.lor 0x80 (Z.land (Z.shiftr cp 6) 0x3f)); byte_of (Z.lor 0x80 (Z.land cp 0x3f))]
  else
    [byte_of (Z.lor 0xf0 (Z.shiftr cp 18)); byte_of (Z.lor 0x80 (Z.land (Z.shiftr cp 12) 0x3f));
     byte_of (Z.lor 0x80 (Z.land (Z.shiftr cp 6) 0x3f)); byte_of (Z.lor 0x80 (Z.land cp 0x3f))].

Definition printable (x : Z) : bool := (33 <=? x) && (x <=? 126) || (161 <=? x) && (x <=? 172) || (174 <=? x).

(** The loop over the bytes [x] that are not printable, with their count. *)
Fixpoint hidden_index (fuel : nat) (x n b : Z) : option Z :=
  match fuel with
  | O => None
  | S fuel =>
      if printable x then hidden_index fuel (x + 1) n b
      else if x =? b then Some n else hidden_index fuel (x + 1) (n + 1) b
  end.

Definition gpt2_byte_to_codepoint (b : Z) : Z :=
  if printable b then b else match hidden_index 256 0 0 b with Some n => 256 + n | None => b end.

Definition byte_encode (s : bytes) : bytes := concat (map (fun b => utf8_put (gpt2_byte_to_codepoint (bz b))) s).

Definition utf8_len_from_first_byte (c : Z) : nat :=
  if c <? 0x80 then 1 else if Z.land c 0xe0 =? 0xc0 then 2 else if Z.land c 0xf0 =? 0xe0 then 3 else if Z.land c 0xf8 =? 0xf0 then 4 else 1.

(** ** The vocabulary *)

Record ds4_vocab := Vocab {
  vocab_token : list bytes;
  bos_id : Z;
  eos_id : Z;
  user_id : Z;
  assistant_id : Z;
  think_start_id : Z;
  think_end_id : Z;
  dsml_id : Z;
  token_to_id : str_i32_table;
  merge_rank : str_i32_table
}.

Definition n_vocab (v : ds4_vocab) : Z := Z.of_nat (length (vocab_token v)).

Definition lookup_id (t : str_i32_table) (key : bytes) : option Z := default None (table_get t key).

(** ** Byte-pair encoding *)

(** The characters of an encoded piece. *)
Fixpoint split_symbols (fuel : nat) (s : bytes) : list bytes :=
  match fuel, s with
  | S fuel, c :: _ =>
      let n := utf8_len_from_first_byte (bz c) in
      let n := if (length s <? n)%nat then 1%nat else n in
      take n s :: split_symbols fuel (drop n s)
  | _, _ => []
  end.

Definition bpe_rank (v : ds4_vocab) (a b : bytes) : Z := default (-1) (lookup_id (merge_rank v) (a ++ x20 :: b)).

(** The first pair of the lowest rank: [i] counts the pairs before [sym]. *)
Fixpoint best_pair (v : ds4_vocab) (sym : list bytes) (i : nat) (best_rank : Z) (best : option nat) : option nat :=
  match sym with
  | a :: (b :: _) as rest =>
      let rank := bpe_rank v a b in
      if (0 <=? rank) && (rank <? best_rank) then best_pair v rest (S i) rank (Some i) else best_pair v rest (S i) best_rank best
  | _ => best
  end.

Definition merge_at (sym : list bytes) (i : nat) : list bytes :=
  match drop i sym with
  | a :: b :: rest => take i sym ++ (a ++ b) :: rest
  | _ => sym
  end.

(** One symbol less in every turn. *)
Fixpoint bpe_loop (fuel : nat) (v : ds4_vocab) (sym : list bytes) : list bytes :=
  match fuel with
  | O => sym
  | S fuel =>
      match best_pair v sym 0 INT_MAX None with
      | Some i => bpe_loop fuel v (merge_at sym i)
      | None => sym
      end
  end.

Definition emit_symbol (v : ds4_vocab) (sym : bytes) : list Z :=
  match lookup_id (token_to_id v) sym with
  | Some token => [token]
  | None => omap (fun b => lookup_id (token_to_id v) [b]) sym
  end.

Definition bpe_symbols (v : ds4_vocab) (piece : bytes) : list bytes :=
  let encoded := byte_encode piece in
  let sym := split_symbols (length encoded) encoded in
  bpe_loop (length sym) v sym.

Definition bpe_emit_piece (v : ds4_vocab) (piece : bytes) : list Z := concat (map (emit_symbol v) (bpe_symbols v piece)).

(** ** Classes of characters *)

Definition at_pos (s : bytes) (pos : nat) : Z := bz (nth pos s NUL).

Definition next_utf8_char (s : bytes) (pos : nat) : nat :=
  let n := utf8_len_from_first_byte (at_pos s pos) in
  (pos + if (length s <? pos + n)%nat then 1 else n)%nat.

Definition ascii_alpha (c : Z) : bool := (65 <=? c) && (c <=? 90) || (97 <=? c) && (c <=? 122).
Definition ascii_digit (c : Z) : bool := (48 <=? c) && (c <=? 57).
Definition ascii_space (c : Z) : bool := (c =? 32) || (c =? 9) || (c =? 10) || (c =? 13) || (c =? 11) || (c =? 12).
Definition ascii_newline (c : Z) : bool := (c =? 10) || (c =? 13).
Definition joyai_ascii_punct_symbol (c : Z) : bool :=
  (33 <=? c) && (c <=? 47) || (58 <=? c) && (c <=? 64) || (91 <=? c) && (c <=? 96) || (123 <=? c) && (c <=? 126).

Definition utf8_is_cjk_hira_kata (cp : Z) : bool :=
  (0x4e00 <=? cp) && (cp <=? 0x9fa5) || (0x3040 <=? cp) && (cp <=? 0x309f) || (0x30a0 <=? cp) && (cp <=? 0x30ff).

Definition utf8_peek_one (s : bytes) (pos : nat) : Z :=
  let c0 := at_pos s pos in
  let n := utf8_len_from_first_byte c0 in
  let n := if (length s <? pos + n)%nat then 1%nat else n in
  let cont k := Z.land (at_pos s (pos + k)) 0x3f in
  match n with
  | 1%nat => c0
  | 2%nat => Z.lor (Z.shiftl (Z.land c0 0x1f) 6) (cont 1%nat)
  | 3%nat => Z.lor (Z.lor (Z.shiftl (Z.land c0 0x0f) 12) (Z.shiftl (cont 1%nat) 6)) (cont 2%nat)
  | _ => Z.lor (Z.lor (Z.lor (Z.shiftl (Z.land c0 0x07) 18) (Z.shiftl (cont 1%nat) 12)) (Z.shiftl (cont 2%nat) 6)) (cont 3%nat)
  end.

Definition joyai_letter_like_at (s : bytes) (pos : nat) : bool :=
  let c := at_pos s pos in if c <? 128 then ascii_alpha c else true.

Definition joyai_cjk_at (s : bytes) (pos : nat) : bool :=
  if at_pos s pos <? 128 then false else utf8_is_cjk_hira_kata (utf8_peek_one s pos).

(** ** The pre-tokenizer *)

(** [while (pos < len && p(text[pos])) pos++], at most [turns] times. *)
Fixpoint skip_while (turns : nat) (p : Z -> bool) (s : bytes) (pos : nat) : nat :=
  match turns with
  | O => pos
  | S turns => if (pos <? length s)%nat && p (at_pos s pos) then skip_while turns p s (S pos) else pos
  end.

(** The same over whole characters. *)
Fixpoint skip_chars (turns : nat) (p : bytes -> nat -> bool) (s : bytes) (pos : nat) : nat :=
  match turns with
  | O => pos
  | S turns => if (pos <? length s)%nat && p s pos then skip_chars turns p s (next_utf8_char s pos) else pos
  end.

Definition joyai_consume_letters (s : bytes) (pos : nat) : nat := skip_chars (length s) joyai_letter_like_at s pos.

(** The end of a run of spaces, and the end of its last newline. *)
Fixpoint space_run (turns : nat) (s : bytes) (p : nat) (last_newline_end : option nat) : nat * option nat :=
  match turns with
  | O => (p, last_newline_end)
  | S turns =>
      if (p <? length s)%nat && ascii_space (at_pos s p)
      then space_run turns s (S p) (if ascii_newline (at_pos s p) then Some (S p) else last_newline_end)
      else (p, last_newline_end)
  end.

Definition punct_run (s : bytes) (pos : nat) : nat :=
  let pos := skip_while (length s) joyai_ascii_punct_symbol s pos in skip_while (length s) ascii_newline s pos.

(** Where the piece that starts at [pos] ends. *)
Definition piece_end (s : bytes) (pos : nat) : nat :=
  let len := length s in
  let c := at_pos s pos in
  if ascii_digit c then skip_while 3 ascii_digit s pos
  else if joyai_cjk_at s pos then skip_chars len joyai_cjk_at s (next_utf8_char s pos)
  else if joyai_ascii_punct_symbol c && (S pos <? len)%nat && ascii_alpha (at_pos s (S pos)) then skip_while len ascii_alpha s (S pos)
  else if joyai_letter_like_at s pos then joyai_consume_letters s pos
  else if negb (ascii_newline c) && negb (joyai_ascii_punct_symbol c) && (S pos <? len)%nat && joyai_letter_like_at s (S pos)
  then joyai_consume_letters s (S pos)
  else if (c =? 32) && (S pos <? len)%nat && joyai_ascii_punct_symbol (at_pos s (S pos)) then punct_run s (S pos)
  else if joyai_ascii_punct_symbol c then punct_run s pos
  else if ascii_space c then
    match space_run len s pos None with
    | (_, Some e) => e
    | (p, None) =>
        if (p <? len)%nat && (S pos <? p)%nat && (joyai_letter_like_at s p || joyai_ascii_punct_symbol (at_pos s p))
        then (p - 1)%nat else p
    end
  else next_utf8_char s pos.

(** The pieces of a text from [pos] on; every turn moves ahead. *)
Fixpoint pieces_loop (fuel : nat) (s : bytes) (pos : nat) : list bytes :=
  match fuel with
  | O => []
  | S fuel =>
      if (pos <? length s)%nat then
        let e := piece_end s pos in
        let e := if (e =? pos)%nat then next_utf8_char s pos else e in
        take (e - pos) (drop pos s) :: pieces_loop fuel s e
      else []
  end.

Definition bpe_tokenize_text (v : ds4_vocab) (text : bytes) : list Z :=
  concat (map (bpe_emit_piece v) (pieces_loop (length text) text 0)).

(** ** Loading *)

Definition numbered (l : list bytes) : list (bytes * Z) := imap (fun i s => (s, to_int (Z.of_nat i))) l.

Definition vocab_lookup (t : str_i32_table) (text : bytes) : res Z :=
  match lookup_id t text with
  | Some token => Ok token
  | None => fail "ds4: required tokenizer token is missing: %s" [AS text]
  end.

(** [vocab_load] behind the reading of the two string arrays of the model
    file (ModelVocab.v); [None]: a loop on the tables never ends. *)
Definition vocab_build (tokens merges : list bytes) : option (res ds4_vocab) :=
  match
    t0 ← table_init (Z.of_nat (length tokens)); t ← table_fill t0 (numbered tokens);
    m0 ← table_init (Z.of_nat (length merges)); m ← table_fill m0 (numbered merges); Some (t, m)
  with
  | None => None
  | Some (t, m) =>
      Some (bos <- vocab_lookup t (B "<｜begin▁of▁sentence｜>") ;;
            eos <- vocab_lookup t (B "<｜end▁of▁sentence｜>") ;;
            user <- vocab_lookup t (B "<｜User｜>") ;;
            assistant <- vocab_lookup t (B "<｜Assistant｜>") ;;
            think_start <- vocab_lookup t (B "<think>") ;;
            think_end <- vocab_lookup t (B "</think>") ;;
            dsml <- vocab_lookup t (B "｜DSML｜") ;;
            Ok (Vocab tokens bos eos user assistant think_start think_end dsml t m))
  end.

(** ** Chats *)

Definition specials (v : ds4_vocab) : list (bytes * Z) :=
  [(B "<｜begin▁of▁sentence｜>", bos_id v); (B "<｜end▁of▁sentence｜>", eos_id v); (B "<｜User｜>", user_id v);
   (B "<｜Assistant｜>", assistant_id v); (B "<think>", think_start_id v); (B "</think>", think_end_id v);
   (B "｜DSML｜", dsml_id v)].

(** The token and the length of the special text at the front of [p]. *)
Definition special_token_at (v : ds4_vocab) (p : bytes) : option (Z * nat) :=
  match List.find (fun s => str_prefixb (fst s) p) (specials v) with
  | Some (text, token) => Some (token, length text)
  | None => None
  end.

Definition tokenize_span (v : ds4_vocab) (s : bytes) : list Z := match s with [] => [] | _ => bpe_tokenize_text v s end.

(** [span] is what lies between the last special token and [p]. *)
Fixpoint rendered_loop (fuel : nat) (v : ds4_vocab) (span p : bytes) : list Z :=
  match fuel, p with
  | S fuel, c :: p' =>
      match special_token_at v p with
      | Some (token, len) => tokenize_span v span ++ token :: rendered_loop fuel v [] (drop len p)
      | None => rendered_loop fuel v (span ++ [c]) p'
      end
  | _, _ => tokenize_span v span
  end.

Definition tokenize_rendered_chat_vocab (v : ds4_vocab) (text : bytes) : list Z := rendered_loop (length text) v [] text.

Definition encode_chat_prompt (v : ds4_vocab) (system : option bytes) (prompt : bytes) (think_mode : ds4_think_mode) : list Z :=
  [bos_id v] ++
  (match think_mode with DS4_THINK_MAX => bpe_tokenize_text v ds4_think_max_prefix | _ => [] end) ++
  (match system with Some (_ :: _ as system) => bpe_tokenize_text v system | _ => [] end) ++
  [user_id v] ++ bpe_tokenize_text v prompt ++ [assistant_id v] ++
  [if ds4_think_mode_enabled think_mode then think_start_id v else think_end_id v].

Definition ds4_tokenize_text (v : ds4_vocab) (text : option bytes) : list Z := bpe_tokenize_text v (default [] text).
Definition ds4_tokenize_rendered_chat (v : ds4_vocab) (text : option bytes) : list Z :=
  tokenize_rendered_chat_vocab v (default [] text).
Definition ds4_encode_chat_prompt (v : ds4_vocab) (system prompt : option bytes) (think_mode : ds4_think_mode) : list Z :=
  encode_chat_prompt v system (default [] prompt) think_mode.

Definition ds4_chat_begin (v : ds4_vocab) (tokens : list Z) : list Z := tokens ++ [bos_id v].
Definition ds4_chat_append_max_effort_prefix (v : ds4_vocab) (tokens : list Z) : list Z :=
  tokens ++ bpe_tokenize_text v ds4_think_max_prefix.

Definition ds4_chat_append_message (v : ds4_vocab) (tokens : list Z) (role content : option bytes) : list Z :=
  let role := default (B "user") role in
  let content := default [] content in
  if str_eqb role (B "system") || str_eqb role (B "developer") then tokens ++ bpe_tokenize_text v content
  else if str_eqb role (B "assistant") then
    tokens ++ [assistant_id v] ++
    (if negb (str_prefixb (B "<think>") content) && negb (str_prefixb (B "</think>") content) then [think_end_id v] else []) ++
    bpe_tokenize_text v content
  else
    tokens ++ [user_id v] ++
    (if str_eqb role (B "tool") || str_eqb role (B "function") then bpe_tokenize_text v (B "Tool: ") else []) ++
    bpe_tokenize_text v content.

Definition ds4_chat_append_assistant_prefix (v : ds4_vocab) (tokens : list Z) (think_mode : ds4_think_mode) : list Z :=
  tokens ++ [assistant_id v; if ds4_think_mode_enabled think_mode then think_start_id v else think_end_id v].

(** ** The text of a token *)

(** The code point at [pos] and the position behind it. *)
Definition utf8_decode_one (s : bytes) (pos : nat) : Z * nat :=
  let len := length s in
  let c := at_pos s pos in
  let b k := Z.land (at_pos s (pos + k)) 0x3f in
  if (c <? 0x80) || (len <=? pos + 1)%nat then (c, S pos)
  else if (Z.land c 0xe0 =? 0xc0) && (pos + 1 <? len)%nat then (Z.lor (Z.shiftl (Z.land c 0x1f) 6) (b 1%nat), (pos + 2)%nat)
  else if (Z.land c 0xf0 =? 0xe0) && (pos + 2 <? len)%nat then
    (Z.lor (Z.lor (Z.shiftl (Z.land c 0x0f) 12) (Z.shiftl (b 1%nat) 6)) (b 2%nat), (pos + 3)%nat)
  else if (Z.land c 0xf8 =? 0xf0) && (pos + 3 <? len)%nat then
    (Z.lor (Z.lor (Z.lor (Z.shiftl (Z.land c 0x07) 18) (Z.shiftl (b 1%nat) 12)) (Z.shiftl (b 2%nat) 6)) (b 3%nat), (pos + 4)%nat)
  else (c, S pos).

Fixpoint hidden_byte (fuel : nat) (b n cp : Z) : option Z :=
  match fuel with
  | O => None
  | S fuel =>
      if printable b then hidden_byte fuel (b + 1) n cp
      else if cp =? 256 + n then Some b else hidden_byte fuel (b + 1) (n + 1) cp
  end.

(** [None]: -1. *)
Definition gpt2_codepoint_to_byte (cp : Z) : option Z :=
  if printable cp && (cp <=? 255) then Some cp else hidden_byte 256 0 0 cp.

Definition vocab_token_is_literal_special (s : bytes) : bool := match strstr_pos s [xef; xbd; x9c] with Some _ => true | None => false end.

Fixpoint token_text_loop (fuel : nat) (s : bytes) (pos : nat) : bytes :=
  match fuel with
  | O => []
  | S fuel =>
      if (pos <? length s)%nat then
        let '(cp, next) := utf8_decode_one s pos in
        (match gpt2_codepoint_to_byte cp with Some b => [byte_of b] | None => [] end) ++ token_text_loop fuel s next
      else []
  end.

(** The bytes and [len] of the result; the C string behind it ends at the
    first NUL. *)
Definition ds4_token_text (v : ds4_vocab) (token : Z) : bytes :=
  if (token <? 0) || (n_vocab v <=? token) then []
  else
    let s := nth (Z.to_nat token) (vocab_token v) [] in
    if vocab_token_is_literal_special s then s else token_text_loop (length s) s 0.

Definition ds4_tokens_starts_with (tokens prefix : list Z) : bool :=
  if (length tokens <? length prefix)%nat then false else forallb (fun p => fst p =? snd p) (combine tokens prefix).
