(* ===== verification/TokenizerProps.v ===== *)
(** * Tokenizing keeps the text

    The pieces of the pre-tokenizer cover the text, the merges end in a normal
    form, and the texts of the tokens add up to the text again. *)
From stdpp Require Import gmap.
From S2P Require Import Prelude.
From S2P Require Import ServerStream.
From S2P Require Import ServerStreamProps.
From S2P Require Import DsmlProps.
From S2P Require Import Chat.
From S2P Require Import StrTable.
From S2P Require Import Tokenizer.
Open Scope Z_scope.

(** ** Moving ahead *)

Lemma first_len_range (c : Z) : (1 <= utf8_len_from_first_byte c <= 4)%nat.
Proof. unfold utf8_len_from_first_byte. repeat case_match; lia. Qed.

Lemma next_char_range (s : bytes) (pos : nat) : (pos < length s)%nat -> (pos < next_utf8_char s pos <= length s)%nat.
Proof.
  intros Hp. unfold next_utf8_char. pose proof (first_len_range (at_pos s pos)).
  destruct (Nat.ltb_spec (length s) (pos + utf8_len_from_first_byte (at_pos s pos))); lia.
Qed.

Lemma skip_while_range (turns : nat) (p : Z -> bool) (s : bytes) : forall pos, (pos <= length s)%nat ->
  (pos <= skip_while turns p s pos <= length s)%nat.
Proof.
  induction turns as [|n IH]; intros pos Hp; cbn [skip_while]; [lia|]. destruct (Nat.ltb_spec pos (length s)); cbn [andb]; [|lia].
  destruct (p _); [|lia]. specialize (IH (S pos) ltac:(lia)). lia.
Qed.

Lemma skip_while_moves (turns : nat) (p : Z -> bool) (s : bytes) (pos : nat) : (0 < turns)%nat -> (pos < length s)%nat ->
  p (at_pos s pos) = true -> (pos < skip_while turns p s pos)%nat.
Proof.
  intros Ht Hp E. destruct turns as [|n]; [lia|]. cbn [skip_while]. rewrite E, (proj2 (Nat.ltb_lt _ _) Hp). cbn [andb].
  pose proof (skip_while_range n p s (S pos) ltac:(lia)). lia.
Qed.

Lemma skip_chars_range (turns : nat) (p : bytes -> nat -> bool) (s : bytes) : forall pos, (pos <= length s)%nat ->
  (pos <= skip_chars turns p s pos <= length s)%nat.
Proof.
  induction turns as [|n IH]; intros pos Hp; cbn [skip_chars]; [lia|]. destruct (Nat.ltb_spec pos (length s)); cbn [andb]; [|lia].
  destruct (p s pos); [|lia]. pose proof (next_char_range s pos ltac:(lia)). specialize (IH (next_utf8_char s pos) ltac:(lia)). lia.
Qed.

Lemma skip_chars_moves (turns : nat) (p : bytes -> nat -> bool) (s : bytes) (pos : nat) : (0 < turns)%nat -> (pos < length s)%nat ->
  p s pos = true -> (pos < skip_chars turns p s pos)%nat.
Proof.
  intros Ht Hp E. destruct turns as [|n]; [lia|]. cbn [skip_chars]. rewrite E, (proj2 (Nat.ltb_lt _ _) Hp). cbn [andb].
  pose proof (next_char_range s pos Hp). pose proof (skip_chars_range n p s (next_utf8_char s pos) ltac:(lia)). lia.
Qed.

Lemma space_run_range (turns : nat) (s : bytes) : forall p l, (p <= length s)%nat ->
  (match l with Some e => (e <= p)%nat | None => True end) ->
  let r := space_run turns s p l in (p <= fst r <= length s)%nat /\ match snd r with Some e => l = Some e \/ (p < e <= length s)%nat | None => True end.
Proof.
  induction turns as [|n IH]; intros p l Hp Hl; cbn [space_run].
  - cbn. split; [lia|]. destruct l; auto.
  - destruct (Nat.ltb_spec p (length s)); cbn [andb]; [|cbn; split; [lia|]; destruct l; auto].
    destruct (ascii_space _); [|cbn; split; [lia|]; destruct l; auto].
    destruct (ascii_newline _).
    + destruct (IH (S p) (Some (S p)) ltac:(lia) (le_n _)) as [H1 H2]. cbv zeta. split; [lia|].
      destruct (snd _); [|done]. destruct H2 as [[= <-]|]; right; lia.
    + destruct (IH (S p) l ltac:(lia)) as [H1 H2]; [destruct l; [lia|done]|]. cbv zeta. split; [lia|].
      destruct (snd _); [|done]. destruct H2; [by left|right; lia].
Qed.

Lemma space_run_moves (turns : nat) (s : bytes) (p : nat) : (0 < turns)%nat -> (p < length s)%nat -> ascii_space (at_pos s p) = true ->
  (p < fst (space_run turns s p None))%nat.
Proof.
  intros Ht Hp E. destruct turns as [|n]; [lia|]. cbn [space_run]. rewrite E, (proj2 (Nat.ltb_lt _ _) Hp). cbn [andb].
  destruct (ascii_newline _).
  - pose proof (proj1 (space_run_range n s (S p) (Some (S p)) ltac:(lia) (le_n _))). cbv zeta in *. lia.
  - pose proof (proj1 (space_run_range n s (S p) None ltac:(lia) I)). cbv zeta in *. lia.
Qed.

Lemma punct_run_range (s : bytes) (pos : nat) : (pos <= length s)%nat -> (pos <= punct_run s pos <= length s)%nat.
Proof.
  intros Hp. unfold punct_run. pose proof (skip_while_range (length s) joyai_ascii_punct_symbol s pos Hp).
  pose proof (skip_while_range (length s) ascii_newline s (skip_while (length s) joyai_ascii_punct_symbol s pos) ltac:(lia)). lia.
Qed.

Lemma punct_run_moves (s : bytes) (pos : nat) : (pos < length s)%nat -> joyai_ascii_punct_symbol (at_pos s pos) = true -> (pos < punct_run s pos)%nat.
Proof.
  intros Hp E. unfold punct_run. pose proof (skip_while_moves (length s) joyai_ascii_punct_symbol s pos ltac:(lia) Hp E).
  pose proof (skip_while_range (length s) joyai_ascii_punct_symbol s pos ltac:(lia)).
  pose proof (skip_while_range (length s) ascii_newline s (skip_while (length s) joyai_ascii_punct_symbol s pos) ltac:(lia)). lia.
Qed.

(** A piece is not empty and ends in the text. *)
Lemma piece_end_range (s : bytes) (pos : nat) : (pos < length s)%nat -> (pos < piece_end s pos <= length s)%nat.
Proof.
  intros Hp. pose proof (next_char_range s pos Hp) as Hn. unfold piece_end, joyai_consume_letters.
  destruct (ascii_digit _) eqn:E1.
  { pose proof (skip_while_moves 3 ascii_digit s pos ltac:(lia) Hp E1). pose proof (skip_while_range 3 ascii_digit s pos ltac:(lia)). lia. }
  destruct (joyai_cjk_at s pos).
  { pose proof (skip_chars_range (length s) joyai_cjk_at s (next_utf8_char s pos) ltac:(lia)). lia. }
  destruct (_ && (S pos <? length s)%nat && ascii_alpha _) eqn:E2.
  { pose proof (skip_while_range (length s) ascii_alpha s (S pos) ltac:(lia)). lia. }
  destruct (joyai_letter_like_at s pos) eqn:E3.
  { pose proof (skip_chars_moves (length s) joyai_letter_like_at s pos ltac:(lia) Hp E3).
    pose proof (skip_chars_range (length s) joyai_letter_like_at s pos ltac:(lia)). lia. }
  destruct (_ && (S pos <? length s)%nat && joyai_letter_like_at s (S pos)).
  { pose proof (skip_chars_range (length s) joyai_letter_like_at s (S pos) ltac:(lia)). lia. }
  destruct (_ && (S pos <? length s)%nat && joyai_ascii_punct_symbol _).
  { pose proof (punct_run_range s (S pos) ltac:(lia)). lia. }
  destruct (joyai_ascii_punct_symbol _) eqn:E4.
  { pose proof (punct_run_moves s pos Hp E4). pose proof (punct_run_range s pos ltac:(lia)). lia. }
  destruct (ascii_space _) eqn:E5; [|lia].
  pose proof (space_run_range (length s) s pos None ltac:(lia) I) as [H1 H2].
  pose proof (space_run_moves (length s) s pos ltac:(lia) Hp E5) as H3.
  destruct (space_run (length s) s pos None) as [p [e|]]; cbn [fst snd] in *.
  - destruct H2 as [|H2]; [done|lia].
  - destruct (_ && (S pos <? p)%nat && _) eqn:E6; [|lia]. apply andb_true_iff in E6 as [E6 _].
    apply andb_true_iff in E6 as [_ E6]. apply Nat.ltb_lt in E6. lia.
Qed.

Lemma pieces_cover (s : bytes) (fuel : nat) : forall pos, (length s <= fuel + pos)%nat ->
  concat (pieces_loop fuel s pos) = drop pos s /\ Forall (fun p => p <> []) (pieces_loop fuel s pos).
Proof.
  induction fuel as [|fuel IH]; intros pos Hf; cbn [pieces_loop].
  - rewrite drop_ge by lia. done.
  - destruct (Nat.ltb_spec pos (length s)) as [Hp|Hp]; [|rewrite drop_ge by lia; done].
    pose proof (piece_end_range s pos Hp) as He. rewrite (proj2 (Nat.eqb_neq _ _)) by lia.
    destruct (IH (piece_end s pos) ltac:(lia)) as [H1 H2]. cbn [concat]. rewrite H1. split.
    + replace (drop (piece_end s pos) s) with (drop (piece_end s pos - pos) (drop pos s)) by (rewrite drop_drop; f_equal; lia).
      apply take_drop.
    + constructor; [|done]. intros E. apply (f_equal length) in E. rewrite length_take, length_drop in E. simpl in E. lia.
Qed.

(** ** Encoded bytes *)

Definition enc (b : byte) : bytes := utf8_put (gpt2_byte_to_codepoint (bz b)).

Lemma byte_encode_enc (s : bytes) : byte_encode s = concat (map enc s).
Proof. done. Qed.

Lemma byte_encode_app (s t : bytes) : byte_encode (s ++ t) = byte_encode s ++ byte_encode t.
Proof. rewrite !byte_encode_enc. by rewrite map_app, concat_app. Qed.

(** An encoded byte is one or two bytes, read back as it was written, and
    holds no byte of the bar of special tokens. *)
Definition enc_ok (b : byte) : bool :=
  match enc b with
  | [c] => (bz c <? 0x80) && (gpt2_byte_to_codepoint (bz b) =? bz c) && negb (Byte.eqb c xef)
  | [c; d] =>
      negb (bz c <? 0x80) && (Z.land (bz c) 0xe0 =? 0xc0) && negb (Byte.eqb c xef) && negb (Byte.eqb d xef) &&
      (gpt2_byte_to_codepoint (bz b) =? Z.lor (Z.shiftl (Z.land (bz c) 0x1f) 6) (Z.land (bz d) 0x3f))
  | _ => false
  end &&
  match gpt2_codepoint_to_byte (gpt2_byte_to_codepoint (bz b)) with Some x => x =? bz b | None => false end.

Lemma enc_all (b : byte) : enc_ok b = true.
Proof. destruct b; vm_compute; reflexivity. Qed.

Lemma enc_shape (b : byte) :
  (exists c, enc b = [c] /\ bz c < 0x80 /\ gpt2_byte_to_codepoint (bz b) = bz c) \/
  (exists c d, enc b = [c; d] /\ 0x80 <= bz c /\ Z.land (bz c) 0xe0 = 0xc0 /\
    gpt2_byte_to_codepoint (bz b) = Z.lor (Z.shiftl (Z.land (bz c) 0x1f) 6) (Z.land (bz d) 0x3f)).
Proof.
  pose proof (enc_all b) as H. unfold enc_ok in H. apply andb_true_iff in H as [H _].
  destruct (enc b) as [|c [|d [|e l]]]; try done; bool_hyps; [left|right].
  - exists c. split; [done|]. split; lia.
  - exists c, d. split; [done|]. split; [lia|]. split; lia.
Qed.

Lemma enc_no_bar (b : byte) : xef ∉ enc b.
Proof.
  pose proof (enc_all b) as H. unfold enc_ok in H. apply andb_true_iff in H as [H _].
  destruct (enc b) as [|c [|d [|e l]]]; try done; bool_hyps.
  - intros Hin%list_elem_of_singleton. subst c. done.
  - intros [Hin|Hin%list_elem_of_singleton]%elem_of_cons; subst; done.
Qed.

Lemma enc_back (b : byte) : gpt2_codepoint_to_byte (gpt2_byte_to_codepoint (bz b)) = Some (bz b).
Proof.
  pose proof (enc_all b) as H. unfold enc_ok in H. apply andb_true_iff in H as [_ H].
  destruct (gpt2_codepoint_to_byte _) as [x|]; [|done]. f_equal. lia.
Qed.

Lemma enc_length (b : byte) : exists c r, enc b = c :: r /\ utf8_len_from_first_byte (bz c) = length (enc b).
Proof.
  destruct (enc_shape b) as [(c & -> & Hc & _)|(c & d & -> & Hc & Hl & _)]; do 2 eexists; (split; [reflexivity|]); unfold utf8_len_from_first_byte.
  - by rewrite (proj2 (Z.ltb_lt _ _) Hc).
  - rewrite (proj2 (Z.ltb_ge _ _) Hc). rewrite Hl. done.
Qed.

(** The symbols of an encoded piece are its encoded bytes. *)
Lemma split_encoded (s : bytes) : forall fuel, (length s <= fuel)%nat -> split_symbols fuel (byte_encode s) = map enc s.
Proof.
  induction s as [|b s IH]; intros fuel Hf; [by destruct fuel|]. destruct fuel as [|fuel]; [simpl in Hf; lia|].
  change (byte_encode (b :: s)) with (enc b ++ byte_encode s). destruct (enc_length b) as (c & r & E & Hl).
  assert (Hs : split_symbols (S fuel) (enc b ++ byte_encode s) =
    let n := if (length (enc b ++ byte_encode s) <? length (enc b))%nat then 1%nat else length (enc b) in
    take n (enc b ++ byte_encode s) :: split_symbols fuel (drop n (enc b ++ byte_encode s))).
  { rewrite <- Hl, E. done. }
  rewrite Hs, (proj2 (Nat.ltb_ge _ _)) by (rewrite length_app; lia). cbv zeta. rewrite take_app_length, drop_app_length. cbn [map]. f_equal.
  apply IH. simpl in Hf. lia.
Qed.

Lemma encoded_longer (s : bytes) : (length s <= length (byte_encode s))%nat.
Proof.
  induction s as [|b s IH]; [done|]. change (byte_encode (b :: s)) with (enc b ++ byte_encode s). rewrite length_app.
  destruct (enc_length b) as (c & r & -> & _). simpl. lia.
Qed.

Lemma encoded_no_bar (s : bytes) : vocab_token_is_literal_special (byte_encode s) = false.
Proof.
  unfold vocab_token_is_literal_special. destruct (strstr_pos _ _) as [i|] eqn:E; [|done]. exfalso.
  apply strstr_pos_some in E as [[r E]%str_prefixb_spec _].
  assert (Hin : xef ∈ byte_encode s).
  { apply (elem_of_suffix (drop i (byte_encode s))); [rewrite E; by left|apply suffix_drop]. }
  rewrite byte_encode_enc in Hin. clear E. induction s as [|b s IH]; [by apply elem_of_nil in Hin|].
  cbn [map concat] in Hin. apply elem_of_app in Hin as [Hin|Hin]; [by apply enc_no_bar in Hin|by apply IH].
Qed.

(** ** Reading encoded text back *)

Lemma at_drop (s x : bytes) (pos k : nat) : drop pos s = x -> at_pos s (pos + k) = bz (nth k x NUL).
Proof. intros <-. unfold at_pos. by rewrite !nth_lookup, lookup_drop. Qed.

Lemma decode_encoded (s rest : bytes) (pos : nat) (b : byte) : drop pos s = enc b ++ rest -> (pos <= length s)%nat ->
  utf8_decode_one s pos = (gpt2_byte_to_codepoint (bz b), (pos + length (enc b))%nat).
Proof.
  intros E Hp. pose proof (f_equal length E) as Hl. rewrite length_drop, length_app in Hl.
  pose proof (at_drop s _ pos 0 E) as H0. pose proof (at_drop s _ pos 1 E) as H1. rewrite Nat.add_0_r in H0. unfold utf8_decode_one.
  destruct (enc_shape b) as [(c & Ec & Hc & Hcp)|(c & d & Ec & Hc & Hm & Hcp)]; rewrite Ec in *; cbn [app nth length] in *.
  - rewrite H0, (proj2 (Z.ltb_lt _ _) Hc). cbn [orb]. rewrite Hcp. f_equal. lia.
  - rewrite H0, H1, (proj2 (Z.ltb_ge _ _) Hc), (proj2 (Nat.leb_gt _ _)) by lia. cbn [orb].
    rewrite Hm, (proj2 (Nat.ltb_lt _ _)) by lia. cbn [andb Z.eqb]. by rewrite Hcp.
Qed.

Lemma text_of_encoded (s : bytes) (t : bytes) : forall fuel pos, drop pos t = byte_encode s -> (pos <= length t)%nat -> (length s <= fuel)%nat ->
  token_text_loop fuel t pos = s.
Proof.
  induction s as [|b s IH]; intros fuel pos E Hp Hf.
  - pose proof (f_equal length E) as Hl. rewrite length_drop in Hl. simpl in Hl.
    destruct fuel; [done|]. cbn [token_text_loop]. by rewrite (proj2 (Nat.ltb_ge _ _)) by lia.
  - change (byte_encode (b :: s)) with (enc b ++ byte_encode s) in E. destruct fuel as [|fuel]; [simpl in Hf; lia|].
    pose proof (f_equal length E) as Hl. rewrite length_drop, length_app in Hl. destruct (enc_length b) as (c & r & Ec & _).
    assert (0 < length (enc b))%nat by (rewrite Ec; simpl; lia).
    cbn [token_text_loop]. rewrite (proj2 (Nat.ltb_lt _ _)) by lia. rewrite (decode_encoded t _ pos b E Hp), enc_back.
    cbn [app]. unfold byte_of. change 0xff with (Z.ones 8). rewrite Z.land_ones by lia. pose proof (bz_range b).
    rewrite Z.mod_small by lia. rewrite zb_bz. f_equal. apply IH; [|lia|simpl in Hf; lia].
    by rewrite <- drop_drop, E, drop_app_length.
Qed.

(** ** A loaded vocabulary *)

Lemma numbered_in (l : list bytes) (s : bytes) (i : Z) : (s, i) ∈ numbered l -> exists j, l !! j = Some s /\ i = to_int (Z.of_nat j).
Proof.
  unfold numbered. intros (j & E)%list_elem_of_lookup. rewrite list_lookup_imap in E.
  destruct (l !! j) as [s'|] eqn:Ej; [|done]. cbn in E. injection E as -> <-. by exists j.
Qed.

Lemma numbered_keys (l : list bytes) : map fst (numbered l) = l.
Proof.
  unfold numbered. apply list_eq. intros j. change (map fst ?x) with (fst <$> x). rewrite list_lookup_fmap, list_lookup_imap.
  by destruct (l !! j).
Qed.

Lemma length_numbered (l : list bytes) : length (numbered l) = length l.
Proof. unfold numbered. apply length_imap. Qed.

Lemma to_int_small (z : Z) : 0 <= z <= INT_MAX -> to_int z = z.
Proof. unfold INT_MAX, to_int. intros Hz. rewrite Z.mod_small by lia. lia. Qed.

(** What is known of a loaded vocabulary. *)
Record loaded (tokens merges : list bytes) (v : ds4_vocab) : Prop := {
  ld_tokens : vocab_token v = tokens;
  ld_bound : Z.of_nat (length tokens) <= INT_MAX;
  ld_ids : forall s, lookup_id (token_to_id v) s = last_puts (numbered tokens) !! s;
  ld_ranks : forall s, lookup_id (merge_rank v) s = last_puts (numbered merges) !! s;
  ld_specials : Forall (fun s => lookup_id (token_to_id v) (fst s) = Some (snd s)) (specials v)
}.

Lemma vocab_lookup_ok (t : str_i32_table) (s : bytes) (i : Z) : vocab_lookup t s = Ok i -> lookup_id t s = Some i.
Proof. unfold vocab_lookup. destruct (lookup_id t s); [|done]. congruence. Qed.

Lemma build_loaded (tokens merges : list bytes) (v : ds4_vocab) : Z.of_nat (length tokens) <= INT_MAX ->
  Z.of_nat (length merges) <= 2 ^ 61 -> vocab_build tokens merges = Some (Ok v) -> loaded tokens merges v.
Proof.
  intros Hb Hm E. unfold vocab_build in E.
  destruct (table_built (numbered tokens) (Z.of_nat (length tokens))) as (t0 & t & Et0 & Et & Hget); [rewrite length_numbered; unfold INT_MAX in Hb; lia|].
  destruct (table_built (numbered merges) (Z.of_nat (length merges))) as (m0 & m & Em0 & Em & Hgetm); [rewrite length_numbered; lia|].
  rewrite Et0, Em0 in E. cbn in E. rewrite Et in E. cbn in E. rewrite Em in E. cbn in E. injection E as E.
  repeat match type of E with (match vocab_lookup ?t ?s with Ok _ => _ | Error _ => _ end) = Ok _ =>
    destruct (vocab_lookup t s) eqn:?; [|done] end.
  injection E as <-. constructor; cbn [vocab_token token_to_id merge_rank]; [done|done| | |].
  - intros s. unfold lookup_id. by rewrite Hget.
  - intros s. unfold lookup_id. by rewrite Hgetm.
  - unfold specials. cbn. repeat (apply Forall_cons; split; [cbn; by apply vocab_lookup_ok|]). constructor.
Qed.

Section Loaded.
Context (tokens merges : list bytes) (v : ds4_vocab).
Hypothesis Hv : loaded tokens merges v.

(** An id names the token it was found by. *)
Lemma id_token (s : bytes) (i : Z) : lookup_id (token_to_id v) s = Some i ->
  0 <= i < n_vocab v /\ nth (Z.to_nat i) (vocab_token v) [] = s.
Proof.
  rewrite (ld_ids _ _ _ Hv). intros E. pose proof (last_puts_spec (numbered tokens) s) as H. rewrite E in H.
  apply numbered_in in H as (j & Hj & ->). pose proof (lookup_lt_Some _ _ _ Hj). pose proof (ld_bound _ _ _ Hv).
  rewrite to_int_small by lia. unfold n_vocab. rewrite (ld_tokens _ _ _ Hv). split; [lia|]. rewrite Nat2Z.id. by apply nth_lookup_Some.
Qed.

Lemma token_known (s : bytes) : s ∈ tokens -> exists i, lookup_id (token_to_id v) s = Some i.
Proof.
  intros Hin. rewrite (ld_ids _ _ _ Hv). pose proof (last_puts_spec (numbered tokens) s) as H.
  destruct (last_puts _ !! s) as [i|]; [by exists i|]. by rewrite numbered_keys in H.
Qed.

Lemma ranked_merge (a b : bytes) : 0 <= bpe_rank v a b -> a ++ x20 :: b ∈ merges.
Proof.
  unfold bpe_rank. rewrite (ld_ranks _ _ _ Hv). pose proof (last_puts_spec (numbered merges) (a ++ x20 :: b)) as H.
  destruct (last_puts _ !! _) as [i|]; [|cbn; lia]. intros _. apply numbered_in in H as (j & Hj & _). by eapply list_elem_of_lookup_2.
Qed.

(** The text of a token that encodes bytes, and of a special token. *)
Lemma text_of_token (i : Z) (s : bytes) : lookup_id (token_to_id v) (byte_encode s) = Some i -> ds4_token_text v i = s.
Proof.
  intros [Hi Hn]%id_token. unfold ds4_token_text. rewrite (proj2 (Z.ltb_ge _ _)), (proj2 (Z.leb_gt _ _)) by lia. cbn [orb].
  rewrite Hn, encoded_no_bar. apply text_of_encoded; [done|lia|apply encoded_longer].
Qed.

Lemma text_of_special (p : bytes) (token : Z) (len : nat) : special_token_at v p = Some (token, len) ->
  ds4_token_text v token = take len p /\ (0 < len <= length p)%nat.
Proof.
  unfold special_token_at. destruct (List.find _ _) as [[text i]|] eqn:E; [|done]. intros [= <- <-].
  apply find_some in E as [Hin Hp]. cbn [fst] in Hp. pose proof (ld_specials _ _ _ Hv) as Hs. rewrite Forall_forall in Hs.
  specialize (Hs _ (proj2 (list_elem_of_In _ _) Hin)). cbn [fst snd] in Hs. apply id_token in Hs as [Hi Hn].
  pose proof (prefixb_length _ _ Hp) as Hl. apply str_prefixb_spec in Hp as [r ->]. rewrite take_app_length.
  assert (Ht : (if vocab_token_is_literal_special text then text else token_text_loop (length text) text 0) = text /\ (0 < length text)%nat).
  { unfold specials in Hin. cbn in Hin. repeat destruct Hin as [[= <- <-]|Hin]; try done; (split; [vm_compute; reflexivity|vm_compute; lia]). }
  split; [|lia]. unfold ds4_token_text. rewrite (proj2 (Z.ltb_ge _ _)), (proj2 (Z.leb_gt _ _)) by lia. cbn [orb]. rewrite Hn. apply Ht.
Qed.

(** ** Merging *)

Hypothesis Hbytes : forall b, byte_encode [b] ∈ tokens.
Hypothesis Hclosed : forall a b, a ++ x20 :: b ∈ merges -> a ++ b ∈ tokens.

(** A symbol is a token that encodes bytes. *)
Definition symbol (s : bytes) : Prop := s ∈ tokens /\ exists bs, s = byte_encode bs.

Definition mergeable (a b : bytes) : Prop := 0 <= bpe_rank v a b < INT_MAX.

(** One step: the leftmost of the mergeable pairs of the lowest rank. *)
Inductive bpe_step : list bytes -> list bytes -> Prop :=
| bpe_merge l a b r :
    mergeable a b ->
    (forall l' x y r', l ++ a :: b :: r = l' ++ x :: y :: r' -> mergeable x y ->
       bpe_rank v a b < bpe_rank v x y \/ bpe_rank v a b = bpe_rank v x y /\ (length l <= length l')%nat) ->
    bpe_step (l ++ a :: b :: r) (l ++ (a ++ b) :: r).

(** The search for the best pair, having seen [best] with [best_rank]. *)
Lemma best_pair_spec (sym : list bytes) : forall i best_rank best,
  match best_pair v sym i best_rank best with
  | Some n =>
      (best = Some n /\ forall l x y r, sym = l ++ x :: y :: r -> 0 <= bpe_rank v x y -> best_rank <= bpe_rank v x y) \/
      (exists l a b r, sym = l ++ a :: b :: r /\ n = (i + length l)%nat /\ 0 <= bpe_rank v a b < best_rank /\
         forall l' x y r', sym = l' ++ x :: y :: r' -> 0 <= bpe_rank v x y ->
           bpe_rank v a b < bpe_rank v x y \/ bpe_rank v a b = bpe_rank v x y /\ (length l <= length l')%nat)
  | None => best = None /\ forall l x y r, sym = l ++ x :: y :: r -> 0 <= bpe_rank v x y -> best_rank <= bpe_rank v x y
  end.
Proof.
  assert (Hshort : forall (l : list bytes) x y r a, l ++ x :: y :: r = [a] -> False).
  { intros [|? [|]] ? ? ? ?; discriminate. }
  induction sym as [|a sym IH]; intros i br best.
  - cbn. destruct best; [left|]; (split; [done|]); intros [|] ? ? ?; discriminate.
  - destruct sym as [|b sym].
    { cbn. destruct best; [left|]; (split; [done|]); intros l x y r E; by destruct (Hshort _ _ _ _ _ (eq_sym E)). }
    assert (Hcons : forall l x y r, a :: b :: sym = l ++ x :: y :: r -> (l = [] /\ x = a /\ y = b) \/ exists l2, l = a :: l2 /\ b :: sym = l2 ++ x :: y :: r).
    { intros [|c l] x y r E; cbn in E; [left|right]; simplify_eq; [done|by exists l]. }
    change (best_pair v (a :: b :: sym) i br best) with
      (if (0 <=? bpe_rank v a b) && (bpe_rank v a b <? br) then best_pair v (b :: sym) (S i) (bpe_rank v a b) (Some i) else best_pair v (b :: sym) (S i) br best).
    destruct ((0 <=? bpe_rank v a b) && (bpe_rank v a b <? br)) eqn:E.
    + apply andb_true_iff in E as [E1%Z.leb_le E2%Z.ltb_lt]. specialize (IH (S i) (bpe_rank v a b) (Some i)).
      destruct (best_pair v (b :: sym) (S i) (bpe_rank v a b) (Some i)) as [n|]; [|by destruct IH].
      right. destruct IH as [[[= <-] Hmin]|(l & a' & b' & r & El & -> & Hr & Hmin)].
      * exists [], a, b, sym. split; [done|]. split; [simpl; lia|]. split; [lia|]. intros l' x y r' Ed Hx.
        destruct (Hcons _ _ _ _ Ed) as [(-> & -> & ->)|(l2 & -> & Ed2)]; [right; split; [done|simpl; lia]|].
        pose proof (Hmin _ _ _ _ Ed2 Hx). destruct (Z.eq_dec (bpe_rank v a b) (bpe_rank v x y)); [right; split; [done|simpl; lia]|left; lia].
      * exists (a :: l), a', b', r. split; [cbn; by rewrite El|]. split; [simpl; lia|]. split; [lia|]. intros l' x y r' Ed Hx.
        destruct (Hcons _ _ _ _ Ed) as [(-> & -> & ->)|(l2 & -> & Ed2)]; [left; lia|].
        destruct (Hmin _ _ _ _ Ed2 Hx) as [|[]]; [by left|right; split; [done|simpl; lia]].
    + assert (Hab : 0 <= bpe_rank v a b -> br <= bpe_rank v a b) by (apply andb_false_iff in E as [E|E]; lia).
      specialize (IH (S i) br best). destruct (best_pair v (b :: sym) (S i) br best) as [n|].
      * destruct IH as [[-> Hmin]|(l & a' & b' & r & El & -> & Hr & Hmin)].
        -- left. split; [done|]. intros l x y r Ed Hx. destruct (Hcons _ _ _ _ Ed) as [(-> & -> & ->)|(l2 & -> & Ed2)]; [by apply Hab|by eapply Hmin].
        -- right. exists (a :: l), a', b', r. split; [cbn; by rewrite El|]. split; [simpl; lia|]. split; [lia|]. intros l' x y r' Ed Hx.
           destruct (Hcons _ _ _ _ Ed) as [(-> & -> & ->)|(l2 & -> & Ed2)]; [specialize (Hab Hx); left; lia|].
           destruct (Hmin _ _ _ _ Ed2 Hx) as [|[]]; [by left|right; split; [done|simpl; lia]].
      * destruct IH as [-> Hmin]. split; [done|]. intros l x y r Ed Hx.
        destruct (Hcons _ _ _ _ Ed) as [(-> & -> & ->)|(l2 & -> & Ed2)]; [by apply Hab|by eapply Hmin].
Qed.

Lemma merge_at_app (l : list bytes) (a b : bytes) (r : list bytes) : merge_at (l ++ a :: b :: r) (length l) = l ++ (a ++ b) :: r.
Proof. unfold merge_at. by rewrite drop_app_length, take_app_length. Qed.

(** A turn of the loop is a step, and the loop ends where there is none. *)
Lemma best_pair_step (sym : list bytes) :
  match best_pair v sym 0 INT_MAX None with
  | Some n => bpe_step sym (merge_at sym n) /\ length sym = S (length (merge_at sym n))
  | None => forall sym', ~ bpe_step sym sym'
  end.
Proof.
  pose proof (best_pair_spec sym 0 INT_MAX None) as H. destruct (best_pair v sym 0 INT_MAX None) as [n|].
  - destruct H as [[? _]|(l & a & b & r & -> & -> & Hr & Hmin)]; [done|]. rewrite Nat.add_0_l, merge_at_app. split.
    + constructor; [done|]. intros l' x y r' E [Hx _]. by eapply Hmin.
    + rewrite !length_app. simpl. lia.
  - destruct H as [_ Hmin]. intros sym' Hs. inversion Hs as [l a b r [H1 H2] Hlm El El']; subst. specialize (Hmin _ _ _ _ eq_refl H1). lia.
Qed.

Lemma bpe_loop_steps (fuel : nat) : forall sym, (length sym <= fuel)%nat ->
  rtc bpe_step sym (bpe_loop fuel v sym) /\ forall sym', ~ bpe_step (bpe_loop fuel v sym) sym'.
Proof.
  induction fuel as [|fuel IH]; intros sym Hf; cbn [bpe_loop].
  - split; [done|]. intros sym' Hs. inversion Hs as [l a b r Hm Hlm El El']. subst. rewrite length_app in Hf. simpl in Hf. lia.
  - pose proof (best_pair_step sym) as H. destruct (best_pair v sym 0 INT_MAX None) as [n|]; [|by split].
    destruct H as [H1 H2]. destruct (IH (merge_at sym n) ltac:(lia)) as [H3 H4]. split; [|done]. by eapply rtc_l.
Qed.

(** A step keeps the text and makes a symbol of two. *)
Lemma step_symbols (sym sym' : list bytes) : bpe_step sym sym' -> Forall symbol sym ->
  Forall symbol sym' /\ concat sym' = concat sym.
Proof.
  intros Hs Hall. destruct Hs as [l a b r [Hm _] _]. apply Forall_app in Hall as [Hl Hr].
  apply Forall_cons in Hr as [[_ [x ->]] Hr]. apply Forall_cons in Hr as [[_ [y ->]] Hr]. split.
  - apply Forall_app. split; [done|]. constructor; [|done]. split; [by apply Hclosed, ranked_merge|]. exists (x ++ y). by rewrite byte_encode_app.
  - rewrite !concat_app. cbn [concat]. by rewrite <- !app_assoc.
Qed.

Lemma steps_symbols (sym sym' : list bytes) : rtc bpe_step sym sym' -> Forall symbol sym -> Forall symbol sym' /\ concat sym' = concat sym.
Proof.
  induction 1 as [|sym s1 sym' H1 _ IH]; intros Hall; [done|]. destruct (step_symbols _ _ H1 Hall) as [H2 H3].
  destruct (IH H2) as [H4 H5]. split; [done|]. by rewrite H5.
Qed.

(** ** Texts *)

Definition texts (ids : list Z) : bytes := concat (map (ds4_token_text v) ids).

Lemma texts_app (a b : list Z) : texts (a ++ b) = texts a ++ texts b.
Proof. unfold texts. by rewrite map_app, concat_app. Qed.

Lemma encode_inj (s t : bytes) : byte_encode s = byte_encode t -> s = t.
Proof.
  intros E. rewrite <- (text_of_encoded s (byte_encode s) (length (byte_encode s)) 0 eq_refl ltac:(lia) (encoded_longer s)).
  rewrite E. apply text_of_encoded; [done|lia|apply encoded_longer].
Qed.

Lemma symbols_texts (sym : list bytes) : Forall symbol sym -> byte_encode (texts (concat (map (emit_symbol v) sym))) = concat sym.
Proof.
  induction 1 as [|s sym [Hin [bs ->]] _ IH]; [done|]. cbn [map concat]. rewrite texts_app, byte_encode_app, IH. f_equal.
  destruct (token_known _ Hin) as [i Hi]. unfold emit_symbol. rewrite Hi. unfold texts. cbn. rewrite app_nil_r.
  by rewrite (text_of_token i bs).
Qed.

Lemma piece_symbols (piece : bytes) : Forall symbol (map enc piece).
Proof.
  induction piece as [|b piece IH]; [constructor|]. cbn [map]. constructor; [|done].
  assert (E : enc b = byte_encode [b]) by (cbn; by rewrite app_nil_r). split; [rewrite E; apply Hbytes|by exists [b]].
Qed.

Lemma piece_texts (piece : bytes) : texts (bpe_emit_piece v piece) = piece.
Proof.
  apply encode_inj. unfold bpe_emit_piece, bpe_symbols.
  rewrite (split_encoded piece) by apply encoded_longer.
  destruct (bpe_loop_steps (length (map enc piece)) (map enc piece) (le_n _)) as [Hs _].
  destruct (steps_symbols _ _ Hs (piece_symbols piece)) as [H1 H2]. rewrite symbols_texts by done. rewrite H2. reflexivity.
Qed.

Lemma text_texts (text : bytes) : texts (bpe_tokenize_text v text) = text.
Proof.
  unfold bpe_tokenize_text. destruct (pieces_cover text (length text) 0 ltac:(lia)) as [Hc _]. rewrite drop_0 in Hc.
  transitivity (concat (pieces_loop (length text) text 0)); [|done]. generalize (pieces_loop (length text) text 0) as ps. intros ps.
  induction ps as [|p ps IH]; [reflexivity|]. cbn [map concat].
  by rewrite texts_app, piece_texts, IH.
Qed.

Lemma span_texts (s : bytes) : texts (tokenize_span v s) = s.
Proof. destruct s; [done|]. apply text_texts. Qed.

Lemma rendered_texts (fuel : nat) : forall span p, (length p <= fuel)%nat -> texts (rendered_loop fuel v span p) = span ++ p.
Proof.
  induction fuel as [|fuel IH]; intros span p Hf; cbn [rendered_loop].
  - destruct p; [|simpl in Hf; lia]. by rewrite span_texts, app_nil_r.
  - destruct p as [|c p]; [by rewrite span_texts, app_nil_r|].
    destruct (special_token_at v (c :: p)) as [[token len]|] eqn:E.
    + destruct (text_of_special _ _ _ E) as [Ht Hl]. rewrite texts_app, span_texts.
      change (token :: ?x) with ([token] ++ x). rewrite texts_app, IH by (rewrite length_drop; lia).
      unfold texts at 1. cbn [map concat app]. rewrite app_nil_r, Ht. cbn [app]. by rewrite take_drop.
    + rewrite IH by (simpl in Hf; lia). by rewrite <- app_assoc.
Qed.
End Loaded.

(** An example vocabulary: the encoded bytes, the special tokens and four
    merged symbols. *)
Definition example_merges : list bytes := [B "h e"; B "l l"; B "he l"; byte_encode (B " ") ++ B " w"].
Definition example_tokens : list bytes :=
  map (fun i => byte_encode [zb (Z.of_nat i)]) (seq 0 256) ++
  [B "<｜begin▁of▁sentence｜>"; B "<｜end▁of▁sentence｜>"; B "<｜User｜>"; B "<｜Assistant｜>"; B "<think>"; B "</think>";
   B "｜DSML｜"; B "he"; B "ll"; B "hel"; byte_encode (B " w")].
Definition example_vocab : ds4_vocab :=
  match vocab_build example_tokens example_merges with Some (Ok v) => v | _ => Vocab [] 0 0 0 0 0 0 0 (StrTable [] 0) (StrTable [] 0) end.

Lemma example_bytes (b : byte) : byte_encode [b] ∈ example_tokens.
Proof.
  unfold example_tokens. apply elem_of_app. left. apply list_elem_of_In, in_map_iff. exists (Z.to_nat (bz b)).
  pose proof (bz_range b). split; [by rewrite Z2Nat.id, zb_bz by lia|]. apply in_seq. lia.
Qed.

(** A byte of a merge rule is the separator where it is a space. *)
Definition closed_at (m : bytes) : bool :=
  forallb (fun i => negb (Byte.eqb (nth i m NUL) x20) || bool_decide (take i m ++ drop (S i) m ∈ example_tokens)) (seq 0 (length m)).

Lemma example_closed (a b : bytes) : a ++ x20 :: b ∈ example_merges -> a ++ b ∈ example_tokens.
Proof.
  assert (H : forallb closed_at example_merges = true) by (vm_compute; reflexivity). rewrite forallb_forall in H.
  intros Hin%list_elem_of_In%H. unfold closed_at in Hin. rewrite forallb_forall in Hin.
  specialize (Hin (length a)). rewrite in_seq, length_app in Hin. specialize (Hin ltac:(simpl; lia)).
  rewrite nth_middle in Hin. cbn [Byte.eqb negb orb] in Hin. apply orb_true_iff in Hin as [Hin|Hin]; [done|].
  apply bool_decide_eq_true in Hin. rewrite take_app_length in Hin.
  replace (S (length a)) with (length a + 1)%nat in Hin by lia. by rewrite drop_app_add in Hin.
Qed.

(** Tokenizing loses nothing: with a loaded vocabulary that has every
    encoded byte and the result of every merge, the texts of the tokens of a
    text, and of a rendered chat with its special tokens, add up to exactly
    the text. *)
Theorem tokenizer_roundtrip (tokens merges : list bytes) (v : ds4_vocab) :
  vocab_build tokens merges = Some (Ok v) -> Z.of_nat (length tokens) <= INT_MAX -> Z.of_nat (length merges) <= 2 ^ 61 ->
  (forall b, byte_encode [b] ∈ tokens) -> (forall a b, a ++ x20 :: b ∈ merges -> a ++ b ∈ tokens) ->
  forall text : bytes,
    concat (map (ds4_token_text v) (ds4_tokenize_text v (Some text))) = text /\
    concat (map (ds4_token_text v) (ds4_tokenize_rendered_chat v (Some text))) = text.
Proof.
  intros Hl Ht Hm Hb Hc text. pose proof (build_loaded tokens merges v Ht Hm Hl) as Hv. split.
  - exact (text_texts tokens merges v Hv Hb Hc text).
  - exact (rendered_texts tokens merges v Hv Hb Hc (length text) [] text (le_n _)).
Qed.

Lemma tokenizer_roundtrip_witness :
  ds4_tokenize_rendered_chat example_vocab (Some (B "<think>hello")) <> [] /\
  concat (map (ds4_token_text example_vocab) (ds4_tokenize_rendered_chat example_vocab (Some (B "<think>hello")))) = B "<think>hello".
Proof.
  split; [vm_compute; discriminate|].
  refine (proj2 (tokenizer_roundtrip example_tokens example_merges example_vocab _ _ _ example_bytes example_closed (B "<think>hello"))).
  - vm_compute. reflexivity.
  - vm_compute. discriminate.
  - vm_compute. discriminate.
Defined.

(** C24 The symbols of a piece are its encoded bytes merged to a normal form:
    every merge takes the leftmost of the pairs of the lowest rank, and the
    loop ends where no pair can be merged. *)
Theorem bpe_symbols_normal_form (v : ds4_vocab) (piece : bytes) :
  rtc (bpe_step v) (map (fun b => utf8_put (gpt2_byte_to_codepoint (bz b))) piece) (bpe_symbols v piece) /\
  forall sym, ~ bpe_step v (bpe_symbols v piece) sym.
Proof.
  unfold bpe_symbols. rewrite (split_encoded piece) by apply encoded_longer. exact (bpe_loop_steps v _ _ (le_n _)).
Qed.

(** The pre-tokenizer cuts a text into pieces that are not empty and add up
    to the text: every branch moves ahead and stays in the text. *)
Theorem pieces_partition (text : bytes) :
  concat (pieces_loop (length text) text 0) = text /\ Forall (fun p => p <> []) (pieces_loop (length text) text 0).
Proof. pose proof (pieces_cover text (length text) 0 ltac:(lia)) as H. by rewrite drop_0 in H. Qed.
