(* ===== verification/Gguf.v ===== *)
(** * GGUF model files (ds4.c)

    The cursor over the mapped file, the metadata table and the tensor
    directory of [model_open], and the lookups that later code makes in them.
    The mapping is the bytes of the file, which nobody changes while it is
    mapped; a string of the file ([ds4_str]) is its bytes. *)
From S2P Require Import Prelude.
From S2P Require Import CNum.
From S2P Require Import LittleEndian.

Definition ds4_die {A} (msg : bytes) : pres A := Error (Exit 1 (Diag "ds4: %s\n" [AS msg])).
Definition ds4_die_errno {A} (what : string) (path errno : bytes) : pres A :=
  Error (Exit 1 (Diag "ds4: %s '%s': %s\n" [AS (B what); AS path; AS errno])).

(** ** The cursor *)

(** A read that fails leaves its message in the cursor and returns false; the
    callers below either die with the message or ignore it, so a failed read
    is that exit. *)
Definition cursor_error {A} (msg : string) (pos : Z) : pres A := ds4_die (B msg ++ B " at byte " ++ print_u64 pos).

Definition map_size (map : bytes) : Z := Z.of_nat (length map).
Definition slice (map : bytes) (pos n : Z) : bytes := take (Z.to_nat n) (drop (Z.to_nat pos) map).

Definition cursor_has (map : bytes) (pos n : Z) : bool :=
  negb ((map_size map <? n) || (map_size map - n <? pos)).

(** The bytes read and the position behind them. *)
Definition cursor_read (map : bytes) (pos n : Z) : pres (bytes * Z) :=
  if negb (cursor_has map pos n) then cursor_error "truncated GGUF file" pos
  else Ok (slice map pos n, u64 (pos + n)).

Definition cursor_skip (map : bytes) (pos n : Z) : pres Z :=
  if negb (cursor_has map pos n) then cursor_error "truncated GGUF file" pos else Ok (u64 (pos + n)).

Definition cursor_u32 (map : bytes) (pos : Z) : pres (Z * Z) :=
  let* (b, pos) := cursor_read map pos 4 in Ok (le_value b, pos).
Definition cursor_u64 (map : bytes) (pos : Z) : pres (Z * Z) :=
  let* (b, pos) := cursor_read map pos 8 in Ok (le_value b, pos).

Definition cursor_string (map : bytes) (pos : Z) : pres (bytes * Z) :=
  let* (len, pos) := cursor_u64 map pos in
  if negb (cursor_has map pos len) then cursor_error "truncated GGUF file" pos
  else Ok (slice map pos len, u64 (pos + len)).

Definition align_up (value alignment : Z) : Z :=
  let rem := value mod alignment in if rem =? 0 then value else u64 (u64 (value + alignment) - rem).

(** ** Types of values and tensors *)

Definition DS4_GGUF_MAGIC : Z := 0x46554747.
Definition DS4_MAX_DIMS : Z := 8.

Definition GGUF_VALUE_UINT32 : Z := 4.
Definition GGUF_VALUE_INT32 : Z := 5.
Definition GGUF_VALUE_FLOAT32 : Z := 6.
Definition GGUF_VALUE_BOOL : Z := 7.
Definition GGUF_VALUE_STRING : Z := 8.
Definition GGUF_VALUE_ARRAY : Z := 9.
Definition GGUF_VALUE_UINT64 : Z := 10.
Definition GGUF_VALUE_FLOAT64 : Z := 12.

Record gguf_type_info := GgufType { gg_name : string; gg_block_elems : Z; gg_block_bytes : Z }.

Definition gg (n : string) (e b : Z) : option gguf_type_info := Some (GgufType n e b).

Definition gguf_types : list (option gguf_type_info) :=
  [gg "f32" 1 4; gg "f16" 1 2; gg "q4_0" 32 18; gg "q4_1" 32 20; None; None;
   gg "q5_0" 32 22; gg "q5_1" 32 24; gg "q8_0" 32 34; gg "q8_1" 32 40;
   gg "q2_k" 256 84; gg "q3_k" 256 110; gg "q4_k" 256 144; gg "q5_k" 256 176;
   gg "q6_k" 256 210; gg "q8_k" 256 292; gg "iq2_xxs" 256 66; gg "iq2_xs" 256 74;
   gg "iq3_xxs" 256 98; gg "iq1_s" 256 110; gg "iq4_nl" 256 50; gg "iq3_s" 256 110;
   gg "iq2_s" 256 82; gg "iq4_xs" 256 136; gg "i8" 1 1; gg "i16" 1 2; gg "i32" 1 4;
   gg "i64" 1 8; gg "f64" 1 8; gg "iq1_m" 256 56; gg "bf16" 1 2;
   None; None; None; None; None; None; None; None; gg "mxfp4" 32 17;
   None; None; gg "f8_e4m3_b128" 128 129].

Definition tensor_type (type : Z) : option gguf_type_info :=
  if 43 <=? type then None else mjoin (gguf_types !! Z.to_nat type).

Definition tensor_type_name (type : Z) : bytes :=
  match tensor_type type with Some info => B (gg_name info) | None => B "unknown" end.

(** [None]: false. *)
Definition tensor_nbytes (type elements : Z) : option Z :=
  match tensor_type type with
  | None => None
  | Some info =>
      let blocks := u64 (u64 (elements + gg_block_elems info) - 1) / gg_block_elems info in
      if UINT64_MAX / gg_block_bytes info <? blocks then None else Some (u64 (blocks * gg_block_bytes info))
  end.

Definition scalar_value_size (type : Z) : Z :=
  if (type =? 0) || (type =? 1) || (type =? 7) then 1
  else if (type =? 2) || (type =? 3) then 2
  else if (type =? 4) || (type =? 5) || (type =? 6) then 4
  else if (type =? 10) || (type =? 11) || (type =? 12) then 8
  else 0.

(** [for (i = 0; i < len; i++) if (!step()) return false;] *)
Fixpoint repeat_items (fuel : nat) (step : Z -> pres Z) (len pos : Z) : pres Z :=
  if len <=? 0 then Ok pos
  else
    match fuel with
    | O => Error OutOfFuel
    | S fuel => pos <- step pos ;; repeat_items fuel step (len - 1) pos
    end.

(** [skip_value(c, type, depth)] with [levels = 9 - depth].  An item that is
    not a scalar takes at least the eight bytes of a length, so a turn per
    byte of the file is enough. *)
Fixpoint skip_value (levels : nat) (map : bytes) (pos type : Z) : pres Z :=
  match levels with
  | O => cursor_error "metadata array nesting is too deep" pos
  | S levels =>
      let scalar := scalar_value_size type in
      if negb (scalar =? 0) then cursor_skip map pos scalar
      else if type =? GGUF_VALUE_STRING then let* (_, pos) := cursor_string map pos in Ok pos
      else if type =? GGUF_VALUE_ARRAY then
        let* (item_type, pos) := cursor_u32 map pos in
        let* (len, pos) := cursor_u64 map pos in
        let item_size := scalar_value_size item_type in
        if negb (item_size =? 0) then
          if UINT64_MAX / item_size <? len then cursor_error "metadata array is too large" pos
          else cursor_skip map pos (u64 (len * item_size))
        else repeat_items (S (length map)) (fun pos => skip_value levels map pos item_type) len pos
      else cursor_error "unknown GGUF metadata type" pos
  end.

(** ** The model *)

Record ds4_kv := Kv { kv_key : bytes; kv_type : Z; kv_value_pos : Z }.

Record ds4_tensor := Tensor {
  tensor_name : bytes;
  tensor_dim : list Z;
  tensor_ty : Z;
  tensor_rel_offset : Z;
  tensor_abs_offset : Z;
  tensor_elements : Z;
  tensor_bytes : Z
}.

Record ds4_model := Model {
  model_map : bytes;
  model_version : Z;
  model_alignment : Z;
  model_data_pos : Z;
  model_kv : list ds4_kv;
  model_tensors : list ds4_tensor
}.

Definition model_size (m : ds4_model) : Z := map_size (model_map m).
Definition tensor_ndim (t : ds4_tensor) : Z := Z.of_nat (length (tensor_dim t)).

(** ** The metadata table *)

Definition general_alignment : bytes := B "general.alignment".

(** One entry, the alignment behind it and the position behind it. *)
Definition read_kv (map : bytes) (alignment pos : Z) : pres (ds4_kv * Z * Z) :=
  let* (key, pos) := cursor_string map pos in
  let* (type, pos) := cursor_u32 map pos in
  let alignment :=
    if str_eqb key general_alignment && (type =? GGUF_VALUE_UINT32) then
      match cursor_u32 map pos with
      | Ok (a, _) => if negb (a =? 0) then a else alignment
      | Error _ => alignment
      end
    else alignment in
  next <- skip_value 9 map pos type ;; Ok (Kv key type pos, alignment, next).

(** An entry takes at least twelve bytes. *)
Fixpoint read_kvs (fuel : nat) (map : bytes) (n alignment pos : Z) : pres (list ds4_kv * Z * Z) :=
  if n <=? 0 then Ok ([], alignment, pos)
  else
    match fuel with
    | O => Error OutOfFuel
    | S fuel =>
        let* (kv, alignment, pos) := read_kv map alignment pos in
        let* (kvs, alignment, pos) := read_kvs fuel map (n - 1) alignment pos in Ok (kv :: kvs, alignment, pos)
    end.

Definition sizeof_ds4_kv : Z := 32.
Definition sizeof_ds4_tensor : Z := 128.

Definition parse_metadata `{Allocator} (map : bytes) (n pos : Z) : pres (list ds4_kv * Z * Z) :=
  if negb (calloc_ok n sizeof_ds4_kv) then ds4_die (B "out of memory while allocating metadata table")
  else read_kvs (S (length map)) map n 32 pos.

(** ** The tensor directory *)

Fixpoint read_dims (map : bytes) (ndim : nat) (elements pos : Z) : pres (list Z * Z * Z) :=
  match ndim with
  | O => Ok ([], elements, pos)
  | S ndim =>
      let* (d, pos) := cursor_u64 map pos in
      if negb (d =? 0) && (UINT64_MAX / d <? elements) then ds4_die (B "tensor element count overflow")
      else let* (ds, elements, pos) := read_dims map ndim (u64 (elements * d)) pos in Ok (d :: ds, elements, pos)
  end.

(** An entry without its absolute offset.  A type that is not supported is
    warned of and leaves [bytes] 0. *)
Definition read_tensor (map : bytes) (pos : Z) : pres (ds4_tensor * Z) :=
  let* (name, pos) := cursor_string map pos in
  let* (ndim, pos) := cursor_u32 map pos in
  if (ndim =? 0) || (DS4_MAX_DIMS <? ndim) then ds4_die (B "tensor has an unsupported number of dimensions")
  else
    let* (dims, elements, pos) := read_dims map (Z.to_nat ndim) 1 pos in
    let* (type, pos) := cursor_u32 map pos in
    let* (rel, pos) := cursor_u64 map pos in
    Ok (Tensor name dims type rel 0 elements (default 0 (tensor_nbytes type elements)), pos).

Fixpoint read_tensors (fuel : nat) (map : bytes) (n pos : Z) : pres (list ds4_tensor * Z) :=
  if n <=? 0 then Ok ([], pos)
  else
    match fuel with
    | O => Error OutOfFuel
    | S fuel =>
        let* (t, pos) := read_tensor map pos in
        let* (ts, pos) := read_tensors fuel map (n - 1) pos in Ok (t :: ts, pos)
    end.

Definition place_tensor (size data_pos : Z) (t : ds4_tensor) : pres ds4_tensor :=
  if UINT64_MAX - data_pos <? tensor_rel_offset t then ds4_die (B "tensor offset overflow")
  else
    let abs := u64 (data_pos + tensor_rel_offset t) in
    if negb (tensor_bytes t =? 0) && ((size <? abs) || (size - abs <? tensor_bytes t))
    then ds4_die (B "tensor points outside GGUF file")
    else Ok (Tensor (tensor_name t) (tensor_dim t) (tensor_ty t) (tensor_rel_offset t) abs (tensor_elements t) (tensor_bytes t)).

(** The placed tensors and [tensor_data_pos]. *)
Definition parse_tensors `{Allocator} (map : bytes) (n alignment pos : Z) : pres (list ds4_tensor * Z) :=
  if negb (calloc_ok n sizeof_ds4_tensor) then ds4_die (B "out of memory while allocating tensor table")
  else
    let* (ts, pos) := read_tensors (S (length map)) map n pos in
    let data_pos := align_up pos alignment in
    placed <- mapM_res (place_tensor (map_size map) data_pos) ts ;;
    Ok (placed, data_pos).

(** What the operating system does with the path: the failing call, if any,
    with its [errno], and the contents. *)
Inductive model_file :=
| OpenFails (errno : bytes)
| StatFails (errno : bytes)
| MmapFails (size : Z) (errno : bytes)
| Mapped (data : bytes).

Definition model_parse `{Allocator} (map : bytes) : pres ds4_model :=
  let* (magic, pos) := cursor_u32 map 0 in
  if negb (magic =? DS4_GGUF_MAGIC) then ds4_die (B "model is not a GGUF file")
  else
    let* (version, pos) := cursor_u32 map pos in
    let* (n_tensors, pos) := cursor_u64 map pos in
    let* (n_kv, pos) := cursor_u64 map pos in
    if negb (version =? 3) then ds4_die (B "only GGUF v3 is supported")
    else
      let* (kvs, alignment, pos) := parse_metadata map n_kv pos in
      let* (ts, data_pos) := parse_tensors map n_tensors alignment pos in
      Ok (Model map version alignment data_pos kvs ts).

(** Mapping flags and prefetching do not change what is read. *)
Definition model_open `{Allocator} (path : bytes) (f : model_file) : pres ds4_model :=
  match f with
  | OpenFails errno => ds4_die_errno "cannot open model" path errno
  | StatFails errno => ds4_die_errno "cannot stat model" path errno
  | MmapFails size errno =>
      if size <? 32 then ds4_die (B "model file is too small to be GGUF") else ds4_die_errno "cannot mmap model" path errno
  | Mapped data =>
      if map_size data <? 32 then ds4_die (B "model file is too small to be GGUF") else model_parse data
  end.

(** ** Lookups *)

Definition ok_or_none {A} (r : pres A) : option A := match r with Ok a => Some a | Error _ => None end.

Definition model_find_kv (m : ds4_model) (key : bytes) : option ds4_kv :=
  List.find (fun kv => str_eqb (kv_key kv) key) (model_kv m).

(** The entry of a key if it has a type. *)
Definition kv_of_type (m : ds4_model) (key : bytes) (type : Z) : option ds4_kv :=
  match model_find_kv m key with
  | Some kv => if kv_type kv =? type then Some kv else None
  | None => None
  end.

Definition model_get_string (m : ds4_model) (key : bytes) : option bytes :=
  kv ← kv_of_type m key GGUF_VALUE_STRING; fst <$> ok_or_none (cursor_string (model_map m) (kv_value_pos kv)).
Definition model_get_u32 (m : ds4_model) (key : bytes) : option Z :=
  kv ← kv_of_type m key GGUF_VALUE_UINT32; fst <$> ok_or_none (cursor_u32 (model_map m) (kv_value_pos kv)).
Definition model_get_u64 (m : ds4_model) (key : bytes) : option Z :=
  kv ← kv_of_type m key GGUF_VALUE_UINT64; fst <$> ok_or_none (cursor_u64 (model_map m) (kv_value_pos kv)).
Definition model_get_bool (m : ds4_model) (key : bytes) : option bool :=
  kv ← kv_of_type m key GGUF_VALUE_BOOL;
  '(b, _) ← ok_or_none (cursor_read (model_map m) (kv_value_pos kv) 1); Some (negb (le_value b =? 0)).

Record ds4_array_ref := ArrayRef { arr_type : Z; arr_len : Z; arr_data_pos : Z }.

Definition model_get_array (m : ds4_model) (key : bytes) : option ds4_array_ref :=
  kv ← kv_of_type m key GGUF_VALUE_ARRAY;
  '(type, pos) ← ok_or_none (cursor_u32 (model_map m) (kv_value_pos kv));
  '(len, pos) ← ok_or_none (cursor_u64 (model_map m) pos); Some (ArrayRef type len pos).

Definition model_find_tensor (m : ds4_model) (name : bytes) : option ds4_tensor :=
  List.find (fun t => str_eqb (tensor_name t) name) (model_tensors m).
