(* ===== verification/GgufProps.v ===== *)
(** * Opened model files

    Opening ends on every file; what it accepts lies inside the file, and
    later lookups read what opening has checked.  The inventory the planner
    makes of the same file is the same. *)
From S2P Require Import Prelude.
From S2P Require Import CNum.
From S2P Require Import LittleEndian.
From S2P Require Import Gguf.

(** A result, or the exit with status 1. *)
Definition exits {A} (x : pres A) : Prop :=
  match x with Ok _ => True | Error (Exit c _) => c = 1 | Error _ => False end.

(** ** The cursor *)

Section Cursor.
Context (map : bytes).
Hypothesis Hsize : map_size map <= INT64_MAX.

Lemma size_nonneg : 0 <= map_size map.
Proof. unfold map_size. lia. Qed.

Lemma cursor_has_spec (pos n : Z) : 0 <= pos -> cursor_has map pos n = true <-> pos + n <= map_size map.
Proof. intros Hp. unfold cursor_has. rewrite negb_true_iff, orb_false_iff, !Z.ltb_ge. lia. Qed.

Lemma length_slice (pos n : Z) : 0 <= pos -> 0 <= n -> pos + n <= map_size map -> length (slice map pos n) = Z.to_nat n.
Proof. unfold map_size, slice. intros Hp Hn Hs. rewrite length_take, length_drop. lia. Qed.

Lemma cursor_read_ok (pos n : Z) (b : bytes) (q : Z) : 0 <= pos -> 0 <= n -> cursor_read map pos n = Ok (b, q) ->
  q = pos + n /\ pos + n <= map_size map /\ b = slice map pos n.
Proof.
  intros Hp Hn. unfold cursor_read. destruct (cursor_has map pos n) eqn:E; [|done]. cbn [negb]. intros [= <- <-].
  apply cursor_has_spec in E; [|done]. rewrite u64_small by zlia. done.
Qed.

Lemma cursor_skip_ok (pos n q : Z) : 0 <= pos -> 0 <= n -> cursor_skip map pos n = Ok q -> q = pos + n /\ pos + n <= map_size map.
Proof.
  intros Hp Hn. unfold cursor_skip. destruct (cursor_has map pos n) eqn:E; [|done]. cbn [negb]. intros [= <-].
  apply cursor_has_spec in E; [|done]. rewrite u64_small by zlia. done.
Qed.

Lemma cursor_u32_ok (pos v q : Z) : 0 <= pos -> cursor_u32 map pos = Ok (v, q) ->
  q = pos + 4 /\ pos + 4 <= map_size map /\ v = le_value (slice map pos 4) /\ is_u32 v.
Proof.
  intros Hp. unfold cursor_u32. destruct (cursor_read map pos 4) as [[b p]|] eqn:E; [|done]. intros [= <- <-].
  apply cursor_read_ok in E as (-> & Hs & ->); [|lia..]. split; [done|]. split; [done|]. split; [done|].
  pose proof (le_value_range (slice map pos 4)) as Hr. rewrite length_slice in Hr by lia.
  change (2 ^ (8 * Z.of_nat (Z.to_nat 4))) with (2 ^ 32) in Hr. zlia.
Qed.

Lemma cursor_u64_ok (pos v q : Z) : 0 <= pos -> cursor_u64 map pos = Ok (v, q) ->
  q = pos + 8 /\ pos + 8 <= map_size map /\ v = le_value (slice map pos 8) /\ is_u64 v.
Proof.
  intros Hp. unfold cursor_u64. destruct (cursor_read map pos 8) as [[b p]|] eqn:E; [|done]. intros [= <- <-].
  apply cursor_read_ok in E as (-> & Hs & ->); [|lia..]. split; [done|]. split; [done|]. split; [done|].
  pose proof (le_value_range (slice map pos 8)) as Hr. rewrite length_slice in Hr by lia.
  change (2 ^ (8 * Z.of_nat (Z.to_nat 8))) with (2 ^ 64) in Hr. zlia.
Qed.

Lemma cursor_string_ok (pos q : Z) (s : bytes) : 0 <= pos -> cursor_string map pos = Ok (s, q) ->
  exists len, cursor_u64 map pos = Ok (len, pos + 8) /\ is_u64 len /\ s = slice map (pos + 8) len /\ q = pos + 8 + len /\ q <= map_size map.
Proof.
  intros Hp. unfold cursor_string. destruct (cursor_u64 map pos) as [[len p]|] eqn:E; [|done].
  apply cursor_u64_ok in E as (-> & Hs & _ & Hl); [|done]. destruct (cursor_has map (pos + 8) len) eqn:Eh; [|done].
  cbn [negb]. intros [= <- <-]. apply cursor_has_spec in Eh; [|lia]. exists len. rewrite u64_small by (destruct Hl; zlia). done.
Qed.

Lemma read_exits (pos n : Z) : exits (cursor_read map pos n).
Proof. unfold cursor_read. by case_match. Qed.
Lemma skip_exits (pos n : Z) : exits (cursor_skip map pos n).
Proof. unfold cursor_skip. by case_match. Qed.
Lemma u32_exits (pos : Z) : exits (cursor_u32 map pos).
Proof. unfold cursor_u32. pose proof (read_exits pos 4). by destruct (cursor_read map pos 4) as [[]|]. Qed.
Lemma u64_exits (pos : Z) : exits (cursor_u64 map pos).
Proof. unfold cursor_u64. pose proof (read_exits pos 8). by destruct (cursor_read map pos 8) as [[]|]. Qed.
Lemma string_exits (pos : Z) : exits (cursor_string map pos).
Proof. unfold cursor_string. pose proof (u64_exits pos). destruct (cursor_u64 map pos) as [[]|]; [|done]. by case_match. Qed.

(** ** Skipping a value *)

(** A step that moves ahead in the file or exits. *)
Definition advances (step : Z -> pres Z) : Prop :=
  forall pos, 0 <= pos <= map_size map ->
    match step pos with Ok q => pos < q <= map_size map | r => exits r end.

Lemma repeat_items_spec (step : Z -> pres Z) : advances step -> forall fuel len pos,
  0 <= pos <= map_size map -> (Z.to_nat (map_size map - pos) < fuel)%nat ->
  match repeat_items fuel step len pos with Ok q => pos <= q <= map_size map | r => exits r end.
Proof.
  intros Hs fuel. induction fuel as [|fuel IH]; intros len pos Hp Hf; [lia|]. cbn [repeat_items].
  destruct (Z.leb_spec len 0); [lia|]. pose proof (Hs pos Hp) as H1. destruct (step pos) as [p|e]; [|done].
  specialize (IH (len - 1) p ltac:(lia) ltac:(lia)). destruct (repeat_items fuel step (len - 1) p); [lia|done].
Qed.

Lemma scalar_size_range (type : Z) : 0 <= scalar_value_size type <= 8.
Proof. unfold scalar_value_size. repeat case_match; lia. Qed.

Lemma gguf_skip_value_spec (levels : nat) : forall type, advances (fun pos => skip_value levels map pos type).
Proof.
  induction levels as [|levels IH]; intros type pos Hp; cbn [skip_value]; [exact eq_refl|].
  pose proof (scalar_size_range type) as Hsc. destruct (Z.eqb_spec (scalar_value_size type) 0) as [E0|E0]; cbn [negb].
  2: { pose proof (skip_exits pos (scalar_value_size type)). destruct (cursor_skip _ _ _) eqn:E; [|done].
       apply cursor_skip_ok in E; lia. }
  destruct (type =? GGUF_VALUE_STRING).
  { pose proof (string_exits pos). destruct (cursor_string map pos) as [[s q]|] eqn:E; [|done].
    apply cursor_string_ok in E as (len & _ & Hl & _ & -> & Hq); [|lia]. destruct Hl. lia. }
  destruct (type =? GGUF_VALUE_ARRAY); [|exact eq_refl].
  pose proof (u32_exits pos). destruct (cursor_u32 map pos) as [[item p1]|] eqn:E1; [|done].
  apply cursor_u32_ok in E1 as (-> & H1 & _ & _); [|lia].
  pose proof (u64_exits (pos + 4)). destruct (cursor_u64 map (pos + 4)) as [[len p2]|] eqn:E2; [|done].
  apply cursor_u64_ok in E2 as (-> & H2 & _ & Hl); [|lia].
  destruct (Z.eqb_spec (scalar_value_size item) 0) as [Ei|Ei]; cbn [negb].
  - pose proof (repeat_items_spec _ (IH item) (S (length map)) len (pos + 4 + 8) ltac:(lia)) as Hr.
    unfold map_size in Hr at 1. specialize (Hr ltac:(lia)). destruct (repeat_items _ _ _ _); [lia|done].
  - destruct (_ <? len); [exact eq_refl|]. pose proof (skip_exits (pos + 4 + 8) (u64 (len * scalar_value_size item))).
    destruct (u64_range (len * scalar_value_size item)). destruct (cursor_skip _ _ _) eqn:E; [|done].
    apply cursor_skip_ok in E; lia.
Qed.

(** A value in the file from [pos] to [q]. *)
Definition value_at (pos type q : Z) : Prop := 0 <= pos < q /\ q <= map_size map /\ skip_value 9 map pos type = Ok q.

Lemma skip_value_at (pos type q : Z) : 0 <= pos <= map_size map -> skip_value 9 map pos type = Ok q -> value_at pos type q.
Proof. intros Hp E. pose proof (gguf_skip_value_spec 9 type pos Hp) as H. cbv beta in H. rewrite E in H. split; [lia|]. split; [lia|done]. Qed.

(** ** The metadata table *)

Definition kv_wf (kv : ds4_kv) : Prop := exists q, value_at (kv_value_pos kv) (kv_type kv) q.
Definition alignment_ok (a : Z) : Prop := 0 < a <= UINT32_MAX.

Lemma read_kv_spec (a pos : Z) : alignment_ok a -> 0 <= pos <= map_size map ->
  match read_kv map a pos with
  | Ok (kv, a', q) => pos < q <= map_size map /\ kv_wf kv /\ alignment_ok a'
  | Error e => exits (Error e : pres Z)
  end.
Proof.
  intros Ha Hp. unfold read_kv. pose proof (string_exits pos) as X1. destruct (cursor_string map pos) as [[key p1]|] eqn:E1; [|exact X1].
  apply cursor_string_ok in E1 as (len & _ & [Hl _] & _ & -> & Hq); [|lia].
  pose proof (u32_exits (pos + 8 + len)) as X2. destruct (cursor_u32 map (pos + 8 + len)) as [[type p2]|] eqn:E2; [|exact X2].
  apply cursor_u32_ok in E2 as (-> & H2 & _ & _); [|lia].
  pose proof (gguf_skip_value_spec 9 type (pos + 8 + len + 4) ltac:(lia)) as X3. cbv beta in X3.
  destruct (skip_value 9 map (pos + 8 + len + 4) type) as [q|] eqn:E3; [|exact X3].
  split; [lia|]. split; [exists q; apply skip_value_at; cbn; [lia|done]|].
  destruct (str_eqb key general_alignment && _); [|done].
  destruct (cursor_u32 map (pos + 8 + len + 4)) as [[v p4]|] eqn:E4; [|done].
  apply cursor_u32_ok in E4 as (_ & _ & _ & Hv); [|lia]. destruct (Z.eqb_spec v 0); cbn [negb]; [done|]. unfold alignment_ok. destruct Hv; lia.
Qed.

Lemma gguf_read_kvs_spec (fuel : nat) : forall n a pos, alignment_ok a -> 0 <= pos <= map_size map ->
  (Z.to_nat (map_size map - pos) < fuel)%nat ->
  match read_kvs fuel map n a pos with
  | Ok (kvs, a', q) => pos <= q <= map_size map /\ Forall kv_wf kvs /\ alignment_ok a' /\ length kvs = Z.to_nat n
  | Error e => exits (Error e : pres Z)
  end.
Proof.
  induction fuel as [|fuel IH]; intros n a pos Ha Hp Hf; [lia|]. cbn [read_kvs]. destruct (Z.leb_spec n 0).
  { split; [lia|]. split; [constructor|]. split; [done|]. simpl. lia. }
  pose proof (read_kv_spec a pos Ha Hp) as H1. destruct (read_kv map a pos) as [[[kv a1] p1]|e]; [|done].
  destruct H1 as (Hp1 & Hkv & Ha1). specialize (IH (n - 1) a1 p1 Ha1 ltac:(lia) ltac:(lia)).
  destruct (read_kvs fuel map (n - 1) a1 p1) as [[[kvs a2] p2]|e]; [|done]. destruct IH as (Hp2 & Hk & Ha2 & Hn).
  split; [lia|]. split; [by constructor|]. split; [done|]. simpl. lia.
Qed.

(** ** The tensor directory *)

(** An entry as read, without its place. *)
Record tensor_read (t : ds4_tensor) : Prop := {
  tr_ndim : (1 <= length (tensor_dim t) <= 8)%nat;
  tr_dims : Forall is_u64 (tensor_dim t);
  tr_elements : tensor_elements t = foldr Z.mul 1 (tensor_dim t);
  tr_elements_u64 : is_u64 (tensor_elements t);
  tr_type : is_u32 (tensor_ty t);
  tr_rel : is_u64 (tensor_rel_offset t);
  tr_bytes : tensor_bytes t = default 0 (tensor_nbytes (tensor_ty t) (tensor_elements t))
}.

Lemma gguf_read_dims_spec (ndim : nat) : forall e pos, is_u64 e -> 0 <= pos <= map_size map ->
  match read_dims map ndim e pos with
  | Ok (ds, e', q) =>
      pos <= q <= map_size map /\ length ds = ndim /\ Forall is_u64 ds /\ e' = e * foldr Z.mul 1 ds /\ is_u64 e'
  | Error e => exits (Error e : pres Z)
  end.
Proof.
  induction ndim as [|n IH]; intros e pos He Hp; cbn [read_dims].
  { split; [lia|]. split; [done|]. split; [constructor|]. cbn. split; [lia|done]. }
  pose proof (u64_exits pos) as X. destruct (cursor_u64 map pos) as [[d p1]|] eqn:E1; [|exact X].
  apply cursor_u64_ok in E1 as (-> & H1 & _ & Hd); [|lia].
  destruct (negb (d =? 0) && (UINT64_MAX / d <? e)) eqn:Eo; [done|].
  assert (Hed : e * d <= UINT64_MAX).
  { destruct He, Hd. destruct (Z.eqb_spec d 0) as [->|Hd0]; [zlia|]. cbn [negb andb] in Eo. apply Z.ltb_ge in Eo.
    pose proof (Z.mul_div_le UINT64_MAX d). nia. }
  rewrite u64_small by (destruct He, Hd; split; [nia|done]).
  specialize (IH (e * d) (pos + 8)). destruct He as [He1 He2], Hd as [Hd1 Hd2].
  specialize (IH ltac:(split; [nia|done]) ltac:(lia)). destruct (read_dims map n (e * d) (pos + 8)) as [[[ds e'] q]|]; [|done].
  destruct IH as (Hq & Hl & Hds & -> & He'). split; [lia|]. split; [simpl; lia|]. split; [by constructor|].
  cbn [foldr]. split; [lia|done].
Qed.

Lemma read_tensor_spec (pos : Z) : 0 <= pos <= map_size map ->
  match read_tensor map pos with
  | Ok (t, q) => pos < q <= map_size map /\ tensor_read t
  | Error e => exits (Error e : pres Z)
  end.
Proof.
  intros Hp. unfold read_tensor. pose proof (string_exits pos) as X1. destruct (cursor_string map pos) as [[name p1]|] eqn:E1; [|exact X1].
  apply cursor_string_ok in E1 as (len & _ & [Hl _] & _ & -> & Hq); [|lia].
  pose proof (u32_exits (pos + 8 + len)) as X2. destruct (cursor_u32 map (pos + 8 + len)) as [[ndim p2]|] eqn:E2; [|exact X2].
  apply cursor_u32_ok in E2 as (-> & H2 & _ & [Hnd _]); [|lia].
  destruct ((ndim =? 0) || (DS4_MAX_DIMS <? ndim)) eqn:En; [done|]. unfold DS4_MAX_DIMS in En.
  pose proof (gguf_read_dims_spec (Z.to_nat ndim) 1 (pos + 8 + len + 4) ltac:(zlia) ltac:(lia)) as H3.
  destruct (read_dims map (Z.to_nat ndim) 1 (pos + 8 + len + 4)) as [[[ds e] p3]|]; [|done]. destruct H3 as (Hp3 & Hld & Hds & He & He64).
  pose proof (u32_exits p3) as X4. destruct (cursor_u32 map p3) as [[type p4]|] eqn:E4; [|exact X4].
  apply cursor_u32_ok in E4 as (-> & H4 & _ & Ht); [|lia].
  pose proof (u64_exits (p3 + 4)) as X5. destruct (cursor_u64 map (p3 + 4)) as [[rel p5]|] eqn:E5; [|exact X5].
  apply cursor_u64_ok in E5 as (-> & H5 & _ & Hr); [|lia]. split; [lia|].
  bool_hyps. constructor; cbn; try done; lia.
Qed.

Lemma gguf_read_tensors_spec (fuel : nat) : forall n pos, 0 <= pos <= map_size map -> (Z.to_nat (map_size map - pos) < fuel)%nat ->
  match read_tensors fuel map n pos with
  | Ok (ts, q) => pos <= q <= map_size map /\ Forall tensor_read ts /\ length ts = Z.to_nat n
  | Error e => exits (Error e : pres Z)
  end.
Proof.
  induction fuel as [|fuel IH]; intros n pos Hp Hf; [lia|]. cbn [read_tensors]. destruct (Z.leb_spec n 0).
  { split; [lia|]. split; [constructor|]. simpl. lia. }
  pose proof (read_tensor_spec pos Hp) as H1. destruct (read_tensor map pos) as [[t p1]|e]; [|done]. destruct H1 as (Hp1 & Ht).
  specialize (IH (n - 1) p1 ltac:(lia) ltac:(lia)). destruct (read_tensors fuel map (n - 1) p1) as [[ts p2]|e]; [|done].
  destruct IH as (Hp2 & Hts & Hn). split; [lia|]. split; [by constructor|]. simpl. lia.
Qed.
End Cursor.

(** ** The opened model *)

(** A tensor in its place: its bytes lie inside the file. *)
Definition tensor_placed (size data_pos : Z) (t : ds4_tensor) : Prop :=
  tensor_read t /\ tensor_abs_offset t = data_pos + tensor_rel_offset t /\ is_u64 (tensor_abs_offset t) /\
  (tensor_bytes t <> 0 -> tensor_abs_offset t + tensor_bytes t <= size).

Record model_wf (m : ds4_model) : Prop := {
  wf_version : model_version m = 3;
  wf_alignment : alignment_ok (model_alignment m);
  wf_data_pos : 0 <= model_data_pos m /\ model_data_pos m mod model_alignment m = 0;
  wf_kvs : Forall (kv_wf (model_map m)) (model_kv m);
  wf_tensors : Forall (tensor_placed (model_size m) (model_data_pos m)) (model_tensors m)
}.

Lemma align_up_spec (v a : Z) : 0 <= v <= INT64_MAX -> alignment_ok a ->
  v <= align_up v a < v + a /\ align_up v a mod a = 0.
Proof.
  intros Hv [Ha1 Ha2]. unfold align_up. pose proof (Z.mod_pos_bound v a Ha1) as Hm. destruct (Z.eqb_spec (v mod a) 0) as [E|E].
  { split; [lia|done]. }
  rewrite (u64_small (v + a)) by zlia. rewrite u64_small by zlia. split; [lia|].
  pose proof (Z.div_mod v a ltac:(lia)) as Hd. replace (v + a - v mod a) with ((v / a + 1) * a) by lia. apply Z.mod_mul. lia.
Qed.

Lemma place_tensor_spec (size data_pos : Z) (t : ds4_tensor) : 0 <= data_pos -> tensor_read t ->
  match place_tensor size data_pos t with
  | Ok t' => tensor_placed size data_pos t'
  | Error e => exits (Error e : pres Z)
  end.
Proof.
  intros Hd Ht. unfold place_tensor. destruct (Z.ltb_spec (UINT64_MAX - data_pos) (tensor_rel_offset t)) as [|Hov]; [done|].
  destruct (tr_rel t Ht) as [Hr1 Hr2]. rewrite u64_small by zlia.
  destruct (negb (tensor_bytes t =? 0) && _) eqn:E; [done|]. destruct Ht. unfold tensor_placed. cbn.
  split; [by constructor|]. split; [done|]. split; [zlia|]. intros Hb. destruct (Z.eqb_spec (tensor_bytes t) 0); [done|].
  cbn [negb andb] in E. bool_hyps. lia.
Qed.

Lemma place_tensors_spec (size data_pos : Z) (ts : list ds4_tensor) : 0 <= data_pos -> Forall tensor_read ts ->
  match mapM_res (place_tensor size data_pos) ts with
  | Ok ts' => Forall (tensor_placed size data_pos) ts' /\ length ts' = length ts
  | Error e => exits (Error e : pres Z)
  end.
Proof.
  intros Hd. induction 1 as [|t ts Ht _ IH]; cbn [mapM_res]; [by split|].
  pose proof (place_tensor_spec size data_pos t Hd Ht) as H1. destruct (place_tensor size data_pos t) as [t'|]; [|done].
  destruct (mapM_res _ ts) as [ts'|]; [|done]. destruct IH as [IH1 IH2]. split; [by constructor|]. simpl. lia.
Qed.

Section Open.
Context `{Allocator}.

Lemma model_parse_spec (map : bytes) : map_size map <= INT64_MAX ->
  match model_parse map with
  | Ok m => model_map m = map /\ model_wf m
  | Error e => exits (Error e : pres Z)
  end.
Proof.
  intros Hs. unfold model_parse. pose proof (size_nonneg map) as H0.
  pose proof (u32_exits map 0) as X1. destruct (cursor_u32 map 0) as [[magic p1]|] eqn:E1; [|exact X1].
  apply cursor_u32_ok in E1 as (-> & H1 & _ & _); [|done..]. destruct (magic =? DS4_GGUF_MAGIC); [cbn [negb]|done].
  pose proof (u32_exits map (0 + 4)) as X2. destruct (cursor_u32 map (0 + 4)) as [[version p2]|] eqn:E2; [|exact X2].
  apply cursor_u32_ok in E2 as (-> & H2 & _ & _); [|done..].
  pose proof (u64_exits map (0 + 4 + 4)) as X3. destruct (cursor_u64 map (0 + 4 + 4)) as [[nt p3]|] eqn:E3; [|exact X3].
  apply cursor_u64_ok in E3 as (-> & H3 & _ & _); [|done..].
  pose proof (u64_exits map (0 + 4 + 4 + 8)) as X4. destruct (cursor_u64 map (0 + 4 + 4 + 8)) as [[nk p4]|] eqn:E4; [|exact X4].
  apply cursor_u64_ok in E4 as (-> & H4 & _ & _); [|done..].
  destruct (Z.eqb_spec version 3) as [->|]; [cbn [negb]|done]. unfold parse_metadata. destruct (calloc_ok nk _); [cbn [negb]|done].
  assert (A0 : alignment_ok 32) by (unfold alignment_ok; zlia).
  pose proof (gguf_read_kvs_spec map Hs (S (length map)) nk 32 (0 + 4 + 4 + 8 + 8) A0 ltac:(lia) ltac:(unfold map_size; lia)) as H5.
  destruct (read_kvs _ map nk 32 _) as [[[kvs a] p5]|]; [|exact H5]. destruct H5 as (Hp5 & Hkvs & Ha & _).
  unfold parse_tensors. destruct (calloc_ok nt _); [cbn [negb]|done].
  pose proof (gguf_read_tensors_spec map Hs (S (length map)) nt p5 ltac:(lia) ltac:(unfold map_size; lia)) as H6.
  destruct (read_tensors _ map nt p5) as [[ts p6]|]; [|exact H6]. destruct H6 as (Hp6 & Hts & _).
  destruct (align_up_spec p6 a ltac:(lia) Ha) as [Hal1 Hal2].
  pose proof (place_tensors_spec (map_size map) (align_up p6 a) ts ltac:(lia) Hts) as H7.
  destruct (mapM_res _ ts) as [ts'|]; [|exact H7]. destruct H7 as [Hts' _]. split; [done|]. constructor; cbn; try done. split; [lia|done].
Qed.

Definition file_ok (f : model_file) : Prop := match f with Mapped data => map_size data <= INT64_MAX | _ => True end.

Lemma model_open_spec (path : bytes) (f : model_file) : file_ok f ->
  match model_open path f with
  | Ok m => f = Mapped (model_map m) /\ model_wf m
  | Error e => exits (Error e : pres Z)
  end.
Proof.
  unfold model_open. destruct f as [|errno|size errno|data]; try done; [by destruct (size <? 32)|]. intros Hs.
  destruct (map_size data <? 32); [done|]. pose proof (model_parse_spec data Hs) as Hm.
  destruct (model_parse data) as [m|]; [|done]. destruct Hm as [<- Hm]. by split.
Qed.
End Open.

(** ** Lookups *)

Lemma find_kv_wf (m : ds4_model) (key : bytes) (type : Z) (kv : ds4_kv) : model_wf m -> kv_of_type m key type = Some kv ->
  kv_key kv = key /\ exists q, value_at (model_map m) (kv_value_pos kv) type q.
Proof.
  intros Hm. unfold kv_of_type, model_find_kv. destruct (List.find _ _) as [kv'|] eqn:E; [|done].
  apply find_some in E as [Hin Hk]. destruct (Z.eqb_spec (kv_type kv') type) as [<-|]; [|done]. intros [= <-].
  split; [by apply str_eqb_eq|]. pose proof (wf_kvs m Hm) as Hall. rewrite Forall_forall in Hall. apply Hall. by apply list_elem_of_In.
Qed.

Section Values.
Context (map : bytes).
Hypothesis Hsize : map_size map <= INT64_MAX.

Lemma scalar_readable (pos type q : Z) : value_at map pos type q -> scalar_value_size type <> 0 ->
  cursor_read map pos (scalar_value_size type) = Ok (slice map pos (scalar_value_size type), q).
Proof.
  intros (Hp & Hq & E) Hsc. cbn [skip_value] in E. destruct (Z.eqb_spec (scalar_value_size type) 0); [done|]. cbn [negb] in E.
  unfold cursor_skip in E. unfold cursor_read. by destruct (cursor_has map pos (scalar_value_size type)); [cbn [negb] in *; injection E as ->|].
Qed.

Lemma string_readable (pos q : Z) : value_at map pos GGUF_VALUE_STRING q -> exists s, cursor_string map pos = Ok (s, q).
Proof.
  intros (Hp & Hq & E). cbn [skip_value] in E. change (scalar_value_size GGUF_VALUE_STRING) with 0 in E. cbn [Z.eqb negb] in E.
  change (GGUF_VALUE_STRING =? GGUF_VALUE_STRING) with true in E. cbn iota in E.
  destruct (cursor_string map pos) as [[s p]|]; [|done]. injection E as ->. by exists s.
Qed.

(** The items of an array: scalars one behind the other, or values that the
    nested skip has walked over. *)
Lemma array_items (levels : nat) (pos q : Z) : 0 <= pos -> skip_value (S levels) map pos GGUF_VALUE_ARRAY = Ok q ->
  exists item len, cursor_u32 map pos = Ok (item, pos + 4) /\ cursor_u64 map (pos + 4) = Ok (len, pos + 12) /\ is_u32 item /\ is_u64 len /\
    if scalar_value_size item =? 0
    then repeat_items (S (length map)) (fun pos => skip_value levels map pos item) len (pos + 12) = Ok q
    else q = pos + 12 + len * scalar_value_size item.
Proof.
  intros Hp E. cbn [skip_value] in E.
  change (scalar_value_size GGUF_VALUE_ARRAY) with 0 in E. cbn [Z.eqb negb] in E.
  change (GGUF_VALUE_ARRAY =? GGUF_VALUE_STRING) with false in E. change (GGUF_VALUE_ARRAY =? GGUF_VALUE_ARRAY) with true in E. cbn iota in E.
  destruct (cursor_u32 map pos) as [[item p1]|] eqn:E1; [|done]. apply cursor_u32_ok in E1 as (-> & H1 & Hv & Hi); [|done..].
  destruct (cursor_u64 map (pos + 4)) as [[len p2]|] eqn:E2; [|done]. apply cursor_u64_ok in E2 as (-> & H2 & Hv2 & Hl); [|done|lia].
  exists item, len. replace (pos + 4 + 8) with (pos + 12) in * by lia. split; [done|]. split; [done|]. split; [done|]. split; [done|].
  destruct (scalar_value_size item =? 0) eqn:Es; cbn [negb] in E; [done|].
  destruct (Z.ltb_spec (UINT64_MAX / scalar_value_size item) len) as [|Hmax]; [done|].
  pose proof (scalar_size_range item) as Hsc. apply Z.eqb_neq in Es. destruct Hl as [Hl1 Hl2].
  assert (len * scalar_value_size item <= UINT64_MAX) by (pose proof (Z.mul_div_le UINT64_MAX (scalar_value_size item)); nia).
  rewrite u64_small in E by (split; [nia|done]). apply cursor_skip_ok in E as [-> _]; [done|done|lia|nia].
Qed.
End Values.
