(* ===== verification/GgufWrite.v ===== *)
(** * Model files as they are written

    The metadata and the tensor directory of a file that is the serialisation
    of PlanGgufProps.v ([put_header]) are opened as what was written. *)
From S2P Require Import Prelude.
From S2P Require Import CNum.
From S2P Require Import LittleEndian.
From S2P Require Import PlanGguf.
From S2P Require Import PlanGgufProps.
From S2P Require Import Gguf.
From S2P Require Import GgufProps.

Section Written.
Context (map : bytes).
Hypothesis Hsize : map_size map <= INT64_MAX.

(** The text [s] lies at [pos]. *)
Definition text_at (pos : Z) (s : bytes) : Prop := 0 <= pos <= map_size map /\ exists tail, drop (Z.to_nat pos) map = s ++ tail.

Lemma text_at_app (pos : Z) (s t : bytes) : text_at pos (s ++ t) -> text_at pos s /\ text_at (pos + Z.of_nat (length s)) t.
Proof.
  intros [Hp [tail E]]. rewrite <- app_assoc in E. split; [split; [done|by eexists]|].
  pose proof (f_equal length E) as Hl. rewrite length_drop, length_app in Hl. unfold text_at, map_size in *. split; [lia|]. exists tail.
  replace (Z.to_nat (pos + Z.of_nat (length s))) with (Z.to_nat pos + length s)%nat by lia.
  by rewrite <- drop_drop, E, drop_app_length.
Qed.

Lemma text_at_end (pos : Z) (s : bytes) : text_at pos s -> pos + Z.of_nat (length s) <= map_size map.
Proof. intros [Hp [tail E]]. apply (f_equal length) in E. rewrite length_drop, length_app in E. unfold map_size in *. lia. Qed.

Lemma has_at (pos : Z) (s : bytes) : text_at pos s -> cursor_has map pos (Z.of_nat (length s)) = true.
Proof. intros Ht. apply cursor_has_spec; [apply Ht|]. by apply text_at_end. Qed.

Lemma slice_at (pos : Z) (s : bytes) : text_at pos s -> slice map pos (Z.of_nat (length s)) = s.
Proof. intros [Hp [tail E]]. unfold slice. by rewrite E, Nat2Z.id, take_app_length. Qed.

Lemma end_small (pos : Z) (s : bytes) : text_at pos s -> u64 (pos + Z.of_nat (length s)) = pos + Z.of_nat (length s).
Proof. intros Ht. pose proof (text_at_end pos s Ht). destruct Ht as [Hp _]. apply u64_small. zlia. Qed.

Lemma read_at (pos : Z) (s : bytes) : text_at pos s ->
  cursor_read map pos (Z.of_nat (length s)) = Ok (s, pos + Z.of_nat (length s)).
Proof. intros Ht. unfold cursor_read. by rewrite has_at, slice_at, end_small. Qed.

Lemma skip_at (pos n : Z) (s : bytes) : n = Z.of_nat (length s) -> text_at pos s -> cursor_skip map pos n = Ok (pos + n).
Proof. intros -> Ht. unfold cursor_skip. by rewrite has_at, end_small. Qed.

Lemma u32_at (pos v : Z) : is_u32 v -> text_at pos (le_bytes 4 v) -> cursor_u32 map pos = Ok (v, pos + 4).
Proof.
  intros Hv Ht. unfold cursor_u32. pose proof (read_at pos _ Ht) as E. rewrite le_bytes_length in E. change (Z.of_nat 4) with 4 in E.
  rewrite E. rewrite le_value_bytes; [done|]. change (2 ^ (8 * Z.of_nat 4)) with (2 ^ 32). zlia.
Qed.

Lemma u64_at (pos v : Z) : is_u64 v -> text_at pos (le_bytes 8 v) -> cursor_u64 map pos = Ok (v, pos + 8).
Proof.
  intros Hv Ht. unfold cursor_u64. pose proof (read_at pos _ Ht) as E. rewrite le_bytes_length in E. change (Z.of_nat 8) with 8 in E.
  rewrite E. rewrite le_value_bytes; [done|]. change (2 ^ (8 * Z.of_nat 8)) with (2 ^ 64). zlia.
Qed.

Lemma put_string_length (s : bytes) : Z.of_nat (length (put_string s)) = 8 + Z.of_nat (length s).
Proof. unfold put_string. rewrite length_app, le_bytes_length. lia. Qed.

Lemma string_at (pos : Z) (s : bytes) : text_at pos (put_string s) ->
  cursor_string map pos = Ok (s, pos + Z.of_nat (length (put_string s))).
Proof.
  intros Ht. pose proof (text_at_end _ _ Ht) as He. rewrite put_string_length in *. unfold put_string in Ht.
  apply text_at_app in Ht as [H1 H2]. rewrite le_bytes_length in H2. change (Z.of_nat 8) with 8 in H2. destruct (proj1 H1) as [Hp _].
  unfold cursor_string. rewrite (u64_at pos (Z.of_nat (length s))); [|zlia|done]. rewrite has_at, slice_at, end_small by done. cbn [negb]. do 2 f_equal. lia.
Qed.

(** ** Values *)

Lemma items_at (step : Z -> pres Z) (items : list gguf_value) :
  (forall v pos, v ∈ items -> text_at pos (put_value v) -> step pos = Ok (pos + Z.of_nat (length (put_value v)))) ->
  forall fuel pos, (length items <= fuel)%nat -> text_at pos (concat (List.map put_value items)) ->
  repeat_items fuel step (Z.of_nat (length items)) pos = Ok (pos + Z.of_nat (length (concat (List.map put_value items)))).
Proof.
  induction items as [|v items IH]; intros Hstep fuel pos Hf Ht.
  - destruct fuel; cbn; f_equal; lia.
  - cbn [List.map concat length] in *. destruct fuel as [|fuel]; [lia|]. cbn [repeat_items]. rewrite (proj2 (Z.leb_gt _ _)) by lia.
    apply text_at_app in Ht as [H1 H2]. rewrite (Hstep v) by (done || by left).
    replace (Z.of_nat (S (length items)) - 1) with (Z.of_nat (length items)) by lia.
    rewrite (IH ltac:(intros; apply Hstep; [by right|done]) fuel _ ltac:(lia) H2). f_equal. rewrite length_app. lia.
Qed.

(** A count of values fits the fuel of a file that holds them. *)
Lemma count_fits {A} (put : A -> bytes) (l : list A) (pos : Z) : (forall a, a ∈ l -> (1 <= length (put a))%nat) ->
  text_at pos (concat (List.map put l)) -> (length l <= length map)%nat.
Proof.
  intros Hput Ht. apply text_at_end in Ht as He. destruct Ht as [Hp _]. unfold map_size in *.
  assert (length l <= length (concat (List.map put l)))%nat; [|lia]. clear He.
  induction l as [|a l IH]; simpl; [lia|]. rewrite length_app.
  pose proof (Hput a ltac:(by left)). specialize (IH ltac:(intros; apply Hput; by right)). lia.
Qed.

Lemma value_text (levels : nat) : forall v pos, value_ok levels v -> text_at pos (put_value v) ->
  skip_value levels map pos (value_type v) = Ok (pos + Z.of_nat (length (put_value v))).
Proof.
  induction levels as [|levels IH]; intros v pos Hv Ht; [done|]. cbn [skip_value].
  destruct v as [type raw|s|item count raw|item items]; cbn [value_ok value_type put_value] in *.
  - destruct Hv as [Hsz Hraw]. change (PlanGguf.scalar_value_size type) with (scalar_value_size type) in Hsz. rewrite Hsz.
    destruct (Z.eqb_spec (Z.of_nat (length raw)) 0) as [E|_]; [destruct raw; [done|simpl in E; lia]|]. by apply (skip_at _ _ raw).
  - change (scalar_value_size PlanGguf.GGUF_VALUE_STRING) with 0. cbn [Z.eqb negb].
    change (PlanGguf.GGUF_VALUE_STRING =? GGUF_VALUE_STRING) with true. cbn iota. by rewrite (string_at pos s).
  - destruct Hv as (Hi & Hc & Hsz & Hlen & Hmax). change (PlanGguf.scalar_value_size item) with (scalar_value_size item) in *.
    change (scalar_value_size PlanGguf.GGUF_VALUE_ARRAY) with 0. cbn [Z.eqb negb].
    change (PlanGguf.GGUF_VALUE_ARRAY =? GGUF_VALUE_STRING) with false.
    change (PlanGguf.GGUF_VALUE_ARRAY =? GGUF_VALUE_ARRAY) with true. cbn iota.
    apply text_at_app in Ht as [H1 Ht]. rewrite le_bytes_length in Ht. change (Z.of_nat 4) with 4 in Ht.
    apply text_at_app in Ht as [H2 H3]. rewrite le_bytes_length in H3. change (Z.of_nat 8) with 8 in H3.
    rewrite (u32_at pos item) by done. rewrite (u64_at (pos + 4) count) by done. rewrite (proj2 (Z.eqb_neq _ _)) by lia. cbn [negb].
    destruct (Z.ltb_spec (UINT64_MAX / scalar_value_size item) count) as [Hd|_].
    { exfalso. assert (count <= UINT64_MAX / scalar_value_size item); [|lia]. apply Z.div_le_lower_bound; zlia. }
    rewrite <- Hlen, u64_small by zlia. rewrite (skip_at _ (Z.of_nat (length raw)) raw) by done. f_equal. rewrite !length_app, !le_bytes_length. lia.
  - destruct Hv as (Hi & Hsz & Hn & Hitems). change (PlanGguf.scalar_value_size item) with (scalar_value_size item) in *.
    change (scalar_value_size PlanGguf.GGUF_VALUE_ARRAY) with 0. cbn [Z.eqb negb].
    change (PlanGguf.GGUF_VALUE_ARRAY =? GGUF_VALUE_STRING) with false.
    change (PlanGguf.GGUF_VALUE_ARRAY =? GGUF_VALUE_ARRAY) with true. cbn iota.
    apply text_at_app in Ht as [H1 Ht]. rewrite le_bytes_length in Ht. change (Z.of_nat 4) with 4 in Ht.
    apply text_at_app in Ht as [H2 H3]. rewrite le_bytes_length in H3. change (Z.of_nat 8) with 8 in H3.
    rewrite (u32_at pos item) by done. rewrite (u64_at (pos + 4) (Z.of_nat (length items))) by done. rewrite Hsz. cbn [Z.eqb negb]. rewrite Forall_forall in Hitems.
    rewrite items_at; [|intros v p Hin Hp; destruct (Hitems v Hin) as [<- Hok]; by apply IH| |done].
    + f_equal. rewrite !length_app, !le_bytes_length. lia.
    + pose proof (count_fits put_value items _ ltac:(intros v Hin; by apply (value_size levels), Hitems) H3). lia.
Qed.

(** ** The metadata table *)

(** The alignment behind an entry. *)
Definition align_next (a : Z) (kv : bytes * gguf_value) : Z :=
  match snd kv with
  | VScalar type raw =>
      if str_eqb (fst kv) general_alignment && (type =? GGUF_VALUE_UINT32) && negb (le_value raw =? 0) then le_value raw else a
  | _ => a
  end.

(** The entries of the table at [pos]. *)
Fixpoint written_kvs (pos : Z) (kvs : list (bytes * gguf_value)) : list ds4_kv :=
  match kvs with
  | [] => []
  | kv :: kvs' =>
      Kv (fst kv) (value_type (snd kv)) (pos + Z.of_nat (length (put_string (fst kv))) + 4) ::
      written_kvs (pos + Z.of_nat (length (put_kv kv))) kvs'
  end.

Lemma kv_parts (pos : Z) (kv : bytes * gguf_value) : text_at pos (put_kv kv) ->
  text_at pos (put_string (fst kv)) /\
  text_at (pos + Z.of_nat (length (put_string (fst kv)))) (le_bytes 4 (value_type (snd kv))) /\
  text_at (pos + Z.of_nat (length (put_string (fst kv))) + 4) (put_value (snd kv)).
Proof.
  intros Ht. unfold put_kv in Ht. apply text_at_app in Ht as [H1 Ht]. apply text_at_app in Ht as [H2 H3].
  rewrite le_bytes_length in H3. by split_and!.
Qed.

Lemma put_kv_length (kv : bytes * gguf_value) :
  Z.of_nat (length (put_kv kv)) = Z.of_nat (length (put_string (fst kv))) + 4 + Z.of_nat (length (put_value (snd kv))).
Proof. unfold put_kv. rewrite !length_app, le_bytes_length. lia. Qed.

Lemma kv_at (a pos : Z) (kv : bytes * gguf_value) : kv_ok kv -> text_at pos (put_kv kv) ->
  read_kv map a pos =
    Ok (Kv (fst kv) (value_type (snd kv)) (pos + Z.of_nat (length (put_string (fst kv))) + 4), align_next a kv,
        pos + Z.of_nat (length (put_kv kv))).
Proof.
  intros (_ & Hty & Hv) Ht. rewrite put_kv_length. apply kv_parts in Ht as (H1 & H2 & H3). unfold read_kv.
  rewrite (string_at pos (fst kv)) by done. rewrite (u32_at _ (value_type (snd kv))) by done.
  rewrite (value_text 9 (snd kv)) by done. do 2 f_equal; [|lia]. f_equal. unfold align_next.
  destruct (str_eqb (fst kv) general_alignment && (value_type (snd kv) =? GGUF_VALUE_UINT32)) eqn:E.
  - apply andb_true_iff in E as [Ek Et%Z.eqb_eq]. destruct (snd kv) as [type raw|s|item count raw|item items]; try discriminate Et.
    cbn [value_type put_value] in *. subst type. destruct Hv as [Hl _]. change (PlanGguf.scalar_value_size GGUF_VALUE_UINT32) with 4 in Hl.
    pose proof (read_at _ raw H3) as R. rewrite <- Hl in R. unfold cursor_u32. rewrite R, Ek. reflexivity.
  - destruct (snd kv) as [type raw|s|item count raw|item items]; try done. cbn [value_type] in E. by rewrite E.
Qed.

Lemma kvs_at (kvs : list (bytes * gguf_value)) : forall fuel a pos, (length kvs <= fuel)%nat -> Forall kv_ok kvs ->
  text_at pos (concat (List.map put_kv kvs)) ->
  read_kvs fuel map (Z.of_nat (length kvs)) a pos =
    Ok (written_kvs pos kvs, foldl align_next a kvs, pos + Z.of_nat (length (concat (List.map put_kv kvs)))).
Proof.
  induction kvs as [|kv kvs IH]; intros fuel a pos Hf Hok Ht.
  - destruct fuel; cbn; do 2 f_equal; lia.
  - apply Forall_cons in Hok as [Hkv Hok]. cbn [List.map concat length foldl written_kvs] in *. destruct fuel as [|fuel]; [lia|].
    cbn [read_kvs]. rewrite (proj2 (Z.leb_gt _ _)) by lia. apply text_at_app in Ht as [H1 H2].
    rewrite (kv_at a pos kv) by done. replace (Z.of_nat (S (length kvs)) - 1) with (Z.of_nat (length kvs)) by lia.
    rewrite (IH fuel _ _ ltac:(lia) Hok H2). do 2 f_equal. rewrite length_app. lia.
Qed.

(** A key is found at its first entry. *)
Lemma find_written (key : bytes) (kvs : list (bytes * gguf_value)) : forall pos, text_at pos (concat (List.map put_kv kvs)) ->
  match List.find (fun kv => str_eqb (fst kv) key) kvs, List.find (fun kv => str_eqb (kv_key kv) key) (written_kvs pos kvs) with
  | Some (_, v), Some kv => kv_type kv = value_type v /\ text_at (kv_value_pos kv) (put_value v)
  | None, None => True
  | _, _ => False
  end.
Proof.
  induction kvs as [|[k v] kvs IH]; intros pos Ht; [done|]. cbn [List.map concat] in Ht. apply text_at_app in Ht as [H1 H2].
  cbn [List.find written_kvs kv_key fst]. destruct (str_eqb k key); [|by apply IH]. cbn. apply kv_parts in H1 as (_ & _ & H1). by split.
Qed.

(** ** The tensor directory *)

Definition written_tensor (data_pos : Z) (t : header_tensor) : ds4_tensor :=
  Tensor (ht_name t) (ht_dims t) (ht_type t) (ht_rel t) data_pos (ht_elements t)
    (default 0 (tensor_nbytes (ht_type t) (ht_elements t))).

Lemma dims_at (ds : list Z) : forall e pos, Forall is_u64 ds -> 0 <= e -> (forall k, e * foldr Z.mul 1 (take k ds) <= UINT64_MAX) ->
  text_at pos (concat (List.map (le_bytes 8) ds)) ->
  read_dims map (length ds) e pos = Ok (ds, e * foldr Z.mul 1 ds, pos + Z.of_nat (length (concat (List.map (le_bytes 8) ds)))).
Proof.
  induction ds as [|d ds IH]; intros e pos Hds He Hk Ht; cbn [length read_dims List.map concat foldr] in *.
  - rewrite Z.mul_1_r, Z.add_0_r. done.
  - apply Forall_cons in Hds as [Hd Hds]. apply text_at_app in Ht as [H1 H2]. rewrite le_bytes_length in H2.
    rewrite (u64_at pos d) by done. pose proof (Hk 1%nat) as K1. cbn in K1. rewrite Z.mul_1_r in K1. destruct Hd as [Hd1 Hd2].
    destruct (negb (d =? 0) && (UINT64_MAX / d <? e)) eqn:Eo.
    { exfalso. apply andb_true_iff in Eo as [Ed%negb_true_iff%Z.eqb_neq Eo%Z.ltb_lt].
      assert (e <= UINT64_MAX / d) by (apply Z.div_le_lower_bound; lia). lia. }
    rewrite u64_small by (split; [nia|done]). change (Z.of_nat 8) with 8 in H2. rewrite (IH (e * d) (pos + 8)); [|done|nia| |done].
    + rewrite length_app, le_bytes_length. do 2 f_equal; [f_equal; lia|lia].
    + intros k. specialize (Hk (S k)). cbn [take foldr] in Hk. lia.
Qed.

Lemma tensor_at (pos : Z) (t : header_tensor) : ht_ok t -> text_at pos (put_tensor t) ->
  read_tensor map pos = Ok (written_tensor 0 t, pos + Z.of_nat (length (put_tensor t))).
Proof.
  intros (_ & Hd & Hds & Hk & Ht & Hrel) Hat. unfold put_tensor in Hat. apply text_at_app in Hat as [H1 Hat].
  apply text_at_app in Hat as [H2 Hat]. rewrite le_bytes_length in Hat. apply text_at_app in Hat as [H3 Hat].
  apply text_at_app in Hat as [H4 H5]. rewrite le_bytes_length in H5. change (Z.of_nat 4) with 4 in *.
  unfold read_tensor. rewrite (string_at pos (ht_name t)) by done. rewrite (u32_at _ (Z.of_nat (length (ht_dims t)))); [|zlia|done].
  destruct ((Z.of_nat (length (ht_dims t)) =? 0) || (DS4_MAX_DIMS <? Z.of_nat (length (ht_dims t)))) eqn:E.
  { unfold DS4_MAX_DIMS in E. apply orb_true_iff in E as [E%Z.eqb_eq|E%Z.ltb_lt]; lia. }
  rewrite Nat2Z.id. rewrite (dims_at (ht_dims t)); [|done|lia|intros k; specialize (Hk k); lia|done].
  rewrite (u32_at _ (ht_type t)) by done. rewrite (u64_at _ (ht_rel t)) by done. unfold written_tensor, ht_elements. rewrite Z.mul_1_l.
  do 2 f_equal. unfold put_tensor. rewrite !length_app, !le_bytes_length. lia.
Qed.

Lemma tensors_at (ts : list header_tensor) : forall fuel pos, (length ts <= fuel)%nat -> Forall ht_ok ts ->
  text_at pos (concat (List.map put_tensor ts)) ->
  read_tensors fuel map (Z.of_nat (length ts)) pos =
    Ok (List.map (written_tensor 0) ts, pos + Z.of_nat (length (concat (List.map put_tensor ts)))).
Proof.
  induction ts as [|t ts IH]; intros fuel pos Hf Hok Ht.
  - destruct fuel; cbn; do 2 f_equal; lia.
  - apply Forall_cons in Hok as [H0 Hok]. cbn [List.map concat length] in *. destruct fuel as [|fuel]; [lia|].
    cbn [read_tensors]. rewrite (proj2 (Z.leb_gt _ _)) by lia. apply text_at_app in Ht as [H1 H2]. rewrite (tensor_at pos t) by done.
    replace (Z.of_nat (S (length ts)) - 1) with (Z.of_nat (length ts)) by lia.
    rewrite (IH fuel _ ltac:(lia) Hok H2). do 2 f_equal. rewrite length_app. lia.
Qed.
End Written.

(** ** Opening *)

Lemma nbytes_agree (type e : Z) : tensor_nbytes type e = type_nbytes type e.
Proof.
  unfold tensor_nbytes, type_nbytes, tensor_type, type_info. destruct (43 <=? type) eqn:E; [done|].
  apply Z.leb_gt in E. assert (Hn : (Z.to_nat type < 43)%nat) by lia. generalize (Z.to_nat type) as n, Hn. clear. intros n Hn.
  do 43 (destruct n as [|n]; [reflexivity|]). lia.
Qed.

Lemma align_up_aligned (n a : Z) : 0 <= n <= INT64_MAX -> alignment_ok a -> align_up n a = aligned_pos n a.
Proof.
  intros Hn [Ha1 Ha2]. unfold align_up, aligned_pos. pose proof (Z.div_mod n a ltac:(lia)) as Hdm. pose proof (Z.mod_pos_bound n a Ha1) as Hm.
  destruct (Z.eqb_spec (n mod a) 0) as [E|E].
  - replace ((n + a - 1) / a) with (n / a); [lia|]. apply Z.div_unique with (a - 1); lia.
  - rewrite (u64_small (n + a)) by zlia. rewrite u64_small by zlia.
    replace ((n + a - 1) / a) with (n / a + 1); [lia|]. apply Z.div_unique with (n mod a - 1); lia.
Qed.

Lemma align_next_range (kvs : list (bytes * gguf_value)) (a : Z) : Forall kv_ok kvs -> alignment_ok a -> alignment_ok (foldl align_next a kvs).
Proof.
  intros Hok. revert a. induction Hok as [|[k v] kvs (_ & _ & Hv) _ IH]; intros a Ha; [done|]. cbn [foldl]. apply IH. unfold align_next.
  cbn [fst snd] in *. destruct v as [type raw| | |]; try done. destruct (_ && _ && _) eqn:E; [|done].
  apply andb_true_iff in E as [[_ Et%Z.eqb_eq]%andb_true_iff E%negb_true_iff%Z.eqb_neq]. subst type.
  destruct Hv as [Hl _]. change (PlanGguf.scalar_value_size GGUF_VALUE_UINT32) with 4 in Hl.
  pose proof (le_value_range raw) as Hr. rewrite <- Hl in Hr. change (2 ^ (8 * 4)) with (2 ^ 32) in Hr. unfold alignment_ok. zlia.
Qed.

Lemma place_written (size pos : Z) (ts : list header_tensor) : 0 <= pos -> size <= UINT64_MAX -> Forall ht_ok ts ->
  Forall (ht_fits size pos) ts ->
  mapM_res (place_tensor size pos) (List.map (written_tensor 0) ts) = Ok (List.map (fun t => written_tensor (pos + ht_rel t) t) ts).
Proof.
  intros Hp Hs Hok Hfit. induction Hok as [|t ts Ht _ IH]; [done|]. apply Forall_cons in Hfit as [Hf Hfit]. cbn [List.map mapM_res].
  destruct Ht as (_ & _ & _ & _ & _ & [Hrel _]). unfold ht_fits in Hf. rewrite <- nbytes_agree in Hf.
  pose proof (type_nbytes_nonneg (ht_type t) (ht_elements t)) as Hn. rewrite <- nbytes_agree in Hn.
  unfold place_tensor at 1. cbn [written_tensor tensor_rel_offset tensor_bytes tensor_name tensor_dim tensor_ty tensor_elements].
  rewrite (proj2 (Z.ltb_ge _ _)) by lia. rewrite u64_small by zlia. rewrite (proj2 (Z.ltb_ge _ _)) by lia. rewrite (proj2 (Z.ltb_ge _ _)) by lia.
  rewrite andb_false_r. rewrite IH by done. done.
Qed.


(** The model of a written file. *)
Definition written_model (kvs : list (bytes * gguf_value)) (ts : list header_tensor) (data : bytes) : ds4_model :=
  let align := foldl align_next 32 kvs in
  let pos := aligned_pos (Z.of_nat (length (put_header kvs ts))) align in
  Model (put_header kvs ts ++ data) 3 align pos (written_kvs 24 kvs) (List.map (fun t => written_tensor (pos + ht_rel t) t) ts).

(** What can be written: entries and tensors of the format whose data lies in
    a file that is not too small or large. *)
Record writable (kvs : list (bytes * gguf_value)) (ts : list header_tensor) (data : bytes) : Prop := {
  wr_kvs : Forall kv_ok kvs;
  wr_tensors : Forall ht_ok ts;
  wr_fits : Forall (ht_fits (map_size (put_header kvs ts ++ data)) (model_data_pos (written_model kvs ts data))) ts;
  wr_size : 32 <= map_size (put_header kvs ts ++ data) <= INT64_MAX
}.

(** The parts of the header. *)
Lemma header_parts (kvs : list (bytes * gguf_value)) (ts : list header_tensor) (data : bytes) : let map := put_header kvs ts ++ data in
  text_at map 0 (le_bytes 4 DS4_GGUF_MAGIC) /\ text_at map 4 (le_bytes 4 3) /\
  text_at map 8 (le_bytes 8 (Z.of_nat (length ts))) /\ text_at map 16 (le_bytes 8 (Z.of_nat (length kvs))) /\
  text_at map 24 (concat (List.map put_kv kvs)) /\
  text_at map (24 + Z.of_nat (length (concat (List.map put_kv kvs)))) (concat (List.map put_tensor ts)).
Proof.
  intros map. assert (H0 : text_at map 0 (put_header kvs ts)).
  { split; [unfold map, map_size; lia|]. by exists data. }
  unfold put_header in H0. apply text_at_app in H0 as [H1 H0]. rewrite le_bytes_length in H0.
  apply text_at_app in H0 as [H2 H0]. rewrite le_bytes_length in H0. apply text_at_app in H0 as [H3 H0]. rewrite le_bytes_length in H0.
  apply text_at_app in H0 as [H4 H0]. rewrite le_bytes_length in H0. apply text_at_app in H0 as [H5 H6]. by split_and!.
Qed.

Lemma model_open_written `{Allocator} (path : bytes) (kvs : list (bytes * gguf_value)) (ts : list header_tensor) (data : bytes) :
  (forall n, malloc_ok n = true) -> writable kvs ts data -> Z.of_nat (length kvs) * sizeof_ds4_kv <= SIZE_MAX ->
  Z.of_nat (length ts) * sizeof_ds4_tensor <= SIZE_MAX ->
  model_open path (Mapped (put_header kvs ts ++ data)) = Ok (written_model kvs ts data).
Proof.
  intros Hm [Hkvs Hts Hfits [Hmin Hmax]] Hck Hct. destruct (header_parts kvs ts data) as (H1 & H2 & H3 & H4 & H5 & H6).
  remember (put_header kvs ts ++ data) as map eqn:Emap. cbv zeta in *.
  unfold model_open. rewrite (proj2 (Z.ltb_ge _ _)) by done. unfold model_parse.
  rewrite (u32_at map Hmax 0 DS4_GGUF_MAGIC) by (done || zlia). rewrite Z.eqb_refl. cbn [negb]. rewrite Z.add_0_l.
  rewrite (u32_at map Hmax 4 3) by (done || zlia). change (4 + 4) with 8.
  pose proof (count_fits map put_tensor ts _ ltac:(intros t _; apply put_tensor_size) H6) as Hnt.
  pose proof (count_fits map put_kv kvs _ ltac:(intros t _; apply put_kv_size) H5) as Hnk. unfold map_size in Hmax.
  rewrite (u64_at map Hmax 8 (Z.of_nat (length ts))) by (done || zlia). change (8 + 8) with 16.
  rewrite (u64_at map Hmax 16 (Z.of_nat (length kvs))) by (done || zlia). change (16 + 8) with 24. cbn [Z.eqb negb Pos.eqb].
  unfold parse_metadata, calloc_ok. rewrite Hm, (proj2 (Z.leb_le _ _)) by done. cbn [andb negb].
  rewrite (kvs_at map Hmax kvs) by (done || lia).
  unfold parse_tensors, calloc_ok. rewrite Hm, (proj2 (Z.leb_le _ _)) by done. cbn [andb negb].
  rewrite (tensors_at map Hmax ts) by (done || lia).
  assert (A0 : alignment_ok 32) by (unfold alignment_ok; zlia).
  assert (Hlen : 24 + Z.of_nat (length (concat (List.map put_kv kvs))) + Z.of_nat (length (concat (List.map put_tensor ts))) =
    Z.of_nat (length (put_header kvs ts))) by (unfold put_header; rewrite !length_app, !le_bytes_length; lia).
  rewrite Hlen. assert (Hle : Z.of_nat (length (put_header kvs ts)) <= map_size map) by (subst map; unfold map_size; rewrite length_app; lia).
  pose proof (align_next_range kvs 32 Hkvs A0) as Ha. unfold map_size in Hle. rewrite align_up_aligned by (done || lia).
  unfold written_model in Hfits. cbn [model_data_pos] in Hfits.
  rewrite place_written; [by subst map| |unfold map_size; zlia|done|done].
  unfold aligned_pos. destruct Ha as [Ha _].
  pose proof (Z.div_pos (Z.of_nat (length (put_header kvs ts)) + foldl align_next 32 kvs - 1) (foldl align_next 32 kvs)). nia.
Qed.
