(* ===== verification/ModelVocab.v ===== *)
(** * The vocabulary of a model file (ds4.c)

    [vocab_load]: the two string arrays of the metadata and the tables built
    from them. *)
From S2P Require Import Prelude.
From S2P Require Import Gguf.
From S2P Require Import StrTable.
From S2P Require Import Tokenizer.

(** [for (i = 0; i < n; i++) cursor_string(&c, ...)]; a string takes at least
    eight bytes of the file. *)
Fixpoint read_strings (fuel : nat) (map : bytes) (n pos : Z) : pres (list bytes) :=
  if n <=? 0 then Ok []
  else
    match fuel with
    | O => Error OutOfFuel
    | S fuel =>
        let* (s, pos) := cursor_string map pos in
        l <- read_strings fuel map (n - 1) pos ;; Ok (s :: l)
    end.

Definition array_strings (m : ds4_model) (a : ds4_array_ref) : pres (list bytes) :=
  read_strings (S (length (model_map m))) (model_map m) (arr_len a) (arr_data_pos a).

Definition tokens_key : bytes := B "tokenizer.ggml.tokens".
Definition merges_key : bytes := B "tokenizer.ggml.merges".

(** Every read dies with the cursor's message when it fails.  The code puts
    each string into its table as it reads it; the tables are not seen before
    both arrays are read.  A search in a table that never ends is the model's
    [OutOfFuel]; StrTable.v shows that there is none. *)
Definition vocab_load (m : ds4_model) : pres ds4_vocab :=
  match model_get_array m tokens_key with
  | Some tokens =>
      if negb (arr_type tokens =? GGUF_VALUE_STRING) || (INT_MAX <? arr_len tokens)
      then ds4_die (B "GGUF tokenizer token table is missing or invalid")
      else
        match model_get_array m merges_key with
        | Some merges =>
            if negb (arr_type merges =? GGUF_VALUE_STRING) then ds4_die (B "GGUF tokenizer merge table is missing or invalid")
            else
              token <- array_strings m tokens ;;
              merge <- array_strings m merges ;;
              match vocab_build token merge with
              | Some (Ok v) => Ok v
              | Some (Error d) => Error (Exit 1 d)
              | None => Error OutOfFuel
              end
        | None => ds4_die (B "GGUF tokenizer merge table is missing or invalid")
        end
  | None => ds4_die (B "GGUF tokenizer token table is missing or invalid")
  end.
