(* ===== verification/ModelVocabProps.v ===== *)
(** * Reading the values of a model file

    Whatever opening accepts can be read: no later lookup fails on a value of
    the right type.  The metadata of a written file is read back, and with it
    the tokenizer. *)
From S2P Require Import Prelude.
From S2P Require Import CNum.
From S2P Require Import LittleEndian.
From S2P Require Import PlanGguf.
From S2P Require Import PlanGgufProps.
From S2P Require Import Gguf.
From S2P Require Import GgufProps.
From S2P Require Import GgufWrite.
From S2P Require Import StrTable.
From S2P Require Import Tokenizer.
From S2P Require Import TokenizerProps.
From S2P Require Import ModelVocab.

(** ** Strings of an array *)

Lemma strings_readable (map : bytes) (levels fuel : nat) : map_size map <= INT64_MAX -> forall len pos q, 0 <= pos <= map_size map ->
  repeat_items fuel (fun pos => skip_value (S levels) map pos GGUF_VALUE_STRING) len pos = Ok q ->
  forall fuel2, (fuel <= fuel2)%nat -> exists l, read_strings fuel2 map len pos = Ok l /\ length l = Z.to_nat len.
Proof.
  intros Hs. induction fuel as [|fuel IH]; intros len pos q Hp E fuel2 Hf; destruct fuel2 as [|fuel2]; try lia;
    cbn [repeat_items read_strings] in *; destruct (Z.leb_spec len 0); try done;
    try (exists []; split; [done|simpl; lia]).
  cbn [skip_value] in E. change (scalar_value_size GGUF_VALUE_STRING) with 0 in E. cbn [Z.eqb negb] in E.
  change (GGUF_VALUE_STRING =? GGUF_VALUE_STRING) with true in E. cbn iota in E.
  destruct (cursor_string map pos) as [[s p]|] eqn:Es; [|done].
  apply cursor_string_ok in Es as (n & _ & [Hn _] & _ & -> & Hq); [|done|lia].
  destruct (IH (len - 1) (pos + 8 + n) q ltac:(lia) E fuel2 ltac:(lia)) as (l & -> & Hl). exists (s :: l). split; [done|]. simpl. lia.
Qed.

(** ** Lookups never meet a broken value *)

Section Readable.
Context (m : ds4_model).
Hypothesis Hm : model_wf m.
Hypothesis Hs : model_size m <= INT64_MAX.

Lemma get_string_some (key : bytes) : is_Some (kv_of_type m key GGUF_VALUE_STRING) -> is_Some (model_get_string m key).
Proof.
  intros [kv E]. unfold model_get_string. rewrite E. destruct (find_kv_wf m key _ kv Hm E) as [_ [q Hv]].
  destruct (string_readable _ _ _ Hv) as [s Es]. cbn. rewrite Es. by eexists.
Qed.

Lemma scalar_some (key : bytes) (type : Z) (kv : ds4_kv) : kv_of_type m key type = Some kv -> scalar_value_size type <> 0 ->
  exists q, cursor_read (model_map m) (kv_value_pos kv) (scalar_value_size type) =
    Ok (slice (model_map m) (kv_value_pos kv) (scalar_value_size type), q).
Proof. intros E Hsc. destruct (find_kv_wf m key _ kv Hm E) as [_ [q Hv]]. exists q. by apply scalar_readable. Qed.

Lemma get_u32_some (key : bytes) : is_Some (kv_of_type m key GGUF_VALUE_UINT32) -> is_Some (model_get_u32 m key).
Proof.
  intros [kv E]. unfold model_get_u32, cursor_u32. rewrite E. destruct (scalar_some _ _ _ E) as [q Eq]; [done|].
  change (scalar_value_size GGUF_VALUE_UINT32) with 4 in Eq. cbn. rewrite Eq. by eexists.
Qed.

Lemma get_u64_some (key : bytes) : is_Some (kv_of_type m key GGUF_VALUE_UINT64) -> is_Some (model_get_u64 m key).
Proof.
  intros [kv E]. unfold model_get_u64, cursor_u64. rewrite E. destruct (scalar_some _ _ _ E) as [q Eq]; [done|].
  change (scalar_value_size GGUF_VALUE_UINT64) with 8 in Eq. cbn. rewrite Eq. by eexists.
Qed.

Lemma get_bool_some (key : bytes) : is_Some (kv_of_type m key GGUF_VALUE_BOOL) -> is_Some (model_get_bool m key).
Proof.
  intros [kv E]. unfold model_get_bool. rewrite E. destruct (scalar_some _ _ _ E) as [q Eq]; [done|].
  change (scalar_value_size GGUF_VALUE_BOOL) with 1 in Eq. cbn. rewrite Eq. by eexists.
Qed.

(** An array, its items in the file. *)
Definition array_ok (a : ds4_array_ref) : Prop :=
  is_u32 (arr_type a) /\ is_u64 (arr_len a) /\ 0 <= arr_data_pos a /\
  arr_data_pos a + arr_len a * scalar_value_size (arr_type a) <= model_size m /\
  (arr_type a = GGUF_VALUE_STRING -> exists l, array_strings m a = Ok l /\ length l = Z.to_nat (arr_len a)).

Lemma get_array_some (key : bytes) : is_Some (kv_of_type m key GGUF_VALUE_ARRAY) ->
  exists a, model_get_array m key = Some a /\ array_ok a.
Proof.
  intros [kv E]. unfold model_get_array. rewrite E. destruct (find_kv_wf m key _ kv Hm E) as [_ [q (Hp & Hq & Hv)]].
  destruct (array_items (model_map m) Hs 8 (kv_value_pos kv) q ltac:(lia) Hv) as (item & len & E1 & E2 & Hi & Hl & Hit).
  cbn. rewrite E1. cbn. rewrite E2. cbn. eexists. split; [reflexivity|]. unfold array_ok. cbn. split; [done|]. split; [done|].
  split; [lia|]. apply cursor_u64_ok in E2 as (_ & H2 & _); [|done|lia]. unfold model_size in *. split.
  - destruct (Z.eqb_spec (scalar_value_size item) 0) as [->|]; lia.
  - intros ->. change (scalar_value_size GGUF_VALUE_STRING =? 0) with true in Hit. cbn iota in Hit.
    destruct (strings_readable (model_map m) 7 _ Hs len (kv_value_pos kv + 12) q ltac:(lia) Hit _ (le_n _)) as (l & E3 & E4). by exists l.
Qed.
End Readable.

(** C25 Opening checks every value: in an opened model a lookup fails only
    where the key is missing or has another type.  Strings, integers and flags
    are read in full, the items of an array lie inside the file, and the
    strings of a string array can all be read. *)
Theorem model_values_readable `{Allocator} (path : bytes) (f : model_file) (m : ds4_model) :
  file_ok f -> model_open path f = Ok m -> forall key,
    (is_Some (kv_of_type m key GGUF_VALUE_STRING) <-> is_Some (model_get_string m key)) /\
    (is_Some (kv_of_type m key GGUF_VALUE_UINT32) <-> is_Some (model_get_u32 m key)) /\
    (is_Some (kv_of_type m key GGUF_VALUE_UINT64) <-> is_Some (model_get_u64 m key)) /\
    (is_Some (kv_of_type m key GGUF_VALUE_BOOL) <-> is_Some (model_get_bool m key)) /\
    (is_Some (kv_of_type m key GGUF_VALUE_ARRAY) <-> is_Some (model_get_array m key)) /\
    (forall a, model_get_array m key = Some a -> array_ok m a).
Proof.
  intros Hf E key. pose proof (model_open_spec path f Hf) as H1. rewrite E in H1. destruct H1 as [-> Hm].
  change (model_size m <= INT64_MAX) in Hf.
  assert (Hback : forall {A} (type : Z) (g : ds4_kv -> option A), is_Some (kv_of_type m key type ≫= g) -> is_Some (kv_of_type m key type)).
  { intros A type g [a Ha]. destruct (kv_of_type m key type); [by eexists|done]. }
  split_and!; [split..|intros a Ha].
  - by apply get_string_some.
  - apply Hback.
  - by apply get_u32_some.
  - apply Hback.
  - by apply get_u64_some.
  - apply Hback.
  - by apply get_bool_some.
  - apply Hback.
  - intros Hk. destruct (get_array_some m Hm Hf key Hk) as (a & -> & _). by eexists.
  - apply Hback.
  - destruct (get_array_some m Hm Hf key) as (a' & Ha' & Ho); [apply (Hback _ _ _ (ex_intro _ a Ha))|]. congruence.
Qed.

(** ** Written files *)

Section WrittenStrings.
Context (map : bytes).
Hypothesis Hsize : map_size map <= INT64_MAX.

Lemma strings_at (l : list bytes) : forall fuel pos, (length l <= fuel)%nat -> text_at map pos (concat (List.map put_string l)) ->
  read_strings fuel map (Z.of_nat (length l)) pos = Ok l.
Proof.
  induction l as [|s l IH]; intros fuel pos Hf Ht; [by destruct fuel|]. cbn [List.map concat length] in *. destruct fuel as [|fuel]; [lia|].
  cbn [read_strings]. rewrite (proj2 (Z.leb_gt _ _)) by lia. apply text_at_app in Ht as [H1 H2]. rewrite (string_at map Hsize pos s) by done.
  replace (Z.of_nat (S (length l)) - 1) with (Z.of_nat (length l)) by lia. by rewrite (IH fuel _ ltac:(lia) H2).
Qed.
End WrittenStrings.

(** The value a key was written with. *)
Definition written (kvs : list (bytes * gguf_value)) (key : bytes) : option gguf_value :=
  snd <$> List.find (fun kv => str_eqb (fst kv) key) kvs.

Definition strings_value (l : list bytes) : gguf_value := VArray GGUF_VALUE_STRING (List.map VString l).

Section Written.
Context (kvs : list (bytes * gguf_value)) (ts : list header_tensor) (data : bytes).
Hypothesis Hw : writable kvs ts data.
Let m := written_model kvs ts data.

Lemma written_size : model_size m <= INT64_MAX.
Proof. apply (wr_size _ _ _ Hw). Qed.

Lemma written_lookup (key : bytes) :
  match written kvs key with
  | Some v => (exists k, (k, v) ∈ kvs) /\ exists kv, kv_of_type m key (value_type v) = Some kv /\
      text_at (model_map m) (kv_value_pos kv) (put_value v)
  | None => model_find_kv m key = None
  end.
Proof.
  pose proof (find_written (model_map m) key kvs 24) as H. specialize (H ltac:(apply header_parts)).
  unfold written, kv_of_type, model_find_kv. cbn [m written_model model_kv]. 
  destruct (List.find _ kvs) as [[k v]|] eqn:E, (List.find _ (written_kvs 24 kvs)) as [kv|]; try done. cbn.
  apply find_some in E as [Hin _]. destruct H as [-> H]. split; [exists k; by apply list_elem_of_In|]. exists kv. by rewrite Z.eqb_refl.
Qed.

Lemma written_string (key s : bytes) : written kvs key = Some (VString s) -> model_get_string m key = Some s.
Proof.
  intros E. pose proof (written_lookup key) as H. rewrite E in H. destruct H as (_ & kv & Ek & Ht). cbn [value_type put_value] in *.
  unfold model_get_string. change GGUF_VALUE_STRING with PlanGguf.GGUF_VALUE_STRING. rewrite Ek. cbn.
  by rewrite (string_at _ written_size _ s).
Qed.

Lemma written_scalar (key raw : bytes) (type : Z) : written kvs key = Some (VScalar type raw) ->
  exists kv q, kv_of_type m key type = Some kv /\ cursor_read (model_map m) (kv_value_pos kv) (scalar_value_size type) = Ok (raw, q).
Proof.
  intros E. pose proof (written_lookup key) as H. rewrite E in H. destruct H as ([k Hin] & kv & Ek & Ht). cbn [value_type put_value] in *.
  pose proof (wr_kvs _ _ _ Hw) as Hok. rewrite Forall_forall in Hok. destruct (Hok _ Hin) as (_ & _ & [Hsz _]). cbn [snd] in *.
  exists kv. eexists. split; [done|]. change (scalar_value_size type) with (PlanGguf.scalar_value_size type). rewrite Hsz.
  by apply (read_at _ written_size).
Qed.

Lemma written_strings (key : bytes) (l : list bytes) : written kvs key = Some (strings_value l) ->
  exists pos, model_get_array m key = Some (ArrayRef GGUF_VALUE_STRING (Z.of_nat (length l)) pos) /\
    array_strings m (ArrayRef GGUF_VALUE_STRING (Z.of_nat (length l)) pos) = Ok l.
Proof.
  intros E. pose proof (written_lookup key) as H. rewrite E in H. destruct H as ([k Hin] & kv & Ek & Ht).
  pose proof (wr_kvs _ _ _ Hw) as Hok. rewrite Forall_forall in Hok. destruct (Hok _ Hin) as (_ & _ & (Hi & _ & Hn & _)). cbn [snd] in *.
  rewrite length_map in Hn. cbn [strings_value value_type put_value] in *. rewrite length_map in Ht.
  apply text_at_app in Ht as [H1 Ht]. apply text_at_app in Ht as [H2 H3]. rewrite le_bytes_length in *.
  change (Z.of_nat 4) with 4 in *. change (Z.of_nat 8) with 8 in *.
  replace (List.map put_value (List.map VString l)) with (List.map put_string l) in H3 by (by rewrite List.map_map).
  exists (kv_value_pos kv + 4 + 8). split.
  - unfold model_get_array. change GGUF_VALUE_ARRAY with PlanGguf.GGUF_VALUE_ARRAY. rewrite Ek. cbn.
    rewrite (u32_at _ written_size _ GGUF_VALUE_STRING) by done. cbn. by rewrite (u64_at _ written_size _ (Z.of_nat (length l))) by done.
  - unfold array_strings. cbn [arr_len arr_data_pos]. apply (strings_at _ written_size); [|done].
    pose proof (count_fits _ put_string l _ ltac:(intros s _; unfold put_string; rewrite length_app, le_bytes_length; lia) H3). lia.
Qed.
End Written.

(** The texts a vocabulary must have. *)
Definition special_texts : list bytes := List.map fst (specials (Vocab [] 0 0 0 0 0 0 0 (StrTable [] 0) (StrTable [] 0))).

Lemma build_total (tokens merges : list bytes) : Z.of_nat (length tokens) <= INT_MAX -> Z.of_nat (length merges) <= 2 ^ 61 ->
  Forall (fun s => s ∈ tokens) special_texts -> exists v, vocab_build tokens merges = Some (Ok v).
Proof.
  intros Hb Hm Hs. unfold vocab_build.
  destruct (table_built (numbered tokens) (Z.of_nat (length tokens))) as (t0 & t & Et0 & Et & Hget); [rewrite length_numbered; unfold INT_MAX in Hb; lia|].
  destruct (table_built (numbered merges) (Z.of_nat (length merges))) as (m0 & mt & Em0 & Em & _); [rewrite length_numbered; lia|].
  rewrite Et0, Em0. cbn. rewrite Et. cbn. rewrite Em. cbn.
  assert (Hl : forall s, s ∈ tokens -> exists i, vocab_lookup t s = Ok i).
  { intros s Hin. unfold vocab_lookup, lookup_id. rewrite Hget. pose proof (last_puts_spec (numbered tokens) s) as H.
    destruct (last_puts (numbered tokens) !! s) as [i|]; [by exists i|]. by rewrite numbered_keys in H. }
  unfold special_texts, specials in Hs. cbn in Hs.
  repeat match type of Hs with Forall _ (_ :: _) => apply Forall_cons in Hs as [Hin Hs]; destruct (Hl _ Hin) as [? ->]; clear Hin end.
  by eexists.
Qed.

(** The example vocabulary in a file. *)
Definition example_kvs : list (bytes * gguf_value) :=
  [(B "general.name", VString (B "ds4")); (general_alignment, VScalar GGUF_VALUE_UINT32 (le_bytes 4 64));
   (tokens_key, strings_value example_tokens); (merges_key, strings_value example_merges)].

Lemma strings_ok (l : list bytes) : Z.of_nat (length l) <= UINT64_MAX -> forallb (fun s => Z.of_nat (length s) <? SIZE_MAX) l = true ->
  value_ok 9 (strings_value l).
Proof.
  intros Hl Hs. cbn [strings_value value_ok]. split; [split; done|]. split; [done|]. rewrite length_map. split; [split; [lia|done]|].
  apply Forall_forall. intros v (s & <- & Hin)%list_elem_of_In%in_map_iff. rewrite forallb_forall in Hs. specialize (Hs s Hin).
  split; [done|]. cbn. by apply Z.ltb_lt.
Qed.

Lemma example_writable : writable example_kvs ex_tensors (replicate 400 NUL).
Proof.
  constructor.
  - unfold example_kvs. apply Forall_cons; split; [|apply Forall_cons; split; [|apply Forall_cons; split; [|apply Forall_cons; split; [|constructor]]]];
      (split; [vm_compute; reflexivity|split; [split; discriminate|]]); cbn [snd].
    + reflexivity.
    + split; [reflexivity|discriminate].
    + apply strings_ok; [vm_compute; discriminate|vm_compute; reflexivity].
    + apply strings_ok; [vm_compute; discriminate|vm_compute; reflexivity].
  - exact ex_tensors_ok.
  - apply Forall_cons; split; [vm_compute; discriminate|]. apply Forall_cons; split; [vm_compute; discriminate|constructor].
  - vm_compute. split; discriminate.
Qed.

Lemma example_special : Forall (fun s => s ∈ example_tokens) special_texts.
Proof.
  assert (H : forallb (fun s => existsb (str_eqb s) example_tokens) special_texts = true) by (vm_compute; reflexivity).
  apply Forall_forall. intros s Hin%list_elem_of_In. rewrite forallb_forall in H. apply H, existsb_exists in Hin as (s' & Hin & E).
  apply str_eqb_eq in E as ->. by apply list_elem_of_In.
Qed.

(** Elements and bytes of a block, for each type of tensor the file format
    gives a size to. *)
Definition formats : list (Z * (Z * Z)) :=
  [(0, (1, 4)); (1, (1, 2)); (2, (32, 18)); (3, (32, 20)); (6, (32, 22)); (7, (32, 24)); (8, (32, 34)); (9, (32, 40));
   (10, (256, 84)); (11, (256, 110)); (12, (256, 144)); (13, (256, 176)); (14, (256, 210)); (15, (256, 292));
   (16, (256, 66)); (17, (256, 74)); (18, (256, 98)); (19, (256, 110)); (20, (256, 50)); (21, (256, 110));
   (22, (256, 82)); (23, (256, 136)); (24, (1, 1)); (25, (1, 2)); (26, (1, 4)); (27, (1, 8)); (28, (1, 8));
   (29, (256, 56)); (30, (1, 2)); (39, (32, 17)); (42, (128, 129))].

(** Whole blocks of the tensor's type, for as long as nothing wraps. *)
Definition bytes_as (type elements bytes : Z) : Prop :=
  (forall e b, (type, (e, b)) ∈ formats -> elements + e <= UINT64_MAX -> (elements + e - 1) / e * b <= UINT64_MAX ->
     bytes = (elements + e - 1) / e * b) /\
  (type ∉ map fst formats -> bytes = 0).

Lemma tensor_nbytes_blocks (type elements : Z) : is_u32 type -> 0 <= elements ->
  bytes_as type elements (default 0 (tensor_nbytes type elements)).
Proof.
  intros Ht He. split.
  - intros e b Hin H1 H2. assert (Hty : tensor_type type = Some (GgufType (gg_name (default (GgufType "" 1 1) (tensor_type type))) e b) /\ 0 < e <= 256 /\ 0 < b).
    { unfold formats in Hin. rewrite !elem_of_cons, elem_of_nil in Hin.
      repeat (destruct Hin as [[= -> -> ->]|Hin]; [split; [reflexivity|lia]|]). done. }
    destruct Hty as (Hty & Hpe & Hpb). unfold tensor_nbytes. rewrite Hty. cbn [gg_block_elems gg_block_bytes].
    rewrite (u64_small (elements + e)) by zlia. rewrite (u64_small (elements + e - 1)) by zlia.
    assert (Hn : 0 <= (elements + e - 1) / e) by (apply Z.div_pos; lia).
    destruct (Z.ltb_spec (UINT64_MAX / b) ((elements + e - 1) / e)) as [Hlt|_].
    + exfalso. assert ((elements + e - 1) / e <= UINT64_MAX / b); [apply Z.div_le_lower_bound; lia|lia].
    + cbn [default]. apply u64_small. split; [nia|done].
  - intros Hno. unfold tensor_nbytes, tensor_type. destruct (43 <=? type) eqn:E; [done|]. apply Z.leb_gt in E. destruct Ht as [Ht _].
    assert (Hn : exists n, type = Z.of_nat n /\ (n < 43)%nat) by (exists (Z.to_nat type); lia). destruct Hn as (n & -> & Hn).
    rewrite Nat2Z.id. revert Hno. clear - Hn. intros Hno.
    do 43 (destruct n as [|n]; [first [reflexivity|exfalso; apply Hno; apply (bool_decide_unpack _); vm_compute; exact I]|]). lia.
Qed.

(** The alignment a file gives: the last one written that is not zero, 32
    without one. *)
Definition written_alignments (kvs : list (bytes * gguf_value)) : list Z :=
  omap (fun kv => match snd kv with
                  | VScalar type raw =>
                      if bool_decide (fst kv = B "general.alignment" /\ type = 4 /\ le_value raw <> 0) then Some (le_value raw) else None
                  | _ => None
                  end) kvs.

Lemma alignment_written (kvs : list (bytes * gguf_value)) : foldl align_next 32 kvs = List.last (written_alignments kvs) 32.
Proof.
  induction kvs as [|kv kvs IH] using rev_ind; [done|]. rewrite foldl_app. cbn [foldl]. unfold written_alignments. rewrite omap_app. cbn [omap list_omap].
  fold (written_alignments kvs). rewrite IH. unfold align_next. destruct (snd kv) as [type raw| | |]; try (by rewrite app_nil_r).
  destruct (bool_decide_reflect (fst kv = B "general.alignment" /\ type = 4 /\ le_value raw <> 0)) as [(H1 & H2 & H3)|Hno].
  - rewrite H1, str_eqb_refl, H2, (proj2 (Z.eqb_neq _ _) H3). by rewrite last_last.
  - rewrite app_nil_r. destruct (str_eqb _ _) eqn:E1; [|done]. destruct (Z.eqb_spec type GGUF_VALUE_UINT32) as [E2|]; [|done].
    destruct (Z.eqb_spec (le_value raw) 0) as [|E3]; [done|]. exfalso. apply Hno. apply str_eqb_eq in E1. by split.
Qed.

(** The first multiple of [a] that is not below [n]. *)
Lemma aligned_pos_first (n a : Z) : 0 < a -> n <= aligned_pos n a < n + a /\ aligned_pos n a mod a = 0.
Proof.
  intros Ha. unfold aligned_pos. pose proof (Z.div_mod (n + a - 1) a ltac:(lia)). pose proof (Z.mod_pos_bound (n + a - 1) a Ha).
  split; [lia|]. apply Z.mod_mul. lia.
Qed.

(** C26 A model file is read back as it was written: with any metadata and
    tensors of the format, opening finds every string, integer and string
    array under its key as the first entry of that key has it, no value where
    the key was not written, and every tensor in order with its name, shape,
    type and number of elements.  The data lies at the first multiple of the
    alignment behind the directory - the alignment written last that is not
    zero, or 32 - and each tensor at its offset in it.  A tensor has the bytes
    of the whole blocks of its type ([bytes_as]: no bytes for a type without a
    size; sizes that do not fit in 64 bits are outside). *)
Theorem model_file_roundtrip `{Allocator} (path : bytes) (kvs : list (bytes * gguf_value)) (ts : list header_tensor) (data : bytes) :
  (forall n, malloc_ok n = true) -> writable kvs ts data -> Z.of_nat (length kvs) * sizeof_ds4_kv <= SIZE_MAX ->
  Z.of_nat (length ts) * sizeof_ds4_tensor <= SIZE_MAX ->
  exists m, model_open path (Mapped (put_header kvs ts ++ data)) = Ok m /\
    (forall key s, written kvs key = Some (VString s) -> model_get_string m key = Some s) /\
    (forall key raw, written kvs key = Some (VScalar GGUF_VALUE_UINT32 raw) -> model_get_u32 m key = Some (le_value raw)) /\
    (forall key raw, written kvs key = Some (VScalar GGUF_VALUE_UINT64 raw) -> model_get_u64 m key = Some (le_value raw)) /\
    (forall key raw, written kvs key = Some (VScalar GGUF_VALUE_BOOL raw) -> model_get_bool m key = Some (negb (le_value raw =? 0))) /\
    (forall key l, written kvs key = Some (strings_value l) -> exists a, model_get_array m key = Some a /\ array_strings m a = Ok l) /\
    (forall key, written kvs key = None -> model_find_kv m key = None) /\
    (let header := Z.of_nat (length (put_header kvs ts)) in
     model_alignment m = List.last (written_alignments kvs) 32 /\
     header <= model_data_pos m < header + model_alignment m /\ model_data_pos m mod model_alignment m = 0) /\
    Forall2 (fun t r => tensor_name r = ht_name t /\ tensor_dim r = ht_dims t /\ tensor_ty r = ht_type t /\
        tensor_elements r = foldr Z.mul 1 (ht_dims t) /\ tensor_abs_offset r = model_data_pos m + ht_rel t /\
        bytes_as (ht_type t) (foldr Z.mul 1 (ht_dims t)) (tensor_bytes r))
      ts (model_tensors m).
Proof.
  intros Hm Hw Hck Hct. exists (written_model kvs ts data). split; [by apply model_open_written|]. split_and!.
  - intros key s. by apply written_string.
  - intros key raw E. destruct (written_scalar kvs ts data Hw key raw _ E) as (kv & q & Ek & Er). unfold model_get_u32, cursor_u32.
    rewrite Ek. change (scalar_value_size GGUF_VALUE_UINT32) with 4 in Er. unfold mbind, option_bind. by rewrite Er.
  - intros key raw E. destruct (written_scalar kvs ts data Hw key raw _ E) as (kv & q & Ek & Er). unfold model_get_u64, cursor_u64.
    rewrite Ek. change (scalar_value_size GGUF_VALUE_UINT64) with 8 in Er. unfold mbind, option_bind. by rewrite Er.
  - intros key raw E. destruct (written_scalar kvs ts data Hw key raw _ E) as (kv & q & Ek & Er). unfold model_get_bool.
    rewrite Ek. change (scalar_value_size GGUF_VALUE_BOOL) with 1 in Er. unfold mbind, option_bind. by rewrite Er.
  - intros key l E. destruct (written_strings kvs ts data Hw key l E) as (pos & E1 & E2). by eexists.
  - intros key E. pose proof (written_lookup kvs ts data key) as Hl. by rewrite E in Hl.
  - cbv zeta. cbn [written_model model_alignment model_data_pos]. destruct Hw as [Hkvs _ _ _].
    pose proof (align_next_range kvs 32 Hkvs ltac:(unfold alignment_ok; zlia)) as [Ha _].
    destruct (aligned_pos_first (Z.of_nat (length (put_header kvs ts))) _ Ha) as [H1 H2]. split; [apply alignment_written|]. by split.
  - cbn [written_model model_tensors model_data_pos]. destruct Hw as [_ Hts _ _]. generalize (aligned_pos (Z.of_nat (length (put_header kvs ts))) (foldl align_next 32 kvs)) as pos.
    intros pos. clear Hct. induction Hts as [|t l Ht _ IH]; [constructor|]. constructor; [|exact IH]. cbn. do 5 (split; [done|]).
    destruct Ht as (_ & _ & Hd & _ & Hty & _). apply tensor_nbytes_blocks; [done|]. clear -Hd. unfold ht_elements. induction (ht_dims t) as [|d ds IH]; [done|].
    apply Forall_cons in Hd as [[H0 _] Hd]. change (0 <= d * foldr Z.mul 1 ds). apply Z.mul_nonneg_nonneg; [done|by apply IH].
Qed.

Lemma model_file_roundtrip_witness :
  exists m, @model_open unlimited (B "m.gguf") (Mapped (put_header example_kvs ex_tensors ++ replicate 400 NUL)) = Ok m /\
    model_get_u32 m general_alignment = Some 64 /\ model_data_pos m mod 64 = 0 /\ map tensor_bytes (model_tensors m) = [34; 12].
Proof.
  destruct (@model_file_roundtrip unlimited (B "m.gguf") example_kvs ex_tensors (replicate 400 NUL) (fun n => eq_refl) example_writable)
    as (m & E & _ & H32 & _ & _ & _ & _ & Hpos & Hts); [vm_compute; discriminate|vm_compute; discriminate|].
  exists m. split; [exact E|]. split; [apply (H32 general_alignment (le_bytes 4 64)); reflexivity|]. split.
  - destruct Hpos as (Ha & _ & Hm). change (List.last (written_alignments example_kvs) 32) with 64 in Ha. rewrite Ha in Hm. exact Hm.
  - change ex_tensors with [HeaderTensor (B "blk.2.ffn_up_exps.weight") [32; 2] 39 0; HeaderTensor (B "output.weight") [3] 0 64] in Hts.
    apply Forall2_cons_inv_l in Hts as (r1 & rs & (_ & _ & _ & _ & _ & B1) & Hts & ->).
    apply Forall2_cons_inv_l in Hts as (r2 & rs2 & (_ & _ & _ & _ & _ & B2) & Hts & ->). apply Forall2_nil_inv_l in Hts as ->.
    cbn [map]. f_equal; [|f_equal].
    + apply (proj1 B1 32 17); [apply (bool_decide_unpack _); vm_compute; exact I|vm_compute; discriminate|vm_compute; discriminate].
    + apply (proj1 B2 1 4); [apply (bool_decide_unpack _); vm_compute; exact I|vm_compute; discriminate|vm_compute; discriminate].
Defined.

Lemma written_vocab (kvs : list (bytes * gguf_value)) (ts : list header_tensor) (data : bytes) (tokens merges : list bytes) (v : ds4_vocab) :
  writable kvs ts data -> written kvs tokens_key = Some (strings_value tokens) -> written kvs merges_key = Some (strings_value merges) ->
  Z.of_nat (length tokens) <= INT_MAX -> vocab_build tokens merges = Some (Ok v) -> vocab_load (written_model kvs ts data) = Ok v.
Proof.
  intros Hw Ht Hr Hbt Ev.
  destruct (written_strings kvs ts data Hw _ _ Ht) as (p1 & A1 & S1). destruct (written_strings kvs ts data Hw _ _ Hr) as (p2 & A2 & S2).
  unfold vocab_load. rewrite A1, A2. cbn [arr_type arr_len]. rewrite (proj2 (Z.ltb_ge _ _)) by done. change (GGUF_VALUE_STRING =? GGUF_VALUE_STRING) with true.
  cbn [negb orb]. by rewrite S1, S2, Ev.
Qed.

(** C27 From the bytes of a model file to text and back: opening a file whose
    vocabulary has the special tokens, every encoded byte and the result of
    every merge gives a tokenizer, and its tokens spell every text and every
    rendered chat exactly. *)
Theorem model_file_tokenizer `{Allocator} (path : bytes) (kvs : list (bytes * gguf_value)) (ts : list header_tensor) (data : bytes)
    (tokens merges : list bytes) :
  (forall n, malloc_ok n = true) -> writable kvs ts data -> Z.of_nat (length kvs) * sizeof_ds4_kv <= SIZE_MAX ->
  Z.of_nat (length ts) * sizeof_ds4_tensor <= SIZE_MAX ->
  written kvs tokens_key = Some (strings_value tokens) -> written kvs merges_key = Some (strings_value merges) ->
  Z.of_nat (length tokens) <= INT_MAX -> Z.of_nat (length merges) <= 2 ^ 61 ->
  Forall (fun s => s ∈ tokens) special_texts ->
  (forall b, byte_encode [b] ∈ tokens) -> (forall a b, a ++ x20 :: b ∈ merges -> a ++ b ∈ tokens) ->
  exists m v, model_open path (Mapped (put_header kvs ts ++ data)) = Ok m /\ vocab_load m = Ok v /\ vocab_token v = tokens /\
    forall text : bytes,
      concat (map (ds4_token_text v) (ds4_tokenize_text v (Some text))) = text /\
      concat (map (ds4_token_text v) (ds4_tokenize_rendered_chat v (Some text))) = text.
Proof.
  intros Hm Hw Hck Hct Ht Hr Hbt Hbm Hsp Hb Hc. destruct (build_total tokens merges Hbt Hbm Hsp) as [v Ev].
  exists (written_model kvs ts data), v. split; [by apply model_open_written|].
  pose proof (build_loaded tokens merges v Hbt Hbm Ev) as Hv. split; [by apply (written_vocab kvs ts data tokens merges)|].
  split; [apply (ld_tokens _ _ _ Hv)|]. intros text. split; [exact (text_texts tokens merges v Hv Hb Hc text)|].
    exact (rendered_texts tokens merges v Hv Hb Hc (length text) [] text (le_n _)).
Qed.

Lemma model_file_tokenizer_witness :
  exists m v, @model_open unlimited (B "m.gguf") (Mapped (put_header example_kvs ex_tensors ++ replicate 400 NUL)) = Ok m /\ vocab_load m = Ok v /\
    concat (map (ds4_token_text v) (ds4_tokenize_rendered_chat v (Some (B "<think>hello")))) = B "<think>hello".
Proof.
  destruct (@model_file_tokenizer unlimited (B "m.gguf") example_kvs ex_tensors (replicate 400 NUL) example_tokens example_merges
    (fun n => eq_refl) example_writable) as (m & v & E1 & E2 & _ & E3).
  1-6: vm_compute; first [reflexivity|discriminate].
  - exact example_special.
  - exact example_bytes.
  - exact example_closed.
  - exists m, v. split; [exact E1|]. split; [exact E2|]. exact (proj2 (E3 (B "<think>hello"))).
Defined.

Lemma model_values_readable_witness :
  exists m, @model_open unlimited (B "m.gguf") (Mapped (put_header example_kvs ex_tensors ++ replicate 400 NUL)) = Ok m /\
    is_Some (model_get_string m (B "general.name")).
Proof.
  pose proof (@model_open_written unlimited (B "m.gguf") example_kvs ex_tensors (replicate 400 NUL) (fun n => eq_refl) example_writable
    ltac:(vm_compute; discriminate) ltac:(vm_compute; discriminate)) as E.
  exists (written_model example_kvs ex_tensors (replicate 400 NUL)). split; [exact E|].
  refine (proj1 (proj1 (@model_values_readable unlimited (B "m.gguf") _ _ _ E (B "general.name"))) _).
  - vm_compute. discriminate.
  - vm_compute. eexists. reflexivity.
Defined.
