(* ===== verification/GgufAgree.v ===== *)
(** * The planner reads the files the library opens

    tools/plan.c has a GGUF reader of its own.  What [model_open] accepts,
    [parse_gguf] accepts too when no tensor has more than the planner's four
    dimensions and no key holds a NUL, and its inventory lists the tensors the
    library will use: a simulation of the library's cursor by the planner's
    reader. *)
From S2P Require Import Prelude.
From S2P Require Import CNum.
From S2P Require Import LittleEndian.
From S2P Require Import Planner.
From S2P Require Import PlanGguf.
From S2P Require Import PlannerProps.
From S2P Require Import PlanGgufProps.
From S2P Require Import Gguf.
From S2P Require Import GgufProps.
From S2P Require Import GgufWrite.
From S2P Require Import ModelVocabProps.

Section Agree.
Context `{Allocator} (Hmalloc : forall n, malloc_ok n = true) (seek_max : Z).
Context (map : bytes).
Hypothesis Hsize : map_size map <= INT64_MAX.
Hypothesis Hseek : map_size map <= seek_max.

(** The reader at a position of the cursor. *)
Definition reader_at (pos : Z) : reader := Reader (drop (Z.to_nat pos) map) pos.

Lemma rest_length (pos : Z) : 0 <= pos <= map_size map -> Z.of_nat (length (drop (Z.to_nat pos) map)) = map_size map - pos.
Proof. unfold map_size. rewrite length_drop. lia. Qed.

Lemma drop_ahead (pos n : Z) : 0 <= pos -> 0 <= n -> drop (Z.to_nat n) (drop (Z.to_nat pos) map) = drop (Z.to_nat (pos + n)) map.
Proof. intros Hp Hn. rewrite drop_drop. f_equal. lia. Qed.

Lemma read_agrees (pos n : Z) (b : bytes) (q : Z) : cursor_read map pos n = Ok (b, q) -> 0 <= pos -> 0 <= n ->
  read_exact (reader_at pos) n = Ok (b, reader_at q).
Proof.
  intros E Hp Hn. apply cursor_read_ok in E as (-> & Hs & ->); [|done..]. unfold read_exact, reader_at. cbn [r_rest r_pos].
  rewrite rest_length by lia. rewrite (proj2 (Z.ltb_ge _ _)) by lia. rewrite drop_ahead by done. by rewrite u64_small by zlia.
Qed.

Lemma u32_agrees (pos v q : Z) : cursor_u32 map pos = Ok (v, q) -> 0 <= pos -> read_u32 (reader_at pos) = Ok (v, reader_at q).
Proof.
  unfold cursor_u32, read_u32. destruct (cursor_read map pos 4) as [[b p]|] eqn:E; [|done]. intros [= <- <-] Hp.
  by rewrite (read_agrees _ _ _ _ E) by done.
Qed.

Lemma u64_agrees (pos v q : Z) : cursor_u64 map pos = Ok (v, q) -> 0 <= pos -> read_u64 (reader_at pos) = Ok (v, reader_at q).
Proof.
  unfold cursor_u64, read_u64. destruct (cursor_read map pos 8) as [[b p]|] eqn:E; [|done]. intros [= <- <-] Hp.
  by rewrite (read_agrees _ _ _ _ E) by done.
Qed.

Lemma gguf_string_agrees (pos q : Z) (s : bytes) : cursor_string map pos = Ok (s, q) -> 0 <= pos -> read_string (reader_at pos) = Ok (s, reader_at q).
Proof.
  intros E Hp. apply cursor_string_ok in E as (len & E & [Hl1 Hl2] & -> & -> & Hq); [|done..].
  unfold read_string. rewrite (u64_agrees _ _ _ E) by done. rewrite (proj2 (Z.ltb_ge _ _)) by (unfold SIZE_MAX; zlia). rewrite Hmalloc. cbn [negb].
  apply read_agrees; [|lia|done]. unfold cursor_read. rewrite (proj2 (cursor_has_spec map (pos + 8) len ltac:(lia))) by lia.
  cbn [negb]. by rewrite u64_small by zlia.
Qed.

Lemma skip_agrees (pos n q : Z) : 0 <= pos -> 0 <= n -> cursor_skip map pos n = Ok q ->
  skip_bytes seek_max (reader_at pos) n = Ok (reader_at q).
Proof.
  intros Hp Hn E. apply cursor_skip_ok in E as [-> Hs]; [|done..]. unfold skip_bytes, reader_at. cbn [r_rest r_pos].
  rewrite (proj2 (Z.ltb_ge _ _)) by zlia. rewrite (proj2 (Z.ltb_ge _ _)) by lia. rewrite u64_small by zlia.
  rewrite rest_length by lia. destruct (Z.leb_spec (map_size map - pos) n); [|by rewrite drop_ahead].
  unfold map_size in *. by rewrite (drop_ge map) by lia.
Qed.

(** ** Values *)

Lemma items_agree (step : Z -> pres Z) (step' : reader -> pres reader) : advances map step ->
  (forall pos q, 0 <= pos <= map_size map -> step pos = Ok q -> step' (reader_at pos) = Ok (reader_at q)) ->
  forall fuel fuel' len pos q, 0 <= pos <= map_size map -> (Z.to_nat (map_size map - pos) < fuel')%nat ->
  repeat_items fuel step len pos = Ok q -> repeat_skip fuel' step' len (reader_at pos) = Ok (reader_at q).
Proof.
  intros Ha Hstep fuel. induction fuel as [|fuel IH]; intros fuel' len pos q Hp Hf E; (destruct fuel' as [|fuel']; [lia|]);
    cbn [repeat_items repeat_skip] in *; destruct (len <=? 0); try done; try (by injection E as ->).
  pose proof (Ha pos Hp) as H1. destruct (step pos) as [p|] eqn:Es; [|done]. rewrite (Hstep _ _ Hp Es). apply IH; [lia|lia|done].
Qed.

Lemma value_agrees (levels : nat) : forall pos type q, Gguf.skip_value levels map pos type = Ok q -> 0 <= pos <= map_size map ->
  PlanGguf.skip_value seek_max levels (reader_at pos) type = Ok (reader_at q).
Proof.
  induction levels as [|levels IH]; intros pos type q E Hp; [done|]. cbn [Gguf.skip_value PlanGguf.skip_value] in *.
  change (PlanGguf.scalar_value_size type) with (Gguf.scalar_value_size type). pose proof (scalar_size_range type) as Hsc.
  destruct (Gguf.scalar_value_size type =? 0); cbn [negb] in *; [|apply skip_agrees; [lia|lia|done]].
  change (type =? PlanGguf.GGUF_VALUE_STRING) with (type =? Gguf.GGUF_VALUE_STRING).
  change (type =? PlanGguf.GGUF_VALUE_ARRAY) with (type =? Gguf.GGUF_VALUE_ARRAY).
  destruct (type =? Gguf.GGUF_VALUE_STRING).
  { destruct (cursor_string map pos) as [[s p]|] eqn:Es; [|done]. injection E as ->. by rewrite (gguf_string_agrees _ _ _ Es) by lia. }
  destruct (type =? Gguf.GGUF_VALUE_ARRAY); [|done].
  destruct (cursor_u32 map pos) as [[item p1]|] eqn:E1; [|done]. rewrite (u32_agrees _ _ _ E1) by lia.
  apply cursor_u32_ok in E1 as (-> & H1 & _ & _); [|done|lia].
  destruct (cursor_u64 map (pos + 4)) as [[len p2]|] eqn:E2; [|done]. rewrite (u64_agrees _ _ _ E2) by lia.
  apply cursor_u64_ok in E2 as (-> & H2 & _ & [Hl _]); [|done|lia].
  change (PlanGguf.scalar_value_size item) with (Gguf.scalar_value_size item).
  destruct (Gguf.scalar_value_size item =? 0); cbn [negb] in *.
  - apply (items_agree (fun p => Gguf.skip_value levels map p item) _ (gguf_skip_value_spec map Hsize levels item)) with (fuel := S (length map));
      [intros; by apply IH|lia| |done].
    cbn [r_rest reader_at]. pose proof (rest_length (pos + 4 + 8) ltac:(lia)). lia.
  - destruct (_ <? len); [done|]. apply skip_agrees; [lia| |done]. apply u64_range.
Qed.

(** ** The tables *)

(** The planner cuts a key at its first NUL, so that such a key could pass for
    another. *)
Lemma kv_agrees (a a' pos q : Z) (kv : ds4_kv) : Gguf.read_kv map a pos = Ok (kv, a', q) ->
  0 <= pos <= map_size map -> NUL ∉ kv_key kv -> PlanGguf.read_kv seek_max a (reader_at pos) = Ok (a', reader_at q).
Proof.
  intros E Hp Hn. revert E. unfold Gguf.read_kv, PlanGguf.read_kv. destruct (cursor_string map pos) as [[key p1]|] eqn:E1; [|done].
  rewrite (gguf_string_agrees _ _ _ E1) by lia. apply cursor_string_ok in E1 as (len & _ & [Hl _] & _ & -> & H1); [|done|lia].
  destruct (cursor_u32 map (pos + 8 + len)) as [[type p2]|] eqn:E2; [|done]. rewrite (u32_agrees _ _ _ E2) by lia.
  apply cursor_u32_ok in E2 as (-> & H2 & _ & _); [|done|lia].
  destruct (Gguf.skip_value 9 map (pos + 8 + len + 4) type) as [next|] eqn:E3; [|done]. intros [= <- <- <-]. cbn [kv_key] in Hn.
  rewrite (c_str_id _ Hn). change (B "general.alignment") with general_alignment.
  change (type =? PlanGguf.GGUF_VALUE_UINT32) with (type =? Gguf.GGUF_VALUE_UINT32).
  destruct (str_eqb key general_alignment && (type =? Gguf.GGUF_VALUE_UINT32)) eqn:E.
  - apply andb_true_iff in E as [_ ->%Z.eqb_eq]. change 9%nat with (S 8) in E3. cbn [Gguf.skip_value] in E3.
    change (Gguf.scalar_value_size Gguf.GGUF_VALUE_UINT32) with 4 in E3. cbn [Z.eqb negb] in E3.
    assert (E4 : exists v, cursor_u32 map (pos + 8 + len + 4) = Ok (v, next)).
    { unfold cursor_skip in E3. unfold cursor_u32, cursor_read. destruct (cursor_has map (pos + 8 + len + 4) 4); [|done].
      cbn [negb] in *. injection E3 as ->. by eexists. }
    destruct E4 as [v E4]. rewrite E4. by rewrite (u32_agrees _ _ _ E4) by lia.
  - by rewrite (value_agrees 9 _ _ _ E3) by lia.
Qed.

Lemma kvs_agree (fuel : nat) : forall fuel' n a pos kvs a' q, Gguf.read_kvs fuel map n a pos = Ok (kvs, a', q) ->
  alignment_ok a -> 0 <= pos <= map_size map -> (Z.to_nat (map_size map - pos) < fuel')%nat ->
  Forall (fun kv => NUL ∉ kv_key kv) kvs -> PlanGguf.read_kvs seek_max fuel' n a (reader_at pos) = Ok (a', reader_at q).
Proof.
  induction fuel as [|fuel IH]; intros fuel' n a pos kvs a' q E Ha Hp Hf Hn; (destruct fuel' as [|fuel']; [lia|]);
    cbn [Gguf.read_kvs PlanGguf.read_kvs] in *; destruct (n <=? 0); try done; try (by injection E as _ -> ->).
  pose proof (read_kv_spec map Hsize a pos Ha Hp) as H1. destruct (Gguf.read_kv map a pos) as [[[kv a1] p1]|] eqn:E1; [|done].
  destruct H1 as (Hp1 & _ & Ha1). destruct (Gguf.read_kvs fuel map (n - 1) a1 p1) as [[[kvs' a2] p2]|] eqn:E2; [|done].
  injection E as <- -> ->. apply Forall_cons in Hn as [Hk Hn]. rewrite (kv_agrees _ _ _ _ _ E1 Hp Hk).
  apply (IH fuel' (n - 1) a1 p1 kvs'); [done|done|lia|lia|done].
Qed.

Lemma dims_agree (ndim : nat) : forall e pos ds e' q, Gguf.read_dims map ndim e pos = Ok (ds, e', q) -> is_u64 e -> 0 <= pos <= map_size map ->
  PlanGguf.read_dims ndim e (reader_at pos) = Ok (ds, e', reader_at q).
Proof.
  induction ndim as [|n IH]; intros e pos ds e' q E He Hp; cbn [Gguf.read_dims PlanGguf.read_dims] in *; [by injection E as <- <- <-|].
  destruct (cursor_u64 map pos) as [[d p1]|] eqn:E1; [|done]. rewrite (u64_agrees _ _ _ E1) by lia.
  apply cursor_u64_ok in E1 as (-> & H1 & _ & [Hd1 Hd2]); [|done|lia]. destruct He as [He1 He2].
  destruct (negb (d =? 0) && (UINT64_MAX / d <? e)) eqn:Eo; [done|].
  assert (Hed : e * d <= UINT64_MAX).
  { destruct (Z.eqb_spec d 0) as [->|Hd0]; [zlia|]. cbn [negb andb] in Eo. apply Z.ltb_ge in Eo. pose proof (Z.mul_div_le UINT64_MAX d). nia. }
  rewrite u64_small in E by (split; [nia|done]). rewrite checked_mul_ok by lia.
  destruct (Gguf.read_dims map n (e * d) (pos + 8)) as [[[ds' e2] q2]|] eqn:E2; [|done]. injection E as <- <- <-.
  rewrite (IH (e * d) (pos + 8) _ _ _ E2); [done|split; [nia|done]|lia].
Qed.

(** The planner's entry of a tensor of the library. *)
Definition planner_tensor (t : ds4_tensor) : tensor_desc :=
  TensorDesc (c_str (tensor_name t)) (tensor_dim t) (tensor_ty t) (tensor_rel_offset t) (tensor_abs_offset t) (tensor_elements t) (tensor_bytes t).

Lemma tensor_agrees (pos q : Z) (t : ds4_tensor) : Gguf.read_tensor map pos = Ok (t, q) ->
  0 <= pos <= map_size map -> (length (tensor_dim t) <= 4)%nat -> PlanGguf.read_tensor (reader_at pos) = Ok (planner_tensor t, reader_at q).
Proof.
  intros E Hp Hd. revert E. unfold Gguf.read_tensor, PlanGguf.read_tensor. destruct (cursor_string map pos) as [[name p1]|] eqn:E1; [|done].
  rewrite (gguf_string_agrees _ _ _ E1) by lia. apply cursor_string_ok in E1 as (len & _ & [Hl _] & _ & -> & H1); [|done|lia].
  destruct (cursor_u32 map (pos + 8 + len)) as [[ndim p2]|] eqn:E2; [|done]. rewrite (u32_agrees _ _ _ E2) by lia.
  apply cursor_u32_ok in E2 as (-> & H2 & _ & [Hnd _]); [|done|lia].
  destruct ((ndim =? 0) || (Gguf.DS4_MAX_DIMS <? ndim)) eqn:En; [done|]. apply orb_false_iff in En as [En _].
  pose proof (gguf_read_dims_spec map Hsize (Z.to_nat ndim) 1 (pos + 8 + len + 4) ltac:(zlia) ltac:(lia)) as H3.
  destruct (Gguf.read_dims map (Z.to_nat ndim) 1 (pos + 8 + len + 4)) as [[[ds e] p3]|] eqn:E3; [|done]. destruct H3 as (Hp3 & Hld & _).
  destruct (cursor_u32 map p3) as [[type p4]|] eqn:E4; [|done]. pose proof (u32_agrees _ _ _ E4 ltac:(lia)) as R4.
  apply cursor_u32_ok in E4 as (-> & H4 & _ & _); [|done|lia].
  destruct (cursor_u64 map (p3 + 4)) as [[rel p5]|] eqn:E5; [|done]. pose proof (u64_agrees _ _ _ E5 ltac:(lia)) as R5.
  intros [= <- <-]. cbn [tensor_dim] in Hd. rewrite En. unfold PlanGguf.DS4_MAX_DIMS. rewrite (proj2 (Z.ltb_ge _ _)) by lia. cbn [orb].
  rewrite (dims_agree _ 1 _ _ _ _ E3 ltac:(zlia) ltac:(lia)), R4, R5. unfold planner_tensor. cbn. by rewrite nbytes_agree.
Qed.

Lemma tensors_agree (fuel : nat) : forall fuel' n pos ts q, Gguf.read_tensors fuel map n pos = Ok (ts, q) ->
  0 <= pos <= map_size map -> (Z.to_nat (map_size map - pos) < fuel')%nat ->
  Forall (fun t => (length (tensor_dim t) <= 4)%nat) ts ->
  PlanGguf.read_tensors fuel' n (reader_at pos) = Ok (List.map planner_tensor ts, reader_at q).
Proof.
  induction fuel as [|fuel IH]; intros fuel' n pos ts q E Hp Hf Hd; (destruct fuel' as [|fuel']; [lia|]);
    cbn [Gguf.read_tensors PlanGguf.read_tensors] in *; destruct (n <=? 0); try done; try (by injection E as <- ->).
  pose proof (read_tensor_spec map Hsize pos Hp) as H1. destruct (Gguf.read_tensor map pos) as [[t p1]|] eqn:E1; [|done].
  destruct H1 as (Hp1 & _). destruct (Gguf.read_tensors fuel map (n - 1) p1) as [[ts' p2]|] eqn:E2; [|done].
  injection E as <- ->. apply Forall_cons in Hd as [Ht Hd]. rewrite (tensor_agrees _ _ _ E1 Hp Ht).
  by rewrite (IH fuel' (n - 1) p1 ts' _ E2 ltac:(lia) ltac:(lia) Hd).
Qed.

Lemma place_agrees (size pos : Z) (ts ts' : list ds4_tensor) :
  mapM_res (Gguf.place_tensor size pos) ts = Ok ts' ->
  mapM_res (PlanGguf.place_tensor size pos) (List.map planner_tensor ts) = Ok (List.map planner_tensor ts').
Proof.
  revert ts'. induction ts as [|t ts IH]; intros ts' E; cbn [mapM_res List.map] in *; [by injection E as <-|].
  unfold Gguf.place_tensor in E at 1. unfold PlanGguf.place_tensor at 1. cbn [planner_tensor rel_offset t_bytes t_name t_dim t_type elements].
  destruct (UINT64_MAX - pos <? tensor_rel_offset t); [done|]. destruct (negb (tensor_bytes t =? 0) && _); [done|].
  destruct (mapM_res _ ts) as [ts2|]; [|done]. injection E as <-. by rewrite (IH ts2 eq_refl).
Qed.
End Agree.

Lemma placed_dims (size pos : Z) (ts ts' : list ds4_tensor) : mapM_res (Gguf.place_tensor size pos) ts = Ok ts' ->
  List.map tensor_dim ts' = List.map tensor_dim ts.
Proof.
  intros E%mapM_res_inv. induction E as [|t t' ts ts' Ht _ IH]; [done|]. cbn [List.map]. rewrite IH. f_equal.
  unfold Gguf.place_tensor in Ht. destruct (_ <? _); [done|]. destruct (_ && _); [done|]. by injection Ht as <-.
Qed.

(** What the planner makes of a model. *)
Definition planner_inventory (m : ds4_model) : gguf_inventory :=
  Inventory (model_version m) (Z.of_nat (length (model_kv m))) (Z.of_nat (length (model_tensors m))) (model_size m)
    (model_alignment m) (model_data_pos m) (map planner_tensor (model_tensors m)).

(** The model keys have no NUL and its tensors at most the four dimensions
    the planner knows. *)
Definition plannable (m : ds4_model) : Prop :=
  Forall (fun kv => NUL ∉ kv_key kv) (model_kv m) /\ Forall (fun t => (length (tensor_dim t) <= 4)%nat) (model_tensors m).

Lemma parse_agrees `{Allocator} (seek_max : Z) (map : bytes) (m : ds4_model) : (forall n, malloc_ok n = true) ->
  map_size map <= INT64_MAX -> map_size map <= seek_max -> model_parse map = Ok m -> plannable m ->
  parse_gguf_data seek_max (map_size map) map = Ok (planner_inventory m).
Proof.
  intros Hmal Hs Hk Em [Hkeys Hdims]. revert Em. unfold model_parse, parse_gguf_data. change (Reader map 0) with (reader_at map 0).
  pose proof (size_nonneg map) as H0.
  destruct (cursor_u32 map 0) as [[magic p1]|] eqn:E1; [|done]. rewrite (u32_agrees map Hs _ _ _ E1) by done.
  apply cursor_u32_ok in E1 as (-> & H1 & _ & _); [|done..]. destruct (magic =? Gguf.DS4_GGUF_MAGIC) eqn:Emg; [cbn [negb]|done].
  change (magic =? PlanGguf.DS4_GGUF_MAGIC) with (magic =? Gguf.DS4_GGUF_MAGIC). rewrite Emg. cbn [negb].
  destruct (cursor_u32 map (0 + 4)) as [[version p2]|] eqn:E2; [|done]. rewrite (u32_agrees map Hs _ _ _ E2) by done.
  apply cursor_u32_ok in E2 as (-> & H2 & _ & _); [|done..].
  destruct (cursor_u64 map (0 + 4 + 4)) as [[nt p3]|] eqn:E3; [|done]. rewrite (u64_agrees map Hs _ _ _ E3) by done.
  apply cursor_u64_ok in E3 as (-> & H3 & _ & [Hnt _]); [|done..].
  destruct (cursor_u64 map (0 + 4 + 4 + 8)) as [[nk p4]|] eqn:E4; [|done]. rewrite (u64_agrees map Hs _ _ _ E4) by done.
  apply cursor_u64_ok in E4 as (-> & H4 & _ & [Hnk _]); [|done..].
  destruct (Z.eqb_spec version 3) as [->|]; [cbn [negb]|done].
  unfold parse_metadata, parse_tensors. destruct (calloc_ok nk _); [cbn [negb]|done].
  assert (A0 : alignment_ok 32) by (unfold alignment_ok; zlia).
  pose proof (gguf_read_kvs_spec map Hs (S (length map)) nk 32 (0 + 4 + 4 + 8 + 8) A0 ltac:(lia) ltac:(unfold map_size; lia)) as H5.
  destruct (Gguf.read_kvs _ map nk 32 _) as [[[kvs a] p5]|] eqn:E5; [|done]. destruct H5 as (Hp5 & _ & Ha & Hlk).
  destruct (calloc_ok nt sizeof_ds4_tensor) eqn:Ec; [cbn [negb]|done].
  pose proof (gguf_read_tensors_spec map Hs (S (length map)) nt p5 ltac:(lia) ltac:(unfold map_size; lia)) as H6.
  destruct (Gguf.read_tensors _ map nt p5) as [[ts p6]|] eqn:E6; [|done]. destruct H6 as (Hp6 & _ & Hlt).
  destruct (mapM_res _ ts) as [ts'|] eqn:E7; [|done]. intros [= <-]. cbn [model_kv model_tensors] in *.
  pose proof (rest_length map (0 + 4 + 4 + 8 + 8) ltac:(lia)) as R4. pose proof (rest_length map p5 ltac:(lia)) as R5.
  rewrite (kvs_agree Hmal seek_max map Hs Hk _ _ _ _ _ _ _ _ E5); [|done|lia|cbn [r_rest reader_at]; lia|done].
  unfold calloc_ok in *. rewrite Hmal, andb_true_r in *. apply Z.leb_le in Ec. unfold sizeof_ds4_tensor, sizeof_tensor_desc in *.
  rewrite (proj2 (Z.leb_le _ _)) by lia. cbn [negb].
  assert (Hd : Forall (fun t => (length (tensor_dim t) <= 4)%nat) ts).
  { apply (Forall_map tensor_dim (fun d => (length d <= 4)%nat)). change (tensor_dim <$> ts) with (List.map tensor_dim ts).
    rewrite <- (placed_dims _ _ _ _ E7). by apply (Forall_map tensor_dim (fun d => (length d <= 4)%nat)). }
  rewrite (tensors_agree Hmal map Hs _ _ _ _ _ _ E6); [|lia|cbn [r_rest reader_at]; lia|done].
  cbn [r_pos reader_at]. rewrite align_up_rounds by (destruct Ha; zlia). rewrite <- (align_up_aligned p6 a ltac:(lia) Ha).
  rewrite (place_agrees _ _ _ _ E7). unfold planner_inventory. cbn. do 2 f_equal; [lia|].
  apply mapM_res_inv, Forall2_length in E7. lia.
Qed.

(** C28 The planner and the library read the same model, as far as the planner
    can read it: for a file that the library opens and that is [plannable] - no
    metadata key holds a NUL and no tensor has more than four dimensions - the
    inventory the planner makes of it has the same version, counts, alignment
    and data position and, for every tensor, the same shape, type, size and
    place.  The library opens tensors of up to eight dimensions; on those the
    planner exits ([five_dimensions]).  Memory does not run out, and the file
    fits the planner's seeks. *)
Theorem planner_reads_opened_models `{Allocator} (path path' : bytes) (f : gguf_file) (m : ds4_model) :
  (forall n, malloc_ok n = true) -> gf_open f = true -> gf_stat f = Some (map_size (gf_data f)) ->
  map_size (gf_data f) <= INT64_MAX -> map_size (gf_data f) <= gf_seek_max f ->
  model_open path (Mapped (gf_data f)) = Ok m -> plannable m -> parse_gguf path' f = Ok (planner_inventory m).
Proof.
  intros Hmal Ho Hst Hs Hk Em Hp. unfold parse_gguf. rewrite Hst, Ho. cbn [negb].
  pose proof (size_nonneg (gf_data f)). rewrite u64_small by zlia. unfold model_open in Em. destruct (_ <? 32); [done|].
  by apply parse_agrees.
Qed.

Definition example_file : gguf_file :=
  let data := put_header example_kvs ex_tensors ++ replicate 400 NUL in GgufFile (Some (map_size data)) true data (2 ^ 44) [].

Lemma planner_reads_opened_models_witness :
  @parse_gguf unlimited (B "plan") example_file = Ok (planner_inventory (written_model example_kvs ex_tensors (replicate 400 NUL))).
Proof.
  refine (@planner_reads_opened_models unlimited (B "m.gguf") (B "plan") example_file _ _ _ _ _ _ _ _).
  - intros n. reflexivity.
  - reflexivity.
  - reflexivity.
  - vm_compute. discriminate.
  - vm_compute. discriminate.
  - exact (@model_open_written unlimited (B "m.gguf") example_kvs ex_tensors (replicate 400 NUL) (fun n => eq_refl) example_writable
      ltac:(vm_compute; discriminate) ltac:(vm_compute; discriminate)).
  - split; apply (bool_decide_unpack _); vm_compute; reflexivity.
Defined.

(** A tensor of five dimensions: the library opens the file, the planner
    exits. *)
Definition five_data : bytes := put_header [] [HeaderTensor (B "t") [1; 1; 1; 1; 2] 0 0] ++ replicate 64 NUL.

Example five_dimensions :
  match @model_open unlimited (B "m.gguf") (Mapped five_data) with Ok m => map tensor_dim (model_tensors m) | Error _ => [] end = [[1; 1; 1; 1; 2]] /\
  match @parse_gguf unlimited (B "plan") (GgufFile (Some (map_size five_data)) true five_data (2 ^ 44) []) with
  | Error (Exit 1 _) => True | _ => False end.
Proof. split; vm_compute; [reflexivity|exact I]. Qed.
