(* ===== verification/Weights.v ===== *)
(** * Weights of a model (ds4.c)

    [weights_bind]: the tensors of a model under the names of its layout
    become the fields of [ds4_weights], and the layout check that the rest of
    the library relies on.  A pointer into the tensor table is the tensor, a
    null pointer [None]; the table does not change after opening.  The same
    for the weights of a multi-token-prediction sidecar. *)
From S2P Require Import Prelude.
From S2P Require Import CNum.
From S2P Require Import Gguf.

Definition die_fmt {A} (fmt : string) (args : list farg) : pres A := Error (Exit 1 (Diag fmt args)).

(** ** The fixed shape *)

Definition DS4_N_LAYER : Z := 43.
Definition DS4_N_EMBD : Z := 4096.
Definition DS4_N_VOCAB : Z := 129280.
Definition DS4_N_HEAD : Z := 64.
Definition DS4_N_HEAD_KV : Z := 1.
Definition DS4_N_HEAD_DIM : Z := 512.
Definition DS4_N_VALUE_DIM : Z := 512.
Definition DS4_N_ROT : Z := 64.
Definition DS4_N_OUT_GROUP : Z := 8.
Definition DS4_N_LORA_Q : Z := 1024.
Definition DS4_N_LORA_O : Z := 1024.
Definition DS4_N_EXPERT : Z := 256.
Definition DS4_N_EXPERT_USED : Z := 6.
Definition DS4_N_EXPERT_SHARED : Z := 1.
Definition DS4_N_FF_EXP : Z := 2048.
Definition DS4_N_HASH_LAYER : Z := 3.
Definition DS4_N_SWA : Z := 128.
Definition DS4_N_INDEXER_HEAD : Z := 64.
Definition DS4_N_INDEXER_HEAD_DIM : Z := 128.
Definition DS4_N_INDEXER_TOP_K : Z := 512.
Definition DS4_N_HC : Z := 4.
Definition DS4_N_HC_SINKHORN_ITER : Z := 20.

Definition DS4_TENSOR_F32 : Z := 0.
Definition DS4_TENSOR_F16 : Z := 1.
Definition DS4_TENSOR_Q8_0 : Z := 8.
Definition DS4_TENSOR_Q2_K : Z := 10.
Definition DS4_TENSOR_Q4_K : Z := 12.
Definition DS4_TENSOR_IQ2_XXS : Z := 16.
Definition DS4_TENSOR_I32 : Z := 26.
Definition DS4_TENSOR_BF16 : Z := 30.
Definition DS4_TENSOR_MXFP4 : Z := 39.
Definition DS4_TENSOR_F8_E4M3_B128 : Z := 42.

Definition ds4_layer_compress_ratio (il : Z) : pres Z :=
  if DS4_N_LAYER <=? il then ds4_die (B "DeepSeek4 layer index is outside the fixed model layout")
  else if il <? 2 then Ok 0
  else if Z.land il 1 =? 0 then Ok 4 else Ok 128.

(** ** Looking tensors up *)

Definition required_tensor (m : ds4_model) (name : bytes) : pres ds4_tensor :=
  match model_find_tensor m name with
  | Some t => Ok t
  | None => die_fmt "ds4: required tensor is missing: %s\n" [AS name]
  end.

(** The name that the format [blk.%u] followed by [suffix] gives for a layer. *)
Definition blk_name (suffix : string) (layer : Z) : bytes := B "blk." ++ print_u64 layer ++ B suffix.

Definition tensor_by_namef (m : ds4_model) (suffix : string) (layer : Z) : pres (option ds4_tensor) :=
  let name := blk_name suffix layer in
  if 128 <=? Z.of_nat (length name) then ds4_die (B "tensor name is too long") else Ok (model_find_tensor m name).

Definition required_tensorf (m : ds4_model) (suffix : string) (layer : Z) : pres ds4_tensor :=
  let name := blk_name suffix layer in
  if 128 <=? Z.of_nat (length name) then ds4_die (B "tensor name is too long") else required_tensor m name.

(** ** Layout checks *)

Definition dim_error (t : ds4_tensor) (i d want : Z) : pres unit :=
  die_fmt "ds4: tensor %.*s has dim[%u]=%llu, expected %llu\n" [AS (tensor_name t); AZ i; AZ d; AZ want].

(** The loop over the dimensions, from dimension [i]. *)
Fixpoint expect_dims (t : ds4_tensor) (i : Z) (dims want : list Z) : pres unit :=
  match dims, want with
  | d :: dims, w :: want => if d =? w then expect_dims t (i + 1) dims want else dim_error t i d w
  | _, _ => Ok tt
  end.

Definition expect_ndim (t : ds4_tensor) (ndim : nat) (d0 d1 d2 : Z) : pres unit :=
  if negb (tensor_ndim t =? Z.of_nat ndim)
  then die_fmt "ds4: tensor %.*s has %u dimensions, expected %u\n" [AS (tensor_name t); AZ (tensor_ndim t); AZ (Z.of_nat ndim)]
  else expect_dims t 0 (tensor_dim t) (take ndim [d0; d1; d2]).

Definition tensor_expect_layout (t : option ds4_tensor) (type : Z) (ndim : nat) (d0 d1 d2 : Z) : pres unit :=
  match t with
  | None => ds4_die (B "internal error: missing tensor while validating layout")
  | Some t =>
      if negb (tensor_ty t =? type)
      then die_fmt "ds4: tensor %.*s has type %s, expected %s\n"
             [AS (tensor_name t); AS (tensor_type_name (tensor_ty t)); AS (tensor_type_name type)]
      else expect_ndim t ndim d0 d1 d2
  end.

Definition tensor_expect_optional (t : option ds4_tensor) (type : Z) (ndim : nat) (d0 d1 d2 : Z) : pres unit :=
  match t with Some _ => tensor_expect_layout t type ndim d0 d1 d2 | None => Ok tt end.

Definition tensor_expect_plain_layout (t : option ds4_tensor) (ndim : nat) (d0 d1 d2 : Z) : pres unit :=
  match t with
  | None => ds4_die (B "internal error: missing tensor while validating layout")
  | Some t' =>
      if negb (tensor_ty t' =? DS4_TENSOR_F16) && negb (tensor_ty t' =? DS4_TENSOR_F32)
      then die_fmt "ds4: tensor %.*s has type %s, expected F16 or F32\n" [AS (tensor_name t'); AS (tensor_type_name (tensor_ty t'))]
      else tensor_expect_layout t (tensor_ty t') ndim d0 d1 d2
  end.

Definition tensor_is_routed_expert_type (type : Z) : bool :=
  (type =? DS4_TENSOR_IQ2_XXS) || (type =? DS4_TENSOR_Q2_K) || (type =? DS4_TENSOR_Q4_K) || (type =? DS4_TENSOR_MXFP4).

(** Reading the type through a null pointer is undefined. *)
Definition null_tensor {A} : pres A := Error (Undefined "null tensor").

Definition tensor_expect_routed_expert (t : option ds4_tensor) (ndim : nat) (d0 d1 d2 : Z) : pres unit :=
  match t with
  | None => null_tensor
  | Some t =>
      if negb (tensor_is_routed_expert_type (tensor_ty t))
      then die_fmt "ds4: tensor %.*s has type %u (%s), expected a routed expert quant type\n"
             [AS (tensor_name t); AZ (tensor_ty t); AS (tensor_type_name (tensor_ty t))]
      else expect_ndim t ndim d0 d1 d2
  end.

Definition routed_expert_block_bytes (type : Z) : pres Z :=
  if type =? DS4_TENSOR_IQ2_XXS then Ok 66
  else if type =? DS4_TENSOR_Q2_K then Ok 84
  else if type =? DS4_TENSOR_Q4_K then Ok 144
  else if type =? DS4_TENSOR_MXFP4 then Ok 17
  else ds4_die (B "unsupported routed expert tensor type").

Definition QK_K : Z := 256.

Definition routed_expert_row_bytes (t : ds4_tensor) : pres Z :=
  let d0 := nth 0 (tensor_dim t) 0 in
  if negb (d0 mod QK_K =? 0) then ds4_die (B "routed expert row is not QK_K aligned")
  else block <- routed_expert_block_bytes (tensor_ty t) ;; Ok (u64 (d0 / QK_K * block)).

(** ** The weights *)

Record ds4_layer_weights := LayerWeights {
  hc_attn_fn : option ds4_tensor;
  hc_attn_scale : option ds4_tensor;
  hc_attn_base : option ds4_tensor;
  attn_norm : option ds4_tensor;
  attn_q_a : option ds4_tensor;
  attn_q_a_norm : option ds4_tensor;
  attn_q_b : option ds4_tensor;
  attn_kv : option ds4_tensor;
  attn_kv_a_norm : option ds4_tensor;
  attn_sinks : option ds4_tensor;
  attn_output_a : option ds4_tensor;
  attn_output_b : option ds4_tensor;
  attn_compressor_ape : option ds4_tensor;
  attn_compressor_kv : option ds4_tensor;
  attn_compressor_gate : option ds4_tensor;
  attn_compressor_norm : option ds4_tensor;
  indexer_attn_q_b : option ds4_tensor;
  indexer_proj : option ds4_tensor;
  indexer_compressor_ape : option ds4_tensor;
  indexer_compressor_kv : option ds4_tensor;
  indexer_compressor_gate : option ds4_tensor;
  indexer_compressor_norm : option ds4_tensor;
  hc_ffn_fn : option ds4_tensor;
  hc_ffn_scale : option ds4_tensor;
  hc_ffn_base : option ds4_tensor;
  ffn_norm : option ds4_tensor;
  ffn_gate_tid2eid : option ds4_tensor;
  ffn_gate_inp : option ds4_tensor;
  ffn_exp_probs_b : option ds4_tensor;
  ffn_gate_exps : option ds4_tensor;
  ffn_up_exps : option ds4_tensor;
  ffn_down_exps : option ds4_tensor;
  ffn_gate_shexp : option ds4_tensor;
  ffn_up_shexp : option ds4_tensor;
  ffn_down_shexp : option ds4_tensor
}.

Record ds4_weights := Weights {
  token_embd : option ds4_tensor;
  output_hc_base : option ds4_tensor;
  output_hc_fn : option ds4_tensor;
  output_hc_scale : option ds4_tensor;
  output_norm : option ds4_tensor;
  output : option ds4_tensor;
  layer : list ds4_layer_weights;
  v100_source_layout : bool
}.

Definition layers : list Z := map Z.of_nat (seq 0 (Z.to_nat DS4_N_LAYER)).

(** [if (b) { ... }] around a check, around a binding, and a binding. *)
Definition when (b : bool) (e : pres unit) : pres unit := if b then e else Ok tt.
Definition bound (e : pres ds4_tensor) : pres (option ds4_tensor) := t <- e ;; Ok (Some t).
Definition bound_if (b : bool) (e : pres ds4_tensor) : pres (option ds4_tensor) := if b then bound e else Ok None.

(** The loop over the layers of a layout check. *)
Definition each_layer (check : Z -> ds4_layer_weights -> pres unit) (ls : list ds4_layer_weights) : pres unit :=
  rfold (fun _ p => check (fst p) (snd p)) tt (combine layers ls).

Definition same_type (a b : option ds4_tensor) (error : pres unit) : pres unit :=
  match a, b with
  | Some a, Some b => if tensor_ty a =? tensor_ty b then Ok tt else error
  | _, _ => null_tensor
  end.

Fixpoint all_mxfp4 (ts : list (option ds4_tensor)) (error : pres unit) : pres unit :=
  match ts with
  | [] => Ok tt
  | None :: _ => null_tensor
  | Some t :: ts => if tensor_ty t =? DS4_TENSOR_MXFP4 then all_mxfp4 ts error else error
  end.

Definition weights_validate_layout_layer (il : Z) (l : ds4_layer_weights) : pres unit :=
  let hc_dim := DS4_N_EMBD * DS4_N_HC in
  let hc_mix_dim := 2 * DS4_N_HC + DS4_N_HC * DS4_N_HC in
  let q_dim := DS4_N_HEAD * DS4_N_HEAD_DIM in
  let out_low_dim := DS4_N_OUT_GROUP * DS4_N_LORA_O in
  ratio <- ds4_layer_compress_ratio il ;;
  let comp_width := (if ratio =? 4 then 2 else 1) * DS4_N_HEAD_DIM in
  let index_q_dim := DS4_N_INDEXER_HEAD * DS4_N_INDEXER_HEAD_DIM in
  let index_width := 2 * DS4_N_INDEXER_HEAD_DIM in
  tensor_expect_layout (hc_attn_fn l) DS4_TENSOR_F16 2 hc_dim hc_mix_dim 0 ;;
  tensor_expect_layout (hc_attn_scale l) DS4_TENSOR_F32 1 3 0 0 ;;
  tensor_expect_layout (hc_attn_base l) DS4_TENSOR_F32 1 hc_mix_dim 0 0 ;;
  tensor_expect_layout (attn_norm l) DS4_TENSOR_F32 1 DS4_N_EMBD 0 0 ;;
  tensor_expect_layout (attn_q_a l) DS4_TENSOR_Q8_0 2 DS4_N_EMBD DS4_N_LORA_Q 0 ;;
  tensor_expect_layout (attn_q_a_norm l) DS4_TENSOR_F32 1 DS4_N_LORA_Q 0 0 ;;
  tensor_expect_layout (attn_q_b l) DS4_TENSOR_Q8_0 2 DS4_N_LORA_Q q_dim 0 ;;
  tensor_expect_layout (attn_kv l) DS4_TENSOR_Q8_0 2 DS4_N_EMBD DS4_N_HEAD_DIM 0 ;;
  tensor_expect_layout (attn_kv_a_norm l) DS4_TENSOR_F32 1 DS4_N_HEAD_DIM 0 0 ;;
  tensor_expect_layout (attn_sinks l) DS4_TENSOR_F32 1 DS4_N_HEAD 0 0 ;;
  tensor_expect_layout (attn_output_a l) DS4_TENSOR_Q8_0 2 (DS4_N_HEAD_DIM * (DS4_N_HEAD / DS4_N_OUT_GROUP)) out_low_dim 0 ;;
  tensor_expect_layout (attn_output_b l) DS4_TENSOR_Q8_0 2 out_low_dim DS4_N_EMBD 0 ;;
  when (negb (ratio =? 0)) (tensor_expect_layout (attn_compressor_ape l) DS4_TENSOR_F16 2 comp_width ratio 0) ;;
  when (negb (ratio =? 0)) (tensor_expect_layout (attn_compressor_kv l) DS4_TENSOR_F16 2 DS4_N_EMBD comp_width 0) ;;
  when (negb (ratio =? 0)) (tensor_expect_layout (attn_compressor_gate l) DS4_TENSOR_F16 2 DS4_N_EMBD comp_width 0) ;;
  when (negb (ratio =? 0)) (tensor_expect_layout (attn_compressor_norm l) DS4_TENSOR_F32 1 DS4_N_HEAD_DIM 0 0) ;;
  when (ratio =? 4) (tensor_expect_layout (indexer_attn_q_b l) DS4_TENSOR_F16 2 DS4_N_LORA_Q index_q_dim 0) ;;
  when (ratio =? 4) (tensor_expect_layout (indexer_proj l) DS4_TENSOR_F16 2 DS4_N_EMBD DS4_N_INDEXER_HEAD 0) ;;
  when (ratio =? 4) (tensor_expect_layout (indexer_compressor_ape l) DS4_TENSOR_F16 2 index_width ratio 0) ;;
  when (ratio =? 4) (tensor_expect_layout (indexer_compressor_kv l) DS4_TENSOR_F16 2 DS4_N_EMBD index_width 0) ;;
  when (ratio =? 4) (tensor_expect_layout (indexer_compressor_gate l) DS4_TENSOR_F16 2 DS4_N_EMBD index_width 0) ;;
  when (ratio =? 4) (tensor_expect_layout (indexer_compressor_norm l) DS4_TENSOR_F32 1 DS4_N_INDEXER_HEAD_DIM 0 0) ;;
  tensor_expect_layout (hc_ffn_fn l) DS4_TENSOR_F16 2 hc_dim hc_mix_dim 0 ;;
  tensor_expect_layout (hc_ffn_scale l) DS4_TENSOR_F32 1 3 0 0 ;;
  tensor_expect_layout (hc_ffn_base l) DS4_TENSOR_F32 1 hc_mix_dim 0 0 ;;
  tensor_expect_layout (ffn_norm l) DS4_TENSOR_F32 1 DS4_N_EMBD 0 0 ;;
  tensor_expect_layout (ffn_gate_inp l) DS4_TENSOR_F16 2 DS4_N_EMBD DS4_N_EXPERT 0 ;;
  tensor_expect_optional (ffn_exp_probs_b l) DS4_TENSOR_F32 1 DS4_N_EXPERT 0 0 ;;
  tensor_expect_routed_expert (ffn_gate_exps l) 3 DS4_N_EMBD DS4_N_FF_EXP DS4_N_EXPERT ;;
  tensor_expect_routed_expert (ffn_up_exps l) 3 DS4_N_EMBD DS4_N_FF_EXP DS4_N_EXPERT ;;
  tensor_expect_routed_expert (ffn_down_exps l) 3 DS4_N_FF_EXP DS4_N_EMBD DS4_N_EXPERT ;;
  same_type (ffn_gate_exps l) (ffn_up_exps l) (die_fmt "ds4: routed gate/up experts use different quant types in layer %u\n" [AZ il]) ;;
  tensor_expect_layout (ffn_gate_shexp l) DS4_TENSOR_Q8_0 2 DS4_N_EMBD DS4_N_FF_EXP 0 ;;
  tensor_expect_layout (ffn_up_shexp l) DS4_TENSOR_Q8_0 2 DS4_N_EMBD DS4_N_FF_EXP 0 ;;
  tensor_expect_layout (ffn_down_shexp l) DS4_TENSOR_Q8_0 2 DS4_N_FF_EXP DS4_N_EMBD 0 ;;
  when (il <? DS4_N_HASH_LAYER) (tensor_expect_layout (ffn_gate_tid2eid l) DS4_TENSOR_I32 2 DS4_N_EXPERT_USED DS4_N_VOCAB 0).

Definition weights_validate_layout (w : ds4_weights) : pres unit :=
  let hc_dim := DS4_N_EMBD * DS4_N_HC in
  tensor_expect_layout (token_embd w) DS4_TENSOR_F16 2 DS4_N_EMBD DS4_N_VOCAB 0 ;;
  tensor_expect_layout (output_hc_base w) DS4_TENSOR_F32 1 DS4_N_HC 0 0 ;;
  tensor_expect_layout (output_hc_fn w) DS4_TENSOR_F16 2 hc_dim DS4_N_HC 0 ;;
  tensor_expect_layout (output_hc_scale w) DS4_TENSOR_F32 1 1 0 0 ;;
  tensor_expect_layout (output_norm w) DS4_TENSOR_F32 1 DS4_N_EMBD 0 0 ;;
  tensor_expect_layout (output w) DS4_TENSOR_Q8_0 2 DS4_N_EMBD DS4_N_VOCAB 0 ;;
  each_layer weights_validate_layout_layer (layer w).

Definition weights_validate_v100_source_layout_layer (il : Z) (l : ds4_layer_weights) : pres unit :=
  let hc_dim := DS4_N_EMBD * DS4_N_HC in
  let hc_mix_dim := 2 * DS4_N_HC + DS4_N_HC * DS4_N_HC in
  let q_dim := DS4_N_HEAD * DS4_N_HEAD_DIM in
  let out_low_dim := DS4_N_OUT_GROUP * DS4_N_LORA_O in
  ratio <- ds4_layer_compress_ratio il ;;
  let comp_width := (if ratio =? 4 then 2 else 1) * DS4_N_HEAD_DIM in
  let index_q_dim := DS4_N_INDEXER_HEAD * DS4_N_INDEXER_HEAD_DIM in
  let index_width := 2 * DS4_N_INDEXER_HEAD_DIM in
  tensor_expect_layout (hc_attn_fn l) DS4_TENSOR_F32 2 hc_dim hc_mix_dim 0 ;;
  tensor_expect_layout (hc_attn_scale l) DS4_TENSOR_F32 1 3 0 0 ;;
  tensor_expect_layout (hc_attn_base l) DS4_TENSOR_F32 1 hc_mix_dim 0 0 ;;
  tensor_expect_layout (attn_norm l) DS4_TENSOR_F32 1 DS4_N_EMBD 0 0 ;;
  tensor_expect_layout (attn_q_a l) DS4_TENSOR_F8_E4M3_B128 2 DS4_N_EMBD DS4_N_LORA_Q 0 ;;
  tensor_expect_layout (attn_q_a_norm l) DS4_TENSOR_F32 1 DS4_N_LORA_Q 0 0 ;;
  tensor_expect_layout (attn_q_b l) DS4_TENSOR_F8_E4M3_B128 2 DS4_N_LORA_Q q_dim 0 ;;
  tensor_expect_layout (attn_kv l) DS4_TENSOR_F8_E4M3_B128 2 DS4_N_EMBD DS4_N_HEAD_DIM 0 ;;
  tensor_expect_layout (attn_kv_a_norm l) DS4_TENSOR_F32 1 DS4_N_HEAD_DIM 0 0 ;;
  tensor_expect_layout (attn_sinks l) DS4_TENSOR_F32 1 DS4_N_HEAD 0 0 ;;
  tensor_expect_layout (attn_output_a l) DS4_TENSOR_F8_E4M3_B128 2 (DS4_N_HEAD_DIM * (DS4_N_HEAD / DS4_N_OUT_GROUP)) out_low_dim 0 ;;
  tensor_expect_layout (attn_output_b l) DS4_TENSOR_F8_E4M3_B128 2 out_low_dim DS4_N_EMBD 0 ;;
  when (negb (ratio =? 0)) (tensor_expect_layout (attn_compressor_ape l) DS4_TENSOR_F32 2 comp_width ratio 0) ;;
  when (negb (ratio =? 0)) (tensor_expect_layout (attn_compressor_kv l) DS4_TENSOR_BF16 2 DS4_N_EMBD comp_width 0) ;;
  when (negb (ratio =? 0)) (tensor_expect_layout (attn_compressor_gate l) DS4_TENSOR_BF16 2 DS4_N_EMBD comp_width 0) ;;
  when (negb (ratio =? 0)) (tensor_expect_layout (attn_compressor_norm l) DS4_TENSOR_F32 1 DS4_N_HEAD_DIM 0 0) ;;
  when (ratio =? 4) (tensor_expect_layout (indexer_attn_q_b l) DS4_TENSOR_F8_E4M3_B128 2 DS4_N_LORA_Q index_q_dim 0) ;;
  when (ratio =? 4) (tensor_expect_layout (indexer_proj l) DS4_TENSOR_BF16 2 DS4_N_EMBD DS4_N_INDEXER_HEAD 0) ;;
  when (ratio =? 4) (tensor_expect_layout (indexer_compressor_ape l) DS4_TENSOR_F32 2 index_width ratio 0) ;;
  when (ratio =? 4) (tensor_expect_layout (indexer_compressor_kv l) DS4_TENSOR_BF16 2 DS4_N_EMBD index_width 0) ;;
  when (ratio =? 4) (tensor_expect_layout (indexer_compressor_gate l) DS4_TENSOR_BF16 2 DS4_N_EMBD index_width 0) ;;
  when (ratio =? 4) (tensor_expect_layout (indexer_compressor_norm l) DS4_TENSOR_F32 1 DS4_N_INDEXER_HEAD_DIM 0 0) ;;
  tensor_expect_layout (hc_ffn_fn l) DS4_TENSOR_F32 2 hc_dim hc_mix_dim 0 ;;
  tensor_expect_layout (hc_ffn_scale l) DS4_TENSOR_F32 1 3 0 0 ;;
  tensor_expect_layout (hc_ffn_base l) DS4_TENSOR_F32 1 hc_mix_dim 0 0 ;;
  tensor_expect_layout (ffn_norm l) DS4_TENSOR_F32 1 DS4_N_EMBD 0 0 ;;
  tensor_expect_layout (ffn_gate_inp l) DS4_TENSOR_F32 2 DS4_N_EMBD DS4_N_EXPERT 0 ;;
  when (il <? DS4_N_HASH_LAYER) (tensor_expect_layout (ffn_gate_tid2eid l) DS4_TENSOR_I32 2 DS4_N_EXPERT_USED DS4_N_VOCAB 0) ;;
  when (negb (il <? DS4_N_HASH_LAYER)) (tensor_expect_layout (ffn_exp_probs_b l) DS4_TENSOR_F32 1 DS4_N_EXPERT 0 0) ;;
  tensor_expect_routed_expert (ffn_gate_exps l) 3 DS4_N_EMBD DS4_N_FF_EXP DS4_N_EXPERT ;;
  tensor_expect_routed_expert (ffn_up_exps l) 3 DS4_N_EMBD DS4_N_FF_EXP DS4_N_EXPERT ;;
  tensor_expect_routed_expert (ffn_down_exps l) 3 DS4_N_FF_EXP DS4_N_EMBD DS4_N_EXPERT ;;
  all_mxfp4 [ffn_gate_exps l; ffn_up_exps l; ffn_down_exps l] (die_fmt "ds4: source-routed experts in layer %u must be MXFP4\n" [AZ il]) ;;
  tensor_expect_layout (ffn_gate_shexp l) DS4_TENSOR_F8_E4M3_B128 2 DS4_N_EMBD DS4_N_FF_EXP 0 ;;
  tensor_expect_layout (ffn_up_shexp l) DS4_TENSOR_F8_E4M3_B128 2 DS4_N_EMBD DS4_N_FF_EXP 0 ;;
  tensor_expect_layout (ffn_down_shexp l) DS4_TENSOR_F8_E4M3_B128 2 DS4_N_FF_EXP DS4_N_EMBD 0.

Definition weights_validate_v100_source_layout (w : ds4_weights) : pres unit :=
  let hc_dim := DS4_N_EMBD * DS4_N_HC in
  tensor_expect_layout (token_embd w) DS4_TENSOR_BF16 2 DS4_N_EMBD DS4_N_VOCAB 0 ;;
  tensor_expect_layout (output_hc_base w) DS4_TENSOR_F32 1 DS4_N_HC 0 0 ;;
  tensor_expect_layout (output_hc_fn w) DS4_TENSOR_F32 2 hc_dim DS4_N_HC 0 ;;
  tensor_expect_layout (output_hc_scale w) DS4_TENSOR_F32 1 1 0 0 ;;
  tensor_expect_layout (output_norm w) DS4_TENSOR_F32 1 DS4_N_EMBD 0 0 ;;
  tensor_expect_layout (output w) DS4_TENSOR_BF16 2 DS4_N_EMBD DS4_N_VOCAB 0 ;;
  each_layer weights_validate_v100_source_layout_layer (layer w).

(** [!= NULL]. *)
Definition found (t : option ds4_tensor) : bool := if t then true else false.

Definition model_uses_v100_source_layout (m : ds4_model) : bool :=
  found (model_find_tensor m (B "hc_head_fn")) &&
  found (model_find_tensor m (B "blk.0.attn_kv_latent.weight")) &&
  found (model_find_tensor m (B "blk.0.ffn_gate_exps.weight")) &&
  match model_find_tensor m (B "output.weight") with Some t => tensor_ty t =? DS4_TENSOR_BF16 | None => false end.

Definition bind_layer (m : ds4_model) (v100_source_layout : bool) (il : Z) : pres ds4_layer_weights :=
  compress_ratio <- ds4_layer_compress_ratio il ;;
  v_hc_attn_fn <- bound (required_tensorf m (if v100_source_layout then ".hc_attn_fn" else ".hc_attn_fn.weight") il) ;;
  v_hc_attn_scale <- bound (required_tensorf m (if v100_source_layout then ".hc_attn_scale" else ".hc_attn_scale.weight") il) ;;
  v_hc_attn_base <- bound (required_tensorf m (if v100_source_layout then ".hc_attn_base" else ".hc_attn_base.weight") il) ;;
  v_attn_norm <- bound (required_tensorf m ".attn_norm.weight" il) ;;
  v_attn_q_a <- bound (required_tensorf m ".attn_q_a.weight" il) ;;
  v_attn_q_a_norm <- bound (required_tensorf m ".attn_q_a_norm.weight" il) ;;
  v_attn_q_b <- bound (required_tensorf m ".attn_q_b.weight" il) ;;
  v_attn_kv <- bound (required_tensorf m (if v100_source_layout then ".attn_kv_latent.weight" else ".attn_kv.weight") il) ;;
  v_attn_kv_a_norm <- bound (required_tensorf m ".attn_kv_a_norm.weight" il) ;;
  v_attn_sinks <- bound (required_tensorf m (if v100_source_layout then ".attn_sinks" else ".attn_sinks.weight") il) ;;
  v_attn_output_a <- bound (required_tensorf m ".attn_output_a.weight" il) ;;
  v_attn_output_b <- bound (required_tensorf m ".attn_output_b.weight" il) ;;
  v_attn_compressor_ape <- bound_if (negb (compress_ratio =? 0)) (required_tensorf m
    (if v100_source_layout then ".attn_compress_ape" else ".attn_compressor_ape.weight") il) ;;
  v_attn_compressor_kv <- bound_if (negb (compress_ratio =? 0)) (required_tensorf m
    (if v100_source_layout then ".attn_compress_kv.weight" else ".attn_compressor_kv.weight") il) ;;
  v_attn_compressor_gate <- bound_if (negb (compress_ratio =? 0)) (required_tensorf m
    (if v100_source_layout then ".attn_compress_gate.weight" else ".attn_compressor_gate.weight") il) ;;
  v_attn_compressor_norm <- bound_if (negb (compress_ratio =? 0)) (required_tensorf m
    (if v100_source_layout then ".attn_compress_norm.weight" else ".attn_compressor_norm.weight") il) ;;
  v_indexer_attn_q_b <- bound_if (compress_ratio =? 4) (required_tensorf m ".indexer.attn_q_b.weight" il) ;;
  v_indexer_proj <- bound_if (compress_ratio =? 4) (required_tensorf m ".indexer.proj.weight" il) ;;
  v_indexer_compressor_ape <- bound_if (compress_ratio =? 4) (required_tensorf m
    (if v100_source_layout then ".indexer.compress_ape" else ".indexer_compressor_ape.weight") il) ;;
  v_indexer_compressor_kv <- bound_if (compress_ratio =? 4) (required_tensorf m
    (if v100_source_layout then ".indexer.compress_kv.weight" else ".indexer_compressor_kv.weight") il) ;;
  v_indexer_compressor_gate <- bound_if (compress_ratio =? 4) (required_tensorf m
    (if v100_source_layout then ".indexer.compress_gate.weight" else ".indexer_compressor_gate.weight") il) ;;
  v_indexer_compressor_norm <- bound_if (compress_ratio =? 4) (required_tensorf m
    (if v100_source_layout then ".indexer.compress_norm.weight" else ".indexer_compressor_norm.weight") il) ;;
  v_hc_ffn_fn <- bound (required_tensorf m (if v100_source_layout then ".hc_ffn_fn" else ".hc_ffn_fn.weight") il) ;;
  v_hc_ffn_scale <- bound (required_tensorf m (if v100_source_layout then ".hc_ffn_scale" else ".hc_ffn_scale.weight") il) ;;
  v_hc_ffn_base <- bound (required_tensorf m (if v100_source_layout then ".hc_ffn_base" else ".hc_ffn_base.weight") il) ;;
  v_ffn_norm <- bound (required_tensorf m ".ffn_norm.weight" il) ;;
  v_ffn_gate_inp <- bound (required_tensorf m ".ffn_gate_inp.weight" il) ;;
  v_ffn_exp_probs_b <- tensor_by_namef m (if v100_source_layout then ".exp_probs_b" else ".exp_probs_b.bias") il ;;
  v_ffn_gate_exps <- bound (required_tensorf m ".ffn_gate_exps.weight" il) ;;
  v_ffn_up_exps <- bound (required_tensorf m ".ffn_up_exps.weight" il) ;;
  v_ffn_down_exps <- bound (required_tensorf m ".ffn_down_exps.weight" il) ;;
  v_ffn_gate_shexp <- bound (required_tensorf m ".ffn_gate_shexp.weight" il) ;;
  v_ffn_up_shexp <- bound (required_tensorf m ".ffn_up_shexp.weight" il) ;;
  v_ffn_down_shexp <- bound (required_tensorf m ".ffn_down_shexp.weight" il) ;;
  v_ffn_gate_tid2eid <- bound_if (il <? DS4_N_HASH_LAYER) (required_tensorf m
    (if v100_source_layout then ".ffn_gate_tid2eid" else ".ffn_gate_tid2eid.weight") il) ;;
  Ok (LayerWeights v_hc_attn_fn v_hc_attn_scale v_hc_attn_base v_attn_norm v_attn_q_a v_attn_q_a_norm v_attn_q_b v_attn_kv
    v_attn_kv_a_norm v_attn_sinks v_attn_output_a v_attn_output_b v_attn_compressor_ape v_attn_compressor_kv
    v_attn_compressor_gate v_attn_compressor_norm v_indexer_attn_q_b v_indexer_proj v_indexer_compressor_ape
    v_indexer_compressor_kv v_indexer_compressor_gate v_indexer_compressor_norm v_hc_ffn_fn v_hc_ffn_scale v_hc_ffn_base
    v_ffn_norm v_ffn_gate_tid2eid v_ffn_gate_inp v_ffn_exp_probs_b v_ffn_gate_exps v_ffn_up_exps v_ffn_down_exps
    v_ffn_gate_shexp v_ffn_up_shexp v_ffn_down_shexp).

Definition weights_bind (m : ds4_model) : pres ds4_weights :=
  let source := model_uses_v100_source_layout m in
  v_token_embd <- bound (required_tensor m (B "token_embd.weight")) ;;
  v_output_hc_base <- bound (required_tensor m (B (if source then "hc_head_base" else "output_hc_base.weight"))) ;;
  v_output_hc_fn <- bound (required_tensor m (B (if source then "hc_head_fn" else "output_hc_fn.weight"))) ;;
  v_output_hc_scale <- bound (required_tensor m (B (if source then "hc_head_scale" else "output_hc_scale.weight"))) ;;
  v_output_norm <- bound (required_tensor m (B "output_norm.weight")) ;;
  v_output <- bound (required_tensor m (B "output.weight")) ;;
  ls <- mapM_res (bind_layer m source) layers ;;
  let w := Weights v_token_embd v_output_hc_base v_output_hc_fn v_output_hc_scale v_output_norm v_output ls source in
  (if source then weights_validate_v100_source_layout w else weights_validate_layout w) ;; Ok w.

(** ** The weights of a sidecar *)

Record ds4_mtp_weights := MtpWeights {
  e_proj : option ds4_tensor;
  h_proj : option ds4_tensor;
  enorm : option ds4_tensor;
  hnorm : option ds4_tensor;
  norm : option ds4_tensor;
  hc_head_base : option ds4_tensor;
  hc_head_fn : option ds4_tensor;
  hc_head_scale : option ds4_tensor;
  block : ds4_layer_weights
}.

Definition mtp_weights_validate_layout (w : ds4_mtp_weights) : pres unit :=
  let hc_dim := DS4_N_EMBD * DS4_N_HC in
  let hc_mix_dim := 2 * DS4_N_HC + DS4_N_HC * DS4_N_HC in
  let q_dim := DS4_N_HEAD * DS4_N_HEAD_DIM in
  let out_low_dim := DS4_N_OUT_GROUP * DS4_N_LORA_O in
  let l := block w in
  tensor_expect_layout (hc_head_base w) DS4_TENSOR_F32 1 DS4_N_HC 0 0 ;;
  tensor_expect_plain_layout (hc_head_fn w) 2 hc_dim DS4_N_HC 0 ;;
  tensor_expect_layout (hc_head_scale w) DS4_TENSOR_F32 1 1 0 0 ;;
  tensor_expect_layout (e_proj w) DS4_TENSOR_Q8_0 2 DS4_N_EMBD DS4_N_EMBD 0 ;;
  tensor_expect_layout (h_proj w) DS4_TENSOR_Q8_0 2 DS4_N_EMBD DS4_N_EMBD 0 ;;
  tensor_expect_layout (enorm w) DS4_TENSOR_F32 1 DS4_N_EMBD 0 0 ;;
  tensor_expect_layout (hnorm w) DS4_TENSOR_F32 1 DS4_N_EMBD 0 0 ;;
  tensor_expect_layout (norm w) DS4_TENSOR_F32 1 DS4_N_EMBD 0 0 ;;
  tensor_expect_plain_layout (hc_attn_fn l) 2 hc_dim hc_mix_dim 0 ;;
  tensor_expect_layout (hc_attn_scale l) DS4_TENSOR_F32 1 3 0 0 ;;
  tensor_expect_layout (hc_attn_base l) DS4_TENSOR_F32 1 hc_mix_dim 0 0 ;;
  tensor_expect_layout (attn_norm l) DS4_TENSOR_F32 1 DS4_N_EMBD 0 0 ;;
  tensor_expect_layout (attn_q_a l) DS4_TENSOR_Q8_0 2 DS4_N_EMBD DS4_N_LORA_Q 0 ;;
  tensor_expect_layout (attn_q_a_norm l) DS4_TENSOR_F32 1 DS4_N_LORA_Q 0 0 ;;
  tensor_expect_layout (attn_q_b l) DS4_TENSOR_Q8_0 2 DS4_N_LORA_Q q_dim 0 ;;
  tensor_expect_layout (attn_kv l) DS4_TENSOR_Q8_0 2 DS4_N_EMBD DS4_N_HEAD_DIM 0 ;;
  tensor_expect_layout (attn_kv_a_norm l) DS4_TENSOR_F32 1 DS4_N_HEAD_DIM 0 0 ;;
  tensor_expect_layout (attn_sinks l) DS4_TENSOR_F32 1 DS4_N_HEAD 0 0 ;;
  tensor_expect_layout (attn_output_a l) DS4_TENSOR_Q8_0 2 (DS4_N_HEAD_DIM * (DS4_N_HEAD / DS4_N_OUT_GROUP)) out_low_dim 0 ;;
  tensor_expect_layout (attn_output_b l) DS4_TENSOR_Q8_0 2 out_low_dim DS4_N_EMBD 0 ;;
  tensor_expect_plain_layout (hc_ffn_fn l) 2 hc_dim hc_mix_dim 0 ;;
  tensor_expect_layout (hc_ffn_scale l) DS4_TENSOR_F32 1 3 0 0 ;;
  tensor_expect_layout (hc_ffn_base l) DS4_TENSOR_F32 1 hc_mix_dim 0 0 ;;
  tensor_expect_layout (ffn_norm l) DS4_TENSOR_F32 1 DS4_N_EMBD 0 0 ;;
  tensor_expect_plain_layout (ffn_gate_inp l) 2 DS4_N_EMBD DS4_N_EXPERT 0 ;;
  tensor_expect_layout (ffn_exp_probs_b l) DS4_TENSOR_F32 1 DS4_N_EXPERT 0 0 ;;
  tensor_expect_routed_expert (ffn_gate_exps l) 3 DS4_N_EMBD DS4_N_FF_EXP DS4_N_EXPERT ;;
  tensor_expect_routed_expert (ffn_up_exps l) 3 DS4_N_EMBD DS4_N_FF_EXP DS4_N_EXPERT ;;
  tensor_expect_routed_expert (ffn_down_exps l) 3 DS4_N_FF_EXP DS4_N_EMBD DS4_N_EXPERT ;;
  same_type (ffn_gate_exps l) (ffn_up_exps l) (ds4_die (B "MTP routed gate/up experts use different quant types")) ;;
  tensor_expect_layout (ffn_gate_shexp l) DS4_TENSOR_Q8_0 2 DS4_N_EMBD DS4_N_FF_EXP 0 ;;
  tensor_expect_layout (ffn_up_shexp l) DS4_TENSOR_Q8_0 2 DS4_N_EMBD DS4_N_FF_EXP 0 ;;
  tensor_expect_layout (ffn_down_shexp l) DS4_TENSOR_Q8_0 2 DS4_N_FF_EXP DS4_N_EMBD 0.

Definition mtp_weights_bind (m : ds4_model) : pres ds4_mtp_weights :=
  v_hc_head_base <- bound (required_tensor m (B "mtp.0.hc_head_base.weight")) ;;
  v_hc_head_fn <- bound (required_tensor m (B "mtp.0.hc_head_fn.weight")) ;;
  v_hc_head_scale <- bound (required_tensor m (B "mtp.0.hc_head_scale.weight")) ;;
  v_e_proj <- bound (required_tensor m (B "mtp.0.e_proj.weight")) ;;
  v_h_proj <- bound (required_tensor m (B "mtp.0.h_proj.weight")) ;;
  v_enorm <- bound (required_tensor m (B "mtp.0.enorm.weight")) ;;
  v_hnorm <- bound (required_tensor m (B "mtp.0.hnorm.weight")) ;;
  v_norm <- bound (required_tensor m (B "mtp.0.norm.weight")) ;;
  v_hc_attn_fn <- bound (required_tensor m (B "mtp.0.hc_attn_fn.weight")) ;;
  v_hc_attn_scale <- bound (required_tensor m (B "mtp.0.hc_attn_scale.weight")) ;;
  v_hc_attn_base <- bound (required_tensor m (B "mtp.0.hc_attn_base.weight")) ;;
  v_attn_norm <- bound (required_tensor m (B "mtp.0.attn_norm.weight")) ;;
  v_attn_q_a <- bound (required_tensor m (B "mtp.0.attn_q_a.weight")) ;;
  v_attn_q_a_norm <- bound (required_tensor m (B "mtp.0.attn_q_a_norm.weight")) ;;
  v_attn_q_b <- bound (required_tensor m (B "mtp.0.attn_q_b.weight")) ;;
  v_attn_kv <- bound (required_tensor m (B "mtp.0.attn_kv.weight")) ;;
  v_attn_kv_a_norm <- bound (required_tensor m (B "mtp.0.attn_kv_a_norm.weight")) ;;
  v_attn_sinks <- bound (required_tensor m (B "mtp.0.attn_sinks.weight")) ;;
  v_attn_output_a <- bound (required_tensor m (B "mtp.0.attn_output_a.weight")) ;;
  v_attn_output_b <- bound (required_tensor m (B "mtp.0.attn_output_b.weight")) ;;
  v_hc_ffn_fn <- bound (required_tensor m (B "mtp.0.hc_ffn_fn.weight")) ;;
  v_hc_ffn_scale <- bound (required_tensor m (B "mtp.0.hc_ffn_scale.weight")) ;;
  v_hc_ffn_base <- bound (required_tensor m (B "mtp.0.hc_ffn_base.weight")) ;;
  v_ffn_norm <- bound (required_tensor m (B "mtp.0.ffn_norm.weight")) ;;
  v_ffn_gate_inp <- bound (required_tensor m (B "mtp.0.ffn_gate_inp.weight")) ;;
  v_ffn_exp_probs_b <- bound (required_tensor m (B "mtp.0.exp_probs_b.bias")) ;;
  v_ffn_gate_exps <- bound (required_tensor m (B "mtp.0.ffn_gate_exps.weight")) ;;
  v_ffn_up_exps <- bound (required_tensor m (B "mtp.0.ffn_up_exps.weight")) ;;
  v_ffn_down_exps <- bound (required_tensor m (B "mtp.0.ffn_down_exps.weight")) ;;
  v_ffn_gate_shexp <- bound (required_tensor m (B "mtp.0.ffn_gate_shexp.weight")) ;;
  v_ffn_up_shexp <- bound (required_tensor m (B "mtp.0.ffn_up_shexp.weight")) ;;
  v_ffn_down_shexp <- bound (required_tensor m (B "mtp.0.ffn_down_shexp.weight")) ;;
  let w := MtpWeights v_e_proj v_h_proj v_enorm v_hnorm v_norm v_hc_head_base v_hc_head_fn v_hc_head_scale
    (LayerWeights v_hc_attn_fn v_hc_attn_scale v_hc_attn_base v_attn_norm v_attn_q_a v_attn_q_a_norm v_attn_q_b v_attn_kv
    v_attn_kv_a_norm v_attn_sinks v_attn_output_a v_attn_output_b None None None None None None None None None None v_hc_ffn_fn
    v_hc_ffn_scale v_hc_ffn_base v_ffn_norm None v_ffn_gate_inp v_ffn_exp_probs_b v_ffn_gate_exps v_ffn_up_exps v_ffn_down_exps
    v_ffn_gate_shexp v_ffn_up_shexp v_ffn_down_shexp) in
  mtp_weights_validate_layout w ;; Ok w.

