(* ===== verification/WeightsLayout.v ===== *)
(** * The layout of a model

    The tensors that [weights_bind] asks of a model, as tables of fields,
    names, types and dimensions, and the equivalence of the checks of the
    code with the tables. *)
From S2P Require Import Prelude.
From S2P Require Import CNum.
From S2P Require Import Gguf.
From S2P Require Import GgufProps.
From S2P Require Import Weights.

(** ** The layout tables *)

(** A field of a structure of weights, the name of its tensor (in a layer,
    what follows [blk.<layer>]), the types it may have and its dimensions. *)
Record row (W : Type) := Row { r_get : W -> option ds4_tensor; r_name : string; r_types : list Z; r_dims : list Z }.
Arguments Row {W}.
Arguments r_get {W}.
Arguments r_name {W}.
Arguments r_types {W}.
Arguments r_dims {W}.

Definition hc_dim : Z := DS4_N_EMBD * DS4_N_HC.
Definition hc_mix_dim : Z := 2 * DS4_N_HC + DS4_N_HC * DS4_N_HC.
Definition q_dim : Z := DS4_N_HEAD * DS4_N_HEAD_DIM.
Definition out_low_dim : Z := DS4_N_OUT_GROUP * DS4_N_LORA_O.
Definition index_q_dim : Z := DS4_N_INDEXER_HEAD * DS4_N_INDEXER_HEAD_DIM.
Definition index_width : Z := 2 * DS4_N_INDEXER_HEAD_DIM.
Definition comp_width (ratio : Z) : Z := (if ratio =? 4 then 2 else 1) * DS4_N_HEAD_DIM.
Definition routed : list Z := [DS4_TENSOR_IQ2_XXS; DS4_TENSOR_Q2_K; DS4_TENSOR_Q4_K; DS4_TENSOR_MXFP4].

Definition layer_rows (il ratio : Z) : list (row ds4_layer_weights) :=
  [Row hc_attn_fn ".hc_attn_fn.weight" [DS4_TENSOR_F16] [hc_dim; hc_mix_dim];
      Row hc_attn_scale ".hc_attn_scale.weight" [DS4_TENSOR_F32] [3];
      Row hc_attn_base ".hc_attn_base.weight" [DS4_TENSOR_F32] [hc_mix_dim];
      Row attn_norm ".attn_norm.weight" [DS4_TENSOR_F32] [DS4_N_EMBD];
      Row attn_q_a ".attn_q_a.weight" [DS4_TENSOR_Q8_0] [DS4_N_EMBD; DS4_N_LORA_Q];
      Row attn_q_a_norm ".attn_q_a_norm.weight" [DS4_TENSOR_F32] [DS4_N_LORA_Q];
      Row attn_q_b ".attn_q_b.weight" [DS4_TENSOR_Q8_0] [DS4_N_LORA_Q; q_dim];
      Row attn_kv ".attn_kv.weight" [DS4_TENSOR_Q8_0] [DS4_N_EMBD; DS4_N_HEAD_DIM];
      Row attn_kv_a_norm ".attn_kv_a_norm.weight" [DS4_TENSOR_F32] [DS4_N_HEAD_DIM];
      Row attn_sinks ".attn_sinks.weight" [DS4_TENSOR_F32] [DS4_N_HEAD];
      Row attn_output_a ".attn_output_a.weight" [DS4_TENSOR_Q8_0] [DS4_N_HEAD_DIM * (DS4_N_HEAD / DS4_N_OUT_GROUP); out_low_dim];
      Row attn_output_b ".attn_output_b.weight" [DS4_TENSOR_Q8_0] [out_low_dim; DS4_N_EMBD]] ++
  (if negb (ratio =? 0) then
     [Row attn_compressor_ape ".attn_compressor_ape.weight" [DS4_TENSOR_F16] [comp_width ratio; ratio];
      Row attn_compressor_kv ".attn_compressor_kv.weight" [DS4_TENSOR_F16] [DS4_N_EMBD; comp_width ratio];
      Row attn_compressor_gate ".attn_compressor_gate.weight" [DS4_TENSOR_F16] [DS4_N_EMBD; comp_width ratio];
      Row attn_compressor_norm ".attn_compressor_norm.weight" [DS4_TENSOR_F32] [DS4_N_HEAD_DIM]] else []) ++
  (if ratio =? 4 then
     [Row indexer_attn_q_b ".indexer.attn_q_b.weight" [DS4_TENSOR_F16] [DS4_N_LORA_Q; index_q_dim];
      Row indexer_proj ".indexer.proj.weight" [DS4_TENSOR_F16] [DS4_N_EMBD; DS4_N_INDEXER_HEAD];
      Row indexer_compressor_ape ".indexer_compressor_ape.weight" [DS4_TENSOR_F16] [index_width; ratio];
      Row indexer_compressor_kv ".indexer_compressor_kv.weight" [DS4_TENSOR_F16] [DS4_N_EMBD; index_width];
      Row indexer_compressor_gate ".indexer_compressor_gate.weight" [DS4_TENSOR_F16] [DS4_N_EMBD; index_width];
      Row indexer_compressor_norm ".indexer_compressor_norm.weight" [DS4_TENSOR_F32] [DS4_N_INDEXER_HEAD_DIM]] else []) ++
  [Row hc_ffn_fn ".hc_ffn_fn.weight" [DS4_TENSOR_F16] [hc_dim; hc_mix_dim];
      Row hc_ffn_scale ".hc_ffn_scale.weight" [DS4_TENSOR_F32] [3];
      Row hc_ffn_base ".hc_ffn_base.weight" [DS4_TENSOR_F32] [hc_mix_dim];
      Row ffn_norm ".ffn_norm.weight" [DS4_TENSOR_F32] [DS4_N_EMBD];
      Row ffn_gate_inp ".ffn_gate_inp.weight" [DS4_TENSOR_F16] [DS4_N_EMBD; DS4_N_EXPERT];
      Row ffn_gate_exps ".ffn_gate_exps.weight" routed [DS4_N_EMBD; DS4_N_FF_EXP; DS4_N_EXPERT];
      Row ffn_up_exps ".ffn_up_exps.weight" routed [DS4_N_EMBD; DS4_N_FF_EXP; DS4_N_EXPERT];
      Row ffn_down_exps ".ffn_down_exps.weight" routed [DS4_N_FF_EXP; DS4_N_EMBD; DS4_N_EXPERT];
      Row ffn_gate_shexp ".ffn_gate_shexp.weight" [DS4_TENSOR_Q8_0] [DS4_N_EMBD; DS4_N_FF_EXP];
      Row ffn_up_shexp ".ffn_up_shexp.weight" [DS4_TENSOR_Q8_0] [DS4_N_EMBD; DS4_N_FF_EXP];
      Row ffn_down_shexp ".ffn_down_shexp.weight" [DS4_TENSOR_Q8_0] [DS4_N_FF_EXP; DS4_N_EMBD]] ++
  (if il <? DS4_N_HASH_LAYER then
     [Row ffn_gate_tid2eid ".ffn_gate_tid2eid.weight" [DS4_TENSOR_I32] [DS4_N_EXPERT_USED; DS4_N_VOCAB]] else []).

Definition source_rows (il ratio : Z) : list (row ds4_layer_weights) :=
  [Row hc_attn_fn ".hc_attn_fn" [DS4_TENSOR_F32] [hc_dim; hc_mix_dim];
      Row hc_attn_scale ".hc_attn_scale" [DS4_TENSOR_F32] [3];
      Row hc_attn_base ".hc_attn_base" [DS4_TENSOR_F32] [hc_mix_dim];
      Row attn_norm ".attn_norm.weight" [DS4_TENSOR_F32] [DS4_N_EMBD];
      Row attn_q_a ".attn_q_a.weight" [DS4_TENSOR_F8_E4M3_B128] [DS4_N_EMBD; DS4_N_LORA_Q];
      Row attn_q_a_norm ".attn_q_a_norm.weight" [DS4_TENSOR_F32] [DS4_N_LORA_Q];
      Row attn_q_b ".attn_q_b.weight" [DS4_TENSOR_F8_E4M3_B128] [DS4_N_LORA_Q; q_dim];
      Row attn_kv ".attn_kv_latent.weight" [DS4_TENSOR_F8_E4M3_B128] [DS4_N_EMBD; DS4_N_HEAD_DIM];
      Row attn_kv_a_norm ".attn_kv_a_norm.weight" [DS4_TENSOR_F32] [DS4_N_HEAD_DIM];
      Row attn_sinks ".attn_sinks" [DS4_TENSOR_F32] [DS4_N_HEAD];
      Row attn_output_a ".attn_output_a.weight" [DS4_TENSOR_F8_E4M3_B128] [DS4_N_HEAD_DIM * (DS4_N_HEAD / DS4_N_OUT_GROUP); out_low_dim];
      Row attn_output_b ".attn_output_b.weight" [DS4_TENSOR_F8_E4M3_B128] [out_low_dim; DS4_N_EMBD]] ++
  (if negb (ratio =? 0) then
     [Row attn_compressor_ape ".attn_compress_ape" [DS4_TENSOR_F32] [comp_width ratio; ratio];
      Row attn_compressor_kv ".attn_compress_kv.weight" [DS4_TENSOR_BF16] [DS4_N_EMBD; comp_width ratio];
      Row attn_compressor_gate ".attn_compress_gate.weight" [DS4_TENSOR_BF16] [DS4_N_EMBD; comp_width ratio];
      Row attn_compressor_norm ".attn_compress_norm.weight" [DS4_TENSOR_F32] [DS4_N_HEAD_DIM]] else []) ++
  (if ratio =? 4 then
     [Row indexer_attn_q_b ".indexer.attn_q_b.weight" [DS4_TENSOR_F8_E4M3_B128] [DS4_N_LORA_Q; index_q_dim];
      Row indexer_proj ".indexer.proj.weight" [DS4_TENSOR_BF16] [DS4_N_EMBD; DS4_N_INDEXER_HEAD];
      Row indexer_compressor_ape ".indexer.compress_ape" [DS4_TENSOR_F32] [index_width; ratio];
      Row indexer_compressor_kv ".indexer.compress_kv.weight" [DS4_TENSOR_BF16] [DS4_N_EMBD; index_width];
      Row indexer_compressor_gate ".indexer.compress_gate.weight" [DS4_TENSOR_BF16] [DS4_N_EMBD; index_width];
      Row indexer_compressor_norm ".indexer.compress_norm.weight" [DS4_TENSOR_F32] [DS4_N_INDEXER_HEAD_DIM]] else []) ++
  [Row hc_ffn_fn ".hc_ffn_fn" [DS4_TENSOR_F32] [hc_dim; hc_mix_dim];
      Row hc_ffn_scale ".hc_ffn_scale" [DS4_TENSOR_F32] [3];
      Row hc_ffn_base ".hc_ffn_base" [DS4_TENSOR_F32] [hc_mix_dim];
      Row ffn_norm ".ffn_norm.weight" [DS4_TENSOR_F32] [DS4_N_EMBD];
      Row ffn_gate_inp ".ffn_gate_inp.weight" [DS4_TENSOR_F32] [DS4_N_EMBD; DS4_N_EXPERT]] ++
  (if il <? DS4_N_HASH_LAYER then
     [Row ffn_gate_tid2eid ".ffn_gate_tid2eid" [DS4_TENSOR_I32] [DS4_N_EXPERT_USED; DS4_N_VOCAB]] else []) ++
  (if negb (il <? DS4_N_HASH_LAYER) then
     [Row ffn_exp_probs_b ".exp_probs_b" [DS4_TENSOR_F32] [DS4_N_EXPERT]] else []) ++
  [Row ffn_gate_exps ".ffn_gate_exps.weight" [DS4_TENSOR_MXFP4] [DS4_N_EMBD; DS4_N_FF_EXP; DS4_N_EXPERT];
      Row ffn_up_exps ".ffn_up_exps.weight" [DS4_TENSOR_MXFP4] [DS4_N_EMBD; DS4_N_FF_EXP; DS4_N_EXPERT];
      Row ffn_down_exps ".ffn_down_exps.weight" [DS4_TENSOR_MXFP4] [DS4_N_FF_EXP; DS4_N_EMBD; DS4_N_EXPERT];
      Row ffn_gate_shexp ".ffn_gate_shexp.weight" [DS4_TENSOR_F8_E4M3_B128] [DS4_N_EMBD; DS4_N_FF_EXP];
      Row ffn_up_shexp ".ffn_up_shexp.weight" [DS4_TENSOR_F8_E4M3_B128] [DS4_N_EMBD; DS4_N_FF_EXP];
      Row ffn_down_shexp ".ffn_down_shexp.weight" [DS4_TENSOR_F8_E4M3_B128] [DS4_N_FF_EXP; DS4_N_EMBD]].

Definition top_rows (source : bool) : list (row ds4_weights) :=
  [Row token_embd "token_embd.weight" [if source then DS4_TENSOR_BF16 else DS4_TENSOR_F16] [DS4_N_EMBD; DS4_N_VOCAB];
   Row output_hc_base (if source then "hc_head_base" else "output_hc_base.weight") [DS4_TENSOR_F32] [DS4_N_HC];
   Row output_hc_fn (if source then "hc_head_fn" else "output_hc_fn.weight") [if source then DS4_TENSOR_F32 else DS4_TENSOR_F16]
     [hc_dim; DS4_N_HC];
   Row output_hc_scale (if source then "hc_head_scale" else "output_hc_scale.weight") [DS4_TENSOR_F32] [1];
   Row output_norm "output_norm.weight" [DS4_TENSOR_F32] [DS4_N_EMBD];
   Row output "output.weight" [if source then DS4_TENSOR_BF16 else DS4_TENSOR_Q8_0] [DS4_N_EMBD; DS4_N_VOCAB]].

Definition ratio_of (il : Z) : Z := if il <? 2 then 0 else if Z.even il then 4 else 128.
Definition rows (source : bool) (il : Z) : list (row ds4_layer_weights) := if source then source_rows il (ratio_of il) else layer_rows il (ratio_of il).

(** ** What a layout asks of a model *)

Definition has_layout (types dims : list Z) (t : ds4_tensor) : Prop := tensor_ty t ∈ types /\ tensor_dim t = dims.

Definition named (m : ds4_model) (name : bytes) (types dims : list Z) (t : ds4_tensor) : Prop :=
  model_find_tensor m name = Some t /\ has_layout types dims t.

(** In the plain layout the bias of the router is optional, and the gate and
    up experts of a layer have one type. *)
Definition extra_ok (m : ds4_model) (source : bool) (il : Z) : Prop :=
  if source then True
  else
    (forall t, model_find_tensor m (blk_name ".exp_probs_b.bias" il) = Some t -> has_layout [DS4_TENSOR_F32] [DS4_N_EXPERT] t) /\
    (forall a b, model_find_tensor m (blk_name ".ffn_gate_exps.weight" il) = Some a ->
       model_find_tensor m (blk_name ".ffn_up_exps.weight" il) = Some b -> tensor_ty a = tensor_ty b).

Record complete (m : ds4_model) : Prop := {
  cp_top : Forall (fun r => exists t, named m (B (r_name r)) (r_types r) (r_dims r) t) (top_rows (model_uses_v100_source_layout m));
  cp_layers : Forall (fun il => Forall (fun r => exists t, named m (blk_name (r_name r) il) (r_types r) (r_dims r) t)
                (rows (model_uses_v100_source_layout m) il)) layers;
  cp_extra : Forall (extra_ok m (model_uses_v100_source_layout m)) layers
}.

(** A layer's fields are the tensors of the table. *)
Definition layer_bound (m : ds4_model) (source : bool) (il : Z) (l : ds4_layer_weights) : Prop :=
  Forall (fun r => exists t, r_get r l = Some t /\ named m (blk_name (r_name r) il) (r_types r) (r_dims r) t) (rows source il).

(** ** Single checks *)

Lemma expect_dims_ok (t : ds4_tensor) (want : list Z) : forall i dims, length dims = length want ->
  expect_dims t i dims want = Ok tt <-> dims = want.
Proof.
  induction want as [|w want IH]; intros i [|d dims] Hl; try done. cbn [expect_dims]. injection Hl as Hl.
  destruct (Z.eqb_spec d w) as [->|Hne]; [rewrite IH by done; split; [by intros ->|by intros [= ->]]|].
  split; [done|]. intros [= ? ?]. done.
Qed.

Lemma expect_ndim_ok (t : ds4_tensor) (ndim : nat) (d0 d1 d2 : Z) : (ndim <= 3)%nat ->
  expect_ndim t ndim d0 d1 d2 = Ok tt <-> tensor_dim t = take ndim [d0; d1; d2].
Proof.
  intros Hn. unfold expect_ndim, tensor_ndim. assert (Hl : length (take ndim [d0; d1; d2]) = ndim) by (rewrite length_take; simpl; lia).
  destruct (Z.eqb_spec (Z.of_nat (length (tensor_dim t))) (Z.of_nat ndim)) as [E|E]; cbn [negb].
  - apply expect_dims_ok. lia.
  - split; [done|]. intros Ed. rewrite Ed, Hl in E. done.
Qed.

Lemma expect_layout_ok (o : option ds4_tensor) (type : Z) (ndim : nat) (d0 d1 d2 : Z) : (ndim <= 3)%nat ->
  tensor_expect_layout o type ndim d0 d1 d2 = Ok tt <-> exists t, o = Some t /\ has_layout [type] (take ndim [d0; d1; d2]) t.
Proof.
  intros Hn. unfold tensor_expect_layout, has_layout. destruct o as [t|]; [|split; [done|intros (t & [=] & _)]].
  pose proof (expect_ndim_ok t ndim d0 d1 d2 Hn) as Hd. destruct (Z.eqb_spec (tensor_ty t) type) as [E|E]; cbn [negb].
  - rewrite Hd. split; [intros Ht; exists t; split; [done|]; split; [rewrite E; by left|done]|]. by intros (t' & [= <-] & _ & Ht).
  - split; [done|]. intros (t' & [= <-] & Ht%list_elem_of_singleton & _). done.
Qed.

Lemma routed_type (type : Z) : tensor_is_routed_expert_type type = true <-> type ∈ routed.
Proof.
  unfold tensor_is_routed_expert_type, routed. rewrite !orb_true_iff, !Z.eqb_eq, !elem_of_cons, elem_of_nil. tauto.
Qed.

Lemma expect_routed_ok (o : option ds4_tensor) (ndim : nat) (d0 d1 d2 : Z) : (ndim <= 3)%nat ->
  tensor_expect_routed_expert o ndim d0 d1 d2 = Ok tt <-> exists t, o = Some t /\ has_layout routed (take ndim [d0; d1; d2]) t.
Proof.
  intros Hn. unfold tensor_expect_routed_expert, has_layout. destruct o as [t|]; [|split; [done|intros (t & [=] & _)]].
  pose proof (expect_ndim_ok t ndim d0 d1 d2 Hn) as Hd. destruct (tensor_is_routed_expert_type (tensor_ty t)) eqn:E; cbn [negb].
  - apply routed_type in E. rewrite Hd. split; [intros Ht; by exists t|]. by intros (t' & [= <-] & _ & Ht).
  - split; [done|]. intros (t' & [= <-] & Ht%routed_type & _). by rewrite Ht in E.
Qed.

Lemma layer_short (il : Z) : il ∈ layers -> (length (print_u64 il) <= 2)%nat /\ 0 <= il < 43.
Proof.
  intros Hin. assert (H : forallb (fun il => (length (print_u64 il) <=? 2)%nat && (0 <=? il) && (il <? 43)) layers = true) by (vm_compute; reflexivity).
  rewrite forallb_forall in H. apply list_elem_of_In, H in Hin. bool_hyps. split; [by apply Nat.leb_le|lia].
Qed.

Lemma ratio_spec (il : Z) : il ∈ layers -> ds4_layer_compress_ratio il = Ok (ratio_of il).
Proof.
  intros Hin. assert (H : forallb (fun il => match ds4_layer_compress_ratio il with Ok r => r =? ratio_of il | _ => false end) layers = true) by (vm_compute; reflexivity).
  rewrite forallb_forall in H. apply list_elem_of_In, H in Hin. destruct (ds4_layer_compress_ratio il); [|done]. apply Z.eqb_eq in Hin. by rewrite Hin.
Qed.

Lemma ratio_cases (il : Z) : ratio_of il = 0 \/ ratio_of il = 4 \/ ratio_of il = 128.
Proof. unfold ratio_of. repeat case_match; auto. Qed.

Section Bind.
Context (m : ds4_model) (il : Z).
Hypothesis Hil : il ∈ layers.

Lemma name_short (s : string) : (String.length s <= 100)%nat -> 128 <=? Z.of_nat (length (blk_name s il)) = false.
Proof.
  intros Hs. apply Z.leb_gt. destruct (layer_short il Hil) as [Hl _]. unfold blk_name. rewrite !length_app.
  assert (Hb : length (B s) = String.length s) by (clear; unfold B; induction s; simpl; auto). rewrite Hb. simpl. lia.
Qed.

Lemma bound_ok (s : string) (o : option ds4_tensor) : bound (required_tensorf m s il) = Ok o ->
  exists t, o = Some t /\ model_find_tensor m (blk_name s il) = Some t.
Proof.
  unfold bound, required_tensorf, required_tensor. destruct (128 <=? _); [done|]. destruct (model_find_tensor m _) as [t|]; [|done].
  intros [= <-]. by exists t.
Qed.

Lemma bound_find (s : string) (t : ds4_tensor) : (String.length s <= 100)%nat -> model_find_tensor m (blk_name s il) = Some t ->
  bound (required_tensorf m s il) = Ok (Some t).
Proof. intros Hs E. unfold bound, required_tensorf, required_tensor. by rewrite name_short, E. Qed.

Lemma namef_find (s : string) : (String.length s <= 100)%nat -> tensor_by_namef m s il = Ok (model_find_tensor m (blk_name s il)).
Proof. intros Hs. unfold tensor_by_namef. by rewrite name_short. Qed.
End Bind.

Section Conjunctions.
Context {A : Type} (P : A -> Prop).

Lemma then_ok (e k : pres unit) (p q : Prop) : (e = Ok tt <-> p) -> (k = Ok tt <-> q) -> (e ;; k) = Ok tt <-> p /\ q.
Proof. intros <- <-. destruct e as [[]|]; [tauto|]. split; [done|]. by intros [? _]. Qed.

Lemma when_ok (b : bool) (e : pres unit) (p : Prop) : (e = Ok tt <-> p) -> when b e = Ok tt <-> (b = true -> p).
Proof. intros <-. destruct b; cbn; [|split; [done|by intros _]]. split; [by intros ->|auto]. Qed.

Lemma Forall_if_iff (b : bool) (l : list A) (p : Prop) : (Forall P l <-> p) -> Forall P (if b then l else []) <-> (b = true -> p).
Proof. intros <-. destruct b; [|split; [done|by intros _; constructor]]. split; [by intros ?|auto]. Qed.

Lemma Forall_cons_iff' (x : A) (l : list A) (p q : Prop) : (P x <-> p) -> (Forall P l <-> q) -> Forall P (x :: l) <-> p /\ q.
Proof. intros <- <-. apply Forall_cons. Qed.

Lemma Forall_app_iff (l1 l2 : list A) (p q : Prop) : (Forall P l1 <-> p) -> (Forall P l2 <-> q) -> Forall P (l1 ++ l2) <-> p /\ q.
Proof. intros <- <-. apply Forall_app. Qed.

Lemma Forall_nil_iff : Forall P [] <-> True.
Proof. split; [done|constructor]. Qed.
End Conjunctions.

(** A field holds a tensor of the layout of its row. *)
Definition holds (o : option ds4_tensor) (types dims : list Z) : Prop := exists t, o = Some t /\ has_layout types dims t.
Definition fits (l : ds4_layer_weights) (r : row ds4_layer_weights) : Prop := holds (r_get r l) (r_types r) (r_dims r).

Lemma optional_ok (o : option ds4_tensor) (type d0 : Z) :
  tensor_expect_optional o type 1 d0 0 0 = Ok tt <-> forall t, o = Some t -> has_layout [type] [d0] t.
Proof.
  destruct o as [t|]; cbn [tensor_expect_optional]; [|split; [done|done]]. rewrite expect_layout_ok by lia. cbn [take].
  split; [by intros (t' & [= <-] & H) ? [= <-]|]. intros H. exists t. split; [done|]. by apply H.
Qed.

(** The checks that compare the types of the routed experts. *)
Lemma same_type_ok (a b : option ds4_tensor) (e : stop) :
  same_type a b (Error e) = Ok tt <-> (exists x y, a = Some x /\ b = Some y /\ tensor_ty x = tensor_ty y).
Proof.
  destruct a as [x|], b as [y|]; cbn [same_type]; try (split; [done|by intros (? & ? & [=] & [=] & _)]).
  destruct (Z.eqb_spec (tensor_ty x) (tensor_ty y)) as [E|E].
  - split; [intros _; by exists x, y|done].
  - split; [done|]. by intros (? & ? & [= <-] & [= <-] & ?).
Qed.

Lemma all_mxfp4_ok (ts : list (option ds4_tensor)) (e : stop) :
  all_mxfp4 ts (Error e) = Ok tt <-> Forall (fun o => exists t, o = Some t /\ tensor_ty t = DS4_TENSOR_MXFP4) ts.
Proof.
  induction ts as [|[t|] ts IH]; cbn [all_mxfp4]; [by split|rewrite Forall_cons..].
  - destruct (Z.eqb_spec (tensor_ty t) DS4_TENSOR_MXFP4) as [E|E]; [rewrite IH; split; [eauto|tauto]|].
    split; [done|]. by intros [(? & [= <-] & ?) _].
  - split; [done|]. by intros [(? & [=] & _) _].
Qed.

Lemma holds_type (o : option ds4_tensor) (type : Z) (types dims : list Z) : type ∈ types ->
  holds o types dims /\ (exists t, o = Some t /\ tensor_ty t = type) <-> holds o [type] dims.
Proof.
  intros Hin. unfold holds, has_layout. split.
  - intros [(t & -> & _ & Hd) (? & [= <-] & Ht)]. exists t. split; [done|]. by rewrite list_elem_of_singleton.
  - intros (t & -> & Ht%list_elem_of_singleton & Hd). split; exists t; [|done]. split; [done|]. by rewrite Ht.
Qed.

Ltac check_spec :=
  cbn zeta; repeat first
    [ apply then_ok | apply when_ok | apply optional_ok | apply expect_layout_ok; lia | apply expect_routed_ok; lia
    | apply same_type_ok | apply all_mxfp4_ok ].
Ltac rows_spec :=
  repeat first [apply Forall_app_iff | apply Forall_if_iff | apply Forall_cons_iff' | apply Forall_nil_iff | reflexivity].

(** The plain check accepts a layer exactly when its table fits. *)
Lemma plain_layer_ok (il : Z) (l : ds4_layer_weights) : il ∈ layers ->
  weights_validate_layout_layer il l = Ok tt <->
  Forall (fits l) (layer_rows il (ratio_of il)) /\
  (forall t, ffn_exp_probs_b l = Some t -> has_layout [DS4_TENSOR_F32] [DS4_N_EXPERT] t) /\
  (exists a b, ffn_gate_exps l = Some a /\ ffn_up_exps l = Some b /\ tensor_ty a = tensor_ty b).
Proof.
  intros Hil. unfold weights_validate_layout_layer. rewrite ratio_spec by done. unfold die_fmt.
  eapply iff_trans; [check_spec|]. symmetry. eapply iff_trans; [apply and_iff_compat_r; unfold layer_rows; rows_spec|].
  unfold fits. cbn [r_get r_types r_dims take]. split; intros H; destruct_and! H; split_and!; first [assumption|tauto].
Qed.

Lemma mxfp4_rows (a b c : option ds4_tensor) (d1 d2 d3 : list Z) :
  holds a routed d1 /\ holds b routed d2 /\ holds c routed d3 /\
    Forall (fun o => exists t, o = Some t /\ tensor_ty t = DS4_TENSOR_MXFP4) [a; b; c] <->
  holds a [DS4_TENSOR_MXFP4] d1 /\ holds b [DS4_TENSOR_MXFP4] d2 /\ holds c [DS4_TENSOR_MXFP4] d3.
Proof.
  assert (Hin : DS4_TENSOR_MXFP4 ∈ routed) by (do 3 right; left).
  rewrite !Forall_cons, Forall_nil, <- !(holds_type _ _ routed _ Hin). tauto.
Qed.

Lemma source_layer_ok (il : Z) (l : ds4_layer_weights) : il ∈ layers ->
  weights_validate_v100_source_layout_layer il l = Ok tt <-> Forall (fits l) (source_rows il (ratio_of il)).
Proof.
  intros Hil. unfold weights_validate_v100_source_layout_layer. rewrite ratio_spec by done. unfold die_fmt.
  eapply iff_trans; [check_spec|]. symmetry. eapply iff_trans; [unfold source_rows; rows_spec|].
  pose proof (mxfp4_rows (ffn_gate_exps l) (ffn_up_exps l) (ffn_down_exps l) [DS4_N_EMBD; DS4_N_FF_EXP; DS4_N_EXPERT]
    [DS4_N_EMBD; DS4_N_FF_EXP; DS4_N_EXPERT] [DS4_N_FF_EXP; DS4_N_EMBD; DS4_N_EXPERT]) as Hmx.
  unfold fits. cbn [r_get r_types r_dims take]. unfold holds in *.
  split; intros H; destruct_and! H; split_and!; first [assumption|clear Hmx; tauto|apply Hmx; by split_and!].
Qed.

(** The fields that the names of a layer give. *)
Definition layer_of (m : ds4_model) (source : bool) (il : Z) : ds4_layer_weights := {|
  hc_attn_fn := model_find_tensor m (blk_name (if source then ".hc_attn_fn" else ".hc_attn_fn.weight") il);
  hc_attn_scale := model_find_tensor m (blk_name (if source then ".hc_attn_scale" else ".hc_attn_scale.weight") il);
  hc_attn_base := model_find_tensor m (blk_name (if source then ".hc_attn_base" else ".hc_attn_base.weight") il);
  attn_norm := model_find_tensor m (blk_name ".attn_norm.weight" il);
  attn_q_a := model_find_tensor m (blk_name ".attn_q_a.weight" il);
  attn_q_a_norm := model_find_tensor m (blk_name ".attn_q_a_norm.weight" il);
  attn_q_b := model_find_tensor m (blk_name ".attn_q_b.weight" il);
  attn_kv := model_find_tensor m (blk_name (if source then ".attn_kv_latent.weight" else ".attn_kv.weight") il);
  attn_kv_a_norm := model_find_tensor m (blk_name ".attn_kv_a_norm.weight" il);
  attn_sinks := model_find_tensor m (blk_name (if source then ".attn_sinks" else ".attn_sinks.weight") il);
  attn_output_a := model_find_tensor m (blk_name ".attn_output_a.weight" il);
  attn_output_b := model_find_tensor m (blk_name ".attn_output_b.weight" il);
  attn_compressor_ape := if (negb (ratio_of il =? 0)) then model_find_tensor m (blk_name (if source then ".attn_compress_ape" else ".attn_compressor_ape.weight") il) else None;
  attn_compressor_kv := if (negb (ratio_of il =? 0)) then model_find_tensor m (blk_name (if source then ".attn_compress_kv.weight" else ".attn_compressor_kv.weight") il) else None;
  attn_compressor_gate := if (negb (ratio_of il =? 0)) then model_find_tensor m (blk_name (if source then ".attn_compress_gate.weight" else ".attn_compressor_gate.weight") il) else None;
  attn_compressor_norm := if (negb (ratio_of il =? 0)) then model_find_tensor m (blk_name (if source then ".attn_compress_norm.weight" else ".attn_compressor_norm.weight") il) else None;
  indexer_attn_q_b := if ratio_of il =? 4 then model_find_tensor m (blk_name ".indexer.attn_q_b.weight" il) else None;
  indexer_proj := if ratio_of il =? 4 then model_find_tensor m (blk_name ".indexer.proj.weight" il) else None;
  indexer_compressor_ape := if ratio_of il =? 4 then model_find_tensor m (blk_name (if source then ".indexer.compress_ape" else ".indexer_compressor_ape.weight") il) else None;
  indexer_compressor_kv := if ratio_of il =? 4 then model_find_tensor m (blk_name (if source then ".indexer.compress_kv.weight" else ".indexer_compressor_kv.weight") il) else None;
  indexer_compressor_gate := if ratio_of il =? 4 then model_find_tensor m (blk_name (if source then ".indexer.compress_gate.weight" else ".indexer_compressor_gate.weight") il) else None;
  indexer_compressor_norm := if ratio_of il =? 4 then model_find_tensor m (blk_name (if source then ".indexer.compress_norm.weight" else ".indexer_compressor_norm.weight") il) else None;
  hc_ffn_fn := model_find_tensor m (blk_name (if source then ".hc_ffn_fn" else ".hc_ffn_fn.weight") il);
  hc_ffn_scale := model_find_tensor m (blk_name (if source then ".hc_ffn_scale" else ".hc_ffn_scale.weight") il);
  hc_ffn_base := model_find_tensor m (blk_name (if source then ".hc_ffn_base" else ".hc_ffn_base.weight") il);
  ffn_norm := model_find_tensor m (blk_name ".ffn_norm.weight" il);
  ffn_gate_tid2eid := if il <? DS4_N_HASH_LAYER then model_find_tensor m (blk_name (if source then ".ffn_gate_tid2eid" else ".ffn_gate_tid2eid.weight") il) else None;
  ffn_gate_inp := model_find_tensor m (blk_name ".ffn_gate_inp.weight" il);
  ffn_exp_probs_b := model_find_tensor m (blk_name (if source then ".exp_probs_b" else ".exp_probs_b.bias") il);
  ffn_gate_exps := model_find_tensor m (blk_name ".ffn_gate_exps.weight" il);
  ffn_up_exps := model_find_tensor m (blk_name ".ffn_up_exps.weight" il);
  ffn_down_exps := model_find_tensor m (blk_name ".ffn_down_exps.weight" il);
  ffn_gate_shexp := model_find_tensor m (blk_name ".ffn_gate_shexp.weight" il);
  ffn_up_shexp := model_find_tensor m (blk_name ".ffn_up_shexp.weight" il);
  ffn_down_shexp := model_find_tensor m (blk_name ".ffn_down_shexp.weight" il)
|}.

(** The tensors that a layer cannot do without are in the model. *)
Definition row_found (m : ds4_model) (il : Z) (r : row ds4_layer_weights) : Prop := is_Some (model_find_tensor m (blk_name (r_name r) il)).

Section BindLayer.
Context (m : ds4_model) (il : Z).
Hypothesis Hil : il ∈ layers.

Lemma bound_if_ok (b : bool) (s : string) (o : option ds4_tensor) : bound_if b (required_tensorf m s il) = Ok o ->
  o = if b then model_find_tensor m (blk_name s il) else None.
Proof. destruct b; cbn [bound_if]; [|by intros [= <-]]. intros (t & -> & ->)%bound_ok. done. Qed.

Lemma bound_eq (s : string) (o : option ds4_tensor) : bound (required_tensorf m s il) = Ok o -> o = model_find_tensor m (blk_name s il).
Proof. by intros (t & -> & ->)%bound_ok. Qed.

Lemma namef_eq (s : string) (o : option ds4_tensor) : tensor_by_namef m s il = Ok o -> o = model_find_tensor m (blk_name s il).
Proof. unfold tensor_by_namef. destruct (128 <=? _); [done|by intros [= <-]]. Qed.

Lemma bound_find_if (b : bool) (s : string) : (String.length s <= 100)%nat ->
  (b = true -> is_Some (model_find_tensor m (blk_name s il))) ->
  bound_if b (required_tensorf m s il) = Ok (if b then model_find_tensor m (blk_name s il) else None).
Proof. intros Hs H. destruct b; [|done]. destruct (H eq_refl) as [t E]. rewrite E. by apply bound_find. Qed.

Lemma bound_found (s : string) : (String.length s <= 100)%nat -> is_Some (model_find_tensor m (blk_name s il)) ->
  bound (required_tensorf m s il) = Ok (model_find_tensor m (blk_name s il)).
Proof. intros Hs [t E]. rewrite E. by apply bound_find. Qed.

Lemma bind_layer_eq (source : bool) (l : ds4_layer_weights) : bind_layer m source il = Ok l -> l = layer_of m source il.
Proof.
  unfold bind_layer. rewrite ratio_spec by done. intros E.
  repeat lazymatch type of E with (match ?e with Ok _ => _ | Error _ => _ end) = Ok _ =>
    let o := fresh "o" in let H := fresh "H" in
    destruct e as [o|] eqn:H; [|done];
    first [apply bound_eq in H|apply bound_if_ok in H|apply namef_eq in H]; subst o end.
  injection E as <-. reflexivity.
Qed.

Lemma bind_step {A C} (e : pres A) (k : A -> pres C) (a : A) (r : pres C) : e = Ok a -> k a = r -> (x <- e ;; k x) = r.
Proof. by intros -> <-. Qed.

Ltac bind_found := repeat lazymatch goal with
  | |- (match bound _ with Ok _ => _ | Error _ => _ end) = _ => eapply bind_step; [apply bound_found; [cbn; lia|tauto]|]
  | |- (match bound_if _ _ with Ok _ => _ | Error _ => _ end) = _ => eapply bind_step; [apply bound_find_if; [cbn; lia|tauto]|]
  | |- (match tensor_by_namef _ _ _ with Ok _ => _ | Error _ => _ end) = _ => eapply bind_step; [apply namef_find; [exact Hil|cbn; lia]|]
  end.

Lemma rows_found {W} (P : row W -> Prop) (l : list (row W)) (p : Prop) : (Forall P l <-> p) -> Forall P l -> p.
Proof. by intros <-. Qed.

Lemma bind_layer_found (source : bool) : Forall (row_found m il) (rows source il) ->
  bind_layer m source il = Ok (layer_of m source il).
Proof.
  intros H. unfold bind_layer. rewrite ratio_spec by done. unfold rows in H. destruct source.
  - eapply rows_found in H; [|unfold source_rows; rows_spec]. unfold row_found in H. cbn [r_name] in H.
    bind_found. reflexivity.
  - eapply rows_found in H; [|unfold layer_rows; rows_spec]. unfold row_found in H. cbn [r_name] in H.
    bind_found. reflexivity.
Qed.
End BindLayer.

(** A row's field in such a layer is the tensor of the row's name. *)
Lemma layer_of_rows (m : ds4_model) (source : bool) (il : Z) :
  Forall (fun r => r_get r (layer_of m source il) = model_find_tensor m (blk_name (r_name r) il)) (rows source il).
Proof.
  unfold rows. destruct source; [unfold source_rows|unfold layer_rows];
    repeat (apply Forall_app; split);
    try match goal with |- Forall _ (if ?b then _ else _) => destruct b eqn:Eb; [|constructor] end;
    repeat (apply Forall_cons; split); try apply Forall_nil_2; cbn [r_get r_name layer_of attn_compressor_ape attn_compressor_kv
      attn_compressor_gate attn_compressor_norm indexer_attn_q_b indexer_proj indexer_compressor_ape indexer_compressor_kv
      indexer_compressor_gate indexer_compressor_norm ffn_gate_tid2eid]; rewrite ?Eb; reflexivity.
Qed.

Definition row_named (m : ds4_model) (il : Z) (r : row ds4_layer_weights) : Prop := exists t, named m (blk_name (r_name r) il) (r_types r) (r_dims r) t.

Lemma fits_named (m : ds4_model) (source : bool) (il : Z) :
  Forall (fits (layer_of m source il)) (rows source il) <-> Forall (row_named m il) (rows source il).
Proof.
  pose proof (layer_of_rows m source il) as H. rewrite Forall_forall in H.
  rewrite !Forall_forall. unfold fits, holds, row_named, named. split; intros Hf r Hr; specialize (Hf r Hr); by rewrite (H r Hr) in *.
Qed.

Lemma named_found (m : ds4_model) (source : bool) (il : Z) :
  Forall (row_named m il) (rows source il) -> Forall (row_found m il) (rows source il).
Proof. intros H. eapply Forall_impl; [exact H|]. intros r (t & E & _). by exists t. Qed.

Lemma layer_check (m : ds4_model) (source : bool) (il : Z) : il ∈ layers ->
  (if source then weights_validate_v100_source_layout_layer il (layer_of m source il) = Ok tt
   else weights_validate_layout_layer il (layer_of m source il) = Ok tt) <->
  Forall (row_named m il) (rows source il) /\ extra_ok m source il.
Proof.
  intros Hil. rewrite <- fits_named. destruct source; cbn [extra_ok rows].
  - rewrite source_layer_ok by done. tauto.
  - rewrite plain_layer_ok by done. cbn [ffn_exp_probs_b ffn_gate_exps ffn_up_exps layer_of].
    assert (Hgu : Forall (fits (layer_of m false il)) (layer_rows il (ratio_of il)) ->
      is_Some (model_find_tensor m (blk_name ".ffn_gate_exps.weight" il)) /\ is_Some (model_find_tensor m (blk_name ".ffn_up_exps.weight" il))).
    { intros H. eapply rows_found in H; [|unfold layer_rows; rows_spec]. destruct_and! H. unfold fits, holds in *. cbn [r_get layer_of] in *.
      split.
      - match goal with H : exists t, ffn_gate_exps _ = Some t /\ _ |- _ => destruct H as (t & E & _); exists t; exact E end.
      - match goal with H : exists t, ffn_up_exps _ = Some t /\ _ |- _ => destruct H as (t & E & _); exists t; exact E end. }
    split.
    + intros (H & Hp & a & b & Ea & Eb & Et). split; [done|]. split; [done|]. intros a' b' Ea' Eb'.
      rewrite Ea in Ea'. rewrite Eb in Eb'. congruence.
    + intros (H & Hp & Heq). split; [done|]. split; [done|]. destruct (Hgu H) as [[a Ea] [b Eb]]. exists a, b. auto.
Qed.

(** ** The whole model *)

Definition weights_of (m : ds4_model) : ds4_weights :=
  let source := model_uses_v100_source_layout m in {|
  token_embd := model_find_tensor m (B "token_embd.weight");
  output_hc_base := model_find_tensor m (B (if source then "hc_head_base" else "output_hc_base.weight"));
  output_hc_fn := model_find_tensor m (B (if source then "hc_head_fn" else "output_hc_fn.weight"));
  output_hc_scale := model_find_tensor m (B (if source then "hc_head_scale" else "output_hc_scale.weight"));
  output_norm := model_find_tensor m (B "output_norm.weight");
  output := model_find_tensor m (B "output.weight");
  layer := map (layer_of m source) layers;
  v100_source_layout := source
|}.

Lemma required_eq (m : ds4_model) (name : bytes) (o : option ds4_tensor) : bound (required_tensor m name) = Ok o ->
  o = model_find_tensor m name.
Proof. unfold bound, required_tensor. destruct (model_find_tensor m name); [by intros [= <-]|done]. Qed.

Lemma required_found (m : ds4_model) (name : bytes) : is_Some (model_find_tensor m name) ->
  bound (required_tensor m name) = Ok (model_find_tensor m name).
Proof. intros [t E]. unfold bound, required_tensor. by rewrite E. Qed.

Lemma each_layer_ok (check : Z -> ds4_layer_weights -> pres unit) (f : Z -> ds4_layer_weights) :
  each_layer check (map f layers) = Ok tt <-> Forall (fun il => check il (f il) = Ok tt) layers.
Proof.
  unfold each_layer. generalize layers. intros l. induction l as [|il l IH]; cbn [map combine rfold fst snd]; [split; [constructor|done]|].
  rewrite Forall_cons, <- IH. destruct (check il (f il)) as [[]|]; [tauto|]. split; [done|]. by intros [? _].
Qed.

Definition top_named (m : ds4_model) (r : row ds4_weights) : Prop := exists t, named m (B (r_name r)) (r_types r) (r_dims r) t.

Lemma weights_check (m : ds4_model) : let source := model_uses_v100_source_layout m in
  (if source then weights_validate_v100_source_layout (weights_of m) = Ok tt else weights_validate_layout (weights_of m) = Ok tt) <->
  complete m.
Proof.
  intros source.
  assert (Hl : Forall (fun il => if source then weights_validate_v100_source_layout_layer il (layer_of m source il) = Ok tt
     else weights_validate_layout_layer il (layer_of m source il) = Ok tt) layers <->
     Forall (fun il => Forall (row_named m il) (rows source il)) layers /\ Forall (extra_ok m source) layers).
  { rewrite <- Forall_and. rewrite !Forall_forall. split; intros H il Hil; by apply (layer_check m source il Hil), H. }
  assert (Hc : complete m <-> Forall (top_named m) (top_rows source) /\
     Forall (fun il => Forall (row_named m il) (rows source il)) layers /\ Forall (extra_ok m source) layers).
  { split; [by intros [? ? ?]|]. intros (? & ? & ?). by constructor. }
  rewrite Hc, <- Hl. clear Hc Hl. unfold weights_of. fold source. unfold top_rows.
  destruct source; (eapply iff_trans; [check_spec; apply each_layer_ok|]); symmetry;
    (eapply iff_trans; [apply and_iff_compat_r; rows_spec|]);
    cbn [token_embd output_hc_base output_hc_fn output_hc_scale output_norm output take]; unfold top_named, named, holds;
    cbn [r_get r_name r_types r_dims]; tauto.
Qed.

Lemma complete_found (m : ds4_model) : complete m ->
  Forall (fun r => is_Some (model_find_tensor m (B (r_name r)))) (top_rows (model_uses_v100_source_layout m)) /\
  Forall (fun il => bind_layer m (model_uses_v100_source_layout m) il = Ok (layer_of m (model_uses_v100_source_layout m) il)) layers.
Proof.
  intros [Ht Hl _]. split; [eapply Forall_impl; [exact Ht|]; intros r (t & E & _); by exists t|].
  rewrite Forall_forall in *. intros il Hil. apply bind_layer_found; [done|]. by apply named_found, Hl.
Qed.

Lemma top_of_rows (m : ds4_model) :
  Forall (fun r => r_get r (weights_of m) = model_find_tensor m (B (r_name r))) (top_rows (model_uses_v100_source_layout m)).
Proof. unfold top_rows, weights_of. destruct (model_uses_v100_source_layout m); repeat (apply Forall_cons; split); try apply Forall_nil_2; reflexivity. Qed.
