(* ===== verification/WeightsProps.v ===== *)
(** * Binding the weights of a model

    What [weights_bind] and [mtp_weights_bind] accept, what they bind, and
    where what they bind lies in the file. *)
From S2P Require Import Prelude.
From S2P Require Import CNum.
From S2P Require Import Gguf.
From S2P Require Import GgufProps.
From S2P Require Import Weights.
From S2P Require Import WeightsLayout.

(** ** Every failure is an exit *)

Lemma exits_step {A C} (e : pres A) (k : A -> pres C) : exits e -> (forall a, e = Ok a -> exits (k a)) -> exits (x <- e ;; k x).
Proof. destruct e; cbn; [auto|done]. Qed.

Lemma exits_when (b : bool) (e : pres unit) : exits e -> exits (when b e).
Proof. by destruct b. Qed.

Lemma exits_dims (t : ds4_tensor) (want : list Z) : forall i dims, exits (expect_dims t i dims want).
Proof. induction want as [|w want IH]; intros i [|d dims]; cbn [expect_dims]; try done. destruct (d =? w); [apply IH|done]. Qed.

Lemma exits_ndim (t : ds4_tensor) (ndim : nat) (d0 d1 d2 : Z) : exits (expect_ndim t ndim d0 d1 d2).
Proof. unfold expect_ndim. destruct (negb _); [done|apply exits_dims]. Qed.

Lemma exits_layout (o : option ds4_tensor) (type : Z) (ndim : nat) (d0 d1 d2 : Z) : exits (tensor_expect_layout o type ndim d0 d1 d2).
Proof. destruct o as [t|]; cbn [tensor_expect_layout]; [|done]. destruct (negb _); [done|apply exits_ndim]. Qed.

Lemma exits_plain (o : option ds4_tensor) (ndim : nat) (d0 d1 d2 : Z) : exits (tensor_expect_plain_layout o ndim d0 d1 d2).
Proof. destruct o as [t|]; cbn [tensor_expect_plain_layout]; [|done]. destruct (negb _ && _); [done|apply exits_layout]. Qed.

Lemma exits_optional (o : option ds4_tensor) (type : Z) (ndim : nat) (d0 d1 d2 : Z) : exits (tensor_expect_optional o type ndim d0 d1 d2).
Proof. destruct o; [apply exits_layout|done]. Qed.

Lemma exits_routed (o : option ds4_tensor) (ndim : nat) (d0 d1 d2 : Z) : is_Some o -> exits (tensor_expect_routed_expert o ndim d0 d1 d2).
Proof. intros [t ->]. cbn [tensor_expect_routed_expert]. destruct (negb _); [done|apply exits_ndim]. Qed.

Lemma exits_same (a b : option ds4_tensor) (e : pres unit) : is_Some a -> is_Some b -> exits e -> exits (same_type a b e).
Proof. intros [x ->] [y ->] He. cbn [same_type]. by destruct (_ =? _). Qed.

Lemma exits_mxfp4 (ts : list (option ds4_tensor)) (e : pres unit) : Forall is_Some ts -> exits e -> exits (all_mxfp4 ts e).
Proof. intros Hs He. induction Hs as [|o ts [t ->] _ IH]; cbn [all_mxfp4]; [done|]. by destruct (_ =? _). Qed.

Lemma exits_ratio (il : Z) : exits (ds4_layer_compress_ratio il).
Proof. unfold ds4_layer_compress_ratio. repeat case_match; done. Qed.

Lemma exits_required (m : ds4_model) (name : bytes) : exits (bound (required_tensor m name)).
Proof. unfold bound, required_tensor. by destruct (model_find_tensor m name). Qed.

Lemma exits_requiredf (m : ds4_model) (s : string) (il : Z) : exits (bound (required_tensorf m s il)).
Proof. unfold bound, required_tensorf, required_tensor. destruct (128 <=? _); [done|]. by destruct (model_find_tensor m _). Qed.

Lemma exits_bound_if (b : bool) (m : ds4_model) (s : string) (il : Z) : exits (bound_if b (required_tensorf m s il)).
Proof. destruct b; [apply exits_requiredf|done]. Qed.

Lemma exits_namef (m : ds4_model) (s : string) (il : Z) : exits (tensor_by_namef m s il).
Proof. unfold tensor_by_namef. by destruct (128 <=? _). Qed.

Create HintDb weights.
#[export] Hint Resolve exits_when exits_layout exits_plain exits_optional exits_ratio exits_required exits_requiredf exits_bound_if
  exits_namef exits_routed exits_same exits_mxfp4 Forall_nil_2 Forall_cons_2 : weights.
#[export] Hint Extern 1 (exits (Error _)) => exact eq_refl : weights.
#[export] Hint Extern 1 (exits (Ok _)) => exact I : weights.
#[export] Hint Extern 1 (is_Some (Some _)) => eexists; reflexivity : weights.

(** A layer whose routed experts are bound. *)
Definition experts_bound (l : ds4_layer_weights) : Prop :=
  is_Some (ffn_gate_exps l) /\ is_Some (ffn_up_exps l) /\ is_Some (ffn_down_exps l).

Ltac exits_chain :=
  cbn zeta; repeat (apply exits_step; [solve [auto with weights]|intros ? ?]); try solve [auto with weights].

Lemma exits_layer (il : Z) (l : ds4_layer_weights) : experts_bound l ->
  exits (weights_validate_layout_layer il l) /\ exits (weights_validate_v100_source_layout_layer il l).
Proof.
  intros (H1 & H2 & H3). unfold weights_validate_layout_layer, weights_validate_v100_source_layout_layer, die_fmt. split; exits_chain.
Qed.

Lemma exits_each (check : Z -> ds4_layer_weights -> pres unit) (ls : list ds4_layer_weights) :
  Forall (fun l => forall il, exits (check il l)) ls -> exits (each_layer check ls).
Proof.
  unfold each_layer. generalize layers. intros il H. revert il. induction H as [|l ls Hl _ IH]; intros [|i il]; try done.
  cbn [combine rfold fst snd]. specialize (Hl i). destruct (check i l) as [[]|]; [apply IH|done].
Qed.

Lemma exits_bind_layer (m : ds4_model) (source : bool) (il : Z) : exits (bind_layer m source il).
Proof. unfold bind_layer. exits_chain. Qed.

Lemma layers_bound (m : ds4_model) (source : bool) (il : Z) (l : ds4_layer_weights) : il ∈ layers ->
  bind_layer m source il = Ok l -> experts_bound l.
Proof.
  intros Hil. unfold bind_layer. rewrite ratio_spec by done. intros E.
  repeat lazymatch type of E with (match ?e with Ok _ => _ | Error _ => _ end) = Ok _ =>
    let o := fresh "o" in let H := fresh "H" in
    destruct e as [o|] eqn:H; [|done];
    lazymatch e with
    | bound _ => apply bound_ok in H as (? & -> & _)
    | _ => clear H
    end end.
  injection E as <-. split_and!; by eexists.
Qed.

Lemma exits_mapM {A C} (f : A -> pres C) (l : list A) : (forall a, exits (f a)) -> exits (mapM_res f l).
Proof.
  intros Hf. induction l as [|a l IH]; cbn [mapM_res]; [done|]. apply exits_step; [apply Hf|]. intros c _. by apply exits_step.
Qed.

Lemma bound_layers (m : ds4_model) (source : bool) (ls : list ds4_layer_weights) : mapM_res (bind_layer m source) layers = Ok ls ->
  ls = map (layer_of m source) layers /\ Forall experts_bound ls.
Proof.
  intros H%mapM_res_inv. revert H. assert (Hsub : forall il, il ∈ layers -> il ∈ layers) by done. revert Hsub.
  generalize layers at 1 3 4. intros l Hsub H. induction H as [|il w l ls E _ IH]; [by split|].
  destruct IH as [-> IH]; [intros i Hi; apply Hsub; by right|]. assert (Hil : il ∈ layers) by (apply Hsub; left).
  pose proof (bind_layer_eq m il Hil source w E) as ->. split; [done|]. constructor; [|done]. by eapply layers_bound.
Qed.

(** The fields are the tensors of the names, whatever the layout says. *)
Lemma exits_weights_bind (m : ds4_model) : exits (weights_bind m).
Proof.
  unfold weights_bind. cbn zeta. do 6 (apply exits_step; [auto with weights|intros ? _]).
  apply exits_step; [apply exits_mapM; intros; apply exits_bind_layer|]. intros ls (_ & Hls)%bound_layers.
  assert (H1 : exits (each_layer weights_validate_layout_layer ls)).
  { apply exits_each. eapply Forall_impl; [exact Hls|]. intros l Hl il. exact (proj1 (exits_layer il l Hl)). }
  assert (H2 : exits (each_layer weights_validate_v100_source_layout_layer ls)).
  { apply exits_each. eapply Forall_impl; [exact Hls|]. intros l Hl il. exact (proj2 (exits_layer il l Hl)). }
  apply exits_step; [|done]. unfold weights_validate_v100_source_layout, weights_validate_layout. cbn [layer].
  destruct (model_uses_v100_source_layout m); exits_chain.
Qed.

Lemma weights_bind_of (m : ds4_model) (w : ds4_weights) : weights_bind m = Ok w -> w = weights_of m /\ complete m.
Proof.
  unfold weights_bind. cbn zeta. intros E.
  repeat lazymatch type of E with (match bound ?e with Ok _ => _ | Error _ => _ end) = Ok _ =>
    let o := fresh "o" in let H := fresh "H" in
    destruct (bound e) as [o|] eqn:H; [|done]; apply required_eq in H; subst o end.
  destruct (mapM_res _ layers) as [ls|] eqn:El; [|done]. apply bound_layers in El as [-> _].
  pose proof (weights_check m) as [Hc _]. unfold weights_of in *. cbn zeta in *.
  destruct (model_uses_v100_source_layout m).
  - destruct (weights_validate_v100_source_layout _) as [[]|]; [|done]. injection E as <-. auto.
  - destruct (weights_validate_layout _) as [[]|]; [|done]. injection E as <-. auto.
Qed.

Lemma weights_bind_complete (m : ds4_model) : complete m -> weights_bind m = Ok (weights_of m).
Proof.
  intros Hc. pose proof (complete_found m Hc) as [Ht Hl]. apply weights_check in Hc. cbn zeta in Hc.
  unfold weights_bind. cbn zeta. unfold top_rows in Ht. eapply rows_found in Ht; [|rows_spec]. cbn [r_name] in Ht. destruct_and! Ht.
  do 6 (eapply bind_step; [by apply required_found|]).
  eapply bind_step; [apply mapM_res_ok; by apply Forall_forall|]. unfold weights_of in *. cbn zeta in *.
  destruct (model_uses_v100_source_layout m); by rewrite Hc.
Qed.

(** C32 The weights of a model are bound exactly when the model is complete:
    every tensor of the layout table is there under its name, with a type and
    the dimensions the table allows (and, in the plain layout, the gate and up
    experts of a layer have one type and an optional router bias has its
    shape).  Each field is then the tensor of its name, and every other model
    ends the process with status 1: no check reads a missing tensor. *)
Theorem weights_bind_layout (m : ds4_model) :
  match weights_bind m with
  | Ok w => complete m /\ w = weights_of m
  | Error e => ~ complete m /\ exists msg, e = Exit 1 msg
  end.
Proof.
  pose proof (exits_weights_bind m) as He. pose proof (weights_bind_complete m) as Hc.
  destruct (weights_bind m) as [w|e] eqn:E; [by apply weights_bind_of in E as [-> ?]|].
  split; [intros H; specialize (Hc H); discriminate Hc|]. destruct e as [c msg| |]; [|done|done]. exists msg. cbn in He. by rewrite He.
Qed.

(** ** Where the bound tensors are *)

(** The bytes of a tensor of these dimensions, when they make whole blocks. *)
Definition exact_bytes (type : Z) (dims : list Z) : option Z :=
  match tensor_type type with
  | Some info => let n := foldr Z.mul 1 dims in
      if (0 <? gg_block_elems info) && (n mod gg_block_elems info =? 0) then Some (n / gg_block_elems info * gg_block_bytes info) else None
  | None => None
  end.

(** A tensor of the model of those dimensions, whole, inside the file. *)
Definition inside (m : ds4_model) (dims : list Z) (t : ds4_tensor) : Prop :=
  t ∈ model_tensors m /\ tensor_dim t = dims /\ exact_bytes (tensor_ty t) dims = Some (tensor_bytes t) /\
  0 < tensor_bytes t /\ 0 <= tensor_abs_offset t /\ tensor_abs_offset t + tensor_bytes t <= model_size m.

(** A type and dimensions whose size the 64-bit computation gets right. *)
Definition sized (types dims : list Z) : bool :=
  forallb (fun ty => match exact_bytes ty dims, tensor_nbytes ty (foldr Z.mul 1 dims) with
    | Some a, Some b => (a =? b) && (0 <? a) | _, _ => false end) types.

Definition sized_rows {W} (l : list (row W)) : bool := forallb (fun r => sized (r_types r) (r_dims r)) l.

Lemma tables_sized (source : bool) : sized_rows (top_rows source) && forallb (fun il => sized_rows (rows source il)) layers = true.
Proof. destruct source; vm_compute; reflexivity. Qed.

Lemma named_inside (m : ds4_model) (name : bytes) (types dims : list Z) (t : ds4_tensor) :
  model_wf m -> sized types dims = true -> named m name types dims t -> inside m dims t.
Proof.
  intros Hm Hs (E & Hty & Hd). unfold model_find_tensor in E. apply find_some in E as [Hin%list_elem_of_In _].
  pose proof (wf_tensors m Hm) as Ht. rewrite Forall_forall in Ht. destruct (Ht t Hin) as (Hr & Ha & [Ha0 _] & Hp).
  unfold sized in Hs. rewrite forallb_forall in Hs. apply list_elem_of_In, Hs in Hty. destruct Hr as [_ _ Hel _ _ _ Hb]. rewrite <- Hd, <- Hel in Hty.
  destruct (exact_bytes (tensor_ty t) (tensor_dim t)) as [a|] eqn:Ea; [|done]. destruct (tensor_nbytes _ _) as [b|]; [|done].
  cbn in Hb. bool_hyps. subst b. split; [done|]. split; [done|]. rewrite <- Hd, Ea, Hb.
  split; [done|]. split; [lia|]. split; [done|]. rewrite <- Hb. apply Hp. lia.
Qed.

Lemma rows_inside {W} (m : ds4_model) (w : W) (name : row W -> bytes) (l : list (row W)) : model_wf m -> sized_rows l = true ->
  Forall (fun r => r_get r w = model_find_tensor m (name r)) l ->
  Forall (fun r => exists t, named m (name r) (r_types r) (r_dims r) t) l ->
  Forall (fun r => exists t, r_get r w = Some t /\ inside m (r_dims r) t) l.
Proof.
  intros Hm Hs Hg Hn. unfold sized_rows in Hs. rewrite forallb_forall in Hs. rewrite Forall_forall in *. intros r Hr.
  destruct (Hn r Hr) as (t & Ht). exists t. rewrite (Hg r Hr). split; [apply Ht|].
  eapply named_inside; [done|apply Hs; by apply list_elem_of_In|exact Ht].
Qed.

(** In an opened model every weight that the layout requires is bound to a
    tensor of the model with the dimensions of its row, whose size is the
    exact product of its blocks (no 64-bit computation wrapped), is not empty
    and lies inside the mapped file: reading a weight through its field never
    leaves the file. *)
Theorem weights_bound_inside (m : ds4_model) (w : ds4_weights) : model_wf m -> weights_bind m = Ok w ->
  Forall (fun r => exists t, r_get r w = Some t /\ inside m (r_dims r) t) (top_rows (v100_source_layout w)) /\
  Forall2 (fun il l => Forall (fun r => exists t, r_get r l = Some t /\ inside m (r_dims r) t) (rows (v100_source_layout w) il))
    layers (layer w).
Proof.
  intros Hm (-> & [Ht Hl _])%weights_bind_of. cbn [v100_source_layout layer weights_of].
  pose proof (tables_sized (model_uses_v100_source_layout m)) as Hs. apply andb_true_iff in Hs as [Hs1 Hs2].
  split; [eapply rows_inside; [done|exact Hs1|apply top_of_rows|exact Ht]|].
  apply Forall2_fmap_r, Forall_Forall2_diag. rewrite forallb_forall in Hs2. rewrite Forall_forall in Hl. apply Forall_forall. intros il Hil.
  eapply rows_inside; [done|apply Hs2; by apply list_elem_of_In|apply layer_of_rows|by apply Hl].
Qed.
