(* ===== verification/MtpWeights.v ===== *)
(** * The weights of a sidecar

    The same for the tensors of a multi-token-prediction sidecar: the table of
    its layout and what [mtp_weights_bind] accepts and binds. *)
From S2P Require Import Prelude.
From S2P Require Import CNum.
From S2P Require Import Gguf.
From S2P Require Import GgufProps.
From S2P Require Import Weights.
From S2P Require Import WeightsLayout.
From S2P Require Import WeightsProps.

Definition mtp_rows : list (row ds4_mtp_weights) :=
  [Row hc_head_base "mtp.0.hc_head_base.weight" [DS4_TENSOR_F32] [DS4_N_HC];
   Row hc_head_fn "mtp.0.hc_head_fn.weight" [DS4_TENSOR_F16; DS4_TENSOR_F32] [hc_dim; DS4_N_HC];
   Row hc_head_scale "mtp.0.hc_head_scale.weight" [DS4_TENSOR_F32] [1];
   Row e_proj "mtp.0.e_proj.weight" [DS4_TENSOR_Q8_0] [DS4_N_EMBD; DS4_N_EMBD];
   Row h_proj "mtp.0.h_proj.weight" [DS4_TENSOR_Q8_0] [DS4_N_EMBD; DS4_N_EMBD];
   Row enorm "mtp.0.enorm.weight" [DS4_TENSOR_F32] [DS4_N_EMBD];
   Row hnorm "mtp.0.hnorm.weight" [DS4_TENSOR_F32] [DS4_N_EMBD];
   Row norm "mtp.0.norm.weight" [DS4_TENSOR_F32] [DS4_N_EMBD];
   Row (fun w => hc_attn_fn (block w)) "mtp.0.hc_attn_fn.weight" [DS4_TENSOR_F16; DS4_TENSOR_F32] [hc_dim; hc_mix_dim];
   Row (fun w => hc_attn_scale (block w)) "mtp.0.hc_attn_scale.weight" [DS4_TENSOR_F32] [3];
   Row (fun w => hc_attn_base (block w)) "mtp.0.hc_attn_base.weight" [DS4_TENSOR_F32] [hc_mix_dim];
   Row (fun w => attn_norm (block w)) "mtp.0.attn_norm.weight" [DS4_TENSOR_F32] [DS4_N_EMBD];
   Row (fun w => attn_q_a (block w)) "mtp.0.attn_q_a.weight" [DS4_TENSOR_Q8_0] [DS4_N_EMBD; DS4_N_LORA_Q];
   Row (fun w => attn_q_a_norm (block w)) "mtp.0.attn_q_a_norm.weight" [DS4_TENSOR_F32] [DS4_N_LORA_Q];
   Row (fun w => attn_q_b (block w)) "mtp.0.attn_q_b.weight" [DS4_TENSOR_Q8_0] [DS4_N_LORA_Q; q_dim];
   Row (fun w => attn_kv (block w)) "mtp.0.attn_kv.weight" [DS4_TENSOR_Q8_0] [DS4_N_EMBD; DS4_N_HEAD_DIM];
   Row (fun w => attn_kv_a_norm (block w)) "mtp.0.attn_kv_a_norm.weight" [DS4_TENSOR_F32] [DS4_N_HEAD_DIM];
   Row (fun w => attn_sinks (block w)) "mtp.0.attn_sinks.weight" [DS4_TENSOR_F32] [DS4_N_HEAD];
   Row (fun w => attn_output_a (block w)) "mtp.0.attn_output_a.weight" [DS4_TENSOR_Q8_0] [DS4_N_HEAD_DIM * (DS4_N_HEAD / DS4_N_OUT_GROUP); out_low_dim];
   Row (fun w => attn_output_b (block w)) "mtp.0.attn_output_b.weight" [DS4_TENSOR_Q8_0] [out_low_dim; DS4_N_EMBD];
   Row (fun w => hc_ffn_fn (block w)) "mtp.0.hc_ffn_fn.weight" [DS4_TENSOR_F16; DS4_TENSOR_F32] [hc_dim; hc_mix_dim];
   Row (fun w => hc_ffn_scale (block w)) "mtp.0.hc_ffn_scale.weight" [DS4_TENSOR_F32] [3];
   Row (fun w => hc_ffn_base (block w)) "mtp.0.hc_ffn_base.weight" [DS4_TENSOR_F32] [hc_mix_dim];
   Row (fun w => ffn_norm (block w)) "mtp.0.ffn_norm.weight" [DS4_TENSOR_F32] [DS4_N_EMBD];
   Row (fun w => ffn_gate_inp (block w)) "mtp.0.ffn_gate_inp.weight" [DS4_TENSOR_F16; DS4_TENSOR_F32] [DS4_N_EMBD; DS4_N_EXPERT];
   Row (fun w => ffn_exp_probs_b (block w)) "mtp.0.exp_probs_b.bias" [DS4_TENSOR_F32] [DS4_N_EXPERT];
   Row (fun w => ffn_gate_exps (block w)) "mtp.0.ffn_gate_exps.weight" routed [DS4_N_EMBD; DS4_N_FF_EXP; DS4_N_EXPERT];
   Row (fun w => ffn_up_exps (block w)) "mtp.0.ffn_up_exps.weight" routed [DS4_N_EMBD; DS4_N_FF_EXP; DS4_N_EXPERT];
   Row (fun w => ffn_down_exps (block w)) "mtp.0.ffn_down_exps.weight" routed [DS4_N_FF_EXP; DS4_N_EMBD; DS4_N_EXPERT];
   Row (fun w => ffn_gate_shexp (block w)) "mtp.0.ffn_gate_shexp.weight" [DS4_TENSOR_Q8_0] [DS4_N_EMBD; DS4_N_FF_EXP];
   Row (fun w => ffn_up_shexp (block w)) "mtp.0.ffn_up_shexp.weight" [DS4_TENSOR_Q8_0] [DS4_N_EMBD; DS4_N_FF_EXP];
   Row (fun w => ffn_down_shexp (block w)) "mtp.0.ffn_down_shexp.weight" [DS4_TENSOR_Q8_0] [DS4_N_FF_EXP; DS4_N_EMBD]].

Definition mtp_of (m : ds4_model) : ds4_mtp_weights := {|
  e_proj := model_find_tensor m (B "mtp.0.e_proj.weight");
  h_proj := model_find_tensor m (B "mtp.0.h_proj.weight");
  enorm := model_find_tensor m (B "mtp.0.enorm.weight");
  hnorm := model_find_tensor m (B "mtp.0.hnorm.weight");
  norm := model_find_tensor m (B "mtp.0.norm.weight");
  hc_head_base := model_find_tensor m (B "mtp.0.hc_head_base.weight");
  hc_head_fn := model_find_tensor m (B "mtp.0.hc_head_fn.weight");
  hc_head_scale := model_find_tensor m (B "mtp.0.hc_head_scale.weight");
  block := {|
    hc_attn_fn := model_find_tensor m (B "mtp.0.hc_attn_fn.weight");
    hc_attn_scale := model_find_tensor m (B "mtp.0.hc_attn_scale.weight");
    hc_attn_base := model_find_tensor m (B "mtp.0.hc_attn_base.weight");
    attn_norm := model_find_tensor m (B "mtp.0.attn_norm.weight");
    attn_q_a := model_find_tensor m (B "mtp.0.attn_q_a.weight");
    attn_q_a_norm := model_find_tensor m (B "mtp.0.attn_q_a_norm.weight");
    attn_q_b := model_find_tensor m (B "mtp.0.attn_q_b.weight");
    attn_kv := model_find_tensor m (B "mtp.0.attn_kv.weight");
    attn_kv_a_norm := model_find_tensor m (B "mtp.0.attn_kv_a_norm.weight");
    attn_sinks := model_find_tensor m (B "mtp.0.attn_sinks.weight");
    attn_output_a := model_find_tensor m (B "mtp.0.attn_output_a.weight");
    attn_output_b := model_find_tensor m (B "mtp.0.attn_output_b.weight");
    attn_compressor_ape := None;
    attn_compressor_kv := None;
    attn_compressor_gate := None;
    attn_compressor_norm := None;
    indexer_attn_q_b := None;
    indexer_proj := None;
    indexer_compressor_ape := None;
    indexer_compressor_kv := None;
    indexer_compressor_gate := None;
    indexer_compressor_norm := None;
    hc_ffn_fn := model_find_tensor m (B "mtp.0.hc_ffn_fn.weight");
    hc_ffn_scale := model_find_tensor m (B "mtp.0.hc_ffn_scale.weight");
    hc_ffn_base := model_find_tensor m (B "mtp.0.hc_ffn_base.weight");
    ffn_norm := model_find_tensor m (B "mtp.0.ffn_norm.weight");
    ffn_gate_tid2eid := None;
    ffn_gate_inp := model_find_tensor m (B "mtp.0.ffn_gate_inp.weight");
    ffn_exp_probs_b := model_find_tensor m (B "mtp.0.exp_probs_b.bias");
    ffn_gate_exps := model_find_tensor m (B "mtp.0.ffn_gate_exps.weight");
    ffn_up_exps := model_find_tensor m (B "mtp.0.ffn_up_exps.weight");
    ffn_down_exps := model_find_tensor m (B "mtp.0.ffn_down_exps.weight");
    ffn_gate_shexp := model_find_tensor m (B "mtp.0.ffn_gate_shexp.weight");
    ffn_up_shexp := model_find_tensor m (B "mtp.0.ffn_up_shexp.weight");
    ffn_down_shexp := model_find_tensor m (B "mtp.0.ffn_down_shexp.weight")
  |}
|}.

Lemma required_some (m : ds4_model) (name : bytes) (o : option ds4_tensor) : bound (required_tensor m name) = Ok o ->
  exists t, o = Some t /\ model_find_tensor m name = Some t.
Proof. unfold bound, required_tensor. destruct (model_find_tensor m name) as [t|]; [|done]. intros [= <-]. by exists t. Qed.

Lemma expect_plain_ok (o : option ds4_tensor) (ndim : nat) (d0 d1 d2 : Z) : (ndim <= 3)%nat ->
  tensor_expect_plain_layout o ndim d0 d1 d2 = Ok tt <-> holds o [DS4_TENSOR_F16; DS4_TENSOR_F32] (take ndim [d0; d1; d2]).
Proof.
  intros Hn. unfold tensor_expect_plain_layout, holds, has_layout. destruct o as [t|]; [|split; [done|intros (t & [=] & _)]].
  assert (Ht : negb (tensor_ty t =? DS4_TENSOR_F16) && negb (tensor_ty t =? DS4_TENSOR_F32) = false <-> tensor_ty t ∈ [DS4_TENSOR_F16; DS4_TENSOR_F32]).
  { rewrite !elem_of_cons, elem_of_nil, andb_false_iff, !negb_false_iff, !Z.eqb_eq. tauto. }
  destruct (negb _ && _).
  - split; [done|]. intros (t' & [= <-] & H%Ht & _). done.
  - rewrite expect_layout_ok by done. unfold has_layout. split; intros (t' & [= <-] & H & Hd); exists t; split; try done;
      (split; [|done]); [by apply Ht|by left].
Qed.

Definition mtp_complete (m : ds4_model) : Prop :=
  Forall (fun r => exists t, named m (B (r_name r)) (r_types r) (r_dims r) t) mtp_rows /\
  forall a b, model_find_tensor m (B "mtp.0.ffn_gate_exps.weight") = Some a ->
    model_find_tensor m (B "mtp.0.ffn_up_exps.weight") = Some b -> tensor_ty a = tensor_ty b.

Lemma mtp_of_rows (m : ds4_model) : Forall (fun r => r_get r (mtp_of m) = model_find_tensor m (B (r_name r))) mtp_rows.
Proof. unfold mtp_rows, mtp_of. repeat (apply Forall_cons; split); try apply Forall_nil_2; reflexivity. Qed.

Ltac mtp_spec := cbn zeta; repeat first
  [ apply then_ok | apply expect_layout_ok; lia | apply expect_plain_ok; lia | apply expect_routed_ok; lia | apply same_type_ok ].

Lemma mtp_fits (m : ds4_model) : Forall (fun r => exists t, named m (B (r_name r)) (r_types r) (r_dims r) t) mtp_rows <->
  Forall (fun r => holds (r_get r (mtp_of m)) (r_types r) (r_dims r)) mtp_rows.
Proof.
  pose proof (mtp_of_rows m) as H. rewrite Forall_forall in H. rewrite !Forall_forall. unfold holds, named.
  split; intros Hf r Hr; specialize (Hf r Hr); by rewrite (H r Hr) in *.
Qed.

Lemma mtp_check (m : ds4_model) : mtp_weights_validate_layout (mtp_of m) = Ok tt <-> mtp_complete m.
Proof.
  unfold mtp_weights_validate_layout, ds4_die, mtp_complete. rewrite mtp_fits. eapply iff_trans; [mtp_spec|]. symmetry.
  eapply iff_trans; [apply and_iff_compat_r; unfold mtp_rows; rows_spec|].
  cbn [r_get r_types r_dims take]. fold hc_dim hc_mix_dim q_dim out_low_dim.
  split; intros H; destruct_and! H; split_and!; try assumption; try done.
  - unfold holds in *. cbn [mtp_of block ffn_gate_exps ffn_up_exps] in *.
    destruct (model_find_tensor m (B "mtp.0.ffn_gate_exps.weight")) as [a|] eqn:Ea.
    2: { repeat match goal with H : exists t, None = Some t /\ _ |- _ => destruct H as (? & [=] & _) end. }
    destruct (model_find_tensor m (B "mtp.0.ffn_up_exps.weight")) as [b|] eqn:Eb.
    2: { repeat match goal with H : exists t, None = Some t /\ _ |- _ => destruct H as (? & [=] & _) end. }
    exists a, b. auto.
  - intros a b Ea Eb. match goal with H : exists x y, _ /\ _ /\ _ = _ |- _ => destruct H as (x & y & Hx & Hy & He) end.
    cbn [mtp_of block ffn_gate_exps ffn_up_exps] in Hx, Hy. congruence.
Qed.

Lemma mtp_bind_of (m : ds4_model) (w : ds4_mtp_weights) : mtp_weights_bind m = Ok w -> w = mtp_of m /\ mtp_complete m.
Proof.
  unfold mtp_weights_bind. intros E.
  repeat lazymatch type of E with (match bound ?e with Ok _ => _ | Error _ => _ end) = Ok _ =>
    let o := fresh "o" in let H := fresh "H" in
    destruct (bound e) as [o|] eqn:H; [|done]; apply required_eq in H; subst o end.
  pose proof (mtp_check m) as [Hc _]. unfold mtp_of in *. cbn zeta in *.
  destruct (mtp_weights_validate_layout _) as [[]|]; [|done]. injection E as <-. auto.
Qed.

Lemma mtp_bind_complete (m : ds4_model) : mtp_complete m -> mtp_weights_bind m = Ok (mtp_of m).
Proof.
  intros H. pose proof (proj2 (mtp_check m) H) as Hc. destruct H as [H _]. unfold mtp_weights_bind.
  assert (Hf : Forall (fun r => is_Some (model_find_tensor m (B (r_name r)))) mtp_rows).
  { eapply Forall_impl; [exact H|]. intros r (t & E & _). by exists t. }
  eapply rows_found in Hf; [|unfold mtp_rows; rows_spec]. cbn [r_name] in Hf. destruct_and! Hf.
  repeat (eapply bind_step; [apply required_found; assumption|]).
  unfold mtp_of in *. cbn zeta. by rewrite Hc.
Qed.

Lemma exits_mtp (m : ds4_model) : exits (mtp_weights_bind m).
Proof.
  unfold mtp_weights_bind. cbn zeta.
  repeat lazymatch goal with
  | |- exits (match bound ?e with Ok _ => _ | Error _ => _ end) =>
      apply exits_step; [auto with weights|intros ? (? & -> & _)%required_some] end.
  apply exits_step; [|done]. unfold mtp_weights_validate_layout, ds4_die. cbn [block].
  cbn [ffn_gate_exps ffn_up_exps ffn_down_exps]. exits_chain.
Qed.

(** The same for a sidecar: bound exactly when complete, each field the
    tensor of its name, and an exit with status 1 otherwise. *)
Theorem mtp_weights_bind_layout (m : ds4_model) :
  match mtp_weights_bind m with
  | Ok w => mtp_complete m /\ w = mtp_of m
  | Error e => ~ mtp_complete m /\ exists msg, e = Exit 1 msg
  end.
Proof.
  pose proof (exits_mtp m) as He. pose proof (mtp_bind_complete m) as Hc.
  destruct (mtp_weights_bind m) as [w|e] eqn:E; [by apply mtp_bind_of in E as [-> ?]|].
  split; [intros H; specialize (Hc H); discriminate Hc|]. destruct e as [c msg| |]; [|done|done]. exists msg. cbn in He. by rewrite He.
Qed.
