(* ===== verification/ModelConfig.v ===== *)
(** * Metadata checks of a model (ds4.c)

    [config_validate_model] and [config_validate_v100_source_model]: the
    metadata values that the fixed kernels rely on are read and compared with
    the shape of the model.  Floating-point values are compared in [float]
    with IEEE rounding, as in SourceFormats.v. *)
From Stdlib Require Import Floats.SpecFloat.
From S2P Require Import Prelude.
From S2P Require Import CNum.
From S2P Require Import LittleEndian.
From S2P Require Import SourceFormats.
From S2P Require Import Gguf.
From S2P Require Import Weights.

(** ** Required values *)

Definition missing_key {A} (key : bytes) : pres A := die_fmt "ds4: required metadata key is missing: %s\n" [AS key].

Definition required_u32 (m : ds4_model) (key : bytes) : pres Z :=
  match model_get_u32 m key with Some v => Ok v | None => missing_key key end.

Definition required_u64 (m : ds4_model) (key : bytes) : pres Z :=
  match model_find_kv m key with
  | None => missing_key key
  | Some kv =>
      if kv_type kv =? GGUF_VALUE_UINT64 then let* (v, _) := cursor_u64 (model_map m) (kv_value_pos kv) in Ok v
      else if kv_type kv =? GGUF_VALUE_UINT32 then let* (v, _) := cursor_u32 (model_map m) (kv_value_pos kv) in Ok v
      else die_fmt "ds4: metadata key has a non-integer type: %s\n" [AS key]
  end.


(** The double of eight bytes. *)
Definition f64_from_bits (bits : Z) : f64 :=
  let s := Z.testbit bits 63 in
  let e := Z.land (Z.shiftr bits 52) 2047 in
  let m := Z.land bits (2 ^ 52 - 1) in
  if e =? 0 then match m with Zpos p => S754_finite s p (-1074) | _ => S754_zero s end
  else if e =? 2047 then if m =? 0 then S754_infinity s else S754_nan
  else S754_finite s (Z.to_pos (m + 2 ^ 52)) (e - 1075).

Definition read_f32 (map : bytes) (pos : Z) : pres (f32 * Z) :=
  let* (b, pos) := cursor_read map pos 4 in Ok (f32_from_bits (le_value b), pos).
Definition read_f64 (map : bytes) (pos : Z) : pres (f64 * Z) :=
  let* (b, pos) := cursor_read map pos 8 in Ok (f64_from_bits (le_value b), pos).
Definition read_i32 (map : bytes) (pos : Z) : pres (Z * Z) :=
  let* (b, pos) := cursor_read map pos 4 in Ok (to_int (le_value b), pos).

Definition required_f32 (m : ds4_model) (key : bytes) : pres f32 :=
  match model_find_kv m key with
  | None => missing_key key
  | Some kv =>
      let pos := kv_value_pos kv in
      if kv_type kv =? GGUF_VALUE_FLOAT32 then let* (v, _) := read_f32 (model_map m) pos in Ok v
      else if kv_type kv =? GGUF_VALUE_FLOAT64 then let* (v, _) := read_f64 (model_map m) pos in Ok (f32_of_f64 v)
      else if kv_type kv =? GGUF_VALUE_UINT32 then let* (v, _) := cursor_u32 (model_map m) pos in Ok (f32_of_int v)
      else if kv_type kv =? GGUF_VALUE_INT32 then let* (v, _) := read_i32 (model_map m) pos in Ok (f32_of_int v)
      else die_fmt "ds4: metadata key has a non-float type %u: %s\n" [AZ (kv_type kv); AS key]
  end.

Definition required_bool (m : ds4_model) (key : bytes) : pres bool :=
  match model_get_bool m key with Some v => Ok v | None => missing_key key end.

(** ** Comparisons *)

Definition config_expect_u32 (name : string) (got expected : Z) : pres unit :=
  if got =? expected then Ok tt
  else die_fmt "ds4: expected %s=%u for DeepSeek4 Flash, got %u\n" [AS (B name); AZ expected; AZ got].

(** [1.0e-6f]. *)
Definition f32_1e_6 : f32 := f32_from_bits 0x358637BD.

(** The condition of [config_expect_f32]. *)
Definition f32_close (got expected : f32) : bool :=
  let scale := if SFltb (f32_of_int 1) (SFabs expected) then SFabs expected else f32_of_int 1 in
  SFleb (SFabs (SFsub 24 128 got expected)) (f32_mul scale f32_1e_6).

Definition config_expect_f32 (name : string) (got expected : f32) : pres unit :=
  if f32_close got expected then Ok tt
  else die_fmt "ds4: expected %s=%.9g for DeepSeek4 Flash, got %.9g\n" [AS (B name); AF (f64_of_f32 expected); AF (f64_of_f32 got)].

Definition true_false (b : bool) : bytes := if b then B "true" else B "false".

Definition config_expect_bool (name : string) (got expected : bool) : pres unit :=
  if Bool.eqb got expected then Ok tt
  else die_fmt "ds4: expected %s=%s for DeepSeek4 Flash, got %s\n" [AS (B name); AS (true_false expected); AS (true_false got)].

(** The constants of the floating-point metadata. *)
Definition DS4_RMS_EPS : f32 := f32_1e_6.
Definition DS4_HC_EPS : f32 := f32_1e_6.
Definition DS4_EXPERT_WEIGHT_SCALE : f32 := f32_from_bits 0x3FC00000.
Definition DS4_SWIGLU_CLAMP_EXP : f32 := f32_of_int 10.
Definition DS4_ROPE_FREQ_BASE : f32 := f32_of_int 10000.
Definition DS4_ROPE_SCALE_FACTOR : f32 := f32_of_int 16.
Definition DS4_ROPE_YARN_BETA_FAST : f32 := f32_of_int 32.
Definition DS4_ROPE_YARN_BETA_SLOW : f32 := f32_of_int 1.
Definition DS4_COMPRESS_ROPE_FREQ_BASE : f32 := f32_of_int 160000.
Definition DS4_ROPE_ORIG_CTX : Z := 65536.

(** ** Arrays of a value per layer *)

Definition ratios_key : bytes := B "deepseek4.attention.compress_ratios".
Definition clamps_key : bytes := B "deepseek4.swiglu_clamp_exp".

Definition read_ratio (map : bytes) (type pos : Z) : pres (Z * Z) :=
  if type =? GGUF_VALUE_UINT32 then cursor_u32 map pos
  else
    let* (v, pos) := read_i32 map pos in
    if v <? 0 then ds4_die (B "metadata array contains a negative value") else Ok (u32 v, pos).

(** The loop over the layers, from position [pos]. *)
Fixpoint ratio_loop (map : bytes) (type : Z) (ils : list Z) (pos : Z) : pres unit :=
  match ils with
  | [] => Ok tt
  | il :: ils =>
      let* (got, pos) := read_ratio map type pos in
      expected <- ds4_layer_compress_ratio il ;;
      if got =? expected then ratio_loop map type ils pos
      else die_fmt "ds4: unexpected DeepSeek4 compression ratio at layer %u: got %u, expected %u\n" [AZ il; AZ got; AZ expected]
  end.

Definition validate_compress_ratio_metadata (m : ds4_model) : pres unit :=
  match model_get_array m ratios_key with
  | Some arr =>
      if negb (arr_type arr =? GGUF_VALUE_UINT32) && negb (arr_type arr =? GGUF_VALUE_INT32)
      then die_fmt "ds4: required int32/uint32 array metadata key is missing: %s\n" [AS ratios_key]
      else if arr_len arr <? DS4_N_LAYER
      then ds4_die (B "deepseek4.attention.compress_ratios is shorter than the layer count")
      else ratio_loop (model_map m) (arr_type arr) layers (arr_data_pos arr)
  | None => die_fmt "ds4: required int32/uint32 array metadata key is missing: %s\n" [AS ratios_key]
  end.

Definition read_clamp (map : bytes) (type pos : Z) : pres (f32 * Z) :=
  if type =? GGUF_VALUE_FLOAT32 then read_f32 map pos
  else let* (v, pos) := read_f64 map pos in Ok (f32_of_f64 v, pos).

Fixpoint clamp_loop (map : bytes) (type : Z) (ils : list Z) (pos : Z) : pres unit :=
  match ils with
  | [] => Ok tt
  | il :: ils =>
      let* (got, pos) := read_clamp map type pos in
      config_expect_f32 "swiglu_clamp_exp" got DS4_SWIGLU_CLAMP_EXP ;; clamp_loop map type ils pos
  end.

Definition validate_swiglu_clamp_metadata (m : ds4_model) : pres unit :=
  match model_get_array m clamps_key with
  | Some arr =>
      if negb (arr_type arr =? GGUF_VALUE_FLOAT32) && negb (arr_type arr =? GGUF_VALUE_FLOAT64)
      then die_fmt "ds4: required float array metadata key is missing: %s\n" [AS clamps_key]
      else if arr_len arr <? DS4_N_LAYER
      then ds4_die (B "deepseek4.swiglu_clamp_exp is shorter than the layer count")
      else clamp_loop (model_map m) (arr_type arr) layers (arr_data_pos arr)
  | None => die_fmt "ds4: required float array metadata key is missing: %s\n" [AS clamps_key]
  end.

(** ** The two validations *)

Definition config_validate_fixed_shape (n_layer : Z) : pres unit := config_expect_u32 "block_count" n_layer DS4_N_LAYER.

Definition config_validate_model (m : ds4_model) : pres unit :=
  n_layer <- required_u32 m (B "deepseek4.block_count") ;;
  n_embd <- required_u32 m (B "deepseek4.embedding_length") ;;
  n_vocab <- required_u32 m (B "deepseek4.vocab_size") ;;
  n_head <- required_u32 m (B "deepseek4.attention.head_count") ;;
  n_head_kv <- required_u32 m (B "deepseek4.attention.head_count_kv") ;;
  n_head_dim <- required_u32 m (B "deepseek4.attention.key_length") ;;
  n_value_dim <- required_u32 m (B "deepseek4.attention.value_length") ;;
  n_rot <- required_u32 m (B "deepseek4.rope.dimension_count") ;;
  n_lora_q <- required_u32 m (B "deepseek4.attention.q_lora_rank") ;;
  n_lora_o <- required_u32 m (B "deepseek4.attention.output_lora_rank") ;;
  n_out_group <- required_u32 m (B "deepseek4.attention.output_group_count") ;;
  n_expert <- required_u32 m (B "deepseek4.expert_count") ;;
  n_expert_used <- required_u32 m (B "deepseek4.expert_used_count") ;;
  n_ff_exp <- required_u32 m (B "deepseek4.expert_feed_forward_length") ;;
  n_expert_shared <- required_u32 m (B "deepseek4.expert_shared_count") ;;
  n_hash_layer <- required_u32 m (B "deepseek4.hash_layer_count") ;;
  let n_expert_groups := default 0 (model_get_u32 m (B "deepseek4.expert_group_count")) in
  let n_group_used := default 0 (model_get_u32 m (B "deepseek4.expert_group_used_count")) in
  config_expect_u32 "embedding_length" n_embd DS4_N_EMBD ;;
  config_expect_u32 "vocab_size" n_vocab DS4_N_VOCAB ;;
  config_expect_u32 "attention.head_count" n_head DS4_N_HEAD ;;
  config_expect_u32 "attention.key_length" n_head_dim DS4_N_HEAD_DIM ;;
  config_expect_u32 "attention.head_count_kv" n_head_kv DS4_N_HEAD_KV ;;
  config_expect_u32 "attention.value_length" n_value_dim DS4_N_VALUE_DIM ;;
  config_expect_u32 "rope.dimension_count" n_rot DS4_N_ROT ;;
  config_expect_u32 "attention.output_group_count" n_out_group DS4_N_OUT_GROUP ;;
  config_expect_u32 "attention.q_lora_rank" n_lora_q DS4_N_LORA_Q ;;
  config_expect_u32 "attention.output_lora_rank" n_lora_o DS4_N_LORA_O ;;
  config_expect_u32 "expert_count" n_expert DS4_N_EXPERT ;;
  config_expect_u32 "expert_used_count" n_expert_used DS4_N_EXPERT_USED ;;
  config_expect_u32 "expert_feed_forward_length" n_ff_exp DS4_N_FF_EXP ;;
  config_expect_u32 "expert_shared_count" n_expert_shared DS4_N_EXPERT_SHARED ;;
  config_expect_u32 "hash_layer_count" n_hash_layer DS4_N_HASH_LAYER ;;
  config_expect_u32 "expert_group_count" n_expert_groups 0 ;;
  config_expect_u32 "expert_group_used_count" n_group_used 0 ;;
  n_swa <- required_u32 m (B "deepseek4.attention.sliding_window") ;;
  config_expect_u32 "attention.sliding_window" n_swa DS4_N_SWA ;;
  n_indexer_head <- required_u32 m (B "deepseek4.attention.indexer.head_count") ;;
  n_indexer_head_dim <- required_u32 m (B "deepseek4.attention.indexer.key_length") ;;
  n_indexer_top_k <- required_u32 m (B "deepseek4.attention.indexer.top_k") ;;
  config_expect_u32 "attention.indexer.head_count" n_indexer_head DS4_N_INDEXER_HEAD ;;
  config_expect_u32 "attention.indexer.key_length" n_indexer_head_dim DS4_N_INDEXER_HEAD_DIM ;;
  config_expect_u32 "attention.indexer.top_k" n_indexer_top_k DS4_N_INDEXER_TOP_K ;;
  n_hc <- required_u32 m (B "deepseek4.hyper_connection.count") ;;
  config_expect_u32 "hyper_connection.count" n_hc DS4_N_HC ;;
  n_hc_sinkhorn_iter <- required_u32 m (B "deepseek4.hyper_connection.sinkhorn_iterations") ;;
  config_expect_u32 "hyper_connection.sinkhorn_iterations" n_hc_sinkhorn_iter DS4_N_HC_SINKHORN_ITER ;;
  config_validate_fixed_shape n_layer ;;
  validate_compress_ratio_metadata m ;;
  validate_swiglu_clamp_metadata m ;;
  rope_orig_ctx <- required_u64 m (B "deepseek4.rope.scaling.original_context_length") ;;
  (if negb (rope_orig_ctx =? DS4_ROPE_ORIG_CTX)
   then die_fmt "ds4: expected rope.scaling.original_context_length=%llu for DeepSeek4 Flash, got %llu\n" [AZ DS4_ROPE_ORIG_CTX; AZ rope_orig_ctx]
   else Ok tt) ;;
  rope_freq_base <- required_f32 m (B "deepseek4.rope.freq_base") ;;
  config_expect_f32 "rope.freq_base" rope_freq_base DS4_ROPE_FREQ_BASE ;;
  rope_scale_factor <- required_f32 m (B "deepseek4.rope.scaling.factor") ;;
  config_expect_f32 "rope.scaling.factor" rope_scale_factor DS4_ROPE_SCALE_FACTOR ;;
  rope_yarn_beta_fast <- required_f32 m (B "deepseek4.rope.scaling.yarn_beta_fast") ;;
  config_expect_f32 "rope.scaling.yarn_beta_fast" rope_yarn_beta_fast DS4_ROPE_YARN_BETA_FAST ;;
  rope_yarn_beta_slow <- required_f32 m (B "deepseek4.rope.scaling.yarn_beta_slow") ;;
  config_expect_f32 "rope.scaling.yarn_beta_slow" rope_yarn_beta_slow DS4_ROPE_YARN_BETA_SLOW ;;
  compress_rope_freq_base <- required_f32 m (B "deepseek4.attention.compress_rope_freq_base") ;;
  config_expect_f32 "attention.compress_rope_freq_base" compress_rope_freq_base DS4_COMPRESS_ROPE_FREQ_BASE ;;
  expert_weight_scale <- required_f32 m (B "deepseek4.expert_weights_scale") ;;
  config_expect_f32 "expert_weights_scale" expert_weight_scale DS4_EXPERT_WEIGHT_SCALE ;;
  rms_eps <- required_f32 m (B "deepseek4.attention.layer_norm_rms_epsilon") ;;
  config_expect_f32 "attention.layer_norm_rms_epsilon" rms_eps DS4_RMS_EPS ;;
  hc_eps <- required_f32 m (B "deepseek4.hyper_connection.epsilon") ;;
  config_expect_f32 "hyper_connection.epsilon" hc_eps DS4_HC_EPS ;;
  expert_weight_norm <- required_bool m (B "deepseek4.expert_weights_norm") ;;
  config_expect_bool "expert_weights_norm" expert_weight_norm true.

Definition config_validate_v100_source_model (m : ds4_model) : pres unit :=
  n_layer <- required_u32 m (B "deepseek4.block_count") ;;
  n_embd <- required_u32 m (B "deepseek4.embedding_length") ;;
  n_vocab <- required_u32 m (B "deepseek4.vocab_size") ;;
  n_head <- required_u32 m (B "deepseek4.attention.head_count") ;;
  n_head_kv <- required_u32 m (B "deepseek4.attention.head_count_kv") ;;
  n_head_dim <- required_u32 m (B "deepseek4.attention.key_length") ;;
  n_value_dim <- required_u32 m (B "deepseek4.attention.value_length") ;;
  n_rot <- required_u32 m (B "deepseek4.rope.dimension_count") ;;
  n_lora_q <- required_u32 m (B "deepseek4.attention.q_lora_rank") ;;
  n_expert <- required_u32 m (B "deepseek4.expert_count") ;;
  n_expert_used <- required_u32 m (B "deepseek4.expert_used_count") ;;
  n_ff_exp <- required_u32 m (B "deepseek4.expert_feed_forward_length") ;;
  n_expert_shared <- required_u32 m (B "deepseek4.expert_shared_count") ;;
  n_swa <- required_u32 m (B "deepseek4.attention.sliding_window") ;;
  n_dense <- required_u32 m (B "deepseek4.leading_dense_block_count") ;;
  n_indexer_head <- required_u32 m (B "deepseek4.attention.indexer.head_count") ;;
  n_indexer_head_dim <- required_u32 m (B "deepseek4.attention.indexer.key_length") ;;
  n_indexer_top_k <- required_u32 m (B "deepseek4.attention.indexer.top_k") ;;
  config_expect_u32 "block_count" n_layer DS4_N_LAYER ;;
  config_expect_u32 "embedding_length" n_embd DS4_N_EMBD ;;
  config_expect_u32 "vocab_size" n_vocab DS4_N_VOCAB ;;
  config_expect_u32 "attention.head_count" n_head DS4_N_HEAD ;;
  config_expect_u32 "attention.head_count_kv" n_head_kv DS4_N_HEAD_KV ;;
  config_expect_u32 "attention.key_length" n_head_dim DS4_N_HEAD_DIM ;;
  config_expect_u32 "attention.value_length" n_value_dim DS4_N_VALUE_DIM ;;
  config_expect_u32 "rope.dimension_count" n_rot DS4_N_ROT ;;
  config_expect_u32 "attention.q_lora_rank" n_lora_q DS4_N_LORA_Q ;;
  config_expect_u32 "expert_count" n_expert DS4_N_EXPERT ;;
  config_expect_u32 "expert_used_count" n_expert_used DS4_N_EXPERT_USED ;;
  config_expect_u32 "expert_feed_forward_length" n_ff_exp DS4_N_FF_EXP ;;
  config_expect_u32 "expert_shared_count" n_expert_shared DS4_N_EXPERT_SHARED ;;
  config_expect_u32 "attention.sliding_window" n_swa DS4_N_SWA ;;
  config_expect_u32 "leading_dense_block_count" n_dense 0 ;;
  config_expect_u32 "attention.indexer.head_count" n_indexer_head DS4_N_INDEXER_HEAD ;;
  config_expect_u32 "attention.indexer.key_length" n_indexer_head_dim DS4_N_INDEXER_HEAD_DIM ;;
  config_expect_u32 "attention.indexer.top_k" n_indexer_top_k DS4_N_INDEXER_TOP_K ;;
  rope_freq_base <- required_f32 m (B "deepseek4.rope.freq_base") ;;
  config_expect_f32 "rope.freq_base" rope_freq_base DS4_ROPE_FREQ_BASE ;;
  rms_eps <- required_f32 m (B "deepseek4.attention.layer_norm_rms_epsilon") ;;
  config_expect_f32 "attention.layer_norm_rms_epsilon" rms_eps DS4_RMS_EPS ;;
  expert_weight_scale <- required_f32 m (B "deepseek4.expert_weights_scale") ;;
  config_expect_f32 "expert_weights_scale" expert_weight_scale DS4_EXPERT_WEIGHT_SCALE ;;
  expert_weight_norm <- required_bool m (B "deepseek4.expert_weights_norm") ;;
  config_expect_bool "expert_weights_norm" expert_weight_norm true ;;
  validate_swiglu_clamp_metadata m.
