(* ===== verification/ModelConfigProps.v ===== *)
(** * What the metadata checks accept

    The metadata that the checks of the two layouts ask for, as tables, and
    the equivalence of the checks with them. *)
From Stdlib Require Import Floats.SpecFloat.
From S2P Require Import Prelude.
From S2P Require Import CNum.
From S2P Require Import LittleEndian.
From S2P Require Import SourceFormats.
From S2P Require Import Gguf.
From S2P Require Import GgufProps.
From S2P Require Import Weights.
From S2P Require Import WeightsLayout.
From S2P Require Import WeightsProps.
From S2P Require Import ModelConfig.

(** ** The tables *)

(** Keys of 32-bit values and what they must be, and keys of values that must
    be close to a [float]. *)
Definition plain_ints : list (string * Z) :=
  [("deepseek4.block_count", DS4_N_LAYER);
   ("deepseek4.embedding_length", DS4_N_EMBD);
   ("deepseek4.vocab_size", DS4_N_VOCAB);
   ("deepseek4.attention.head_count", DS4_N_HEAD);
   ("deepseek4.attention.head_count_kv", DS4_N_HEAD_KV);
   ("deepseek4.attention.key_length", DS4_N_HEAD_DIM);
   ("deepseek4.attention.value_length", DS4_N_VALUE_DIM);
   ("deepseek4.rope.dimension_count", DS4_N_ROT);
   ("deepseek4.attention.q_lora_rank", DS4_N_LORA_Q);
   ("deepseek4.attention.output_lora_rank", DS4_N_LORA_O);
   ("deepseek4.attention.output_group_count", DS4_N_OUT_GROUP);
   ("deepseek4.expert_count", DS4_N_EXPERT);
   ("deepseek4.expert_used_count", DS4_N_EXPERT_USED);
   ("deepseek4.expert_feed_forward_length", DS4_N_FF_EXP);
   ("deepseek4.expert_shared_count", DS4_N_EXPERT_SHARED);
   ("deepseek4.hash_layer_count", DS4_N_HASH_LAYER);
   ("deepseek4.attention.sliding_window", DS4_N_SWA);
   ("deepseek4.attention.indexer.head_count", DS4_N_INDEXER_HEAD);
   ("deepseek4.attention.indexer.key_length", DS4_N_INDEXER_HEAD_DIM);
   ("deepseek4.attention.indexer.top_k", DS4_N_INDEXER_TOP_K);
   ("deepseek4.hyper_connection.count", DS4_N_HC);
   ("deepseek4.hyper_connection.sinkhorn_iterations", DS4_N_HC_SINKHORN_ITER)].

Definition plain_floats : list (string * f32) :=
  [("deepseek4.rope.freq_base", DS4_ROPE_FREQ_BASE);
   ("deepseek4.rope.scaling.factor", DS4_ROPE_SCALE_FACTOR);
   ("deepseek4.rope.scaling.yarn_beta_fast", DS4_ROPE_YARN_BETA_FAST);
   ("deepseek4.rope.scaling.yarn_beta_slow", DS4_ROPE_YARN_BETA_SLOW);
   ("deepseek4.attention.compress_rope_freq_base", DS4_COMPRESS_ROPE_FREQ_BASE);
   ("deepseek4.expert_weights_scale", DS4_EXPERT_WEIGHT_SCALE);
   ("deepseek4.attention.layer_norm_rms_epsilon", DS4_RMS_EPS);
   ("deepseek4.hyper_connection.epsilon", DS4_HC_EPS)].

Definition source_ints : list (string * Z) :=
  [("deepseek4.block_count", DS4_N_LAYER);
   ("deepseek4.embedding_length", DS4_N_EMBD);
   ("deepseek4.vocab_size", DS4_N_VOCAB);
   ("deepseek4.attention.head_count", DS4_N_HEAD);
   ("deepseek4.attention.head_count_kv", DS4_N_HEAD_KV);
   ("deepseek4.attention.key_length", DS4_N_HEAD_DIM);
   ("deepseek4.attention.value_length", DS4_N_VALUE_DIM);
   ("deepseek4.rope.dimension_count", DS4_N_ROT);
   ("deepseek4.attention.q_lora_rank", DS4_N_LORA_Q);
   ("deepseek4.expert_count", DS4_N_EXPERT);
   ("deepseek4.expert_used_count", DS4_N_EXPERT_USED);
   ("deepseek4.expert_feed_forward_length", DS4_N_FF_EXP);
   ("deepseek4.expert_shared_count", DS4_N_EXPERT_SHARED);
   ("deepseek4.attention.sliding_window", DS4_N_SWA);
   ("deepseek4.leading_dense_block_count", 0);
   ("deepseek4.attention.indexer.head_count", DS4_N_INDEXER_HEAD);
   ("deepseek4.attention.indexer.key_length", DS4_N_INDEXER_HEAD_DIM);
   ("deepseek4.attention.indexer.top_k", DS4_N_INDEXER_TOP_K)].

Definition source_floats : list (string * f32) :=
  [("deepseek4.rope.freq_base", DS4_ROPE_FREQ_BASE);
   ("deepseek4.attention.layer_norm_rms_epsilon", DS4_RMS_EPS);
   ("deepseek4.expert_weights_scale", DS4_EXPERT_WEIGHT_SCALE)].

(** [n] values read one behind the other. *)
Fixpoint read_all {A} (read : Z -> pres (A * Z)) (n : nat) (pos : Z) : pres (list A) :=
  match n with
  | O => Ok []
  | S n => let* (a, pos) := read pos in l <- read_all read n pos ;; Ok (a :: l)
  end.

(** An array of one value per layer. *)
Definition per_layer {A} (m : ds4_model) (key : bytes) (types : list Z) (read : bytes -> Z -> Z -> pres (A * Z)) (values : list A) : Prop :=
  exists arr, model_get_array m key = Some arr /\ arr_type arr ∈ types /\ DS4_N_LAYER <= arr_len arr /\
    read_all (read (model_map m) (arr_type arr)) (length layers) (arr_data_pos arr) = Ok values.

Definition int_is (m : ds4_model) (f : string * Z) : Prop := model_get_u32 m (B (fst f)) = Some (snd f).
Definition float_close (m : ds4_model) (f : string * f32) : Prop := exists x, required_f32 m (B (fst f)) = Ok x /\ f32_close x (snd f) = true.

Definition ratios_ok (m : ds4_model) : Prop :=
  per_layer m ratios_key [GGUF_VALUE_UINT32; GGUF_VALUE_INT32] read_ratio (map ratio_of layers).
Definition clamps_ok (m : ds4_model) : Prop :=
  exists l, per_layer m clamps_key [GGUF_VALUE_FLOAT32; GGUF_VALUE_FLOAT64] read_clamp l /\
    Forall (fun x => f32_close x DS4_SWIGLU_CLAMP_EXP = true) l.

Definition plain_config (m : ds4_model) : Prop :=
  Forall (int_is m) plain_ints /\
  default 0 (model_get_u32 m (B "deepseek4.expert_group_count")) = 0 /\
  default 0 (model_get_u32 m (B "deepseek4.expert_group_used_count")) = 0 /\
  ratios_ok m /\ clamps_ok m /\
  required_u64 m (B "deepseek4.rope.scaling.original_context_length") = Ok DS4_ROPE_ORIG_CTX /\
  Forall (float_close m) plain_floats /\
  model_get_bool m (B "deepseek4.expert_weights_norm") = Some true.

Definition source_config (m : ds4_model) : Prop :=
  Forall (int_is m) source_ints /\ Forall (float_close m) source_floats /\
  model_get_bool m (B "deepseek4.expert_weights_norm") = Some true /\ clamps_ok m.

(** ** The loops over the layers *)

Lemma ratio_loop_ok (map : bytes) (type : Z) (ils : list Z) : Forall (fun il => il ∈ layers) ils -> forall pos,
  ratio_loop map type ils pos = Ok tt <-> read_all (read_ratio map type) (length ils) pos = Ok (List.map ratio_of ils).
Proof.
  induction 1 as [|il ils Hil _ IH]; intros pos; cbn [ratio_loop length read_all List.map]; [done|].
  destruct (read_ratio map type pos) as [[got q]|]; [|done]. rewrite ratio_spec by done.
  destruct (Z.eqb_spec got (ratio_of il)) as [->|Hne].
  - rewrite IH. destruct (read_all _ _ q) as [l|]; [|done]. split; [by intros [= ->]|by intros [= ->]].
  - split; [done|]. destruct (read_all _ _ q) as [l|]; [|done]. by intros [= ? _].
Qed.

Lemma clamp_loop_ok (map : bytes) (type : Z) (ils : list Z) : forall pos,
  clamp_loop map type ils pos = Ok tt <->
  exists l, read_all (read_clamp map type) (length ils) pos = Ok l /\ Forall (fun x => f32_close x DS4_SWIGLU_CLAMP_EXP = true) l.
Proof.
  induction ils as [|il ils IH]; intros pos; cbn [clamp_loop length read_all].
  { split; [|done]. intros _. exists []. by split; [|constructor]. }
  destruct (read_clamp map type pos) as [[x q]|]; [|split; [done|by intros (? & [=] & _)]].
  unfold config_expect_f32. destruct (f32_close x DS4_SWIGLU_CLAMP_EXP) eqn:Ec.
  - rewrite IH. destruct (read_all _ _ q) as [l|].
    + split; [intros (? & [= <-] & H); exists (x :: l); split; [done|by constructor]|].
      intros (? & [= <-] & [_ H]%Forall_cons). by exists l.
    + split; by intros (? & [=] & _).
  - split; [done|]. destruct (read_all _ _ q) as [l|]; [|by intros (? & [=] & _)].
    intros (? & [= <-] & [H _]%Forall_cons). congruence.
Qed.

Lemma type_in (type a b : Z) : negb (type =? a) && negb (type =? b) = false <-> type ∈ [a; b].
Proof. rewrite !elem_of_cons, elem_of_nil, andb_false_iff, !negb_false_iff, !Z.eqb_eq. tauto. Qed.

Lemma ratios_valid (m : ds4_model) : validate_compress_ratio_metadata m = Ok tt <-> ratios_ok m.
Proof.
  unfold validate_compress_ratio_metadata, ratios_ok, per_layer. destruct (model_get_array m ratios_key) as [arr|]; [|split; [done|by intros (? & [=] & _)]].
  destruct (negb _ && _) eqn:Et.
  { split; [done|]. intros (? & [= <-] & H%type_in & _). congruence. }
  apply type_in in Et. destruct (Z.ltb_spec (arr_len arr) DS4_N_LAYER).
  { split; [done|]. intros (? & [= <-] & _ & H' & _). lia. }
  rewrite ratio_loop_ok by (by apply Forall_forall). split; [intros H'; by exists arr|by intros (? & [= <-] & _ & _ & ?)].
Qed.

Lemma clamps_valid (m : ds4_model) : validate_swiglu_clamp_metadata m = Ok tt <-> clamps_ok m.
Proof.
  unfold validate_swiglu_clamp_metadata, clamps_ok, per_layer. destruct (model_get_array m clamps_key) as [arr|]; [|split; [done|by intros (? & (? & [=] & _) & _)]].
  destruct (negb _ && _) eqn:Et.
  { split; [done|]. intros (? & (? & [= <-] & H%type_in & _) & _). congruence. }
  apply type_in in Et. destruct (Z.ltb_spec (arr_len arr) DS4_N_LAYER).
  { split; [done|]. intros (? & (? & [= <-] & _ & H' & _) & _). lia. }
  rewrite clamp_loop_ok. split; [intros (l & Hl & Hc); exists l; split; [by exists arr|done]|].
  intros (l & (? & [= <-] & _ & _ & Hl) & Hc). by exists l.
Qed.

(** ** The checks *)

Lemma u32_get (m : ds4_model) (key : bytes) (x : Z) : required_u32 m key = Ok x <-> model_get_u32 m key = Some x.
Proof. unfold required_u32. destruct (model_get_u32 m key); [|done]. split; by intros [= ->]. Qed.

Lemma bool_get (m : ds4_model) (key : bytes) (x : bool) : required_bool m key = Ok x <-> model_get_bool m key = Some x.
Proof. unfold required_bool. destruct (model_get_bool m key); [|done]. split; by intros [= ->]. Qed.

Lemma expect_u32_ok (name : string) (a b : Z) : config_expect_u32 name a b = Ok tt <-> a = b.
Proof. unfold config_expect_u32. destruct (Z.eqb_spec a b); done. Qed.

Lemma expect_f32_ok (name : string) (a b : f32) : config_expect_f32 name a b = Ok tt <-> f32_close a b = true.
Proof. unfold config_expect_f32. by destruct (f32_close a b). Qed.

Lemma expect_bool_ok (name : string) (a b : bool) : config_expect_bool name a b = Ok tt <-> a = b.
Proof. unfold config_expect_bool. by destruct a, b. Qed.

(** Steps through a check that succeeded: what each read gave and each
    comparison showed. *)
Ltac config_inv E :=
  repeat lazymatch type of E with
  | (match ?e with Ok _ => _ | Error _ => _ end) = Ok _ =>
      let H := fresh "H" in
      lazymatch e with
      | required_u32 _ _ => destruct e as [?|] eqn:H; [apply u32_get in H|done]
      | required_bool _ _ => destruct e as [?|] eqn:H; [apply bool_get in H|done]
      | config_expect_u32 _ _ _ => destruct e as [[]|] eqn:H; [apply expect_u32_ok in H; try subst|done]
      | config_expect_f32 _ _ _ => destruct e as [[]|] eqn:H; [apply expect_f32_ok in H|done]
      | config_expect_bool _ _ _ => destruct e as [[]|] eqn:H; [apply expect_bool_ok in H; try subst|done]
      | validate_compress_ratio_metadata _ => destruct e as [[]|] eqn:H; [apply ratios_valid in H|done]
      | validate_swiglu_clamp_metadata _ => destruct e as [[]|] eqn:H; [apply clamps_valid in H|done]
      | (if ?b then _ else _) => destruct b eqn:H; [done|cbn iota in E]
      | _ => destruct e as [?|] eqn:H; [|done]
      end
  end.

(** And the other way. *)
Ltac config_go :=
  repeat lazymatch goal with
  | |- (match ?e with Ok _ => _ | Error _ => _ end) = Ok tt =>
      eapply bind_step;
      [lazymatch e with
       | required_u32 _ _ => apply u32_get; eassumption
       | required_bool _ _ => apply bool_get; eassumption
       | config_expect_u32 _ _ _ => apply expect_u32_ok; first [reflexivity|assumption]
       | config_expect_f32 _ _ _ => apply expect_f32_ok; assumption
       | config_expect_bool _ _ _ => apply expect_bool_ok; reflexivity
       | validate_compress_ratio_metadata _ => apply ratios_valid; assumption
       | validate_swiglu_clamp_metadata _ => apply clamps_valid; assumption
       | (if ?b then _ else _) => reflexivity
       | _ => eassumption
       end|]
  end.

Ltac tables H := eapply Forall_cons in H as [? H]; cbn [fst snd] in *.

Lemma plain_valid (m : ds4_model) : config_validate_model m = Ok tt <-> plain_config m.
Proof.
  unfold config_validate_model, config_validate_fixed_shape, plain_config. split.
  - intros E. cbn zeta in E. config_inv E. apply expect_bool_ok in E. subst.
    split; [unfold plain_ints; repeat (apply Forall_cons; split; [assumption|]); apply Forall_nil_2|].
    split_and!; try assumption.
    + match goal with H : negb (_ =? DS4_ROPE_ORIG_CTX) = false |- _ => apply negb_false_iff, Z.eqb_eq in H end. by subst.
    + unfold plain_floats; repeat (apply Forall_cons; split; [eexists; split; eassumption|]); apply Forall_nil_2.
  - intros (Hi & Hg & Hu & Hr & Hc & Ho & Hf & Hb). unfold plain_ints, plain_floats, int_is, float_close in *. cbn zeta.
    repeat (apply Forall_cons in Hi as [? Hi]). repeat (apply Forall_cons in Hf as [(? & ? & ?) Hf]). cbn [fst snd] in *.
    config_go. by apply expect_bool_ok.
Qed.

Lemma source_valid (m : ds4_model) : config_validate_v100_source_model m = Ok tt <-> source_config m.
Proof.
  unfold config_validate_v100_source_model, source_config. split.
  - intros E. config_inv E. apply clamps_valid in E.
    split; [unfold source_ints; repeat (apply Forall_cons; split; [assumption|]); apply Forall_nil_2|].
    split; [unfold source_floats; repeat (apply Forall_cons; split; [eexists; split; eassumption|]); apply Forall_nil_2|]. by split.
  - intros (Hi & Hf & Hb & Hc). unfold source_ints, source_floats, int_is, float_close in *.
    repeat (apply Forall_cons in Hi as [? Hi]). repeat (apply Forall_cons in Hf as [(? & ? & ?) Hf]). cbn [fst snd] in *.
    config_go. by apply clamps_valid.
Qed.

(** ** Every failure is an exit *)

Lemma exits_missing {A} (key : bytes) : exits (missing_key key : pres A).
Proof. exact eq_refl. Qed.

Lemma exits_fst {A C} (e : pres (A * Z)) (f : A -> pres C) : exits e -> (forall a, exits (f a)) -> exits (let* (v, _) := e in f v).
Proof. destruct e as [[a q]|]; cbn; auto. Qed.

Lemma exits_u32 (m : ds4_model) (key : bytes) : exits (required_u32 m key).
Proof. unfold required_u32. by destruct (model_get_u32 m key). Qed.

Lemma exits_bool (m : ds4_model) (key : bytes) : exits (required_bool m key).
Proof. unfold required_bool. by destruct (model_get_bool m key). Qed.

Lemma exits_f32_read (map : bytes) (pos : Z) : exits (read_f32 map pos).
Proof. unfold read_f32. pose proof (read_exits map pos 4). by destruct (cursor_read map pos 4) as [[]|]. Qed.
Lemma exits_f64_read (map : bytes) (pos : Z) : exits (read_f64 map pos).
Proof. unfold read_f64. pose proof (read_exits map pos 8). by destruct (cursor_read map pos 8) as [[]|]. Qed.
Lemma exits_i32_read (map : bytes) (pos : Z) : exits (read_i32 map pos).
Proof. unfold read_i32. pose proof (read_exits map pos 4). by destruct (cursor_read map pos 4) as [[]|]. Qed.

Lemma exits_u64 (m : ds4_model) (key : bytes) : exits (required_u64 m key).
Proof.
  unfold required_u64. destruct (model_find_kv m key) as [kv|]; [|done].
  destruct (_ =? GGUF_VALUE_UINT64); [by apply exits_fst; [apply u64_exits|]|].
  destruct (_ =? GGUF_VALUE_UINT32); [by apply exits_fst; [apply u32_exits|]|]. done.
Qed.

Lemma exits_f32 (m : ds4_model) (key : bytes) : exits (required_f32 m key).
Proof.
  unfold required_f32. destruct (model_find_kv m key) as [kv|]; [|done]. cbn zeta. 
  destruct (_ =? GGUF_VALUE_FLOAT32); [by apply exits_fst; [apply exits_f32_read|]|].
  destruct (_ =? GGUF_VALUE_FLOAT64); [by apply exits_fst; [apply exits_f64_read|]|].
  destruct (_ =? GGUF_VALUE_UINT32); [by apply exits_fst; [apply u32_exits|]|].
  destruct (_ =? GGUF_VALUE_INT32); [by apply exits_fst; [apply exits_i32_read|]|]. done.
Qed.

Lemma exits_expect_u32 (name : string) (a b : Z) : exits (config_expect_u32 name a b).
Proof. unfold config_expect_u32. by destruct (a =? b). Qed.
Lemma exits_expect_f32 (name : string) (a b : f32) : exits (config_expect_f32 name a b).
Proof. unfold config_expect_f32. by destruct (f32_close a b). Qed.
Lemma exits_expect_bool (name : string) (a b : bool) : exits (config_expect_bool name a b).
Proof. by destruct a, b. Qed.

Lemma exits_ratio_loop (map : bytes) (type : Z) (ils : list Z) : forall pos, exits (ratio_loop map type ils pos).
Proof.
  induction ils as [|il ils IH]; intros pos; cbn [ratio_loop]; [done|].
  assert (H : exits (read_ratio map type pos)).
  { unfold read_ratio. destruct (_ =? _); [apply u32_exits|]. pose proof (exits_i32_read map pos). destruct (read_i32 map pos) as [[v q]|]; [|done].
    by destruct (v <? 0). }
  destruct (read_ratio map type pos) as [[got q]|]; [|done].
  pose proof (exits_ratio il) as Hr. destruct (ds4_layer_compress_ratio il) as [e|]; [|done]. destruct (got =? e); [apply IH|done].
Qed.

Lemma exits_clamp_loop (map : bytes) (type : Z) (ils : list Z) : forall pos, exits (clamp_loop map type ils pos).
Proof.
  induction ils as [|il ils IH]; intros pos; cbn [clamp_loop]; [done|].
  assert (H : exits (read_clamp map type pos)).
  { unfold read_clamp. destruct (_ =? _); [apply exits_f32_read|]. pose proof (exits_f64_read map pos). by destruct (read_f64 map pos) as [[v q]|]. }
  destruct (read_clamp map type pos) as [[got q]|]; [|done].
  apply exits_step; [apply exits_expect_f32|]. intros _ _. apply IH.
Qed.

Lemma exits_ratios (m : ds4_model) : exits (validate_compress_ratio_metadata m).
Proof.
  unfold validate_compress_ratio_metadata. destruct (model_get_array _ _) as [arr|]; [|done]. destruct (negb _ && _); [done|].
  destruct (_ <? _); [done|apply exits_ratio_loop].
Qed.

Lemma exits_clamps (m : ds4_model) : exits (validate_swiglu_clamp_metadata m).
Proof.
  unfold validate_swiglu_clamp_metadata. destruct (model_get_array _ _) as [arr|]; [|done]. destruct (negb _ && _); [done|].
  destruct (_ <? _); [done|apply exits_clamp_loop].
Qed.

#[export] Hint Resolve exits_u32 exits_bool exits_u64 exits_f32 exits_expect_u32 exits_expect_f32 exits_expect_bool exits_ratios
  exits_clamps : weights.

Lemma exits_plain_config (m : ds4_model) : exits (config_validate_model m).
Proof.
  unfold config_validate_model, config_validate_fixed_shape. exits_chain.
  apply exits_step; [by destruct (negb _)|intros _ _]. exits_chain.
Qed.

Lemma exits_source_config (m : ds4_model) : exits (config_validate_v100_source_model m).
Proof. unfold config_validate_v100_source_model. exits_chain. Qed.
