(* ===== verification/EngineLoad.v ===== *)
(** * Loading a model (ds4.c)

    The part of [ds4_engine_open] that reads the model file: the file is
    opened, its vocabulary loaded, its metadata checked for the layout the
    tensors have, and its weights bound. *)
From S2P Require Import Prelude.
From S2P Require Import Gguf.
From S2P Require Import Tokenizer.
From S2P Require Import ModelVocab.
From S2P Require Import Weights.
From S2P Require Import ModelConfig.

(** [model], [vocab] and [weights] of the engine. *)
Record engine_model := EngineModel { em_model : ds4_model; em_vocab : ds4_vocab; em_weights : ds4_weights }.

Definition engine_load `{Allocator} (path : bytes) (f : model_file) : pres engine_model :=
  m <- model_open path f ;;
  v <- vocab_load m ;;
  (if model_uses_v100_source_layout m then config_validate_v100_source_model m else config_validate_model m) ;;
  w <- weights_bind m ;;
  Ok (EngineModel m v w).
