(* ===== verification/EngineLoadProps.v ===== *)
(** * Loading a model: what it checks

    A file of any content either ends the process with status 1 or gives a
    model whose metadata, vocabulary and weights can be used; a file that was
    written complete is loaded. *)
From S2P Require Import Prelude.
From S2P Require Import CNum.
From S2P Require Import LittleEndian.
From S2P Require Import SourceFormats.
From S2P Require Import PlanGguf.
From S2P Require Import PlanGgufProps.
From S2P Require Import Gguf.
From S2P Require Import GgufProps.
From S2P Require Import GgufWrite.
From S2P Require Import StrTable.
From S2P Require Import Tokenizer.
From S2P Require Import TokenizerProps.
From S2P Require Import ModelVocab.
From S2P Require Import ModelVocabProps.
From S2P Require Import Weights.
From S2P Require Import WeightsLayout.
From S2P Require Import WeightsProps.
From S2P Require Import ModelConfig.
From S2P Require Import ModelConfigProps.
From S2P Require Import EngineLoad.

(** ** The vocabulary of an opened model *)

Lemma read_strings_bound (map : bytes) (fuel : nat) : map_size map <= INT64_MAX -> forall n pos l, 0 <= pos <= map_size map ->
  read_strings fuel map n pos = Ok l -> 8 * Z.of_nat (length l) <= map_size map - pos.
Proof.
  intros Hs. induction fuel as [|fuel IH]; intros n pos l Hp; cbn [read_strings]; destruct (n <=? 0); try (intros [= <-]; cbn [length]; lia).
  destruct (cursor_string map pos) as [[s p]|] eqn:E; [|done]. apply cursor_string_ok in E as (len & _ & [Hl _] & _ & -> & Hq); [|done|lia].
  destruct (read_strings fuel map (n - 1) (pos + 8 + len)) as [l'|] eqn:E; [|done]. intros [= <-].
  apply IH in E; [|lia]. cbn [length]. lia.
Qed.

Lemma vocab_build_total (tokens merges : list bytes) : Z.of_nat (length tokens) <= INT_MAX -> Z.of_nat (length merges) <= 2 ^ 61 ->
  is_Some (vocab_build tokens merges).
Proof.
  intros Hb Hm. unfold vocab_build.
  destruct (table_built (numbered tokens) (Z.of_nat (length tokens))) as (t0 & t & Et0 & Et & _); [rewrite length_numbered; unfold INT_MAX in Hb; lia|].
  destruct (table_built (numbered merges) (Z.of_nat (length merges))) as (m0 & mt & Em0 & Em & _); [rewrite length_numbered; lia|].
  rewrite Et0, Em0. cbn. rewrite Et. cbn. rewrite Em. cbn. by eexists.
Qed.

(** The ids of the special tokens name them. *)
Definition specials_named (v : ds4_vocab) : Prop :=
  Forall (fun s => 0 <= snd s < n_vocab v /\ nth (Z.to_nat (snd s)) (vocab_token v) [] = fst s) (specials v).

Lemma vocab_loaded (m : ds4_model) : model_wf m -> model_size m <= INT64_MAX ->
  match vocab_load m with Ok v => specials_named v | Error e => exists msg, e = Exit 1 msg end.
Proof.
  intros Hm Hs. unfold vocab_load. destruct (model_get_array m tokens_key) as [ta|] eqn:Et; [|by eexists].
  destruct (Z.eqb_spec (arr_type ta) GGUF_VALUE_STRING) as [Ht|]; [|by eexists]. cbn [negb orb].
  destruct (Z.ltb_spec INT_MAX (arr_len ta)) as [|Hlen]; [by eexists|].
  destruct (model_get_array m merges_key) as [ma|] eqn:Em; [|by eexists].
  destruct (Z.eqb_spec (arr_type ma) GGUF_VALUE_STRING) as [Hmt|]; [|by eexists]. cbn [negb].
  assert (Harr : forall key a, model_get_array m key = Some a -> array_ok m a).
  { intros key a Ha. destruct (get_array_some m Hm Hs key) as (a' & Ha' & Ho); [|congruence].
    unfold model_get_array in Ha. destruct (kv_of_type m key GGUF_VALUE_ARRAY); [by eexists|done]. }
  destruct (Harr _ _ Et) as (_ & [Htl _] & _ & _ & Hts). destruct (Hts Ht) as (tokens & Etk & Hlt).
  destruct (Harr _ _ Em) as (_ & _ & Hp & Hin & Hms). destruct (Hms Hmt) as (merges & Emg & _).
  rewrite Etk, Emg. rewrite Hmt in Hin. change (scalar_value_size GGUF_VALUE_STRING) with 0 in Hin.
  assert (Hmb : Z.of_nat (length merges) <= 2 ^ 61).
  { unfold array_strings in Emg. apply read_strings_bound in Emg; [|done|unfold model_size in *; lia]. unfold model_size, INT64_MAX in *. lia. }
  assert (Htb : Z.of_nat (length tokens) <= INT_MAX) by lia.
  destruct (vocab_build_total tokens merges Htb Hmb) as [[v|d] Ev]; rewrite Ev; [|by eexists].
  pose proof (build_loaded tokens merges v Htb Hmb Ev) as Hv. unfold specials_named. eapply Forall_impl; [exact (ld_specials _ _ _ Hv)|].
  intros [s i] E. cbn [fst snd] in *. by apply (id_token tokens merges v Hv).
Qed.

(** ** Any file *)

Lemma exits_msg {A} (r : pres A) (e : stop) : exits r -> r = Error e -> exists msg, e = Exit 1 msg.
Proof. intros H ->. destruct e as [c msg| |]; [|done|done]. cbn in H. subst c. by exists msg. Qed.

(** C33 Loading a file of any content ends the process with status 1 or gives a
    model that can be used: the metadata has the values of the layout, each
    special token of the vocabulary has its id, the weights are the tensors
    of the layout table, and every weight of the table is bound to a tensor of
    exact size inside the file. *)
Theorem engine_load_safe `{Allocator} (path : bytes) (f : model_file) : file_ok f ->
  match engine_load path f with
  | Error e => exists msg, e = Exit 1 msg
  | Ok em =>
      let m := em_model em in let w := em_weights em in let source := v100_source_layout w in
      (if source then source_config m else plain_config m) /\ specials_named (em_vocab em) /\ complete m /\ w = weights_of m /\
      Forall (fun r => exists t, r_get r w = Some t /\ inside m (r_dims r) t) (top_rows source) /\
      Forall2 (fun il l => Forall (fun r => exists t, r_get r l = Some t /\ inside m (r_dims r) t) (rows source il)) layers (layer w)
  end.
Proof.
  intros Hf. unfold engine_load. pose proof (model_open_spec path f Hf) as H1.
  destruct (model_open path f) as [m|e] eqn:Eo; [|by eapply exits_msg; [exact H1|]]. destruct H1 as [-> Hm].
  pose proof (vocab_loaded m Hm Hf) as H2. destruct (vocab_load m) as [v|]; [|done].
  assert (Hc : (if model_uses_v100_source_layout m then config_validate_v100_source_model m else config_validate_model m) = Ok tt ->
    if model_uses_v100_source_layout m then source_config m else plain_config m).
  { destruct (model_uses_v100_source_layout m); [by intros ?%source_valid|by intros ?%plain_valid]. }
  assert (He : exits (if model_uses_v100_source_layout m then config_validate_v100_source_model m else config_validate_model m)).
  { destruct (model_uses_v100_source_layout m); [apply exits_source_config|apply exits_plain_config]. }
  destruct (if model_uses_v100_source_layout m then _ else _) as [[]|e]; [|by eapply exits_msg]. specialize (Hc eq_refl).
  pose proof (exits_weights_bind m) as H3. destruct (weights_bind m) as [w|e] eqn:Ew; [|by eapply exits_msg].
  cbn [em_model em_vocab em_weights]. destruct (weights_bind_of m w Ew) as [-> Hcm].
  pose proof (weights_bound_inside m (weights_of m) Hm Ew) as [Hi1 Hi2]. cbn [v100_source_layout weights_of] in *. by split_and!.
Qed.
