(* ===== verification/EngineFile.v ===== *)
(** * A complete model file is loaded

    A file written with the metadata, the vocabulary and the tensors of a
    layout is loaded, with every weight at the place the file gave its tensor. *)
From Stdlib Require Import Floats.SpecFloat.
From S2P Require Import Prelude.
From S2P Require Import CNum.
From S2P Require Import LittleEndian.
From S2P Require Import SourceFormats.
From S2P Require Import PlanGguf.
From S2P Require Import PlanGgufProps.
From S2P Require Import Gguf.
From S2P Require Import GgufProps.
From S2P Require Import GgufWrite.
From S2P Require Import StrTable.
From S2P Require Import Tokenizer.
From S2P Require Import TokenizerProps.
From S2P Require Import ModelVocab.
From S2P Require Import ModelVocabProps.
From S2P Require Import Weights.
From S2P Require Import WeightsLayout.
From S2P Require Import WeightsProps.
From S2P Require Import ModelConfig.
From S2P Require Import ModelConfigProps.
From S2P Require Import EngineLoad.
From S2P Require Import EngineLoadProps.

(** ** The metadata of a written file *)

Definition int_written (kvs : list (bytes * gguf_value)) (f : string * Z) : Prop :=
  is_u32 (snd f) /\ written kvs (B (fst f)) = Some (VScalar GGUF_VALUE_UINT32 (le_bytes 4 (snd f))).

Definition float_written (kvs : list (bytes * gguf_value)) (f : string * f32) : Prop :=
  exists bits, is_u32 bits /\ f32_close (f32_from_bits bits) (snd f) = true /\
    written kvs (B (fst f)) = Some (VScalar GGUF_VALUE_FLOAT32 (le_bytes 4 bits)).

(** An array of one 32-bit value per layer. *)
Definition layers_written (kvs : list (bytes * gguf_value)) (key : bytes) (type : Z) (values : list Z) : Prop :=
  length values = length layers /\ Forall is_u32 values /\
  written kvs key = Some (VScalars type DS4_N_LAYER (concat (map (le_bytes 4) values))).

Record config_written (kvs : list (bytes * gguf_value)) (source : bool) : Prop := {
  cw_ints : Forall (int_written kvs) (if source then source_ints else plain_ints);
  cw_floats : Forall (float_written kvs) (if source then source_floats else plain_floats);
  cw_norm : written kvs (B "deepseek4.expert_weights_norm") = Some (VScalar GGUF_VALUE_BOOL [x01]);
  cw_clamps : exists bits, layers_written kvs clamps_key GGUF_VALUE_FLOAT32 bits /\
    Forall (fun b => f32_close (f32_from_bits b) DS4_SWIGLU_CLAMP_EXP = true) bits;
  cw_plain : if source then True else
    written kvs (B "deepseek4.expert_group_count") = None /\ written kvs (B "deepseek4.expert_group_used_count") = None /\
    layers_written kvs ratios_key GGUF_VALUE_UINT32 (map ratio_of layers) /\
    written kvs (B "deepseek4.rope.scaling.original_context_length") = Some (VScalar GGUF_VALUE_UINT32 (le_bytes 4 DS4_ROPE_ORIG_CTX))
}.

Section Written.
Context (kvs : list (bytes * gguf_value)) (ts : list header_tensor) (data : bytes).
Hypothesis Hw : writable kvs ts data.
Let m := written_model kvs ts data.

Lemma read_all_at {A} (read : Z -> pres (A * Z)) (f : Z -> A) :
  (forall pos raw, length raw = 4%nat -> text_at (model_map m) pos raw -> read pos = Ok (f (le_value raw), pos + 4)) ->
  forall values pos, Forall is_u32 values -> text_at (model_map m) pos (concat (map (le_bytes 4) values)) ->
  read_all read (length values) pos = Ok (map f values).
Proof.
  intros Hr. induction values as [|v values IH]; intros pos Hv Ht; [done|]. apply Forall_cons in Hv as [Hv1 Hv2].
  cbn [map concat length read_all] in *. apply text_at_app in Ht as [H1 H2]. rewrite le_bytes_length in H2.
  rewrite (Hr pos (le_bytes 4 v)) by (done || apply le_bytes_length). change (Z.of_nat 4) with 4 in H2. rewrite (IH (pos + 4)) by done.
  rewrite le_value_bytes; [done|]. change (2 ^ (8 * Z.of_nat 4)) with (2 ^ 32). zlia.
Qed.

Lemma scalars_written (key raw : bytes) (type count : Z) : written kvs key = Some (VScalars type count raw) ->
  exists pos, model_get_array m key = Some (ArrayRef type count pos) /\ text_at (model_map m) pos raw.
Proof.
  intros E. pose proof (written_lookup kvs ts data key) as H. rewrite E in H. destruct H as ([k Hin] & kv & Ek & Ht).
  pose proof (wr_kvs _ _ _ Hw) as Hok. rewrite Forall_forall in Hok. destruct (Hok _ Hin) as (_ & _ & (Hi & Hn & _)). cbn [snd] in *.
  cbn [value_type put_value] in *. apply text_at_app in Ht as [H1 Ht]. apply text_at_app in Ht as [H2 H3]. rewrite le_bytes_length in *.
  change (Z.of_nat 4) with 4 in *. change (Z.of_nat 8) with 8 in *. exists (kv_value_pos kv + 4 + 8). split; [|done].
  unfold model_get_array. change GGUF_VALUE_ARRAY with PlanGguf.GGUF_VALUE_ARRAY. fold m in Ek. rewrite Ek. cbn.
  pose proof (wr_size _ _ _ Hw) as [_ Hmax].
  rewrite (u32_at (model_map m) Hmax _ type) by done. cbn. by rewrite (u64_at (model_map m) Hmax _ count) by done.
Qed.

Lemma size_ok : map_size (model_map m) <= INT64_MAX.
Proof. apply (wr_size _ _ _ Hw). Qed.

Lemma scalar_written (key raw : bytes) (type : Z) : written kvs key = Some (VScalar type raw) ->
  exists kv, model_find_kv m key = Some kv /\ kv_type kv = type /\ text_at (model_map m) (kv_value_pos kv) raw.
Proof.
  intros E. pose proof (written_lookup kvs ts data key) as H. rewrite E in H. destruct H as (_ & kv & Ek & Ht).
  unfold kv_of_type in Ek. fold m in Ek. destruct (model_find_kv m key) as [kv'|]; [|done]. cbn in Ek.
  destruct (Z.eqb_spec (kv_type kv') type); [|done]. injection Ek as ->. by exists kv.
Qed.

Lemma read4 (pos : Z) (raw : bytes) : length raw = 4%nat -> text_at (model_map m) pos raw ->
  cursor_read (model_map m) pos 4 = Ok (raw, pos + 4).
Proof. intros Hl Ht. pose proof (read_at _ size_ok pos raw Ht) as E. by rewrite Hl in E. Qed.

Lemma ints_config (l : list (string * Z)) : Forall (int_written kvs) l -> Forall (int_is m) l.
Proof.
  intros H. eapply Forall_impl; [exact H|]. intros [k v] [Hv E]. unfold int_is. cbn [fst snd] in *.
  destruct (scalar_written _ _ _ E) as (kv & Ek & Hty & Ht). unfold model_get_u32, kv_of_type. rewrite Ek. cbn. rewrite Hty. cbn.
  by rewrite (u32_at _ size_ok _ v).
Qed.

Lemma float_of_bits (bits : Z) (pos : Z) : is_u32 bits -> text_at (model_map m) pos (le_bytes 4 bits) ->
  read_f32 (model_map m) pos = Ok (f32_from_bits bits, pos + 4).
Proof.
  intros Hb Ht. unfold read_f32. rewrite (read4 _ (le_bytes 4 bits)) by (done || apply le_bytes_length).
  rewrite le_value_bytes; [done|]. change (2 ^ (8 * Z.of_nat 4)) with (2 ^ 32). zlia.
Qed.

Lemma floats_config (l : list (string * f32)) : Forall (float_written kvs) l -> Forall (float_close m) l.
Proof.
  intros H. eapply Forall_impl; [exact H|]. intros [k x] (bits & Hb & Hc & E). exists (f32_from_bits bits). split; [|done]. cbn [fst] in *.
  destruct (scalar_written _ _ _ E) as (kv & Ek & Hty & Ht). unfold required_f32. rewrite Ek. rewrite Hty. cbn iota zeta.
  change (GGUF_VALUE_FLOAT32 =? GGUF_VALUE_FLOAT32) with true. cbn iota. by rewrite (float_of_bits bits).
Qed.

Lemma clamps_config (bits : list Z) : layers_written kvs clamps_key GGUF_VALUE_FLOAT32 bits ->
  Forall (fun b => f32_close (f32_from_bits b) DS4_SWIGLU_CLAMP_EXP = true) bits -> clamps_ok m.
Proof.
  intros (Hl & Hb & E) Hc. destruct (scalars_written _ _ _ _ E) as (pos & Ea & Ht). exists (map f32_from_bits bits). split.
  - exists (ArrayRef GGUF_VALUE_FLOAT32 DS4_N_LAYER pos). split; [done|]. split; [by left|]. split; [done|]. cbn [arr_type arr_data_pos].
    rewrite <- Hl. apply (read_all_at (read_clamp (model_map m) GGUF_VALUE_FLOAT32) f32_from_bits); [|done|done].
    intros p raw Hr Hat. unfold read_clamp. change (GGUF_VALUE_FLOAT32 =? GGUF_VALUE_FLOAT32) with true. cbn iota. unfold read_f32.
    by rewrite (read4 p raw).
  - apply Forall_fmap. exact Hc.
Qed.

Lemma ratios_config : layers_written kvs ratios_key GGUF_VALUE_UINT32 (map ratio_of layers) -> ratios_ok m.
Proof.
  intros (Hl & Hb & E). destruct (scalars_written _ _ _ _ E) as (pos & Ea & Ht).
  exists (ArrayRef GGUF_VALUE_UINT32 DS4_N_LAYER pos). split; [done|]. split; [by left|]. split; [done|]. cbn [arr_type arr_data_pos].
  rewrite <- Hl at 1. rewrite (read_all_at (read_ratio (model_map m) GGUF_VALUE_UINT32) (fun v => v)); [by rewrite map_id| |done|done].
  intros p raw Hr Hat. unfold read_ratio. change (GGUF_VALUE_UINT32 =? GGUF_VALUE_UINT32) with true. cbn iota. unfold cursor_u32.
  by rewrite (read4 p raw).
Qed.

Lemma norm_config : written kvs (B "deepseek4.expert_weights_norm") = Some (VScalar GGUF_VALUE_BOOL [x01]) ->
  model_get_bool m (B "deepseek4.expert_weights_norm") = Some true.
Proof.
  intros E. destruct (scalar_written _ _ _ E) as (kv & Ek & Hty & Ht). unfold model_get_bool, kv_of_type. rewrite Ek. unfold mbind, option_bind.
  rewrite Hty. change (GGUF_VALUE_BOOL =? GGUF_VALUE_BOOL) with true. cbn iota.
  assert (Er : cursor_read (model_map m) (kv_value_pos kv) 1 = Ok ([x01], kv_value_pos kv + 1)) by exact (read_at _ size_ok _ [x01] Ht).
  by rewrite Er.
Qed.

Lemma u32_absent (key : bytes) : written kvs key = None -> default 0 (model_get_u32 m key) = 0.
Proof.
  intros E. pose proof (written_lookup kvs ts data key) as H. rewrite E in H. fold m in H. unfold model_get_u32, kv_of_type. by rewrite H.
Qed.

Lemma written_config (source : bool) : config_written kvs source ->
  if source then config_validate_v100_source_model m = Ok tt else config_validate_model m = Ok tt.
Proof.
  intros [Hi Hf Hn (bits & Hc1 & Hc2) Hp]. destruct source.
  - apply source_valid. split; [by apply ints_config|]. split; [by apply floats_config|]. split; [by apply norm_config|]. by eapply clamps_config.
  - destruct Hp as (Hg & Hu & Hr & Ho). apply plain_valid. split; [by apply ints_config|]. split; [by apply u32_absent|].
    split; [by apply u32_absent|]. split; [by apply ratios_config|]. split; [by eapply clamps_config|].
    split; [|split; [by apply floats_config|by apply norm_config]].
    destruct (scalar_written _ _ _ Ho) as (kv & Ek & Hty & Ht). unfold required_u64. rewrite Ek, Hty.
    change (GGUF_VALUE_UINT32 =? GGUF_VALUE_UINT64) with false. change (GGUF_VALUE_UINT32 =? GGUF_VALUE_UINT32) with true. cbn iota.
    by rewrite (u32_at _ size_ok _ DS4_ROPE_ORIG_CTX).
Qed.
End Written.

(** ** The tensors of a written file *)

Definition first_named (ts : list header_tensor) (name : bytes) : option header_tensor :=
  List.find (fun t => str_eqb (ht_name t) name) ts.

Lemma written_find (kvs : list (bytes * gguf_value)) (ts : list header_tensor) (data name : bytes) :
  model_find_tensor (written_model kvs ts data) name =
    (fun t => written_tensor (model_data_pos (written_model kvs ts data) + ht_rel t) t) <$> first_named ts name.
Proof.
  unfold model_find_tensor, first_named, written_model. cbn [model_tensors model_data_pos].
  generalize (aligned_pos (Z.of_nat (length (put_header kvs ts))) (foldl align_next 32 kvs)). intros pos.
  induction ts as [|t ts' IH]; [done|]. cbn [map List.find]. cbn [written_tensor tensor_name]. by destruct (str_eqb (ht_name t) name).
Qed.

(** The layout that the names of the tensors choose. *)
Definition source_tensors (ts : list header_tensor) : bool :=
  bool_decide (is_Some (first_named ts (B "hc_head_fn"))) && bool_decide (is_Some (first_named ts (B "blk.0.attn_kv_latent.weight"))) &&
  bool_decide (is_Some (first_named ts (B "blk.0.ffn_gate_exps.weight"))) &&
  match first_named ts (B "output.weight") with Some t => ht_type t =? DS4_TENSOR_BF16 | None => false end.

Definition row_written {W} (ts : list header_tensor) (name : bytes) (r : row W) : Prop :=
  exists t, first_named ts name = Some t /\ ht_type t ∈ r_types r /\ ht_dims t = r_dims r.

Definition extra_written (ts : list header_tensor) (il : Z) : Prop :=
  (forall t, first_named ts (blk_name ".exp_probs_b.bias" il) = Some t -> ht_type t = DS4_TENSOR_F32 /\ ht_dims t = [DS4_N_EXPERT]) /\
  (forall a b, first_named ts (blk_name ".ffn_gate_exps.weight" il) = Some a -> first_named ts (blk_name ".ffn_up_exps.weight" il) = Some b ->
     ht_type a = ht_type b).

Record tensors_written (ts : list header_tensor) (source : bool) : Prop := {
  tw_source : source_tensors ts = source;
  tw_top : Forall (fun r => row_written ts (B (r_name r)) r) (top_rows source);
  tw_layers : Forall (fun il => Forall (fun r => row_written ts (blk_name (r_name r) il) r) (rows source il)) layers;
  tw_extra : if source then True else Forall (extra_written ts) layers
}.

Lemma source_written (kvs : list (bytes * gguf_value)) (ts : list header_tensor) (data : bytes) :
  model_uses_v100_source_layout (written_model kvs ts data) = source_tensors ts.
Proof.
  unfold model_uses_v100_source_layout, source_tensors. rewrite !written_find.
  assert (H : forall o : option header_tensor, found ((fun t => written_tensor (model_data_pos (written_model kvs ts data) + ht_rel t) t) <$> o) =
    bool_decide (is_Some o)) by (by intros [t|]). rewrite !H. by destruct (first_named ts (B "output.weight")).
Qed.

Lemma row_of_written {W} (kvs : list (bytes * gguf_value)) (ts : list header_tensor) (data name : bytes) (r : row W) :
  row_written ts name r -> exists t, named (written_model kvs ts data) name (r_types r) (r_dims r) t.
Proof.
  intros (t & E & Hty & Hd). exists (written_tensor (model_data_pos (written_model kvs ts data) + ht_rel t) t). split; [by rewrite written_find, E|]. by split.
Qed.

Lemma written_complete (kvs : list (bytes * gguf_value)) (ts : list header_tensor) (data : bytes) (source : bool) :
  tensors_written ts source -> complete (written_model kvs ts data).
Proof.
  intros [Hs Ht Hl He]. constructor; rewrite source_written, Hs.
  - eapply Forall_impl; [exact Ht|]. intros r. apply row_of_written.
  - eapply Forall_impl; [exact Hl|]. intros il Hr. eapply Forall_impl; [exact Hr|]. intros r. apply row_of_written.
  - destruct source; [by apply Forall_forall|]. eapply Forall_impl; [exact He|]. intros il [H1 H2]. cbn [extra_ok]. rewrite !written_find. split.
    + intros t Et. destruct (first_named ts (blk_name ".exp_probs_b.bias" il)) as [h|]; [|done]. injection Et as <-.
      destruct (H1 h eq_refl) as [Hty Hd]. split; [cbn; rewrite Hty; by left|done].
    + intros a b Ea Eb. destruct (first_named ts (blk_name ".ffn_gate_exps.weight" il)) as [x|]; [|done].
      destruct (first_named ts (blk_name ".ffn_up_exps.weight" il)) as [y|]; [|done]. injection Ea as <-. injection Eb as <-. by apply H2.
Qed.

(** A field of the weights is the tensor that the file has under the name. *)
Definition bound_as {W} (pos : Z) (ts : list header_tensor) (w : W) (name : bytes) (r : row W) : Prop :=
  exists t, first_named ts name = Some t /\ r_get r w = Some (written_tensor (pos + ht_rel t) t).

Lemma engine_loads_written `{Allocator} (path : bytes) (kvs : list (bytes * gguf_value)) (ts : list header_tensor) (data : bytes)
    (tokens merges : list bytes) (source : bool) :
  (forall n, malloc_ok n = true) -> writable kvs ts data -> Z.of_nat (length kvs) * sizeof_ds4_kv <= SIZE_MAX ->
  Z.of_nat (length ts) * sizeof_ds4_tensor <= SIZE_MAX ->
  written kvs tokens_key = Some (strings_value tokens) -> written kvs merges_key = Some (strings_value merges) ->
  Z.of_nat (length tokens) <= INT_MAX -> Z.of_nat (length merges) <= 2 ^ 61 -> Forall (fun s => s ∈ tokens) special_texts ->
  config_written kvs source -> tensors_written ts source ->
  exists v, engine_load path (Mapped (put_header kvs ts ++ data)) =
    Ok (EngineModel (written_model kvs ts data) v (weights_of (written_model kvs ts data))) /\ vocab_token v = tokens.
Proof.
  intros Hm Hw Hck Hct Ht Hr Hbt Hbm Hsp Hcfg Htw. destruct (build_total tokens merges Hbt Hbm Hsp) as [v Ev].
  pose proof (build_loaded tokens merges v Hbt Hbm Ev) as Hv.
  set (m := written_model kvs ts data). exists v. split; [|apply (ld_tokens _ _ _ Hv)].
  unfold engine_load. rewrite model_open_written by done. fold m.
  assert (Evl : vocab_load m = Ok v) by (by apply (written_vocab kvs ts data tokens merges)). rewrite Evl.
  pose proof (written_config kvs ts data Hw source Hcfg) as Hc. fold m in Hc.
  rewrite (source_written kvs ts data : model_uses_v100_source_layout m = _), (tw_source _ _ Htw).
  rewrite (weights_bind_complete m) by (by eapply written_complete). destruct source; by rewrite Hc.
Qed.

(** C34 A complete file is loaded: a file written with the metadata of a layout,
    a vocabulary with the special tokens and the tensors of the layout is
    opened, its vocabulary read, its checks passed, and each weight bound to
    the tensor the file has under its name, at its place behind the header. *)
Theorem engine_load_written `{Allocator} (path : bytes) (kvs : list (bytes * gguf_value)) (ts : list header_tensor) (data : bytes)
    (tokens merges : list bytes) (source : bool) :
  (forall n, malloc_ok n = true) -> writable kvs ts data -> Z.of_nat (length kvs) * sizeof_ds4_kv <= SIZE_MAX ->
  Z.of_nat (length ts) * sizeof_ds4_tensor <= SIZE_MAX ->
  written kvs tokens_key = Some (strings_value tokens) -> written kvs merges_key = Some (strings_value merges) ->
  Z.of_nat (length tokens) <= INT_MAX -> Z.of_nat (length merges) <= 2 ^ 61 -> Forall (fun s => s ∈ tokens) special_texts ->
  config_written kvs source -> tensors_written ts source ->
  exists em, engine_load path (Mapped (put_header kvs ts ++ data)) = Ok em /\ vocab_token (em_vocab em) = tokens /\
    Forall (fun r => bound_as (model_data_pos (em_model em)) ts (em_weights em) (B (r_name r)) r) (top_rows source) /\
    Forall2 (fun il l => Forall (fun r => bound_as (model_data_pos (em_model em)) ts l (blk_name (r_name r) il) r) (rows source il))
      layers (layer (em_weights em)).
Proof.
  intros Hm Hw Hck Hct Ht Hr Hbt Hbm Hsp Hcfg Htw.
  destruct (engine_loads_written path kvs ts data tokens merges source Hm Hw Hck Hct Ht Hr Hbt Hbm Hsp Hcfg Htw) as (v & El & Ev).
  set (m := written_model kvs ts data) in *. exists (EngineModel m v (weights_of m)). split; [exact El|split; [exact Ev|]].
  cbn [em_model em_weights layer weights_of]. rewrite (source_written kvs ts data : model_uses_v100_source_layout m = _), (tw_source _ _ Htw).
    split.
    + pose proof (top_of_rows m) as Hg. rewrite (source_written kvs ts data : model_uses_v100_source_layout m = _), (tw_source _ _ Htw) in Hg.
      pose proof (tw_top _ _ Htw) as H1. rewrite Forall_forall in H1, Hg. apply Forall_forall. intros r Hin. destruct (H1 r Hin) as (t & E & _).
      exists t. split; [done|]. rewrite (Hg r Hin). unfold m. by rewrite written_find, E.
    + apply Forall2_fmap_r, Forall_Forall2_diag. eapply Forall_impl; [exact (tw_layers _ _ Htw)|]. intros il H1.
      pose proof (layer_of_rows m source il) as Hg. rewrite Forall_forall in H1, Hg. apply Forall_forall. intros r Hin. destruct (H1 r Hin) as (t & E & _).
      exists t. split; [done|]. rewrite (Hg r Hin). unfold m. by rewrite written_find, E.
Qed.
