(* ===== verification/EngineExample.v ===== *)
(** * A complete model file: an example

    A file in the source layout with every tensor of the table, its metadata
    and a small vocabulary, and what loading it gives.  Its tensors all start
    at the beginning of the data: a loaded model may share bytes between
    tensors. *)
From Stdlib Require Import Floats.SpecFloat.
From S2P Require Import Prelude.
From S2P Require Import CNum.
From S2P Require Import LittleEndian.
From S2P Require Import SourceFormats.
From S2P Require Import PlanGguf.
From S2P Require Import PlanGgufProps.
From S2P Require Import Gguf.
From S2P Require Import GgufProps.
From S2P Require Import GgufWrite.
From S2P Require Import StrTable.
From S2P Require Import Tokenizer.
From S2P Require Import TokenizerProps.
From S2P Require Import ModelVocab.
From S2P Require Import ModelVocabProps.
From S2P Require Import Weights.
From S2P Require Import WeightsLayout.
From S2P Require Import WeightsProps.
From S2P Require Import ModelConfig.
From S2P Require Import ModelConfigProps.
From S2P Require Import EngineLoad.
From S2P Require Import EngineLoadProps.

From S2P Require Import EngineFile.

(** ** The tensors *)

(** A tensor of the first type of a row, at the start of the data. *)
Definition row_header {W} (name : bytes) (r : row W) : header_tensor := HeaderTensor name (r_dims r) (hd 0 (r_types r)) 0.

Definition layer_headers (il : Z) : list header_tensor := map (fun r => row_header (blk_name (r_name r) il) r) (rows true il).
Definition full_tensors : list header_tensor := map (fun r => row_header (B (r_name r)) r) (top_rows true) ++ concat (map layer_headers layers).

Lemma find_app {A} (p : A -> bool) (l1 l2 : list A) :
  List.find p (l1 ++ l2) = match List.find p l1 with Some a => Some a | None => List.find p l2 end.
Proof. induction l1 as [|a l1 IH]; [done|]. cbn. by destruct (p a). Qed.

Lemma cut_inj (c : byte) (a b x y : bytes) : c ∉ a -> c ∉ b -> a ++ c :: x = b ++ c :: y -> a = b.
Proof.
  revert b. induction a as [|d a IH]; intros [|e b] Ha Hb E; try done.
  - injection E as -> _. destruct Hb. left.
  - injection E as -> _. destruct Ha. left.
  - injection E as -> E. f_equal. apply IH; [by intros ?; apply Ha; right|by intros ?; apply Hb; right|done].
Qed.

Definition dotted (s : string) : bool := match B s with b :: _ => Byte.eqb b "."%byte | [] => false end.

Lemma blk_name_inj (s s' : string) (il il' : Z) : dotted s = true -> dotted s' = true -> il ∈ layers -> il' ∈ layers ->
  blk_name s il = blk_name s' il' -> il = il'.
Proof.
  unfold dotted, blk_name. intros Hs Hs' Hil Hil' E%app_inv_head. destruct (B s) as [|b x]; [done|]. destruct (B s') as [|b' x']; [done|].
  apply beqb_eq in Hs as ->. apply beqb_eq in Hs' as ->.
  assert (H : forallb (fun il => negb (str_hasc (print_u64 il) "."%byte)) layers = true) by (vm_compute; reflexivity).
  assert (Hi : forallb (fun il => forallb (fun il' => (il =? il') || negb (str_eqb (print_u64 il) (print_u64 il'))) layers) layers = true)
    by (vm_compute; reflexivity).
  rewrite forallb_forall in H, Hi. specialize (Hi il (proj1 (list_elem_of_In _ _) Hil)). rewrite forallb_forall in Hi.
  specialize (Hi il' (proj1 (list_elem_of_In _ _) Hil')). apply cut_inj in E.
  - rewrite E, str_eqb_refl, orb_false_r in Hi. by apply Z.eqb_eq.
  - apply str_hasc_false. apply negb_true_iff, H. by apply list_elem_of_In.
  - apply str_hasc_false. apply negb_true_iff, H. by apply list_elem_of_In.
Qed.

Lemma find_row {W} (name : row W -> bytes) (l : list (row W)) (r : row W) : NoDup (map name l) -> r ∈ l ->
  List.find (fun t => str_eqb (ht_name t) (name r)) (map (fun r => row_header (name r) r) l) = Some (row_header (name r) r).
Proof.
  induction l as [|r' l IH]; intros Hnd Hr; [by apply elem_of_nil in Hr|]. cbn [map List.find ht_name row_header] in *.
  apply NoDup_cons in Hnd as [Hn Hnd]. apply elem_of_cons in Hr as [->|Hr]; [by rewrite str_eqb_refl|].
  destruct (str_eqb (name r') (name r)) eqn:E; [|by apply IH]. apply str_eqb_eq in E. destruct Hn. rewrite E. by apply list_elem_of_fmap_2.
Qed.

Lemma find_none {W} (name : row W -> bytes) (l : list (row W)) (key : bytes) : (forall r, r ∈ l -> name r <> key) ->
  List.find (fun t => str_eqb (ht_name t) key) (map (fun r => row_header (name r) r) l) = None.
Proof.
  intros H. destruct (List.find _ _) as [t|] eqn:E; [|done]. apply find_some in E as [(r & <- & Hr)%in_map_iff E].
  apply str_eqb_eq in E. by destruct (H r (proj2 (list_elem_of_In _ _) Hr)).
Qed.

Lemma names_distinct : forallb (fun il => bool_decide (NoDup (map (fun r => B (r_name r)) (rows true il))) &&
  forallb (fun r => dotted (r_name r)) (rows true il)) layers && bool_decide (NoDup (map (fun r => B (r_name r)) (top_rows true))) = true.
Proof. vm_compute. reflexivity. Qed.

Lemma layer_names (il : Z) : il ∈ layers ->
  NoDup (map (fun r => blk_name (r_name r) il) (rows true il)) /\ forall r, r ∈ rows true il -> dotted (r_name r) = true.
Proof.
  intros Hil. pose proof names_distinct as [H _]%andb_true_iff. rewrite forallb_forall in H.
  apply list_elem_of_In, H, andb_true_iff in Hil as [Hd Hs]. rewrite forallb_forall in Hs. apply bool_decide_eq_true in Hd. split.
  - replace (map (fun r => blk_name (r_name r) il) (rows true il))
      with (map (fun n => B "blk." ++ print_u64 il ++ n) (map (fun r => B (r_name r)) (rows true il))) by (by rewrite map_map).
    apply NoDup_fmap_2; [|exact Hd]. intros a b E%app_inv_head%app_inv_head. done.
  - intros r Hr. apply Hs. by apply list_elem_of_In.
Qed.

(** A top-level name is not the name of a layer. *)
Lemma top_plain (r : row ds4_weights) (s : string) (il : Z) : r ∈ top_rows true -> B (r_name r) <> blk_name s il.
Proof. intros Hr E. unfold top_rows in Hr. repeat (apply elem_of_cons in Hr as [->|Hr]; [discriminate E|]). by apply elem_of_nil in Hr. Qed.

Lemma find_top (r : row ds4_weights) : r ∈ top_rows true -> first_named full_tensors (B (r_name r)) = Some (row_header (B (r_name r)) r).
Proof.
  intros Hr. unfold first_named, full_tensors. rewrite find_app.
  pose proof names_distinct as [_ H]%andb_true_iff. apply bool_decide_eq_true in H.
  by rewrite (find_row (fun r => B (r_name r)) (top_rows true) r).
Qed.

Lemma find_layers (il : Z) (r : row ds4_layer_weights) (ls : list Z) : il ∈ layers -> r ∈ rows true il -> Forall (fun i => i ∈ layers) ls -> il ∈ ls ->
  List.find (fun t => str_eqb (ht_name t) (blk_name (r_name r) il)) (concat (map layer_headers ls)) = Some (row_header (blk_name (r_name r) il) r).
Proof.
  intros Hil Hr Hls. pose proof (layer_names il Hil) as [Hnd Hdot]. induction Hls as [|i ls Hi _ IH]; intros Hin; [by apply elem_of_nil in Hin|].
  cbn [map concat]. rewrite find_app. unfold layer_headers at 1. destruct (Z.eq_dec i il) as [->|Hne].
  - by rewrite (find_row (fun r => blk_name (r_name r) il) (rows true il) r).
  - rewrite (find_none (fun r => blk_name (r_name r) i)).
    + apply IH. by apply elem_of_cons in Hin as [->|Hin].
    + intros r' Hr' E. destruct Hne. eapply blk_name_inj; [| |done|done|exact E]; [by apply (proj2 (layer_names i Hi))|by apply Hdot].
Qed.

Lemma find_layer (il : Z) (r : row ds4_layer_weights) : il ∈ layers -> r ∈ rows true il ->
  first_named full_tensors (blk_name (r_name r) il) = Some (row_header (blk_name (r_name r) il) r).
Proof.
  intros Hil Hr. unfold first_named, full_tensors. rewrite find_app.
  rewrite (find_none (fun r => B (r_name r))); [|intros r' Hr'; by apply top_plain].
  apply find_layers; [done..|apply Forall_forall; auto|done].
Qed.

Lemma full_source : source_tensors full_tensors = true.
Proof.
  assert (H0 : 0 ∈ layers) by (cbn; left).
  pose proof (fun i H => find_top (nth i (top_rows true) (Row output "x" [] [])) (proj2 (list_elem_of_In _ _) (nth_In _ _ H))) as Ht.
  pose proof (fun i H => find_layer 0 (nth i (rows true 0) (Row attn_kv "x" [] [])) H0 (proj2 (list_elem_of_In _ _) (nth_In _ _ H))) as Hl.
  assert (E1 : is_Some (first_named full_tensors (B "hc_head_fn"))) by (eexists; apply (Ht 2%nat); cbn; lia).
  assert (E2 : is_Some (first_named full_tensors (B "blk.0.attn_kv_latent.weight"))) by (eexists; apply (Hl 7%nat); cbn; lia).
  assert (E3 : is_Some (first_named full_tensors (B "blk.0.ffn_gate_exps.weight"))) by (eexists; apply (Hl 18%nat); cbn; lia).
  pose proof (Ht 5%nat ltac:(cbn; lia)) as E4. cbn [nth top_rows r_name] in E4.
  unfold source_tensors. rewrite E4, !bool_decide_true by done. reflexivity.
Qed.

(** The rows can be the rows of a tensor in a file. *)
Definition row_ok {W} (r : row W) : bool :=
  let type := hd 0 (r_types r) in let n := foldr Z.mul 1 (r_dims r) in
  negb (Nat.eqb (length (r_types r)) 0) && (1 <=? length (r_dims r))%nat && (length (r_dims r) <=? 3)%nat &&
  forallb (fun d => (0 <=? d) && (d <=? 2 ^ 20)) (r_dims r) && (0 <=? type) && (type <=? UINT32_MAX) &&
  (default 0 (type_nbytes type n) <=? 2000000000) && (String.length (r_name r) <=? 50)%nat.

Lemma rows_ok : forallb row_ok (top_rows true) && forallb (fun il => forallb row_ok (rows true il)) layers = true.
Proof. vm_compute. reflexivity. Qed.

Lemma full_rows_ok : (forall r, r ∈ top_rows true -> row_ok r = true) /\ (forall il r, il ∈ layers -> r ∈ rows true il -> row_ok r = true).
Proof.
  pose proof rows_ok as [H1 H2]%andb_true_iff. rewrite forallb_forall in H1, H2. split.
  - intros r Hr. apply H1. by apply list_elem_of_In.
  - intros il r Hil Hr. apply list_elem_of_In, H2 in Hil. rewrite forallb_forall in Hil. apply Hil. by apply list_elem_of_In.
Qed.

Lemma row_written_of {W} (ts : list header_tensor) (name : bytes) (r : row W) : row_ok r = true ->
  first_named ts name = Some (row_header name r) -> row_written ts name r.
Proof.
  intros H E. exists (row_header name r). split; [done|]. split; [|done]. unfold row_ok in H. cbn. destruct (r_types r); [done|by left].
Qed.

Lemma full_written : tensors_written full_tensors true.
Proof.
  destruct full_rows_ok as [H1 H2]. constructor; [exact full_source| | |done]; apply Forall_forall.
  - intros r Hr. by apply row_written_of; [apply H1|apply find_top].
  - intros il Hil. apply Forall_forall. intros r Hr. by apply row_written_of; [apply (H2 il)|apply find_layer].
Qed.

(** Each tensor of the file comes from a row. *)
Lemma full_from (P : header_tensor -> Prop) :
  (forall W (name : bytes) (r : row W), (length name <= 60)%nat -> row_ok r = true -> P (row_header name r)) -> Forall P full_tensors.
Proof.
  intros HP. destruct full_rows_ok as [H1 H2]. apply Forall_app.
  assert (Hlen : forall s, length (B s) = String.length s) by (intros s; unfold B; induction s; simpl; auto).
  assert (Hn : forall W (r : row W), row_ok r = true -> (length (B (r_name r)) <= 50)%nat).
  { intros W r H. unfold row_ok in H. apply andb_true_iff in H as [_ H]. rewrite Hlen. by apply Nat.leb_le. }
  split; apply Forall_forall; intros t Ht%list_elem_of_In.
  - apply in_map_iff in Ht as (r & <- & Hr%list_elem_of_In). specialize (H1 r Hr). apply HP; [|done]. specialize (Hn _ r H1). lia.
  - apply in_concat in Ht as (ts & (il & <- & Hil%list_elem_of_In)%in_map_iff & (r & <- & Hr%list_elem_of_In)%in_map_iff).
    specialize (H2 il r Hil Hr). apply HP; [|done]. specialize (Hn _ r H2). unfold blk_name. rewrite !length_app.
    destruct (layer_short il Hil) as [Hs _]. change (length (B "blk.")) with 4%nat. lia.
Qed.

(** ** The metadata *)

Definition int_kv (f : string * Z) : bytes * gguf_value := (B (fst f), VScalar GGUF_VALUE_UINT32 (le_bytes 4 (snd f))).
Definition float_kv (f : string * Z) : bytes * gguf_value := (B (fst f), VScalar GGUF_VALUE_FLOAT32 (le_bytes 4 (snd f))).

Definition full_kvs : list (bytes * gguf_value) :=
  [(tokens_key, strings_value example_tokens); (merges_key, strings_value example_merges)] ++ map int_kv source_ints ++
  map float_kv [("deepseek4.rope.freq_base", 0x461C4000); ("deepseek4.attention.layer_norm_rms_epsilon", 0x358637BD);
    ("deepseek4.expert_weights_scale", 0x3FC00000)] ++
  [(B "deepseek4.expert_weights_norm", VScalar GGUF_VALUE_BOOL [x01]);
   (clamps_key, VScalars GGUF_VALUE_FLOAT32 DS4_N_LAYER (concat (map (le_bytes 4) (replicate 43 0x41200000))))].

Definition full_data : bytes := replicate (Z.to_nat 2000000032) NUL.

Lemma full_config : config_written full_kvs true.
Proof.
  constructor; [| |reflexivity| |done].
  - unfold source_ints. repeat (apply Forall_cons; split; [split; [split; discriminate|reflexivity]|]). apply Forall_nil_2.
  - unfold source_floats. apply Forall_cons; split; [exists 0x461C4000|apply Forall_cons; split; [exists 0x358637BD|apply Forall_cons; split;
      [exists 0x3FC00000|apply Forall_nil_2]]]; (split; [split; discriminate|split; reflexivity]).
  - exists (replicate 43 0x41200000). split; [split; [reflexivity|split; [|reflexivity]]|]; apply Forall_replicate; [split; discriminate|reflexivity].
Qed.

Lemma full_kvs_ok : Forall kv_ok full_kvs.
Proof.
  assert (Hs : forall k type raw, Z.of_nat (length (B k)) <? SIZE_MAX = true -> is_u32 type -> scalar_value_size type = Z.of_nat (length raw) -> raw <> [] ->
    kv_ok (B k, VScalar type raw)).
  { intros k type raw Hk Ht Hr Hn. split; [by apply Z.ltb_lt|]. split; [done|]. by split. }
  unfold full_kvs. apply Forall_app; split; [|apply Forall_app; split; [|apply Forall_app; split]].
  - repeat (apply Forall_cons; split); try apply Forall_nil_2;
      (split; [reflexivity|split; [split; discriminate|cbn [snd]; apply strings_ok; [vm_compute; discriminate|vm_compute; reflexivity]]]).
  - unfold source_ints, int_kv. cbn [map fst snd]. repeat (apply Forall_cons; split; [apply Hs; [reflexivity|split; discriminate|reflexivity|discriminate]|]). apply Forall_nil_2.
  - unfold float_kv. cbn [map fst snd]. repeat (apply Forall_cons; split; [apply Hs; [reflexivity|split; discriminate|reflexivity|discriminate]|]). apply Forall_nil_2.
  - apply Forall_cons; split; [apply Hs; [reflexivity|split; discriminate|reflexivity|discriminate]|]. apply Forall_cons; split; [|apply Forall_nil_2].
    split; [reflexivity|]. split; [split; discriminate|]. cbn [snd value_ok]. vm_compute. split_and!; try reflexivity; discriminate.
Qed.

Lemma row_header_ok {W} (name : bytes) (r : row W) : (length name <= 60)%nat -> row_ok r = true -> ht_ok (row_header name r).
Proof.
  intros Hn H. unfold row_ok in H. bool_hyps.
  assert (Hd : Forall (fun d => 0 <= d <= 2 ^ 20) (r_dims r)).
  { apply Forall_forall. intros d Hin%list_elem_of_In. match goal with H : forallb _ (r_dims r) = true |- _ => rewrite forallb_forall in H; apply H in Hin end.
    bool_hyps. lia. }
  assert (Hl : (1 <= length (r_dims r) <= 3)%nat) by (split; by apply Nat.leb_le).
  unfold ht_ok. cbn [row_header ht_name ht_dims ht_type ht_rel]. split; [unfold SIZE_MAX, UINT64_MAX; lia|]. split; [lia|].
  split; [eapply Forall_impl; [exact Hd|]; intros d Hdd; cbn in Hdd; split; unfold UINT64_MAX; lia|]. split; [|split; [split; lia|split; discriminate]].
  intros k. assert (Hk : Forall (fun d => 0 <= d <= 2 ^ 20) (take k (r_dims r))) by (by apply Forall_take).
  assert (Hlk : (length (take k (r_dims r)) <= 3)%nat) by (rewrite length_take; lia). revert Hk Hlk. generalize (take k (r_dims r)). clear.
  intros [|a [|b [|c [|]]]] Hd Hl; cbn [length] in Hl; try lia; repeat (apply Forall_cons in Hd as [? Hd]); cbn [foldr]; cbn beta in *;
    rewrite ?Z.mul_1_r; unfold UINT64_MAX; try lia.
  - assert (a * b <= 2 ^ 20 * 2 ^ 20) by (apply Z.mul_le_mono_nonneg; lia). lia.
  - assert (b * c <= 2 ^ 20 * 2 ^ 20) by (apply Z.mul_le_mono_nonneg; lia).
    assert (a * (b * c) <= 2 ^ 20 * (2 ^ 20 * 2 ^ 20)) by (apply Z.mul_le_mono_nonneg; lia). lia.
Qed.

Lemma full_tensors_ok : Forall ht_ok full_tensors.
Proof. apply full_from. intros W. apply row_header_ok. Qed.

Lemma concat_length_le {A} (f : A -> bytes) (b : nat) (l : list A) : Forall (fun a => (length (f a) <= b)%nat) l -> (length (concat (map f l)) <= length l * b)%nat.
Proof.
  induction 1 as [|a l Ha _ IH]; cbn [map concat length]; [lia|]. rewrite length_app.
  change (S (length l) * b)%nat with (b + length l * b)%nat. lia.
Qed.

Lemma full_tensors_count : (length full_tensors <= 2000)%nat.
Proof.
  unfold full_tensors. rewrite length_app, length_map.
  assert (H : forall ls, Forall (fun i => i ∈ layers) ls -> (length (concat (map layer_headers ls)) <= length ls * 40)%nat).
  { assert (Hr : forallb (fun il => length (rows true il) <=? 40)%nat layers = true) by (vm_compute; reflexivity). rewrite forallb_forall in Hr.
    induction 1 as [|i ls Hi _ IH]; cbn [map concat length]; [lia|]. rewrite length_app. unfold layer_headers at 1. rewrite length_map.
    apply list_elem_of_In, Hr, Nat.leb_le in Hi. lia. }
  specialize (H layers ltac:(by apply Forall_forall)). change (length (top_rows true)) with 6%nat. change (length layers) with 43%nat in H. lia.
Qed.

Lemma row_header_size {W} (name : bytes) (r : row W) : (length name <= 60)%nat -> row_ok r = true -> (length (put_tensor (row_header name r)) <= 200)%nat.
Proof.
  intros Hn H. unfold row_ok in H. bool_hyps. assert (Hl : (length (r_dims r) <= 3)%nat) by (by apply Nat.leb_le).
  unfold put_tensor, put_string. cbn [row_header ht_name ht_dims ht_type ht_rel]. rewrite !length_app, !le_bytes_length.
  assert (Hd : (length (concat (map (le_bytes 8) (r_dims r))) <= length (r_dims r) * 8)%nat)
    by (apply concat_length_le, Forall_forall; intros d _; by rewrite le_bytes_length). lia.
Qed.

Lemma full_header_size : Z.of_nat (length (put_header full_kvs full_tensors)) <= 10000000.
Proof.
  unfold put_header. rewrite !length_app, !le_bytes_length.
  assert (Hk : Z.of_nat (length (concat (map put_kv full_kvs))) <=? 100000 = true) by (vm_compute; reflexivity). apply Z.leb_le in Hk.
  assert (Ht : (length (concat (map put_tensor full_tensors)) <= length full_tensors * 200)%nat)
    by (apply concat_length_le, full_from; intros W; apply row_header_size).
  pose proof full_tensors_count. lia.
Qed.

Lemma full_size : map_size (put_header full_kvs full_tensors ++ full_data) = Z.of_nat (length (put_header full_kvs full_tensors)) + 2000000032.
Proof. unfold map_size, full_data. rewrite length_app, length_replicate. lia. Qed.

Lemma row_header_fits {W} (n : Z) (name : bytes) (r : row W) : 0 <= n -> row_ok r = true ->
  ht_fits (n + 2000000032) (aligned_pos n 32) (row_header name r).
Proof.
  intros Hn0 H. unfold row_ok in H. bool_hyps. unfold ht_fits, ht_elements, aligned_pos. cbn [row_header ht_rel ht_type ht_dims].
  pose proof (Z.div_mod (n + 32 - 1) 32 ltac:(lia)). pose proof (Z.mod_pos_bound (n + 32 - 1) 32 ltac:(lia)). lia.
Qed.

Lemma full_writable : writable full_kvs full_tensors full_data.
Proof.
  constructor; [exact full_kvs_ok|exact full_tensors_ok| |]; rewrite full_size.
  - assert (Ha : foldl align_next 32 full_kvs = 32) by (vm_compute; reflexivity).
    unfold written_model. cbn [model_data_pos]. rewrite Ha.
    apply full_from. intros W name r _ H. apply row_header_fits; [lia|exact H].
  - pose proof full_header_size. unfold INT64_MAX. lia.
Qed.

(** ** Loading it *)

Definition full_path : bytes := B "ds4.gguf".

Lemma full_counts : Z.of_nat (length full_kvs) * sizeof_ds4_kv <= SIZE_MAX /\ Z.of_nat (length full_tensors) * sizeof_ds4_tensor <= SIZE_MAX.
Proof.
  split; [vm_compute; discriminate|]. pose proof full_tensors_count. unfold sizeof_ds4_tensor, SIZE_MAX, UINT64_MAX. lia.
Qed.

Lemma engine_load_written_witness :
  exists em, @engine_load unlimited full_path (Mapped (put_header full_kvs full_tensors ++ full_data)) = Ok em /\
    vocab_token (em_vocab em) = example_tokens /\
    Forall (fun r => bound_as (model_data_pos (em_model em)) full_tensors (em_weights em) (B (r_name r)) r) (top_rows true).
Proof.
  destruct (@engine_load_written unlimited full_path full_kvs full_tensors full_data example_tokens example_merges true (fun n => eq_refl)
    full_writable (proj1 full_counts) (proj2 full_counts)) as (em & E & Ev & Ht & _).
  1-4: vm_compute; first [reflexivity|discriminate].
  - exact example_special.
  - exact full_config.
  - exact full_written.
  - exists em. split; [exact E|]. split; [exact Ev|exact Ht].
Defined.

Lemma engine_load_safe_witness :
  exists em, @engine_load unlimited full_path (Mapped (put_header full_kvs full_tensors ++ full_data)) = Ok em /\
    source_config (em_model em) /\ complete (em_model em).
Proof.
  destruct (@engine_loads_written unlimited full_path full_kvs full_tensors full_data example_tokens example_merges true (fun n => eq_refl)
    full_writable (proj1 full_counts) (proj2 full_counts)) as (v & E & _).
  1-4: vm_compute; first [reflexivity|discriminate].
  - exact example_special.
  - exact full_config.
  - exact full_written.
  - eexists. split; [exact E|].
    pose proof (@engine_load_safe unlimited full_path (Mapped (put_header full_kvs full_tensors ++ full_data)) (proj2 (wr_size _ _ _ full_writable))) as H.
    rewrite E in H. cbn zeta in H. cbn [em_weights em_model v100_source_layout weights_of] in H |- *.
    rewrite source_written, full_source in H. destruct H as (H1 & _ & H2 & _). exact (conj H1 H2).
Defined.
