(* ===== verification/MtpSidecar.v ===== *)
(** * MTP sidecars (ds4.c, engine/mtp_sidecar.c)

    [ds4_mtp_sidecar_inspect] reads a sidecar file, checks its tensors and
    gives each a place in a resident arena; [ds4_mtp_sidecar_open] maps the
    file, copies every tensor to its place on the GPU and reads parts of it
    back; the views describe a resident tensor to a kernel.  The arena is any
    implementation of the interface of GpuArena.v.

    The two openings of the path may see different files.  Output goes to the
    report as the list of its [fprintf] calls. *)
From S2P Require Import Prelude.
From S2P Require Import CNum.
From S2P Require Import Gguf.
From S2P Require Import Weights.
From S2P Require Import GpuArena.

(** ** The inventory *)

Definition DS4_MTP_SIDECAR_TENSOR_COUNT : Z := 32.
Definition DS4_MTP_SIDECAR_MAX_NAME : Z := 96.
Definition DS4_MTP_SIDECAR_MAX_DTYPE : Z := 32.
Definition DS4_MTP_SIDECAR_MAX_KERNEL : Z := 64.
Definition DS4_MTP_SIDECAR_MAX_DIMS : nat := 4.

Record ds4_mtp_sidecar_tensor_info := TensorInfo {
  ti_name : bytes;
  ti_dtype : bytes;
  ti_kernel_family : bytes;
  ti_type : Z;
  ti_n_dims : Z;
  ti_shape : list Z;
  ti_source_offset : Z;
  ti_byte_length : Z;
  ti_resident_offset : Z
}.

Record ds4_mtp_sidecar_info := SidecarInfo {
  si_gguf_version : Z;
  si_metadata_count : Z;
  si_tensor_count : Z;
  si_alignment : Z;
  si_tensor_data_pos : Z;
  si_file_bytes : Z;
  si_described_tensor_bytes : Z;
  si_resident_bytes : Z;
  si_tensors : list ds4_mtp_sidecar_tensor_info
}.

Definition mtp_required_tensors : list bytes :=
  map (fun s => B "mtp.0." ++ B s)
  ["hc_head_base.weight"; "hc_head_fn.weight"; "hc_head_scale.weight"; "e_proj.weight"; "h_proj.weight"; "enorm.weight";
   "hnorm.weight"; "norm.weight"; "hc_attn_fn.weight"; "hc_attn_scale.weight"; "hc_attn_base.weight"; "attn_norm.weight";
   "attn_q_a.weight"; "attn_q_a_norm.weight"; "attn_q_b.weight"; "attn_kv.weight"; "attn_kv_a_norm.weight"; "attn_sinks.weight";
   "attn_output_a.weight"; "attn_output_b.weight"; "hc_ffn_fn.weight"; "hc_ffn_scale.weight"; "hc_ffn_base.weight";
   "ffn_norm.weight"; "ffn_gate_inp.weight"; "exp_probs_b.bias"; "ffn_gate_exps.weight"; "ffn_up_exps.weight";
   "ffn_down_exps.weight"; "ffn_gate_shexp.weight"; "ffn_up_shexp.weight"; "ffn_down_shexp.weight"].

(** [strstr(name, s) != NULL]. *)
Definition named_in (name : bytes) (s : string) : bool := str_strstr name (B s).

Definition mtp_kernel_family (name : bytes) (t : ds4_tensor) : bytes :=
  if named_in name "ffn_gate_exps" || named_in name "ffn_up_exps" || named_in name "ffn_down_exps" then
    if tensor_ty t =? DS4_TENSOR_Q4_K then B "v100_q4_k_routed_moe" else B "v100_routed_quant_pending"
  else if named_in name "ffn_gate_shexp" || named_in name "ffn_up_shexp" || named_in name "ffn_down_shexp" then B "v100_q8_0_shared_dense"
  else if named_in name "hc_" then B "v100_hc_control"
  else if tensor_ty t =? DS4_TENSOR_Q8_0 then B "v100_q8_0_dense"
  else if tensor_ty t =? DS4_TENSOR_F32 then B "v100_f32_control"
  else if tensor_ty t =? DS4_TENSOR_F16 then B "v100_f16_control"
  else B "v100_mtp_control_pending".

(** The dimensions, separated by commas, in brackets. *)
Fixpoint join_dims (ds : list Z) : bytes :=
  match ds with
  | [] => []
  | [d] => print_u64 d
  | d :: ds => print_u64 d ++ B "," ++ join_dims ds
  end.
Definition mtp_report_shape (t : ds4_tensor) : bytes := B "[" ++ join_dims (tensor_dim t) ++ B "]".

Definition mtp_report_tensor (m : ds4_model) (name : bytes) : pres diag :=
  t <- required_tensor m name ;;
  Ok (Diag "mtp_tensor\t%s\tdtype=%s\tshape=%s\tbytes=%llu\toffset=%llu\tkernel=%s\n"
        [AS name; AS (tensor_type_name (tensor_ty t)); AS (mtp_report_shape t); AZ (tensor_bytes t); AZ (tensor_abs_offset t);
         AS (mtp_kernel_family name t)]).

Definition mtp_align_u64 (v align : Z) : Z :=
  if align =? 0 then v
  else let rem := v mod align in if rem =? 0 then v else u64 (v + (align - rem)).

(** [snprintf] into a field of [size] bytes. *)
Definition fitted (size : Z) (s : bytes) : bytes := take (Z.to_nat (size - 1)) s.

Definition mtp_fill_tensor_info (name : bytes) (t : ds4_tensor) (resident_offset : Z) : ds4_mtp_sidecar_tensor_info :=
  let dims := take DS4_MTP_SIDECAR_MAX_DIMS (tensor_dim t) in
  TensorInfo (fitted DS4_MTP_SIDECAR_MAX_NAME name) (fitted DS4_MTP_SIDECAR_MAX_DTYPE (tensor_type_name (tensor_ty t)))
    (fitted DS4_MTP_SIDECAR_MAX_KERNEL (mtp_kernel_family name t)) (tensor_ty t) (Z.of_nat (length dims))
    (dims ++ replicate (DS4_MTP_SIDECAR_MAX_DIMS - length dims) 0) (tensor_abs_offset t) (tensor_bytes t) resident_offset.

(** The number and the bytes of the tensors of a type. *)
Definition dtype_totals (m : ds4_model) (type : Z) : Z * Z :=
  let ts := List.filter (fun t => tensor_ty t =? type) (model_tensors m) in
  (Z.of_nat (length ts), foldl (fun n t => u64 (n + tensor_bytes t)) 0 ts).

Definition dtype_rows (m : ds4_model) : list (Z * (Z * Z)) :=
  List.filter (fun r => negb (fst (snd r) =? 0)) (map (fun type => (type, dtype_totals m type)) (map Z.of_nat (seq 0 (length gguf_types)))).

(** The places of the tensors, from the first free byte. *)
Fixpoint resident_loop (m : ds4_model) (ns : list bytes) (resident_bytes : Z) : pres (list ds4_mtp_sidecar_tensor_info * Z) :=
  match ns with
  | [] => Ok ([], resident_bytes)
  | name :: ns =>
      t <- required_tensor m name ;;
      let resident_bytes := mtp_align_u64 resident_bytes 256 in
      let* (l, e) := resident_loop m ns (u64 (resident_bytes + tensor_bytes t)) in
      Ok (mtp_fill_tensor_info name t resident_bytes :: l, e)
  end.

(** The lines for one tensor at its place. *)
Definition report_resident (m : ds4_model) (name : bytes) (i : ds4_mtp_sidecar_tensor_info) : pres (list diag) :=
  line <- mtp_report_tensor m name ;;
  t <- required_tensor m name ;;
  Ok [line; Diag "mtp_resident\t%s\toffset=%llu\tbytes=%llu\n" [AS name; AZ (ti_resident_offset i); AZ (tensor_bytes t)]].

Definition ds4_mtp_sidecar_inspect `{Allocator} (mtp_path : option bytes) (f : model_file) : pres (res (ds4_mtp_sidecar_info * list diag)) :=
  match mtp_path with
  | None | Some [] => Ok (fail "missing MTP sidecar path" [])
  | Some path =>
      m <- model_open path f ;;
      let arch := model_get_string m (B "general.architecture") in
      let expected := B "deepseek4_mtp_support" in
      if negb (match arch with Some a => str_eqb a expected | None => false end) then
        Ok (fail "MTP sidecar has architecture %.*s, expected deepseek4_mtp_support" [AS (default [] arch)])
      else
      let n_tensors := Z.of_nat (length (model_tensors m)) in
      if negb (n_tensors =? DS4_MTP_SIDECAR_TENSOR_COUNT) then
        Ok (fail "MTP sidecar has %llu tensors, expected %llu" [AZ n_tensors; AZ DS4_MTP_SIDECAR_TENSOR_COUNT])
      else
        _ <- mtp_weights_bind m ;;
        let rows := dtype_rows m in
        let tensor_bytes_ := foldl (fun n r => u64 (n + snd (snd r))) 0 rows in
        let* (tensors, e) := resident_loop m mtp_required_tensors 0 in
        let resident_bytes := mtp_align_u64 e 256 in
        lines <- mapM_res (fun p => report_resident m (fst p) (snd p)) (combine mtp_required_tensors tensors) ;;
        Ok (Ok (SidecarInfo (model_version m) (Z.of_nat (length (model_kv m))) n_tensors (model_alignment m) (model_data_pos m) (model_size m)
                  tensor_bytes_ resident_bytes tensors,
          [Diag "mtp_sidecar\tpath\t%s\n" [AS path];
           Diag "mtp_sidecar\tarchitecture\t%.*s\n" [AS (default [] arch)];
           Diag "mtp_sidecar\tgguf\tversion=%u\tmetadata=%llu\ttensors=%llu\talignment=%llu\ttensor_data_pos=%llu\tfile_bytes=%llu\n"
             [AZ (model_version m); AZ (Z.of_nat (length (model_kv m))); AZ n_tensors; AZ (model_alignment m); AZ (model_data_pos m);
              AZ (model_size m)]] ++
          map (fun r => Diag "mtp_dtype\t%s\tcount=%llu\tbytes=%llu\n" [AS (tensor_type_name (fst r)); AZ (fst (snd r)); AZ (snd (snd r))]) rows ++
          [Diag "mtp_sidecar\tdescribed_tensor_bytes\t%llu\n" [AZ tensor_bytes_];
           Diag "mtp_sidecar\tresident_bytes\t%llu\n" [AZ resident_bytes]] ++
          concat lines ++ [Diag "mtp_sidecar\tPASS\tlayout=deepseek4_mtp_support_q4k_q8_0_f32\n" []]))
  end.

(** ** Residence *)

Definition DS4_V100_MTP_DEFAULT_UPLOAD_CHUNK : Z := 8 * 1024 * 1024.
Definition DS4_V100_MTP_SPOT_BYTES : Z := 32.

Record ds4_mtp_sidecar_options := SidecarOptions {
  mtp_path : option bytes; opt_gpu : Z; upload_chunk_bytes : Z; require_device_arena : bool }.

Definition ds4_mtp_sidecar_options_init : ds4_mtp_sidecar_options := SidecarOptions None 7 DS4_V100_MTP_DEFAULT_UPLOAD_CHUNK true.

Record ds4_mtp_sidecar (arena : Type) := Sidecar {
  sc_info : ds4_mtp_sidecar_info;
  sc_map : bytes;
  sc_size : Z;
  sc_arena : arena;
  sc_uploaded_tensors : Z;
  sc_uploaded_bytes : Z;
  sc_spot_checks : Z;
  sc_gpu : Z
}.
Arguments Sidecar {arena}.
Arguments sc_info {arena}.
Arguments sc_map {arena}.
Arguments sc_size {arena}.
Arguments sc_arena {arena}.
Arguments sc_uploaded_tensors {arena}.
Arguments sc_uploaded_bytes {arena}.
Arguments sc_spot_checks {arena}.
Arguments sc_gpu {arena}.

(** What opening, sizing and mapping the path gives. *)
Inductive mapped_file := OpenFails (errno : bytes) | StatFails (errno : bytes) | MapFails (errno : bytes) | MappedBytes (data : bytes).

Definition map_sidecar (path : bytes) (f : mapped_file) : res bytes :=
  match f with
  | OpenFails errno => fail "cannot open MTP sidecar %s: %s" [AS path; AS errno]
  | StatFails errno => fail "cannot stat MTP sidecar %s: %s" [AS path; AS errno]
  | MappedBytes [] => fail "invalid MTP sidecar size for %s" [AS path]
  | MapFails errno => fail "cannot mmap MTP sidecar %s: %s" [AS path; AS errno]
  | MappedBytes data => Ok data
  end.

(** [offset > size || length > size - offset]. *)
Definition outside (offset length size : Z) : bool := (size <? offset) || (size - offset <? length).

Definition validate_ranges (size : Z) (info : ds4_mtp_sidecar_info) : res unit :=
  if negb (size =? si_file_bytes info) then
    fail "MTP sidecar mapped size %llu != inspected size %llu" [AZ size; AZ (si_file_bytes info)]
  else
    rfold (fun _ t =>
      if outside (ti_source_offset t) (ti_byte_length t) size then fail "MTP tensor %s is outside mapped sidecar" [AS (ti_name t)]
      else if outside (ti_resident_offset t) (ti_byte_length t) (si_resident_bytes info)
      then fail "MTP tensor %s is outside resident arena" [AS (ti_name t)]
      else Ok tt) tt (si_tensors info).

(** Bytes of the map; reading outside of it is undefined. *)
Definition map_bytes (data : bytes) (at_ n : Z) : pres bytes :=
  if at_ + n <=? Z.of_nat (length data) then Ok (slice data at_ n) else Error (Undefined "read outside the map").

Section Resident.
Context {arena : Type} `{ArenaOps arena}.
Context (data : bytes) (gpu : Z).

(** The loop over the chunks of a tensor, from byte [done]: each turn copies
    at least one byte. *)
Fixpoint upload_chunks (fuel : nat) (a : arena) (t : ds4_mtp_sidecar_tensor_info) (chunk_bytes done : Z) : pres (res arena) :=
  if ti_byte_length t <=? done then Ok (Ok a)
  else
    match fuel with
    | O => Error OutOfFuel
    | S fuel =>
        let rest := ti_byte_length t - done in
        let n := if chunk_bytes <? rest then chunk_bytes else rest in
        chunk <- map_bytes data (ti_source_offset t + done) n ;;
        match arena_upload a (ti_resident_offset t + done) chunk with
        | (true, a) => upload_chunks fuel a t chunk_bytes (done + n)
        | (false, _) => Ok (fail "MTP upload failed for %s on gpu%d" [AS (ti_name t); AZ gpu])
        end
    end.

Definition upload_tensor (a : arena) (t : ds4_mtp_sidecar_tensor_info) (chunk_bytes : Z) : pres (res arena) :=
  upload_chunks (Z.to_nat (ti_byte_length t)) a t chunk_bytes 0.

(** [memcmp] reads bytes that must have a value. *)
Definition spot_check_range (a : arena) (t : ds4_mtp_sidecar_tensor_info) (rel n : Z) : pres (res unit) :=
  let n := if DS4_V100_MTP_SPOT_BYTES <? n then DS4_V100_MTP_SPOT_BYTES else n in
  match arena_read a (ti_resident_offset t + rel) n with
  | None => Ok (fail "MTP readback failed for %s" [AS (ti_name t)])
  | Some l =>
      expected <- map_bytes data (ti_source_offset t + rel) n ;;
      match mapM (fun b => b) l with
      | None => Error (Undefined "memcmp of bytes without a value")
      | Some actual => if str_eqb actual expected then Ok (Ok tt) else Ok (fail "MTP resident bytes mismatch for %s" [AS (ti_name t)])
      end
  end.

(** The number of checks that were made. *)
Definition spot_check_tensor (a : arena) (t : ds4_mtp_sidecar_tensor_info) : pres (res Z) :=
  let len := ti_byte_length t in
  if len =? 0 then Ok (Ok 0)
  else
    let n := if len <? DS4_V100_MTP_SPOT_BYTES then len else DS4_V100_MTP_SPOT_BYTES in
    r <- spot_check_range a t 0 n ;;
    match r with
    | Error d => Ok (Error d)
    | Ok _ =>
        if n <? len then
          r <- spot_check_range a t (len - n) n ;;
          match r with Error d => Ok (Error d) | Ok _ => Ok (Ok 2) end
        else Ok (Ok 1)
    end.

(** The loops over the tensors: the arena with the numbers of tensors and
    bytes, and the number of checks. *)
Fixpoint upload_tensors (a : arena) (ts : list ds4_mtp_sidecar_tensor_info) (chunk_bytes tensors total : Z) : pres (res (arena * Z * Z)) :=
  match ts with
  | [] => Ok (Ok (a, tensors, total))
  | t :: ts =>
      r <- upload_tensor a t chunk_bytes ;;
      match r with
      | Error d => Ok (Error d)
      | Ok a => upload_tensors a ts chunk_bytes (u64 (tensors + 1)) (u64 (total + ti_byte_length t))
      end
  end.

Fixpoint spot_check_tensors (a : arena) (ts : list ds4_mtp_sidecar_tensor_info) (checks : Z) : pres (res Z) :=
  match ts with
  | [] => Ok (Ok checks)
  | t :: ts =>
      r <- spot_check_tensor a t ;;
      match r with Error d => Ok (Error d) | Ok n => spot_check_tensors a ts (u64 (checks + n)) end
  end.
End Resident.

(** The part of [ds4_mtp_sidecar_open] behind the inspection. *)
Definition make_resident {arena : Type} `{Allocator} `{ArenaOps arena} (opts : ds4_mtp_sidecar_options) (path : bytes) (f : mapped_file)
    (info : ds4_mtp_sidecar_info) : pres (res (ds4_mtp_sidecar arena * list diag)) :=
  let gpu := opt_gpu opts in
  let chunk_bytes := if negb (upload_chunk_bytes opts =? 0) then upload_chunk_bytes opts else DS4_V100_MTP_DEFAULT_UPLOAD_CHUNK in
  match (data <- map_sidecar path f ;; validate_ranges (Z.of_nat (length data)) info ;; Ok data) with
  | Error d => Ok (Error d)
  | Ok data =>
      match arena_open gpu (si_resident_bytes info) with
      | None => Ok (fail "failed to allocate MTP resident arena on gpu%d for %llu bytes" [AZ gpu; AZ (si_resident_bytes info)])
      | Some a =>
          if require_device_arena opts && negb (arena_is_device_memory a) then
            Ok (fail "MTP resident arena on gpu%d is not device memory" [AZ gpu])
          else if negb (malloc_ok chunk_bytes) then Ok (fail "failed to allocate MTP upload chunk" [])
          else
            r <- upload_tensors data gpu a (si_tensors info) chunk_bytes 0 0 ;;
            match r with
            | Error d => Ok (Error d)
            | Ok (a, tensors, total) =>
                r <- spot_check_tensors data a (si_tensors info) 0 ;;
                match r with
                | Error d => Ok (Error d)
                | Ok checks =>
                    Ok (Ok (Sidecar info data (Z.of_nat (length data)) a tensors total checks gpu,
                      [Diag "mtp_runtime\tgpu\t%d\n" [AZ gpu];
                       Diag "mtp_runtime\tarena_kind\t%s\n" [AS (arena_memory_kind a)];
                       Diag "mtp_runtime\tarena_bytes\t%llu\n" [AZ (arena_bytes a)];
                       Diag "mtp_runtime\tuploaded_tensors\t%llu\n" [AZ tensors];
                       Diag "mtp_runtime\tuploaded_bytes\t%llu\n" [AZ total];
                       Diag "mtp_runtime\tspot_checks\t%llu\n" [AZ checks];
                       Diag "mtp_runtime\tfree_after_upload_bytes\t%llu\n" [AZ (arena_free_after_upload a)];
                       Diag "mtp_runtime\tPASS\tresident_sidecar=1\n" []]))
                end
            end
      end
  end.

Definition sizeof_sidecar : Z := 8320.

(** The report, and the sidecar or the error. *)
Definition ds4_mtp_sidecar_open {arena : Type} `{Allocator} `{ArenaOps arena} (opts : option ds4_mtp_sidecar_options)
    (first : model_file) (second : mapped_file) : pres (list diag * res (ds4_mtp_sidecar arena)) :=
  match opts with
  | Some opts =>
      match mtp_path opts with
      | Some (c :: p) =>
          if opt_gpu opts <? 0 then Ok ([], fail "invalid MTP sidecar gpu" [])
          else if negb (malloc_ok sizeof_sidecar) then Ok ([], fail "failed to allocate MTP sidecar" [])
          else
            r <- ds4_mtp_sidecar_inspect (mtp_path opts) first ;;
            match r with
            | Error d => Ok ([], Error d)
            | Ok (info, lines) =>
                r <- make_resident opts (c :: p) second info ;;
                match r with
                | Error d => Ok (lines, Error d)
                | Ok (s, more) => Ok (lines ++ more, Ok s)
                end
            end
      | _ => Ok ([], fail "missing MTP sidecar path" [])
      end
  | None => Ok ([], fail "missing MTP sidecar path" [])
  end.

(** ** Views *)

Definition ds4_mtp_sidecar_tensor {arena : Type} (s : ds4_mtp_sidecar arena) (name : bytes) : option ds4_mtp_sidecar_tensor_info :=
  List.find (fun t => str_eqb (ti_name t) name) (si_tensors (sc_info s)).

Definition dim (t : ds4_mtp_sidecar_tensor_info) (i : nat) : Z := nth i (ti_shape t) 0.

(** The checks of the ranges, the same in every view. *)
Definition view_ranges {arena : Type} (s : ds4_mtp_sidecar arena) (t : ds4_mtp_sidecar_tensor_info) (name : bytes) : res unit :=
  if outside (ti_source_offset t) (ti_byte_length t) (sc_size s) then fail "MTP tensor %s source range is invalid" [AS name]
  else if outside (ti_resident_offset t) (ti_byte_length t) (si_resident_bytes (sc_info s))
  then fail "MTP tensor %s resident range is invalid" [AS name]
  else Ok tt.

Definition f32_aligned (t : ds4_mtp_sidecar_tensor_info) (name : bytes) : res unit :=
  if negb (ti_source_offset t mod 4 =? 0) || negb (ti_resident_offset t mod 4 =? 0)
  then fail "MTP tensor %s F32 offset is unaligned" [AS name] else Ok tt.

Definition require (b : bool) (fmt : string) (name : bytes) : res unit := if b then Ok tt else fail fmt [AS name].

Definition length_is (t : ds4_mtp_sidecar_tensor_info) (expected_bytes : Z) (fmt : string) (name : bytes) : res unit :=
  if negb (expected_bytes =? ti_byte_length t) then fail fmt [AS name; AZ (ti_byte_length t); AZ expected_bytes] else Ok tt.

Definition positive_u32 (d : Z) : bool := negb (d =? 0) && (d <=? UINT32_MAX).

Definition find_view_tensor {arena : Type} (s : option (ds4_mtp_sidecar arena)) (name : option bytes) (missing : string) :
    res (ds4_mtp_sidecar arena * bytes * ds4_mtp_sidecar_tensor_info) :=
  match s, name with
  | Some s, Some name =>
      match ds4_mtp_sidecar_tensor s name with
      | Some t => Ok (s, name, t)
      | None => fail "missing MTP tensor %s" [AS name]
      end
  | _, _ => fail missing []
  end.

Section Views.
Context {arena : Type} (s : option (ds4_mtp_sidecar arena)) (name : option bytes).

Definition ds4_mtp_sidecar_q8_0_view : res ds4_gpu_source_row_view :=
  let* (s, name, t) := find_view_tensor s name "missing MTP Q8_0 view argument" in
  require (str_eqb (ti_dtype t) (B "q8_0") && (ti_n_dims t =? 2) && positive_u32 (dim t 0) && positive_u32 (dim t 1))
    "MTP tensor %s is not a supported 2D Q8_0 tensor" name ;;
  let blocks := u64 (dim t 0 + 31) / 32 in
  require (blocks <=? UINT64_MAX / 34) "MTP tensor %s Q8_0 row stride overflows" name ;;
  let row_stride := u64 (blocks * 34) in
  require (dim t 1 <=? UINT64_MAX / row_stride) "MTP tensor %s byte length overflows" name ;;
  length_is t (u64 (dim t 1 * row_stride)) "MTP tensor %s byte length %llu != expected Q8_0 bytes %llu" name ;;
  view_ranges s t name ;;
  Ok (SourceRowView (ti_resident_offset t) (ti_byte_length t) (u32 (dim t 1)) (u32 (dim t 0)) (u32 row_stride)).

Definition ds4_mtp_sidecar_f32_vector_view : res ds4_gpu_source_row_view :=
  let* (s, name, t) := find_view_tensor s name "missing MTP F32 view argument" in
  require (str_eqb (ti_dtype t) (B "f32") && (ti_n_dims t =? 1) && positive_u32 (dim t 0) && (dim t 0 <=? UINT32_MAX / 4))
    "MTP tensor %s is not a supported 1D F32 tensor" name ;;
  let expected_bytes := u64 (dim t 0 * 4) in
  length_is t expected_bytes "MTP tensor %s byte length %llu != expected F32 bytes %llu" name ;;
  f32_aligned t name ;;
  view_ranges s t name ;;
  Ok (SourceRowView (ti_resident_offset t) (ti_byte_length t) 1 (u32 (dim t 0)) (u32 expected_bytes)).

Definition ds4_mtp_sidecar_f32_matrix_view : res ds4_gpu_source_row_view :=
  let* (s, name, t) := find_view_tensor s name "missing MTP F32 matrix view argument" in
  require (str_eqb (ti_dtype t) (B "f32") && (ti_n_dims t =? 2) && positive_u32 (dim t 0) && positive_u32 (dim t 1) &&
      (dim t 0 <=? UINT32_MAX / 4))
    "MTP tensor %s is not a supported 2D F32 tensor" name ;;
  let row_stride := u64 (dim t 0 * 4) in
  require (dim t 1 <=? UINT64_MAX / row_stride) "MTP tensor %s F32 byte length overflows" name ;;
  length_is t (u64 (dim t 1 * row_stride)) "MTP tensor %s byte length %llu != expected F32 matrix bytes %llu" name ;;
  f32_aligned t name ;;
  view_ranges s t name ;;
  Ok (SourceRowView (ti_resident_offset t) (ti_byte_length t) (u32 (dim t 1)) (u32 (dim t 0)) (u32 row_stride)).

Definition ds4_mtp_sidecar_q4_k_expert_view : res ds4_gpu_q4_k_expert_view :=
  let* (s, name, t) := find_view_tensor s name "missing MTP Q4_K expert view argument" in
  require (str_eqb (ti_dtype t) (B "q4_k") && (ti_n_dims t =? 3) && positive_u32 (dim t 0) && positive_u32 (dim t 1) && positive_u32 (dim t 2))
    "MTP tensor %s is not a supported 3D Q4_K expert tensor" name ;;
  require (dim t 0 mod 256 =? 0) "MTP tensor %s Q4_K cols are not 256-aligned" name ;;
  let blocks := dim t 0 / 256 in
  require (blocks <=? UINT64_MAX / 144) "MTP tensor %s Q4_K row stride overflows" name ;;
  let row_stride := u64 (blocks * 144) in
  require (dim t 1 <=? UINT64_MAX / row_stride) "MTP tensor %s Q4_K expert stride overflows" name ;;
  let expert_stride := u64 (dim t 1 * row_stride) in
  require (dim t 2 <=? UINT64_MAX / expert_stride) "MTP tensor %s Q4_K byte length overflows" name ;;
  length_is t (u64 (dim t 2 * expert_stride)) "MTP tensor %s byte length %llu != expected Q4_K bytes %llu" name ;;
  require (row_stride <=? UINT32_MAX) "MTP tensor %s Q4_K row stride exceeds uint32" name ;;
  view_ranges s t name ;;
  Ok (ExpertView (ti_resident_offset t) (ti_byte_length t) (u32 (dim t 2)) (u32 (dim t 1)) (u32 (dim t 0)) (u32 row_stride) expert_stride).
End Views.
