(* ===== verification/MtpSidecarProps.v ===== *)
(** * MTP sidecars: what is resident

    The inspection gives the tensors of the layout table disjoint places; an
    opened sidecar holds in each place the bytes of the file; and the views
    describe those places exactly. *)
From S2P Require Import Prelude.
From S2P Require Import CNum.
From S2P Require Import Gguf.
From S2P Require Import GgufProps.
From S2P Require Import Weights.
From S2P Require Import WeightsLayout.
From S2P Require Import WeightsProps.
From S2P Require Import MtpWeights.
From S2P Require Import GpuArena.
From S2P Require Import GpuArenaProps.
From S2P Require Import MtpSidecar.

(** ** The places *)

(** The tensors have places in order, aligned, one behind the other, between
    [free] and [e]. *)
Fixpoint placed (free : Z) (l : list ds4_mtp_sidecar_tensor_info) (e : Z) : Prop :=
  match l with
  | [] => free <= e
  | i :: l => free <= ti_resident_offset i /\ ti_resident_offset i mod 256 = 0 /\ 0 <= ti_byte_length i /\
      placed (ti_resident_offset i + ti_byte_length i) l e
  end.

(** The description of the tensor of a row of the layout table. *)
Definition describes (m : ds4_model) (r : row ds4_mtp_weights) (i : ds4_mtp_sidecar_tensor_info) : Prop :=
  exists t, named m (B (r_name r)) (r_types r) (r_dims r) t /\ inside m (r_dims r) t /\
    i = mtp_fill_tensor_info (B (r_name r)) t (ti_resident_offset i).

Lemma mtp_names : mtp_required_tensors = map (fun r => B (r_name r)) mtp_rows.
Proof. reflexivity. Qed.

Definition small_rows : bool :=
  forallb (fun r => sized (r_types r) (r_dims r) &&
    forallb (fun ty => match exact_bytes ty (r_dims r) with Some n => n <=? 2 ^ 32 | None => false end) (r_types r)) mtp_rows.

Lemma mtp_small : small_rows = true.
Proof. vm_compute. reflexivity. Qed.

Lemma mtp_align_spec (v : Z) : 0 <= v <= INT64_MAX -> v <= mtp_align_u64 v 256 < v + 256 /\ mtp_align_u64 v 256 mod 256 = 0.
Proof.
  intros Hv. unfold mtp_align_u64. cbn [Z.eqb]. pose proof (Z.mod_pos_bound v 256 ltac:(lia)) as Hm.
  destruct (Z.eqb_spec (v mod 256) 0) as [E|E]; [split; [lia|done]|].
  rewrite u64_small by zlia. split; [lia|]. pose proof (Z.div_mod v 256 ltac:(lia)).
  replace (v + (256 - v mod 256)) with ((v / 256 + 1) * 256) by lia. apply Z.mod_mul. lia.
Qed.

Lemma placed_weaken (l : list ds4_mtp_sidecar_tensor_info) : forall free free' e e', free' <= free -> e <= e' -> placed free l e -> placed free' l e'.
Proof.
  induction l as [|i l IH]; intros free free' e e' Hf He; cbn [placed]; [lia|]. intros (H1 & H2 & H3 & H4). split_and!; try done; [lia|].
  by eapply IH; [..|exact H4].
Qed.

Lemma placed_end (l : list ds4_mtp_sidecar_tensor_info) : forall free e, placed free l e -> free <= e.
Proof. induction l as [|i l IH]; intros free e; cbn [placed]; [done|]. intros (H1 & H2 & H3 & H4%IH). lia. Qed.

Lemma resident_placed (m : ds4_model) (rs : list (row ds4_mtp_weights)) : forall free, 0 <= free ->
  free + Z.of_nat (length rs) * 2 ^ 33 <= 2 ^ 40 ->
  Forall (fun r => exists t, named m (B (r_name r)) (r_types r) (r_dims r) t /\ inside m (r_dims r) t /\ tensor_bytes t <= 2 ^ 32) rs ->
  exists l e, resident_loop m (map (fun r => B (r_name r)) rs) free = Ok (l, e) /\ Forall2 (describes m) rs l /\ placed free l e /\
    e <= free + Z.of_nat (length rs) * 2 ^ 33.
Proof.
  induction rs as [|r rs IH]; intros free Hf Hs Hr; cbn [map resident_loop].
  { exists [], free. split_and!; [done|constructor|cbn [placed]; lia|lia]. }
  apply Forall_cons in Hr as [(t & Hn & Hi & Hb) Hr]. cbn [length] in Hs. rewrite Nat2Z.inj_succ in Hs.
  pose proof (mtp_align_spec free ltac:(zlia)) as [Ha Hm]. pose proof Hi as (_ & _ & _ & Hp & _).
  assert (Eu : u64 (mtp_align_u64 free 256 + tensor_bytes t) = mtp_align_u64 free 256 + tensor_bytes t) by (apply u64_small; zlia).
  destruct (IH (mtp_align_u64 free 256 + tensor_bytes t) ltac:(lia) ltac:(lia) Hr) as (l & e & El & Hd & Hpl & He).
  pose proof Hn as [Ef _]. unfold required_tensor. rewrite Ef, Eu, El.
  eexists _, e. split_and!; [reflexivity| | |cbn [length]; lia].
  - constructor; [|done]. exists t. by split_and!.
  - cbn [placed ti_resident_offset ti_byte_length mtp_fill_tensor_info]. split_and!; [lia|done|lia|done].
Qed.

(** What the inspection promises. *)
Record inspected (m : ds4_model) (info : ds4_mtp_sidecar_info) : Prop := {
  in_size : si_file_bytes info = model_size m;
  in_rows : Forall2 (describes m) mtp_rows (si_tensors info);
  in_placed : placed 0 (si_tensors info) (si_resident_bytes info);
  in_small : si_resident_bytes info <= 2 ^ 40
}.

Lemma mtp_rows_sized (m : ds4_model) : model_wf m -> mtp_complete m ->
  Forall (fun r => exists t, named m (B (r_name r)) (r_types r) (r_dims r) t /\ inside m (r_dims r) t /\ tensor_bytes t <= 2 ^ 32) mtp_rows.
Proof.
  intros Hm [Hc _]. pose proof mtp_small as Hs. unfold small_rows in Hs. rewrite forallb_forall in Hs.
  rewrite Forall_forall in Hc. apply Forall_forall. intros r Hr. destruct (Hc r Hr) as (t & Ht).
  apply list_elem_of_In, Hs, andb_true_iff in Hr as [Hz Hb]. exists t. pose proof (named_inside m _ _ _ _ Hm Hz Ht) as Hi. split_and!; [done..|].
  destruct Ht as (_ & Hty & _). rewrite forallb_forall in Hb. apply list_elem_of_In, Hb in Hty. destruct Hi as (_ & _ & E & _). rewrite E in Hty. lia.
Qed.

Lemma report_ok (m : ds4_model) (l : list ds4_mtp_sidecar_tensor_info) (rs : list (row ds4_mtp_weights)) :
  Forall2 (describes m) rs l ->
  exists lines, mapM_res (fun p => report_resident m (fst p) (snd p)) (combine (map (fun r => B (r_name r)) rs) l) = Ok lines.
Proof.
  induction 1 as [|r i rs l (t & [Ht _] & _) _ [lines IH]]; cbn [map combine mapM_res fst snd]; [by eexists|].
  rewrite IH. unfold report_resident, mtp_report_tensor, required_tensor. rewrite Ht. by eexists.
Qed.

Lemma inspect_ok `{Allocator} (path : option bytes) (f : model_file) : file_ok f ->
  match ds4_mtp_sidecar_inspect path f with
  | Error e => exists msg, e = Exit 1 msg
  | Ok (Error d) => d_fmt d <> "MTP resident bytes mismatch for %s"%string
  | Ok (Ok (info, _)) => exists m, model_open (default [] path) f = Ok m /\ f = Mapped (model_map m) /\ inspected m info
  end.
Proof.
  intros Hf. unfold ds4_mtp_sidecar_inspect. destruct path as [[|c p]|]; [done| |done].
  pose proof (model_open_spec (c :: p) f Hf) as Hm. destruct (model_open (c :: p) f) as [m|e] eqn:Eo.
  2: { destruct e as [code msg| |]; [|done|done]. cbn in Hm. subst. by exists msg. }
  destruct Hm as [Hmap Hm]. destruct (negb _); [done|]. destruct (negb _); [done|].
  pose proof (exits_mtp m) as He. destruct (mtp_weights_bind m) as [w|e] eqn:Eb.
  2: { destruct e as [code msg| |]; [|done|done]. cbn in He. subst. by exists msg. }
  apply mtp_bind_of in Eb as [_ Hc]. pose proof (mtp_rows_sized m Hm Hc) as Hr.
  rewrite mtp_names. destruct (resident_placed m mtp_rows 0 ltac:(lia) ltac:(by vm_compute) Hr) as (l & e & El & Hd & Hp & Hle). rewrite El.
  destruct (report_ok m l mtp_rows Hd) as [lines Er]. rewrite Er. exists m. split_and!; [done..|].
  pose proof (placed_end l 0 e Hp). change (Z.of_nat (length mtp_rows)) with 32 in Hle.
  pose proof (mtp_align_spec e ltac:(zlia)) as [Ha _]. constructor; cbn [si_file_bytes si_tensors si_resident_bytes]; [done|done| |lia].
  eapply placed_weaken; [..|exact Hp]; lia.
Qed.

(** ** Ranges of lists *)

Lemma range_sub {A} (m : list A) (o rel n len : Z) : 0 <= o -> 0 <= rel -> 0 <= n -> rel + n <= len ->
  take (Z.to_nat n) (drop (Z.to_nat (o + rel)) m) = take (Z.to_nat n) (drop (Z.to_nat rel) (take (Z.to_nat len) (drop (Z.to_nat o) m))).
Proof.
  intros Ho Hr Hn Hl. rewrite skipn_firstn_comm, drop_drop, take_take. f_equal; [lia|]. f_equal. lia.
Qed.

Lemma range_split {A} (m : list A) (o n k : Z) : 0 <= o -> 0 <= n -> 0 <= k ->
  take (Z.to_nat (n + k)) (drop (Z.to_nat o) m) = take (Z.to_nat n) (drop (Z.to_nat o) m) ++ take (Z.to_nat k) (drop (Z.to_nat (o + n)) m).
Proof.
  intros Ho Hn Hk. rewrite Z2Nat.inj_add by lia. rewrite (Z2Nat.inj_add o n) by lia. rewrite <- drop_drop.
  generalize (drop (Z.to_nat o) m). intros l. rewrite <- (take_take_drop l (Z.to_nat n) (Z.to_nat k)). done.
Qed.

Lemma slice_length (data : bytes) (at_ n : Z) : 0 <= at_ -> 0 <= n -> at_ + n <= Z.of_nat (length data) -> Z.of_nat (length (slice data at_ n)) = n.
Proof. intros H1 H2 H3. unfold slice. rewrite length_take, length_drop. lia. Qed.

Lemma mapM_some {A} (l : list A) : mapM (fun b => b) (map Some l) = Some l.
Proof. induction l as [|a l IH]; [done|]. cbn [map]. cbn. by rewrite IH. Qed.

(** ** Uploading and checking *)

Definition mismatch : string := "MTP resident bytes mismatch for %s".

(** The tensors of a list that have their bytes in the file. *)
Definition in_map (data : bytes) (t : ds4_mtp_sidecar_tensor_info) : Prop :=
  0 <= ti_source_offset t /\ ti_source_offset t + ti_byte_length t <= Z.of_nat (length data).

Section Resident.
Context {arena : Type} `{ArenaLaws arena}.
Context (data : bytes) (gpu : Z).

(** The bytes of a tensor are in its place. *)
Definition holds_at (a : arena) (t : ds4_mtp_sidecar_tensor_info) : Prop :=
  mem_read (arena_memory a) (ti_resident_offset t) (ti_byte_length t) = map Some (slice data (ti_source_offset t) (ti_byte_length t)).

(** From [a] to [a'] only bytes from [lo] to [hi] changed. *)
Definition kept (a a' : arena) (lo hi : Z) : Prop :=
  arena_ok a' /\ length (arena_memory a') = length (arena_memory a) /\
  forall o n, 0 <= o -> 0 <= n -> o + n <= lo \/ hi <= o -> mem_read (arena_memory a') o n = mem_read (arena_memory a) o n.

Lemma kept_refl (a : arena) (lo hi : Z) : arena_ok a -> kept a a lo hi.
Proof. by split. Qed.

Lemma kept_trans (a b c : arena) (lo lo1 hi1 lo2 hi2 hi : Z) : lo <= lo1 -> hi1 <= hi -> lo <= lo2 -> hi2 <= hi ->
  kept a b lo1 hi1 -> kept b c lo2 hi2 -> kept a c lo hi.
Proof.
  intros H1 H2 H3 H4 (_ & Hl & Ha) (Hc & Hl' & Hb). split; [done|]. split; [congruence|].
  intros o n Ho Hn Hd. rewrite Hb, Ha by lia. done.
Qed.

Lemma kept_holds (a b : arena) (t : ds4_mtp_sidecar_tensor_info) (lo hi : Z) : 0 <= ti_resident_offset t -> 0 <= ti_byte_length t ->
  ti_resident_offset t + ti_byte_length t <= lo -> kept a b lo hi -> holds_at a t -> holds_at b t.
Proof. intros H1 H2 H3 (_ & _ & Hk) Ht. unfold holds_at. rewrite Hk by lia. exact Ht. Qed.

Lemma upload_kept (a a' : arena) (off : Z) (b : bytes) : arena_ok a -> 0 <= off -> arena_upload a off b = (true, a') ->
  kept a a' off (off + Z.of_nat (length b)) /\ mem_read (arena_memory a') off (Z.of_nat (length b)) = map Some b.
Proof.
  intros Ha Ho E. destruct (law_upload a off b a' Ha Ho E) as (Hl & Ha' & Hm). rewrite Hm. split; [split_and!|].
  - done.
  - rewrite Hm. by apply mem_write_length.
  - intros o n H1 H2 H3. rewrite Hm. by apply mem_write_other.
  - by apply mem_write_same.
Qed.

Lemma upload_chunks_spec (t : ds4_mtp_sidecar_tensor_info) (chunk : Z) : 0 < chunk -> in_map data t -> 0 <= ti_resident_offset t ->
  forall fuel a from, arena_ok a -> 0 <= from <= ti_byte_length t -> ti_byte_length t - from <= Z.of_nat fuel ->
  match upload_chunks data gpu fuel a t chunk from with
  | Ok (Ok a') => kept a a' (ti_resident_offset t + from) (ti_resident_offset t + ti_byte_length t) /\
      mem_read (arena_memory a') (ti_resident_offset t + from) (ti_byte_length t - from) =
        map Some (slice data (ti_source_offset t + from) (ti_byte_length t - from))
  | Ok (Error d) => d_fmt d <> mismatch
  | Error _ => False
  end.
Proof.
  intros Hc [Hs1 Hs2] Hr. induction fuel as [|fuel IH]; intros a from Ha Hf Hfuel; cbn [upload_chunks].
  all: destruct (Z.leb_spec (ti_byte_length t) from) as [Hd|Hd].
  1, 3: replace (ti_byte_length t - from) with 0 by lia; split; [by apply kept_refl|reflexivity].
  { lia. }
  cbn zeta. set (n := if chunk <? ti_byte_length t - from then chunk else ti_byte_length t - from).
  assert (Hn : 0 < n <= ti_byte_length t - from) by (unfold n; destruct (Z.ltb_spec chunk (ti_byte_length t - from)); lia). clearbody n.
  unfold map_bytes. destruct (Z.leb_spec (ti_source_offset t + from + n) (Z.of_nat (length data))) as [_|]; [|lia].
  pose proof (slice_length data (ti_source_offset t + from) n ltac:(lia) ltac:(lia) ltac:(lia)) as Hlen.
  destruct (arena_upload a _ _) as [[] a1] eqn:E; [|done]. apply upload_kept in E as [Hk He]; [|done|lia]. rewrite Hlen in Hk, He.
  specialize (IH a1 (from + n) (proj1 Hk) ltac:(lia) ltac:(lia)). destruct (upload_chunks _ _ _ _ _ _ _) as [[a'|d]|]; [|done|done].
  destruct IH as [Hk' He']. split; [eapply kept_trans; [..|exact Hk|exact Hk']; lia|].
  replace (ti_byte_length t - from) with (n + (ti_byte_length t - (from + n))) by lia. unfold mem_read, slice in *.
  rewrite !range_split, map_app by lia. f_equal.
  - rewrite <- He. destruct Hk' as (_ & _ & Hk'). unfold mem_read in Hk'. apply Hk'; lia.
  - rewrite !Z.add_assoc in He'. exact He'.
Qed.

Lemma upload_tensor_spec (t : ds4_mtp_sidecar_tensor_info) (chunk : Z) (a : arena) : 0 < chunk -> in_map data t -> 0 <= ti_resident_offset t ->
  0 <= ti_byte_length t -> arena_ok a ->
  match upload_tensor data gpu a t chunk with
  | Ok (Ok a') => kept a a' (ti_resident_offset t) (ti_resident_offset t + ti_byte_length t) /\ holds_at a' t
  | Ok (Error d) => d_fmt d <> mismatch
  | Error _ => False
  end.
Proof.
  intros Hc Hs Hr Hl Ha. unfold upload_tensor, holds_at.
  pose proof (upload_chunks_spec t chunk Hc Hs Hr (Z.to_nat (ti_byte_length t)) a 0 Ha ltac:(lia) ltac:(lia)) as H1.
  destruct (upload_chunks _ _ _ _ _ _ _) as [[a'|d]|]; try done. by rewrite !Z.add_0_r, Z.sub_0_r in H1.
Qed.

Lemma upload_tensors_spec (chunk : Z) (ts : list ds4_mtp_sidecar_tensor_info) : 0 < chunk -> Forall (in_map data) ts ->
  forall a free e n total, arena_ok a -> 0 <= free -> placed free ts e -> 0 <= n -> n + Z.of_nat (length ts) <= UINT64_MAX ->
    0 <= total -> total + (e - free) <= UINT64_MAX ->
  match upload_tensors data gpu a ts chunk n total with
  | Ok (Ok (a', n', total')) => kept a a' free e /\ Forall (holds_at a') ts /\ n' = n + Z.of_nat (length ts) /\ total' = total + sumZ ti_byte_length ts
  | Ok (Error d) => d_fmt d <> mismatch
  | Error _ => False
  end.
Proof.
  intros Hc Hin. induction Hin as [|t ts Ht _ IH]; intros a free e n total Ha Hf Hp Hn Hn' Ht0 Ht'; cbn [upload_tensors].
  { split_and!; [by apply kept_refl|constructor|cbn [length]; lia|cbn; lia]. }
  cbn [placed] in Hp. destruct Hp as (Hp1 & _ & Hp2 & Hp3). pose proof (placed_end _ _ _ Hp3) as Hpe. cbn [length] in Hn'.
  pose proof (upload_tensor_spec t chunk a Hc Ht ltac:(lia) Hp2 Ha) as H1.
  destruct (upload_tensor _ _ _ _ _) as [[a1|d]|]; [|done|done]. destruct H1 as [Hk Hh].
  rewrite !u64_small by (split; lia).
  specialize (IH a1 (ti_resident_offset t + ti_byte_length t) e (n + 1) (total + ti_byte_length t) (proj1 Hk) ltac:(lia) Hp3 ltac:(lia) ltac:(lia) ltac:(lia) ltac:(lia)).
  destruct (upload_tensors _ _ _ _ _ _ _) as [[[[a' n'] total']|d]|]; [|done|done]. destruct IH as (Hk' & Hh' & -> & ->).
  split_and!.
  - eapply kept_trans; [..|exact Hk|exact Hk']; lia.
  - constructor; [|done]. eapply kept_holds; [..|exact Hk'|exact Hh]; lia.
  - cbn [length]. lia.
  - unfold sumZ. cbn [foldr map]. lia.
Qed.

(** Two reads for a tensor that is longer than one. *)
Definition spot_reads (t : ds4_mtp_sidecar_tensor_info) : Z :=
  if ti_byte_length t =? 0 then 0 else if ti_byte_length t <=? DS4_V100_MTP_SPOT_BYTES then 1 else 2.

(** The arena does not give bytes that it has. *)
Definition refuses (a : arena) : Prop :=
  exists off n, 0 <= off /\ 0 <= n /\ off + n <= Z.of_nat (length (arena_memory a)) /\ arena_read a off n = None.

(** What a check may return: nothing, or that the arena refused to read. *)
Definition checked {A} (a : arena) (r : pres (res A)) (P : A -> Prop) : Prop :=
  match r with Ok (Ok x) => P x | Ok (Error d) => d_fmt d <> mismatch /\ refuses a | Error _ => False end.

Lemma spot_range_spec (a : arena) (t : ds4_mtp_sidecar_tensor_info) (rel n : Z) : arena_ok a -> in_map data t -> 0 <= ti_resident_offset t ->
  ti_resident_offset t + ti_byte_length t <= Z.of_nat (length (arena_memory a)) ->
  holds_at a t -> 0 <= rel -> 0 <= n <= DS4_V100_MTP_SPOT_BYTES -> rel + n <= ti_byte_length t ->
  checked a (spot_check_range data a t rel n) (fun _ => True).
Proof.
  intros Ha [Hs1 Hs2] Hr Hfit Hh Hrel [Hn1 Hn2] Hl. unfold spot_check_range. cbn zeta.
  destruct (Z.ltb_spec DS4_V100_MTP_SPOT_BYTES n) as [|_]; [lia|].
  destruct (arena_read a _ _) as [l|] eqn:E.
  2: { split; [done|]. exists (ti_resident_offset t + rel), n. split_and!; [lia..|done]. }
  destruct (law_read a (ti_resident_offset t + rel) n l Ha ltac:(lia) Hn1 E) as [_ ->].
  unfold map_bytes. destruct (Z.leb_spec (ti_source_offset t + rel + n) (Z.of_nat (length data))) as [_|]; [|lia].
  unfold holds_at, mem_read, slice in *. rewrite (range_sub _ _ _ _ (ti_byte_length t)), Hh by lia.
  rewrite skipn_map, firstn_map, <- range_sub, mapM_some by lia. by rewrite str_eqb_refl.
Qed.

Lemma spot_tensor_spec (a : arena) (t : ds4_mtp_sidecar_tensor_info) : arena_ok a -> in_map data t -> 0 <= ti_resident_offset t ->
  0 <= ti_byte_length t -> ti_resident_offset t + ti_byte_length t <= Z.of_nat (length (arena_memory a)) -> holds_at a t ->
  checked a (spot_check_tensor data a t) (fun n => n = spot_reads t).
Proof.
  intros Ha Hs Hr Hl Hfit Hh. unfold spot_check_tensor, spot_reads. destruct (Z.eqb_spec (ti_byte_length t) 0) as [|Hne]; [done|].
  set (len := ti_byte_length t) in *. cbn zeta. set (n := if len <? _ then len else _).
  assert (Hn : 0 <= n <= DS4_V100_MTP_SPOT_BYTES /\ n <= len) by (unfold n, DS4_V100_MTP_SPOT_BYTES; destruct (Z.ltb_spec len 32); lia).
  assert (Hlt : n <? len = negb (len <=? DS4_V100_MTP_SPOT_BYTES)).
  { unfold n, DS4_V100_MTP_SPOT_BYTES. destruct (Z.ltb_spec len 32), (Z.leb_spec len 32); cbn [negb]; try (apply Z.ltb_ge; lia); [lia|].
    apply Z.ltb_lt. lia. }
  rewrite Hlt. pose proof (spot_range_spec a t 0 n Ha Hs Hr Hfit Hh ltac:(lia) (proj1 Hn) ltac:(lia)) as H1.
  destruct (spot_check_range _ _ _ 0 _) as [[]|]; [|done|done].
  destruct (len <=? _); cbn [negb]; [done|].
  pose proof (spot_range_spec a t (len - n) n Ha Hs Hr Hfit Hh ltac:(lia) (proj1 Hn) ltac:(lia)) as H2.
  by destruct (spot_check_range _ _ _ _ _) as [[]|].
Qed.

Lemma spot_tensors_spec (a : arena) (ts : list ds4_mtp_sidecar_tensor_info) : arena_ok a -> Forall (in_map data) ts -> Forall (holds_at a) ts ->
  forall free e checks, 0 <= free -> placed free ts e -> e <= Z.of_nat (length (arena_memory a)) ->
    0 <= checks -> checks + 2 * Z.of_nat (length ts) <= UINT64_MAX ->
  checked a (spot_check_tensors data a ts checks) (fun n => n = checks + sumZ spot_reads ts).
Proof.
  intros Ha Hs. induction Hs as [|t ts Ht _ IH]; intros Hh free e checks Hf Hp He Hc Hc'; cbn [spot_check_tensors]; [cbn; lia|].
  apply Forall_cons in Hh as [Hh Hhs]. cbn [placed] in Hp. destruct Hp as (Hp1 & _ & Hp2 & Hp3). cbn [length] in Hc'.
  pose proof (placed_end _ _ _ Hp3) as Hpe. pose proof (spot_tensor_spec a t Ha Ht ltac:(lia) Hp2 ltac:(lia) Hh) as H1. destruct (spot_check_tensor _ _ _) as [[n|]|]; [|done|done]. cbn [checked] in H1. subst n.
  assert (Hr : 0 <= spot_reads t <= 2) by (unfold spot_reads; destruct (_ =? _); [lia|]; destruct (_ <=? _); lia).
  rewrite u64_small by (split; lia). specialize (IH Hhs (ti_resident_offset t + ti_byte_length t) e (checks + spot_reads t) ltac:(lia) Hp3 He ltac:(lia) ltac:(lia)).
  destruct (spot_check_tensors _ _ _ _) as [[n|]|]; [|done|done]. cbn [checked] in *. subst n. unfold sumZ. cbn [foldr map]. lia.
Qed.
End Resident.

(** ** An opened sidecar *)

Record resident {arena : Type} `{ArenaLaws arena} (s : ds4_mtp_sidecar arena) : Prop := {
  re_names : map ti_name (si_tensors (sc_info s)) = mtp_required_tensors;
  re_placed : placed 0 (si_tensors (sc_info s)) (si_resident_bytes (sc_info s));
  re_arena : arena_ok (sc_arena s) /\ Z.of_nat (length (arena_memory (sc_arena s))) = si_resident_bytes (sc_info s);
  re_size : sc_size s = Z.of_nat (length (sc_map s));
  re_source : Forall (in_map (sc_map s)) (si_tensors (sc_info s));
  re_bytes : Forall (holds_at (sc_map s) (sc_arena s)) (si_tensors (sc_info s));
  re_tensors : sc_uploaded_tensors s = DS4_MTP_SIDECAR_TENSOR_COUNT;
  re_total : sc_uploaded_bytes s = sumZ ti_byte_length (si_tensors (sc_info s));
  re_checks : sc_spot_checks s = sumZ spot_reads (si_tensors (sc_info s))
}.

Lemma described_names (m : ds4_model) (rs : list (row ds4_mtp_weights)) (l : list ds4_mtp_sidecar_tensor_info) : Forall2 (describes m) rs l ->
  map ti_name l = map (fun r => fitted DS4_MTP_SIDECAR_MAX_NAME (B (r_name r))) rs.
Proof. induction 1 as [|r i rs l (t & _ & _ & E) _ IH]; cbn [map]; [done|]. rewrite E, IH. reflexivity. Qed.

Lemma described_source (m : ds4_model) (rs : list (row ds4_mtp_weights)) (l : list ds4_mtp_sidecar_tensor_info) (data : bytes) :
  Forall2 (describes m) rs l -> Z.of_nat (length data) = model_size m -> Forall (in_map data) l.
Proof.
  intros Hd Hs. induction Hd as [|r i rs l (t & _ & (_ & _ & _ & _ & Ho & Hb) & E) _ IH]; constructor; [|exact IH].
  rewrite E. split; cbn [ti_source_offset ti_byte_length mtp_fill_tensor_info]; lia.
Qed.

Lemma rfold_unit {A} (f : A -> res unit) (l : list A) : rfold (fun _ a => f a) tt l = Ok tt \/
  exists a d, a ∈ l /\ f a = Error d /\ rfold (fun _ a => f a) tt l = Error d.
Proof. induction l as [|a l IH]; cbn [rfold]; [by left|]. destruct (f a) as [[]|d] eqn:E.
  - destruct IH as [IH|(b & d & Hb & Hd)]; [by left|]. right. exists b, d. split; [by right|done].
  - right. exists a, d. split; [by left|done].
Qed.

Lemma ranges_spec (size : Z) (info : ds4_mtp_sidecar_info) :
  match validate_ranges size info with Ok _ => size = si_file_bytes info | Error d => d_fmt d <> mismatch end.
Proof.
  unfold validate_ranges. destruct (Z.eqb_spec size (si_file_bytes info)) as [->|]; cbn [negb]; [|done].
  edestruct (rfold_unit (A := ds4_mtp_sidecar_tensor_info)) as [E|(t & d & _ & E & Ef)]; [by rewrite E|rewrite Ef].
  cbn beta in E. destruct (outside _ _ _); [by injection E as <-|]. destruct (outside _ _ _); [by injection E as <-|done].
Qed.

Lemma chunk_positive (n : Z) : 0 <= n -> 0 < (if negb (n =? 0) then n else DS4_V100_MTP_DEFAULT_UPLOAD_CHUNK).
Proof. intros Hn. destruct (Z.eqb_spec n 0); cbn [negb]; [reflexivity|lia]. Qed.

Lemma make_resident_spec {arena : Type} `{Allocator} `{ArenaLaws arena} (opts : ds4_mtp_sidecar_options) (path : bytes) (f : mapped_file)
    (m : ds4_model) (info : ds4_mtp_sidecar_info) : 0 <= upload_chunk_bytes opts -> inspected m info ->
  match make_resident opts path f info with
  | Ok (Ok (s, _)) => resident (arena := arena) s
  | Ok (Error d) => d_fmt d <> mismatch
  | Error _ => False
  end.
Proof.
  intros Hc [Hs Hd Hp Hb]. unfold make_resident. cbn zeta.
  destruct (map_sidecar path f) as [data|d] eqn:Em.
  2: { destruct f as [| | |[|]]; cbn in Em; congruence || (injection Em as <-; done). }
  pose proof (ranges_spec (Z.of_nat (length data)) info) as Hr. destruct (validate_ranges _ _) as [[]|]; [|done].
  destruct (arena_open _ _) as [a|] eqn:Eo; [|done]. pose proof (placed_end _ _ _ Hp) as Hp0.
  destruct (law_open (opt_gpu opts) (si_resident_bytes info) a ltac:(split; zlia) Eo) as [Ha Hlen].
  destruct (require_device_arena opts && _); [done|]. destruct (negb (malloc_ok _)); [done|].
  pose proof (described_source m mtp_rows _ data Hd ltac:(congruence)) as Hin.
  pose proof (Forall2_length _ _ _ Hd) as Hn. change (length mtp_rows) with 32%nat in Hn.
  pose proof (upload_tensors_spec data (opt_gpu opts) _ (si_tensors info) (chunk_positive _ Hc) Hin a 0 (si_resident_bytes info) 0 0 Ha
    ltac:(lia) Hp ltac:(lia) ltac:(zlia) ltac:(lia) ltac:(zlia)) as Hup.
  destruct (upload_tensors _ _ _ _ _ _ _) as [[[[a1 n] total]|d]|]; [|done|done]. destruct Hup as ((Ha1 & Hl1 & _) & Hh & -> & ->).
  pose proof (spot_tensors_spec data a1 (si_tensors info) Ha1 Hin Hh 0 (si_resident_bytes info) 0 ltac:(lia) Hp ltac:(rewrite Hl1; lia) ltac:(lia) ltac:(zlia)) as Hck.
  destruct (spot_check_tensors _ _ _ _) as [[checks|d]|]; [|apply Hck|done].
  constructor; cbn [sc_info sc_map sc_arena sc_size sc_uploaded_tensors sc_uploaded_bytes sc_spot_checks]; try done.
  - rewrite (described_names m mtp_rows _ Hd). reflexivity.
  - split; [done|]. congruence.
  - by rewrite <- Hn.
Qed.

(** C30 Opening a sidecar, on any arena that keeps its promises and whatever the
    file holds at either opening: the process ends with status 1 (the model
    does not open or is not the layout's), or an error is returned, which is
    never a difference of bytes, or all 32 tensors of the layout are resident:
    named in the order of the layout, at aligned places one behind the other
    in the arena, whose bytes are those of the file, with exact counts of the
    tensors, bytes and checks.  No read leaves the map, no check reads bytes
    that were not uploaded, and every loop ends. *)
Theorem mtp_sidecar_open_resident {arena : Type} `{Allocator} `{ArenaLaws arena} (opts : option ds4_mtp_sidecar_options)
    (first : model_file) (second : mapped_file) : file_ok first -> (forall o, opts = Some o -> is_u64 (upload_chunk_bytes o)) ->
  match ds4_mtp_sidecar_open (arena := arena) opts first second with
  | Error e => exists msg, e = Exit 1 msg
  | Ok (_, Error d) => d_fmt d <> mismatch
  | Ok (_, Ok s) => resident s /\ exists m, first = Mapped (model_map m) /\ Forall2 (describes m) mtp_rows (si_tensors (sc_info s))
  end.
Proof.
  intros Hf Hc. unfold ds4_mtp_sidecar_open. destruct opts as [opts|]; [|done]. specialize (Hc opts eq_refl).
  destruct (mtp_path opts) as [[|c p]|]; [done| |done]. destruct (_ <? 0); [done|]. destruct (negb _); [done|].
  pose proof (inspect_ok (Some (c :: p)) first Hf) as Hi. destruct (ds4_mtp_sidecar_inspect _ _) as [[[info lines]|d]|e]; [|done|done].
  destruct Hi as (m & _ & Hm & Hin).
  pose proof (make_resident_spec (arena := arena) opts (c :: p) second m info (proj1 Hc) Hin) as Hr.
  destruct (make_resident _ _ _ _) as [[[s more]|d]|] eqn:Em; [|done|done]. split; [done|]. exists m. split; [done|].
  assert (E : sc_info s = info).
  { revert Em. unfold make_resident. cbn zeta. repeat case_match; congruence || (intros [= <- _]; reflexivity) || (intros; simplify_eq; reflexivity). }
  rewrite E. apply Hin.
Qed.
