(* ===== verification/MtpViews.v ===== *)
(** * MTP sidecars: views

    A view of a tensor of an opened sidecar names exactly the resident bytes
    of the tensor, cut into rows; every Q8_0 tensor has its view. *)
From S2P Require Import Prelude.
From S2P Require Import CNum.
From S2P Require Import Gguf.
From S2P Require Import GgufProps.
From S2P Require Import Weights.
From S2P Require Import WeightsLayout.
From S2P Require Import WeightsProps.
From S2P Require Import MtpWeights.
From S2P Require Import GpuArena.
From S2P Require Import GpuArenaProps.
From S2P Require Import MtpSidecar.
From S2P Require Import MtpSidecarProps.

(** ** The checks *)

Lemma require_ok (b : bool) (fmt : string) (name : bytes) : require b fmt name = Ok tt -> b = true.
Proof. by destruct b. Qed.

Lemma length_ok (t : ds4_mtp_sidecar_tensor_info) (n : Z) (fmt : string) (name : bytes) : length_is t n fmt name = Ok tt -> ti_byte_length t = n.
Proof. unfold length_is. destruct (Z.eqb_spec n (ti_byte_length t)); [done|done]. Qed.

(** Inverts the checks of a view that was given. *)
Ltac view_checks H :=
  cbn zeta in H;
  repeat lazymatch type of H with
  | (match require ?b ?f ?n with Ok _ => _ | Error _ => _ end) = Ok _ =>
      let R := fresh "R" in destruct (require b f n) as [[]|] eqn:R; [apply require_ok in R; bool_hyps|discriminate H]
  | (match length_is ?t ?l ?f ?n with Ok _ => _ | Error _ => _ end) = Ok _ =>
      let R := fresh "Hlen" in destruct (length_is t l f n) as [[]|] eqn:R; [apply length_ok in R|discriminate H]
  | (match ?e with Ok _ => _ | Error _ => _ end) = Ok _ => destruct e as [[]|]; [|discriminate H]
  end.

(** A product of two numbers that a division allowed. *)
Lemma product_fits (a b : Z) : 0 <= a -> 0 < b -> a <= UINT64_MAX / b -> u64 (a * b) = a * b.
Proof. intros Ha Hb Hd. apply u64_small. pose proof (Z.mul_div_le UINT64_MAX b Hb). split; nia. Qed.

Lemma found_tensor {arena : Type} (s : ds4_mtp_sidecar arena) (name : bytes) (msg : string) x :
  find_view_tensor (Some s) (Some name) msg = Ok x -> exists t, x = (s, name, t) /\ ds4_mtp_sidecar_tensor s name = Some t.
Proof. cbn. destruct (ds4_mtp_sidecar_tensor s name) as [t|]; [|done]. intros [= <-]. by exists t. Qed.

Lemma positive_ok (d : Z) : 0 <= d -> positive_u32 d = true -> 0 < d <= UINT32_MAX.
Proof. unfold positive_u32. intros Hd H. bool_hyps. lia. Qed.

Section Views.
Context {arena : Type} (s : ds4_mtp_sidecar arena) (name : bytes).
Hypothesis Hshape : forall t, ds4_mtp_sidecar_tensor s name = Some t -> Forall (Z.le 0) (ti_shape t) /\ dim t 0 <= 2 ^ 31.

Lemma dim_positive (t : ds4_mtp_sidecar_tensor_info) (i : nat) : ds4_mtp_sidecar_tensor s name = Some t -> 0 <= dim t i.
Proof.
  intros Ht. destruct (Hshape t Ht) as [Hs _]. unfold dim. destruct (nth_in_or_default i (ti_shape t) 0) as [Hi| ->]; [|lia].
  rewrite Forall_forall in Hs. apply Hs. by apply list_elem_of_In.
Qed.

(** What a view of rows says of its tensor. *)
Definition of_tensor (v : ds4_gpu_source_row_view) (t : ds4_mtp_sidecar_tensor_info) (cols rows stride : Z) : Prop :=
  sv_arena_offset v = ti_resident_offset t /\ sv_byte_length v = ti_byte_length t /\ sv_cols v = cols /\ sv_rows v = rows /\
  sv_row_stride_bytes v = stride /\ rows * stride = ti_byte_length t.

Lemma q8_0_view_inv (v : ds4_gpu_source_row_view) : ds4_mtp_sidecar_q8_0_view (Some s) (Some name) = Ok v ->
  exists t, ds4_mtp_sidecar_tensor s name = Some t /\ ti_dtype t = B "q8_0" /\ of_tensor v t (dim t 0) (dim t 1) ((dim t 0 + 31) / 32 * 34).
Proof.
  unfold ds4_mtp_sidecar_q8_0_view. intros H. destruct (find_view_tensor _ _ _) as [x|] eqn:E; [|done].
  apply found_tensor in E as (t & -> & Et). destruct (Hshape t Et) as [_ Hd]. pose proof (dim_positive t 0 Et). pose proof (dim_positive t 1 Et).
  view_checks H. injection H as <-. exists t. split; [done|]. split; [by apply str_eqb_eq|].
  repeat match goal with P : positive_u32 _ = true |- _ => apply positive_ok in P; [|done] end.
  pose proof (Z.div_pos (dim t 0 + 31) 32 ltac:(lia) ltac:(lia)). pose proof (Z.mul_div_le (dim t 0 + 31) 32 ltac:(lia)).
  assert (Hb : 1 <= (dim t 0 + 31) / 32) by (apply Z.div_le_lower_bound; lia).
  rewrite (u64_small (dim t 0 + 31)) in * by zlia. rewrite (u64_small (_ * 34)) in * by zlia. rewrite product_fits in Hlen by lia.
  unfold of_tensor. cbn. rewrite !u32_small by zlia. split_and!; done.
Qed.

Lemma f32_vector_view_inv (v : ds4_gpu_source_row_view) : ds4_mtp_sidecar_f32_vector_view (Some s) (Some name) = Ok v ->
  exists t, ds4_mtp_sidecar_tensor s name = Some t /\ ti_dtype t = B "f32" /\ of_tensor v t (dim t 0) 1 (dim t 0 * 4).
Proof.
  unfold ds4_mtp_sidecar_f32_vector_view. intros H. destruct (find_view_tensor _ _ _) as [x|] eqn:E; [|done].
  apply found_tensor in E as (t & -> & Et). pose proof (dim_positive t 0 Et).
  view_checks H. injection H as <-. exists t. split; [done|]. split; [by apply str_eqb_eq|].
  repeat match goal with P : positive_u32 _ = true |- _ => apply positive_ok in P; [|done] end.
  change (UINT32_MAX / 4) with 1073741823 in *. rewrite (u64_small (_ * 4)) in * by zlia.
  unfold of_tensor. cbn. rewrite !u32_small by zlia. split_and!; done || lia.
Qed.

Lemma f32_matrix_view_inv (v : ds4_gpu_source_row_view) : ds4_mtp_sidecar_f32_matrix_view (Some s) (Some name) = Ok v ->
  exists t, ds4_mtp_sidecar_tensor s name = Some t /\ ti_dtype t = B "f32" /\ of_tensor v t (dim t 0) (dim t 1) (dim t 0 * 4).
Proof.
  unfold ds4_mtp_sidecar_f32_matrix_view. intros H. destruct (find_view_tensor _ _ _) as [x|] eqn:E; [|done].
  apply found_tensor in E as (t & -> & Et). pose proof (dim_positive t 0 Et). pose proof (dim_positive t 1 Et).
  view_checks H. injection H as <-. exists t. split; [done|]. split; [by apply str_eqb_eq|].
  repeat match goal with P : positive_u32 _ = true |- _ => apply positive_ok in P; [|done] end.
  change (UINT32_MAX / 4) with 1073741823 in *. rewrite (u64_small (dim t 0 * 4)) in * by zlia. rewrite product_fits in Hlen by lia.
  unfold of_tensor. cbn. rewrite !u32_small by zlia. split_and!; done.
Qed.

Lemma q4_k_view_inv (v : ds4_gpu_q4_k_expert_view) : ds4_mtp_sidecar_q4_k_expert_view (Some s) (Some name) = Ok v ->
  exists t, ds4_mtp_sidecar_tensor s name = Some t /\ ti_dtype t = B "q4_k" /\
    ev_arena_offset v = ti_resident_offset t /\ ev_byte_length v = ti_byte_length t /\
    ev_cols v = dim t 0 /\ ev_rows v = dim t 1 /\ ev_experts v = dim t 2 /\ ev_row_stride_bytes v = dim t 0 / 256 * 144 /\
    ev_expert_stride_bytes v = ev_rows v * ev_row_stride_bytes v /\ ev_experts v * ev_expert_stride_bytes v = ti_byte_length t.
Proof.
  unfold ds4_mtp_sidecar_q4_k_expert_view. intros H. destruct (find_view_tensor _ _ _) as [x|] eqn:E; [|done].
  apply found_tensor in E as (t & -> & Et). pose proof (dim_positive t 0 Et). pose proof (dim_positive t 1 Et). pose proof (dim_positive t 2 Et).
  view_checks H. injection H as <-. exists t. split; [done|]. split; [by apply str_eqb_eq|].
  repeat match goal with P : positive_u32 _ = true |- _ => apply positive_ok in P; [|done] end.
  pose proof (Z.div_mod (dim t 0) 256 ltac:(lia)). assert (Hb : 1 <= dim t 0 / 256) by lia.
  rewrite (u64_small (dim t 0 / 256 * 144)) in * by zlia.
  rewrite (product_fits (dim t 1)) in * by lia. rewrite product_fits in Hlen by nia.
  cbn. rewrite !u32_small by zlia. split_and!; done.
Qed.
End Views.

(** ** The tensors of an opened sidecar *)

Definition tidy_rows : bool :=
  forallb (fun r => str_eqb (fitted DS4_MTP_SIDECAR_MAX_NAME (B (r_name r))) (B (r_name r)) &&
    forallb (fun d => (0 <=? d) && (d <=? 2 ^ 31)) (r_dims r)) mtp_rows && bool_decide (NoDup (map (fun r => B (r_name r)) mtp_rows)).

Lemma mtp_tidy : tidy_rows = true.
Proof. vm_compute. reflexivity. Qed.

Lemma row_tidy (r : row ds4_mtp_weights) : r ∈ mtp_rows ->
  fitted DS4_MTP_SIDECAR_MAX_NAME (B (r_name r)) = B (r_name r) /\ Forall (fun d => 0 <= d <= 2 ^ 31) (r_dims r).
Proof.
  intros Hr%list_elem_of_In. pose proof mtp_tidy as [H _]%andb_true_iff. rewrite forallb_forall in H. apply H, andb_true_iff in Hr as [Hn Hd].
  split; [by apply str_eqb_eq|]. rewrite forallb_forall in Hd. apply Forall_forall. intros d Hin%list_elem_of_In%Hd. bool_hyps. lia.
Qed.

Lemma described_shape (m : ds4_model) (r : row ds4_mtp_weights) (i : ds4_mtp_sidecar_tensor_info) : r ∈ mtp_rows -> describes m r i ->
  Forall (Z.le 0) (ti_shape i) /\ dim i 0 <= 2 ^ 31.
Proof.
  intros Hr (t & _ & (_ & Hd & _) & ->). destruct (row_tidy r Hr) as [_ Hds]. unfold dim. cbn [mtp_fill_tensor_info ti_shape]. rewrite Hd.
  assert (Ht : Forall (fun d => 0 <= d <= 2 ^ 31) (take DS4_MTP_SIDECAR_MAX_DIMS (r_dims r) ++
    replicate (DS4_MTP_SIDECAR_MAX_DIMS - length (take DS4_MTP_SIDECAR_MAX_DIMS (r_dims r))) 0)).
  { apply Forall_app. split; [by apply Forall_take|]. apply Forall_replicate. lia. }
  split; [eapply Forall_impl; [exact Ht|]; intros d H; cbn in H; lia|].
  destruct (nth_in_or_default 0 (take DS4_MTP_SIDECAR_MAX_DIMS (r_dims r) ++
    replicate (DS4_MTP_SIDECAR_MAX_DIMS - length (take DS4_MTP_SIDECAR_MAX_DIMS (r_dims r))) 0) 0) as [Hin| ->]; [|lia].
  rewrite Forall_forall in Ht. by apply list_elem_of_In, Ht in Hin as [_ ?].
Qed.

Lemma described_find (m : ds4_model) (rs : list (row ds4_mtp_weights)) (l : list ds4_mtp_sidecar_tensor_info) : Forall2 (describes m) rs l ->
  (forall r, r ∈ rs -> r ∈ mtp_rows) -> NoDup (map (fun r => B (r_name r)) rs) -> forall r, r ∈ rs ->
  exists i, List.find (fun t => str_eqb (ti_name t) (B (r_name r))) l = Some i /\ describes m r i.
Proof.
  induction 1 as [|r0 i rs l Hd _ IH]; intros Hin Hnd r Hr; [by apply elem_of_nil in Hr|]. cbn [map] in Hnd. apply NoDup_cons in Hnd as [Hn Hnd].
  assert (Ei : ti_name i = B (r_name r0)).
  { destruct Hd as (t & _ & _ & ->). cbn [ti_name mtp_fill_tensor_info]. apply row_tidy, Hin. by left. }
  cbn [List.find]. rewrite Ei. apply elem_of_cons in Hr as [-> |Hr]; [rewrite str_eqb_refl; by exists i|].
  destruct (str_eqb (B (r_name r0)) (B (r_name r))) eqn:E; [|apply IH; [intros; apply Hin; by right|done|done]].
  apply str_eqb_eq in E. destruct Hn. rewrite E. by apply (list_elem_of_fmap_2 (fun r => B (r_name r))).
Qed.

(** A sidecar that holds the tensors of the layout. *)
Record opened {arena : Type} `{ArenaLaws arena} (m : ds4_model) (s : ds4_mtp_sidecar arena) : Prop := {
  op_resident : resident s;
  op_rows : Forall2 (describes m) mtp_rows (si_tensors (sc_info s))
}.

Section Opened.
Context {arena : Type} `{ArenaLaws arena} (m : ds4_model) (s : ds4_mtp_sidecar arena).
Hypothesis Ho : opened m s.

Lemma opened_shape (name : bytes) (t : ds4_mtp_sidecar_tensor_info) : ds4_mtp_sidecar_tensor s name = Some t ->
  Forall (Z.le 0) (ti_shape t) /\ dim t 0 <= 2 ^ 31.
Proof.
  intros [Ht _]%find_some. apply list_elem_of_In, list_elem_of_lookup in Ht as [k Hk].
  destruct (Forall2_lookup_r _ _ _ _ _ (op_rows m s Ho) Hk) as (r & Hr & Hd). by eapply described_shape; [eapply list_elem_of_lookup_2|].
Qed.

Lemma opened_find (r : row ds4_mtp_weights) : r ∈ mtp_rows ->
  exists i, ds4_mtp_sidecar_tensor s (B (r_name r)) = Some i /\ i ∈ si_tensors (sc_info s) /\ describes m r i.
Proof.
  intros Hr. pose proof mtp_tidy as [_ Hn]%andb_true_iff. apply bool_decide_eq_true in Hn.
  destruct (described_find m mtp_rows _ (op_rows m s Ho) (fun r H => H) Hn r Hr) as (i & E & Hd). exists i. split; [done|]. split; [|done].
  apply find_some in E as [E _]. by apply list_elem_of_In.
Qed.

(** The range that a view names holds the bytes of the tensor. *)
Definition names_bytes (name : bytes) (off len : Z) : Prop := exists t, ds4_mtp_sidecar_tensor s name = Some t /\ 0 <= off /\
  off + len <= Z.of_nat (length (arena_memory (sc_arena s))) /\
  mem_read (arena_memory (sc_arena s)) off len = map Some (slice (sc_map s) (ti_source_offset t) len).

Lemma placed_in (l : list ds4_mtp_sidecar_tensor_info) : forall free e, 0 <= free -> placed free l e -> forall t, t ∈ l ->
  0 <= ti_resident_offset t /\ ti_resident_offset t + ti_byte_length t <= e.
Proof.
  induction l as [|i l IH]; intros free e Hf; cbn [placed]; [intros _ t Ht; by apply elem_of_nil in Ht|].
  intros (H1 & _ & H2 & H3) t Ht. pose proof (placed_end _ _ _ H3). apply elem_of_cons in Ht as [-> |Ht]; [lia|].
  eapply (IH (ti_resident_offset i + ti_byte_length i)); [lia|done|done].
Qed.

Lemma view_names (name : bytes) (t : ds4_mtp_sidecar_tensor_info) : ds4_mtp_sidecar_tensor s name = Some t ->
  names_bytes name (ti_resident_offset t) (ti_byte_length t).
Proof.
  intros Et. exists t. split; [done|]. apply find_some in Et as [Ht%list_elem_of_In _]. destruct (op_resident m s Ho) as [_ Hp [_ Ha] _ _ Hb _ _ _].
  rewrite Forall_forall in Hb. rewrite Ha. split; [|split; [|by apply Hb]]; by eapply placed_in.
Qed.

(** A Q8_0 matrix of whole size has its view. *)
Lemma q8_0_view_ok (name : bytes) (t : ds4_mtp_sidecar_tensor_info) (c r : Z) : ds4_mtp_sidecar_tensor s name = Some t ->
  ti_dtype t = B "q8_0" -> ti_n_dims t = 2 -> dim t 0 = c -> dim t 1 = r -> 0 < c <= 2 ^ 20 -> 0 < r <= 2 ^ 20 ->
  ti_byte_length t = r * ((c + 31) / 32 * 34) ->
  exists v, ds4_mtp_sidecar_q8_0_view (Some s) (Some name) = Ok v.
Proof.
  intros Et Hty Hn E0 E1 Hc Hr Hlen. unfold ds4_mtp_sidecar_q8_0_view, find_view_tensor. rewrite Et. cbn zeta. rewrite Hty, Hn, E0, E1.
  pose proof (Z.div_mod (c + 31) 32 ltac:(lia)). pose proof (Z.mod_pos_bound (c + 31) 32 ltac:(lia)).
  assert (Hp : forall d, 0 < d <= 2 ^ 20 -> positive_u32 d = true).
  { intros d Hd. unfold positive_u32. apply andb_true_iff. split; [apply negb_true_iff, Z.eqb_neq; lia|apply Z.leb_le; zlia]. }
  rewrite !Hp by done. rewrite str_eqb_refl. cbn [andb Z.eqb Pos.eqb]. unfold require at 1. rewrite (u64_small (c + 31)) by zlia.
  unfold require at 1. rewrite (proj2 (Z.leb_le _ _)) by (change (UINT64_MAX / 34) with 542551296285575047; lia).
  set (k := (c + 31) / 32) in *. rewrite (u64_small (k * 34)) by zlia. assert (Hk : 1 <= k) by lia.
  assert (Hprod : 0 <= r * (k * 34) <= 2 ^ 20 * (2 ^ 16 * 34)) by (split; [nia|]; apply Z.mul_le_mono_nonneg; lia).
  unfold require at 1. rewrite (proj2 (Z.leb_le _ _)) by (apply Z.div_le_lower_bound; [lia|]; zlia).
  unfold length_is. rewrite u64_small by (split; zlia). rewrite Hlen, Z.eqb_refl. cbn [negb].
  destruct (op_resident m s Ho) as [_ Hpl _ Hsz Hsrc _ _ _ _]. pose proof Et as [Ht%list_elem_of_In _]%find_some.
  destruct (placed_in _ 0 _ ltac:(lia) Hpl t Ht) as [Hp1 Hp2]. rewrite Forall_forall in Hsrc. destruct (Hsrc t Ht) as [Hs1 Hs2].
  unfold view_ranges, outside. rewrite Hsz, Hlen.
  assert (Hf : forall a b, a <= b -> (b <? a) = false) by (intros; by apply Z.ltb_ge). rewrite !Hf by zlia. cbn [orb]. by eexists.
Qed.

Lemma q8_rows_sized : forallb (fun r => match r_types r, r_dims r with
  | [ty], [c; n] => negb (ty =? DS4_TENSOR_Q8_0) || ((0 <? c) && (c <=? 2 ^ 20) && (0 <? n) && (n <=? 2 ^ 20) &&
      match exact_bytes ty [c; n] with Some b => b =? n * ((c + 31) / 32 * 34) | None => false end)
  | [ty], _ => negb (ty =? DS4_TENSOR_Q8_0)
  | _, _ => true end) mtp_rows = true.
Proof. vm_compute. reflexivity. Qed.

Lemma q8_0_views (r : row ds4_mtp_weights) : r ∈ mtp_rows -> r_types r = [DS4_TENSOR_Q8_0] ->
  exists v, ds4_mtp_sidecar_q8_0_view (Some s) (Some (B (r_name r))) = Ok v.
Proof.
  intros Hr Hty. destruct (opened_find r Hr) as (i & Ei & _ & (t & (_ & Ht & Hd) & (_ & _ & Hb & _) & Hi)).
  pose proof q8_rows_sized as Hs. rewrite forallb_forall in Hs. apply list_elem_of_In, Hs in Hr. rewrite Hty in Hr, Ht.
  apply list_elem_of_singleton in Ht. rewrite Ht in Hb.
  destruct (r_dims r) as [|c [|n [|]]] eqn:Ed; try done. cbn [Z.eqb negb orb] in Hr. rewrite Hb in Hr. cbn in Hr. bool_hyps.
  apply (q8_0_view_ok _ i c n); try done; try lia; rewrite Hi; cbn [mtp_fill_tensor_info ti_dtype ti_n_dims ti_shape ti_byte_length].
  - by rewrite Ht.
  - by rewrite Hd.
  - unfold dim. cbn [mtp_fill_tensor_info ti_shape]. by rewrite Hd.
  - unfold dim. cbn [mtp_fill_tensor_info ti_shape]. by rewrite Hd.
  - lia.
Qed.
End Opened.

(** C31 The views of an opened sidecar are exact: whatever the name, a view that
    is given names the resident bytes of the tensor of that name, inside the
    arena and equal to its bytes in the file, and its rows (experts and rows
    for Q4_K) cut those bytes without remainder at the stride of the format,
    no computation wrapping; and every tensor of the layout that is Q8_0 has
    its view. *)
Theorem mtp_views_exact {arena : Type} `{ArenaLaws arena} (m : ds4_model) (s : ds4_mtp_sidecar arena) (name : bytes) : opened m s ->
  (forall v, ds4_mtp_sidecar_q8_0_view (Some s) (Some name) = Ok v -> names_bytes s name (sv_arena_offset v) (sv_byte_length v) /\
     sv_row_stride_bytes v = (sv_cols v + 31) / 32 * 34 /\ sv_rows v * sv_row_stride_bytes v = sv_byte_length v) /\
  (forall v, ds4_mtp_sidecar_f32_vector_view (Some s) (Some name) = Ok v \/ ds4_mtp_sidecar_f32_matrix_view (Some s) (Some name) = Ok v ->
     names_bytes s name (sv_arena_offset v) (sv_byte_length v) /\
     sv_row_stride_bytes v = sv_cols v * 4 /\ sv_rows v * sv_row_stride_bytes v = sv_byte_length v) /\
  (forall v, ds4_mtp_sidecar_q4_k_expert_view (Some s) (Some name) = Ok v -> names_bytes s name (ev_arena_offset v) (ev_byte_length v) /\
     ev_row_stride_bytes v = ev_cols v / 256 * 144 /\ ev_rows v * ev_row_stride_bytes v = ev_expert_stride_bytes v /\
     ev_experts v * ev_expert_stride_bytes v = ev_byte_length v) /\
  (forall r, r ∈ mtp_rows -> r_types r = [DS4_TENSOR_Q8_0] -> exists v, ds4_mtp_sidecar_q8_0_view (Some s) (Some (B (r_name r))) = Ok v).
Proof.
  intros Ho. assert (Hs : forall t, ds4_mtp_sidecar_tensor s name = Some t -> Forall (Z.le 0) (ti_shape t) /\ dim t 0 <= 2 ^ 31)
    by (intros t; by eapply opened_shape). split_and!.
  - intros v (t & Et & _ & -> & -> & -> & -> & -> & E)%q8_0_view_inv; [|done]. split; [by eapply view_names|]. by split.
  - intros v [(t & Et & _ & -> & -> & -> & -> & -> & E)%f32_vector_view_inv|(t & Et & _ & -> & -> & -> & -> & -> & E)%f32_matrix_view_inv]; try done;
      (split; [by eapply view_names|by split]).
  - intros v (t & Et & _ & -> & -> & -> & _ & _ & -> & E1 & E2)%q4_k_view_inv; [|done]. split; [by eapply view_names|]. split_and!; try done.
  - intros r. by apply (q8_0_views m s).
Qed.

(** Without the bound on the dimensions the stride of a Q8_0 view can lose its
    high bits, since only the number of columns is checked: 2^32 - 1 columns
    have rows of 4563402752 bytes. *)
Definition wide_sidecar : ds4_mtp_sidecar ds4_gpu_arena :=
  Sidecar (SidecarInfo 3 0 32 32 0 4563402752 4563402752 4563402752
    [TensorInfo (B "w") (B "q8_0") (B "k") 8 2 [4294967295; 1; 0; 0] 0 4563402752 0]) [] 4563402752 (Arena [] 0 0 0 true) 0 0 0 0.

Lemma q8_0_stride_truncated :
  ds4_mtp_sidecar_q8_0_view (Some wide_sidecar) (Some (B "w")) = Ok (SourceRowView 0 4563402752 1 4294967295 268435456).
Proof. vm_compute. reflexivity. Qed.
