(* ===== verification/MtpOpen.v ===== *)
(** * MTP sidecars: a complete file is opened

    On the arena in host memory a sidecar file that was written with the
    tensors of the layout is opened, and holds the bytes of the file; with an
    example of such a file. *)
From S2P Require Import Prelude.
From S2P Require Import CNum.
From S2P Require Import LittleEndian.
From S2P Require Import PlanGguf.
From S2P Require Import PlanGgufProps.
From S2P Require Import Gguf.
From S2P Require Import GgufProps.
From S2P Require Import GgufWrite.
From S2P Require Import ModelVocabProps.
From S2P Require Import Weights.
From S2P Require Import WeightsLayout.
From S2P Require Import WeightsProps.
From S2P Require Import MtpWeights.
From S2P Require Import EngineFile.
From S2P Require Import EngineExample.
From S2P Require Import GpuArena.
From S2P Require Import GpuArenaProps.
From S2P Require Import MtpSidecar.
From S2P Require Import MtpSidecarProps.
From S2P Require Import MtpViews.

(** ** The inspection of a complete file *)

Definition mtp_architecture : bytes := B "deepseek4_mtp_support".

Record mtp_written (kvs : list (bytes * gguf_value)) (ts : list header_tensor) : Prop := {
  mw_arch : written kvs (B "general.architecture") = Some (VString mtp_architecture);
  mw_count : Z.of_nat (length ts) = DS4_MTP_SIDECAR_TENSOR_COUNT;
  mw_rows : Forall (fun r => row_written ts (B (r_name r)) r) mtp_rows;
  mw_same : forall a b, first_named ts (B "mtp.0.ffn_gate_exps.weight") = Some a ->
    first_named ts (B "mtp.0.ffn_up_exps.weight") = Some b -> ht_type a = ht_type b
}.

Lemma mtp_written_complete (kvs : list (bytes * gguf_value)) (ts : list header_tensor) (data : bytes) :
  mtp_written kvs ts -> mtp_complete (written_model kvs ts data).
Proof.
  intros [_ _ Hr Hs]. split; [eapply Forall_impl; [exact Hr|]; intros r; apply row_of_written|].
  intros a b. rewrite !written_find.
  destruct (first_named ts (B "mtp.0.ffn_gate_exps.weight")) as [x|]; [|done]. destruct (first_named ts (B "mtp.0.ffn_up_exps.weight")) as [y|]; [|done].
  intros [= <-] [= <-]. by apply Hs.
Qed.

Lemma written_text (kvs : list (bytes * gguf_value)) (ts : list header_tensor) (data key s : bytes) : writable kvs ts data ->
  written kvs key = Some (VString s) -> model_get_string (written_model kvs ts data) key = Some s.
Proof.
  intros Hw E. pose proof (written_lookup kvs ts data key) as H. rewrite E in H. destruct H as (_ & kv & Ek & Ht).
  pose proof (wr_size _ _ _ Hw) as [_ Hmax]. unfold model_get_string. change GGUF_VALUE_STRING with PlanGguf.GGUF_VALUE_STRING. cbn [value_type] in Ek. rewrite Ek.
  cbn. by rewrite (string_at _ Hmax _ s).
Qed.

Lemma inspect_complete `{Allocator} (path : bytes) (f : model_file) (m : ds4_model) : path <> [] -> file_ok f -> model_open path f = Ok m ->
  model_get_string m (B "general.architecture") = Some mtp_architecture ->
  Z.of_nat (length (model_tensors m)) = DS4_MTP_SIDECAR_TENSOR_COUNT -> mtp_complete m ->
  exists info lines, ds4_mtp_sidecar_inspect (Some path) f = Ok (Ok (info, lines)) /\ inspected m info.
Proof.
  intros Hp Hf Eo Ea En Hc. pose proof (inspect_ok (Some path) f Hf) as Hi. pose proof (model_open_spec path f Hf) as Hm. rewrite Eo in Hm.
  assert (E : exists x, ds4_mtp_sidecar_inspect (Some path) f = Ok (Ok x)).
  { unfold ds4_mtp_sidecar_inspect. destruct path as [|c p]; [done|]. rewrite Eo, Ea. fold mtp_architecture. rewrite str_eqb_refl. cbn [negb].
    rewrite En, Z.eqb_refl. cbn [negb]. rewrite mtp_bind_complete by done. pose proof (mtp_rows_sized m (proj2 Hm) Hc) as Hr.
    rewrite mtp_names. destruct (resident_placed m mtp_rows 0 ltac:(lia) ltac:(by vm_compute) Hr) as (l & e & El & Hd & _). rewrite El.
    destruct (report_ok m l mtp_rows Hd) as [lines Er]. rewrite Er. by eexists. }
  destruct E as ((info & lines) & E). rewrite E in Hi. destruct Hi as (m' & Eo' & _ & Hin). exists info, lines. split; [done|].
  change (model_open path f = Ok m') in Eo'. congruence.
Qed.

(** ** The arena in host memory works *)

(** A valid arena of this size. *)
Definition works (a : ds4_gpu_arena) (n : Z) : Prop := host_ok a /\ valid a = true /\ bytes_ a = n.

Lemma host_upload_works (a : ds4_gpu_arena) (n off : Z) (b : bytes) : works a n -> 0 <= off -> off + Z.of_nat (length b) <= n ->
  exists a', ds4_gpu_arena_upload a off b = (true, a') /\ works a' n.
Proof.
  intros (Ha & Hv & Hn) Ho Hfit. destruct (ds4_gpu_arena_upload a off b) as [r a'] eqn:E. pose proof E as E'. unfold ds4_gpu_arena_upload in E.
  rewrite (proj2 (range_ok_spec a off _)) in E by (split_and!; done || lia). cbn [negb] in E. injection E as <- <-. eexists. split; [done|].
  destruct (host_upload a off b _ Ha Ho E') as (_ & Ha' & _). by split.
Qed.

Lemma host_read_works `{Allocator} (a : ds4_gpu_arena) (n : Z) : works a n -> ~ refuses a.
Proof.
  intros (Ha & Hv & Hn) (off & k & Ho & Hk & Hfit & E). cbn [arena_memory host_laws arena_read host_arena] in *. unfold ds4_gpu_arena_read in E.
  destruct Ha as [Hl _ _]. rewrite (proj2 (range_ok_spec a off k)) in E by (split_and!; done || lia). done.
Qed.

Section Works.
Context `{Allocator} (data : bytes) (gpu n : Z).

Lemma chunks_work (t : ds4_mtp_sidecar_tensor_info) (chunk : Z) : 0 < chunk -> in_map data t -> 0 <= ti_resident_offset t ->
  ti_resident_offset t + ti_byte_length t <= n ->
  forall fuel a from, works a n -> 0 <= from <= ti_byte_length t -> ti_byte_length t - from <= Z.of_nat fuel ->
  exists a', upload_chunks data gpu fuel a t chunk from = Ok (Ok a') /\ works a' n.
Proof.
  intros Hc [Hs1 Hs2] Hr Hn. induction fuel as [|fuel IH]; intros a from Ha Hf Hfuel; cbn [upload_chunks].
  all: destruct (Z.leb_spec (ti_byte_length t) from) as [Hd|Hd]; [by eexists|].
  { lia. }
  cbn zeta. set (k := if chunk <? ti_byte_length t - from then chunk else ti_byte_length t - from).
  assert (Hk : 0 < k <= ti_byte_length t - from) by (unfold k; destruct (Z.ltb_spec chunk (ti_byte_length t - from)); lia). clearbody k.
  unfold map_bytes. destruct (Z.leb_spec (ti_source_offset t + from + k) (Z.of_nat (length data))) as [_|]; [|lia].
  pose proof (slice_length data (ti_source_offset t + from) k ltac:(lia) ltac:(lia) ltac:(lia)) as Hlen.
  destruct (host_upload_works a n (ti_resident_offset t + from) (slice data (ti_source_offset t + from) k) Ha ltac:(lia) ltac:(lia)) as (a1 & E & Ha1).
  cbn [arena_upload host_arena]. rewrite E. apply IH; [done|lia|lia].
Qed.

Lemma tensors_work (chunk : Z) (ts : list ds4_mtp_sidecar_tensor_info) : 0 < chunk -> Forall (in_map data) ts ->
  forall a free e tensors total, works a n -> 0 <= free -> placed free ts e -> e <= n ->
  exists a' k tot, upload_tensors data gpu a ts chunk tensors total = Ok (Ok (a', k, tot)) /\ works a' n.
Proof.
  intros Hc Hin. induction Hin as [|t ts Ht _ IH]; intros a free e tensors total Ha Hf Hp He; cbn [upload_tensors]; [by eexists _, _, _|].
  cbn [placed] in Hp. destruct Hp as (Hp1 & _ & Hp2 & Hp3). pose proof (placed_end _ _ _ Hp3) as Hpe.
  destruct (chunks_work t chunk Hc Ht ltac:(lia) ltac:(lia) (Z.to_nat (ti_byte_length t)) a 0 Ha ltac:(lia) ltac:(lia)) as (a1 & E & Ha1).
  unfold upload_tensor. rewrite E. apply (IH a1 (ti_resident_offset t + ti_byte_length t) e); [done|lia|done|done].
Qed.

Lemma ranges_pass (info : ds4_mtp_sidecar_info) : Z.of_nat (length data) = si_file_bytes info -> Forall (in_map data) (si_tensors info) ->
  placed 0 (si_tensors info) (si_resident_bytes info) -> validate_ranges (Z.of_nat (length data)) info = Ok tt.
Proof.
  intros Hs Hin Hp. unfold validate_ranges. rewrite <- Hs, Z.eqb_refl. cbn [negb].
  edestruct (rfold_unit (A := ds4_mtp_sidecar_tensor_info)) as [E|(t & d & Ht & E & _)]; [exact E|exfalso]. cbn beta in E. revert E.
  rewrite Forall_forall in Hin. destruct (Hin t Ht) as [H1 H2]. destruct (placed_in _ 0 _ ltac:(lia) Hp t Ht) as [H3 H4].
  unfold outside. assert (Hf : forall a b, a <= b -> (b <? a) = false) by (intros; by apply Z.ltb_ge).
  assert (Hl : 0 <= ti_byte_length t); [|rewrite !Hf by lia; done].
  clear - Hp Ht. revert Hp. generalize 0 at 1. induction (si_tensors info) as [|i l IH]; intros free; [by apply elem_of_nil in Ht|].
  cbn [placed]. intros (_ & _ & H2 & H3). apply elem_of_cons in Ht as [-> |Ht]; [done|by eapply IH].
Qed.
End Works.

Lemma make_resident_works `{Allocator} (opts : ds4_mtp_sidecar_options) (path data : bytes) (m : ds4_model) (info : ds4_mtp_sidecar_info) :
  (forall n, malloc_ok n = true) -> 0 <= opt_gpu opts -> 0 <= upload_chunk_bytes opts -> require_device_arena opts = false ->
  inspected m info -> data = model_map m -> data <> [] ->
  exists (s : ds4_mtp_sidecar ds4_gpu_arena) lines, make_resident opts path (MappedBytes data) info = Ok (Ok (s, lines)) /\
    sc_info s = info /\ sc_map s = data.
Proof.
  intros Hm Hg Hc Hdev [Hs Hd Hp Hb] Hdata Hne.
  assert (Hsz : Z.of_nat (length data) = si_file_bytes info) by (rewrite Hs, Hdata; done).
  pose proof (described_source m mtp_rows _ data Hd ltac:(rewrite Hdata; done)) as Hin.
  pose proof (Forall2_length _ _ _ Hd) as Hn. change (length mtp_rows) with 32%nat in Hn. pose proof (placed_end _ _ _ Hp) as Hp0.
  unfold make_resident. cbn zeta. destruct data as [|b data]; [done|]. cbn [map_sidecar]. rewrite (ranges_pass _ info Hsz Hin Hp).
  cbn [arena_open host_arena]. unfold ds4_gpu_arena_open. rewrite !Hm, (proj2 (Z.ltb_ge _ _)), andb_false_r by lia. cbn [orb negb].
  rewrite Hdev. cbn [andb negb].
  set (a := Arena _ _ _ _ _). assert (Ha : works a (si_resident_bytes info)).
  { split; [|done]. constructor; cbn [a ptr bytes_ used]; rewrite ?length_replicate; zlia. }
  destruct (tensors_work (b :: data) (opt_gpu opts) (si_resident_bytes info) _ (si_tensors info) (chunk_positive _ Hc) Hin a 0 (si_resident_bytes info) 0 0
    Ha ltac:(lia) Hp ltac:(lia)) as (a1 & k & tot & E & Ha1).
  pose proof (upload_tensors_spec (b :: data) (opt_gpu opts) _ (si_tensors info) (chunk_positive _ Hc) Hin a 0 (si_resident_bytes info) 0 0
    (proj1 Ha) ltac:(lia) Hp ltac:(lia) ltac:(zlia) ltac:(lia) ltac:(zlia)) as Hup.
  rewrite E in Hup |- *. destruct Hup as ((Ha1' & Hl1 & _) & Hh & _ & _).
  pose proof (spot_tensors_spec (b :: data) a1 (si_tensors info) Ha1' Hin Hh 0 (si_resident_bytes info) 0 ltac:(lia) Hp) as Hck.
  specialize (Hck ltac:(rewrite Hl1; cbn [arena_memory host_laws a ptr]; rewrite length_replicate; lia) ltac:(lia) ltac:(zlia)).
  destruct (spot_check_tensors _ _ _ _) as [[checks|d]|]; [by eexists _, _| |done].
  destruct Hck as [_ Hr]. by destruct (host_read_works a1 _ Ha1).
Qed.

(** ** A complete file is opened *)

(** The tensor [t] of a sidecar is the tensor that the file has under the name
    of the row, and its place holds the bytes of the file. *)
Definition copied (pos : Z) (ts : list header_tensor) (file : bytes) (a : ds4_gpu_arena) (r : row ds4_mtp_weights)
    (t : ds4_mtp_sidecar_tensor_info) : Prop :=
  exists h, first_named ts (B (r_name r)) = Some h /\ ti_source_offset t = pos + ht_rel h /\
    exact_bytes (ht_type h) (r_dims r) = Some (ti_byte_length t) /\
    mem_read (ptr a) (ti_resident_offset t) (ti_byte_length t) = map Some (slice file (pos + ht_rel h) (ti_byte_length t)).

Lemma sidecar_opens `{Allocator} (opts : ds4_mtp_sidecar_options) (path : bytes) (kvs : list (bytes * gguf_value)) (ts : list header_tensor) (data : bytes) :
  (forall n, malloc_ok n = true) -> writable kvs ts data -> Z.of_nat (length kvs) * sizeof_ds4_kv <= SIZE_MAX -> mtp_written kvs ts ->
  mtp_path opts = Some path -> path <> [] -> 0 <= opt_gpu opts -> is_u64 (upload_chunk_bytes opts) -> require_device_arena opts = false ->
  let file := put_header kvs ts ++ data in
  exists lines (s : ds4_mtp_sidecar ds4_gpu_arena), ds4_mtp_sidecar_open (Some opts) (Mapped file) (MappedBytes file) = Ok (lines, Ok s) /\
    opened (written_model kvs ts data) s /\ sc_map s = file.
Proof.
  intros Hm Hw Hck Hmw Hpath Hne Hg [Hc _] Hdev file. set (m := written_model kvs ts data).
  pose proof (wr_size _ _ _ Hw) as [Hmin Hmax]. pose proof Hmw as [Harch Hn _ _].
  assert (Eo : model_open path (Mapped file) = Ok m).
  { apply model_open_written; try done. rewrite Hn. vm_compute. discriminate. }
  destruct (inspect_complete path (Mapped file) m) as (info & lines & Ei & Hin); try done.
  { by apply written_text. }
  { unfold m, written_model. cbn [model_tensors]. by rewrite length_map. }
  { by apply mtp_written_complete. }
  destruct (make_resident_works opts path file m info Hm Hg Hc Hdev Hin eq_refl) as (s & more & Em & Es & Ef).
  { intros E. unfold file in E. rewrite E in Hmin. unfold map_size in Hmin. cbn in Hmin. lia. }
  pose proof (make_resident_spec (arena := ds4_gpu_arena) opts path (MappedBytes file) m info Hc Hin) as Hr. rewrite Em in Hr.
  exists (lines ++ more), s. split; [|split; [|done]].
  - unfold ds4_mtp_sidecar_open. rewrite Hpath. destruct path as [|c p]; [done|]. rewrite (proj2 (Z.ltb_ge _ _)), Hm by lia. cbn [negb].
    by rewrite Ei, Em.
  - split; [exact Hr|]. rewrite Es. apply Hin.
Qed.

Lemma copied_rows (kvs : list (bytes * gguf_value)) (ts : list header_tensor) (data file : bytes) (s : ds4_mtp_sidecar ds4_gpu_arena) `{Allocator}
    (rs : list (row ds4_mtp_weights)) (l : list ds4_mtp_sidecar_tensor_info) :
  Forall2 (describes (written_model kvs ts data)) rs l -> Forall (holds_at file (sc_arena s)) l ->
  Forall2 (copied (model_data_pos (written_model kvs ts data)) ts file (sc_arena s)) rs l.
Proof.
  intros Hd Hh. induction Hd as [|r i rs l (t & [Hf _] & (_ & _ & Hb & _) & E) _ IH]; constructor.
  - apply Forall_cons in Hh as [Hh _]. rewrite written_find in Hf. destruct (first_named ts (B (r_name r))) as [h|] eqn:Eh; [|done].
    injection Hf as <-. exists h. rewrite Eh. split; [done|].
    assert (Es : ti_source_offset i = model_data_pos (written_model kvs ts data) + ht_rel h) by (rewrite E; reflexivity).
    split; [exact Es|]. split; [rewrite E; exact Hb|]. unfold holds_at in Hh. rewrite Es in Hh. exact Hh.
  - apply IH. by apply Forall_cons in Hh as [_ Hh].
Qed.

(** A complete sidecar file is opened: on the arena in host memory, a file
    written with the architecture and the 32 tensors of the layout is
    inspected, mapped, uploaded in chunks of any size and checked without an
    error, and each tensor of the layout is then resident with the bytes that
    the file has for the tensor of its name. *)
Theorem mtp_sidecar_opens `{Allocator} (opts : ds4_mtp_sidecar_options) (path : bytes) (kvs : list (bytes * gguf_value))
    (ts : list header_tensor) (data : bytes) :
  (forall n, malloc_ok n = true) -> writable kvs ts data -> Z.of_nat (length kvs) * sizeof_ds4_kv <= SIZE_MAX -> mtp_written kvs ts ->
  mtp_path opts = Some path -> path <> [] -> 0 <= opt_gpu opts -> is_u64 (upload_chunk_bytes opts) -> require_device_arena opts = false ->
  let file := put_header kvs ts ++ data in
  exists lines s, ds4_mtp_sidecar_open (Some opts) (Mapped file) (MappedBytes file) = Ok (lines, Ok s) /\
    Forall2 (copied (model_data_pos (written_model kvs ts data)) ts file (sc_arena s)) mtp_rows (si_tensors (sc_info s)).
Proof.
  intros Hm Hw Hck Hmw Hpath Hne Hg Hc Hdev file.
  destruct (sidecar_opens opts path kvs ts data Hm Hw Hck Hmw Hpath Hne Hg Hc Hdev) as (lines & s & E & [Hr Hrows] & Hmap).
  exists lines, s. split; [exact E|]. pose proof (re_bytes s Hr) as Hb. rewrite Hmap in Hb.
  exact (copied_rows kvs ts data _ s mtp_rows _ Hrows Hb).
Qed.

(** ** An example *)

Definition mtp_tensors : list header_tensor := map (fun r => row_header (B (r_name r)) r) mtp_rows.
Definition mtp_kvs : list (bytes * gguf_value) := [(B "general.architecture", VString mtp_architecture)].
Definition mtp_options : ds4_mtp_sidecar_options := SidecarOptions (Some (B "mtp.gguf")) 7 65536 false.

Lemma mtp_rows_ok : forallb (fun r => row_ok r && (length (B (r_name r)) <=? 60)%nat) mtp_rows = true.
Proof. vm_compute. reflexivity. Qed.

Lemma mtp_from (P : header_tensor -> Prop) :
  (forall (name : bytes) (r : row ds4_mtp_weights), (length name <= 60)%nat -> row_ok r = true -> P (row_header name r)) -> Forall P mtp_tensors.
Proof.
  intros HP. pose proof mtp_rows_ok as H. rewrite forallb_forall in H. apply Forall_forall. intros t Ht%list_elem_of_In.
  apply in_map_iff in Ht as (r & <- & Hr). apply H, andb_true_iff in Hr as [Hr Hl]. apply HP; [by apply Nat.leb_le|done].
Qed.

Lemma mtp_size : map_size (put_header mtp_kvs mtp_tensors ++ full_data) = Z.of_nat (length (put_header mtp_kvs mtp_tensors)) + 2000000032.
Proof. unfold map_size, full_data. rewrite length_app, length_replicate. lia. Qed.

Lemma mtp_header_size : Z.of_nat (length (put_header mtp_kvs mtp_tensors)) <=? 100000 = true.
Proof. vm_compute. reflexivity. Qed.

Lemma mtp_writable : writable mtp_kvs mtp_tensors full_data.
Proof.
  constructor; [| | |].
  - apply Forall_cons; split; [|apply Forall_nil_2]. split; [reflexivity|]. split; [split; discriminate|]. reflexivity.
  - apply mtp_from. intros name r. apply row_header_ok.
  - rewrite mtp_size. unfold written_model. cbn [model_data_pos]. change (foldl align_next 32 mtp_kvs) with 32.
    apply mtp_from. intros name r _ H. apply row_header_fits; [lia|exact H].
  - rewrite mtp_size. pose proof mtp_header_size as H. apply Z.leb_le in H. unfold INT64_MAX. lia.
Qed.

Lemma mtp_example_written : mtp_written mtp_kvs mtp_tensors.
Proof.
  pose proof mtp_tidy as [_ Hn]%andb_true_iff. apply bool_decide_eq_true in Hn. pose proof mtp_rows_ok as Hok. rewrite forallb_forall in Hok.
  constructor; [reflexivity|reflexivity| |].
  - apply Forall_forall. intros r Hr. apply row_written_of; [|by apply (find_row (fun r => B (r_name r)) mtp_rows r)].
    apply list_elem_of_In, Hok, andb_true_iff in Hr as [Hr _]. done.
  - intros a b. vm_compute. by intros [= <-] [= <-].
Qed.

Lemma mtp_sidecar_opens_witness :
  let file := put_header mtp_kvs mtp_tensors ++ full_data in
  exists lines s, @ds4_mtp_sidecar_open ds4_gpu_arena unlimited (@host_arena unlimited) (Some mtp_options) (Mapped file) (MappedBytes file) = Ok (lines, Ok s) /\
    Forall2 (copied (model_data_pos (written_model mtp_kvs mtp_tensors full_data)) mtp_tensors file (sc_arena s)) mtp_rows (si_tensors (sc_info s)).
Proof.
  apply (@mtp_sidecar_opens unlimited mtp_options (B "mtp.gguf") mtp_kvs mtp_tensors full_data (fun n => eq_refl) mtp_writable).
  - vm_compute. discriminate.
  - exact mtp_example_written.
  - reflexivity.
  - discriminate.
  - discriminate.
  - split; discriminate.
  - reflexivity.
Defined.

Lemma mtp_example_opens : exists lines (s : ds4_mtp_sidecar ds4_gpu_arena),
  @ds4_mtp_sidecar_open ds4_gpu_arena unlimited (@host_arena unlimited) (Some mtp_options) (Mapped (put_header mtp_kvs mtp_tensors ++ full_data))
    (MappedBytes (put_header mtp_kvs mtp_tensors ++ full_data)) = Ok (lines, Ok s) /\
  opened (H0 := @host_laws unlimited) (written_model mtp_kvs mtp_tensors full_data) s.
Proof.
  destruct (@sidecar_opens unlimited mtp_options (B "mtp.gguf") mtp_kvs mtp_tensors full_data (fun n => eq_refl) mtp_writable) as (lines & s & E & Ho & _).
  - vm_compute. discriminate.
  - exact mtp_example_written.
  - reflexivity.
  - discriminate.
  - discriminate.
  - split; discriminate.
  - reflexivity.
  - exists lines, s. by split.
Qed.

Lemma mtp_sidecar_open_resident_witness : exists lines (s : ds4_mtp_sidecar ds4_gpu_arena),
  @ds4_mtp_sidecar_open ds4_gpu_arena unlimited (@host_arena unlimited) (Some mtp_options) (Mapped (put_header mtp_kvs mtp_tensors ++ full_data))
    (MappedBytes (put_header mtp_kvs mtp_tensors ++ full_data)) = Ok (lines, Ok s) /\
  resident (H0 := @host_laws unlimited) s /\ sc_uploaded_tensors s = 32.
Proof.
  destruct mtp_example_opens as (lines & s & E & _). exists lines, s. split; [exact E|].
  pose proof (@mtp_sidecar_open_resident ds4_gpu_arena unlimited (@host_arena unlimited) (@host_laws unlimited) (Some mtp_options)
    (Mapped (put_header mtp_kvs mtp_tensors ++ full_data)) (MappedBytes (put_header mtp_kvs mtp_tensors ++ full_data))
    (proj2 (wr_size _ _ _ mtp_writable))) as Hr.
  specialize (Hr ltac:(intros o [= <-]; split; discriminate)). rewrite E in Hr. destruct Hr as [Hr _]. split; [exact Hr|]. exact (re_tensors s Hr).
Defined.

Lemma mtp_views_exact_witness : exists (s : ds4_mtp_sidecar ds4_gpu_arena) v,
  ds4_mtp_sidecar_q8_0_view (Some s) (Some (B "mtp.0.e_proj.weight")) = Ok v /\
  names_bytes (H0 := @host_laws unlimited) s (B "mtp.0.e_proj.weight") (sv_arena_offset v) (sv_byte_length v).
Proof.
  destruct mtp_example_opens as (lines & s & _ & Ho). exists s.
  destruct (@mtp_views_exact ds4_gpu_arena (@host_arena unlimited) (@host_laws unlimited) _ s (B "mtp.0.e_proj.weight") Ho) as (Hq & _ & _ & Hv).
  destruct (Hv (nth 3 mtp_rows (Row (fun _ => None) "x" [] []))) as [v Ev].
  - apply list_elem_of_In, nth_In. cbn. lia.
  - reflexivity.
  - exists v. split; [exact Ev|]. by apply Hq.
Defined.
