(* ===== verification/Io.v ===== *)
(** * Input and output

    Code that works on a mutable state, may return an error after it has
    changed the state, and may end the process: a monad, its rules for
    postconditions, and the streams that the payloads of sessions are written
    to and read from. *)
From S2P Require Import Prelude.
From S2P Require Import LittleEndian.
From S2P Require Import Gguf.

(** ** The monad *)

Definition io (S A : Type) : Type := S -> pres (S * res A).

#[export] Instance io_ret {S} : MRet (io S) := fun A a s => Ok (s, Ok a).
#[export] Instance io_bind {S} : MBind (io S) := fun A C k m s =>
  match m s with Ok (s, Ok a) => k a s | Ok (s, Error d) => Ok (s, Error d) | Error e => Error e end.

Definition throw {S A} (fmt : string) (args : list farg) : io S A := fun s => Ok (s, Error (Diag fmt args)).
Definition lift {S A} (p : pres A) : io S A := fun s => match p with Ok a => Ok (s, Ok a) | Error e => Error e end.
Definition get {S} : io S S := fun s => Ok (s, Ok s).
Definition put {S} (s : S) : io S unit := fun _ => Ok (s, Ok tt).
Definition modify {S} (f : S -> S) : io S unit := fun s => Ok (f s, Ok tt).
Definition guard {S} (b : bool) (fmt : string) : io S unit := if b then mret tt else throw fmt [].

(** A computation on a part of the state; the part is written back also when
    the computation fails. *)
Definition zoom {S T A} (from : S -> T) (into : T -> S -> S) (m : io T A) : io S A := fun s =>
  match m (from s) with Ok (t, r) => Ok (into t s, r) | Error e => Error e end.

Fixpoint each {S A} (f : A -> io S unit) (l : list A) : io S unit :=
  match l with [] => mret tt | a :: l => f a ≫= fun _ => each f l end.

Fixpoint collect {S A} (m : io S A) (n : nat) : io S (list A) :=
  match n with O => mret [] | S n => a ← m; l ← collect m n; mret (a :: l) end.

(** ** Postconditions *)

(** [m] from [s] ends the process with status 1, or returns with [Q], or
    fails with [E]. *)
Definition post {S A} (m : io S A) (s : S) (Q : S -> A -> Prop) (E : S -> diag -> Prop) : Prop :=
  match m s with
  | Ok (s', Ok a) => Q s' a
  | Ok (s', Error d) => E s' d
  | Error e => exists msg, e = Exit 1 msg
  end.

(** [m] from [s] returns [a] in [s']. *)
Definition runs {S A} (m : io S A) (s s' : S) (a : A) : Prop := m s = Ok (s', Ok a).

Section Rules.
Context {S A C : Type}.
Implicit Types (s : S) (Q : S -> A -> Prop) (E : S -> diag -> Prop).

Lemma post_ret s (a : A) Q E : Q s a -> post (mret a) s Q E.
Proof. done. Qed.

Lemma post_bind (m : io S A) (k : A -> io S C) s (Q' : S -> C -> Prop) E :
  post m s (fun s' a => post (k a) s' Q' E) E -> post (m ≫= k) s Q' E.
Proof. unfold post, mbind, io_bind. destruct (m s) as [[s' [a|d]]|e]; done. Qed.

Lemma post_mono (m : io S A) s Q Q1 E E1 : (forall s' a, Q1 s' a -> Q s' a) -> (forall s' d, E1 s' d -> E s' d) ->
  post m s Q1 E1 -> post m s Q E.
Proof. unfold post. intros HQ HE. destruct (m s) as [[s' [a|d]]|e]; auto. Qed.

Lemma post_get s (Q : S -> S -> Prop) E : Q s s -> post get s Q E.
Proof. done. Qed.

Lemma post_modify (f : S -> S) s (Q : S -> unit -> Prop) E : Q (f s) tt -> post (modify f) s Q E.
Proof. done. Qed.

Lemma post_guard (b : bool) (fmt : string) s (Q : S -> unit -> Prop) E :
  (b = true -> Q s tt) -> (b = false -> E s (Diag fmt [])) -> post (guard b fmt) s Q E.
Proof. destruct b; cbn; auto. Qed.

Lemma post_lift (p : pres A) s Q E : match p with Ok a => Q s a | Error e => exists msg, e = Exit 1 msg end -> post (lift p) s Q E.
Proof. by destruct p. Qed.

Lemma runs_bind (m : io S A) (k : A -> io S C) s s1 s2 a c : runs m s s1 a -> runs (k a) s1 s2 c -> runs (m ≫= k) s s2 c.
Proof. unfold runs, mbind, io_bind. by intros ->. Qed.

Lemma runs_post (m : io S A) s s' a Q E : runs m s s' a -> post m s Q E -> Q s' a.
Proof. unfold runs, post. by intros ->. Qed.
End Rules.

Lemma post_zoom {S T A} (from : S -> T) (into : T -> S -> S) (m : io T A) s (Q : S -> A -> Prop) E :
  post m (from s) (fun t a => Q (into t s) a) (fun t d => E (into t s) d) -> post (zoom from into m) s Q E.
Proof. unfold post, zoom. destruct (m (from s)) as [[t [a|d]]|e]; done. Qed.

Lemma runs_zoom {S T A} (from : S -> T) (into : T -> S -> S) (m : io T A) s t a :
  runs m (from s) t a -> runs (zoom from into m) s (into t s) a.
Proof. unfold runs, zoom. by intros ->. Qed.

(** A loop invariant over the elements that are left. *)
Lemma post_each {S A} (f : A -> io S unit) (I : list A -> S -> Prop) E (l : list A) :
  (forall a l s, I (a :: l) s -> post (f a) s (fun s' _ => I l s') E) ->
  forall s, I l s -> post (each f l) s (fun s' _ => I [] s') E.
Proof.
  intros Hf. induction l as [|a l IH]; intros s HI; [exact HI|]. cbn [each]. apply post_bind.
  eapply (post_mono _ _ _ (fun s' _ => I l s') _ E); [intros s' _; apply IH|done|by apply Hf].
Qed.

(** If [m] returns from [s], it does so with [Q], or fails with [E]. *)
Definition returns {S A} (m : io S A) (s : S) (Q : S -> A -> Prop) (E : S -> diag -> Prop) : Prop :=
  match m s with Ok (s', Ok a) => Q s' a | Ok (s', Error d) => E s' d | Error _ => True end.

Lemma returns_bind {S A C} (m : io S A) (k : A -> io S C) s (Q' : S -> C -> Prop) E :
  returns m s (fun s' a => returns (k a) s' Q' E) E -> returns (m ≫= k) s Q' E.
Proof. unfold returns, mbind, io_bind. destruct (m s) as [[s' [a|d]]|e]; done. Qed.

Lemma returns_mono {S A} (m : io S A) s (Q Q1 : S -> A -> Prop) (E E1 : S -> diag -> Prop) :
  (forall s' a, Q1 s' a -> Q s' a) -> (forall s' d, E1 s' d -> E s' d) -> returns m s Q1 E1 -> returns m s Q E.
Proof. unfold returns. intros HQ HE. destruct (m s) as [[s' [a|d]]|e]; auto. Qed.

(** What holds of every state that is reached, and is kept by each part. *)
Definition keeps {S A} (P : S -> Prop) (m : io S A) : Prop := forall s, P s -> returns m s (fun s' _ => P s') (fun s' _ => P s').

Lemma keeps_ret {S A} (P : S -> Prop) (a : A) : keeps P (mret a).
Proof. by intros s Hs. Qed.

Lemma keeps_bind {S A C} (P : S -> Prop) (m : io S A) (k : A -> io S C) : keeps P m -> (forall a, keeps P (k a)) -> keeps P (m ≫= k).
Proof. intros Hm Hk s Hs. apply returns_bind. eapply returns_mono; [..|by apply Hm]; [|done]. intros s' a H. by apply Hk. Qed.

Lemma keeps_guard {S} (P : S -> Prop) (b : bool) (fmt : string) : keeps P (guard b fmt).
Proof. intros s Hs. by destruct b. Qed.

Lemma keeps_get {S} (P : S -> Prop) : keeps P get.
Proof. by intros s Hs. Qed.

Lemma keeps_lift {S A} (P : S -> Prop) (p : pres A) : keeps P (lift p).
Proof. intros s Hs. unfold returns, lift. by destruct p. Qed.

Lemma keeps_modify {S} (P : S -> Prop) (f : S -> S) : (forall s, P s -> P (f s)) -> keeps P (modify f).
Proof. intros Hf s Hs. by apply Hf. Qed.

Lemma keeps_each {S A} (P : S -> Prop) (f : A -> io S unit) (l : list A) : (forall a, keeps P (f a)) -> keeps P (each f l).
Proof. intros Hf. induction l as [|a l IH]; cbn [each]; [apply keeps_ret|]. apply keeps_bind; [apply Hf|by intros []]. Qed.

Lemma keeps_zoom {S T A} (P : S -> Prop) (from : S -> T) (into : T -> S -> S) (m : io T A) :
  (forall t s, P s -> P (into t s)) -> keeps P (zoom from into m).
Proof. intros Hi s Hs. unfold returns, zoom. destruct (m (from s)) as [[t [a|d]]|e]; auto. Qed.

#[export] Hint Resolve keeps_ret keeps_guard keeps_get keeps_lift : keeps.

(** ** Streams *)

Definition xmalloc `{Allocator} (n : Z) : pres unit := if malloc_ok n then Ok tt else ds4_die (B "out of memory").

(** A file that is written: its bytes, and how many more it can hold. *)
Record wfile := WFile { w_bytes : bytes; w_room : Z }.

(** A file that is read: the bytes ahead, and how many belong to the payload. *)
Record rfile := RFile { r_bytes : bytes; r_remaining : Z }.

Definition payload_write_bytes (b : bytes) : io wfile unit := fun f =>
  let n := Z.of_nat (length b) in
  if n <=? w_room f then Ok (WFile (w_bytes f ++ b) (w_room f - n), Ok tt)
  else Ok (WFile (w_bytes f ++ take (Z.to_nat (w_room f)) b) 0, fail "failed to write session payload" []).

Definition payload_put_u32 (v : Z) : bytes :=
  [zb v; zb (Z.shiftr v 8); zb (Z.shiftr v 16); zb (Z.shiftr v 24)].
Definition payload_get_u32 (b : bytes) : Z :=
  Z.lor (Z.lor (Z.lor (bz (nth 0 b NUL)) (Z.shiftl (bz (nth 1 b NUL)) 8)) (Z.shiftl (bz (nth 2 b NUL)) 16)) (Z.shiftl (bz (nth 3 b NUL)) 24).

Definition payload_write_u32 (v : Z) : io wfile unit := payload_write_bytes (payload_put_u32 v).

(** An array with the bytes [b] at its start. *)
Definition overwrite (a b : bytes) : bytes := b ++ drop (length b) a.

(** Reading [n] bytes to the start of the array [a]: writing behind its end is
    undefined; a short read leaves the bytes it got. *)
Definition payload_read_bytes (n : Z) : io (bytes * rfile) unit := fun '(a, f) =>
  if r_remaining f <? n then Ok ((a, f), fail "truncated session payload" [])
  else
    let got := take (Z.to_nat n) (r_bytes f) in
    if Z.of_nat (length a) <? Z.of_nat (length got) then Error (Undefined "read behind the end of an array")
    else if Z.of_nat (length got) <? n then Ok ((overwrite a got, RFile [] (r_remaining f)), fail "failed to read session payload" [])
    else Ok ((overwrite a got, RFile (drop (Z.to_nat n) (r_bytes f)) (u64 (r_remaining f - n))), Ok tt).

Definition payload_read_u32 : io rfile Z := fun f =>
  if r_remaining f <? 4 then Ok (f, fail "truncated session payload" [])
  else if Z.of_nat (length (r_bytes f)) <? 4 then Ok (RFile [] (r_remaining f), fail "failed to read session payload" [])
  else Ok (RFile (drop 4 (r_bytes f)) (u64 (r_remaining f - 4)), Ok (payload_get_u32 (take 4 (r_bytes f)))).
