(* ===== verification/Session.v ===== *)
(** * Sessions (ds4.c)

    The state of a session: its checkpoint of tokens, the logits behind them,
    and the caches of keys and values, of the CPU back end as arrays and of a
    graph back end as device tensors.  Arrays of floats are their bytes. *)
From S2P Require Import Prelude.
From S2P Require Import CNum.
From S2P Require Import Gguf.
From S2P Require Import Tokenizer.
From S2P Require Import Weights.
From S2P Require Import Io.

(** ** Device tensors *)

(** A tensor of the graph back ends, behind the calls of ds4_gpu.h:
    [tensor_write] gives the tensor after a copy that succeeded. *)
Class TensorOps (tensor : Type) := {
  ds4_gpu_tensor_bytes : tensor -> Z;
  ds4_gpu_tensor_read : tensor -> Z -> Z -> option bytes;
  ds4_gpu_tensor_write : tensor -> Z -> bytes -> option tensor
}.

(** An array with the bytes [b] at [off]. *)
Definition overwrite_at (a : bytes) (off : Z) (b : bytes) : bytes :=
  take (Z.to_nat off) a ++ b ++ drop (Z.to_nat off + length b) a.

(** What they promise: a tensor holds [ds4_gpu_tensor_bytes] bytes, and inside
    of it a copy that succeeds reads or replaces exactly its range. *)
Class TensorLaws (tensor : Type) `{TensorOps tensor} := {
  contents : tensor -> bytes;
  law_bytes : forall t, ds4_gpu_tensor_bytes t = Z.of_nat (length (contents t));
  law_tensor_read : forall t off n b, 0 <= off -> 0 <= n -> off + n <= ds4_gpu_tensor_bytes t ->
    ds4_gpu_tensor_read t off n = Some b -> b = slice (contents t) off n;
  law_tensor_write : forall t off b t', 0 <= off -> off + Z.of_nat (length b) <= ds4_gpu_tensor_bytes t ->
    ds4_gpu_tensor_write t off b = Some t' -> contents t' = overwrite_at (contents t) off b
}.

(** ** The caches *)

(** The bytes of the float -1.0e30. *)
Definition DS4_NEG_INF_BYTES : bytes := [xca; xf2; x49; xf1].

(** A null array is the empty list. *)
Record ds4_layer_cache := LayerCache {
  raw_kv : bytes;
  n_raw : Z;
  cap_raw : Z;
  compress_ratio : Z;
  comp_cap : Z;
  n_comp : Z;
  attn_comp_kv : bytes;
  attn_state_kv : bytes;
  attn_state_score : bytes;
  n_index_comp : Z;
  index_comp_kv : bytes;
  index_state_kv : bytes;
  index_state_score : bytes
}.
#[export] Instance ds4_layer_cache_fields : Fields ds4_layer_cache :=
  rd_pure LayerCache <*> raw_kv <*> n_raw <*> cap_raw <*> compress_ratio <*> comp_cap <*> n_comp <*> attn_comp_kv <*> attn_state_kv
  <*> attn_state_score <*> n_index_comp <*> index_comp_kv <*> index_state_kv <*> index_state_score.

Definition ds4_default_raw_cap (ctx_size : Z) : Z :=
  let raw_cap := if ctx_size <? DS4_N_SWA then ctx_size else DS4_N_SWA in
  if raw_cap =? 0 then 1 else raw_cap.

(** [env] is the variable DS4_METAL_PREFILL_CHUNK. *)
Definition ds4_default_prefill_cap_for_prompt (env : option bytes) (prompt_len : Z) : Z :=
  if prompt_len <=? 0 then 1
  else
    let cap :=
      match env with
      | Some (c :: e) =>
          let '(v, rest, _) := strtoll (c :: e) in
          if Nat.eqb (length rest) (length (c :: e)) then prompt_len else if v <=? 0 then prompt_len else u32 v
      | _ => if 2048 <? prompt_len then 2048 else prompt_len
      end in
    let cap := if cap =? 0 then 1 else cap in
    if prompt_len <? cap then prompt_len else cap.

(** [n] floats of the value of these bytes. *)
Definition floats (n : Z) (f : bytes) : bytes := concat (replicate (Z.to_nat n) f).
Definition zeros (n : Z) : bytes := replicate (Z.to_nat (4 * n)) NUL.

(** The cache of a layer. *)
Definition layer_init (ctx_size raw_cap ratio : Z) : ds4_layer_cache :=
  let base := LayerCache (zeros (raw_cap * DS4_N_HEAD_DIM)) 0 raw_cap ratio 0 0 [] [] [] 0 [] [] [] in
  if ratio =? 0 then base
  else
    let coff := if ratio =? 4 then 2 else 1 in
    let cap := u32 (ctx_size / ratio + 2) in
    let attn := coff * DS4_N_HEAD_DIM * (coff * ratio) in
    let l := base <| comp_cap := cap |> <| attn_comp_kv := zeros (cap * DS4_N_HEAD_DIM) |>
      <| attn_state_kv := zeros attn |> <| attn_state_score := floats attn DS4_NEG_INF_BYTES |> in
    if ratio =? 4 then
      let index := coff * DS4_N_INDEXER_HEAD_DIM * (coff * ratio) in
      l <| index_comp_kv := zeros (cap * DS4_N_INDEXER_HEAD_DIM) |> <| index_state_kv := zeros index |>
        <| index_state_score := floats index DS4_NEG_INF_BYTES |>
    else l.

(** [head_dim] of the cache is the constant, and an allocation that fails ends
    the process, so that here every allocation succeeds. *)
Definition kv_cache_init (ctx_size raw_cap : Z) : pres (list ds4_layer_cache) :=
  let raw_cap := if raw_cap =? 0 then ds4_default_raw_cap ctx_size else raw_cap in
  let raw_cap := if ctx_size <? raw_cap then ctx_size else raw_cap in
  let raw_cap := if raw_cap =? 0 then 1 else raw_cap in
  mapM_res (fun il => ratio <- ds4_layer_compress_ratio il ;; Ok (layer_init ctx_size raw_cap ratio)) layers.

(** ** The graph *)

Section Graph.
Context {tensor : Type}.

(** The tensors of a layer; null where the layer has none. *)
Record layer_graph := LayerGraph {
  layer_n_comp : Z;
  layer_n_index_comp : Z;
  layer_comp_cap : Z;
  layer_raw_cache : option tensor;
  layer_attn_comp_cache : option tensor;
  layer_attn_state_kv : option tensor;
  layer_attn_state_score : option tensor;
  layer_index_comp_cache : option tensor;
  layer_index_state_kv : option tensor;
  layer_index_state_score : option tensor
}.
#[export] Instance layer_graph_fields : Fields layer_graph :=
  rd_pure LayerGraph <*> layer_n_comp <*> layer_n_index_comp <*> layer_comp_cap <*> layer_raw_cache <*> layer_attn_comp_cache
  <*> layer_attn_state_kv <*> layer_attn_state_score <*> layer_index_comp_cache <*> layer_index_state_kv <*> layer_index_state_score.

Record ds4_gpu_graph := Graph { graph_raw_cap : Z; raw_window : Z; graph_comp_cap : Z; mtp_n_raw : Z; graph_layers : list layer_graph }.
#[export] Instance ds4_gpu_graph_fields : Fields ds4_gpu_graph :=
  rd_pure Graph <*> graph_raw_cap <*> raw_window <*> graph_comp_cap <*> mtp_n_raw <*> graph_layers.

(** ** The session *)

Inductive ds4_backend := DS4_BACKEND_METAL | DS4_BACKEND_CUDA | DS4_BACKEND_CPU.

Record ds4_session := Session {
  backend : ds4_backend;
  graph : ds4_gpu_graph;
  cpu_cache : list ds4_layer_cache;
  checkpoint : list Z;
  logits : bytes;
  prefill_cap : Z;
  ctx_size : Z;
  checkpoint_valid : bool;
  mtp_draft_valid : bool
}.
#[export] Instance ds4_session_fields : Fields ds4_session :=
  rd_pure Session <*> backend <*> graph <*> cpu_cache <*> checkpoint <*> logits <*> prefill_cap <*> ctx_size <*> checkpoint_valid
  <*> mtp_draft_valid.

Definition ds4_session_is_cpu (s : ds4_session) : bool := match backend s with DS4_BACKEND_CPU => true | _ => false end.

Definition checkpoint_len (s : ds4_session) : Z := Z.of_nat (length (checkpoint s)).

Definition ds4_session_invalidate (s : ds4_session) : ds4_session :=
  s <| checkpoint_valid := false |> <| checkpoint := [] |> <| mtp_draft_valid := false |>.

Definition ds4_session_rewind (s : ds4_session) (pos : Z) : ds4_session :=
  let pos := if pos <? 0 then 0 else pos in
  let pos := if checkpoint_len s <? pos then checkpoint_len s else pos in
  s <| checkpoint := take (Z.to_nat pos) (checkpoint s) |> <| mtp_draft_valid := false |>.

(** The length of the common prefix of two lists. *)
Fixpoint common_len (a b : list Z) : Z :=
  match a, b with
  | x :: a, y :: b => if x =? y then 1 + common_len a b else 0
  | _, _ => 0
  end.

Definition ds4_session_common_prefix (s : ds4_session) (prompt : list Z) : Z :=
  if checkpoint_valid s then common_len (checkpoint s) prompt else 0.

Definition ds4_session_rewrite_requires_rebuild (live_len canonical_len common : Z) : bool :=
  if (live_len <? 0) || (canonical_len <? 0) || (common <? 0) then true
  else if (live_len <? common) || (canonical_len <? common) then true
  else common <? live_len.

(** ** What is live *)

Definition layer_attn_state_bytes (ratio : Z) : Z :=
  let coff := if ratio =? 4 then 2 else 1 in coff * DS4_N_HEAD_DIM * coff * ratio * 4.
Definition layer_index_state_bytes (ratio : Z) : Z :=
  let coff := if ratio =? 4 then 2 else 1 in coff * DS4_N_INDEXER_HEAD_DIM * coff * ratio * 4.

Definition session_raw_live_rows (g : ds4_gpu_graph) (len : Z) : Z :=
  let rows := if negb (raw_window g =? 0) then raw_window g else DS4_N_SWA in
  let rows := if graph_raw_cap g <? rows then graph_raw_cap g else rows in
  if len <? rows then len else rows.

Definition session_cpu_raw_live_rows (s : ds4_session) : Z :=
  if negb (checkpoint_valid s) then 0
  else
    let rows := ds4_default_raw_cap (u32 (ctx_size s)) in
    if u32 (checkpoint_len s) <? rows then u32 (checkpoint_len s) else rows.

Definition session_cpu_comp_cap (s : ds4_session) : Z :=
  match List.find (fun l => compress_ratio l =? 4) (cpu_cache s) with
  | Some l => comp_cap l
  | None =>
      match List.find (fun l => negb (compress_ratio l =? 0)) (cpu_cache s) with
      | Some l => comp_cap l
      | None => u32 (ctx_size s)
      end
  end.

(** The bytes that a layer adds. *)
Definition live_layer_bytes (raw_live ratio n_comp_ n_index : Z) (bytes_ : Z) : Z :=
  let bytes_ := u64 (bytes_ + raw_live * DS4_N_HEAD_DIM * 4) in
  if ratio =? 0 then bytes_
  else
    let bytes_ := u64 (bytes_ + n_comp_ * DS4_N_HEAD_DIM * 4) in
    let bytes_ := u64 (u64 (bytes_ + layer_attn_state_bytes ratio) + layer_attn_state_bytes ratio) in
    if ratio =? 4 then
      let bytes_ := u64 (bytes_ + n_index * DS4_N_INDEXER_HEAD_DIM * 4) in
      u64 (u64 (bytes_ + layer_index_state_bytes ratio) + layer_index_state_bytes ratio)
    else bytes_.

Definition session_payload_live_tensor_bytes (g : ds4_gpu_graph) (len : Z) : pres Z :=
  rfold (fun b p => ratio <- ds4_layer_compress_ratio (fst p) ;;
    Ok (live_layer_bytes (session_raw_live_rows g len) ratio (layer_n_comp (snd p)) (layer_n_index_comp (snd p)) b)) 0 (combine layers (graph_layers g)).

Definition session_cpu_payload_live_tensor_bytes (s : ds4_session) : Z :=
  foldl (fun b l => live_layer_bytes (session_cpu_raw_live_rows s) (compress_ratio l) (n_comp l) (n_index_comp l) b) 0 (cpu_cache s).

Definition DS4_SESSION_PAYLOAD_U32_FIELDS : Z := 13.

(** The header, the tokens, the logits and the counts of rows. *)
Definition payload_fixed_bytes (len : Z) : Z :=
  u64 (u64 (u64 (u64 (DS4_SESSION_PAYLOAD_U32_FIELDS * 4 + len * 4) + DS4_N_VOCAB * 4) + DS4_N_LAYER * 4) + DS4_N_LAYER * 4).

Definition ds4_session_payload_bytes (s : ds4_session) : pres Z :=
  if negb (checkpoint_valid s) then Ok 0
  else if ds4_session_is_cpu s then Ok (u64 (payload_fixed_bytes (checkpoint_len s) + session_cpu_payload_live_tensor_bytes s))
  else
    live <- session_payload_live_tensor_bytes (graph s) (u32 (checkpoint_len s)) ;;
    Ok (u64 (payload_fixed_bytes (checkpoint_len s) + live)).
End Graph.
Arguments layer_graph : clear implicits.
Arguments ds4_gpu_graph : clear implicits.
Arguments ds4_session : clear implicits.
