(* ===== verification/SessionPayload.v ===== *)
(** * The payload of a session (ds4.c)

    [ds4_session_save_payload] writes the checkpoint of a session, with the
    rows that are live in its caches, to a file, and
    [ds4_session_load_payload] restores it; snapshots are payloads in memory.
    Both back ends are modelled; the variant without a graph back end only
    returns an error in its place. *)
From S2P Require Import Prelude.
From S2P Require Import SourceFormats.
From S2P Require Import Gguf.
From S2P Require Import Weights.
From S2P Require Import Io.
From S2P Require Import Session.

Definition DS4_SESSION_PAYLOAD_MAGIC : Z := 0x34565344.
Definition DS4_SESSION_PAYLOAD_VERSION : Z := 1.
Definition DS4_SESSION_IO_CHUNK : Z := 8 * 1024 * 1024.

(** ** Writing *)

(** Bytes of an array; reading behind its end is undefined. *)
Definition array_bytes {S} (a : bytes) (off n : Z) : io S bytes :=
  if off + n <=? Z.of_nat (length a) then mret (slice a off n) else fun _ => Error (Undefined "write from behind the end of an array").

Definition write_array (a : bytes) (off n : Z) : io wfile unit := b ← array_bytes a off n; payload_write_bytes b.

(** What both back ends write before the rows. *)
Definition write_fixed (header tokens : list Z) (logits_ : bytes) (n_comps n_indexes : list Z) : io wfile unit :=
  _ ← each payload_write_u32 header;
  _ ← each (fun t => payload_write_u32 (u32 t)) tokens;
  _ ← write_array logits_ 0 (DS4_N_VOCAB * 4);
  _ ← each payload_write_u32 n_comps;
  each payload_write_u32 n_indexes.

Definition write_layer_cpu (raw_live : Z) (layer : ds4_layer_cache) : io wfile unit :=
  _ ← guard (raw_live <=? n_raw layer) "CPU session raw cache has fewer live rows than checkpoint";
  let raw_start := n_raw layer - raw_live in
  _ ← write_array (raw_kv layer) (raw_start * DS4_N_HEAD_DIM * 4) (raw_live * DS4_N_HEAD_DIM * 4);
  let ratio := compress_ratio layer in
  if ratio =? 0 then mret tt
  else
    _ ← write_array (attn_comp_kv layer) 0 (n_comp layer * DS4_N_HEAD_DIM * 4);
    _ ← write_array (attn_state_kv layer) 0 (layer_attn_state_bytes ratio);
    _ ← write_array (attn_state_score layer) 0 (layer_attn_state_bytes ratio);
    if ratio =? 4 then
      _ ← write_array (index_comp_kv layer) 0 (n_index_comp layer * DS4_N_INDEXER_HEAD_DIM * 4);
      _ ← write_array (index_state_kv layer) 0 (layer_index_state_bytes ratio);
      write_array (index_state_score layer) 0 (layer_index_state_bytes ratio)
    else mret tt.

Section Payload.
Context {tensor : Type} `{TensorOps tensor} `{Allocator}.
Implicit Types (s : ds4_session tensor) (g : ds4_gpu_graph tensor).

Definition cpu_header s : list Z :=
  let raw_cap := ds4_default_raw_cap (u32 (ctx_size s)) in
  [DS4_SESSION_PAYLOAD_MAGIC; DS4_SESSION_PAYLOAD_VERSION; u32 (ctx_size s); prefill_cap s; raw_cap; raw_cap; session_cpu_comp_cap s;
   u32 (checkpoint_len s); DS4_N_LAYER; DS4_N_HEAD_DIM; DS4_N_INDEXER_HEAD_DIM; DS4_N_VOCAB; session_cpu_raw_live_rows s].

Definition save_cpu s : io wfile unit :=
  _ ← write_fixed (cpu_header s) (checkpoint s) (logits s) (map n_comp (cpu_cache s)) (map n_index_comp (cpu_cache s));
  each (write_layer_cpu (session_cpu_raw_live_rows s)) (cpu_cache s).

(** The loop of a span, from byte [from]: each turn moves at least a byte. *)
Fixpoint write_span_loop (fuel : nat) (t : tensor) (offset n cap from : Z) : io wfile unit :=
  if n <=? from then mret tt
  else
    match fuel with
    | O => fun _ => Error OutOfFuel
    | Datatypes.S fuel =>
        let k := if cap <? n - from then cap else n - from in
        match ds4_gpu_tensor_read t (offset + from) k with
        | None => throw "failed to read Metal session tensor" []
        | Some b => _ ← payload_write_bytes b; write_span_loop fuel t offset n cap (from + k)
        end
    end.

(** Null, or too small. *)
Definition span_outside (o : option tensor) (offset n : Z) : bool :=
  match o with
  | None => true
  | Some t => (ds4_gpu_tensor_bytes t <? offset) || (ds4_gpu_tensor_bytes t - offset <? n)
  end.

Definition payload_write_tensor_span (o : option tensor) (offset n cap : Z) : io wfile unit :=
  if span_outside o offset n then throw "session tensor is smaller than the payload" []
  else match o with Some t => write_span_loop (Z.to_nat n) t offset n cap 0 | None => mret tt end.

(** The physical row of a position in the ring. *)
Definition phys_row g (pos : Z) : Z := pos mod graph_raw_cap g.

Definition write_layer_gpu g (len raw_live : Z) (p : Z * layer_graph tensor) : io wfile unit :=
  let '(il, l) := p in
  let raw_first := u32 (len - raw_live) in
  _ ← each (fun r => payload_write_tensor_span (layer_raw_cache l) (phys_row g (u32 (raw_first + r)) * DS4_N_HEAD_DIM * 4)
        (DS4_N_HEAD_DIM * 4) DS4_SESSION_IO_CHUNK) (upto raw_live);
  ratio ← lift (ds4_layer_compress_ratio il);
  if ratio =? 0 then mret tt
  else
    _ ← payload_write_tensor_span (layer_attn_comp_cache l) 0 (layer_n_comp l * DS4_N_HEAD_DIM * 4) DS4_SESSION_IO_CHUNK;
    _ ← payload_write_tensor_span (layer_attn_state_kv l) 0 (layer_attn_state_bytes ratio) DS4_SESSION_IO_CHUNK;
    _ ← payload_write_tensor_span (layer_attn_state_score l) 0 (layer_attn_state_bytes ratio) DS4_SESSION_IO_CHUNK;
    if ratio =? 4 then
      _ ← payload_write_tensor_span (layer_index_comp_cache l) 0 (layer_n_index_comp l * DS4_N_INDEXER_HEAD_DIM * 4) DS4_SESSION_IO_CHUNK;
      _ ← payload_write_tensor_span (layer_index_state_kv l) 0 (layer_index_state_bytes ratio) DS4_SESSION_IO_CHUNK;
      payload_write_tensor_span (layer_index_state_score l) 0 (layer_index_state_bytes ratio) DS4_SESSION_IO_CHUNK
    else mret tt.

Definition gpu_header s : list Z :=
  let g := graph s in
  [DS4_SESSION_PAYLOAD_MAGIC; DS4_SESSION_PAYLOAD_VERSION; u32 (ctx_size s); prefill_cap s; graph_raw_cap g; raw_window g; graph_comp_cap g;
   u32 (checkpoint_len s); DS4_N_LAYER; DS4_N_HEAD_DIM; DS4_N_INDEXER_HEAD_DIM; DS4_N_VOCAB;
   session_raw_live_rows g (u32 (checkpoint_len s))].

(** [sync] is whether [ds4_gpu_synchronize] succeeds. *)
Definition save_gpu (sync : bool) s : io wfile unit :=
  let g := graph s in
  let len := u32 (checkpoint_len s) in
  _ ← guard sync "failed to synchronize Metal before snapshot";
  _ ← write_fixed (gpu_header s) (checkpoint s) (logits s) (map layer_n_comp (graph_layers g)) (map layer_n_index_comp (graph_layers g));
  _ ← lift (xmalloc DS4_SESSION_IO_CHUNK);
  each (write_layer_gpu g len (session_raw_live_rows g len)) (combine layers (graph_layers g)).

Definition ds4_session_save_payload (sync : bool) s : io wfile unit :=
  if negb (checkpoint_valid s) then throw "session has no valid checkpoint to save" []
  else if ds4_session_is_cpu s then save_cpu s else save_gpu sync s.

(** ** Reading *)

(** The state of a restore: the session and the file. *)
Abbreviation lio := (io (ds4_session tensor * rfile)).

Definition in_file {A} (m : io rfile A) : lio A := zoom snd (fun f p => (fst p, f)) m.

(** Reads to an array of the session. *)
Definition read_array (from : ds4_session tensor -> bytes) (into : bytes -> ds4_session tensor -> ds4_session tensor) (n : Z) : lio unit :=
  zoom (fun p => (from (fst p), snd p)) (fun q p => (into (fst q) (fst p), snd q)) (payload_read_bytes n).

Definition check (b : bool) (fmt : string) : lio unit := guard b fmt.

(** A count of rows, in the limits of the file and of the cache. *)
Definition read_count (saved_comp_cap cap : Z) (fmt : string) : lio Z :=
  n ← in_file payload_read_u32; _ ← check (negb ((saved_comp_cap <? n) || (cap <? n))) fmt; mret n.

Fixpoint read_counts (saved_comp_cap : Z) (caps : list Z) (fmt : string) : lio (list Z) :=
  match caps with
  | [] => mret []
  | cap :: caps => n ← read_count saved_comp_cap cap fmt; ns ← read_counts saved_comp_cap caps fmt; mret (n :: ns)
  end.

(** The checks of the header that both back ends make; [window], [cap] and
    [comp] are the raw window, the raw capacity and the capacity of
    compressed rows of the session. *)
Definition check_header (h : list Z) (window cap comp : Z) : lio unit :=
  '(s, _) ← get;
  let saved_ctx := nth 2 h 0 in let saved_prefill_cap := nth 3 h 0 in let saved_raw_cap := nth 4 h 0 in
  let saved_raw_window := nth 5 h 0 in let saved_comp_cap := nth 6 h 0 in let saved_tokens := nth 7 h 0 in let saved_raw_live := nth 12 h 0 in
  _ ← check (negb ((u32 (ctx_size s) <? saved_ctx) || (u32 (ctx_size s) <=? saved_tokens))) "KV checkpoint does not fit current context";
  _ ← check ((nth 8 h 0 =? DS4_N_LAYER) && (nth 9 h 0 =? DS4_N_HEAD_DIM) && (nth 10 h 0 =? DS4_N_INDEXER_HEAD_DIM) && (nth 11 h 0 =? DS4_N_VOCAB))
        "KV checkpoint was written for a different DS4 layout";
  _ ← check ((saved_prefill_cap =? prefill_cap s) && (saved_raw_window =? window)) "KV checkpoint graph chunk layout does not match current runtime";
  let expected_raw_live := if saved_tokens <? saved_raw_window then saved_tokens else saved_raw_window in
  _ ← check (negb ((saved_raw_cap =? 0) || negb (saved_raw_live =? expected_raw_live) || (saved_raw_cap <? saved_raw_live) || (cap <? saved_raw_live)))
        "KV checkpoint raw ring layout does not match current context";
  check (negb (comp <? saved_comp_cap)) "KV checkpoint compressed cache is larger than current context".

(** The tokens, the logits and the counts, which both back ends read. *)
Definition read_fixed (h : list Z) (caps : list Z) : lio (list Z * list Z * list Z) :=
  tokens ← in_file (collect payload_read_u32 (Z.to_nat (nth 7 h 0)));
  _ ← read_array logits (fun b s => s <| logits := b |>) (DS4_N_VOCAB * 4);
  n_comps ← read_counts (nth 6 h 0) caps "KV checkpoint has invalid compressed row count";
  n_indexes ← read_counts (nth 6 h 0) caps "KV checkpoint has invalid indexer row count";
  mret (map to_int tokens, n_comps, n_indexes).

(** A layer of the session. *)
Definition nth_layer s (il : Z) : ds4_layer_cache := nth (Z.to_nat il) (cpu_cache s) (LayerCache [] 0 0 0 0 0 [] [] [] 0 [] [] []).
Definition set_layer (il : Z) (l : ds4_layer_cache) s : ds4_session tensor := s <| cpu_cache := <[Z.to_nat il := l]> (cpu_cache s) |>.

Definition at_layer {A} (il : Z) (m : io (ds4_layer_cache * rfile) A) : lio A :=
  zoom (fun p => (nth_layer (fst p) il, snd p)) (fun q p => (set_layer il (fst q) (fst p), snd q)) m.

(** Reads to an array of a layer. *)
Definition layer_array (from : ds4_layer_cache -> bytes) (into : bytes -> ds4_layer_cache -> ds4_layer_cache) (n : Z)
    : io (ds4_layer_cache * rfile) unit :=
  zoom (fun p => (from (fst p), snd p)) (fun q p => (into (fst q) (fst p), snd q)) (payload_read_bytes n).

Definition set_layer_field (f : ds4_layer_cache -> ds4_layer_cache) : io (ds4_layer_cache * rfile) unit := modify (fun p => (f (fst p), snd p)).

Definition read_layer_cpu (raw_live n_comp_ n_index : Z) : io (ds4_layer_cache * rfile) unit :=
  _ ← layer_array raw_kv (fun b l => l <| raw_kv := b |>) (raw_live * DS4_N_HEAD_DIM * 4);
  _ ← set_layer_field (fun l => l <| n_raw := raw_live |>);
  '(l, _) ← get;
  let ratio := compress_ratio l in
  if ratio =? 0 then mret tt
  else
    _ ← set_layer_field (fun l => l <| n_comp := n_comp_ |> <| n_index_comp := n_index |>);
    _ ← layer_array attn_comp_kv (fun b l => l <| attn_comp_kv := b |>) (n_comp_ * DS4_N_HEAD_DIM * 4);
    _ ← layer_array attn_state_kv (fun b l => l <| attn_state_kv := b |>) (layer_attn_state_bytes ratio);
    _ ← layer_array attn_state_score (fun b l => l <| attn_state_score := b |>) (layer_attn_state_bytes ratio);
    if ratio =? 4 then
      _ ← layer_array index_comp_kv (fun b l => l <| index_comp_kv := b |>) (n_index * DS4_N_INDEXER_HEAD_DIM * 4);
      _ ← layer_array index_state_kv (fun b l => l <| index_state_kv := b |>) (layer_index_state_bytes ratio);
      layer_array index_state_score (fun b l => l <| index_state_score := b |>) (layer_index_state_bytes ratio)
    else mret tt.

Definition session_cpu_reset_cache s : pres (ds4_session tensor) :=
  cache <- kv_cache_init (u32 (ctx_size s)) 0 ;; Ok (s <| cpu_cache := cache |>).

(** The end of a restore: nothing is left, and the checkpoint is the new one. *)
Definition finish_load (tokens : list Z) (f : ds4_session tensor -> ds4_session tensor) : lio unit :=
  '(_, st) ← get;
  _ ← check (r_remaining st =? 0) "KV checkpoint has trailing payload bytes";
  modify (fun p => (f ((fst p) <| checkpoint := tokens |>) <| checkpoint_valid := true |> <| mtp_draft_valid := false |>, snd p)).

Definition load_cpu (h : list Z) : lio unit :=
  '(s, _) ← get;
  let cpu_raw_cap := ds4_default_raw_cap (u32 (ctx_size s)) in
  let cpu_comp_cap := session_cpu_comp_cap s in
  _ ← check_header h cpu_raw_cap cpu_raw_cap cpu_comp_cap;
  '(tokens, n_comps, n_indexes) ← read_fixed h (map (fun _ => cpu_comp_cap) layers);
  _ ← modify (fun p => ((fst p) <| checkpoint_valid := false |> <| mtp_draft_valid := false |>, snd p));
  '(s, st) ← get;
  s ← lift (session_cpu_reset_cache s);
  _ ← put (s, st);
  _ ← each (fun q => at_layer (fst q) (read_layer_cpu (nth 12 h 0) (fst (snd q)) (snd (snd q)))) (combine layers (combine n_comps n_indexes));
  finish_load tokens (fun s => s).

(** Reading a span to a tensor. *)
Fixpoint read_span_loop (fuel : nat) (offset n cap from : Z) : io (tensor * rfile) unit :=
  if n <=? from then mret tt
  else
    match fuel with
    | O => fun _ => Error OutOfFuel
    | Datatypes.S fuel =>
        let k := if cap <? n - from then cap else n - from in
        fun '(t, f) =>
          match payload_read_bytes k (replicate (Z.to_nat k) NUL, f) with
          | Error e => Error e
          | Ok ((_, f), Error d) => Ok ((t, f), Error d)
          | Ok ((b, f), Ok _) =>
              match ds4_gpu_tensor_write t (offset + from) b with
              | None => Ok ((t, f), fail "failed to restore Metal session tensor" [])
              | Some t => read_span_loop fuel offset n cap (from + k) (t, f)
              end
          end
    end.

Definition payload_read_tensor_span (offset n cap : Z) : io (option tensor * rfile) unit := fun '(o, f) =>
  if span_outside o offset n then Ok ((o, f), fail "session tensor is smaller than the payload" [])
  else match o with
  | Some t => match read_span_loop (Z.to_nat n) offset n cap 0 (t, f) with Ok ((t, f), r) => Ok ((Some t, f), r) | Error e => Error e end
  | None => Ok ((o, f), Ok tt)
  end.

Definition nth_graph g (il : Z) : layer_graph tensor := nth (Z.to_nat il) (graph_layers g) (LayerGraph 0 0 0 None None None None None None None).

Definition at_graph {A} (il : Z) (m : io (layer_graph tensor * rfile) A) : lio A :=
  zoom (fun p => (nth_graph (graph (fst p)) il, snd p))
    (fun q p => ((fst p) <| graph ::= fun g => g <| graph_layers := <[Z.to_nat il := fst q]> (graph_layers g) |> |>, snd q)) m.

Definition layer_span (from : layer_graph tensor -> option tensor) (into : option tensor -> layer_graph tensor -> layer_graph tensor) (offset n : Z)
    : io (layer_graph tensor * rfile) unit :=
  zoom (fun p => (from (fst p), snd p)) (fun q p => (into (fst q) (fst p), snd q)) (payload_read_tensor_span offset n DS4_SESSION_IO_CHUNK).

Definition read_layer_gpu (ring saved_tokens raw_live il n_comp_ n_index : Z) : io (layer_graph tensor * rfile) unit :=
  let raw_first := u32 (saved_tokens - raw_live) in
  _ ← each (fun r => layer_span layer_raw_cache (fun t l => l <| layer_raw_cache := t |>)
        (u32 (raw_first + r) mod ring * DS4_N_HEAD_DIM * 4) (DS4_N_HEAD_DIM * 4)) (upto raw_live);
  ratio ← lift (ds4_layer_compress_ratio il);
  if ratio =? 0 then mret tt
  else
    _ ← layer_span layer_attn_comp_cache (fun t l => l <| layer_attn_comp_cache := t |>) 0 (n_comp_ * DS4_N_HEAD_DIM * 4);
    _ ← layer_span layer_attn_state_kv (fun t l => l <| layer_attn_state_kv := t |>) 0 (layer_attn_state_bytes ratio);
    _ ← layer_span layer_attn_state_score (fun t l => l <| layer_attn_state_score := t |>) 0 (layer_attn_state_bytes ratio);
    if ratio =? 4 then
      _ ← layer_span layer_index_comp_cache (fun t l => l <| layer_index_comp_cache := t |>) 0 (n_index * DS4_N_INDEXER_HEAD_DIM * 4);
      _ ← layer_span layer_index_state_kv (fun t l => l <| layer_index_state_kv := t |>) 0 (layer_index_state_bytes ratio);
      layer_span layer_index_state_score (fun t l => l <| layer_index_state_score := t |>) 0 (layer_index_state_bytes ratio)
    else mret tt.

(** The counts of rows, and no draft. *)
Definition set_counts (n_comps n_indexes : list Z) s : ds4_session tensor :=
  s <| graph ::= fun g => g <| mtp_n_raw := 0 |> <| graph_layers :=
    zip_with (fun l n => l <| layer_n_comp := fst n |> <| layer_n_index_comp := snd n |>) (graph_layers g) (combine n_comps n_indexes) |> |>.

Definition load_gpu (h : list Z) : lio unit :=
  '(s, _) ← get;
  let g := graph s in
  _ ← check_header h (raw_window g) (graph_raw_cap g) (graph_comp_cap g);
  '(tokens, n_comps, n_indexes) ← read_fixed h (map layer_comp_cap (graph_layers g));
  _ ← lift (xmalloc DS4_SESSION_IO_CHUNK);
  _ ← each (fun q => at_graph (fst q) (read_layer_gpu (graph_raw_cap g) (nth 7 h 0) (nth 12 h 0) (fst q) (fst (snd q)) (snd (snd q))))
        (combine layers (combine n_comps n_indexes));
  finish_load tokens (set_counts n_comps n_indexes).

(** On the session and the file with the payload. *)
Definition load_payload : lio unit :=
  h ← in_file (collect payload_read_u32 (Z.to_nat DS4_SESSION_PAYLOAD_U32_FIELDS));
  _ ← check ((nth 0 h 0 =? DS4_SESSION_PAYLOAD_MAGIC) && (nth 1 h 0 =? DS4_SESSION_PAYLOAD_VERSION)) "unsupported session payload version";
  '(s, _) ← get;
  if ds4_session_is_cpu s then load_cpu h else load_gpu h.

Definition ds4_session_load_payload (payload_bytes : Z) (fp : bytes) s : pres (ds4_session tensor * res unit) :=
  match load_payload (s, RFile fp payload_bytes) with
  | Ok ((s, _), r) => Ok (s, r)
  | Error e => Error e
  end.

(** ** Snapshots *)

Record ds4_session_snapshot := Snapshot { snap_ptr : bytes; snap_len : Z; snap_cap : Z }.

(** [opens] is whether [fmemopen] succeeds; the file has room for the [n] bytes
    of the payload.  What is left of the buffer when an error is returned has
    no model. *)
Definition ds4_session_save_snapshot (sync opens : bool) s (snap : ds4_session_snapshot) : pres (res ds4_session_snapshot) :=
  n <- ds4_session_payload_bytes s ;;
  if n =? 0 then Ok (fail "session has no valid checkpoint to snapshot" [])
  else if (snap_cap snap <? n) && negb (malloc_ok n) then Ok (fail "out of memory while allocating session snapshot" [])
  else
    let cap := if snap_cap snap <? n then n else snap_cap snap in
    if negb opens then Ok (fail "failed to open memory stream for session snapshot" [])
    else
      match ds4_session_save_payload sync s (WFile [] n) with
      | Ok (f, Ok _) => Ok (Ok (Snapshot (w_bytes f) n cap))
      | Ok (_, Error d) => Ok (Error d)
      | Error e => Error e
      end.

Definition ds4_session_load_snapshot (opens : bool) s (snap : ds4_session_snapshot) : pres (ds4_session tensor * res unit) :=
  let n := snap_len snap in
  if n =? 0 then Ok (s, fail "invalid session snapshot load" [])
  else if negb opens then Ok (s, fail "failed to open memory stream for session snapshot restore" [])
  else ds4_session_load_payload n (take (Z.to_nat n) (snap_ptr snap)) s.
End Payload.
