(* ===== verification/SessionPayloadProps.v ===== *)
(** * The payload of a CPU session

    What is written is exactly what [ds4_session_payload_bytes] announces, and
    reading it restores everything that is live. *)
From S2P Require Import Prelude.
From S2P Require Import LittleEndian.
From S2P Require Import SourceFormats.
From S2P Require Import Gguf.
From S2P Require Import Weights.
From S2P Require Import WeightsLayout.
From S2P Require Import Io.
From S2P Require Import Session.
From S2P Require Import SessionPayload.

(** ** What a computation writes and reads *)

(** [m] writes [b]. *)
Definition writes {A} (m : io wfile A) (b : bytes) (a : A) : Prop := forall f, Z.of_nat (length b) <= w_room f ->
  runs m f (WFile (w_bytes f ++ b) (w_room f - Z.of_nat (length b))) a.

(** [m] reads [b], and takes [x] to [y]. *)
Definition reads {X A} (m : io (X * rfile) A) (x : X) (b : bytes) (y : X) (a : A) : Prop := forall rest rem,
  Z.of_nat (length b) <= rem <= UINT64_MAX -> runs m (x, RFile (b ++ rest) rem) (y, RFile rest (rem - Z.of_nat (length b))) a.

Lemma writes_ret {A} (a : A) : writes (mret a) [] a.
Proof. intros f _. unfold runs, mret, io_ret. cbn [length]. rewrite app_nil_r, Z.sub_0_r. by destruct f. Qed.

Lemma writes_bind {A C} (m : io wfile A) (k : A -> io wfile C) (b1 b2 : bytes) (a : A) (c : C) :
  writes m b1 a -> writes (k a) b2 c -> writes (m ≫= k) (b1 ++ b2) c.
Proof.
  intros H1 H2 f Hf. rewrite length_app in *. eapply runs_bind; [apply H1; lia|].
  specialize (H2 (WFile (w_bytes f ++ b1) (w_room f - Z.of_nat (length b1)))). cbn [w_bytes w_room] in H2.
  rewrite app_assoc. replace (w_room f - Z.of_nat (length b1 + length b2)) with (w_room f - Z.of_nat (length b1) - Z.of_nat (length b2)) by lia.
  apply H2. lia.
Qed.

Lemma writes_each {A} (f : A -> io wfile unit) (text : A -> bytes) (l : list A) :
  (forall a, a ∈ l -> writes (f a) (text a) tt) -> writes (each f l) (concat (map text l)) tt.
Proof.
  induction l as [|a l IH]; intros H; cbn [each map concat]; [apply writes_ret|].
  eapply writes_bind; [apply H; by left|apply IH; intros; apply H; by right].
Qed.

Lemma writes_bytes (b : bytes) : writes (payload_write_bytes b) b tt.
Proof. intros f Hf. unfold runs, payload_write_bytes. cbn zeta. by rewrite (proj2 (Z.leb_le _ _)). Qed.

Lemma writes_array (a : bytes) (off n : Z) : 0 <= off -> off + n <= Z.of_nat (length a) -> writes (write_array a off n) (slice a off n) tt.
Proof.
  intros Ho Hn. unfold write_array, array_bytes. rewrite (proj2 (Z.leb_le _ _)) by done.
  apply (writes_bind _ _ [] _ (slice a off n)); [apply writes_ret|apply writes_bytes].
Qed.

Lemma writes_guard (b : bool) (fmt : string) : b = true -> writes (guard b fmt) [] tt.
Proof. intros ->. apply writes_ret. Qed.

Lemma writes_lift {A} (p : pres A) (a : A) : p = Ok a -> writes (lift p) [] a.
Proof. intros -> f Hf. unfold runs, lift. cbn [length]. rewrite app_nil_r, Z.sub_0_r. by destruct f. Qed.

(** A step that writes nothing. *)
Lemma writes_step {A C} (m : io wfile A) (k : A -> io wfile C) (b : bytes) (a : A) (c : C) :
  writes m [] a -> writes (k a) b c -> writes (m ≫= k) b c.
Proof. intros H1 H2. exact (writes_bind m k [] b a c H1 H2). Qed.

Lemma reads_ret {X A} (x : X) (a : A) : reads (mret a) x [] x a.
Proof. intros rest rem _. unfold runs, mret, io_ret. cbn [length app]. by rewrite Z.sub_0_r. Qed.

Lemma reads_bind {X A C} (m : io (X * rfile) A) (k : A -> io (X * rfile) C) (x y z : X) (b1 b2 : bytes) (a : A) (c : C) :
  reads m x b1 y a -> reads (k a) y b2 z c -> reads (m ≫= k) x (b1 ++ b2) z c.
Proof.
  intros H1 H2 rest rem Hr. rewrite length_app in *. rewrite <- app_assoc. eapply runs_bind; [apply H1; lia|].
  replace (rem - Z.of_nat (length b1 + length b2)) with (rem - Z.of_nat (length b1) - Z.of_nat (length b2)) by lia. apply H2. lia.
Qed.

(** A step that reads nothing. *)
Lemma reads_step {X A C} (m : io (X * rfile) A) (k : A -> io (X * rfile) C) (x y z : X) (b : bytes) (a : A) (c : C) :
  reads m x [] y a -> reads (k a) y b z c -> reads (m ≫= k) x b z c.
Proof. intros H1 H2. exact (reads_bind m k x y z [] b a c H1 H2). Qed.

Lemma reads_guard {X} (b : bool) (fmt : string) (x : X) : b = true -> reads (guard b fmt) x [] x tt.
Proof. intros ->. apply reads_ret. Qed.

Lemma reads_eq {X A} (m : io (X * rfile) A) (x y y' : X) (b : bytes) (a : A) : reads m x b y a -> y = y' -> reads m x b y' a.
Proof. by intros ? <-. Qed.

Lemma reads_get {X C} (k : X * rfile -> io (X * rfile) C) (x y : X) (b : bytes) (c : C) :
  (forall st, reads (k (x, st)) x b y c) -> reads (get ≫= k) x b y c.
Proof. intros Hk rest rem Hr. unfold runs, mbind, io_bind, get. by apply Hk. Qed.

Lemma reads_modify {X} (f : X -> X) (x : X) : reads (modify (fun p => (f (fst p), snd p))) x [] (f x) tt.
Proof. intros rest rem _. unfold runs, modify. cbn [length app fst snd]. by rewrite Z.sub_0_r. Qed.

Lemma reads_lift {X A} (p : pres A) (x : X) (a : A) : p = Ok a -> reads (lift p) x [] x a.
Proof. intros -> rest rem _. unfold runs, lift. cbn [length app]. by rewrite Z.sub_0_r. Qed.

Lemma reads_zoom {X Y A} (from : X -> Y) (into : Y -> X -> X) (m : io (Y * rfile) A) (x : X) (b : bytes) (y : Y) (a : A) :
  reads m (from x) b y a ->
  reads (zoom (fun p => (from (fst p), snd p)) (fun q p => (into (fst q) (fst p), snd q)) m) x b (into y x) a.
Proof. intros H rest rem Hr. unfold runs, zoom. cbn [fst snd]. rewrite (H rest rem Hr). reflexivity. Qed.

Lemma reads_bytes (a b : bytes) (n : Z) : Z.of_nat (length b) = n -> (length b <= length a)%nat ->
  reads (payload_read_bytes n) a b (overwrite a b) tt.
Proof.
  intros <- Ha rest rem [Hr1 Hr2]. unfold runs, payload_read_bytes. cbn [r_remaining r_bytes]. rewrite (proj2 (Z.ltb_ge _ _)) by done. cbn zeta.
  rewrite Nat2Z.id, take_app_length, drop_app_length. rewrite !(proj2 (Z.ltb_ge _ _)) by lia. by rewrite u64_small by (split; lia).
Qed.

Lemma get_put_u32 (v : Z) : is_u32 v -> payload_get_u32 (payload_put_u32 v) = v.
Proof.
  intros [H1 H2]. unfold payload_get_u32, payload_put_u32. cbn [nth]. rewrite !Z.shiftr_div_pow2 by lia.
  assert (Hz : forall z, bz (zb z) = z mod 256).
  { intros z. rewrite <- (bz_zb (z mod 256)) by (apply Z.mod_pos_bound; lia). unfold zb. by rewrite Z.mod_mod by lia. }
  rewrite !Hz.
  pose proof (Z.mod_pos_bound v 256 ltac:(lia)). pose proof (Z.mod_pos_bound (v / 2 ^ 8) 256 ltac:(lia)).
  pose proof (Z.mod_pos_bound (v / 2 ^ 16) 256 ltac:(lia)). pose proof (Z.mod_pos_bound (v / 2 ^ 24) 256 ltac:(lia)).
  rewrite !Z.shiftl_mul_pow2 by lia.
  rewrite (Z.lor_comm (v mod 256)), (lor_fields _ 8) by lia.
  rewrite (Z.lor_comm _ (v / 2 ^ 16 mod 256 * 2 ^ 16)), (lor_fields _ 16) by lia.
  rewrite (Z.lor_comm _ (v / 2 ^ 24 mod 256 * 2 ^ 24)), (lor_fields _ 24) by lia.
  pose proof (Z.div_mod v 256 ltac:(lia)). pose proof (Z.div_mod (v / 2 ^ 8) 256 ltac:(lia)).
  pose proof (Z.div_mod (v / 2 ^ 16) 256 ltac:(lia)). pose proof (Z.div_mod (v / 2 ^ 24) 256 ltac:(lia)).
  assert (E1 : v / 2 ^ 16 = v / 2 ^ 8 / 256) by (rewrite Z.div_div by lia; done).
  assert (E2 : v / 2 ^ 24 = v / 2 ^ 16 / 256) by (rewrite Z.div_div by lia; done).
  assert (E3 : v / 2 ^ 24 / 256 = 0).
  { rewrite Z.div_div by lia. apply Z.div_small. unfold UINT32_MAX in *. lia. }
  change (2 ^ 8) with 256 in *. lia.
Qed.

Lemma reads_u32 (v : Z) : is_u32 v -> forall rest rem, 4 <= rem <= UINT64_MAX ->
  payload_read_u32 (RFile (payload_put_u32 v ++ rest) rem) = Ok (RFile rest (rem - 4), Ok v).
Proof.
  intros Hv rest rem [Hr1 Hr2]. unfold payload_read_u32. cbn [r_remaining r_bytes]. rewrite (proj2 (Z.ltb_ge rem 4)) by done.
  rewrite (proj2 (Z.ltb_ge _ _)) by (rewrite length_app; cbn [length payload_put_u32]; lia).
  rewrite u64_small by (split; lia). change (take 4 (payload_put_u32 v ++ rest)) with (payload_put_u32 v). by rewrite get_put_u32.
Qed.

Definition u32_text (l : list Z) : bytes := concat (map payload_put_u32 l).

Lemma u32_text_length (l : list Z) : Z.of_nat (length (u32_text l)) = 4 * Z.of_nat (length l).
Proof. induction l as [|v l IH]; [done|]. unfold u32_text in *. cbn [map concat]. rewrite length_app. cbn [length payload_put_u32]. lia. Qed.

Lemma collect_u32 (l : list Z) : Forall is_u32 l -> forall rest rem, Z.of_nat (length (u32_text l)) <= rem <= UINT64_MAX ->
  collect payload_read_u32 (length l) (RFile (u32_text l ++ rest) rem) = Ok (RFile rest (rem - Z.of_nat (length (u32_text l))), Ok l).
Proof.
  induction 1 as [|v l Hv _ IH]; intros rest rem Hr; cbn [collect length].
  - unfold mret, io_ret. cbn. by rewrite Z.sub_0_r.
  - rewrite u32_text_length in *. cbn [length] in Hr. unfold u32_text in *. cbn [map concat]. rewrite <- app_assoc.
    eapply runs_bind; [apply reads_u32; [done|lia]|]. eapply runs_bind; [apply IH; lia|]. unfold runs, mret, io_ret. cbn [length].
    by replace (rem - 4 - 4 * Z.of_nat (length l)) with (rem - 4 * Z.of_nat (S (length l))) by lia.
Qed.

Section InFile.
Context {tensor : Type}.
Implicit Types (s : ds4_session tensor).

Lemma reads_in_file {A} (m : io rfile A) s (b : bytes) (a : A) :
  (forall rest rem, Z.of_nat (length b) <= rem <= UINT64_MAX -> m (RFile (b ++ rest) rem) = Ok (RFile rest (rem - Z.of_nat (length b)), Ok a)) ->
  reads (in_file m) s b s a.
Proof. intros H rest rem Hr. unfold runs, in_file, zoom. cbn [fst snd]. by rewrite H. Qed.

Lemma reads_u32s s (l : list Z) (n : nat) : Forall is_u32 l -> length l = n -> reads (in_file (collect payload_read_u32 n)) s (u32_text l) s l.
Proof. intros Hl <-. apply reads_in_file. intros rest rem Hr. by apply collect_u32. Qed.

Lemma reads_counts s (saved : Z) (fmt : string) (ns caps : list Z) :
  Forall2 (fun n cap => 0 <= n <= saved /\ n <= cap) ns caps -> saved <= UINT32_MAX ->
  reads (read_counts saved caps fmt) s (u32_text ns) s ns.
Proof.
  intros H Hs. induction H as [|n cap ns caps [[Hn1 Hn2] Hn3] _ IH]; cbn [read_counts]; [apply reads_ret|].
  unfold u32_text. cbn [map concat]. eapply reads_bind.
  - unfold read_count. rewrite <- (app_nil_r (payload_put_u32 n)). eapply reads_bind.
    { apply reads_in_file. intros rest rem Hr. apply reads_u32; [split; lia|]. exact Hr. }
    rewrite !(proj2 (Z.ltb_ge _ _)) by lia. eapply reads_step; [by apply reads_guard|apply reads_ret].
  - rewrite <- (app_nil_r (concat _)). eapply reads_bind; [exact IH|apply reads_ret].
Qed.

End InFile.

(** ** The text of a CPU session *)

(** What a layer writes, in order. *)
Definition layer_live (raw_live : Z) (l : ds4_layer_cache) : list bytes :=
  let ratio := compress_ratio l in
  slice (raw_kv l) ((n_raw l - raw_live) * DS4_N_HEAD_DIM * 4) (raw_live * DS4_N_HEAD_DIM * 4) ::
  if ratio =? 0 then []
  else
    [slice (attn_comp_kv l) 0 (n_comp l * DS4_N_HEAD_DIM * 4); slice (attn_state_kv l) 0 (layer_attn_state_bytes ratio);
     slice (attn_state_score l) 0 (layer_attn_state_bytes ratio)] ++
    if ratio =? 4 then
      [slice (index_comp_kv l) 0 (n_index_comp l * DS4_N_INDEXER_HEAD_DIM * 4); slice (index_state_kv l) 0 (layer_index_state_bytes ratio);
       slice (index_state_score l) 0 (layer_index_state_bytes ratio)]
    else [].

Definition fixed_text (header tokens : list Z) (logits_ : bytes) (n_comps n_indexes : list Z) : bytes :=
  u32_text header ++ u32_text (map u32 tokens) ++ slice logits_ 0 (DS4_N_VOCAB * 4) ++ u32_text n_comps ++ u32_text n_indexes.

Definition cpu_text {tensor : Type} (s : ds4_session tensor) : bytes :=
  fixed_text (cpu_header s) (checkpoint s) (logits s) (map n_comp (cpu_cache s)) (map n_index_comp (cpu_cache s)) ++
  concat (map (fun l => concat (layer_live (session_cpu_raw_live_rows s) l)) (cpu_cache s)).

(** ** Well-formed CPU sessions *)

(** The arrays of a layer have the sizes of [kv_cache_init], and its counts are
    inside of them. *)
Record layer_wf (ctx : Z) (il : Z) (l : ds4_layer_cache) : Prop := {
  lw_ratio : compress_ratio l = ratio_of il;
  lw_cap : cap_raw l = ds4_default_raw_cap ctx;
  lw_raw : Z.of_nat (length (raw_kv l)) = cap_raw l * DS4_N_HEAD_DIM * 4;
  lw_n_raw : 0 <= n_raw l <= cap_raw l;
  lw_comp_cap : comp_cap l = if ratio_of il =? 0 then 0 else ctx / ratio_of il + 2;
  lw_n_comp : 0 <= n_comp l <= comp_cap l;
  lw_n_index : 0 <= n_index_comp l <= comp_cap l;
  lw_comp : Z.of_nat (length (attn_comp_kv l)) = comp_cap l * DS4_N_HEAD_DIM * 4;
  lw_state : Z.of_nat (length (attn_state_kv l)) = layer_attn_state_bytes (ratio_of il) /\
    Z.of_nat (length (attn_state_score l)) = layer_attn_state_bytes (ratio_of il);
  lw_index : ratio_of il = 4 -> Z.of_nat (length (index_comp_kv l)) = comp_cap l * DS4_N_INDEXER_HEAD_DIM * 4 /\
    Z.of_nat (length (index_state_kv l)) = layer_index_state_bytes 4 /\ Z.of_nat (length (index_state_score l)) = layer_index_state_bytes 4
}.

Record cpu_wf {tensor : Type} (s : ds4_session tensor) : Prop := {
  cw_cpu : backend s = DS4_BACKEND_CPU;
  cw_ctx : 0 < ctx_size s <= INT_MAX;
  cw_prefill : is_u32 (prefill_cap s);
  cw_logits : Z.of_nat (length (logits s)) = DS4_N_VOCAB * 4;
  cw_tokens : Forall is_int (checkpoint s);
  cw_len : checkpoint_len s < ctx_size s;
  cw_layers : Forall2 (layer_wf (ctx_size s)) layers (cpu_cache s)
}.

(** The caches hold the rows of the checkpoint. *)
Definition cached {tensor : Type} (s : ds4_session tensor) : Prop :=
  checkpoint_valid s = true /\ Forall (fun l => session_cpu_raw_live_rows s <= n_raw l) (cpu_cache s).

Lemma raw_cap_range (ctx : Z) : 0 < ctx -> 0 < ds4_default_raw_cap ctx <= DS4_N_SWA.
Proof.
  intros H. unfold ds4_default_raw_cap, DS4_N_SWA. destruct (Z.ltb_spec ctx 128); cbn zeta.
  - destruct (Z.eqb_spec ctx 0); lia.
  - cbn. lia.
Qed.

(** Computes the fields of the updated records in a goal about reading. *)
Ltac compute_layer t :=
  eval cbv beta iota zeta delta [set_field raw_kv n_raw cap_raw compress_ratio comp_cap n_comp attn_comp_kv attn_state_kv attn_state_score n_index_comp
    index_comp_kv index_state_kv index_state_score fst snd] in t.
Ltac compute_state :=
  lazymatch goal with |- reads ?m ?x ?b ?y ?a => let x' := compute_layer x in let y' := compute_layer y in change (reads m x' b y' a) end.
Ltac layer_cbn := cbn [raw_kv n_raw cap_raw compress_ratio comp_cap n_comp attn_comp_kv attn_state_kv attn_state_score n_index_comp
  index_comp_kv index_state_kv index_state_score].
Ltac layer_cbn_all := cbn [raw_kv n_raw cap_raw compress_ratio comp_cap n_comp attn_comp_kv attn_state_kv attn_state_score n_index_comp
  index_comp_kv index_state_kv index_state_score] in *.

Section Cpu.
Context {tensor : Type} `{TensorOps tensor}.
Implicit Types (s : ds4_session tensor).

Lemma cpu_live_range s : cpu_wf s -> 0 <= session_cpu_raw_live_rows s <= ds4_default_raw_cap (ctx_size s) /\
  session_cpu_raw_live_rows s <= checkpoint_len s.
Proof.
  intros [_ Hc _ _ _ Hl _]. unfold session_cpu_raw_live_rows. pose proof (raw_cap_range (ctx_size s) (proj1 Hc)).
  assert (Hn : 0 <= checkpoint_len s) by (unfold checkpoint_len; lia).
  destruct (checkpoint_valid s); cbn [negb]; [|lia]. cbn zeta. unfold INT_MAX in *. rewrite !u32_small by zlia.
  destruct (Z.ltb_spec (checkpoint_len s) (ds4_default_raw_cap (ctx_size s))); lia.
Qed.

Lemma write_layer (ctx raw_live il : Z) (l : ds4_layer_cache) : layer_wf ctx il l -> 0 <= raw_live <= n_raw l ->
  writes (write_layer_cpu raw_live l) (concat (layer_live raw_live l)) tt.
Proof.
  intros [Hr Hcap Hraw Hn _ Hnc Hni Hcomp [Hs1 Hs2] Hix] Hl. unfold write_layer_cpu, layer_live. rewrite Hr. cbn zeta.
  unfold DS4_N_HEAD_DIM, DS4_N_INDEXER_HEAD_DIM in *.
  eapply writes_step; [apply writes_guard, Z.leb_le; lia|].
  cbn [concat]. eapply writes_bind; [apply writes_array; lia|].
  destruct (Z.eqb_spec (ratio_of il) 0) as [E|E]; [apply writes_ret|]. cbn [concat app].
  eapply writes_bind; [apply writes_array; lia|]. eapply writes_bind; [apply writes_array; lia|].
  eapply writes_bind; [apply writes_array; lia|].
  destruct (Z.eqb_spec (ratio_of il) 4) as [E4|]; [|apply writes_ret]. destruct (Hix E4) as (H1 & H2 & H3). rewrite E4 in *.
  cbn [concat app]. eapply writes_bind; [apply writes_array; lia|]. eapply writes_bind; [apply writes_array; lia|].
  rewrite app_nil_r. apply writes_array; lia.
Qed.

Lemma write_fixed_text (header tokens : list Z) (l : bytes) (ncs nis : list Z) : Z.of_nat (length l) = DS4_N_VOCAB * 4 ->
  writes (write_fixed header tokens l ncs nis) (fixed_text header tokens l ncs nis) tt.
Proof.
  intros Hl. unfold write_fixed, fixed_text, u32_text. rewrite map_map.
  assert (H1 : forall l, writes (each payload_write_u32 l) (concat (map payload_put_u32 l)) tt)
    by (intros; apply writes_each; intros; apply writes_bytes).
  eapply writes_bind; [apply H1|]. eapply writes_bind; [apply writes_each; intros; apply writes_bytes|].
  eapply writes_bind; [apply writes_array; lia|]. eapply writes_bind; apply H1.
Qed.

Lemma save_cpu_text s : cpu_wf s -> cached s -> writes (save_cpu s) (cpu_text s) tt.
Proof.
  intros Hw [Hv Hc]. unfold save_cpu, cpu_text. eapply writes_bind; [apply write_fixed_text, Hw|].
  apply writes_each. intros l Hl. pose proof (cw_layers s Hw) as Hls. apply list_elem_of_lookup in Hl as [k Hk].
  destruct (Forall2_lookup_r _ _ _ _ _ Hls Hk) as (il & _ & Hlw). rewrite Forall_forall in Hc.
  eapply write_layer; [exact Hlw|]. split; [apply cpu_live_range, Hw|]. apply Hc. by eapply list_elem_of_lookup_2.
Qed.

(** ** Its length *)

Lemma slice_in_length (a : bytes) (off n : Z) : 0 <= off -> 0 <= n -> off + n <= Z.of_nat (length a) -> Z.of_nat (length (slice a off n)) = n.
Proof. intros H1 H2 H3. unfold slice. rewrite length_take, length_drop. lia. Qed.

(** The bytes of a layer without the wrap-around. *)
Definition live_size (raw_live ratio n_comp_ n_index : Z) : Z :=
  raw_live * DS4_N_HEAD_DIM * 4 +
  if ratio =? 0 then 0
  else n_comp_ * DS4_N_HEAD_DIM * 4 + 2 * layer_attn_state_bytes ratio +
    if ratio =? 4 then n_index * DS4_N_INDEXER_HEAD_DIM * 4 + 2 * layer_index_state_bytes ratio else 0.

Lemma live_size_bound (raw_live il n_comp_ n_index : Z) : 0 <= raw_live <= 2 ^ 32 -> 0 <= n_comp_ <= 2 ^ 32 -> 0 <= n_index <= 2 ^ 32 ->
  0 <= live_size raw_live (ratio_of il) n_comp_ n_index <= 2 ^ 46.
Proof.
  intros H1 H2 H3. unfold live_size, DS4_N_HEAD_DIM, DS4_N_INDEXER_HEAD_DIM.
  assert (Ha : 0 <= layer_attn_state_bytes (ratio_of il) <= 2 ^ 20 /\ 0 <= layer_index_state_bytes (ratio_of il) <= 2 ^ 20).
  { destruct (ratio_cases il) as [->|[->| ->]]; vm_compute; split_and!; discriminate. }
  destruct (ratio_of il =? 0), (ratio_of il =? 4); lia.
Qed.

Lemma live_layer_exact (raw_live il n_comp_ n_index b : Z) : 0 <= raw_live <= 2 ^ 32 -> 0 <= n_comp_ <= 2 ^ 32 -> 0 <= n_index <= 2 ^ 32 ->
  0 <= b <= 2 ^ 60 -> live_layer_bytes raw_live (ratio_of il) n_comp_ n_index b = b + live_size raw_live (ratio_of il) n_comp_ n_index.
Proof.
  intros H1 H2 H3 Hb. unfold live_layer_bytes, live_size, DS4_N_HEAD_DIM, DS4_N_INDEXER_HEAD_DIM.
  assert (Ha : 0 <= layer_attn_state_bytes (ratio_of il) <= 2 ^ 20 /\ 0 <= layer_index_state_bytes (ratio_of il) <= 2 ^ 20).
  { destruct (ratio_cases il) as [->|[->| ->]]; vm_compute; split_and!; discriminate. }
  set (A := layer_attn_state_bytes (ratio_of il)) in *. set (I := layer_index_state_bytes (ratio_of il)) in *. clearbody A I.
  cbn zeta. rewrite (u64_small (b + raw_live * 512 * 4)) by zlia. destruct (ratio_of il =? 0); [lia|].
  rewrite (u64_small (_ + n_comp_ * 512 * 4)) by zlia. rewrite (u64_small (b + raw_live * 512 * 4 + n_comp_ * 512 * 4 + A)) by zlia.
  rewrite (u64_small (b + raw_live * 512 * 4 + n_comp_ * 512 * 4 + A + A)) by zlia. destruct (ratio_of il =? 4); [|lia].
  rewrite (u64_small (_ + n_index * 128 * 4)) by zlia.
  rewrite (u64_small (b + raw_live * 512 * 4 + n_comp_ * 512 * 4 + A + A + n_index * 128 * 4 + I)) by zlia. rewrite u64_small by zlia. lia.
Qed.

Lemma layer_live_length (ctx raw_live il : Z) (l : ds4_layer_cache) : layer_wf ctx il l -> 0 <= raw_live <= n_raw l ->
  Z.of_nat (length (concat (layer_live raw_live l))) = live_size raw_live (compress_ratio l) (n_comp l) (n_index_comp l).
Proof.
  intros [Hr Hcap Hraw Hn _ Hnc Hni Hcomp [Hs1 Hs2] Hix] Hl. unfold layer_live, live_size. rewrite Hr. cbn zeta.
  unfold DS4_N_HEAD_DIM, DS4_N_INDEXER_HEAD_DIM in *. cbn [concat]. rewrite length_app, Nat2Z.inj_add, slice_in_length by lia. f_equal.
  destruct (Z.eqb_spec (ratio_of il) 0) as [E|E]; [done|]. cbn [concat app]. rewrite !length_app, !Nat2Z.inj_add, !slice_in_length by lia.
  destruct (Z.eqb_spec (ratio_of il) 4) as [E4|]; [|cbn; lia]. destruct (Hix E4) as (H1 & H2 & H3). rewrite E4 in *. cbn [concat].
  rewrite !length_app, !Nat2Z.inj_add, !slice_in_length by lia. cbn [length]. lia.
Qed.

Lemma foldl_live (ctx raw_live : Z) (ils : list Z) (ls : list ds4_layer_cache) : 0 < ctx <= INT_MAX -> 0 <= raw_live <= 2 ^ 32 ->
  Forall2 (layer_wf ctx) ils ls -> Forall (fun l => raw_live <= n_raw l) ls -> forall b, 0 <= b -> b + Z.of_nat (length ls) * 2 ^ 46 <= 2 ^ 60 ->
  foldl (fun b l => live_layer_bytes raw_live (compress_ratio l) (n_comp l) (n_index_comp l) b) b ls =
    b + Z.of_nat (length (concat (map (fun l => concat (layer_live raw_live l)) ls))) /\
  Z.of_nat (length (concat (map (fun l => concat (layer_live raw_live l)) ls))) <= Z.of_nat (length ls) * 2 ^ 46.
Proof.
  intros Hc Hraw Hw. induction Hw as [|il l ils ls Hl _ IH]; intros Hf b Hb Hbb; cbn [foldl map concat]; [cbn; lia|].
  apply Forall_cons in Hf as [Hn Hf]. cbn [length] in Hbb. rewrite Nat2Z.inj_succ in Hbb.
  pose proof Hl as [Hr _ _ _ Hcc Hnc Hni _ _ _].
  assert (Hcap : comp_cap l <= 2 ^ 32).
  { rewrite Hcc. destruct (ratio_cases il) as [->|[->| ->]]; cbn [Z.eqb Pos.eqb]; [lia| |];
      (assert (ctx / 4 <= ctx /\ ctx / 128 <= ctx) by (split; apply Z.div_le_upper_bound; lia); unfold INT_MAX in *; lia). }
  rewrite Hr, live_layer_exact by lia. pose proof (live_size_bound raw_live il (n_comp l) (n_index_comp l) Hraw ltac:(lia) ltac:(lia)).
  destruct (IH Hf (b + live_size raw_live (ratio_of il) (n_comp l) (n_index_comp l)) ltac:(lia) ltac:(lia)) as [E Hle]. rewrite E.
  rewrite length_app, Nat2Z.inj_add, (layer_live_length ctx raw_live il l Hl) by lia. rewrite Hr. cbn [length]. rewrite Nat2Z.inj_succ. lia.
Qed.

Lemma fixed_text_length (header tokens : list Z) (l : bytes) (ncs nis : list Z) : Z.of_nat (length l) = DS4_N_VOCAB * 4 ->
  Z.of_nat (length (fixed_text header tokens l ncs nis)) =
    4 * Z.of_nat (length header) + 4 * Z.of_nat (length tokens) + DS4_N_VOCAB * 4 + 4 * Z.of_nat (length ncs) + 4 * Z.of_nat (length nis).
Proof.
  intros Hl. unfold fixed_text. rewrite !length_app, !Nat2Z.inj_add, !u32_text_length, length_map, slice_in_length by lia. lia.
Qed.

Lemma fixed_exact (len : Z) : 0 <= len <= INT_MAX ->
  payload_fixed_bytes len = 4 * 13 + 4 * len + DS4_N_VOCAB * 4 + 4 * DS4_N_LAYER + 4 * DS4_N_LAYER.
Proof.
  intros Hl. unfold payload_fixed_bytes, DS4_SESSION_PAYLOAD_U32_FIELDS, DS4_N_VOCAB, DS4_N_LAYER, INT_MAX in *.
  rewrite (u64_small (13 * 4 + len * 4)) by zlia.
  rewrite (u64_small (13 * 4 + len * 4 + 129280 * 4)) by zlia. rewrite (u64_small (13 * 4 + len * 4 + 129280 * 4 + 43 * 4)) by zlia. rewrite u64_small by zlia. lia.
Qed.

Lemma cpu_text_length s : cpu_wf s -> cached s -> ds4_session_payload_bytes s = Ok (Z.of_nat (length (cpu_text s))).
Proof.
  intros Hw [Hv Hc]. pose proof Hw as [Hcpu Hctx _ Hlog _ Hlen Hls]. pose proof (cpu_live_range s Hw) as [Hr1 Hr2].
  pose proof (raw_cap_range (ctx_size s) (proj1 Hctx)) as Hcap. unfold DS4_N_SWA in Hcap.
  unfold ds4_session_payload_bytes, ds4_session_is_cpu. rewrite Hv, Hcpu. cbn [negb]. f_equal. unfold session_cpu_payload_live_tensor_bytes.
  pose proof (Forall2_length _ _ _ Hls) as Hn. change (length layers) with 43%nat in Hn.
  destruct (foldl_live (ctx_size s) (session_cpu_raw_live_rows s) layers (cpu_cache s) Hctx ltac:(lia) Hls Hc 0 ltac:(lia) ltac:(lia)) as [E Hle].
  rewrite E, Z.add_0_l, fixed_exact by (unfold checkpoint_len in *; lia).
  unfold cpu_text. rewrite length_app, Nat2Z.inj_add, fixed_text_length by done. rewrite !length_map, <- Hn. rewrite <- Hn in Hle.
  change (length (cpu_header s)) with 13%nat. unfold checkpoint_len, DS4_N_VOCAB, DS4_N_LAYER, INT_MAX in *. rewrite u64_small by zlia. lia.
Qed.

(** ** Reading a layer *)

Lemma overwrite_same_length (a b : bytes) : (length b <= length a)%nat -> length (overwrite a b) = length a.
Proof. intros Hl. unfold overwrite. rewrite length_app, length_drop. lia. Qed.

Lemma overwrite_slice (a b : bytes) (n : Z) : Z.of_nat (length b) = n -> slice (overwrite a b) 0 n = b.
Proof. intros <-. unfold slice, overwrite. rewrite Nat2Z.id. cbn [Z.to_nat]. rewrite drop_0. apply take_app_length. Qed.

(** The fresh layer [l0] with the live rows of [l1]. *)
Definition restore_layer (raw_live : Z) (l1 l0 : ds4_layer_cache) : ds4_layer_cache :=
  let ratio := compress_ratio l0 in
  let l := l0 <| raw_kv ::= fun a => overwrite a (slice (raw_kv l1) ((n_raw l1 - raw_live) * DS4_N_HEAD_DIM * 4) (raw_live * DS4_N_HEAD_DIM * 4)) |>
    <| n_raw := raw_live |> in
  if ratio =? 0 then l
  else
    let l := l <| n_comp := n_comp l1 |> <| n_index_comp := n_index_comp l1 |>
      <| attn_comp_kv ::= fun a => overwrite a (slice (attn_comp_kv l1) 0 (n_comp l1 * DS4_N_HEAD_DIM * 4)) |>
      <| attn_state_kv ::= fun a => overwrite a (slice (attn_state_kv l1) 0 (layer_attn_state_bytes ratio)) |>
      <| attn_state_score ::= fun a => overwrite a (slice (attn_state_score l1) 0 (layer_attn_state_bytes ratio)) |> in
    if ratio =? 4 then
      l <| index_comp_kv ::= fun a => overwrite a (slice (index_comp_kv l1) 0 (n_index_comp l1 * DS4_N_INDEXER_HEAD_DIM * 4)) |>
        <| index_state_kv ::= fun a => overwrite a (slice (index_state_kv l1) 0 (layer_index_state_bytes ratio)) |>
        <| index_state_score ::= fun a => overwrite a (slice (index_state_score l1) 0 (layer_index_state_bytes ratio)) |>
    else l.

(** The rows of [l1] fit in [l0]. *)
Record fits (raw_live il ctx1 ctx0 : Z) (l1 l0 : ds4_layer_cache) : Prop := {
  ft_source : layer_wf ctx1 il l1;
  ft_target : layer_wf ctx0 il l0;
  ft_live : 0 <= raw_live <= n_raw l1 /\ raw_live <= cap_raw l0;
  ft_comp : comp_cap l1 <= comp_cap l0
}.

Lemma reads_array (from : ds4_layer_cache -> bytes) (into : bytes -> ds4_layer_cache -> ds4_layer_cache) (n : Z) (l : ds4_layer_cache) (b : bytes) :
  Z.of_nat (length b) = n -> n <= Z.of_nat (length (from l)) -> reads (layer_array from into n) l b (into (overwrite (from l) b) l) tt.
Proof. intros Hn Hl. unfold layer_array. apply reads_zoom, reads_bytes; [done|lia]. Qed.

Ltac read_step := eapply reads_bind; [apply reads_array; [apply slice_in_length; lia|layer_cbn; lia]|compute_state].

Lemma reads_layer (raw_live il ctx1 ctx0 : Z) (l1 l0 : ds4_layer_cache) : fits raw_live il ctx1 ctx0 l1 l0 ->
  reads (read_layer_cpu raw_live (n_comp l1) (n_index_comp l1)) l0 (concat (layer_live raw_live l1)) (restore_layer raw_live l1 l0) tt.
Proof.
  intros [[Hr1 _ Hraw1 Hn1 _ Hc1 Hi1 Hcomp1 [Hs1 Hs1'] Hx1] [Hr0 _ Hraw0 _ _ _ _ Hcomp0 [Hs0 Hs0'] Hx0] [Hl Hl'] Hcc].
  destruct l0 as [a0 b0 c0 ra d0 e0 f0 g0 h0 i0 j0 k0 m0].
  cbn [raw_kv n_raw cap_raw compress_ratio comp_cap n_comp attn_comp_kv attn_state_kv attn_state_score n_index_comp
    index_comp_kv index_state_kv index_state_score] in *. subst ra.
  unfold read_layer_cpu, layer_live. rewrite Hr1. cbn zeta. unfold DS4_N_HEAD_DIM, DS4_N_INDEXER_HEAD_DIM in *. cbn [concat].
  unfold restore_layer. compute_state.
  read_step. eapply reads_step; [apply reads_modify|compute_state]. apply reads_get. intros st. cbn beta iota. cbn [compress_ratio].
  destruct (Z.eqb_spec (ratio_of il) 0) as [E|E]; [apply reads_ret|]. cbn [concat app]. 
  eapply reads_step; [apply reads_modify|compute_state]. read_step. read_step. read_step.
  destruct (Z.eqb_spec (ratio_of il) 4) as [E4|]; [|apply reads_ret]. destruct (Hx1 E4) as (H1 & H2 & H3). destruct (Hx0 E4) as (H4 & H5 & H6).
  rewrite E4 in *. cbn [concat app]. read_step. read_step.
  rewrite app_nil_r. eapply reads_eq; [apply reads_array; [apply slice_in_length; lia|layer_cbn; lia]|reflexivity].
Qed.

(** What a restored layer has live is what was saved, and it is well formed. *)
Lemma restored_live (raw_live il ctx1 ctx0 : Z) (l1 l0 : ds4_layer_cache) : fits raw_live il ctx1 ctx0 l1 l0 ->
  n_comp l0 = 0 -> n_index_comp l0 = 0 ->
  let l := restore_layer raw_live l1 l0 in
  layer_wf ctx0 il l /\ n_raw l = raw_live /\ n_comp l = n_comp l1 /\ n_index_comp l = n_index_comp l1 /\
  layer_live raw_live l = layer_live raw_live l1.
Proof.
  intros [[Hr1 _ Hraw1 Hn1 Hcap1 Hc1 Hi1 Hcomp1 [Hs1 Hs1'] Hx1] [Hr0 Hcr Hraw0 Hn0 Hcap0 Hc0 Hi0 Hcomp0 [Hs0 Hs0'] Hx0] [Hl Hl'] Hcc] Hz1 Hz2.
  assert (Hlen : forall a b n k, Z.of_nat (length b) = n -> Z.of_nat (length a) = k -> n <= k -> Z.of_nat (length (overwrite a b)) = k)
    by (intros; rewrite overwrite_same_length; lia).
  destruct l0 as [a0 b0 c0 ra d0 e0 f0 g0 h0 i0 j0 k0 m0], l1 as [a1 b1 c1 r1 d1 e1 f1 g1 h1 i1 j1 k1 m1]. layer_cbn_all. subst ra r1 e0 i0.
  unfold restore_layer. unfold DS4_N_HEAD_DIM, DS4_N_INDEXER_HEAD_DIM in *. cbv zeta.
  match goal with |- context [layer_wf _ _ ?l] => let l' := compute_layer l in change l with l' end.
  assert (Eraw : slice (overwrite a0 (slice a1 ((b1 - raw_live) * 512 * 4) (raw_live * 512 * 4))) ((raw_live - raw_live) * 512 * 4) (raw_live * 512 * 4) =
    slice a1 ((b1 - raw_live) * 512 * 4) (raw_live * 512 * 4)) by (rewrite Z.sub_diag; apply overwrite_slice, slice_in_length; lia).
  unfold layer_live. destruct (ratio_cases il) as [Er|[Er|Er]]; rewrite Er in *; cbn [Z.eqb Pos.eqb] in *; layer_cbn; cbn [Z.eqb Pos.eqb]; cbv zeta.
  - split; [|split_and!; try done; try lia; unfold DS4_N_HEAD_DIM; by rewrite Eraw].
    constructor; layer_cbn; rewrite ?Er; unfold DS4_N_HEAD_DIM, DS4_N_INDEXER_HEAD_DIM; cbn [Z.eqb Pos.eqb]; try done; try lia. eapply Hlen; [apply slice_in_length; lia|done|lia].
  - destruct (Hx1 eq_refl) as (H1 & H2 & H3). destruct (Hx0 eq_refl) as (H4 & H5 & H6).
    split; [|split_and!; try done; unfold DS4_N_HEAD_DIM, DS4_N_INDEXER_HEAD_DIM; rewrite Eraw, !overwrite_slice by (apply slice_in_length; lia); done].
    constructor; layer_cbn; rewrite ?Er; unfold DS4_N_HEAD_DIM, DS4_N_INDEXER_HEAD_DIM; cbn [Z.eqb Pos.eqb]; try done; try lia; intros; try split_and!;
      (eapply Hlen; [apply slice_in_length; lia|done|lia]).
  - split; [|split_and!; try done; unfold DS4_N_HEAD_DIM, DS4_N_INDEXER_HEAD_DIM; rewrite Eraw, !overwrite_slice by (apply slice_in_length; lia); done].
    constructor; layer_cbn; rewrite ?Er; unfold DS4_N_HEAD_DIM, DS4_N_INDEXER_HEAD_DIM; cbn [Z.eqb Pos.eqb]; try done; try lia; intros; try split_and!;
      (eapply Hlen; [apply slice_in_length; lia|done|lia]).
Qed.

(** ** The fresh cache *)

Lemma zeros_length (n : Z) : 0 <= n -> Z.of_nat (length (zeros n)) = n * 4.
Proof. intros Hn. unfold zeros. rewrite length_replicate. lia. Qed.

Lemma floats_length (n : Z) (f : bytes) : 0 <= n -> length f = 4%nat -> Z.of_nat (length (floats n f)) = n * 4.
Proof.
  intros Hn Hf. unfold floats. assert (E : forall k, length (concat (replicate k f)) = (4 * k)%nat).
  { induction k as [|k IH]; cbn [replicate concat]; [done|]. rewrite length_app, IH. lia. }
  rewrite E. lia.
Qed.

Definition init_4 (raw_cap cap : Z) : ds4_layer_cache :=
  LayerCache (zeros (raw_cap * DS4_N_HEAD_DIM)) 0 raw_cap 4 cap 0 (zeros (cap * DS4_N_HEAD_DIM)) (zeros (2 * DS4_N_HEAD_DIM * (2 * 4)))
    (floats (2 * DS4_N_HEAD_DIM * (2 * 4)) DS4_NEG_INF_BYTES) 0 (zeros (cap * DS4_N_INDEXER_HEAD_DIM)) (zeros (2 * DS4_N_INDEXER_HEAD_DIM * (2 * 4)))
    (floats (2 * DS4_N_INDEXER_HEAD_DIM * (2 * 4)) DS4_NEG_INF_BYTES).
Definition init_128 (raw_cap cap : Z) : ds4_layer_cache :=
  LayerCache (zeros (raw_cap * DS4_N_HEAD_DIM)) 0 raw_cap 128 cap 0 (zeros (cap * DS4_N_HEAD_DIM)) (zeros (1 * DS4_N_HEAD_DIM * (1 * 128)))
    (floats (1 * DS4_N_HEAD_DIM * (1 * 128)) DS4_NEG_INF_BYTES) 0 [] [] [].

Lemma init_4_eq (ctx raw_cap : Z) : layer_init ctx raw_cap 4 = init_4 raw_cap (u32 (ctx / 4 + 2)).
Proof. reflexivity. Qed.
Lemma init_128_eq (ctx raw_cap : Z) : layer_init ctx raw_cap 128 = init_128 raw_cap (u32 (ctx / 128 + 2)).
Proof. reflexivity. Qed.

Lemma comp_cap_range (ctx r : Z) : 0 < ctx <= INT_MAX -> r = 4 \/ r = 128 -> u32 (ctx / r + 2) = ctx / r + 2 /\ 0 <= ctx / r <= ctx.
Proof.
  intros Hc Hr. unfold INT_MAX in Hc. assert (0 <= ctx / r <= ctx) by (split; [apply Z.div_pos; lia|apply Z.div_le_upper_bound; lia]).
  split; [apply u32_small; zlia|done].
Qed.

Lemma init_4_wf (ctx il cap : Z) : ratio_of il = 4 -> 0 < ctx -> cap = ctx / 4 + 2 -> 0 <= cap -> layer_wf ctx il (init_4 (ds4_default_raw_cap ctx) cap).
Proof.
  intros Er Hc E Hcap. pose proof (raw_cap_range ctx Hc) as Hr. unfold init_4.
  constructor; layer_cbn; rewrite ?Er; cbn [Z.eqb Pos.eqb].
  - reflexivity.
  - reflexivity.
  - unfold DS4_N_HEAD_DIM. apply zeros_length. lia.
  - lia.
  - exact E.
  - lia.
  - lia.
  - unfold DS4_N_HEAD_DIM. apply zeros_length. lia.
  - split; [apply (zeros_length 8192)|apply (floats_length 8192)]; [lia|lia|reflexivity].
  - intros _. unfold DS4_N_INDEXER_HEAD_DIM. split_and!; [apply zeros_length; lia|apply (zeros_length 2048); lia|apply (floats_length 2048); [lia|reflexivity]].
Qed.

Lemma init_128_wf (ctx il cap : Z) : ratio_of il = 128 -> 0 < ctx -> cap = ctx / 128 + 2 -> 0 <= cap ->
  layer_wf ctx il (init_128 (ds4_default_raw_cap ctx) cap).
Proof.
  intros Er Hc E Hcap. pose proof (raw_cap_range ctx Hc) as Hr. unfold init_128.
  constructor; layer_cbn; rewrite ?Er; cbn [Z.eqb Pos.eqb].
  - reflexivity.
  - reflexivity.
  - unfold DS4_N_HEAD_DIM. apply zeros_length. lia.
  - lia.
  - exact E.
  - lia.
  - lia.
  - unfold DS4_N_HEAD_DIM. apply zeros_length. lia.
  - split; [apply (zeros_length 65536)|apply (floats_length 65536)]; [lia|lia|reflexivity].
  - intros E4. discriminate.
Qed.

Lemma init_wf (ctx il : Z) : 0 < ctx <= INT_MAX -> layer_wf ctx il (layer_init ctx (ds4_default_raw_cap ctx) (ratio_of il)) /\
  n_comp (layer_init ctx (ds4_default_raw_cap ctx) (ratio_of il)) = 0 /\ n_index_comp (layer_init ctx (ds4_default_raw_cap ctx) (ratio_of il)) = 0.
Proof.
  intros Hc. pose proof (raw_cap_range ctx (proj1 Hc)) as Hr.
  destruct (ratio_cases il) as [Er|[Er|Er]].
  - rewrite Er. unfold layer_init. cbv zeta. cbn [Z.eqb]. layer_cbn. split; [|by split].
    constructor; layer_cbn; rewrite ?Er; cbn [Z.eqb]; [reflexivity|reflexivity|unfold DS4_N_HEAD_DIM; apply zeros_length; lia|lia|reflexivity|lia|lia|reflexivity|by split|discriminate].
  - rewrite Er, init_4_eq. destruct (comp_cap_range ctx 4 Hc ltac:(by left)) as [E P]. rewrite E.
    split; [apply init_4_wf; lia || done|by split].
  - rewrite Er, init_128_eq. destruct (comp_cap_range ctx 128 Hc ltac:(by right)) as [E P]. rewrite E.
    split; [apply init_128_wf; lia || done|by split].
Qed.

Lemma ratio_of_layer (il : Z) : il ∈ layers -> ds4_layer_compress_ratio il = Ok (ratio_of il).
Proof. apply ratio_spec. Qed.

Definition fresh (ctx : Z) : list ds4_layer_cache := map (fun il => layer_init ctx (ds4_default_raw_cap ctx) (ratio_of il)) layers.

Lemma kv_cache_fresh (ctx : Z) : 0 < ctx <= INT_MAX -> kv_cache_init ctx 0 = Ok (fresh ctx).
Proof.
  intros Hc. pose proof (raw_cap_range ctx (proj1 Hc)) as Hr. unfold kv_cache_init. cbn [Z.eqb]. cbv zeta.
  assert (Hle : ds4_default_raw_cap ctx <= ctx).
  { unfold ds4_default_raw_cap, DS4_N_SWA. destruct (Z.ltb_spec ctx 128); cbv zeta; [destruct (Z.eqb_spec ctx 0); lia|cbn; lia]. }
  rewrite (proj2 (Z.ltb_ge _ _)) by lia. rewrite (proj2 (Z.eqb_neq _ _)) by lia.
  apply mapM_res_ok. intros il Hil. by rewrite ratio_spec.
Qed.

(** ** The loop over the layers *)

(** A row of the loop: the layer, its fresh cache and the saved one. *)
Abbreviation layer_row := (Z * (ds4_layer_cache * ds4_layer_cache))%type.
Definition row_counts (r : layer_row) : Z * (Z * Z) := (fst r, (n_comp (snd (snd r)), n_index_comp (snd (snd r)))).

Lemma reads_layers (raw_live ctx1 ctx0 : Z) (rows : list layer_row) : forall s pre,
  Forall (fun r => fits raw_live (fst r) ctx1 ctx0 (snd (snd r)) (fst (snd r))) rows ->
  map fst rows = map Z.of_nat (seq (length pre) (length rows)) -> cpu_cache s = pre ++ map (fun r => fst (snd r)) rows ->
  reads (each (fun q => at_layer (fst q) (read_layer_cpu raw_live (fst (snd q)) (snd (snd q)))) (map row_counts rows)) s
    (concat (map (fun r => concat (layer_live raw_live (snd (snd r)))) rows))
    (s <| cpu_cache := pre ++ map (fun r => restore_layer raw_live (snd (snd r)) (fst (snd r))) rows |>) tt.
Proof.
  induction rows as [|[il [l0 l1]] rows IH]; intros s pre Hf Hi Hs; cbn [map each concat].
  - eapply reads_eq; [apply reads_ret|]. cbn [map] in Hs. rewrite app_nil_r in *. destruct s. cbn in Hs. by subst.
  - apply Forall_cons in Hf as [Hf Hfs]. cbn [fst snd] in *. cbn [map length seq] in Hi. injection Hi as Hil Hi. cbn [map] in Hs.
    eapply reads_bind.
    + cbn [fst snd row_counts]. unfold row_counts. cbn [fst snd]. apply (reads_zoom (fun s => nth_layer s il) (fun l => set_layer il l)). cbv beta.
      unfold nth_layer. rewrite Hs, Hil, Nat2Z.id, nth_middle. apply (reads_layer raw_live il ctx1 ctx0). exact Hf.
    + specialize (IH (set_layer il (restore_layer raw_live l1 l0) s) (pre ++ [restore_layer raw_live l1 l0]) Hfs).
      eapply reads_eq; [apply IH|].
      * rewrite length_app. cbn [length]. by replace (length pre + 1)%nat with (S (length pre)) by lia.
      * unfold set_layer. cbn [cpu_cache set_field]. rewrite Hs, Hil, Nat2Z.id, <- app_assoc. cbn [app].
        change (cpu_cache (s <| cpu_cache := <[length pre := restore_layer raw_live l1 l0]> (pre ++ l0 :: map (fun r => fst (snd r)) rows) |>))
          with (<[length pre := restore_layer raw_live l1 l0]> (pre ++ l0 :: map (fun r => fst (snd r)) rows)).
        rewrite insert_app_r_alt, Nat.sub_diag by lia. done.
      * destruct s. unfold set_layer. cbn. by rewrite <- app_assoc.
Qed.
End Cpu.
