(* ===== verification/SessionRoundTrip.v ===== *)
(** * Saving and restoring a CPU session

    A session with the same ring of raw rows takes over the checkpoint of
    another one whole: the tokens, the logits and every row that is live.  The
    end of the file is about restores that fail. *)
From S2P Require Import Prelude.
From S2P Require Import LittleEndian.
From S2P Require Import SourceFormats.
From S2P Require Import Gguf.
From S2P Require Import Weights.
From S2P Require Import WeightsLayout.
From S2P Require Import Io.
From S2P Require Import Session.
From S2P Require Import SessionPayload.
From S2P Require Import SessionPayloadProps.

Lemma ok_inj {A E : Type} (a b : A) : @Ok A E a = Ok b -> a = b.
Proof. intros H. by injection H. Qed.

(** ** Reading to the end *)

(** [m] reads [b], which is all that is left. *)
Definition ends {X A} (m : io (X * rfile) A) (x : X) (b : bytes) (y : X) (a : A) : Prop :=
  forall n, n = Z.of_nat (length b) -> n <= UINT64_MAX -> forall rest, runs m (x, RFile (b ++ rest) n) (y, RFile rest 0) a.

Lemma ends_bind {X A C} (m : io (X * rfile) A) (k : A -> io (X * rfile) C) (x y z : X) (b1 b2 : bytes) (a : A) (c : C) :
  reads m x b1 y a -> ends (k a) y b2 z c -> ends (m ≫= k) x (b1 ++ b2) z c.
Proof.
  intros H1 H2 n Hn Hb rest. rewrite length_app in Hn. rewrite <- app_assoc. eapply runs_bind; [apply H1; lia|]. apply H2; lia.
Qed.

Lemma ends_step {X A C} (m : io (X * rfile) A) (k : A -> io (X * rfile) C) (x y z : X) (b : bytes) (a : A) (c : C) :
  reads m x [] y a -> ends (k a) y b z c -> ends (m ≫= k) x b z c.
Proof. intros H1 H2. exact (ends_bind m k x y z [] b a c H1 H2). Qed.

Lemma ends_get {X C} (k : X * rfile -> io (X * rfile) C) (x y : X) (b : bytes) (c : C) :
  (forall st, ends (k (x, st)) x b y c) -> ends (get ≫= k) x b y c.
Proof. intros Hk n Hn Hb rest. unfold runs, mbind, io_bind, get. by apply Hk. Qed.

Lemma ends_eq {X A} (m : io (X * rfile) A) (x y y' : X) (b b' : bytes) (a : A) : ends m x b y a -> b = b' -> y = y' -> ends m x b' y' a.
Proof. by intros ? <- <-. Qed.

(** A pure step on the session. *)
Lemma ends_update {X C} (p : X -> pres X) (m1 : io (X * rfile) unit) (m2 : io (X * rfile) C) (x x' y : X) (b : bytes) (c : C) :
  p x = Ok x' -> ends (m1 ≫= fun _ => m2) x' b y c -> ends ('(s, st) ← get; s ← lift (p s); _ ← put (s, st); _ ← m1; m2) x b y c.
Proof. intros Hp Hk n Hn Hb rest. specialize (Hk n Hn Hb rest). revert Hk. unfold runs, mbind, io_bind, get, lift, put. rewrite Hp. done. Qed.

Section RoundTrip.
Context {tensor : Type} `{TensorOps tensor} `{Allocator}.
Implicit Types (s : ds4_session tensor).

Lemma ends_finish s (tokens : list Z) (f : ds4_session tensor -> ds4_session tensor) :
  ends (finish_load tokens f) s [] (f (s <| checkpoint := tokens |>) <| checkpoint_valid := true |> <| mtp_draft_valid := false |>) tt.
Proof. intros n -> _ rest. reflexivity. Qed.

(** ** The header *)

Lemma find_comp_cap (ctx : Z) (ils : list Z) (ls : list ds4_layer_cache) : Forall2 (layer_wf ctx) ils ls -> (exists il, il ∈ ils /\ ratio_of il = 4) ->
  exists l, List.find (fun l => compress_ratio l =? 4) ls = Some l /\ comp_cap l = ctx / 4 + 2.
Proof.
  induction 1 as [|il l ils ls Hl Hls IH]; intros (i & Hi & E); [by apply not_elem_of_nil in Hi|]. cbn [List.find].
  rewrite (lw_ratio _ _ _ Hl). destruct (Z.eqb_spec (ratio_of il) 4) as [E4|N].
  - exists l. split; [done|]. by rewrite (lw_comp_cap _ _ _ Hl), E4.
  - apply IH. apply elem_of_cons in Hi as [->|Hi]; [done|]. by exists i.
Qed.

Lemma cpu_comp_cap s : cpu_wf s -> session_cpu_comp_cap s = ctx_size s / 4 + 2.
Proof.
  intros Hw. unfold session_cpu_comp_cap. destruct (find_comp_cap _ _ _ (cw_layers s Hw)) as (l & -> & E); [|exact E].
  exists 2. split; [|done]. apply (list_elem_of_lookup_2 layers 2). reflexivity.
Qed.

Lemma comp_cap_le (ctx il : Z) (l : ds4_layer_cache) : 0 < ctx -> layer_wf ctx il l -> comp_cap l <= ctx / 4 + 2.
Proof.
  intros Hc Hl. rewrite (lw_comp_cap _ _ _ Hl). pose proof (Z.div_pos ctx 4 ltac:(lia) ltac:(lia)).
  assert (ctx / 128 <= ctx / 4) by (apply Z.div_le_compat_l; lia).
  destruct (ratio_cases il) as [->|[->| ->]]; cbn [Z.eqb Pos.eqb]; lia.
Qed.

Lemma comp_cap_mono (ctx1 ctx2 il : Z) (l1 l2 : ds4_layer_cache) : ctx1 <= ctx2 -> layer_wf ctx1 il l1 -> layer_wf ctx2 il l2 -> comp_cap l1 <= comp_cap l2.
Proof.
  intros Hc H1 H2. rewrite (lw_comp_cap _ _ _ H1), (lw_comp_cap _ _ _ H2). destruct (ratio_cases il) as [->|[->| ->]]; cbn [Z.eqb Pos.eqb]; [lia| |];
    (assert (ctx1 / 4 <= ctx2 / 4 /\ ctx1 / 128 <= ctx2 / 128) by (split; apply Z.div_le_mono; lia); lia).
Qed.

Lemma cpu_header_u32 s : cpu_wf s -> Forall is_u32 (cpu_header s).
Proof.
  intros Hw. pose proof (cpu_live_range s Hw) as [Hr1 Hr2]. pose proof (cw_ctx s Hw) as Hc. pose proof (raw_cap_range (ctx_size s) (proj1 Hc)) as Hcap.
  pose proof (cpu_comp_cap s Hw) as E. destruct (comp_cap_range (ctx_size s) 4 Hc ltac:(by left)) as [_ Hd]. unfold INT_MAX, DS4_N_SWA in *.
  assert (Hm : forall z, is_u32 (u32 z)) by (intros z; unfold is_u32, u32, UINT32_MAX; pose proof (Z.mod_pos_bound z (2 ^ 32) ltac:(lia)); lia).
  unfold cpu_header. rewrite E, (u32_small (ctx_size s)) by zlia. cbv zeta.
  repeat (apply Forall_cons; split); [..|apply Forall_nil; exact I]; try apply Hm; try (exact (cw_prefill s Hw)); split; unfold UINT32_MAX; try lia; vm_compute; discriminate.
Qed.

Lemma to_int_u32 (z : Z) : is_int z -> to_int (u32 z) = z.
Proof. unfold is_int, to_int, u32, INT_MIN, INT_MAX. intros Hz. rewrite <- (Zplus_mod_idemp_l (z mod 2 ^ 32)), Zmod_mod, Zplus_mod_idemp_l. rewrite Z.mod_small by lia. lia. Qed.

Lemma tokens_back (l : list Z) : Forall is_int l -> map to_int (map u32 l) = l.
Proof. induction 1 as [|z l Hz _ IH]; cbn [map]; [done|]. by rewrite to_int_u32, IH. Qed.

Lemma tokens_u32 (l : list Z) : Forall is_u32 (map u32 l).
Proof. apply Forall_map, Forall_forall. intros z _. unfold is_u32, u32, UINT32_MAX. pose proof (Z.mod_pos_bound z (2 ^ 32) ltac:(lia)). cbn. lia. Qed.

Lemma slice_whole (a : bytes) (n : Z) : Z.of_nat (length a) = n -> slice a 0 n = a.
Proof. intros <-. unfold slice. rewrite Nat2Z.id, drop_0. apply take_ge. lia. Qed.

Lemma overwrite_all (a b : bytes) : length a = length b -> overwrite a b = b.
Proof. intros E. unfold overwrite. rewrite <- E, drop_all. apply app_nil_r. Qed.

(** ** Loading what was saved *)

(** A session that takes over [s1] into [s2]. *)
Record takes_over s1 s2 : Prop := {
  to_source : cpu_wf s1;
  to_cached : cached s1;
  to_target : cpu_wf s2;
  to_ctx : ctx_size s1 <= ctx_size s2;
  to_ring : ds4_default_raw_cap (ctx_size s1) = ds4_default_raw_cap (ctx_size s2);
  to_prefill : prefill_cap s1 = prefill_cap s2
}.

Definition restored s1 s2 : ds4_session tensor :=
  Session (backend s2) (graph s2) (zip_with (restore_layer (session_cpu_raw_live_rows s1)) (cpu_cache s1) (fresh (ctx_size s2)))
    (checkpoint s1) (logits s1) (prefill_cap s2) (ctx_size s2) true false.

Lemma fresh_wf (ctx : Z) : 0 < ctx <= INT_MAX -> Forall2 (layer_wf ctx) layers (fresh ctx).
Proof. intros Hc. unfold fresh. generalize layers. induction l as [|il l IH]; cbn [map]; constructor; [by apply init_wf|exact IH]. Qed.

Lemma fresh_empty (ctx : Z) : Forall (fun l => n_comp l = 0 /\ n_index_comp l = 0) (fresh ctx).
Proof.
  unfold fresh. apply Forall_map, Forall_forall. intros il _. cbn beta.
  destruct (ratio_cases il) as [->|[->| ->]]; by split.
Qed.

(** Every saved layer fits in the fresh one. *)
Lemma layers_fit s1 s2 : takes_over s1 s2 -> Forall2 (fun il p => fits (session_cpu_raw_live_rows s1) il (ctx_size s1) (ctx_size s2) (snd p) (fst p))
  layers (zip (fresh (ctx_size s2)) (cpu_cache s1)).
Proof.
  intros [H1 [_ Hc] H2 Hctx Hring _]. pose proof (cpu_live_range s1 H1) as [Hr _].
  pose proof (fresh_wf (ctx_size s2) (cw_ctx s2 H2)) as Hf. pose proof (cw_layers s1 H1) as Hl.
  revert Hc. revert Hl. generalize (cpu_cache s1). induction Hf as [|il l0 ils l0s Hl0 _ IH]; intros l1s Hl1s Hc; inversion Hl1s; subst; cbn; constructor.
  - cbn [fst snd]. apply Forall_cons in Hc as [Hn _]. constructor; [eassumption|eassumption| |eapply (comp_cap_mono (ctx_size s1) (ctx_size s2) il); eassumption].
    split; [lia|]. rewrite (lw_cap _ _ _ Hl0), <- Hring. lia.
  - apply IH; [done|]. by apply Forall_cons in Hc as [_ Hc].
Qed.

Lemma counts_back (ils : list Z) (l0s l1s : list ds4_layer_cache) : length ils = length l0s -> length l0s = length l1s ->
  combine ils (combine (map n_comp l1s) (map n_index_comp l1s)) = map row_counts (zip ils (zip l0s l1s)).
Proof.
  revert l0s l1s. induction ils as [|il ils IH]; intros [|l0 l0s] [|l1 l1s] E1 E2; try discriminate; [done|]. cbn. rewrite <- IH by (cbn in *; lia). done.
Qed.

Lemma live_back (k : Z) (ils : list Z) (l0s l1s : list ds4_layer_cache) : length ils = length l0s -> length l0s = length l1s ->
  map (fun r => concat (layer_live k (snd (snd r)))) (zip ils (zip l0s l1s)) = map (fun l => concat (layer_live k l)) l1s /\
  map (fun r => fst (snd r)) (zip ils (zip l0s l1s)) = l0s /\ map fst (zip ils (zip l0s l1s)) = ils /\
  map (fun r => restore_layer k (snd (snd r)) (fst (snd r))) (zip ils (zip l0s l1s)) = zip_with (restore_layer k) l1s l0s.
Proof.
  revert l0s l1s. induction ils as [|il ils IH]; intros [|l0 l0s] [|l1 l1s] E1 E2; try discriminate; [done|].
  destruct (IH l0s l1s ltac:(cbn in *; lia) ltac:(cbn in *; lia)) as (H1 & H2 & H3 & H4). cbn [zip_with map fst snd]. rewrite <- H4, <- H1, H2, H3. done.
Qed.

(** The loop over the layers of a session with a fresh cache. *)
Lemma reads_cache s1 s2 s : takes_over s1 s2 -> cpu_cache s = fresh (ctx_size s2) ->
  reads (each (fun q => at_layer (fst q) (read_layer_cpu (session_cpu_raw_live_rows s1) (fst (snd q)) (snd (snd q))))
      (combine layers (combine (map n_comp (cpu_cache s1)) (map n_index_comp (cpu_cache s1))))) s
    (concat (map (fun l => concat (layer_live (session_cpu_raw_live_rows s1) l)) (cpu_cache s1)))
    (s <| cpu_cache := cpu_cache (restored s1 s2) |>) tt.
Proof.
  intros Ht Hs. pose proof (layers_fit s1 s2 Ht) as Hf.
  assert (E0 : length layers = length (fresh (ctx_size s2))) by (unfold fresh; by rewrite length_map).
  assert (E1 : length (fresh (ctx_size s2)) = length (cpu_cache s1)) by (rewrite <- E0; exact (Forall2_length _ _ _ (cw_layers s1 (to_source _ _ Ht)))).
  rewrite (counts_back _ _ _ E0 E1). destruct (live_back (session_cpu_raw_live_rows s1) _ _ _ E0 E1) as (H1 & H2 & H3 & H4).
  rewrite <- H1. cbn [cpu_cache restored]. rewrite <- H4.
  apply (reads_layers (session_cpu_raw_live_rows s1) (ctx_size s1) (ctx_size s2) _ s []).
  - clear -Hf. induction Hf as [|il p ils ps Hp _ IH]; cbn; constructor; done.
  - rewrite H3. cbn [length]. rewrite !length_zip_with. unfold layers at 1. f_equal. f_equal. rewrite <- E1, <- E0. reflexivity.
  - cbn [app]. by rewrite H2.
Qed.

(** A header that fits in the session passes. *)
Lemma header_passes s (h : list Z) (window cap comp : Z) :
  nth 2 h 0 <= u32 (ctx_size s) -> nth 7 h 0 < u32 (ctx_size s) ->
  nth 8 h 0 = DS4_N_LAYER /\ nth 9 h 0 = DS4_N_HEAD_DIM /\ nth 10 h 0 = DS4_N_INDEXER_HEAD_DIM /\ nth 11 h 0 = DS4_N_VOCAB ->
  nth 3 h 0 = prefill_cap s -> nth 5 h 0 = window -> 0 < nth 4 h 0 ->
  nth 12 h 0 = (if nth 7 h 0 <? window then nth 7 h 0 else window) -> nth 12 h 0 <= nth 4 h 0 -> nth 12 h 0 <= cap -> nth 6 h 0 <= comp ->
  reads (check_header h window cap comp) s [] s tt.
Proof.
  intros H2 H7 (H8 & H9 & H10 & H11) H3 H5 H4 H12 Hle Hcap Hcomp. unfold check_header. apply reads_get. intros st. cbv beta iota.
  rewrite H3, H5, H8, H9, H10, H11, !Z.eqb_refl.
  eapply reads_step; [apply reads_guard; rewrite (proj2 (Z.ltb_ge _ _)), (proj2 (Z.leb_gt _ _)) by lia; done|].
  eapply reads_step; [by apply reads_guard|]. eapply reads_step; [by apply reads_guard|]. cbv zeta.
  rewrite <- H12, Z.eqb_refl. eapply reads_step; [apply reads_guard|apply reads_guard; by rewrite (proj2 (Z.ltb_ge _ _)) by lia].
  rewrite (proj2 (Z.eqb_neq _ _)), !(proj2 (Z.ltb_ge _ _)) by lia. done.
Qed.

Lemma checks_pass s1 s2 : takes_over s1 s2 ->
  reads (check_header (cpu_header s1) (ds4_default_raw_cap (u32 (ctx_size s2))) (ds4_default_raw_cap (u32 (ctx_size s2))) (session_cpu_comp_cap s2)) s2 [] s2 tt.
Proof.
  intros [H1 [Hv _] H2 Hctx Hring Hpre]. pose proof (cpu_live_range s1 H1) as [Hr1 Hr2].
  pose proof (cw_ctx s1 H1) as Hc1. pose proof (cw_ctx s2 H2) as Hc2. pose proof (cw_len s1 H1) as Hlen.
  pose proof (raw_cap_range (ctx_size s1) (proj1 Hc1)) as Hcap. assert (Hl0 : 0 <= checkpoint_len s1) by (unfold checkpoint_len; lia).
  assert (Hd : ctx_size s1 / 4 <= ctx_size s2 / 4) by (apply Z.div_le_mono; lia). unfold INT_MAX in *.
  assert (El : session_cpu_raw_live_rows s1 =
    if checkpoint_len s1 <? ds4_default_raw_cap (ctx_size s1) then checkpoint_len s1 else ds4_default_raw_cap (ctx_size s1)).
  { unfold session_cpu_raw_live_rows. rewrite Hv. cbn [negb]. cbv zeta. by rewrite !u32_small by zlia. }
  unfold cpu_header. rewrite (cpu_comp_cap s1 H1), (cpu_comp_cap s2 H2), (u32_small (ctx_size s1)), (u32_small (checkpoint_len s1)) by zlia.
  apply header_passes; cbn [nth]; rewrite ?(u32_small (ctx_size s2)) by zlia; try lia; try done. by rewrite <- Hring.
Qed.

Lemma saved_counts (ctx1 ctx2 : Z) (ils : list Z) (ls : list ds4_layer_cache) : 0 < ctx1 <= ctx2 -> Forall2 (layer_wf ctx1) ils ls ->
  Forall2 (fun n cap => 0 <= n <= ctx1 / 4 + 2 /\ n <= cap) (map n_comp ls) (map (fun _ => ctx2 / 4 + 2) ils) /\
  Forall2 (fun n cap => 0 <= n <= ctx1 / 4 + 2 /\ n <= cap) (map n_index_comp ls) (map (fun _ => ctx2 / 4 + 2) ils).
Proof.
  intros Hc Hw. assert (Hd : ctx1 / 4 <= ctx2 / 4) by (apply Z.div_le_mono; lia).
  induction Hw as [|il l ils ls Hl _ [IH1 IH2]]; cbn [map]; [split; constructor|].
  pose proof (comp_cap_le ctx1 il l ltac:(lia) Hl). pose proof (lw_n_comp _ _ _ Hl). pose proof (lw_n_index _ _ _ Hl).
  split; constructor; (done || lia).
Qed.

Lemma reads_fixed_part s (h caps tokens ncs nis : list Z) (l : bytes) : nth 7 h 0 = Z.of_nat (length tokens) -> Forall is_int tokens ->
  Z.of_nat (length l) = DS4_N_VOCAB * 4 -> Z.of_nat (length (logits s)) = DS4_N_VOCAB * 4 -> nth 6 h 0 <= UINT32_MAX ->
  Forall2 (fun n cap => 0 <= n <= nth 6 h 0 /\ n <= cap) ncs caps -> Forall2 (fun n cap => 0 <= n <= nth 6 h 0 /\ n <= cap) nis caps ->
  reads (read_fixed h caps) s (u32_text (map u32 tokens) ++ slice l 0 (DS4_N_VOCAB * 4) ++ u32_text ncs ++ u32_text nis)
    (s <| logits := l |>) (tokens, ncs, nis).
Proof.
  intros H7 Ht Hl1 Hl2 H6 Hn Hi. unfold read_fixed. rewrite H7, Nat2Z.id.
  eapply reads_bind; [apply reads_u32s; [apply tokens_u32|by rewrite length_map]|].
  rewrite (slice_whole l) by done. eapply reads_bind.
  { unfold read_array. apply (reads_zoom logits (fun b s => s <| logits := b |>)). apply reads_bytes; [done|lia]. }
  rewrite overwrite_all by lia. eapply reads_bind; [apply reads_counts; done|].
  rewrite <- (app_nil_r (u32_text nis)). eapply reads_bind; [apply reads_counts; done|].
  rewrite tokens_back by done. apply reads_ret.
Qed.

Lemma reads_fixed s1 s2 : takes_over s1 s2 ->
  reads (read_fixed (cpu_header s1) (map (fun _ => session_cpu_comp_cap s2) layers)) s2
    (u32_text (map u32 (checkpoint s1)) ++ slice (logits s1) 0 (DS4_N_VOCAB * 4) ++ u32_text (map n_comp (cpu_cache s1)) ++
      u32_text (map n_index_comp (cpu_cache s1)))
    (s2 <| logits := logits s1 |>) (checkpoint s1, map n_comp (cpu_cache s1), map n_index_comp (cpu_cache s1)).
Proof.
  intros [H1 _ H2 Hctx _ _]. pose proof (cw_ctx s1 H1) as Hc1. pose proof (cw_len s1 H1) as Hlen.
  destruct (saved_counts (ctx_size s1) (ctx_size s2) layers (cpu_cache s1) ltac:(lia) (cw_layers s1 H1)) as [Hn Hi].
  destruct (comp_cap_range (ctx_size s1) 4 Hc1 ltac:(by left)) as [_ Hd].
  assert (Hl0 : 0 <= checkpoint_len s1) by (unfold checkpoint_len; lia). unfold INT_MAX in *.
  rewrite (cpu_comp_cap s2 H2). apply reads_fixed_part; unfold cpu_header; cbn [nth]; rewrite ?(cpu_comp_cap s1 H1);
    [change (u32 (checkpoint_len s1) = checkpoint_len s1); apply u32_small; zlia|apply H1|apply H1|apply H2|unfold UINT32_MAX; lia|exact Hn|exact Hi].
Qed.

Lemma load_reads s1 s2 : takes_over s1 s2 -> ends load_payload s2 (cpu_text s1) (restored s1 s2) tt.
Proof.
  intros Ht. pose proof Ht as [H1 [Hv _] H2 _ _ _]. pose proof (cw_ctx s2 H2) as Hc2.
  unfold load_payload, cpu_text, fixed_text. rewrite <- app_assoc.
  eapply ends_bind; [by apply reads_u32s; [apply cpu_header_u32|]|].
  eapply ends_step; [by apply reads_guard|]. apply ends_get. intros st. cbv beta iota.
  unfold ds4_session_is_cpu. rewrite (cw_cpu s2 H2). unfold load_cpu.
  apply ends_get. intros st'. cbv beta iota zeta. eapply ends_step; [by apply checks_pass|].
  eapply ends_bind; [by apply reads_fixed|]. cbv beta iota.
  eapply ends_step; [apply (reads_modify (fun s => s <| checkpoint_valid := false |> <| mtp_draft_valid := false |>))|].
  apply (ends_update session_cpu_reset_cache _ _ _ (Session (backend s2) (graph s2) (fresh (ctx_size s2)) (checkpoint s2) (logits s1) (prefill_cap s2) (ctx_size s2) false false)).
  { unfold session_cpu_reset_cache. clear -Hc2. destruct s2 as [b2 g2 c2 k2 l2 p2 n2 v2 d2]. cbn [ctx_size] in *.
    match goal with |- context [u32 ?z] => change z with n2 end. rewrite u32_small by (unfold INT_MAX in Hc2; zlia). rewrite kv_cache_fresh by exact Hc2. reflexivity. }
  rewrite <- (app_nil_r (concat _)). eapply ends_bind; [apply (reads_cache s1 s2); done|].
  eapply ends_eq; [apply ends_finish|done|]. reflexivity.
Qed.

(** ** The restored session *)

(** Two layers with the same live rows. *)
Definition same_live (k : Z) (l1 l : ds4_layer_cache) : Prop :=
  n_comp l = n_comp l1 /\ n_index_comp l = n_index_comp l1 /\ layer_live k l = layer_live k l1.

Lemma restored_cache s1 s2 : takes_over s1 s2 ->
  Forall2 (layer_wf (ctx_size s2)) layers (cpu_cache (restored s1 s2)) /\
  Forall (fun l => n_raw l = session_cpu_raw_live_rows s1) (cpu_cache (restored s1 s2)) /\
  Forall2 (same_live (session_cpu_raw_live_rows s1)) (cpu_cache s1) (cpu_cache (restored s1 s2)).
Proof.
  intros Ht. pose proof (layers_fit s1 s2 Ht) as Hf. pose proof (fresh_empty (ctx_size s2)) as He. cbn [cpu_cache restored].
  assert (E0 : length layers = length (fresh (ctx_size s2))) by (unfold fresh; by rewrite length_map).
  assert (E1 : length (fresh (ctx_size s2)) = length (cpu_cache s1)) by (rewrite <- E0; exact (Forall2_length _ _ _ (cw_layers s1 (to_source _ _ Ht)))).
  revert E0 E1 Hf He. generalize layers, (fresh (ctx_size s2)), (cpu_cache s1). intros ils l0s l1s. revert l0s l1s.
  induction ils as [|il ils IH]; intros [|l0 l0s] [|l1 l1s] E0 E1 Hf He; try discriminate; [repeat constructor|].
  cbn [zip_with] in *. apply Forall2_cons in Hf as [Hf Hfs]. apply Forall_cons in He as [[He1 He2] Hes]. cbn [fst snd] in Hf.
  destruct (restored_live _ _ _ _ _ _ Hf He1 He2) as (R1 & R2 & R3 & R4 & R5).
  destruct (IH l0s l1s ltac:(cbn in *; lia) ltac:(cbn in *; lia) Hfs Hes) as (I1 & I2 & I3).
  split_and!; constructor; try done.
Qed.

Lemma restored_raw_live s1 s2 : takes_over s1 s2 -> session_cpu_raw_live_rows (restored s1 s2) = session_cpu_raw_live_rows s1.
Proof.
  intros [H1 [Hv _] H2 _ Hring _]. unfold session_cpu_raw_live_rows. rewrite Hv. pose proof (cw_ctx s1 H1). pose proof (cw_ctx s2 H2). unfold INT_MAX in *.
  cbn [checkpoint_valid restored negb ctx_size]. rewrite (u32_small (ctx_size s1)), (u32_small (ctx_size s2)) by zlia. by rewrite Hring.
Qed.

Lemma restored_wf s1 s2 : takes_over s1 s2 -> cpu_wf (restored s1 s2) /\ cached (restored s1 s2).
Proof.
  intros Ht. destruct (restored_cache s1 s2 Ht) as (R1 & R2 & _). pose proof (restored_raw_live s1 s2 Ht) as Er. destruct Ht as [H1 [Hv _] H2 Hctx _ _]. split.
  - pose proof (cw_len s1 H1). constructor; [apply H2|apply H2|apply H2|apply H1|apply H1| |exact R1].
    change (checkpoint_len (restored s1 s2)) with (checkpoint_len s1). cbn [ctx_size restored]. lia.
  - split; [done|]. rewrite Er. eapply Forall_impl; [exact R2|]. cbn beta. intros l ->. lia.
Qed.

Lemma cpu_text_bound s : cpu_wf s -> cached s -> Z.of_nat (length (cpu_text s)) <= UINT64_MAX.
Proof.
  intros Hw Hc. pose proof (cpu_text_length s Hw Hc) as E. unfold ds4_session_payload_bytes, ds4_session_is_cpu in E.
  rewrite (proj1 Hc), (cw_cpu s Hw) in E. cbn [negb] in E. apply ok_inj in E. rewrite <- E. unfold u64, UINT64_MAX.
  match goal with |- ?a mod ?b <= _ => pose proof (Z.mod_pos_bound a b ltac:(lia)) end. lia.
Qed.

Lemma save_runs s (sync : bool) (n room : Z) : cpu_wf s -> cached s -> ds4_session_payload_bytes s = Ok n -> n <= room ->
  ds4_session_save_payload sync s (WFile [] room) = Ok (WFile (cpu_text s) (room - n), Ok tt) /\ Z.of_nat (length (cpu_text s)) = n.
Proof.
  intros Hw Hc Hn Hroom. rewrite (cpu_text_length s Hw Hc) in Hn. apply ok_inj in Hn as <-. split; [|done].
  unfold ds4_session_save_payload, ds4_session_is_cpu. rewrite (proj1 Hc), (cw_cpu s Hw). cbn [negb].
  exact (save_cpu_text s Hw Hc (WFile [] room) Hroom).
Qed.

Lemma load_runs s1 s2 (rest : bytes) : takes_over s1 s2 ->
  ds4_session_load_payload (Z.of_nat (length (cpu_text s1))) (cpu_text s1 ++ rest) s2 = Ok (restored s1 s2, Ok tt).
Proof.
  intros Ht. unfold ds4_session_load_payload.
  pose proof (load_reads s1 s2 Ht _ eq_refl (cpu_text_bound s1 (to_source _ _ Ht) (to_cached _ _ Ht)) rest) as E. unfold runs in E. by rewrite E.
Qed.

Lemma same_live_length (k : Z) (l1s ls : list ds4_layer_cache) : Forall2 (same_live k) l1s ls ->
  length (concat (map (fun l => concat (layer_live k l)) l1s)) = length (concat (map (fun l => concat (layer_live k l)) ls)).
Proof.
  induction 1 as [|l1 l l1s ls (_ & _ & E) _ IH]; [done|]. cbn [map concat]. rewrite !length_app, IH. f_equal. f_equal. f_equal. by symmetry.
Qed.

Lemma cpu_text_size s : cpu_wf s ->
  Z.of_nat (length (cpu_text s)) = 4 * 13 + 4 * checkpoint_len s + DS4_N_VOCAB * 4 + 8 * Z.of_nat (length (cpu_cache s)) +
    Z.of_nat (length (concat (map (fun l => concat (layer_live (session_cpu_raw_live_rows s) l)) (cpu_cache s)))).
Proof.
  intros Hw. unfold cpu_text. rewrite length_app, Nat2Z.inj_add, fixed_text_length by apply Hw. rewrite !length_map.
  change (length (cpu_header s)) with 13%nat. unfold checkpoint_len. lia.
Qed.

(** C35: saving a CPU session writes exactly as many bytes as
    [ds4_session_payload_bytes] announces, and loading them from the start of a
    file into a session with the same ring of raw rows, the same prefill chunk
    and at least the same context succeeds: the tokens, the logits and in every layer the counts and
    all live rows are those that were saved, the checkpoint is valid, no draft
    is left, and the session is well formed again, with its own context and
    chunk sizes. *)
Theorem cpu_session_round_trip s1 s2 (sync : bool) (n room : Z) (rest : bytes) :
  takes_over s1 s2 -> ds4_session_payload_bytes s1 = Ok n -> n <= room ->
  exists text s,
    ds4_session_save_payload sync s1 (WFile [] room) = Ok (WFile text (room - n), Ok tt) /\ Z.of_nat (length text) = n /\
    ds4_session_load_payload n (text ++ rest) s2 = Ok (s, Ok tt) /\
    checkpoint s = checkpoint s1 /\ logits s = logits s1 /\ checkpoint_valid s = true /\ mtp_draft_valid s = false /\
    Forall2 (same_live (session_cpu_raw_live_rows s1)) (cpu_cache s1) (cpu_cache s) /\
    cpu_wf s /\ cached s /\ ctx_size s = ctx_size s2 /\ prefill_cap s = prefill_cap s2 /\ ds4_session_payload_bytes s = Ok n.
Proof.
  intros Ht Hn Hroom. pose proof Ht as [H1 Hc1 _ _ _ _]. destruct (save_runs s1 sync n room H1 Hc1 Hn Hroom) as [Es El].
  destruct (restored_wf s1 s2 Ht) as [Hw Hc]. destruct (restored_cache s1 s2 Ht) as (R1 & R2 & R3).
  exists (cpu_text s1), (restored s1 s2). split_and!; try done; [rewrite <- El; by apply load_runs|].
  rewrite (cpu_text_length _ Hw Hc), <- El. f_equal. rewrite (cpu_text_size _ Hw), (cpu_text_size _ H1), (restored_raw_live s1 s2 Ht).
  by rewrite <- (same_live_length _ _ _ R3), <- (Forall2_length _ _ _ R3).
Qed.
End RoundTrip.

(** ** An example *)

(** A device whose tensors are arrays. *)
#[export] Instance array_ops : TensorOps bytes := {
  ds4_gpu_tensor_bytes t := Z.of_nat (length t);
  ds4_gpu_tensor_read t off n := Some (slice t off n);
  ds4_gpu_tensor_write t off b := Some (overwrite_at t off b)
}.
#[export] Instance array_laws : TensorLaws bytes.
Proof. refine {| contents t := t |}; [done| |]; intros; cbn in *; congruence. Defined.

(** A fresh layer with two raw rows, and a compressed one. *)
Definition grow (l : ds4_layer_cache) : ds4_layer_cache :=
  let k := if compress_ratio l =? 4 then 1 else 0 in l <| n_raw := 2 |> <| n_comp := k |> <| n_index_comp := k |>.

Lemma grow_wf (ctx il : Z) (l : ds4_layer_cache) : 2 <= ds4_default_raw_cap ctx -> 0 < ctx -> layer_wf ctx il l -> layer_wf ctx il (grow l).
Proof.
  intros Hc Hctx [Hr Hcap Hraw Hn Hcc Hnc Hni Hcomp Hs Hix]. pose proof (Z.div_pos ctx 4 ltac:(lia) ltac:(lia)).
  destruct l as [a0 b0 c0 ra d0 e0 f0 g0 h0 i0 j0 k0 m0]. layer_cbn_all. subst ra.
  unfold grow. cbv zeta. match goal with |- layer_wf _ _ ?l => let l' := compute_layer l in change l with l' end.
  assert (0 <= (if ratio_of il =? 4 then 1 else 0) <= d0) by (destruct (Z.eqb_spec (ratio_of il) 4) as [E|]; [rewrite E in Hcc; cbn in Hcc|]; lia).
  constructor; layer_cbn; first [assumption|lia].
Qed.

Definition example_from : ds4_session bytes :=
  Session DS4_BACKEND_CPU (Graph 0 0 0 0 []) (map grow (fresh 128)) [5; 7] (zeros DS4_N_VOCAB) 2048 128 true true.
Definition example_to : ds4_session bytes :=
  Session DS4_BACKEND_CPU (Graph 0 0 0 0 []) (fresh 200) [] (floats DS4_N_VOCAB DS4_NEG_INF_BYTES) 2048 200 false false.

Lemma grown_wf : Forall2 (layer_wf 128) layers (map grow (fresh 128)).
Proof.
  pose proof (fresh_wf 128 ltac:(unfold INT_MAX; lia)) as Hw. revert Hw. generalize layers, (fresh 128).
  induction 1; cbn [map]; constructor; [apply grow_wf; [discriminate|reflexivity|assumption]|assumption].
Qed.

Lemma grown_raw : Forall (fun l => n_raw l = 2) (map grow (fresh 128)).
Proof. apply Forall_map. generalize (fresh 128). induction l; constructor; [reflexivity|assumption]. Qed.

Lemma example_from_wf : cpu_wf example_from.
Proof.
  constructor; cbn [backend ctx_size prefill_cap logits checkpoint cpu_cache example_from].
  - reflexivity.
  - unfold INT_MAX. lia.
  - split; unfold UINT32_MAX; lia.
  - by apply zeros_length.
  - apply Forall_cons; split; [|apply Forall_cons; split; [|by apply Forall_nil]]; split; unfold INT_MIN, INT_MAX; lia.
  - reflexivity.
  - exact grown_wf.
Qed.

Lemma example_to_wf : cpu_wf example_to.
Proof.
  constructor; cbn [backend ctx_size prefill_cap logits checkpoint cpu_cache example_to].
  - reflexivity.
  - unfold INT_MAX. lia.
  - split; unfold UINT32_MAX; lia.
  - by apply floats_length.
  - by apply Forall_nil.
  - reflexivity.
  - apply fresh_wf. unfold INT_MAX. lia.
Qed.

Lemma example_takes_over : takes_over example_from example_to.
Proof.
  constructor; cbn [ctx_size prefill_cap example_from example_to].
  - exact example_from_wf.
  - split; [reflexivity|]. cbn [cpu_cache example_from]. change (session_cpu_raw_live_rows example_from) with 2.
    eapply Forall_impl; [exact grown_raw|]. cbn beta. intros l ->. lia.
  - exact example_to_wf.
  - lia.
  - reflexivity.
  - reflexivity.
Qed.

#[local] Existing Instance unlimited.

Lemma cpu_session_round_trip_witness : takes_over example_from example_to /\ exists n text s,
  ds4_session_payload_bytes example_from = Ok n /\
  ds4_session_save_payload true example_from (WFile [] n) = Ok (WFile text (n - n), Ok tt) /\ ds4_session_load_payload n (text ++ []) example_to = Ok (s, Ok tt) /\
  checkpoint s = [5; 7] /\ ds4_session_payload_bytes s = Ok n.
Proof.
  pose proof example_takes_over as Ht. split; [exact Ht|].
  assert (E : exists n, ds4_session_payload_bytes example_from = Ok n) by (eexists; lazy; reflexivity). destruct E as [n E].
  destruct (cpu_session_round_trip example_from example_to true n n [] Ht E ltac:(lia)) as (text & s & E1 & _ & E2 & E3 & _ & _ & _ & _ & _ & _ & _ & _ & E4).
  exists n, text, s. split_and!; assumption.
Defined.

(** ** Restores that fail *)

Section Failure.
Context {tensor : Type} `{TensorOps tensor} `{Allocator}.
Implicit Types (s : ds4_session tensor).
Variable s0 : ds4_session tensor.

(** The session is [s0], or [s0] with other logits. *)
Definition before (p : ds4_session tensor * rfile) : Prop := exists l, fst p = s0 <| logits := l |>.

(** The checkpoint is no longer valid; the rest of the session is [s0]'s. *)
Definition gone (p : ds4_session tensor * rfile) : Prop :=
  checkpoint_valid (fst p) = false /\ checkpoint (fst p) = checkpoint s0 /\ graph (fst p) = graph s0 /\ backend (fst p) = backend s0 /\
  ctx_size (fst p) = ctx_size s0 /\ prefill_cap (fst p) = prefill_cap s0.

Lemma before_in_file {A} (m : io rfile A) : keeps before (in_file m).
Proof. apply keeps_zoom. by intros f p [l E]; exists l. Qed.

Lemma before_check_header (h : list Z) (window cap comp : Z) : keeps before (check_header h window cap comp).
Proof.
  unfold check_header. apply keeps_bind; [auto with keeps|]. intros [s st]. cbv beta iota zeta.
  repeat (apply keeps_bind; [apply keeps_guard|intros _]). apply keeps_guard.
Qed.

Lemma before_read_counts (saved : Z) (caps : list Z) (fmt : string) : keeps before (read_counts saved caps fmt).
Proof.
  induction caps as [|cap caps IH]; cbn [read_counts]; [apply keeps_ret|].
  apply keeps_bind; [|intros n; apply keeps_bind; [exact IH|intros ns; apply keeps_ret]].
  unfold read_count. apply keeps_bind; [apply before_in_file|]. intros n. apply keeps_bind; [apply keeps_guard|intros _; apply keeps_ret].
Qed.

Lemma before_read_fixed (h caps : list Z) : keeps before (read_fixed h caps).
Proof.
  unfold read_fixed. apply keeps_bind; [apply before_in_file|]. intros tokens. apply keeps_bind.
  - unfold read_array. apply keeps_zoom. intros [b f] [s st] [l E]. exists b. cbn [fst snd] in *. subst s. reflexivity.
  - intros _. apply keeps_bind; [apply before_read_counts|]. intros ns. apply keeps_bind; [apply before_read_counts|]. intros ks. apply keeps_ret.
Qed.

Lemma gone_layer (il raw_live nc ni : Z) : keeps gone (at_layer il (read_layer_cpu raw_live nc ni)).
Proof. unfold at_layer. apply keeps_zoom. intros [l f] [s st] Hg. exact Hg. Qed.

(** The part of a restore that follows the checks. *)
Lemma returns_after (tokens : list Z) (m : io (ds4_session tensor * rfile) unit) p : keeps gone m -> gone p ->
  returns ('(s, st) ← get; s ← lift (session_cpu_reset_cache s); _ ← put (s, st); _ ← m; finish_load tokens (fun s => s)) p
    (fun _ _ => True) (fun q _ => gone q).
Proof.
  intros Hm Hp. apply returns_bind. destruct p as [s st]. unfold get. cbn. apply returns_bind. unfold lift, returns at 1.
  destruct (session_cpu_reset_cache s) as [s'|e] eqn:E; [|done].
  assert (Hg : gone (s', st)).
  { revert E. unfold session_cpu_reset_cache. destruct (kv_cache_init _ _) as [c|]; cbn; [|done]. intros E. apply ok_inj in E as <-. exact Hp. }
  apply returns_bind. unfold put, returns at 1. apply returns_bind. eapply returns_mono; [..|by apply Hm]; [|by intros ? ? ?].
  intros q [] Hq. unfold finish_load. apply returns_bind. unfold get, returns at 1. destruct q as [s2 st2]. apply returns_bind.
  unfold check, guard. by destruct (r_remaining st2 =? 0).
Qed.

Lemma load_cpu_failed (h : list Z) (p : ds4_session tensor * rfile) : before p ->
  returns (load_cpu h) p (fun _ _ => True) (fun q _ => before q \/ gone q).
Proof.
  intros Hp. unfold load_cpu. apply returns_bind. destruct p as [s st]. unfold get at 1, returns at 1. cbv zeta.
  apply returns_bind. eapply returns_mono; [..|by apply before_check_header]; [|by left]. intros p1 [] Hp1.
  apply returns_bind. eapply returns_mono; [..|by apply before_read_fixed]; [|by left]. intros p2 [[tokens ns] ks] Hp2.
  apply returns_bind. unfold modify at 1, returns at 1. eapply returns_mono; [..|apply returns_after]; [done|by right| |].
  - apply keeps_each. intros a. apply gone_layer.
  - destruct Hp2 as [l E]. destruct p2 as [s2 st2]. cbn [fst snd] in *. subst s2. unfold gone. cbn [fst]. destruct s0. done.
Qed.

Lemma load_failed (n : Z) (fp : bytes) s' d : ds4_session_is_cpu s0 = true -> ds4_session_load_payload n fp s0 = Ok (s', Error d) ->
  (exists l, s' = s0 <| logits := l |>) \/ gone (s', RFile [] 0).
Proof.
  intros Hcpu. unfold ds4_session_load_payload.
  assert (H1 : returns load_payload (s0, RFile fp n) (fun _ _ => True) (fun q _ => before q \/ gone q)).
  { unfold load_payload. assert (Hb : before (s0, RFile fp n)) by (exists (logits s0); by destruct s0).
    apply returns_bind. eapply returns_mono; [..|exact (before_in_file _ _ Hb)]; [|by left]. intros p1 h Hp1.
    apply returns_bind. eapply returns_mono; [..|exact (keeps_guard before _ _ _ Hp1)]; [|by left]. intros p2 [] Hp2.
    apply returns_bind. destruct p2 as [s2 st2]. unfold get, returns at 1.
    assert (E : ds4_session_is_cpu s2 = true) by (destruct Hp2 as [l Hl]; cbn [fst] in Hl; subst s2; destruct s0; exact Hcpu).
    rewrite E. by apply load_cpu_failed. }
  unfold returns in H1. destruct (load_payload (s0, RFile fp n)) as [[[s st] r]|e]; [|done]. intros E. apply ok_inj in E. injection E as <- ->.
  destruct H1 as [H1|H1]; [left|right]; exact H1.
Qed.
End Failure.

Section Theorem_.
Context {tensor : Type} `{TensorOps tensor} `{Allocator}.

(** C37: when loading a payload into a CPU session returns an error, the session
    keeps its tokens, context and graph, and either nothing but the logits has
    changed (the caches and the validity of the checkpoint are as before), or
    the checkpoint is marked invalid, so that the half-restored caches are not
    used. *)
Theorem cpu_load_failed (s s' : ds4_session tensor) (n : Z) (fp : bytes) (d : diag) :
  ds4_session_is_cpu s = true -> ds4_session_load_payload n fp s = Ok (s', Error d) ->
  checkpoint s' = checkpoint s /\ ctx_size s' = ctx_size s /\ prefill_cap s' = prefill_cap s /\ graph s' = graph s /\
  (cpu_cache s' = cpu_cache s /\ checkpoint_valid s' = checkpoint_valid s /\ mtp_draft_valid s' = mtp_draft_valid s \/ checkpoint_valid s' = false).
Proof.
  intros Hcpu E. destruct (load_failed s n fp s' d Hcpu E) as [[l ->]|(H1 & H2 & H3 & _ & H5 & H6)].
  - destruct s. split_and!; try done. by left.
  - split_and!; try done. by right.
Qed.
End Theorem_.

#[local] Existing Instance unlimited.

Lemma cpu_load_failed_witness : ds4_session_is_cpu example_to = true /\
  exists s', ds4_session_load_payload 0 [] example_to = Ok (s', fail "truncated session payload" []) /\ checkpoint s' = checkpoint example_to.
Proof.
  split; [reflexivity|]. exists example_to. assert (E : ds4_session_load_payload 0 [] example_to = Ok (example_to, fail "truncated session payload" [])) by reflexivity.
  split; [exact E|]. exact (proj1 (cpu_load_failed example_to example_to 0 [] _ eq_refl E)).
Defined.
