(* ===== verification/SessionGraph.v ===== *)
(** * Saving and restoring a graph session

    The raw rows are saved in the order of their positions, so that a session
    whose ring has another size finds each of them at its own place.  The first
    half is about tensors and layers, the second about whole sessions. *)
From S2P Require Import Prelude.
From S2P Require Import LittleEndian.
From S2P Require Import SourceFormats.
From S2P Require Import Gguf.
From S2P Require Import Weights.
From S2P Require Import WeightsLayout.
From S2P Require Import Io.
From S2P Require Import Session.
From S2P Require Import SessionPayload.
From S2P Require Import SessionPayloadProps.
From S2P Require Import SessionRoundTrip.

(** ** Arrays *)

Lemma overwrite_at_length (a b : bytes) (off : Z) : 0 <= off -> off + Z.of_nat (length b) <= Z.of_nat (length a) ->
  length (overwrite_at a off b) = length a.
Proof. intros H1 H2. unfold overwrite_at. rewrite !length_app, length_take, length_drop. lia. Qed.

Lemma slice_overwrite_at (a b : bytes) (off : Z) : 0 <= off -> off + Z.of_nat (length b) <= Z.of_nat (length a) ->
  slice (overwrite_at a off b) off (Z.of_nat (length b)) = b.
Proof.
  intros H1 H2. unfold slice, overwrite_at. rewrite Nat2Z.id, drop_app_ge by (rewrite length_take; lia).
  rewrite length_take, Nat.min_l, Nat.sub_diag, drop_0 by lia. apply take_app_length.
Qed.

Lemma slice_lookup (a : bytes) (off n : Z) (i : nat) : slice a off n !! i = if (Z.of_nat i <? n) then a !! (Z.to_nat off + i)%nat else None.
Proof.
  unfold slice. destruct (Z.ltb_spec (Z.of_nat i) n) as [Hi|Hi].
  - rewrite lookup_take_lt by lia. apply lookup_drop.
  - apply lookup_take_ge. lia.
Qed.

Lemma overwrite_at_lookup (a b : bytes) (off : Z) (i : nat) : 0 <= off -> off + Z.of_nat (length b) <= Z.of_nat (length a) ->
  (Z.of_nat i < off \/ off + Z.of_nat (length b) <= Z.of_nat i) -> overwrite_at a off b !! i = a !! i.
Proof.
  intros H1 H2 Hi. unfold overwrite_at. destruct Hi as [Hi|Hi].
  - rewrite lookup_app_l by (rewrite length_take; lia). apply lookup_take_lt. lia.
  - rewrite lookup_app_r by (rewrite length_take; lia). rewrite length_take, Nat.min_l by lia.
    rewrite lookup_app_r by lia. rewrite lookup_drop. f_equal. lia.
Qed.

(** What is behind or in front of a range stays. *)
Lemma slice_overwrite_at_other (a b : bytes) (off o n : Z) : 0 <= off -> off + Z.of_nat (length b) <= Z.of_nat (length a) -> 0 <= o ->
  o + n <= off \/ off + Z.of_nat (length b) <= o -> slice (overwrite_at a off b) o n = slice a o n.
Proof.
  intros H1 H2 H3 H4. apply list_eq. intros i. rewrite !slice_lookup. destruct (Z.ltb_spec (Z.of_nat i) n); [|done].
  apply overwrite_at_lookup; lia.
Qed.

Lemma overwrite_at_app (a b c : bytes) (off : Z) : 0 <= off -> off + Z.of_nat (length b + length c) <= Z.of_nat (length a) ->
  overwrite_at (overwrite_at a off b) (off + Z.of_nat (length b)) c = overwrite_at a off (b ++ c).
Proof.
  intros H1 H2. unfold overwrite_at at 1. replace (Z.to_nat (off + Z.of_nat (length b))) with (Z.to_nat off + length b)%nat by lia.
  unfold overwrite_at. rewrite (app_assoc (take _ a) b). rewrite take_app_le by (rewrite length_app, length_take; lia).
  rewrite take_ge by (rewrite length_app, length_take; lia). rewrite drop_app_ge by (rewrite length_app, length_take; lia).
  rewrite drop_drop, length_app, length_take, Nat.min_l by lia. rewrite length_app, <- !app_assoc. f_equal. f_equal. f_equal. f_equal. lia.
Qed.

Lemma overwrite_at_nil (a : bytes) (off : Z) : overwrite_at a off [] = a.
Proof. unfold overwrite_at. cbn [app length]. rewrite Nat.add_0_r. apply take_drop. Qed.

Lemma slice_cut (a : bytes) (off n k : Z) : 0 <= off -> 0 <= k <= n -> off + n <= Z.of_nat (length a) ->
  slice a off n = slice a off k ++ slice a (off + k) (n - k).
Proof.
  intros H1 H2 H3. apply list_eq. intros i. rewrite slice_lookup. pose proof (slice_in_length a off k H1 ltac:(lia) ltac:(lia)) as Hl.
  destruct (Z.ltb_spec (Z.of_nat i) k).
  - rewrite lookup_app_l by lia. rewrite slice_lookup, (proj2 (Z.ltb_lt _ _)), (proj2 (Z.ltb_lt _ _)) by lia. done.
  - rewrite lookup_app_r by lia. rewrite slice_lookup. destruct (Z.ltb_spec (Z.of_nat i) n).
    + rewrite (proj2 (Z.ltb_lt _ _)) by lia. f_equal. lia.
    + by rewrite (proj2 (Z.ltb_ge _ _)) by lia.
Qed.

(** ** Reading to a state that is only described *)

Definition reads_to {X A} (m : io (X * rfile) A) (x : X) (b : bytes) (P : X -> Prop) (a : A) : Prop := forall rest rem,
  Z.of_nat (length b) <= rem <= UINT64_MAX ->
  exists y, P y /\ runs m (x, RFile (b ++ rest) rem) (y, RFile rest (rem - Z.of_nat (length b))) a.

Lemma reads_to_ret {X A} (x : X) (P : X -> Prop) (a : A) : P x -> reads_to (mret a) x [] P a.
Proof. intros Hx rest rem Hr. exists x. split; [done|]. by apply reads_ret. Qed.

Lemma reads_to_bind {X A C} (m : io (X * rfile) A) (k : A -> io (X * rfile) C) (x : X) (b1 b2 : bytes) (P Q : X -> Prop) (a : A) (c : C) :
  reads_to m x b1 P a -> (forall y, P y -> reads_to (k a) y b2 Q c) -> reads_to (m ≫= k) x (b1 ++ b2) Q c.
Proof.
  intros H1 H2 rest rem Hr. rewrite length_app in Hr. rewrite <- app_assoc. destruct (H1 (b2 ++ rest) rem ltac:(lia)) as (y & Hy & E1).
  destruct (H2 y Hy rest (rem - Z.of_nat (length b1)) ltac:(lia)) as (z & Hz & E2). exists z. split; [done|].
  eapply runs_bind; [exact E1|]. rewrite length_app. by replace (rem - Z.of_nat (length b1 + length b2)) with (rem - Z.of_nat (length b1) - Z.of_nat (length b2)) by lia.
Qed.

Lemma reads_to_mono {X A} (m : io (X * rfile) A) (x : X) (b : bytes) (P Q : X -> Prop) (a : A) :
  (forall y, P y -> Q y) -> reads_to m x b P a -> reads_to m x b Q a.
Proof. intros HPQ Hm rest rem Hr. destruct (Hm rest rem Hr) as (y & Hy & E). exists y. split; [by apply HPQ|done]. Qed.

Lemma reads_to_of {X A} (m : io (X * rfile) A) (x y : X) (b : bytes) (a : A) : reads m x b y a -> reads_to m x b (fun z => z = y) a.
Proof. intros Hm rest rem Hr. exists y. split; [done|]. by apply Hm. Qed.

Lemma reads_to_zoom {X Y A} (from : X -> Y) (into : Y -> X -> X) (m : io (Y * rfile) A) (x : X) (b : bytes) (P : Y -> Prop) (a : A) :
  reads_to m (from x) b P a ->
  reads_to (zoom (fun p => (from (fst p), snd p)) (fun q p => (into (fst q) (fst p), snd q)) m) x b (fun z => exists y, P y /\ z = into y x) a.
Proof.
  intros Hm rest rem Hr. destruct (Hm rest rem Hr) as (y & Hy & E). exists (into y x). split; [by exists y|].
  unfold runs, zoom in *. cbn [fst snd]. by rewrite E.
Qed.

(** ** Tensors *)

(** Copies inside of a tensor succeed. *)
Class Reliable (tensor : Type) `{TensorOps tensor} := {
  reliable_read : forall t off n, 0 <= off -> 0 <= n -> off + n <= ds4_gpu_tensor_bytes t -> exists b, ds4_gpu_tensor_read t off n = Some b;
  reliable_write : forall t off b, 0 <= off -> off + Z.of_nat (length b) <= ds4_gpu_tensor_bytes t -> exists t', ds4_gpu_tensor_write t off b = Some t'
}.

Section Graphs.
Context {tensor : Type} {ops : TensorOps tensor} {laws : TensorLaws tensor} {reliable : Reliable tensor} `{Allocator}.
Implicit Types (s : ds4_session tensor) (g : ds4_gpu_graph tensor) (t : tensor) (o : option tensor).

(** A tensor with at least [n] bytes. *)
Definition holds o (n : Z) : Prop := exists t, o = Some t /\ n <= ds4_gpu_tensor_bytes t.

(** Its bytes in a range. *)
Definition span o (off n : Z) : bytes := match o with Some t => slice (contents t) off n | None => [] end.

Lemma read_exact t (off n : Z) : 0 <= off -> 0 <= n -> off + n <= ds4_gpu_tensor_bytes t ->
  ds4_gpu_tensor_read t off n = Some (slice (contents t) off n).
Proof. intros H1 H2 H3. destruct (reliable_read t off n H1 H2 H3) as [b E]. rewrite E. f_equal. by apply (law_tensor_read t off n b). Qed.

Lemma span_length o (off n : Z) : 0 <= off -> 0 <= n -> holds o (off + n) -> Z.of_nat (length (span o off n)) = n.
Proof. intros H1 H2 (t & -> & Ht). cbn [span]. rewrite law_bytes in Ht. by apply slice_in_length. Qed.

Lemma writes_span_loop t (off n cap : Z) : 0 <= off -> off + n <= ds4_gpu_tensor_bytes t -> 0 < cap ->
  forall fuel from, 0 <= from <= n -> n - from <= Z.of_nat fuel ->
  writes (write_span_loop fuel t off n cap from) (slice (contents t) (off + from) (n - from)) tt.
Proof.
  intros Ho Hn Hcap. induction fuel as [|fuel IH]; intros from Hf Hfuel; cbn [write_span_loop]; destruct (Z.leb_spec n from) as [L|L].
  - replace (n - from) with 0 by lia. unfold slice. cbn [Z.to_nat take]. apply writes_ret.
  - lia.
  - replace (n - from) with 0 by lia. unfold slice. cbn [Z.to_nat take]. apply writes_ret.
  - cbv zeta. set (k := if cap <? n - from then cap else n - from).
    assert (Hk : 0 < k <= n - from) by (unfold k; destruct (Z.ltb_spec cap (n - from)); lia).
    rewrite read_exact by lia. rewrite (slice_cut (contents t) (off + from) (n - from) k) by (pose proof (law_bytes t); lia).
    eapply writes_bind; [apply writes_bytes|]. replace (off + from + k) with (off + (from + k)) by lia.
    replace (n - from - k) with (n - (from + k)) by lia. apply IH; lia.
Qed.

Lemma writes_span o (off n cap : Z) : 0 <= off -> 0 <= n -> holds o (off + n) -> 0 < cap ->
  writes (payload_write_tensor_span o off n cap) (span o off n) tt.
Proof.
  intros Ho Hn (t & -> & Ht) Hcap. unfold payload_write_tensor_span, span_outside. rewrite !(proj2 (Z.ltb_ge _ _)) by lia. cbn [orb span].
  rewrite <- (Z.add_0_r off) at 2. rewrite <- (Z.sub_0_r n) at 3. apply writes_span_loop; lia.
Qed.

Lemma reads_span_loop (off n cap : Z) : 0 <= off -> 0 < cap -> forall fuel from t b, 0 <= from <= n -> n - from <= Z.of_nat fuel ->
  off + n <= ds4_gpu_tensor_bytes t -> Z.of_nat (length b) = n - from ->
  reads_to (read_span_loop fuel off n cap from) t b (fun t' => contents t' = overwrite_at (contents t) (off + from) b) tt.
Proof.
  intros Ho Hcap. induction fuel as [|fuel IH]; intros from t b Hf Hfuel Ht Hb; cbn [read_span_loop]; destruct (Z.leb_spec n from) as [L|L].
  1, 3: destruct b; [|cbn in Hb; lia]; apply reads_to_ret; by rewrite overwrite_at_nil.
  - lia.
  - cbv zeta. set (k := if cap <? n - from then cap else n - from).
    assert (Hk : 0 < k <= n - from) by (unfold k; destruct (Z.ltb_spec cap (n - from)); lia).
    intros rest rem Hr. assert (Hbk : b = take (Z.to_nat k) b ++ drop (Z.to_nat k) b) by (symmetry; apply take_drop).
    set (b1 := take (Z.to_nat k) b) in *. set (b2 := drop (Z.to_nat k) b) in *.
    assert (Hl1 : Z.of_nat (length b1) = k) by (unfold b1; rewrite length_take; lia).
    assert (Hl2 : Z.of_nat (length b2) = n - from - k) by (unfold b2; rewrite length_drop; lia). clearbody b1 b2. subst b. rewrite length_app in *.
    pose proof (reads_bytes (replicate (Z.to_nat k) NUL) b1 k Hl1 ltac:(rewrite length_replicate; lia)) as Hrb.
    specialize (Hrb (b2 ++ rest) rem ltac:(lia)). unfold runs in Hrb. rewrite <- app_assoc.
    assert (Hin : off + from + Z.of_nat (length b1) <= ds4_gpu_tensor_bytes t) by lia. assert (Hat : 0 <= off + from) by lia.
    destruct (reliable_write t (off + from) b1 Hat Hin) as [t' Et]. pose proof (law_tensor_write t (off + from) b1 t' Hat Hin Et) as Ec.
    assert (Eb : ds4_gpu_tensor_bytes t' = ds4_gpu_tensor_bytes t).
    { rewrite !law_bytes, Ec. rewrite law_bytes in Ht. rewrite overwrite_at_length by lia. done. }
    destruct (IH (from + k) t' b2 ltac:(lia) ltac:(lia) ltac:(lia) ltac:(lia) rest (rem - k) ltac:(lia)) as (t2 & E2 & R2).
    exists t2. split.
    + rewrite E2, Ec. replace (off + (from + k)) with (off + from + Z.of_nat (length b1)) by lia.
      apply overwrite_at_app; [lia|]. pose proof (law_bytes t). lia.
    + unfold runs. cbv beta. rewrite Hrb. rewrite overwrite_all by (rewrite length_replicate; lia). rewrite Et.
      unfold runs in R2. rewrite Hl1, R2. do 4 f_equal. lia.
Qed.

Lemma reads_span t (off n cap : Z) (b : bytes) : 0 <= off -> off + n <= ds4_gpu_tensor_bytes t -> 0 < cap -> Z.of_nat (length b) = n ->
  reads_to (payload_read_tensor_span off n cap) (Some t) b (fun o => exists t', o = Some t' /\ contents t' = overwrite_at (contents t) off b) tt.
Proof.
  intros Ho Hn Hcap Hb rest rem Hr. destruct (reads_span_loop off n cap Ho Hcap (Z.to_nat n) 0 t b ltac:(lia) ltac:(lia) Hn ltac:(lia) rest rem Hr) as (t' & Et & R).
  exists (Some t'). split; [exists t'; split; [done|]; by rewrite Z.add_0_r in Et|].
  unfold runs, payload_read_tensor_span, span_outside. rewrite !(proj2 (Z.ltb_ge _ _)) by lia. cbn [orb].
  unfold runs in R. by rewrite R.
Qed.

(** ** The rows of the ring *)

(** The row of the [r]th live position from [first]. *)
Definition ring_row (ring first r : Z) : Z := u32 (first + r) mod ring * DS4_N_HEAD_DIM * 4.

Lemma ring_row_range (ring first r : Z) : 0 < ring -> 0 <= ring_row ring first r /\ ring_row ring first r + DS4_N_HEAD_DIM * 4 <= ring * DS4_N_HEAD_DIM * 4.
Proof. intros Hr. unfold ring_row, DS4_N_HEAD_DIM. pose proof (Z.mod_pos_bound (u32 (first + r)) ring Hr). lia. Qed.

(** Live positions have rows that are apart. *)
Lemma ring_row_apart (ring first r1 r2 : Z) : 0 <= first -> 0 <= r1 < r2 -> r2 < ring -> first + r2 <= UINT32_MAX ->
  ring_row ring first r1 + DS4_N_HEAD_DIM * 4 <= ring_row ring first r2 \/ ring_row ring first r2 + DS4_N_HEAD_DIM * 4 <= ring_row ring first r1.
Proof.
  intros H1 H2 H3 H4. unfold ring_row, DS4_N_HEAD_DIM, UINT32_MAX in *. rewrite !u32_small by zlia.
  assert (Hne : (first + r1) mod ring <> (first + r2) mod ring).
  { intros E. pose proof (Z.div_mod (first + r1) ring ltac:(lia)). pose proof (Z.div_mod (first + r2) ring ltac:(lia)).
    set (q1 := (first + r1) / ring) in *. set (q2 := (first + r2) / ring) in *.
    assert (ring * (q2 - q1) = r2 - r1) by lia. assert (q2 - q1 <= 0 \/ 1 <= q2 - q1) as [?|?] by lia; nia. }
  pose proof (Z.mod_pos_bound (first + r1) ring ltac:(lia)). pose proof (Z.mod_pos_bound (first + r2) ring ltac:(lia)). lia.
Qed.

Definition raw_rows o (ring first live : Z) : list bytes := map (fun r => span o (ring_row ring first r) (DS4_N_HEAD_DIM * 4)) (upto live).

(** Reading the rows one after the other, each to its place. *)
Lemma reads_rows (ring first live : Z) (row : Z -> bytes) (l0 : layer_graph tensor) t : 0 <= first -> live <= ring -> first + live <= UINT32_MAX ->
  (forall r, Z.of_nat (length (row r)) = DS4_N_HEAD_DIM * 4) -> layer_raw_cache l0 = Some t -> ring * DS4_N_HEAD_DIM * 4 <= ds4_gpu_tensor_bytes t ->
  reads_to (each (fun r => layer_span layer_raw_cache (fun o l => l <| layer_raw_cache := o |>) (ring_row ring first r) (DS4_N_HEAD_DIM * 4)) (upto live)) l0
    (concat (map row (upto live)))
    (fun l => exists t', l = l0 <| layer_raw_cache := Some t' |> /\ ds4_gpu_tensor_bytes t' = ds4_gpu_tensor_bytes t /\
      raw_rows (Some t') ring first live = map row (upto live)) tt.
Proof.
  intros Hf Hl Hmax Hrow Hraw Ht. unfold raw_rows.
  (* The rows from [k] on, where those before [k] are in place. *)
  assert (Hind : forall n k t, (k + Z.of_nat n = Z.max 0 live) -> 0 <= k -> ring * DS4_N_HEAD_DIM * 4 <= ds4_gpu_tensor_bytes t -> 
    (forall r, 0 <= r < k -> slice (contents t) (ring_row ring first r) (DS4_N_HEAD_DIM * 4) = row r) ->
    reads_to (each (fun r => layer_span layer_raw_cache (fun o l => l <| layer_raw_cache := o |>) (ring_row ring first r) (DS4_N_HEAD_DIM * 4))
      (map Z.of_nat (seq (Z.to_nat k) n))) (l0 <| layer_raw_cache := Some t |>) (concat (map row (map Z.of_nat (seq (Z.to_nat k) n))))
      (fun l => exists t', l = l0 <| layer_raw_cache := Some t' |> /\ ds4_gpu_tensor_bytes t' = ds4_gpu_tensor_bytes t /\
        forall r, 0 <= r < live -> slice (contents t') (ring_row ring first r) (DS4_N_HEAD_DIM * 4) = row r) tt).
  { clear t Hraw Ht. induction n as [|n IH]; intros k t Hk Hk0 Ht Hpre; cbn [seq map each concat].
    - apply reads_to_ret. exists t. split_and!; try done. intros r Hr. apply Hpre. lia.
    - rewrite Z2Nat.id by done. pose proof (ring_row_range ring first k ltac:(lia)) as [Hr1 Hr2].
      eapply reads_to_bind.
      + unfold layer_span. apply (reads_to_zoom layer_raw_cache (fun o l => l <| layer_raw_cache := o |>)).
        apply (reads_span t); [done|lia|done|apply Hrow].
      + intros y (o & (t' & -> & Et) & ->). replace (S (Z.to_nat k)) with (Z.to_nat (k + 1)) by lia.
        pose proof (law_bytes t) as Eb. pose proof (Hrow k) as Hrk. unfold DS4_N_HEAD_DIM in *.
        assert (Eb' : ds4_gpu_tensor_bytes t' = ds4_gpu_tensor_bytes t) by (rewrite !law_bytes, Et, overwrite_at_length by lia; done).
        change ((l0 <| layer_raw_cache := Some t |>) <| layer_raw_cache := Some t' |>) with (l0 <| layer_raw_cache := Some t' |>).
        eapply reads_to_mono; [|apply IH; [lia|lia|lia|]].
        * intros l (t2 & -> & E2 & H2). exists t2. split_and!; [done|congruence|done].
        * intros r Hr. rewrite Et. destruct (decide (r = k)) as [->|N].
          { rewrite <- Hrk. apply slice_overwrite_at; lia. }
          rewrite slice_overwrite_at_other; [apply Hpre; lia|done|lia|apply ring_row_range; lia|].
          rewrite Hrk. pose proof (ring_row_apart ring first r k Hf ltac:(lia) ltac:(lia) ltac:(lia)) as Ha. unfold DS4_N_HEAD_DIM in Ha. lia. }
  specialize (Hind (Z.to_nat live) 0 t ltac:(lia) ltac:(lia) Ht ltac:(lia)).
  assert (E0 : l0 <| layer_raw_cache := Some t |> = l0) by (destruct l0; cbn in *; by subst). rewrite E0 in Hind.
  unfold upto. eapply reads_to_mono; [|exact Hind]. intros l (t' & -> & Eb & Hrows). exists t'. split_and!; [done|done|].
  apply map_ext_in. intros r Hr. apply in_map_iff in Hr as (i & <- & Hi). apply in_seq in Hi. cbn [span]. apply Hrows. lia.
Qed.

(** ** A layer *)

(** What is live in a layer: its raw rows in the order of their positions, its
    compressed rows and the states of its compressors. *)
Definition layer_parts (ring first live il nc ni : Z) (l : layer_graph tensor) : list bytes :=
  let ratio := ratio_of il in
  raw_rows (layer_raw_cache l) ring first live ++
  if ratio =? 0 then []
  else
    [span (layer_attn_comp_cache l) 0 (nc * DS4_N_HEAD_DIM * 4); span (layer_attn_state_kv l) 0 (layer_attn_state_bytes ratio);
     span (layer_attn_state_score l) 0 (layer_attn_state_bytes ratio)] ++
    if ratio =? 4 then
      [span (layer_index_comp_cache l) 0 (ni * DS4_N_INDEXER_HEAD_DIM * 4); span (layer_index_state_kv l) 0 (layer_index_state_bytes ratio);
       span (layer_index_state_score l) 0 (layer_index_state_bytes ratio)]
    else [].

(** The tensors of a layer are as large as its ring and its capacity of
    compressed rows, [cap] at most, ask for. *)
Record layer_ok (ring cap il : Z) (l : layer_graph tensor) : Prop := {
  lo_raw : holds (layer_raw_cache l) (ring * DS4_N_HEAD_DIM * 4);
  lo_n_comp : 0 <= layer_n_comp l <= layer_comp_cap l;
  lo_n_index : 0 <= layer_n_index_comp l <= layer_comp_cap l;
  lo_cap : layer_comp_cap l <= cap;
  lo_comp : ratio_of il <> 0 -> holds (layer_attn_comp_cache l) (layer_comp_cap l * DS4_N_HEAD_DIM * 4) /\
    holds (layer_attn_state_kv l) (layer_attn_state_bytes (ratio_of il)) /\ holds (layer_attn_state_score l) (layer_attn_state_bytes (ratio_of il));
  lo_index : ratio_of il = 4 -> holds (layer_index_comp_cache l) (layer_comp_cap l * DS4_N_INDEXER_HEAD_DIM * 4) /\
    holds (layer_index_state_kv l) (layer_index_state_bytes 4) /\ holds (layer_index_state_score l) (layer_index_state_bytes 4)
}.

Lemma holds_le o (n k : Z) : holds o n -> k <= n -> holds o k.
Proof. intros (t & -> & Ht) Hk. exists t. split; [done|lia]. Qed.

Lemma state_bytes_pos (il : Z) : 0 <= layer_attn_state_bytes (ratio_of il) /\ 0 <= layer_index_state_bytes (ratio_of il).
Proof. destruct (ratio_cases il) as [->|[->| ->]]; by vm_compute. Qed.

Lemma write_part o (n : Z) : 0 <= n -> holds o n -> writes (payload_write_tensor_span o 0 n DS4_SESSION_IO_CHUNK) (span o 0 n) tt.
Proof. intros Hn Ho. by apply writes_span. Qed.

Lemma write_graph_layer g (len live il cap : Z) (l : layer_graph tensor) : il ∈ layers -> 0 < graph_raw_cap g -> layer_ok (graph_raw_cap g) cap il l ->
  writes (write_layer_gpu g len live (il, l))
    (concat (layer_parts (graph_raw_cap g) (u32 (len - live)) live il (layer_n_comp l) (layer_n_index_comp l) l)) tt.
Proof.
  intros Hil Hring [Hraw Hc Hi Hcap Hcomp Hindex]. pose proof (state_bytes_pos il) as [Ha Hx].
  unfold write_layer_gpu, layer_parts. cbv zeta. rewrite concat_app. unfold raw_rows at 1. eapply writes_bind.
  { apply writes_each. intros r Hr. pose proof (ring_row_range (graph_raw_cap g) (u32 (len - live)) r Hring) as [R1 R2].
    apply (writes_span _ (ring_row (graph_raw_cap g) (u32 (len - live)) r)); [done|done| |done]. eapply holds_le; [exact Hraw|lia]. }
  rewrite (ratio_spec il Hil). eapply writes_step; [by apply writes_lift|].
  destruct (Z.eqb_spec (ratio_of il) 0) as [E|E]; [apply writes_ret|]. destruct (Hcomp E) as (C1 & C2 & C3). cbn [concat app].
  unfold DS4_N_HEAD_DIM, DS4_N_INDEXER_HEAD_DIM in *.
  eapply writes_bind; [apply write_part; [lia|eapply holds_le; [exact C1|lia]]|]. eapply writes_bind; [by apply write_part|].
  eapply writes_bind; [by apply write_part|].
  destruct (Z.eqb_spec (ratio_of il) 4) as [E4|]; [|apply writes_ret]. destruct (Hindex E4) as (I1 & I2 & I3). rewrite E4 in *. cbn [concat].
  eapply writes_bind; [apply write_part; [lia|eapply holds_le; [exact I1|lia]]|]. eapply writes_bind; [by apply write_part|].
  rewrite app_nil_r. by apply write_part.
Qed.

(** Reading a part to the start of its tensor. *)
Lemma read_part (from : layer_graph tensor -> option tensor) (into : option tensor -> layer_graph tensor -> layer_graph tensor) (n : Z)
    (l : layer_graph tensor) (b : bytes) : holds (from l) n -> Z.of_nat (length b) = n ->
  reads_to (layer_span from into 0 n) l b
    (fun l' => exists o, l' = into o l /\ span o 0 n = b /\ forall k, holds (from l) k -> holds o k) tt.
Proof.
  intros (t & Et & Ht) Hb. eapply reads_to_mono; [|unfold layer_span; apply (reads_to_zoom from into)].
  2: { rewrite Et. apply (reads_span t 0 n DS4_SESSION_IO_CHUNK b); [done|lia|done|exact Hb]. }
  cbn beta. intros l' (o & (t' & -> & Ec) & ->). exists (Some t'). split; [done|]. pose proof (law_bytes t) as Eb.
  cbn [span]. rewrite Ec, <- Hb. split; [apply slice_overwrite_at; lia|].
  intros k (t0 & E0 & Hk). rewrite Et in E0. injection E0 as <-. exists t'. split; [done|]. rewrite law_bytes, Ec, overwrite_at_length by lia. lia.
Qed.

(** The live parts of [l1] fit in the tensors of [l0]. *)
Record graph_fits (ring1 cap1 ring0 cap0 il live first : Z) (l1 l0 : layer_graph tensor) : Prop := {
  gf_source : layer_ok ring1 cap1 il l1;
  gf_target : layer_ok ring0 cap0 il l0;
  gf_live : 0 <= live /\ live <= ring1 /\ live <= ring0 /\ 0 < ring1 /\ 0 <= first /\ first + live <= UINT32_MAX;
  gf_comp : layer_comp_cap l1 <= layer_comp_cap l0
}.

(** What a restored layer holds. *)
Definition layer_restored (ring1 cap1 ring0 cap0 il live first : Z) (l1 l0 l : layer_graph tensor) : Prop :=
  layer_n_comp l = layer_n_comp l0 /\ layer_n_index_comp l = layer_n_index_comp l0 /\ layer_comp_cap l = layer_comp_cap l0 /\ layer_ok ring0 cap0 il l /\
  layer_parts ring0 first live il (layer_n_comp l1) (layer_n_index_comp l1) l = layer_parts ring1 first live il (layer_n_comp l1) (layer_n_index_comp l1) l1.

Ltac graph_cbn := cbn [layer_n_comp layer_n_index_comp layer_comp_cap layer_raw_cache layer_attn_comp_cache layer_attn_state_kv layer_attn_state_score
  layer_index_comp_cache layer_index_state_kv layer_index_state_score] in *.
Ltac compute_graph t :=
  eval cbv beta iota zeta delta [set_field layer_n_comp layer_n_index_comp layer_comp_cap layer_raw_cache layer_attn_comp_cache layer_attn_state_kv
    layer_attn_state_score layer_index_comp_cache layer_index_state_kv layer_index_state_score] in t.
Ltac compute_reads :=
  lazymatch goal with |- reads_to ?m ?x ?b ?P ?a => let x' := compute_graph x in change (reads_to m x' b P a) end.
Ltac part_step o E K :=
  eapply reads_to_bind; [apply read_part; [graph_cbn; eapply holds_le; [eassumption|lia]|apply span_length; [lia|lia|eapply holds_le; [eassumption|lia]]]|];
  intros ? (o & -> & E & K); compute_reads; graph_cbn.

Lemma reads_graph_layer (ring1 cap1 ring0 cap0 il live first tokens : Z) (l1 l0 : layer_graph tensor) : il ∈ layers ->
  graph_fits ring1 cap1 ring0 cap0 il live first l1 l0 -> first = u32 (tokens - live) ->
  reads_to (read_layer_gpu ring0 tokens live il (layer_n_comp l1) (layer_n_index_comp l1)) l0
    (concat (layer_parts ring1 first live il (layer_n_comp l1) (layer_n_index_comp l1) l1))
    (layer_restored ring1 cap1 ring0 cap0 il live first l1 l0) tt.
Proof.
  intros Hil [[Hraw1 Hc1 Hi1 Hcap1 Hcomp1 Hix1] [Hraw0 Hc0 Hi0 Hcap0 Hcomp0 Hix0] (L0 & L1 & L2 & L3 & L4 & L5) Hcc] ->.
  pose proof (state_bytes_pos il) as [Ha Hx]. destruct Hraw0 as (t0 & Et0 & Ht0).
  destruct l0 as [nc ni cc oraw ocomp okv osc oix oikv oisc]. graph_cbn. subst oraw.
  unfold read_layer_gpu, layer_parts. cbv zeta. rewrite concat_app. eapply reads_to_bind.
  { apply (reads_rows ring0 (u32 (tokens - live)) live (fun r => span (layer_raw_cache l1) (ring_row ring1 (u32 (tokens - live)) r) (DS4_N_HEAD_DIM * 4)) _ t0);
      [done|done|done| |done|done].
    intros r. pose proof (ring_row_range ring1 (u32 (tokens - live)) r L3) as [R1 R2]. apply span_length; [done|done|]. eapply holds_le; [exact Hraw1|done]. }
  intros y (t & -> & Eb & Erows). compute_reads. fold (raw_rows (layer_raw_cache l1) ring1 (u32 (tokens - live)) live) in Erows.
  assert (Hraw : holds (Some t) (ring0 * DS4_N_HEAD_DIM * 4)) by (exists t; split; [done|lia]).
  rewrite (ratio_spec il Hil). unfold DS4_N_HEAD_DIM, DS4_N_INDEXER_HEAD_DIM in *.
  apply (reads_to_bind _ _ _ [] _ (fun y => y = LayerGraph nc ni cc (Some t) ocomp okv osc oix oikv oisc) _ (ratio_of il)).
  { apply reads_to_of. by apply reads_lift. }
  intros y ->. unfold layer_restored, layer_parts, DS4_N_HEAD_DIM, DS4_N_INDEXER_HEAD_DIM. cbv zeta. destruct (Z.eqb_spec (ratio_of il) 0) as [E|E].
  { apply reads_to_ret. graph_cbn. rewrite Erows. split_and!; done. }
  destruct (Hcomp1 E) as (C1 & C2 & C3). destruct (Hcomp0 E) as (D1 & D2 & D3). cbn [concat app].
  part_step o1 E1 K1. part_step o2 E2 K2. part_step o3 E3 K3.
  destruct (Z.eqb_spec (ratio_of il) 4) as [E4|N4].
  - destruct (Hix1 E4) as (I1 & I2 & I3). destruct (Hix0 E4) as (J1 & J2 & J3). rewrite E4 in *. cbn [concat app].
    part_step o4 E5 K4. part_step o5 E6 K5. rewrite app_nil_r.
    eapply reads_to_mono; [|apply read_part; [graph_cbn; eapply holds_le; [eassumption|lia]|apply span_length; [lia|lia|eapply holds_le; [eassumption|lia]]]].
    intros y (o6 & -> & E7 & K6). graph_cbn.
    match goal with |- context [layer_ok _ _ _ ?l] => let l' := compute_graph l in change l with l' end. graph_cbn.
    rewrite Erows, E1, E2, E3, E5, E6, E7. split_and!; try done. constructor; graph_cbn; try done; intros _; rewrite ?E4; auto.
  - apply reads_to_ret. graph_cbn. rewrite Erows, E1, E2, E3. split_and!; try done. constructor; graph_cbn; try done; auto.
Qed.
End Graphs.

(** ** Reading to the end of a payload *)

(** [m] reads all of [b], to a state in [P]. *)
Definition ends_to {X A} (m : io (X * rfile) A) (x : X) (b : bytes) (P : X -> Prop) (a : A) : Prop :=
  forall n, n = Z.of_nat (length b) -> n <= UINT64_MAX -> forall rest, exists y, P y /\ runs m (x, RFile (b ++ rest) n) (y, RFile rest 0) a.

Lemma ends_to_bind {X A C} (m : io (X * rfile) A) (k : A -> io (X * rfile) C) (x : X) (b1 b2 : bytes) (P Q : X -> Prop) (a : A) (c : C) :
  reads_to m x b1 P a -> (forall y, P y -> ends_to (k a) y b2 Q c) -> ends_to (m ≫= k) x (b1 ++ b2) Q c.
Proof.
  intros H1 H2 n Hn Hb rest. rewrite length_app in Hn. rewrite <- app_assoc. destruct (H1 (b2 ++ rest) n ltac:(lia)) as (y & Hy & E1).
  destruct (H2 y Hy (n - Z.of_nat (length b1)) ltac:(lia) ltac:(lia) rest) as (z & Hz & E2). exists z. split; [done|]. by eapply runs_bind.
Qed.

Lemma ends_to_step {X A C} (m : io (X * rfile) A) (k : A -> io (X * rfile) C) (x y : X) (b1 b2 : bytes) (Q : X -> Prop) (a : A) (c : C) :
  reads m x b1 y a -> ends_to (k a) y b2 Q c -> ends_to (m ≫= k) x (b1 ++ b2) Q c.
Proof. intros H1 H2. eapply ends_to_bind; [by apply reads_to_of|]. by intros z ->. Qed.

Lemma ends_to_skip {X A C} (m : io (X * rfile) A) (k : A -> io (X * rfile) C) (x y : X) (b : bytes) (Q : X -> Prop) (a : A) (c : C) :
  reads m x [] y a -> ends_to (k a) y b Q c -> ends_to (m ≫= k) x b Q c.
Proof. intros H1 H2. exact (ends_to_step m k x y [] b Q a c H1 H2). Qed.

Lemma ends_to_get {X C} (k : X * rfile -> io (X * rfile) C) (x : X) (b : bytes) (Q : X -> Prop) (c : C) :
  (forall st, ends_to (k (x, st)) x b Q c) -> ends_to (get ≫= k) x b Q c.
Proof. intros Hk n Hn Hb rest. unfold runs, mbind, io_bind, get. by apply Hk. Qed.

Lemma ends_to_of {X A} (m : io (X * rfile) A) (x y : X) (b : bytes) (Q : X -> Prop) (a : A) : ends m x b y a -> Q y -> ends_to m x b Q a.
Proof. intros Hm Hq n Hn Hb rest. exists y. split; [done|]. by apply Hm. Qed.

Section Graphs.
Context {tensor : Type} {ops : TensorOps tensor} {laws : TensorLaws tensor} {reliable : Reliable tensor} {alloc : Allocator}.
Implicit Types (s : ds4_session tensor) (g : ds4_gpu_graph tensor) (l : layer_graph tensor).

(** ** Well-formed graph sessions *)

(** What [metal_graph_alloc_raw_cap] and [ds4_session_create] leave, as far as
    payloads depend on it. *)
Record graph_wf s : Prop := {
  gw_gpu : ds4_session_is_cpu s = false;
  gw_ctx : 0 < ctx_size s <= INT_MAX;
  gw_prefill : is_u32 (prefill_cap s);
  gw_logits : Z.of_nat (length (logits s)) = DS4_N_VOCAB * 4;
  gw_tokens : Forall is_int (checkpoint s);
  gw_len : checkpoint_len s < ctx_size s;
  gw_window : 0 < raw_window (graph s) <= graph_raw_cap (graph s);
  gw_ring : graph_raw_cap (graph s) <= UINT32_MAX;
  gw_comp : is_u32 (graph_comp_cap (graph s));
  gw_layers : Forall2 (layer_ok (graph_raw_cap (graph s)) (graph_comp_cap (graph s))) layers (graph_layers (graph s))
}.

(** The live rows and the position of the first of them. *)
Definition live_rows s : Z := session_raw_live_rows (graph s) (u32 (checkpoint_len s)).
Definition first_row s : Z := checkpoint_len s - live_rows s.

Lemma live_rows_min s : graph_wf s -> live_rows s = (if checkpoint_len s <? raw_window (graph s) then checkpoint_len s else raw_window (graph s)) /\
  u32 (checkpoint_len s) = checkpoint_len s.
Proof.
  intros Hw. pose proof (gw_window s Hw). pose proof (gw_len s Hw). pose proof (gw_ctx s Hw). assert (0 <= checkpoint_len s) by (unfold checkpoint_len; lia).
  unfold INT_MAX in *. assert (E : u32 (checkpoint_len s) = checkpoint_len s) by (apply u32_small; zlia). split; [|done].
  unfold live_rows, session_raw_live_rows. rewrite E, (proj2 (Z.eqb_neq _ _)) by lia. cbn [negb]. cbv zeta. by rewrite (proj2 (Z.ltb_ge (graph_raw_cap _) _)) by lia.
Qed.

Lemma live_rows_range s : graph_wf s -> 0 <= live_rows s <= graph_raw_cap (graph s) /\ live_rows s <= raw_window (graph s) /\ 0 <= first_row s /\
  live_rows s <= checkpoint_len s /\ u32 (checkpoint_len s - live_rows s) = first_row s.
Proof.
  intros Hw. destruct (live_rows_min s Hw) as [E _]. pose proof (gw_window s Hw). pose proof (gw_len s Hw). pose proof (gw_ctx s Hw).
  assert (0 <= checkpoint_len s) by (unfold checkpoint_len; lia). unfold first_row, INT_MAX in *.
  assert (live_rows s <= checkpoint_len s /\ 0 <= live_rows s <= raw_window (graph s)) by (rewrite E; destruct (Z.ltb_spec (checkpoint_len s) (raw_window (graph s))); lia).
  split_and!; try lia. apply u32_small. zlia.
Qed.

(** The live parts of a layer of [s]. *)
Definition parts s (il : Z) l : list bytes :=
  layer_parts (graph_raw_cap (graph s)) (first_row s) (live_rows s) il (layer_n_comp l) (layer_n_index_comp l) l.

Definition graph_text s : bytes :=
  fixed_text (gpu_header s) (checkpoint s) (logits s) (map layer_n_comp (graph_layers (graph s))) (map layer_n_index_comp (graph_layers (graph s))) ++
  concat (map (fun p => concat (parts s (fst p) (snd p))) (combine layers (graph_layers (graph s)))).

Lemma lookup_combine {A C} (l1 : list A) (l2 : list C) a c : (a, c) ∈ combine l1 l2 -> a ∈ l1.
Proof. intros Hac. apply list_elem_of_In in Hac. apply list_elem_of_In. by eapply in_combine_l. Qed.

Lemma combine_Forall2 {A C} (P : A -> C -> Prop) (l1 : list A) (l2 : list C) a c : Forall2 P l1 l2 -> (a, c) ∈ combine l1 l2 -> P a c.
Proof. intros HP Hac. apply list_elem_of_In in Hac. induction HP as [|x y l1 l2 Hxy _ IH]; [done|]. destruct Hac as [E|E]; [by injection E as <- <-|by apply IH]. Qed.

Lemma save_graph_text s : graph_wf s -> checkpoint_valid s = true -> malloc_ok DS4_SESSION_IO_CHUNK = true -> writes (save_gpu true s) (graph_text s) tt.
Proof.
  intros Hw Hv Hm. destruct (live_rows_range s Hw) as (_ & _ & _ & _ & Ef). destruct (live_rows_min s Hw) as [_ Elen]. pose proof (gw_window s Hw) as Hwin.
  unfold save_gpu, graph_text. cbv zeta. eapply writes_step; [by apply writes_guard|].
  eapply writes_bind; [apply write_fixed_text, Hw|].
  eapply writes_step; [apply writes_lift; unfold xmalloc; by rewrite Hm|].
  apply writes_each. intros [il l] Hl. pose proof (combine_Forall2 _ _ _ _ _ (gw_layers s Hw) Hl) as Hok.
  cbn [fst snd]. unfold parts. rewrite <- Ef. fold (live_rows s). rewrite Elen.
  apply (write_graph_layer (graph s) (checkpoint_len s) (live_rows s) il (graph_comp_cap (graph s)) l); [by eapply lookup_combine|lia|exact Hok].
Qed.

(** ** The size of the text *)

Lemma concat_const (rows : list bytes) (n : Z) : Forall (fun b => Z.of_nat (length b) = n) rows -> Z.of_nat (length (concat rows)) = Z.of_nat (length rows) * n.
Proof. induction 1 as [|b rows Hb _ IH]; [done|]. cbn [concat length]. rewrite length_app. lia. Qed.

Lemma layer_parts_length (ring first live il cap : Z) l : 0 < ring -> 0 <= live -> layer_ok ring cap il l ->
  Z.of_nat (length (concat (layer_parts ring first live il (layer_n_comp l) (layer_n_index_comp l) l))) =
    live_size live (ratio_of il) (layer_n_comp l) (layer_n_index_comp l).
Proof.
  intros Hring Hlive [Hraw Hc Hi Hcap Hcomp Hindex]. pose proof (state_bytes_pos il) as [Ha Hx].
  unfold layer_parts, live_size. cbv zeta. rewrite concat_app, length_app, Nat2Z.inj_add. f_equal.
  { rewrite (concat_const _ (DS4_N_HEAD_DIM * 4)); unfold raw_rows; [rewrite length_map, upto_length, Z2Nat.id by lia; unfold DS4_N_HEAD_DIM; lia|].
    apply Forall_map, Forall_forall. intros r _. pose proof (ring_row_range ring first r Hring) as [R1 R2]. cbn beta.
    apply span_length; [done|done|]. eapply holds_le; [exact Hraw|done]. }
  destruct (Z.eqb_spec (ratio_of il) 0) as [E|E]; [done|]. destruct (Hcomp E) as (C1 & C2 & C3). cbn [concat app].
  unfold DS4_N_HEAD_DIM, DS4_N_INDEXER_HEAD_DIM in *. rewrite !length_app, !Nat2Z.inj_add.
  rewrite !span_length by (first [lia|eapply holds_le; [eassumption|lia]]).
  destruct (Z.eqb_spec (ratio_of il) 4) as [E4|]; [|cbn [concat length]; lia]. destruct (Hindex E4) as (I1 & I2 & I3). rewrite E4 in *. cbn [concat].
  rewrite !length_app, !Nat2Z.inj_add, !span_length by (first [lia|eapply holds_le; [eassumption|lia]]). cbn [length]. lia.
Qed.

Lemma rfold_live (ring cap first live : Z) (ls : list (Z * layer_graph tensor)) : 0 < ring -> 0 <= live <= 2 ^ 32 -> cap <= 2 ^ 32 ->
  Forall (fun p => fst p ∈ layers /\ layer_ok ring cap (fst p) (snd p)) ls -> forall b, 0 <= b -> b + Z.of_nat (length ls) * 2 ^ 46 <= 2 ^ 60 ->
  let text := concat (map (fun p => concat (layer_parts ring first live (fst p) (layer_n_comp (snd p)) (layer_n_index_comp (snd p)) (snd p))) ls) in
  rfold (fun b p => ratio <- ds4_layer_compress_ratio (fst p) ;; Ok (live_layer_bytes live ratio (layer_n_comp (snd p)) (layer_n_index_comp (snd p)) b)) b ls =
    Ok (b + Z.of_nat (length text)) /\ Z.of_nat (length text) <= Z.of_nat (length ls) * 2 ^ 46.
Proof.
  intros Hring Hlive Hcap Hls. cbv zeta. induction Hls as [|[il l] ls [Hil Hok] _ IH]; intros b Hb Hbb; cbn [rfold map concat fst snd].
  - cbn [length]. rewrite Z.add_0_r. split; [done|lia].
  - cbn [fst snd] in *. cbn [length] in Hbb. rewrite Nat2Z.inj_succ in Hbb. pose proof (lo_n_comp _ _ _ _ Hok). pose proof (lo_n_index _ _ _ _ Hok). pose proof (lo_cap _ _ _ _ Hok).
    rewrite (ratio_spec il Hil). cbn beta iota. rewrite live_layer_exact by lia.
    pose proof (live_size_bound live il (layer_n_comp l) (layer_n_index_comp l) Hlive ltac:(lia) ltac:(lia)).
    destruct (IH (b + live_size live (ratio_of il) (layer_n_comp l) (layer_n_index_comp l)) ltac:(lia) ltac:(lia)) as [E Hle]. rewrite E.
    rewrite length_app, Nat2Z.inj_add, (layer_parts_length ring first live il cap l) by (done || lia). cbn [length]. rewrite Nat2Z.inj_succ. split; [f_equal; lia|lia].
Qed.

Lemma combine_ok (P : Z -> layer_graph tensor -> Prop) (ils : list Z) (ls : list (layer_graph tensor)) : Forall2 P ils ls ->
  Forall (fun p => fst p ∈ ils /\ P (fst p) (snd p)) (combine ils ls).
Proof.
  intros HP. apply Forall_forall. intros [il l] Hl. split; [by eapply lookup_combine|]. by eapply combine_Forall2.
Qed.

Lemma graph_text_size s : graph_wf s -> Z.of_nat (length (graph_text s)) =
  4 * 13 + 4 * checkpoint_len s + DS4_N_VOCAB * 4 + 8 * DS4_N_LAYER +
    Z.of_nat (length (concat (map (fun p => concat (parts s (fst p) (snd p))) (combine layers (graph_layers (graph s)))))).
Proof.
  intros Hw. unfold graph_text. rewrite length_app, Nat2Z.inj_add, fixed_text_length by apply Hw. rewrite !length_map.
  change (length (gpu_header s)) with 13%nat. pose proof (Forall2_length _ _ _ (gw_layers s Hw)) as E. change (length layers) with 43%nat in E. rewrite <- E.
  unfold checkpoint_len, DS4_N_LAYER. lia.
Qed.

Lemma graph_text_length s : graph_wf s -> checkpoint_valid s = true -> ds4_session_payload_bytes s = Ok (Z.of_nat (length (graph_text s))).
Proof.
  intros Hw Hv. destruct (live_rows_min s Hw) as [_ Elen]. destruct (live_rows_range s Hw) as (L1 & _ & _ & _ & _).
  pose proof (gw_ring s Hw) as Hr. pose proof (gw_comp s Hw) as [_ Hc]. pose proof (gw_window s Hw). pose proof (gw_len s Hw). pose proof (gw_ctx s Hw).
  unfold UINT32_MAX, INT_MAX in *. assert (0 <= checkpoint_len s) by (unfold checkpoint_len; lia).
  unfold ds4_session_payload_bytes. rewrite Hv, (gw_gpu s Hw). cbn [negb]. unfold session_payload_live_tensor_bytes. fold (live_rows s).
  pose proof (Forall2_length _ _ _ (gw_layers s Hw)) as En. change (length layers) with 43%nat in En.
  destruct (rfold_live (graph_raw_cap (graph s)) (graph_comp_cap (graph s)) (first_row s) (live_rows s) (combine layers (graph_layers (graph s)))
    ltac:(lia) ltac:(lia) ltac:(lia) (combine_ok _ _ _ (gw_layers s Hw)) 0 ltac:(lia)) as [E Hle].
  { rewrite length_combine. change (length layers) with 43%nat. rewrite <- En. cbn. lia. }
  rewrite E. cbn beta iota. f_equal. rewrite graph_text_size by done. unfold parts. rewrite length_combine in Hle. change (length layers) with 43%nat in Hle. rewrite <- En in Hle.
  change (Nat.min 43 43) with 43%nat in Hle. rewrite fixed_exact by (unfold INT_MAX; lia). unfold DS4_N_VOCAB, DS4_N_LAYER. rewrite u64_small by zlia. lia.
Qed.

Lemma graph_text_bound s : graph_wf s -> checkpoint_valid s = true -> Z.of_nat (length (graph_text s)) <= UINT64_MAX.
Proof.
  intros Hw Hv. pose proof (graph_text_length s Hw Hv) as E. unfold ds4_session_payload_bytes in E. rewrite Hv, (gw_gpu s Hw) in E. cbn [negb] in E.
  destruct (session_payload_live_tensor_bytes _ _) as [v|]; cbn beta iota in E; [|done]. apply ok_inj in E. rewrite <- E. unfold u64, UINT64_MAX.
  match goal with |- ?a mod ?b <= _ => pose proof (Z.mod_pos_bound a b ltac:(lia)) end. lia.
Qed.

(** ** Loading *)

Record graph_takes_over s1 s2 : Prop := {
  gt_source : graph_wf s1;
  gt_valid : checkpoint_valid s1 = true;
  gt_target : graph_wf s2;
  gt_ctx : ctx_size s1 <= ctx_size s2;
  gt_window : raw_window (graph s1) = raw_window (graph s2);
  gt_prefill : prefill_cap s1 = prefill_cap s2;
  gt_comp : graph_comp_cap (graph s1) <= graph_comp_cap (graph s2);
  gt_caps : Forall2 (fun l1 l2 => layer_comp_cap l1 <= layer_comp_cap l2) (graph_layers (graph s1)) (graph_layers (graph s2))
}.

Lemma gpu_header_u32 s : graph_wf s -> Forall is_u32 (gpu_header s).
Proof.
  intros Hw. destruct (live_rows_range s Hw) as (L1 & _ & _ & _ & _). pose proof (gw_ring s Hw) as Hr. pose proof (gw_window s Hw) as Hwin.
  assert (Hm : forall z, is_u32 (u32 z)) by (intros z; unfold is_u32, u32, UINT32_MAX; pose proof (Z.mod_pos_bound z (2 ^ 32) ltac:(lia)); lia).
  unfold gpu_header. cbv zeta. fold (live_rows s).
  repeat (apply Forall_cons; split); [..|apply Forall_nil; exact I];
    try apply Hm; try apply Hw; split; try lia; vm_compute; discriminate.
Qed.

Lemma gpu_checks_pass s1 s2 : graph_takes_over s1 s2 ->
  reads (check_header (gpu_header s1) (raw_window (graph s2)) (graph_raw_cap (graph s2)) (graph_comp_cap (graph s2))) s2 [] s2 tt.
Proof.
  intros [H1 Hv H2 Hctx Hwin Hpre Hcomp _]. destruct (live_rows_range s1 H1) as (L1 & L2 & L3 & L4 & _). destruct (live_rows_min s1 H1) as [El Elen].
  pose proof (gw_ctx s1 H1) as Hc1. pose proof (gw_ctx s2 H2) as Hc2. pose proof (gw_len s1 H1) as Hlen. pose proof (gw_window s1 H1). pose proof (gw_window s2 H2).
  unfold INT_MAX in *. unfold gpu_header. cbv zeta. fold (live_rows s1). rewrite Elen, (u32_small (ctx_size s1)) by zlia.
  apply header_passes; cbn [nth]; rewrite ?(u32_small (ctx_size s2)) by zlia; try lia; try done. by rewrite <- Hwin.
Qed.

Lemma graph_counts (ring cap : Z) (ils : list Z) (l1s l2s : list (layer_graph tensor)) : Forall2 (layer_ok ring cap) ils l1s ->
  Forall2 (fun l1 l2 => layer_comp_cap l1 <= layer_comp_cap l2) l1s l2s ->
  Forall2 (fun n c => 0 <= n <= cap /\ n <= c) (map layer_n_comp l1s) (map layer_comp_cap l2s) /\
  Forall2 (fun n c => 0 <= n <= cap /\ n <= c) (map layer_n_index_comp l1s) (map layer_comp_cap l2s).
Proof.
  intros Hok. revert l2s. induction Hok as [|il l1 ils l1s Hl _ IH]; intros l2s Hc; inversion Hc; subst; cbn [map]; [split; constructor|].
  match goal with E : Forall2 _ l1s _ |- _ => destruct (IH _ E) as [IH1 IH2] end.
  destruct Hl as [_ Hn Hi Hcap _ _]. split; constructor; (done || lia).
Qed.

(** A row of the loop over the layers: the layer, the restored one and the saved one. *)
Abbreviation graph_row := (Z * (layer_graph tensor * layer_graph tensor))%type.
Definition graph_row_counts (r : graph_row) : Z * (Z * Z) := (fst r, (layer_n_comp (snd (snd r)), layer_n_index_comp (snd (snd r)))).

Definition with_layers s (ls : list (layer_graph tensor)) : ds4_session tensor := s <| graph ::= fun g => g <| graph_layers := ls |> |>.

Lemma reads_graph_layers (ring1 cap1 ring0 cap0 live first tokens : Z) (rows : list graph_row) : first = u32 (tokens - live) -> forall s pre,
  Forall (fun r => fst r ∈ layers /\ graph_fits ring1 cap1 ring0 cap0 (fst r) live first (snd (snd r)) (fst (snd r))) rows ->
  map fst rows = map Z.of_nat (seq (length pre) (length rows)) -> graph_layers (graph s) = pre ++ map (fun r => fst (snd r)) rows ->
  reads_to (each (fun q => at_graph (fst q) (read_layer_gpu ring0 tokens live (fst q) (fst (snd q)) (snd (snd q)))) (map graph_row_counts rows)) s
    (concat (map (fun r => concat (layer_parts ring1 first live (fst r) (layer_n_comp (snd (snd r))) (layer_n_index_comp (snd (snd r))) (snd (snd r)))) rows))
    (fun s' => exists ls, s' = with_layers s (pre ++ ls) /\
      Forall2 (fun r l => layer_restored ring1 cap1 ring0 cap0 (fst r) live first (snd (snd r)) (fst (snd r)) l) rows ls) tt.
Proof.
  intros Hfirst. induction rows as [|[il [l0 l1]] rows IH]; intros s pre Hf Hi Hs; cbn [map each concat].
  - apply reads_to_ret. exists []. split; [|constructor]. cbn [map] in Hs. rewrite app_nil_r in *. unfold with_layers. destruct s as [? [] ]. cbn in *. by subst.
  - apply Forall_cons in Hf as [[Hil Hf] Hfs]. cbn [fst snd map length seq] in *. injection Hi as Hk Hi. subst il.
    eapply reads_to_bind.
    + unfold graph_row_counts. cbn [fst snd]. unfold at_graph.
      apply (reads_to_zoom (fun s => nth_graph (graph s) (Z.of_nat (length pre)))
        (fun l s => s <| graph ::= fun g => g <| graph_layers := <[Z.to_nat (Z.of_nat (length pre)) := l]> (graph_layers g) |> |>)).
      cbv beta. unfold nth_graph. rewrite Hs, Nat2Z.id, nth_middle. exact (reads_graph_layer ring1 cap1 ring0 cap0 _ live first tokens l1 l0 Hil Hf Hfirst).
    + intros s' (l & Hl & ->). rewrite Nat2Z.id.
      assert (Eg : s <| graph ::= fun g => g <| graph_layers := <[length pre := l]> (graph_layers g) |> |> = with_layers s ((pre ++ [l]) ++ map (fun r => fst (snd r)) rows)).
      { assert (Ei : <[length pre := l]> (graph_layers (graph s)) = (pre ++ [l]) ++ map (fun r => fst (snd r)) rows)
          by (rewrite Hs, insert_app_r_alt, Nat.sub_diag, <- app_assoc by lia; done).
        unfold with_layers. rewrite <- Ei. by destruct s as [? [] ]. }
      rewrite Eg. eapply reads_to_mono; [|apply (IH _ (pre ++ [l]) Hfs)].
      * intros s' (ls & -> & Hls). exists (l :: ls). split; [|by constructor]. rewrite <- (app_assoc pre [l] ls). unfold with_layers. destruct s as [? [] ]. reflexivity.
      * rewrite length_app. cbn [length]. by replace (length pre + 1)%nat with (S (length pre)) by lia.
      * unfold with_layers. destruct s as [? [] ]. done.
Qed.

Lemma first_row_eq s : graph_wf s -> first_row s = u32 (checkpoint_len s - live_rows s).
Proof. intros Hw. symmetry. apply live_rows_range. exact Hw. Qed.

Definition rows_of s1 s2 : list graph_row := zip layers (zip (graph_layers (graph s2)) (graph_layers (graph s1))).

Lemma zip3 {A} (ils : list Z) (l0s l1s : list A) : length ils = length l0s -> length l0s = length l1s ->
  map fst (zip ils (zip l0s l1s)) = ils /\ map (fun r => fst (snd r)) (zip ils (zip l0s l1s)) = l0s /\
  map (fun r => (fst r, snd (snd r))) (zip ils (zip l0s l1s)) = combine ils l1s.
Proof.
  revert l0s l1s. induction ils as [|il ils IH]; intros [|l0 l0s] [|l1 l1s] E1 E2; try discriminate; [done|].
  destruct (IH l0s l1s ltac:(cbn in *; lia) ltac:(cbn in *; lia)) as (H1 & H2 & H3). cbn [zip_with map combine fst snd]. by rewrite H1, H2, H3.
Qed.

Lemma combine_map_map {A} (f g : A -> Z) (ils : list Z) (ls : list A) :
  combine ils (combine (map f ls) (map g ls)) = map (fun p => (fst p, (f (snd p), g (snd p)))) (combine ils ls).
Proof. revert ls. induction ils as [|il ils IH]; intros [|l ls]; try done. cbn [map combine fst snd]. by rewrite IH. Qed.

Lemma graph_lengths s1 s2 : graph_wf s1 -> graph_wf s2 ->
  length layers = length (graph_layers (graph s2)) /\ length (graph_layers (graph s2)) = length (graph_layers (graph s1)).
Proof.
  intros H1 H2. pose proof (Forall2_length _ _ _ (gw_layers s1 H1)) as E1. pose proof (Forall2_length _ _ _ (gw_layers s2 H2)) as E2. split; congruence.
Qed.

(** The relation between the rows and what is restored from them. *)
Definition row_restored s1 s2 (r : graph_row) l : Prop :=
  layer_restored (graph_raw_cap (graph s1)) (graph_comp_cap (graph s1)) (graph_raw_cap (graph s2)) (graph_comp_cap (graph s2)) (fst r) (live_rows s1)
    (first_row s1) (snd (snd r)) (fst (snd r)) l.

Lemma rows_fit_list (ring1 cap1 ring0 cap0 live first : Z) (ils : list Z) (l1s l0s : list (layer_graph tensor)) :
  0 <= live /\ live <= ring1 /\ live <= ring0 /\ 0 < ring1 /\ 0 <= first /\ first + live <= UINT32_MAX ->
  Forall2 (layer_ok ring1 cap1) ils l1s -> Forall2 (layer_ok ring0 cap0) ils l0s ->
  Forall2 (fun l1 l2 => layer_comp_cap l1 <= layer_comp_cap l2) l1s l0s ->
  Forall (fun r => fst r ∈ ils /\ graph_fits ring1 cap1 ring0 cap0 (fst r) live first (snd (snd r)) (fst (snd r))) (zip ils (zip l0s l1s)).
Proof.
  intros Hlive W1. revert l0s. induction W1 as [|il l1 ils l1s Hl1 _ IH]; intros l0s W0 Hcaps; [constructor|].
  destruct l0s as [|l0 l0s]; [by inversion W0|]. apply Forall2_cons in W0 as [Hl0 W0]. apply Forall2_cons in Hcaps as [Hc Hcaps].
  cbn [zip_with]. apply Forall_cons. split; [split; [by left|by constructor]|].
  eapply Forall_impl; [exact (IH l0s W0 Hcaps)|]. cbn beta. intros r [Hr Hf]. split; [by right|exact Hf].
Qed.

Lemma rows_fit s1 s2 : graph_takes_over s1 s2 -> Forall (fun r => fst r ∈ layers /\
  graph_fits (graph_raw_cap (graph s1)) (graph_comp_cap (graph s1)) (graph_raw_cap (graph s2)) (graph_comp_cap (graph s2)) (fst r) (live_rows s1)
    (first_row s1) (snd (snd r)) (fst (snd r))) (rows_of s1 s2).
Proof.
  intros [H1 Hv H2 Hctx Hwin Hpre Hcomp Hcaps]. destruct (live_rows_range s1 H1) as (L1 & L2 & L3 & L4 & _).
  pose proof (gw_len s1 H1). pose proof (gw_ctx s1 H1). pose proof (gw_window s1 H1). pose proof (gw_window s2 H2).
  apply rows_fit_list; [unfold first_row, UINT32_MAX, INT_MAX in *; lia|apply H1|apply H2|exact Hcaps].
Qed.

(** The session after the restore, where [ls] are its layers. *)
Definition graph_restored s1 s2 (ls : list (layer_graph tensor)) : ds4_session tensor :=
  (set_counts (map layer_n_comp (graph_layers (graph s1))) (map layer_n_index_comp (graph_layers (graph s1)))
    ((with_layers (s2 <| logits := logits s1 |>) ls) <| checkpoint := checkpoint s1 |>)) <| checkpoint_valid := true |> <| mtp_draft_valid := false |>.

Lemma load_graph_reads s1 s2 : graph_takes_over s1 s2 -> malloc_ok DS4_SESSION_IO_CHUNK = true ->
  ends_to load_payload s2 (graph_text s1) (fun s => exists ls, s = graph_restored s1 s2 ls /\ Forall2 (row_restored s1 s2) (rows_of s1 s2) ls) tt.
Proof.
  intros Ht Hm. pose proof Ht as [H1 Hv H2 _ _ _ _ Hcaps]. destruct (live_rows_min s1 H1) as [_ Elen]. destruct (graph_lengths s1 s2 H1 H2) as [E1 E2].
  destruct (zip3 layers _ _ E1 E2) as (Z1 & Z2 & Z3). fold (rows_of s1 s2) in Z1, Z2, Z3.
  unfold load_payload, graph_text, fixed_text. rewrite <- app_assoc.
  eapply ends_to_step; [by apply reads_u32s; [apply gpu_header_u32|]|].
  eapply ends_to_skip; [by apply reads_guard|]. apply ends_to_get. intros st. cbv beta iota. rewrite (gw_gpu s2 H2).
  unfold load_gpu. apply ends_to_get. intros st'. cbv beta iota zeta. eapply ends_to_skip; [by apply gpu_checks_pass|].
  destruct (graph_counts _ _ _ _ _ (gw_layers s1 H1) Hcaps) as [C1 C2].
  eapply ends_to_step.
  { apply reads_fixed_part; unfold gpu_header; cbv zeta; cbn [nth]; [exact Elen|apply H1|apply H1|apply H2|apply (gw_comp s1 H1)|exact C1|exact C2]. }
  cbv beta iota. eapply ends_to_skip; [apply reads_lift; unfold xmalloc; by rewrite Hm|].
  rewrite <- (app_nil_r (concat _)), combine_map_map, <- Z3, map_map. eapply ends_to_bind.
  { rewrite map_map. unfold parts. cbn [fst snd].
    change (nth 7 (gpu_header s1) 0) with (u32 (checkpoint_len s1)). change (nth 12 (gpu_header s1) 0) with (live_rows s1). rewrite Elen.
    apply (reads_graph_layers _ (graph_comp_cap (graph s1)) _ (graph_comp_cap (graph s2)) (live_rows s1) (first_row s1) (checkpoint_len s1) (rows_of s1 s2) (first_row_eq s1 H1) _ []).
    - by apply rows_fit.
    - rewrite Z1. cbn [length]. unfold rows_of. rewrite !length_zip_with. unfold layers at 1. f_equal. f_equal. rewrite <- E2, <- E1. reflexivity.
    - cbn [app]. rewrite Z2. by destruct s2. }
  intros s' (ls & -> & Hls). eapply ends_to_of; [apply ends_finish|]. exists ls. split; [reflexivity|exact Hls].
Qed.

(** ** The restored session *)

Definition counted l (n : Z * Z) : layer_graph tensor := l <| layer_n_comp := fst n |> <| layer_n_index_comp := snd n |>.

Lemma counted_parts (ring first live il nc ni : Z) l (n : Z * Z) : layer_parts ring first live il nc ni (counted l n) = layer_parts ring first live il nc ni l.
Proof. by destruct l. Qed.

Lemma counted_ok (ring cap il : Z) l (n : Z * Z) : layer_ok ring cap il l -> 0 <= fst n <= layer_comp_cap l -> 0 <= snd n <= layer_comp_cap l ->
  layer_ok ring cap il (counted l n).
Proof. intros [H1 H2 H3 H4 H5 H6] Hn Hi. destruct l. constructor; assumption. Qed.

(** The same counts and live parts. *)
Definition same_parts s1 s (p : Z * layer_graph tensor) l : Prop :=
  layer_n_comp l = layer_n_comp (snd p) /\ layer_n_index_comp l = layer_n_index_comp (snd p) /\ parts s (fst p) l = parts s1 (fst p) (snd p).

Lemma counted_layers (ring1 cap1 ring0 cap0 live first : Z) (ils : list Z) (l0s l1s ls : list (layer_graph tensor)) :
  length ils = length l0s -> length l0s = length l1s ->
  Forall (fun r => fst r ∈ layers /\ graph_fits ring1 cap1 ring0 cap0 (fst r) live first (snd (snd r)) (fst (snd r))) (zip ils (zip l0s l1s)) ->
  Forall2 (fun r l => layer_restored ring1 cap1 ring0 cap0 (fst r) live first (snd (snd r)) (fst (snd r)) l) (zip ils (zip l0s l1s)) ls ->
  Forall2 (layer_ok ring0 cap0) ils (zip_with counted ls (combine (map layer_n_comp l1s) (map layer_n_index_comp l1s))) /\
  Forall2 (fun p l => layer_n_comp l = layer_n_comp (snd p) /\ layer_n_index_comp l = layer_n_index_comp (snd p) /\
      layer_parts ring0 first live (fst p) (layer_n_comp l) (layer_n_index_comp l) l =
      layer_parts ring1 first live (fst p) (layer_n_comp (snd p)) (layer_n_index_comp (snd p)) (snd p))
    (combine ils l1s) (zip_with counted ls (combine (map layer_n_comp l1s) (map layer_n_index_comp l1s))).
Proof.
  revert l0s l1s ls. induction ils as [|il ils IH]; intros [|l0 l0s] [|l1 l1s] ls E1 E2 Hf Hr; try discriminate.
  { inversion Hr. split; constructor. }
  cbn [zip_with] in *. destruct ls as [|l ls]; [by inversion Hr|]. apply Forall2_cons in Hr as [(R1 & R2 & R3 & R4 & R5) Hr]. apply Forall_cons in Hf as [[_ Hfl] Hf].
  destruct (IH l0s l1s ls ltac:(cbn in *; lia) ltac:(cbn in *; lia) Hf Hr) as [I1 I2]. cbn [fst snd] in *.
  destruct Hfl as [[_ Hn1 Hi1 _ _ _] _ _ Hcc]. cbn [map combine zip_with]. split; constructor; try assumption.
  - apply counted_ok; cbn [fst snd]; [exact R4|lia|lia].
  - cbn [fst snd]. destruct l as [? ? ? ? ? ? ? ? ? ?]. split_and!; [done|done|exact R5].
Qed.

Lemma restored_layers_eq s1 s2 (ls : list (layer_graph tensor)) : graph_layers (graph (graph_restored s1 s2 ls)) =
  zip_with counted ls (combine (map layer_n_comp (graph_layers (graph s1))) (map layer_n_index_comp (graph_layers (graph s1)))).
Proof. unfold graph_restored, set_counts, with_layers. destruct s2 as [? [] ]. reflexivity. Qed.

(** C36: saving a graph session over reliable device copies writes exactly as
    many bytes as [ds4_session_payload_bytes] announces, and loading them into a
    graph session with the same window and prefill chunk, at least the same
    context and capacities of compressed rows, and any ring of raw rows not smaller than the window,
    succeeds: the tokens, the logits, the counts of rows of every layer and all
    its live parts are those that were saved, each raw row at the place its
    position has in the new ring; the checkpoint is valid and no draft is left. *)
Theorem graph_session_round_trip s1 s2 (n room : Z) (rest : bytes) :
  graph_takes_over s1 s2 -> malloc_ok DS4_SESSION_IO_CHUNK = true -> ds4_session_payload_bytes s1 = Ok n -> n <= room ->
  exists text s,
    ds4_session_save_payload true s1 (WFile [] room) = Ok (WFile text (room - n), Ok tt) /\ Z.of_nat (length text) = n /\
    ds4_session_load_payload n (text ++ rest) s2 = Ok (s, Ok tt) /\
    checkpoint s = checkpoint s1 /\ logits s = logits s1 /\ checkpoint_valid s = true /\ mtp_draft_valid s = false /\ mtp_n_raw (graph s) = 0 /\
    graph_raw_cap (graph s) = graph_raw_cap (graph s2) /\ Forall2 (same_parts s1 s) (combine layers (graph_layers (graph s1))) (graph_layers (graph s)) /\ graph_wf s.
Proof.
  intros Ht Hm Hn Hroom. pose proof Ht as [H1 Hv H2 Hctx Hwin Hpre Hcomp Hcaps]. rewrite (graph_text_length s1 H1 Hv) in Hn. apply ok_inj in Hn as <-.
  destruct (load_graph_reads s1 s2 Ht Hm _ eq_refl (graph_text_bound s1 H1 Hv) rest) as (s & (ls & Es & Hls) & E).
  destruct (graph_lengths s1 s2 H1 H2) as [L1 L2]. destruct (counted_layers _ _ _ _ _ _ _ _ _ ls L1 L2 (rows_fit s1 s2 Ht) Hls) as [W1 W2].
  rewrite <- (restored_layers_eq s1 s2) in W1, W2. rewrite <- Es in W1, W2.
  assert (Eg : raw_window (graph s) = raw_window (graph s2) /\ graph_raw_cap (graph s) = graph_raw_cap (graph s2) /\
    graph_comp_cap (graph s) = graph_comp_cap (graph s2) /\ mtp_n_raw (graph s) = 0 /\ backend s = backend s2 /\ ctx_size s = ctx_size s2 /\ prefill_cap s = prefill_cap s2)
    by (subst s; unfold graph_restored, set_counts, with_layers; by destruct s2 as [? [] ]).
  assert (Ef : checkpoint s = checkpoint s1 /\ logits s = logits s1 /\ checkpoint_valid s = true /\ mtp_draft_valid s = false)
    by (subst s; unfold graph_restored, set_counts, with_layers; by destruct s2 as [? [] ]).
  clear Es. destruct Eg as (G1 & G2 & G3 & G4 & G5 & G6 & G7). destruct Ef as (F1 & F2 & F3 & F4).
  assert (Elen : checkpoint_len s = checkpoint_len s1) by (unfold checkpoint_len; by rewrite F1).
  assert (Hw : graph_wf s).
  { pose proof (gw_len s1 H1). constructor; rewrite ?G1, ?G2, ?G3, ?G6, ?G7, ?F1, ?F2, ?Elen; try apply H2; try apply H1; [|lia|exact W1].
    unfold ds4_session_is_cpu. rewrite G5. apply H2. }
  assert (Elive : live_rows s = live_rows s1) by (rewrite (proj1 (live_rows_min s Hw)), (proj1 (live_rows_min s1 H1)), Elen; by rewrite G1, Hwin).
  exists (graph_text s1), s. split_and!; try done.
  - unfold ds4_session_save_payload. rewrite Hv, (gw_gpu s1 H1). cbn [negb]. exact (save_graph_text s1 H1 Hv Hm (WFile [] room) Hroom).
  - unfold ds4_session_load_payload. unfold runs in E. by rewrite E.
  - unfold same_parts, parts, first_row. rewrite Elive, Elen, G2. exact W2.
Qed.
End Graphs.

(** ** An example *)

#[export] Instance array_reliable : Reliable bytes.
Proof. constructor; cbn; eauto. Defined.

Definition blank (n : Z) : bytes := replicate (Z.to_nat n) NUL.

Lemma blank_holds (n k : Z) : 0 <= n -> k <= n -> holds (Some (blank n)) k.
Proof. intros Hn Hk. exists (blank n). split; [done|]. cbn [ds4_gpu_tensor_bytes array_ops]. unfold blank. rewrite length_replicate. lia. Qed.

(** A layer with one compressed row, in a ring of this size. *)
Definition blank_layer (ring count il : Z) : layer_graph bytes :=
  LayerGraph count count 1 (Some (blank (ring * 2048))) (Some (blank 2048)) (Some (blank (layer_attn_state_bytes (ratio_of il))))
    (Some (blank (layer_attn_state_bytes (ratio_of il)))) (Some (blank 512)) (Some (blank (layer_index_state_bytes 4))) (Some (blank (layer_index_state_bytes 4))).

Lemma blank_layer_ok (ring count il : Z) : 0 <= ring -> 0 <= count <= 1 -> layer_ok ring 1 il (blank_layer ring count il).
Proof.
  intros Hr Hc. pose proof (state_bytes_pos il) as [Ha Hx]. unfold blank_layer.
  constructor; cbn [layer_n_comp layer_n_index_comp layer_comp_cap layer_raw_cache layer_attn_comp_cache layer_attn_state_kv layer_attn_state_score
    layer_index_comp_cache layer_index_state_kv layer_index_state_score]; try lia.
  - apply blank_holds; unfold DS4_N_HEAD_DIM; lia.
  - intros _. split_and!; apply blank_holds; unfold DS4_N_HEAD_DIM; lia.
  - intros _. split_and!; apply blank_holds; unfold DS4_N_INDEXER_HEAD_DIM; try lia; by vm_compute.
Qed.

Definition graph_example (ring count ctx : Z) (tokens : list Z) (valid : bool) : ds4_session bytes :=
  Session DS4_BACKEND_METAL (Graph ring 2 1 0 (map (blank_layer ring count) layers)) [] tokens (zeros DS4_N_VOCAB) 2048 ctx valid valid.

Lemma graph_example_wf (ring count ctx : Z) (tokens : list Z) (valid : bool) : 2 <= ring <= UINT32_MAX -> 0 <= count <= 1 ->
  Z.of_nat (length tokens) < ctx <= INT_MAX -> Forall is_int tokens -> graph_wf (graph_example ring count ctx tokens valid).
Proof.
  intros Hr Hc Hl Ht. constructor; cbn [ctx_size prefill_cap logits checkpoint graph raw_window graph_raw_cap graph_comp_cap graph_layers graph_example].
  - reflexivity.
  - lia.
  - split; unfold UINT32_MAX; lia.
  - by apply zeros_length.
  - exact Ht.
  - unfold checkpoint_len. cbn [checkpoint graph_example]. lia.
  - lia.
  - lia.
  - split; unfold UINT32_MAX; lia.
  - generalize layers. induction l as [|il l IH]; cbn [map]; constructor; [apply blank_layer_ok; lia|exact IH].
Qed.

Lemma graph_example_takes_over : graph_takes_over (graph_example 3 1 16 [5; 7; 9; 11] true) (graph_example 5 0 20 [] false).
Proof.
  assert (Hint : forall z, -10 <= z <= 20 -> is_int z) by (intros z Hz; unfold is_int, INT_MIN, INT_MAX; lia).
  constructor; cbn [ctx_size prefill_cap graph raw_window graph_comp_cap graph_layers graph_example checkpoint_valid]; try lia; try reflexivity.
  - apply graph_example_wf; [unfold UINT32_MAX; lia|lia|unfold INT_MAX; cbn; lia|repeat (apply Forall_cons; split; [apply Hint; lia|]); by apply Forall_nil].
  - apply graph_example_wf; [unfold UINT32_MAX; lia|lia|unfold INT_MAX; cbn; lia|by apply Forall_nil].
  - generalize layers. induction l as [|il l IH]; cbn [map]; constructor; [cbn [layer_comp_cap blank_layer]; lia|exact IH].
Qed.

#[local] Existing Instance unlimited.

Lemma graph_session_round_trip_witness : graph_takes_over (graph_example 3 1 16 [5; 7; 9; 11] true) (graph_example 5 0 20 [] false) /\
  exists n text s, ds4_session_payload_bytes (graph_example 3 1 16 [5; 7; 9; 11] true) = Ok n /\
    ds4_session_save_payload true (graph_example 3 1 16 [5; 7; 9; 11] true) (WFile [] n) = Ok (WFile text (n - n), Ok tt) /\
    ds4_session_load_payload n (text ++ []) (graph_example 5 0 20 [] false) = Ok (s, Ok tt) /\ checkpoint s = [5; 7; 9; 11].
Proof.
  pose proof graph_example_takes_over as Ht. split; [exact Ht|].
  assert (E : exists n, ds4_session_payload_bytes (graph_example 3 1 16 [5; 7; 9; 11] true) = Ok n) by (eexists; lazy; reflexivity). destruct E as [n E].
  destruct (graph_session_round_trip _ _ n n [] Ht eq_refl E ltac:(lia)) as (text & s & E1 & _ & E2 & E3 & _).
  exists n, text, s. split_and!; assumption.
Defined.
