(* ===== verification/Sampler.v ===== *)
(** * The sampler (ds4.c)

    Choosing the next token from the logits: the largest one, or a random one
    among the likeliest, and the scores that the server reports.  Floats are
    IEEE singles as [SpecFloat] computes them; the functions of the C library
    are parameters. *)
From Stdlib Require Import Floats.SpecFloat.
From S2P Require Import Prelude.
From S2P Require Import SourceFormats.
From S2P Require Import Gguf.
From S2P Require Import Io.
From S2P Require Import Weights.
From S2P Require Import Session.

(** expf, exp and log of the C library. *)
Class MathFun := { expf : f32 -> f32; exp_ : f64 -> f64; log_ : f64 -> f64 }.

(** -1.0e30f. *)
Definition DS4_NEG_INF : f32 := f32_from_bits 0xf149f2ca.

Definition isfinite (v : f32) : bool := match v with S754_zero _ | S754_finite _ _ _ => true | _ => false end.

Definition f32_add : f32 -> f32 -> f32 := SFadd 24 128.
Definition f32_sub : f32 -> f32 -> f32 := SFsub 24 128.
Definition f32_div : f32 -> f32 -> f32 := SFdiv 24 128.
Definition f32_0 : f32 := S754_zero false.
Definition f32_1 : f32 := f32_of_int 1.

(** The logits with their indices, from [i]. *)
Fixpoint indexed (i : Z) (logits : list f32) : list (Z * f32) :=
  match logits with [] => [] | v :: logits => (i, v) :: indexed (i + 1) logits end.

(** ** The largest logit *)

Definition sample_argmax (logits : list f32) : Z :=
  fst (foldl (fun best c => if SFltb (snd best) (snd c) then c else best) (0, DS4_NEG_INF) (indexed 0 logits)).

Definition logits_top2 (logits : list f32) : (Z * f32) * (Z * f32) :=
  foldl (fun b c =>
      let '(b0, b1) := b in
      if SFltb (snd b0) (snd c) then (c, b0) else if SFltb (snd b1) (snd c) then (b0, c) else b)
    ((-1, DS4_NEG_INF), (-1, DS4_NEG_INF)) (indexed 0 logits).

Definition argmax_excluding (logits : list f32) (excluded_id : Z) : Z :=
  fst (foldl (fun best c =>
      if fst c =? excluded_id then best
      else if (fst best <? 0) || SFltb (snd best) (snd c) then c else best)
    (-1, DS4_NEG_INF) (indexed 0 logits)).

(** ** Random numbers *)

(** The new state and the number. *)
Definition sample_rng_next (state : Z) : Z * Z :=
  let x := if state =? 0 then 0x9e3779b97f4a7c15 else state in
  let x := Z.lxor x (Z.shiftr x 12) in
  let x := Z.lxor x (u64 (Z.shiftl x 25)) in
  let x := Z.lxor x (Z.shiftr x 27) in
  (x, u64 (x * 0x2545f4914f6cdd1d)).

Definition sample_rng_f32 (state : Z) : Z * f32 :=
  let '(state, x) := sample_rng_next state in
  (state, f32_div (f32_of_int (Z.land (Z.shiftr x 40) 0xffffff)) (f32_of_int 16777216)).

(** ** Sampling *)

Record sample_candidate := SampleCandidate { cand_id : Z; cand_logit : f32; cand_prob : f32 }.

Definition sample_candidate_cmp_desc (a b : sample_candidate) : Z :=
  Z.b2z (SFltb (cand_logit a) (cand_logit b)) - Z.b2z (SFltb (cand_logit b) (cand_logit a)).

(** qsort of the C library. *)
Class Qsort := qsort : (sample_candidate -> sample_candidate -> Z) -> list sample_candidate -> list sample_candidate.

(** The candidates of the cumulative filter: how many they are and their sum;
    [rest] starts with candidate [i]. *)
Fixpoint cut_candidates (sum top_p min_prob : f32) (i : Z) (filtered : Z) (filtered_sum : f32) (rest : list f32) : Z * f32 :=
  match rest with
  | [] => (filtered, filtered_sum)
  | prob :: rest =>
      let p := f32_div prob sum in
      if (0 <? i) && SFltb p min_prob then (filtered, filtered_sum)
      else
        let filtered_sum := f32_add filtered_sum prob in
        let filtered := filtered + 1 in
        if SFleb top_p (f32_div filtered_sum sum) then (filtered, filtered_sum)
        else cut_candidates sum top_p min_prob (i + 1) filtered filtered_sum rest
  end.

(** The candidate in whose share [r] falls. *)
Fixpoint draw (r : f32) (cands : list (Z * f32)) : option Z :=
  match cands with
  | [] => None
  | (id, prob) :: cands => let r := f32_sub r prob in if SFleb r f32_0 then Some id else draw r cands
  end.

(** The part of both samplers behind the probabilities: from the candidates in
    descending order, where [best] is the first of them. *)
Definition choose (cands : list (Z * f32)) (sum top_p min_p : f32) (rng best : Z) : Z * Z :=
  let min_prob := SFmul 24 128 (f32_div (snd (nth 0 cands (0, f32_0))) sum) min_p in
  let '(filtered, filtered_sum) := cut_candidates sum top_p min_prob 0 0 f32_0 (map snd cands) in
  if filtered <=? 0 then (best, rng)
  else
    let '(rng, u) := sample_rng_f32 rng in
    let r := SFmul 24 128 u filtered_sum in
    match draw r (take (Z.to_nat filtered) cands) with
    | Some id => (id, rng)
    | None => (fst (nth (Z.to_nat (filtered - 1)) cands (0, f32_0)), rng)
    end.

Section Sampler.
Context `{MathFun} `{Qsort} `{Allocator}.

Definition finite_logits (logits : list f32) : list (Z * f32) := List.filter (fun c => isfinite (snd c)) (indexed 0 logits).

(** The token and the new state of the generator. *)
Definition sample_full_vocab (logits : list f32) (temperature top_p min_p : f32) (rng : Z) : pres (Z * Z) :=
  let finite := finite_logits logits in
  let '(best, max_logit) := foldl (fun best c => if SFltb (snd best) (snd c) then c else best) (0, DS4_NEG_INF) finite in
  let prob := fun v => expf (f32_div (f32_sub v max_logit) temperature) in
  let min_pos := if SFltb f32_0 min_p then min_p else f32_0 in
  let useless := fun sum => SFleb sum f32_0 || negb (isfinite sum) in
  match finite with
  | [] => Ok (sample_argmax logits, rng)
  | _ =>
      if SFleb f32_1 top_p then
        let kept := List.filter (fun c => negb (SFltb (snd c) min_pos)) (map (fun c => (fst c, prob (snd c))) finite) in
        let sum := foldl (fun sum c => f32_add sum (snd c)) f32_0 kept in
        if useless sum then Ok (best, rng)
        else
          let '(rng, u) := sample_rng_f32 rng in
          Ok (match draw (SFmul 24 128 u sum) kept with Some id => id | None => best end, rng)
      else
        _ <- xmalloc (Z.of_nat (length finite) * 12) ;;
        let cand := map (fun c => SampleCandidate (fst c) (snd c) (prob (snd c))) finite in
        let sum := foldl (fun sum c => f32_add sum (cand_prob c)) f32_0 cand in
        if useless sum then Ok (best, rng)
        else Ok (choose (map (fun c => (cand_id c, cand_prob c)) (qsort sample_candidate_cmp_desc cand)) sum top_p min_pos rng best)
  end.

(** The loop that makes room in the sorted arrays for a logit: from index [j]
    down, with the entries behind it moved; an entry that does not exist is
    read before it is written. *)
Fixpoint make_room (v : f32) (j : nat) (cand : list (Z * f32)) : nat * list (Z * f32) :=
  match j with
  | O => (O, cand)
  | Datatypes.S j' =>
      match cand !! j' with
      | Some c => if SFltb (snd c) v then make_room v j' (<[j := c]> cand) else (j, cand)
      | None => (j, cand)
      end
  end.

(** One turn of the loop over the logits. *)
Definition add_candidate (top_k : nat) (cand : list (Z * f32)) (c : Z * f32) : list (Z * f32) :=
  let n := length cand in
  if negb (isfinite (snd c)) then cand
  else if Nat.eqb n top_k && match cand !! (n - 1)%nat with Some l => SFleb (snd c) (snd l) | None => false end then cand
  else
    (* A new entry of the arrays, which has no value yet. *)
    let '(j, cand) := if Nat.ltb n top_k then make_room (snd c) n (cand ++ [c]) else make_room (snd c) (n - 1) cand in
    <[j := c]> cand.

(** The arrays ids and vals of the sampler, which have 1024 entries, after the
    loop over the logits. *)
Definition top_candidates (logits : list f32) (top_k : Z) : list (Z * f32) :=
  let top_k := if 1024 <? top_k then 1024 else top_k in
  let top_k := if Z.of_nat (length logits) <? top_k then Z.of_nat (length logits) else top_k in
  foldl (add_candidate (Z.to_nat top_k)) [] (indexed 0 logits).

Definition sample_top_p_min_p (logits : list f32) (temperature : f32) (top_k : Z) (top_p min_p : f32) (rng : Z) : pres (Z * Z) :=
  if SFleb temperature f32_0 then Ok (sample_argmax logits, rng)
  else
    let top_p := if SFleb top_p f32_0 || SFltb f32_1 top_p then f32_1 else top_p in
    let min_p := if SFltb min_p f32_0 then f32_0 else min_p in
    if top_k <=? 0 then sample_full_vocab logits temperature top_p min_p rng
    else
      let cand := top_candidates logits top_k in
      match cand with
      | [] => Ok (sample_argmax logits, rng)
      | (id0, max_logit) :: _ =>
          let probs := map (fun c => (fst c, expf (f32_div (f32_sub (snd c) max_logit) temperature))) cand in
          let sum := foldl (fun sum c => f32_add sum (snd c)) f32_0 probs in
          if SFleb sum f32_0 || negb (isfinite sum) then Ok (id0, rng)
          else Ok (choose probs sum top_p min_p rng id0)
      end.

(** ** Scores *)

Record ds4_token_score := TokenScore { score_id : Z; score_logit : f32; score_logprob : f32 }.

(** [s] at the first place whose score is lower, or that is free. *)
Fixpoint place (s : ds4_token_score) (out : list ds4_token_score) : list ds4_token_score :=
  match out with
  | [] => []
  | o :: out' => if (score_id o <? 0) || SFltb (score_logit o) (score_logit s) then s :: removelast out else o :: place s out'
  end.

Definition log_sum (logits : list f32) (max_logit : f32) : f64 :=
  let sum := foldl (fun sum c => f64_add sum (exp_ (SFsub 53 1024 (f64_of_f32 (snd c)) (f64_of_f32 max_logit)))) (S754_zero false) (finite_logits logits) in
  f64_add (f64_of_f32 max_logit) (log_ sum).

Definition logprob_of (v : f32) (logsum : f64) : f32 :=
  if isfinite v then f32_of_f64 (SFsub 53 1024 (f64_of_f32 v) logsum) else DS4_NEG_INF.

(** The largest finite logit, at least the least value. *)
Definition max_finite (logits : list f32) : f32 := foldl (fun m c => if SFltb m (snd c) then snd c else m) DS4_NEG_INF (finite_logits logits).

(** The scores up to the first free place; the others stay as they are. *)
Fixpoint set_logprobs (logsum : f64) (out : list ds4_token_score) : list ds4_token_score :=
  match out with
  | [] => []
  | o :: out' => if score_id o <? 0 then out else TokenScore (score_id o) (score_logit o) (logprob_of (score_logit o) logsum) :: set_logprobs logsum out'
  end.

(** The number that is returned and the array. *)
Definition top_logprobs (logits : list f32) (k : Z) : Z * list ds4_token_score :=
  if k <=? 0 then (0, [])
  else
    let k := if Z.of_nat (length logits) <? k then Z.of_nat (length logits) else k in
    let out := foldl (fun out c => place (TokenScore (fst c) (snd c) DS4_NEG_INF) out)
      (replicate (Z.to_nat k) (TokenScore (-1) DS4_NEG_INF DS4_NEG_INF)) (finite_logits logits) in
    let max_logit := max_finite logits in
    if negb (isfinite max_logit) then (0, out) else (k, set_logprobs (log_sum logits max_logit) out).

Definition token_logprob (logits : list f32) (token : Z) : option ds4_token_score :=
  if (token <? 0) || (Z.of_nat (length logits) <=? token) then None
  else
    let max_logit := max_finite logits in
    if negb (isfinite max_logit) then None
    else
      let v := nth (Z.to_nat token) logits f32_0 in
      Some (TokenScore token v (logprob_of v (log_sum logits max_logit))).

(** ** The calls of sessions *)

(** The logits of a session are the bytes of its floats. *)
Fixpoint floats_of (b : bytes) : list f32 :=
  match b with
  | b0 :: b1 :: b2 :: b3 :: b => f32_from_bits (payload_get_u32 [b0; b1; b2; b3]) :: floats_of b
  | _ => []
  end.

Context {tensor : Type}.
Implicit Types (s : ds4_session tensor).

Definition ds4_session_argmax s : Z := sample_argmax (floats_of (logits s)).
Definition ds4_session_argmax_excluding s (excluded_id : Z) : Z := argmax_excluding (floats_of (logits s)) excluded_id.
Definition ds4_session_sample s (temperature : f32) (top_k : Z) (top_p min_p : f32) (rng : Z) : pres (Z * Z) :=
  sample_top_p_min_p (floats_of (logits s)) temperature top_k top_p min_p rng.
Definition ds4_session_top_logprobs s (k : Z) : Z * list ds4_token_score := top_logprobs (floats_of (logits s)) k.
Definition ds4_session_token_logprob s (token : Z) : option ds4_token_score := token_logprob (floats_of (logits s)) token.
End Sampler.
