(* ===== verification/SamplerProps.v ===== *)
(** * What the sampler chooses

    The order of finite floats, stable insertion into a sorted list as the
    specification of both selections of the likeliest tokens, and what can be
    chosen, whatever the functions of the C library return. *)
From Stdlib Require Import Floats.SpecFloat Sorting.Sorted.
From S2P Require Import Prelude.
From S2P Require Import SourceFormats.
From S2P Require Import Io.
From S2P Require Import Weights.
From S2P Require Import Session.
From S2P Require Import Sampler.

(** ** The order of floats *)

Definition number (v : f32) : bool := match v with S754_nan => false | _ => true end.

(** Sign, exponent and mantissa, which order floats from the left. *)
Definition rank (v : f32) : Z * Z * Z :=
  match v with
  | S754_finite false m e => (1, e, Zpos m)
  | S754_finite true m e => (-1, - e, - Zpos m)
  | S754_infinity false => (2, 0, 0)
  | S754_infinity true => (-2, 0, 0)
  | _ => (0, 0, 0)
  end.

Definition rank_lt (a b : Z * Z * Z) : Prop :=
  let '(s1, e1, m1) := a in let '(s2, e2, m2) := b in s1 < s2 \/ s1 = s2 /\ (e1 < e2 \/ e1 = e2 /\ m1 < m2).

Lemma compare_pos (a b : positive) : Pos.compare_cont Eq a b = (Zpos a ?= Zpos b).
Proof. reflexivity. Qed.

Lemma ltb_rank (a b : f32) : number a = true -> number b = true -> SFltb a b = true <-> rank_lt (rank a) (rank b).
Proof.
  intros Ha Hb. destruct a as [sa|sa| |sa ma ea], b as [sb|sb| |sb mb eb]; try discriminate; clear Ha Hb; unfold SFltb; cbn [SFcompare].
  all: try (try destruct sa; try destruct sb; cbn; split; try discriminate; try lia; done).
  destruct sa, sb; cbn [rank rank_lt].
  - destruct (Z.compare_spec ea eb); cbn; [|split; [discriminate|lia]|split; [lia|done]].
    rewrite compare_pos, <- Z.compare_antisym. destruct (Z.compare_spec (Zpos mb) (Zpos ma)); cbn; split; try discriminate; try lia; done.
  - split; [lia|done].
  - split; [discriminate|lia].
  - destruct (Z.compare_spec ea eb); cbn; [|split; [lia|done]|split; [discriminate|lia]].
    rewrite compare_pos. destruct (Z.compare_spec (Zpos ma) (Zpos mb)); cbn; split; try discriminate; try lia; done.
Qed.

Lemma ltb_nan (a b : f32) : SFltb a b = true -> number a = true /\ number b = true.
Proof. destruct a, b; by split. Qed.

Lemma finite_number (v : f32) : isfinite v = true -> number v = true.
Proof. by destruct v. Qed.

Lemma leb_ltb (a b : f32) : isfinite a = true -> isfinite b = true -> SFleb a b = negb (SFltb b a).
Proof.
  destruct a as [sa| | |sa ma ea], b as [sb| | |sb mb eb]; try discriminate; intros _ _; unfold SFltb, SFleb; cbn [SFcompare]; try done.
  - by destruct sb.
  - by destruct sa.
  - destruct sa, sb; try done; rewrite (Z.compare_antisym eb ea); destruct (eb ?= ea); cbn; try done;
      rewrite !compare_pos, (Z.compare_antisym (Zpos mb)); by destruct (Zpos mb ?= Zpos ma).
Qed.

(** An entry of a sorted list is not lower than a later one. *)
Definition not_lower (a b : Z * f32) : Prop := SFltb (snd a) (snd b) = false.
Abbreviation descending := (StronglySorted not_lower).
Abbreviation all_finite := (Forall (fun c : Z * f32 => isfinite (snd c) = true)).

Lemma not_lower_trans (a b c : f32) : isfinite a = true -> isfinite b = true -> isfinite c = true ->
  SFltb a b = false -> SFltb b c = false -> SFltb a c = false.
Proof.
  intros Ha%finite_number Hb%finite_number Hc%finite_number H1 H2. apply not_true_iff_false. rewrite ltb_rank by done.
  apply not_true_iff_false in H1, H2. rewrite ltb_rank in H1, H2 by done.
  destruct (rank a) as [[sa ea] ma], (rank b) as [[sb eb] mb], (rank c) as [[sc ec] mc]. unfold rank_lt in *. lia.
Qed.

(** What is not above [a] is not above what is above [a]. *)
Lemma above_not_lower (a b c : f32) : SFltb a b = true -> SFltb a c = false -> SFltb b c = false.
Proof.
  intros H1 H2. destruct (SFltb b c) eqn:H3; [|done]. destruct (ltb_nan _ _ H1) as [Ha Hb]. destruct (ltb_nan _ _ H3) as [_ Hc].
  apply not_true_iff_false in H2. rewrite ltb_rank in H1, H2, H3 by done.
  destruct (rank a) as [[sa ea] ma], (rank b) as [[sb eb] mb], (rank c) as [[sc ec] mc]. unfold rank_lt in *. lia.
Qed.

Lemma lower_not_lower (a b c : f32) : isfinite a = true -> isfinite b = true -> isfinite c = true ->
  SFltb a b = true -> SFltb c b = false -> SFltb c a = false.
Proof.
  intros Ha%finite_number Hb%finite_number Hc%finite_number H1 H2. apply not_true_iff_false. rewrite ltb_rank by done.
  apply not_true_iff_false in H2. rewrite ltb_rank in H1, H2 by done.
  destruct (rank a) as [[sa ea] ma], (rank b) as [[sb eb] mb], (rank c) as [[sc ec] mc]. unfold rank_lt in *. lia.
Qed.

Lemma ltb_irrefl (a : f32) : isfinite a = true -> SFltb a a = false.
Proof. intros Ha%finite_number. apply not_true_iff_false. rewrite ltb_rank by done. destruct (rank a) as [[s e] m]. unfold rank_lt. lia. Qed.

(** ** Stable insertion *)

Fixpoint ins (c : Z * f32) (l : list (Z * f32)) : list (Z * f32) :=
  match l with [] => [c] | x :: l' => if SFltb (snd x) (snd c) then c :: l else x :: ins c l' end.

Definition isort (l : list (Z * f32)) : list (Z * f32) := foldl (fun acc c => ins c acc) [] l.

Lemma ins_perm (c : Z * f32) (l : list (Z * f32)) : Permutation (ins c l) (c :: l).
Proof. induction l as [|x l IH]; cbn [ins]; [done|]. destruct (SFltb _ _); [done|]. rewrite IH. by constructor. Qed.

Lemma ins_length (c : Z * f32) (l : list (Z * f32)) : length (ins c l) = S (length l).
Proof. by rewrite ins_perm. Qed.

Lemma ins_finite (c : Z * f32) (l : list (Z * f32)) : isfinite (snd c) = true -> all_finite l -> all_finite (ins c l).
Proof. intros Hc Hl. rewrite ins_perm. by constructor. Qed.

Lemma ins_descending (c : Z * f32) (l : list (Z * f32)) : isfinite (snd c) = true -> all_finite l -> descending l -> descending (ins c l).
Proof.
  intros Hc Hf Hs. induction Hs as [|x l Hs IH Hx]; cbn [ins]; [repeat constructor|]. apply Forall_cons in Hf as [Hfx Hf].
  destruct (SFltb (snd x) (snd c)) eqn:E.
  - constructor; [by constructor|]. assert (Hcx : not_lower c x) by (by apply (lower_not_lower (snd x) (snd c) (snd c)); [..|apply ltb_irrefl]).
    constructor; [done|]. rewrite Forall_forall in Hx, Hf |- *. intros y Hy. by apply (not_lower_trans (snd c) (snd x) (snd y)); [|..|apply Hx]; auto.
  - constructor; [by apply IH|]. rewrite ins_perm. by constructor.
Qed.

Lemma isort_snoc (l : list (Z * f32)) (c : Z * f32) : isort (l ++ [c]) = ins c (isort l).
Proof. unfold isort. by rewrite foldl_app. Qed.

Lemma isort_spec (l : list (Z * f32)) : all_finite l -> Permutation (isort l) l /\ descending (isort l).
Proof.
  induction l as [|c l IH] using rev_ind; intros Hf; [split; [done|constructor]|]. rewrite isort_snoc. apply Forall_app in Hf as [Hf Hc].
  apply Forall_cons in Hc as [Hc _]. destruct (IH Hf) as [Hp Hs]. split.
  - rewrite ins_perm, Hp. by rewrite Permutation_app_comm.
  - apply ins_descending; [done| |done]. by rewrite Hp.
Qed.

(** The larger logit comes first, and of equal ones that with the lower index. *)
Definition before (a b : Z * f32) : Prop :=
  SFltb (snd b) (snd a) = true \/ SFltb (snd a) (snd b) = false /\ SFltb (snd b) (snd a) = false /\ fst a < fst b.

Lemma ins_before (c : Z * f32) (l : list (Z * f32)) : isfinite (snd c) = true -> all_finite l -> StronglySorted before l ->
  descending l -> Forall (fun x => fst x < fst c) l -> StronglySorted before (ins c l).
Proof.
  intros Hc Hf Hs Hd Hi. induction Hs as [|x l Hs IH Hx]; cbn [ins]; [repeat constructor|]. pose proof Hf as Hf'. apply Forall_cons in Hf as [Hfx Hf].
  apply Forall_cons in Hi as [Hix Hi]. inversion Hd as [|? ? Hd' Hxl]; subst. destruct (SFltb (snd x) (snd c)) eqn:E.
  - constructor; [by constructor|]. constructor; [by left|]. rewrite Forall_forall in Hxl, Hf |- *. intros y Hy. left.
    pose proof (Hxl y Hy) as Hxy. pose proof (Hf y Hy) as Hfy. unfold not_lower in Hxy. apply not_false_iff_true. intros Hyc.
    pose proof (not_lower_trans (snd x) (snd y) (snd c) Hfx Hfy Hc Hxy Hyc). congruence.
  - constructor; [by apply IH|]. rewrite ins_perm. constructor; [|done]. destruct (SFltb (snd c) (snd x)) eqn:E2; [by left|by right].
Qed.

(** Insertion in the order of the indices sorts by logit and then by index. *)
Lemma isort_before (l : list (Z * f32)) : all_finite l -> StronglySorted Z.lt (map fst l) -> StronglySorted before (isort l).
Proof.
  induction l as [|c l IH] using rev_ind; intros Hf Hi; [constructor|]. rewrite isort_snoc. apply Forall_app in Hf as [Hf Hc].
  apply Forall_cons in Hc as [Hc _]. rewrite map_app in Hi. cbn [map] in Hi. destruct (isort_spec l Hf) as [Hp Hd].
  assert (Hsplit : StronglySorted Z.lt (map fst l) /\ Forall (fun i => i < fst c) (map fst l)).
  { revert Hi. generalize (map fst l). clear. intros l. induction l as [|i l IH]; cbn [app]; intros Hs; [by split; constructor|].
    inversion Hs as [|? ? Hs' Hx]; subst. destruct (IH Hs') as [H1 H2]. apply Forall_app in Hx as [Hx Hc]. apply Forall_cons in Hc as [Hc _].
    split; by constructor. }
  destruct Hsplit as [Hs Hlt]. apply ins_before; [done|by rewrite Hp|by apply IH|done|]. rewrite Hp. apply Forall_map in Hlt. exact Hlt.
Qed.

(** Only the first [k] matter for the first [k]. *)
Lemma take_ins (c : Z * f32) (k : nat) (l : list (Z * f32)) : take k (ins c (take k l)) = take k (ins c l).
Proof.
  revert l. induction k as [|k IH]; intros l; [done|]. destruct l as [|x l]; [done|]. cbn [take ins].
  destruct (SFltb (snd x) (snd c)); cbn [take]; [|by rewrite IH]. destruct k; [done|]. cbn [take]. by rewrite take_take, Nat.min_l by lia.
Qed.

(** An entry goes behind those that are not lower and before those that are. *)
Lemma ins_split (c : Z * f32) (l1 l2 : list (Z * f32)) : Forall (fun x => SFltb (snd x) (snd c) = false) l1 ->
  match l2 with [] => True | x :: _ => SFltb (snd x) (snd c) = true end -> ins c (l1 ++ l2) = l1 ++ c :: l2.
Proof.
  intros H1 H2. induction H1 as [|x l1 Hx _ IH]; cbn [app ins].
  - destruct l2 as [|x l2]; [done|]. cbn [ins]. by rewrite H2.
  - by rewrite Hx, IH.
Qed.

(** ** The candidates of the sampler *)

(** From the hole [h], the loop moves the lower entries and leaves the place
    behind those that are not lower. *)
Lemma make_room_spec (v : f32) (pre : list (Z * f32)) : forall h post, exists pre1 pre2 d, pre = pre1 ++ pre2 /\
  Forall (fun x => SFltb (snd x) v = true) pre2 /\ match last pre1 with Some x => SFltb (snd x) v = false | None => True end /\
  make_room v (length pre) (pre ++ h :: post) = (length pre1, pre1 ++ d :: pre2 ++ post).
Proof.
  induction pre as [|x pre IH] using rev_ind; intros h post; [by exists [], [], h|].
  rewrite length_app, <- app_assoc. cbn [length app]. rewrite Nat.add_1_r. cbn [make_room]. rewrite list_lookup_middle by done.
  destruct (SFltb (snd x) v) eqn:E.
  - rewrite insert_app_r_alt, Nat.sub_succ_l, Nat.sub_diag by lia. destruct (IH x (x :: post)) as (pre1 & pre2 & d & -> & H2 & H1 & Er).
    change (<[1%nat:=x]> (x :: h :: post)) with (x :: x :: post). rewrite Er.
    exists pre1, (pre2 ++ [x]), d. rewrite <- !app_assoc. split_and!; [done| |done|done]. apply Forall_app. split; [done|by constructor].
  - exists (pre ++ [x]), [], h. rewrite app_nil_r, last_snoc. split_and!; [done|constructor|done|].
    rewrite length_app. cbn [length]. by rewrite Nat.add_1_r, <- app_assoc.
Qed.

(** Everything before an entry that is not lower is not lower. *)
Lemma not_lower_before (c : Z * f32) (l : list (Z * f32)) : isfinite (snd c) = true -> all_finite l -> descending l ->
  match last l with Some x => SFltb (snd x) (snd c) = false | None => True end -> Forall (fun x => SFltb (snd x) (snd c) = false) l.
Proof.
  intros Hc Hf Hs. induction Hs as [|x l Hs IH Hx]; intros Hl; [constructor|]. apply Forall_cons in Hf as [Hfx Hf].
  destruct l as [|y l]; [by repeat constructor|]. rewrite last_cons_cons in Hl. specialize (IH Hf Hl). constructor; [|done].
  apply Forall_cons in IH as [Hy _]. apply Forall_cons in Hx as [Hxy _]. apply Forall_cons in Hf as [Hfy _]. by apply (not_lower_trans (snd x) (snd y) (snd c)).
Qed.

Lemma descending_app_l (l1 l2 : list (Z * f32)) : descending (l1 ++ l2) -> descending l1.
Proof.
  induction l1 as [|x l1 IH]; cbn [app]; intros Hs; [constructor|]. inversion Hs as [|? ? Hs' Hx]; subst. constructor; [by apply IH|].
  by apply Forall_app in Hx as [Hx _].
Qed.

Lemma make_room_ins (c : Z * f32) (pre : list (Z * f32)) (h : Z * f32) : isfinite (snd c) = true -> all_finite pre -> descending pre ->
  let '(j, cand) := make_room (snd c) (length pre) (pre ++ [h]) in <[j := c]> cand = ins c pre.
Proof.
  intros Hc Hf Hs. destruct (make_room_spec (snd c) pre h []) as (pre1 & pre2 & d & -> & H2 & H1 & ->).
  rewrite insert_app_r_alt, Nat.sub_diag, app_nil_r by lia. change (<[0%nat:=c]> (d :: pre2)) with (c :: pre2). symmetry.
  apply Forall_app in Hf as [Hf _]. apply descending_app_l in Hs. apply ins_split; [by apply not_lower_before|]. by destruct H2.
Qed.

Lemma descending_take (k : nat) (l : list (Z * f32)) : descending l -> descending (take k l).
Proof. rewrite <- (take_drop k l) at 1. apply descending_app_l. Qed.

Lemma ins_last (c l : Z * f32) (pre : list (Z * f32)) : SFltb (snd l) (snd c) = true -> ins c (pre ++ [l]) = ins c pre ++ [l].
Proof. intros Hl. induction pre as [|x pre IH]; cbn [app ins]; [by rewrite Hl|]. destruct (SFltb (snd x) (snd c)); [done|]. by rewrite IH. Qed.

Lemma add_candidate_ins (k : nat) (cand : list (Z * f32)) (c : Z * f32) : (0 < k)%nat -> (length cand <= k)%nat -> all_finite cand -> descending cand ->
  add_candidate k cand c = if isfinite (snd c) then take k (ins c cand) else cand.
Proof.
  intros Hk Hlen Hf Hs. unfold add_candidate. destruct (isfinite (snd c)) eqn:Hc; [|done]. cbn [negb].
  destruct (Nat.eqb_spec (length cand) k) as [E|N]; cbn [andb].
  - assert (Hcand : exists pre l, cand = pre ++ [l]) by (destruct cand using rev_ind; [cbn in E; lia|by eexists _, _]).
    destruct Hcand as (pre & l & ->). rewrite length_app in *. cbn [length] in *.
    replace (length pre + 1 - 1)%nat with (length pre) by lia. rewrite list_lookup_middle by done.
    pose proof Hf as Hf'. apply Forall_app in Hf' as [Hfp Hfl]. apply Forall_cons in Hfl as [Hfl _].
    rewrite (leb_ltb _ _ Hc Hfl). pose proof (descending_app_l _ _ Hs) as Hsp. destruct (SFltb (snd l) (snd c)) eqn:El; cbn [negb].
    + rewrite (proj2 (Nat.ltb_ge _ _)) by lia. pose proof (make_room_ins c pre l Hc Hfp Hsp) as Er.
      destruct (make_room (snd c) (length pre) (pre ++ [l])) as [j l']. rewrite Er, ins_last by done. symmetry.
      rewrite take_app_le by (rewrite ins_length; lia). apply take_ge. rewrite ins_length. lia.
    + rewrite <- (app_nil_r (pre ++ [l])), ins_split; [|apply not_lower_before; [done|done|done|by rewrite last_snoc]|done].
      rewrite app_nil_r, take_app_le by (rewrite length_app; cbn; lia). symmetry. apply take_ge. rewrite length_app. cbn. lia.
  - rewrite (proj2 (Nat.ltb_lt _ _)) by lia. pose proof (make_room_ins c cand c Hc Hf Hs) as Er.
    destruct (make_room (snd c) (length cand) (cand ++ [c])) as [j l']. rewrite Er. symmetry. apply take_ge. rewrite ins_length. lia.
Qed.

Lemma finite_logits_snoc (l : list (Z * f32)) (c : Z * f32) :
  List.filter (fun c => isfinite (snd c)) (l ++ [c]) = List.filter (fun c => isfinite (snd c)) l ++ if isfinite (snd c) then [c] else [].
Proof. rewrite List.filter_app. cbn [List.filter]. by destruct (isfinite (snd c)). Qed.

Lemma filter_finite (l : list (Z * f32)) : all_finite (List.filter (fun c => isfinite (snd c)) l).
Proof. apply Forall_forall. intros c Hc. apply list_elem_of_In, filter_In in Hc as [_ Hc]. exact Hc. Qed.

(** The loop keeps the first [k] of the finite logits in stable order. *)
Lemma candidates_isort (k : nat) (l : list (Z * f32)) : (0 < k)%nat ->
  foldl (add_candidate k) [] l = take k (isort (List.filter (fun c => isfinite (snd c)) l)).
Proof.
  intros Hk. induction l as [|c l IH] using rev_ind; [by destruct k|]. rewrite foldl_app. cbn [foldl]. rewrite IH, finite_logits_snoc.
  destruct (isort_spec _ (filter_finite l)) as [Hp Hs]. rewrite add_candidate_ins.
  - destruct (isfinite (snd c)); [by rewrite isort_snoc, take_ins|by rewrite app_nil_r].
  - done.
  - rewrite length_take. lia.
  - apply Forall_take. rewrite Hp. apply filter_finite.
  - by apply descending_take.
Qed.

(** ** The scores *)

Definition score_of (c : Z * f32) : ds4_token_score := TokenScore (fst c) (snd c) DS4_NEG_INF.
Definition free_score : ds4_token_score := TokenScore (-1) DS4_NEG_INF DS4_NEG_INF.

(** The array: the entries, and free places up to [k]. *)
Definition padded (k : nat) (l : list (Z * f32)) : list ds4_token_score := map score_of l ++ replicate (k - length l) free_score.

Lemma padded_length (k : nat) (l : list (Z * f32)) : (length l <= k)%nat -> length (padded k l) = k.
Proof. intros Hl. unfold padded. rewrite length_app, length_map, length_replicate. lia. Qed.

Lemma take_padded (j k : nat) (l : list (Z * f32)) : (length l <= k)%nat -> (j <= k)%nat -> take j (padded k l) = padded j (take j l).
Proof.
  intros Hl Hj. unfold padded. rewrite take_app, length_map, firstn_map, take_replicate, length_take. f_equal. f_equal. lia.
Qed.

Lemma place_padded (k : nat) (c : Z * f32) (l : list (Z * f32)) : (length l <= k)%nat -> Forall (fun c => 0 <= fst c) l ->
  place (score_of c) (padded k l) = padded k (take k (ins c l)).
Proof.
  revert k. induction l as [|x l IH]; intros k Hk Hp.
  - unfold padded. cbn [map app length ins]. rewrite Nat.sub_0_r. destruct k as [|k]; [done|]. cbn [replicate place score_id free_score Z.ltb Z.compare orb].
    cbn [take map app length]. rewrite take_nil. cbn [map app length]. f_equal.
    change (free_score :: replicate k free_score) with (replicate (S k) free_score). rewrite removelast_firstn_len, length_replicate, take_replicate.
    f_equal. cbn. lia.
  - pose proof Hp as Hp'. apply Forall_cons in Hp' as [Hx Hpl]. destruct k as [|k]; [cbn in Hk; lia|]. cbn [length] in Hk.
    assert (Ep : padded (S k) (x :: l) = score_of x :: padded k l) by (unfold padded; cbn [length map app]; by rewrite Nat.sub_succ).
    rewrite Ep. cbn [place ins]. change (score_id (score_of x)) with (fst x). change (score_logit (score_of x)) with (snd x).
    change (score_logit (score_of c)) with (snd c). rewrite (proj2 (Z.ltb_ge _ _)) by lia. cbn [orb]. destruct (SFltb (snd x) (snd c)).
    + rewrite <- Ep, removelast_firstn_len, padded_length by (cbn; lia). cbn [Nat.pred]. rewrite take_padded by (cbn; lia).
      cbn [take]. unfold padded at 2. cbn [map app length]. by rewrite Nat.sub_succ.
    + rewrite IH by (done || lia). cbn [take]. unfold padded at 2. cbn [map app length]. by rewrite Nat.sub_succ.
Qed.

Lemma indexed_nonneg (logits : list f32) : forall i, 0 <= i -> Forall (fun c => i <= fst c < i + Z.of_nat (length logits)) (indexed i logits).
Proof.
  induction logits as [|v logits IH]; intros i Hi; cbn [indexed]; [constructor|]. constructor; [cbn; lia|].
  eapply Forall_impl; [apply IH; lia|]. cbn beta. intros c Hc. cbn [length]. lia.
Qed.

(** The array of scores is the first [k] of the finite logits in stable order. *)
Lemma places_isort (k : nat) (l : list (Z * f32)) : all_finite l -> Forall (fun c => 0 <= fst c) l ->
  foldl (fun out c => place (score_of c) out) (replicate k free_score) l = padded k (take k (isort l)).
Proof.
  induction l as [|c l IH] using rev_ind; intros Hf Hp.
  - unfold padded, isort. cbn [foldl]. rewrite take_nil. cbn [map app length]. by rewrite Nat.sub_0_r.
  - apply Forall_app in Hf as [Hf Hc]. apply Forall_app in Hp as [Hp Hpc]. rewrite foldl_app. cbn [foldl]. rewrite IH by done.
    destruct (isort_spec l Hf) as [Hperm _]. rewrite place_padded, isort_snoc, take_ins; [done|rewrite length_take; lia|]. apply Forall_take. by rewrite Hperm.
Qed.

(** ** The largest logit *)

Definition larger (best c : Z * f32) : Z * f32 := if SFltb (snd best) (snd c) then c else best.

Lemma larger_spec (l : list (Z * f32)) (b0 : Z * f32) : number (snd b0) = true -> let b := foldl larger b0 l in
  (b = b0 \/ b ∈ l /\ SFltb (snd b0) (snd b) = true) /\ Forall (fun c => SFltb (snd b) (snd c) = false) (b0 :: l).
Proof.
  cbv zeta. intros Hn. induction l as [|c l IH] using rev_ind.
  - cbn [foldl]. split; [by left|]. constructor; [|constructor]. apply not_true_iff_false. rewrite ltb_rank by done.
    destruct (rank (snd b0)) as [[s e] m]. unfold rank_lt. lia.
  - rewrite foldl_app. cbn [foldl]. set (b := foldl larger b0 l) in *. destruct IH as [Hin Hmax]. unfold larger. destruct (SFltb (snd b) (snd c)) eqn:E.
    + assert (Hab : forall x : Z * f32, SFltb (snd b) (snd x) = false -> SFltb (snd c) (snd x) = false) by (intros x; by apply above_not_lower).
      split.
      * right. split; [apply elem_of_app; right; by left|]. destruct Hin as [-> |[_ Hb]]; [done|].
        destruct (ltb_nan _ _ E) as [N1 N2]. rewrite ltb_rank in E, Hb |- * by done.
        destruct (rank (snd b0)) as [[s1 e1] m1], (rank (snd b)) as [[s2 e2] m2], (rank (snd c)) as [[s3 e3] m3]. unfold rank_lt in *. lia.
      * rewrite app_comm_cons. apply Forall_app. split; [by eapply Forall_impl|]. constructor; [|constructor].
        apply not_true_iff_false. intros Ec. destruct (ltb_nan _ _ Ec) as [N1 _]. rewrite ltb_rank in Ec by done.
        destruct (rank (snd c)) as [[s e] m]. unfold rank_lt in Ec. lia.
    + split; [destruct Hin as [-> |[Hi Hb]]; [by left|right; split; [apply elem_of_app; by left|done]]|].
      rewrite app_comm_cons. apply Forall_app. split; [done|]. by constructor.
Qed.

(** ** What is chosen *)

Lemma cut_bound (sum top_p min_prob : f32) (rest : list f32) : forall i filtered fs, 0 <= filtered ->
  filtered <= fst (cut_candidates sum top_p min_prob i filtered fs rest) <= filtered + Z.of_nat (length rest).
Proof.
  induction rest as [|prob rest IH]; intros i filtered fs Hf; cbn [cut_candidates length]; [cbn; lia|].
  destruct (_ && _); [cbn; lia|]. cbv zeta. destruct (SFleb _ _); [cbn; lia|].
  specialize (IH (i + 1) (filtered + 1) (f32_add fs prob) ltac:(lia)). lia.
Qed.

Lemma draw_in (cands : list (Z * f32)) : forall r id, draw r cands = Some id -> id ∈ map fst cands.
Proof.
  induction cands as [|[i p] cands IH]; intros r id; cbn [draw map fst]; [done|].
  destruct (SFleb _ _); [intros [= ->]; by left|intros E; right; by eapply IH].
Qed.

Lemma choose_in (cands : list (Z * f32)) (sum top_p min_p : f32) (rng best : Z) : best ∈ map fst cands -> fst (choose cands sum top_p min_p rng best) ∈ map fst cands.
Proof.
  intros Hb. unfold choose. pose proof (cut_bound sum top_p (SFmul 24 128 (f32_div (snd (nth 0 cands (0, f32_0))) sum) min_p) (map snd cands) 0 0 f32_0 ltac:(lia)) as Hc.
  destruct (cut_candidates _ _ _ _ _ _ _) as [n fs]. cbn [fst] in Hc. rewrite length_map in Hc. destruct (Z.leb_spec n 0); [done|].
  destruct (sample_rng_f32 rng) as [rng' u]. destruct (draw _ _) as [id|] eqn:E; cbn [fst].
  - apply draw_in in E. apply list_elem_of_In, in_map_iff in E as (c & <- & Hin). apply list_elem_of_In, in_map_iff. exists c. split; [done|].
    rewrite <- (take_drop (Z.to_nat n) cands). apply in_app_iff. by left.
  - apply list_elem_of_In, in_map, nth_In. lia.
Qed.

(** The logits that are above [v]. *)
Definition above (v : f32) (l : list (Z * f32)) : Z := Z.of_nat (length (List.filter (fun c => SFltb v (snd c)) l)).

Lemma filter_none (v : f32) (l : list (Z * f32)) : Forall (fun c => SFltb v (snd c) = false) l -> List.filter (fun c => SFltb v (snd c)) l = [].
Proof. induction 1 as [|c l Hc _ IH]; cbn [List.filter]; [done|]. by rewrite Hc. Qed.

Lemma above_perm (v : f32) (l1 l2 : list (Z * f32)) : Permutation l1 l2 -> above v l1 = above v l2.
Proof.
  unfold above. induction 1 as [|x l1 l2 _ IH|x y l|l1 l2 l3 _ IH1 _ IH2]; cbn [List.filter]; [done| | |congruence].
  - destruct (SFltb v (snd x)); cbn [length]; lia.
  - by destruct (SFltb v (snd x)), (SFltb v (snd y)).
Qed.

(** Less than [k] logits are above one of the first [k]. *)
Lemma among_best (k : nat) (l : list (Z * f32)) (c : Z * f32) : all_finite l -> c ∈ take k (isort l) -> c ∈ l /\ above (snd c) l < Z.of_nat k.
Proof.
  intros Hf Hc. destruct (isort_spec l Hf) as [Hp Hs]. rewrite <- (above_perm (snd c) _ _ Hp).
  apply list_elem_of_lookup in Hc as [i Hi]. apply lookup_take_Some in Hi as [Hi Hik].
  split; [rewrite <- Hp; by eapply list_elem_of_lookup_2|]. pose proof (take_drop_middle _ _ _ Hi) as E.
  rewrite <- E in Hs |- *. unfold above. rewrite List.filter_app, length_app.
  assert (Hsuffix : descending (c :: drop (S i) (isort l))).
  { revert Hs. generalize (take i (isort l)). induction l0 as [|x l0 IH]; cbn [app]; [done|]. intros Hs. inversion Hs; subst. by apply IH. }
  inversion Hsuffix as [|? ? _ Hx]; subst. assert (Hfc : isfinite (snd c) = true).
  { rewrite <- Hp in Hf. rewrite Forall_forall in Hf. apply Hf. by eapply list_elem_of_lookup_2. }
  rewrite (filter_none (snd c) (c :: _)) by (constructor; [by apply ltb_irrefl|exact Hx]). cbn [length].
  pose proof (filter_length_le (fun c0 : Z * f32 => SFltb (snd c) (snd c0)) (take i (isort l))). rewrite length_take in *. lia.
Qed.

Lemma indexed_lookup (logits : list f32) (id : Z) (v : f32) : forall i, (id, v) ∈ indexed i logits -> logits !! Z.to_nat (id - i) = Some v /\ i <= id.
Proof.
  induction logits as [|w logits IH]; intros i Hin; cbn [indexed] in Hin; [by apply not_elem_of_nil in Hin|]. apply elem_of_cons in Hin as [E|Hin].
  - injection E as -> ->. by rewrite Z.sub_diag.
  - destruct (IH (i + 1) Hin) as [E Hle]. split; [|lia]. replace (Z.to_nat (id - i)) with (S (Z.to_nat (id - (i + 1)))) by lia. exact E.
Qed.

Lemma finite_in (logits : list f32) (id : Z) (v : f32) : (id, v) ∈ finite_logits logits -> logits !! Z.to_nat id = Some v /\ 0 <= id /\ isfinite v = true.
Proof.
  intros Hin. apply list_elem_of_In, filter_In in Hin as [Hin Hf]. apply list_elem_of_In, indexed_lookup in Hin as [E Hle]. rewrite Z.sub_0_r in E. done.
Qed.

Section Choice.
Context `{MathFun} `{Qsort} `{Allocator}.

(** The token of a pair of the array is one of the logits. *)
Definition is_logit (logits : list f32) (id : Z) (v : f32) : Prop := 0 <= id /\ logits !! Z.to_nat id = Some v.

Lemma best_candidate (l : list (Z * f32)) (c : Z * f32) : c ∈ l -> SFltb DS4_NEG_INF (snd c) = true ->
  let b := foldl larger (0, DS4_NEG_INF) l in b ∈ l /\ Forall (fun c => SFltb (snd b) (snd c) = false) l.
Proof.
  intros Hc Hgt. destruct (larger_spec l (0, DS4_NEG_INF) eq_refl) as [Hin Hmax]. cbv zeta in *. apply Forall_cons in Hmax as [_ Hmax].
  split; [|done]. destruct Hin as [E|[Hin _]]; [|done]. rewrite Forall_forall in Hmax. specialize (Hmax c Hc). rewrite E in Hmax. cbn [snd] in Hmax. congruence.
Qed.

Lemma argmax_spec (logits : list f32) (c : Z * f32) : c ∈ indexed 0 logits -> SFltb DS4_NEG_INF (snd c) = true ->
  exists v, is_logit logits (sample_argmax logits) v /\ Forall (fun w => SFltb v w = false) logits.
Proof.
  intros Hc Hgt. destruct (best_candidate _ _ Hc Hgt) as [Hin Hmax]. unfold sample_argmax. fold larger. cbv zeta in *.
  destruct (foldl larger (0, DS4_NEG_INF) (indexed 0 logits)) as [id v]. cbn [fst snd] in *. exists v.
  destruct (indexed_lookup _ _ _ _ Hin) as [E Hle]. rewrite Z.sub_0_r in E. split; [done|]. clear -Hmax. revert Hmax. generalize 0.
  induction logits as [|w logits IH]; intros i Hmax; [constructor|]. cbn [indexed] in Hmax. apply Forall_cons in Hmax as [Hw Hmax]. constructor; [done|by eapply IH].
Qed.

Lemma fst_in_finite (logits : list f32) (l : list (Z * f32)) (id : Z) : (forall c, c ∈ l -> c ∈ finite_logits logits) -> id ∈ map fst l ->
  exists v, is_logit logits id v /\ isfinite v = true.
Proof.
  intros Hl Hid. apply list_elem_of_In, in_map_iff in Hid as ([i v] & E & Hin). cbn [fst] in E. subst i. apply list_elem_of_In, Hl, finite_in in Hin as (E & Hle & Hf).
  by exists v.
Qed.

(** qsort permutes. *)
Class QsortLaw := qsort_perm : forall cmp l, Permutation (qsort cmp l) l.

Lemma full_vocab_finite `{QsortLaw} (logits : list f32) (temperature top_p min_p : f32) (rng : Z) (c : Z * f32) : c ∈ finite_logits logits -> SFltb DS4_NEG_INF (snd c) = true ->
  match sample_full_vocab logits temperature top_p min_p rng with
  | Ok (id, _) => exists v, is_logit logits id v /\ isfinite v = true
  | Error e => exists msg, e = Exit 1 msg
  end.
Proof.
  intros Hc Hgt. destruct (best_candidate _ _ Hc Hgt) as [Hbest _]. unfold sample_full_vocab. fold larger. cbv zeta in *.
  destruct (foldl larger (0, DS4_NEG_INF) (finite_logits logits)) as [best m] eqn:Eb.
  assert (Hb : exists v, is_logit logits best v /\ isfinite v = true).
  { exists m. destruct (finite_in _ _ _ Hbest) as (E & Hle & Hf). done. }
  assert (Hall : forall id, id ∈ map fst (finite_logits logits) -> exists v, is_logit logits id v /\ isfinite v = true).
  { intros id. apply fst_in_finite. done. }
  assert (Hbin : best ∈ map fst (finite_logits logits)) by (apply list_elem_of_In, in_map_iff; exists (best, m); split; [done|by apply list_elem_of_In]).
  destruct (finite_logits logits) as [|f fs] eqn:Ef; [by apply not_elem_of_nil in Hc|]. rewrite <- Ef in *. clear Ef.
  destruct (SFleb f32_1 top_p).
  - destruct (_ || _); [exact Hb|]. destruct (sample_rng_f32 rng) as [rng' u]. destruct (draw _ _) as [id|] eqn:Ed; [|exact Hb].
    apply Hall. apply draw_in in Ed. apply list_elem_of_In, in_map_iff in Ed as (x & <- & Hx). apply filter_In in Hx as [Hx _].
    apply in_map_iff in Hx as (y & <- & Hy). cbn [fst]. apply list_elem_of_In. by apply in_map.
  - unfold xmalloc. destruct (malloc_ok _); [|by eexists]. destruct (_ || _); [exact Hb|].
    set (cand := map (fun c0 => SampleCandidate (fst c0) (snd c0) (expf (f32_div (f32_sub (snd c0) m) temperature))) (finite_logits logits)). destruct (choose _ _ _ _ _ _) as [id rng'] eqn:Ec. apply Hall.
    assert (Em : Permutation (map fst (map (fun c0 => (cand_id c0, cand_prob c0)) (qsort sample_candidate_cmp_desc cand))) (map fst (finite_logits logits))).
    { rewrite (qsort_perm sample_candidate_cmp_desc cand). unfold cand. rewrite !map_map. reflexivity. }
    rewrite <- Em in Hbin |- *. pose proof (choose_in _ (foldl (fun sum c0 => f32_add sum (cand_prob c0)) f32_0 cand) top_p (if SFltb f32_0 min_p then min_p else f32_0) rng best Hbin) as Hi.
    rewrite Ec in Hi. exact Hi.
Qed.

(** The limit of the sampler. *)
Lemma top_candidates_isort (logits : list f32) (top_k : Z) : 0 < top_k ->
  top_candidates logits top_k = take (Z.to_nat (Z.min top_k (Z.min 1024 (Z.of_nat (length logits))))) (isort (finite_logits logits)).
Proof.
  intros Hk. unfold top_candidates. cbv zeta.
  assert (E : (if Z.of_nat (length logits) <? (if 1024 <? top_k then 1024 else top_k) then Z.of_nat (length logits)
    else if 1024 <? top_k then 1024 else top_k) = Z.min top_k (Z.min 1024 (Z.of_nat (length logits)))).
  { destruct (Z.ltb_spec 1024 top_k); match goal with |- context [?a <? ?b] => destruct (Z.ltb_spec a b) end; lia. }
  rewrite E. clear E. destruct logits as [|v logits]; [symmetry; apply take_nil|].
  rewrite candidates_isort by (cbn [length]; lia). reflexivity.
Qed.

Lemma candidates_nonempty (logits : list f32) (top_k : Z) : 0 < top_k -> finite_logits logits <> [] -> top_candidates logits top_k <> [].
Proof.
  intros Hk Hf. rewrite top_candidates_isort by done. destruct (isort_spec (finite_logits logits) (filter_finite _)) as [Hp _].
  intros E. destruct logits as [|v logits]; [done|]. set (n := Z.to_nat _) in E.
  assert (n <> 0%nat) by (unfold n; cbn [length]; lia). clearbody n. destruct (isort (finite_logits (v :: logits))); [by apply Permutation_nil in Hp|].
  by destruct n.
Qed.

(** With a temperature and a limit the token is one of the candidates. *)
Lemma sample_candidate_in (logits : list f32) (temperature top_p min_p : f32) (top_k rng : Z) :
  SFleb temperature f32_0 = false -> 0 < top_k -> finite_logits logits <> [] ->
  exists id rng', sample_top_p_min_p logits temperature top_k top_p min_p rng = Ok (id, rng') /\ id ∈ map fst (top_candidates logits top_k).
Proof.
  intros Ht Hk Hf. pose proof (candidates_nonempty logits top_k Hk Hf) as Hne. unfold sample_top_p_min_p. rewrite Ht. cbv zeta.
  rewrite (proj2 (Z.leb_gt _ _)) by lia. destruct (top_candidates logits top_k) as [|[id0 m] cands]; [done|]. set (l := (id0, m) :: cands).
  destruct (_ || _); [exists id0, rng; split; [done|by left]|].
  set (probs := map _ l). set (sum := foldl _ _ _). set (p := if SFleb top_p f32_0 || SFltb f32_1 top_p then f32_1 else top_p).
  set (q := if SFltb min_p f32_0 then f32_0 else min_p).
  assert (Em : map fst probs = map fst l) by (unfold probs; by rewrite map_map).
  pose proof (choose_in probs sum p q rng id0) as Hch. rewrite Em in Hch. destruct (choose probs sum p q rng id0) as [id rng'].
  exists id, rng'. split; [done|]. apply Hch. by left.
Qed.

Lemma top_k_best (logits : list f32) (temperature top_p min_p : f32) (top_k rng : Z) (c : Z * f32) :
  SFleb temperature f32_0 = false -> 0 < top_k -> c ∈ finite_logits logits ->
  exists id rng' v, sample_top_p_min_p logits temperature top_k top_p min_p rng = Ok (id, rng') /\
    is_logit logits id v /\ isfinite v = true /\ above v (finite_logits logits) < Z.min top_k 1024.
Proof.
  intros Ht Hk Hc. assert (Hne : finite_logits logits <> []) by (intros E; rewrite E in Hc; by apply not_elem_of_nil in Hc).
  destruct (sample_candidate_in logits temperature top_p min_p top_k rng Ht Hk Hne) as (id & rng' & E & Hid). exists id, rng'.
  rewrite top_candidates_isort in Hid by done. apply list_elem_of_In, in_map_iff in Hid as ([i v] & Ei & Hin). cbn [fst] in Ei. subst i.
  apply list_elem_of_In in Hin. destruct (among_best _ (finite_logits logits) _ (filter_finite _) Hin) as [Hv Ha].
  destruct (finite_in _ _ _ Hv) as (El & Hle & Hf). cbn [snd] in Ha. exists v. split_and!; (done || lia).
Qed.

(** C38: whatever the settings, the state of the generator and the values that
    expf returns, if some finite logit is above -1e30 the sampler returns the
    index of a logit (only the full vocabulary may run out of memory): without
    temperature none is larger, infinities included; with temperature it is
    finite, and with a limit of [top_k] fewer than [top_k], and than 1024,
    finite logits are larger.  This is for IEEE arithmetic: the Makefile
    compiles with -ffast-math by default, under which a compiler may assume
    that there are no infinities and NaNs. *)
Theorem sample_is_likely `{QsortLaw} (logits : list f32) (temperature top_p min_p : f32) (top_k rng i : Z) (w : f32) :
  is_logit logits i w -> isfinite w = true -> SFltb DS4_NEG_INF w = true ->
  match sample_top_p_min_p logits temperature top_k top_p min_p rng with
  | Ok (id, _) => exists v, is_logit logits id v /\
      (SFleb temperature f32_0 = true -> Forall (fun w => SFltb v w = false) logits) /\
      (SFleb temperature f32_0 = false -> isfinite v = true /\ (0 < top_k -> above v (finite_logits logits) < Z.min top_k 1024))
  | Error e => top_k <= 0 /\ SFleb temperature f32_0 = false /\ exists msg, e = Exit 1 msg
  end.
Proof.
  intros [Hi Hw] Hf Hgt. assert (Hin : (i, w) ∈ indexed 0 logits).
  { rewrite <- (Z2Nat.id i Hi) at 1. replace (Z.of_nat (Z.to_nat i)) with (0 + Z.of_nat (Z.to_nat i)) by lia. revert Hw. generalize 0, (Z.to_nat i). clear.
    induction logits as [|x logits IH]; intros k n Hn; [done|]. destruct n as [|n]; cbn in Hn |- *.
    - injection Hn as ->. rewrite Z.add_0_r. by left.
    - right. replace (k + Z.of_nat (S n)) with (k + 1 + Z.of_nat n) by lia. by apply IH. }
  assert (Hfin : (i, w) ∈ finite_logits logits) by (apply list_elem_of_In, filter_In; split; [by apply list_elem_of_In|done]).
  destruct (SFleb temperature f32_0) eqn:Ht.
  - unfold sample_top_p_min_p. rewrite Ht. destruct (argmax_spec logits (i, w) Hin Hgt) as (v & Hv & Hmax). exists v. split; [done|split; [done|discriminate]].
  - destruct (Z.leb_spec top_k 0) as [L|L].
    + unfold sample_top_p_min_p. rewrite Ht, (proj2 (Z.leb_le _ _)) by done. cbv zeta.
      match goal with |- context [sample_full_vocab ?l ?t ?p ?q ?r] => pose proof (full_vocab_finite l t p q r (i, w) Hfin Hgt) as E; destruct (sample_full_vocab l t p q r) as [[id rng']|e] end.
      * destruct E as (v & Hv & Hfv). exists v. split; [done|split; [discriminate|]]. intros _. split; [done|lia].
      * done.
    + destruct (top_k_best logits temperature top_p min_p top_k rng (i, w) Ht L Hfin) as (id & rng' & v & -> & Hv & Hfv & Ha). exists v. split; [done|split; [discriminate|]]. by intros _.
Qed.
End Choice.

(** ** The scores that are reported *)

Section Scores.
Context `{MathFun} `{Qsort} `{Allocator}.

Lemma max_finite_finite (logits : list f32) : isfinite (max_finite logits) = true.
Proof.
  unfold max_finite. pose proof (filter_finite (indexed 0 logits)) as Hf. fold (finite_logits logits) in Hf. revert Hf. generalize (finite_logits logits).
  intros l. induction l as [|c l IH] using rev_ind; [reflexivity|]. intros Hf. apply Forall_app in Hf as [Hf Hc]. apply Forall_cons in Hc as [Hc _].
  rewrite foldl_app. cbn [foldl]. destruct (SFltb _ _); [done|by apply IH].
Qed.

Lemma set_logprobs_padded (logsum : f64) (k : nat) (l : list (Z * f32)) : Forall (fun c => 0 <= fst c) l ->
  set_logprobs logsum (padded k l) =
    map (fun c => TokenScore (fst c) (snd c) (logprob_of (snd c) logsum)) l ++ replicate (k - length l) free_score.
Proof.
  unfold padded. intros Hp. induction l as [|c l IH] in k, Hp |- *; cbn [map app length].
  - by destruct (k - 0)%nat.
  - apply Forall_cons in Hp as [Hc Hp]. cbn [set_logprobs score_of score_id score_logit]. rewrite (proj2 (Z.ltb_ge _ _)) by lia. f_equal.
    destruct k as [|k]; [apply (IH 0%nat Hp)|rewrite Nat.sub_succ; by apply IH].
Qed.

Lemma finite_logits_ids (logits : list f32) : Forall (fun c => 0 <= fst c) (finite_logits logits).
Proof. apply Forall_forall. intros [i v] Hc. by destruct (finite_in _ _ _ Hc) as (_ & Hle & _). Qed.

Lemma indexed_lt (logits : list f32) : forall i, StronglySorted Z.lt (map fst (indexed i logits)) /\ Forall (Z.le i) (map fst (indexed i logits)).
Proof.
  induction logits as [|v logits IH]; intros i; cbn [indexed map fst]; [by split; constructor|]. destruct (IH (i + 1)) as [Hs Hl]. split.
  - constructor; [done|]. eapply Forall_impl; [exact Hl|]. cbn beta. lia.
  - constructor; [lia|]. eapply Forall_impl; [exact Hl|]. cbn beta. lia.
Qed.

Lemma finite_logits_lt (logits : list f32) : StronglySorted Z.lt (map fst (finite_logits logits)).
Proof.
  unfold finite_logits. pose proof (proj1 (indexed_lt logits 0)) as Hs. revert Hs. generalize (indexed 0 logits). intros l.
  induction l as [|c l IH]; cbn [map List.filter]; intros Hs; [constructor|]. inversion Hs as [|? ? Hs' Hx]; subst. specialize (IH Hs').
  destruct (isfinite (snd c)); [|done]. cbn [map]. constructor; [done|]. rewrite Forall_forall in Hx |- *. intros i Hi. apply Hx.
  apply list_elem_of_In, in_map_iff in Hi as (x & <- & Hin). apply filter_In in Hin as [Hin _]. by apply list_elem_of_In, in_map.
Qed.

Lemma top_logprobs_isort (logits : list f32) (k : Z) : 0 < k -> let k' := Z.min k (Z.of_nat (length logits)) in
  let best := take (Z.to_nat k') (isort (finite_logits logits)) in
  top_logprobs logits k = (k', map (fun c => TokenScore (fst c) (snd c) (logprob_of (snd c) (log_sum logits (max_finite logits)))) best ++
    replicate (Z.to_nat k' - length best) (TokenScore (-1) DS4_NEG_INF DS4_NEG_INF)).
Proof.
  intros Hk. cbv zeta. destruct (isort_spec _ (filter_finite (indexed 0 logits))) as [Hp _]. fold (finite_logits logits) in Hp.
  unfold top_logprobs. rewrite (proj2 (Z.leb_gt _ _)) by lia. cbv zeta.
  assert (Ek : (if Z.of_nat (length logits) <? k then Z.of_nat (length logits) else k) = Z.min k (Z.of_nat (length logits)))
    by (destruct (Z.ltb_spec (Z.of_nat (length logits)) k); lia).
  rewrite Ek, max_finite_finite. cbn [negb]. f_equal.
  etransitivity; [exact (f_equal _ (places_isort (Z.to_nat (Z.min k (Z.of_nat (length logits)))) (finite_logits logits) (filter_finite _) (finite_logits_ids logits)))|].
  apply set_logprobs_padded. apply Forall_take. rewrite Hp. apply finite_logits_ids.
Qed.

(** C39: put the finite logits in descending order, of equal ones that with the
    lower index first: for a limit of [k] the reported scores are the first [k],
    each with its index and its log-probability, and behind them free places,
    and the candidates of the sampler are the first [k] of the same list as well,
    but not more than the 1024 that its arrays hold.  So up to that limit a token
    that is sampled with a temperature is always one of the reported. *)
Theorem top_logprobs_are_candidates (logits : list f32) (k : Z) : 0 < k ->
  let n := Z.of_nat (length logits) in
  let k' := Z.min k n in
  exists sorted, Permutation sorted (finite_logits logits) /\ StronglySorted before sorted /\
    top_logprobs logits k = (k',
      map (fun c => TokenScore (fst c) (snd c) (logprob_of (snd c) (log_sum logits (max_finite logits)))) (take (Z.to_nat k') sorted) ++
      replicate (Z.to_nat k' - length (take (Z.to_nat k') sorted)) (TokenScore (-1) DS4_NEG_INF DS4_NEG_INF)) /\
    top_candidates logits k = take (Z.to_nat (Z.min k (Z.min 1024 n))) sorted /\
    forall temperature top_p min_p rng, SFleb temperature f32_0 = false -> sorted <> [] ->
      exists id rng', sample_top_p_min_p logits temperature k top_p min_p rng = Ok (id, rng') /\
        id ∈ map fst (take (Z.to_nat (Z.min k (Z.min 1024 n))) sorted).
Proof.
  intros Hk. cbv zeta. exists (isort (finite_logits logits)). destruct (isort_spec _ (filter_finite (indexed 0 logits))) as [Hp _].
  fold (finite_logits logits) in Hp. split_and!.
  - exact Hp.
  - apply isort_before; [apply filter_finite|apply finite_logits_lt].
  - by apply top_logprobs_isort.
  - by apply top_candidates_isort.
  - intros temperature top_p min_p rng Ht Hne. rewrite <- top_candidates_isort by done. apply sample_candidate_in; [done..|].
    intros E. apply Hne. by rewrite E.
Qed.
End Scores.

(** ** The generator *)

Lemma u64_lxor (a b : Z) : u64 (Z.lxor a b) = Z.lxor (u64 a) (u64 b).
Proof.
  unfold u64. apply Z.bits_inj'. intros n Hn. rewrite Z.lxor_spec.
  destruct (Z.lt_ge_cases n 64); [rewrite !Z.mod_pow2_bits_low, Z.lxor_spec by lia; done|rewrite !Z.mod_pow2_bits_high by lia; done].
Qed.

(** The three steps map no two 64-bit values to the same one. *)
Lemma xor_right_inj (n a b : Z) : 0 < n -> 0 <= a -> 0 <= b -> Z.lxor a (Z.shiftr a n) = Z.lxor b (Z.shiftr b n) -> a = b.
Proof.
  intros Hn Ha Hb E. apply Z.lxor_eq. set (d := Z.lxor a b). assert (Hd : 0 <= d) by (by apply Z.lxor_nonneg).
  assert (Ed : Z.lxor d (Z.shiftr d n) = 0).
  { unfold d. rewrite Z.shiftr_lxor. replace (Z.lxor (Z.lxor a b) _) with (Z.lxor (Z.lxor a (Z.shiftr a n)) (Z.lxor b (Z.shiftr b n))).
    - rewrite E. apply Z.lxor_nilpotent.
    - rewrite !Z.lxor_assoc. f_equal. rewrite <- !Z.lxor_assoc. f_equal. apply Z.lxor_comm. }
  apply Z.lxor_eq in Ed. rewrite Z.shiftr_div_pow2 in Ed by lia. destruct (Z.eq_dec d 0) as [|N]; [done|].
  assert (2 <= 2 ^ n) by (replace n with (1 + (n - 1)) by lia; rewrite Z.pow_add_r by lia; pose proof (Z.pow_pos_nonneg 2 (n - 1) ltac:(lia) ltac:(lia)); lia).
  pose proof (Z.div_lt d (2 ^ n) ltac:(lia) ltac:(lia)). lia.
Qed.

Lemma xor_left_inj (a b : Z) : is_u64 a -> is_u64 b -> Z.lxor a (u64 (Z.shiftl a 25)) = Z.lxor b (u64 (Z.shiftl b 25)) -> a = b.
Proof.
  intros [Ha1 Ha2] [Hb1 Hb2] E. unfold UINT64_MAX in *. apply Z.lxor_eq. set (d := Z.lxor a b).
  assert (Hd : 0 <= d < 2 ^ 64).
  { split; [by apply Z.lxor_nonneg|]. replace d with (u64 d); [unfold u64; apply Z.mod_pos_bound; lia|].
    unfold d. rewrite u64_lxor. unfold u64. by rewrite !Z.mod_small by lia. }
  assert (Ed : Z.lxor d (u64 (Z.shiftl d 25)) = 0).
  { unfold d. rewrite Z.shiftl_lxor, u64_lxor.
    replace (Z.lxor (Z.lxor a b) _) with (Z.lxor (Z.lxor a (u64 (Z.shiftl a 25))) (Z.lxor b (u64 (Z.shiftl b 25)))).
    - rewrite E. apply Z.lxor_nilpotent.
    - rewrite !Z.lxor_assoc. f_equal. rewrite <- !Z.lxor_assoc. f_equal. apply Z.lxor_comm. }
  apply Z.lxor_eq in Ed. unfold u64 in Ed. rewrite Z.shiftl_mul_pow2 in Ed by lia.
  pose proof (Z.div_mod (d * 2 ^ 25) (2 ^ 64) ltac:(lia)) as Hq. rewrite <- Ed in Hq. set (q := d * 2 ^ 25 / 2 ^ 64) in *.
  assert (Hdiv : (2 ^ 64 | (2 ^ 25 - 1) * d)) by (exists q; lia). apply Z.gauss in Hdiv; [|reflexivity].
  destruct Hdiv as [r Hr]. assert (r = 0) as -> by lia. lia.
Qed.

Lemma xor_u64 (a b : Z) : is_u64 a -> is_u64 b -> is_u64 (Z.lxor a b).
Proof.
  intros [Ha1 Ha2] [Hb1 Hb2]. unfold is_u64, UINT64_MAX in *. assert (E : u64 (Z.lxor a b) = Z.lxor a b) by (rewrite u64_lxor; unfold u64; by rewrite !Z.mod_small by lia).
  rewrite <- E. unfold u64. pose proof (Z.mod_pos_bound (Z.lxor a b) (2 ^ 64) ltac:(lia)). lia.
Qed.

Lemma shiftr_u64 (a n : Z) : 0 <= n -> is_u64 a -> is_u64 (Z.shiftr a n).
Proof.
  intros Hn [Ha1 Ha2]. unfold is_u64 in *. rewrite Z.shiftr_div_pow2 by done. pose proof (Z.pow_pos_nonneg 2 n ltac:(lia) Hn).
  split; [apply Z.div_pos; lia|]. transitivity a; [|done]. apply Z.div_le_upper_bound; nia.
Qed.

Lemma u64_is_u64 (a : Z) : is_u64 (u64 a).
Proof. unfold is_u64, u64, UINT64_MAX. pose proof (Z.mod_pos_bound a (2 ^ 64) ltac:(lia)). lia. Qed.

(** The three steps on the state. *)
Definition mix (x : Z) : Z :=
  let x := Z.lxor x (Z.shiftr x 12) in let x := Z.lxor x (u64 (Z.shiftl x 25)) in Z.lxor x (Z.shiftr x 27).

Lemma mix_u64 (x : Z) : is_u64 x -> is_u64 (mix x).
Proof. intros Hx. unfold mix. cbv zeta. repeat (first [apply xor_u64|apply shiftr_u64|apply u64_is_u64|exact Hx|lia]). Qed.

Lemma mix_inj (x y : Z) : is_u64 x -> is_u64 y -> mix x = mix y -> x = y.
Proof.
  intros Hx Hy E. unfold mix in E. cbv zeta in E.
  assert (H1 : forall z, is_u64 z -> is_u64 (Z.lxor z (Z.shiftr z 12))) by (intros z Hz; apply xor_u64; [done|by apply shiftr_u64]).
  pose proof (H1 x Hx) as Hx1. pose proof (H1 y Hy) as Hy1.
  apply xor_right_inj in E; [|lia|apply xor_u64; [done|apply u64_is_u64]|apply xor_u64; [done|apply u64_is_u64]].
  apply xor_left_inj in E; [|done|done]. apply xor_right_inj in E; [done|lia|apply Hx|apply Hy].
Qed.

Lemma next_state (s : Z) : fst (sample_rng_next s) = mix (if s =? 0 then 0x9e3779b97f4a7c15 else s).
Proof. reflexivity. Qed.

(** C40: the state of the generator stays a 64-bit number that is never zero,
    so that it does not get stuck, and no two states other than zero are followed
    by the same state: the sequence has no tail that runs into a cycle. *)
Theorem sample_rng_permutes (s t : Z) : is_u64 s -> is_u64 t ->
  let next := fun s => fst (sample_rng_next s) in
  is_u64 (next s) /\ next s <> 0 /\ is_u64 (snd (sample_rng_next s)) /\ (s <> 0 -> t <> 0 -> next s = next t -> s = t).
Proof.
  intros Hs Ht. cbv beta zeta. rewrite !next_state.
  assert (Hseed : forall z, is_u64 z -> is_u64 (if z =? 0 then 0x9e3779b97f4a7c15 else z) /\ (if z =? 0 then 0x9e3779b97f4a7c15 else z) <> 0).
  { intros z Hz. destruct (Z.eqb_spec z 0); [|done]. unfold is_u64, UINT64_MAX. lia. }
  destruct (Hseed s Hs) as [Hs' Ns]. destruct (Hseed t Ht) as [Ht' Nt]. split_and!.
  - by apply mix_u64.
  - intros E. apply Ns. apply mix_inj; [done|unfold is_u64, UINT64_MAX; lia|]. rewrite E. reflexivity.
  - apply u64_is_u64.
  - intros N1 N2 E. rewrite (proj2 (Z.eqb_neq s 0)), (proj2 (Z.eqb_neq t 0)) in E by done. by apply mix_inj.
Qed.

(** ** Examples *)

Section Examples.
#[local] Existing Instance unlimited.
#[local] Instance flat_math : MathFun := { expf := fun _ => f32_1; exp_ := fun _ => f64_of_f32 f32_1; log_ := fun x => x }.

Fixpoint put_in (cmp : sample_candidate -> sample_candidate -> Z) (c : sample_candidate) (l : list sample_candidate) : list sample_candidate :=
  match l with [] => [c] | x :: l' => if 0 <? cmp x c then c :: l else x :: put_in cmp c l' end.
#[local] Instance insertion_sort : Qsort := fun cmp l => foldr (put_in cmp) [] l.

Lemma put_in_perm cmp (c : sample_candidate) (l : list sample_candidate) : Permutation (put_in cmp c l) (c :: l).
Proof. induction l as [|x l IH]; cbn [put_in]; [done|]. destruct (_ <? _); [done|]. rewrite IH. by constructor. Qed.

#[local] Instance insertion_sort_perm : QsortLaw.
Proof. intros cmp l. unfold qsort, insertion_sort. induction l as [|c l IH]; cbn [foldr]; [done|]. by rewrite put_in_perm, IH. Qed.

Definition example_logits : list f32 := [f32_of_int 1; S754_nan; f32_of_int 3; S754_infinity true; f32_of_int 2].

Lemma sample_is_likely_witness : is_logit example_logits 0 (f32_of_int 1) /\
  exists v, sample_top_p_min_p example_logits f32_1 2 f32_1 f32_0 7 = Ok (4, 234881030) /\ is_logit example_logits 4 v /\ above v (finite_logits example_logits) < 2.
Proof.
  assert (Hi : is_logit example_logits 0 (f32_of_int 1)) by (split; [lia|reflexivity]). split; [exact Hi|].
  pose proof (sample_is_likely example_logits f32_1 f32_1 f32_0 2 7 0 (f32_of_int 1) Hi eq_refl eq_refl) as E.
  assert (Es : sample_top_p_min_p example_logits f32_1 2 f32_1 f32_0 7 = Ok (4, 234881030)) by (vm_compute; reflexivity).
  rewrite Es in E. destruct E as (v & Hv & _ & Hl). exists v. split; [exact Es|]. split; [exact Hv|exact (proj2 (Hl eq_refl) ltac:(lia))].
Defined.

(** Two equal logits, the first of which comes first, and one place. *)
Lemma top_logprobs_are_candidates_witness : 0 < 1 /\
  exists sorted, Permutation sorted (finite_logits [f32_1; f32_1]) /\ StronglySorted before sorted /\ sorted = [(0, f32_1); (1, f32_1)] /\
    top_candidates [f32_1; f32_1] 1 = [(0, f32_1)] /\
    map (fun o => score_id o) (snd (top_logprobs [f32_1; f32_1] 1)) = [0] /\
    map (fun o => score_id o) (snd (top_logprobs example_logits 4)) = [2; 4; 0; -1].
Proof.
  split; [lia|]. destruct (top_logprobs_are_candidates [f32_1; f32_1] 1 ltac:(lia)) as (sorted & Hp & Hs & _ & Hc & _). exists sorted.
  split; [exact Hp|]. split; [exact Hs|]. split; [|split; [vm_compute; reflexivity|split; vm_compute; reflexivity]].
  assert (Ef : finite_logits [f32_1; f32_1] = [(0, f32_1); (1, f32_1)]) by (vm_compute; reflexivity). rewrite Ef in Hp.
  assert (Ec : top_candidates [f32_1; f32_1] 1 = [(0, f32_1)]) by (vm_compute; reflexivity). rewrite Ec in Hc.
  change (Z.to_nat (Z.min 1 (Z.min 1024 (Z.of_nat (length [f32_1; f32_1]))))) with 1%nat in Hc.
  destruct sorted as [|x l]; [discriminate|]. cbn [take] in Hc. injection Hc as Hc. subst x.
  apply Permutation_cons_inv in Hp. symmetry in Hp. apply Permutation_length_1_inv in Hp. by subst l.
Defined.

Lemma sample_rng_permutes_witness : is_u64 1 /\ is_u64 2 /\ fst (sample_rng_next 1) <> 0 /\ (fst (sample_rng_next 1) = fst (sample_rng_next 2) -> 1 = 2).
Proof.
  assert (H1 : is_u64 1) by (unfold is_u64, UINT64_MAX; lia). assert (H2 : is_u64 2) by (unfold is_u64, UINT64_MAX; lia).
  destruct (sample_rng_permutes 1 2 H1 H2) as (_ & H3 & _ & H4). split; [exact H1|]. split; [exact H2|]. split; [exact H3|].
  intros E. apply H4; [discriminate|discriminate|exact E].
Defined.
End Examples.
